(* ===== verification/_CoqProject ===== *)
-Q . S2P
Prelude.v
Page.v
CList.v
Lib.v
Alloc.v
RadixTree.v
Pipe.v
Buddy.v
Pmem.v
Kmalloc.v
Frames.v
Vm.v
Paging.v
Vpmap.v
Bdev.v
Jbd.v
Bufs.v
Sfs.v
SfsFile.v
SfsDir.v
Fs.v
Mount.v
Shmms.v
Sched.v
Console.v
Pgfault.v
Exec.v
Proc.v
ProcOps.v
Syscall.v
Trap.v
Ide.v
Mkfs.v
Malloc.v
Stdio.v
Boot.v
