(* ===== verification/Prelude.v ===== *)
(** * Verification of the OSV kernel with named shared memory

    The program is a small teaching kernel for x86_64, written in C: memory
    management (kernel/mm, arch/x86_64/kernel/mm), processes and threads
    (kernel/proc.c, thread.c, sched.c, synch.c), pipes (kernel/pipe.c), a
    journalled file system (kernel/fs, kernel/bdev.c), and named memory regions
    that several processes map (kernel/fs/shmms.c); around it a small user
    library (lib), a tool that makes file system images (tools/mkfs.c) and the
    boot code.

    ** How the code is modelled

    A C function is a function of a kernel computation [M S A] (below): it runs
    on the state [S] of its component and returns a value, or halts with
    [Panic] (a failed [kassert]), [Fault] (an access to memory that is not
    there), [Block] (it sleeps or spins) or [Fuel] (the model's loop bound).
    Every theorem that says an operation returns shows [Ret]; where a loop has
    fuel, the lemmas show that [Fuel] is not reached.  Structures are records,
    heaps of structures are finite maps from addresses to records, pointers are
    addresses and NULL is 0.  Machine integers are [Z] with their wrap-around
    ([wrap], [swrap]) written where the code computes in that width.

    A lock that is held across a whole operation makes the operation one step
    of the model; where an operation releases its lock and takes it again, it
    is split there, and the theorems quantify over the interleavings of the
    pieces (Pipe.v, Shmms.v).

    ** The files

    Shared:

    - Prelude.v: machine integers, the monad of kernel computations, error
      codes, tactics and shared lemmas.
    - Page.v: page arithmetic of include/kernel/vm.h and arch/mmu.h.
    - CList.v: intrusive lists (kernel/list.c) on a heap of nodes; the
      theorems relate each operation to the sequence the list represents.
    - Lib.v: lib/bits.c and lib/string.c.
    - Alloc.v: the interfaces of the allocators and of the pointer map, with
      small instances for concrete runs.
    - RadixTree.v: kernel/radix_tree.c, over any [ObjAlloc]; invariant of the
      tree, functional behaviour of lookup, insert and remove.

    Memory:

    - Buddy.v: the block structure of a buddy allocator as a mathematical
      object, with the moves that keep it.
    - Pmem.v: kernel/mm/pmem.c, the boot bitmap and the buddy allocator; the
      buddy allocator refines the block structure of Buddy.v.
    - Kmalloc.v: kernel/mm/kmalloc.c, slabs of objects and the general
      allocator above them.
    - Frames.v: the buddy allocator of Pmem.v as an implementation of
      [FrameAlloc].
    - Vm.v: the regions of an address space (kernel/mm/vm.c); address spaces
      stay sorted and disjoint.
    - Vpmap.v: the four-level page tables of arch/x86_64/kernel/mm/vpmap.c.
    - Paging.v: what page faults and the loader use of page tables and frames.
    - Shmms.v: named shared memory (kernel/fs/shmms.c) over Vm.v, with
      as_copy_as and as_destroy of vm.c; reference counts are exact along all
      interleavings of the critical sections.
    - Pgfault.v: kernel/pgfault.c with the page cache of memory stores: user
      memory as a whole, copy-on-write and shared pages.

    Storage:

    - Bdev.v: the block cache of kernel/bdev.c on a device that is a parameter:
      headers, partial and full blocks, reading, writing, eviction.
    - Ide.v: the disk driver (kernel/drivers/ide.c): queue, commands,
      interrupts; it implements the device that Bdev.v assumes.
    - Jbd.v: kernel/fs/jbd.c, the journal and its commit.
    - Bufs.v: what the file system sees of the block cache, contents and locks
      by block number; Bdev.v refines it.
    - Sfs.v: the operations of kernel/fs/sfs/sfs.c on that view: bitmaps,
      inodes, data blocks, directories; the bitmap search is the linear one.
    - SfsFile.v: reading and writing of file data (read_data, write_data,
      get_data_block): the bytes of a file, which ones an operation changes,
      and that other files keep theirs.
    - SfsDir.v: directories as sequences of entries; search_dir, free_dirent
      and is_dir_empty against reference searches.
    - Fs.v: kernel/fs/fs.c with the operations of sfs.c that call it back:
      inode cache, paths, links, open files, the cleanup thread.  The cache of
      inodes is exact, and references are counted.
    - Mount.v: the superblocks of fs.c and sfs.c: types of file systems, the
      table of what is mounted, building and freeing a superblock.
    - Mkfs.v: tools/mkfs.c; the kernel finds and reads what it writes.

    Processes, threads and system calls:

    - Sched.v: kernel/synch.c, sched.c, thread.c and timer.c on several
      processors: locks, sleeping, the ready queue, switching.
    - Pipe.v: kernel/pipe.c and the operations of kernel/synch.c it uses;
      byte-stream refinement along all interleavings, progress, end of file.
    - Exec.v: the loader and the first user stack (kernel/proc.c).
    - Proc.v, ProcOps.v: kernel/proc.c: process table, children, fork, wait and
      exit, and what a process owns.
    - Syscall.v: kernel/syscall.c: every handler with its checks.
    - Trap.v: kernel/trap.c, the dispatch of traps and the timer; in its Module
      [Ioapic] the interrupt controller (arch/x86_64/kernel/ioapic.c).
    - Console.v: kernel/console.c and the drivers of keyboard, serial line and
      screen.

    Around the kernel:

    - Malloc.v, Stdio.v: the allocator and the input and output of the user
      library (lib/malloc.c, lib/stdio.c).
    - Boot.v: the tables of the machine (Module [Mp], arch/x86_64/kernel/mp.c),
      the local interrupt controllers and the start of the other processors
      (Module [Lapic]), and the boot loader (Module [Bootmain]).

    ** Interfaces

    [ObjAlloc], [RunAlloc], [FrameAlloc] and [PtrMap] (Alloc.v) are what the
    clients of the allocators and of the radix tree rely on; Kmalloc.v, Pmem.v,
    Frames.v and RadixTree.v implement them.  [PageMap] (Vm.v) and [Paging] (Paging.v)
    are the page tables as regions and as page faults use them.  Bufs.v is the
    block cache as the file system uses it, implemented by Bdev.v, and Ide.v
    implements the device of Bdev.v over the hardware class [AtaDisk].
    [FileRead] (Exec.v), [ProcServices] (Proc.v), [SysServices] (Syscall.v) and
    [Sbrk] (Malloc.v) are what the loader, the processes, the system calls and
    the user allocator use of the rest.  [Paging], [FileRead], [ProcServices]
    and [SysServices] are met here by small concrete systems on which the
    theorems are run; that the components of the other files together
    implement them is not proved.  For [Sbrk], Malloc.v shows what
    memregion_extend does with it.

    ** What the theorems show

    - Safety along histories: system calls with arbitrary arguments keep the
      kernel's invariant and never fail an assertion (Syscall.v), threads and
      locks (Sched.v), shared memory (Shmms.v), the journal (Jbd.v), programs
      that use malloc (Malloc.v).
    - Refinement of an abstract machine: user memory (Pgfault.v), pipes as byte
      streams (Pipe.v), the disk driver (Ide.v), the block cache (Bufs.v), the
      console (Console.v), the table of traps (Trap.v), ordered lists
      (CList.v).
    - Invariants and functional behaviour of the data structures: buddy and slab
      allocators, radix tree, address spaces, page tables, inode cache, file
      data, superblocks.
    - Equivalence with reference definitions: directory and bitmap searches,
      printf and kprintf.
    - Round trips: page tables, allocators, arguments on the stack, numbers that
      are printed, file system images, the tables of the machine.
    - Liveness and termination: a ready thread runs (Sched.v), walks along paths
      end (Fs.v).  Examples beside the theorems show where the code does not do
      what its comments promise.

    ** Bounds and fuel

    The loops over lists and bytes recurse on the data; the loops of the radix
    tree recurse on its height, which the invariant bounds.  Other loops have
    fuel, and the lemmas show that it suffices:

    - Pmem.v: [order_fuel] is one more than the number of block orders.
    - SfsFile.v: one more round than there are bytes, as every round moves at
      least one.  SfsDir.v: two more than the directory has entries, and one
      more than the largest file has entries for alloc_dirent.
    - Fs.v: sfs_delete_inode visits at most 14 addresses and 128 entries of an
      indirect block before it leaves the array (16 and 130); a path has one
      more round than bytes, as every element is shorter than the path it is
      taken from.  Only the cleanup thread, which retries without bound, has
      its fuel as an argument.
    - Console.v: 257 rounds to erase a line of at most 256 characters, and one
      more digit than the buffer of a number holds.
    - Sched.v: as many rounds of a broadcast as threads wait.  Syscall.v: the
      bytes up to the end of the region for a string.
    - Ide.v: one poll more than the disk is patient.  Mkfs.v: the bytes that
      are appended, and the blocks of the image.
    - Malloc.v: the units of the heap bound the free blocks: two more to find
      the place of a block, and twice as many and eight for malloc, which goes
      around the ring at most twice.
    - Boot.v: 256 rounds of a checksum, whose counter is a byte; the places of
      an area; the sectors of a segment.

    ** Assumptions of the theorems on files

    Bufs.v lets an allocation of the block cache fail at any call ([nomem]).
    The theorems on file data and directories are about runs in which memory
    suffices; the ones on error behaviour say what happens otherwise.  The
    journal is switched off in Sfs.v, as sfs_get_sb leaves it; Jbd.v models it
    on its own.

    ** What is not modelled

    Memory is sequentially consistent, and a critical section is atomic.  The
    file system is modelled for one thread at a time; what is in an inode and
    in a directory is modelled for one mounted device.  The entry and switch
    code in assembly, the interrupt descriptor table, the descriptors of
    segments, and the functions that only create allocators and call the
    initialization of other components (main.c, init.c, fs_init, vm_init) are
    left out, as are functions that print tables for debugging and vpmap_copy
    and pgcache_remove_page, which have no caller.  Programming the registers
    of the screen, the keyboard and the serial line at start is input and
    output.  The user programs and tests are clients of the system calls. *)

From Stdlib Require Export ZArith Lia.
From stdpp Require Export base numbers gmap list.

#[global] Open Scope Z_scope.

(** ** Machine integers *)

(** [w]-bit unsigned wrap-around. *)
Definition wrap (w x : Z) : Z := x `mod` 2 ^ w.

Abbreviation u8 := (wrap 8).
Abbreviation u32 := (wrap 32).
Abbreviation u64 := (wrap 64).

(** Reinterpretation of the low [w] bits as a two's complement number. *)
Definition swrap (w x : Z) : Z :=
  let y := wrap w x in if y <? 2 ^ (w - 1) then y else y - 2 ^ w.

Abbreviation s32 := (swrap 32).
Abbreviation s64 := (swrap 64).

Lemma wrap_range w x : 0 <= w -> 0 <= wrap w x < 2 ^ w.
Proof. intros. apply Z.mod_pos_bound. lia. Qed.

Lemma wrap_small w x : 0 <= x < 2 ^ w -> wrap w x = x.
Proof. apply Z.mod_small. Qed.

Lemma swrap_small w x : 0 <= x < 2 ^ (w - 1) -> 0 < w -> swrap w x = x.
Proof.
  intros H Hw. assert (2 ^ w = 2 * 2 ^ (w - 1)) by (rewrite <- Z.pow_succ_r by lia; f_equal; lia).
  unfold swrap. rewrite wrap_small by lia. by rewrite (proj2 (Z.ltb_lt _ _)) by lia.
Qed.

Lemma wrap_add_l w x y : wrap w (wrap w x + y) = wrap w (x + y).
Proof. apply Zplus_mod_idemp_l. Qed.

Lemma wrap_sub_wrap w x y : wrap w (wrap w x - wrap w y) = wrap w (x - y).
Proof. unfold wrap. by rewrite <- Zminus_mod. Qed.

Lemma wrap_mod w m x : (m | 2 ^ w) -> wrap w x `mod` m = x `mod` m.
Proof. apply Z.mod_mod_divide. Qed.

(** ** Kernel computations

    A kernel function runs on a state and either returns or stops.  [Panic] is
    a failed [kassert] or an explicit [panic]; [Fault] is an access to memory
    that is not there (a NULL or dangling pointer, an index out of range);
    [Block] is a [condvar_wait] whose condition does not hold, so that the
    thread sleeps; [Fuel] is a loop bound of the model that was too small, and
    theorems show that it is not reached. *)
Inductive halt := Panic | Fault | Block | Fuel.

Inductive outcome (S A : Type) :=
| Ret (a : A) (s : S)
| Halt (why : halt) (s : S).
Arguments Ret {S A} _ _.
Arguments Halt {S A} _ _.

#[export] Instance halt_eq_dec : EqDecision halt.
Proof. solve_decision. Defined.

Definition M (S A : Type) : Type := S -> outcome S A.

Definition ret {S A} (a : A) : M S A := fun s => Ret a s.
Definition stop {S A} (w : halt) : M S A := fun s => Halt w s.
Definition bind {S A B} (m : M S A) (k : A -> M S B) : M S B :=
  fun s => match m s with Ret a s' => k a s' | Halt w s' => Halt w s' end.
Definition gets {S A} (f : S -> A) : M S A := fun s => Ret (f s) s.
Definition modify {S} (f : S -> S) : M S unit := fun s => Ret tt (f s).
Definition of_option {S A} (w : halt) (o : option A) : M S A :=
  match o with Some a => ret a | None => stop w end.

Declare Scope kernel_scope.
Delimit Scope kernel_scope with K.
Notation "x <- m ;; k" := (bind m (fun x => k))
  (at level 100, m at next level, right associativity) : kernel_scope.
Notation "m ;; k" := (bind m (fun _ => k))
  (at level 100, right associativity) : kernel_scope.

(** [kassert(b)]: the kernel panics when the condition is false. *)
Definition kassert {S} (b : bool) : M S unit := if b then ret tt else stop Panic.

(** Running a computation of a component on the part of a larger state that
    holds the component ([get] and [put] select and replace that part). *)
Definition zoom {S T A} (get : S -> T) (put : T -> S -> S) (m : M T A) : M S A :=
  fun s => match m (get s) with
           | Ret a t => Ret a (put t s)
           | Halt w t => Halt w (put t s)
           end.

Lemma bind_Ret {S A B} (m : M S A) (k : A -> M S B) s a s' :
  m s = Ret a s' -> bind m k s = k a s'.
Proof. unfold bind. by intros ->. Qed.

Lemma bind_inv {S A B} (m : M S A) (k : A -> M S B) s b s'' :
  bind m k s = Ret b s'' -> exists a s', m s = Ret a s' /\ k a s' = Ret b s''.
Proof. unfold bind. destruct (m s); naive_solver. Qed.

Lemma kassert_true {S} b (s : S) : b = true -> kassert b s = Ret tt s.
Proof. by intros ->. Qed.

Lemma kassert_nz {S} (p : Z) (s : S) : p <> 0 -> kassert (negb (p =? 0)) s = Ret tt s.
Proof. intros Hp. by rewrite (proj2 (Z.eqb_neq p 0) Hp). Qed.

Lemma bind_kassert {S A} b (k : unit -> M S A) s : b = true -> bind (kassert b) k s = k tt s.
Proof. by intros ->. Qed.

Lemma bind_gets {S A B} (f : S -> A) (k : A -> M S B) s : bind (gets f) k s = k (f s) s.
Proof. done. Qed.

Lemma bind_ret {S A B} (a : A) (k : A -> M S B) s : bind (ret a) k s = k a s.
Proof. done. Qed.

Lemma bind_modify {S B} (f : S -> S) (k : unit -> M S B) s : bind (modify f) k s = k tt (f s).
Proof. done. Qed.

Lemma bind_opt {S A B} w (o : option A) (a : A) (k : A -> M S B) s : o = Some a -> bind (of_option w o) k s = k a s.
Proof. by intros ->. Qed.

(** Two sequences that agree on their first part and, where it returns, on the
    rest, agree. *)
Lemma bind_cong {S A B} (m m' : M S A) (k k' : A -> M S B) s :
  m s = m' s -> (forall a s', m s = Ret a s' -> k a s' = k' a s') ->
  bind m k s = bind m' k' s.
Proof. unfold bind. intros <- H. destruct (m s); auto. Qed.

Lemma bind_assoc {S A B C} (m : M S A) (k : A -> M S B) (f : B -> M S C) s :
  bind (bind m k) f s = bind m (fun a => bind (k a) f) s.
Proof. unfold bind. by destruct (m s). Qed.

(** Simplify one monadic step whose outcome is known by computation. *)
Ltac kred := unfold bind, ret, stop, gets, modify, kassert, of_option; simpl.

(** Invert [m s = Ret a s'] through every bind of [m]. *)
Ltac kinv H :=
  repeat match type of H with
  | bind _ _ _ = Ret _ _ =>
      let a := fresh "a" in let s := fresh "s" in let E := fresh "E" in
      apply bind_inv in H as (a & s & E & H)
  end.

(** ** Total correctness

    [wp m Q s]: from [s] the computation returns, with a result and a state in
    [Q].  The proofs about the longer kernel functions go through it step by
    step, with the specifications of the functions they call. *)
Definition wp {S A} (m : M S A) (Q : A -> S -> Prop) (s : S) : Prop :=
  match m s with Ret a s' => Q a s' | Halt _ _ => False end.

Lemma wp_returns {S A} (m : M S A) Q s : wp m Q s <-> exists a s', m s = Ret a s' /\ Q a s'.
Proof. unfold wp. destruct (m s); naive_solver. Qed.

Lemma wp_mono {S A} (m : M S A) (Q R : A -> S -> Prop) s : wp m Q s -> (forall a s', Q a s' -> R a s') -> wp m R s.
Proof. unfold wp. destruct (m s); auto. Qed.

Lemma wp_bind {S A B} (m : M S A) (k : A -> M S B) Q s : wp m (fun a => wp (k a) Q) s -> wp (bind m k) Q s.
Proof. unfold wp, bind. by destruct (m s). Qed.

(** The step over a call with a specification. *)
Lemma wp_call {S A B} (m : M S A) (k : A -> M S B) P Q s :
  wp m P s -> (forall a s', P a s' -> wp (k a) Q s') -> wp (bind m k) Q s.
Proof. intros H HQ. apply wp_bind, (wp_mono _ _ _ _ H), HQ. Qed.

Lemma wp_ret {S A} (a : A) (Q : A -> S -> Prop) s : Q a s -> wp (ret a) Q s.
Proof. done. Qed.
Lemma wp_gets {S A} (f : S -> A) (Q : A -> S -> Prop) s : Q (f s) s -> wp (gets f) Q s.
Proof. done. Qed.
Lemma wp_modify {S} (f : S -> S) (Q : unit -> S -> Prop) s : Q tt (f s) -> wp (modify f) Q s.
Proof. done. Qed.

Lemma wp_of_option {S A} w (o : option A) (a : A) (Q : A -> S -> Prop) s : o = Some a -> Q a s -> wp (of_option w o) Q s.
Proof. by intros ->. Qed.

Lemma wp_kassert {S} b (Q : unit -> S -> Prop) s : b = true -> Q tt s -> wp (kassert b) Q s.
Proof. by intros ->. Qed.

Lemma wp_zoom {S T A} (get : S -> T) (put : T -> S -> S) (m : M T A) (Q : A -> S -> Prop) s :
  wp m (fun a t => Q a (put t s)) (get s) -> wp (zoom get put m) Q s.
Proof. unfold wp, zoom. by destruct (m (get s)). Qed.

(** ** Error codes of include/lib/errcode.h *)
Definition err_t : Type := Z.
Definition ERR_OK : err_t := 0.
Definition ERR_NOMEM : err_t := -1.
Definition ERR_NORES : err_t := -2.
Definition ERR_UNALLOC : err_t := -3.
Definition ERR_EXIST : err_t := -4.
Definition ERR_NOTEXIST : err_t := -5.
Definition ERR_INCOMP : err_t := -6.
Definition ERR_FTYPE : err_t := -7.
Definition ERR_REGISTER : err_t := -8.
Definition ERR_NOTEMPTY : err_t := -9.
Definition ERR_END : err_t := -10.
Definition ERR_INIT : err_t := -11.
Definition ERR_FAULT : err_t := -12.
Definition ERR_INVAL : err_t := -13.
Definition ERR_CHILD : err_t := -14.
Definition ERR_PGFAULT_ALLOC : err_t := -15.

(** ** Numbers in memory *)

(** The bytes of a 32-bit number, the low byte first. *)
Definition le32 (x : Z) : list Z := [x `mod` 256; (x `div` 256) `mod` 256; (x `div` 65536) `mod` 256; (x `div` 16777216) `mod` 256].
Definition of_le32 (l : list Z) : Z :=
  match l with a :: b :: c :: d :: _ => a + 256 * (b + 256 * (c + 256 * d)) | _ => 0 end.

Lemma of_le32_le32 x l : 0 <= x < 2 ^ 32 -> of_le32 (le32 x ++ l) = x.
Proof.
  intros Hx. simpl. pose proof (Z.div_mod x 256 ltac:(lia)). pose proof (Z.div_mod (x `div` 256) 256 ltac:(lia)).
  pose proof (Z.div_mod (x `div` 65536) 256 ltac:(lia)). assert (x `div` 65536 = x `div` 256 `div` 256) by (by rewrite Z.div_div).
  assert (x `div` 16777216 = x `div` 65536 `div` 256) by (by rewrite Z.div_div). rewrite (Z.mod_small (x `div` 16777216)); [lia|].
  split; [apply Z.div_pos; lia|apply Z.div_lt_upper_bound; lia].
Qed.

(** Storing some bytes at an offset of a buffer. *)
Definition splice {A} (ofs : nat) (bytes buf : list A) : list A := take ofs buf ++ bytes ++ drop (ofs + length bytes) buf.

Lemma length_splice {A} ofs (bytes buf : list A) : (ofs + length bytes <= length buf)%nat -> length (splice ofs bytes buf) = length buf.
Proof. intros. unfold splice. rewrite !length_app, length_take, length_drop. lia. Qed.

Lemma splice_read {A} ofs (bytes buf : list A) : (ofs <= length buf)%nat -> drop ofs (splice ofs bytes buf) = bytes ++ drop (ofs + length bytes) buf.
Proof. intros. unfold splice. rewrite drop_app_length'; [done|]. rewrite length_take. lia. Qed.

Lemma splice_lookup_ne {A} ofs (bytes buf : list A) i : (ofs + length bytes <= length buf)%nat -> (i < ofs \/ ofs + length bytes <= i)%nat -> splice ofs bytes buf !! i = buf !! i.
Proof.
  intros Hlen [Hi|Hi]; unfold splice.
  - rewrite lookup_app_l by (rewrite length_take; lia). by rewrite lookup_take_lt by lia.
  - rewrite lookup_app_r by (rewrite length_take; lia). rewrite length_take, lookup_app_r by lia. rewrite lookup_drop. f_equal. lia.
Qed.

Lemma splice_lookup {A} ofs (bytes buf : list A) i : (ofs + length bytes <= length buf)%nat -> (i < length bytes)%nat -> splice ofs bytes buf !! (ofs + i)%nat = bytes !! i.
Proof.
  intros Hlen Hi. unfold splice. rewrite lookup_app_r by (rewrite length_take; lia). rewrite length_take. rewrite lookup_app_l by lia. f_equal. lia.
Qed.

(** ** Generic list lemmas *)

(** Decide every boolean integer comparison in sight. *)
Ltac zbool :=
  repeat match goal with
  | H : (_ =? _) = true |- _ => apply Z.eqb_eq in H
  | H : (_ =? _) = false |- _ => apply Z.eqb_neq in H
  | H : (_ <? _) = true |- _ => apply Z.ltb_lt in H
  | H : (_ <? _) = false |- _ => apply Z.ltb_ge in H
  | H : (_ <=? _) = true |- _ => apply Z.leb_le in H
  | H : (_ <=? _) = false |- _ => apply Z.leb_gt in H
  | H : (_ && _) = true |- _ => apply andb_true_iff in H as [? ?]
  | H : (_ || _) = false |- _ => apply orb_false_iff in H as [? ?]
  | H : negb _ = true |- _ => apply negb_true_iff in H
  | H : negb _ = false |- _ => apply negb_false_iff in H
  end.

(** Equality of two boolean combinations of integer comparisons. *)
Ltac bool_lia :=
  apply eq_true_iff_eq;
  rewrite ?orb_true_iff, ?andb_true_iff, ?Z.leb_le, ?Z.ltb_lt, ?Z.eqb_eq; lia.

Create HintDb kernel.

(** ** Lists of addresses without duplicates *)

Lemma filter_ne_id (l : list Z) a : a ∉ l -> filter (fun b => b <> a) l = l.
Proof.
  induction l as [|q l IH]; intros H; [done|]. apply not_elem_of_cons in H as [Hq Hl].
  rewrite filter_cons_True by done. by rewrite IH.
Qed.

Lemma perm_filter_ne (l : list Z) a : NoDup l -> a ∈ l -> l ≡ₚ a :: filter (fun b => b <> a) l.
Proof.
  intros Hnd Ha. apply NoDup_Permutation; [done| |].
  - apply NoDup_cons. split; [rewrite list_elem_of_filter; tauto|by apply NoDup_filter].
  - intros b. rewrite elem_of_cons, list_elem_of_filter. destruct (decide (b = a)) as [->|]; tauto.
Qed.
