(* ===== verification/Page.v ===== *)
(** * Page arithmetic: the helpers of include/kernel/vm.h and the kernel map of
    arch/x86_64/include/arch/mmu.h *)

From S2P Require Import Prelude.
Local Open Scope kernel_scope.

Module Page.

Definition PG_SIZE : Z := 4096.

Definition pg_round_up (addr : Z) : Z := Z.land (u64 (addr + PG_SIZE - 1)) (u64 (Z.lnot (PG_SIZE - 1))).
Definition pg_round_down (addr : Z) : Z := Z.land addr (u64 (Z.lnot (PG_SIZE - 1))).
Definition pg_ofs (addr : Z) : Z := Z.land addr (PG_SIZE - 1).
Definition pg_aligned (addr : Z) : bool := Z.land addr (PG_SIZE - 1) =? 0.

Definition KMAP_BASE : Z := 18446744071562067968. (* 0xFFFFFFFF80000000 *)
Definition DEVMEM_BASE : Z := 18446744073675997184. (* 0xFFFFFFFFFE000000 *)
Definition KMAP_V2P (v : Z) : Z := u64 (v - KMAP_BASE).
Definition KMAP_P2V (p : Z) : Z := u64 (p + KMAP_BASE).

Definition is_user_addr (kvm_base addr : Z) : bool := addr <? kvm_base.

(** [memperm_t] *)
Definition MEMPERM_R : Z := 0.
Definition MEMPERM_RW : Z := 1.
Definition MEMPERM_UR : Z := 2.
Definition MEMPERM_URW : Z := 3.
Definition is_kern_memperm (perm : Z) : bool := perm <? MEMPERM_UR.
Definition is_write_memperm (perm : Z) : bool := (perm =? MEMPERM_RW) || (perm =? MEMPERM_URW).

(** ** The masks are divisions *)

Lemma pg_ofs_mod a : pg_ofs a = a `mod` PG_SIZE.
Proof. unfold pg_ofs. change (PG_SIZE - 1) with (Z.ones 12). by rewrite Z.land_ones. Qed.

Lemma pg_aligned_spec a : pg_aligned a = true <-> (PG_SIZE | a).
Proof.
  unfold pg_aligned. change (Z.land a (PG_SIZE - 1)) with (pg_ofs a). rewrite pg_ofs_mod, Z.eqb_eq.
  apply Z.mod_divide. done.
Qed.

Lemma land_page_mask a : 0 <= a < 2 ^ 64 -> Z.land a (u64 (Z.lnot (PG_SIZE - 1))) = a - a `mod` PG_SIZE.
Proof.
  intros Ha. change PG_SIZE with (2 ^ 12).
  replace (a - a `mod` 2 ^ 12) with (2 ^ 12 * (a `div` 2 ^ 12)) by (pose proof (Z.div_mod a (2 ^ 12) ltac:(lia)); lia).
  rewrite <- Z.shiftr_div_pow2, Z.mul_comm, <- Z.shiftl_mul_pow2 by lia. apply Z.bits_inj'. intros i Hi.
  rewrite Z.land_spec, Z.shiftl_spec by lia. change (u64 (Z.lnot (2 ^ 12 - 1))) with (Z.shiftl (Z.ones 52) 12).
  rewrite Z.shiftl_spec by lia. destruct (Z.ltb_spec i 12).
  - rewrite !(Z.testbit_neg_r _ (i - 12)) by lia. by rewrite andb_false_r.
  - rewrite Z.shiftr_spec by lia. replace (i - 12 + 12) with i by lia. destruct (Z.ltb_spec i 64).
    + rewrite Z.ones_spec_low by lia. by rewrite andb_true_r.
    + rewrite Z.ones_spec_high by lia. rewrite andb_false_r. symmetry.
      rewrite <- (Z.mod_small a (2 ^ 64)) by lia. by apply Z.mod_pow2_bits_high.
Qed.

Lemma pg_round_down_spec a : 0 <= a < 2 ^ 64 -> pg_round_down a = a - a `mod` PG_SIZE.
Proof. apply land_page_mask. Qed.

(** Rounding up is the least multiple of the page size that is not below the
    address, unless the addition wraps around. *)
Lemma pg_round_up_spec a : 0 <= a <= 2 ^ 64 - PG_SIZE ->
  (PG_SIZE | pg_round_up a) /\ a <= pg_round_up a < a + PG_SIZE.
Proof.
  unfold pg_round_up, PG_SIZE. intros Ha. rewrite wrap_small by lia. rewrite land_page_mask by lia.
  unfold PG_SIZE. set (b := a + 4096 - 1). pose proof (Z.mod_pos_bound b 4096 ltac:(lia)).
  split; [|unfold b in *; lia]. exists (b `div` 4096). pose proof (Z.div_mod b 4096). lia.
Qed.

Lemma pg_round_up_aligned a : 0 <= a <= 2 ^ 64 - PG_SIZE -> (PG_SIZE | a) -> pg_round_up a = a.
Proof.
  intros Ha [z Hz]. destruct (pg_round_up_spec a Ha) as [[y Hy] H]. unfold PG_SIZE in *. lia.
Qed.

Lemma pg_round_up_least a b : 0 <= a <= 2 ^ 64 - PG_SIZE -> (PG_SIZE | b) -> a <= b -> pg_round_up a <= b.
Proof.
  intros Ha [z Hz] Hab. destruct (pg_round_up_spec a Ha) as [[y Hy] H]. unfold PG_SIZE in *. lia.
Qed.

Lemma kmap_roundtrip p : 0 <= p < 2 ^ 64 -> KMAP_V2P (KMAP_P2V p) = p.
Proof.
  intros. unfold KMAP_V2P, KMAP_P2V. unfold wrap. rewrite Zminus_mod_idemp_l.
  rewrite Z.add_simpl_r. by apply Z.mod_small.
Qed.

End Page.
