(* ===== verification/CList.v ===== *)
(** * Intrusive circular lists: kernel/list.c, include/kernel/list.h *)

From S2P Require Import Prelude.
Local Open Scope kernel_scope.

Module CList.

(** The address of a [struct list_node]; 0 is NULL.  A [List] is named by the
    address of its header node. *)
Abbreviation ptr := Z.

Record Node := mkNode { prev : ptr; next : ptr }.

(** The memory that holds list nodes; an address without a node is not
    allocated. *)
Abbreviation heap := (gmap Z Node).

Definition get_prev (p : ptr) : M heap ptr :=
  fun h => match h !! p with Some n => Ret (prev n) h | None => Halt Fault h end.
Definition get_next (p : ptr) : M heap ptr :=
  fun h => match h !! p with Some n => Ret (next n) h | None => Halt Fault h end.
Definition set_prev (p v : ptr) : M heap unit :=
  fun h => match h !! p with
           | Some n => Ret tt (<[p := mkNode v (next n)]> h)
           | None => Halt Fault h
           end.
Definition set_next (p v : ptr) : M heap unit :=
  fun h => match h !! p with
           | Some n => Ret tt (<[p := mkNode (prev n) v]> h)
           | None => Halt Fault h
           end.

(** ** Operations *)

Definition list_init (list : ptr) : M heap unit :=
  kassert (negb (list =? 0)) ;;
  set_prev list list ;;
  set_next list list.

Definition list_empty (list : ptr) : M heap bool :=
  kassert (negb (list =? 0)) ;;
  p <- get_prev list ;;
  n <- get_next list ;;
  ret ((p =? list) && (n =? list)).

Definition list_append (list node : ptr) : M heap unit :=
  kassert (negb (list =? 0)) ;;
  e <- list_empty list ;;
  (if e : bool then set_next list node
   else t <- get_prev list ;; set_next t node) ;;
  t <- get_prev list ;;
  set_prev node t ;;
  set_next node list ;;
  set_prev list node.

Definition list_begin (list : ptr) : M heap ptr :=
  kassert (negb (list =? 0)) ;; get_next list.

Definition list_end (list : ptr) : M heap ptr :=
  kassert (negb (list =? 0)) ;; ret list.

Definition list_next (n : ptr) : M heap ptr :=
  kassert (negb (n =? 0)) ;; get_next n.

Definition list_prev (n : ptr) : M heap ptr :=
  kassert (negb (n =? 0)) ;; get_prev n.

Definition list_remove (node : ptr) : M heap ptr :=
  kassert (negb (node =? 0)) ;;
  p <- get_prev node ;;
  n <- get_next node ;;
  set_next p n ;;
  n <- get_next node ;;
  p <- get_prev node ;;
  set_prev n p ;;
  get_next node.

(** The loop of [list_append_ordered] from node [n] on.  The comparator is a
    callback; it reads the structures that embed the two nodes and leaves the
    links alone. *)
Fixpoint append_ordered_loop (compare : ptr -> ptr -> Z) (fuel : nat)
    (list node n : ptr) : M heap unit :=
  match fuel with
  | O => stop Fuel
  | S fuel =>
      e <- list_end list ;;
      if n =? e then list_append list node
      else if compare n node >? 0 then
        p <- get_prev n ;;
        set_prev node p ;;
        set_next node n ;;
        p <- get_prev n ;;
        set_next p node ;;
        set_prev n node
      else
        n' <- list_next n ;;
        append_ordered_loop compare fuel list node n'
  end.

Definition list_append_ordered (compare : ptr -> ptr -> Z) (fuel : nat)
    (list node : ptr) : M heap unit :=
  kassert (negb (list =? 0) && negb (node =? 0)) ;;
  n <- list_begin list ;;
  append_ordered_loop compare fuel list node n.

(** [list_foreach_do]: the callback reads the node and updates [aux]. *)
Fixpoint foreach_loop {A} (op : ptr -> A -> err_t * A) (fuel : nat)
    (list node : ptr) (aux : A) : M heap (err_t * A) :=
  match fuel with
  | O => stop Fuel
  | S fuel =>
      e <- list_end list ;;
      if node =? e then ret (ERR_OK, aux)
      else
        let '(err, aux) := op node aux in
        if negb (err =? ERR_OK) then ret (err, aux)
        else node <- list_next node ;; foreach_loop op fuel list node aux
  end.

Definition list_foreach_do {A} (op : ptr -> A -> err_t * A) (fuel : nat)
    (list : ptr) (aux : A) : M heap (err_t * A) :=
  kassert (negb (list =? 0)) ;;
  node <- list_begin list ;;
  foreach_loop op fuel list node aux.

(** ** Abstract lists

    The other components keep lists of objects; they use the functions below,
    and the refinement theorems of this file show that the pointer code
    implements them on every well-formed circular list. *)

(** Insert [node] in front of the first element that compares greater. *)
Fixpoint insert_ordered {A} (gt : A -> A -> bool) (x : A) (l : list A) : list A :=
  match l with
  | [] => [x]
  | y :: l' => if gt y x then x :: l else y :: insert_ordered gt x l'
  end.

(** Visit the elements until the callback fails. *)
Fixpoint foreach {A X} (op : X -> A -> err_t * A) (l : list X) (aux : A) : err_t * A :=
  match l with
  | [] => (ERR_OK, aux)
  | x :: l' =>
      let '(err, aux) := op x aux in
      if negb (err =? ERR_OK) then (err, aux) else foreach op l' aux
  end.

(** ** Representation *)

Definition link (h : heap) (a b : ptr) : Prop :=
  next <$> h !! a = Some b /\ prev <$> h !! b = Some a.

(** The nodes [a], [xs], [b] are linked in this order, both ways. *)
Fixpoint chain (h : heap) (a : ptr) (xs : list ptr) (b : ptr) : Prop :=
  match xs with
  | [] => link h a b
  | x :: xs' => link h a x /\ chain h x xs' b
  end.

Definition is_list (h : heap) (l : ptr) (xs : list ptr) : Prop :=
  0 ∉ l :: xs /\ NoDup (l :: xs) /\ chain h l xs l.

(** ** Helper lemmas *)

Definition nx (h : heap) (p : ptr) : option ptr := next <$> h !! p.
Definition pv (h : heap) (p : ptr) : option ptr := prev <$> h !! p.

Lemma nx_is_Some h p v : nx h p = Some v -> is_Some (h !! p).
Proof. unfold nx. destruct (h !! p); naive_solver. Qed.
Lemma pv_is_Some h p v : pv h p = Some v -> is_Some (h !! p).
Proof. unfold pv. destruct (h !! p); naive_solver. Qed.

(** Two heaps that agree on both links of a node agree on the node. *)
Lemma node_ext h h' p : nx h' p = nx h p -> pv h' p = pv h p -> h' !! p = h !! p.
Proof.
  unfold nx, pv. destruct (h !! p) as [[]|], (h' !! p) as [[]|]; simpl; congruence.
Qed.

Lemma get_next_ok h p v : nx h p = Some v -> get_next p h = Ret v h.
Proof. unfold nx, get_next. destruct (h !! p); naive_solver. Qed.
Lemma get_prev_ok h p v : pv h p = Some v -> get_prev p h = Ret v h.
Proof. unfold pv, get_prev. destruct (h !! p); naive_solver. Qed.

Lemma set_next_ok h p v : is_Some (h !! p) -> exists h', set_next p v h = Ret tt h' /\
  (forall q, nx h' q = if decide (q = p) then Some v else nx h q) /\
  (forall q, pv h' q = pv h q).
Proof.
  intros [n Hn]. unfold set_next, nx, pv. rewrite Hn. eexists; split_and!; [done|..];
    intros q; rewrite ?lookup_insert; repeat case_decide; subst; try done; by rewrite Hn.
Qed.
Lemma set_prev_ok h p v : is_Some (h !! p) -> exists h', set_prev p v h = Ret tt h' /\
  (forall q, pv h' q = if decide (q = p) then Some v else pv h q) /\
  (forall q, nx h' q = nx h q).
Proof.
  intros [n Hn]. unfold set_prev, nx, pv. rewrite Hn. eexists; split_and!; [done|..];
    intros q; rewrite ?lookup_insert; repeat case_decide; subst; try done; by rewrite Hn.
Qed.

Lemma chain_app h a xs x ys b :
  chain h a (xs ++ x :: ys) b <-> chain h a xs x /\ chain h x ys b.
Proof. revert a. induction xs as [|y xs IH]; intros a; simpl; [done|]. rewrite IH. tauto. Qed.

Lemma chain_ext h h' a xs b :
  (forall p, p ∈ a :: xs -> nx h' p = nx h p) ->
  (forall p, p ∈ xs ++ [b] -> pv h' p = pv h p) ->
  chain h a xs b -> chain h' a xs b.
Proof.
  revert a. induction xs as [|x xs IH]; intros a Hn Hp; simpl; unfold link; fold (nx h a) (pv h b) (nx h' a) (pv h' b).
  - rewrite Hn, Hp by set_solver. done.
  - intros [[H1 H2] H3]. split.
    + split; [fold (nx h' a)|fold (pv h' x)]; [rewrite Hn by set_solver|rewrite Hp by set_solver]; done.
    + apply IH; [set_solver..|done].
Qed.

Lemma chain_first h a xs b : chain h a xs b -> nx h a = Some (default b (head xs)).
Proof. destruct xs; simpl; unfold link, nx; naive_solver. Qed.
Lemma chain_last h a xs b : chain h a xs b -> pv h b = Some (default a (last xs)).
Proof.
  revert a. induction xs as [|x xs IH]; intros a; simpl; [unfold link, pv; naive_solver|].
  intros [_ H]. rewrite (IH _ H). rewrite last_cons. by destruct (last xs).
Qed.
Lemma chain_alloc h a xs b p : chain h a xs b -> p ∈ a :: xs ++ [b] -> is_Some (h !! p).
Proof.
  revert a. induction xs as [|x xs IH]; intros a; simpl.
  - intros [H1 H2] [->|[->|[]%not_elem_of_nil]%elem_of_cons]%elem_of_cons;
      [by apply nx_is_Some in H1|by apply pv_is_Some in H2].
  - intros [[H1 H2] H3] [->|Hp]%elem_of_cons; [by apply nx_is_Some in H1|eauto].
Qed.

(** Symbolic execution of the link accesses. *)
Ltac lstep :=
  match goal with
  | |- context [bind (kassert ?b) _ ?h] =>
      rewrite (bind_Ret (kassert b) _ h tt h) by (apply kassert_true; zbool; try done; lia)
  | |- context [bind (get_next ?p) _ ?h] =>
      erewrite (bind_Ret (get_next p) _ h) by (apply get_next_ok; eauto)
  | |- context [bind (get_prev ?p) _ ?h] =>
      erewrite (bind_Ret (get_prev p) _ h) by (apply get_prev_ok; eauto)
  end.

Ltac lset p v h N P :=
  let h' := fresh "h" in let E := fresh "E" in
  first
    [ destruct (set_next_ok h p v) as (h' & E & N & P); [|rewrite (bind_Ret _ _ _ _ _ E)]
    | destruct (set_prev_ok h p v) as (h' & E & P & N); [|rewrite (bind_Ret _ _ _ _ _ E)] ].

(** The end of a chain is moved from [b] to [n] by changing the last next
    link. *)
Lemma chain_retarget h h' a xs b n :
  NoDup (a :: xs) -> n ∉ xs ->
  chain h a xs b ->
  (forall q, q ∈ a :: xs -> nx h' q = if decide (q = default a (last xs)) then Some n else nx h q) ->
  (forall q, q ∈ xs -> pv h' q = pv h q) ->
  pv h' n = Some (default a (last xs)) ->
  chain h' a xs n.
Proof.
  destruct xs as [|t ys _] using rev_ind; intros Hnd Hn Hc Hnx Hpv Hpn.
  - simpl. split; [|done]. specialize (Hnx a). rewrite decide_True in Hnx by done. apply Hnx. set_solver.
  - rewrite last_snoc in Hnx, Hpn. simpl in Hnx, Hpn.
    apply (chain_app h a ys t []) in Hc as [Hc _].
    apply (chain_app h' a ys t []). split.
    + apply (chain_ext h); [..|done].
      * intros p Hp. rewrite Hnx by set_solver. rewrite decide_False; [done|].
        intros ->. rewrite app_comm_cons, NoDup_app in Hnd. set_solver.
      * intros p Hp. apply Hpv. set_solver.
    + split; [|done]. specialize (Hnx t). rewrite decide_True in Hnx by done. apply Hnx. set_solver.
Qed.

(** Dually, the start of a chain is moved from [a] to [m]. *)
Lemma chain_resource h h' a xs b m :
  NoDup (b :: xs) -> m ∉ xs ->
  chain h a xs b ->
  (forall q, q ∈ b :: xs -> pv h' q = if decide (q = default b (head xs)) then Some m else pv h q) ->
  (forall q, q ∈ xs -> nx h' q = nx h q) ->
  nx h' m = Some (default b (head xs)) ->
  chain h' m xs b.
Proof.
  destruct xs as [|t ys]; intros Hnd Hm Hc Hpv Hnx Hnm.
  - split; [done|]. specialize (Hpv b). rewrite decide_True in Hpv by done. apply Hpv. set_solver.
  - simpl in *. destruct Hc as [_ Hc]. split.
    + split; [done|]. specialize (Hpv t). rewrite decide_True in Hpv by done. apply Hpv. set_solver.
    + apply (chain_ext h); [..|done].
      * intros p Hp. apply Hnx. set_solver.
      * intros p Hp. rewrite Hpv by set_solver. rewrite decide_False; [done|].
        intros ->. rewrite !NoDup_cons in Hnd. set_solver.
Qed.

Lemma is_list_nz h l xs : is_list h l xs -> negb (l =? 0) = true.
Proof. intros [H _]. apply negb_true_iff, Z.eqb_neq. set_solver. Qed.

Lemma list_empty_ok h l xs :
  is_list h l xs -> list_empty l h = Ret (bool_decide (xs = [])) h.
Proof.
  intros Hl. pose proof (is_list_nz _ _ _ Hl) as Hz. destruct Hl as (H0 & Hnd & Hc).
  pose proof (chain_first _ _ _ _ Hc). pose proof (chain_last _ _ _ _ Hc).
  unfold list_empty. rewrite (bind_Ret _ _ _ _ _ (kassert_true _ _ Hz)). do 2 lstep.
  unfold ret. f_equal. apply eq_bool_prop_intro. rewrite bool_decide_spec.
  rewrite andb_True, !Is_true_true, !Z.eqb_eq.
  destruct xs as [|x xs]; simpl; [done|]. split; [|done].
  intros [_ ->]. exfalso. rewrite NoDup_cons in Hnd. set_solver.
Qed.

Lemma list_begin_ok h l xs : is_list h l xs -> list_begin l h = Ret (default l (head xs)) h.
Proof.
  intros Hl. unfold list_begin. rewrite (bind_Ret _ _ _ _ _ (kassert_true _ _ (is_list_nz _ _ _ Hl))).
  apply get_next_ok. by apply chain_first, Hl.
Qed.

(** What "[h'] differs from [h] only at the nodes [ps]" means. *)
Definition frame (h h' : heap) (ps : list ptr) : Prop := forall q, q ∉ ps -> h' !! q = h !! q.

Lemma list_append_correct h l xs n :
  is_list h l xs -> n <> 0 -> n ∉ l :: xs -> is_Some (h !! n) ->
  exists h', list_append l n h = Ret tt h' /\ is_list h' l (xs ++ [n]) /\ frame h h' (n :: l :: xs).
Proof.
  intros Hl Hn0 Hn Halloc. pose proof (is_list_nz _ _ _ Hl) as Hz.
  pose proof (list_empty_ok _ _ _ Hl) as He. destruct Hl as (H0 & Hnd & Hc).
  pose proof (chain_last _ _ _ _ Hc) as Hlast. set (t := default l (last xs)) in *.
  assert (Ht : t ∈ l :: xs).
  { unfold t. destruct (last xs) eqn:E; simpl; [|set_solver]. apply last_Some_elem_of in E. set_solver. }
  unfold list_append. rewrite (bind_Ret _ _ _ _ _ (kassert_true _ _ Hz)), (bind_Ret _ _ _ _ _ He).
  destruct (set_next_ok h t n) as (h1 & E1 & N1 & P1); [eapply chain_alloc; [done|set_solver]|].
  rewrite (bind_Ret _ _ h tt h1); cycle 1.
  { case_bool_decide as Hnil; [by subst xs|]. by lstep. }
  rewrite (bind_Ret _ _ h1 t h1) by (apply get_prev_ok; by rewrite P1).
  assert (Hs : forall h2, (forall q, pv h2 q = pv h q) -> forall q, is_Some (h !! q) -> is_Some (h2 !! q)).
  { intros h2 Hp q [m Hm]. apply (pv_is_Some _ _ (prev m)). rewrite Hp. unfold pv. by rewrite Hm. }
  lset n t h1 N2 P2; [by apply Hs|].
  lset n l h0 N3 P3; [apply (pv_is_Some _ _ t); by rewrite P2, decide_True|].
  destruct (set_prev_ok h2 l n) as (h4 & E4 & P4 & N4).
  { apply (pv_is_Some _ _ t). rewrite P3, P2, decide_False, P1 by set_solver. done. }
  exists h4. split; [done|].
  assert (HN : forall q, nx h4 q = if decide (q = n) then Some l else if decide (q = t) then Some n else nx h q).
  { intros q. rewrite N4, N3, N2, N1. done. }
  assert (HP : forall q, pv h4 q = if decide (q = l) then Some n else if decide (q = n) then Some t else pv h q).
  { intros q. rewrite P4, P3, P2, P1. done. }
  split; [split_and!|].
  - set_solver.
  - rewrite app_comm_cons, NoDup_app. split_and!; [done|set_solver|apply NoDup_singleton].
  - apply (chain_app h4 l xs n []). rewrite !NoDup_cons in *. split.
    + eapply chain_retarget; [by apply NoDup_cons|set_solver|done|..].
      * intros q Hq. rewrite HN. rewrite decide_False by set_solver. done.
      * intros q Hq. rewrite HP, !decide_False by set_solver. done.
      * by rewrite HP, decide_False, decide_True by set_solver.
    + split; [fold (nx h4 n); by rewrite HN, decide_True|fold (pv h4 l); by rewrite HP, decide_True].
  - intros q Hq. apply node_ext; [rewrite HN|rewrite HP]; rewrite !decide_False; set_solver.
Qed.

(** The predecessor and the successor of a node that splits the list. *)
Lemma split_nodup (l : ptr) xs n ys :
  NoDup (l :: xs ++ n :: ys) ->
  NoDup (l :: xs) /\ NoDup (l :: ys) /\ n <> l /\ n ∉ xs /\ n ∉ ys /\
  l ∉ xs /\ l ∉ ys /\ (forall x, x ∈ xs -> x ∉ ys).
Proof.
  rewrite !NoDup_cons, NoDup_app, NoDup_cons. intros (H1 & H2 & H3 & H4 & H5).
  split_and!; try done; set_solver.
Qed.

Lemma default_last_in (l : ptr) xs : default l (last xs) ∈ l :: xs.
Proof. destruct (last xs) eqn:E; simpl; [apply last_Some_elem_of in E|]; set_solver. Qed.
Lemma default_head_in (l : ptr) xs : default l (head xs) ∈ l :: xs.
Proof. destruct xs; simpl; set_solver. Qed.

Lemma list_remove_correct h l xs n ys :
  is_list h l (xs ++ n :: ys) ->
  exists h', list_remove n h = Ret (default l (head ys)) h' /\
    is_list h' l (xs ++ ys) /\ frame h h' (l :: xs ++ ys).
Proof.
  intros (H0 & Hnd & Hc). apply split_nodup in Hnd as (Hx & Hy & Hnl & Hnx & Hny & Hlx & Hly & Hxy).
  apply chain_app in Hc as [Hc1 Hc2].
  pose proof (chain_last _ _ _ _ Hc1) as Hp. pose proof (chain_first _ _ _ _ Hc2) as Hn.
  pose proof (default_last_in l xs) as Hpin. pose proof (default_head_in l ys) as Hmin.
  assert (Hpy : default l (last xs) ∉ ys)
    by (apply elem_of_cons in Hpin as [->|Hpin]; [done|by apply Hxy]).
  set (p := default l (last xs)) in *. set (m := default l (head ys)) in *.
  unfold list_remove. rewrite (bind_Ret _ _ h tt h) by (apply kassert_true; set_unfold; lia).
  do 2 lstep.
  lset p m h N1 P1; [eapply chain_alloc; [exact Hc1|set_solver]|].
  assert (p <> n) by set_solver. assert (m <> n) by set_solver.
  rewrite (bind_Ret _ _ h0 m h0) by (apply get_next_ok; by rewrite N1, decide_False).
  rewrite (bind_Ret _ _ h0 p h0) by (apply get_prev_ok; by rewrite P1).
  lset m p h0 N2 P2.
  { destruct (chain_alloc _ _ _ _ m Hc2) as [k Hk]; [set_solver|].
    apply (pv_is_Some _ _ (prev k)). rewrite P1. unfold pv. by rewrite Hk. }
  exists h1.
  assert (HN : forall q, nx h1 q = if decide (q = p) then Some m else nx h q) by (intros; by rewrite N2, N1).
  assert (HP : forall q, pv h1 q = if decide (q = m) then Some p else pv h q) by (intros; by rewrite P2, P1).
  split; [apply get_next_ok; by rewrite HN, decide_False|]. split; [split_and!|].
  - set_solver.
  - rewrite !NoDup_cons in *. rewrite NoDup_app. set_solver.
  - subst m. destruct ys as [|y ys]; simpl in *.
    + rewrite app_nil_r. eapply chain_retarget; eauto.
      * intros q Hq. rewrite HP, decide_False by set_solver. done.
      * by rewrite HP, decide_True.
    + apply chain_app. split.
      * eapply chain_retarget; eauto; [set_solver|..].
        -- intros q Hq. rewrite HP, decide_False by set_solver. done.
        -- by rewrite HP, decide_True.
      * apply (chain_ext h); [..|apply Hc2].
        -- intros q Hq. rewrite HN, decide_False; [done|]. intros ->. by apply Hpy.
        -- intros q Hq. rewrite HP, decide_False; [done|]. intros ->.
           rewrite !NoDup_cons in Hy. clear -Hq Hy. set_solver.
  - intros q Hq. apply node_ext; [rewrite HN|rewrite HP]; rewrite !decide_False; set_solver.
Qed.

(** Linking [n] in front of [x], as the body of the loop of
    [list_append_ordered] does. *)
Lemma insert_before_correct h l xs x ys n :
  is_list h l (xs ++ x :: ys) -> n <> 0 -> n ∉ l :: xs ++ x :: ys -> is_Some (h !! n) ->
  exists h', (p <- get_prev x ;; set_prev n p ;; set_next n x ;;
              p <- get_prev x ;; set_next p n ;; set_prev x n) h = Ret tt h' /\
    is_list h' l (xs ++ n :: x :: ys) /\ frame h h' (n :: l :: xs ++ x :: ys).
Proof.
  intros (H0 & Hnd & Hc) Hn0 Hn Halloc. pose proof Hnd as Hnd'.
  apply split_nodup in Hnd as (Hx & Hy & Hxl & Hxx & Hxy & Hlx & Hly & Hdis).
  apply chain_app in Hc as [Hc1 Hc2]. pose proof (chain_last _ _ _ _ Hc1) as Hp.
  pose proof (default_last_in l xs) as Hpin.
  assert (Hpy : default l (last xs) ∉ ys)
    by (apply elem_of_cons in Hpin as [->|Hpin']; [done|by apply Hdis]).
  set (p := default l (last xs)) in *.
  lstep. lset n p h N1 P1; [done|].
  lset n x h0 N2 P2; [apply (pv_is_Some _ _ p); by rewrite P1, decide_True|].
  assert (Hxn : x <> n) by set_solver. assert (Hpn : p <> n) by set_solver.
  rewrite (bind_Ret _ _ h1 p h1) by (apply get_prev_ok; by rewrite P2, P1, decide_False).
  lset p n h1 N3 P3.
  { destruct (chain_alloc _ _ _ _ p Hc1) as [k Hk]; [set_solver|].
    apply (pv_is_Some _ _ (prev k)). rewrite P2, P1, decide_False by done. unfold pv. by rewrite Hk. }
  destruct (set_prev_ok h2 x n) as (h4 & E4 & P4 & N4).
  { apply (pv_is_Some _ _ p). by rewrite P3, P2, P1, decide_False. }
  exists h4. split; [done|].
  assert (HN : forall q, nx h4 q = if decide (q = p) then Some n else if decide (q = n) then Some x else nx h q)
    by (intros; by rewrite N4, N3, N2, N1).
  assert (HP : forall q, pv h4 q = if decide (q = x) then Some n else if decide (q = n) then Some p else pv h q)
    by (intros; by rewrite P4, P3, P2, P1).
  split; [split_and!|].
  - set_solver.
  - rewrite !NoDup_cons, NoDup_app, !NoDup_cons in *. set_solver.
  - apply chain_app. split; [|split].
    + eapply chain_retarget; eauto; [set_solver|..].
      * intros q Hq. rewrite HN. fold p. destruct (decide (q = p)); [done|].
        rewrite decide_False; [done|]. clear -Hq Hn. set_solver.
      * intros q Hq. rewrite HP, !decide_False; [done|..]; clear -Hq Hn Hxx; set_solver.
      * by rewrite HP, decide_False, decide_True.
    + split; [fold (nx h4 n); by rewrite HN, decide_False, decide_True|fold (pv h4 x); by rewrite HP, decide_True].
    + apply (chain_ext h); [..|done].
      * intros q Hq. rewrite HN, !decide_False; [done|..].
        -- clear -Hq Hn. set_solver.
        -- clear -Hq Hpy Hpin Hxl Hxx. set_solver.
      * intros q Hq. rewrite HP, !decide_False; [done|..]; intros ->; clear -Hq Hn Hxy Hxl; set_solver.
  - intros q Hq. apply node_ext; [rewrite HN|rewrite HP]; rewrite !decide_False; set_solver.
Qed.

Lemma append_ordered_loop_correct compare l node n rest : forall fuel xs h,
  is_list h l (xs ++ rest) -> node <> 0 -> node ∉ l :: xs ++ rest -> is_Some (h !! node) ->
  (length rest < fuel)%nat -> n = default l (head rest) ->
  exists h', append_ordered_loop compare fuel l node n h = Ret tt h' /\
    is_list h' l (xs ++ insert_ordered (fun a b => compare a b >? 0) node rest) /\
    frame h h' (node :: l :: xs ++ rest).
Proof.
  revert n. induction rest as [|x rest IH]; intros n fuel xs h Hl Hn0 Hn Hs Hf ->;
    (destruct fuel as [|fuel]; [simpl in Hf; lia|]); simpl in Hf.
  all: pose proof (is_list_nz _ _ _ Hl) as Hz; cbn [append_ordered_loop default head];
    unfold list_end; rewrite bind_assoc, (bind_Ret _ _ _ _ _ (kassert_true _ _ Hz)); unfold ret at 1, bind at 1.
  - rewrite app_nil_r in *. rewrite Z.eqb_refl. by apply list_append_correct.
  - simpl. pose proof Hl as (H0 & Hnd & Hc). pose proof (split_nodup _ _ _ _ Hnd) as (_&_&Hxl&_).
    rewrite (proj2 (Z.eqb_neq _ _) Hxl). destruct (compare x node >? 0) eqn:Ec.
    + by apply insert_before_correct.
    + assert (Hne : list_next x h = Ret (default l (head rest)) h).
      { unfold list_next. rewrite (bind_Ret _ _ h tt h) by (apply kassert_true; set_unfold; lia).
        apply get_next_ok. apply chain_app in Hc as [_ Hc]. by apply chain_first in Hc. }
      rewrite (bind_Ret _ _ _ _ _ Hne).
      rewrite cons_middle, app_assoc in Hl, Hn.
      destruct (IH _ fuel (xs ++ [x]) h Hl Hn0 Hn Hs ltac:(lia) eq_refl) as (h' & E & Hl' & Hfr).
      exists h'. rewrite <- !app_assoc in *. done.
Qed.

Lemma foreach_loop_correct {A} (op : ptr -> A -> err_t * A) h l rest : forall fuel xs aux,
  is_list h l (xs ++ rest) -> (length rest < fuel)%nat ->
  foreach_loop op fuel l (default l (head rest)) aux h = Ret (foreach op rest aux) h.
Proof.
  induction rest as [|x rest IH]; intros fuel xs aux Hl Hf;
    (destruct fuel as [|fuel]; [simpl in Hf; lia|]); simpl in Hf.
  all: pose proof (is_list_nz _ _ _ Hl) as Hz; cbn [foreach_loop default head];
    unfold list_end; rewrite bind_assoc, (bind_Ret _ _ _ _ _ (kassert_true _ _ Hz)); unfold ret at 1, bind at 1.
  - by rewrite Z.eqb_refl.
  - pose proof Hl as (H0 & Hnd & Hc). pose proof (split_nodup _ _ _ _ Hnd) as (_&_&Hxl&_).
    simpl. rewrite (proj2 (Z.eqb_neq _ _) Hxl). destruct (op x aux) as [err aux'].
    destruct (err =? ERR_OK); simpl; [|done].
    rewrite (bind_Ret _ _ h (default l (head rest)) h).
    + rewrite cons_middle, app_assoc in Hl. apply (IH fuel _ aux' Hl). lia.
    + unfold list_next. rewrite (bind_Ret _ _ h tt h) by (apply kassert_true; set_unfold; lia).
      apply get_next_ok. apply chain_app in Hc as [_ Hc]. by apply chain_first in Hc.
Qed.

Lemma insert_ordered_perm {A} (gt : A -> A -> bool) x l : insert_ordered gt x l ≡ₚ x :: l.
Proof. induction l as [|y l IH]; simpl; [done|]. destruct (gt y x); [done|]. rewrite IH. constructor. Qed.

(** ** Properties *)

Section properties.
Context (h : heap) (l : ptr) (xs : list ptr) (Hl : is_list h l xs).

(** [list_append] on a well-formed circular list returns, makes the new
    node the last element of the list, and touches no node outside of the list
    and the new one. *)
Theorem list_append_refines n :
  n <> 0 -> n ∉ l :: xs -> is_Some (h !! n) ->
  exists h', list_append l n h = Ret tt h' /\ is_list h' l (xs ++ [n]) /\ frame h h' (n :: l :: xs).
Proof. by apply list_append_correct. Qed.

(** C13. [list_append_ordered] terminates on every list (one loop iteration per
    element, plus one), and the list becomes the ordered insertion of the node:
    in front of the first element that the comparator puts after it. *)
Theorem list_append_ordered_refines compare n fuel :
  n <> 0 -> n ∉ l :: xs -> is_Some (h !! n) -> (length xs < fuel)%nat ->
  exists h', list_append_ordered compare fuel l n h = Ret tt h' /\
    is_list h' l (insert_ordered (fun a b => compare a b >? 0) n xs) /\ frame h h' (n :: l :: xs).
Proof.
  intros Hn0 Hn Hs Hf. unfold list_append_ordered.
  rewrite (bind_Ret _ _ h tt h)
    by (apply kassert_true; pose proof (is_list_nz _ _ _ Hl); zbool; lia).
  rewrite (bind_Ret _ _ _ _ _ (list_begin_ok _ _ _ Hl)).
  by apply (append_ordered_loop_correct compare l n _ xs fuel []).
Qed.

(** [list_remove] unlinks exactly its argument: the list that contained it
    at any position keeps the other elements in order, the call returns the
    element that followed (or the header), and no other node changes. *)
Theorem list_remove_refines ys n zs :
  xs = ys ++ n :: zs ->
  exists h', list_remove n h = Ret (default l (head zs)) h' /\
    is_list h' l (ys ++ zs) /\ frame h h' (l :: ys ++ zs).
Proof. intros ->. by apply list_remove_correct. Qed.

(** [list_foreach_do] visits the elements in order and stops at the first
    failing one; it does not change the list. *)
Theorem list_foreach_refines {A} (op : ptr -> A -> err_t * A) fuel aux :
  (length xs < fuel)%nat ->
  list_foreach_do op fuel l aux h = Ret (foreach op xs aux) h.
Proof.
  intros Hf. unfold list_foreach_do.
  rewrite (bind_Ret _ _ _ _ _ (kassert_true _ _ (is_list_nz _ _ _ Hl))).
  rewrite (bind_Ret _ _ _ _ _ (list_begin_ok _ _ _ Hl)).
  by apply (foreach_loop_correct op h l xs fuel []).
Qed.

End properties.

(** [list_init] makes any allocated header an empty list. *)
Theorem list_init_refines h l : l <> 0 -> is_Some (h !! l) ->
  exists h', list_init l h = Ret tt h' /\ is_list h' l [] /\ frame h h' [l].
Proof.
  intros Hl [n Hn]. unfold list_init, set_prev, set_next.
  rewrite (bind_Ret _ _ h tt h) by (apply kassert_true; lia). unfold bind. rewrite Hn, lookup_insert_eq.
  eexists; split_and!; [done|split_and!|].
  - set_solver.
  - apply NoDup_singleton.
  - simpl. unfold link. by rewrite !lookup_insert_eq.
  - intros q Hq. rewrite !lookup_insert_ne by set_solver. done.
Qed.

(** *** Witnesses: the list [200; 300] of header 100, and a loose node 400 *)
Definition ex_heap : heap :=
  {[ 100 := mkNode 300 200; 200 := mkNode 100 300; 300 := mkNode 200 100; 400 := mkNode 0 0 ]}.

Lemma ex_is_list : is_list ex_heap 100 [200; 300].
Proof.
  split_and!; [by apply (bool_decide_unpack _); vm_compute..|].
  simpl. unfold link. split_and!; by vm_compute.
Qed.

Lemma list_append_refines_witness :
  exists h', list_append 100 400 ex_heap = Ret tt h' /\
    is_list h' 100 [200; 300; 400] /\ frame ex_heap h' [400; 100; 200; 300].
Proof.
  apply (list_append_refines ex_heap 100 [200; 300] ex_is_list 400);
    [done|by apply (bool_decide_unpack _); vm_compute|by eexists; vm_compute].
Defined.

Lemma list_append_ordered_refines_witness :
  exists h', list_append_ordered (fun a b => a - b) 3 100 400 ex_heap = Ret tt h' /\
    is_list h' 100 [200; 300; 400] /\ frame ex_heap h' [400; 100; 200; 300].
Proof.
  apply (list_append_ordered_refines ex_heap 100 [200; 300] ex_is_list (fun a b => a - b) 400 3);
    [done|by apply (bool_decide_unpack _); vm_compute|by eexists; vm_compute|simpl; lia].
Defined.

Lemma list_remove_refines_witness :
  exists h', list_remove 200 ex_heap = Ret 300 h' /\ is_list h' 100 [300] /\ frame ex_heap h' [100; 300].
Proof. apply (list_remove_refines ex_heap 100 [200; 300] ex_is_list [] 200 [300]). reflexivity. Defined.

End CList.
