(* ===== verification/Lib.v ===== *)
(** * The kernel's C library: lib/bits.c and lib/string.c

    [Bits] models the state-bit helpers, [Str] the memory and string functions
    over a byte-addressed memory. *)

From S2P Require Import Prelude.
Local Open Scope kernel_scope.

Module Bits.

(** [state_t] is a 32-bit word; [1 << bit] is an [int], so [bit] is below 32
    and [1 << 31] is the negative [int] whose unsigned reading is [2^31]. *)
Definition get_state_bit (state bit : Z) : bool :=
  negb (Z.land state (u32 (Z.shiftl 1 bit)) =? 0).

Definition set_state_bit (state bit : Z) (value : bool) : Z :=
  if value then Z.lor state (u32 (Z.shiftl 1 bit))
  else Z.land state (u32 (Z.lnot (Z.shiftl 1 bit))).

Lemma u32_testbit x i : 0 <= i < 32 -> Z.testbit (u32 x) i = Z.testbit x i.
Proof. intros Hi. unfold wrap. rewrite Z.mod_pow2_bits_low; [done|lia]. Qed.

Lemma shiftl_1_testbit b i : 0 <= b -> Z.testbit (Z.shiftl 1 b) i = (i =? b).
Proof.
  intros. rewrite Z.shiftl_1_l. destruct (Z.eqb_spec i b) as [->|Hne].
  - by apply Z.pow2_bits_true.
  - apply Z.pow2_bits_false. lia.
Qed.

Lemma get_state_bit_spec state bit :
  0 <= bit < 32 -> get_state_bit state bit = Z.testbit state bit.
Proof.
  intros Hb. unfold get_state_bit. destruct (Z.eqb_spec (Z.land state (u32 (Z.shiftl 1 bit))) 0) as [H|H]; simpl.
  - assert (Z.testbit (Z.land state (u32 (Z.shiftl 1 bit))) bit = false) as Ht by (rewrite H; apply Z.bits_0).
    rewrite Z.land_spec, u32_testbit, shiftl_1_testbit, Z.eqb_refl, andb_true_r in Ht by lia. done.
  - destruct (Z.testbit state bit) eqn:E; [done|]. exfalso. apply H. apply Z.bits_inj'. intros i Hi.
    rewrite Z.land_spec, Z.bits_0. destruct (decide (i < 32)).
    + rewrite u32_testbit, shiftl_1_testbit by lia. destruct (Z.eqb_spec i bit) as [->|]; [by rewrite E|apply andb_false_r].
    + unfold wrap. rewrite Z.mod_pow2_bits_high by lia. apply andb_false_r.
Qed.

Lemma set_state_bit_spec state bit value i :
  0 <= bit < 32 -> 0 <= i < 32 ->
  Z.testbit (set_state_bit state bit value) i = if i =? bit then value else Z.testbit state i.
Proof.
  intros Hb Hi. unfold set_state_bit. destruct value.
  - rewrite Z.lor_spec, u32_testbit, shiftl_1_testbit by lia. destruct (i =? bit); [apply orb_true_r|apply orb_false_r].
  - rewrite Z.land_spec, u32_testbit, Z.lnot_spec, shiftl_1_testbit by lia.
    destruct (i =? bit); [apply andb_false_r|apply andb_true_r].
Qed.

Lemma set_state_bit_range state bit value :
  0 <= bit < 32 -> 0 <= state < 2 ^ 32 -> 0 <= set_state_bit state bit value < 2 ^ 32.
Proof.
  intros Hb Hs. unfold set_state_bit.
  assert (forall x, 0 <= x -> Z.log2 x < 32 -> 0 <= x < 2 ^ 32) as Hlog.
  { intros x Hx Hl. split; [done|]. destruct (decide (x = 0)) as [->|]; [lia|]. by apply Z.log2_lt_pow2; lia. }
  assert (forall x, 0 <= x < 2 ^ 32 -> Z.log2 x < 32) as Hlog'.
  { intros x Hx. destruct (decide (x = 0)) as [->|]; [done|]. apply Z.log2_lt_pow2; lia. }
  pose proof (wrap_range 32 (Z.shiftl 1 bit)) as H1. pose proof (wrap_range 32 (Z.lnot (Z.shiftl 1 bit))) as H2.
  destruct value.
  - apply Hlog; [apply Z.lor_nonneg; lia|]. rewrite Z.log2_lor by lia.
    pose proof (Hlog' _ Hs). specialize (Hlog' _ (H1 ltac:(lia))). lia.
  - apply Hlog; [apply Z.land_nonneg; lia|].
    pose proof (Z.log2_land state (u32 (Z.lnot (Z.shiftl 1 bit))) ltac:(lia) ltac:(lia)).
    pose proof (Hlog' _ Hs). lia.
Qed.

(** A state bit that was set is read back; every other flag of the state
    word is unchanged, and the word stays a 32-bit word. *)
Theorem state_bit_roundtrip state bit value bit' :
  0 <= bit < 32 -> 0 <= bit' < 32 -> 0 <= state < 2 ^ 32 ->
  get_state_bit (set_state_bit state bit value) bit' =
    (if bit' =? bit then value else get_state_bit state bit') /\
  0 <= set_state_bit state bit value < 2 ^ 32.
Proof.
  intros. rewrite !get_state_bit_spec, set_state_bit_spec by done.
  split; [done|by apply set_state_bit_range].
Qed.

Lemma state_bit_roundtrip_witness :
  get_state_bit (set_state_bit 5 1 true) 2 = true /\ 0 <= set_state_bit 5 1 true < 2 ^ 32.
Proof. apply (state_bit_roundtrip 5 1 true 2); lia. Defined.

End Bits.

Module Str.

(** A byte-addressed memory; bytes are 0..255.  Address arithmetic does not
    wrap: a C object does not reach past the end of the address space. *)
Abbreviation mem := (gmap Z Z).

Definition load (p : Z) : M mem Z :=
  fun m => match m !! p with Some b => Ret b m | None => Halt Fault m end.
Definition store (p v : Z) : M mem unit :=
  fun m => match m !! p with Some _ => Ret tt (<[p := u8 v]> m) | None => Halt Fault m end.

(** [char] is signed. *)
Definition schar (b : Z) : Z := swrap 8 b.

(** ** Memory functions *)

Fixpoint memset_loop (n : nat) (p c : Z) : M mem unit :=
  match n with
  | O => ret tt
  | S n => store p c ;; memset_loop n (p + 1) c
  end.

Definition memset (s c n : Z) : M mem Z :=
  memset_loop (Z.to_nat n) s c ;; ret s.

(** [while (n-- > 0) *d++ = *s++;] *)
Fixpoint copy_fwd (n : nat) (d s : Z) : M mem unit :=
  match n with
  | O => ret tt
  | S n => c <- load s ;; store d c ;; copy_fwd n (d + 1) (s + 1)
  end.

(** [while (n-- > 0) *--d = *--s;] *)
Fixpoint copy_bwd (n : nat) (d s : Z) : M mem unit :=
  match n with
  | O => ret tt
  | S n => c <- load (s - 1) ;; store (d - 1) c ;; copy_bwd n (d - 1) (s - 1)
  end.

Definition memcpy (dest src n : Z) : M mem Z :=
  copy_fwd (Z.to_nat n) dest src ;; ret dest.

Definition memmove (dest src n : Z) : M mem Z :=
  (if (src <? dest) && (src + n >? dest) then copy_bwd (Z.to_nat n) (dest + n) (src + n)
   else copy_fwd (Z.to_nat n) dest src) ;;
  ret dest.

Fixpoint memcmp_loop (n : nat) (p1 p2 : Z) : M mem Z :=
  match n with
  | O => ret 0
  | S n =>
      a <- load p1 ;; b <- load p2 ;;
      if negb (a =? b) then ret (a - b) else memcmp_loop n (p1 + 1) (p2 + 1)
  end.

Definition memcmp (s1 s2 n : Z) : M mem Z := memcmp_loop (Z.to_nat n) s1 s2.

(** ** String functions *)

Fixpoint strlen_loop (fuel : nat) (s len : Z) : M mem Z :=
  match fuel with
  | O => stop Fuel
  | S fuel => c <- load s ;; if c =? 0 then ret len else strlen_loop fuel (s + 1) (len + 1)
  end.
Definition strlen (fuel : nat) (s : Z) : M mem Z := strlen_loop fuel s 0.

Fixpoint strcpy_loop (fuel : nat) (d src : Z) : M mem unit :=
  match fuel with
  | O => stop Fuel
  | S fuel =>
      c <- load src ;; store d c ;;
      if c =? 0 then ret tt else strcpy_loop fuel (d + 1) (src + 1)
  end.
Definition strcpy (fuel : nat) (dest src : Z) : M mem Z :=
  strcpy_loop fuel dest src ;; ret dest.

(** The two loops of [strncpy]; the first returns the values of [d] and [n] it
    leaves.  Note that it does not decrement [n] for the terminator that it
    copies. *)
Fixpoint strncpy_copy (n : nat) (d src : Z) : M mem (Z * nat) :=
  match n with
  | O => ret (d, O)
  | S n' =>
      c <- load src ;; store d c ;;
      if c =? 0 then ret (d + 1, n) else strncpy_copy n' (d + 1) (src + 1)
  end.
Definition strncpy (dest src n : Z) : M mem Z :=
  dn <- strncpy_copy (Z.to_nat n) dest src ;;
  memset_loop (snd dn) (fst dn) 0 ;;
  ret dest.

Fixpoint strcmp (fuel : nat) (s1 s2 : Z) : M mem Z :=
  match fuel with
  | O => stop Fuel
  | S fuel =>
      a <- load s1 ;;
      if negb (a =? 0) then
        b <- load s2 ;;
        if a =? b then strcmp fuel (s1 + 1) (s2 + 1) else ret (schar a - schar b)
      else b <- load s2 ;; ret (schar a - schar b)
  end.

Fixpoint strncmp_loop (n : nat) (s1 s2 : Z) : M mem Z :=
  match n with
  | O => ret 0
  | S n =>
      a <- load s1 ;;
      if negb (a =? 0) then
        b <- load s2 ;;
        if a =? b then strncmp_loop n (s1 + 1) (s2 + 1) else ret (schar a - schar b)
      else b <- load s2 ;; ret (schar a - schar b)
  end.
Definition strncmp (s1 s2 n : Z) : M mem Z := strncmp_loop (Z.to_nat n) s1 s2.

(** [strchr]: 0 stands for NULL. *)
Fixpoint strchr_loop (fuel : nat) (s c : Z) : M mem Z :=
  match fuel with
  | O => stop Fuel
  | S fuel =>
      b <- load s ;;
      if b =? c then ret s else if b =? 0 then ret 0 else strchr_loop fuel (s + 1) c
  end.
Definition strchr (fuel : nat) (s c_ : Z) : M mem Z :=
  if s =? 0 then ret 0 else strchr_loop fuel s (u8 c_).

(** [strtok_r]: the three loops.  [skip_delims] returns [None] when the string
    is used up.  [F] bounds [strchr], [fuel] the walk; the results are the token (0 for NULL) and the new value of
    [*save_ptr]. *)
Fixpoint skip_delims (F fuel : nat) (s delimiters : Z) : M mem (option Z * Z) :=
  match fuel with
  | O => stop Fuel
  | S fuel =>
      c <- load s ;;
      q <- strchr F delimiters c ;;
      if negb (q =? 0) then
        if c =? 0 then ret (None, s) else skip_delims F fuel (s + 1) delimiters
      else ret (Some s, s)
  end.

Fixpoint skip_token (F fuel : nat) (s delimiters : Z) : M mem Z :=
  match fuel with
  | O => stop Fuel
  | S fuel =>
      c <- load s ;;
      q <- strchr F delimiters c ;;
      if q =? 0 then skip_token F fuel (s + 1) delimiters else ret s
  end.

Definition strtok_r (fuel : nat) (s delimiters : Z) (save_ptr : option Z) : M mem (Z * option Z) :=
  match save_ptr with
  | None => ret (0, None)
  | Some saved =>
      if delimiters =? 0 then ret (0, save_ptr)
      else
        let s := if s =? 0 then saved else s in
        r <- skip_delims fuel fuel s delimiters ;;
        match r with
        | (None, s) => ret (0, Some s)
        | (Some token, _) =>
            s <- skip_token fuel fuel token delimiters ;;
            c <- load s ;;
            if negb (c =? 0) then store s 0 ;; ret (token, Some (s + 1))
            else ret (token, Some s)
        end
  end.

(** ** Memory predicates *)

Definition mem_ok (m : mem) : Prop := forall p b, m !! p = Some b -> 0 <= b < 256.

Definition mapped (m : mem) (p n : Z) : Prop := forall q, p <= q < p + n -> is_Some (m !! q).

(** The bytes [l] are stored from [p] on. *)
Fixpoint bytes_at (m : mem) (p : Z) (l : list Z) : Prop :=
  match l with
  | [] => True
  | b :: l' => m !! p = Some b /\ bytes_at m (p + 1) l'
  end.

(** A NUL-terminated string. *)
Definition cstr (m : mem) (p : Z) (s : list Z) : Prop :=
  Forall (fun b => 0 < b < 256) s /\ bytes_at m p (s ++ [0]).

Lemma load_ok m p b : m !! p = Some b -> load p m = Ret b m.
Proof. unfold load. by intros ->. Qed.
Lemma store_ok m p v : is_Some (m !! p) -> store p v m = Ret tt (<[p := u8 v]> m).
Proof. unfold store. by intros [? ->]. Qed.
Lemma u8_id b : 0 <= b < 256 -> u8 b = b.
Proof. apply (wrap_small 8). Qed.

(** One step of a byte loop whose memory access succeeds. *)
Ltac mstep :=
  match goal with
  | |- context [bind (load ?p) _ ?m] => erewrite (bind_Ret (load p) _ m) by (apply load_ok; eauto)
  | |- context [bind (store ?p ?v) _ ?m] => rewrite (bind_Ret (store p v) _ m _ _ (store_ok m p v ltac:(eauto)))
  end.

Lemma mem_ok_insert m p b : mem_ok m -> mem_ok (<[p := u8 b]> m).
Proof.
  intros H q c. rewrite lookup_insert. case_decide; [|eauto].
  intros [= <-]. apply (wrap_range 8). lia.
Qed.
Lemma mapped_insert m p n q b : mapped m p n -> mapped (<[q := b]> m) p n.
Proof. intros H r Hr. rewrite lookup_insert. case_decide; [eauto|by apply H]. Qed.
Lemma mapped_sub m p n p' n' : mapped m p n -> p <= p' -> p' + n' <= p + n -> mapped m p' n'.
Proof. intros H H1 H2 q Hq. apply H. lia. Qed.
#[local] Hint Resolve mem_ok_insert mapped_insert : kernel.

(** The memory after [n] bytes were copied from [s] to [d]. *)
Definition copied (m m' : mem) (d s n : Z) : Prop :=
  forall q, m' !! q = if decide (d <= q < d + n) then m !! (s + (q - d)) else m !! q.

Lemma copied_mem_ok m m' d s n : mem_ok m -> copied m m' d s n -> mem_ok m'.
Proof. intros H Hc q b. rewrite Hc. case_decide; apply H. Qed.

Lemma copy_fwd_correct n : forall m d s,
  mem_ok m -> mapped m s (Z.of_nat n) -> mapped m d (Z.of_nat n) -> d <= s \/ s + Z.of_nat n <= d ->
  exists m', copy_fwd n d s m = Ret tt m' /\ copied m m' d s (Z.of_nat n).
Proof.
  induction n as [|n IH]; intros m d s Hok Hs Hd Hlap; cbn [copy_fwd].
  - exists m. split; [done|]. intros q. rewrite decide_False by lia. done.
  - destruct (Hs s ltac:(lia)) as [b Hb]. mstep.
    assert (is_Some (m !! d)) by (apply Hd; lia). mstep.
    rewrite (u8_id b) by eauto.
    destruct (IH (<[d:=b]> m) (d + 1) (s + 1)) as (m' & E & Hc).
    + rewrite <- (u8_id b) by eauto. eauto with kernel.
    + apply mapped_insert, (mapped_sub m s (Z.of_nat (S n))); [done|lia..].
    + apply mapped_insert, (mapped_sub m d (Z.of_nat (S n))); [done|lia..].
    + lia.
    + exists m'. split; [done|]. intros q. rewrite Hc, !lookup_insert. destruct (decide (q = d)) as [->|Hq].
      * rewrite decide_False, !decide_True by lia. by replace (s + (d - d)) with s by lia.
      * destruct (decide (d <= q < d + Z.of_nat (S n))).
        -- rewrite decide_True by lia. rewrite decide_False by lia. f_equal. lia.
        -- rewrite !decide_False by lia. done.
Qed.

Lemma copy_bwd_correct n : forall m d s,
  mem_ok m -> mapped m (s - Z.of_nat n) (Z.of_nat n) -> mapped m (d - Z.of_nat n) (Z.of_nat n) -> s <= d ->
  exists m', copy_bwd n d s m = Ret tt m' /\ copied m m' (d - Z.of_nat n) (s - Z.of_nat n) (Z.of_nat n).
Proof.
  induction n as [|n IH]; intros m d s Hok Hs Hd Hlap; cbn [copy_bwd].
  - exists m. split; [done|]. intros q. rewrite decide_False by lia. done.
  - destruct (Hs (s - 1) ltac:(lia)) as [b Hb]. mstep.
    assert (is_Some (m !! (d - 1))) by (apply Hd; lia). mstep.
    rewrite (u8_id b) by eauto.
    destruct (IH (<[d-1:=b]> m) (d - 1) (s - 1)) as (m' & E & Hc).
    + rewrite <- (u8_id b) by eauto. eauto with kernel.
    + apply mapped_insert, (mapped_sub m (s - Z.of_nat (S n)) (Z.of_nat (S n))); [done|lia..].
    + apply mapped_insert, (mapped_sub m (d - Z.of_nat (S n)) (Z.of_nat (S n))); [done|lia..].
    + lia.
    + exists m'. split; [done|]. intros q. rewrite Hc, !lookup_insert. destruct (decide (q = d - 1)) as [->|Hq].
      * rewrite decide_False, !decide_True by lia. rewrite <- Hb. f_equal. lia.
      * destruct (decide (d - Z.of_nat (S n) <= q < d - Z.of_nat (S n) + Z.of_nat (S n))).
        -- rewrite decide_True by lia. rewrite decide_False by lia. f_equal. lia.
        -- rewrite !decide_False by lia. done.
Qed.

Lemma bytes_at_ext m m' p l :
  (forall q, p <= q < p + Z.of_nat (length l) -> m' !! q = m !! q) -> bytes_at m p l -> bytes_at m' p l.
Proof.
  revert p. induction l as [|b l IH]; intros p H; simpl; [done|]. intros [H1 H2]. split.
  - rewrite H; [done|simpl; lia].
  - apply IH; [|done]. intros q Hq. apply H. simpl. lia.
Qed.

Lemma strlen_loop_ok m p s : forall fuel len, cstr m p s -> (length s < fuel)%nat ->
  strlen_loop fuel p len m = Ret (len + Z.of_nat (length s)) m.
Proof.
  revert p. induction s as [|b s IH]; intros p fuel len [Hb Hs] Hf; (destruct fuel as [|fuel]; [lia|]);
    cbn [strlen_loop]; simpl in Hs, Hf.
  - destruct Hs as [Hs _]. mstep. simpl. unfold ret. f_equal. lia.
  - destruct Hs as [H1 Hs]. apply Forall_cons in Hb as [Hb1 Hb]. mstep.
    rewrite (proj2 (Z.eqb_neq b 0)) by lia.
    rewrite (IH _ fuel) by (first [done|lia]). simpl. f_equal. lia.
Qed.

Lemma schar_inj a b : 0 <= a < 256 -> 0 <= b < 256 -> schar a = schar b -> a = b.
Proof.
  intros Ha Hb. unfold schar, swrap. rewrite !(wrap_small 8) by (simpl; lia).
  destruct (a <? _) eqn:Ea, (b <? _) eqn:Eb; zbool; simpl in *; lia.
Qed.

Lemma strcmp_ok m p q s t : forall fuel, cstr m p s -> cstr m q t -> (length s < fuel)%nat ->
  exists v, strcmp fuel p q m = Ret v m /\ (v = 0 <-> s = t).
Proof.
  revert p q t. induction s as [|a s IH]; intros p q t fuel [Ha Hs] [Hb Ht] Hf;
    (destruct fuel as [|fuel]; [lia|]); cbn [strcmp]; simpl in Hs, Hf.
  - destruct Hs as [Hs _]. mstep. simpl. destruct t as [|b t]; simpl in Ht; destruct Ht as [Ht _]; mstep.
    + eexists; split; [done|]. done.
    + eexists; split; [done|]. split; [|done]. intros Hz. apply Forall_cons in Hb as [Hb _].
      assert (0 = b); [|lia]. apply schar_inj; lia.
  - destruct Hs as [H1 Hs]. apply Forall_cons in Ha as [Ha1 Ha]. mstep.
    rewrite (proj2 (Z.eqb_neq a 0)) by lia. simpl. destruct t as [|b t]; simpl in Ht; destruct Ht as [H2 Ht]; mstep.
    + rewrite (proj2 (Z.eqb_neq a 0)) by lia. eexists; split; [done|]. split; [|done].
      intros Hz. assert (a = 0); [|lia]. apply schar_inj; lia.
    + apply Forall_cons in Hb as [Hb1 Hb]. destruct (Z.eqb_spec a b) as [->|Hne].
      * destruct (IH (p + 1) (q + 1) t fuel) as (v & E & Hv); [done|done|lia|].
        exists v. split; [done|]. rewrite Hv. split; congruence.
      * eexists; split; [done|]. split; [|congruence]. intros Hz. exfalso. apply Hne. apply schar_inj; lia.
Qed.

Lemma memset_loop_ok n : forall m p c, mapped m p (Z.of_nat n) ->
  exists m', memset_loop n p c m = Ret tt m' /\
    forall q, m' !! q = if decide (p <= q < p + Z.of_nat n) then Some (u8 c) else m !! q.
Proof.
  induction n as [|n IH]; intros m p c Hp; cbn [memset_loop].
  - exists m. split; [done|]. intros q. rewrite decide_False by lia. done.
  - assert (is_Some (m !! p)) by (apply Hp; lia). mstep.
    destruct (IH (<[p:=u8 c]> m) (p + 1) c) as (m' & E & Hm).
    { apply mapped_insert, (mapped_sub m p (Z.of_nat (S n))); [done|lia..]. }
    exists m'. split; [done|]. intros q. rewrite Hm, lookup_insert.
    destruct (decide (q = p)) as [->|]; [rewrite decide_False, !decide_True by lia; done|].
    destruct (decide (p <= q < p + Z.of_nat (S n))).
    + rewrite decide_True by lia. done.
    + rewrite !decide_False by lia. done.
Qed.

(** Memory after the bytes [l] were written at [p]. *)
Definition written (m m' : mem) (p : Z) (l : list Z) : Prop :=
  bytes_at m' p l /\ forall q, ~ (p <= q < p + Z.of_nat (length l)) -> m' !! q = m !! q.

Lemma written_cons m m' p b l :
  written (<[p := b]> m) m' (p + 1) l -> written m m' p (b :: l).
Proof.
  intros [Hb Ho]. split.
  - simpl. split; [|done]. rewrite Ho by lia. apply lookup_insert_eq.
  - intros q Hq. simpl in Hq. rewrite Ho by lia. rewrite lookup_insert_ne by lia. done.
Qed.

Lemma strcpy_loop_ok s : forall m d src fuel,
  mem_ok m -> cstr m src s -> mapped m d (Z.of_nat (length s) + 1) ->
  d + Z.of_nat (length s) < src \/ src + Z.of_nat (length s) < d -> (length s < fuel)%nat ->
  exists m', strcpy_loop fuel d src m = Ret tt m' /\ written m m' d (s ++ [0]).
Proof.
  induction s as [|b s IH]; intros m d src fuel Hok [Hb Hs] Hd Hlap Hf; (destruct fuel as [|fuel]; [lia|]);
    cbn [strcpy_loop]; simpl in Hs, Hf, Hd; destruct Hs as [Hs0 Hs]; mstep;
    (assert (is_Some (m !! d)) by (apply Hd; lia)); mstep.
  - simpl. eexists; split; [done|]. apply written_cons. split; [done|]. intros. done.
  - apply Forall_cons in Hb as [Hb1 Hb]. rewrite (proj2 (Z.eqb_neq b 0)) by lia. rewrite u8_id by lia.
    simpl in Hlap.
    destruct (IH (<[d:=b]> m) (d + 1) (src + 1) fuel) as (m' & E & Hw).
    + rewrite <- (u8_id b) by lia. eauto with kernel.
    + split; [done|]. eapply bytes_at_ext; [|done]. intros q Hq. rewrite length_app in Hq. simpl in Hq.
      rewrite lookup_insert_ne by lia. done.
    + apply mapped_insert, (mapped_sub m d (Z.of_nat (length (b :: s)) + 1)); [done|simpl;lia..].
    + lia.
    + lia.
    + exists m'. split; [done|]. by apply written_cons.
Qed.

(** The copying loop of [strncpy] on a string shorter than the bound. *)
Lemma strncpy_copy_short s : forall m d src n,
  mem_ok m -> cstr m src s -> mapped m d (Z.of_nat (length s) + 1) ->
  d + Z.of_nat (length s) < src \/ src + Z.of_nat (length s) < d -> (length s < n)%nat ->
  exists m', strncpy_copy n d src m = Ret (d + Z.of_nat (length s) + 1, (n - length s)%nat) m' /\
    written m m' d (s ++ [0]).
Proof.
  induction s as [|b s IH]; intros m d src n Hok [Hb Hs] Hd Hlap Hf; (destruct n as [|n]; [lia|]);
    cbn [strncpy_copy]; simpl in Hs, Hf, Hd; destruct Hs as [Hs0 Hs]; mstep;
    (assert (is_Some (m !! d)) by (apply Hd; lia)); mstep.
  - simpl. eexists; split; [unfold ret; do 2 f_equal; lia|]. apply written_cons. split; done.
  - apply Forall_cons in Hb as [Hb1 Hb]. rewrite (proj2 (Z.eqb_neq b 0)) by lia. rewrite u8_id by lia.
    simpl in Hlap.
    destruct (IH (<[d:=b]> m) (d + 1) (src + 1) n) as (m' & E & Hw).
    + rewrite <- (u8_id b) by lia. eauto with kernel.
    + split; [done|]. eapply bytes_at_ext; [|done]. intros q Hq. rewrite length_app in Hq. simpl in Hq.
      rewrite lookup_insert_ne by lia. done.
    + apply mapped_insert, (mapped_sub m d (Z.of_nat (length (b :: s)) + 1)); [done|simpl;lia..].
    + lia.
    + lia.
    + exists m'. split; [rewrite E; simpl; do 2 f_equal; lia|]. by apply written_cons.
Qed.

Lemma strchr_loop_ok m p ds c : forall fuel, 0 < p -> cstr m p ds -> 0 <= c -> (length ds < fuel)%nat ->
  exists r, strchr_loop fuel p c m = Ret r m /\ (r <> 0 <-> c = 0 \/ c ∈ ds).
Proof.
  revert p. induction ds as [|d ds IH]; intros p fuel Hp [Hd Hs] Hc Hf; (destruct fuel as [|fuel]; [lia|]);
    cbn [strchr_loop]; simpl in Hs, Hf; destruct Hs as [Hs0 Hs]; mstep.
  - destruct (Z.eqb_spec 0 c) as [<-|]; simpl; eexists; (split; [done|]).
    + split; [by left|lia].
    + split; [done|]. intros [->|H%elem_of_nil]; done.
  - apply Forall_cons in Hd as [Hd1 Hd]. destruct (Z.eqb_spec d c) as [->|].
    + eexists; split; [done|]. split; [set_solver|lia].
    + rewrite (proj2 (Z.eqb_neq d 0)) by lia.
      destruct (IH (p + 1) fuel ltac:(lia) (conj Hd Hs) Hc ltac:(lia)) as (r & E & Hr).
      exists r. split; [done|]. rewrite Hr. set_solver.
Qed.

Section tokens.
Context (m : mem) (delims : Z) (ds : list Z) (F : nat).
Context (Hp : 0 < delims) (Hds : cstr m delims ds) (HF : (length ds < F)%nat).

(** Whether a character ends a token: a delimiter or the end of the string. *)
Lemma strchr_delim c : 0 <= c < 256 ->
  exists r, strchr F delims c m = Ret r m /\ (r <> 0 <-> c = 0 \/ c ∈ ds).
Proof.
  intros Hc. unfold strchr. rewrite (proj2 (Z.eqb_neq delims 0)), u8_id by lia.
  apply strchr_loop_ok; auto; lia.
Qed.

Lemma skip_delims_ok pre rest : forall fuel p,
  cstr m p (pre ++ rest) -> Forall (fun c => c ∈ ds) pre -> (length pre < fuel)%nat ->
  (forall c, head rest = Some c -> c ∉ ds) ->
  skip_delims F fuel p delims m =
    Ret (match rest with [] => None | _ => Some (p + Z.of_nat (length pre)) end,
         p + Z.of_nat (length pre)) m.
Proof.
  induction pre as [|d pre IH]; intros fuel p [Hb Hs] Hpre Hf Hr; (destruct fuel as [|fuel]; [lia|]);
    cbn [skip_delims]; simpl in Hs, Hf.
  - destruct rest as [|c rest]; simpl in Hs; destruct Hs as [Hs0 _]; mstep.
    + destruct (strchr_delim 0 ltac:(lia)) as (r & E & Hz). rewrite (bind_Ret _ _ _ _ _ E).
      rewrite (proj2 (Z.eqb_neq r 0)) by (apply Hz; by left). simpl. unfold ret. do 2 f_equal. lia.
    + apply Forall_cons in Hb as [Hc _]. destruct (strchr_delim c ltac:(lia)) as (r & E & Hz).
      rewrite (bind_Ret _ _ _ _ _ E). destruct (Z.eqb_spec r 0) as [->|Hne]; simpl.
      * unfold ret. by rewrite Z.add_0_r.
      * apply Hz in Hne as [->|Hin]; [lia|]. by apply (Hr c) in Hin.
  - destruct Hs as [Hs0 Hs]. apply Forall_cons in Hb as [Hc Hb]. apply Forall_cons in Hpre as [Hd Hpre]. mstep.
    destruct (strchr_delim d ltac:(lia)) as (r & E & Hz). rewrite (bind_Ret _ _ _ _ _ E).
    rewrite (proj2 (Z.eqb_neq r 0)) by (apply Hz; by right). simpl.
    rewrite (proj2 (Z.eqb_neq d 0)) by lia. rewrite (IH fuel (p + 1)) by (first [done|lia]).
    cbn [length]. by replace (p + 1 + Z.of_nat (length pre)) with (p + Z.of_nat (S (length pre))) by lia.
Qed.

Lemma skip_token_ok tok rest : forall fuel p,
  cstr m p (tok ++ rest) -> Forall (fun c => c ∉ ds) tok -> (length tok < fuel)%nat ->
  (forall c, head rest = Some c -> c ∈ ds) ->
  skip_token F fuel p delims m = Ret (p + Z.of_nat (length tok)) m.
Proof.
  induction tok as [|d tok IH]; intros fuel p [Hb Hs] Htok Hf Hr; (destruct fuel as [|fuel]; [lia|]);
    cbn [skip_token]; simpl in Hs, Hf.
  - destruct rest as [|c rest]; simpl in Hs; destruct Hs as [Hs0 _]; mstep.
    + destruct (strchr_delim 0 ltac:(lia)) as (r & E & Hz). rewrite (bind_Ret _ _ _ _ _ E).
      rewrite (proj2 (Z.eqb_neq r 0)) by (apply Hz; by left). unfold ret. by rewrite Z.add_0_r.
    + apply Forall_cons in Hb as [Hc _]. destruct (strchr_delim c ltac:(lia)) as (r & E & Hz).
      rewrite (bind_Ret _ _ _ _ _ E).
      rewrite (proj2 (Z.eqb_neq r 0)) by (apply Hz; right; auto). unfold ret. by rewrite Z.add_0_r.
  - destruct Hs as [Hs0 Hs]. apply Forall_cons in Hb as [Hc Hb]. apply Forall_cons in Htok as [Hd Htok]. mstep.
    destruct (strchr_delim d ltac:(lia)) as (r & E & Hz). rewrite (bind_Ret _ _ _ _ _ E).
    destruct (Z.eqb_spec r 0) as [->|Hne].
    + rewrite (IH fuel (p + 1)) by (first [done|lia]). cbn [Z.eqb length]. f_equal. lia.
    + apply Hz in Hne as [->|Hin]; [lia|done].
Qed.
End tokens.

Lemma cstr_app_r m p s t : cstr m p (s ++ t) -> cstr m (p + Z.of_nat (length s)) t.
Proof.
  revert p. induction s as [|b s IH]; intros p [Hb Hs]; simpl in *.
  - rewrite Z.add_0_r. by split.
  - destruct Hs as [_ Hs]. apply Forall_cons in Hb as [_ Hb].
    replace (p + _) with (p + 1 + Z.of_nat (length s)) by lia. apply IH. by split.
Qed.
Lemma cstr_app_l m p s t : cstr m p (s ++ t) -> bytes_at m p s.
Proof.
  revert p. induction s as [|b s IH]; intros p [Hb Hs]; simpl in *; [done|].
  destruct Hs as [Hs0 Hs]. apply Forall_cons in Hb as [_ Hb]. split; [done|]. apply IH. by split.
Qed.
Lemma bytes_at_app m p s t : bytes_at m p s -> bytes_at m (p + Z.of_nat (length s)) t -> bytes_at m p (s ++ t).
Proof.
  revert p. induction s as [|b s IH]; intros p; simpl.
  - by rewrite Z.add_0_r.
  - intros [H1 H2] H3. split; [done|]. apply IH; [done|].
    by replace (p + 1 + Z.of_nat (length s)) with (p + Z.of_nat (S (length s))) by lia.
Qed.

(** ** Properties *)

(** C15. [memmove] is correct for any two mapped ranges, overlapping or not: the
    destination holds what the source held before the call, and every other
    byte is unchanged. *)
Theorem memmove_correct m dest src n :
  mem_ok m -> 0 <= n -> mapped m src n -> mapped m dest n ->
  exists m', memmove dest src n m = Ret dest m' /\ copied m m' dest src n.
Proof.
  intros Hok Hn Hs Hd. unfold memmove.
  assert (Hz : Z.of_nat (Z.to_nat n) = n) by lia.
  destruct ((src <? dest) && (src + n >? dest)) eqn:E.
  - destruct (copy_bwd_correct (Z.to_nat n) m (dest + n) (src + n)) as (m' & E' & Hc);
      rewrite ?Hz, ?Z.add_simpl_r in *; [done..|lia|].
    exists m'. by rewrite (bind_Ret _ _ _ _ _ E').
  - destruct (copy_fwd_correct (Z.to_nat n) m dest src) as (m' & E' & Hc);
      rewrite ?Hz in *; [done..|lia|].
    exists m'. by rewrite (bind_Ret _ _ _ _ _ E').
Qed.

Definition ex_mem : mem :=
  {[ 10 := 104; 11 := 105; 12 := 32; 13 := 111; 14 := 107; 15 := 0; 16 := 32; 17 := 0; 18 := 7; 19 := 7 ]}.

(** Case analysis over the finitely many addresses of a concrete memory. *)
Ltac mem_cases := repeat (rewrite lookup_insert; case_decide; [intros [= <-]; lia|]); rewrite lookup_singleton;
  case_decide; [intros [= <-]; lia|done].

Lemma ex_mem_ok : mem_ok ex_mem.
Proof. intros p b. unfold ex_mem. mem_cases. Qed.

Lemma ex_mapped p n : 10 <= p -> p + n <= 20 -> mapped ex_mem p n.
Proof.
  intros H1 H2 q Hq. assert (q = 10 \/ q = 11 \/ q = 12 \/ q = 13 \/ q = 14 \/ q = 15 \/ q = 16 \/ q = 17 \/ q = 18 \/ q = 19) as Hq' by lia.
  destruct_or!; subst q; eexists; by vm_compute.
Qed.

Lemma memmove_correct_witness :
  exists m', memmove 11 10 4 ex_mem = Ret 11 m' /\ copied ex_mem m' 11 10 4.
Proof. apply (memmove_correct ex_mem 11 10 4 ex_mem_ok); [lia|apply ex_mapped; lia..]. Defined.

(** [strcmp] on two strings returns, and returns 0 exactly when the strings
    are equal: the comparison that names in the shared-region table and in
    directories are looked up with. *)
Theorem strcmp_decides_equality m p q s t fuel :
  cstr m p s -> cstr m q t -> (length s < fuel)%nat ->
  exists v, strcmp fuel p q m = Ret v m /\ (v = 0 <-> s = t).
Proof. intros. by apply strcmp_ok. Qed.

Lemma ex_cstr_hi : cstr ex_mem 10 [104; 105; 32; 111; 107].
Proof. split; [repeat (constructor; [lia|]); constructor|repeat split; by vm_compute]. Qed.
Lemma ex_cstr_delims : cstr ex_mem 16 [32].
Proof. split; [repeat (constructor; [lia|]); constructor|repeat split; by vm_compute]. Qed.

Lemma strcmp_decides_equality_witness :
  exists v, strcmp 6 10 16 ex_mem = Ret v ex_mem /\ (v = 0 <-> [104; 105; 32; 111; 107] = [32]).
Proof.
  apply (strcmp_decides_equality ex_mem 10 16 _ _ 6 ex_cstr_hi ex_cstr_delims). simpl. lia.
Defined.

(** [strlen] counts the characters before the terminator. *)
Theorem strlen_correct m p s fuel : cstr m p s -> (length s < fuel)%nat ->
  strlen fuel p m = Ret (Z.of_nat (length s)) m.
Proof. intros. unfold strlen. by rewrite (strlen_loop_ok m p s). Qed.

(** [strcpy] copies the string and its terminator to a disjoint destination,
    and writes nothing else. *)
Theorem strcpy_correct m dest src s fuel :
  mem_ok m -> cstr m src s -> mapped m dest (Z.of_nat (length s) + 1) ->
  dest + Z.of_nat (length s) < src \/ src + Z.of_nat (length s) < dest -> (length s < fuel)%nat ->
  exists m', strcpy fuel dest src m = Ret dest m' /\ written m m' dest (s ++ [0]).
Proof.
  intros. destruct (strcpy_loop_ok s m dest src fuel) as (m' & E & Hw); [done..|].
  exists m'. unfold strcpy. by rewrite (bind_Ret _ _ _ _ _ E).
Qed.

(** [strncpy] writes one byte more than its bound: for a source string
    shorter than [n] it writes [n + 1] bytes, the string, its terminator and
    [n - length s] zeros of padding, because the loop that copies the
    terminator does not count it.  The byte at [dest + n] is overwritten. *)
Theorem strncpy_writes_past_bound m dest src s n :
  mem_ok m -> cstr m src s -> Z.of_nat (length s) < n -> mapped m dest (n + 1) ->
  dest + n < src \/ src + Z.of_nat (length s) < dest ->
  exists m', strncpy dest src n m = Ret dest m' /\
    written m m' dest (s ++ replicate (Z.to_nat n + 1 - length s) 0) /\ m' !! (dest + n) = Some 0.
Proof.
  intros Hok Hs Hn Hd Hlap. unfold strncpy.
  destruct (strncpy_copy_short s m dest src (Z.to_nat n)) as (m1 & E1 & Hb1 & Ho1);
    [done|done|apply (mapped_sub m dest (n + 1)); [done|lia..]|lia|lia|].
  rewrite (bind_Ret _ _ _ _ _ E1). simpl fst. simpl snd.
  rewrite length_app in Ho1. simpl in Ho1. set (k := length s) in *.
  destruct (memset_loop_ok (Z.to_nat n - k) m1 (dest + Z.of_nat k + 1) 0) as (m2 & E2 & H2).
  { intros q Hq. rewrite Ho1 by lia. apply Hd. lia. }
  rewrite (bind_Ret _ _ _ _ _ E2). exists m2.
  assert (Hz : forall q, dest + Z.of_nat k <= q <= dest + n -> m2 !! q = Some 0).
  { intros q Hq. rewrite H2. destruct (decide (q = dest + Z.of_nat k)) as [->|].
    - rewrite decide_False by lia. revert Hb1. clear. subst k. revert dest.
      induction s as [|b s IH]; intros p; simpl; [by rewrite Z.add_0_r; intros [? _]|].
      intros [_ H]. apply IH in H. by replace (p + Z.of_nat (S (length s))) with (p + 1 + Z.of_nat (length s)) by lia.
    - rewrite decide_True by lia. done. }
  split; [done|]. split; [split|apply Hz; lia].
  - apply bytes_at_app.
    + apply (bytes_at_ext m1); [|].
      * intros q Hq. rewrite H2, decide_False by lia. done.
      * revert Hb1. clear. revert dest. induction s as [|b s IH]; intros p; simpl; [done|].
        intros [? H]. split; [done|]. by apply IH.
    + assert (forall c p, dest + Z.of_nat k <= p -> p + Z.of_nat c <= dest + n + 1 -> bytes_at m2 p (replicate c 0)) as Hr.
      { induction c as [|c IH]; intros p Hp1 Hp2; simpl; [done|]. split; [apply Hz; lia|]. apply IH; lia. }
      apply Hr; lia.
  - intros q Hq. rewrite length_app, length_replicate in Hq. fold k in Hq. rewrite H2, decide_False by lia. apply Ho1. lia.
Qed.

Lemma strncpy_writes_past_bound_witness :
  exists m', strncpy 10 16 3 ex_mem = Ret 10 m' /\
    written ex_mem m' 10 ([32] ++ replicate 3 0) /\ m' !! 13 = Some 0.
Proof.
  apply (strncpy_writes_past_bound ex_mem 10 16 [32] 3 ex_mem_ok ex_cstr_delims);
    [simpl; lia|apply ex_mapped; lia|simpl; lia].
Defined.

(** One call of [strtok_r] on a string of leading delimiters [pre], a
    non-empty token [tok] and a rest that is empty or starts with a delimiter:
    it returns the address of the token, which is now a string of its own, and
    leaves in [*save_ptr] the address of what follows it, so that the next
    call continues there.  Only the delimiter after the token is written. *)
Theorem strtok_r_token m s delims saved ds pre tok rest fuel :
  mem_ok m -> 0 < delims -> 0 < s -> cstr m delims ds -> (length ds < fuel)%nat ->
  cstr m s (pre ++ tok ++ rest) -> (length (pre ++ tok) < fuel)%nat ->
  Forall (fun c => c ∈ ds) pre -> Forall (fun c => c ∉ ds) tok -> tok <> [] ->
  (forall c, head rest = Some c -> c ∈ ds) ->
  let t := s + Z.of_nat (length pre) in
  let e := t + Z.of_nat (length tok) in
  let next := if decide (rest = []) then e else e + 1 in
  exists m', strtok_r fuel s delims (Some saved) m = Ret (t, Some next) m' /\
    cstr m' t tok /\ cstr m' next (tail rest) /\ (forall q, q <> e -> m' !! q = m !! q).
Proof.
  intros Hok Hdel Hs0 Hds HF Hs Hf Hpre Htok Hne Hrest t e next.
  rewrite length_app in Hf. unfold strtok_r.
  rewrite (proj2 (Z.eqb_neq delims 0)), (proj2 (Z.eqb_neq s 0)) by lia.
  destruct tok as [|c tok]; [done|].
  rewrite (bind_Ret _ _ _ _ _ (skip_delims_ok m delims ds fuel Hdel Hds HF pre ((c :: tok) ++ rest) fuel s Hs Hpre
    ltac:(lia) ltac:(intros c' [= <-]; by apply Forall_cons in Htok as [? _]))).
  pose proof (cstr_app_r _ _ _ _ Hs) as Ht. fold t in Ht |- *.
  cbn [app]. pose proof (skip_token_ok m delims ds fuel Hdel Hds HF (c :: tok) rest fuel t Ht Htok ltac:(lia) Hrest) as E.
  rewrite (bind_Ret _ _ _ _ _ E). fold e.
  pose proof (cstr_app_r _ _ _ _ Ht) as He. fold e in He.
  pose proof (cstr_app_l _ _ _ _ Ht) as Hb.
  assert (Htb : Forall (fun b => 0 < b < 256) (c :: tok)) by (by destruct Ht as [[? _]%Forall_app _]).
  destruct rest as [|d rest]; destruct He as [Hd He]; simpl in He; destruct He as [He0 He]; mstep; simpl.
  - exists m. unfold next. rewrite decide_True by done. split_and!; [done|..|done].
    + split; [done|]. by apply bytes_at_app.
    + split; done.
  - apply Forall_cons in Hd as [Hd0 Hd]. rewrite (proj2 (Z.eqb_neq d 0)) by lia. simpl. mstep.
    eexists. unfold next. rewrite decide_False by done. split_and!; [done|..].
    + split; [done|]. apply bytes_at_app; [|simpl; by rewrite lookup_insert_eq].
      eapply bytes_at_ext; [|done]. intros q Hq. rewrite lookup_insert_ne; [done|]. unfold e. lia.
    + split; [done|]. eapply bytes_at_ext; [|done]. intros q Hq. rewrite lookup_insert_ne; [done|lia].
    + intros q Hq. by rewrite lookup_insert_ne.
Qed.

Lemma strtok_r_token_witness :
  exists m', strtok_r 6 10 16 (Some 0) ex_mem = Ret (10, Some 13) m' /\
    cstr m' 10 [104; 105] /\ cstr m' 13 [111; 107] /\ (forall q, q <> 12 -> m' !! q = ex_mem !! q).
Proof.
  apply (strtok_r_token ex_mem 10 16 0 [32] [] [104; 105] [32; 111; 107] 6 ex_mem_ok).
  - lia.
  - lia.
  - apply ex_cstr_delims.
  - simpl. lia.
  - apply ex_cstr_hi.
  - simpl. lia.
  - constructor.
  - by apply (bool_decide_unpack _); vm_compute.
  - done.
  - intros c [= <-]. by apply (bool_decide_unpack _); vm_compute.
Defined.

(** When only delimiters are left, [strtok_r] returns NULL and leaves
    [*save_ptr] at the end of the string. *)
Theorem strtok_r_end m s delims saved ds pre fuel :
  0 < delims -> 0 < s -> cstr m delims ds -> (length ds < fuel)%nat ->
  cstr m s pre -> (length pre < fuel)%nat -> Forall (fun c => c ∈ ds) pre ->
  strtok_r fuel s delims (Some saved) m = Ret (0, Some (s + Z.of_nat (length pre))) m.
Proof.
  intros Hdel Hs0 Hds HF Hs Hf Hpre. unfold strtok_r.
  rewrite (proj2 (Z.eqb_neq delims 0)), (proj2 (Z.eqb_neq s 0)) by lia.
  rewrite <- (app_nil_r pre) in Hs.
  by rewrite (bind_Ret _ _ _ _ _ (skip_delims_ok m delims ds fuel Hdel Hds HF pre [] fuel s Hs Hpre Hf ltac:(done))).
Qed.

End Str.
