(* ===== verification/Alloc.v ===== *)
(** * Interfaces of the memory allocators

    What a client of the slab allocator (kernel/mm/kmalloc.c) relies on, and
    what the slab allocator relies on of the page allocator (kernel/mm/pmem.c),
    as classes.  The clients are proved against the classes; Kmalloc.v shows
    that the slab allocator implements the first one over any implementation
    of the second, and that the buddy allocator implements the second one. *)

From S2P Require Import Prelude Page.
Import Page.

(** An allocator of fixed-size objects: [oalloc] is [kmem_cache_alloc] ([None]
    is a NULL result), [ofree] is [kmem_cache_free], [olive] the addresses of
    the objects that are handed out, [ook] the allocator's invariant. *)
Class ObjAlloc (A : Type) := {
  oalloc : A -> option Z * A;
  ofree : Z -> A -> A;
  olive : A -> gset Z;
  ook : A -> Prop;
  oalloc_Some a p a' : ook a -> oalloc a = (Some p, a') ->
    ook a' /\ p <> 0 /\ p ∉ olive a /\ olive a' = {[p]} ∪ olive a;
  oalloc_None a a' : ook a -> oalloc a = (None, a') -> ook a' /\ olive a' = olive a;
  ofree_live a p : ook a -> p ∈ olive a -> ook (ofree p a) /\ olive (ofree p a) = olive a ∖ {[p]};
}.

(** An allocator of runs of pages: [ralloc n] is [pmem_nalloc] of [n] pages
    ([None] is [ERR_NOMEM]), [rfree] is [pmem_nfree], [rruns] gives the
    physical address and the length of the runs that are handed out, [rend] is
    the end of physical memory.  Runs are page-aligned, disjoint and inside the
    kernel's map of physical memory. *)
Class RunAlloc (P : Type) := {
  ralloc : Z -> P -> option Z * P;
  rfree : Z -> Z -> P -> P;
  rruns : P -> gmap Z Z;
  rend : P -> Z;
  rok : P -> Prop;
  rok_run p a n : rok p -> rruns p !! a = Some n ->
    0 < n /\ 0 < a /\ (PG_SIZE | a) /\ a + n * PG_SIZE <= rend p <= DEVMEM_BASE - KMAP_BASE;
  rok_disj p a n b m : rok p -> rruns p !! a = Some n -> rruns p !! b = Some m -> a <> b ->
    a + n * PG_SIZE <= b \/ b + m * PG_SIZE <= a;
  ralloc_Some n p a p' : rok p -> 0 < n <= 1024 -> ralloc n p = (Some a, p') ->
    rok p' /\ rruns p !! a = None /\ rruns p' = <[a := n]> (rruns p);
  ralloc_None n p p' : rok p -> 0 < n <= 1024 -> ralloc n p = (None, p') -> rok p' /\ rruns p' = rruns p;
  rfree_run n p a : rok p -> rruns p !! a = Some n -> rok (rfree a n p) /\ rruns (rfree a n p) = delete a (rruns p);
}.

(** Reference-counted page frames: [falloc] is [pmem_alloc] ([None] is
    [ERR_NOMEM]), [ffree], [finc] and [fdec] are [pmem_free], [pmem_inc_refcnt]
    and [pmem_dec_refcnt], [fref] is the reference count of the frame at a
    physical address, 0 when it is not handed out. *)
Class FrameAlloc (F : Type) := {
  falloc : M F (option Z);
  ffree : Z -> M F unit;
  finc : Z -> Z -> M F unit;
  fdec : Z -> M F unit;
  fref : F -> Z -> Z;
  fok : F -> Prop;
  fok_frame f a : fok f -> 0 < fref f a -> 0 < a /\ (PG_SIZE | a) /\ a + PG_SIZE <= DEVMEM_BASE - KMAP_BASE;
  falloc_spec f : fok f ->
    (exists f', falloc f = Ret None f' /\ fok f' /\ forall b, fref f' b = fref f b) \/
    (exists a f', falloc f = Ret (Some a) f' /\ fok f' /\ fref f a = 0 /\ fref f' a = 1 /\ forall b, b <> a -> fref f' b = fref f b);
  ffree_spec f a : fok f -> 0 < fref f a ->
    exists f', ffree a f = Ret tt f' /\ fok f' /\ fref f' a = 0 /\ forall b, b <> a -> fref f' b = fref f b;
  finc_spec f a n : fok f -> 0 < fref f a -> 0 <= n -> fref f a + n < 2 ^ 31 ->
    exists f', finc a n f = Ret tt f' /\ fok f' /\ fref f' a = fref f a + n /\ forall b, b <> a -> fref f' b = fref f b;
  fdec_spec f a : fok f -> 0 < fref f a ->
    exists f', fdec a f = Ret tt f' /\ fok f' /\ fref f' a = fref f a - 1 /\ forall b, b <> a -> fref f' b = fref f b;
}.

(** Frames have their addresses in the kernel's map of physical memory. *)
Lemma p2v_bounds {F} `{!FrameAlloc F} (f : F) a : fok f -> 0 < fref f a -> KMAP_P2V a = KMAP_BASE + a /\ 0 < a < 2 ^ 51 /\ (PG_SIZE | a).
Proof.
  intros Hf Ha. destruct (fok_frame f a Hf Ha) as (H0 & Hd & Hl). unfold KMAP_P2V, DEVMEM_BASE, KMAP_BASE, PG_SIZE in *.
  split; [rewrite wrap_small; lia|]. split; [lia|done].
Qed.

(** A map from small indices to pointers, 0 for none, as the page cache and the
    inode cache keep one ([radix_tree_lookup], [radix_tree_insert] with its
    results ERR_RADIX_TREE_ALLOC and ERR_RADIX_TREE_NODE_EXIST, and
    [radix_tree_remove]). *)
Class PtrMap (T : Type) := {
  plookup : Z -> M T Z;
  pinsert : Z -> Z -> M T err_t;
  premove : Z -> M T Z;
  pget : T -> Z -> Z;
  pok : T -> Prop;
  plookup_spec t i : pok t -> 0 <= i < 2 ^ 30 -> plookup i t = Ret (pget t i) t;
  pinsert_spec t i p : pok t -> 0 <= i < 2 ^ 30 -> p <> 0 -> pget t i = 0 ->
    exists e t', pinsert i p t = Ret e t' /\ pok t' /\ (forall j, 0 <= j < 2 ^ 30 -> j <> i -> pget t' j = pget t j) /\
      ((e = 0 /\ pget t' i = p) \/ (e = 1 /\ pget t' i = 0));
  pinsert_full t i p : pok t -> 0 <= i < 2 ^ 30 -> p <> 0 -> pget t i <> 0 ->
    exists e t', pinsert i p t = Ret e t' /\ pok t' /\ e <> 0 /\ forall j, 0 <= j < 2 ^ 30 -> pget t' j = pget t j;
  premove_spec t i : pok t -> 0 <= i < 2 ^ 30 -> pget t i <> 0 ->
    exists t', premove i t = Ret (pget t i) t' /\ pok t' /\ pget t' i = 0 /\ forall j, 0 <= j < 2 ^ 30 -> j <> i -> pget t' j = pget t j;
}.

(** The smallest allocator: a budget of objects at consecutive addresses, used
    to run the models on concrete inputs. *)
Module Bump.
Record bump := mkBump { budget : nat; brk : Z; out : gset Z }.

#[global] Instance bump_alloc : ObjAlloc bump.
Proof.
  refine {|
    oalloc b := match budget b with
                | O => (None, b)
                | S k => (Some (brk b), mkBump k (brk b + 1) ({[brk b]} ∪ out b))
                end;
    ofree p b := mkBump (budget b) (brk b) (out b ∖ {[p]});
    olive := out;
    ook b := 0 < brk b /\ forall p, p ∈ out b -> p < brk b |}.
  - intros [k n o] p a' [Hn Ho] H; simpl in *. destruct k; simplify_eq/=.
    split_and!; [lia| |lia| |done]; [intros q [->%elem_of_singleton|Hq%Ho]%elem_of_union; lia|].
    intros Hp%Ho. lia.
  - intros [k n o] a' [Hn Ho] H; simpl in *. destruct k; by simplify_eq/=.
  - intros [k n o] p [Hn Ho] Hp; simpl in *. split; [|done]. split; [done|]. set_solver.
Defined.
End Bump.

(** The smallest run allocator: it cuts runs off a range of pages. *)
Module BumpRuns.
Record bruns := mkBruns { bnext : Z; blimit : Z; bmap : gmap Z Z }.

Definition bok (b : bruns) : Prop :=
  0 < bnext b /\ (PG_SIZE | bnext b) /\ bnext b <= blimit b <= DEVMEM_BASE - KMAP_BASE /\
  (forall a n, bmap b !! a = Some n -> 0 < n /\ 0 < a /\ (PG_SIZE | a) /\ a + n * PG_SIZE <= bnext b) /\
  (forall a n c m, bmap b !! a = Some n -> bmap b !! c = Some m -> a <> c -> a + n * PG_SIZE <= c \/ c + m * PG_SIZE <= a).

#[global] Instance bump_runs : RunAlloc bruns.
Proof.
  refine {|
    ralloc n b := if bnext b + n * PG_SIZE <=? blimit b
                  then (Some (bnext b), mkBruns (bnext b + n * PG_SIZE) (blimit b) (<[bnext b := n]> (bmap b)))
                  else (None, b);
    rfree a n b := mkBruns (bnext b) (blimit b) (delete a (bmap b));
    rruns := bmap;
    rend := blimit;
    rok := bok |}.
  - intros b a n (H1 & H2 & H3 & H4 & _) Ha. destruct (H4 a n Ha) as (? & ? & ? & ?). split_and!; try done; lia.
  - intros b a n c m (_ & _ & _ & _ & H5). apply H5.
  - intros n b a b' (H1 & [q Hq] & H3 & H4 & H5) Hn. destruct (Z.leb_spec (bnext b + n * PG_SIZE) (blimit b)); [|done].
    intros [= <- <-]. simpl. assert (Hnone : bmap b !! bnext b = None).
    { destruct (bmap b !! bnext b) as [m|] eqn:E; [|done]. destruct (H4 _ _ E) as (? & _ & _ & ?). unfold PG_SIZE in *. lia. }
    unfold PG_SIZE in *. split; [|done]. split; simpl; [lia|]. split; [exists (q + n); unfold PG_SIZE; lia|]. split; [lia|]. split.
    + intros a m [[<- <-]|[_ Ha]]%lookup_insert_Some; [unfold PG_SIZE; split_and!; [lia|lia|by exists q|lia]|].
      destruct (H4 a m Ha) as (? & ? & ? & ?). split_and!; try done; unfold PG_SIZE; lia.
    + intros a m c m' [[<- <-]|[Hne Ha]]%lookup_insert_Some [[<- <-]|[Hne' Hc]]%lookup_insert_Some Hac; [done|..].
      * right. destruct (H4 c m' Hc) as (? & ? & ? & ?). done.
      * left. destruct (H4 a m Ha) as (? & ? & ? & ?). done.
      * by apply (H5 a m c m').
  - intros n b b' Hok Hn. destruct (bnext b + n * PG_SIZE <=? blimit b); [done|]. by intros [= <-].
  - intros n b a (H1 & H2 & H3 & H4 & H5) Ha. split; [|done]. split; [done|]. split; [done|]. split; [done|]. simpl. split.
    + intros c m [_ Hc]%lookup_delete_Some. eauto.
    + intros c m d m' [_ Hc]%lookup_delete_Some [_ Hd]%lookup_delete_Some. eauto.
Defined.
End BumpRuns.

(** The smallest frame allocator: it cuts frames off a range of pages. *)
Module BumpFrames.
Record bframes := mkBframes { fnext : Z; flimit : Z; frc : gmap Z Z }.

Definition fcount (f : bframes) (a : Z) : Z := default 0 (frc f !! a).
Definition set_count (a n : Z) (f : bframes) : bframes := mkBframes (fnext f) (flimit f) (<[a := n]> (frc f)).
Definition frames_ok (f : bframes) : Prop :=
  0 < fnext f /\ (PG_SIZE | fnext f) /\ fnext f <= flimit f <= DEVMEM_BASE - KMAP_BASE /\
  (forall a, 0 < fcount f a -> 0 < a /\ (PG_SIZE | a) /\ a + PG_SIZE <= fnext f) /\ forall a, 0 <= fcount f a.

Lemma fcount_set a n f b : fcount (set_count a n f) b = if decide (b = a) then n else fcount f b.
Proof.
  unfold fcount, set_count. simpl. case_decide as E; [by rewrite E, lookup_insert_eq|by rewrite lookup_insert_ne by congruence].
Qed.

Lemma set_count_ok a n f : frames_ok f -> 0 < fcount f a -> 0 <= n -> frames_ok (set_count a n f).
Proof.
  intros (H1 & H2 & H3 & H4 & H5) Ha Hn. split; [done|]. split; [done|]. split; [done|].
  split; intros b; rewrite fcount_set; case_decide as E; [subst; intros _; by apply H4|apply H4|done|apply H5].
Qed.

Lemma set_count_spec a n f : frames_ok f -> 0 < fcount f a -> 0 <= n ->
  frames_ok (set_count a n f) /\ fcount (set_count a n f) a = n /\ forall b, b <> a -> fcount (set_count a n f) b = fcount f b.
Proof.
  intros H Ha Hn. split; [by apply set_count_ok|]. split; [by rewrite fcount_set, decide_True|].
  intros b Hb. by rewrite fcount_set, decide_False.
Qed.

#[global] Instance bump_frames : FrameAlloc bframes.
Proof.
  refine {|
    falloc f := if fnext f + PG_SIZE <=? flimit f
                then Ret (Some (fnext f)) (mkBframes (fnext f + PG_SIZE) (flimit f) (<[fnext f := 1]> (frc f)))
                else Ret None f;
    ffree a f := Ret tt (set_count a 0 f);
    finc a n f := if 0 <? fcount f a then Ret tt (set_count a (fcount f a + n) f) else Halt Panic f;
    fdec a f := if 0 <? fcount f a then Ret tt (set_count a (fcount f a - 1) f) else Halt Panic f;
    fref := fcount;
    fok := frames_ok |}.
  - intros f a (_ & _ & H3 & H4 & _) Ha. destruct (H4 a Ha) as (? & ? & ?). split_and!; try done. lia.
  - intros f Hok. pose proof Hok as (H1 & [q Hq] & H3 & H4 & H5).
    destruct (Z.leb_spec (fnext f + PG_SIZE) (flimit f)) as [Hle|]; [right|left; by eexists].
    do 2 eexists. split; [done|]. set (f' := mkBframes _ _ _).
    assert (Hc : forall b, fcount f' b = if decide (b = fnext f) then 1 else fcount f b) by apply (fcount_set (fnext f) 1 f).
    split; [|split_and!].
    + split; [simpl; unfold PG_SIZE in *; lia|]. split; [exists (q + 1); simpl; lia|]. split; [simpl; lia|].
      split; intros b; rewrite Hc; case_decide as E; [|intros Hb; destruct (H4 b Hb) as (? & ? & ?)|lia|apply H5].
      * subst b. intros _. split_and!; [done|by exists q|simpl; lia].
      * split_and!; [done|done|]. simpl. unfold PG_SIZE in *. lia.
    + pose proof (H5 (fnext f)). destruct (decide (0 < fcount f (fnext f))) as [Hp|]; [|lia].
      destruct (H4 _ Hp) as (_ & _ & ?). unfold PG_SIZE in *. lia.
    + by rewrite Hc, decide_True.
    + intros b Hb. by rewrite Hc, decide_False.
  - intros f a Hok Ha. eexists. split; [done|]. by apply set_count_spec.
  - intros f a n Hok Ha Hn _. rewrite (proj2 (Z.ltb_lt _ _) Ha). eexists. split; [done|]. apply set_count_spec; [done|done|lia].
  - intros f a Hok Ha. rewrite (proj2 (Z.ltb_lt _ _) Ha). eexists. split; [done|]. apply set_count_spec; [done|done|lia].
Defined.
End BumpFrames.
