(* ===== verification/RadixTree.v ===== *)
(** * Radix trees: kernel/radix_tree.c, include/kernel/radix_tree.h

    A tree of nodes with 64 slots maps an [int] index to a pointer.  The model
    keeps the nodes in a heap with their parent pointers and counts, and draws
    node memory from an object allocator. *)

From S2P Require Import Prelude Alloc.
Local Open Scope kernel_scope.

Module RadixTree.

Definition ERR_RADIX_TREE_ALLOC : err_t := 1.
Definition ERR_RADIX_TREE_NODE_EXIST : err_t := 2.
Definition RADIX_TREE_WIDTH_POWER : Z := 6.
Definition RADIX_TREE_WIDTH : Z := 64.

(** [struct radix_tree_node]; pointers are addresses, 0 is NULL. *)
Record radix_tree_node := mkRnode { count : Z; parent : Z; slots : list Z }.

(** [memset(node->slots, 0, ...)] *)
Definition empty_slots : list Z := replicate 64 0.

Section model.
Context {A : Type} `{!ObjAlloc A}.

(** [struct radix_tree_root], the nodes and the allocator they come from. *)
Record rtree := mkRtree {
  height : Z;
  root_node : Z;
  nodes : gmap Z radix_tree_node;
  allocator : A;
}.

Definition set_root (h r : Z) (t : rtree) : rtree := mkRtree h r (nodes t) (allocator t).
Definition set_nodes (ns : gmap Z radix_tree_node) (t : rtree) : rtree :=
  mkRtree (height t) (root_node t) ns (allocator t).

Definition get_node (p : Z) : M rtree radix_tree_node :=
  fun t => match nodes t !! p with Some n => Ret n t | None => Halt Fault t end.
Definition put_node (p : Z) (n : radix_tree_node) : M rtree unit :=
  modify (fun t => set_nodes (<[p := n]> (nodes t)) t).
Definition get_slot (n : radix_tree_node) (i : Z) : M rtree Z :=
  of_option Fault (slots n !! Z.to_nat i).

(** ** Operations *)

Definition radix_tree_node_create : M rtree Z :=
  fun t => match oalloc (allocator t) with
           | (None, a) => Ret 0 (mkRtree (height t) (root_node t) (nodes t) a)
           | (Some p, a) =>
               Ret p (mkRtree (height t) (root_node t)
                        (<[p := mkRnode 0 0 empty_slots]> (nodes t)) a)
           end.

(** The largest index of a tree; a shift of an [int] by 31 or more has no
    defined result. *)
Definition radix_tree_max_index : M rtree Z :=
  fun t => if height t =? 0 then Ret (-1) t
           else if RADIX_TREE_WIDTH_POWER * height t <? 31
           then Ret (Z.shiftl 1 (RADIX_TREE_WIDTH_POWER * height t) - 1) t
           else Halt Fault t.

Definition radix_tree_level_index (index level : Z) : Z :=
  Z.land (Z.shiftr index (level * RADIX_TREE_WIDTH_POWER)) (Z.shiftl 1 RADIX_TREE_WIDTH_POWER - 1).

Definition radix_tree_leaf_index (index : Z) : Z := radix_tree_level_index index 0.

Definition radix_tree_add_child (node index child : Z) (is_node : bool) : M rtree err_t :=
  kassert (negb (node =? 0)) ;;
  kassert (negb (child =? 0)) ;;
  n <- get_node node ;;
  s <- get_slot n index ;;
  if negb (s =? 0) then ret ERR_RADIX_TREE_NODE_EXIST
  else
    put_node node (mkRnode (count n + 1) (parent n) (<[Z.to_nat index := child]> (slots n))) ;;
    kassert (count n + 1 <=? RADIX_TREE_WIDTH) ;;
    (if is_node then
       c <- get_node child ;;
       put_node child (mkRnode (count c) node (slots c))
     else ret tt) ;;
    ret ERR_OK.

(** The loop of [radix_tree_find_parent], from [level] down. *)
Fixpoint find_parent_loop (level : nat) (node index : Z) (alloc : bool) : M rtree Z :=
  match level with
  | O => ret node
  | S level' =>
      if node =? 0 then ret node
      else
        let level_index := radix_tree_level_index index (Z.of_nat level) in
        n <- get_node node ;;
        child <- get_slot n level_index ;;
        if (child =? 0) && alloc then
          child <- radix_tree_node_create ;;
          if child =? 0 then ret 0
          else
            radix_tree_add_child node level_index child true ;;
            find_parent_loop level' child index alloc
        else find_parent_loop level' child index alloc
  end.

Definition radix_tree_find_parent (index : Z) (alloc : bool) : M rtree Z :=
  fun t => find_parent_loop (Z.to_nat (height t - 1)) (root_node t) index alloc t.

Definition radix_tree_add_level : M rtree err_t :=
  node <- radix_tree_node_create ;;
  if node =? 0 then ret ERR_RADIX_TREE_ALLOC
  else
    r <- gets root_node ;;
    (if negb (r =? 0) then radix_tree_add_child node 0 r true ;; ret tt else ret tt) ;;
    modify (fun t => set_root (height t + 1) node t) ;;
    ret ERR_OK.

Definition radix_tree_construct : M rtree unit := modify (set_root 0 0).

(** The nodes are not deallocated. *)
Definition radix_tree_destroy : M rtree unit := modify (set_root 0 0).

Definition radix_tree_empty : M rtree bool := gets (fun t => height t =? 0).

Definition radix_tree_lookup (index : Z) : M rtree Z :=
  m <- radix_tree_max_index ;;
  if index >? m then ret 0
  else
    node <- radix_tree_find_parent index false ;;
    if node =? 0 then ret 0
    else n <- get_node node ;; get_slot n (radix_tree_leaf_index index).

(** [while (index > radix_tree_max_index(root)) add_level]; [true] when the
    tree is high enough, [false] when a level could not be allocated. *)
Fixpoint grow_loop (fuel : nat) (index : Z) : M rtree bool :=
  match fuel with
  | O => stop Fuel
  | S fuel =>
      m <- radix_tree_max_index ;;
      if index >? m then
        e <- radix_tree_add_level ;;
        if negb (e =? ERR_OK) then ret false else grow_loop fuel index
      else ret true
  end.

(** An index below [2^30] needs at most 5 levels, so 7 iterations suffice. *)
Definition radix_tree_insert (index leaf : Z) : M rtree err_t :=
  kassert (negb (leaf =? 0)) ;;
  ok <- grow_loop 7 index ;;
  if negb ok then ret ERR_RADIX_TREE_ALLOC
  else
    node <- radix_tree_find_parent index true ;;
    if node =? 0 then ret ERR_RADIX_TREE_ALLOC
    else
      e <- radix_tree_add_child node (radix_tree_leaf_index index) leaf false ;;
      if negb (e =? ERR_OK) then ret ERR_RADIX_TREE_NODE_EXIST else ret ERR_OK.

Definition free_node (p : Z) : M rtree unit :=
  modify (fun t => mkRtree (height t) (root_node t) (delete p (nodes t)) (ofree p (allocator t))).

(** The loop of [radix_tree_remove], with [k] levels left. *)
Fixpoint remove_loop (k : nat) (level node index : Z) : M rtree unit :=
  match k with
  | O =>
      kassert (node =? 0) ;;
      modify (set_root 0 0)
  | S k =>
      let level_index := radix_tree_level_index index level in
      kassert (negb (node =? 0)) ;;
      n <- get_node node ;;
      s <- get_slot n level_index ;;
      kassert (negb (s =? 0)) ;;
      kassert (count n >? 0) ;;
      put_node node (mkRnode (count n - 1) (parent n) (<[Z.to_nat level_index := 0]> (slots n))) ;;
      if count n - 1 =? 0 then
        free_node node ;;
        remove_loop k (level + 1) (parent n) index
      else ret tt
  end.

Definition radix_tree_remove (index : Z) : M rtree Z :=
  node <- radix_tree_find_parent index false ;;
  if node =? 0 then ret 0
  else
    n <- get_node node ;;
    leaf <- get_slot n (radix_tree_leaf_index index) ;;
    if leaf =? 0 then ret 0
    else
      h <- gets height ;;
      remove_loop (Z.to_nat h) 0 node index ;;
      ret leaf.

End model.
Arguments rtree : clear implicits.

(** ** Invariant

    [loc] gives the place of every node: its level and the part of the index
    above the slots of the node.  The node for level [l] on the path of index
    [i] is the node at [(l, i / 64^(l+1))]. *)

(** The number of used slots. *)
Definition nz (l : list Z) : Z := Z.of_nat (length (filter (fun c => c <> 0) l)).

Section invariant.
Context {A : Type} `{!ObjAlloc A}.
Implicit Types t : rtree A.

Record node_ok t (loc : gmap Z (Z * Z)) (p : Z) (n : radix_tree_node) (l pre : Z) : Prop := {
  ok_slots : length (slots n) = 64%nat;
  ok_count : count n = nz (slots n);
  ok_level : 0 <= l < height t;
  ok_pre : 0 <= pre < 64 ^ (height t - 1 - l);
  ok_child : 0 < l -> forall i c, slots n !! i = Some c -> c <> 0 ->
    loc !! c = Some (l - 1, pre * 64 + Z.of_nat i);
  ok_parent : (p = root_node t /\ parent n = 0) \/
    (p <> root_node t /\ exists nq, nodes t !! parent n = Some nq /\
       loc !! parent n = Some (l + 1, pre / 64) /\ slots nq !! Z.to_nat (pre mod 64) = Some p);
}.

Record wf t (loc : gmap Z (Z * Z)) : Prop := {
  wf_height : 0 <= height t <= 5;
  wf_alloc : ook (allocator t);
  wf_live : forall p, is_Some (nodes t !! p) -> p ∈ olive (allocator t);
  wf_dom : forall p, is_Some (nodes t !! p) <-> is_Some (loc !! p);
  wf_null : nodes t !! 0 = None;
  wf_root : if height t =? 0 then root_node t = 0 /\ loc = ∅
            else loc !! root_node t = Some (height t - 1, 0);
  wf_inj : forall p q x, loc !! p = Some x -> loc !! q = Some x -> p = q;
  wf_node : forall p n l pre, nodes t !! p = Some n -> loc !! p = Some (l, pre) -> node_ok t loc p n l pre;
}.

Definition inv t : Prop := exists loc, wf t loc.

(** The tree maps index [j] to [v] (0: nothing stored there). *)
Definition leafv t (loc : gmap Z (Z * Z)) (j v : Z) : Prop :=
  (exists p n, loc !! p = Some (0, j / 64) /\ nodes t !! p = Some n /\ slots n !! Z.to_nat (j mod 64) = Some v) \/
  ((forall p, loc !! p <> Some (0, j / 64)) /\ v = 0).

End invariant.

(** ** Helper lemmas *)

Lemma nz_split l i c d : l !! i = Some c ->
  nz (<[i := d]> l) = nz l - (if decide (c <> 0) then 1 else 0) + (if decide (d <> 0) then 1 else 0).
Proof.
  intros Hi. unfold nz. pose proof (lookup_lt_Some _ _ _ Hi) as Hlt.
  rewrite insert_take_drop by done. rewrite <- (take_drop_middle l i c) at 3 by done.
  rewrite !filter_app, !length_app, !filter_cons. repeat case_decide; simpl; lia.
Qed.
Lemma nz_set l i d : l !! i = Some 0 -> d <> 0 -> nz (<[i := d]> l) = nz l + 1.
Proof. intros Hi Hd. rewrite (nz_split _ _ _ _ Hi). repeat case_decide; try done; lia. Qed.
Lemma nz_clear l i c : l !! i = Some c -> c <> 0 -> nz (<[i := 0]> l) = nz l - 1.
Proof. intros Hi Hc. rewrite (nz_split _ _ _ _ Hi). repeat case_decide; try done; lia. Qed.
Lemma nz_bound l : 0 <= nz l <= Z.of_nat (length l).
Proof. unfold nz. pose proof (length_filter (fun c => c <> 0) l). lia. Qed.
Lemma nz_pos l i c : l !! i = Some c -> c <> 0 -> 0 < nz l.
Proof. intros Hi Hc. pose proof (nz_bound (<[i:=0]> l)). pose proof (nz_clear _ _ _ Hi Hc). lia. Qed.
Lemma nz_zero l i c : nz l = 0 -> l !! i = Some c -> c = 0.
Proof. intros Hz Hi. destruct (decide (c = 0)) as [|Hc]; [done|]. pose proof (nz_pos _ _ _ Hi Hc). lia. Qed.
Lemma nz_replicate k : nz (replicate k 0) = 0.
Proof. unfold nz. induction k; simpl; [done|]. rewrite filter_cons, decide_False by (by intros H). done. Qed.

Lemma nz_empty : nz empty_slots = 0.
Proof. apply nz_replicate. Qed.

Lemma level_index_spec i l : 0 <= l -> radix_tree_level_index i l = (i / 64 ^ l) mod 64.
Proof.
  intros Hl. unfold radix_tree_level_index, RADIX_TREE_WIDTH_POWER.
  change (Z.shiftl 1 6 - 1) with (Z.ones 6). rewrite Z.land_ones, Z.shiftr_div_pow2 by lia.
  change 64 with (2 ^ 6) at 1. rewrite <- Z.pow_mul_r by lia. by rewrite (Z.mul_comm 6).
Qed.
Lemma level_index_range i l : 0 <= l -> 0 <= radix_tree_level_index i l < 64.
Proof. intros. rewrite level_index_spec by done. apply Z.mod_pos_bound. lia. Qed.

(** Going down one level appends the level's index to the prefix. *)
Lemma prefix_down i l : 0 <= l -> i / 64 ^ l = i / 64 ^ (l + 1) * 64 + radix_tree_level_index i l.
Proof.
  intros Hl. rewrite level_index_spec, Z.pow_add_r, Z.pow_1_r by lia.
  rewrite <- Z.div_div by lia. rewrite (Z.div_mod (i / 64 ^ l) 64) at 1 by lia. lia.
Qed.
Lemma prefix_up i l : 0 <= l -> i / 64 ^ (l + 1) = i / 64 ^ l / 64.
Proof. intros. rewrite Z.pow_add_r, Z.pow_1_r by lia. by rewrite <- Z.div_div by lia. Qed.

Lemma lookup_slot (l : list Z) i : length l = 64%nat -> 0 <= i < 64 -> exists c, l !! Z.to_nat i = Some c.
Proof. intros Hl Hi. apply lookup_lt_is_Some. lia. Qed.

Section lemmas.
Context {A : Type} `{!ObjAlloc A}.
Implicit Types t : rtree A.

Lemma get_node_ok t p n : nodes t !! p = Some n -> get_node p t = Ret n t.
Proof. unfold get_node. by intros ->. Qed.
Lemma get_slot_ok t n i c : slots n !! Z.to_nat i = Some c -> get_slot n i t = Ret c t.
Proof. unfold get_slot. by intros ->. Qed.

Lemma wf_has_node t loc p x : wf t loc -> loc !! p = Some x -> exists n, nodes t !! p = Some n.
Proof. intros Hw Hp. by apply (wf_dom _ _ Hw). Qed.
Lemma wf_nonnull t loc p x : wf t loc -> loc !! p = Some x -> p <> 0.
Proof. intros Hw Hp ->. destruct (wf_has_node _ _ _ _ Hw Hp) as [n Hn]. by rewrite (wf_null _ _ Hw) in Hn. Qed.

(** A node's place has an occupied parent place, up to the root. *)
Lemma wf_parent_loc t loc q l pre :
  wf t loc -> loc !! q = Some (l, pre) -> l < height t - 1 ->
  exists p n, loc !! p = Some (l + 1, pre / 64) /\ nodes t !! p = Some n /\ slots n !! Z.to_nat (pre mod 64) = Some q.
Proof.
  intros Hw Hq Hl. destruct (wf_has_node _ _ _ _ Hw Hq) as [nq Hnq].
  destruct (wf_node _ _ Hw _ _ _ _ Hnq Hq) as [_ _ Hlv _ _ [[-> _]|(_ & np & Hp & Hlp & Hs)]].
  - pose proof (wf_root _ _ Hw) as Hr. destruct (Z.eqb_spec (height t) 0); [lia|].
    rewrite Hr in Hq. injection Hq. lia.
  - eauto 10.
Qed.

(** An empty slot means that there is nothing below it. *)
Lemma wf_nothing_below t loc i k : wf t loc -> forall j, (j <= k)%nat -> Z.of_nat k < height t ->
  (forall p, loc !! p <> Some (Z.of_nat k, i / 64 ^ (Z.of_nat k + 1))) ->
  forall p, loc !! p <> Some (Z.of_nat (k - j), i / 64 ^ (Z.of_nat (k - j) + 1)).
Proof.
  intros Hw j. induction j as [|j IH]; intros Hj Hk Hno p Hp.
  - rewrite Nat.sub_0_r in Hp. by apply (Hno p).
  - destruct (wf_parent_loc _ _ _ _ _ Hw Hp ltac:(lia)) as (q & nq & Hq & _ & _).
    apply (IH ltac:(lia) Hk Hno q). rewrite Hq. do 2 f_equal; [lia|].
    rewrite <- prefix_up by lia. f_equal. f_equal. lia.
Qed.

(** The walk without allocation. *)
Lemma find_parent_loop_ok t loc i : wf t loc -> forall level node,
  loc !! node = Some (Z.of_nat level, i / 64 ^ (Z.of_nat level + 1)) ->
  exists r, find_parent_loop level node i false t = Ret r t /\
    ((r <> 0 /\ loc !! r = Some (0, i / 64)) \/ (r = 0 /\ forall p, loc !! p <> Some (0, i / 64))).
Proof.
  intros Hw. induction level as [|level IH]; intros node Hnode; cbn [find_parent_loop].
  - exists node. split; [done|]. left. split; [by eapply wf_nonnull|]. by rewrite Hnode.
  - rewrite (proj2 (Z.eqb_neq node 0)) by (by eapply wf_nonnull).
    destruct (wf_has_node _ _ _ _ Hw Hnode) as [n Hn].
    destruct (wf_node _ _ Hw _ _ _ _ Hn Hnode) as [Hlen _ Hlv _ Hch _].
    set (li := radix_tree_level_index i (Z.of_nat (S level))).
    assert (Hli : 0 <= li < 64) by (apply level_index_range; lia).
    destruct (lookup_slot _ li Hlen Hli) as [c Hc].
    rewrite (bind_Ret _ _ _ _ _ (get_node_ok _ _ _ Hn)), (bind_Ret _ _ _ _ _ (get_slot_ok _ _ _ _ Hc)).
    rewrite andb_false_r. destruct (decide (c = 0)) as [->|Hc0].
    + exists 0. split; [destruct level; done|]. right. split; [done|].
      intros p Hp. apply (wf_nothing_below t loc i level Hw level ltac:(lia) ltac:(lia)) with (p := p).
      * intros q Hq. destruct (wf_parent_loc _ _ _ _ _ Hw Hq ltac:(lia)) as (r & nr & Hr & Hnr & Hs).
        assert (r = node) as ->.
        { apply (wf_inj _ _ Hw _ _ _ Hr). rewrite Hnode. do 2 f_equal; [lia|].
          rewrite <- prefix_up by lia. f_equal. f_equal. lia. }
        simplify_eq. assert (Hx : Z.to_nat (i / 64 ^ (Z.of_nat level + 1) mod 64) = Z.to_nat li).
        { unfold li. rewrite level_index_spec by lia. do 4 f_equal. lia. }
        rewrite Hx, Hc in Hs. simplify_eq. by apply (wf_nonnull _ _ _ _ Hw Hq).
      * rewrite Nat.sub_diag. simpl. rewrite Hp. do 2 f_equal. 
    + apply IH. rewrite (Hch ltac:(lia) _ _ Hc Hc0). do 2 f_equal; [lia|].
      rewrite Z2Nat.id by lia. replace (Z.of_nat level + 1) with (Z.of_nat (S level)) by lia.
      rewrite (prefix_down i (Z.of_nat (S level))) by lia. done.
Qed.

(** The number of indices a tree covers. *)
Definition capacity t : Z := if height t =? 0 then 0 else 64 ^ height t.

Lemma max_index_ok t : 0 <= height t <= 5 -> radix_tree_max_index t = Ret (capacity t - 1) t.
Proof.
  intros Hh. unfold radix_tree_max_index, capacity, RADIX_TREE_WIDTH_POWER.
  destruct (Z.eqb_spec (height t) 0) as [Hz|]; [done|].
  rewrite (proj2 (Z.ltb_lt _ _)) by lia. f_equal. f_equal.
  rewrite Z.shiftl_1_l, Z.pow_mul_r by lia. done.
Qed.

Lemma wf_root_loc t loc i : wf t loc -> 0 <= i < capacity t ->
  loc !! root_node t = Some (Z.of_nat (Z.to_nat (height t - 1)), i / 64 ^ (Z.of_nat (Z.to_nat (height t - 1)) + 1)).
Proof.
  unfold capacity. intros Hw Hi. pose proof (wf_root _ _ Hw) as Hr. pose proof (wf_height _ _ Hw) as Hh.
  destruct (Z.eqb_spec (height t) 0); [lia|].
  rewrite Hr, Z2Nat.id by lia. do 2 f_equal. replace (height t - 1 + 1) with (height t) by lia.
  by rewrite Z.div_small.
Qed.

(** No place lies above the index range of the tree. *)
Lemma wf_no_leaf t loc j p : wf t loc -> capacity t <= j -> loc !! p <> Some (0, j / 64).
Proof.
  unfold capacity. intros Hw Hj Hp. destruct (wf_has_node _ _ _ _ Hw Hp) as [n Hn].
  destruct (wf_node _ _ Hw _ _ _ _ Hn Hp) as [_ _ Hlv Hpre _ _].
  destruct (Z.eqb_spec (height t) 0); [lia|].
  replace (height t) with ((height t - 1 - 0) + 1) in Hj by lia.
  rewrite Z.pow_add_r, Z.pow_1_r in Hj by lia.
  pose proof (Z.div_le_lower_bound j 64 (64 ^ (height t - 1 - 0))). lia.
Qed.

Lemma lookup_leafv t loc j : wf t loc -> 0 <= j ->
  exists v, radix_tree_lookup j t = Ret v t /\ leafv t loc j v.
Proof.
  intros Hw Hj. pose proof (wf_height _ _ Hw) as Hh. unfold radix_tree_lookup.
  rewrite (bind_Ret _ _ _ _ _ (max_index_ok t Hh)).
  destruct (Z.gtb_spec j (capacity t - 1)) as [Hbig|Hsmall].
  { exists 0. split; [done|]. right. split; [|done]. intros p. apply (wf_no_leaf t); [done|lia]. }
  destruct (find_parent_loop_ok t loc j Hw _ _ (wf_root_loc t loc j Hw ltac:(lia))) as (r & E & Hr).
  rewrite (bind_Ret (radix_tree_find_parent j false) _ t r t E). destruct Hr as [[Hr0 Hr]|[-> Hno]].
  - rewrite (proj2 (Z.eqb_neq r 0) Hr0). destruct (wf_has_node _ _ _ _ Hw Hr) as [n Hn].
    destruct (wf_node _ _ Hw _ _ _ _ Hn Hr) as [Hlen _ _ _ _ _].
    rewrite (bind_Ret _ _ _ _ _ (get_node_ok _ _ _ Hn)). unfold radix_tree_leaf_index.
    destruct (lookup_slot _ (radix_tree_level_index j 0) Hlen (level_index_range j 0 ltac:(lia))) as [c Hc].
    exists c. split; [by apply get_slot_ok|]. left. exists r, n. split_and!; [done..|].
    rewrite level_index_spec, Z.pow_0_r, Z.div_1_r in Hc by lia. done.
  - exists 0. split; [done|]. by right.
Qed.

Lemma leafv_unique t loc j v w : wf t loc -> leafv t loc j v -> leafv t loc j w -> v = w.
Proof.
  intros Hw [(p & n & Hp & Hn & Hv)|[Hno ->]] [(q & m & Hq & Hm & Hv')|[Hno' ->]]; [|naive_solver..].
  assert (p = q) as -> by (by eapply wf_inj). by simplify_eq.
Qed.

(** Trees that store the same leaves. *)
Definition same_leaves t loc t' loc' : Prop := forall j v, 0 <= j -> leafv t loc j v -> leafv t' loc' j v.

Lemma same_leaves_lookup t loc t' loc' j : wf t loc -> wf t' loc' -> same_leaves t loc t' loc' -> 0 <= j ->
  exists v, radix_tree_lookup j t = Ret v t /\ radix_tree_lookup j t' = Ret v t'.
Proof.
  intros Hw Hw' Hsame Hj. destruct (lookup_leafv t loc j Hw Hj) as (v & E & Hv).
  destruct (lookup_leafv t' loc' j Hw' Hj) as (w & E' & Hv'). exists v. split; [done|].
  by rewrite E', (leafv_unique t' loc' j v w Hw' (Hsame _ _ Hj Hv) Hv').
Qed.

(** Linking a fresh empty node below node [p] (whose slot [i] is free). *)
Definition link_child t (p i c : Z) (n : radix_tree_node) (a : A) : rtree A :=
  mkRtree (height t) (root_node t)
    (<[c := mkRnode 0 p empty_slots]>
      (<[p := mkRnode (count n + 1) (parent n) (<[Z.to_nat i := c]> (slots n))]> (nodes t))) a.

Section link_child.
Context t loc (Hw : wf t loc) (p : Z) (n : radix_tree_node) (l pre i c : Z) (a : A).
Context (Hn : nodes t !! p = Some n) (Hp : loc !! p = Some (l, pre)) (Hl : 0 < l) (Hi : 0 <= i < 64).
Context (Hslot : slots n !! Z.to_nat i = Some 0) (Ea : oalloc (allocator t) = (Some c, a)).
Local Notation t1 := (mkRtree (height t) (root_node t) (<[c := mkRnode 0 0 empty_slots]> (nodes t)) a).
Local Notation t' := (link_child t p i c n a).
Local Notation loc' := (<[c := (l - 1, pre * 64 + i)]> loc).

Lemma link_child_fresh :
  ook a /\ c <> 0 /\ olive a = {[c]} ∪ olive (allocator t) /\ nodes t !! c = None /\ loc !! c = None /\ p <> c.
Proof.
  destruct (oalloc_Some _ _ _ (wf_alloc _ _ Hw) Ea) as (Hok & Hc0 & Hfresh & Hlive).
  assert (Hnc : nodes t !! c = None).
  { destruct (nodes t !! c) eqn:E; [|done]. exfalso. apply Hfresh, (wf_live _ _ Hw). eauto. }
  split_and!; [done..| |intros ->; congruence].
  destruct (loc !! c) eqn:E; [|done]. destruct (wf_has_node _ _ _ _ Hw E). congruence.
Qed.

Lemma link_child_run : radix_tree_add_child p i c true t1 = Ret ERR_OK t'.
Proof.
  destruct link_child_fresh as (_ & Hc0 & _ & Hnc & Hlc & Hpc).
  pose proof (wf_node _ _ Hw _ _ _ _ Hn Hp) as [Hlen Hcnt _ _ _ _].
  unfold radix_tree_add_child.
  rewrite (bind_Ret _ _ _ _ _ (kassert_nz p _ ltac:(by eapply wf_nonnull))), (bind_Ret _ _ _ _ _ (kassert_nz c _ Hc0)).
  erewrite bind_Ret by (apply get_node_ok; simpl; by rewrite lookup_insert_ne).
  rewrite (bind_Ret _ _ _ _ _ (get_slot_ok _ _ _ _ Hslot)). simpl.
  unfold put_node at 1, modify. unfold bind at 1.
  pose proof (nz_bound (<[Z.to_nat i := c]> (slots n))) as Hb. rewrite nz_set, length_insert, Hlen in Hb by done.
  rewrite (bind_Ret _ _ _ _ _ (kassert_true _ _ (proj2 (Z.leb_le (count n + 1) RADIX_TREE_WIDTH) ltac:(unfold RADIX_TREE_WIDTH; lia)))).
  unfold bind, get_node, put_node, modify, ret, set_nodes, link_child; simpl.
  rewrite lookup_insert_ne, lookup_insert_eq by done. simpl.
  rewrite (insert_insert_ne _ p c) by done. by rewrite insert_insert_eq.
Qed.

(** The place of the new node was not taken. *)
Lemma link_child_place q : loc !! q <> Some (l - 1, pre * 64 + i).
Proof.
  intros Hq. pose proof (wf_node _ _ Hw _ _ _ _ Hn Hp) as [_ _ Hlv _ _ _].
  destruct (wf_parent_loc _ _ _ _ _ Hw Hq ltac:(lia)) as (r & nr & Hr & Hnr & Hs).
  replace (l - 1 + 1) with l in Hr by lia. rewrite Z.div_add_l, (Z.div_small i), Z.add_0_r in Hr by lia.
  assert (r = p) as -> by (by eapply wf_inj). simplify_eq.
  rewrite Z.add_comm, Z.mod_add, Z.mod_small, Hslot in Hs by lia. simplify_eq. by eapply (wf_nonnull _ _ 0).
Qed.

Lemma link_child_new_ok : node_ok t' loc' c (mkRnode 0 p empty_slots) (l - 1) (pre * 64 + i).
Proof.
  destruct link_child_fresh as (_ & Hc0 & _ & Hnc & Hlc & Hpc).
  pose proof (wf_node _ _ Hw _ _ _ _ Hn Hp) as [Hlen Hcnt Hlv Hpre _ _].
  split; simpl; [done|by rewrite nz_empty|lia|..].
  - replace (height t - 1 - (l - 1)) with (height t - 1 - l + 1) by lia. rewrite Z.pow_add_r by lia. lia.
  - intros _ k d Hk Hd. apply lookup_replicate in Hk as [-> _]. done.
  - right. split.
    { intros ->. pose proof (wf_root _ _ Hw) as Hr. destruct (Z.eqb_spec (height t) 0); [lia|]. congruence. }
    eexists. rewrite lookup_insert_ne, lookup_insert_eq by done. split; [done|].
    rewrite lookup_insert_ne, Hp by done. split.
    { do 2 f_equal; [lia|]. rewrite Z.div_add_l, (Z.div_small i) by lia. lia. }
    simpl. rewrite Z.add_comm, Z.mod_add, Z.mod_small by lia. apply list_lookup_insert_eq. lia.
Qed.

Lemma link_child_up_ok :
  node_ok t' loc' p (mkRnode (count n + 1) (parent n) (<[Z.to_nat i := c]> (slots n))) l pre.
Proof.
  destruct link_child_fresh as (_ & Hc0 & _ & Hnc & Hlc & Hpc).
  pose proof (wf_node _ _ Hw _ _ _ _ Hn Hp) as [Hlen Hcnt Hlv Hpre Hch Hpar].
  split; simpl; [by rewrite length_insert|by rewrite nz_set by done; lia|done|done|..].
  - intros Hl' k d. rewrite list_lookup_insert. case_decide as Hk.
    + destruct Hk as [<- _]. intros [= <-] _. rewrite lookup_insert_eq. do 2 f_equal. lia.
    + intros Hd Hd0. rewrite lookup_insert_ne; [by apply Hch|]. intros ->. by rewrite (Hch Hl' _ _ Hd Hd0) in Hlc.
  - destruct Hpar as [Hpar|(Hne & nq & Hq1 & Hq2 & Hq3)]; [by left|right]. split; [done|].
    exists nq. simpl. rewrite !lookup_insert_ne; [done|intros ->; congruence| |intros ->; congruence].
    intros Heq. rewrite <- Heq, Hp in Hq2. injection Hq2. lia.
Qed.

Lemma link_child_other_ok q m l' pre' : q <> c -> q <> p ->
  nodes t !! q = Some m -> loc !! q = Some (l', pre') -> node_ok t' loc' q m l' pre'.
Proof.
  destruct link_child_fresh as (_ & Hc0 & _ & Hnc & Hlc & Hpc). intros Hqc Hqp Hm Hq.
  pose proof (wf_node _ _ Hw _ _ _ _ Hm Hq) as [Hlen Hcnt Hlv Hpre Hch Hpar]. split; try done.
  - intros Hl' k d Hd Hd0. rewrite lookup_insert_ne; [by apply Hch|]. intros ->.
    by rewrite (Hch Hl' _ _ Hd Hd0) in Hlc.
  - destruct Hpar as [Hpar|(Hne & nq & Hq1 & Hq2 & Hq3)]; [by left|right]. split; [done|]. simpl.
    assert (parent m <> c) by (intros Hx; rewrite Hx in Hq1; congruence).
    rewrite !(lookup_insert_ne _ c) by done. destruct (decide (parent m = p)) as [Heq|Hneq].
    + rewrite Heq in *. rewrite lookup_insert_eq. eexists; split; [done|]. split; [done|].
      simplify_eq. simpl. rewrite list_lookup_insert_ne; [done|]. intros Hx. rewrite <- Hx, Hslot in Hq3.
      injection Hq3 as <-. by eapply (wf_nonnull _ _ 0).
    + rewrite lookup_insert_ne by done. eauto.
Qed.

Lemma link_child_wf : wf t' loc'.
Proof.
  destruct link_child_fresh as (Hok & Hc0 & Hlive & Hnc & Hlc & Hpc).
  split; try apply Hw; try done; simpl.
  - intros q Hq. rewrite Hlive. rewrite !lookup_insert in Hq. repeat case_decide; subst; [set_solver|..];
      apply elem_of_union_r, (wf_live _ _ Hw); eauto.
  - intros q. rewrite !lookup_insert. repeat case_decide; subst; [split; eauto| |apply Hw].
    rewrite Hp. split; eauto.
  - rewrite !lookup_insert_ne by (first [done|by eapply wf_nonnull]). apply Hw.
  - pose proof (wf_root _ _ Hw) as Hr. destruct (height t =? 0); [by destruct Hr as [_ ->]; rewrite lookup_empty in Hp|].
    rewrite lookup_insert_ne; [done|]. intros ->. congruence.
  - intros q r x. rewrite !lookup_insert. pose proof link_child_place.
    repeat case_decide; subst; try done; intros; simplify_eq; [naive_solver..|by eapply wf_inj].
  - intros q m l' pre'. destruct (decide (q = c)) as [->|Hqc].
    { rewrite !lookup_insert_eq. intros [= <-] [= <- <-]. apply link_child_new_ok. }
    rewrite !(lookup_insert_ne _ c) by done. destruct (decide (q = p)) as [->|Hqp].
    { rewrite lookup_insert_eq, Hp. intros [= <-] [= <- <-]. apply link_child_up_ok. }
    rewrite lookup_insert_ne by done. by apply link_child_other_ok.
Qed.

Lemma link_child_leaves : same_leaves t loc t' loc'.
Proof.
  destruct link_child_fresh as (Hok & Hc0 & Hlive & Hnc & Hlc & Hpc).
  intros j v Hj [(q & m & Hq & Hm & Hv)|[Hno ->]].
  - left. assert (q <> c) by (intros ->; congruence). assert (q <> p) by (intros ->; rewrite Hp in Hq; injection Hq; lia).
    exists q, m. simpl. by rewrite !lookup_insert_ne.
  - destruct (decide ((l - 1, pre * 64 + i) = (0, j / 64))) as [Heq|Hne].
    + left. exists c. eexists. simpl. rewrite !lookup_insert_eq. split; [by rewrite Heq|]. split; [done|]. simpl.
      apply lookup_replicate. split; [done|]. pose proof (Z.mod_pos_bound j 64). lia.
    + right. split; [|done]. intros q. rewrite lookup_insert. case_decide; [congruence|apply Hno].
Qed.
End link_child.

Lemma same_leaves_refl t loc : same_leaves t loc t loc.
Proof. by intros j v. Qed.
Lemma same_leaves_trans t1 l1 t2 l2 t3 l3 :
  same_leaves t1 l1 t2 l2 -> same_leaves t2 l2 t3 l3 -> same_leaves t1 l1 t3 l3.
Proof. unfold same_leaves. eauto. Qed.

(** A failed allocation changes only the allocator. *)
Lemma create_fail_wf t loc a : wf t loc -> oalloc (allocator t) = (None, a) ->
  wf (mkRtree (height t) (root_node t) (nodes t) a) loc.
Proof.
  intros Hw Ea. destruct (oalloc_None _ _ (wf_alloc _ _ Hw) Ea) as [Hok Hlv].
  destruct Hw as [H1 H2 H3 H4 H5 H6 H7 H8]. split; try done.
  - intros q Hq. simpl in *. rewrite Hlv. auto.
  - intros q m l' pre' Hm Hq. destruct (H8 _ _ _ _ Hm Hq). by split.
Qed.

(** What a walk that may allocate guarantees. *)
Definition walk_post t loc (i r : Z) t' loc' : Prop :=
  wf t' loc' /\ same_leaves t loc t' loc' /\ height t' = height t /\
  (r = 0 \/ (r <> 0 /\ loc' !! r = Some (0, i / 64))).

Lemma find_parent_alloc_ok i : forall level t loc node, wf t loc ->
  loc !! node = Some (Z.of_nat level, i / 64 ^ (Z.of_nat level + 1)) ->
  exists r t' loc', find_parent_loop level node i true t = Ret r t' /\ walk_post t loc i r t' loc'.
Proof.
  induction level as [|level IH]; intros t loc node Hw Hnode; cbn [find_parent_loop].
  { exists node, t, loc. split; [done|]. split_and!; [done|apply same_leaves_refl|done|].
    right. split; [by eapply wf_nonnull|by rewrite Hnode]. }
  rewrite (proj2 (Z.eqb_neq node 0)) by (by eapply wf_nonnull).
  destruct (wf_has_node _ _ _ _ Hw Hnode) as [n Hn].
  pose proof (wf_node _ _ Hw _ _ _ _ Hn Hnode) as [Hlen _ Hlv _ Hch _].
  set (li := radix_tree_level_index i (Z.of_nat (S level))).
  assert (Hli : 0 <= li < 64) by (apply level_index_range; lia).
  assert (Hdown : (Z.of_nat (S level) - 1, i / 64 ^ (Z.of_nat (S level) + 1) * 64 + li) =
                  (Z.of_nat level, i / 64 ^ (Z.of_nat level + 1))).
  { f_equal; [lia|]. replace (Z.of_nat level + 1) with (Z.of_nat (S level)) by lia.
    by rewrite (prefix_down i (Z.of_nat (S level))) by lia. }
  destruct (lookup_slot _ li Hlen Hli) as [c Hc].
  rewrite (bind_Ret _ _ _ _ _ (get_node_ok _ _ _ Hn)), (bind_Ret _ _ _ _ _ (get_slot_ok _ _ _ _ Hc)).
  rewrite andb_true_r. destruct (Z.eqb_spec c 0) as [->|Hc0].
  - unfold radix_tree_node_create at 1. unfold bind at 1.
    destruct (oalloc (allocator t)) as [[d|] a] eqn:Ea.
    + destruct (link_child_fresh t loc Hw node n _ _ d a Hn Hnode Ea) as (_ & Hd0 & _).
      rewrite (proj2 (Z.eqb_neq d 0) Hd0).
      rewrite (bind_Ret _ _ _ _ _ (link_child_run t loc Hw node n _ _ li d a Hn Hnode Hc Ea)).
      destruct (IH _ _ d (link_child_wf t loc Hw node n _ _ li d a Hn Hnode ltac:(lia) Hli Hc Ea)) as (r & t' & loc' & E & Hw' & Hs & Hh & Hr).
      { rewrite lookup_insert_eq. by f_equal. }
      exists r, t', loc'. split; [done|]. split_and!; [done| |done|done].
      eapply same_leaves_trans; [by eapply (link_child_leaves t loc Hw node n _ _ li d a Hn Hnode)|done].
    + eexists 0, _, loc. split; [done|]. split_and!; [by apply create_fail_wf|by intros j v|done|by left].
  - apply IH; [done|]. rewrite (Hch ltac:(lia) _ _ Hc Hc0), Z2Nat.id by lia. by f_equal.
Qed.

(** Storing a leaf in a free slot of a level-0 node. *)
Definition store_leaf t (p i leaf : Z) (n : radix_tree_node) : rtree A :=
  set_nodes (<[p := mkRnode (count n + 1) (parent n) (<[Z.to_nat i := leaf]> (slots n))]> (nodes t)) t.

(** Replacing a level-0 node by one with other slots keeps the invariant. *)
Lemma replace_leaf_node_wf t loc p n n' pre :
  wf t loc -> nodes t !! p = Some n -> loc !! p = Some (0, pre) ->
  parent n' = parent n -> length (slots n') = 64%nat -> count n' = nz (slots n') ->
  wf (set_nodes (<[p := n']> (nodes t)) t) loc.
Proof.
  intros Hw Hn Hp Hpar Hlen Hcnt. split; try apply Hw; simpl.
  - intros q Hq. apply (wf_live _ _ Hw). rewrite lookup_insert in Hq. case_decide; subst; eauto.
  - intros q. rewrite lookup_insert. case_decide; subst; [|apply Hw]. rewrite Hp. split; eauto.
  - rewrite lookup_insert_ne by (by eapply wf_nonnull). apply Hw.
  - intros q m l' pre' Hm Hq. rewrite lookup_insert in Hm.
    assert (Hpn : forall x nq, nodes t !! x = Some nq -> loc !! x = Some (l' + 1, pre' / 64) -> 0 <= l' ->
      <[p:=n']> (nodes t) !! x = Some nq).
    { intros x nq Hx Hlx Hl'. rewrite lookup_insert_ne; [done|]. intros ->. rewrite Hp in Hlx. injection Hlx. lia. }
    case_decide; subst; simplify_eq.
    + pose proof (wf_node _ _ Hw _ _ _ _ Hn Hp) as [_ _ Hlv Hpre _ Hpp].
      split; simpl; [done..|lia|]. rewrite Hpar. destruct Hpp as [?|(? & nq & ? & ? & ?)]; [by left|right]. split; [done|].
      exists nq. split_and!; [apply Hpn; try done; lia|done..].
    + pose proof (wf_node _ _ Hw _ _ _ _ Hm Hq) as [? ? Hlv ? ? Hpp].
      split; simpl; try done. destruct Hpp as [?|(? & nq & ? & ? & ?)]; [by left|right]. split; [done|].
      exists nq. split_and!; [apply Hpn; try done; lia|done..].
Qed.

Lemma add_leaf_ok t loc r i leaf : wf t loc -> loc !! r = Some (0, i / 64) -> leaf <> 0 -> 0 <= i ->
  (exists v, v <> 0 /\ leafv t loc i v /\
     radix_tree_add_child r (radix_tree_leaf_index i) leaf false t = Ret ERR_RADIX_TREE_NODE_EXIST t) \/
  (exists t', radix_tree_add_child r (radix_tree_leaf_index i) leaf false t = Ret ERR_OK t' /\
     leafv t loc i 0 /\ wf t' loc /\ leafv t' loc i leaf /\
     forall j v, 0 <= j -> j <> i -> leafv t loc j v -> leafv t' loc j v).
Proof.
  intros Hw Hr Hleaf Hi. destruct (wf_has_node _ _ _ _ Hw Hr) as [n Hn].
  pose proof (wf_node _ _ Hw _ _ _ _ Hn Hr) as [Hlen Hcnt _ _ _ _]. unfold radix_tree_leaf_index.
  rewrite level_index_spec, Z.pow_0_r, Z.div_1_r by lia.
  pose proof (Z.mod_pos_bound i 64 ltac:(lia)) as Hb.
  destruct (lookup_slot _ (i mod 64) Hlen Hb) as [c Hc]. unfold radix_tree_add_child.
  rewrite (bind_Ret _ _ _ _ _ (kassert_nz r _ ltac:(by eapply wf_nonnull))), (bind_Ret _ _ _ _ _ (kassert_nz leaf _ Hleaf)).
  rewrite (bind_Ret _ _ _ _ _ (get_node_ok _ _ _ Hn)), (bind_Ret _ _ _ _ _ (get_slot_ok _ _ _ _ Hc)).
  destruct (Z.eqb_spec c 0) as [->|Hc0]; simpl; cycle 1.
  { left. exists c. split_and!; [done| |done]. left. eauto 10. }
  right. unfold put_node at 1, modify. unfold bind at 1.
  pose proof (nz_bound (<[Z.to_nat (i mod 64) := leaf]> (slots n))) as Hz. rewrite nz_set, length_insert, Hlen in Hz by done.
  rewrite (bind_Ret _ _ _ _ _ (kassert_true _ _ (proj2 (Z.leb_le (count n + 1) RADIX_TREE_WIDTH) ltac:(unfold RADIX_TREE_WIDTH; lia)))).
  exists (store_leaf t r (i mod 64) leaf n). split; [done|]. unfold store_leaf. split_and!.
  - left. eauto 10.
  - eapply replace_leaf_node_wf; eauto; simpl; [by rewrite length_insert|rewrite nz_set by done; lia].
  - left. exists r. eexists. simpl. rewrite lookup_insert_eq. split_and!; [done..|]. simpl. apply list_lookup_insert_eq. lia.
  - intros j v Hj Hne [(q & m & Hq & Hm & Hv)|Hno]; [|by right]. left. exists q. simpl.
    destruct (decide (q = r)) as [->|Hqr]; [|rewrite lookup_insert_ne by done; eauto].
    rewrite lookup_insert_eq. eexists; split_and!; [done..|].
    assert (Hdiv : j / 64 = i / 64) by congruence. assert (m = n) as -> by congruence. simpl.
    rewrite list_lookup_insert_ne; [done|]. intros Hx. apply Hne. pose proof (Z.mod_pos_bound j 64 ltac:(lia)).
    assert (i mod 64 = j mod 64) by lia. rewrite (Z.div_mod i 64), (Z.div_mod j 64) by lia. lia.
Qed.

(** Adding a level above the root node [nr]. *)
Definition raise t (c : Z) (nr : radix_tree_node) (a : A) : rtree A :=
  mkRtree (height t + 1) c
    (<[root_node t := mkRnode (count nr) c (slots nr)]>
      (<[c := mkRnode 1 0 (<[0%nat := root_node t]> empty_slots)]> (nodes t))) a.

Section raise.
Context t loc (Hw : wf t loc) (Hh : 0 < height t < 5) (nr : radix_tree_node) (c : Z) (a : A).
Context (Hnr : nodes t !! root_node t = Some nr) (Ea : oalloc (allocator t) = (Some c, a)).
Local Notation t' := (raise t c nr a).
Local Notation loc' := (<[c := (height t, 0)]> loc).

Lemma raise_facts : loc !! root_node t = Some (height t - 1, 0) /\ root_node t <> c /\ root_node t <> 0 /\
  c <> 0 /\ nodes t !! c = None /\ loc !! c = None.
Proof.
  pose proof (wf_root _ _ Hw) as Hr. destruct (Z.eqb_spec (height t) 0); [lia|].
  destruct (link_child_fresh t loc Hw _ nr _ _ c a Hnr Hr Ea) as (? & ? & ? & ? & ? & ?).
  split_and!; try done. by eapply wf_nonnull.
Qed.

Lemma raise_root_slots : nz (<[0%nat := root_node t]> empty_slots) = 1.
Proof. destruct raise_facts as (_ & _ & Hr0 & _). rewrite (nz_set empty_slots 0 (root_node t)), nz_empty; done. Qed.

Lemma raise_link :
  radix_tree_add_child c 0 (root_node t) true
    (mkRtree (height t) (root_node t) (<[c := mkRnode 0 0 empty_slots]> (nodes t)) a) =
  Ret ERR_OK (mkRtree (height t) (root_node t) (nodes t') a).
Proof.
  destruct raise_facts as (Hr & Hrc & Hr0 & Hc0 & Hnc & Hlc). unfold radix_tree_add_child.
  rewrite (bind_Ret _ _ _ _ _ (kassert_nz c _ Hc0)), (bind_Ret _ _ _ _ _ (kassert_nz (root_node t) _ Hr0)).
  erewrite bind_Ret by (apply get_node_ok; simpl; apply lookup_insert_eq).
  erewrite bind_Ret by (apply (get_slot_ok _ _ 0 0); done). simpl.
  unfold bind, put_node, modify, get_node, set_nodes, kassert, ret; simpl.
  rewrite lookup_insert_ne, lookup_insert_ne, Hnr by done. simpl. by rewrite insert_insert_eq.
Qed.

Lemma raise_run : radix_tree_add_level t = Ret ERR_OK t'.
Proof.
  destruct raise_facts as (Hr & Hrc & Hr0 & Hc0 & Hnc & Hlc).
  unfold radix_tree_add_level, radix_tree_node_create. unfold bind at 1. rewrite Ea, (proj2 (Z.eqb_neq c 0) Hc0).
  unfold gets at 1. unfold bind at 1. cbn [root_node]. rewrite (proj2 (Z.eqb_neq _ 0) Hr0). cbn [negb].
  by rewrite bind_assoc, (bind_Ret _ _ _ _ _ raise_link).
Qed.

Lemma raise_wf : wf t' loc'.
Proof.
  destruct raise_facts as (Hr & Hrc & Hr0 & Hc0 & Hnc & Hlc).
  destruct (link_child_fresh t loc Hw _ nr _ _ c a Hnr Hr Ea) as (Hok & _ & Hlive & _).
  split; simpl.
  - lia.
  - done.
  - intros q Hq. rewrite Hlive. rewrite !lookup_insert in Hq. repeat case_decide; subst; [|set_solver|];
      apply elem_of_union_r, (wf_live _ _ Hw); eauto.
  - intros q. rewrite !lookup_insert. repeat case_decide; subst; [done| |split; eauto|apply Hw].
    rewrite Hr. split; eauto.
  - rewrite !lookup_insert_ne by done. apply Hw.
  - destruct (Z.eqb_spec (height t + 1) 0); [lia|]. rewrite lookup_insert_eq. do 2 f_equal. lia.
  - assert (Hfr : forall q, loc !! q <> Some (height t, 0)).
    { intros q Hq. destruct (wf_has_node _ _ _ _ Hw Hq) as [m Hm].
      pose proof (ok_level _ _ _ _ _ _ (wf_node _ _ Hw _ _ _ _ Hm Hq)). lia. }
    intros q r x. rewrite !lookup_insert. repeat case_decide; subst; try done; intros; simplify_eq; [naive_solver..|by eapply wf_inj].
  - intros q m l pre. destruct (decide (q = c)) as [->|Hqc].
    { rewrite lookup_insert_ne, !lookup_insert_eq by done. intros [= <-] [= <- <-].
      split; [done|symmetry; apply raise_root_slots|simpl; lia|
        simpl; by replace (height t + 1 - 1 - height t) with 0 by lia| |by left].
      intros _ k d Hk Hd. destruct k as [|k].
      - injection Hk as <-. rewrite lookup_insert_ne, Hr by done. do 2 f_equal.
      - exfalso. apply Hd. change (empty_slots !! S k = Some d) in Hk.
        by apply lookup_replicate in Hk as [-> _]. }
    rewrite !(lookup_insert_ne loc) by done. intros Hm Hq.
    assert (exists m0, nodes t !! q = Some m0 /\ count m = count m0 /\ slots m = slots m0 /\
              (q = root_node t /\ parent m = c \/ q <> root_node t /\ parent m = parent m0)) as (m0 & Hm0 & Hcnt & Hsl & Hpm).
    { rewrite lookup_insert in Hm. case_decide; subst; [injection Hm as <-; eauto 10|].
      rewrite lookup_insert_ne in Hm by done. eauto 10. }
    pose proof (wf_node _ _ Hw _ _ _ _ Hm0 Hq) as [Hlen0 Hcnt0 Hlv Hpre Hch Hpar].
    split; simpl; rewrite ?Hsl; [done|congruence|lia|..].
    + replace (height t + 1 - 1 - l) with (height t - 1 - l + 1) by lia. rewrite Z.pow_add_r by lia. lia.
    + intros Hl k d Hk Hd. rewrite lookup_insert_ne; [by apply Hch|]. intros ->. by rewrite (Hch Hl _ _ Hk Hd) in Hlc.
    + right. split; [done|]. destruct Hpm as [[-> ->]|[Hqr ->]].
      * rewrite Hr in Hq. injection Hq as <- <-. eexists. rewrite lookup_insert_ne, !lookup_insert_eq by done.
        split; [done|]. split; [do 2 f_equal; lia|done].
      * destruct Hpar as [[? _]|(_ & nq & Hq1 & Hq2 & Hq3)]; [done|].
        assert (parent m0 <> c) by (intros Hx; rewrite Hx in Hq1; congruence).
        rewrite (lookup_insert_ne loc) by done. rewrite lookup_insert. case_decide as Hx.
        -- eexists; split_and!; [done..|]. simpl. rewrite <- Hx, Hnr in Hq1. congruence.
        -- rewrite lookup_insert_ne by done. eauto 10.
Qed.

Lemma raise_leaves : same_leaves t loc t' loc'.
Proof.
  destruct raise_facts as (Hr & Hrc & Hr0 & Hc0 & Hnc & Hlc).
  intros j v Hj [(q & m & Hq & Hm & Hv)|[Hno ->]].
  - left. exists q. assert (q <> c) by (intros ->; congruence). rewrite lookup_insert_ne by done. simpl.
    rewrite lookup_insert. case_decide as Hx; [|rewrite lookup_insert_ne by done; eauto].
    subst q. eexists; split_and!; [done..|]. simpl. congruence.
  - right. split; [|done]. intros q. rewrite lookup_insert. case_decide; [|apply Hno]. intros [= Hx]. lia.
Qed.
End raise.

Lemma add_level_ok t loc : wf t loc -> height t < 5 ->
  exists e t' loc', radix_tree_add_level t = Ret e t' /\ wf t' loc' /\ same_leaves t loc t' loc' /\
    ((e = ERR_OK /\ height t' = height t + 1) \/ (e = ERR_RADIX_TREE_ALLOC /\ height t' = height t)).
Proof.
  intros Hw Hh. pose proof (wf_height _ _ Hw) as Hh0. pose proof (wf_root _ _ Hw) as Hr.
  destruct (oalloc (allocator t)) as [[c|] a] eqn:Ea; cycle 1.
  { eexists _, _, loc. split; [unfold radix_tree_add_level, radix_tree_node_create, bind; rewrite Ea; done|].
    split_and!; [by apply create_fail_wf|by intros j v|by right]. }
  destruct (Z.eqb_spec (height t) 0) as [Hz|Hnz].
  - destruct Hr as [Hr0 ->]. destruct (oalloc_Some _ _ _ (wf_alloc _ _ Hw) Ea) as (Hok & Hc0 & Hfresh & Hlive).
    assert (Hnodes : nodes t = ∅).
    { apply map_eq. intros p. rewrite lookup_empty. destruct (nodes t !! p) eqn:E; [|done].
      destruct (proj1 (wf_dom _ _ Hw p)); [eauto|]. by rewrite lookup_empty in *. }
    eexists _, _, {[c := (0, 0)]}. split_and!.
    + unfold radix_tree_add_level, radix_tree_node_create, bind. rewrite Ea, (proj2 (Z.eqb_neq c 0) Hc0).
      unfold gets; simpl. rewrite Hr0. done.
    + rewrite Hnodes. split; simpl; rewrite ?Hz; try done.
      * intros p. rewrite lookup_insert. case_decide; [subst; set_solver|]. rewrite lookup_empty. intros [? [=]].
      * intros p. rewrite lookup_insert, lookup_singleton. case_decide; [split; eauto|]. by rewrite lookup_empty.
      * by rewrite lookup_insert_ne.
      * by rewrite lookup_singleton_eq.
      * intros p q x [<- _]%lookup_singleton_Some [<- _]%lookup_singleton_Some. done.
      * intros p m l pre. rewrite lookup_insert, lookup_empty. case_decide; [|done]. subst. rewrite lookup_singleton_eq.
        intros [= <-] [= <- <-]. split; simpl; rewrite ?Hz; [done|by rewrite nz_empty|lia|done|lia|by left].
    + intros j v Hj [(q & m & Hq & _)|[_ ->]]; [by rewrite lookup_empty in Hq|].
      destruct (decide (j / 64 = 0)) as [Hj0|Hj0].
      * left. exists c. eexists. rewrite lookup_singleton_eq, Hj0. simpl. rewrite lookup_insert_eq. split_and!; [done..|].
        apply lookup_replicate. pose proof (Z.mod_pos_bound j 64). split; [done|lia].
      * right. split; [|done]. intros q [_ [= Hx]]%lookup_singleton_Some. lia.
    + left. by rewrite Hz.
  - destruct (wf_has_node _ _ _ _ Hw Hr) as [nr Hnr]. eexists _, _, _. split_and!.
    + apply (raise_run t loc Hw ltac:(lia) nr c a Hnr Ea).
    + apply raise_wf; [done|lia|done..].
    + apply (raise_leaves t loc Hw ltac:(lia) nr c a Hnr Ea).
    + by left.
Qed.

Lemma grow_loop_ok i : forall fuel t loc, wf t loc -> i < 2 ^ 30 -> (Z.to_nat (5 - height t) < fuel)%nat ->
  exists ok t' loc', grow_loop fuel i t = Ret ok t' /\ wf t' loc' /\ same_leaves t loc t' loc' /\
    (ok = true -> i < capacity t').
Proof.
  induction fuel as [|fuel IH]; intros t loc Hw Hi Hf; [lia|]. cbn [grow_loop].
  pose proof (wf_height _ _ Hw) as Hh. rewrite (bind_Ret _ _ _ _ _ (max_index_ok t Hh)).
  destruct (Z.gtb_spec i (capacity t - 1)) as [Hbig|Hsmall]; cycle 1.
  { exists true, t, loc. split_and!; [done..|apply same_leaves_refl|lia]. }
  assert (height t < 5).
  { destruct (decide (height t = 5)) as [E|]; [|lia]. unfold capacity in Hbig. rewrite E in Hbig. simpl in Hbig. lia. }
  destruct (add_level_ok t loc Hw ltac:(done)) as (e & t1 & loc1 & E & Hw1 & Hs & [[-> Hh1]|[-> Hh1]]);
    rewrite (bind_Ret _ _ _ _ _ E); simpl.
  - destruct (IH t1 loc1 Hw1 Hi ltac:(lia)) as (ok & t2 & loc2 & E2 & Hw2 & Hs2 & Hok).
    exists ok, t2, loc2. split_and!; [done..|by eapply same_leaves_trans|done].
  - exists false, t1, loc1. split_and!; done.
Qed.

(** ** Removal *)

Definition clear_slot (n : radix_tree_node) (i : Z) : radix_tree_node :=
  mkRnode (count n - 1) (parent n) (<[Z.to_nat i := 0]> (slots n)).

(** Unlinking the empty node [q] from its parent [pq]. *)
Definition unlink t (q pq i : Z) (nq : radix_tree_node) : rtree A :=
  mkRtree (height t) (root_node t) (<[pq := clear_slot nq i]> (delete q (nodes t))) (ofree q (allocator t)).

Section unlink.
Context t loc (Hw : wf t loc) (q pq : Z) (n nq : radix_tree_node) (l pre : Z).
Context (Hq : loc !! q = Some (l, pre)) (Hn : nodes t !! q = Some n) (Hempty : nz (slots n) = 0).
Context (Hnq : nodes t !! pq = Some nq) (Hpq : loc !! pq = Some (l + 1, pre / 64)) (Hqr : q <> root_node t).
Context (Hslot : slots nq !! Z.to_nat (pre mod 64) = Some q).
Local Notation t' := (unlink t q pq (pre mod 64) nq).
Local Notation loc' := (delete q loc).

Lemma unlink_facts : pq <> q /\ q <> 0 /\ ook (ofree q (allocator t)) /\
  olive (ofree q (allocator t)) = olive (allocator t) ∖ {[q]}.
Proof.
  split_and!; [intros ->; rewrite Hpq in Hq; injection Hq; lia|by eapply wf_nonnull|..];
    apply ofree_live; try apply Hw; eauto.
Qed.

(** [q] is a child of [pq] only, in one slot. *)
Lemma unlink_child r m lr prer i : nodes t !! r = Some m -> loc !! r = Some (lr, prer) -> 0 < lr ->
  slots m !! i = Some q -> r = pq /\ i = Z.to_nat (pre mod 64).
Proof.
  intros Hm Hr Hlr Hi. destruct unlink_facts as (_ & Hq0 & _).
  pose proof (wf_node _ _ Hw _ _ _ _ Hm Hr) as [Hlen _ _ _ Hch _].
  pose proof (Hch Hlr _ _ Hi Hq0) as Hx. rewrite Hq in Hx. injection Hx as Hl1 Hpre1.
  pose proof (lookup_lt_Some _ _ _ Hi). rewrite Hlen in *. subst pre.
  rewrite Z.div_add_l, (Z.div_small (Z.of_nat i)), Z.add_0_r in Hpq by lia.
  split; [|rewrite Z.add_comm, Z.mod_add, Z.mod_small by lia; lia].
  apply (wf_inj _ _ Hw _ _ _ Hr). rewrite Hpq. do 2 f_equal. lia.
Qed.

Lemma unlink_wf : wf t' loc'.
Proof.
  destruct unlink_facts as (Hne & Hq0 & Hok & Hlive).
  pose proof (wf_node _ _ Hw _ _ _ _ Hnq Hpq) as [Hlq Hcq Hlvq Hpreq Hchq Hparq].
  pose proof (ok_level _ _ _ _ _ _ (wf_node _ _ Hw _ _ _ _ Hn Hq)) as Hlv.
  assert (Hdel : forall r x, r <> q -> loc !! r = x -> loc' !! r = x) by (intros; by rewrite lookup_delete_ne).
  split; simpl; try apply Hw; try done.
  - intros r Hr. rewrite Hlive. rewrite lookup_insert in Hr. case_decide; subst.
    + apply elem_of_difference; split; [apply (wf_live _ _ Hw); eauto|set_solver].
    + rewrite lookup_delete in Hr. case_decide; [by destruct Hr|].
      apply elem_of_difference; split; [by apply (wf_live _ _ Hw)|set_solver].
  - intros r. rewrite lookup_insert. case_decide; subst.
    + rewrite lookup_delete_ne, Hpq by done. split; eauto.
    + rewrite !lookup_delete. case_decide; [by split; intros [? [=]]|apply Hw].
  - rewrite lookup_insert_ne by (by eapply wf_nonnull). rewrite lookup_delete_ne by done. apply Hw.
  - pose proof (wf_root _ _ Hw) as Hr. destruct (height t =? 0); [by destruct Hr as [_ ->]; rewrite lookup_empty in Hq|].
    by apply Hdel.
  - intros r r' x. rewrite !lookup_delete. repeat case_decide; try done. apply Hw.
  - intros r m lr prer Hm Hr. rewrite lookup_delete in Hr. case_decide as Hrq; [done|].
    assert (exists m0, nodes t !! r = Some m0 /\ parent m = parent m0 /\
      (r = pq /\ m0 = nq /\ m = clear_slot nq (pre mod 64) \/ r <> pq /\ m = m0)) as (m0 & Hm0 & Hpm & Hcase).
    { rewrite lookup_insert in Hm. case_decide; subst; [injection Hm as <-; eauto 10|].
      rewrite lookup_delete_ne in Hm by done. eauto 10. }
    pose proof (wf_node _ _ Hw _ _ _ _ Hm0 Hr) as [Hlen Hcnt Hlvr Hprer Hch Hpar].
    split; simpl; [..|].
    + destruct Hcase as [(-> & -> & ->)|[_ ->]]; [by simpl; rewrite length_insert|done].
    + destruct Hcase as [(-> & -> & ->)|[_ ->]]; [|done]. simpl. rewrite (nz_clear _ _ _ Hslot Hq0). lia.
    + done.
    + done.
    + intros Hl i c Hi Hc. apply Hdel.
      * intros ->. destruct Hcase as [(-> & -> & ->)|[Hx ->]]; [|by destruct (unlink_child _ _ _ _ _ Hm0 Hr Hl Hi)].
        simpl in Hi. rewrite list_lookup_insert in Hi. case_decide; [simplify_eq|].
        destruct (unlink_child _ _ _ _ _ Hm0 Hr Hl Hi) as [_ ->]. apply H. split; [done|]. by eapply lookup_lt_Some.
      * destruct Hcase as [(-> & -> & ->)|[_ ->]]; [|by apply Hch]. simpl in Hi.
        rewrite list_lookup_insert in Hi. case_decide; [simplify_eq|by apply Hch].
    + rewrite Hpm. destruct Hpar as [?|(Hrr & np & Hp1 & Hp2 & Hp3)]; [by left|right]. split; [done|].
      assert (parent m0 <> q).
      { intros Hx. rewrite Hx in Hp1. assert (np = n) as -> by congruence.
        apply (nz_zero _ _ _ Hempty) in Hp3. subst r. by apply (wf_nonnull _ _ _ _ Hw Hr). }
      rewrite (lookup_delete_ne loc) by done. rewrite lookup_insert. case_decide as Hx.
      * eexists; split_and!; [done..|]. simpl. rewrite <- Hx, Hnq in Hp1. simplify_eq.
        rewrite list_lookup_insert_ne; [done|]. intros Hi. rewrite <- Hi, Hslot in Hp3. congruence.
      * rewrite lookup_delete_ne by done. eauto.
Qed.

Lemma unlink_leaves : same_leaves t loc t' loc'.
Proof.
  destruct unlink_facts as (Hne & Hq0 & _).
  pose proof (ok_level _ _ _ _ _ _ (wf_node _ _ Hw _ _ _ _ Hn Hq)) as Hlv.
  intros j v Hj [(r & m & Hr & Hm & Hv)|[Hno ->]].
  - destruct (decide (r = q)) as [->|Hrq].
    + right. assert (m = n) as -> by congruence. split; [|by apply (nz_zero _ _ _ Hempty Hv)].
      intros r Hr'. rewrite lookup_delete in Hr'. case_decide; [done|].
      assert (q = r) by (by eapply wf_inj). done.
    + left. exists r, m. assert (r <> pq) by (intros ->; rewrite Hpq in Hr; injection Hr; lia).
      simpl. by rewrite lookup_insert_ne, !lookup_delete_ne.
  - right. split; [|done]. intros r. rewrite lookup_delete. case_decide; [done|apply Hno].
Qed.
End unlink.

(** A root without children is the only node. *)
Lemma wf_lonely_root t loc n : wf t loc -> nodes t !! root_node t = Some n -> nz (slots n) = 0 ->
  forall k p l pre, (Z.to_nat (height t - l) < k)%nat -> loc !! p = Some (l, pre) -> p = root_node t.
Proof.
  intros Hw Hn Hz. induction k as [|k IH]; intros p l pre Hk Hp; [lia|].
  destruct (wf_has_node _ _ _ _ Hw Hp) as [m Hm].
  pose proof (wf_node _ _ Hw _ _ _ _ Hm Hp) as [_ _ Hlv _ _ [[-> _]|(Hne & nq & H1 & H2 & H3)]]; [done|].
  assert (parent m = root_node t) as Hx by (eapply (IH _ (l + 1)); [lia|done]).
  rewrite Hx, Hn in H1. simplify_eq. apply (nz_zero _ _ _ Hz) in H3. subst p.
  exfalso. by apply (wf_nonnull _ _ _ _ Hw Hp).
Qed.

(** Freeing the empty root empties the tree. *)
Lemma free_root_wf t loc n : wf t loc -> nodes t !! root_node t = Some n -> nz (slots n) = 0 -> 0 < height t ->
  let t' := mkRtree 0 0 (delete (root_node t) (nodes t)) (ofree (root_node t) (allocator t)) in
  wf t' ∅ /\ same_leaves t loc t' ∅.
Proof.
  intros Hw Hn Hz Hh t'. pose proof (wf_root _ _ Hw) as Hr. destruct (Z.eqb_spec (height t) 0); [lia|].
  pose proof (wf_lonely_root t loc n Hw Hn Hz) as Hlone.
  assert (Hall : forall p x, loc !! p = Some x -> p = root_node t).
  { intros p [l pre] Hp. exact (Hlone _ p l pre (Nat.lt_succ_diag_r _) Hp). }
  assert (Hno : forall p, nodes t' !! p = None).
  { intros p. simpl. rewrite lookup_delete. case_decide; [done|]. destruct (nodes t !! p) eqn:E; [|done].
    destruct (proj1 (wf_dom _ _ Hw p)) as [x Hx]; [eauto|]. by apply Hall in Hx. }
  destruct (ofree_live (allocator t) (root_node t)) as [Hok Hlv]; [apply Hw|apply (wf_live _ _ Hw); eauto|].
  split.
  - split; try done.
    + intros p Hp. rewrite Hno in Hp. by destruct Hp.
    + intros p. by rewrite Hno, lookup_empty.
  - intros j v Hj Hleaf. right. split; [done|].
    destruct Hleaf as [(p & m & Hp & Hm & Hv)|[_ ->]]; [|done].
    apply Hall in Hp. subst p. assert (m = n) as -> by congruence. by apply (nz_zero _ _ _ Hz Hv).
Qed.

Lemma remove_loop_ok i : forall k t loc level q n s,
  nodes t !! q = Some n -> loc !! q = Some (level, i / 64 ^ (level + 1)) -> 0 <= level ->
  slots n !! Z.to_nat (radix_tree_level_index i level) = Some s -> s <> 0 ->
  wf (set_nodes (<[q := clear_slot n (radix_tree_level_index i level)]> (nodes t)) t) loc ->
  level + Z.of_nat k = height t ->
  exists t' loc', remove_loop k level q i t = Ret tt t' /\ wf t' loc' /\
    same_leaves (set_nodes (<[q := clear_slot n (radix_tree_level_index i level)]> (nodes t)) t) loc t' loc'.
Proof.
  induction k as [|k IH]; intros t loc level q n s Hn Hq Hlev Hs Hs0 Hw Hk.
  all: set (li := radix_tree_level_index i level) in *; set (tc := set_nodes _ t) in *.
  all: assert (Hnc : nodes tc !! q = Some (clear_slot n li)) by apply lookup_insert_eq.
  all: pose proof (wf_node _ _ Hw _ _ _ _ Hnc Hq) as [Hlen Hcnt Hlv _ _ Hpar]; simpl in Hcnt, Hlv, Hpar, Hlen.
  { exfalso. lia. }
  cbn [remove_loop]. fold li.
  rewrite (bind_Ret _ _ _ _ _ (kassert_nz q _ ltac:(by eapply (wf_nonnull tc)))).
  rewrite (bind_Ret _ _ _ _ _ (get_node_ok _ _ _ Hn)), (bind_Ret _ _ _ _ _ (get_slot_ok _ _ _ _ Hs)).
  rewrite (bind_Ret _ _ _ _ _ (kassert_nz s _ Hs0)).
  pose proof (nz_bound (<[Z.to_nat li := 0]> (slots n))) as Hb.
  assert (Hpos : (count n >? 0) = true) by (apply Z.gtb_lt; lia).
  rewrite (bind_Ret _ _ _ _ _ (kassert_true _ _ Hpos)).
  rewrite (bind_Ret (put_node q (mkRnode (count n - 1) (parent n) (<[Z.to_nat li:=0]> (slots n)))) _ t tt tc eq_refl).
  destruct (Z.eqb_spec (count n - 1) 0) as [Hz|Hz]; cycle 1.
  { exists tc, loc. split_and!; [done..|apply same_leaves_refl]. }
  unfold free_node, modify. unfold bind at 1.
  assert (Hempty : nz (slots (clear_slot n li)) = 0) by (simpl; lia).
  destruct Hpar as [[Hroot Hp0]|(Hne & nq & H1 & H2 & H3)].
  - (* the root is freed *)
    pose proof (wf_root _ _ Hw) as Hr. simpl in Hr. destruct (Z.eqb_spec (height t) 0); [lia|].
    rewrite <- Hroot, Hq in Hr. injection Hr as Hlev' _. assert (k = 0%nat) as -> by lia.
    rewrite Hroot in Hnc. destruct (free_root_wf tc loc _ Hw Hnc Hempty ltac:(simpl; lia)) as [Hw' Hs'].
    eexists _, ∅. split; [|by split]. simpl. rewrite Hp0. unfold bind, kassert, modify; simpl.
    unfold ret, set_root; simpl. by rewrite <- Hroot.
  - (* go on with the parent *)
    set (pre := i / 64 ^ (level + 1)) in *.
    assert (Hli : radix_tree_level_index i (level + 1) = pre mod 64) by (by rewrite level_index_spec by lia).
    assert (Hup : i / 64 ^ (level + 1 + 1) = pre / 64) by (by rewrite prefix_up by lia).
    assert (Hpq : parent n <> q) by (intros Hx; rewrite Hx, Hq in H2; injection H2; lia).
    pose proof (unlink_wf tc loc Hw q (parent n) _ nq level pre Hq Hnc Hempty H1 H2 Hne H3) as Hw2.
    pose proof (unlink_leaves tc loc Hw q (parent n) _ nq level pre Hq Hnc Hempty H1 H2) as Hl2.
    destruct (IH (mkRtree (height tc) (root_node tc) (delete q (nodes tc)) (ofree q (allocator tc)))
      (delete q loc) (level + 1) (parent n) nq q) as (t' & loc' & E & Hw' & Hs').
    + simpl. by rewrite lookup_delete_ne.
    + rewrite lookup_delete_ne by done. by rewrite Hup.
    + lia.
    + by rewrite Hli.
    + by eapply (wf_nonnull tc).
    + by rewrite Hli.
    + simpl. lia.
    + exists t', loc'. split_and!; [done..|]. eapply same_leaves_trans; [exact Hl2|]. by rewrite Hli in Hs'.
Qed.

End lemmas.

(** ** Properties *)

Section properties.
Context {A : Type} `{!ObjAlloc A}.
Implicit Types t : rtree A.

(** The pointer stored at an index. *)
Definition stored t (i v : Z) : Prop := radix_tree_lookup i t = Ret v t.

(** Trees that store the same pointer at every index but [i]. *)
Definition agree_except t t' (i : Z) : Prop :=
  forall j v, 0 <= j -> j <> i -> stored t j v -> stored t' j v.

Lemma insert_ok t i leaf :
  inv t -> 0 <= i < 2 ^ 30 -> leaf <> 0 ->
  exists e t', radix_tree_insert i leaf t = Ret e t' /\ inv t' /\ agree_except t t' i /\
    ((e = ERR_OK /\ stored t i 0 /\ stored t' i leaf) \/
     (e = ERR_RADIX_TREE_NODE_EXIST /\ exists v, v <> 0 /\ stored t i v /\ stored t' i v) \/
     (e = ERR_RADIX_TREE_ALLOC /\ exists v, stored t i v /\ stored t' i v)).
Proof.
  intros [loc Hw] Hi Hleaf. unfold radix_tree_insert.
  rewrite (bind_Ret _ _ _ _ _ (kassert_nz leaf _ Hleaf)).
  pose proof (wf_height _ _ Hw) as Hh.
  assert (Hagree : forall t' loc', wf t' loc' -> same_leaves t loc t' loc' ->
    agree_except t t' i /\ exists v, leafv t loc i v /\ stored t i v /\ stored t' i v).
  { intros t' loc' Hw' Hs. split.
    - intros j v Hj _ Hv. destruct (same_leaves_lookup t loc t' loc' j Hw Hw' Hs Hj) as (w & E & E').
      unfold stored in *. congruence.
    - destruct (lookup_leafv t loc i Hw ltac:(lia)) as (v & E & Hv). exists v. split_and!; [done..|].
      destruct (same_leaves_lookup t loc t' loc' i Hw Hw' Hs ltac:(lia)) as (w & E1 & E'). unfold stored. congruence. }
  destruct (grow_loop_ok i 7 t loc Hw ltac:(lia) ltac:(lia)) as (ok & t1 & loc1 & E1 & Hw1 & Hs1 & Hok).
  rewrite (bind_Ret _ _ _ _ _ E1). destruct ok; simpl; cycle 1.
  { eexists _, t1. split; [done|]. split; [by exists loc1|].
    destruct (Hagree t1 loc1 Hw1 Hs1) as [? (v & _ & ? & ?)]. split; [done|]. eauto 10. }
  destruct (find_parent_alloc_ok i _ t1 loc1 (root_node t1) Hw1 (wf_root_loc t1 loc1 i Hw1 ltac:(auto with lia)))
    as (r & t2 & loc2 & E2 & Hw2 & Hs2 & _ & Hr).
  rewrite (bind_Ret (radix_tree_find_parent i true) _ t1 r t2 E2).
  pose proof (same_leaves_trans _ _ _ _ _ _ Hs1 Hs2) as Hs.
  destruct (Hagree t2 loc2 Hw2 Hs) as [Ha (v & Hlv & Hst & Hst2)].
  destruct Hr as [->|[Hr0 Hr]].
  { eexists _, t2. split; [done|]. split; [by exists loc2|]. split; [done|]. eauto 10. }
  rewrite (proj2 (Z.eqb_neq r 0) Hr0).
  destruct (add_leaf_ok t2 loc2 r i leaf Hw2 Hr Hleaf ltac:(lia)) as [(w & Hw0 & Hlw & E3)|(t3 & E3 & Hl0 & Hw3 & Hl3 & Hothers)];
    rewrite (bind_Ret _ _ _ _ _ E3); simpl.
  - assert (w = v) as -> by exact (leafv_unique t2 loc2 i w v Hw2 Hlw (Hs i v ltac:(lia) Hlv)).
    eexists _, t2. split; [done|]. split; [by exists loc2|]. split; [done|]. eauto 10.
  - assert (v = 0) as -> by exact (leafv_unique t2 loc2 i v 0 Hw2 (Hs i v ltac:(lia) Hlv) Hl0).
    eexists _, t3. split; [done|]. split; [by exists loc2|]. split.
    + intros j x Hj Hne Hx. apply (Ha j x Hj Hne) in Hx. unfold stored in Hx |- *.
      destruct (lookup_leafv t2 loc2 j Hw2 Hj) as (y & Ey & Hy). assert (y = x) as -> by congruence.
      destruct (lookup_leafv t3 loc2 j Hw3 Hj) as (z & Ez & Hz). rewrite Ez.
      by rewrite (leafv_unique t3 loc2 j z x Hw3 Hz (Hothers j x Hj Hne Hy)).
    + left. split_and!; [done..|]. destruct (lookup_leafv t3 loc2 i Hw3 ltac:(lia)) as (z & Ez & Hz).
      unfold stored. rewrite Ez. by rewrite (leafv_unique t3 loc2 i z leaf Hw3 Hz Hl3).
Qed.

Lemma remove_ok t i v :
  inv t -> 0 <= i < capacity t -> stored t i v ->
  exists t', radix_tree_remove i t = Ret v t' /\ inv t' /\ stored t' i 0 /\ agree_except t t' i.
Proof.
  intros [loc Hw] Hi Hst. unfold radix_tree_remove.
  destruct (lookup_leafv t loc i Hw ltac:(lia)) as (v' & Ev & Hlv).
  assert (v' = v) as -> by (unfold stored in Hst; congruence). clear Ev.
  destruct (find_parent_loop_ok t loc i Hw _ _ (wf_root_loc t loc i Hw Hi)) as (r & E & Hr).
  rewrite (bind_Ret (radix_tree_find_parent i false) _ t r t E). destruct Hr as [[Hr0 Hr]|[-> Hno]]; cycle 1.
  { destruct Hlv as [(p & _ & Hp & _)|[_ ->]]; [by apply Hno in Hp|].
    exists t. split_and!; [done|by exists loc|done|by intros j w]. }
  rewrite (proj2 (Z.eqb_neq r 0) Hr0). destruct (wf_has_node _ _ _ _ Hw Hr) as [n Hn].
  pose proof (wf_node _ _ Hw _ _ _ _ Hn Hr) as [Hlen Hcnt _ _ _ _].
  assert (Hli : radix_tree_level_index i 0 = i mod 64) by (by rewrite level_index_spec, Z.pow_0_r, Z.div_1_r by lia).
  assert (Hv : slots n !! Z.to_nat (radix_tree_level_index i 0) = Some v).
  { rewrite Hli. destruct Hlv as [(p & m & Hp & Hm & Hv)|[Hno _]]; [|by apply Hno in Hr].
    assert (p = r) as -> by (by eapply wf_inj). congruence. }
  rewrite (bind_Ret _ _ _ _ _ (get_node_ok _ _ _ Hn)), (bind_Ret _ _ _ _ _ (get_slot_ok _ _ _ _ Hv)).
  destruct (Z.eqb_spec v 0) as [->|Hv0].
  { exists t. split_and!; [done|by exists loc|done|by intros j w]. }
  set (tc := set_nodes (<[r := clear_slot n (radix_tree_level_index i 0)]> (nodes t)) t).
  assert (Hwc : wf tc loc).
  { eapply replace_leaf_node_wf; eauto; simpl; [by rewrite length_insert|rewrite (nz_clear _ _ _ Hv Hv0); lia]. }
  pose proof (wf_height _ _ Hw) as Hh.
  destruct (remove_loop_ok i (Z.to_nat (height t)) t loc 0 r n v) as (t' & loc' & E' & Hw' & Hs');
    [done|by rewrite Z.pow_1_r|lia|done|done|done|lia|].
  unfold gets at 1. unfold bind at 1. rewrite (bind_Ret _ _ _ _ _ E'). exists t'.
  assert (Hread : forall j w, 0 <= j -> leafv tc loc j w -> stored t' j w).
  { intros j w Hj Hw0. destruct (lookup_leafv t' loc' j Hw' Hj) as (z & Ez & Hz). unfold stored. rewrite Ez.
    by rewrite (leafv_unique t' loc' j z w Hw' Hz (Hs' j w Hj Hw0)). }
  pose proof (Z.mod_pos_bound i 64 ltac:(lia)) as Hmod.
  split_and!; [done|by exists loc'|apply Hread; [lia|]|].
  - left. exists r. eexists. simpl. rewrite lookup_insert_eq. split_and!; [done..|]. simpl. rewrite Hli.
    apply list_lookup_insert_eq. lia.
  - intros j w Hj Hne Hjw. apply Hread; [done|].
    destruct (lookup_leafv t loc j Hw Hj) as (w' & Ew & Hw0). assert (w' = w) as -> by (unfold stored in Hjw; congruence).
    destruct Hw0 as [(q & m & Hq & Hm & Hwv)|Hno]; [|by right]. left. exists q. simpl.
    destruct (decide (q = r)) as [->|Hqr]; [|rewrite lookup_insert_ne by done; eauto].
    rewrite lookup_insert_eq. eexists; split_and!; [done..|]. assert (m = n) as -> by congruence. simpl.
    rewrite list_lookup_insert_ne; [done|]. rewrite Hli. intros Hx. apply Hne.
    assert (j / 64 = i / 64) by congruence. pose proof (Z.mod_pos_bound j 64 ltac:(lia)).
    assert (i mod 64 = j mod 64) by lia. rewrite (Z.div_mod i 64), (Z.div_mod j 64) by lia. lia.
Qed.

Lemma stored_capacity t loc i v : wf t loc -> stored t i v -> v <> 0 -> i < capacity t.
Proof.
  intros Hw Hs Hv. unfold stored, radix_tree_lookup in Hs. rewrite (bind_Ret _ _ _ _ _ (max_index_ok t (wf_height _ _ Hw))) in Hs.
  destruct (Z.gtb_spec i (capacity t - 1)); [|lia]. by injection Hs as <-.
Qed.

#[global] Instance radix_tree_map : PtrMap (rtree A).
Proof.
  refine {|
    plookup := radix_tree_lookup;
    pinsert := radix_tree_insert;
    premove := radix_tree_remove;
    pget t i := match radix_tree_lookup i t with Ret v _ => v | Halt _ _ => 0 end;
    pok := inv |}.
  - intros t i [loc Hw] Hi. destruct (lookup_leafv t loc i Hw ltac:(lia)) as (v & E & _). by rewrite E.
  - intros t i p Hinv Hi Hp Hg. destruct (insert_ok t i p Hinv Hi Hp) as (e & t' & E & Hinv' & Ha & Hcase).
    exists e, t'. split; [done|]. split; [done|]. split.
    + intros j Hj Hne. destruct Hinv as [loc Hw]. destruct (lookup_leafv t loc j Hw ltac:(lia)) as (v & Ev & _).
      assert (Hs : stored t' j v) by (by apply (Ha j v); [lia|..]). unfold stored in Hs. by rewrite Ev, Hs.
    + unfold stored in Hcase. destruct Hcase as [(-> & _ & ->)|[(-> & v & Hv & E1 & _)|(-> & v & E1 & E2)]]; [by left| |right].
      * by rewrite E1 in Hg.
      * rewrite E2. rewrite E1 in Hg. done.
  - intros t i p Hinv Hi Hp Hg. destruct (insert_ok t i p Hinv Hi Hp) as (e & t' & E & Hinv' & Ha & Hcase).
    exists e, t'. split; [done|]. split; [done|]. unfold stored in Hcase. split.
    + destruct Hcase as [(_ & E1 & _)|[(-> & _)|(-> & _)]]; [by rewrite E1 in Hg|done|done].
    + intros j Hj. destruct (decide (j = i)) as [->|Hne].
      * destruct Hcase as [(_ & E1 & _)|[(_ & v & _ & E1 & E2)|(_ & v & E1 & E2)]]; [by rewrite E1 in Hg|by rewrite E1, E2|by rewrite E1, E2].
      * destruct Hinv as [loc Hw]. destruct (lookup_leafv t loc j Hw ltac:(lia)) as (v & Ev & _).
        assert (Hs : stored t' j v) by (by apply (Ha j v); [lia|..]). unfold stored in Hs. by rewrite Ev, Hs.
  - intros t i Hinv Hi Hg. destruct Hinv as [loc Hw]. destruct (lookup_leafv t loc i Hw ltac:(lia)) as (v & Ev & _). rewrite Ev in Hg |- *.
    destruct (remove_ok t i v) as (t' & E & Hinv' & H0 & Ha); [by exists loc|split; [lia|by apply (stored_capacity t loc i v)]|done|]. exists t'. split; [done|]. split; [done|].
    split; [unfold stored in H0; by rewrite H0|]. intros j Hj Hne. destruct (lookup_leafv t loc j Hw ltac:(lia)) as (w & Ew & _). assert (Hs : stored t' j w) by (by apply Ha; [lia|..]). unfold stored in Hs. by rewrite Ew, Hs.
Defined.



(** Both loops look at the index only through its level indices. *)
Lemma find_parent_loop_index i i' : forall level node t,
  (forall l, 0 <= l <= Z.of_nat level -> radix_tree_level_index i l = radix_tree_level_index i' l) ->
  find_parent_loop level node i false t = find_parent_loop level node i' false t.
Proof.
  induction level as [|level IH]; intros node t Hl; cbn [find_parent_loop]; [done|].
  rewrite (Hl (Z.of_nat (S level))) by lia. destruct (node =? 0); [done|]. unfold bind.
  destruct (get_node node t) as [n t1|]; [|done]. destruct (get_slot _ _ t1) as [c t2|]; [|done].
  rewrite andb_false_r. apply IH. intros. apply Hl. lia.
Qed.
Lemma remove_loop_index i i' : forall k level node t, 0 <= level ->
  (forall l, 0 <= l < level + Z.of_nat k -> radix_tree_level_index i l = radix_tree_level_index i' l) ->
  remove_loop k level node i t = remove_loop k level node i' t.
Proof.
  induction k as [|k IH]; intros level node t Hlev Hl; cbn [remove_loop]; [done|].
  rewrite (Hl level) by lia. unfold bind.
  repeat match goal with |- context [match ?x with Ret _ _ => _ | Halt _ _ => _ end] => destruct x; [|done] end.
  destruct (_ =? 0); [|done]. unfold free_node, modify. apply IH; [lia|]. intros. apply Hl. lia.
Qed.

Lemma level_index_mod i h l : 0 <= l < h -> radix_tree_level_index i l = radix_tree_level_index (i mod 64 ^ h) l.
Proof.
  intros Hl. rewrite !level_index_spec by lia.
  replace (64 ^ h) with (64 ^ l * 64 ^ (h - l)) by (rewrite <- Z.pow_add_r by lia; f_equal; lia).
  rewrite Z.rem_mul_r by lia. rewrite (Z.mul_comm (64 ^ l)), Z.div_add by lia.
  rewrite (Z.div_small (i mod 64 ^ l)) by (apply Z.mod_pos_bound; lia). rewrite Z.add_0_l.
  replace (64 ^ (h - l)) with (64 * 64 ^ (h - l - 1)) by (rewrite <- Z.pow_succ_r by lia; f_equal; lia).
  rewrite Z.rem_mul_r by lia. rewrite Z.mul_comm, Z.mod_add, Z.mod_mod by lia. done.
Qed.

(** [radix_tree_remove] does not check its index against the range of the
    tree, as [radix_tree_lookup] does: removing an index past the range is
    removing its residue, so it takes out an unrelated entry. *)
Theorem radix_tree_remove_aliases t i :
  inv t -> 0 < height t ->
  radix_tree_remove i t = radix_tree_remove (i mod capacity t) t.
Proof.
  intros [loc Hw] Hh. assert (Hcap : capacity t = 64 ^ height t).
  { unfold capacity. destruct (Z.eqb_spec (height t) 0); [lia|done]. }
  assert (Hl : forall l, 0 <= l < height t -> radix_tree_level_index i l = radix_tree_level_index (i mod capacity t) l).
  { intros l Hl. rewrite Hcap. by apply level_index_mod. }
  unfold radix_tree_remove, radix_tree_leaf_index. rewrite <- (Hl 0) by lia.
  apply bind_cong.
  { unfold radix_tree_find_parent. apply find_parent_loop_index. intros; apply Hl; lia. }
  intros r t1 E.
  assert (t1 = t) as ->.
  { pose proof (Z.mod_pos_bound i (capacity t) ltac:(rewrite Hcap; lia)) as Hb.
    destruct (find_parent_loop_ok t loc (i mod capacity t) Hw _ _ (wf_root_loc t loc _ Hw Hb)) as (r' & E' & _).
    unfold radix_tree_find_parent in E.
    rewrite (find_parent_loop_index i (i mod capacity t)) in E by (intros; apply Hl; lia). congruence. }
  destruct (r =? 0); [done|]. apply bind_cong; [done|]. intros n t1 En.
  assert (t1 = t) as -> by (unfold get_node in En; destruct (nodes t !! r); congruence).
  apply bind_cong; [done|]. intros lf t1 Es.
  assert (t1 = t) as -> by (unfold get_slot, of_option, ret, stop in Es; destruct (slots n !! _); congruence).
  destruct (lf =? 0); [done|]. apply bind_cong; [done|]. intros h t1 [= <- <-].
  apply bind_cong; [|done].
  apply remove_loop_index; [lia|]. intros; apply Hl; lia.
Qed.

End properties.

(** *** Witnesses: a tree with one leaf, and an allocator with 20 free objects *)
Definition ex_empty : rtree Bump.bump := mkRtree 0 0 ∅ (Bump.mkBump 20 100 ∅).

Lemma ex_empty_inv : inv ex_empty.
Proof.
  exists ∅. split; simpl; try done.
  - by intros p [? ?%lookup_empty_Some].
  - intros p. by rewrite !lookup_empty, !is_Some_alt.
Qed.


(** The tree after storing 77 at index 5. *)
Definition ex_one : rtree Bump.bump :=
  mkRtree 1 100 {[ 100 := mkRnode 1 0 (<[5%nat := 77]> empty_slots) ]} (Bump.mkBump 19 101 {[100]}).

Lemma ex_one_inv : inv ex_one.
Proof.
  exists {[ 100 := (0, 0) ]}. split; simpl; try done.
  - split; [lia|]. set_solver.
  - intros p [n [<- _]%lookup_singleton_Some]. set_solver.
  - intros p. rewrite !lookup_singleton. case_decide; [split; eauto|]. by split; intros [? [=]].
  - intros p q x [<- _]%lookup_singleton_Some [<- _]%lookup_singleton_Some. done.
  - intros p n l pre [<- <-]%lookup_singleton_Some. rewrite lookup_singleton_eq. intros [= <- <-].
    split; simpl; try done; by left.
Qed.


Lemma radix_tree_remove_aliases_witness :
  radix_tree_remove 69 ex_one = radix_tree_remove 5 ex_one /\
  (exists t', radix_tree_remove 69 ex_one = Ret 77 t').
Proof.
  split; [apply (radix_tree_remove_aliases ex_one 69 ex_one_inv); by vm_compute|].
  eexists. by vm_compute.
Defined.

End RadixTree.
