(* ===== verification/Pipe.v ===== *)
(** * Pipes: kernel/pipe.c, include/kernel/pipe.h

    A pipe is a ring buffer of 512 bytes with two offsets that are never
    reduced modulo the buffer size, a spinlock, two condition variables and
    the numbers of open ends.  The model keeps the pipes in a heap, the queue
    of sleepers of each condition variable, and what each thread is doing;
    the interleavings of the threads are the traces of a step relation, one
    step per critical section. *)

From S2P Require Import Prelude Alloc.
Local Open Scope kernel_scope.

Module Pipe.

Definition PIPE_SZ : Z := 512.

(** [struct kpipe]; the spinlock is its holder, a condition variable the list
    of the threads that wait on it. *)
Record kpipe := mkPipe {
  buffer : list Z;
  pipe_lock : option Z;
  pipe_notempty_cv : list Z;
  pipe_full_cv : list Z;
  read_ofs : Z;
  write_ofs : Z;
  readers : Z;
  writers : Z;
  fd_reader : Z;
  fd_writer : Z;
}.

(** What a thread is doing: a pending [kpipe_read] or [kpipe_write] that waits
    for the lock ([fresh] when the call has not yet tested for readers), or
    one that sleeps in [condvar_wait]. *)
Inductive activity :=
| Idle
| Reading (f count : Z)
| Writing (fresh : bool) (f : Z) (data : list Z)
| ReadSleep (f count : Z)
| WriteSleep (f : Z) (data : list Z).

(** The two condition variables of a pipe. *)
Inductive cvar := NotEmpty | Full.
#[export] Instance cvar_eq_dec : EqDecision cvar.
Proof. solve_decision. Defined.

Section model.
Context {A : Type} `{!ObjAlloc A}.

(** The pipes, the [kpipe] field of the open files (0: NULL), the allocator
    behind [kmalloc], and the threads. *)
Record sys := mkSys {
  pipes : gmap Z kpipe;
  files : gmap Z Z;
  kmem : A;
  threads : gmap Z activity;
}.

Definition set_pipes (ps : gmap Z kpipe) (s : sys) : sys := mkSys ps (files s) (kmem s) (threads s).
Definition set_threads (ts : gmap Z activity) (s : sys) : sys := mkSys (pipes s) (files s) (kmem s) ts.

Definition get_pipe (p : Z) : M sys kpipe :=
  fun s => match pipes s !! p with Some k => Ret k s | None => Halt Fault s end.
Definition put_pipe (p : Z) (k : kpipe) : M sys unit :=
  modify (fun s => set_pipes (<[p := k]> (pipes s)) s).
Definition upd_pipe (p : Z) (g : kpipe -> kpipe) : M sys unit :=
  k <- get_pipe p ;; put_pipe p (g k).
Definition file_kpipe (f : Z) : M sys Z :=
  fun s => match files s !! f with Some p => Ret p s | None => Halt Fault s end.

Definition set_lock (h : option Z) (k : kpipe) : kpipe :=
  mkPipe (buffer k) h (pipe_notempty_cv k) (pipe_full_cv k) (read_ofs k) (write_ofs k)
    (readers k) (writers k) (fd_reader k) (fd_writer k).
Definition cv (c : cvar) (k : kpipe) : list Z :=
  match c with NotEmpty => pipe_notempty_cv k | Full => pipe_full_cv k end.
Definition set_cv (c : cvar) (l : list Z) (k : kpipe) : kpipe :=
  mkPipe (buffer k) (pipe_lock k)
    (match c with NotEmpty => l | Full => pipe_notempty_cv k end)
    (match c with NotEmpty => pipe_full_cv k | Full => l end)
    (read_ofs k) (write_ofs k) (readers k) (writers k) (fd_reader k) (fd_writer k).
Definition set_ring (b : list Z) (r w : Z) (k : kpipe) : kpipe :=
  mkPipe b (pipe_lock k) (pipe_notempty_cv k) (pipe_full_cv k) r w
    (readers k) (writers k) (fd_reader k) (fd_writer k).
Definition set_refs (r w : Z) (k : kpipe) : kpipe :=
  mkPipe (buffer k) (pipe_lock k) (pipe_notempty_cv k) (pipe_full_cv k) (read_ofs k) (write_ofs k)
    r w (fd_reader k) (fd_writer k).

(** ** Locks and condition variables of the pipe (kernel/synch.c) *)

(** [spinlock_acquire] by thread [t]: taking a lock twice panics; a lock that
    another thread holds keeps [t] spinning. *)
Definition spinlock_acquire (t p : Z) : M sys unit :=
  k <- get_pipe p ;;
  match pipe_lock k with
  | None => put_pipe p (set_lock (Some t) k)
  | Some h => if h =? t then stop Panic else stop Block
  end.

Definition spinlock_release (p : Z) : M sys unit := upd_pipe p (set_lock None).

(** [sched_ready]: a sleeping thread goes on, and takes the lock again. *)
Definition wakeup (t : Z) (ts : gmap Z activity) : gmap Z activity :=
  match ts !! t with
  | Some (ReadSleep f c) => <[t := Reading f c]> ts
  | Some (WriteSleep f d) => <[t := Writing false f d]> ts
  | _ => ts
  end.
Definition sched_ready (t : Z) : M sys unit :=
  modify (fun s => set_threads (wakeup t (threads s)) s).

Definition condvar_signal (c : cvar) (p : Z) : M sys unit :=
  k <- get_pipe p ;;
  match cv c k with
  | [] => ret tt
  | t :: ts => put_pipe p (set_cv c ts k) ;; sched_ready t
  end.

(** [condvar_wait] up to the switch to another thread: [t] queues up and the
    lock is released. *)
Definition condvar_wait (c : cvar) (t p : Z) : M sys unit :=
  k <- get_pipe p ;;
  put_pipe p (set_cv c (cv c k ++ [t]) k) ;;
  spinlock_release p.

(** ** Operations *)

(** [kpipe_allocate]: NULL (0), or a zeroed structure. *)
Definition kpipe_allocate : M sys Z :=
  fun s => match oalloc (kmem s) with
           | (None, a) => Ret 0 (mkSys (pipes s) (files s) a (threads s))
           | (Some p, a) =>
               Ret p (mkSys (<[p := mkPipe (replicate 512 0) None [] [] 0 0 0 0 0 0]> (pipes s))
                        (files s) a (threads s))
           end.

Definition kpipe_init (f fd_r fd_w : Z) : M sys err_t :=
  p <- kpipe_allocate ;;
  if p =? 0 then ret ERR_NOMEM
  else
    upd_pipe p (fun k => mkPipe (buffer k) None [] [] 0 0 1 1 fd_r fd_w) ;;
    modify (fun s => mkSys (pipes s) (<[f := p]> (files s)) (kmem s) (threads s)) ;;
    ret ERR_OK.

Definition kfree (p : Z) : M sys unit :=
  modify (fun s => mkSys (delete p (pipes s)) (files s) (ofree p (kmem s)) (threads s)).

Definition kpipe_close (t f : Z) : M sys unit :=
  p <- file_kpipe f ;;
  spinlock_acquire t p ;;
  k <- get_pipe p ;;
  (if (writers k =? 0) && (readers k =? 0) then
     kfree p ;;
     modify (fun s => mkSys (pipes s) (<[f := 0]> (files s)) (kmem s) (threads s))
   else ret tt) ;;
  spinlock_release p.

Definition is_empty (k : kpipe) : bool := u64 (write_ofs k - read_ofs k) =? 0.
Definition is_full (k : kpipe) : bool := u64 (write_ofs k - read_ofs k) =? PIPE_SZ.

(** The copying loop of [kpipe_read]: the bytes it stores into [buf]. *)
Fixpoint read_loop (to_read : nat) (p : Z) : M sys (list Z) :=
  match to_read with
  | O => ret []
  | S to_read' =>
      k <- get_pipe p ;;
      if is_empty k then ret []
      else
        c <- of_option Fault (buffer k !! Z.to_nat (read_ofs k `mod` PIPE_SZ)) ;;
        put_pipe p (set_ring (buffer k) (u64 (read_ofs k + 1)) (write_ofs k) k) ;;
        rest <- read_loop to_read' p ;;
        ret (c :: rest)
  end.

(** The copying loop of [kpipe_write]: how many bytes it takes from [data]. *)
Fixpoint write_loop (data : list Z) (p : Z) : M sys Z :=
  match data with
  | [] => ret 0
  | c :: data' =>
      k <- get_pipe p ;;
      if is_full k then ret 0
      else
        put_pipe p (set_ring (<[Z.to_nat (write_ofs k `mod` PIPE_SZ) := c]> (buffer k))
                      (read_ofs k) (u64 (write_ofs k + 1)) k) ;;
        n <- write_loop data' p ;;
        ret (n + 1)
  end.

(** A critical section ends with the result of the call, or asleep. *)
Inductive rresult := RDone (bytes : list Z) | RSleep.
Inductive wresult := WDone (n : Z) | WSleep.

(** [kpipe_read] from the test of its waiting loop on, with the lock held.
    The number of bytes it returns is the length of the list. *)
Definition read_locked (t p count : Z) : M sys rresult :=
  k <- get_pipe p ;;
  if is_empty k then
    if writers k =? 0 then spinlock_release p ;; ret (RDone [])
    else condvar_wait NotEmpty t p ;; ret RSleep
  else
    bytes <- read_loop (Z.to_nat count) p ;;
    (if 0 <? Z.of_nat (length bytes) then condvar_signal Full p else ret tt) ;;
    spinlock_release p ;;
    ret (RDone bytes).

Definition kpipe_read (t f count : Z) : M sys rresult :=
  p <- file_kpipe f ;; spinlock_acquire t p ;; read_locked t p count.

Definition write_locked (t p : Z) (data : list Z) : M sys wresult :=
  k <- get_pipe p ;;
  if is_full k then condvar_wait Full t p ;; ret WSleep
  else
    n <- write_loop data p ;;
    (if 0 <? n then condvar_signal NotEmpty p else ret tt) ;;
    spinlock_release p ;;
    ret (WDone n).

Definition kpipe_write (t f : Z) (data : list Z) : M sys wresult :=
  p <- file_kpipe f ;;
  spinlock_acquire t p ;;
  k <- get_pipe p ;;
  if readers k =? 0 then spinlock_release p ;; ret (WDone ERR_END)
  else write_locked t p data.

(** [kpipe_write] after [condvar_wait] returned. *)
Definition kpipe_write_woken (t f : Z) (data : list Z) : M sys wresult :=
  p <- file_kpipe f ;; spinlock_acquire t p ;; write_locked t p data.

(** The reference counts are 64-bit and are updated through an [int]. *)
Definition kpipe_ref_decrease (t f fd : Z) : M sys unit :=
  p <- file_kpipe f ;;
  if p =? 0 then ret tt
  else
    spinlock_acquire t p ;;
    k <- get_pipe p ;;
    (if fd =? fd_reader k
     then put_pipe p (set_refs (u64 (s32 (s32 (readers k) - 1))) (writers k) k)
     else put_pipe p (set_refs (readers k) (u64 (s32 (s32 (writers k) - 1))) k)) ;;
    spinlock_release p.

Definition kpipe_ref_increase (t f fd : Z) : M sys unit :=
  p <- file_kpipe f ;;
  if p =? 0 then ret tt
  else
    spinlock_acquire t p ;;
    k <- get_pipe p ;;
    (if fd =? fd_reader k
     then put_pipe p (set_refs (u64 (s32 (s32 (readers k) + 1))) (writers k) k)
     else put_pipe p (set_refs (readers k) (u64 (s32 (s32 (writers k) + 1))) k)) ;;
    spinlock_release p.

(** ** Interleavings *)

(** What a step does to the pipe [p] it works on. *)
Inductive event :=
| Got (p : Z) (bytes : list Z)
| Put (p : Z) (bytes : list Z)
| Other.

Definition set_activity (t : Z) (a : activity) (s : sys) : sys :=
  set_threads (<[t := a]> (threads s)) s.

Inductive step : sys -> event -> sys -> Prop :=
| step_call_read s t f count :
    threads s !! t = Some Idle -> is_Some (files s !! f ≫= fun p => pipes s !! p) -> 0 <= count ->
    step s Other (set_activity t (Reading f count) s)
| step_call_write s t f data :
    threads s !! t = Some Idle -> is_Some (files s !! f ≫= fun p => pipes s !! p) ->
    step s Other (set_activity t (Writing true f data) s)
| step_read_done s t f count p bytes s' :
    threads s !! t = Some (Reading f count) -> files s !! f = Some p ->
    kpipe_read t f count s = Ret (RDone bytes) s' ->
    step s (Got p bytes) (set_activity t Idle s')
| step_read_sleep s t f count s' :
    threads s !! t = Some (Reading f count) ->
    kpipe_read t f count s = Ret RSleep s' ->
    step s Other (set_activity t (ReadSleep f count) s')
| step_write_done s t (fresh : bool) f data p n s' :
    threads s !! t = Some (Writing fresh f data) -> files s !! f = Some p ->
    (if fresh then kpipe_write else kpipe_write_woken) t f data s = Ret (WDone n) s' ->
    step s (Put p (take (Z.to_nat n) data)) (set_activity t Idle s')
| step_write_sleep s t (fresh : bool) f data s' :
    threads s !! t = Some (Writing fresh f data) ->
    (if fresh then kpipe_write else kpipe_write_woken) t f data s = Ret WSleep s' ->
    step s Other (set_activity t (WriteSleep f data) s')
| step_ref_increase s t f fd s' :
    threads s !! t = Some Idle -> kpipe_ref_increase t f fd s = Ret tt s' -> step s Other s'
| step_ref_decrease s t f fd s' :
    threads s !! t = Some Idle -> kpipe_ref_decrease t f fd s = Ret tt s' -> step s Other s'.

Inductive steps : sys -> list event -> sys -> Prop :=
| steps_nil s : steps s [] s
| steps_snoc s es s' e s'' : steps s es s' -> step s' e s'' -> steps s (es ++ [e]) s''.

(** The bytes a trace delivered from, and accepted into, pipe [p]. *)
Fixpoint got (p : Z) (es : list event) : list Z :=
  match es with
  | [] => []
  | Got q bs :: es' => (if q =? p then bs else []) ++ got p es'
  | _ :: es' => got p es'
  end.
Fixpoint sent (p : Z) (es : list event) : list Z :=
  match es with
  | [] => []
  | Put q bs :: es' => (if q =? p then bs else []) ++ sent p es'
  | _ :: es' => sent p es'
  end.

End model.
Arguments sys : clear implicits.

(** ** The queue a ring buffer represents *)

(** [n] bytes of the buffer from offset [r] on, wrapping around. *)
Fixpoint ring (b : list Z) (r : Z) (n : nat) : list Z :=
  match n with
  | O => []
  | S n' => b !!! Z.to_nat (r `mod` PIPE_SZ) :: ring b (r + 1) n'
  end.

Definition pending (k : kpipe) : Z := u64 (write_ofs k - read_ofs k).
Definition contents (k : kpipe) : list Z := ring (buffer k) (read_ofs k) (Z.to_nat (pending k)).

(** Between two critical sections. *)
Record pipe_ok (k : kpipe) : Prop := {
  ok_len : length (buffer k) = 512%nat;
  ok_pending : 0 <= pending k <= PIPE_SZ;
}.

Lemma ring_length b r n : length (ring b r n) = n.
Proof. revert r. induction n; intros; simpl; auto. Qed.

Lemma contents_length k : pipe_ok k -> Z.of_nat (length (contents k)) = pending k.
Proof. intros [_ H]. unfold contents. rewrite ring_length. lia. Qed.

Lemma ring_mod b r r' n : r `mod` PIPE_SZ = r' `mod` PIPE_SZ -> ring b r n = ring b r' n.
Proof.
  revert r r'. induction n as [|n IH]; intros r r' E; simpl; [done|]. f_equal; [by rewrite E|].
  apply IH. by rewrite <- (Zplus_mod_idemp_l r), E, Zplus_mod_idemp_l.
Qed.

Lemma ring_wrap b x n : ring b (u64 x) n = ring b x n.
Proof. apply ring_mod, wrap_mod. by exists (2 ^ 55). Qed.

Lemma ring_insert_far b c n r q :
  0 <= q < PIPE_SZ -> (forall i, 0 <= i < Z.of_nat n -> (r + i) `mod` PIPE_SZ <> q) ->
  ring (<[Z.to_nat q := c]> b) r n = ring b r n.
Proof.
  intros Hq. revert r. induction n as [|n IH]; intros r Hne; simpl; [done|]. f_equal.
  - apply list_lookup_total_insert_ne. pose proof (Z.mod_pos_bound r PIPE_SZ ltac:(done)).
    specialize (Hne 0). rewrite Z.add_0_r in Hne. lia.
  - apply IH. intros i Hi. rewrite <- Z.add_assoc. apply Hne. lia.
Qed.

Lemma ring_snoc b r n :
  ring b r (S n) = ring b r n ++ [b !!! Z.to_nat ((r + Z.of_nat n) `mod` PIPE_SZ)].
Proof.
  revert r. induction n as [|n IH]; intros r.
  - simpl. by rewrite Z.add_0_r.
  - change (ring b r (S (S n))) with (b !!! Z.to_nat (r `mod` PIPE_SZ) :: ring b (r + 1) (S n)).
    rewrite (IH (r + 1)). simpl. by replace (r + Z.of_nat (S n)) with (r + 1 + Z.of_nat n) by lia.
Qed.

Definition pop (k : kpipe) : kpipe := set_ring (buffer k) (u64 (read_ofs k + 1)) (write_ofs k) k.
Definition push (c : Z) (k : kpipe) : kpipe :=
  set_ring (<[Z.to_nat (write_ofs k `mod` PIPE_SZ) := c]> (buffer k)) (read_ofs k) (u64 (write_ofs k + 1)) k.

Lemma pending_pop k : pending k <> 0 -> pending (pop k) = pending k - 1.
Proof.
  unfold pending, wrap; simpl. unfold wrap. intros H. rewrite Zminus_mod_idemp_r.
  replace (write_ofs k - (read_ofs k + 1)) with (write_ofs k - read_ofs k - 1) by lia.
  pose proof (Z.mod_pos_bound (write_ofs k - read_ofs k) (2 ^ 64) ltac:(lia)).
  rewrite <- Zminus_mod_idemp_l. apply Z.mod_small. lia.
Qed.

Lemma pending_push c k : pipe_ok k -> pending k <> PIPE_SZ -> pending (push c k) = pending k + 1.
Proof.
  intros [_ H]. unfold pending, wrap, PIPE_SZ in *; simpl. unfold wrap in *. intros Hne. rewrite Zminus_mod_idemp_l.
  replace (write_ofs k + 1 - read_ofs k) with (write_ofs k - read_ofs k + 1) by lia.
  rewrite <- Zplus_mod_idemp_l. apply Z.mod_small. lia.
Qed.

Lemma pop_spec k : pipe_ok k -> is_empty k = false ->
  exists c, buffer k !! Z.to_nat (read_ofs k `mod` PIPE_SZ) = Some c /\
    contents k = c :: contents (pop k) /\ pipe_ok (pop k).
Proof.
  intros Hok He. unfold is_empty in He. zbool. fold (pending k) in He.
  pose proof (pending_pop k He) as Hp. destruct (Hok) as [Hl Hpd].
  pose proof (Z.mod_pos_bound (read_ofs k) PIPE_SZ ltac:(done)) as Hm. unfold PIPE_SZ in *.
  destruct (lookup_lt_is_Some_2 (buffer k) (Z.to_nat (read_ofs k `mod` 512)) ltac:(lia)) as [c Hc].
  exists c. split_and!; [done| |split; [done|rewrite Hp; unfold PIPE_SZ; lia]].
  unfold contents. rewrite Hp. replace (Z.to_nat (pending k)) with (S (Z.to_nat (pending k - 1))) by lia.
  simpl. rewrite ring_wrap. f_equal. by apply list_lookup_total_correct.
Qed.

Lemma push_spec c k : pipe_ok k -> is_full k = false ->
  contents (push c k) = contents k ++ [c] /\ pipe_ok (push c k).
Proof.
  intros Hok He. unfold is_full in He. zbool. fold (pending k) in He.
  pose proof (pending_push c k Hok He) as Hp. destruct (Hok) as [Hl Hpd].
  pose proof (Z.mod_pos_bound (write_ofs k) PIPE_SZ ltac:(done)) as Hm.
  split; [|split; [simpl; by rewrite length_insert|rewrite Hp; lia]].
  unfold contents. rewrite Hp. replace (Z.to_nat (pending k + 1)) with (S (Z.to_nat (pending k))) by lia.
  rewrite ring_snoc. simpl. rewrite Z2Nat.id by lia.
  assert (Hw : forall i, (read_ofs k + i) `mod` PIPE_SZ = (write_ofs k + (i - pending k)) `mod` PIPE_SZ).
  { intros i. unfold pending, wrap. pose proof (Z.div_mod (write_ofs k - read_ofs k) (2 ^ 64) ltac:(done)) as Hd.
    replace (read_ofs k + i) with
      (write_ofs k + (i - (write_ofs k - read_ofs k) `mod` 2 ^ 64) +
       (- (2 ^ 55) * ((write_ofs k - read_ofs k) `div` 2 ^ 64)) * PIPE_SZ).
    - by apply Z.mod_add.
    - unfold PIPE_SZ. lia. }
  f_equal.
  - apply ring_insert_far; [done|]. intros i Hi Heq. rewrite Hw in Heq.
    assert ((i - pending k) `mod` PIPE_SZ = 0) as Hz.
    { replace (i - pending k) with (write_ofs k + (i - pending k) - write_ofs k) by lia.
      by rewrite Zminus_mod, Heq, Z.sub_diag. }
    apply Z.mod_divide in Hz as [z Hz]; [|done]. unfold PIPE_SZ in *. nia.
  - rewrite Hw, Z.sub_diag, Z.add_0_r. f_equal. apply list_lookup_total_insert_eq. unfold PIPE_SZ in *. lia.
Qed.

(** ** Critical sections *)

Section sections.
Context {A : Type} `{!ObjAlloc A}.
Implicit Types (s : sys A) (k : kpipe).

Definition upd (p : Z) (k : kpipe) (s : sys A) : sys A := set_pipes (<[p := k]> (pipes s)) s.

(** Everything but the ring. *)
Definition meta (k : kpipe) :=
  (pipe_lock k, pipe_notempty_cv k, pipe_full_cv k, readers k, writers k, fd_reader k, fd_writer k).

Lemma upd_lookup p k s : pipes (upd p k s) !! p = Some k.
Proof. apply lookup_insert_eq. Qed.

Lemma upd_upd p k k' s : upd p k (upd p k' s) = upd p k s.
Proof. unfold upd, set_pipes; simpl. by rewrite insert_insert_eq. Qed.

Lemma upd_id p k s : pipes s !! p = Some k -> upd p k s = s.
Proof. intros H. unfold upd, set_pipes. rewrite insert_id by done. by destruct s. Qed.

Lemma get_pipe_Some {B} p k s (f : kpipe -> M (sys A) B) :
  pipes s !! p = Some k -> bind (get_pipe p) f s = f k s.
Proof. intros H. apply bind_Ret. unfold get_pipe. by rewrite H. Qed.

Lemma put_pipe_upd {B} p k s (f : unit -> M (sys A) B) : bind (put_pipe p k) f s = f tt (upd p k s).
Proof. done. Qed.

Lemma file_kpipe_Some {B} f p s (g : Z -> M (sys A) B) :
  files s !! f = Some p -> bind (file_kpipe f) g s = g p s.
Proof. intros H. apply bind_Ret. unfold file_kpipe. by rewrite H. Qed.

Lemma acquire_free {B} t p k s (f : unit -> M (sys A) B) :
  pipes s !! p = Some k -> pipe_lock k = None ->
  bind (spinlock_acquire t p) f s = f tt (upd p (set_lock (Some t) k) s).
Proof.
  intros Hk Hl. apply bind_Ret. unfold spinlock_acquire. rewrite (get_pipe_Some p k) by done. by rewrite Hl.
Qed.

Lemma release_eq p k s : pipes s !! p = Some k -> spinlock_release p s = Ret tt (upd p (set_lock None k) s).
Proof. intros Hk. unfold spinlock_release, upd_pipe. by rewrite (get_pipe_Some p k). Qed.

Lemma set_lock_None h k : pipe_lock k = None -> set_lock None (set_lock h k) = k.
Proof. destruct k; simpl. by intros ->. Qed.

Lemma read_loop_spec n : forall p k s, pipes s !! p = Some k -> pipe_ok k ->
  exists k', read_loop n p s = Ret (take n (contents k)) (upd p k' s) /\
    pipe_ok k' /\ contents k' = drop n (contents k) /\ meta k' = meta k.
Proof.
  induction n as [|n IH]; intros p k s Hk Hok; cbn [read_loop].
  { exists k. rewrite (upd_id p k s) by done. done. }
  rewrite (get_pipe_Some p k) by done. destruct (is_empty k) eqn:He.
  - exists k. rewrite (upd_id p k s) by done. unfold is_empty in He. zbool.
    assert (contents k = []) as -> by (unfold contents, pending; by rewrite He). done.
  - destruct (pop_spec k Hok He) as (c & Hc & Hcs & Hok'). rewrite Hc, Hcs. simpl.
    unfold of_option, bind at 1, ret at 1. rewrite put_pipe_upd. fold (pop k).
    destruct (IH p (pop k) (upd p (pop k) s) (upd_lookup _ _ _) Hok') as (k' & E & Hk' & Hc' & Hm).
    exists k'. rewrite (bind_Ret _ _ _ _ _ E), upd_upd. split_and!; done.
Qed.

(** How many bytes of [data] fit. *)
Definition fits (k : kpipe) (data : list Z) : nat := Nat.min (length data) (512 - length (contents k)).

Lemma write_loop_spec data : forall p k s, pipes s !! p = Some k -> pipe_ok k ->
  exists k', write_loop data p s = Ret (Z.of_nat (fits k data)) (upd p k' s) /\
    pipe_ok k' /\ contents k' = contents k ++ take (fits k data) data /\ meta k' = meta k.
Proof.
  induction data as [|c data IH]; intros p k s Hk Hok; cbn [write_loop].
  { exists k. rewrite (upd_id p k s) by done. unfold fits; simpl. rewrite app_nil_r. done. }
  rewrite (get_pipe_Some p k) by done. pose proof (contents_length k Hok) as Hlen.
  destruct (is_full k) eqn:He.
  - exists k. rewrite (upd_id p k s) by done. unfold is_full in He. zbool. fold (pending k) in He.
    assert (fits k (c :: data) = 0%nat) as -> by (unfold fits, PIPE_SZ in *; lia). simpl. by rewrite app_nil_r.
  - destruct (push_spec c k Hok He) as (Hcs & Hok'). rewrite put_pipe_upd. fold (push c k).
    destruct (IH p (push c k) (upd p (push c k) s) (upd_lookup _ _ _) Hok') as (k' & E & Hk' & Hc' & Hm).
    pose proof (contents_length _ Hok') as Hl'. destruct Hok' as [_ Hpd]. rewrite Hcs, length_app in Hl'; simpl in Hl'.
    assert (fits k (c :: data) = S (fits (push c k) data)) as Hf.
    { unfold fits. rewrite Hcs, length_app. cbn [length]. unfold PIPE_SZ in *. lia. }
    exists k'. rewrite (bind_Ret _ _ _ _ _ E), upd_upd, Hf. unfold ret. split_and!; [f_equal; lia|done| |done].
    rewrite Hc', Hcs. simpl. by rewrite <- app_assoc.
Qed.

(** What [condvar_signal] does to a queue of sleepers and to the threads. *)
Definition wake_first (b : bool) (l : list Z) (ts : gmap Z activity) : list Z * gmap Z activity :=
  match l with
  | t :: l' => if b then (l', wakeup t ts) else (l, ts)
  | [] => (l, ts)
  end.

Definition signalled (c : cvar) (b : bool) (p : Z) (k : kpipe) (s : sys A) : sys A :=
  let r : list Z * gmap Z activity := wake_first b (cv c k) (threads s) in
  mkSys (<[p := set_cv c r.1 k]> (pipes s)) (files s) (kmem s) r.2.

Lemma set_cv_id c k : set_cv c (cv c k) k = k.
Proof. by destruct k, c. Qed.

Lemma signal_spec c (b : bool) p k s :
  (if b then condvar_signal c p else ret tt) (upd p k s) = Ret tt (signalled c b p k s).
Proof.
  unfold signalled, wake_first. destruct b.
  - unfold condvar_signal. rewrite (get_pipe_Some p k) by apply upd_lookup.
    destruct (cv c k) as [|t l] eqn:Ec; simpl.
    + by rewrite <- Ec, set_cv_id.
    + by rewrite put_pipe_upd, upd_upd.
  - destruct (cv c k) as [|t l] eqn:Ec; simpl; by rewrite <- Ec, set_cv_id.
Qed.

Lemma unlock_signalled c b p k s :
  spinlock_release p (signalled c b p k s) = Ret tt (signalled c b p (set_lock None k) s).
Proof.
  rewrite (release_eq p (set_cv c (wake_first b (cv c k) (threads s)).1 k)) by apply lookup_insert_eq.
  unfold signalled, upd, set_pipes; simpl. rewrite insert_insert_eq. by destruct c.
Qed.

(** The three ways [kpipe_read] can end its critical section. *)
Lemma kpipe_read_spec t f p k count s :
  files s !! f = Some p -> pipes s !! p = Some k -> pipe_ok k -> pipe_lock k = None ->
  if is_empty k then
    kpipe_read t f count s =
      (if writers k =? 0 then Ret (RDone []) s
       else Ret RSleep (upd p (set_cv NotEmpty (cv NotEmpty k ++ [t]) k) s))
  else
    exists k', kpipe_read t f count s =
        Ret (RDone (take (Z.to_nat count) (contents k)))
          (signalled Full (0 <? Z.of_nat (length (take (Z.to_nat count) (contents k)))) p k' s) /\
      pipe_ok k' /\ contents k' = drop (Z.to_nat count) (contents k) /\ meta k' = meta k.
Proof.
  intros Hf Hk Hok Hl. unfold kpipe_read. rewrite (file_kpipe_Some f p) by done.
  rewrite (acquire_free t p k) by done. unfold read_locked.
  rewrite (get_pipe_Some p (set_lock (Some t) k)) by apply upd_lookup.
  change (is_empty (set_lock (Some t) k)) with (is_empty k). destruct (is_empty k) eqn:He.
  - change (writers (set_lock (Some t) k)) with (writers k). destruct (writers k =? 0).
    + erewrite bind_Ret by (apply (release_eq p), upd_lookup). by rewrite upd_upd, set_lock_None, upd_id.
    + unfold condvar_wait. rewrite bind_assoc, (get_pipe_Some p (set_lock (Some t) k)) by apply upd_lookup.
      rewrite bind_assoc, put_pipe_upd, upd_upd.
      erewrite bind_Ret by (apply (release_eq p), upd_lookup).
      rewrite upd_upd. unfold ret. do 2 f_equal. destruct k; simpl in *. by rewrite Hl.
  - destruct (read_loop_spec (Z.to_nat count) p (set_lock (Some t) k) (upd p (set_lock (Some t) k) s)
      (upd_lookup _ _ _)) as (k' & E & Hok' & Hc & Hm); [by destruct Hok|].
    exists (set_lock None k'). rewrite (bind_Ret _ _ _ _ _ E), upd_upd.
    rewrite (bind_Ret _ _ _ _ _ (signal_spec _ _ _ _ _)).
    rewrite (bind_Ret _ _ _ _ _ (unlock_signalled _ _ _ _ _)).
    split_and!; [done|by destruct Hok'|done|]. unfold meta in *; simpl in *. congruence.
Qed.

(** The ways [kpipe_write] can end its critical section. *)
Lemma kpipe_write_locked_spec t p k data s :
  pipes s !! p = Some k -> pipe_ok k -> pipe_lock k = Some t ->
  if is_full k then
    write_locked t p data s = Ret WSleep (upd p (set_lock None (set_cv Full (cv Full k ++ [t]) k)) s)
  else
    exists k', write_locked t p data s =
        Ret (WDone (Z.of_nat (fits k data)))
          (signalled NotEmpty (0 <? Z.of_nat (fits k data)) p (set_lock None k') s) /\
      pipe_ok k' /\ contents k' = contents k ++ take (fits k data) data /\ meta k' = meta k.
Proof.
  intros Hk Hok Hl. unfold write_locked. rewrite (get_pipe_Some p k) by done.
  destruct (is_full k) eqn:He.
  - unfold condvar_wait. rewrite bind_assoc, (get_pipe_Some p k) by done.
    rewrite bind_assoc, put_pipe_upd. erewrite bind_Ret by (apply (release_eq p), upd_lookup). by rewrite upd_upd.
  - destruct (write_loop_spec data p k s Hk Hok) as (k' & E & Hok' & Hc & Hm).
    exists k'. rewrite (bind_Ret _ _ _ _ _ E).
    rewrite (bind_Ret _ _ _ _ _ (signal_spec _ _ _ _ _)).
    by rewrite (bind_Ret _ _ _ _ _ (unlock_signalled _ _ _ _ _)).
Qed.

Lemma kpipe_write_spec (fresh : bool) t f p k data s :
  files s !! f = Some p -> pipes s !! p = Some k -> pipe_ok k -> pipe_lock k = None ->
  if fresh && (readers k =? 0) then kpipe_write t f data s = Ret (WDone ERR_END) s
  else if is_full k then
    (if fresh then kpipe_write else kpipe_write_woken) t f data s =
      Ret WSleep (upd p (set_cv Full (cv Full k ++ [t]) k) s)
  else
    exists k', (if fresh then kpipe_write else kpipe_write_woken) t f data s =
        Ret (WDone (Z.of_nat (fits k data))) (signalled NotEmpty (0 <? Z.of_nat (fits k data)) p k' s) /\
      pipe_ok k' /\ contents k' = contents k ++ take (fits k data) data /\ meta k' = meta k.
Proof.
  intros Hf Hk Hok Hl. set (kl := set_lock (Some t) k).
  assert (Hb : fresh && (readers k =? 0) = false ->
    (if fresh then kpipe_write else kpipe_write_woken) t f data s = write_locked t p data (upd p kl s)).
  { intros Hr. unfold kpipe_write, kpipe_write_woken. destruct fresh; rewrite (file_kpipe_Some f p) by done.
    - rewrite (acquire_free t p k), (get_pipe_Some p kl) by (done || apply upd_lookup).
      by replace (readers kl =? 0) with false.
    - by rewrite (acquire_free t p k). }
  destruct (fresh && (readers k =? 0)) eqn:Hr.
  { apply andb_true_iff in Hr as [-> Hr]. unfold kpipe_write. rewrite (file_kpipe_Some f p) by done.
    rewrite (acquire_free t p k), (get_pipe_Some p kl) by (done || apply upd_lookup).
    replace (readers kl =? 0) with true by done. erewrite bind_Ret by (apply (release_eq p), upd_lookup).
    unfold kl. by rewrite upd_upd, set_lock_None, upd_id. }
  rewrite (Hb eq_refl).
  pose proof (kpipe_write_locked_spec t p kl data (upd p kl s) (upd_lookup _ _ _) ltac:(by destruct Hok) eq_refl) as Hw.
  change (is_full kl) with (is_full k) in Hw. change (fits kl data) with (fits k data) in Hw.
  destruct (is_full k) eqn:He.
  - rewrite Hw, upd_upd. do 2 f_equal. unfold kl. destruct k; simpl in *. by rewrite Hl.
  - destruct Hw as (k' & E & Hok' & Hc & Hm). exists (set_lock None k'). rewrite E. split_and!; [|by destruct Hok'|done|].
    + unfold signalled, upd, set_pipes; simpl. by rewrite insert_insert_eq.
    + unfold meta in *; simpl in *. congruence.
Qed.

End sections.

(** ** The invariant of the interleavings *)

Section invariant.
Context {A : Type} `{!ObjAlloc A}.
Implicit Types (s : sys A) (k : kpipe).

(** The file a thread sleeps on, for each of the two reasons to sleep. *)
Definition asleep (c : cvar) (a : activity) : option Z :=
  match c, a with
  | NotEmpty, ReadSleep f _ => Some f
  | Full, WriteSleep f _ => Some f
  | _, _ => None
  end.
Definition awake (a : activity) : Prop := forall c, asleep c a = None.

(** The file of the call a thread is in. *)
Definition act_file (a : activity) : option Z :=
  match a with
  | Idle => None
  | Reading f _ | Writing _ f _ | ReadSleep f _ | WriteSleep f _ => Some f
  end.

(** Locks are free between critical sections, rings are within bounds, the
    queues of the condition variables hold exactly the sleeping threads, and
    every call is on a file with a pipe. *)
Record sys_ok s : Prop := {
  so_pipe : forall p k, pipes s !! p = Some k -> pipe_ok k /\ pipe_lock k = None;
  so_cv : forall c p k t, pipes s !! p = Some k ->
    t ∈ cv c k <-> exists a f, threads s !! t = Some a /\ asleep c a = Some f /\ files s !! f = Some p;
  so_nodup : forall c p k, pipes s !! p = Some k -> NoDup (cv c k);
  so_act : forall t a f, threads s !! t = Some a -> act_file a = Some f ->
    exists p k, files s !! f = Some p /\ pipes s !! p = Some k;
}.

Lemma cv_set_cv c c' l k : cv c (set_cv c' l k) = if decide (c = c') then l else cv c k.
Proof. by destruct c, c'. Qed.

(** A thread that stays awake. *)
Lemma ok_activity s t a a' :
  sys_ok s -> threads s !! t = Some a -> awake a -> awake a' ->
  (forall f, act_file a' = Some f -> exists p k, files s !! f = Some p /\ pipes s !! p = Some k) ->
  sys_ok (set_activity t a' s).
Proof.
  intros [H1 H2 H3 H4] Ht Ha Ha' Hf. split; simpl; [done| |done|].
  - intros c p k t' Hk. rewrite (H2 c p k t' Hk). destruct (decide (t = t')) as [<-|Hne].
    + rewrite lookup_insert_eq, Ht. split; intros (a0 & f & [= <-] & Hs & _); exfalso.
      * by rewrite Ha in Hs.
      * by rewrite Ha' in Hs.
    + by rewrite lookup_insert_ne.
  - intros t' b f. rewrite lookup_insert_Some. intros [[<- <-]|[_ Hb]] Hbf; eauto.
Qed.

(** A pipe whose ring or reference counts changed. *)
Lemma ok_upd s p k k' :
  sys_ok s -> pipes s !! p = Some k -> pipe_ok k' -> pipe_lock k' = None ->
  (forall c, cv c k' = cv c k) -> sys_ok (upd p k' s).
Proof.
  intros [H1 H2 H3 H4] Hk Hok Hl Hcv. split; simpl.
  - intros q kq. rewrite lookup_insert_Some. intros [[<- <-]|[_ Hq]]; eauto.
  - intros c q kq t. rewrite lookup_insert_Some. intros [[<- <-]|[_ Hq]]; [rewrite Hcv|]; eauto.
  - intros c q kq. rewrite lookup_insert_Some. intros [[<- <-]|[_ Hq]]; [rewrite Hcv|]; eauto.
  - intros t a f Ht Ha. destruct (H4 t a f Ht Ha) as (q & kq & Hq & Hkq). exists q.
    destruct (decide (p = q)) as [<-|Hne]; [rewrite lookup_insert_eq|rewrite lookup_insert_ne by done]; eauto.
Qed.

(** A running thread that goes to sleep. *)
Lemma ok_sleep s c p k t a a' f :
  sys_ok s -> pipes s !! p = Some k -> threads s !! t = Some a -> awake a ->
  asleep c a' = Some f -> act_file a' = Some f -> files s !! f = Some p ->
  sys_ok (set_activity t a' (upd p (set_cv c (cv c k ++ [t]) k) s)).
Proof.
  intros [H1 H2 H3 H4] Hk Ht Ha Hs Haf Hf.
  assert (Hnt : forall c' q kq, pipes s !! q = Some kq -> t ∉ cv c' kq).
  { intros c' q kq Hq. rewrite (H2 c' q kq t Hq), Ht. intros (? & ? & [= <-] & Hx & _). by rewrite Ha in Hx. }
  assert (Hc' : forall c', c' <> c -> asleep c' a' = None) by (intros c' Hne; by destruct c, c', a').
  split; simpl.
  - intros q kq. rewrite lookup_insert_Some. intros [[<- <-]|[_ Hq]]; [|eauto].
    destruct (H1 p k Hk) as [[? ?] ?]. done.
  - intros c' q kq t'. rewrite lookup_insert_Some. intros Hq.
    destruct (decide (t = t')) as [<-|Hne].
    + rewrite lookup_insert_eq. destruct Hq as [[<- <-]|[Hpq Hq]].
      * rewrite cv_set_cv. case_decide as Hcc; [subst c'|]; split.
        -- intros _. eauto.
        -- intros _. set_solver.
        -- intros Hin. by destruct (Hnt _ _ _ Hk Hin).
        -- intros (? & ? & [= <-] & Hx & _). by rewrite Hc' in Hx.
      * split; [intros Hin; by destruct (Hnt _ _ _ Hq Hin)|].
        intros (? & f' & [= <-] & Hx & Hf'). destruct (decide (c' = c)) as [->|]; [|by rewrite Hc' in Hx].
        congruence.
    + rewrite lookup_insert_ne by done. destruct Hq as [[<- <-]|[Hpq Hq]]; [|eauto].
      rewrite <- (H2 c' p k t' Hk), cv_set_cv. case_decide; [subst|done].
      rewrite elem_of_app, list_elem_of_singleton. intuition congruence.
  - intros c' q kq. rewrite lookup_insert_Some. intros [[<- <-]|[_ Hq]]; [|eauto].
    rewrite cv_set_cv. case_decide; [subst|eauto]. apply NoDup_app. split_and!; [eauto| |apply NoDup_singleton].
    intros x Hx ->%list_elem_of_singleton. by destruct (Hnt _ _ _ Hk Hx).
  - intros t' b g. rewrite lookup_insert_Some. intros [[<- <-]|[_ Hb]] Hbf.
    + assert (g = f) as -> by congruence. exists p. rewrite lookup_insert_eq. eauto.
    + destruct (H4 t' b g Hb Hbf) as (q & kq & Hq & Hkq). exists q.
      destruct (decide (p = q)) as [<-|Hne]; [rewrite lookup_insert_eq|rewrite lookup_insert_ne by done]; eauto.
Qed.

Lemma wakeup_awake t ts a : wakeup t ts !! t = Some a -> awake a.
Proof.
  unfold wakeup. intros H c.
  destruct (ts !! t) as [[]|] eqn:E; rewrite ?lookup_insert_eq, ?E in H; simplify_eq; by destruct c.
Qed.

Lemma wakeup_ne t t' ts : t <> t' -> wakeup t ts !! t' = ts !! t'.
Proof. intros H. unfold wakeup. destruct (ts !! t) as [[]|]; rewrite ?lookup_insert_ne; done. Qed.

Lemma wakeup_file t t' ts a : wakeup t ts !! t' = Some a ->
  exists a0, ts !! t' = Some a0 /\ act_file a = act_file a0.
Proof.
  destruct (decide (t = t')) as [<-|Hne]; [|rewrite wakeup_ne; eauto].
  unfold wakeup. intros H. destruct (ts !! t) as [[]|] eqn:E; rewrite ?lookup_insert_eq in H; simplify_eq; eauto.
Qed.

(** Signalling one of the two queues. *)
Lemma ok_signalled s c b p k : sys_ok s -> pipes s !! p = Some k -> sys_ok (signalled c b p k s).
Proof.
  intros Hs Hk. unfold signalled, wake_first. destruct (cv c k) as [|t l] eqn:Ec; [|destruct b]; simpl.
  - rewrite <- Ec, set_cv_id. change (sys_ok (upd p k s)). by rewrite upd_id.
  - destruct Hs as [H1 H2 H3 H4]. pose proof (H3 c p k Hk) as Hnd. rewrite Ec in Hnd.
    apply NoDup_cons in Hnd as [Htl Hnd].
    destruct (proj1 (H2 c p k t Hk)) as (a0 & f0 & Ht0 & Ha0 & Hf0); [rewrite Ec; set_solver|].
    split; simpl.
    + intros q kq. rewrite lookup_insert_Some. intros [[<- <-]|[_ Hq]]; [|eauto].
      destruct (H1 p k Hk) as [[? ?] ?]. done.
    + intros c' q kq t'. rewrite lookup_insert_Some. intros Hq.
      destruct (decide (t = t')) as [<-|Hne].
      * assert (Hno : t ∉ cv c' kq).
        { destruct Hq as [[<- <-]|[Hpq Hq]].
          - rewrite cv_set_cv. case_decide; [done|]. rewrite (H2 c' p k t Hk), Ht0.
            intros (? & ? & [= <-] & Hx & _). by destruct c, c', a0.
          - rewrite (H2 c' q kq t Hq), Ht0. intros (? & f' & [= <-] & Hx & Hf').
            assert (f' = f0) by (destruct c, c', a0; simpl in *; congruence). congruence. }
        split; [done|]. intros (a & f & Ha%wakeup_awake & Hx & _). by rewrite Ha in Hx.
      * rewrite wakeup_ne by done. destruct Hq as [[<- <-]|[Hpq Hq]]; [|eauto].
        rewrite <- (H2 c' p k t' Hk), cv_set_cv. case_decide; [subst|done]. rewrite Ec. set_solver.
    + intros c' q kq. rewrite lookup_insert_Some. intros [[<- <-]|[_ Hq]]; [|eauto].
      rewrite cv_set_cv. case_decide; eauto.
    + intros t' a f Ha Hf. destruct (wakeup_file _ _ _ _ Ha) as (a1 & Ha1 & Hfe).
      destruct (H4 t' a1 f Ha1 ltac:(congruence)) as (q & kq & Hq & Hkq). exists q.
      destruct (decide (p = q)) as [<-|Hne']; [rewrite lookup_insert_eq|rewrite lookup_insert_ne by done]; eauto.
  - rewrite <- Ec, set_cv_id. change (sys_ok (upd p k s)). by rewrite upd_id.
Qed.

Lemma signalled_upd c b p k s : signalled c b p k (upd p k s) = signalled c b p k s.
Proof. unfold signalled, upd, set_pipes; simpl. by rewrite insert_insert_eq. Qed.

Lemma ok_ring_signalled s c b p k k' :
  sys_ok s -> pipes s !! p = Some k -> pipe_ok k' -> meta k' = meta k -> sys_ok (signalled c b p k' s).
Proof.
  intros Hs Hk Hok Hm. rewrite <- signalled_upd. destruct (so_pipe s Hs p k Hk) as [_ Hl].
  unfold meta in Hm. simplify_eq.
  apply ok_signalled; [|apply upd_lookup]. apply (ok_upd s p k); [done|done|done|congruence|].
  intros []; simpl; congruence.
Qed.

(** Signalling leaves every running thread as it is. *)
Lemma wake_first_awake b l ts t a :
  ts !! t = Some a -> awake a -> (wake_first b l ts).2 !! t = Some a.
Proof.
  intros Ht Ha. unfold wake_first. destruct l as [|t' l]; [done|]. destruct b; [|done]. simpl.
  destruct (decide (t' = t)) as [->|]; [|by rewrite wakeup_ne].
  unfold wakeup. rewrite Ht. destruct a; try done; exfalso.
  - by pose proof (Ha NotEmpty).
  - by pose proof (Ha Full).
Qed.

Lemma set_refs_unlock h r w k : pipe_lock k = None -> set_lock None (set_refs r w (set_lock h k)) = set_refs r w k.
Proof. destruct k; simpl. by intros ->. Qed.

(** The reference counts change in place. *)
Lemma ref_spec s t f fd s' :
  sys_ok s -> kpipe_ref_increase t f fd s = Ret tt s' \/ kpipe_ref_decrease t f fd s = Ret tt s' ->
  s' = s \/ exists p k r w, pipes s !! p = Some k /\ s' = upd p (set_refs r w k) s.
Proof.
  intros Hs. unfold kpipe_ref_increase, kpipe_ref_decrease.
  destruct (files s !! f) as [p|] eqn:Hf; [|unfold bind, file_kpipe; rewrite Hf; intros [[=]|[=]]].
  rewrite !(file_kpipe_Some f p) by done. destruct (p =? 0); [intros [[=]|[=]]; by left|].
  destruct (pipes s !! p) as [k|] eqn:Hk;
    [|unfold spinlock_acquire, bind, get_pipe; rewrite Hk; intros [[=]|[=]]].
  destruct (so_pipe s Hs p k Hk) as [_ Hl].
  rewrite !(acquire_free t p k), !(get_pipe_Some p (set_lock (Some t) k)) by (done || apply upd_lookup).
  intros H. right. exists p, k. set (kl := set_lock (Some t) k) in *.
  destruct H as [H|H]; destruct (fd =? fd_reader kl); rewrite put_pipe_upd, upd_upd in H;
    rewrite (release_eq p _ _ (upd_lookup _ _ _)), upd_upd in H; injection H as <-;
    unfold kl; rewrite set_refs_unlock by done; eauto.
Qed.

End invariant.

(** ** Steps *)

Section traces.
Context {A : Type} `{!ObjAlloc A}.
Implicit Types (s : sys A) (k : kpipe).

(** What a step may do: every pipe keeps its bytes in order. *)
Definition delivers (s : sys A) (e : event) (s' : sys A) : Prop :=
  forall p k, pipes s !! p = Some k ->
    exists k', pipes s' !! p = Some k' /\ contents k ++ sent p [e] = got p [e] ++ contents k'.

Lemma delivers_other s p k k' s' :
  pipes s !! p = Some k -> pipes s' = <[p := k']> (pipes s) -> contents k' = contents k ->
  delivers s Other s'.
Proof.
  intros Hk Hp Hc q kq Hq. rewrite Hp. simpl. rewrite app_nil_r.
  destruct (decide (p = q)) as [<-|Hne]; [|rewrite lookup_insert_ne by done; eauto].
  rewrite lookup_insert_eq. assert (kq = k) as -> by congruence. eauto.
Qed.

Lemma delivers_refl s s' : pipes s' = pipes s -> delivers s Other s'.
Proof. intros Hp q kq Hq. rewrite Hp. simpl. rewrite app_nil_r. eauto. Qed.

Lemma delivers_got s p k k' s' bytes :
  pipes s !! p = Some k -> pipes s' = <[p := k']> (pipes s) -> contents k = bytes ++ contents k' ->
  delivers s (Got p bytes) s'.
Proof.
  intros Hk Hp Hc q kq Hq. rewrite Hp. simpl. rewrite !app_nil_r. destruct (Z.eqb_spec p q) as [<-|Hne].
  - rewrite lookup_insert_eq. assert (kq = k) as -> by congruence. eauto.
  - rewrite lookup_insert_ne by done. eauto.
Qed.

Lemma delivers_put s p k k' s' bytes :
  pipes s !! p = Some k -> pipes s' = <[p := k']> (pipes s) -> contents k' = contents k ++ bytes ->
  delivers s (Put p bytes) s'.
Proof.
  intros Hk Hp Hc q kq Hq. rewrite Hp. simpl. rewrite !app_nil_r. destruct (Z.eqb_spec p q) as [<-|Hne].
  - rewrite lookup_insert_eq. assert (kq = k) as -> by congruence. eauto.
  - rewrite lookup_insert_ne by done. rewrite app_nil_r. eauto.
Qed.

Lemma contents_set_cv c l k : contents (set_cv c l k) = contents k.
Proof. done. Qed.

Lemma awake_reading f n : awake (Reading f n). Proof. by intros []. Qed.
Lemma awake_writing b f d : awake (Writing b f d). Proof. by intros []. Qed.
Lemma awake_idle : awake Idle. Proof. by intros []. Qed.
#[local] Hint Resolve awake_reading awake_writing awake_idle : kernel.

(** A finished call: the thread is idle again. *)
Lemma ok_idle s t a : sys_ok s -> threads s !! t = Some a -> awake a -> sys_ok (set_activity t Idle s).
Proof. intros. eapply ok_activity; eauto with kernel. done. Qed.

Lemma read_done_ok s t f count p bytes s' :
  sys_ok s -> threads s !! t = Some (Reading f count) -> files s !! f = Some p ->
  kpipe_read t f count s = Ret (RDone bytes) s' ->
  sys_ok (set_activity t Idle s') /\ delivers s (Got p bytes) (set_activity t Idle s').
Proof.
  intros Hs Ht Hf E. destruct (so_act s Hs t _ f Ht eq_refl) as (q & k & Hq & Hk).
  assert (q = p) as -> by congruence.
  destruct (so_pipe s Hs _ _ Hk) as [Hok Hl].
  pose proof (kpipe_read_spec t f p k count s Hf Hk Hok Hl) as Hr. destruct (is_empty k).
  - rewrite E in Hr. destruct (writers k =? 0); [|done]. simplify_eq. split; [eauto using ok_idle with kernel|].
    apply (delivers_got s p k k); [done|simpl; by rewrite insert_id|done].
  - destruct Hr as (k' & E' & Hok' & Hc & Hm). rewrite E in E'. injection E' as -> ->. split.
    + eapply ok_idle; [eauto using ok_ring_signalled|eapply wake_first_awake; [done|]|]; auto with kernel.
    + eapply delivers_got; [done|simpl; done|]. rewrite contents_set_cv, Hc. by rewrite take_drop.
Qed.

Lemma read_sleep_ok s t f count s' :
  sys_ok s -> threads s !! t = Some (Reading f count) -> kpipe_read t f count s = Ret RSleep s' ->
  sys_ok (set_activity t (ReadSleep f count) s') /\ delivers s Other (set_activity t (ReadSleep f count) s').
Proof.
  intros Hs Ht E. destruct (so_act s Hs t _ f Ht eq_refl) as (q & k & Hq & Hk).
  destruct (so_pipe s Hs _ _ Hk) as [Hok Hl].
  pose proof (kpipe_read_spec t f q k count s Hq Hk Hok Hl) as Hr. destruct (is_empty k).
  - rewrite E in Hr. destruct (writers k =? 0); [done|]. injection Hr as ->. split.
    + eapply ok_sleep; eauto with kernel.
    + by eapply delivers_other.
  - destruct Hr as (k' & E' & _). congruence.
Qed.

Lemma write_done_ok s t fresh f data p n s' :
  sys_ok s -> threads s !! t = Some (Writing fresh f data) -> files s !! f = Some p ->
  (if fresh then kpipe_write else kpipe_write_woken) t f data s = Ret (WDone n) s' ->
  sys_ok (set_activity t Idle s') /\ delivers s (Put p (take (Z.to_nat n) data)) (set_activity t Idle s').
Proof.
  intros Hs Ht Hf E. destruct (so_act s Hs t _ f Ht eq_refl) as (q & k & Hq & Hk).
  assert (q = p) as -> by congruence.
  destruct (so_pipe s Hs _ _ Hk) as [Hok Hl].
  pose proof (kpipe_write_spec fresh t f p k data s Hf Hk Hok Hl) as Hr.
  destruct (fresh && (readers k =? 0)) eqn:Hb; [|destruct (is_full k)].
  - apply andb_true_iff in Hb as [-> _]. rewrite Hr in E. injection E as <- <-.
    split; [eauto using ok_idle with kernel|].
    apply (delivers_put s p k k); [done|simpl; by rewrite insert_id|by rewrite app_nil_r].
  - congruence.
  - destruct Hr as (k' & E' & Hok' & Hc & Hm). rewrite E in E'. injection E' as -> ->. split.
    + eapply ok_idle; [eauto using ok_ring_signalled|eapply wake_first_awake; [done|]|]; auto with kernel.
    + eapply delivers_put; [done|simpl; done|]. by rewrite contents_set_cv, Hc, Nat2Z.id.
Qed.

Lemma write_sleep_ok s t fresh f data s' :
  sys_ok s -> threads s !! t = Some (Writing fresh f data) ->
  (if fresh then kpipe_write else kpipe_write_woken) t f data s = Ret WSleep s' ->
  sys_ok (set_activity t (WriteSleep f data) s') /\ delivers s Other (set_activity t (WriteSleep f data) s').
Proof.
  intros Hs Ht E. destruct (so_act s Hs t _ f Ht eq_refl) as (q & k & Hq & Hk).
  destruct (so_pipe s Hs _ _ Hk) as [Hok Hl].
  pose proof (kpipe_write_spec fresh t f q k data s Hq Hk Hok Hl) as Hr.
  destruct (fresh && (readers k =? 0)) eqn:Hb; [|destruct (is_full k)].
  - apply andb_true_iff in Hb as [-> _]. congruence.
  - rewrite E in Hr. injection Hr as ->. split.
    + eapply ok_sleep; eauto with kernel.
    + by eapply delivers_other.
  - destruct Hr as (k' & E' & _). congruence.
Qed.

Lemma refs_ok s t f fd s' :
  sys_ok s -> kpipe_ref_increase t f fd s = Ret tt s' \/ kpipe_ref_decrease t f fd s = Ret tt s' ->
  sys_ok s' /\ delivers s Other s'.
Proof.
  intros Hs H. destruct (ref_spec s t f fd s' Hs H) as [->|(p & k & r & w & Hk & ->)].
  - split; [done|by apply delivers_refl].
  - destruct (so_pipe s Hs p k Hk) as [Hok Hl]. split; [|by eapply delivers_other].
    eapply ok_upd; [done|done|by destruct Hok|done|by intros []].
Qed.

Lemma call_file s f : is_Some (files s !! f ≫= fun p => pipes s !! p) ->
  forall f', Some f = Some f' -> exists p k, files s !! f' = Some p /\ pipes s !! p = Some k.
Proof. intros [k (p & Hf & Hk)%bind_Some] f' [= <-]. eauto. Qed.

Lemma step_ok s e s' : sys_ok s -> step s e s' -> sys_ok s' /\ delivers s e s'.
Proof.
  intros Hs Hstep. destruct Hstep; eauto using read_done_ok, read_sleep_ok, write_done_ok, write_sleep_ok, refs_ok.
  - split; [|by apply delivers_refl]. eapply ok_activity; eauto using call_file with kernel.
  - split; [|by apply delivers_refl]. eapply ok_activity; eauto using call_file with kernel.
Qed.

Lemma got_app p es es' : got p (es ++ es') = got p es ++ got p es'.
Proof. induction es as [|[]]; simpl; rewrite ?IHes, ?app_assoc; done. Qed.
Lemma sent_app p es es' : sent p (es ++ es') = sent p es ++ sent p es'.
Proof. induction es as [|[]]; simpl; rewrite ?IHes, ?app_assoc; done. Qed.

Lemma steps_ok s es s' : sys_ok s -> steps s es s' -> sys_ok s' /\
  forall p k, pipes s !! p = Some k ->
    exists k', pipes s' !! p = Some k' /\ contents k ++ sent p es = got p es ++ contents k'.
Proof.
  intros Hs H. induction H as [|s es s1 e s2 _ IH Hstep].
  - split; [done|]. intros p k Hk. simpl. rewrite app_nil_r. eauto.
  - destruct (IH Hs) as [Hs1 IH']. destruct (step_ok _ _ _ Hs1 Hstep) as [Hs2 Hd]. split; [done|].
    intros p k Hk. destruct (IH' p k Hk) as (k1 & Hk1 & E1). destruct (Hd p k1 Hk1) as (k2 & Hk2 & E2).
    exists k2. split; [done|]. rewrite sent_app, got_app, app_assoc, E1, <- !app_assoc. by rewrite E2.
Qed.

(** Going through a step of a sleeping reader's pipe: only bytes wake it. *)
Lemma wake_first_ne b l ts t : (b = true -> t ∉ l) -> (wake_first b l ts).2 !! t = ts !! t.
Proof.
  unfold wake_first. intros H. destruct l as [|w l]; [done|]. destruct b; [|done]. simpl.
  apply wakeup_ne. specialize (H eq_refl). set_solver.
Qed.

Lemma cv_only_own s t f n p c q k :
  sys_ok s -> threads s !! t = Some (ReadSleep f n) -> files s !! f = Some p ->
  pipes s !! q = Some k -> c = Full \/ q <> p -> t ∉ cv c k.
Proof.
  intros Hs Ht Hf Hq Hc. rewrite (so_cv s Hs c q k t Hq), Ht. intros (? & g & [= <-] & Hg & Hfg).
  destruct Hc as [->|Hne]; [done|]. destruct c; simplify_eq/=.
Qed.

Lemma wake_first_false l ts : ts = (wake_first false l ts).2.
Proof. by destruct l. Qed.

(** The threads after a read: at most one sleeping writer of the pipe woke. *)
Lemma read_threads s t f count r s' :
  sys_ok s -> threads s !! t = Some (Reading f count) -> kpipe_read t f count s = Ret r s' ->
  files s' = files s /\
  exists p k b, files s !! f = Some p /\ pipes s !! p = Some k /\
    threads s' = (wake_first b (cv Full k) (threads s)).2.
Proof.
  intros Hs Ht E. destruct (so_act s Hs _ _ f Ht eq_refl) as (p & k & Hf & Hk).
  destruct (so_pipe s Hs _ _ Hk) as [Hok Hl].
  pose proof (kpipe_read_spec t f p k count s Hf Hk Hok Hl) as Hr. rewrite E in Hr.
  assert (Hid : threads s = (wake_first false (cv Full k) (threads s)).2) by apply wake_first_false.
  destruct (is_empty k); [destruct (writers k =? 0)|].
  - simplify_eq. eauto 8.
  - simplify_eq. eauto 8.
  - destruct Hr as (k' & [= -> ->] & _ & _ & Hm). split; [done|]. exists p, k. eexists. split_and!; [done|done|].
    simpl. by replace (pipe_full_cv k') with (pipe_full_cv k) by (unfold meta in Hm; congruence).
Qed.

(** The threads after a write: at most one sleeping reader of the pipe woke,
    and only when bytes went in. *)
Lemma write_threads s t fresh f data r s' :
  sys_ok s -> threads s !! t = Some (Writing fresh f data) ->
  (if fresh then kpipe_write else kpipe_write_woken) t f data s = Ret r s' ->
  files s' = files s /\
  exists p k b, files s !! f = Some p /\ pipes s !! p = Some k /\
    threads s' = (wake_first b (cv NotEmpty k) (threads s)).2 /\
    (b = true -> exists n, r = WDone n /\ take (Z.to_nat n) data <> []).
Proof.
  intros Hs Ht E. destruct (so_act s Hs _ _ f Ht eq_refl) as (p & k & Hf & Hk).
  destruct (so_pipe s Hs _ _ Hk) as [Hok Hl].
  pose proof (kpipe_write_spec fresh t f p k data s Hf Hk Hok Hl) as Hr.
  assert (Hid : threads s = (wake_first false (cv NotEmpty k) (threads s)).2) by apply wake_first_false.
  destruct (fresh && (readers k =? 0)) eqn:Hb; [|destruct (is_full k)].
  - apply andb_true_iff in Hb as [-> _]. rewrite Hr in E. simplify_eq. split; [done|]. exists p, k, false. done.
  - rewrite E in Hr. simplify_eq. split; [done|]. exists p, k, false. done.
  - destruct Hr as (k' & E' & _ & _ & Hm). rewrite E in E'. injection E' as -> ->. split; [done|].
    exists p, k. eexists. split_and!; [done|done| |].
    + simpl. by replace (pipe_notempty_cv k') with (pipe_notempty_cv k) by (unfold meta in Hm; congruence).
    + intros Hfit. zbool. eexists. split; [done|]. rewrite Nat2Z.id. intros Hn%(f_equal length).
      rewrite length_take in Hn. unfold fits in *. simpl in Hn. lia.
Qed.

Lemma step_sleeper s e s' t f n p :
  sys_ok s -> threads s !! t = Some (ReadSleep f n) -> files s !! f = Some p ->
  step s e s' -> sent p [e] = [] ->
  threads s' !! t = Some (ReadSleep f n) /\ files s' !! f = Some p.
Proof.
  intros Hs Ht Hf Hstep Hsent.
  assert (Hna : forall t' b, threads s !! t' = Some b -> awake b -> t' <> t).
  { intros t' b Hb Hw ->. simplify_eq. by pose proof (Hw NotEmpty). }
  destruct Hstep as [s t' g count H1|s t' g data H1|s t' g count q bytes s' H1 Hg E|s t' g count s' H1 E
    |s t' fresh g data q m s' H1 Hg E|s t' fresh g data s' H1 E|s t' g fd s' H1 E|s t' g fd s' H1 E];
    pose proof (Hna _ _ H1 ltac:(auto with kernel)) as Hne; simpl; rewrite ?lookup_insert_ne by done; [done|done|..].
  1,2: destruct (read_threads _ _ _ _ _ _ Hs H1 E) as (-> & q' & k & b & Hq & Hk & ->);
    (split; [|done]); rewrite wake_first_ne; eauto using cv_only_own.
  1,2: destruct (write_threads _ _ _ _ _ _ _ Hs H1 E) as (-> & q' & k & b & Hq & Hk & -> & Hb);
    (split; [|done]); rewrite wake_first_ne; [done|]; intros Hbt; destruct (Hb Hbt) as (n' & [= <-] & Htk).
  - eapply cv_only_own; eauto. right. intros ->. simplify_eq. simpl in Hsent.
    by rewrite Z.eqb_refl, app_nil_r in Hsent.
  - destruct (ref_spec s t' g fd s' Hs (or_introl E)) as [->|(? & ? & ? & ? & _ & ->)]; done.
  - destruct (ref_spec s t' g fd s' Hs (or_intror E)) as [->|(? & ? & ? & ? & _ & ->)]; done.
Qed.

End traces.

(** ** Properties *)

Section properties.
Context {A : Type} `{!ObjAlloc A}.
Implicit Types (s : sys A) (k : kpipe).

(** C5. A pipe is a bounded first-in first-out channel: along every interleaving of
    reads, writes and changes of the reference counts by any number of threads,
    what was in the pipe followed by all bytes written is all bytes read
    followed by what is in the pipe now, which is at most 512 bytes; the
    unbounded offsets may wrap around 64 bits any number of times. *)
Theorem pipe_fifo s es s' p k :
  sys_ok s -> pipes s !! p = Some k -> steps s es s' ->
  exists k', pipes s' !! p = Some k' /\ contents k ++ sent p es = got p es ++ contents k' /\
    (length (contents k') <= 512)%nat /\ sys_ok s'.
Proof.
  intros Hs Hk H. destruct (steps_ok s es s' Hs H) as [Hs' Hq]. destruct (Hq p k Hk) as (k' & Hk' & E).
  exists k'. split_and!; [done|done| |done]. destruct (so_pipe s' Hs' p k' Hk') as [Hok _].
  pose proof (contents_length k' Hok). destruct Hok as [_ ?]. unfold PIPE_SZ in *. lia.
Qed.


(** A reader that sleeps on an empty pipe is woken by nothing but bytes: as
    long as nothing more is written it sleeps, even when the last writer has
    closed its end, so that the end of file is not delivered to it. *)
Theorem sleeping_reader_misses_eof s es s' t f n p :
  sys_ok s -> threads s !! t = Some (ReadSleep f n) -> files s !! f = Some p ->
  steps s es s' -> sent p es = [] -> threads s' !! t = Some (ReadSleep f n).
Proof.
  intros Hs Ht Hf H. cut (sent p es = [] -> threads s' !! t = Some (ReadSleep f n) /\ files s' !! f = Some p); [tauto|].
  induction H as [|s es s1 e s2 H IH Hstep]; [done|]. rewrite sent_app. intros [H1 H2]%app_nil.
  destruct (IH Hs Ht Hf H1) as [Ht1 Hf1]. eapply step_sleeper; [|done..].
  by destruct (steps_ok s es s1 Hs H).
Qed.

(** [kpipe_close] of a pipe with no open ends frees the pipe and then releases
    the lock inside it: the release accesses freed memory. *)
Theorem kpipe_close_releases_freed_lock s t f p k :
  sys_ok s -> files s !! f = Some p -> pipes s !! p = Some k -> writers k = 0 -> readers k = 0 ->
  exists s', kpipe_close t f s = Halt Fault s' /\ pipes s' !! p = None /\ kmem s' = ofree p (kmem s).
Proof.
  intros Hs Hf Hk Hw Hr. destruct (so_pipe s Hs p k Hk) as [_ Hl]. unfold kpipe_close.
  rewrite (file_kpipe_Some f p), (acquire_free t p k) by done.
  rewrite (get_pipe_Some p (set_lock (Some t) k)) by apply upd_lookup. simpl. rewrite Hw, Hr. simpl.
  eexists. unfold spinlock_release, upd_pipe, kfree, bind, modify, get_pipe; simpl.
  rewrite lookup_delete_eq. split_and!; [done|simpl; by rewrite lookup_delete_eq|done].
Qed.

(** [kpipe_init] gives a file a fresh empty pipe with one open end on each
    side, or fails and leaves every pipe as it is. *)
Theorem kpipe_init_correct s f fd_r fd_w :
  sys_ok s -> ook (kmem s) -> (forall p, is_Some (pipes s !! p) -> p ∈ olive (kmem s)) ->
  (forall t a, threads s !! t = Some a -> act_file a <> Some f) ->
  exists e s', kpipe_init f fd_r fd_w s = Ret e s' /\ sys_ok s' /\
    ((e = ERR_NOMEM /\ pipes s' = pipes s /\ files s' = files s) \/
     (e = ERR_OK /\ exists p k, pipes s !! p = None /\ files s' = <[f := p]> (files s) /\
        pipes s' = <[p := k]> (pipes s) /\ contents k = [] /\ readers k = 1 /\ writers k = 1)).
Proof.
  intros Hs Hm Hlive Hfree. unfold kpipe_init, kpipe_allocate, bind at 1.
  destruct (oalloc (kmem s)) as [[p|] a] eqn:Ea.
  - destruct (oalloc_Some _ _ _ Hm Ea) as (_ & Hp0 & Hpl & _).
    assert (Hnone : pipes s !! p = None).
    { destruct (pipes s !! p) eqn:E; [|done]. destruct Hpl. apply Hlive. eauto. }
    rewrite (proj2 (Z.eqb_neq p 0) Hp0). unfold upd_pipe.
    rewrite bind_assoc, (get_pipe_Some p _ _ _ (lookup_insert_eq _ _ _)), put_pipe_upd.
    unfold bind at 1, modify at 1. do 2 eexists. split; [done|]. simpl. rewrite insert_insert_eq.
    split; [|right; split; [done|]; exists p; eexists; done].
    destruct Hs as [H1 H2 H3 H4]. split; simpl.
    + intros q kq. rewrite lookup_insert_Some. intros [[<- <-]|[_ Hq]]; [|eauto]. done.
    + intros c q kq t. rewrite lookup_insert_Some. intros [[<- <-]|[_ Hq]].
      * split; [destruct c; simpl; set_solver|]. intros (b & g & Hb & Hg & Hgp).
        assert (act_file b = Some g) as Hbg by (destruct c, b; simpl in *; congruence).
        destruct (H4 t b g Hb Hbg) as (q & kq & Hq & Hkq).
        rewrite lookup_insert_ne in Hgp by (intros ->; by eapply Hfree). congruence.
      * rewrite (H2 c q kq t Hq). split; intros (b & g & Hb & Hg & Hgp); exists b, g; (split_and!; [done|done|]);
          assert (act_file b = Some g) as Hbg by (destruct c, b; simpl in *; congruence).
        -- rewrite lookup_insert_ne; [done|]. intros ->. by eapply Hfree.
        -- rewrite lookup_insert_ne in Hgp; [done|]. intros ->. by eapply Hfree.
    + intros c q kq. rewrite lookup_insert_Some. intros [[<- <-]|[_ Hq]]; [|eauto]. destruct c; apply NoDup_nil_2.
    + intros t b g Hb Hbg. destruct (H4 t b g Hb Hbg) as (q & kq & Hq & Hkq). exists q.
      rewrite lookup_insert_ne by (intros ->; by eapply Hfree).
      rewrite lookup_insert_ne by congruence. eauto.
  - do 2 eexists. split; [done|]. split; [|by left]. by destruct Hs.
Qed.

End properties.

(** *** Witnesses: a pipe whose offsets are about to wrap around *)

Definition ex_pipe : kpipe := mkPipe (replicate 512 0) None [] [] (2 ^ 64 - 1) (2 ^ 64 - 1) 1 1 11 10.
Definition ex_sys : sys Bump.bump :=
  mkSys {[ 100 := ex_pipe ]} (<[10 := 100]> {[ 11 := 100 ]}) (Bump.mkBump 3 101 {[ 100 ]})
    (<[1 := Idle]> {[ 2 := Idle ]}).

Definition state_of {S B} (o : outcome S B) : S := match o with Ret _ s => s | Halt _ s => s end.

Definition ex_s1 := set_activity 1 (Writing true 10 [65; 66]) ex_sys.
Definition ex_s2 := set_activity 1 Idle (state_of (kpipe_write 1 10 [65; 66] ex_s1)).
Definition ex_s3 := set_activity 2 (Reading 11 5) ex_s2.
Definition ex_s4 := set_activity 2 Idle (state_of (kpipe_read 2 11 5 ex_s3)).

Lemma ex_sys_ok : sys_ok ex_sys.
Proof.
  assert (Hth : forall t a, threads ex_sys !! t = Some a -> a = Idle).
  { intros t a. simpl. rewrite lookup_insert_Some, lookup_singleton_Some. naive_solver. }
  split; simpl.
  - intros p k [<- <-]%lookup_singleton_Some. split; [split|]; by vm_compute.
  - intros c p k t [<- <-]%lookup_singleton_Some. split; [destruct c; simpl; set_solver|].
    intros (a & f & Ha%Hth & Hs & _). subst a. by destruct c.
  - intros c p k [<- <-]%lookup_singleton_Some. destruct c; apply NoDup_nil_2.
  - intros t a f Ha%Hth. by subst a.
Qed.

Lemma ex_trace : steps ex_sys [Other; Put 100 [65; 66]; Other; Got 100 [65; 66]] ex_s4.
Proof.
  apply (steps_snoc _ [Other; Put 100 [65; 66]; Other] ex_s3).
  - apply (steps_snoc _ [Other; Put 100 [65; 66]] ex_s2).
    + apply (steps_snoc _ [Other] ex_s1).
      * apply (steps_snoc _ [] ex_sys); [constructor|]. apply step_call_write; [by vm_compute|by eexists].
      * apply (step_write_done ex_s1 1 true 10 [65; 66] 100 2); by vm_compute.
    + apply step_call_read; [by vm_compute|by eexists|lia].
  - apply (step_read_done ex_s3 2 11 5 100 [65; 66]); by vm_compute.
Qed.

Lemma pipe_fifo_witness :
  exists k', pipes ex_s4 !! 100 = Some k' /\ contents ex_pipe ++ [65; 66] = [65; 66] ++ contents k' /\
    (length (contents k') <= 512)%nat /\ sys_ok ex_s4.
Proof. exact (pipe_fifo ex_sys _ ex_s4 100 ex_pipe ex_sys_ok eq_refl ex_trace). Defined.

Lemma ex_s1_ok : sys_ok ex_s1.
Proof.
  apply (ok_activity ex_sys 1 Idle); [apply ex_sys_ok|done|apply awake_idle|apply awake_writing|].
  intros f [= <-]. by exists 100, ex_pipe.
Qed.


(** A reader goes to sleep, then the only writer closes its end. *)
Definition ex_r1 := set_activity 2 (Reading 11 5) ex_sys.
Definition ex_r2 := set_activity 2 (ReadSleep 11 5) (state_of (kpipe_read 2 11 5 ex_r1)).
Definition ex_r3 := state_of (kpipe_ref_decrease 1 10 10 ex_r2).

Lemma ex_r1_ok : sys_ok ex_r1.
Proof.
  apply (ok_activity ex_sys 2 Idle); [apply ex_sys_ok|done|apply awake_idle|apply awake_reading|].
  intros f [= <-]. by exists 100, ex_pipe.
Qed.

Lemma ex_r2_ok : sys_ok ex_r2.
Proof. apply (read_sleep_ok ex_r1 2 11 5); [apply ex_r1_ok|done|by vm_compute]. Qed.

Lemma sleeping_reader_misses_eof_witness :
  threads ex_r3 !! 2 = Some (ReadSleep 11 5) /\ (writers <$> pipes ex_r3 !! 100) = Some 0.
Proof.
  split; [|by vm_compute].
  apply (sleeping_reader_misses_eof ex_r2 ([] ++ [Other]) ex_r3 2 11 5 100 ex_r2_ok); [by vm_compute|by vm_compute| |done].
  eapply steps_snoc; [constructor|]. apply (step_ref_decrease _ 1 10 10); by vm_compute.
Defined.

(** Both ends closed. *)
Definition ex_closed : sys Bump.bump := upd 100 (set_refs 0 0 ex_pipe) ex_sys.

Lemma ex_closed_ok : sys_ok ex_closed.
Proof. apply (ok_upd ex_sys 100 ex_pipe); [apply ex_sys_ok|done|split; by vm_compute|done|by intros []]. Qed.

Lemma kpipe_close_releases_freed_lock_witness :
  exists s', kpipe_close 1 10 ex_closed = Halt Fault s' /\ pipes s' !! 100 = None /\ kmem s' = ofree 100 (kmem ex_closed).
Proof.
  apply (kpipe_close_releases_freed_lock ex_closed 1 10 100 (set_refs 0 0 ex_pipe) ex_closed_ok); by vm_compute.
Defined.

Lemma kpipe_init_correct_witness :
  exists e s', kpipe_init 12 3 4 ex_sys = Ret e s' /\ sys_ok s' /\
    ((e = ERR_NOMEM /\ pipes s' = pipes ex_sys /\ files s' = files ex_sys) \/
     (e = ERR_OK /\ exists p k, pipes ex_sys !! p = None /\ files s' = <[12 := p]> (files ex_sys) /\
        pipes s' = <[p := k]> (pipes ex_sys) /\ contents k = [] /\ readers k = 1 /\ writers k = 1)).
Proof.
  apply (kpipe_init_correct ex_sys 12 3 4 ex_sys_ok); simpl.
  - split; [lia|]. set_solver by lia.
  - intros p [k [<- _]%lookup_singleton_Some]. set_solver.
  - intros t a. rewrite lookup_insert_Some, lookup_singleton_Some. naive_solver.
Defined.

End Pipe.
