(* ===== verification/Buddy.v ===== *)
(** * The block structure of a buddy allocator

    What the buddy allocator of kernel/mm/pmem.c maintains, apart from how it
    stores it: a partition of [n] pages into aligned blocks of 2^order pages,
    of which some are allocated (their first page has a positive reference
    count), some are in the free list of their order, and some are held by
    the operation in progress; and the six moves its operations consist of. *)

From S2P Require Import Prelude.

Module Buddy.

Definition MAXO : Z := 10.

(** The buddy of the block of order [o] at page [p], as [find_buddy] computes it. *)
Definition buddy (p o : Z) : Z :=
  if Z.testbit (p `div` 2 ^ o) 0 then p - 2 ^ o else p + 2 ^ o.

(** ** Alignment *)

Lemma buddy_cases p o : 0 <= o -> p `mod` 2 ^ o = 0 ->
  (p `mod` 2 ^ (o + 1) = 0 /\ buddy p o = p + 2 ^ o) \/
  ((p - 2 ^ o) `mod` 2 ^ (o + 1) = 0 /\ buddy p o = p - 2 ^ o).
Proof.
  intros Ho [k Hk]%Z.mod_divide; [|lia]. unfold buddy. subst p. rewrite Z.div_mul by lia.
  rewrite Z.bit0_odd. rewrite Z.pow_add_r by lia. change (2 ^ 1) with 2.
  destruct (Z.odd k) eqn:E.
  - apply Z.odd_spec in E as [m ->]. right. split; [|done].
    replace ((2 * m + 1) * 2 ^ o - 2 ^ o) with (m * (2 ^ o * 2)) by lia. apply Z.mod_mul. lia.
  - rewrite <- Z.negb_even in E. apply negb_false_iff, Z.even_spec in E as [m ->]. left. split; [|done].
    replace (2 * m * 2 ^ o) with (m * (2 ^ o * 2)) by lia. apply Z.mod_mul. lia.
Qed.

Lemma aligned_down p o o' : 0 <= o <= o' -> p `mod` 2 ^ o' = 0 -> p `mod` 2 ^ o = 0.
Proof.
  intros Ho Hp. apply Z.mod_divide in Hp; [|lia]. apply Z.mod_divide; [lia|].
  etrans; [|done]. exists (2 ^ (o' - o)). rewrite <- Z.pow_add_r by lia. f_equal. lia.
Qed.

Lemma aligned_add p o : 0 <= o -> p `mod` 2 ^ o = 0 -> (p + 2 ^ o) `mod` 2 ^ o = 0 /\ (p - 2 ^ o) `mod` 2 ^ o = 0.
Proof.
  intros Ho Hp. split.
  - replace (p + 2 ^ o) with (p + 1 * 2 ^ o) by lia. by rewrite Z.mod_add by lia.
  - replace (p - 2 ^ o) with (p + (-1) * 2 ^ o) by lia. by rewrite Z.mod_add by lia.
Qed.

Lemma buddy_aligned p o : 0 <= o -> p `mod` 2 ^ o = 0 -> buddy p o `mod` 2 ^ o = 0.
Proof. intros Ho Hp. unfold buddy. destruct (aligned_add p o Ho Hp). by case_match. Qed.

Lemma buddy_ne p o : 0 <= o -> buddy p o <> p.
Proof. intros. unfold buddy. case_match; lia. Qed.

Lemma half_odd x k m : 0 < x -> x = (k - m) * (x * 2) \/ x = (m - k) * (x * 2) -> False.
Proof. intros Hx [H|H]; [assert (x * ((k - m) * 2 - 1) = 0) as [?|?]%Z.mul_eq_0|assert (x * ((m - k) * 2 - 1) = 0) as [?|?]%Z.mul_eq_0]; lia. Qed.

(** The lower half of an aligned block of order [o] has the upper half as its buddy. *)
Lemma buddy_low p o : 0 <= o -> p `mod` 2 ^ (o + 1) = 0 -> buddy p o = p + 2 ^ o.
Proof.
  intros Ho Hp. destruct (buddy_cases p o Ho) as [[_ H]|[H _]]; [|done|].
  - apply (aligned_down p o (o + 1)); [lia|done].
  - exfalso. apply Z.mod_divide in Hp as [k Hk]; [|lia]. apply Z.mod_divide in H as [m Hm]; [|lia].
    rewrite Z.pow_add_r in Hk, Hm by lia. change (2 ^ 1) with 2 in *.
    apply (half_odd (2 ^ o) k m); lia.
Qed.

Lemma buddy_high p o : 0 <= o -> p `mod` 2 ^ (o + 1) = 0 -> buddy (p + 2 ^ o) o = p.
Proof.
  intros Ho Hp. destruct (buddy_cases (p + 2 ^ o) o Ho) as [[H _]|[_ H]]; [| |lia].
  - apply aligned_add; [done|]. apply (aligned_down p o (o + 1)); [lia|done].
  - exfalso. apply Z.mod_divide in Hp as [k Hk]; [|lia]. apply Z.mod_divide in H as [m Hm]; [|lia].
    rewrite Z.pow_add_r in Hk, Hm by lia. change (2 ^ 1) with 2 in *.
    apply (half_odd (2 ^ o) k m); lia.
Qed.

Lemma buddy_nonneg p o : 0 <= o -> 0 <= p -> p `mod` 2 ^ o = 0 -> 0 <= buddy p o.
Proof.
  intros Ho Hp Hal. destruct (buddy_cases p o Ho Hal) as [[_ ->]|[Hm ->]]; [lia|].
  apply Z.mod_divide in Hm as [z Hz]; [|lia]. rewrite Z.pow_add_r in Hz by lia. change (2 ^ 1) with 2 in Hz.
  assert (-1 <= z * 2) as Hz0 by (apply (Zmult_le_reg_r _ _ (2 ^ o)); lia).
  rewrite Hz. apply Z.mul_nonneg_nonneg; lia.
Qed.

Lemma buddy_involutive p o : 0 <= o -> p `mod` 2 ^ o = 0 -> buddy (buddy p o) o = p.
Proof.
  intros Ho Hp. destruct (buddy_cases p o Ho Hp) as [[H ->]|[H ->]]; [by apply buddy_high|].
  rewrite buddy_low by done. lia.
Qed.

Lemma grid x y m k : 0 < x -> m * (y * x) < k * x + x -> k * x < m * (y * x) + y * x ->
  m * (y * x) <= k * x /\ k * x + x <= m * (y * x) + y * x.
Proof.
  intros Hx H1 H2. assert (m * y < k + 1) by (apply (Zmult_lt_reg_r _ _ x); lia).
  assert (k < m * y + y) by (apply (Zmult_lt_reg_r _ _ x); lia). split.
  - replace (m * (y * x)) with ((m * y) * x) by lia. apply Z.mul_le_mono_nonneg_r; lia.
  - replace (k * x + x) with ((k + 1) * x) by lia. replace (m * (y * x) + y * x) with ((m * y + y) * x) by lia.
    apply Z.mul_le_mono_nonneg_r; lia.
Qed.

(** Two aligned blocks, one inside the range of the other's pair. *)
Lemma aligned_in p o q o' : 0 <= o -> o < o' -> p `mod` 2 ^ o = 0 -> q `mod` 2 ^ o' = 0 ->
  q <= p < q + 2 ^ o' -> q <= buddy p o < q + 2 ^ o'.
Proof.
  intros Ho Hlt Hp Hq Hin.
  assert (Hlow : forall l, l `mod` 2 ^ (o + 1) = 0 -> q < l + 2 ^ (o + 1) -> l < q + 2 ^ o' ->
    q <= l /\ l + 2 ^ (o + 1) <= q + 2 ^ o').
  { intros l Hl H1 H2. apply Z.mod_divide in Hl as [k ->]; [|lia]. apply Z.mod_divide in Hq as [m ->]; [|lia].
    replace (2 ^ o') with (2 ^ (o' - o - 1) * 2 ^ (o + 1)) in * by (rewrite <- Z.pow_add_r by lia; f_equal; lia).
    apply grid; lia. }
  assert (2 ^ (o + 1) = 2 * 2 ^ o) by (rewrite Z.pow_add_r; lia).
  destruct (buddy_cases p o Ho Hp) as [[H' ->]|[H' ->]]; destruct (Hlow _ H'); lia.
Qed.

(** ** The invariant *)

(** A free block: not allocated and not held. *)
Definition is_free (rf : Z -> Z) (B : gmap Z Z) (H : gset Z) (p o : Z) : Prop :=
  B !! p = Some o /\ rf p = 0 /\ p ∉ H.

(** [n] pages; [rf] and [od] are the reference counts and orders stored with
    the pages, [fl] the free lists, [B] the blocks with their orders, [H] the
    blocks held. *)
Record wf (n : Z) (rf od : Z -> Z) (fl : nat -> list Z) (B : gmap Z Z) (H : gset Z) : Prop := {
  wf_block : forall p o, B !! p = Some o ->
    0 <= o <= MAXO /\ 0 <= p /\ p `mod` 2 ^ o = 0 /\ p + 2 ^ o <= n /\ od p = o;
  wf_cover : forall x, 0 <= x < n -> exists p o, B !! p = Some o /\ p <= x < p + 2 ^ o;
  wf_disj : forall p o q o' x, B !! p = Some o -> B !! q = Some o' ->
    p <= x < p + 2 ^ o -> q <= x < q + 2 ^ o' -> p = q;
  wf_ref : forall x, 0 <= rf x;
  wf_head : forall x, 0 < rf x -> is_Some (B !! x);
  wf_free : forall o x, x ∈ fl o <-> is_free rf B H x (Z.of_nat o);
  wf_nodup : forall o, NoDup (fl o);
  wf_held : forall p, p ∈ H -> is_Some (B !! p) /\ rf p = 0;
  wf_max : forall p o, o < MAXO -> is_free rf B H p o -> is_free rf B H (buddy p o) o -> False;
}.

(** The invariant depends on the stored data only pointwise. *)
Lemma wf_ext n rf rf' od od' fl fl' B H :
  (forall x, rf' x = rf x) -> (forall x, od' x = od x) -> (forall o, fl' o = fl o) ->
  wf n rf od fl B H -> wf n rf' od' fl' B H.
Proof.
  intros Hr Ho Hf [W1 W2 W3 W4 W5 W6 W7 W8 W9].
  assert (Hfr : forall p o, is_free rf' B H p o <-> is_free rf B H p o) by (intros; unfold is_free; by rewrite Hr).
  split; auto.
  - intros p o Hp. rewrite Ho. auto.
  - intros x. by rewrite Hr.
  - intros x. rewrite Hr. auto.
  - intros o x. by rewrite Hf, Hfr.
  - intros o. by rewrite Hf.
  - intros p. rewrite Hr. auto.
  - intros p o Hl. rewrite !Hfr. eauto.
Qed.

#[export] Instance wf_proper :
  Proper (eq ==> pointwise_relation Z eq ==> pointwise_relation Z eq ==> pointwise_relation nat eq ==>
          eq ==> eq ==> iff) wf.
Proof.
  intros n _ <- rf rf' Hr od od' Ho fl fl' Hf B _ <- H _ <-.
  split; apply wf_ext; intros ?; by rewrite ?(Hr _), ?(Ho _), ?(Hf _).
Qed.

Section moves.
Context {n : Z} {rf od : Z -> Z} {fl : nat -> list Z} {B : gmap Z Z} {H : gset Z}.
Hypothesis W : wf n rf od fl B H.

Lemma block_pos p o : B !! p = Some o -> 0 < 2 ^ o.
Proof using W. intros Hp. destruct (wf_block _ _ _ _ _ _ W p o Hp). lia. Qed.

(** A page strictly inside a block is not the first page of a block. *)
Lemma interior_not_head p o x : B !! p = Some o -> p < x < p + 2 ^ o -> B !! x = None.
Proof using W.
  intros Hp Hx. destruct (B !! x) as [o'|] eqn:Hb; [|done].
  pose proof (block_pos x o' Hb). assert (p = x); [|lia].
  apply (wf_disj _ _ _ _ _ _ W p o x o' x); auto; lia.
Qed.

(** The buddy of a block, when it exists, is the first page of a block of at
    most the same order. *)
Lemma buddy_head p o : B !! p = Some o -> o < MAXO -> 0 <= buddy p o < n ->
  exists o', B !! buddy p o = Some o' /\ o' <= o.
Proof using W.
  intros Hp Ho Hb. destruct (wf_block _ _ _ _ _ _ W p o Hp) as (Ho' & _ & Hal & _).
  destruct (wf_cover _ _ _ _ _ _ W (buddy p o) Hb) as (q & oq & Hq & Hin).
  destruct (wf_block _ _ _ _ _ _ W q oq Hq) as (Hoq & _ & Halq & _).
  destruct (Z.ltb_spec o oq) as [Hlt|Hge].
  - exfalso. pose proof (aligned_in (buddy p o) o q oq ltac:(lia) Hlt (buddy_aligned p o ltac:(lia) Hal) Halq Hin) as Hin'.
    rewrite buddy_involutive in Hin' by (lia || done). pose proof (block_pos p o Hp).
    assert (q = p) as -> by (apply (wf_disj _ _ _ _ _ _ W q oq p o p); auto; lia).
    rewrite Hp in Hq. simplify_eq. lia.
  - destruct (decide (q = buddy p o)) as [<-|Hne]; [eauto|exfalso].
    pose proof (buddy_aligned p o ltac:(lia) Hal) as Hba.
    apply (aligned_down _ oq o) in Hba; [|lia].
    apply Z.mod_divide in Hba as [k Hk]; [|lia]. apply Z.mod_divide in Halq as [m Hm]; [|lia].
    assert (0 < 2 ^ oq) by lia. assert (m < k < m + 1); [|lia].
    split; apply (Zmult_lt_reg_r _ _ (2 ^ oq)); lia.
Qed.

(** Take a block out of its free list. *)
Lemma take_wf x o fl' :
  x ∈ fl o -> (forall o' y, y ∈ fl' o' <-> y ∈ fl o' /\ y <> x) -> (forall o', NoDup (fl' o')) ->
  wf n rf od fl' B ({[x]} ∪ H).
Proof using W.
  intros Hx Hfl Hnd. destruct W as [W1 W2 W3 W4 W5 W6 W7 W8 W9].
  apply W6 in Hx as (Hb & Hr & Hh). split; auto.
  - intros o' y. rewrite Hfl, W6. unfold is_free. set_solver.
  - intros p [->%elem_of_singleton|Hp]%elem_of_union; [by eauto|auto].
  - intros p o' Ho' (H1 & H2 & H3) (H4 & H5 & H6). apply (W9 p o'); auto; split_and!; auto; set_solver.
Qed.

(** Put a held block into its free list. *)
Lemma give_wf x o fl' :
  x ∈ H -> B !! x = Some (Z.of_nat o) -> (Z.of_nat o < MAXO -> ~ is_free rf B H (buddy x (Z.of_nat o)) (Z.of_nat o)) ->
  (forall o' y, y ∈ fl' o' <-> y ∈ fl o' \/ (o' = o /\ y = x)) -> (forall o', NoDup (fl' o')) ->
  wf n rf od fl' B (H ∖ {[x]}).
Proof using W.
  intros Hx Hb Hbud Hfl Hnd. destruct W as [W1 W2 W3 W4 W5 W6 W7 W8 W9].
  destruct (W8 x Hx) as [_ Hr]. split; auto.
  - intros o' y. rewrite Hfl, W6. unfold is_free. split.
    + intros [(?&?&?)|[-> ->]]; split_and!; auto; set_solver.
    + intros (H1 & H2 & H3). destruct (decide (y = x)) as [->|]; [|left; set_solver].
      right. split; [|done]. rewrite Hb in H1. simplify_eq. lia.
  - set_solver.
  - intros p o' Ho' (H1 & H2 & H3) (H4 & H5 & H6). destruct (W1 p o' H1) as (? & _ & Hal & _).
    destruct (decide (p = x)) as [->|Hpx].
    + assert (o' = Z.of_nat o) as -> by congruence. apply Hbud; [done|]. split_and!; auto.
      intros Hin. apply H6. apply elem_of_difference. split; [done|]. rewrite elem_of_singleton. apply buddy_ne. lia.
    + destruct (decide (buddy p o' = x)) as [<-|Hbx].
      * assert (o' = Z.of_nat o) as -> by congruence. apply Hbud; [done|].
        rewrite buddy_involutive by (lia || done). split_and!; auto. set_solver.
      * apply (W9 p o'); auto; split_and!; auto; set_solver.
Qed.

(** Mark a held block as allocated. *)
Lemma grab_wf x rf' :
  x ∈ H -> 0 < rf' x -> (forall y, y <> x -> rf' y = rf y) -> wf n rf' od fl B (H ∖ {[x]}).
Proof using W.
  intros Hx Hp Hrf. destruct W as [W1 W2 W3 W4 W5 W6 W7 W8 W9]. destruct (W8 x Hx) as [Hb Hr].
  assert (Hfr : forall p o, is_free rf' B (H ∖ {[x]}) p o <-> is_free rf B H p o).
  { intros p o. unfold is_free. destruct (decide (p = x)) as [->|Hne]; [|rewrite Hrf by done; set_solver].
    split; intros (_ & H2 & H3); [lia|done]. }
  split; auto.
  - intros y. destruct (decide (y = x)) as [->|]; [lia|rewrite Hrf; auto].
  - intros y Hy. destruct (decide (y = x)) as [->|]; [done|]. rewrite Hrf in Hy by done. auto.
  - intros o y. by rewrite Hfr.
  - intros p [Hp1 Hp2]%elem_of_difference. rewrite Hrf by set_solver. auto.
  - intros p o Ho. rewrite !Hfr. eauto.
Qed.

(** Turn an allocated block into a held one. *)
Lemma drop_wf x rf' :
  0 < rf x -> rf' x = 0 -> (forall y, y <> x -> rf' y = rf y) -> wf n rf' od fl B ({[x]} ∪ H).
Proof using W.
  intros Hx Hp Hrf. destruct W as [W1 W2 W3 W4 W5 W6 W7 W8 W9]. pose proof (W5 x Hx) as Hb.
  assert (Hfr : forall p o, is_free rf' B ({[x]} ∪ H) p o <-> is_free rf B H p o).
  { intros p o. unfold is_free. destruct (decide (p = x)) as [->|Hne]; [|rewrite Hrf by done; set_solver].
    split; intros (_ & H2 & H3); [set_solver|lia]. }
  split; auto.
  - intros y. destruct (decide (y = x)) as [->|]; [lia|rewrite Hrf; auto].
  - intros y Hy. destruct (decide (y = x)) as [->|]; [lia|]. rewrite Hrf in Hy by done. auto.
  - intros o y. by rewrite Hfr.
  - intros p Hin. destruct (decide (p = x)) as [->|]; [done|]. rewrite Hrf by done. apply W8. set_solver.
  - intros p o Ho. rewrite !Hfr. eauto.
Qed.

(** Change the reference count of an allocated block. *)
Lemma recount_wf x rf' :
  0 < rf x -> 0 < rf' x -> (forall y, y <> x -> rf' y = rf y) -> wf n rf' od fl B H.
Proof using W.
  intros Hx Hp Hrf. destruct W as [W1 W2 W3 W4 W5 W6 W7 W8 W9].
  assert (Hfr : forall p o, is_free rf' B H p o <-> is_free rf B H p o).
  { intros p o. unfold is_free. destruct (decide (p = x)) as [->|Hne]; [|by rewrite Hrf].
    split; intros (_ & H2 & H3); lia. }
  split; auto.
  - intros y. destruct (decide (y = x)) as [->|]; [lia|rewrite Hrf; auto].
  - intros y Hy. destruct (decide (y = x)) as [->|]; [auto|]. rewrite Hrf in Hy by done. auto.
  - intros o y. by rewrite Hfr.
  - intros p Hin. destruct (W8 p Hin). rewrite Hrf; [done|]. intros ->. lia.
  - intros p o Ho. rewrite !Hfr. eauto.
Qed.

(** Split a held block into two held halves. *)
Lemma split_wf x o od' :
  x ∈ H -> B !! x = Some (o + 1) -> 0 <= o ->
  od' x = o -> od' (x + 2 ^ o) = o -> (forall y, y <> x -> y <> x + 2 ^ o -> od' y = od y) ->
  wf n rf od' fl (<[x := o]> (<[x + 2 ^ o := o]> B)) ({[x + 2 ^ o]} ∪ H).
Proof using W.
  intros Hx Hb Ho Hox Hoh Hod. assert (Hpow : 2 ^ (o + 1) = 2 * 2 ^ o) by (rewrite Z.pow_add_r; lia).
  assert (Hpos : 0 < 2 ^ o) by lia.
  assert (Hnone : B !! (x + 2 ^ o) = None) by (eapply interior_not_head; [done|lia]).
  destruct W as [W1 W2 W3 W4 W5 W6 W7 W8 W9]. destruct (W1 x _ Hb) as (Hbo & Hx0 & Hal & Hxn & _).
  set (B' := <[x := o]> (<[x + 2 ^ o := o]> B)).
  assert (HB' : forall p o', B' !! p = Some o' <->
    ((p = x \/ p = x + 2 ^ o) /\ o' = o) \/ (p <> x /\ p <> x + 2 ^ o /\ B !! p = Some o')).
  { intros p o'. unfold B'. rewrite !lookup_insert_Some. split; intros; intuition (subst; auto; lia). }
  assert (Hfr : forall p o', is_free rf B' ({[x + 2 ^ o]} ∪ H) p o' <-> is_free rf B H p o').
  { intros p o'. unfold is_free. rewrite HB'.
    destruct (decide (p = x)) as [->|]; [set_solver|].
    destruct (decide (p = x + 2 ^ o)) as [->|]; [rewrite Hnone; set_solver|].
    split; intros (H1 & H2 & H3); split_and!; try done; [intuition congruence|set_solver|right; done|set_solver]. }
  assert (Hpar : forall p o' y, B' !! p = Some o' -> p <= y < p + 2 ^ o' ->
    exists q oq, B !! q = Some oq /\ q <= y < q + 2 ^ oq /\ (p = q \/ (q = x /\ p = x + 2 ^ o))).
  { intros p o' y [[[-> | ->] ->]|(? & ? & Hp)]%HB' Hy; [exists x, (o + 1)|exists x, (o + 1)|eauto 8];
      (split_and!; [done|lia|lia|]); auto. }
  split; auto.
  - intros p o' [[[-> | ->] ->]|(? & ? & Hp)]%HB'; [| |rewrite Hod by done; auto].
    + split_and!; try lia. by apply (aligned_down x o (o + 1)); [lia|].
    + split_and!; try lia. apply aligned_add; [done|]. by apply (aligned_down x o (o + 1)); [lia|].
  - intros y Hy. destruct (W2 y Hy) as (p & op & Hp & Hin). destruct (decide (p = x)) as [->|Hne].
    + assert (op = o + 1) as -> by congruence. destruct (Z.ltb_spec y (x + 2 ^ o)).
      * exists x, o. rewrite HB'. split; [left; auto|lia].
      * exists (x + 2 ^ o), o. rewrite HB'. split; [left; auto|lia].
    + exists p, op. rewrite HB'. split; [right; split_and!; congruence|done].
  - intros p o1 q o2 y Hp Hq Hpy Hqy.
    destruct (Hpar p o1 y Hp Hpy) as (p' & ? & Hp' & Hpy' & Hpp). destruct (Hpar q o2 y Hq Hqy) as (q' & ? & Hq' & Hqy' & Hqq).
    assert (p' = q') as -> by (eapply W3; eauto).
    destruct Hpp as [->|[-> ->]], Hqq as [->|[? ->]]; subst; auto.
    + apply HB' in Hp as [[_ ->]|(? & _)]; [|done]. lia.
    + apply HB' in Hq as [[_ ->]|(? & _)]; [|done]. lia.
  - intros y Hy. destruct (W5 y Hy) as [oy Hoy]. destruct (decide (y = x)) as [->|]; [exists o; apply HB'; auto|].
    exists oy. apply HB'. right. split_and!; congruence.
  - intros o' y. by rewrite Hfr.
  - intros p [->%elem_of_singleton|Hp]%elem_of_union.
    + split; [exists o; apply HB'; auto|]. pose proof (W4 (x + 2 ^ o)). destruct (decide (0 < rf (x + 2 ^ o))) as [Hr|]; [|lia].
      destruct (W5 _ Hr). congruence.
    + destruct (W8 p Hp) as [[op Hop] Hr]. split; [|done].
      destruct (decide (p = x)) as [->|]; [exists o; apply HB'; auto|]. exists op. apply HB'. right. split_and!; congruence.
  - intros p o' Ho'. rewrite !Hfr. eauto.
Qed.

(** Join two held buddies into one held block. *)
Lemma merge_wf lo o od' :
  lo ∈ H -> lo + 2 ^ o ∈ H -> B !! lo = Some o -> B !! (lo + 2 ^ o) = Some o -> o < MAXO ->
  lo `mod` 2 ^ (o + 1) = 0 -> od' lo = o + 1 -> (forall y, y <> lo -> od' y = od y) ->
  wf n rf od' fl (<[lo := o + 1]> (delete (lo + 2 ^ o) B)) (H ∖ {[lo + 2 ^ o]}).
Proof using W.
  intros Hl Hh Hbl Hbh Hmax Hal Hol Hod. destruct W as [W1 W2 W3 W4 W5 W6 W7 W8 W9].
  destruct (W1 _ _ Hbl) as (Ho & Hl0 & _ & _ & _). destruct (W1 _ _ Hbh) as (_ & _ & _ & Hhn & _).
  assert (Hpow : 2 ^ (o + 1) = 2 * 2 ^ o) by (rewrite Z.pow_add_r; lia). assert (Hpos : 0 < 2 ^ o) by lia.
  set (hi := lo + 2 ^ o) in *. set (B' := <[lo := o + 1]> (delete hi B)).
  assert (HB' : forall p o', B' !! p = Some o' <->
    (p = lo /\ o' = o + 1) \/ (p <> lo /\ p <> hi /\ B !! p = Some o')).
  { intros p o'. unfold B'. rewrite lookup_insert_Some, lookup_delete_Some. intuition (subst; auto; lia). }
  assert (Hfr : forall p o', is_free rf B' (H ∖ {[hi]}) p o' <-> is_free rf B H p o').
  { intros p o'. unfold is_free. rewrite HB'.
    destruct (decide (p = lo)) as [->|]; [assert (lo <> hi) by lia; set_solver|].
    destruct (decide (p = hi)) as [->|]; [set_solver|].
    split; intros (H1 & H2 & H3); split_and!; try done; [intuition congruence|set_solver|right; done|set_solver]. }
  assert (Hpar : forall p o' y, B' !! p = Some o' -> p <= y < p + 2 ^ o' ->
    exists q oq, B !! q = Some oq /\ q <= y < q + 2 ^ oq /\ ((p <> lo /\ p = q) \/ (p = lo /\ (q = lo \/ q = hi)))).
  { intros p o' y [[-> ->]|(? & ? & Hp)]%HB' Hy; [|eauto 8].
    destruct (Z.ltb_spec y hi); [exists lo, o|exists hi, o]; (split_and!; [done|lia|lia|]); auto. }
  split; auto.
  - intros p o' [[-> ->]|(? & ? & Hp)]%HB'; [|rewrite Hod by done; auto]. split_and!; try lia.
  - intros y Hy. destruct (W2 y Hy) as (p & op & Hp & Hin).
    destruct (decide (p = lo)) as [->|]; [exists lo, (o + 1); rewrite HB'; simplify_eq; split; [auto|lia]|].
    destruct (decide (p = hi)) as [->|]; [exists lo, (o + 1); rewrite HB'; simplify_eq; split; [auto|lia]|].
    exists p, op. rewrite HB'. auto.
  - intros p o1 q o2 y Hp Hq Hpy Hqy.
    destruct (Hpar p o1 y Hp Hpy) as (p' & ? & Hp' & Hpy' & Hpp). destruct (Hpar q o2 y Hq Hqy) as (q' & ? & Hq' & Hqy' & Hqq).
    assert (p' = q') as -> by (eapply W3; eauto).
    apply HB' in Hp. apply HB' in Hq. naive_solver.
  - intros y Hy. destruct (W5 y Hy) as [oy Hoy]. destruct (decide (y = lo)) as [->|]; [exists (o + 1); apply HB'; auto|].
    exists oy. apply HB'. right. split_and!; auto. intros ->. destruct (W8 hi Hh). lia.
  - intros o' y. by rewrite Hfr.
  - intros p [Hp Hph]%elem_of_difference. destruct (W8 p Hp) as [[op Hop] Hr]. split; [|done].
    destruct (decide (p = lo)) as [->|]; [exists (o + 1); apply HB'; auto|]. exists op. apply HB'. right. set_solver.
  - intros p o' Ho'. rewrite !Hfr. eauto.
Qed.

End moves.

End Buddy.
