(* ===== verification/Pmem.v ===== *)
(** * Physical memory: kernel/mm/pmem.c, include/kernel/pmem.h

    A boot allocator on a bitmap, and the binary buddy allocator that takes
    over.  The pages are the entries of [pagemap], a page is named by its
    index; a free list is the sequence of its pages (the doubly linked lists
    of [CList.v] implement sequences). *)

From S2P Require Import Prelude Page Lib Alloc Buddy.
Local Open Scope kernel_scope.
Import Page.

Module Pmem.

Definition MAX_ORDER : Z := 10.
Definition PAGE_DIRTY_BIT : Z := 0.

(** [struct page]: the sleeplock is its holder; [blk_headers] is a list. *)
Record page := mkPage {
  lock : option Z;
  kmem_cache : Z;
  slab : Z;
  rmap : Z;
  refcnt : Z;
  order : Z;
  state : Z;
  blk_headers : list Z;
}.

Record pmem := mkPmem {
  pmem_start : Z;
  pmem_end : Z;
  pmem_lock : bool;
  bitmap : list Z;
  bitmap_contig_start : Z;
  bitmap_end : Z;
  pagemap : gmap Z page;
  pagemap_end : Z;
  pagemap_initialized : bool;
  freeblocks : list (list Z);
}.

Definition set_lock (b : bool) (s : pmem) : pmem :=
  mkPmem (pmem_start s) (pmem_end s) b (bitmap s) (bitmap_contig_start s) (bitmap_end s)
    (pagemap s) (pagemap_end s) (pagemap_initialized s) (freeblocks s).
Definition set_bitmap (bm : list Z) (c : Z) (s : pmem) : pmem :=
  mkPmem (pmem_start s) (pmem_end s) (pmem_lock s) bm c (bitmap_end s)
    (pagemap s) (pagemap_end s) (pagemap_initialized s) (freeblocks s).
Definition set_pagemap (pm : gmap Z page) (s : pmem) : pmem :=
  mkPmem (pmem_start s) (pmem_end s) (pmem_lock s) (bitmap s) (bitmap_contig_start s) (bitmap_end s)
    pm (pagemap_end s) (pagemap_initialized s) (freeblocks s).
Definition set_freeblocks (fb : list (list Z)) (s : pmem) : pmem :=
  mkPmem (pmem_start s) (pmem_end s) (pmem_lock s) (bitmap s) (bitmap_contig_start s) (bitmap_end s)
    (pagemap s) (pagemap_end s) (pagemap_initialized s) fb.

Definition set_refcnt (r : Z) (g : page) : page :=
  mkPage (lock g) (kmem_cache g) (slab g) (rmap g) r (order g) (state g) (blk_headers g).
Definition set_order (o : Z) (g : page) : page :=
  mkPage (lock g) (kmem_cache g) (slab g) (rmap g) (refcnt g) o (state g) (blk_headers g).

(** Access to [struct page] number [i]. *)
Definition get_page (i : Z) : M pmem page :=
  fun s => match pagemap s !! i with Some g => Ret g s | None => Halt Fault s end.
Definition upd_page (i : Z) (f : page -> page) : M pmem unit :=
  g <- get_page i ;; modify (fun s => set_pagemap (<[i := f g]> (pagemap s)) s).

(** [spinlock_acquire], [spinlock_release] on [pmem_lock]; acquiring it while
    it is held never returns. *)
Definition acquire : M pmem unit :=
  fun s => if pmem_lock s then Halt Block s else Ret tt (set_lock true s).
Definition release : M pmem unit := modify (set_lock false).

(** ** The boot allocator *)

Definition bit_get (i : Z) : M pmem bool :=
  fun s => match bitmap s !! Z.to_nat (i `div` 8) with
           | Some b => Ret (negb (Z.land b (Z.shiftl 1 (i `mod` 8)) =? 0)) s
           | None => Halt Fault s
           end.
Definition bit_upd (f : Z -> Z) (i : Z) : M pmem unit :=
  fun s => match bitmap s !! Z.to_nat (i `div` 8) with
           | Some b => Ret tt (set_bitmap (<[Z.to_nat (i `div` 8) := u8 (f b)]> (bitmap s)) (bitmap_contig_start s) s)
           | None => Halt Fault s
           end.
Definition BITMAP_ISSET (i : Z) : M pmem bool := bit_get i.
Definition BITMAP_SET (i : Z) : M pmem unit := bit_upd (fun b => Z.lor b (Z.shiftl 1 (i `mod` 8))) i.
Definition BITMAP_UNSET (i : Z) : M pmem unit :=
  bit_upd (fun b => Z.land b (Z.lnot (Z.shiftl 1 (i `mod` 8)))) i.
Definition BITMAP_ITOP (i : Z) (s : pmem) : Z := i * PG_SIZE + pmem_start s.
Definition BITMAP_PTOI (p : Z) (s : pmem) : Z := (p - pmem_start s) `div` PG_SIZE.

Fixpoint bitmap_alloc_loop (n : nat) (i : Z) : M pmem unit :=
  match n with
  | O => ret tt
  | S n' =>
      b <- BITMAP_ISSET i ;;
      kassert (negb b) ;;
      BITMAP_SET i ;;
      bitmap_alloc_loop n' (i + 1)
  end.

Definition bitmap_alloc (index n : Z) : M pmem unit :=
  e <- gets bitmap_end ;;
  kassert (index + n <=? e) ;;
  bitmap_alloc_loop (Z.to_nat n) index ;;
  modify (fun s => if bitmap_contig_start s <? index + n then set_bitmap (bitmap s) (index + n) s else s).

Fixpoint bitmap_free_loop (n : nat) (i : Z) : M pmem unit :=
  match n with
  | O => ret tt
  | S n' =>
      b <- BITMAP_ISSET i ;;
      kassert b ;;
      BITMAP_UNSET i ;;
      bitmap_free_loop n' (i + 1)
  end.

(** The backward scan of [bitmap_free] from [index]. *)
Fixpoint scan_back (index : nat) : M pmem Z :=
  match index with
  | O => ret 0
  | S i =>
      b <- BITMAP_ISSET (Z.of_nat i) ;;
      if (b : bool) then ret (Z.of_nat index) else scan_back i
  end.

Definition bitmap_free (index n : Z) : M pmem unit :=
  e <- gets bitmap_end ;;
  kassert (index + n <=? e) ;;
  c <- gets bitmap_contig_start ;;
  kassert (index + n <=? c) ;;
  bitmap_free_loop (Z.to_nat n) index ;;
  if index + n =? c then
    i <- scan_back (Z.to_nat index) ;;
    modify (fun s => set_bitmap (bitmap s) i s)
  else ret tt.

(** The loop of [bitmap_find], [k] pages before the end of the bitmap. *)
Fixpoint bitmap_find_loop (k : nat) (i first n_free_pages n : Z) : M pmem Z :=
  match k with
  | O => ret (-1)
  | S k' =>
      b <- BITMAP_ISSET i ;;
      if (b : bool) then bitmap_find_loop k' (i + 1) (first + 1) 0 n
      else if n <=? n_free_pages + 1 then ret first
      else bitmap_find_loop k' (i + 1) first (n_free_pages + 1) n
  end.

Definition bitmap_find (n : Z) : M pmem Z :=
  kassert (0 <? n) ;;
  e <- gets bitmap_end ;;
  bitmap_find_loop (Z.to_nat e) 0 0 0 n.

Definition bitmap_pages (s : pmem) : Z :=
  pg_round_up ((pmem_end s - pmem_start s) `div` PG_SIZE `div` 8) `div` PG_SIZE.

Definition bitmap_init : M pmem unit :=
  s <- gets (fun s => s) ;;
  kassert (pmem_start s <? pmem_end s) ;;
  kassert (pg_aligned (pmem_start s)) ;;
  kassert (pg_aligned (pmem_end s)) ;;
  let bitmap_n_pages := bitmap_pages s in
  let e := (pmem_end s - pmem_start s) `div` PG_SIZE in
  kassert (bitmap_n_pages <? e) ;;
  modify (fun s => mkPmem (pmem_start s) (pmem_end s) (pmem_lock s)
                     (replicate (Z.to_nat (PG_SIZE * bitmap_n_pages)) 0) 0 e
                     (pagemap s) (pagemap_end s) (pagemap_initialized s) (freeblocks s)) ;;
  bitmap_alloc 0 bitmap_n_pages.

(** ** The buddy allocator *)

Definition paddr_to_page (paddr : Z) : Z := paddr `div` PG_SIZE.
Definition page_to_paddr (i : Z) : Z := i * PG_SIZE.

Definition order_ok (o : Z) : bool := (0 <=? o) && (o <=? MAX_ORDER).

(** The loop of [get_max_page_order], from [order] down. *)
Fixpoint max_order_loop (o : nat) (start_index end_index : Z) : Z :=
  match o with
  | O => 0
  | S o' =>
      if (start_index `mod` Z.shiftl 1 (Z.of_nat o) =? 0) &&
         (start_index + Z.shiftl 1 (Z.of_nat o) <=? end_index)
      then Z.of_nat o
      else max_order_loop o' start_index end_index
  end.

Definition get_max_page_order (start end_ : Z) : M pmem Z :=
  kassert (start `div` PG_SIZE <? end_ `div` PG_SIZE) ;;
  ret (max_order_loop (Z.to_nat MAX_ORDER) (start `div` PG_SIZE) (end_ `div` PG_SIZE)).

(** The loop of [get_min_page_order], [k] orders before the last. *)
Fixpoint min_order_loop (k : nat) (o n : Z) : M pmem Z :=
  match k with
  | O => stop Panic
  | S k' => if n <=? Z.shiftl 1 o then ret o else min_order_loop k' (o + 1) n
  end.
Definition get_min_page_order (n : Z) : M pmem Z := min_order_loop (Z.to_nat (MAX_ORDER + 1)) 0 n.

Definition freeblocks_insert (i : Z) : M pmem unit :=
  g <- get_page i ;;
  kassert (order_ok (order g)) ;;
  upd_page i (set_refcnt 0) ;;
  modify (fun s => set_freeblocks (alter (fun l => l ++ [i]) (Z.to_nat (order g)) (freeblocks s)) s).

(** [list_remove(&page->node)] unlinks the page from the list it is on, and
    accesses stale links when it is on none. *)
Definition freeblocks_remove (i : Z) : M pmem unit :=
  g <- get_page i ;;
  kassert (refcnt g =? 0) ;;
  kassert (order_ok (order g)) ;;
  fun s => if decide (Exists (fun l => i ∈ l) (freeblocks s))
           then Ret tt (set_freeblocks (fmap (filter (fun q => q <> i)) (freeblocks s)) s)
           else Halt Fault s.

(** [None] is NULL. *)
Definition find_buddy (i : Z) : M pmem (option Z) :=
  g <- get_page i ;;
  kassert (order_ok (order g)) ;;
  let sz := Z.shiftl 1 (order g) in
  kassert (i `mod` sz =? 0) ;;
  let buddy := if Z.testbit (i `div` sz) 0 then i - sz else i + sz in
  e <- gets pagemap_end ;;
  if e <=? buddy then ret None else ret (Some buddy).

Fixpoint find_freeblock (fuel : nat) (o : Z) (split : bool) : M pmem (option Z) :=
  match fuel with
  | O => stop Fuel
  | S fuel' =>
      if (o <? 0) || (MAX_ORDER <? o) then ret None
      else
        l <- gets (fun s => default [] (freeblocks s !! Z.to_nat o)) ;;
        r <- match l with
             | i :: _ => freeblocks_remove i ;; ret (Some i)
             | [] => find_freeblock fuel' (o + 1) true
             end ;;
        match r with
        | None => ret None
        | Some i =>
            (if split then
               upd_page i (set_order (o - 1)) ;;
               b <- find_buddy i ;;
               match b with
               | None => stop Panic
               | Some buddy => upd_page buddy (set_order (o - 1)) ;; freeblocks_insert buddy
               end
             else ret tt) ;;
            ret (Some i)
        end
  end.

(** [fuel] bounds the recursion on the order. *)
Definition order_fuel : nat := 12.

Fixpoint merge_block (fuel : nat) (i : Z) : M pmem Z :=
  match fuel with
  | O => stop Fuel
  | S fuel' =>
      g <- get_page i ;;
      kassert (refcnt g =? 0) ;;
      kassert (order_ok (order g)) ;;
      if order g =? MAX_ORDER then ret i
      else
        b <- find_buddy i ;;
        match b with
        | None => ret i
        | Some buddy =>
            bg <- get_page buddy ;;
            if (refcnt bg =? 0) && (order bg =? order g) then
              freeblocks_remove buddy ;;
              let lo := if i <? buddy then i else buddy in
              upd_page lo (fun g => set_order (order g + 1) g) ;;
              merge_block fuel' lo
            else ret i
        end
  end.

Fixpoint freeblocks_insert_range (fuel : nat) (start end_ : Z) : M pmem unit :=
  match fuel with
  | O => stop Fuel
  | S fuel' =>
      if start <? end_ then
        o <- get_max_page_order start end_ ;;
        let i := paddr_to_page start in
        upd_page i (set_order o) ;;
        freeblocks_insert i ;;
        freeblocks_insert_range fuel' (start + Z.shiftl 1 o * PG_SIZE) end_
      else ret tt
  end.

(** ** Allocation and deallocation *)

Definition lock_if (b : bool) : M pmem unit := if b then acquire else ret tt.
Definition unlock_if (b : bool) : M pmem unit := if b then release else ret tt.

(** The fields [pmem_nalloc_internal] resets before it hands a page out. *)
Definition reset_page (g : page) : page :=
  mkPage None 0 0 0 (refcnt g) (order g) (Bits.set_state_bit (state g) PAGE_DIRTY_BIT false) (blk_headers g).

(** The buddy allocator's part of [pmem_nalloc_internal]; [None] is the jump to
    [fail]. *)
Definition buddy_alloc (n : Z) : M pmem (option Z) :=
  o <- get_min_page_order n ;;
  r <- find_freeblock order_fuel o false ;;
  match r with
  | None => ret None
  | Some i =>
      upd_page i reset_page ;;
      g <- get_page i ;;
      kassert (refcnt g =? 0) ;;
      upd_page i (fun g => mkPage (lock g) (kmem_cache g) (slab g) (rmap g) 1 (order g) (state g) []) ;;
      kassert (negb (page_to_paddr i =? 0)) ;;
      ret (Some (page_to_paddr i))
  end.

(** Result: the error code and [*paddr] (meaningful with [ERR_OK]). *)
Definition pmem_nalloc_internal (n : Z) (lk : bool) : M pmem (err_t * Z) :=
  kassert (0 <? n) ;;
  lock_if lk ;;
  init <- gets pagemap_initialized ;;
  r <- (if negb init then
          index <- bitmap_find n ;;
          if index =? -1 then ret None
          else bitmap_alloc index n ;; p <- gets (BITMAP_ITOP index) ;; ret (Some p)
        else buddy_alloc n) ;;
  unlock_if lk ;;
  match r with
  | Some p => ret (ERR_OK, p)
  | None => ret (ERR_NOMEM, 0)
  end.

(** The buddy allocator's part of [pmem_nfree_internal]. *)
Definition buddy_free (i : Z) : M pmem unit :=
  upd_page i (set_refcnt 0) ;;
  j <- merge_block order_fuel i ;;
  freeblocks_insert j.

Definition pmem_nfree_internal (paddr n : Z) (lk : bool) : M pmem unit :=
  kassert (0 <? n) ;;
  lock_if lk ;;
  init <- gets pagemap_initialized ;;
  (if negb init then
     i <- gets (BITMAP_PTOI paddr) ;; bitmap_free i n
   else buddy_free (paddr_to_page paddr)) ;;
  unlock_if lk.

Definition pmem_nalloc (n : Z) : M pmem (err_t * Z) := pmem_nalloc_internal n true.
Definition pmem_alloc : M pmem (err_t * Z) := pmem_nalloc 1.
Definition pmem_nfree (paddr n : Z) : M pmem unit := pmem_nfree_internal paddr n true.
Definition pmem_free (paddr : Z) : M pmem unit := pmem_nfree paddr 1.

Definition pmem_is_page_dirty (i : Z) : M pmem bool :=
  g <- get_page i ;; ret (Bits.get_state_bit (state g) PAGE_DIRTY_BIT).
Definition pmem_set_page_dirty (i : Z) (dirty : bool) : M pmem unit :=
  upd_page i (fun g => mkPage (lock g) (kmem_cache g) (slab g) (rmap g) (refcnt g) (order g)
                         (Bits.set_state_bit (state g) PAGE_DIRTY_BIT dirty) (blk_headers g)).

Definition pmem_inc_refcnt (paddr n : Z) : M pmem unit :=
  let i := paddr_to_page paddr in
  acquire ;;
  g <- get_page i ;;
  kassert (0 <? refcnt g) ;;
  kassert (order g =? 0) ;;
  upd_page i (set_refcnt (s32 (refcnt g + n))) ;;
  release.

Definition pmem_dec_refcnt (paddr : Z) : M pmem unit :=
  let i := paddr_to_page paddr in
  acquire ;;
  g <- get_page i ;;
  kassert (0 <? refcnt g) ;;
  kassert (order g =? 0) ;;
  upd_page i (set_refcnt (refcnt g - 1)) ;;
  (if refcnt g - 1 =? 0 then pmem_nfree_internal paddr 1 false else ret tt) ;;
  release.

(** ** Switching from the bitmap to the buddy allocator *)

(** [sizeof(struct page)] on x86-64, given by the C compiler. *)
Definition pagemap_init (sizeof_page : Z) : M pmem unit :=
  s <- gets (fun s => s) ;;
  let n_pages := pmem_end s `div` PG_SIZE in
  let pagemap_n_pages := pg_round_up (n_pages * sizeof_page) `div` PG_SIZE in
  r <- pmem_nalloc_internal pagemap_n_pages false ;;
  if negb (fst r =? ERR_OK) then stop Panic
  else
    modify (fun s => mkPmem (pmem_start s) (pmem_end s) (pmem_lock s) (bitmap s) (bitmap_contig_start s)
      (bitmap_end s) (gset_to_gmap (mkPage None 0 0 0 0 0 0 []) (list_to_set (seqZ 0 n_pages)))
      n_pages (pagemap_initialized s) (freeblocks s)).

Definition mark_allocated (i : Z) : M pmem unit :=
  upd_page i (fun g => set_order 0 (set_refcnt 1 g)).

Fixpoint mark_range (n : nat) (i : Z) : M pmem unit :=
  match n with
  | O => ret tt
  | S n' => mark_allocated i ;; mark_range n' (i + 1)
  end.

(** The end of the run of clear bits that starts before [probe]. *)
Fixpoint probe_loop (k : nat) (probe : Z) : M pmem Z :=
  match k with
  | O => ret probe
  | S k' =>
      b <- BITMAP_ISSET probe ;;
      if (b : bool) then ret probe else probe_loop k' (probe + 1)
  end.

Definition range_fuel (start end_ : Z) : nat := S (Z.to_nat ((end_ - start) `div` PG_SIZE)).

Definition insert_range (start end_ : Z) : M pmem unit :=
  freeblocks_insert_range (range_fuel start end_) start end_.

Fixpoint scan_bitmap (fuel : nat) (index : Z) : M pmem unit :=
  match fuel with
  | O => stop Fuel
  | S fuel' =>
      c <- gets bitmap_contig_start ;;
      if index <? c then
        b <- BITMAP_ISSET index ;;
        if (b : bool) then
          p <- gets (BITMAP_ITOP index) ;;
          mark_allocated (paddr_to_page p) ;;
          scan_bitmap fuel' (index + 1)
        else
          probe <- probe_loop (Z.to_nat (c - (index + 1))) (index + 1) ;;
          lo <- gets (BITMAP_ITOP index) ;;
          hi <- gets (BITMAP_ITOP probe) ;;
          insert_range lo hi ;;
          scan_bitmap fuel' probe
      else ret tt
  end.

Definition freeblocks_init : M pmem unit :=
  s <- gets (fun s => s) ;;
  pmem_nfree_internal (pmem_start s) (bitmap_pages s) false ;;
  modify (set_freeblocks (replicate (Z.to_nat (MAX_ORDER + 1)) [])) ;;
  mark_range (Z.to_nat (pmem_start s `div` PG_SIZE)) 0 ;;
  c <- gets bitmap_contig_start ;;
  scan_bitmap (S (Z.to_nat c)) 0 ;;
  lo <- gets (BITMAP_ITOP c) ;;
  insert_range lo (pmem_end s).

(** [pmem_arch_init] fills in the limits of usable memory from the firmware's
    memory map; they are arguments here. *)
Definition pmem_boot_init (start end_ : Z) : M pmem unit :=
  modify (fun s => mkPmem start end_ (pmem_lock s) (bitmap s) (bitmap_contig_start s) (bitmap_end s)
                     (pagemap s) (pagemap_end s) (pagemap_initialized s) (freeblocks s)) ;;
  bitmap_init ;;
  modify (fun s => mkPmem (pmem_start s) (pmem_end s) false (bitmap s) (bitmap_contig_start s) (bitmap_end s)
                     (pagemap s) (pagemap_end s) false (freeblocks s)).

Definition pmem_init (sizeof_page : Z) : M pmem unit :=
  acquire ;;
  pagemap_init sizeof_page ;;
  freeblocks_init ;;
  modify (fun s => mkPmem (pmem_start s) (pmem_end s) (pmem_lock s) (bitmap s) (bitmap_contig_start s)
    (bitmap_end s) (pagemap s) (pagemap_end s) true (freeblocks s)) ;;
  release.

(** ** The invariant of the buddy allocator *)

(** What the invariant reads of the state. *)
Definition refc (s : pmem) (x : Z) : Z := from_option refcnt 0 (pagemap s !! x).
Definition ord (s : pmem) (x : Z) : Z := from_option order 0 (pagemap s !! x).
Definition fl (s : pmem) (o : nat) : list Z := default [] (freeblocks s !! o).

Record inv_at (s : pmem) (B : gmap Z Z) (H : gset Z) : Prop := {
  ia_wf : Buddy.wf (pagemap_end s) (refc s) (ord s) (fl s) B H;
  ia_pages : forall x, is_Some (pagemap s !! x) <-> 0 <= x < pagemap_end s;
  ia_len : length (freeblocks s) = 11%nat;
}.

(** An operation that moves no allocated page. *)
Record untouched (s s' : pmem) : Prop := {
  ut_frame : s' = set_freeblocks (freeblocks s') (set_pagemap (pagemap s') s);
  ut_refc : forall x, refc s' x = refc s x;
  ut_page : forall x, 0 < refc s x -> pagemap s' !! x = pagemap s !! x;
}.

Lemma untouched_refl s : untouched s s.
Proof. split; try done. by destruct s. Qed.

Lemma untouched_trans s s1 s2 : untouched s s1 -> untouched s1 s2 -> untouched s s2.
Proof.
  intros [F1 R1 P1] [F2 R2 P2]. split.
  - rewrite F2. rewrite F1. done.
  - intros x. by rewrite R2.
  - intros x Hx. rewrite P2; [auto|]. by rewrite R1.
Qed.
#[local] Hint Resolve untouched_refl : kernel.

Lemma get_page_Some {A} i g s (f : page -> M pmem A) :
  pagemap s !! i = Some g -> bind (get_page i) f s = f g s.
Proof. intros H. apply bind_Ret. unfold get_page. by rewrite H. Qed.

Lemma upd_page_Some i g s (f : page -> page) :
  pagemap s !! i = Some g -> upd_page i f s = Ret tt (set_pagemap (<[i := f g]> (pagemap s)) s).
Proof. intros H. unfold upd_page. by rewrite (get_page_Some i g). Qed.

Lemma block_page s B H p o : inv_at s B H -> B !! p = Some o ->
  exists g, pagemap s !! p = Some g /\ order g = o /\ refcnt g = refc s p /\ 0 <= o <= MAX_ORDER /\
    order_ok (order g) = true.
Proof.
  intros [W Hp _] Hb. destruct (Buddy.wf_block _ _ _ _ _ _ W p o Hb) as (Ho & Hp0 & _ & Hpn & Hod).
  destruct (proj2 (Hp p)) as [g Hg]; [lia|]. exists g. unfold refc, ord in *. rewrite Hg in *; simpl in *.
  unfold order_ok, MAX_ORDER, Buddy.MAXO in *. split_and!; try done; lia.
Qed.

Lemma fl_alter s o x : (o <= 10)%nat -> length (freeblocks s) = 11%nat -> forall o' y,
  y ∈ default [] (alter (fun l => l ++ [x]) o (freeblocks s) !! o') <-> y ∈ fl s o' \/ (o' = o /\ y = x).
Proof.
  intros Ho Hl o' y. unfold fl. rewrite list_lookup_alter. destruct (decide (o = o')) as [<-|Hne].
  - destruct (lookup_lt_is_Some_2 (freeblocks s) o) as [l Hlo]; [lia|]. rewrite Hlo; simpl.
    rewrite elem_of_app, list_elem_of_singleton. tauto.
  - intuition congruence.
Qed.

(** [freeblocks_insert] of a held block whose buddy is not free. *)
Lemma freeblocks_insert_ok s B H x o :
  inv_at s B H -> x ∈ H -> B !! x = Some o ->
  (o < MAX_ORDER -> ~ Buddy.is_free (refc s) B H (Buddy.buddy x o) o) ->
  exists s', freeblocks_insert x s = Ret tt s' /\ inv_at s' B (H ∖ {[x]}) /\ untouched s s' /\
    pagemap s' = pagemap s.
Proof.
  intros I Hx Hb Hbud. destruct (block_page s B H x o I Hb) as (g & Hg & Ho & Hr & Hor & Hok).
  destruct I as [W Hpg Hlen]. destruct (Buddy.wf_held _ _ _ _ _ _ W x Hx) as [_ Hr0].
  unfold freeblocks_insert. rewrite (get_page_Some x g), Hok by done. unfold kassert, bind at 1, ret at 1.
  rewrite (bind_Ret _ _ _ _ _ (upd_page_Some x g s _ Hg)).
  assert (Hsame : set_refcnt 0 g = g) by (destruct g; unfold set_refcnt; simpl in *; congruence).
  rewrite Hsame, insert_id by done. replace (set_pagemap (pagemap s) s) with s by (by destruct s).
  eexists. split; [done|]. split; [|split; [|done]]; [|split; done]. split; [|done|simpl; by rewrite length_alter].
  apply (Buddy.give_wf W x (Z.to_nat o)); [done|by rewrite Z2Nat.id by lia|by rewrite Z2Nat.id by lia| |].
  - intros o' y. unfold fl at 1; simpl. rewrite Ho. apply fl_alter; [unfold MAX_ORDER in *; lia|done].
  - intros o'. unfold fl; simpl. rewrite list_lookup_alter. pose proof (Buddy.wf_nodup _ _ _ _ _ _ W o') as Hnd.
    case_decide; [subst o'|done]. unfold fl in Hnd. destruct (freeblocks s !! _) as [l|] eqn:El; simpl in *; [|apply NoDup_nil_2].
    apply NoDup_app. split_and!; [done| |apply NoDup_singleton]. intros y Hy ->%list_elem_of_singleton.
    assert (x ∈ fl s (Z.to_nat (order g))) as Hin by (unfold fl; by rewrite El).
    apply (Buddy.wf_free _ _ _ _ _ _ W) in Hin as (_ & _ & Hn). done.
Qed.

(** [freeblocks_remove] of a free block. *)
Lemma freeblocks_remove_ok s B H x o :
  inv_at s B H -> Buddy.is_free (refc s) B H x o ->
  exists s', freeblocks_remove x s = Ret tt s' /\ inv_at s' B ({[x]} ∪ H) /\ untouched s s' /\
    pagemap s' = pagemap s.
Proof.
  intros I Hf. pose proof Hf as (Hb & Hr0 & Hh). destruct (block_page s B H x o I Hb) as (g & Hg & Ho & Hr & Hor & Hok).
  destruct I as [W Hpg Hlen]. assert (Hin : x ∈ fl s (Z.to_nat o)).
  { apply (Buddy.wf_free _ _ _ _ _ _ W). rewrite Z2Nat.id by lia. done. }
  unfold freeblocks_remove. rewrite (get_page_Some x g), Hr, Hr0, Hok by done. simpl.
  unfold kassert, bind, ret. rewrite decide_True.
  - eexists. split; [done|]. split; [|split; [|done]]; [|split; done]. split; [|done|simpl; by rewrite length_fmap].
    assert (Hfl : forall o', fl (set_freeblocks (fmap (filter (fun q => q <> x)) (freeblocks s)) s) o' =
                   filter (fun q => q <> x) (fl s o')).
    { intros o'. unfold fl; simpl. rewrite list_lookup_fmap. by destruct (freeblocks s !! o'). }
    apply (Buddy.take_wf W x (Z.to_nat o)); [done| |].
    + intros o' y. rewrite Hfl, list_elem_of_filter. tauto.
    + intros o'. rewrite Hfl. apply NoDup_filter, (Buddy.wf_nodup _ _ _ _ _ _ W).
  - apply Exists_exists. unfold fl in Hin. destruct (freeblocks s !! _) as [l|] eqn:El; simpl in *; [|set_solver].
    exists l. split; [by eapply list_elem_of_lookup_2|done].
Qed.

Lemma refc_insert pm x g s y :
  refc (set_pagemap (<[x := g]> pm) s) y = if decide (x = y) then refcnt g else refc (set_pagemap pm s) y.
Proof. unfold refc; simpl. rewrite lookup_insert. by case_decide. Qed.

Lemma ord_insert pm x g s y :
  ord (set_pagemap (<[x := g]> pm) s) y = if decide (x = y) then order g else ord (set_pagemap pm s) y.
Proof. unfold ord; simpl. rewrite lookup_insert. by case_decide. Qed.

Lemma set_pagemap_id s : set_pagemap (pagemap s) s = s.
Proof. by destruct s. Qed.

(** Changing only the order of a page that is not allocated. *)
Lemma set_order_untouched s x g o :
  pagemap s !! x = Some g -> refc s x = 0 ->
  let s' := set_pagemap (<[x := set_order o g]> (pagemap s)) s in
  untouched s s' /\ (forall y, ord s' y = if decide (x = y) then o else ord s y) /\
  (forall y, is_Some (pagemap s' !! y) <-> is_Some (pagemap s !! y)).
Proof.
  intros Hg Hr s'. assert (Hrg : refcnt g = 0) by (unfold refc in Hr; by rewrite Hg in Hr). split; [split|split].
  - by destruct s.
  - intros y. unfold s'. rewrite refc_insert, set_pagemap_id. case_decide; [subst; simpl; lia|done].
  - intros y Hy. simpl. rewrite lookup_insert_ne; [done|]. intros ->. lia.
  - intros y. unfold s'. by rewrite ord_insert, set_pagemap_id.
  - intros y. simpl. rewrite lookup_insert_is_Some. split; [intros [<-|[_ ?]]; eauto|].
    intros ?. destruct (decide (x = y)); eauto.
Qed.

Lemma find_buddy_ok s x g : pagemap s !! x = Some g -> order_ok (order g) = true ->
  x `mod` 2 ^ order g = 0 ->
  find_buddy x s = Ret (if pagemap_end s <=? Buddy.buddy x (order g) then None
                        else Some (Buddy.buddy x (order g))) s.
Proof.
  intros Hg Hok Hal. unfold find_buddy. rewrite (get_page_Some x g), Hok by done. unfold order_ok in Hok. zbool.
  rewrite Z.shiftl_1_l, Hal. unfold Buddy.buddy. simpl. unfold bind, kassert, ret, gets. by case_match.
Qed.

(** The splitting part of [find_freeblock]. *)
Definition split_block (o i : Z) : M pmem unit :=
  upd_page i (set_order o) ;;
  b <- find_buddy i ;;
  match b with
  | None => stop Panic
  | Some buddy => upd_page buddy (set_order o) ;; freeblocks_insert buddy
  end.

Lemma split_ok s B H x o :
  inv_at s B H -> x ∈ H -> B !! x = Some (o + 1) -> 0 <= o ->
  exists s', split_block o x s = Ret tt s' /\
    inv_at s' (<[x := o]> (<[x + 2 ^ o := o]> B)) H /\ untouched s s'.
Proof.
  intros I Hx Hb Ho. destruct (block_page _ _ _ _ _ I Hb) as (g & Hg & _ & _ & Hmax & _).
  destruct I as [W Hpg Hlen]. destruct (Buddy.wf_held _ _ _ _ _ _ W x Hx) as [_ Hr].
  destruct (Buddy.wf_block _ _ _ _ _ _ W x _ Hb) as (_ & Hx0 & Hal & Hxn & _).
  assert (Hpow : 2 ^ (o + 1) = 2 * 2 ^ o) by (rewrite Z.pow_add_r; lia). assert (Hpos : 0 < 2 ^ o) by lia.
  assert (Hnone : B !! (x + 2 ^ o) = None) by (eapply (Buddy.interior_not_head W); [done|lia]).
  destruct (set_order_untouched s x g o Hg Hr) as (U1 & O1 & P1). unfold split_block.
  rewrite (bind_Ret _ _ _ _ _ (upd_page_Some x g s _ Hg)).
  set (s1 := set_pagemap (<[x := set_order o g]> (pagemap s)) s) in *.
  rewrite (bind_Ret _ _ s1 _ _ (find_buddy_ok s1 x (set_order o g) (lookup_insert_eq _ _ _)
    ltac:(unfold order_ok, MAX_ORDER in *; simpl; lia) ltac:(by apply (Buddy.aligned_down x o (o + 1)); [lia|]))).
  change (order (set_order o g)) with o. rewrite (Buddy.buddy_low x o Ho Hal). destruct (Z.leb_spec (pagemap_end s1) (x + 2 ^ o)); [simpl in *; lia|].
  assert (Hrb : refc s (x + 2 ^ o) = 0).
  { pose proof (Buddy.wf_ref _ _ _ _ _ _ W (x + 2 ^ o)). destruct (decide (0 < refc s (x + 2 ^ o))) as [Hp|]; [|lia].
    destruct (Buddy.wf_head _ _ _ _ _ _ W _ Hp). congruence. }
  destruct (proj2 (P1 (x + 2 ^ o))) as [g' Hg']; [apply Hpg; lia|].
  destruct (set_order_untouched s1 (x + 2 ^ o) g' o Hg' ltac:(by rewrite (ut_refc _ _ U1))) as (U2 & O2 & P2).
  rewrite (bind_Ret _ _ _ _ _ (upd_page_Some _ g' s1 _ Hg')).
  set (s2 := set_pagemap (<[x + 2 ^ o := set_order o g']> (pagemap s1)) s1) in *.
  pose proof (untouched_trans _ _ _ U1 U2) as U.
  assert (I2 : inv_at s2 (<[x := o]> (<[x + 2 ^ o := o]> B)) ({[x + 2 ^ o]} ∪ H)).
  { split; [|intros y; rewrite P2, P1; apply Hpg|done].
    apply (Buddy.wf_ext _ (refc s) _ (ord s2) _ (fl s)); [apply U|done|done|].
    eapply (Buddy.split_wf W); [done|done|done|..].
    - rewrite O2, O1. rewrite decide_False by lia. by rewrite decide_True.
    - rewrite O2. by rewrite decide_True.
    - intros y Hy1 Hy2. rewrite O2, O1. by rewrite !decide_False. }
  destruct (freeblocks_insert_ok s2 _ _ (x + 2 ^ o) o I2) as (s3 & E & I3 & U3 & _).
  - set_solver.
  - rewrite lookup_insert_ne by lia. by rewrite lookup_insert_eq.
  - intros _ (_ & _ & Hh). rewrite Buddy.buddy_high in Hh by done. set_solver.
  - exists s3. split_and!; [done| |by eapply untouched_trans].
    replace H with (({[x + 2 ^ o]} ∪ H) ∖ {[x + 2 ^ o]}); [done|].
    assert (x + 2 ^ o ∉ H); [|set_solver]. intros Hin. destruct (Buddy.wf_held _ _ _ _ _ _ W _ Hin) as [[? ?] _]. congruence.
Qed.

(** One call of [find_freeblock] within the range of orders. *)
Lemma find_freeblock_unfold fuel o (split : bool) s : (o <? 0) || (MAX_ORDER <? o) = false ->
  find_freeblock (S fuel) o split s =
    (r <- match fl s (Z.to_nat o) with
          | i :: _ => freeblocks_remove i ;; ret (Some i)
          | [] => find_freeblock fuel (o + 1) true
          end ;;
     match r with
     | None => ret None
     | Some i => (if split then split_block (o - 1) i else ret tt) ;; ret (Some i)
     end) s.
Proof. intros Hm. cbn [find_freeblock]. by rewrite Hm. Qed.

(** [find_freeblock] from an order on: a held block, or no free block is big
    enough. *)
Lemma find_freeblock_ok k : forall o (split : bool) s B,
  inv_at s B ∅ -> 11 - o <= Z.of_nat k -> (if split then 1 <= o <= 11 else 0 <= o <= 11) ->
  (find_freeblock (S k) o split s = Ret None s /\
     forall x o', Buddy.is_free (refc s) B ∅ x o' -> o' < o) \/
  (exists i s' B', find_freeblock (S k) o split s = Ret (Some i) s' /\
     inv_at s' B' {[i]} /\ B' !! i = Some (if split then o - 1 else o) /\ untouched s s').
Proof.
  induction k as [|k IH]; intros o split s B I Hk Ho; destruct (decide (o = 11)) as [->|Hne].
  1,3: left; split; [done|]; intros x o' (Hb & _);
    destruct (Buddy.wf_block _ _ _ _ _ _ (ia_wf _ _ _ I) x o' Hb) as (? & _); unfold Buddy.MAXO in *; lia.
  - destruct split; lia.
  - assert (Hm : (o <? 0) || (MAX_ORDER <? o) = false) by (unfold MAX_ORDER; destruct split; lia).
    rewrite (find_freeblock_unfold (S k) o split s Hm).
    set (r := match fl s (Z.to_nat o) with i :: _ => freeblocks_remove i ;; ret (Some i)
              | [] => find_freeblock (S k) (o + 1) true end).
    assert (Hr : (r s = Ret None s /\ forall x o', Buddy.is_free (refc s) B ∅ x o' -> o' < o) \/
      exists i s1 B1, r s = Ret (Some i) s1 /\ inv_at s1 B1 {[i]} /\ B1 !! i = Some o /\ untouched s s1).
    { unfold r. destruct (fl s (Z.to_nat o)) as [|i l] eqn:El.
      - destruct (IH (o + 1) true s B I ltac:(lia) ltac:(destruct split; lia)) as [[E Hno]|(i & s1 & B1 & E & I1 & Hb & U)].
        + left. split; [done|]. intros x o' Hf. pose proof (Hno x o' Hf) as Hlt.
          destruct (decide (o' = o)) as [->|]; [|lia]. exfalso.
          assert (x ∈ fl s (Z.to_nat o)) as Hin; [|rewrite El in Hin; set_solver].
          apply (Buddy.wf_free _ _ _ _ _ _ (ia_wf _ _ _ I)). rewrite Z2Nat.id; [done|destruct split; lia].
        + right. exists i, s1, B1. split_and!; try done. rewrite Hb. f_equal. lia.
      - right. assert (Hf : Buddy.is_free (refc s) B ∅ i o).
        { replace o with (Z.of_nat (Z.to_nat o)) by (destruct split; lia).
          apply (Buddy.wf_free _ _ _ _ _ _ (ia_wf _ _ _ I)). rewrite El. set_solver. }
        destruct (freeblocks_remove_ok s B ∅ i o I Hf) as (s1 & E & I1 & U & _).
        exists i, s1, B. rewrite (bind_Ret _ _ _ _ _ E). rewrite union_empty_r_L in I1.
        split_and!; try done. apply Hf. }
    destruct Hr as [[E Hno]|(i & s1 & B1 & E & I1 & Hb & U)]; rewrite (bind_Ret _ _ _ _ _ E); [by left|right].
    destruct split.
    + destruct (split_ok s1 B1 {[i]} i (o - 1) I1) as (s2 & E2 & I2 & U2); [set_solver|by rewrite Z.sub_add|lia|].
      exists i, s2, (<[i := o - 1]> (<[i + 2 ^ (o - 1) := o - 1]> B1)). rewrite (bind_Ret _ _ _ _ _ E2).
      split_and!; [done|done|by rewrite lookup_insert_eq|by eapply untouched_trans].
    + by exists i, s1, B1.
Qed.

(** The step of [merge_block] that joins two held buddies. *)
Lemma merge_pair_ok s B x o (b := Buddy.buddy x o) (lo := if x <? b then x else b) :
  inv_at s B ({[b]} ∪ {[x]}) -> B !! x = Some o -> B !! b = Some o -> o < MAX_ORDER ->
  exists s' B', upd_page lo (fun g => set_order (order g + 1) g) s = Ret tt s' /\
    inv_at s' B' {[lo]} /\ B' !! lo = Some (o + 1) /\ untouched s s'.
Proof.
  intros I Hx Hb Hmax. pose proof (ia_wf _ _ _ I) as W.
  destruct (Buddy.wf_block _ _ _ _ _ _ W x o Hx) as (Ho & _ & Hal & _ & _).
  assert (Hpos : 0 < 2 ^ o) by lia.
  assert (Hlo : lo `mod` 2 ^ (o + 1) = 0 /\ B !! lo = Some o /\ B !! (lo + 2 ^ o) = Some o /\
    {[b]} ∪ {[x]} =@{gset Z} {[lo]} ∪ {[lo + 2 ^ o]}).
  { unfold lo, b in *. destruct (Buddy.buddy_cases x o ltac:(lia) Hal) as [[Hm E]|[Hm E]]; rewrite E in *.
    - rewrite (proj2 (Z.ltb_lt x (x + 2 ^ o))) by lia. split_and!; try done. set_solver.
    - rewrite (proj2 (Z.ltb_ge x (x - 2 ^ o))) by lia. rewrite Z.sub_add. split_and!; done. }
  destruct Hlo as (Hlal & Hbl & Hbh & Hset). clearbody lo. rewrite Hset in I, W.
  destruct (block_page _ _ _ lo o I Hbl) as (g & Hg & Hog & _).
  destruct (Buddy.wf_held _ _ _ _ _ _ W lo ltac:(set_solver)) as [_ Hr].
  destruct (set_order_untouched s lo g (order g + 1) Hg Hr) as (U & O & P).
  rewrite (upd_page_Some lo g) by done. do 2 eexists. split; [done|]. split_and!; [|by rewrite lookup_insert_eq|done].
  assert (Hl : ({[lo]} ∪ {[lo + 2 ^ o]}) ∖ {[lo + 2 ^ o]} =@{gset Z} {[lo]}) by (assert (lo <> lo + 2 ^ o) by lia; set_solver).
  rewrite <- Hl. destruct I as [_ Hpg Hlen]. split; [|intros y; rewrite P; apply Hpg|done].
  eapply Buddy.wf_ext; [apply U|done|done|].
  eapply (Buddy.merge_wf W lo o); [set_solver|set_solver|done|done|done|done|..].
  - rewrite O. rewrite decide_True by done. lia.
  - intros y Hy. rewrite O. by rewrite decide_False.
Qed.

(** [merge_block] of a held block: a held block that contains it and whose
    buddy is not free. *)
Lemma merge_block_ok k : forall x o s B,
  inv_at s B {[x]} -> B !! x = Some o -> 11 - o <= Z.of_nat k ->
  exists y s' B' o', merge_block k x s = Ret y s' /\ inv_at s' B' {[y]} /\ B' !! y = Some o' /\
    untouched s s' /\ (o' < MAX_ORDER -> ~ Buddy.is_free (refc s') B' {[y]} (Buddy.buddy y o') o').
Proof.
  induction k as [|k IH]; intros x o s B I Hb Hk;
    destruct (block_page s B _ x o I Hb) as (g & Hg & Ho & Hr & Hor & Hok); [unfold MAX_ORDER in *; lia|].
  destruct (Buddy.wf_held _ _ _ _ _ _ (ia_wf _ _ _ I) x ltac:(set_solver)) as [_ Hr0].
  destruct (Buddy.wf_block _ _ _ _ _ _ (ia_wf _ _ _ I) x o Hb) as (_ & Hx0 & Hal & Hxn & _).
  cbn [merge_block]. rewrite (get_page_Some x g), Hr, Hr0, Hok by done. cbn [Z.eqb]. unfold kassert, bind at 1 2, ret at 1 2.
  rewrite Ho. destruct (Z.eqb_spec o MAX_ORDER) as [->|Hne].
  { exists x, s, B, MAX_ORDER. split_and!; auto with kernel. lia. }
  rewrite (bind_Ret _ _ _ _ _ (find_buddy_ok s x g Hg Hok ltac:(by rewrite Ho))), Ho.
  destruct (Z.leb_spec (pagemap_end s) (Buddy.buddy x o)) as [Hend|Hend].
  { exists x, s, B, o. split_and!; auto with kernel. intros _ (Hbb & _).
    destruct (Buddy.wf_block _ _ _ _ _ _ (ia_wf _ _ _ I) _ _ Hbb) as (_ & _ & _ & ? & _). lia. }
  pose proof (Buddy.buddy_nonneg x o ltac:(lia) Hx0 Hal) as Hb0.
  destruct (proj2 (ia_pages _ _ _ I (Buddy.buddy x o))) as [bg Hbg]; [lia|].
  rewrite (get_page_Some _ bg) by done.
  destruct ((refcnt bg =? 0) && (order bg =? o)) eqn:Hc.
  - apply andb_true_iff in Hc as [Hrb%Z.eqb_eq Hob%Z.eqb_eq].
    destruct (Buddy.buddy_head (ia_wf _ _ _ I) x o Hb ltac:(unfold MAX_ORDER, Buddy.MAXO in *; lia) ltac:(lia)) as (o' & Hbb & _).
    assert (o' = o) as ->.
    { destruct (block_page _ _ _ _ _ I Hbb) as (bg' & Hbg' & ? & _). congruence. }
    assert (Hf : Buddy.is_free (refc s) B {[x]} (Buddy.buddy x o) o).
    { split_and!; [done|unfold refc; by rewrite Hbg|]. rewrite elem_of_singleton. apply Buddy.buddy_ne. lia. }
    destruct (freeblocks_remove_ok s B _ _ o I Hf) as (s1 & E1 & I1 & U1 & _). rewrite (bind_Ret _ _ _ _ _ E1).
    destruct (merge_pair_ok s1 B x o I1 Hb Hbb ltac:(lia)) as (s2 & B2 & E2 & I2 & Hb2 & U2).
    rewrite (bind_Ret _ _ _ _ _ E2).
    destruct (IH _ (o + 1) s2 B2 I2 Hb2 ltac:(lia)) as (y & s3 & B3 & o3 & E3 & I3 & Hb3 & U3 & Hn3).
    exists y, s3, B3, o3. split_and!; auto. eapply untouched_trans; [|done]. by eapply untouched_trans.
  - exists x, s, B, o. split_and!; auto with kernel. intros _ (Hbb & Hrb & _).
    destruct (block_page _ _ _ _ _ I Hbb) as (bg' & Hbg' & Hob & Hrb' & _). assert (bg' = bg) as -> by congruence.
    rewrite Hob, Hrb', Hrb, !Z.eqb_refl in Hc. done.
Qed.

(** ** Allocated blocks and free pages *)

(** The block at page [p] is handed out. *)
Definition allocated (s : pmem) (p o : Z) : Prop := 0 < refc s p /\ ord s p = o.

(** Page [x] is in no block that is handed out. *)
Definition free_page (s : pmem) (x : Z) : Prop :=
  0 <= x < pagemap_end s /\ forall p, 0 < refc s p -> ~ (p <= x < p + 2 ^ ord s p).

(** Between two calls, after [pmem_init]; page 0 is never available. *)
Definition inv (s : pmem) : Prop :=
  (exists B, inv_at s B ∅) /\ pagemap_initialized s = true /\ pmem_lock s = false /\ 0 < refc s 0.

Lemma free_page_block s B H x : inv_at s B H ->
  free_page s x <-> exists p o, B !! p = Some o /\ refc s p = 0 /\ p <= x < p + 2 ^ o.
Proof.
  intros [W _ _]. split.
  - intros [Hx Hna]. destruct (Buddy.wf_cover _ _ _ _ _ _ W x Hx) as (p & o & Hb & Hin).
    exists p, o. split_and!; try done; try lia. pose proof (Buddy.wf_ref _ _ _ _ _ _ W p).
    destruct (decide (0 < refc s p)) as [Hr|]; [|lia]. exfalso. apply (Hna p Hr).
    destruct (Buddy.wf_block _ _ _ _ _ _ W p o Hb) as (_ & _ & _ & _ & ->). done.
  - intros (p & o & Hb & Hr & Hin). destruct (Buddy.wf_block _ _ _ _ _ _ W p o Hb) as (_ & Hp0 & _ & Hpn & _).
    split; [lia|]. intros q Hq Hqin. destruct (Buddy.wf_head _ _ _ _ _ _ W q Hq) as [oq Hbq].
    destruct (Buddy.wf_block _ _ _ _ _ _ W q oq Hbq) as (_ & _ & _ & _ & Hoq). rewrite Hoq in Hqin.
    assert (p = q) as -> by (eapply (Buddy.wf_disj _ _ _ _ _ _ W); eauto). lia.
Qed.

Lemma untouched_free_page s s' x : untouched s s' -> free_page s' x <-> free_page s x.
Proof.
  intros [F R P]. assert (He : pagemap_end s' = pagemap_end s) by (by rewrite F).
  unfold free_page. rewrite He.
  assert (Ho : forall p, 0 < refc s p -> ord s' p = ord s p) by (intros p Hp; unfold ord; by rewrite P).
  split; intros [Hx Hna]; (split; [done|]); intros p Hp; [rewrite <- Ho by done; apply Hna; by rewrite R|].
  rewrite R in Hp. rewrite Ho by done. auto.
Qed.

Lemma untouched_inv_rest s s' : untouched s s' ->
  pagemap_initialized s' = pagemap_initialized s /\ pmem_lock s' = pmem_lock s /\
  (pagemap_end s' = pagemap_end s /\ pmem_end s' = pmem_end s).
Proof. intros [-> _ _]. done. Qed.

Lemma get_min_page_order_loop n k : forall o s, 0 <= o -> 2 ^ o < 2 * n \/ o = 0 -> n <= 2 ^ (o + Z.of_nat k - 1) ->
  (0 < k)%nat ->
  exists o', min_order_loop k o n s = Ret o' s /\ o <= o' < o + Z.of_nat k /\ n <= 2 ^ o' /\ (o' = 0 \/ 2 ^ (o' - 1) < n).
Proof.
  induction k as [|k IH]; intros o s Ho Hlow Hn Hk; [lia|]. cbn [min_order_loop]. rewrite Z.shiftl_1_l.
  destruct (Z.leb_spec n (2 ^ o)) as [Hle|Hgt].
  - exists o. split_and!; try done; try lia. destruct (decide (o = 0)); [by left|right].
    assert (2 ^ o = 2 * 2 ^ (o - 1)) by (rewrite <- Z.pow_succ_r by lia; f_equal; lia). lia.
  - destruct k as [|k]; [replace (o + Z.of_nat 1 - 1) with o in Hn by lia; lia|].
    assert (2 ^ (o + 1) = 2 * 2 ^ o) by (rewrite Z.pow_add_r; lia).
    destruct (IH (o + 1) s) as (o' & E & H1 & H2 & H3); [lia|lia| |lia|].
    + by replace (o + 1 + Z.of_nat (S k) - 1) with (o + Z.of_nat (S (S k)) - 1) by lia.
    + exists o'. split_and!; try done; lia.
Qed.

Lemma get_min_page_order_ok n s : 0 < n <= 1024 ->
  exists o, get_min_page_order n s = Ret o s /\ 0 <= o <= MAX_ORDER /\ n <= 2 ^ o /\ (o = 0 \/ 2 ^ (o - 1) < n).
Proof.
  intros Hn. destruct (get_min_page_order_loop n 11 0 s) as (o & E & H1 & H2 & H3); [lia|by right| |lia|].
  - change (2 ^ (0 + Z.of_nat 11 - 1)) with 1024. lia.
  - exists o. unfold MAX_ORDER. split_and!; try done; lia.
Qed.

Lemma aligned_same_start p o q : 0 <= o -> p `mod` 2 ^ o = 0 -> q `mod` 2 ^ o = 0 -> q <= p < q + 2 ^ o -> q = p.
Proof.
  intros Ho Hp Hq Hin. apply Z.mod_divide in Hp as [k ->]; [|lia]. apply Z.mod_divide in Hq as [k' ->]; [|lia].
  f_equal. assert (k' < k + 1) by (apply (Zmult_lt_reg_r _ _ (2 ^ o)); lia).
  assert (k < k' + 1) by (apply (Zmult_lt_reg_r _ _ (2 ^ o)); lia). lia.
Qed.

Section free_run.
Context {s : pmem} {B : gmap Z Z} {p o : Z}.
Hypotheses (I : inv_at s B ∅) (Ho : 0 <= o <= MAX_ORDER) (Hal : p `mod` 2 ^ o = 0)
  (Hfree : forall x, p <= x < p + 2 ^ o -> free_page s x).

(** Free blocks of an order that is minimal inside an aligned free range: the
    buddy would be free too. *)
Lemma free_run_step m q : m < o -> p <= q < p + 2 ^ o ->
  (forall q' o', Buddy.is_free (refc s) B ∅ q' o' -> p <= q' < p + 2 ^ o -> m <= o') ->
  ~ Buddy.is_free (refc s) B ∅ q m.
Proof using I Ho Hal Hfree.
  intros Hm Hq Hall Hf. pose proof (ia_wf _ _ _ I) as W. pose proof Hf as (Hb & Hr & _).
  destruct (Buddy.wf_block _ _ _ _ _ _ W q _ Hb) as (Hoq & _ & Hqal & _).
  pose proof (Buddy.aligned_in q m p o ltac:(lia) Hm Hqal Hal Hq) as Hbin. destruct (Hfree _ Hbin) as [Hbr _].
  destruct (Buddy.buddy_head W q m Hb ltac:(unfold MAX_ORDER, Buddy.MAXO in *; lia) Hbr) as (ob & Hbb & Hle).
  destruct (proj1 (free_page_block s B ∅ _ I) (Hfree _ Hbin)) as (h & oh & Hbh & Hrh & Hin).
  pose proof (Buddy.block_pos W _ _ Hbb).
  assert (h = Buddy.buddy q m) as -> by (eapply (Buddy.wf_disj _ _ _ _ _ _ W); eauto; lia).
  assert (oh = ob) as -> by congruence.
  assert (Hfb : Buddy.is_free (refc s) B ∅ (Buddy.buddy q m) ob) by (split_and!; [done|done|set_solver]).
  pose proof (Hall _ _ Hfb Hbin). assert (ob = m) as -> by lia.
  apply (Buddy.wf_max _ _ _ _ _ _ W q m); [unfold MAX_ORDER, Buddy.MAXO in *; lia|done|done].
Qed.

Lemma free_run_orders (m : nat) : Z.of_nat m <= o ->
  forall q oq, Buddy.is_free (refc s) B ∅ q oq -> p <= q < p + 2 ^ o -> Z.of_nat m <= oq.
Proof using I Ho Hal Hfree.
  induction m as [|m IH]; intros Hm q oq Hf Hq.
  - destruct Hf as (Hb & _). destruct (Buddy.wf_block _ _ _ _ _ _ (ia_wf _ _ _ I) q oq Hb). lia.
  - pose proof (IH ltac:(lia) q oq Hf Hq). destruct (decide (oq = Z.of_nat m)) as [->|]; [exfalso|lia].
    apply (free_run_step (Z.of_nat m) q); [lia|done|apply IH; lia|done].
Qed.

(** Free pages that fill an aligned block lie in one free block: free blocks
    are maximally merged. *)
Lemma free_run_in_block : exists q oq, Buddy.is_free (refc s) B ∅ q oq /\ o <= oq.
Proof using I Ho Hal Hfree.
  destruct (proj1 (free_page_block s B ∅ p I) (Hfree p ltac:(lia))) as (q & oq & Hb & Hr & Hin).
  assert (Hf : Buddy.is_free (refc s) B ∅ q oq) by (split_and!; [done|done|set_solver]).
  exists q, oq. split; [done|]. destruct (decide (o <= oq)) as [|Hlt]; [done|exfalso].
  destruct (Buddy.wf_block _ _ _ _ _ _ (ia_wf _ _ _ I) q oq Hb) as (Hoq & _ & Hqal & _).
  assert (q = p) as -> by (apply (aligned_same_start p oq q); [lia| |done|done]; by apply (Buddy.aligned_down p oq o); [lia|]).
  pose proof (free_run_orders (Z.to_nat o) ltac:(lia) p oq Hf ltac:(lia)). lia.
Qed.
End free_run.

(** ** Properties of allocation and deallocation *)

(** The page handed out by [pmem_nalloc]. *)
Definition fresh_page (g : page) : page :=
  mkPage None 0 0 0 1 (order g) (Bits.set_state_bit (state g) PAGE_DIRTY_BIT false) [].

Lemma grab_ok s B i o : inv_at s B {[i]} -> B !! i = Some o ->
  exists g, pagemap s !! i = Some g /\ refcnt g = 0 /\
    inv_at (set_pagemap (<[i := fresh_page g]> (pagemap s)) s) B ∅.
Proof.
  intros I Hb. destruct (block_page _ _ _ _ _ I Hb) as (g & Hg & Ho & Hr & _). exists g.
  destruct (Buddy.wf_held _ _ _ _ _ _ (ia_wf _ _ _ I) i ltac:(set_solver)) as [_ Hr0].
  split_and!; [done|lia|]. destruct I as [W Hp Hl]. split; [| |done].
  - rewrite <- (difference_diag_L {[i]}).
    apply (Buddy.wf_ext _ (refc (set_pagemap (<[i := fresh_page g]> (pagemap s)) s)) _ (ord s) _ (fl s));
      [done| |done|].
    + intros x. rewrite ord_insert, set_pagemap_id. case_decide; [|done]. subst. unfold ord. by rewrite Hg.
    + apply (Buddy.grab_wf W); [set_solver|rewrite refc_insert; by rewrite decide_True|].
      intros y Hy. rewrite refc_insert, set_pagemap_id. by rewrite decide_False.
  - intros x. simpl. rewrite lookup_insert_is_Some. rewrite <- Hp. split; [intros [<-|[_ ?]]; eauto|].
    intros ?. destruct (decide (i = x)); eauto.
Qed.

Lemma lock_acquire s : pmem_lock s = false -> acquire s = Ret tt (set_lock true s).
Proof. intros H. unfold acquire. by rewrite H. Qed.

Lemma set_lock_inv_at b s B H : inv_at (set_lock b s) B H <-> inv_at s B H.
Proof. split; intros [? ? ?]; by split. Qed.

(** What [buddy_alloc] does to the pages. *)
Record alloc_post (s : pmem) (n i o : Z) (s' : pmem) : Prop := {
  ap_size : n <= 2 ^ o /\ (o = 0 \/ 2 ^ (o - 1) < n);
  ap_align : 0 < i /\ i `mod` 2 ^ o = 0;
  ap_block : allocated s' i o /\ refc s' i = 1;
  ap_was_free : forall x, i <= x < i + 2 ^ o -> free_page s x;
  ap_free : forall x, free_page s' x <-> free_page s x /\ ~ (i <= x < i + 2 ^ o);
  ap_refc : forall q, q <> i -> refc s' q = refc s q;
  ap_others : forall q, 0 < refc s q -> pagemap s' !! q = pagemap s !! q;
  ap_end : pagemap_end s' = pagemap_end s /\ pmem_end s' = pmem_end s;
}.

(** Changing the page of block [i] changes what is free only there. *)
Lemma free_page_insert s i g x :
  let s' := set_pagemap (<[i := g]> (pagemap s)) s in
  free_page s' x <-> 0 <= x < pagemap_end s /\ (0 < refcnt g -> ~ (i <= x < i + 2 ^ order g)) /\
    forall p, p <> i -> 0 < refc s p -> ~ (p <= x < p + 2 ^ ord s p).
Proof.
  intros s'. unfold free_page.
  assert (Hr : forall p, refc s' p = if decide (i = p) then refcnt g else refc s p).
  { intros p. unfold s'. by rewrite refc_insert, set_pagemap_id. }
  assert (Ho : forall p, ord s' p = if decide (i = p) then order g else ord s p).
  { intros p. unfold s'. by rewrite ord_insert, set_pagemap_id. }
  change (pagemap_end s') with (pagemap_end s). split.
  - intros [Hx Hna]. split_and!; try lia.
    + intros Hg. specialize (Hna i). rewrite Hr, Ho, decide_True, decide_True in Hna by done. auto.
    + intros p Hne Hp. specialize (Hna p). rewrite Hr, Ho, decide_False, decide_False in Hna by done. auto.
  - intros (Hx & Hi & Hna). split; [done|]. intros p. rewrite Hr, Ho. case_decide; [subst; auto|auto].
Qed.

Lemma alloc_post_ok s s1 B1 n i o g :
  untouched s s1 -> inv_at s1 B1 {[i]} -> B1 !! i = Some o -> pagemap s1 !! i = Some g -> refcnt g = 0 ->
  0 < refc s 0 -> n <= 2 ^ o /\ (o = 0 \/ 2 ^ (o - 1) < n) ->
  alloc_post s n i o (set_pagemap (<[i := fresh_page g]> (pagemap s1)) s1).
Proof.
  intros U I Hb Hg Hr H0 Hn. destruct (block_page _ _ _ _ _ I Hb) as (g' & Hg' & Ho & Hr' & _).
  assert (g' = g) as -> by congruence.
  destruct (Buddy.wf_block _ _ _ _ _ _ (ia_wf _ _ _ I) i o Hb) as (_ & Hi0 & Hal & _ & _).
  assert (Hri : refc s i = 0) by (rewrite <- (ut_refc _ _ U); unfold refc; by rewrite Hg).
  split; try done.
  - split; [|done]. assert (i <> 0) by (intros ->; lia). lia.
  - unfold allocated. rewrite refc_insert, ord_insert, !decide_True by done. done.
  - intros x Hx. apply (untouched_free_page s s1 x U), (free_page_block s1 B1 {[i]} x I).
    exists i, o. rewrite (ut_refc _ _ U). done.
  - intros x. rewrite free_page_insert, <- (untouched_free_page s s1 x U). simpl. rewrite Ho. unfold free_page.
    split; [intros (Hx & Hi & Hna)|intros ([Hx Hna] & Hi)]; split_and!; try lia; auto.
    + intros p Hp. apply Hna; [|done]. intros ->. rewrite (ut_refc _ _ U) in Hp. lia.
  - intros q Hq. rewrite refc_insert, decide_False by done. rewrite set_pagemap_id. apply U.
  - intros q Hq. simpl. rewrite lookup_insert_ne by (intros ->; lia). by apply U.
  - simpl. by destruct (untouched_inv_rest _ _ U) as (_ & _ & ?).
Qed.

Lemma buddy_alloc_ok s B n : inv_at s B ∅ -> 0 < refc s 0 -> 0 < n <= 1024 ->
  (buddy_alloc n s = Ret None s /\
     forall p o, 0 <= o <= MAX_ORDER -> n <= 2 ^ o -> p `mod` 2 ^ o = 0 -> ~ forall x, p <= x < p + 2 ^ o -> free_page s x) \/
  (exists i o s' B', buddy_alloc n s = Ret (Some (page_to_paddr i)) s' /\ inv_at s' B' ∅ /\
     pagemap_initialized s' = pagemap_initialized s /\ pmem_lock s' = pmem_lock s /\ alloc_post s n i o s').
Proof.
  intros I H0 Hn. destruct (get_min_page_order_ok n s Hn) as (o & Eo & Ho & Hno & Hmin).
  unfold buddy_alloc. rewrite (bind_Ret _ _ _ _ _ Eo). change order_fuel with (S 11).
  destruct (find_freeblock_ok 11 o false s B I) as [[E Hnone]|(i & s1 & B1 & E & I1 & Hb & U)];
    [lia|unfold MAX_ORDER in *; lia|..]; rewrite (bind_Ret _ _ _ _ _ E).
  - left. split; [done|]. intros p o' Ho' Hno' Hal Hfree.
    destruct (free_run_in_block I Ho' Hal Hfree) as (q & oq & Hf & Hle). pose proof (Hnone q oq Hf) as Hlt.
    destruct Hmin as [->|Hmin]; [lia|]. assert (o - 1 < o'); [|lia]. apply (Z.pow_lt_mono_r_iff 2); lia.
  - right. destruct (grab_ok s1 B1 i o I1 Hb) as (g & Hg & Hrg & I2).
    rewrite (bind_Ret _ _ _ _ _ (upd_page_Some i g s1 _ Hg)).
    rewrite (get_page_Some i (reset_page g)) by apply lookup_insert_eq.
    change (refcnt (reset_page g)) with (refcnt g). rewrite Hrg. cbn [Z.eqb]. unfold kassert at 1, bind at 1, ret at 1.
    rewrite (bind_Ret _ _ _ _ _ (upd_page_Some i (reset_page g) _ _ (lookup_insert_eq _ _ _))).
    assert (Hpost := alloc_post_ok s s1 B1 n i o g U I1 Hb Hg Hrg H0 (conj Hno Hmin)).
    destruct (ap_align _ _ _ _ _ Hpost) as [Hi0 _].
    assert (negb (page_to_paddr i =? 0) = true) as -> by (unfold page_to_paddr, PG_SIZE; lia).
    exists i, o. do 2 eexists. split; [done|]. simpl. rewrite insert_insert_eq.
    change (mkPage None 0 0 0 1 (order g) _ []) with (fresh_page g).
    destruct (untouched_inv_rest _ _ U) as (Hinit & Hlk & _). split_and!; [exact I2|done|done|exact Hpost].
Qed.

Lemma drop_ok s B p o : inv_at s B ∅ -> allocated s p o ->
  exists g, pagemap s !! p = Some g /\ order g = o /\ B !! p = Some o /\
    inv_at (set_pagemap (<[p := set_refcnt 0 g]> (pagemap s)) s) B {[p]}.
Proof.
  intros I [Hr Ho]. destruct (Buddy.wf_head _ _ _ _ _ _ (ia_wf _ _ _ I) p Hr) as [o' Hb].
  destruct (block_page _ _ _ _ _ I Hb) as (g & Hg & Hog & Hrg & _). exists g.
  assert (o' = o) as -> by (unfold ord in Ho; rewrite Hg in Ho; simpl in Ho; lia).
  split_and!; try done. destruct I as [W Hp Hl]. split; [| |done].
  - rewrite <- (union_empty_r_L {[p]}).
    apply (Buddy.wf_ext _ (refc (set_pagemap (<[p := set_refcnt 0 g]> (pagemap s)) s)) _ (ord s) _ (fl s));
      [done| |done|].
    + intros x. rewrite ord_insert, set_pagemap_id. case_decide; [|done]. subst. unfold ord. by rewrite Hg.
    + apply (Buddy.drop_wf W); [done|rewrite refc_insert; by rewrite decide_True|].
      intros y Hy. rewrite refc_insert, set_pagemap_id. by rewrite decide_False.
  - intros x. simpl. rewrite lookup_insert_is_Some. rewrite <- Hp. split; [intros [<-|[_ ?]]; eauto|].
    intros ?. destruct (decide (p = x)); eauto.
Qed.

(** What freeing block [p] does to the pages. *)
Record free_post (s : pmem) (p o : Z) (s' : pmem) : Prop := {
  fp_free : forall x, free_page s' x <-> free_page s x \/ p <= x < p + 2 ^ o;
  fp_refc : refc s' p = 0 /\ forall q, q <> p -> refc s' q = refc s q;
  fp_others : forall q, q <> p -> 0 < refc s q -> pagemap s' !! q = pagemap s !! q;
  fp_end : pagemap_end s' = pagemap_end s /\ pmem_end s' = pmem_end s;
}.

Lemma free_page_drop s B p o g x : inv_at s B ∅ -> B !! p = Some o -> pagemap s !! p = Some g -> order g = o ->
  free_page (set_pagemap (<[p := set_refcnt 0 g]> (pagemap s)) s) x <-> free_page s x \/ p <= x < p + 2 ^ o.
Proof.
  intros I Hb Hg Ho. rewrite free_page_insert. pose proof (ia_wf _ _ _ I) as W.
  destruct (Buddy.wf_block _ _ _ _ _ _ W p o Hb) as (_ & Hp0 & _ & Hpn & Hop). simpl. split.
  - intros (Hx & _ & Hna). destruct (decide (p <= x < p + 2 ^ o)); [by right|left]. split; [done|].
    intros q Hq. destruct (decide (q = p)) as [->|]; [by rewrite Hop|auto].
  - intros [[Hx Hna]|Hin]; [split_and!; auto; lia|]. split_and!; try lia. intros q Hq Hr Hqin.
    destruct (Buddy.wf_head _ _ _ _ _ _ W q Hr) as [oq Hbq].
    destruct (Buddy.wf_block _ _ _ _ _ _ W q oq Hbq) as (_ & _ & _ & _ & Hoq). rewrite Hoq in Hqin.
    apply Hq. eapply (Buddy.wf_disj _ _ _ _ _ _ W); eauto.
Qed.

Lemma buddy_free_ok s B p o : inv_at s B ∅ -> allocated s p o ->
  exists s' B', buddy_free p s = Ret tt s' /\ inv_at s' B' ∅ /\
    pagemap_initialized s' = pagemap_initialized s /\ pmem_lock s' = pmem_lock s /\ free_post s p o s'.
Proof.
  intros I Ha. destruct (drop_ok s B p o I Ha) as (g & Hg & Hog & Hb & I1).
  unfold buddy_free. rewrite (bind_Ret _ _ _ _ _ (upd_page_Some p g s _ Hg)).
  set (s1 := set_pagemap (<[p := set_refcnt 0 g]> (pagemap s)) s) in *.
  destruct (Buddy.wf_block _ _ _ _ _ _ (ia_wf _ _ _ I) p o Hb) as (Ho & _).
  destruct (merge_block_ok order_fuel p o s1 B I1 Hb) as (y & s2 & B2 & o2 & E2 & I2 & Hb2 & U2 & Hn);
    [unfold order_fuel, Buddy.MAXO in *; lia|].
  rewrite (bind_Ret _ _ _ _ _ E2).
  destruct (freeblocks_insert_ok s2 B2 {[y]} y o2 I2 (elem_of_singleton_2 _ _ eq_refl) Hb2 Hn) as (s3 & E3 & I3 & U3 & _).
  pose proof (untouched_trans _ _ _ U2 U3) as U. destruct (untouched_inv_rest _ _ U) as (Hi & Hl & He).
  rewrite difference_diag_L in I3.
  exists s3, B2. split_and!; try done. split; [| | |done].
  - intros x. rewrite (untouched_free_page _ _ x U). by apply (free_page_drop s B).
  - split; [|intros q Hq]; rewrite (ut_refc _ _ U); unfold s1; rewrite refc_insert; [by rewrite decide_True|].
    by rewrite decide_False, set_pagemap_id.
  - intros q Hq Hr. rewrite (ut_page _ _ U).
    + simpl. by rewrite lookup_insert_ne.
    + unfold s1. by rewrite refc_insert, decide_False, set_pagemap_id.
Qed.

Lemma paddr_page i : paddr_to_page (page_to_paddr i) = i.
Proof. unfold paddr_to_page, page_to_paddr, PG_SIZE. apply Z.div_mul. lia. Qed.

Lemma nalloc_unfold s n : pmem_lock s = false -> pagemap_initialized s = true -> 0 < n ->
  pmem_nalloc n s =
    (r <- buddy_alloc n ;; release ;;
     match r with Some p => ret (ERR_OK, p) | None => ret (ERR_NOMEM, 0) end) (set_lock true s).
Proof.
  intros Hl Hi Hn. unfold pmem_nalloc, pmem_nalloc_internal. rewrite (proj2 (Z.ltb_lt 0 n) Hn).
  unfold kassert, bind at 1, ret at 1. unfold lock_if. rewrite (bind_Ret _ _ _ _ _ (lock_acquire s Hl)).
  unfold bind at 1, gets. simpl. by rewrite Hi.
Qed.

Lemma free_page_set_lock b s x : free_page (set_lock b s) x <-> free_page s x.
Proof. done. Qed.

Lemma nalloc_ok s n :
  inv s -> 0 < n <= 1024 ->
  (pmem_nalloc n s = Ret (ERR_NOMEM, 0) s /\
     forall p o, 0 <= o <= MAX_ORDER -> n <= 2 ^ o -> p `mod` 2 ^ o = 0 -> ~ forall x, p <= x < p + 2 ^ o -> free_page s x) \/
  (exists i o s', pmem_nalloc n s = Ret (ERR_OK, page_to_paddr i) s' /\ inv s' /\ alloc_post s n i o s').
Proof.
  intros ([B I] & Hi & Hl & H0) Hn. rewrite (nalloc_unfold s n Hl Hi ltac:(lia)).
  destruct (buddy_alloc_ok (set_lock true s) B n (proj2 (set_lock_inv_at true s B ∅) I) H0 Hn)
    as [[E Hno]|(i & o & s' & B' & E & I' & Hi' & Hl' & P)]; rewrite (bind_Ret _ _ _ _ _ E).
  - left. split; [|exact Hno]. unfold release, bind, modify, ret. f_equal. destruct s; simpl in *. by rewrite Hl.
  - right. exists i, o, (set_lock false s'). split; [done|]. split.
    + split_and!; [exists B'; by apply set_lock_inv_at|simpl in *; congruence|done|].
      change (0 < refc s' 0). rewrite (ap_refc _ _ _ _ _ P); [done|]. destruct (ap_align _ _ _ _ _ P). lia.
    + by destruct P.
Qed.

Lemma nfree_ok s p o n :
  inv s -> allocated s p o -> p <> 0 -> 0 < n ->
  exists s', pmem_nfree (page_to_paddr p) n s = Ret tt s' /\ inv s' /\ free_post s p o s'.
Proof.
  intros ([B I] & Hi & Hl & H0) Ha Hp Hn. unfold pmem_nfree, pmem_nfree_internal. rewrite (proj2 (Z.ltb_lt 0 n) Hn).
  unfold kassert, bind at 1, ret at 1. unfold lock_if. rewrite (bind_Ret _ _ _ _ _ (lock_acquire s Hl)).
  unfold bind at 1, gets. simpl. rewrite Hi, paddr_page. simpl.
  destruct (buddy_free_ok (set_lock true s) B p o (proj2 (set_lock_inv_at true s B ∅) I) Ha)
    as (s' & B' & E & I' & Hi' & Hl' & P). rewrite (bind_Ret _ _ _ _ _ E).
  exists (set_lock false s'). split; [done|]. split.
  - split_and!; [exists B'; by apply set_lock_inv_at|simpl in *; congruence|done|].
    change (0 < refc s' 0). by rewrite (proj2 (fp_refc _ _ _ _ P)).
  - by destruct P.
Qed.

(** C4. [pmem_nalloc] of up to 1024 pages returns.  On success it hands out an
    aligned block of the least sufficient power of two, all of whose pages
    were free; exactly those pages stop being free, no other page descriptor
    of an allocated block changes, and the blocks still partition memory into
    maximally merged free blocks and allocated ones.  It fails only when no
    aligned block of sufficient size is free in all of memory, and then
    changes nothing. *)
Theorem pmem_nalloc_correct s n :
  inv s -> 0 < n <= 1024 ->
  (pmem_nalloc n s = Ret (ERR_NOMEM, 0) s /\
     forall p o, 0 <= o <= MAX_ORDER -> n <= 2 ^ o -> p `mod` 2 ^ o = 0 -> ~ forall x, p <= x < p + 2 ^ o -> free_page s x) \/
  (exists i o s', pmem_nalloc n s = Ret (ERR_OK, page_to_paddr i) s' /\ inv s' /\ alloc_post s n i o s').
Proof. apply nalloc_ok. Qed.

(** C11. [pmem_nfree] of an allocated block returns: exactly the pages of the block
    become free, no other block changes, and the free memory is maximally
    merged again.  The size the caller passes does not matter. *)
Theorem pmem_nfree_correct s p o n :
  inv s -> allocated s p o -> p <> 0 -> 0 < n ->
  exists s', pmem_nfree (page_to_paddr p) n s = Ret tt s' /\ inv s' /\ free_post s p o s'.
Proof. apply nfree_ok. Qed.

Lemma nfree_internal_unlocked s p n : pagemap_initialized s = true -> 0 < n ->
  pmem_nfree_internal (page_to_paddr p) n false s = buddy_free p s.
Proof.
  intros Hi Hn. unfold pmem_nfree_internal. rewrite bind_kassert by lia. cbn [lock_if unlock_if].
  rewrite bind_ret, bind_gets, Hi, paddr_page. simpl. unfold bind, ret. by destruct (buddy_free p s) as [[] ?|].
Qed.

(** Changing a positive reference count to another one. *)
Lemma recount_ok s B p g r :
  inv_at s B ∅ -> pagemap s !! p = Some g -> 0 < refcnt g -> 0 < r ->
  inv_at (set_pagemap (<[p := set_refcnt r g]> (pagemap s)) s) B ∅.
Proof.
  intros I Hg Hp Hr. assert (Hrp : refc s p = refcnt g) by (unfold refc; by rewrite Hg). split; [| |by destruct I].
  - apply (Buddy.wf_ext _ (refc (set_pagemap (<[p := set_refcnt r g]> (pagemap s)) s)) _ (ord s) _ (fl s)); [done| |done|].
    + intros x. rewrite ord_insert, set_pagemap_id. case_decide; [subst; unfold ord; by rewrite Hg|done].
    + apply (Buddy.recount_wf (ia_wf _ _ _ I) p); [lia|rewrite refc_insert, decide_True by done; done|].
      intros y Hy. by rewrite refc_insert, decide_False, set_pagemap_id.
  - intros x. simpl. rewrite lookup_insert_is_Some, <- (ia_pages _ _ _ I). split; [intros [<-|[_ ?]]; eauto|].
    intros ?. destruct (decide (p = x)); eauto.
Qed.

(** Freeing does not look at the reference count it resets. *)
Lemma buddy_free_refcnt s p g r : pagemap s !! p = Some g ->
  buddy_free p (set_pagemap (<[p := set_refcnt r g]> (pagemap s)) s) = buddy_free p s.
Proof.
  intros Hg. unfold buddy_free. rewrite (bind_Ret _ _ _ _ _ (upd_page_Some p _ _ _ (lookup_insert_eq _ _ _))).
  rewrite (bind_Ret _ _ _ _ _ (upd_page_Some p g s _ Hg)). unfold set_pagemap; simpl. by rewrite insert_insert_eq.
Qed.

(** [pmem_dec_refcnt] of an allocated single page drops one reference; the last
    one frees the page, and nothing else changes.  The lock is taken once. *)
Theorem pmem_dec_refcnt_correct s p :
  inv s -> allocated s p 0 -> p <> 0 ->
  exists s', pmem_dec_refcnt (page_to_paddr p) s = Ret tt s' /\ inv s' /\ refc s' p = refc s p - 1 /\
    (refc s p = 1 -> free_post s p 0 s') /\
    (1 < refc s p -> (forall q, q <> p -> pagemap s' !! q = pagemap s !! q) /\ ord s' p = ord s p /\ pagemap_end s' = pagemap_end s).
Proof.
  intros ([B I] & Hi & Hl & H0) Ha Hp. pose proof Ha as [Hr Ho]. unfold refc, ord in Hr, Ho.
  destruct (pagemap s !! p) as [g|] eqn:Hg; [|done]. simpl in Hr, Ho.
  assert (Hrg : refc s p = refcnt g) by (unfold refc; by rewrite Hg). apply (set_lock_inv_at true) in I.
  unfold pmem_dec_refcnt. rewrite paddr_page, (bind_Ret _ _ _ _ _ (lock_acquire s Hl)).
  rewrite (get_page_Some p g), !bind_kassert by (done || lia).
  rewrite (bind_Ret _ _ _ _ _ (upd_page_Some p g (set_lock true s) _ Hg)).
  destruct (Z.eqb_spec (refcnt g - 1) 0) as [H1|H1].
  - destruct (buddy_free_ok (set_lock true s) B p 0 I Ha) as (s' & B' & E & I' & Hi' & Hl' & [P1 P2 P3 P4]).
    rewrite <- (buddy_free_refcnt (set_lock true s) p g (refcnt g - 1) Hg), <- (nfree_internal_unlocked _ p 1) in E by (done || lia).
    rewrite (bind_Ret _ _ _ _ _ E).
    exists (set_lock false s'). split; [done|]. unfold inv. split_and!.
    + exists B'. by apply set_lock_inv_at.
    + simpl in *. congruence.
    + done.
    + change (0 < refc s' 0). by rewrite (proj2 P2).
    + change (refc s' p = refc s p - 1). rewrite (proj1 P2). lia.
    + intros _. by split.
    + lia.
  - rewrite bind_ret. eexists. split; [done|]. unfold inv. split_and!; try done; try lia; try (intros _; split_and!; try done).
    + exists B. apply (set_lock_inv_at false), (recount_ok (set_lock true s)); [done|done|lia|lia].
    + change (0 < refc (set_pagemap (<[p := set_refcnt (refcnt g - 1) g]> (pagemap s)) s) 0).
      by rewrite refc_insert, decide_False, set_pagemap_id.
    + change (refc (set_pagemap (<[p := set_refcnt (refcnt g - 1) g]> (pagemap s)) s) p = refc s p - 1).
      rewrite refc_insert, decide_True by done. simpl. lia.
    + intros q Hq. simpl. by rewrite lookup_insert_ne.
    + unfold ord. simpl. by rewrite lookup_insert_eq, Hg.
Qed.

(** ** Single pages as an object allocator *)

(** The addresses of the single pages that are handed out. *)
Definition live_pages (s : pmem) : gset Z :=
  set_map page_to_paddr (dom (filter (fun pg => 0 < refcnt pg.2 /\ order pg.2 = 0 /\ pg.1 <> 0) (pagemap s)) : gset Z).

Lemma elem_live_pages s a : a ∈ live_pages s <-> exists p, a = page_to_paddr p /\ allocated s p 0 /\ p <> 0.
Proof.
  unfold live_pages. rewrite elem_of_map. unfold allocated, refc, ord. split.
  - intros (p & -> & Hp). exists p. split; [done|]. apply elem_of_dom in Hp as [g Hg].
    apply map_lookup_filter_Some in Hg as (Hg & H1 & H2 & H3). by rewrite Hg.
  - intros (p & -> & [H1 H2] & H3). exists p. split; [done|]. apply elem_of_dom.
    destruct (pagemap s !! p) as [g|] eqn:Hg; [|done]. exists g. by apply map_lookup_filter_Some.
Qed.

(** A block that is handed out lies inside the page map. *)
Lemma allocated_bounds s p o : inv s -> allocated s p o -> 0 <= o /\ 0 <= p /\ 0 < 2 ^ o /\ p + 2 ^ o <= pagemap_end s.
Proof.
  intros ([B I] & _) [Hr Ho]. destruct (Buddy.wf_head _ _ _ _ _ _ (ia_wf _ _ _ I) p Hr) as [o' Hb].
  destruct (Buddy.wf_block _ _ _ _ _ _ (ia_wf _ _ _ I) p o' Hb) as (H1 & H2 & _ & H3 & H4). assert (o' = o) as -> by congruence.
  split_and!; try lia.
Qed.

Lemma allocated_apart s p o q o' : inv s -> allocated s p o -> allocated s q o' -> p <> q -> p + 2 ^ o <= q \/ q + 2 ^ o' <= p.
Proof.
  intros Hi Hp Hq Hne. pose proof (allocated_bounds s p o Hi Hp). pose proof (allocated_bounds s q o' Hi Hq).
  destruct Hi as ([B I] & _), Hp as [Hrp Hop], Hq as [Hrq Hoq].
  destruct (Buddy.wf_head _ _ _ _ _ _ (ia_wf _ _ _ I) p Hrp) as [op Hbp]. destruct (Buddy.wf_head _ _ _ _ _ _ (ia_wf _ _ _ I) q Hrq) as [oq Hbq].
  destruct (Buddy.wf_block _ _ _ _ _ _ (ia_wf _ _ _ I) p op Hbp) as (_ & _ & _ & _ & E1).
  destruct (Buddy.wf_block _ _ _ _ _ _ (ia_wf _ _ _ I) q oq Hbq) as (_ & _ & _ & _ & E2). assert (op = o /\ oq = o') as [-> ->] by (split; congruence).
  destruct (decide (p + 2 ^ o <= q)); [by left|]. destruct (decide (q + 2 ^ o' <= p)); [by right|]. exfalso. apply Hne.
  destruct (decide (p <= q)); [apply (Buddy.wf_disj _ _ _ _ _ _ (ia_wf _ _ _ I) p o q o' q)|
    apply (Buddy.wf_disj _ _ _ _ _ _ (ia_wf _ _ _ I) p o q o' p)]; (done || lia).
Qed.

Lemma alloc_post_refc s n i o s' : inv s -> inv s' -> alloc_post s n i o s' -> refc s i = 0.
Proof.
  intros Hi Hi' P. destruct (ap_block _ _ _ _ _ P) as [Hb _]. pose proof (allocated_bounds s' i o Hi' Hb).
  destruct (ap_was_free _ _ _ _ _ P i ltac:(lia)) as [_ Hf]. destruct (decide (0 < refc s i)) as [Hr|].
  - destruct (Hf i Hr). pose proof (allocated_bounds s i (ord s i) Hi (conj Hr eq_refl)). lia.
  - destruct Hi as ([B I] & _). pose proof (Buddy.wf_ref _ _ _ _ _ _ (ia_wf _ _ _ I) i). lia.
Qed.

Lemma alloc_post_live s i s' : inv s -> inv s' -> alloc_post s 1 i 0 s' ->
  page_to_paddr i ∉ live_pages s /\ live_pages s' = {[page_to_paddr i]} ∪ live_pages s.
Proof.
  intros Hinv Hinv' P. destruct (ap_align _ _ _ _ _ P) as [Hi _]. pose proof (alloc_post_refc s 1 i 0 s' Hinv Hinv' P) as Hri.
  split.
  - rewrite elem_live_pages. intros (p & Ep & [Hp _] & _). unfold page_to_paddr, PG_SIZE in Ep.
    assert (p = i) as -> by lia. lia.
  - apply set_eq. intros a. rewrite elem_of_union, elem_of_singleton, !elem_live_pages. split.
    + intros (p & -> & [Hp Ho] & Hp0). destruct (decide (p = i)) as [->|Hne]; [by left|right]. exists p.
      rewrite (ap_refc _ _ _ _ _ P) in Hp by done. split_and!; [done|split; [done|]|done].
      unfold ord in *. by rewrite (ap_others _ _ _ _ _ P) in Ho.
    + intros [->|(p & -> & [Hp Ho] & Hp0)].
      * exists i. split_and!; [done|apply (ap_block _ _ _ _ _ P)|lia].
      * exists p. assert (p <> i) by (intros ->; lia). split_and!; [done| |done].
        split; [by rewrite (ap_refc _ _ _ _ _ P)|]. unfold ord in *. by rewrite (ap_others _ _ _ _ _ P).
Qed.

Lemma free_post_live s p s' : free_post s p 0 s' -> live_pages s' = live_pages s ∖ {[page_to_paddr p]}.
Proof.
  intros P. apply set_eq. intros a. rewrite elem_of_difference, elem_of_singleton, !elem_live_pages.
  destruct (fp_refc _ _ _ _ P) as [Hp0 Hr]. unfold page_to_paddr, PG_SIZE. split.
  - intros (q & -> & [Hq Ho] & Hq0). assert (q <> p) by (intros ->; lia). rewrite Hr in Hq by done.
    split; [|lia]. exists q. split_and!; [done|split; [done|]|done]. unfold ord in *. by rewrite (fp_others _ _ _ _ P) in Ho.
  - intros [(q & -> & [Hq Ho] & Hq0) Hne]. assert (q <> p) by (intros ->; lia). exists q.
    split_and!; [done| |done]. split; [by rewrite Hr|]. unfold ord in *. by rewrite (fp_others _ _ _ _ P).
Qed.

(** [pmem_alloc] and [pmem_free] implement the object allocator interface. *)
#[global] Program Instance page_alloc : ObjAlloc pmem := {|
  oalloc s := match pmem_alloc s with
              | Ret (e, p) s' => (if e =? ERR_OK then Some p else None, s')
              | Halt _ s' => (None, s')
              end;
  ofree p s := match pmem_free p s with Ret _ s' => s' | Halt _ s' => s' end;
  olive := live_pages;
  ook := inv;
|}.
Next Obligation.
  intros s p s' Hi. destruct (nalloc_ok s 1 Hi ltac:(lia)) as [[E _]|(i & o & s1 & E & Hi1 & P)]; unfold pmem_alloc; rewrite E.
  - done.
  - intros [= <- <-]. assert (o = 0) as ->.
    { destruct (ap_size _ _ _ _ _ P) as [_ [?|Hlt]]; [done|]. destruct (decide (o < 1)) as [|].
      - pose proof (allocated_bounds s1 i o Hi1 (proj1 (ap_block _ _ _ _ _ P))). lia.
      - pose proof (Z.pow_pos_nonneg 2 (o - 1)). lia. }
    destruct (alloc_post_live s i s1 Hi Hi1 P) as [Hn Hl]. destruct (ap_align _ _ _ _ _ P).
    split_and!; try done. unfold page_to_paddr, PG_SIZE. lia.
Qed.
Next Obligation.
  intros s s' Hi. destruct (nalloc_ok s 1 Hi ltac:(lia)) as [[E _]|(i & o & s1 & E & Hi1 & P)]; unfold pmem_alloc; rewrite E.
  - by intros [= <-].
  - done.
Qed.
Next Obligation.
  intros s a Hi Ha. apply elem_live_pages in Ha as (p & -> & Ha & Hp).
  destruct (nfree_ok s p 0 1 Hi Ha Hp ltac:(lia)) as (s' & E & Hi' & P). unfold pmem_free. rewrite E.
  split; [done|]. by apply free_post_live.
Qed.

(** ** Runs of pages

    [pmem_nalloc] and [pmem_nfree] implement the page run interface of the
    slab allocator; [runs] remembers the lengths that were asked for. *)
Record run_state := mkRuns { pm : pmem; runs : gmap Z Z }.

Definition runs_ok (r : run_state) : Prop :=
  inv (pm r) /\ page_to_paddr (pagemap_end (pm r)) <= pmem_end (pm r) <= DEVMEM_BASE - KMAP_BASE /\
  forall a n, runs r !! a = Some n -> exists i o, a = page_to_paddr i /\ allocated (pm r) i o /\ i <> 0 /\ 0 < n <= 2 ^ o.

#[global] Program Instance run_alloc : RunAlloc run_state := {|
  ralloc n r := match pmem_nalloc n (pm r) with
                | Ret (e, a) s => if e =? ERR_OK then (Some a, mkRuns s (<[a := n]> (runs r))) else (None, mkRuns s (runs r))
                | Halt _ s => (None, mkRuns s (runs r))
                end;
  rfree a n r := match pmem_nfree a n (pm r) with
                 | Ret _ s => mkRuns s (delete a (runs r))
                 | Halt _ s => mkRuns s (delete a (runs r))
                 end;
  rruns := runs;
  rend r := pmem_end (pm r);
  rok := runs_ok;
|}.
Next Obligation.
  intros r a n (Hi & Hlim & Hr) Ha. destruct (Hr a n Ha) as (i & o & -> & Hal & Hi0 & Hn).
  pose proof (allocated_bounds _ i o Hi Hal). unfold page_to_paddr, PG_SIZE in *. split_and!; [lia|lia|by exists i|nia|lia].
Qed.
Next Obligation.
  intros r a n b m (Hi & Hlim & Hr) Ha Hb Hne. destruct (Hr a n Ha) as (i & o & -> & Hal & Hi0 & Hn).
  destruct (Hr b m Hb) as (j & o' & -> & Hal' & Hj0 & Hm). unfold page_to_paddr, PG_SIZE in *.
  destruct (allocated_apart _ i o j o' Hi Hal Hal'); [congruence|left; lia|right; lia].
Qed.
Next Obligation.
  intros n [s m] a r' (Hi & Hlim & Hr) Hn. simpl in *. destruct (nalloc_ok s n Hi Hn) as [[E _]|(i & o & s1 & E & Hi1 & P)]; rewrite E; [done|].
  intros [= <- <-]. simpl. pose proof (alloc_post_refc s n i o s1 Hi Hi1 P) as Hri. destruct (ap_align _ _ _ _ _ P) as [Hi0 _].
  assert (Hnone : m !! page_to_paddr i = None).
  { destruct (m !! page_to_paddr i) as [n'|] eqn:Em; [|done]. destruct (Hr _ _ Em) as (j & o' & Ej & [Hj _] & _).
    unfold page_to_paddr, PG_SIZE in Ej. assert (j = i) as -> by lia. lia. }
  split; [|done]. split; [done|]. split; [destruct (ap_end _ _ _ _ _ P) as [E1 E2]; simpl; by rewrite E1, E2|]. simpl. intros a n'.
  intros [[<- <-]|[Hne Ha]]%lookup_insert_Some.
  - exists i, o. pose proof (ap_block _ _ _ _ _ P) as [Hb _]. pose proof (ap_size _ _ _ _ _ P). split_and!; try done; lia.
  - destruct (Hr a n' Ha) as (j & o' & -> & [Hj Ho] & Hj0 & Hn'). exists j, o'. split_and!; try done; try lia.
    split; [rewrite (ap_refc _ _ _ _ _ P); [done|]; congruence|]. unfold ord. rewrite (ap_others _ _ _ _ _ P j Hj). exact Ho.
Qed.
Next Obligation.
  intros n [s m] r' (Hi & Hlim & Hr) Hn. simpl in *. destruct (nalloc_ok s n Hi Hn) as [[E _]|(i & o & s1 & E & Hi1 & P)]; rewrite E; [|done].
  by intros [= <-].
Qed.
Next Obligation.
  intros n [s m] a (Hi & Hlim & Hr) Ha. simpl in *. destruct (Hr a n Ha) as (i & o & -> & Hal & Hi0 & Hn).
  destruct (nfree_ok s i o n Hi Hal Hi0 ltac:(lia)) as (s' & E & Hi' & P). rewrite E. split; [|done]. split; [done|].
  split; [destruct (fp_end _ _ _ _ P) as [E1 E2]; simpl; by rewrite E1, E2|]. simpl. intros b n' [Hne Hb]%lookup_delete_Some.
  destruct (Hr b n' Hb) as (j & o' & -> & [Hj Ho] & Hj0 & Hn'). exists j, o'. assert (j <> i) by congruence. split_and!; try done; try lia.
  split; [by rewrite (proj2 (fp_refc _ _ _ _ P))|]. unfold ord. rewrite (fp_others _ _ _ _ P j) by done. exact Ho.
Qed.

(** ** The boot allocator *)

(** Bit [i] of the bitmap. *)
Definition bit (s : pmem) (i : Z) : bool :=
  from_option (fun b => Z.testbit b (i `mod` 8)) false (bitmap s !! Z.to_nat (i `div` 8)).

Lemma land_bit b k : 0 <= k -> negb (Z.land b (Z.shiftl 1 k) =? 0) = Z.testbit b k.
Proof.
  intros Hk. destruct (Z.eqb_spec (Z.land b (Z.shiftl 1 k)) 0) as [H|H]; simpl.
  - assert (Z.testbit (Z.land b (Z.shiftl 1 k)) k = false) as Ht by (rewrite H; apply Z.bits_0).
    by rewrite Z.land_spec, Bits.shiftl_1_testbit, Z.eqb_refl, andb_true_r in Ht by lia.
  - destruct (Z.testbit b k) eqn:E; [done|]. exfalso. apply H. apply Z.bits_inj'. intros i Hi.
    rewrite Z.land_spec, Z.bits_0, Bits.shiftl_1_testbit by lia.
    destruct (Z.eqb_spec i k) as [->|]; [by rewrite E|apply andb_false_r].
Qed.

(** The bitmap has a bit for every page it describes. *)
Definition bitmap_ok (s : pmem) : Prop := 0 <= bitmap_end s <= 8 * Z.of_nat (length (bitmap s)).

Lemma byte_lookup s i : bitmap_ok s -> 0 <= i < bitmap_end s -> is_Some (bitmap s !! Z.to_nat (i `div` 8)).
Proof. intros Hok Hi. apply lookup_lt_is_Some_2. unfold bitmap_ok in Hok. pose proof (Z.div_lt_upper_bound i 8 (Z.of_nat (length (bitmap s)))). lia. Qed.

Lemma isset_ok {A} s i (k : bool -> M pmem A) : bitmap_ok s -> 0 <= i < bitmap_end s ->
  bind (BITMAP_ISSET i) k s = k (bit s i) s.
Proof.
  intros Hok Hi. apply bind_Ret. unfold BITMAP_ISSET, bit_get, bit.
  destruct (byte_lookup s i Hok Hi) as [b ->]. simpl. rewrite land_bit; [done|]. apply Z.mod_pos_bound. lia.
Qed.

Lemma set_ok s i : bitmap_ok s -> 0 <= i < bitmap_end s ->
  exists bm, BITMAP_SET i s = Ret tt (set_bitmap bm (bitmap_contig_start s) s) /\ length bm = length (bitmap s) /\
    forall j, 0 <= j -> bit (set_bitmap bm (bitmap_contig_start s) s) j = (j =? i) || bit s j.
Proof.
  intros Hok Hi. unfold BITMAP_SET, bit_upd. destruct (byte_lookup s i Hok Hi) as [b Hb]. rewrite Hb.
  eexists. split; [done|]. split; [by rewrite length_insert|]. intros j Hj. unfold bit; simpl.
  pose proof (Z.div_pos i 8 ltac:(lia)) as Hi8. pose proof (Z.div_pos j 8 ltac:(lia)) as Hj8.
  pose proof (Z.div_mod i 8 ltac:(lia)). pose proof (Z.div_mod j 8 ltac:(lia)).
  pose proof (Z.mod_pos_bound i 8 ltac:(lia)). pose proof (Z.mod_pos_bound j 8 ltac:(lia)).
  destruct (decide (i `div` 8 = j `div` 8)) as [E|E].
  - rewrite <- E, list_lookup_insert_eq, Hb by (by eapply lookup_lt_Some). simpl.
    unfold wrap. rewrite Z.mod_pow2_bits_low by lia. rewrite Z.lor_spec, Bits.shiftl_1_testbit by lia.
    rewrite orb_comm. f_equal. lia.
  - rewrite list_lookup_insert_ne by lia. destruct (Z.eqb_spec j i); [subst; done|done].
Qed.

(** The pages handed out so far are the first [c] ones. *)
Record boot_inv (s : pmem) (c : Z) : Prop := {
  bi_ok : bitmap_ok s;
  bi_contig : bitmap_contig_start s = c;
  bi_range : 0 <= c <= bitmap_end s;
  bi_bits : forall i, 0 <= i < bitmap_end s -> bit s i = (i <? c);
}.

Lemma find_loop_set s c n k : boot_inv s c -> forall i, 0 <= i -> i + Z.of_nat k = c ->
  forall r, bitmap_find_loop (k + r) i i 0 n s = bitmap_find_loop r c c 0 n s.
Proof.
  intros [Hok _ Hc Hb]. induction k as [|k IH]; intros i Hi Hk r; [simpl; by replace i with c by lia|].
  cbn [bitmap_find_loop Nat.add]. rewrite isset_ok by (done || lia). rewrite Hb by lia.
  rewrite (proj2 (Z.ltb_lt i c)) by lia. apply IH; lia.
Qed.

Lemma find_loop_clear s c n k : boot_inv s c -> 0 < n -> forall i f, c <= i -> i + Z.of_nat k = bitmap_end s -> 0 <= f < n ->
  bitmap_find_loop k i c f n s = Ret (if n - f <=? Z.of_nat k then c else -1) s.
Proof.
  intros [Hok _ Hc Hb] Hn. induction k as [|k IH]; intros i f Hi Hk Hf; cbn [bitmap_find_loop].
  - destruct (Z.leb_spec (n - f) (Z.of_nat 0)); [lia|done].
  - rewrite isset_ok by (done || lia). rewrite Hb by lia. rewrite (proj2 (Z.ltb_ge i c)) by lia.
    destruct (Z.leb_spec n (f + 1)).
    + destruct (Z.leb_spec (n - f) (Z.of_nat (S k))); [done|lia].
    + rewrite IH by lia. destruct (Z.leb_spec (n - (f + 1)) (Z.of_nat k)), (Z.leb_spec (n - f) (Z.of_nat (S k))); done || lia.
Qed.

Lemma bitmap_find_boot s c n : boot_inv s c -> 0 < n ->
  bitmap_find n s = Ret (if c + n <=? bitmap_end s then c else -1) s.
Proof.
  intros Hb Hn. unfold bitmap_find. rewrite bind_kassert, bind_gets by lia. destruct (bi_range _ _ Hb).
  replace (Z.to_nat (bitmap_end s)) with (Z.to_nat c + Z.to_nat (bitmap_end s - c))%nat by lia.
  rewrite (find_loop_set s c n (Z.to_nat c) Hb 0) by lia. rewrite (find_loop_clear s c n _ Hb) by lia.
  destruct (Z.leb_spec (n - 0) (Z.of_nat (Z.to_nat (bitmap_end s - c)))), (Z.leb_spec (c + n) (bitmap_end s)); done || lia.
Qed.

Lemma bitmap_alloc_loop_ok k : forall s i, bitmap_ok s -> 0 <= i -> i + Z.of_nat k <= bitmap_end s ->
  (forall j, i <= j < i + Z.of_nat k -> bit s j = false) ->
  exists bm, bitmap_alloc_loop k i s = Ret tt (set_bitmap bm (bitmap_contig_start s) s) /\ length bm = length (bitmap s) /\
    forall j, 0 <= j -> bit (set_bitmap bm (bitmap_contig_start s) s) j = ((i <=? j) && (j <? i + Z.of_nat k)) || bit s j.
Proof.
  induction k as [|k IH]; intros s i Hok Hi Hk Hclr; cbn [bitmap_alloc_loop].
  - exists (bitmap s). split_and!; [by destruct s|done|]. intros j Hj. destruct ((i <=? j) && (j <? i + Z.of_nat 0)) eqn:E; [exfalso; zbool; lia|].
    by destruct s.
  - rewrite isset_ok, Hclr, bind_kassert by (done || lia).
    destruct (set_ok s i Hok ltac:(lia)) as (bm & E & Hlen & Hbits). rewrite (bind_Ret _ _ _ _ _ E).
    set (s1 := set_bitmap bm (bitmap_contig_start s) s) in *.
    destruct (IH s1 (i + 1)) as (bm' & E' & Hlen' & Hbits').
    + unfold bitmap_ok, s1 in *; simpl. lia.
    + lia.
    + simpl. lia.
    + intros j Hj. rewrite Hbits by lia. rewrite Hclr by lia. rewrite orb_false_r. lia.
    + exists bm'. split_and!; [done|simpl in *; congruence|]. intros j Hj.
      change (bit (set_bitmap bm' (bitmap_contig_start s) s) j) with (bit (set_bitmap bm' (bitmap_contig_start s1) s1) j).
      rewrite Hbits', Hbits by done. destruct (bit s j); rewrite ?orb_true_r, ?orb_false_r; [done|]. bool_lia.
Qed.

(** While no boot memory has been freed, the boot allocator hands out
    consecutive pages: it returns the next [n] pages, or [ERR_NOMEM] exactly
    when fewer than [n] are left. *)
Theorem boot_nalloc_correct s c n :
  boot_inv s c -> pagemap_initialized s = false -> pmem_lock s = false -> 0 < n ->
  if c + n <=? bitmap_end s then
    exists s', pmem_nalloc n s = Ret (ERR_OK, c * PG_SIZE + pmem_start s) s' /\ boot_inv s' (c + n)
  else pmem_nalloc n s = Ret (ERR_NOMEM, 0) s.
Proof.
  intros Hb Hi Hl Hn. unfold pmem_nalloc, pmem_nalloc_internal. rewrite bind_kassert by lia. cbn [lock_if unlock_if].
  rewrite (bind_Ret _ _ _ _ _ (lock_acquire s Hl)), bind_gets. simpl. rewrite Hi. simpl.
  assert (Hb1 : boot_inv (set_lock true s) c) by (by destruct Hb).
  rewrite bind_assoc, (bind_Ret _ _ _ _ _ (bitmap_find_boot _ c n Hb1 Hn)). simpl. destruct Hb1 as [Hok Hc Hr Hbits].
  destruct (Z.leb_spec (c + n) (bitmap_end s)) as [Hle|Hgt].
  - rewrite (proj2 (Z.eqb_neq c (-1))) by lia. unfold bitmap_alloc.
    rewrite !bind_assoc, bind_gets, bind_assoc, bind_kassert by (simpl; lia).
    destruct (bitmap_alloc_loop_ok (Z.to_nat n) (set_lock true s) c) as (bm & E & Hlen & Hbm);
      [done|lia|simpl; lia|intros j Hj; rewrite Hbits by (simpl in *; lia); lia|].
    rewrite bind_assoc, (bind_Ret _ _ _ _ _ E). simpl in Hc. rewrite Z2Nat.id in Hbm by lia.
    eexists. split.
    + unfold modify, bind, gets, ret, release, BITMAP_ITOP. simpl. rewrite Hc.
      rewrite (proj2 (Z.ltb_lt c (c + n))) by lia. done.
    + split; simpl; [unfold bitmap_ok in *; simpl in *; lia|done|lia|]. intros i Hi'.
      change (bit (set_bitmap bm (bitmap_contig_start s) s) i = (i <? c + n)).
      etrans; [apply Hbm; lia|]. rewrite Hbits by (simpl; lia). bool_lia.
  - unfold release, bind, modify, ret; simpl. f_equal. destruct s; simpl in *. by rewrite Hl.
Qed.

(** [bitmap_find] keeps one candidate start, advanced by one at every set bit,
    so past a gap it is wrong: with page 0 free, page 1 taken and pages 2 and
    3 free it answers 1, and the allocation of two pages panics although two
    contiguous pages are free. *)
Theorem bitmap_find_gap s :
  bitmap_ok s -> 4 <= bitmap_end s -> bit s 0 = false -> bit s 1 = true -> bit s 2 = false -> bit s 3 = false ->
  pagemap_initialized s = false -> pmem_lock s = false ->
  bitmap_find 2 s = Ret 1 s /\ exists s', pmem_nalloc 2 s = Halt Panic s'.
Proof.
  intros Hok He H0 H1 H2 H3 Hi Hl.
  assert (Hf : forall s, bitmap_ok s -> 4 <= bitmap_end s -> bit s 0 = false -> bit s 1 = true -> bit s 2 = false ->
    bit s 3 = false -> bitmap_find 2 s = Ret 1 s).
  { clear. intros s Hok He H0 H1 H2 H3. unfold bitmap_find. rewrite bind_kassert, bind_gets by done.
    replace (Z.to_nat (bitmap_end s)) with (4 + Z.to_nat (bitmap_end s - 4))%nat by lia.
    cbn [bitmap_find_loop Nat.add]. rewrite isset_ok, H0 by (done || lia). simpl.
    rewrite isset_ok by (done || lia). change (bit s (0 + 1)) with (bit s 1). rewrite H1.
    rewrite isset_ok by (done || lia). change (bit s (0 + 1 + 1)) with (bit s 2). rewrite H2. simpl.
    rewrite isset_ok by (done || lia). change (bit s (0 + 1 + 1 + 1)) with (bit s 3). by rewrite H3. }
  split; [by apply Hf|]. unfold pmem_nalloc, pmem_nalloc_internal. rewrite bind_kassert by lia. cbn [lock_if unlock_if].
  rewrite (bind_Ret _ _ _ _ _ (lock_acquire s Hl)), bind_gets. simpl. rewrite Hi. simpl.
  rewrite bind_assoc, (bind_Ret _ _ _ _ _ (Hf (set_lock true s) Hok He H0 H1 H2 H3)). simpl.
  unfold bitmap_alloc. rewrite !bind_assoc, bind_gets, bind_assoc, bind_kassert by (simpl; lia).
  assert (Hp : bitmap_alloc_loop (Z.to_nat 2) 1 (set_lock true s) = Halt Panic (set_lock true s)).
  { change (Z.to_nat 2) with 2%nat. cbn [bitmap_alloc_loop]. rewrite isset_ok by (done || simpl; lia).
    change (bit (set_lock true s) 1) with (bit s 1). by rewrite H1. }
  unfold bind at 1 2. rewrite Hp. eauto.
Qed.

(** *** Witnesses: two pages, of which the first is reserved *)

Definition ex_page (r : Z) : page := mkPage None 0 0 0 r 0 0 [].
Definition ex_pmem (r : Z) : pmem :=
  mkPmem 4096 8192 false [1] 1 1 (<[0 := ex_page 1]> {[ 1 := ex_page r ]}) 2 true
    ((if r =? 0 then [1] else []) :: replicate 10 []).

Lemma ex_refc r x : refc (ex_pmem r) x = if decide (x = 0) then 1 else if decide (x = 1) then r else 0.
Proof.
  unfold refc; simpl. destruct (decide (x = 0)) as [->|]; [done|]. rewrite lookup_insert_ne by done.
  destruct (decide (x = 1)) as [->|]; [done|]. by rewrite lookup_singleton_ne.
Qed.

Lemma ex_blocks p o : (<[0 := 0]> {[ 1 := 0 ]} : gmap Z Z) !! p = Some o <-> (p = 0 \/ p = 1) /\ o = 0.
Proof. rewrite lookup_insert_Some, lookup_singleton_Some. lia. Qed.

Lemma ex_fl r o : fl (ex_pmem r) o = if decide (o = 0%nat) then (if r =? 0 then [1] else []) else [].
Proof. unfold fl; simpl. destruct o as [|o]; [done|]. simpl. do 11 (destruct o; [done|]). done. Qed.

Lemma ex_inv_at r : 0 <= r -> inv_at (ex_pmem r) (<[0 := 0]> {[ 1 := 0 ]}) ∅.
Proof.
  intros Hr. split; [|intros x; simpl; rewrite lookup_insert_is_Some, lookup_singleton_is_Some; lia|done]. split.
  - intros p o [Hp ->]%ex_blocks. change (2 ^ 0) with 1. simpl. split_and!; try lia; destruct Hp as [-> | ->]; done.
  - simpl. intros x Hx. exists x, 0. rewrite ex_blocks. split; lia.
  - intros p o q o' x [Hp ->]%ex_blocks [Hq ->]%ex_blocks. lia.
  - intros x. rewrite ex_refc. repeat case_decide; lia.
  - intros x. rewrite ex_refc. intros Hx. exists 0. apply ex_blocks. repeat case_decide; lia.
  - intros o x. rewrite ex_fl. unfold Buddy.is_free. rewrite ex_blocks, ex_refc.
    destruct (Z.eqb_spec r 0); repeat case_decide; subst; set_solver by lia.
  - intros o. rewrite ex_fl. case_decide; [|apply NoDup_nil_2]. case_match; [apply NoDup_singleton|apply NoDup_nil_2].
  - set_solver.
  - intros p o Ho ([Hp ->]%ex_blocks & Hrp & _) ([Hq _]%ex_blocks & Hrq & _). rewrite ex_refc in Hrp, Hrq.
    pose proof (Buddy.buddy_ne p 0 ltac:(lia)). repeat case_decide; lia.
Qed.

Lemma ex_inv r : 0 <= r -> inv (ex_pmem r).
Proof. intros Hr. split_and!; [by eexists; apply ex_inv_at|done|done|by rewrite ex_refc]. Qed.

Lemma ex_allocated r : 0 < r -> allocated (ex_pmem r) 1 0.
Proof. intros Hr. split; [by rewrite ex_refc|done]. Qed.

Lemma pmem_nalloc_correct_witness :
  (pmem_nalloc 1 (ex_pmem 0) = Ret (ERR_NOMEM, 0) (ex_pmem 0) /\
     forall p o, 0 <= o <= MAX_ORDER -> 1 <= 2 ^ o -> p `mod` 2 ^ o = 0 ->
       ~ forall x, p <= x < p + 2 ^ o -> free_page (ex_pmem 0) x) \/
  (exists i o s', pmem_nalloc 1 (ex_pmem 0) = Ret (ERR_OK, page_to_paddr i) s' /\ inv s' /\ alloc_post (ex_pmem 0) 1 i o s').
Proof. apply (pmem_nalloc_correct (ex_pmem 0) 1 (ex_inv 0 ltac:(lia))); lia. Defined.

Lemma pmem_nfree_correct_witness :
  exists s', pmem_nfree (page_to_paddr 1) 1 (ex_pmem 1) = Ret tt s' /\ inv s' /\ free_post (ex_pmem 1) 1 0 s'.
Proof.
  apply (pmem_nfree_correct (ex_pmem 1) 1 0 1 (ex_inv 1 ltac:(lia)) (ex_allocated 1 ltac:(lia))); lia.
Defined.

Lemma pmem_dec_refcnt_correct_witness :
  exists s', pmem_dec_refcnt (page_to_paddr 1) (ex_pmem 2) = Ret tt s' /\ inv s' /\ refc s' 1 = refc (ex_pmem 2) 1 - 1 /\
    (refc (ex_pmem 2) 1 = 1 -> free_post (ex_pmem 2) 1 0 s') /\
    (1 < refc (ex_pmem 2) 1 -> (forall q, q <> 1 -> pagemap s' !! q = pagemap (ex_pmem 2) !! q) /\ ord s' 1 = ord (ex_pmem 2) 1 /\
       pagemap_end s' = pagemap_end (ex_pmem 2)).
Proof. apply (pmem_dec_refcnt_correct (ex_pmem 2) 1 (ex_inv 2 ltac:(lia)) (ex_allocated 2 ltac:(lia))); lia. Defined.

(** A bitmap of eight pages whose bits are given by a byte. *)
Definition ex_boot (b c : Z) : pmem := mkPmem 4096 36864 false [b] c 8 ∅ 0 false [].

Lemma boot_nalloc_correct_witness :
  exists s', pmem_nalloc 2 (ex_boot 1 1) = Ret (ERR_OK, 1 * PG_SIZE + 4096) s' /\ boot_inv s' 3.
Proof.
  apply (boot_nalloc_correct (ex_boot 1 1) 1 2); [|done|done|lia]. split; [split; simpl; lia|done|simpl; lia|].
  intros i Hi. simpl in Hi. assert (i = 0 \/ i = 1 \/ i = 2 \/ i = 3 \/ i = 4 \/ i = 5 \/ i = 6 \/ i = 7) as Hc by lia.
  repeat (destruct Hc as [->|Hc]; [done|]). by subst i.
Defined.

Lemma bitmap_find_gap_witness :
  bitmap_find 2 (ex_boot 2 2) = Ret 1 (ex_boot 2 2) /\ exists s', pmem_nalloc 2 (ex_boot 2 2) = Halt Panic s'.
Proof. apply (bitmap_find_gap (ex_boot 2 2)); done. Defined.

End Pmem.
