(* ===== verification/Kmalloc.v ===== *)
(** * The slab allocator: kernel/mm/kmalloc.c, include/kernel/kmalloc.h

    Object caches cut runs of pages into slots and keep the free slots of a
    slab in a chain of indices stored at its start.  The model keeps the
    caches, the slabs (at their kernel addresses) and the two fields of
    [struct page] that belong to this component; the page allocator is any
    [RunAlloc].  The contents of the objects are not part of the state, so the
    two calls of memset that fill an object with 0x2b change nothing here. *)

From S2P Require Import Prelude Page Alloc Buddy Pmem.
Local Open Scope kernel_scope.
Import Page.

Module Kmalloc.

Definition MIN_OBJS_PER_SLAB : Z := 128.
(** sizeof(struct slab), sizeof(int), sizeof(struct kmem_cache) *)
Definition SLAB_SIZE : Z := 40.
Definition INT_SIZE : Z := 4.
Definition CACHE_SIZE : Z := 72.

(** [struct slab], with the free index array that follows it in memory. *)
Record slab := mkSlab {
  objs : Z;
  sfree : Z;
  n_pages : Z;
  freearr : list Z;
}.

Record kmem_cache := mkCache {
  full : list Z;
  free : list Z;
  lock : bool;
  obj_size : Z;
}.

Section model.
Context {P : Type} `{!RunAlloc P}.
(** The address of the static [allocator_cache]. *)
Context (allocator_cache : Z).

(** [pages] has the fields [kmem_cache] and [slab] of [struct page], by page
    number. *)
Record kmem := mkKmem {
  caches : gmap Z kmem_cache;
  slabs : gmap Z slab;
  pages : gmap Z (Z * Z);
  pmem : P;
  kmalloc_allocators : list (Z * Z);
}.

Definition set_caches (x : gmap Z kmem_cache) (s : kmem) : kmem := mkKmem x (slabs s) (pages s) (pmem s) (kmalloc_allocators s).
Definition set_slabs (x : gmap Z slab) (s : kmem) : kmem := mkKmem (caches s) x (pages s) (pmem s) (kmalloc_allocators s).
Definition set_pages (x : gmap Z (Z * Z)) (s : kmem) : kmem := mkKmem (caches s) (slabs s) x (pmem s) (kmalloc_allocators s).
Definition set_pmem (x : P) (s : kmem) : kmem := mkKmem (caches s) (slabs s) (pages s) x (kmalloc_allocators s).
Definition set_allocators (x : list (Z * Z)) (s : kmem) : kmem := mkKmem (caches s) (slabs s) (pages s) (pmem s) x.

Definition get_cache (c : Z) : M kmem kmem_cache :=
  fun s => match caches s !! c with Some k => Ret k s | None => Halt Fault s end.
Definition put_cache (c : Z) (k : kmem_cache) : M kmem unit := modify (fun s => set_caches (<[c := k]> (caches s)) s).
Definition get_slab (a : Z) : M kmem slab :=
  fun s => match slabs s !! a with Some x => Ret x s | None => Halt Fault s end.
Definition put_slab (a : Z) (x : slab) : M kmem unit := modify (fun s => set_slabs (<[a := x]> (slabs s)) s).

Definition set_lock (b : bool) (k : kmem_cache) : kmem_cache := mkCache (full k) (free k) b (obj_size k).
Definition set_lists (fu fr : list Z) (k : kmem_cache) : kmem_cache := mkCache fu fr (lock k) (obj_size k).
Definition set_sfree (i : Z) (arr : list Z) (x : slab) : slab := mkSlab (objs x) i (n_pages x) arr.

Definition acquire (c : Z) : M kmem unit :=
  k <- get_cache c ;; if lock k then stop Block else put_cache c (set_lock true k).
Definition release (c : Z) : M kmem unit := k <- get_cache c ;; put_cache c (set_lock false k).

Definition page_no (paddr : Z) : Z := paddr `div` PG_SIZE.

(** [pmem_nalloc]; it clears the fields of the first page. *)
Definition page_nalloc (n : Z) : M kmem (option Z) :=
  fun s => match ralloc n (pmem s) with
           | (None, p) => Ret None (set_pmem p s)
           | (Some a, p) => Ret (Some a) (set_pages (<[page_no a := (0, 0)]> (pages s)) (set_pmem p s))
           end.
Definition page_nfree (paddr n : Z) : M kmem unit := modify (fun s => set_pmem (rfree paddr n (pmem s)) s).

(** [kmap_v2p]: the address must be in the map of physical memory. *)
Definition kmap_v2p (v : Z) : M kmem Z :=
  e <- gets (fun s => rend (pmem s)) ;;
  kassert ((KMAP_BASE <=? v) && (v <? u64 (KMAP_BASE + e))) ;;
  ret (KMAP_V2P v).

(** The loop that links the pages of a slab to the cache and the slab. *)
Fixpoint link_pages (n : nat) (paddr c a : Z) : M kmem unit :=
  match n with
  | O => ret tt
  | S n' => modify (fun s => set_pages (<[page_no paddr := (c, a)]> (pages s)) s) ;; link_pages n' (paddr + PG_SIZE) c a
  end.

(** The free index array of a new slab. *)
Definition init_freearr (n : Z) : list Z := seqZ 1 (n - 1) ++ [-1].

Definition slab_pages (size : Z) : Z :=
  pg_round_up (u64 (SLAB_SIZE + (size + INT_SIZE) * MIN_OBJS_PER_SLAB)) `div` PG_SIZE.
Definition slab_objs (np size : Z) : Z := (np * PG_SIZE - SLAB_SIZE) `div` (size + INT_SIZE).

(** The new slab, or 0 for NULL. *)
Definition slab_create (c : Z) : M kmem Z :=
  kassert (negb (c =? 0)) ;;
  k <- get_cache c ;;
  kassert (0 <? obj_size k) ;;
  let np := slab_pages (obj_size k) in
  r <- page_nalloc np ;;
  match r with
  | None => ret 0
  | Some paddr =>
      let n_objs := slab_objs np (obj_size k) in
      kassert (MIN_OBJS_PER_SLAB <=? n_objs) ;;
      let a := KMAP_P2V paddr in
      kassert (negb (a =? 0)) ;;
      put_slab a (mkSlab (u64 (a + SLAB_SIZE + INT_SIZE * n_objs)) 0 np (init_freearr n_objs)) ;;
      link_pages (Z.to_nat np) paddr c a ;;
      k <- get_cache c ;;
      put_cache c (set_lists (full k) (free k ++ [a]) k) ;;
      ret a
  end.

Definition slab_destroy (a : Z) : M kmem unit :=
  kassert (negb (a =? 0)) ;;
  x <- get_slab a ;;
  p <- kmap_v2p a ;;
  page_nfree p (n_pages x) ;;
  modify (fun s => set_slabs (delete a (slabs s)) s).

Fixpoint slab_list_destroy (l : list Z) : M kmem unit :=
  match l with
  | [] => ret tt
  | a :: l' => slab_destroy a ;; slab_list_destroy l'
  end.

(** [kmem_cache_alloc] once it has a slab [a] with a free slot; [size] is the
    object size. *)
Definition take_object (c size a : Z) : M kmem Z :=
  x <- get_slab a ;;
  kassert (negb (sfree x =? -1)) ;;
  let obj := u64 (objs x + size * sfree x) in
  nx <- of_option Fault (freearr x !! Z.to_nat (sfree x)) ;;
  put_slab a (set_sfree nx (freearr x) x) ;;
  (if nx =? -1 then
     k <- get_cache c ;;
     put_cache c (set_lists (full k ++ [a]) (filter (fun b => b <> a) (free k)) k)
   else ret tt) ;;
  release c ;;
  ret obj.

(** The object, or 0 for NULL. *)
Definition kmem_cache_alloc (c : Z) : M kmem Z :=
  kassert (negb (c =? 0)) ;;
  acquire c ;;
  k <- get_cache c ;;
  a <- match free k with [] => slab_create c | a :: _ => ret a end ;;
  if a =? 0 then release c ;; ret 0 else take_object c (obj_size k) a.

Definition kmem_cache_free (c obj : Z) : M kmem unit :=
  kassert (negb (c =? 0)) ;;
  acquire c ;;
  k <- get_cache c ;;
  p <- kmap_v2p obj ;;
  pg <- gets (fun s => default (0, 0) (pages s !! page_no p)) ;;
  let a := pg.2 in
  kassert (negb (a =? 0)) ;;
  x <- get_slab a ;;
  let index := s32 (u64 (obj - objs x) `div` obj_size k) in
  (if (0 <=? index) && (index <? Z.of_nat (length (freearr x))) then ret tt else stop Fault) ;;
  put_slab a (set_sfree index (<[Z.to_nat index := sfree x]> (freearr x)) x) ;;
  (if sfree x =? -1 then
     put_cache c (set_lists (filter (fun b => b <> a) (full k)) (free k ++ [a]) k)
   else ret tt) ;;
  release c.

Definition kmem_cache_create (size : Z) : M kmem Z :=
  c <- kmem_cache_alloc allocator_cache ;;
  if c =? 0 then ret 0
  else put_cache c (mkCache [] [] false size) ;; ret c.

Definition kmem_cache_destroy (c : Z) : M kmem unit :=
  kassert (negb (c =? 0)) ;;
  k <- get_cache c ;;
  slab_list_destroy (free k) ;;
  slab_list_destroy (full k) ;;
  kmem_cache_free allocator_cache c ;;
  modify (fun s => set_caches (delete c (caches s)) s).

(** The sizes of [kmalloc_allocators]. *)
Definition kmalloc_sizes : list Z := [32; 64; 128; 256; 512; 1024; 2048; 4096].

Fixpoint create_allocators (sizes : list Z) : M kmem (list (Z * Z)) :=
  match sizes with
  | [] => ret []
  | size :: sizes' =>
      c <- kmem_cache_create size ;;
      if c =? 0 then stop Panic
      else l <- create_allocators sizes' ;; ret ((c, size) :: l)
  end.

Definition kmalloc_init : M kmem unit :=
  put_cache allocator_cache (mkCache [] [] false CACHE_SIZE) ;;
  l <- create_allocators kmalloc_sizes ;;
  modify (set_allocators l).

(** The first allocator whose size is sufficient. *)
Fixpoint find_allocator (size : Z) (l : list (Z * Z)) : M kmem Z :=
  match l with
  | [] => stop Panic
  | (c, sz) :: l' => if size <=? sz then ret c else find_allocator size l'
  end.

Definition kmalloc (size : Z) : M kmem Z :=
  if size =? 0 then ret 0
  else if 4096 <? size then ret 0
  else
    l <- gets kmalloc_allocators ;;
    c <- find_allocator size l ;;
    kmem_cache_alloc c.

Definition kfree (ptr : Z) : M kmem unit :=
  p <- kmap_v2p ptr ;;
  pg <- gets (fun s => default (0, 0) (pages s !! page_no p)) ;;
  kassert (negb (pg.1 =? 0)) ;;
  kmem_cache_free pg.1 ptr.

End model.
Arguments kmem : clear implicits.

(** ** The chain of free slots *)

(** The chain that starts at [i] is [l]; -1 ends it. *)
Fixpoint chain (arr : list Z) (i : Z) (l : list Z) : Prop :=
  match l with
  | [] => i = -1
  | j :: l' => i = j /\ 0 <= j < Z.of_nat (length arr) /\ exists nx, arr !! Z.to_nat j = Some nx /\ chain arr nx l'
  end.

Fixpoint free_idx (fuel : nat) (arr : list Z) (i : Z) : list Z :=
  match fuel with
  | O => []
  | S fuel' => if i =? -1 then []
               else match arr !! Z.to_nat i with Some nx => i :: free_idx fuel' arr nx | None => [] end
  end.

Lemma chain_range arr i l : chain arr i l -> forall j, j ∈ l -> 0 <= j < Z.of_nat (length arr).
Proof.
  revert i. induction l as [|j l IH]; intros i Hc q Hq; [set_solver|]. destruct Hc as (-> & Hj & nx & _ & Hc).
  apply elem_of_cons in Hq as [->|Hq]; [done|eauto].
Qed.

Lemma chain_free_idx arr i l fuel : chain arr i l -> (length l <= fuel)%nat -> free_idx fuel arr i = l.
Proof.
  revert i fuel. induction l as [|j l IH]; intros i fuel Hc Hf.
  - simpl in Hc. subst. destruct fuel; done.
  - destruct Hc as (-> & Hj & nx & Hnx & Hc). destruct fuel as [|fuel]; simpl in *; [lia|].
    rewrite (proj2 (Z.eqb_neq j (-1))) by lia. rewrite Hnx. f_equal. apply IH; [done|lia].
Qed.

Lemma chain_length arr i l : chain arr i l -> NoDup l -> (length l <= length arr)%nat.
Proof.
  intros Hc Hnd. replace (length arr) with (length (seqZ 0 (Z.of_nat (length arr)))) by (rewrite length_seqZ; lia).
  apply submseteq_length, NoDup_submseteq; [done|]. intros j Hj. apply elem_of_seqZ. pose proof (chain_range _ _ _ Hc j Hj). lia.
Qed.

Lemma chain_insert arr i l j v : chain arr i l -> 0 <= j -> j ∉ l -> chain (<[Z.to_nat j := v]> arr) i l.
Proof.
  revert i. induction l as [|q l IH]; intros i Hc Hj Hn; [done|]. destruct Hc as (-> & Hq & nx & Hnx & Hc).
  apply not_elem_of_cons in Hn as [Hne Hn]. simpl. rewrite length_insert. split_and!; [done|lia|lia|].
  exists nx. rewrite list_lookup_insert_ne by lia. split; [done|]. by apply IH.
Qed.

Lemma init_freearr_length n : 0 < n -> length (init_freearr n) = Z.to_nat n.
Proof. intros. unfold init_freearr. rewrite length_app, length_seqZ. simpl. lia. Qed.

Lemma init_freearr_lookup n i : 0 < n -> 0 <= i < n ->
  init_freearr n !! Z.to_nat i = Some (if i =? n - 1 then -1 else i + 1).
Proof.
  intros Hn Hi. unfold init_freearr. destruct (Z.eqb_spec i (n - 1)) as [->|].
  - rewrite lookup_app_r by (rewrite length_seqZ; lia). rewrite length_seqZ.
    replace (Z.to_nat (n - 1) - Z.to_nat (n - 1))%nat with 0%nat by lia. done.
  - rewrite lookup_app_l by (rewrite length_seqZ; lia). rewrite lookup_seqZ_lt by lia. f_equal. lia.
Qed.

(** The chain of a new slab has every slot, in order. *)
Lemma chain_init n : 0 < n -> chain (init_freearr n) 0 (seqZ 0 n).
Proof.
  intros Hn. assert (H : forall k i, 0 <= i -> i + Z.of_nat k = n -> chain (init_freearr n) (if i =? n then -1 else i) (seqZ i (n - i))).
  { induction k as [|k IH]; intros i Hi Hk.
    - rewrite (proj2 (Z.eqb_eq i n)) by lia. by rewrite seqZ_nil by lia.
    - rewrite (proj2 (Z.eqb_neq i n)) by lia. rewrite seqZ_cons by lia. simpl.
      rewrite init_freearr_length, init_freearr_lookup by lia. split_and!; [lia..|]. eexists. split; [done|].
      specialize (IH (Z.succ i) ltac:(lia) ltac:(lia)). replace (Z.pred (n - i)) with (n - Z.succ i) by lia.
      destruct (Z.eqb_spec i (n - 1)), (Z.eqb_spec (Z.succ i) n); try lia; done. }
  specialize (H (Z.to_nat n) 0 ltac:(lia) ltac:(lia)). rewrite (proj2 (Z.eqb_neq 0 n)) in H by lia. by rewrite Z.sub_0_r in H.
Qed.

(** ** The geometry of a slab *)

Lemma slab_geometry size : 0 < size <= 8192 ->
  0 < slab_pages size <= 1024 /\ MIN_OBJS_PER_SLAB <= slab_objs (slab_pages size) size /\
  SLAB_SIZE + slab_objs (slab_pages size) size * (size + INT_SIZE) <= slab_pages size * PG_SIZE.
Proof.
  intros Hs. unfold slab_pages, slab_objs, SLAB_SIZE, INT_SIZE, MIN_OBJS_PER_SLAB in *.
  set (need := 40 + (size + 4) * 128). rewrite (wrap_small 64 need) by (unfold need; lia).
  destruct (pg_round_up_spec need) as [[q Hq] Hr]; [unfold need, PG_SIZE; lia|].
  rewrite Hq, Z.div_mul by done. unfold PG_SIZE, need in *.
  pose proof (Z.div_mod (q * 4096 - 40) (size + 4) ltac:(lia)). pose proof (Z.mod_pos_bound (q * 4096 - 40) (size + 4) ltac:(lia)).
  assert (128 <= (q * 4096 - 40) `div` (size + 4)) by (apply Z.div_le_lower_bound; lia). split_and!; [nia..].
Qed.

(** ** The invariant *)

Section invariant.
Context {P : Type} `{!RunAlloc P}.
Implicit Types s : kmem P.

(** The free slots of a slab. *)
Definition idx (x : slab) : list Z := free_idx (length (freearr x)) (freearr x) (sfree x).

(** The slab at [a] belongs to the cache [c] with objects of [sz] bytes: it
    starts a run of pages that are all linked to it, the array and the objects
    fit into the run, and the free slots form a chain. *)
Record slab_ok s (c sz a : Z) (x : slab) : Prop := {
  so_run : exists p, a = KMAP_BASE + p /\ rruns (pmem s) !! p = Some (n_pages x) /\
    forall i, 0 <= i < n_pages x -> pages s !! (page_no p + i) = Some (c, a);
  so_objs : objs x = a + SLAB_SIZE + INT_SIZE * Z.of_nat (length (freearr x));
  so_fit : SLAB_SIZE + Z.of_nat (length (freearr x)) * (sz + INT_SIZE) <= n_pages x * PG_SIZE;
  so_free : exists l, chain (freearr x) (sfree x) l /\ NoDup l;
}.

Record core s : Prop := {
  co_pmem : rok (pmem s);
  co_cache : forall c k, caches s !! c = Some k -> c <> 0 /\ 0 < obj_size k <= 8192 /\ NoDup (full k ++ free k);
  co_slab : forall c k a, caches s !! c = Some k -> a ∈ full k ++ free k ->
    exists x, slabs s !! a = Some x /\ slab_ok s c (obj_size k) a x /\ (a ∈ free k <-> sfree x <> -1);
}.

Definition unlocked s : Prop := forall c k, caches s !! c = Some k -> lock k = false.
Definition inv s : Prop := core s /\ unlocked s.

(** The objects of a slab and of a cache that are handed out. *)
Definition slab_live (sz : Z) (x : slab) : list Z :=
  (fun i => objs x + sz * i) <$> filter (fun i => i ∉ idx x) (seqZ 0 (Z.of_nat (length (freearr x)))).
Definition live s (c : Z) : gset Z :=
  match caches s !! c with
  | None => ∅
  | Some k => list_to_set (concat (map (fun a => match slabs s !! a with Some x => slab_live (obj_size k) x | None => [] end)
                                       (full k ++ free k)))
  end.

Lemma elem_of_slab_live sz x o :
  o ∈ slab_live sz x <-> exists i, 0 <= i < Z.of_nat (length (freearr x)) /\ i ∉ idx x /\ o = objs x + sz * i.
Proof.
  unfold slab_live. rewrite list_elem_of_fmap. split.
  - intros (i & -> & Hi). apply list_elem_of_filter in Hi as [Hn Hi%elem_of_seqZ]. exists i. split_and!; [lia..|done|done].
  - intros (i & Hi & Hn & ->). exists i. split; [done|]. apply list_elem_of_filter. split; [done|]. apply elem_of_seqZ. lia.
Qed.

Lemma elem_of_live s c o :
  o ∈ live s c <-> exists k a x, caches s !! c = Some k /\ a ∈ full k ++ free k /\ slabs s !! a = Some x /\ o ∈ slab_live (obj_size k) x.
Proof.
  unfold live. destruct (caches s !! c) as [k|] eqn:Hk.
  - rewrite elem_of_list_to_set, list_elem_of_In, in_concat. split.
    + intros (l & Hl & Ho). apply in_map_iff in Hl as (a & <- & Ha). destruct (slabs s !! a) as [x|] eqn:Hx; [|done].
      exists k, a, x. rewrite !list_elem_of_In. done.
    + intros (k' & a & x & [= <-] & Ha & Hx & Ho). eexists. split; [apply in_map_iff; exists a; split; [done|by apply list_elem_of_In]|].
      rewrite Hx. by apply list_elem_of_In.
  - split; [set_solver|]. intros (? & ? & ? & ? & _). done.
Qed.

Lemma chain_idx x l : chain (freearr x) (sfree x) l -> NoDup l -> idx x = l.
Proof. intros Hc Hn. apply chain_free_idx; [done|]. by apply (chain_length _ _ _ Hc). Qed.

(** A slab belongs to one cache. *)
Lemma slab_owner s c d sz sz' a x : core s -> slab_ok s c sz a x -> slab_ok s d sz' a x -> c = d.
Proof.
  intros C H1 H2. destruct (so_run _ _ _ _ _ H1) as (p & Hp & Hr & Hpg). destruct (so_run _ _ _ _ _ H2) as (q & Hq & _ & Hqg).
  assert (q = p) as -> by lia. destruct (rok_run _ _ _ (co_pmem _ C) Hr) as (Hn & _). specialize (Hpg 0 ltac:(lia)).
  specialize (Hqg 0 ltac:(lia)). congruence.
Qed.

(** An object lies inside the run of its slab. *)
Lemma object_place s c sz a x i : core s -> slab_ok s c sz a x -> 0 < sz -> 0 <= i < Z.of_nat (length (freearr x)) ->
  exists p, a = KMAP_BASE + p /\ rruns (pmem s) !! p = Some (n_pages x) /\
    p + SLAB_SIZE <= objs x + sz * i - KMAP_BASE /\ objs x + sz * i + sz - KMAP_BASE <= p + n_pages x * PG_SIZE.
Proof.
  intros C [(p & Hp & Hr & _) Ho Hf _] Hs Hi. exists p. rewrite Ho. unfold SLAB_SIZE, INT_SIZE, PG_SIZE in *.
  split_and!; [done|done|nia|nia].
Qed.

(** Objects that are handed out do not overlap. *)
Lemma objects_apart s c d k k' o o' : core s -> caches s !! c = Some k -> caches s !! d = Some k' ->
  o ∈ live s c -> o' ∈ live s d -> o <> o' -> o + obj_size k <= o' \/ o' + obj_size k' <= o.
Proof.
  intros C Hk Hk' Ho Ho' Hne. apply elem_of_live in Ho as (k1 & a & x & Hk1 & Ha & Hx & Ho).
  apply elem_of_live in Ho' as (k2 & b & y & Hk2 & Hb & Hy & Ho'). assert (k1 = k) as -> by congruence. assert (k2 = k') as -> by congruence.
  destruct (co_slab _ C c k a Hk Ha) as (x1 & Hx1 & Hsx & _). destruct (co_slab _ C d k' b Hk' Hb) as (y1 & Hy1 & Hsy & _).
  assert (x1 = x) as -> by congruence. assert (y1 = y) as -> by congruence.
  apply elem_of_slab_live in Ho as (i & Hi & _ & ->). apply elem_of_slab_live in Ho' as (j & Hj & _ & ->).
  destruct (co_cache _ C c k Hk) as (_ & Hz & _). destruct (co_cache _ C d k' Hk') as (_ & Hz' & _).
  destruct (decide (a = b)) as [<-|Hab].
  - assert (y = x) as -> by congruence. pose proof (slab_owner s c d _ _ a x C Hsx Hsy) as <-.
    assert (k' = k) as -> by congruence. destruct (Z.lt_trichotomy i j) as [|[->|]]; [left; nia|done|right; nia].
  - destruct (object_place s c _ a x i C Hsx ltac:(lia) Hi) as (p & Hp & Hr & H1 & H2).
    destruct (object_place s d _ b y j C Hsy ltac:(lia) Hj) as (q & Hq & Hr' & H3 & H4).
    unfold SLAB_SIZE in *. destruct (rok_disj _ p _ q _ (co_pmem _ C) Hr Hr'); [lia|lia|lia].
Qed.

(** An address is a slot of one slab at most. *)
Lemma slot_slab s c d sz sz' a b x y i j : core s -> slab_ok s c sz a x -> slab_ok s d sz' b y -> 0 < sz -> 0 < sz' ->
  0 <= i < Z.of_nat (length (freearr x)) -> 0 <= j < Z.of_nat (length (freearr y)) ->
  objs x + sz * i = objs y + sz' * j -> a = b.
Proof.
  intros C Ha Hb Hs Hs' Hi Hj E. destruct (object_place s c sz a x i C Ha Hs Hi) as (p & Hp & Hr & H1 & H2).
  destruct (object_place s d sz' b y j C Hb Hs' Hj) as (q & Hq & Hr' & H3 & H4). unfold SLAB_SIZE in *.
  destruct (decide (p = q)) as [->|Hne]; [lia|]. destruct (rok_disj _ p _ q _ (co_pmem _ C) Hr Hr' Hne); lia.
Qed.

(** One slab of the cache [c] changes its chain, and may change its list. *)
Definition slab_update s (c a : Z) (k' : kmem_cache) (x' : slab) : kmem P :=
  mkKmem (<[c := k']> (caches s)) (<[a := x']> (slabs s)) (pages s) (pmem s) (kmalloc_allocators s).

Record same_slab (k k' : kmem_cache) (a : Z) (x x' : slab) : Prop := {
  ss_size : obj_size k' = obj_size k;
  ss_lists : full k' ++ free k' ≡ₚ full k ++ free k;
  ss_free : forall b, b <> a -> b ∈ free k' <-> b ∈ free k;
  ss_this : a ∈ free k' <-> sfree x' <> -1;
  ss_objs : objs x' = objs x;
  ss_pages : n_pages x' = n_pages x;
  ss_arr : length (freearr x') = length (freearr x);
  ss_chain : exists l, chain (freearr x') (sfree x') l /\ NoDup l;
}.

Lemma core_update s c k a x k' x' :
  core s -> caches s !! c = Some k -> a ∈ full k ++ free k -> slabs s !! a = Some x -> same_slab k k' a x x' ->
  core (slab_update s c a k' x').
Proof.
  intros C Hk Ha Hx [S1 S2 S3 S4 S5 S6 S7 S8]. pose proof C as [C1 C2 C3]. split; simpl; [done| |].
  - intros d k2 [[<- <-]|[_ Hd]]%lookup_insert_Some; [|eauto]. rewrite S1, S2. eauto.
  - destruct (C3 c k a Hk Ha) as (x0 & Hx0 & Hs & _). assert (x0 = x) as -> by congruence.
    assert (Hs' : slab_ok s c (obj_size k') a x').
    { destruct Hs as [T1 T2 T3 T4]. split; [by rewrite S6|by rewrite S5, S7|by rewrite S1, S6, S7|done]. }
    intros d k2 b [[<- <-]|[Hd Hk2]]%lookup_insert_Some Hb.
    + rewrite S2 in Hb. destruct (decide (b = a)) as [->|Hne].
      * exists x'. rewrite lookup_insert_eq. split; [done|]. split; [by destruct Hs'; split|done].
      * destruct (C3 c k b Hk Hb) as (y & Hy & Hsy & Hf). exists y. rewrite lookup_insert_ne by done.
        split; [done|]. rewrite S1. split; [by destruct Hsy; split|by rewrite S3].
    + destruct (C3 d k2 b Hk2 Hb) as (y & Hy & Hsy & Hf). exists y. rewrite lookup_insert_ne.
      * split; [done|]. split; [by destruct Hsy; split|done].
      * intros <-. apply Hd. assert (y = x) as -> by congruence. exact (slab_owner s c d _ _ a x C Hs Hsy).
Qed.

Lemma live_update s c k a x k' x' o :
  core s -> caches s !! c = Some k -> a ∈ full k ++ free k -> slabs s !! a = Some x -> same_slab k k' a x x' ->
  o ∈ live (slab_update s c a k' x') c <->
  o ∈ slab_live (obj_size k) x' \/ (o ∈ live s c /\ forall i, 0 <= i < Z.of_nat (length (freearr x)) -> o <> objs x + obj_size k * i).
Proof.
  intros C Hk Ha Hx S. pose proof (co_cache _ C c k Hk) as (_ & Hz & _).
  destruct (co_slab _ C c k a Hk Ha) as (x0 & Hx0 & Hs & _). assert (x0 = x) as -> by congruence.
  rewrite !elem_of_live. split.
  - intros (k2 & b & y & Hk2 & Hb & Hy & Ho). simpl in Hk2, Hy. rewrite lookup_insert_eq in Hk2. injection Hk2 as <-.
    rewrite (ss_size _ _ _ _ _ S) in Ho. rewrite (ss_lists _ _ _ _ _ S) in Hb.
    apply lookup_insert_Some in Hy as [[<- <-]|[Hne Hy]]; [by left|right]. split; [by exists k, b, y|]. intros i Hi ->.
    apply elem_of_slab_live in Ho as (j & Hj & _ & E). destruct (co_slab _ C c k b Hk Hb) as (y0 & Hy0 & Hsy & _).
    assert (y0 = y) as -> by congruence. apply Hne. apply (slot_slab s c c (obj_size k) (obj_size k) a b x y i j); (done || lia).
  - intros [Ho|[(k2 & b & y & Hk2 & Hb & Hy & Ho) Hout]]; exists k'.
    + exists a, x'. simpl. rewrite !lookup_insert_eq, (ss_lists _ _ _ _ _ S), (ss_size _ _ _ _ _ S). done.
    + assert (k2 = k) as -> by congruence. exists b, y. simpl.
      rewrite lookup_insert_eq, (ss_lists _ _ _ _ _ S), (ss_size _ _ _ _ _ S), lookup_insert_ne; [done|]. intros <-.
      assert (y = x) as -> by congruence. apply elem_of_slab_live in Ho as (i & Hi & _ & ->). by apply (Hout i).
Qed.

Lemma live_update_other s c k a x k' x' d :
  core s -> caches s !! c = Some k -> a ∈ full k ++ free k -> slabs s !! a = Some x -> d <> c ->
  live (slab_update s c a k' x') d = live s d.
Proof.
  intros C Hk Ha Hx Hd. destruct (co_slab _ C c k a Hk Ha) as (x0 & Hx0 & Hs & _). assert (x0 = x) as -> by congruence.
  apply set_eq. intros o. rewrite !elem_of_live. simpl. setoid_rewrite lookup_insert_ne at 1; [|done].
  assert (Hne : forall k2 b, caches s !! d = Some k2 -> b ∈ full k2 ++ free k2 -> a <> b).
  { intros k2 b Hk2 Hb <-. destruct (co_slab _ C d k2 a Hk2 Hb) as (y & Hy & Hsy & _). assert (y = x) as -> by congruence.
    apply Hd. symmetry. exact (slab_owner s c d _ _ a x C Hs Hsy). }
  split; intros (k2 & b & y & Hk2 & Hb & Hy & Ho); exists k2, b, y; split_and!; try done.
  - by rewrite lookup_insert_ne in Hy by eauto.
  - by rewrite lookup_insert_ne by eauto.
Qed.

End invariant.

(** ** Allocation *)

Section operations.
Context {P : Type} `{!RunAlloc P}.
Implicit Types s : kmem P.

Lemma get_cache_Some {B} c k s (f : kmem_cache -> M (kmem P) B) : caches s !! c = Some k -> bind (get_cache c) f s = f k s.
Proof. intros H. apply bind_Ret. unfold get_cache. by rewrite H. Qed.
Lemma get_slab_Some {B} a x s (f : slab -> M (kmem P) B) : slabs s !! a = Some x -> bind (get_slab a) f s = f x s.
Proof. intros H. apply bind_Ret. unfold get_slab. by rewrite H. Qed.

(** A slot is handed out exactly when it is not in the chain. *)
Lemma slot_live s c k a x i : core s -> caches s !! c = Some k -> a ∈ full k ++ free k -> slabs s !! a = Some x ->
  0 <= i < Z.of_nat (length (freearr x)) -> objs x + obj_size k * i ∈ live s c <-> i ∉ idx x.
Proof.
  intros C Hk Ha Hx Hi. destruct (co_cache _ C c k Hk) as (_ & Hz & _). split.
  - intros (k2 & b & y & Hk2 & Hb & Hy & (j & Hj & Hn & E)%elem_of_slab_live)%elem_of_live. assert (k2 = k) as -> by congruence.
    destruct (co_slab _ C c k a Hk Ha) as (x0 & Hx0 & Hs & _). destruct (co_slab _ C c k b Hk Hb) as (y0 & Hy0 & Hsy & _).
    assert (x0 = x) as -> by congruence. assert (y0 = y) as -> by congruence.
    assert (a = b) as <- by (apply (slot_slab s c c (obj_size k) (obj_size k) a b x y i j); (done || lia)).
    assert (y = x) as -> by congruence. assert (i = j) as -> by nia. done.
  - intros Hn. apply elem_of_live. exists k, a, x. split_and!; [done..|]. apply elem_of_slab_live. by exists i.
Qed.

(** Object addresses do not wrap around. *)
Lemma object_bounds s c sz a x i : core s -> slab_ok s c sz a x -> 0 < sz -> 0 <= i < Z.of_nat (length (freearr x)) ->
  KMAP_BASE < objs x + sz * i < 2 ^ 64.
Proof.
  intros C Hs Hz Hi. destruct (object_place s c sz a x i C Hs Hz Hi) as (p & _ & Hr & H1 & H2).
  destruct (rok_run _ _ _ (co_pmem _ C) Hr) as (_ & Hp & _ & Hb). unfold SLAB_SIZE, KMAP_BASE, DEVMEM_BASE in *. lia.
Qed.

(** The cache [c] has handed out [o] and nothing else changed. *)
Definition handed_out s (c o : Z) s' : Prop :=
  o <> 0 /\ o ∉ live s c /\ live s' c = {[o]} ∪ live s c /\ (forall d, d <> c -> live s' d = live s d) /\
  kmalloc_allocators s' = kmalloc_allocators s /\
  exists k k', caches s !! c = Some k /\ caches s' = <[c := k']> (caches s) /\ lock k' = false /\ obj_size k' = obj_size k.

Lemma take_object_ok s c k a fr : core s -> caches s !! c = Some k -> free k = a :: fr ->
  exists o s', take_object c (obj_size k) a s = Ret o s' /\ core s' /\ handed_out s c o s'.
Proof.
  intros C Hk Hfr. assert (Ha : a ∈ full k ++ free k) by (rewrite Hfr; set_solver).
  destruct (co_cache _ C c k Hk) as (Hc0 & Hz & Hnd). destruct (co_slab _ C c k a Hk Ha) as (x & Hx & Hs & Hf).
  assert (Hne : sfree x <> -1) by (apply Hf; rewrite Hfr; set_solver).
  destruct (so_free _ _ _ _ _ Hs) as (l & Hch & Hl). destruct l as [|j l]; [done|]. pose proof (chain_idx x _ Hch Hl) as Hidx.
  destruct Hch as (Hj & Hjr & nx & Hnx & Hch). apply NoDup_cons in Hl as [Hjl Hl]. set (x' := set_sfree nx (freearr x) x).
  set (k' := if nx =? -1 then mkCache (full k ++ [a]) fr false (obj_size k) else mkCache (full k) (free k) false (obj_size k)).
  assert (Hndf : NoDup (a :: fr)) by (rewrite Hfr in Hnd; by apply NoDup_app in Hnd as (_ & _ & ?)).
  assert (S : same_slab k k' a x x').
  { apply NoDup_cons in Hndf as [Hafr _]. unfold k'. split; simpl; try done; [by destruct (nx =? -1)|..].
    - destruct (nx =? -1); [|done]. simpl. rewrite Hfr, <- app_assoc. done.
    - intros b Hb. destruct (nx =? -1); simpl; [rewrite Hfr; set_solver|done].
    - destruct (Z.eqb_spec nx (-1)); simpl; [split; [done|lia]|]. rewrite Hfr. set_solver.
    - by exists l. }
  exists (objs x + obj_size k * j), (slab_update s c a k' x').
  pose proof (object_bounds s c _ a x j C Hs ltac:(lia) Hjr) as Hb. split; [|split].
  - unfold take_object. rewrite (get_slab_Some a x) by done. rewrite bind_kassert by lia. rewrite Hj, Hnx. simpl.
    rewrite bind_ret, wrap_small by (unfold KMAP_BASE in Hb; lia). unfold bind at 1, put_slab, modify.
    unfold k', slab_update. destruct (nx =? -1).
    + rewrite bind_assoc, (get_cache_Some c k) by done. unfold bind at 1, put_cache, modify.
      unfold release. rewrite bind_assoc. erewrite get_cache_Some by apply lookup_insert_eq.
      unfold bind, put_cache, modify, ret. simpl. rewrite insert_insert_eq, Hfr. unfold set_lists, set_lock, set_caches; simpl.
      rewrite filter_cons_False by naive_solver. do 4 f_equal. apply NoDup_cons in Hndf as [Hafr _].
      by apply filter_ne_id.
    + rewrite bind_ret. unfold release. rewrite bind_assoc, (get_cache_Some c k) by done. done.
  - by apply (core_update s c k a x).
  - split; [unfold KMAP_BASE in Hb; lia|]. split.
    { rewrite (slot_live s c k a x) by done. rewrite Hidx. set_solver. }
    split; [|split; [intros d Hd; by apply (live_update_other s c k a x)|split; [done|]]].
    + apply set_eq. intros o. rewrite (live_update s c k a x) by done. rewrite elem_of_union, elem_of_singleton, elem_of_slab_live.
      assert (Hidx' : idx x' = l) by (apply chain_idx; done). rewrite Hidx'. simpl. split.
      * intros [(i & Hi & Hn & ->)|[Ho _]]; [|by right]. destruct (decide (i = j)) as [->|Hij]; [by left|right].
        apply (slot_live s c k a x); [done..|]. rewrite Hidx. set_solver.
      * intros [->|Ho]; [left; by exists j|].
        destruct (decide (o ∈ slab_live (obj_size k) x)) as [(i & Hi & Hn & ->)%elem_of_slab_live|Hno].
        -- left. exists i. rewrite Hidx in Hn. set_solver.
        -- right. split; [done|]. intros i Hi ->. apply Hno, elem_of_slab_live. exists i. split; [done|]. split; [|done].
           by apply (slot_live s c k a x) in Ho.
    + exists k, k'. unfold k'. by destruct (nx =? -1).
Qed.

Lemma link_pages_ok n : forall paddr c a s, (PG_SIZE | paddr) ->
  exists pg, link_pages n paddr c a s = Ret tt (set_pages pg s) /\
    (forall i, 0 <= i < Z.of_nat n -> pg !! (page_no paddr + i) = Some (c, a)) /\
    (forall j, ~ (page_no paddr <= j < page_no paddr + Z.of_nat n) -> pg !! j = pages s !! j).
Proof.
  induction n as [|n IH]; intros paddr c a s Hd.
  - exists (pages s). split_and!; [by destruct s|lia|done].
  - simpl. unfold bind at 1, modify. destruct Hd as [q Hq].
    assert (Hn : page_no (paddr + PG_SIZE) = page_no paddr + 1).
    { unfold page_no. rewrite Hq. replace (q * PG_SIZE + PG_SIZE) with ((q + 1) * PG_SIZE) by lia. by rewrite !Z.div_mul. }
    edestruct (IH (paddr + PG_SIZE) c a) as (pg & E & H1 & H2); [exists (q + 1); lia|]. exists pg. split; [exact E|]. rewrite Hn in *. split.
    + intros i Hi. destruct (decide (i = 0)) as [->|].
      * rewrite H2 by lia. simpl. rewrite Z.add_0_r. by rewrite lookup_insert_eq.
      * replace (page_no paddr + i) with (page_no paddr + 1 + (i - 1)) by lia. apply H1. lia.
    + intros j Hj. rewrite H2 by lia. simpl. apply lookup_insert_ne. lia.
Qed.

(** The pages of two runs are different. *)
Lemma pages_apart (p : P) a n b m i : rok p -> rruns p !! a = Some n -> rruns p !! b = Some m -> a <> b ->
  0 <= i < n -> ~ (page_no b <= page_no a + i < page_no b + m).
Proof.
  intros Hok Ha Hb Hne Hi. destruct (rok_run _ _ _ Hok Ha) as (_ & _ & [q Hq] & _). destruct (rok_run _ _ _ Hok Hb) as (_ & _ & [r Hr] & _).
  pose proof (rok_disj p a n b m Hok Ha Hb Hne) as Hd. unfold page_no. rewrite Hq, Hr in *. rewrite !Z.div_mul by done. unfold PG_SIZE in *. lia.
Qed.

(** The new slab of [slab_create], with all slots free. *)
Definition new_slab (a np size : Z) : slab :=
  mkSlab (a + SLAB_SIZE + INT_SIZE * slab_objs np size) 0 np (init_freearr (slab_objs np size)).

Lemma new_slab_live sz a np : 0 < slab_objs np sz -> slab_live sz (new_slab a np sz) = [].
Proof.
  intros Hn. apply elem_of_nil_inv. intros o (i & Hi & Hni & _)%elem_of_slab_live. simpl in Hi. rewrite init_freearr_length in Hi by done.
  apply Hni. erewrite (chain_idx _ (seqZ 0 (slab_objs np sz))); [apply elem_of_seqZ; lia|by apply chain_init|apply NoDup_seqZ].
Qed.

(** The caches after [slab_create]: the slab at [KMAP_BASE + p] is the last free
    one of [c]. *)
Definition with_slab s (c : Z) (k : kmem_cache) (p : Z) (pg : gmap Z (Z * Z)) (pm : P) : kmem P :=
  let a := KMAP_BASE + p in
  mkKmem (<[c := set_lists (full k) (free k ++ [a]) k]> (caches s))
    (<[a := new_slab a (slab_pages (obj_size k)) (obj_size k)]> (slabs s)) pg pm (kmalloc_allocators s).

Lemma core_slab_create s c k p pg pm :
  core s -> caches s !! c = Some k -> rok pm -> rruns (pmem s) !! p = None ->
  rruns pm = <[p := slab_pages (obj_size k)]> (rruns (pmem s)) ->
  (forall i, 0 <= i < slab_pages (obj_size k) -> pg !! (page_no p + i) = Some (c, KMAP_BASE + p)) ->
  (forall j, ~ (page_no p <= j < page_no p + slab_pages (obj_size k)) -> pg !! j = pages s !! j) ->
  core (with_slab s c k p pg pm) /\ (forall d, live (with_slab s c k p pg pm) d = live s d).
Proof.
  intros C Hk Hpm Hp Hruns Hnew Hold. pose proof C as [C1 C2 C3]. set (a := KMAP_BASE + p). set (s' := with_slab s c k p pg pm).
  destruct (C2 c k Hk) as (Hc0 & Hz & Hnd). destruct (slab_geometry (obj_size k) Hz) as (Hnp & Hno & Hfit). unfold MIN_OBJS_PER_SLAB in Hno.
  assert (Hfresh : forall d k2 b, caches s !! d = Some k2 -> b ∈ full k2 ++ free k2 -> b <> a).
  { intros d k2 b Hd Hb ->. destruct (C3 d k2 a Hd Hb) as (x & _ & Hs & _). destruct (so_run _ _ _ _ _ Hs) as (q & Hq & Hr & _).
    assert (q = p) as -> by (unfold a in Hq; lia). congruence. }
  assert (Hkeep : forall d sz b x, slab_ok s d sz b x -> slab_ok s' d sz b x).
  { intros d sz b x [(q & Hq & Hr & Hpg) T2 T3 T4]. split; [|done..]. exists q. simpl. rewrite Hruns.
    assert (q <> p) by congruence. rewrite lookup_insert_ne by done. split_and!; [done..|]. intros i Hi. rewrite Hold; [by apply Hpg|].
    apply (pages_apart pm q (n_pages x)); [done|by rewrite Hruns, lookup_insert_ne|by rewrite Hruns, lookup_insert_eq|done|done]. }
  assert (Hnewok : slab_ok s' c (obj_size k) a (new_slab a (slab_pages (obj_size k)) (obj_size k))).
  { split; simpl; [|rewrite init_freearr_length by lia; lia..|].
    - exists p. rewrite Hruns, lookup_insert_eq. done.
    - exists (seqZ 0 (slab_objs (slab_pages (obj_size k)) (obj_size k))). split; [apply chain_init; lia|apply NoDup_seqZ]. }
  split.
  - split; simpl; [done| |].
    + intros d k2 [[<- <-]|[_ Hd]]%lookup_insert_Some; [|eauto]. simpl. split_and!; [done|lia|lia|]. rewrite app_assoc. apply NoDup_app.
      split_and!; [done| |apply NoDup_singleton]. intros b Hb ->%list_elem_of_singleton. by apply (Hfresh c k a).
    + intros d k2 b [[<- <-]|[_ Hd]]%lookup_insert_Some; simpl; [rewrite app_assoc|]; intros Hb.
      * apply elem_of_app in Hb as [Hb| ->%list_elem_of_singleton].
        -- destruct (C3 c k b Hk Hb) as (x & Hx & Hs & Hf). pose proof (Hfresh c k b Hk Hb). exists x. rewrite lookup_insert_ne by done.
           split_and!; [done|by apply Hkeep|]. rewrite <- Hf. set_solver.
        -- eexists. rewrite lookup_insert_eq. split; [done|]. split; [done|]. simpl. split; [lia|set_solver].
      * destruct (C3 d k2 b Hd Hb) as (x & Hx & Hs & Hf). pose proof (Hfresh d k2 b Hd Hb). exists x. rewrite lookup_insert_ne by done.
        split_and!; [done|by apply Hkeep|done].
  - intros d. apply set_eq. intros o. rewrite !elem_of_live. simpl. split.
    + intros (k2 & b & x & [[<- <-]|[Hne Hd]]%lookup_insert_Some & Hb & Hx & Ho); simpl in *.
      * apply lookup_insert_Some in Hx as [[<- <-]|[Hab Hx]]; [rewrite new_slab_live in Ho by lia; set_solver|].
        exists k, b, x. split_and!; try done. set_solver.
      * rewrite lookup_insert_ne in Hx by (apply not_eq_sym, (Hfresh d k2 b); done). by exists k2, b, x.
    + intros (k2 & b & x & Hd & Hb & Hx & Ho). pose proof (Hfresh d k2 b Hd Hb). destruct (decide (d = c)) as [->|].
      * assert (k2 = k) as -> by congruence. eexists _, b, x. rewrite lookup_insert_eq, lookup_insert_ne by done.
        split_and!; [done| |done|done]. simpl. set_solver.
      * exists k2, b, x. rewrite !lookup_insert_ne by done. done.
Qed.

(** The page allocator failed. *)
Lemma core_pmem s pm pg : core s -> rok pm -> rruns pm = rruns (pmem s) -> pg = pages s ->
  core (set_pages pg (set_pmem pm s)) /\ forall d, live (set_pages pg (set_pmem pm s)) d = live s d.
Proof.
  intros [C1 C2 C3] Hok Hr ->. split; [|done]. split; simpl; [done|done|]. intros c k a Hk Ha.
  destruct (C3 c k a Hk Ha) as (x & Hx & [S1 S2 S3 S4] & Hf). exists x. split; [done|]. split; [|done]. split; simpl; [|done..].
  by rewrite Hr.
Qed.

Lemma slab_create_ok s c k : core s -> caches s !! c = Some k ->
  exists a s', slab_create c s = Ret a s' /\ core s' /\ (forall d, live s' d = live s d) /\
    kmalloc_allocators s' = kmalloc_allocators s /\
    ((a = 0 /\ caches s' = caches s) \/
     (a <> 0 /\ caches s' = <[c := set_lists (full k) (free k ++ [a]) k]> (caches s))).
Proof.
  intros C Hk. destruct (co_cache _ C c k Hk) as (Hc0 & Hz & _). destruct (slab_geometry (obj_size k) Hz) as (Hnp & Hno & _).
  unfold slab_create. rewrite bind_kassert by lia. rewrite (get_cache_Some c k), bind_kassert by (done || lia).
  unfold bind at 1, page_nalloc. destruct (ralloc (slab_pages (obj_size k)) (pmem s)) as [[p|] pm] eqn:Er.
  2: { destruct (ralloc_None _ _ _ (co_pmem _ C) Hnp Er) as [Hok Hr]. destruct (core_pmem s pm (pages s) C Hok Hr eq_refl) as [C' L'].
       exists 0, (set_pmem pm s). split; [done|]. destruct s. split_and!; [exact C'|exact L'|done|by left]. }
  destruct (ralloc_Some _ _ _ _ (co_pmem _ C) Hnp Er) as (Hok & Hn & Hr).
  destruct (rok_run pm p _ Hok ltac:(rewrite Hr; apply lookup_insert_eq)) as (_ & Hp0 & Hal & Hb).
  assert (Ha : KMAP_P2V p = KMAP_BASE + p).
  { unfold KMAP_P2V, DEVMEM_BASE, KMAP_BASE, PG_SIZE in *. rewrite wrap_small; lia. }
  rewrite Ha. rewrite bind_kassert by lia. rewrite bind_kassert by (unfold KMAP_BASE; lia).
  assert (Hobjs : u64 (KMAP_BASE + p + SLAB_SIZE + INT_SIZE * slab_objs (slab_pages (obj_size k)) (obj_size k)) =
    KMAP_BASE + p + SLAB_SIZE + INT_SIZE * slab_objs (slab_pages (obj_size k)) (obj_size k)).
  { destruct (slab_geometry (obj_size k) Hz) as (_ & _ & Hfit). unfold MIN_OBJS_PER_SLAB, SLAB_SIZE, INT_SIZE, PG_SIZE, KMAP_BASE, DEVMEM_BASE in *.
    apply wrap_small. nia. }
  rewrite Hobjs. unfold bind at 1, put_slab, modify.
  edestruct (link_pages_ok (Z.to_nat (slab_pages (obj_size k))) p c (KMAP_BASE + p)) as (pg & E & H1 & H2); [done|].
  rewrite (bind_Ret _ _ _ _ _ E). rewrite (get_cache_Some c k) by done. unfold bind, put_cache, modify, ret.
  rewrite Z2Nat.id in H1, H2 by lia.
  destruct (core_slab_create s c k p pg pm C Hk Hok Hn Hr) as [C' L']; [done| |].
  { intros j Hj. rewrite H2 by done. simpl. apply lookup_insert_ne. lia. }
  exists (KMAP_BASE + p), (with_slab s c k p pg pm). split; [done|]. split_and!; try done. right. split; [unfold KMAP_BASE; lia|done].
Qed.

(** Taking and giving back the lock of a cache. *)
Lemma core_cache_lock s c k b : core s -> caches s !! c = Some k ->
  core (set_caches (<[c := set_lock b k]> (caches s)) s) /\
  forall d, live (set_caches (<[c := set_lock b k]> (caches s)) s) d = live s d.
Proof.
  intros [C1 C2 C3] Hk. split.
  - split; simpl; [done| |].
    + intros d k2 [[<- <-]|[_ Hd]]%lookup_insert_Some; simpl; eauto.
    + intros d k2 a [[<- <-]|[_ Hd]]%lookup_insert_Some Ha; simpl in *;
        [destruct (C3 c k a Hk Ha) as (x & Hx & Hs & Hf)|destruct (C3 d k2 a Hd Ha) as (x & Hx & Hs & Hf)];
        exists x; (split; [done|]); (split; [by destruct Hs; split|done]).
  - intros d. unfold live. simpl. destruct (decide (d = c)) as [->|]; [rewrite lookup_insert_eq, Hk|rewrite lookup_insert_ne by done]; done.
Qed.

Lemma cache_acquire c k s : caches s !! c = Some k -> lock k = false ->
  acquire c s = Ret tt (set_caches (<[c := set_lock true k]> (caches s)) s).
Proof. intros Hk Hl. unfold acquire. rewrite (get_cache_Some c k) by done. by rewrite Hl. Qed.

Lemma handed_out_lock s c k b o s' : core s -> caches s !! c = Some k ->
  handed_out (set_caches (<[c := set_lock b k]> (caches s)) s) c o s' -> handed_out s c o s'.
Proof.
  intros C Hk (H1 & H2 & H3 & H4 & H5 & k1 & k2 & H6 & H7 & H8 & H9). destruct (core_cache_lock s c k b C Hk) as [_ L]. rewrite L in H2, H3.
  split_and!; try done; [intros d Hd; by rewrite H4, L|]. simpl in H6, H7. rewrite lookup_insert_eq in H6. injection H6 as <-.
  exists k, k2. rewrite H7, insert_insert_eq. done.
Qed.

Lemma handed_out_unlocked s c o s' : unlocked s -> handed_out s c o s' -> unlocked s'.
Proof.
  intros U (_ & _ & _ & _ & _ & k1 & k2 & _ & H7 & H8 & _) d k. rewrite H7. intros [[_ <-]|[_ Hd]]%lookup_insert_Some; eauto.
Qed.

Lemma release_same s s2 c k : core s2 -> caches s2 = <[c := set_lock true k]> (caches s) -> caches s !! c = Some k -> lock k = false ->
  release c s2 = Ret tt (set_caches (caches s) s2) /\ core (set_caches (caches s) s2) /\
  forall d, live (set_caches (caches s) s2) d = live s2 d.
Proof.
  intros C2 Hc Hk Hl. assert (Hk2 : caches s2 !! c = Some (set_lock true k)) by (rewrite Hc; apply lookup_insert_eq).
  destruct (core_cache_lock s2 c (set_lock true k) false C2 Hk2) as [C3 L3].
  assert (Hcs : <[c := set_lock false (set_lock true k)]> (caches s2) = caches s).
  { rewrite Hc, insert_insert_eq. apply insert_id. rewrite Hk. by destruct k; simpl in *; subst. }
  rewrite Hcs in C3, L3. split; [|done]. unfold release. rewrite (get_cache_Some c (set_lock true k)) by done.
  unfold put_cache, modify. by rewrite Hcs.
Qed.

(** [kmem_cache_alloc] of a known cache: a new object, or NULL. *)
Lemma kmem_cache_alloc_ok s c k : inv s -> caches s !! c = Some k ->
  exists o s', kmem_cache_alloc c s = Ret o s' /\ inv s' /\
    ((o = 0 /\ free k = [] /\ (forall d, live s' d = live s d) /\ caches s' = caches s /\ kmalloc_allocators s' = kmalloc_allocators s) \/
     handed_out s c o s').
Proof.
  intros [C U] Hk. pose proof (U c k Hk) as Hl. destruct (co_cache _ C c k Hk) as (Hc0 & _). unfold kmem_cache_alloc.
  rewrite bind_kassert by lia. rewrite (bind_Ret _ _ _ _ _ (cache_acquire c k s Hk Hl)).
  destruct (core_cache_lock s c k true C Hk) as [C1 L1]. set (s1 := set_caches _ s) in *.
  assert (Hk1 : caches s1 !! c = Some (set_lock true k)) by apply lookup_insert_eq.
  rewrite (get_cache_Some c (set_lock true k)) by done. simpl. destruct (free k) as [|a fr] eqn:Hfr.
  - destruct (slab_create_ok s1 c (set_lock true k) C1 Hk1) as (a & s2 & E & C2 & L2 & A2 & Hcase). rewrite (bind_Ret _ _ _ _ _ E).
    destruct Hcase as [[-> Hc]|[Ha Hc]].
    + destruct (release_same s s2 c k C2 Hc Hk Hl) as (E3 & C3 & L3). simpl. rewrite (bind_Ret _ _ _ _ _ E3).
      eexists _, _. split; [done|]. split; [split; [exact C3|exact U]|]. left. split_and!; try done. intros d. by rewrite L3, L2, L1.
    + rewrite (proj2 (Z.eqb_neq a 0) Ha). simpl in Hc. rewrite Hfr in Hc. simpl in Hc.
      set (k2 := set_lists (full k) [a] (set_lock true k)) in *.
      destruct (take_object_ok s2 c k2 a [] C2 ltac:(rewrite Hc; apply lookup_insert_eq) eq_refl) as (o & s3 & E3 & C3 & H3).
      exists o, s3. split; [exact E3|]. assert (H : handed_out s c o s3).
      { apply (handed_out_lock s c k true); [done|done|]. destruct H3 as (G1 & G2 & G3 & G4 & G5 & k3 & k4 & G6 & G7 & G8 & G9).
        rewrite L2 in G2, G3. split_and!; try done; [intros d Hd; by rewrite G4, L2|by rewrite G5|].
        exists (set_lock true k), k4. rewrite G7, Hc, insert_insert_eq. rewrite Hc, lookup_insert_eq in G6. injection G6 as <-. done. }
      split; [split; [done|by apply (handed_out_unlocked s c o)]|by right].
  - rewrite bind_ret. destruct (co_slab _ C c k a Hk) as (x & _ & Hs & _); [rewrite Hfr; set_solver|].
    destruct (so_run _ _ _ _ _ Hs) as (p & Hp & Hr & _). destruct (rok_run _ _ _ (co_pmem _ C) Hr) as (_ & Hp0 & _).
    rewrite (proj2 (Z.eqb_neq a 0)) by (unfold KMAP_BASE in Hp; lia).
    destruct (take_object_ok s1 c (set_lock true k) a fr C1 Hk1 Hfr) as (o & s3 & E3 & C3 & H3).
    apply (handed_out_lock s c k true) in H3; [|done|done].
    exists o, s3. split; [exact E3|]. split; [split; [done|by apply (handed_out_unlocked s c o)]|by right].
Qed.

(** ** Deallocation *)

(** [kmem_cache_free] finds the page of an object linked to its slab. *)
Lemma object_page s c sz a x i : core s -> slab_ok s c sz a x -> 0 < sz -> 0 <= i < Z.of_nat (length (freearr x)) ->
  pages s !! page_no (KMAP_V2P (objs x + sz * i)) = Some (c, a).
Proof.
  intros C Hs Hz Hi. pose proof (object_bounds s c sz a x i C Hs Hz Hi) as Hb.
  destruct (object_place s c sz a x i C Hs Hz Hi) as (p & Hp & Hr & H1 & H2).
  destruct (so_run _ _ _ _ _ Hs) as (q & Hq & _ & Hpg). assert (q = p) as -> by lia.
  destruct (rok_run _ _ _ (co_pmem _ C) Hr) as (_ & _ & [z Hd] & Hlim). unfold KMAP_V2P. rewrite wrap_small by (unfold KMAP_BASE in *; lia).
  set (off := objs x + sz * i - KMAP_BASE - p). unfold SLAB_SIZE, PG_SIZE in *.
  assert (Hn : page_no (objs x + sz * i - KMAP_BASE) = page_no p + off `div` 4096).
  { unfold page_no, PG_SIZE. replace (objs x + sz * i - KMAP_BASE) with (off + z * 4096) by (unfold off; lia).
    rewrite Z.div_add, Hd, Z.div_mul by lia. lia. }
  rewrite Hn. apply Hpg. split; [apply Z.div_pos; unfold off; lia|]. apply Z.div_lt_upper_bound; unfold off; lia.
Qed.

Lemma object_v2p {B} s c sz a x i (f : Z -> M (kmem P) B) : core s -> slab_ok s c sz a x -> 0 < sz -> 0 <= i < Z.of_nat (length (freearr x)) ->
  bind (kmap_v2p (objs x + sz * i)) f s = f (KMAP_V2P (objs x + sz * i)) s.
Proof.
  intros C Hs Hz Hi. destruct (object_place s c sz a x i C Hs Hz Hi) as (p & _ & Hr & H1 & H2).
  destruct (rok_run _ _ _ (co_pmem _ C) Hr) as (_ & Hp0 & _ & Hlim). apply bind_Ret. unfold kmap_v2p. rewrite bind_gets.
  unfold SLAB_SIZE, PG_SIZE, DEVMEM_BASE, KMAP_BASE in *. rewrite bind_kassert; [done|]. rewrite wrap_small by lia. lia.
Qed.

Lemma object_index s c sz a x i : core s -> slab_ok s c sz a x -> 0 < sz -> 0 <= i < Z.of_nat (length (freearr x)) ->
  s32 (u64 (objs x + sz * i - objs x) `div` sz) = i.
Proof.
  intros C Hs Hz Hi. destruct (object_place s c sz a x i C Hs Hz Hi) as (p & Hp & Hr & H1 & H2).
  destruct (rok_run _ _ _ (co_pmem _ C) Hr) as (_ & Hp0 & _ & Hlim). pose proof (so_fit _ _ _ _ _ Hs) as Hfit.
  unfold SLAB_SIZE, INT_SIZE, PG_SIZE, DEVMEM_BASE, KMAP_BASE in *. replace (objs x + sz * i - objs x) with (i * sz) by lia.
  rewrite wrap_small by nia. rewrite Z.div_mul by lia. apply swrap_small; nia.
Qed.

(** The cache [c] took [o] back and nothing else changed. *)
Definition taken_back s (c o : Z) s' : Prop :=
  live s' c = live s c ∖ {[o]} /\ (forall d, d <> c -> live s' d = live s d) /\
  kmalloc_allocators s' = kmalloc_allocators s /\
  exists k k', caches s !! c = Some k /\ caches s' = <[c := k']> (caches s) /\ lock k' = false /\ obj_size k' = obj_size k.

(** The slab and the cache after the slot [i] was put in front of the chain. *)
Definition give_slot (x : slab) (i : Z) : slab := set_sfree i (<[Z.to_nat i := sfree x]> (freearr x)) x.
Definition give_cache (k : kmem_cache) (a : Z) (x : slab) : kmem_cache :=
  if sfree x =? -1 then mkCache (filter (fun b => b <> a) (full k)) (free k ++ [a]) false (obj_size k)
  else mkCache (full k) (free k) false (obj_size k).

Lemma give_same_slab s c k a x i : core s -> caches s !! c = Some k -> a ∈ full k ++ free k -> slabs s !! a = Some x ->
  0 <= i < Z.of_nat (length (freearr x)) -> i ∉ idx x ->
  same_slab k (give_cache k a x) a x (give_slot x i) /\ idx (give_slot x i) = i :: idx x.
Proof.
  intros C Hk Ha Hx Hi Hn. destruct (co_cache _ C c k Hk) as (_ & _ & Hnd). destruct (co_slab _ C c k a Hk Ha) as (x0 & Hx0 & Hs & Hf).
  assert (x0 = x) as -> by congruence. destruct (so_free _ _ _ _ _ Hs) as (l & Hch & Hl). rewrite (chain_idx x l) in * by done.
  assert (Hch' : chain (freearr (give_slot x i)) (sfree (give_slot x i)) (i :: l)).
  { simpl. rewrite length_insert. split_and!; [lia..|]. exists (sfree x). rewrite list_lookup_insert_eq by lia. split; [done|].
    apply chain_insert; [done|lia|done]. }
  split; [|apply chain_idx; [done|by apply NoDup_cons]]. unfold give_cache. split; simpl; try done; [by destruct (sfree x =? -1)|..].
  - destruct (Z.eqb_spec (sfree x) (-1)) as [E|]; [|done]. simpl.
    assert (Hfull : a ∈ full k) by (apply elem_of_app in Ha as [?|?%Hf]; [done|lia]). apply NoDup_app in Hnd as (Hnf & _ & _).
    rewrite (perm_filter_ne (full k) a Hnf Hfull) at 2. simpl. rewrite app_assoc. apply Permutation_sym, Permutation_cons_append.
  - intros b Hb. destruct (sfree x =? -1); simpl; [set_solver|done].
  - split; [lia|]. intros _. destruct (Z.eqb_spec (sfree x) (-1)); simpl; [set_solver|]. by apply Hf.
  - by rewrite length_insert.
  - exists (i :: l). split; [done|]. by apply NoDup_cons.
Qed.

Lemma kmem_cache_free_ok s c k o : inv s -> caches s !! c = Some k -> o ∈ live s c ->
  exists s', kmem_cache_free c o s = Ret tt s' /\ inv s' /\ taken_back s c o s'.
Proof.
  intros [C U] Hk Ho. pose proof (U c k Hk) as Hl. destruct (co_cache _ C c k Hk) as (Hc0 & Hz & _).
  apply elem_of_live in Ho as (k2 & a & x & Hk2 & Ha & Hx & (i & Hi & Hn & ->)%elem_of_slab_live). assert (k2 = k) as -> by congruence.
  destruct (co_slab _ C c k a Hk Ha) as (x0 & Hx0 & Hs & Hf). assert (x0 = x) as -> by congruence.
  destruct (give_same_slab s c k a x i C Hk Ha Hx Hi Hn) as [S Hidx].
  pose proof (object_page s c _ a x i C Hs ltac:(lia) Hi) as Hpg. destruct (so_run _ _ _ _ _ Hs) as (p & Hp & Hr & _).
  destruct (rok_run _ _ _ (co_pmem _ C) Hr) as (_ & Hp0 & _).
  exists (slab_update s c a (give_cache k a x) (give_slot x i)). split; [|split].
  - unfold kmem_cache_free. rewrite bind_kassert by lia. rewrite (bind_Ret _ _ _ _ _ (cache_acquire c k s Hk Hl)).
    rewrite (get_cache_Some c (set_lock true k)) by apply lookup_insert_eq.
    destruct (core_cache_lock s c k true C Hk) as [C1 _].
    rewrite (object_v2p _ c (obj_size k) a x i) by (done || lia || by destruct Hs; split).
    rewrite bind_gets. simpl. rewrite Hpg. simpl.
    rewrite bind_kassert by (unfold KMAP_BASE in Hp; lia). rewrite (get_slab_Some a x) by done.
    rewrite (object_index s c _ a x i C Hs ltac:(lia) Hi). rewrite (proj2 (Z.leb_le 0 i)), (proj2 (Z.ltb_lt i _)) by lia. simpl.
    rewrite bind_ret. unfold bind at 1, put_slab, modify. unfold give_cache, slab_update. destruct (sfree x =? -1).
    + unfold bind at 1, put_cache, modify. unfold release. erewrite get_cache_Some by apply lookup_insert_eq.
      unfold put_cache, modify, set_caches, set_slabs. simpl. by rewrite !insert_insert_eq.
    + rewrite bind_ret. unfold release. erewrite get_cache_Some by apply lookup_insert_eq.
      unfold put_cache, modify, set_caches, set_slabs. simpl. by rewrite !insert_insert_eq.
  - split; [by apply (core_update s c k a x)|]. intros d kd. simpl. intros [[_ <-]|[_ Hd]]%lookup_insert_Some; [|eauto].
    unfold give_cache. by destruct (sfree x =? -1).
  - split; [|split; [intros d Hd; by apply (live_update_other s c k a x)|split; [done|]]].
    + apply set_eq. intros o. rewrite (live_update s c k a x) by done. rewrite elem_of_difference, elem_of_singleton, elem_of_slab_live, Hidx.
      simpl. rewrite length_insert. split.
      * intros [(j & Hj & Hnj & ->)|[Ho Hout]]; [|by auto]. apply not_elem_of_cons in Hnj as [Hij Hnj].
        split; [by apply (slot_live s c k a x)|nia].
      * intros [Ho Hne]. destruct (decide (o ∈ slab_live (obj_size k) x)) as [(j & Hj & Hnj & ->)%elem_of_slab_live|Hno].
        -- left. exists j. split; [done|]. split; [|done]. apply not_elem_of_cons. split; [congruence|done].
        -- right. split; [done|]. intros j Hj ->. apply Hno, elem_of_slab_live. exists j. split; [done|]. split; [|done].
           by apply (slot_live s c k a x) in Ho.
    + exists k, (give_cache k a x). unfold give_cache. by destruct (sfree x =? -1).
Qed.

(** ** kmalloc and kfree *)

(** The caches of [kmalloc_allocators] have their sizes. *)
Definition allocators_ok s : Prop :=
  map snd (kmalloc_allocators s) = kmalloc_sizes /\
  forall c sz, (c, sz) ∈ kmalloc_allocators s -> exists k, caches s !! c = Some k /\ obj_size k = sz.

Lemma find_allocator_ok size l s : (exists sz, sz ∈ map snd l /\ size <= sz) ->
  exists c sz, find_allocator size l s = Ret c s /\ (c, sz) ∈ l /\ size <= sz.
Proof.
  induction l as [|[c sz] l IH]; intros (z & Hz & Hs); simpl in *; [set_solver|]. destruct (Z.leb_spec size sz).
  - exists c, sz. split_and!; [done|set_solver|done].
  - destruct IH as (c' & sz' & E & Hin & Hle); [exists z; split; [|done]; apply elem_of_cons in Hz as [->|]; [lia|done]|].
    exists c', sz'. split_and!; [done|set_solver|done].
Qed.

(** Changing the lists and the lock of a cache keeps [allocators_ok]. *)
Lemma allocators_ok_update s s' c k k' : allocators_ok s -> caches s !! c = Some k -> caches s' = <[c := k']> (caches s) ->
  obj_size k' = obj_size k -> kmalloc_allocators s' = kmalloc_allocators s -> allocators_ok s'.
Proof.
  intros [A1 A2] Hk Hc Hsz Ha. split; [by rewrite Ha|]. intros d sz. rewrite Ha, Hc. intros (k2 & Hd & Hk2)%A2.
  destruct (decide (d = c)) as [->|]; [exists k'; rewrite lookup_insert_eq; split; [done|congruence]|exists k2; by rewrite lookup_insert_ne].
Qed.

Lemma kmalloc_ok s size : inv s -> allocators_ok s -> 0 < size <= 4096 ->
  exists o s', kmalloc size s = Ret o s' /\ inv s' /\ allocators_ok s' /\
    ((o = 0 /\ forall d, live s' d = live s d) \/ exists c k, caches s !! c = Some k /\ size <= obj_size k /\ handed_out s c o s').
Proof.
  intros Hi [A1 A2] Hs. unfold kmalloc. rewrite (proj2 (Z.eqb_neq size 0)), (proj2 (Z.ltb_ge 4096 size)) by lia. rewrite bind_gets.
  destruct (find_allocator_ok size (kmalloc_allocators s) s) as (c & sz & E & Hin & Hle).
  { exists 4096. rewrite A1. split; [unfold kmalloc_sizes; set_solver|lia]. }
  rewrite (bind_Ret _ _ _ _ _ E). destruct (A2 c sz Hin) as (k & Hk & <-).
  destruct (kmem_cache_alloc_ok s c k Hi Hk) as (o & s' & E' & Hi' & Hcase). exists o, s'. split; [done|]. split; [done|].
  destruct Hcase as [(-> & _ & L & Hc & Ha)|H].
  - split; [|by left]. split; [by rewrite Ha|]. intros d sz. rewrite Ha, Hc. apply A2.
  - destruct H as (H1 & H2 & H3 & H4 & H5 & k1 & k2 & H6 & H7 & H8 & H9). split.
    + assert (k1 = k) as -> by congruence. apply (allocators_ok_update s s' c k k2); done.
    + right. exists c, k. split_and!; try done. split_and!; try done. by exists k1, k2.
Qed.

(** [kfree] finds the cache of an object. *)
Lemma kfree_cache s c k o : core s -> caches s !! c = Some k -> o ∈ live s c -> kfree o s = kmem_cache_free c o s.
Proof.
  intros C Hk Ho. destruct (co_cache _ C c k Hk) as (Hc0 & Hz & _).
  apply elem_of_live in Ho as (k2 & a & x & Hk2 & Ha & Hx & (i & Hi & Hn & ->)%elem_of_slab_live). assert (k2 = k) as -> by congruence.
  destruct (co_slab _ C c k a Hk Ha) as (x0 & Hx0 & Hs & _). assert (x0 = x) as -> by congruence.
  unfold kfree. rewrite (object_v2p s c _ a x i) by (done || lia). rewrite bind_gets, (object_page s c _ a x i C Hs ltac:(lia) Hi). simpl. by rewrite bind_kassert by lia.
Qed.

End operations.

(** ** The allocator of one cache is an [ObjAlloc] *)

Section interface.
Context {P : Type} `{!RunAlloc P}.

(** The allocator's state seen by the owner of the cache [cache]. *)
Record view := mkView { cache : Z; st : kmem P }.

#[global] Program Instance cache_alloc : ObjAlloc view := {|
  oalloc v := match kmem_cache_alloc (cache v) (st v) with
              | Ret o s => (if o =? 0 then None else Some o, mkView (cache v) s)
              | Halt _ s => (None, mkView (cache v) s)
              end;
  ofree o v := match kmem_cache_free (cache v) o (st v) with
               | Ret _ s => mkView (cache v) s
               | Halt _ s => mkView (cache v) s
               end;
  olive v := live (st v) (cache v);
  ook v := inv (st v) /\ is_Some (caches (st v) !! cache v);
|}.
Next Obligation.
  intros [c s] o v' [Hi [k Hk]]. simpl in *. destruct (kmem_cache_alloc_ok s c k Hi Hk) as (o' & s' & E & Hi' & Hcase). rewrite E.
  destruct Hcase as [(-> & _)|(H1 & H2 & H3 & _ & _ & k1 & k2 & _ & H7 & _)]; [done|]. rewrite (proj2 (Z.eqb_neq o' 0) H1).
  intros [= <- <-]. simpl. split_and!; try done. rewrite H7, lookup_insert_eq. eauto.
Qed.
Next Obligation.
  intros [c s] v' [Hi [k Hk]]. simpl in *. destruct (kmem_cache_alloc_ok s c k Hi Hk) as (o' & s' & E & Hi' & Hcase). rewrite E.
  destruct Hcase as [(-> & _ & L & Hc & _)|(H1 & _)]; [|by rewrite (proj2 (Z.eqb_neq o' 0) H1)].
  intros [= <-]. simpl. split_and!; try done. rewrite Hc, Hk. eauto.
Qed.
Next Obligation.
  intros [c s] o [Hi [k Hk]] Ho. simpl in *. destruct (kmem_cache_free_ok s c k o Hi Hk Ho) as (s' & E & Hi' & L & _ & _ & k1 & k2 & _ & H7 & _).
  rewrite E. simpl. split_and!; try done. rewrite H7, lookup_insert_eq. eauto.
Qed.

End interface.

(** ** Creating caches *)

Section creation.
Context {P : Type} `{!RunAlloc P} (allocator_cache : Z).
Implicit Types s : kmem P.

(** The static cache is not in a page that the page allocator hands out. *)
Hypothesis static : forall (p : P) a n, rok p -> rruns p !! a = Some n ->
  ~ (KMAP_BASE + a <= allocator_cache < KMAP_BASE + a + n * PG_SIZE).

(** Every cache is the static one or an object of it. *)
Definition sys_inv s : Prop :=
  inv s /\ (exists k, caches s !! allocator_cache = Some k /\ obj_size k = CACHE_SIZE) /\
  forall c, is_Some (caches s !! c) -> c = allocator_cache \/ c ∈ live s allocator_cache.

Lemma static_not_live s c : core s -> allocator_cache ∉ live s c.
Proof.
  intros C (k & a & x & Hk & Ha & Hx & (i & Hi & _ & E)%elem_of_slab_live)%elem_of_live. destruct (co_cache _ C c k Hk) as (_ & Hz & _).
  destruct (co_slab _ C c k a Hk Ha) as (x0 & Hx0 & Hs & _). assert (x0 = x) as -> by congruence.
  destruct (object_place s c _ a x i C Hs ltac:(lia) Hi) as (p & Hp & Hr & H1 & H2). apply (static (pmem s) p (n_pages x)); [apply C|done|].
  unfold SLAB_SIZE in *. lia.
Qed.

Lemma core_new_cache s c size : core s -> caches s !! c = None -> c <> 0 -> 0 < size <= 8192 ->
  core (set_caches (<[c := mkCache [] [] false size]> (caches s)) s) /\
  forall d, live (set_caches (<[c := mkCache [] [] false size]> (caches s)) s) d = live s d.
Proof.
  intros [C1 C2 C3] Hc Hc0 Hs. split; [split; simpl; [done| |]|].
  - intros d k [[<- <-]|[_ Hd]]%lookup_insert_Some; [|eauto]. simpl. split_and!; [done|lia|lia|apply NoDup_nil_2].
  - intros d k a [[<- <-]|[_ Hd]]%lookup_insert_Some Ha; [simpl in Ha; set_solver|].
    destruct (C3 d k a Hd Ha) as (x & Hx & Hsx & Hf). exists x. split; [done|]. split; [by destruct Hsx; split|done].
  - intros d. unfold live. simpl. destruct (decide (d = c)) as [->|]; [by rewrite lookup_insert_eq, Hc|by rewrite lookup_insert_ne].
Qed.

Lemma kmem_cache_create_ok s size : sys_inv s -> 0 < size <= 8192 ->
  exists c s', kmem_cache_create allocator_cache size s = Ret c s' /\ sys_inv s' /\ kmalloc_allocators s' = kmalloc_allocators s /\
    ((c = 0 /\ caches s' = caches s) \/
     (c <> 0 /\ caches s !! c = None /\ caches s' !! c = Some (mkCache [] [] false size) /\
      forall d k, caches s !! d = Some k -> exists k', caches s' !! d = Some k' /\ obj_size k' = obj_size k)).
Proof.
  intros (Hi & (k & Hk & Hsz) & Hall) Hs. unfold kmem_cache_create.
  destruct (kmem_cache_alloc_ok s allocator_cache k Hi Hk) as (c & s1 & E & Hi1 & Hcase). rewrite (bind_Ret _ _ _ _ _ E).
  destruct Hcase as [(-> & _ & L & Hc & Ha)|(Hc0 & Hnl & L & Lo & Ha & k1 & k2 & Hk1 & Hc & Hlk & Hsz2)].
  { simpl. exists 0, s1. split; [done|]. split; [|by auto]. split; [done|]. rewrite Hc, L. eauto. }
  rewrite (proj2 (Z.eqb_neq c 0) Hc0). assert (k1 = k) as -> by congruence.
  assert (Hca : c <> allocator_cache).
  { intros ->. apply (static_not_live s1 allocator_cache (proj1 Hi1)). rewrite L. set_solver. }
  assert (Hn : caches s !! c = None).
  { destruct (caches s !! c) eqn:Ec; [|done]. destruct (Hall c ltac:(eauto)); [done|]. done. }
  assert (Hn1 : caches s1 !! c = None) by (by rewrite Hc, lookup_insert_ne).
  destruct Hi1 as [C1 U1]. destruct (core_new_cache s1 c size C1 Hn1 Hc0 Hs) as [C2 L2].
  eexists c, _. split; [done|]. split; [|split; [exact Ha|]].
  - split; [split; [exact C2|]|split].
    + intros d kd. simpl. intros [[_ <-]|[_ Hd]]%lookup_insert_Some; [done|eauto].
    + exists k2. simpl. rewrite lookup_insert_ne, Hc, lookup_insert_eq by done. split; [done|congruence].
    + intros d. simpl. rewrite L2, L, lookup_insert_is_Some. intros [<-|[_ Hd]]; [set_solver|]. rewrite Hc in Hd.
      apply lookup_insert_is_Some in Hd as [<-|[_ Hd]]; [by left|]. destruct (Hall d Hd); [by left|set_solver].
  - right. simpl. split_and!; [done|done|apply lookup_insert_eq|]. intros d kd Hd. rewrite lookup_insert_ne by congruence. rewrite Hc.
    destruct (decide (d = allocator_cache)) as [->|]; [exists k2; rewrite lookup_insert_eq; split; [done|congruence]|].
    exists kd. by rewrite lookup_insert_ne.
Qed.

(** Every cache stays a cache of its size. *)
Definition grows s s' : Prop :=
  forall d k, caches s !! d = Some k -> exists k', caches s' !! d = Some k' /\ obj_size k' = obj_size k.

Lemma create_allocators_ok sizes : forall s, sys_inv s -> Forall (fun sz => 0 < sz <= 8192) sizes ->
  (exists s', create_allocators allocator_cache sizes s = Halt Panic s') \/
  exists l s', create_allocators allocator_cache sizes s = Ret l s' /\ sys_inv s' /\ grows s s' /\ map snd l = sizes /\
    forall c sz, (c, sz) ∈ l -> exists k, caches s' !! c = Some k /\ obj_size k = sz.
Proof.
  induction sizes as [|sz sizes IH]; intros s Hi Hs; cbn [create_allocators].
  { right. exists [], s. split_and!; try done; [intros d k; eauto|set_solver]. }
  apply Forall_cons in Hs as [Hsz Hs]. destruct (kmem_cache_create_ok s sz Hi Hsz) as (c & s1 & E & Hi1 & _ & Hcase).
  rewrite (bind_Ret _ _ _ _ _ E). destruct Hcase as [[-> _]|(Hc0 & _ & Hc & Hg)]; [left; by eexists|].
  rewrite (proj2 (Z.eqb_neq c 0) Hc0). destruct (IH s1 Hi1 Hs) as [[s' E']|(l & s' & E' & Hi' & Hg' & Hl & Hk)].
  - left. exists s'. unfold bind. by rewrite E'.
  - right. rewrite (bind_Ret _ _ _ _ _ E'). exists ((c, sz) :: l), s'. split_and!; try done.
    + intros d k Hd. destruct (Hg d k Hd) as (k1 & Hd1 & E1). destruct (Hg' d k1 Hd1) as (k2 & ? & E2). exists k2. split; [done|congruence].
    + simpl. by rewrite Hl.
    + intros d sz' [[= -> ->]|Hin]%elem_of_cons; [|by apply Hk]. destruct (Hg' _ _ Hc) as (k & ? & E2). eauto.
Qed.

(** [kmalloc_init] panics, or leaves all invariants. *)
Lemma kmalloc_init_ok s : caches s = ∅ -> rok (pmem s) -> allocator_cache <> 0 ->
  (exists s', kmalloc_init allocator_cache s = Halt Panic s') \/
  exists s', kmalloc_init allocator_cache s = Ret tt s' /\ sys_inv s' /\ allocators_ok s'.
Proof.
  intros Hc Hok H0. set (s1 := set_caches (<[allocator_cache := mkCache [] [] false CACHE_SIZE]> (caches s)) s).
  change (kmalloc_init allocator_cache s) with (bind (create_allocators allocator_cache kmalloc_sizes) (fun l => modify (set_allocators l)) s1).
  assert (C0 : core s) by (split; [done|..]; rewrite Hc; intros c k; by rewrite lookup_empty).
  destruct (core_new_cache s allocator_cache CACHE_SIZE C0) as [C1 _]; [by rewrite Hc|done|done|].
  assert (Hi : sys_inv s1).
  { split; [split; [exact C1|]|split].
    - intros c k. simpl. rewrite Hc. intros [[_ <-]|[_ Hd]]%lookup_insert_Some; [done|by rewrite lookup_empty in Hd].
    - eexists. split; [apply lookup_insert_eq|done].
    - intros c. simpl. rewrite Hc, lookup_insert_is_Some. intros [<-|[_ [? Hd]]]; [by left|by rewrite lookup_empty in Hd]. }
  destruct (create_allocators_ok kmalloc_sizes s1 Hi) as [[s' E]|(l & s' & E & Hi' & _ & Hl & Hk)].
  - unfold kmalloc_sizes. repeat (constructor; [lia|]). constructor.
  - left. exists s'. unfold bind. by rewrite E.
  - right. rewrite (bind_Ret _ _ _ _ _ E). eexists. split; [done|]. split; [|done]. destruct Hi' as ([C' U'] & ? & ?).
    split; [|done]. split; [|done]. destruct C' as [D1 D2 D3]. split; [done..|]. intros c k a Hcc Ha.
    destruct (D3 c k a Hcc Ha) as (x & ? & Hs & ?). exists x. split; [done|]. split; [by destruct Hs; split|done].
Qed.

End creation.

(** ** Properties *)

Section properties.
Context {P : Type} `{!RunAlloc P}.
Implicit Types s : kmem P.


(** [kmem_cache_free] of an object that is handed out finds its slab, returns
    and takes back exactly this object. *)
Theorem kmem_cache_free_correct s c k o :
  inv s -> caches s !! c = Some k -> o ∈ live s c ->
  exists s', kmem_cache_free c o s = Ret tt s' /\ inv s' /\ live s' c = live s c ∖ {[o]} /\
    forall d, d <> c -> live s' d = live s d.
Proof.
  intros Hi Hk Ho. destruct (kmem_cache_free_ok s c k o Hi Hk Ho) as (s' & E & Hi' & H1 & H2 & _). by exists s'.
Qed.

(** C18. An object of [kmalloc] is of a cache with objects of sufficient size, and
    [kfree] finds that cache and takes the object back. *)
Theorem kmalloc_kfree_roundtrip s size o s1 :
  inv s -> allocators_ok s -> 0 < size <= 4096 -> kmalloc size s = Ret o s1 -> o <> 0 ->
  (exists c k, caches s !! c = Some k /\ size <= obj_size k /\ live s1 c = {[o]} ∪ live s c) /\
  exists s2, kfree o s1 = Ret tt s2 /\ inv s2 /\ allocators_ok s2 /\ forall d, live s2 d = live s d.
Proof.
  intros Hi Ha Hs E Ho. destruct (kmalloc_ok s size Hi Ha Hs) as (o' & s1' & E' & Hi1 & Ha1 & Hcase).
  rewrite E in E'. injection E' as <- <-. destruct Hcase as [[-> _]|(c & k & Hk & Hsz & H)]; [done|].
  destruct H as (_ & H2 & H3 & H4 & _ & k1 & k2 & H6 & H7 & _ & H9). split; [by exists c, k|].
  assert (Hk2 : caches s1 !! c = Some k2) by (by rewrite H7, lookup_insert_eq).
  assert (Hin : o ∈ live s1 c) by (rewrite H3; set_solver). rewrite (kfree_cache s1 c k2 o (proj1 Hi1) Hk2 Hin).
  destruct (kmem_cache_free_ok s1 c k2 o Hi1 Hk2 Hin) as (s2 & E2 & Hi2 & G1 & G2 & G3 & k3 & k4 & G4 & G5 & _ & G6).
  exists s2. split_and!; try done; [by apply (allocators_ok_update s1 s2 c k3 k4)|]. intros d. destruct (decide (d = c)) as [->|].
  - rewrite G1, H3. clear -H2. set_solver.
  - by rewrite G2, H4.
Qed.

End properties.

(** *** Witnesses: the state after [kmalloc_init] with a megabyte of memory *)

Definition ex_static : Z := KMAP_BASE + 100.
Definition ex_boot : kmem BumpRuns.bruns := mkKmem ∅ ∅ ∅ (BumpRuns.mkBruns 65536 1114112 ∅) [].
Definition ex_kmem : kmem BumpRuns.bruns :=
  match kmalloc_init ex_static ex_boot with Ret _ s => s | Halt _ s => s end.

Lemma ex_static_ok (p : BumpRuns.bruns) a n : rok p -> rruns p !! a = Some n ->
  ~ (KMAP_BASE + a <= ex_static < KMAP_BASE + a + n * PG_SIZE).
Proof.
  intros Hp Ha. destruct (rok_run p a n Hp Ha) as (_ & Ha0 & [q Hq] & _). unfold ex_static, PG_SIZE in *. lia.
Qed.

Lemma ex_kmem_inv : sys_inv ex_static ex_kmem /\ allocators_ok ex_kmem.
Proof.
  destruct (kmalloc_init_ok ex_static ex_static_ok ex_boot) as [[s' E]|(s' & E & H)].
  - done.
  - split_and!; simpl; [lia|by exists 16|lia|unfold DEVMEM_BASE, KMAP_BASE; lia|done|done].
  - done.
  - exfalso. revert E. vm_compute. done.
  - unfold ex_kmem. rewrite E. exact H.
Qed.

(** The cache of 32-byte objects, and the state after one allocation from it. *)
Definition ex_cache32 : Z := fst (default (0, 0) (head (kmalloc_allocators ex_kmem))).
Definition ex_obj : Z := match kmem_cache_alloc ex_cache32 ex_kmem with Ret o _ => o | Halt _ _ => 0 end.
Definition ex_used : kmem BumpRuns.bruns := match kmem_cache_alloc ex_cache32 ex_kmem with Ret _ s => s | Halt _ s => s end.


Lemma ex_used_inv : inv ex_used.
Proof.
  destruct (kmem_cache_alloc_ok ex_kmem ex_cache32 (mkCache [] [] false 32) (proj1 (proj1 ex_kmem_inv))) as (o & s' & E & Hi & _);
    [vm_compute; done|]. unfold ex_used. rewrite E. exact Hi.
Qed.

Lemma kmem_cache_free_correct_witness :
  ex_obj <> 0 /\ exists s', kmem_cache_free ex_cache32 ex_obj ex_used = Ret tt s' /\ inv s' /\
    live s' ex_cache32 = live ex_used ex_cache32 ∖ {[ex_obj]} /\ forall d, d <> ex_cache32 -> live s' d = live ex_used d.
Proof.
  split; [vm_compute; done|].
  apply (kmem_cache_free_correct ex_used ex_cache32 (default (mkCache [] [] false 0) (caches ex_used !! ex_cache32)) ex_obj ex_used_inv).
  - vm_compute. done.
  - apply (bool_decide_unpack _). vm_compute. done.
Defined.

Lemma kmalloc_kfree_roundtrip_witness :
  exists o s1, kmalloc 100 ex_kmem = Ret o s1 /\
    (exists c k, caches ex_kmem !! c = Some k /\ 100 <= obj_size k /\ live s1 c = {[o]} ∪ live ex_kmem c) /\
    exists s2, kfree o s1 = Ret tt s2 /\ inv s2 /\ allocators_ok s2 /\ forall d, live s2 d = live ex_kmem d.
Proof.
  destruct (kmalloc 100 ex_kmem) as [o s1|w s1] eqn:E; [|exfalso; revert E; vm_compute; done].
  exists o, s1. split; [done|].
  apply (kmalloc_kfree_roundtrip ex_kmem 100 o s1 (proj1 (proj1 ex_kmem_inv)) (proj2 ex_kmem_inv) ltac:(lia) E).
  intros ->. revert E. vm_compute. done.
Defined.

End Kmalloc.
