(* ===== verification/Frames.v ===== *)
(** * Page frames: the buddy allocator as the frame allocator of its clients

    [pmem_alloc], [pmem_free], [pmem_inc_refcnt] and [pmem_dec_refcnt] of
    Pmem.v implement the interface [FrameAlloc] that the page tables, the block
    cache, the page caches and the start of processors are proved against. *)

From S2P Require Import Prelude Page Alloc Buddy Pmem.
Import Page.

Module Frames.
Import Pmem.Pmem.

(** The reference count of the frame at [a]: that of a single page that is
    handed out, except page 0. *)
Definition frefs (s : pmem) (a : Z) : Z :=
  let p := paddr_to_page a in
  if bool_decide (a = page_to_paddr p /\ p <> 0 /\ ord s p = 0) then refc s p else 0.

Definition frames_inv (s : pmem) : Prop := inv s /\ page_to_paddr (pagemap_end s) <= DEVMEM_BASE - KMAP_BASE.

Lemma page_of_paddr p : paddr_to_page (page_to_paddr p) = p.
Proof. unfold paddr_to_page, page_to_paddr, PG_SIZE. apply Z.div_mul. lia. Qed.

Lemma frefs_page s p : p <> 0 -> frefs s (page_to_paddr p) = if decide (ord s p = 0) then refc s p else 0.
Proof.
  intros Hp. unfold frefs. rewrite page_of_paddr. case_decide; [by rewrite bool_decide_eq_true_2|rewrite bool_decide_eq_false_2; naive_solver].
Qed.

Lemma frefs_pos s a : 0 < frefs s a -> exists p, a = page_to_paddr p /\ p <> 0 /\ allocated s p 0 /\ frefs s a = refc s p.
Proof.
  unfold frefs. case_bool_decide as E; [|lia]. destruct E as (E1 & E2 & E3). intros Hr. exists (paddr_to_page a). by split_and!.
Qed.

Lemma refc_nonneg s p : inv s -> 0 <= refc s p.
Proof. intros ([B I] & _). apply (Buddy.wf_ref _ _ _ _ _ _ (ia_wf _ _ _ I)). Qed.

(** A frame other than that of page [p] keeps its count. *)
Lemma frefs_others s s' p : inv s -> (forall q, q <> p -> refc s' q = refc s q) -> (forall q, q <> p -> 0 < refc s q -> ord s' q = ord s q) ->
  forall b, b <> page_to_paddr p -> frefs s' b = frefs s b.
Proof.
  intros Hi Hr Ho b Hb. unfold frefs. destruct (decide (b = page_to_paddr (paddr_to_page b))) as [E|E].
  2:{ rewrite !bool_decide_eq_false_2; naive_solver. }
  assert (Hne : paddr_to_page b <> p) by congruence. rewrite Hr by done. pose proof (refc_nonneg s (paddr_to_page b) Hi).
  destruct (decide (0 < refc s (paddr_to_page b))) as [Hpos|Hz]; [by rewrite (Ho _ Hne Hpos)|].
  assert (refc s (paddr_to_page b) = 0) as -> by lia. by repeat case_bool_decide.
Qed.

Lemma ord_others s s' (q : Z) : pagemap s' !! q = pagemap s !! q -> ord s' q = ord s q.
Proof. unfold ord. by intros ->. Qed.

#[global] Program Instance pmem_frames : FrameAlloc pmem := {|
  falloc := fun s => match pmem_alloc s with
                     | Ret (e, p) s' => Ret (if e =? ERR_OK then Some p else None) s'
                     | Halt w s' => Halt w s'
                     end;
  ffree := pmem_free;
  finc := pmem_inc_refcnt;
  fdec := pmem_dec_refcnt;
  fref := frefs;
  fok := frames_inv;
|}.
Next Obligation.
  intros s a [Hi Hlim] (p & -> & Hp & Ha & _)%frefs_pos. pose proof (allocated_bounds s p 0 Hi Ha) as Hb.
  unfold page_to_paddr, PG_SIZE in *. split; [lia|]. split; [by exists p|]. lia.
Qed.
Next Obligation.
  intros s [Hi Hlim]. destruct (nalloc_ok s 1 Hi ltac:(lia)) as [[E _]|(i & o & s1 & E & Hi1 & P)]; unfold pmem_alloc; rewrite E.
  - left. by exists s.
  - right. exists (page_to_paddr i), s1. pose proof (alloc_post_refc s 1 i o s1 Hi Hi1 P) as Hri.
    destruct (ap_align _ _ _ _ _ P) as [Hi0 _]. destruct (ap_block _ _ _ _ _ P) as [[Hb Ho] Hr1]. destruct (ap_end _ _ _ _ _ P) as [He _].
    assert (o = 0) as ->.
    { pose proof (allocated_bounds s1 i o Hi1 (conj Hb Ho)). destruct (ap_size _ _ _ _ _ P) as [_ [?|Hlt]]; [done|].
      destruct (decide (o < 1)) as [|]; [lia|]. pose proof (Z.pow_pos_nonneg 2 (o - 1)). lia. }
    split; [done|]. split; [split; [done|by rewrite He]|]. rewrite !frefs_page, (decide_True _ _ Ho) by lia.
    split; [by rewrite Hri; case_decide|]. split; [done|]. apply frefs_others; [done|apply (ap_refc _ _ _ _ _ P)|].
    intros q _ Hq. by apply ord_others, (ap_others _ _ _ _ _ P).
Qed.
Next Obligation.
  intros s a [Hi Hlim] (p & -> & Hp & Ha & _)%frefs_pos. destruct (nfree_ok s p 0 1 Hi Ha Hp ltac:(lia)) as (s' & E & Hi' & P).
  destruct (fp_refc _ _ _ _ P) as [H0 Hr]. destruct (fp_end _ _ _ _ P) as [He _]. exists s'. split; [done|]. split; [split; [done|by rewrite He]|].
  split; [rewrite frefs_page, H0 by done; by case_decide|]. apply frefs_others; [done|done|].
  intros q Hq Hq0. by apply ord_others, (fp_others _ _ _ _ P).
Qed.
Next Obligation.
  intros s a n [Hi Hlim] Ha Hn Hmax. apply frefs_pos in Ha as (p & -> & Hp & [Hr Ho] & Ef). rewrite Ef in *.
  pose proof Hi as ([B I] & Hin & Hl & H0). unfold refc, ord in Hr, Ho. destruct (pagemap s !! p) as [g|] eqn:Hg; [|done]. simpl in Hr, Ho.
  assert (Hrg : refc s p = refcnt g) by (unfold refc; by rewrite Hg). rewrite Hrg in *.
  unfold pmem_inc_refcnt. rewrite page_of_paddr, (bind_Ret _ _ _ _ _ (lock_acquire s Hl)).
  rewrite (get_page_Some p g), !bind_kassert by (done || lia). rewrite (swrap_small 32) by lia.
  rewrite (bind_Ret _ _ _ _ _ (upd_page_Some p g (set_lock true s) _ Hg)). eexists. split; [reflexivity|].
  set (s2 := set_lock false _). set (s1 := set_pagemap (<[p := set_refcnt (refcnt g + n) g]> (pagemap s)) s).
  assert (Hrc : forall q, refc s2 q = if decide (p = q) then refcnt g + n else refc s q).
  { intros q. change (refc s2 q) with (refc s1 q). unfold s1. by rewrite refc_insert, set_pagemap_id. }
  assert (Hor : forall q, ord s2 q = ord s q).
  { intros q. change (ord s2 q) with (ord s1 q). unfold s1. rewrite ord_insert, set_pagemap_id. case_decide as E; [subst; unfold ord; by rewrite Hg|done]. }
  split; [split|split].
  - split; [|split; [done|split; [done|rewrite Hrc; by rewrite decide_False]]].
    exists B. apply (set_lock_inv_at false), (recount_ok (set_lock true s)); [by apply set_lock_inv_at|done|lia|lia].
  - exact Hlim.
  - rewrite frefs_page, Hor, Hrc by done. rewrite (decide_True _ _ eq_refl). rewrite decide_True; [done|]. unfold ord. by rewrite Hg.
  - apply frefs_others; [done| |intros q _ _; apply Hor]. intros q Hq. rewrite Hrc. by rewrite decide_False.
Qed.
Next Obligation.
  intros s a [Hi Hlim] (p & -> & Hp & Ha & Ef)%frefs_pos. rewrite Ef.
  destruct (pmem_dec_refcnt_correct s p Hi Ha Hp) as (s' & E & Hi' & Hr & H1 & H2). exists s'. split; [done|].
  destruct Ha as [Hr0 Ho]. destruct (decide (refc s p = 1)) as [E1|Hne].
  - destruct (H1 E1) as [_ [F1 F2] F3 [F4 _]]. split; [split; [done|by rewrite F4]|].
    split; [rewrite frefs_page, F1 by done; case_decide; lia|]. apply frefs_others; [done|done|]. intros q Hq Hq0. by apply ord_others, F3.
  - destruct (H2 ltac:(lia)) as (K1 & K2 & K3). split; [split; [done|by rewrite K3]|].
    split; [rewrite frefs_page, K2, (decide_True _ _ Ho) by done; lia|].
    apply frefs_others; [done| |]; intros q Hq; [unfold refc; by rewrite K1|]. intros _. by apply ord_others, K1.
Qed.

(** A machine of two pages whose page 1 is handed out twice: its frames satisfy
    the invariant, and the frame of page 1 has its two references. *)
Lemma two_frames : fok (ex_pmem 2) /\ fref (ex_pmem 2) PG_SIZE = 2.
Proof. split; [split; [apply ex_inv; lia|done]|reflexivity]. Qed.

End Frames.
