(* ===== verification/Vm.v ===== *)
(** * Address spaces: kernel/mm/vm.c, include/kernel/vm.h

    An address space is an ordered list of memory regions.  This file models
    the operations on regions; [Shmms.v] adds the ones that involve shared
    memory (copying and destroying an address space).  The page tables are
    reached through the operations of the class [PageMap]. *)

From Stdlib Require Import Sorting.Sorted.
From S2P Require Import Prelude Page Alloc CList.
Local Open Scope kernel_scope.
Import Page.

(** What vm.c uses of the machine-dependent page tables
    (arch/x86_64/kernel/mm/vpmap.c); [V] is the state of all page tables. *)
Class PageMap (V : Type) := {
  vpmap_create : V -> option Z * V;
  vpmap_copy_kernel_mapping : Z -> V -> err_t * V;
  vpmap_destroy : Z -> V -> V;
  vpmap_unmap : Z -> Z -> Z -> bool -> V -> V;
  vpmap_set_perm : Z -> Z -> Z -> Z -> V -> V;
  vpmap_cow_copy : Z -> Z -> Z -> Z -> Z -> V -> err_t * V;
}.

Module Vm.

Definition ADDR_ANYWHERE : Z := 268435455. (* 0xfffffff *)
Definition ERR_VM_BOUND : err_t := 1.
Definition ERR_VM_INVALID : err_t := 2.
Definition ERR_VM_RESOURCE_UNAVAIL : err_t := 3.
Definition USTACK_UPPERBOUND : Z := 18446743524027166720. (* 0xFFFFFF7FFFFFF000 *)
Definition USTACK_PAGES : Z := 10.

(** [struct memregion], without the list node. *)
Record memregion := mkRegion {
  as_ : Z;
  start : Z;
  end_ : Z;
  perm : Z;
  shared : bool;
  store : Z;
  ofs : Z;
}.

(** [struct addrspace]: the regions in the order of the list; the lock is
    whether the running thread holds it. *)
Record addrspace := mkSpace {
  regions : list Z;
  vpmap : Z;
  as_lock : bool;
  heap : Z;
}.

Section model.
Context {A : Type} `{!ObjAlloc A} {V : Type} `{!PageMap V}.
(** The kernel's address space and the base of kernel memory. *)
Context (kas kvm_base : Z).

Record vm := mkVm {
  mrs : gmap Z memregion;
  spaces : gmap Z addrspace;
  mr_alloc : A;
  pts : V;
}.

Definition set_mrs (m : gmap Z memregion) (s : vm) : vm := mkVm m (spaces s) (mr_alloc s) (pts s).
Definition set_spaces (m : gmap Z addrspace) (s : vm) : vm := mkVm (mrs s) m (mr_alloc s) (pts s).
Definition set_pts (v : V) (s : vm) : vm := mkVm (mrs s) (spaces s) (mr_alloc s) v.

Definition get_mr (r : Z) : M vm memregion :=
  fun s => match mrs s !! r with Some m => Ret m s | None => Halt Fault s end.
Definition put_mr (r : Z) (m : memregion) : M vm unit := modify (fun s => set_mrs (<[r := m]> (mrs s)) s).
Definition get_as (a : Z) : M vm addrspace :=
  fun s => match spaces s !! a with Some x => Ret x s | None => Halt Fault s end.
Definition put_as (a : Z) (x : addrspace) : M vm unit := modify (fun s => set_spaces (<[a := x]> (spaces s)) s).

Definition set_regions (l : list Z) (x : addrspace) : addrspace := mkSpace l (vpmap x) (as_lock x) (heap x).
Definition set_as_lock (b : bool) (x : addrspace) : addrspace := mkSpace (regions x) (vpmap x) b (heap x).
Definition set_end (e : Z) (m : memregion) : memregion :=
  mkRegion (as_ m) (start m) e (perm m) (shared m) (store m) (ofs m).

Definition acquire (a : Z) : M vm unit :=
  x <- get_as a ;; if as_lock x then stop Panic else put_as a (set_as_lock true x).
Definition release (a : Z) : M vm unit :=
  x <- get_as a ;; put_as a (set_as_lock false x).

(** A loop over the regions of an address space, in list order. *)
Fixpoint find_region (p : memregion -> bool) (l : list Z) : M vm Z :=
  match l with
  | [] => ret 0
  | r :: l' => m <- get_mr r ;; if p m then ret r else find_region p l'
  end.

Definition as_init (a : Z) : M vm err_t :=
  fun s =>
    match vpmap_create (pts s) with
    | (None, v) => Ret ERR_VM_RESOURCE_UNAVAIL
                     (set_pts v (set_spaces (<[a := mkSpace [] 0 false 0]> (spaces s)) s))
    | (Some p, v) =>
        let '(e, v') := vpmap_copy_kernel_mapping p v in
        Ret e (set_pts v' (set_spaces (<[a := mkSpace [] p false 0]> (spaces s)) s))
    end.

Definition as_find_memregion (a addr size : Z) : M vm Z :=
  acquire a ;;
  x <- get_as a ;;
  r <- find_region (fun m => (start m <=? addr) && (u64 (addr + size) <=? pg_round_up (end_ m))) (regions x) ;;
  release a ;;
  ret r.

(** [size] is an [int]; [as_find_memregion] takes it as a [size_t].  The result
    is the error code and [*old_bound]. *)
Definition memregion_extend (region size : Z) : M vm (err_t * Z) :=
  if region =? 0 then ret (ERR_VM_BOUND, 0)
  else
    m <- get_mr region ;;
    if size =? 0 then ret (ERR_OK, end_ m)
    else if 0 <? size then
      mr <- as_find_memregion (as_ m) (end_ m) size ;;
      if negb (mr =? 0) && negb (mr =? region) then ret (ERR_VM_BOUND, 0)
      else put_mr region (set_end (u64 (end_ m + size)) m) ;; ret (ERR_OK, end_ m)
    else
      let bytes := s32 (end_ m - start m) in
      (if s32 (- size) <=? bytes then put_mr region (set_end (u64 (end_ m + size)) m) else ret tt) ;;
      ret (ERR_OK, end_ m).

Definition memregion_allocated (a start_ end__ : Z) : M vm bool :=
  kassert (start_ <=? end__) ;;
  x <- get_as a ;;
  kassert (as_lock x) ;;
  r <- find_region (fun m => (start_ <? end_ m) && (start m <? end__)) (regions x) ;;
  ret (negb (r =? 0)).

(** [memregion_comparator] of the regions at two addresses; greater is positive. *)
Definition memregion_comparator (h : gmap Z memregion) (p q : Z) : bool :=
  match h !! p, h !! q with
  | Some mp, Some mq => end_ mq <=? start mp
  | _, _ => false
  end.

(** The loop of [find_free_vaddr]. *)
Fixpoint free_vaddr_loop (l : list Z) (addr size : Z) : M vm (bool * Z) :=
  match l with
  | [] => ret (false, addr)
  | r :: l' =>
      m <- get_mr r ;;
      if pg_round_up (u64 (addr + size)) <? start m then ret (true, addr)
      else free_vaddr_loop l' (pg_round_up (end_ m)) size
  end.

(** [None] is a result other than [ERR_OK]; [USTACK_LOWERBOUND - size] is the
    macro's text with [size] subtracted. *)
Definition find_free_vaddr (a size : Z) : M vm (option Z) :=
  kassert (negb (a =? kas)) ;;
  x <- get_as a ;;
  kassert (as_lock x) ;;
  r <- free_vaddr_loop (regions x) 0 size ;;
  let '(found, addr) := r in
  if found then ret (Some addr)
  else if pg_round_up (u64 (addr + size)) <? u64 (USTACK_UPPERBOUND - USTACK_PAGES * PG_SIZE - size)
  then ret (Some addr) else ret None.

Definition memregion_unmap_internal (region : Z) : M vm unit :=
  m <- get_mr region ;;
  x <- get_as (as_ m) ;;
  kassert (as_lock x) ;;
  modify (fun s => set_pts (vpmap_unmap (vpmap x) (start m)
                              (pg_round_up (u64 (end_ m - start m)) `div` PG_SIZE) true (pts s)) s) ;;
  put_as (as_ m) (set_regions (filter (fun r => r <> region) (regions x)) x) ;;
  modify (fun s => mkVm (delete region (mrs s)) (spaces s) (ofree region (mr_alloc s)) (pts s)).

(** 0 is NULL. *)
Definition memregion_map_internal (a addr size perm_ store_ ofs_ : Z) (shared_ : bool) : M vm Z :=
  x <- get_as a ;;
  kassert (as_lock x) ;;
  oaddr <- (if addr =? ADDR_ANYWHERE then find_free_vaddr a size else ret (Some addr)) ;;
  match oaddr with
  | None => ret 0
  | Some addr =>
      kassert (pg_aligned addr) ;;
      kassert (addr <=? u64 (addr + pg_round_up size)) ;;
      if negb (a =? kas) && (is_kern_memperm perm_ || negb (is_user_addr kvm_base (u64 (addr + pg_round_up size - 1))))
      then ret 0
      else
        taken <- memregion_allocated a addr (u64 (addr + size)) ;;
        if (taken : bool) then ret 0
        else fun s =>
          match oalloc (mr_alloc s) with
          | (None, al) => Ret 0 (mkVm (mrs s) (spaces s) al (pts s))
          | (Some r, al) =>
              let h := <[r := mkRegion a addr (u64 (addr + size)) perm_ shared_ store_ ofs_]> (mrs s) in
              Ret r (mkVm h
                       (<[a := set_regions (CList.insert_ordered (memregion_comparator h) r (regions x)) x]> (spaces s))
                       al (pts s))
          end
  end.

Definition as_map_memregion (a addr size perm_ store_ ofs_ : Z) (shared_ : bool) : M vm Z :=
  acquire a ;;
  r <- memregion_map_internal a addr size perm_ store_ ofs_ shared_ ;;
  release a ;;
  ret r.

Definition memregion_unmap (region : Z) : M vm unit :=
  m <- get_mr region ;;
  acquire (as_ m) ;;
  memregion_unmap_internal region ;;
  release (as_ m).

Definition memregion_set_perm (region perm_ : Z) : M vm err_t :=
  m <- get_mr region ;;
  if is_kern_memperm perm_ && negb (as_ m =? kas) then ret ERR_VM_INVALID
  else
    acquire (as_ m) ;;
    x <- get_as (as_ m) ;;
    modify (fun s => set_pts (vpmap_set_perm (vpmap x) (start m)
                                (pg_round_up (u64 (end_ m - start m)) `div` PG_SIZE) perm_ (pts s)) s) ;;
    put_mr region (mkRegion (as_ m) (start m) (end_ m) perm_ (shared m) (store m) (ofs m)) ;;
    release (as_ m) ;;
    ret ERR_OK.

End model.
Arguments vm : clear implicits.

(** ** The layout of an address space *)

Definition before (m n : memregion) : Prop := end_ m <= start n.

(** The regions [l] of space [a] are the structures [ms], in address order and
    disjoint; every region starts on a page boundary. *)
Record layout (h : gmap Z memregion) (a : Z) (l : list Z) (ms : list memregion) : Prop := {
  ly_mem : Forall2 (fun r m => h !! r = Some m) l ms;
  ly_sorted : StronglySorted before ms;
  ly_region : Forall (fun m => as_ m = a /\ 0 <= start m <= end_ m /\ end_ m <= 2 ^ 64 - PG_SIZE /\ (PG_SIZE | start m)) ms;
  ly_nodup : NoDup l;
  ly_null : 0 ∉ l;
}.

(** [m] shares no address with the range from [lo] to [hi]. *)
Definition apart (lo hi : Z) (m : memregion) : Prop := hi <= start m \/ end_ m <= lo.

Lemma StronglySorted_app_2 {X} (R : X -> X -> Prop) l1 x l2 :
  StronglySorted R (l1 ++ l2) -> Forall (fun y => R y x) l1 -> Forall (R x) l2 ->
  StronglySorted R (l1 ++ x :: l2).
Proof.
  induction l1 as [|y l1 IH]; simpl; intros Hs H1 H2; [by constructor|].
  apply StronglySorted_inv in Hs as [Hs Hy]. apply Forall_cons in H1 as [Hyx H1].
  constructor; [by apply IH|]. apply Forall_app in Hy as [Hy1 Hy2]. apply Forall_app. split; [done|]. by constructor.
Qed.

Lemma StronglySorted_app_parts {X} (R : X -> X -> Prop) l1 x l2 :
  StronglySorted R (l1 ++ x :: l2) -> StronglySorted R (l1 ++ l2) /\ Forall (fun y => R y x) l1 /\ Forall (R x) l2.
Proof.
  induction l1 as [|y l1 IH]; simpl; intros [Hs Hy]%StronglySorted_inv; [done|].
  destruct (IH Hs) as (H1 & H2 & H3). apply Forall_app in Hy as [Hy1 [Hyx Hy2]%Forall_cons].
  split_and!; [|by constructor|done]. constructor; [done|]. by apply Forall_app.
Qed.

Section lemmas.
Context {A : Type} `{!ObjAlloc A} {V : Type} `{!PageMap V}.
Implicit Types s : vm A V.

Lemma find_region_spec p s l ms : Forall2 (fun r m => mrs s !! r = Some m) l ms -> 0 ∉ l ->
  (find_region p l s = Ret 0 s /\ Forall (fun m => p m = false) ms) \/
  (exists l1 r l2 ms1 m ms2, l = l1 ++ r :: l2 /\ ms = ms1 ++ m :: ms2 /\ mrs s !! r = Some m /\ p m = true /\
     r <> 0 /\ Forall (fun m => p m = false) ms1 /\ find_region p l s = Ret r s).
Proof.
  induction 1 as [|r m l ms Hr H IH]; intros H0; simpl; [by left|].
  apply not_elem_of_cons in H0 as [Hr0 H0]. unfold bind, get_mr. rewrite Hr. destruct (p m) eqn:Ep.
  - right. exists [], r, l, [], m, ms. split_and!; done || constructor.
  - destruct (IH H0) as [[E HF]|(l1 & r' & l2 & ms1 & m' & ms2 & -> & -> & Hm' & Hp & Hn & HF & E)].
    + left. split; [done|]. by constructor.
    + right. exists (r :: l1), r', l2, (m :: ms1), m', ms2. split_and!; try done. by constructor.
Qed.

(** Inserting a region that is apart from all others keeps the order. *)
Lemma insert_ordered_layout h a l ms r m :
  layout h a l ms -> h !! r = None -> r <> 0 ->
  as_ m = a -> 0 <= start m <= end_ m -> end_ m <= 2 ^ 64 - PG_SIZE -> (PG_SIZE | start m) ->
  Forall (apart (start m) (end_ m)) ms ->
  let h' := <[r := m]> h in
  exists l1 l2 ms1 ms2, l = l1 ++ l2 /\ ms = ms1 ++ ms2 /\
    CList.insert_ordered (memregion_comparator h') r l = l1 ++ r :: l2 /\
    layout h' a (l1 ++ r :: l2) (ms1 ++ m :: ms2).
Proof.
  intros [Hm Hs Hr Hnd H0] Hfresh Hr0 Ha Hse He Hal Hap h'.
  assert (Hnr : r ∉ l).
  { intros Hin. apply list_elem_of_lookup in Hin as [i Hi]. destruct (Forall2_lookup_l _ _ _ _ _ Hm Hi) as (? & ? & ?). congruence. }
  assert (Hm' : Forall2 (fun r m => h' !! r = Some m) l ms).
  { apply Forall2_same_length_lookup. split; [by eapply Forall2_length|]. intros i q n Hq Hn.
    unfold h'. rewrite lookup_insert_ne; [by eapply (Forall2_lookup_lr _ _ _ _ _ _ Hm)|].
    intros <-. apply Hnr. by eapply list_elem_of_lookup_2. }
  assert (Hsplit : exists l1 l2 ms1 ms2, l = l1 ++ l2 /\ ms = ms1 ++ ms2 /\
    CList.insert_ordered (memregion_comparator h') r l = l1 ++ r :: l2 /\
    Forall2 (fun r m => h' !! r = Some m) l1 ms1 /\ Forall2 (fun r m => h' !! r = Some m) l2 ms2 /\
    Forall (fun n => before n m) ms1 /\ Forall (before m) ms2).
  { clear Hm Hnd H0 Hnr. induction Hm' as [|q n l ms Hq Hm' IH].
    - exists [], [], [], []. split_and!; done || constructor.
    - apply StronglySorted_inv in Hs as [Hs Hns]. apply Forall_cons in Hap as [Hn Hap]. apply Forall_cons in Hr as [(_ & Hnse & _) Hr].
      simpl. unfold memregion_comparator at 1. rewrite Hq. unfold h' at 1. rewrite lookup_insert_eq.
      destruct (Z.leb_spec (end_ m) (start n)) as [Hle|Hgt].
      + exists [], (q :: l), [], (n :: ms). split_and!; [done|done|done|constructor|by constructor|constructor|].
        constructor; [done|]. eapply Forall_impl; [exact Hns|]. intros n' Hn'. unfold before in *. lia.
      + destruct (IH Hs Hr Hap) as (l1 & l2 & ms1 & ms2 & -> & -> & E & H1 & H2 & H3 & H4).
        exists (q :: l1), l2, (n :: ms1), ms2. rewrite E. split_and!; [done|done|done|by constructor|done| |done].
        constructor; [|done]. unfold before, apart in *. lia. }
  destruct Hsplit as (l1 & l2 & ms1 & ms2 & -> & -> & E & H1 & H2 & H3 & H4).
  exists l1, l2, ms1, ms2. split_and!; try done. split.
  - apply Forall2_app; [done|]. constructor; [unfold h'; apply lookup_insert_eq|done].
  - by apply StronglySorted_app_2.
  - apply Forall_app in Hr as [? ?]. apply Forall_app. split; [done|]. by constructor.
  - rewrite <- Permutation_middle. by apply NoDup_cons.
  - rewrite elem_of_app, elem_of_cons in *. naive_solver.
Qed.

(** The address [find_free_vaddr] stops at is clear of every region. *)
Lemma free_vaddr_loop_ok size s l ms : Forall2 (fun r m => mrs s !! r = Some m) l ms ->
  forall addr, StronglySorted before ms ->
  Forall (fun m => 0 <= start m <= end_ m /\ (PG_SIZE | start m) /\ end_ m + size + 2 * PG_SIZE <= 2 ^ 64) ms ->
  0 <= size -> 0 <= addr -> (PG_SIZE | addr) -> addr + size + PG_SIZE <= 2 ^ 64 -> Forall (fun m => addr <= start m) ms ->
  exists found lo, free_vaddr_loop l addr size s = Ret (found, lo) s /\ addr <= lo /\ (PG_SIZE | lo) /\
    lo + size + PG_SIZE <= 2 ^ 64 /\ Forall (apart lo (lo + size)) ms.
Proof.
  induction 1 as [|r m l ms Hr H IH]; intros addr Hs Hreg Hsz Ha Hal Hb Hge; cbn [free_vaddr_loop].
  { exists false, addr. split_and!; done || constructor. }
  unfold bind, get_mr. rewrite Hr. apply StronglySorted_inv in Hs as [Hs Hm].
  apply Forall_cons in Hreg as [(Hse & Hsal & Hbm) Hreg]. apply Forall_cons in Hge as [Hge Hges]. unfold PG_SIZE in *.
  rewrite wrap_small by lia. destruct (pg_round_up_spec (addr + size)) as [_ [Hup _]]; [unfold PG_SIZE; lia|].
  destruct (Z.ltb_spec (pg_round_up (addr + size)) (start m)) as [Hlt|Hle].
  - exists true, addr. split_and!; try done. constructor; [left; lia|].
    eapply Forall_impl; [exact Hm|]. unfold before, apart. intros n Hn. left. lia.
  - destruct (pg_round_up_spec (end_ m)) as [Hral [Hr1 Hr2]]; [unfold PG_SIZE; lia|]. unfold PG_SIZE in *.
    destruct (IH (pg_round_up (end_ m)) Hs Hreg Hsz) as (found & lo & E & Hlo & Hloal & Hlob & Hap); [lia|done|lia| |].
    + apply Forall_forall. intros n Hn. rewrite Forall_forall in Hreg, Hm.
      destruct (Hreg n Hn) as (_ & Hnal & _). pose proof (Hm n Hn) as Hbn. unfold before in Hbn.
      apply pg_round_up_least; [unfold PG_SIZE; lia|done|done].
    + exists found, lo. split_and!; try done; [lia|]. constructor; [right; lia|done].
Qed.

(** Taking and giving back the lock of a space. *)
Definition with_lock (a : Z) (x : addrspace) (s : vm A V) : vm A V :=
  set_spaces (<[a := set_as_lock true x]> (spaces s)) s.

Lemma get_mr_Some {B} r m s (f : memregion -> M (vm A V) B) : mrs s !! r = Some m -> bind (get_mr r) f s = f m s.
Proof. intros H. apply bind_Ret. unfold get_mr. by rewrite H. Qed.

Lemma get_as_Some {B} a x s (f : addrspace -> M (vm A V) B) : spaces s !! a = Some x -> bind (get_as a) f s = f x s.
Proof. intros H. apply bind_Ret. unfold get_as. by rewrite H. Qed.

Lemma acquire_ok a x s : spaces s !! a = Some x -> as_lock x = false -> acquire a s = Ret tt (with_lock a x s).
Proof. intros H Hl. unfold acquire. rewrite (get_as_Some a x) by done. by rewrite Hl. Qed.

Lemma release_ok a x s : spaces s !! a = Some x ->
  release a s = Ret tt (set_spaces (<[a := set_as_lock false x]> (spaces s)) s).
Proof. intros H. unfold release. by rewrite (get_as_Some a x). Qed.

Lemma unlock_with_lock a x s : spaces s !! a = Some x -> as_lock x = false ->
  set_spaces (<[a := set_as_lock false (set_as_lock true x)]> (spaces (with_lock a x s))) (with_lock a x s) = s.
Proof.
  intros H Hl. unfold with_lock, set_spaces; simpl. rewrite insert_insert_eq.
  replace (set_as_lock false (set_as_lock true x)) with x by (destruct x; simpl in *; by subst).
  rewrite insert_id by done. by destruct s.
Qed.

(** [memregion_allocated] decides whether a range is apart from all regions. *)
Lemma memregion_allocated_ok a x s ms lo hi :
  spaces s !! a = Some x -> as_lock x = true -> layout (mrs s) a (regions x) ms -> lo <= hi ->
  exists b, memregion_allocated a lo hi s = Ret b s /\ (b = false <-> Forall (apart lo hi) ms).
Proof.
  intros Hx Hl L Hlh. unfold memregion_allocated. rewrite bind_kassert by lia. rewrite (get_as_Some a x) by done.
  rewrite bind_kassert by done. set (p := fun m => (lo <? end_ m) && (start m <? hi)).
  assert (Hp : forall m, p m = false <-> apart lo hi m) by (intros m; unfold p, apart; lia).
  destruct (find_region_spec p s _ _ (ly_mem _ _ _ _ L) (ly_null _ _ _ _ L)) as [[E HF]|
    (l1 & r & l2 & ms1 & m & ms2 & El & -> & Hm & Hpm & Hr & HF & E)]; rewrite (bind_Ret _ _ _ _ _ E).
  - exists false. split; [done|]. split; [intros _|done]. eapply Forall_impl; [exact HF|]. intros m. by rewrite Hp.
  - exists true. split; [unfold ret; f_equal; lia|]. split; [done|]. intros Ha. apply Forall_app in Ha as [_ [Ha _]%Forall_cons].
    apply Hp in Ha. congruence.
Qed.

Section mapping.
Context (kas kvm_base a addr size perm_ store_ ofs_ : Z) (shared_ : bool).

(** The arguments of a call to map a region of [size] bytes: any address in a
    user space, or a given page-aligned one. *)
Definition args_ok (ms : list memregion) : Prop :=
  0 <= size /\
  if addr =? ADDR_ANYWHERE
  then a <> kas /\ size + 2 * PG_SIZE <= 2 ^ 64 /\ Forall (fun m => end_ m + size + 2 * PG_SIZE <= 2 ^ 64) ms
  else 0 <= addr /\ (PG_SIZE | addr) /\ addr + size + PG_SIZE <= 2 ^ 64.

(** The new region may not be placed at [lo]: a user space does not take kernel
    permissions or kernel addresses. *)
Definition refused (lo : Z) : bool :=
  negb (a =? kas) && (is_kern_memperm perm_ || negb (is_user_addr kvm_base (u64 (lo + pg_round_up size - 1)))).

(** A region of [size] bytes at [lo] was added to the space [x]. *)
Definition mapped_at (s : vm A V) (x : addrspace) (ms : list memregion) (r lo : Z) (s' : vm A V) : Prop :=
  let m := mkRegion a lo (lo + size) perm_ shared_ store_ ofs_ in
  r <> 0 /\ mrs s !! r = None /\ (addr <> ADDR_ANYWHERE -> lo = addr) /\ refused lo = false /\
  Forall (apart lo (lo + size)) ms /\ mrs s' = <[r := m]> (mrs s) /\ pts s' = pts s /\
  ook (mr_alloc s') /\ olive (mr_alloc s') = {[r]} ∪ olive (mr_alloc s) /\
  exists l1 l2 ms1 ms2, regions x = l1 ++ l2 /\ ms = ms1 ++ ms2 /\
    spaces s' = <[a := set_regions (l1 ++ r :: l2) x]> (spaces s) /\
    layout (mrs s') a (l1 ++ r :: l2) (ms1 ++ m :: ms2).

(** Nothing was mapped, and why. *)
Definition not_mapped (s : vm A V) (ms : list memregion) (s' : vm A V) : Prop :=
  mrs s' = mrs s /\ spaces s' = spaces s /\ pts s' = pts s /\
  ook (mr_alloc s') /\ olive (mr_alloc s') = olive (mr_alloc s) /\
  ((addr = ADDR_ANYWHERE /\ find_free_vaddr kas a size s = Ret None s) \/
   exists lo, (addr <> ADDR_ANYWHERE -> lo = addr) /\
     (refused lo = true \/ ~ Forall (apart lo (lo + size)) ms \/ fst (oalloc (mr_alloc s)) = None)).

Lemma find_free_vaddr_ok s x ms :
  spaces s !! a = Some x -> as_lock x = true -> layout (mrs s) a (regions x) ms ->
  args_ok ms -> addr = ADDR_ANYWHERE ->
  find_free_vaddr kas a size s = Ret None s \/
  exists lo, find_free_vaddr kas a size s = Ret (Some lo) s /\ 0 <= lo /\ (PG_SIZE | lo) /\ lo + size + PG_SIZE <= 2 ^ 64 /\
    Forall (apart lo (lo + size)) ms.
Proof.
  intros Hx Hl L [Hsz Harg] Hany. rewrite (proj2 (Z.eqb_eq _ _) Hany) in Harg. destruct Harg as (Hk & Hb & Hends).
  unfold find_free_vaddr. rewrite bind_kassert by lia. rewrite (get_as_Some a x), bind_kassert by done.
  destruct L as [Lm Ls Lr _ _].
  destruct (free_vaddr_loop_ok size s (regions x) ms Lm 0 Ls) as (found & lo & E & H1 & H2 & H3 & H4);
    [|done|lia|by exists 0|unfold PG_SIZE in *; lia| |].
  - apply Forall_forall. intros m Hm. rewrite Forall_forall in Lr, Hends. destruct (Lr m Hm) as (_ & ? & _ & ?).
    split_and!; [lia|lia|done|by apply Hends].
  - eapply Forall_impl; [exact Lr|]. intros m. simpl. lia.
  - rewrite (bind_Ret _ _ _ _ _ E). destruct found; [|case_match]; [right|right|by left]; exists lo; split_and!; done.
Qed.

Lemma map_at_ok s x ms lo :
  spaces s !! a = Some x -> as_lock x = true -> layout (mrs s) a (regions x) ms ->
  ook (mr_alloc s) -> (forall r, is_Some (mrs s !! r) -> r ∈ olive (mr_alloc s)) ->
  0 <= size -> 0 <= lo -> (PG_SIZE | lo) -> lo + size + PG_SIZE <= 2 ^ 64 -> (addr <> ADDR_ANYWHERE -> lo = addr) ->
  exists r s',
    (kassert (pg_aligned lo) ;;
     kassert (lo <=? u64 (lo + pg_round_up size)) ;;
     if refused lo then ret 0
     else
       taken <- memregion_allocated a lo (u64 (lo + size)) ;;
       if (taken : bool) then ret 0
       else fun s =>
         match oalloc (mr_alloc s) with
         | (None, al) => Ret 0 (mkVm (mrs s) (spaces s) al (pts s))
         | (Some r, al) =>
             let h := <[r := mkRegion a lo (u64 (lo + size)) perm_ shared_ store_ ofs_]> (mrs s) in
             Ret r (mkVm h
                      (<[a := set_regions (CList.insert_ordered (memregion_comparator h) r (regions x)) x]> (spaces s))
                      al (pts s))
         end) s = Ret r s' /\
    ((r = 0 /\ not_mapped s ms s') \/ mapped_at s x ms r lo s').
Proof.
  intros Hx Hl L Hook Hlive Hsz Hlo Hal Hb Hsame.
  rewrite bind_kassert by (by apply pg_aligned_spec).
  destruct (pg_round_up_spec size) as [_ [Hu1 Hu2]]; [unfold PG_SIZE in *; lia|].
  rewrite bind_kassert by (rewrite wrap_small by (unfold PG_SIZE in *; lia); lia).
  destruct (refused lo) eqn:Href.
  { exists 0, s. split; [done|]. left. split; [done|]. split_and!; try done. right. exists lo. by auto. }
  rewrite (wrap_small 64 (lo + size)) by (unfold PG_SIZE in *; lia).
  destruct (memregion_allocated_ok a x s ms lo (lo + size) Hx Hl L ltac:(lia)) as (b & E & Hap).
  rewrite (bind_Ret _ _ _ _ _ E). destruct b.
  { exists 0, s. split; [done|]. left. split; [done|]. split_and!; try done. right. exists lo. split; [done|].
    right; left. intros Hn. by apply Hap in Hn. }
  pose proof (proj1 Hap eq_refl) as Hapart. destruct (oalloc (mr_alloc s)) as [[r|] al] eqn:Ea.
  - destruct (oalloc_Some _ _ _ Hook Ea) as (Hook' & Hr0 & Hrl & Hlv).
    assert (Hnone : mrs s !! r = None) by (destruct (mrs s !! r) eqn:Em; [destruct Hrl; eauto|done]).
    destruct (insert_ordered_layout (mrs s) a (regions x) ms r (mkRegion a lo (lo + size) perm_ shared_ store_ ofs_) L
      Hnone Hr0 eq_refl) as (l1 & l2 & ms1 & ms2 & El & Ems & Ei & L'); [simpl; unfold PG_SIZE in *; lia..|done|done|].
    do 2 eexists. split; [done|]. right. split_and!; try done. exists l1, l2, ms1, ms2. simpl. by rewrite Ei.
  - destruct (oalloc_None _ _ Hook Ea) as (Hook' & Hlv). do 2 eexists. split; [done|]. left. split; [done|].
    split_and!; try done. right. exists lo. split; [done|]. right; right. by rewrite Ea.
Qed.

Lemma map_internal_ok s x ms :
  spaces s !! a = Some x -> as_lock x = true -> layout (mrs s) a (regions x) ms ->
  ook (mr_alloc s) -> (forall r, is_Some (mrs s !! r) -> r ∈ olive (mr_alloc s)) -> args_ok ms ->
  exists r s', memregion_map_internal kas kvm_base a addr size perm_ store_ ofs_ shared_ s = Ret r s' /\
    ((r = 0 /\ not_mapped s ms s') \/ exists lo, mapped_at s x ms r lo s').
Proof.
  intros Hx Hl L Hook Hlive Harg. pose proof Harg as [Hsz Harg']. unfold memregion_map_internal.
  rewrite (get_as_Some a x), bind_kassert by done.
  destruct (Z.eqb_spec addr ADDR_ANYWHERE) as [Hany|Hany].
  - destruct (find_free_vaddr_ok s x ms Hx Hl L Harg Hany) as [E|(lo & E & H1 & H2 & H3 & _)]; rewrite (bind_Ret _ _ _ _ _ E).
    + exists 0, s. split; [done|]. left. split; [done|]. split_and!; try done. by left.
    + destruct (map_at_ok s x ms lo Hx Hl L Hook Hlive Hsz H1 H2 H3 ltac:(done)) as (r & s' & E' & Hr).
      exists r, s'. split; [exact E'|]. destruct Hr; eauto.
  - rewrite bind_ret. destruct Harg' as (H1 & H2 & H3).
    destruct (map_at_ok s x ms addr Hx Hl L Hook Hlive Hsz H1 H2 H3 ltac:(done)) as (r & s' & E' & Hr).
    exists r, s'. split; [exact E'|]. destruct Hr; eauto.
Qed.

End mapping.

End lemmas.

(** ** The invariant of the region structures *)

Section invariant.
Context {A : Type} `{!ObjAlloc A} {V : Type} `{!PageMap V}.
Implicit Types s : vm A V.

(** Between two calls: no lock is held, every address space is a list of
    disjoint ordered regions, and every region structure is allocated and in
    the list of its space. *)
Record vm_ok s : Prop := {
  vo_alloc : ook (mr_alloc s);
  vo_live : forall r, is_Some (mrs s !! r) -> r ∈ olive (mr_alloc s);
  vo_space : forall a x, spaces s !! a = Some x -> as_lock x = false /\ exists ms, layout (mrs s) a (regions x) ms;
  vo_owner : forall r m, mrs s !! r = Some m -> exists x, spaces s !! as_ m = Some x /\ r ∈ regions x;
}.

Lemma layout_ext h h' a l ms : layout h a l ms -> (forall r, r ∈ l -> h' !! r = h !! r) -> layout h' a l ms.
Proof.
  intros [L1 L2 L3 L4 L5] H. split; try done. apply Forall2_same_length_lookup. split; [by eapply Forall2_length|].
  intros i q n Hq Hn. rewrite H by (by eapply list_elem_of_lookup_2). by eapply (Forall2_lookup_lr _ _ _ _ _ _ L1).
Qed.

(** A pointer in the list of a space is a region of that space. *)
Lemma layout_elem h a l ms r : layout h a l ms -> r ∈ l -> exists m, h !! r = Some m /\ as_ m = a /\ m ∈ ms.
Proof.
  intros [L1 _ L3 _ _] Hr. apply list_elem_of_lookup in Hr as [i Hi].
  destruct (Forall2_lookup_l _ _ _ _ _ L1 Hi) as (m & Hm & Hh). exists m.
  assert (m ∈ ms) by (by eapply list_elem_of_lookup_2). split_and!; try done.
  rewrite Forall_forall in L3. by apply L3.
Qed.

Lemma vm_ok_unchanged s s' : vm_ok s -> mrs s' = mrs s -> spaces s' = spaces s -> ook (mr_alloc s') ->
  olive (mr_alloc s') = olive (mr_alloc s) -> vm_ok s'.
Proof. intros [V1 V2 V3 V4] Hm Hs Ho Hl. split; rewrite ?Hm, ?Hs, ?Hl; done. Qed.

Lemma vm_ok_add s s' a x r m l1 l2 ms' :
  vm_ok s -> spaces s !! a = Some x -> regions x = l1 ++ l2 -> mrs s !! r = None -> as_ m = a ->
  mrs s' = <[r := m]> (mrs s) -> spaces s' = <[a := set_regions (l1 ++ r :: l2) x]> (spaces s) ->
  ook (mr_alloc s') -> olive (mr_alloc s') = {[r]} ∪ olive (mr_alloc s) ->
  layout (mrs s') a (l1 ++ r :: l2) ms' -> vm_ok s'.
Proof.
  intros [V1 V2 V3 V4] Hx Hreg Hr Ha Hm Hs Ho Hl L. split; [done| | |].
  - intros q. rewrite Hm, Hl, lookup_insert_is_Some. intros [<-|[_ Hq]]; [set_solver|]. apply elem_of_union_r. auto.
  - intros b y. rewrite Hs, lookup_insert_Some. intros [[<- <-]|[Hne Hb]].
    + split; [by apply (V3 a x)|eauto].
    + destruct (V3 b y Hb) as [Hlk [ms Lb]]. split; [done|]. exists ms. eapply layout_ext; [done|]. intros q Hq.
      rewrite Hm. apply lookup_insert_ne. intros <-. destruct (layout_elem _ _ _ _ _ Lb Hq) as (? & ? & _). congruence.
  - intros q n. rewrite Hm, Hs, lookup_insert_Some. intros [[<- <-]|[Hne Hq]].
    + exists (set_regions (l1 ++ r :: l2) x). rewrite Ha, lookup_insert_eq. split; [done|]. simpl. set_solver.
    + destruct (V4 q n Hq) as (y & Hy & Hin). destruct (decide (as_ n = a)) as [Ea|].
      * exists (set_regions (l1 ++ r :: l2) x). rewrite Ea, lookup_insert_eq. split; [done|]. simpl.
        assert (y = x) as -> by congruence. rewrite Hreg in Hin. set_solver.
      * exists y. by rewrite lookup_insert_ne.
Qed.

(** Dropping one element of a list leaves the filtered list. *)
Lemma filter_drop (l1 l2 : list Z) r : NoDup (l1 ++ r :: l2) -> filter (fun q => q <> r) (l1 ++ r :: l2) = l1 ++ l2.
Proof.
  intros (Hnd1 & Hd & Hnd2)%NoDup_app. apply NoDup_cons in Hnd2 as [Hr Hnd2].
  rewrite filter_app, filter_cons_False by (intros ?; done). rewrite !filter_ne_id; [done|done|]. intros Hin. apply (Hd r Hin). set_solver.
Qed.

Lemma layout_split h a l ms r : layout h a l ms -> r ∈ l ->
  exists l1 l2 ms1 m ms2, l = l1 ++ r :: l2 /\ ms = ms1 ++ m :: ms2 /\ h !! r = Some m /\ as_ m = a /\
    layout (delete r h) a (l1 ++ l2) (ms1 ++ ms2) /\ filter (fun q => q <> r) l = l1 ++ l2.
Proof.
  intros [L1 L2 L3 L4 L5] Hr. apply list_elem_of_split in Hr as (l1 & l2 & ->).
  apply Forall2_app_inv_l in L1 as (ms1 & ms' & H1 & H2 & ->). apply Forall2_cons_inv_l in H2 as (m & ms2 & Hm & H2 & ->).
  exists l1, l2, ms1, m, ms2. apply Forall_app in L3 as [L3 [Lm L3']%Forall_cons].
  destruct (StronglySorted_app_parts _ _ _ _ L2) as (Hs & _ & _).
  split_and!; try done; [by apply Lm| |by apply filter_drop].
  apply (layout_ext h); [split; [by apply Forall2_app|done|by apply Forall_app| |set_solver]|].
  - rewrite <- Permutation_middle in L4. by apply NoDup_cons in L4 as [_ ?].
  - intros q Hq. apply lookup_delete_ne. intros <-. rewrite <- Permutation_middle in L4. apply NoDup_cons in L4 as [Hn _].
    by destruct Hn.
Qed.

(** An address is in one region of a space at most. *)
Lemma region_unique s r1 r2 m1 m2 v :
  vm_ok s -> mrs s !! r1 = Some m1 -> mrs s !! r2 = Some m2 -> as_ m1 = as_ m2 ->
  start m1 <= v < end_ m1 -> start m2 <= v < end_ m2 -> r1 = r2.
Proof.
  intros Hok H1 H2 Ha Hv1 Hv2. destruct (decide (r1 = r2)) as [|Hne]; [done|exfalso].
  destruct (vo_owner s Hok r1 m1 H1) as (x & Hx & Hin1). destruct (vo_owner s Hok r2 m2 H2) as (x2 & Hx2 & Hin2).
  rewrite <- Ha in Hx2. assert (x2 = x) as -> by congruence. destruct (vo_space s Hok _ x Hx) as [_ [ms L]].
  destruct (layout_split _ _ _ _ _ L Hin1) as (l1 & l2 & ms1 & m' & ms2 & El & Ems & Hm' & _ & L' & _).
  assert (m' = m1) as -> by congruence. rewrite El in Hin2.
  destruct (layout_elem _ _ _ _ r2 L' ltac:(set_solver)) as (m & Hm & _ & Hin).
  rewrite lookup_delete_ne in Hm by done. assert (m = m2) as -> by congruence.
  pose proof (ly_sorted _ _ _ _ L) as Hs. rewrite Ems in Hs. apply StronglySorted_app_parts in Hs as (_ & Hb1 & Hb2).
  rewrite Forall_forall in Hb1, Hb2. unfold before in *.
  apply elem_of_app in Hin as [Hin%Hb1|Hin%Hb2]; lia.
Qed.

Lemma vm_ok_del s s' a x r m l1 l2 ms' :
  vm_ok s -> spaces s !! a = Some x -> regions x = l1 ++ r :: l2 -> mrs s !! r = Some m -> as_ m = a ->
  mrs s' = delete r (mrs s) -> spaces s' = <[a := set_regions (l1 ++ l2) x]> (spaces s) ->
  mr_alloc s' = ofree r (mr_alloc s) -> layout (mrs s') a (l1 ++ l2) ms' -> vm_ok s'.
Proof.
  intros [V1 V2 V3 V4] Hx Hreg Hr Ha Hm Hs Hal L. destruct (ofree_live _ r V1 (V2 r ltac:(eauto))) as [Ho Hl].
  split; [by rewrite Hal| | |].
  - intros q. rewrite Hm, Hal, Hl. intros [n [Hne Hn]%lookup_delete_Some]. apply elem_of_difference.
    split; [eauto|]. set_solver.
  - intros b y. rewrite Hs, lookup_insert_Some. intros [[<- <-]|[Hne Hb]].
    + split; [by apply (V3 a x)|eauto].
    + destruct (V3 b y Hb) as [Hlk [ms Lb]]. split; [done|]. exists ms. eapply layout_ext; [done|]. intros q Hq.
      rewrite Hm. apply lookup_delete_ne. intros <-. destruct (layout_elem _ _ _ _ _ Lb Hq) as (? & ? & ? & _). congruence.
  - intros q n. rewrite Hm, Hs, lookup_delete_Some. intros [Hne Hq].
    destruct (V4 q n Hq) as (y & Hy & Hin). destruct (decide (as_ n = a)) as [Ea|].
    + exists (set_regions (l1 ++ l2) x). rewrite Ea, lookup_insert_eq. split; [done|]. simpl.
      assert (y = x) as -> by congruence. rewrite Hreg in Hin. set_solver.
    + exists y. by rewrite lookup_insert_ne.
Qed.

End invariant.

(** ** Properties *)

Section properties.
Context {A : Type} `{!ObjAlloc A} {V : Type} `{!PageMap V}.
Implicit Types s : vm A V.

Lemma unlock_regions l x : as_lock x = false -> set_as_lock false (set_regions l (set_as_lock true x)) = set_regions l x.
Proof. destruct x; simpl. by intros ->. Qed.

(** A region that begins before the end of [r] ends before its neighbour [n]. *)
Lemma ends_before_next h a l1 r n l2 ms m mn m1 :
  layout h a (l1 ++ r :: n :: l2) ms -> h !! r = Some m -> h !! n = Some mn -> m1 ∈ ms ->
  start m1 <= end_ m -> end_ m < start mn -> pg_round_up (end_ m1) <= start mn.
Proof.
  intros [Lm Ls Lr _ _] Hm Hmn Hm1 Hle Hlt. rewrite Forall_forall in Lr.
  apply Forall2_app_inv_l in Lm as (ms1 & ms' & _ & H3 & ->).
  apply Forall2_cons_inv_l in H3 as (y & ms'' & Hy & H3 & ->). apply Forall2_cons_inv_l in H3 as (z & ms2 & Hz & _ & ->).
  assert (y = m) as -> by congruence. assert (z = mn) as -> by congruence. destruct (Lr m1 Hm1) as (_ & Hse & Hend & _). destruct (Lr mn) as (_ & Hnse & _ & Hal); [set_solver|].
  apply pg_round_up_least; [lia|done|]. rewrite cons_middle, app_assoc in Ls, Hm1.
  apply StronglySorted_app_parts in Ls as (_ & Hpre & Hpost). rewrite elem_of_app, elem_of_cons in Hm1.
  rewrite Forall_forall in Hpre, Hpost.
  destruct Hm1 as [Hm1|[->|Hm1]]; [by apply Hpre|lia|]. pose proof (Hpost m1 Hm1) as Hp. unfold before in Hp. lia.
Qed.

(** [as_map_memregion] as a client uses it. *)
Lemma as_map_ok kas kvm_base s a x ms addr size perm_ store_ ofs_ shared_ :
  vm_ok s -> spaces s !! a = Some x -> layout (mrs s) a (regions x) ms -> args_ok kas a addr size ms ->
  exists r s', as_map_memregion kas kvm_base a addr size perm_ store_ ofs_ shared_ s = Ret r s' /\ vm_ok s' /\ pts s' = pts s /\
    ((r = 0 /\ mrs s' = mrs s /\ spaces s' = spaces s /\
      (addr <> ADDR_ANYWHERE -> refused kas kvm_base a size perm_ addr = true \/
         ~ Forall (apart addr (addr + size)) ms \/ fst (oalloc (mr_alloc s)) = None)) \/
     (exists lo l1 l2, r <> 0 /\ mrs s !! r = None /\ (addr <> ADDR_ANYWHERE -> lo = addr) /\
        refused kas kvm_base a size perm_ lo = false /\ Forall (apart lo (lo + size)) ms /\
        mrs s' = <[r := mkRegion a lo (lo + size) perm_ shared_ store_ ofs_]> (mrs s) /\
        regions x = l1 ++ l2 /\ spaces s' = <[a := set_regions (l1 ++ r :: l2) x]> (spaces s))).
Proof.
  intros Hok Hx L Harg. destruct (vo_space s Hok a x Hx) as [Hl _]. unfold as_map_memregion.
  rewrite (bind_Ret _ _ _ _ _ (acquire_ok a x s Hx Hl)). set (xl := set_as_lock true x).
  destruct (map_internal_ok kas kvm_base a addr size perm_ store_ ofs_ shared_ (with_lock a x s) xl ms) as (r & s1 & E & Hr);
    [apply lookup_insert_eq|done|done|apply Hok|apply Hok|done|]. rewrite (bind_Ret _ _ _ _ _ E).
  destruct Hr as [(-> & Hm & Hs & Hp & Ho & Hlv & Hwhy)|(lo & Hr0 & Hn & Hlo & Href & Hap & Hm & Hp & Ho & Hlv & l1 & l2 & ms1 & ms2 & Hreg & Hms & Hs & L')].
  - assert (Hs1 : spaces s1 !! a = Some xl) by (rewrite Hs; apply lookup_insert_eq).
    rewrite (bind_Ret _ _ _ _ _ (release_ok a xl s1 Hs1)). do 2 eexists. split; [done|].
    assert (Hsp : <[a := set_as_lock false xl]> (spaces s1) = spaces s).
    { rewrite Hs. simpl. rewrite insert_insert_eq. apply insert_id. rewrite Hx. destruct x; simpl in *; by subst. }
    split_and!; [by eapply vm_ok_unchanged|done|left]. split_and!; try done. intros Hany.
    destruct Hwhy as [[? _]|(lo & Hlo & Hw)]; [done|]. by rewrite <- (Hlo Hany) in *.
  - assert (Hs1 : spaces s1 !! a = Some (set_regions (l1 ++ r :: l2) xl)) by (rewrite Hs; apply lookup_insert_eq).
    rewrite (bind_Ret _ _ _ _ _ (release_ok a _ s1 Hs1)). do 2 eexists. split; [done|]. unfold xl.
    rewrite unlock_regions by done.
    assert (Hsp : <[a := set_regions (l1 ++ r :: l2) x]> (spaces s1) = <[a := set_regions (l1 ++ r :: l2) x]> (spaces s)).
    { rewrite Hs. simpl. by rewrite !insert_insert_eq. }
    split_and!; [|done|right; exists lo, l1, l2; by split_and!].
    eapply (vm_ok_add s _ a x r _ l1 l2 (ms1 ++ mkRegion a lo (lo + size) perm_ shared_ store_ ofs_ :: ms2)); try done. done.
Qed.

(** [memregion_unmap] of a region. *)
Lemma memregion_unmap_ok s r m : vm_ok s -> mrs s !! r = Some m ->
  exists x l1 l2 s', spaces s !! as_ m = Some x /\ regions x = l1 ++ r :: l2 /\ memregion_unmap r s = Ret tt s' /\ vm_ok s' /\
    mrs s' = delete r (mrs s) /\ spaces s' = <[as_ m := set_regions (l1 ++ l2) x]> (spaces s) /\
    mr_alloc s' = ofree r (mr_alloc s) /\
    pts s' = vpmap_unmap (vpmap x) (start m) (pg_round_up (u64 (end_ m - start m)) `div` PG_SIZE) true (pts s).
Proof.
  intros Hok Hm. destruct (vo_owner s Hok r m Hm) as (x & Hx & Hin). destruct (vo_space s Hok _ x Hx) as [Hl [ms L]].
  destruct (layout_split _ _ _ _ _ L Hin) as (l1 & l2 & ms1 & m' & ms2 & El & Ems & Hm' & _ & L' & Hf).
  exists x, l1, l2. unfold memregion_unmap. rewrite (get_mr_Some r m) by done.
  rewrite (bind_Ret _ _ _ _ _ (acquire_ok _ x s Hx Hl)). unfold memregion_unmap_internal.
  rewrite bind_assoc, (get_mr_Some r m) by done. rewrite bind_assoc, (get_as_Some _ (set_as_lock true x)) by apply lookup_insert_eq.
  rewrite bind_assoc, bind_kassert by done. unfold bind at 1 2 3, modify, put_as, modify at 1. simpl.
  erewrite release_ok by apply lookup_insert_eq. rewrite Hf, unlock_regions by done. eexists.
  split_and!; try done.
  - eapply (vm_ok_del s _ (as_ m) x r m l1 l2); try done. simpl. by rewrite !insert_insert_eq.
  - simpl. by rewrite !insert_insert_eq.
Qed.


(** [memregion_unmap] takes exactly that region out of its address space, frees
    its structure and unmaps its pages; no other region changes. *)
Theorem memregion_unmap_correct s r m :
  vm_ok s -> mrs s !! r = Some m ->
  exists x l1 l2 s', spaces s !! as_ m = Some x /\ regions x = l1 ++ r :: l2 /\ memregion_unmap r s = Ret tt s' /\ vm_ok s' /\
    mrs s' = delete r (mrs s) /\ spaces s' = <[as_ m := set_regions (l1 ++ l2) x]> (spaces s) /\
    mr_alloc s' = ofree r (mr_alloc s) /\
    pts s' = vpmap_unmap (vpmap x) (start m) (pg_round_up (u64 (end_ m - start m)) `div` PG_SIZE) true (pts s).
Proof. apply memregion_unmap_ok. Qed.

(** [memregion_extend] looks for one region that contains the whole extension,
    so it misses a region that begins inside it: extending [r] over the gap
    behind it and past the start of its neighbour [n] reports success and
    leaves two overlapping regions. *)
Theorem memregion_extend_overlaps s a x l1 r n l2 m mn size :
  vm_ok s -> spaces s !! a = Some x -> regions x = l1 ++ r :: n :: l2 ->
  mrs s !! r = Some m -> mrs s !! n = Some mn ->
  pg_round_up (end_ m) < start mn < end_ m + size -> 0 < size -> end_ m + size < 2 ^ 64 ->
  exists s' m' , memregion_extend r size s = Ret (ERR_OK, end_ m) s' /\
    mrs s' !! r = Some m' /\ mrs s' !! n = Some mn /\ start mn < end_ m' /\ start m' <= start mn.
Proof.
  intros Hok Hx Hreg Hm Hmn Hgap Hsz Hb. destruct (vo_space s Hok a x Hx) as [Hl [ms L]].
  destruct (layout_elem _ _ _ _ r L) as (m0 & Hm0 & Ha & Hin); [rewrite Hreg; set_solver|].
  assert (m0 = m) as -> by congruence. assert (Hr0 : r <> 0).
  { intros ->. apply (ly_null _ _ _ _ L). rewrite Hreg. set_solver. }
  pose proof (ly_region _ _ _ _ L) as Lr. rewrite Forall_forall in Lr. destruct (Lr m Hin) as (_ & Hse & Hend & _).
  unfold memregion_extend. rewrite (proj2 (Z.eqb_neq r 0) Hr0), (get_mr_Some r m) by done.
  rewrite (proj2 (Z.eqb_neq size 0)), (proj2 (Z.ltb_lt 0 size)) by lia. rewrite Ha.
  unfold as_find_memregion. rewrite bind_assoc, (bind_Ret _ _ _ _ _ (acquire_ok a x s Hx Hl)).
  rewrite bind_assoc, (get_as_Some a (set_as_lock true x)) by apply lookup_insert_eq.
  set (p := fun m1 => (start m1 <=? end_ m) && (u64 (end_ m + size) <=? pg_round_up (end_ m1))).
  assert (Hno : Forall (fun m1 => p m1 = false) ms).
  { apply Forall_forall. intros m1 Hm1. unfold p. rewrite wrap_small by lia. destruct (Lr m1 Hm1) as (_ & H1 & H2 & _).
    destruct (Z.leb_spec (start m1) (end_ m)); [|done]. simpl. apply Z.leb_gt. destruct (pg_round_up_spec (end_ m)) as [_ Hu]; [lia|].
    rewrite Hreg in L. pose proof (ends_before_next _ _ _ _ _ _ _ _ _ m1 L Hm Hmn Hm1 ltac:(lia) ltac:(lia)). lia. }
  destruct (find_region_spec p (with_lock a x s) (regions x) ms (ly_mem _ _ _ _ L) (ly_null _ _ _ _ L)) as
    [[E _]|(? & ? & ? & ? & m1 & ? & _ & -> & _ & Hp & _)];
    [|apply Forall_app in Hno as [_ [Hno _]%Forall_cons]; congruence].
  rewrite bind_assoc, (bind_Ret _ _ _ _ _ E). rewrite bind_assoc.
  rewrite (bind_Ret _ _ _ _ _ (release_ok a (set_as_lock true x) _ (lookup_insert_eq _ _ _))), bind_ret.
  simpl. do 2 eexists. split; [done|]. simpl. rewrite lookup_insert_eq. split; [done|].
  destruct (pg_round_up_spec (end_ m)) as [_ Hu]; [lia|].
  assert (n <> r) by (intros ->; simplify_eq; lia). rewrite lookup_insert_ne by done.
  split_and!; [done|simpl; rewrite wrap_small by lia; lia|simpl; lia].
Qed.

End properties.

(** *** Witnesses: a space with a region, a gap of three pages, and a region *)

#[global] Instance no_pagemap : PageMap unit := {|
  vpmap_create v := (None, v);
  vpmap_copy_kernel_mapping _ v := (ERR_OK, v);
  vpmap_destroy _ v := v;
  vpmap_unmap _ _ _ _ v := v;
  vpmap_set_perm _ _ _ _ v := v;
  vpmap_cow_copy _ _ _ _ _ v := (ERR_OK, v);
|}.

Definition ex_m1 : memregion := mkRegion 50 4096 8192 MEMPERM_URW false 0 0.
Definition ex_m2 : memregion := mkRegion 50 20480 24576 MEMPERM_URW false 0 0.
Definition ex_space : addrspace := mkSpace [200; 201] 0 false 0.
Definition ex_vm : vm Bump.bump unit :=
  mkVm (<[200 := ex_m1]> {[ 201 := ex_m2 ]}) {[ 50 := ex_space ]} (Bump.mkBump 5 300 {[ 200; 201 ]}) tt.

Lemma ex_layout : layout (mrs ex_vm) 50 (regions ex_space) [ex_m1; ex_m2].
Proof.
  split; simpl.
  - repeat constructor.
  - repeat constructor; unfold before; simpl; lia.
  - unfold PG_SIZE. constructor; [simpl; split_and!; try lia; by exists 1|].
    constructor; [simpl; split_and!; try lia; by exists 5|]. constructor.
  - apply (bool_decide_unpack _). by vm_compute.
  - apply (bool_decide_unpack _). by vm_compute.
Qed.

Lemma ex_vm_ok : vm_ok ex_vm.
Proof.
  split.
  - split; simpl; [lia|]. set_solver by lia.
  - intros r. simpl. rewrite lookup_insert_is_Some, lookup_singleton_is_Some. set_solver.
  - intros a x. simpl. rewrite lookup_singleton_Some. intros [<- <-]. split; [done|]. eexists. apply ex_layout.
  - intros r m. simpl. rewrite lookup_insert_Some, lookup_singleton_Some.
    intros [[<- <-]|[_ [<- <-]]]; exists ex_space; (split; [done|]); simpl; set_solver.
Qed.


Lemma memregion_unmap_correct_witness :
  exists x l1 l2 s', spaces ex_vm !! 50 = Some x /\ regions x = l1 ++ 201 :: l2 /\ memregion_unmap 201 ex_vm = Ret tt s' /\
    vm_ok s' /\ mrs s' = delete 201 (mrs ex_vm) /\ spaces s' = <[50 := set_regions (l1 ++ l2) x]> (spaces ex_vm) /\
    mr_alloc s' = ofree 201 (mr_alloc ex_vm) /\ pts s' = tt.
Proof. exact (memregion_unmap_correct ex_vm 201 ex_m2 ex_vm_ok eq_refl). Defined.

Lemma memregion_extend_overlaps_witness :
  exists s' m', memregion_extend 200 16384 ex_vm = Ret (ERR_OK, 8192) s' /\
    mrs s' !! 200 = Some m' /\ mrs s' !! 201 = Some ex_m2 /\ 20480 < end_ m' /\ start m' <= 20480.
Proof.
  apply (memregion_extend_overlaps ex_vm 50 ex_space [] 200 201 [] ex_m1 ex_m2 16384 ex_vm_ok); try done.
Defined.

End Vm.
