(* ===== verification/Paging.v ===== *)
(** * What the page fault handler and the loader use of page tables and frames

    The operations of arch/x86_64/kernel/mm/vpmap.c on one page and of
    kernel/mm/pmem.c on one frame, as a class: the state of all page tables and
    frames is seen as a map from the user pages of each page table to frames,
    and the reference counts of the frames that are handed out for data.  The
    frames of the tables themselves are not counted. *)

From S2P Require Import Prelude Page.
Local Open Scope kernel_scope.
Import Page.

Module Paging.

(** The number of the page of an address, in the 48 bits that are translated. *)
Definition page_no (v : Z) : Z := (v `div` PG_SIZE) `mod` 2 ^ 36.

(** The end of the addresses that only the page table's own process uses: above
    it the top-level entry is the kernel's. *)
Definition USER_END : Z := 2 ^ 64 - 2 ^ 39.

End Paging.
Import Paging.

Class Paging (V : Type) := {
  vpmap_map1 : Z -> Z -> Z -> Z -> M V err_t;
  vpmap_lookup1 : Z -> Z -> M V (err_t * Z);
  vpmap_perm1 : Z -> Z -> Z -> M V unit;
  vpmap_flush : M V unit;
  page_alloc : M V (option Z);
  page_free : Z -> M V unit;
  page_inc : Z -> M V unit;
  page_dec : Z -> M V unit;
  page_refcnt : Z -> M V Z;
  entry : V -> Z -> Z -> option (Z * Z);
  count : V -> Z -> Z;
  tables : V -> gset Z;
  vok : V -> Prop;
  (** Mapping one page of user addresses. *)
  map1_spec v m w p perm : vok v -> m ∈ tables v -> 0 <= w < USER_END -> (PG_SIZE | w) -> 0 < count v p -> 0 <= perm <= 3 ->
    exists e v', vpmap_map1 m w p perm v = Ret e v' /\ vok v' /\ tables v' = tables v /\ (forall q, count v' q = count v q) /\
      ((e <> ERR_OK /\ entry v m (page_no w) = None /\ forall m' n, entry v' m' n = entry v m' n) \/
       (e = ERR_OK /\ forall m' n, entry v' m' n = if decide (m' = m /\ n = page_no w) then Some (p, perm) else entry v m' n));
  lookup1_spec v m w : vok v -> m ∈ tables v -> 0 <= w < USER_END -> (PG_SIZE | w) ->
    vpmap_lookup1 m w v = Ret (match entry v m (page_no w) with Some (p, _) => (ERR_OK, p) | None => (1, 0) end) v;
  perm1_spec v m w p perm0 perm : vok v -> m ∈ tables v -> 0 <= w < USER_END -> (PG_SIZE | w) -> 0 <= perm <= 3 -> entry v m (page_no w) = Some (p, perm0) ->
    exists v', vpmap_perm1 m w perm v = Ret tt v' /\ vok v' /\ tables v' = tables v /\ (forall q, count v' q = count v q) /\
      forall m' n, entry v' m' n = if decide (m' = m /\ n = page_no w) then Some (p, perm) else entry v m' n;
  flush_spec v : vok v -> exists v', vpmap_flush v = Ret tt v' /\ vok v' /\ tables v' = tables v /\ (forall q, count v' q = count v q) /\ forall m n, entry v' m n = entry v m n;
  page_alloc_spec v : vok v -> page_alloc v = Ret None v \/
    exists p v', page_alloc v = Ret (Some p) v' /\ vok v' /\ tables v' = tables v /\ (forall m n, entry v' m n = entry v m n) /\ p <> 0 /\ count v p = 0 /\ (forall q, count v' q = if decide (q = p) then 1 else count v q);
  page_free_spec v p : vok v -> 0 < count v p ->
    exists v', page_free p v = Ret tt v' /\ vok v' /\ tables v' = tables v /\ (forall m n, entry v' m n = entry v m n) /\ forall q, count v' q = if decide (q = p) then 0 else count v q;
  page_inc_spec v p : vok v -> 0 < count v p < 2 ^ 31 - 1 ->
    exists v', page_inc p v = Ret tt v' /\ vok v' /\ tables v' = tables v /\ (forall m n, entry v' m n = entry v m n) /\ forall q, count v' q = if decide (q = p) then count v p + 1 else count v q;
  page_dec_spec v p : vok v -> 0 < count v p ->
    exists v', page_dec p v = Ret tt v' /\ vok v' /\ tables v' = tables v /\ (forall m n, entry v' m n = entry v m n) /\ forall q, count v' q = if decide (q = p) then count v p - 1 else count v q;
  page_refcnt_spec v p : vok v -> 0 < count v p -> page_refcnt p v = Ret (count v p) v;
}.

(** A flat implementation, used to run the models on concrete inputs: a table of
    pages, and frames cut off a range. *)
Module Flat.
Record flat := mkFlat { fentries : gmap (Z * Z) (Z * Z); fcounts : gmap Z Z; fnext : Z; flimit : Z; ftables : gset Z }.

Definition fcount (f : flat) (p : Z) : Z := default 0 (fcounts f !! p).
Definition set_fcount (p c : Z) (f : flat) : flat := mkFlat (fentries f) (<[p := c]> (fcounts f)) (fnext f) (flimit f) (ftables f).
Definition set_fentry (k e : Z * Z) (f : flat) : flat := mkFlat (<[k := e]> (fentries f)) (fcounts f) (fnext f) (flimit f) (ftables f).

Lemma flat_count_set p c f q : fcount (set_fcount p c f) q = if decide (q = p) then c else fcount f q.
Proof. unfold fcount, set_fcount. simpl. case_decide as E; [by rewrite E, lookup_insert_eq|by rewrite lookup_insert_ne by congruence]. Qed.

Lemma fentry_set m n e f m' n' : fentries (set_fentry (m, n) e f) !! (m', n') = if decide (m' = m /\ n' = n) then Some e else fentries f !! (m', n').
Proof. simpl. case_decide as E; [destruct E as [-> ->]; by rewrite lookup_insert_eq|rewrite lookup_insert_ne; [done|intros [= -> ->]; by apply E]]. Qed.

#[global] Instance flat_paging : Paging flat.
Proof.
  refine {|
    vpmap_map1 m w p perm f := Ret ERR_OK (set_fentry (m, page_no w) (p, perm) f);
    vpmap_lookup1 m w f := Ret (match fentries f !! (m, page_no w) with Some (p, _) => (ERR_OK, p) | None => (1, 0) end) f;
    vpmap_perm1 m w perm f := match fentries f !! (m, page_no w) with Some (p, _) => Ret tt (set_fentry (m, page_no w) (p, perm) f) | None => Ret tt f end;
    vpmap_flush f := Ret tt f;
    page_alloc f := if fnext f <? flimit f then Ret (Some (fnext f)) (mkFlat (fentries f) (<[fnext f := 1]> (fcounts f)) (fnext f + PG_SIZE) (flimit f) (ftables f)) else Ret None f;
    page_free p f := Ret tt (set_fcount p 0 f);
    page_inc p f := Ret tt (set_fcount p (fcount f p + 1) f);
    page_dec p f := Ret tt (set_fcount p (fcount f p - 1) f);
    page_refcnt p f := Ret (fcount f p) f;
    entry f m n := fentries f !! (m, n);
    count := fcount;
    tables := ftables;
    vok f := 0 < fnext f /\ forall p, fnext f <= p -> fcount f p = 0 |}.
  - intros f m w p perm Hv Hm Hw Hd Hc Hp. do 2 eexists. split; [done|]. split; [by destruct Hv|]. split; [done|]. split; [done|]. right. split; [done|]. intros. apply fentry_set.
  - done.
  - intros f m w p perm0 perm Hv Hm Hw Hd Hp E. rewrite E. eexists. split; [done|]. split; [by destruct Hv|]. split; [done|]. split; [done|]. intros. apply fentry_set.
  - intros f Hv. by exists f.
  - intros f [Hn Hv]. destruct (fnext f <? flimit f); [right|by left]. do 2 eexists. split; [done|]. assert (Hc := flat_count_set (fnext f) 1 f).
    split; [|by split_and!; [| |lia|apply Hv|]]. split; [simpl; unfold PG_SIZE; lia|]. intros q Hq. simpl in Hq. unfold PG_SIZE in Hq. etransitivity; [apply Hc|]. rewrite decide_False by lia. apply Hv. lia.
  - intros f p [Hn Hv] Hc. eexists. split; [done|]. split; [|split_and!; [done|done|apply flat_count_set]]. split; [done|]. intros q Hq. rewrite flat_count_set. case_decide; [done|]. by apply Hv.
  - intros f p [Hn Hv] Hc. eexists. split; [done|]. split; [|split_and!; [done|done|apply flat_count_set]]. split; [done|]. intros q Hq. rewrite flat_count_set. case_decide as E; [|by apply Hv].
    simpl in Hq. subst q. rewrite (Hv p Hq) in Hc. lia.
  - intros f p [Hn Hv] Hc. eexists. split; [done|]. split; [|split_and!; [done|done|apply flat_count_set]]. split; [done|]. intros q Hq. rewrite flat_count_set. case_decide as E; [|by apply Hv].
    simpl in Hq. subst q. rewrite (Hv p Hq) in Hc. lia.
  - done.
Defined.
End Flat.
