(* ===== verification/Vpmap.v ===== *)
(** * Page tables: arch/x86_64/kernel/mm/vpmap.c

    Four levels of tables with 512 entries.  The state keeps the tables at
    their kernel addresses; a missing entry of a table is 0.  The frames are
    those of any [FrameAlloc].  [vpmap_copy], which copies page contents and
    has no caller, is left out. *)

From S2P Require Import Prelude Page Alloc Vm.
Local Open Scope kernel_scope.
Import Page.

Module Vpmap.

Definition ERR_VPMAP_NOTPRESENT : err_t := 1.
Definition ERR_VPMAP_MAP : err_t := 2.
Definition PADDR_NONE : Z := 0.

Definition PTE_P : Z := 1.
Definition PTE_W : Z := 2.
Definition PTE_U : Z := 4.
Definition PTE_A : Z := 32.
Definition PTE_D : Z := 64.
Definition N_PER_PG : Z := 512.
Definition PHYS_ADDR_MASK : Z := 2251799813685247. (* ~0xFFF8000000000000 *)
Definition EXTMEM_BASE : Z := 1048576.

Definition VPN (v : Z) : Z := Z.land v (u64 (Z.lnot 4095)).
Definition ENTRY_IDX (v shift : Z) : Z := Z.land (Z.shiftr v shift) 511.
Definition PTX (v : Z) : Z := ENTRY_IDX v 12.
Definition PDX (v : Z) : Z := ENTRY_IDX v 21.
Definition PDPTX (v : Z) : Z := ENTRY_IDX v 30.
Definition PML4X (v : Z) : Z := ENTRY_IDX v 39.
Definition ENTRY_ADDR (e : Z) : Z := Z.land (Z.land e (u64 (Z.lnot 4095))) PHYS_ADDR_MASK.
Definition PPN (p : Z) : Z := ENTRY_ADDR p.
Definition ENTRY_FLAGS (e : Z) : Z := Z.land e 4095.

Definition present (e : Z) : bool := negb (Z.land e PTE_P =? 0).

Section model.
Context {F : Type} `{!FrameAlloc F} {A : Type} `{!ObjAlloc A}.
(** The kernel's vpmap; [_data], the start of the kernel's data; the end of
    physical memory. *)
Context (kvpmap _data pmem_end : Z).

(** [vpmaps] has the pointer [pml4] of each [struct vpmap]; [cr3] is the
    register; [current] is the vpmap of the current process, 0 if none. *)
Record tables := mkTables {
  tabs : gmap Z (gmap Z Z);
  frames : F;
  vpmaps : gmap Z Z;
  vpmap_allocator : A;
  cr3 : Z;
  current : Z;
}.

Definition set_tabs (x : gmap Z (gmap Z Z)) (s : tables) : tables :=
  mkTables x (frames s) (vpmaps s) (vpmap_allocator s) (cr3 s) (current s).
Definition set_frames (x : F) (s : tables) : tables :=
  mkTables (tabs s) x (vpmaps s) (vpmap_allocator s) (cr3 s) (current s).
Definition set_vpmaps (x : gmap Z Z) (al : A) (s : tables) : tables :=
  mkTables (tabs s) (frames s) x al (cr3 s) (current s).
Definition lcr3 (p : Z) : M tables unit :=
  modify (fun s => mkTables (tabs s) (frames s) (vpmaps s) (vpmap_allocator s) p (current s)).

Definition in_frames {B} (m : M F B) : M tables B := zoom frames set_frames m.

(** Reading and writing entry [i] of the table at [t]. *)
Definition rd (t i : Z) : M tables Z :=
  fun s => match tabs s !! t with Some m => Ret (default 0 (m !! i)) s | None => Halt Fault s end.
Definition wr (t i e : Z) : M tables unit :=
  fun s => match tabs s !! t with
           | Some m => Ret tt (set_tabs (<[t := <[i := e]> m]> (tabs s)) s)
           | None => Halt Fault s
           end.
(** [memset] of a page to 0. *)
Definition clear_page (t : Z) : M tables unit := modify (fun s => set_tabs (<[t := ∅]> (tabs s)) s).
(** [pmem_free] of a table page. *)
Definition free_table (paddr : Z) : M tables unit :=
  in_frames (ffree paddr) ;; modify (fun s => set_tabs (delete (KMAP_P2V paddr) (tabs s)) s).

(** One level of the walk of [find_pte]: the table that entry [i] of [t] points
    to, allocated if [alloc] is set. *)
Definition next_table (alloc : bool) (t i : Z) : M tables (option Z) :=
  e <- rd t i ;;
  if present e then ret (Some (KMAP_P2V (ENTRY_ADDR e)))
  else if negb alloc then ret None
  else
    p <- in_frames falloc ;;
    match p with
    | None => ret None
    | Some paddr =>
        clear_page (KMAP_P2V paddr) ;;
        wr t i (Z.lor (Z.lor (Z.lor paddr PTE_P) PTE_W) PTE_U) ;;
        e <- rd t i ;;
        ret (Some (KMAP_P2V (ENTRY_ADDR e)))
    end.

(** The address of the entry as a table and an index; [None] is NULL. *)
Definition find_pte (pml4 vaddr : Z) (alloc : bool) : M tables (option (Z * Z)) :=
  kassert (negb (pml4 =? 0)) ;;
  o <- next_table alloc pml4 (PML4X vaddr) ;;
  match o with
  | None => ret None
  | Some pdpt =>
      o <- next_table alloc pdpt (PDPTX vaddr) ;;
      match o with
      | None => ret None
      | Some pgdir =>
          o <- next_table alloc pgdir (PDX vaddr) ;;
          match o with
          | None => ret None
          | Some pgtab => ret (Some (pgtab, PTX vaddr))
          end
      end
  end.

Definition clear_pte (t i : Z) : M tables unit :=
  e <- rd t i ;;
  (if present e then in_frames (fdec (PPN e)) else ret tt) ;;
  wr t i 0.

(** The loop of [map_pages], which runs until [v] is [vend]. *)
Fixpoint map_loop (fuel : nat) (pml4 v vend paddr perm : Z) : M tables err_t :=
  match fuel with
  | O => stop Fuel
  | S fuel' =>
      if v =? vend then ret ERR_OK
      else
        o <- find_pte pml4 v true ;;
        match o with
        | None => ret ERR_VPMAP_MAP
        | Some (t, i) =>
            wr t i (Z.lor (Z.lor (PPN paddr) PTE_P) perm) ;;
            map_loop fuel' pml4 (u64 (v + PG_SIZE)) vend (u64 (paddr + PG_SIZE)) perm
        end
  end.

Definition map_pages (pml4 vaddr paddr size perm : Z) : M tables err_t :=
  kassert (negb (pml4 =? 0)) ;;
  let v := pg_round_down vaddr in
  let vend := pg_round_down (u64 (vaddr + size)) in
  map_loop (S (Z.to_nat (u64 (vend - v) `div` PG_SIZE))) pml4 v vend (pg_round_down paddr) perm.

(** ** Unmapping *)

(** The innermost loop of [unmap_pd], for [n] entries from [ptx] on. *)
Fixpoint clear_ptes (n : nat) (pgtable ptx : Z) : M tables unit :=
  match n with
  | O => ret tt
  | S n' => clear_pte pgtable ptx ;; clear_ptes n' pgtable (ptx + 1)
  end.

(** The loop limit of a level: [x] is the first index, [e] that of the end. *)
Definition limit (x e : Z) : Z := if x <? e then N_PER_PG else e + 1.

(** The loop of [unmap_pd], with [n] entries to go. *)
Fixpoint unmap_pd_loop (n : nat) (pde end_addr pdx ptx : Z) (free_imm : bool) : M tables unit :=
  match n with
  | O => ret tt
  | S n' =>
      e <- rd pde pdx ;;
      (if present e then
         clear_ptes (Z.to_nat (limit ptx (PTX end_addr) - ptx)) (KMAP_P2V (ENTRY_ADDR e)) ptx ;;
         if free_imm then free_table (ENTRY_ADDR e) else ret tt
       else ret tt) ;;
      unmap_pd_loop n' pde end_addr (pdx + 1) 0 free_imm
  end.

Definition unmap_pd (pde start_addr end_addr pdx_start pdx_end : Z) (free_imm : bool) : M tables unit :=
  unmap_pd_loop (Z.to_nat (pdx_end - pdx_start)) pde end_addr pdx_start (PTX start_addr) free_imm.

Fixpoint unmap_pdpt_loop (n : nat) (pdpt start_addr end_addr pdptx pdx : Z) (free_imm : bool) : M tables unit :=
  match n with
  | O => ret tt
  | S n' =>
      e <- rd pdpt pdptx ;;
      (if present e then
         unmap_pd (KMAP_P2V (ENTRY_ADDR e)) start_addr end_addr pdx (limit pdx (PDX end_addr)) free_imm ;;
         if free_imm then free_table (ENTRY_ADDR e) else ret tt
       else ret tt) ;;
      unmap_pdpt_loop n' pdpt start_addr end_addr (pdptx + 1) 0 free_imm
  end.

Definition unmap_pdpt (pdpt start_addr end_addr pdptx_start pdptx_end : Z) (free_imm : bool) : M tables unit :=
  unmap_pdpt_loop (Z.to_nat (pdptx_end - pdptx_start)) pdpt start_addr end_addr pdptx_start (PDX start_addr) free_imm.

Fixpoint unmap_pages_loop (n : nat) (pml4 start end_ pml4x pdptx : Z) (free_imm : bool) : M tables unit :=
  match n with
  | O => ret tt
  | S n' =>
      e <- rd pml4 pml4x ;;
      (if present e then
         unmap_pdpt (KMAP_P2V (ENTRY_ADDR e)) start end_ pdptx (limit pdptx (PDPTX end_)) free_imm ;;
         if free_imm then free_table (ENTRY_ADDR e) else ret tt
       else ret tt) ;;
      unmap_pages_loop n' pml4 start end_ (pml4x + 1) 0 free_imm
  end.

Definition unmap_pages (pml4 start end_ : Z) (free_imm : bool) : M tables unit :=
  kassert (PML4X start <=? PML4X (u64 (end_ - 1))) ;;
  unmap_pages_loop (Z.to_nat (PML4X (u64 (end_ - 1)) + 1 - PML4X start)) pml4 start end_ (PML4X start) (PDPTX start) free_imm.

(** ** The interface *)

Definition memperm_to_pteperm (perm : Z) : M tables Z :=
  if perm =? MEMPERM_R then ret 0
  else if perm =? MEMPERM_RW then ret PTE_W
  else if perm =? MEMPERM_UR then ret PTE_U
  else if perm =? MEMPERM_URW then ret (Z.lor PTE_U PTE_W)
  else stop Panic.

Definition get_pml4 (vpmap : Z) : M tables Z :=
  fun s => match vpmaps s !! vpmap with Some p => Ret p s | None => Halt Fault s end.

Definition vpmap_load (vpmap : Z) : M tables err_t :=
  kassert (negb (vpmap =? 0)) ;;
  p <- get_pml4 vpmap ;;
  kassert (negb (p =? 0)) ;;
  lcr3 (KMAP_V2P p) ;;
  ret ERR_OK.

(** The loop of [vpmap_init] over the kernel mappings. *)
Fixpoint map_all (pml4 : Z) (l : list (Z * Z * Z * Z)) : M tables unit :=
  match l with
  | [] => ret tt
  | (vaddr, start, end_, perm) :: l' =>
      e <- map_pages pml4 vaddr start (u64 (end_ - start)) perm ;;
      if negb (e =? ERR_OK) then stop Panic else map_all pml4 l'
  end.

Definition kernel_mappings : list (Z * Z * Z * Z) :=
  [ (KMAP_BASE, 0, EXTMEM_BASE, PTE_W);
    (KMAP_BASE + EXTMEM_BASE, EXTMEM_BASE, KMAP_V2P _data, 0);
    (_data, KMAP_V2P _data, pmem_end, PTE_W);
    (DEVMEM_BASE, 4261412864, 4294967296, PTE_W) ]. (* 0xFE000000, 0x100000000 *)

Definition vpmap_init : M tables unit :=
  kassert (negb (kvpmap =? 0)) ;;
  p <- in_frames falloc ;;
  match p with
  | None => stop Panic
  | Some paddr =>
      let pml4 := KMAP_P2V paddr in
      modify (fun s => set_vpmaps (<[kvpmap := pml4]> (vpmaps s)) (vpmap_allocator s) s) ;;
      clear_page pml4 ;;
      map_all pml4 kernel_mappings ;;
      e <- vpmap_load kvpmap ;;
      if negb (e =? ERR_OK) then stop Panic else ret tt
  end.

(** 0 is NULL; when no page is left, the structure is not given back. *)
Definition vpmap_create : M tables Z :=
  fun s => match oalloc (vpmap_allocator s) with
           | (None, al) => Ret 0 (set_vpmaps (vpmaps s) al s)
           | (Some v, al) =>
               (p <- in_frames falloc ;;
                match p with
                | None => ret 0
                | Some paddr =>
                    modify (fun s => set_vpmaps (<[v := KMAP_P2V paddr]> (vpmaps s)) (vpmap_allocator s) s) ;;
                    clear_page (KMAP_P2V paddr) ;;
                    ret v
                end) (set_vpmaps (<[v := 0]> (vpmaps s)) al s)
           end.

Definition vpmap_map (vpmap vaddr paddr n memperm : Z) : M tables err_t :=
  kassert (negb (vpmap =? 0)) ;;
  if n =? 0 then ret ERR_OK
  else
    p <- get_pml4 vpmap ;;
    perm <- memperm_to_pteperm memperm ;;
    map_pages p (pg_round_down vaddr) (pg_round_down paddr) (u64 (n * PG_SIZE)) perm.

Definition vpmap_unmap (vpmap vaddr n : Z) : M tables unit :=
  if vpmap =? 0 then ret tt
  else
    p <- get_pml4 vpmap ;;
    if (p =? 0) || (n =? 0) then ret tt
    else
      let start := pg_round_down vaddr in
      let end_ := u64 (start + n * PG_SIZE) in
      kassert (PML4X start <=? PML4X end_) ;;
      unmap_pages p start end_ false.

Definition vpmap_destroy (vpmap : Z) : M tables unit :=
  if vpmap =? 0 then ret tt
  else
    p <- get_pml4 vpmap ;;
    if p =? 0 then ret tt
    else
      kassert (negb (vpmap =? kvpmap)) ;;
      unmap_pages p 0 Vm.USTACK_UPPERBOUND true ;;
      free_table (KMAP_V2P p) ;;
      modify (fun s => set_vpmaps (delete vpmap (vpmaps s)) (ofree vpmap (vpmap_allocator s)) s).

Fixpoint copy_entries (n : nat) (src dst pml4x : Z) : M tables unit :=
  match n with
  | O => ret tt
  | S n' =>
      e <- rd src pml4x ;;
      (if present e then wr dst pml4x e else ret tt) ;;
      copy_entries n' src dst (pml4x + 1)
  end.

Definition vpmap_copy_kernel_mapping (dstvpmap : Z) : M tables err_t :=
  kassert (negb (dstvpmap =? 0)) ;;
  k <- get_pml4 kvpmap ;;
  d <- get_pml4 dstvpmap ;;
  copy_entries (Z.to_nat (N_PER_PG - PML4X KMAP_BASE)) k d (PML4X KMAP_BASE) ;;
  ret ERR_OK.

(** The error code and [*paddr]. *)
Definition vpmap_lookup_vaddr (vpmap vaddr : Z) : M tables (err_t * Z) :=
  kassert (negb (vpmap =? 0)) ;;
  p <- get_pml4 vpmap ;;
  o <- find_pte p vaddr false ;;
  match o with
  | None => ret (ERR_VPMAP_NOTPRESENT, PADDR_NONE)
  | Some (t, i) =>
      e <- rd t i ;;
      if present e then ret (ERR_OK, PPN e + (vaddr - VPN vaddr)) else ret (ERR_VPMAP_NOTPRESENT, PADDR_NONE)
  end.

Fixpoint set_perm_loop (n : nat) (pml4 vaddr perm : Z) : M tables unit :=
  match n with
  | O => ret tt
  | S n' =>
      o <- find_pte pml4 vaddr false ;;
      match o with
      | None => ret tt
      | Some (t, i) => e <- rd t i ;; wr t i (Z.lor (Z.lor (PPN e) (Z.land (ENTRY_FLAGS e) PTE_P)) perm)
      end ;;
      set_perm_loop n' pml4 (u64 (vaddr + PG_SIZE)) perm
  end.

Definition vpmap_set_perm (vpmap vaddr n memperm : Z) : M tables unit :=
  kassert (negb (vpmap =? 0)) ;;
  p <- get_pml4 vpmap ;;
  perm <- memperm_to_pteperm memperm ;;
  set_perm_loop (Z.to_nat n) p (pg_round_down vaddr) perm.

Definition vpmap_flush_tlb : M tables unit :=
  c <- gets current ;;
  p <- get_pml4 (if c =? 0 then kvpmap else c) ;;
  lcr3 (KMAP_V2P p).

Fixpoint cow_loop (n : nat) (srcvpmap dstvpmap srcaddr dstaddr : Z) : M tables err_t :=
  match n with
  | O => ret ERR_OK
  | S n' =>
      sp <- get_pml4 srcvpmap ;;
      so <- find_pte sp srcaddr false ;;
      let continue := cow_loop n' srcvpmap dstvpmap (u64 (srcaddr + PG_SIZE)) (u64 (dstaddr + PG_SIZE)) in
      match so with
      | None => continue
      | Some (st, si) =>
          se <- rd st si ;;
          if PPN se =? 0 then continue
          else
            dp <- get_pml4 dstvpmap ;;
            d <- find_pte dp dstaddr true ;;
            match d with
            | None => ret ERR_VPMAP_MAP
            | Some (dt, di) =>
                de <- rd dt di ;;
                if negb (PPN de =? 0) then ret ERR_VPMAP_MAP
                else
                  r <- vpmap_lookup_vaddr srcvpmap srcaddr ;;
                  if negb (r.1 =? ERR_OK) then ret ERR_VPMAP_MAP
                  else
                    in_frames (finc r.2 1) ;;
                    se <- rd st si ;;
                    wr dt di se ;;
                    continue
            end
      end
  end.

Definition vpmap_cow_copy (srcvpmap dstvpmap srcaddr dstaddr n : Z) : M tables err_t :=
  kassert (negb (srcvpmap =? 0) && negb (dstvpmap =? 0)) ;;
  vpmap_set_perm srcvpmap (pg_round_down srcaddr) n MEMPERM_UR ;;
  vpmap_flush_tlb ;;
  cow_loop (Z.to_nat n) srcvpmap dstvpmap (pg_round_down srcaddr) (pg_round_down dstaddr).

(** [vpmap_set_dirty], and the tests of the dirty and accessed bits. *)
Definition vpmap_set_dirty (vpmap vaddr : Z) : M tables unit :=
  p <- get_pml4 vpmap ;;
  o <- find_pte p vaddr false ;;
  match o with
  | None => ret tt
  | Some (t, i) => e <- rd t i ;; wr t i (Z.lor e PTE_D)
  end.
Definition get_bit (bit vpmap vaddr : Z) : M tables (err_t * Z) :=
  p <- get_pml4 vpmap ;;
  o <- find_pte p vaddr false ;;
  match o with
  | None => ret (ERR_VPMAP_NOTPRESENT, 0)
  | Some (t, i) => e <- rd t i ;; ret (ERR_OK, Z.land e bit)
  end.
Definition vpmap_get_dirty : Z -> Z -> M tables (err_t * Z) := get_bit PTE_D.
Definition vpmap_get_accessed : Z -> Z -> M tables (err_t * Z) := get_bit PTE_A.

End model.
Arguments tables : clear implicits.

(** ** Entries and indices *)

Lemma lor_add a fl : (PG_SIZE | a) -> 0 <= fl < PG_SIZE -> Z.lor a fl = a + fl.
Proof.
  intros [z ->] Hfl. pose proof (Z.add_lor_land (z * PG_SIZE) fl) as E. assert (Z.land (z * PG_SIZE) fl = 0) as Hz; [|lia].
  apply Z.bits_inj'. intros i Hi. rewrite Z.land_spec, Z.bits_0. change PG_SIZE with (2 ^ 12) in *. destruct (Z.ltb_spec i 12).
  - rewrite Z.mul_pow2_bits_low by lia. done.
  - rewrite <- (Z.mod_small fl (2 ^ 12)) by lia. rewrite (Z.mod_pow2_bits_high fl 12 i) by lia. apply andb_false_r.
Qed.

Lemma entry_addr_ok a fl : (PG_SIZE | a) -> 0 <= a < 2 ^ 51 -> 0 <= fl < PG_SIZE -> ENTRY_ADDR (Z.lor a fl) = a.
Proof.
  intros Ha Hr Hfl. rewrite lor_add by done. unfold ENTRY_ADDR. change 4095 with (PG_SIZE - 1).
  assert (a + PG_SIZE <= 2 ^ 51).
  { destruct Ha as [z ->]. change (2 ^ 51) with (2 ^ 39 * PG_SIZE) in *. unfold PG_SIZE in *. lia. }
  rewrite land_page_mask by (unfold PG_SIZE in *; lia). destruct Ha as [z ->].
  replace ((z * PG_SIZE + fl) `mod` PG_SIZE) with fl by (rewrite Z.add_comm, Z.mod_add by done; symmetry; by apply Z.mod_small).
  replace (z * PG_SIZE + fl - fl) with (z * PG_SIZE) by lia. change PHYS_ADDR_MASK with (Z.ones 51). rewrite Z.land_ones by lia.
  apply Z.mod_small. lia.
Qed.

Lemma entry_addr_aligned a : (PG_SIZE | a) -> 0 <= a < 2 ^ 51 -> ENTRY_ADDR a = a.
Proof. intros. rewrite <- (entry_addr_ok a 0) at 2 by (done || unfold PG_SIZE; lia). by rewrite Z.lor_0_r. Qed.

Lemma present_odd e : present e = Z.odd e.
Proof.
  unfold present, PTE_P. change 1 with (Z.ones 1) at 1. rewrite Z.land_ones by lia. change (2 ^ 1) with 2. rewrite Zmod_odd. by destruct (Z.odd e).
Qed.

(** An entry made of a frame and permission bits. *)
Lemma entry_ok a perm : (PG_SIZE | a) -> 0 <= a < 2 ^ 51 -> perm ∈ [0; 2; 4; 6] ->
  ENTRY_ADDR (Z.lor (Z.lor a PTE_P) perm) = a /\ present (Z.lor (Z.lor a PTE_P) perm) = true.
Proof.
  intros Ha Hr Hp. rewrite <- Z.lor_assoc. assert (Hfl : Z.lor PTE_P perm = perm + 1 /\ Z.odd perm = false /\ 0 <= perm < 8).
  { unfold PTE_P. rewrite !elem_of_cons in Hp. destruct Hp as [->|[->|[->|[->|Hp]]]]; [by split_and!..|set_solver]. }
  destruct Hfl as (-> & Hodd & Hb). split; [apply entry_addr_ok; (done || unfold PG_SIZE; lia)|].
  rewrite present_odd, lor_add by (done || unfold PG_SIZE; lia). destruct Ha as [z ->]. unfold PG_SIZE.
  rewrite Z.odd_add, Z.odd_mul, Z.odd_add, Hodd. by rewrite andb_false_r.
Qed.

(** Index of an address at level [l]; level 3 is the root, level 0 has the
    page entries. *)
Definition index (l : nat) (v : Z) : Z := ENTRY_IDX v (12 + 9 * Z.of_nat l).

Lemma index_div l v : 0 <= v -> index l v = (v `div` 2 ^ (12 + 9 * Z.of_nat l)) `mod` 512.
Proof.
  intros. unfold index, ENTRY_IDX. rewrite Z.shiftr_div_pow2 by lia. change 511 with (Z.ones 9). by rewrite Z.land_ones by lia.
Qed.

Lemma index_range l v : 0 <= index l v < 512.
Proof. unfold index, ENTRY_IDX. change 511 with (Z.ones 9). rewrite Z.land_ones by lia. by apply Z.mod_pos_bound. Qed.

(** Two addresses have the same entry. *)
Definition same_page (v w : Z) : Prop := forall l, (l <= 3)%nat -> index l v = index l w.

#[export] Instance same_page_dec v w : Decision (same_page v w).
Proof.
  refine (cast_if (decide (Forall (fun l => index l v = index l w) (seq 0 4)))); unfold same_page; rewrite Forall_forall in *;
    setoid_rewrite elem_of_seq in f || setoid_rewrite elem_of_seq in n; [intros l Hl; apply f; lia|contradict n; intros l Hl; apply n; lia].
Defined.

Lemma index_split l v : 0 <= v ->
  (v `div` 2 ^ (12 + 9 * Z.of_nat l)) `mod` 512 = (v `div` 4096 `div` 512 ^ Z.of_nat l) `mod` 512.
Proof.
  intros Hv. rewrite Z.div_div by (try apply Z.pow_pos_nonneg; lia). do 2 f_equal. change 4096 with (2 ^ 12). change 512 with (2 ^ 9).
  rewrite <- Z.pow_mul_r, <- Z.pow_add_r by lia. done.
Qed.

Lemma digits_eq x y : 0 <= x -> 0 <= y -> (forall l, (l <= 3)%nat -> (x `div` 512 ^ Z.of_nat l) `mod` 512 = (y `div` 512 ^ Z.of_nat l) `mod` 512) ->
  x `mod` 512 ^ 4 = y `mod` 512 ^ 4.
Proof.
  intros Hx Hy H. assert (Hd : forall z, z `mod` 512 ^ 4 =
    z `mod` 512 + 512 * ((z `div` 512) `mod` 512 + 512 * ((z `div` 512 ^ 2) `mod` 512 + 512 * ((z `div` 512 ^ 3) `mod` 512)))).
  { intros z. change (512 ^ 4) with (512 * (512 * (512 * 512))). rewrite !Z.rem_mul_r by lia.
    change (512 ^ 2) with (512 * 512). change (512 ^ 3) with (512 * (512 * 512)). rewrite <- !Z.div_div by lia. done. }
  rewrite !Hd. pose proof (H 0%nat ltac:(lia)) as H0. pose proof (H 1%nat ltac:(lia)) as H1. pose proof (H 2%nat ltac:(lia)) as H2.
  pose proof (H 3%nat ltac:(lia)) as H3. change (512 ^ Z.of_nat 0) with 1 in H0. change (512 ^ Z.of_nat 1) with 512 in H1.
  change (512 ^ Z.of_nat 2) with (512 ^ 2) in H2. change (512 ^ Z.of_nat 3) with (512 ^ 3) in H3. rewrite !Z.div_1_r in H0. lia.
Qed.

(** Pages fewer than 2^36 apart have different entries. *)
Lemma pages_differ v j k : 0 <= v -> 0 <= j -> 0 <= k -> Z.abs (j - k) < 2 ^ 36 ->
  same_page (v + j * PG_SIZE) (v + k * PG_SIZE) -> j = k.
Proof.
  intros Hv Hj Hk Hd Hs. unfold PG_SIZE in *.
  assert (E : ((v + j * 4096) `div` 4096) `mod` 512 ^ 4 = ((v + k * 4096) `div` 4096) `mod` 512 ^ 4).
  { apply digits_eq; [apply Z.div_pos; lia..|]. intros l Hl. specialize (Hs l Hl). rewrite !index_div, !index_split in Hs by lia. done. }
  rewrite !Z.div_add in E by lia. change (512 ^ 4) with (2 ^ 36) in E.
  pose proof (Z.div_mod (v `div` 4096 + j) (2 ^ 36) ltac:(lia)). pose proof (Z.div_mod (v `div` 4096 + k) (2 ^ 36) ltac:(lia)). nia.
Qed.

(** ** The tree of tables *)

Section tree.
Context {F : Type} `{!FrameAlloc F} {A : Type} `{!ObjAlloc A}.
Implicit Types (s : tables F A) (pos : gmap Z (nat * Z)).

(** [pos] gives the level of a table and the number of its range of addresses.
    Every table holds entries for the tables below it in its range only, so
    that no two paths from a root meet; a frame backs every table. *)
Record wf s (pos : gmap Z (nat * Z)) : Prop := {
  wf_frames : fok (frames s);
  wf_table : forall t l q, pos !! t = Some (l, q) -> exists m, tabs s !! t = Some m /\
    forall i e, m !! i = Some e -> 0 <= i < 512 /\
      forall l', l = S l' -> present e = true -> pos !! KMAP_P2V (ENTRY_ADDR e) = Some (l', q * 512 + i);
  wf_frame : forall t x, pos !! t = Some x -> exists a, t = KMAP_P2V a /\ 0 < fref (frames s) a;
}.

(** The table below entry [i] of [t], and the entry of [v] below [t]. *)
Definition child s (t i : Z) : option Z :=
  m ← tabs s !! t; let e := default 0 (m !! i) in if present e then Some (KMAP_P2V (ENTRY_ADDR e)) else None.
Fixpoint walk s (l : nat) (t v : Z) : option Z :=
  match l with
  | O => Some t
  | S l' => t' ← child s t (index l v); walk s l' t' v
  end.
Definition slot s (t i : Z) : Z := default 0 (m ← tabs s !! t; m !! i).
Definition ent s (l : nat) (t v : Z) : Z := from_option (fun t' => slot s t' (index 0 v)) 0 (walk s l t v).

(** The number of the range of [v] at a level. *)
Fixpoint range (d : nat) (v : Z) : Z :=
  match d with O => 0 | S d' => range d' v * 512 + index (4 - d) v end.

Lemma range_inj d v w : (d <= 4)%nat -> range d v = range d w -> forall l, (4 - d <= l <= 3)%nat -> index l v = index l w.
Proof.
  induction d as [|d IH]; intros Hd E l Hl; [lia|]. cbn [range] in E. replace (4 - S d)%nat with (3 - d)%nat in * by lia.
  pose proof (index_range (3 - d) v). pose proof (index_range (3 - d) w). assert (range d v = range d w) by lia.
  destruct (decide (l = 3 - d)%nat) as [->|]; [lia|]. apply IH; [lia|done|lia].
Qed.

Lemma table_nz s pos t x : wf s pos -> pos !! t = Some x -> t <> 0.
Proof.
  intros W Ht. destruct (wf_frame _ _ W t x Ht) as (a & -> & Ha). destruct (p2v_bounds _ a (wf_frames _ _ W) Ha) as (-> & ? & _).
  unfold KMAP_BASE. lia.
Qed.

Lemma child_pos s pos t l q i t' : wf s pos -> pos !! t = Some (S l, q) -> child s t i = Some t' -> pos !! t' = Some (l, q * 512 + i).
Proof.
  intros W Ht. destruct (wf_table _ _ W t _ _ Ht) as (m & Hm & He). unfold child. rewrite Hm. simpl.
  destruct (m !! i) as [e|] eqn:Hi; simpl; [|done]. destruct (present e) eqn:Hp; [|done]. intros [= <-]. by apply (He i e Hi).
Qed.

(** The walk from a table of level [l] ends in the table of the range of [v]. *)
Lemma walk_pos s pos v l : forall t t', (l <= 3)%nat -> wf s pos -> pos !! t = Some (l, range (3 - l) v) -> walk s l t v = Some t' ->
  pos !! t' = Some (0%nat, range 3 v).
Proof.
  induction l as [|l IH]; intros t t' Hl W Ht; simpl; [by intros [= <-]|].
  destruct (child s t (index (S l) v)) as [t1|] eqn:Hc; simpl; [|done]. intros Hw.
  apply (IH t1 t'); [lia|done| |done]. rewrite (child_pos s pos t l _ _ t1 W Ht Hc).
  replace (3 - l)%nat with (S (3 - S l)) by lia. cbn [range]. by replace (4 - S (3 - S l))%nat with (S l) by lia.
Qed.

(** *** Reading *)

Lemma rd_ok {B} s pos t x i (f : Z -> M (tables F A) B) : wf s pos -> pos !! t = Some x -> bind (rd t i) f s = f (slot s t i) s.
Proof.
  intros W Ht. destruct x as [l q]. destruct (wf_table _ _ W t _ _ Ht) as (m & Hm & _). apply bind_Ret. unfold rd, slot. by rewrite Hm.
Qed.

Lemma child_slot s t i m : tabs s !! t = Some m ->
  child s t i = if present (slot s t i) then Some (KMAP_P2V (ENTRY_ADDR (slot s t i))) else None.
Proof. intros Hm. unfold child, slot. by rewrite Hm. Qed.

Lemma next_table_false s pos t l q i : wf s pos -> pos !! t = Some (l, q) -> next_table false t i s = Ret (child s t i) s.
Proof.
  intros W Ht. destruct (wf_table _ _ W t _ _ Ht) as (m & Hm & _). unfold next_table. rewrite (rd_ok s pos t (l, q)) by done.
  rewrite (child_slot s t i m Hm). by destruct (present (slot s t i)).
Qed.

Lemma find_pte_false s pos root v : wf s pos -> pos !! root = Some (3%nat, 0) ->
  find_pte root v false s = Ret ((fun t => (t, PTX v)) <$> walk s 3 root v) s.
Proof.
  intros W Hr. unfold find_pte. pose proof (table_nz s pos root _ W Hr). rewrite bind_kassert by lia.
  rewrite (bind_Ret _ _ _ _ _ (next_table_false s pos root 3 0 (PML4X v) W Hr)).
  change (walk s 3 root v) with (t1 ← child s root (PML4X v); t2 ← child s t1 (PDPTX v); t3 ← child s t2 (PDX v); Some t3).
  destruct (child s root (PML4X v)) as [t1|] eqn:H1; [|done]. pose proof (child_pos s pos root 2 0 _ t1 W Hr H1) as P1.
  rewrite (bind_Ret _ _ _ _ _ (next_table_false s pos t1 2 _ (PDPTX v) W P1)). simpl.
  destruct (child s t1 (PDPTX v)) as [t2|] eqn:H2; [|done]. pose proof (child_pos s pos t1 1 _ _ t2 W P1 H2) as P2.
  rewrite (bind_Ret _ _ _ _ _ (next_table_false s pos t2 1 _ (PDX v) W P2)). simpl.
  by destruct (child s t2 (PDX v)) as [t3|].
Qed.

(** *** Writing a page entry *)

Definition with_slot s (t i e : Z) (m : gmap Z Z) : tables F A := set_tabs (<[t := <[i := e]> m]> (tabs s)) s.

Lemma with_slot_slot s t i e m t' j : tabs s !! t = Some m ->
  slot (with_slot s t i e m) t' j = if decide (t' = t /\ j = i) then e else slot s t' j.
Proof.
  intros Hm. unfold slot. simpl. destruct (decide (t' = t)) as [->|Ht].
  - rewrite lookup_insert_eq, Hm. simpl. destruct (decide (j = i)) as [->|Hj].
    + by rewrite lookup_insert_eq, decide_True.
    + rewrite lookup_insert_ne, decide_False by naive_solver. done.
  - rewrite lookup_insert_ne, decide_False by naive_solver. done.
Qed.

Lemma with_slot_wf s pos t q i e m : wf s pos -> pos !! t = Some (0%nat, q) -> tabs s !! t = Some m -> 0 <= i < 512 ->
  wf (with_slot s t i e m) pos.
Proof.
  intros W Ht Hm Hi. destruct (wf_table _ _ W t _ _ Ht) as (m0 & Hm0 & He). assert (m0 = m) as -> by congruence.
  destruct W as [W1 W2 W3]. split; simpl; [done| |done]. intros t' l q' Ht'. destruct (decide (t' = t)) as [->|Hne].
  - rewrite lookup_insert_eq. eexists. split; [done|]. assert (l = 0%nat) as -> by congruence.
    intros j x [[<- <-]|[_ Hj]]%lookup_insert_Some; [done|]. split; [by apply (He j x)|done].
  - rewrite lookup_insert_ne by done. by apply W2.
Qed.

Lemma with_slot_child s pos t q i e m t' l q' j : pos !! t = Some (0%nat, q) -> pos !! t' = Some (S l, q') ->
  child (with_slot s t i e m) t' j = child s t' j.
Proof. intros Ht Ht'. unfold child. simpl. rewrite lookup_insert_ne; [done|]. intros <-. congruence. Qed.

Lemma with_slot_walk s pos t q i e m w l : forall t', wf s pos -> pos !! t = Some (0%nat, q) -> (exists q', pos !! t' = Some (l, q')) ->
  walk (with_slot s t i e m) l t' w = walk s l t' w.
Proof.
  induction l as [|l IH]; intros t' W Ht [q' Ht']; simpl; [done|]. rewrite (with_slot_child s pos t q i e m t' l q') by done.
  destruct (child s t' (index (S l) w)) as [t1|] eqn:Hc; simpl; [|done]. apply IH; [done|done|]. eexists. by apply (child_pos s pos t' l q').
Qed.

(** The write changes the entry of one page only. *)
Lemma with_slot_ent s pos t i e m root v w : wf s pos -> pos !! root = Some (3%nat, 0) -> walk s 3 root v = Some t ->
  tabs s !! t = Some m -> i = index 0 v ->
  (same_page v w -> ent (with_slot s t i e m) 3 root w = e) /\
  (~ same_page v w -> ent (with_slot s t i e m) 3 root w = ent s 3 root w).
Proof.
  intros W Hr Hw Hm ->. pose proof (walk_pos s pos v 3 root t ltac:(lia) W Hr Hw) as Ht.
  unfold ent. rewrite (with_slot_walk s pos t _ _ e m w 3) by eauto. split.
  - intros Hs. assert (Hww : walk s 3 root w = walk s 3 root v).
    { cbn [walk]. rewrite <- !Hs by lia. done. }
    rewrite Hww, Hw. simpl. rewrite (with_slot_slot s t _ e m) by done. rewrite decide_True; [done|]. split; [done|]. symmetry. apply Hs. lia.
  - intros Hs. destruct (walk s 3 root w) as [t'|] eqn:Hww; [|done]. simpl. rewrite (with_slot_slot s t _ e m) by done.
    rewrite decide_False; [done|]. intros [-> Hi]. apply Hs. pose proof (walk_pos s pos w 3 root t ltac:(lia) W Hr Hww) as Ht'.
    assert (E : range 4 v = range 4 w) by (change (range 4) with (fun x => range 3 x * 512 + index 0 x); simpl in *; congruence).
    intros l Hl. apply (range_inj 4 v w); [lia|exact E|lia].
Qed.

(** *** Adding tables *)

(** The tables grew: no page entry, no link and no reference count changed. *)
Record grown s s' pos pos' : Prop := {
  gr_wf : wf s' pos';
  gr_pos : pos ⊆ pos';
  gr_ent : forall l r q w, pos !! r = Some (l, q) -> ent s' l r w = ent s l r w;
  gr_child : forall t x i t', pos !! t = Some x -> child s t i = Some t' -> child s' t i = Some t';
  gr_refs : forall a, 0 < fref (frames s) a -> fref (frames s') a = fref (frames s) a;
  gr_rest : vpmaps s' = vpmaps s /\ vpmap_allocator s' = vpmap_allocator s /\ cr3 s' = cr3 s /\ current s' = current s;
}.

Lemma grown_refl s pos : wf s pos -> grown s s pos pos.
Proof. intros W. by split. Qed.

Lemma grown_trans s1 s2 s3 p1 p2 p3 : grown s1 s2 p1 p2 -> grown s2 s3 p2 p3 -> grown s1 s3 p1 p3.
Proof.
  intros [A1 A2 A3 A4 A5 A6] [B1 B2 B3 B4 B5 B6]. split; [done|by transitivity p2|..].
  - intros l r q w Hr. rewrite (B3 l r q w) by (by eapply lookup_weaken). by apply (A3 l r q).
  - intros t x i t' Ht Hc. apply (B4 t x); [by eapply lookup_weaken|]. by apply (A4 t x).
  - intros a Ha. rewrite B5; [by apply A5|]. by rewrite A5.
  - destruct A6 as (-> & -> & -> & ->) in B6. done.
Qed.

Lemma ent_tabs s s' l r w : tabs s' = tabs s -> ent s' l r w = ent s l r w.
Proof.
  intros H. unfold ent, slot. assert (Hw : forall r, walk s' l r w = walk s l r w).
  { induction l as [|l IH]; intros r'; simpl; [done|]. unfold child. rewrite H. destruct (tabs s !! r') as [m|]; simpl; [|done].
    destruct (present _); simpl; [apply IH|done]. }
  by rewrite Hw, H.
Qed.

Lemma set_frames_grown s pos f : wf s pos -> fok f -> (forall b, fref f b = fref (frames s) b) -> grown s (set_frames f s) pos pos.
Proof.
  intros [W1 W2 W3] Hf Hr. split; try done; [|intros; by apply ent_tabs].
  split; simpl; [done|done|].
  intros t x Ht. destruct (W3 t x Ht) as (a & ? & ?). exists a. by rewrite Hr.
Qed.

(** Entry [i] of [t] points to a new empty table in the frame [a]. *)
Definition with_child s (t i a : Z) (m : gmap Z Z) (f : F) : tables F A :=
  set_tabs (<[t := <[i := Z.lor (Z.lor (Z.lor a PTE_P) PTE_W) PTE_U]> m]> (<[KMAP_P2V a := ∅]> (tabs s))) (set_frames f s).

Lemma child_entry a : (PG_SIZE | a) -> 0 <= a < 2 ^ 51 ->
  ENTRY_ADDR (Z.lor (Z.lor (Z.lor a PTE_P) PTE_W) PTE_U) = a /\ present (Z.lor (Z.lor (Z.lor a PTE_P) PTE_W) PTE_U) = true.
Proof. intros. rewrite <- (Z.lor_assoc _ PTE_W PTE_U). apply entry_ok; [done..|]. unfold PTE_W, PTE_U. set_solver. Qed.

Section with_child.
Context s pos t (l : nat) (q i a : Z) (m : gmap Z Z) (f : F) (W : wf s pos) (Ht : pos !! t = Some (S l, q)) (Hm : tabs s !! t = Some m).
Context (Hi : 0 <= i < 512) (Hnone : child s t i = None) (Hf : fok f) (Ha0 : fref (frames s) a = 0) (Ha1 : fref f a = 1).
Context (Hothers : forall b, b <> a -> fref f b = fref (frames s) b).
Let s' := with_child s t i a m f.
Let pos' := <[KMAP_P2V a := (l, q * 512 + i)]> pos.

Lemma new_table_fresh : pos !! KMAP_P2V a = None.
Proof.
  destruct (pos !! KMAP_P2V a) as [x|] eqn:E; [|done]. destruct (wf_frame _ _ W _ _ E) as (b & Hb & Hrb).
  destruct (p2v_bounds f a Hf ltac:(lia)) as (E1 & ? & _). destruct (p2v_bounds _ b (wf_frames _ _ W) Hrb) as (E2 & ? & _).
  assert (a = b) as -> by lia. lia.
Qed.

Lemma with_child_child t' x j : pos !! t' = Some x ->
  child s' t' j = if decide (t' = t /\ j = i) then Some (KMAP_P2V a) else child s t' j.
Proof.
  intros Ht'. pose proof new_table_fresh as Hfr. destruct (p2v_bounds f a Hf ltac:(lia)) as (_ & Hb & Hd).
  destruct (child_entry a Hd ltac:(lia)) as [E1 E2]. unfold child, s', with_child. simpl. destruct (decide (t' = t)) as [->|Hne].
  - rewrite lookup_insert_eq, Hm. simpl. destruct (decide (j = i)) as [->|Hj].
    + rewrite lookup_insert_eq. simpl. by rewrite E1, E2, decide_True.
    + rewrite lookup_insert_ne, decide_False by naive_solver. done.
  - rewrite lookup_insert_ne, decide_False by naive_solver. rewrite lookup_insert_ne; [done|]. intros <-. congruence.
Qed.

Lemma new_table_ent n w : ent s' n (KMAP_P2V a) w = 0.
Proof.
  pose proof new_table_fresh as Hfr. assert (Hne : t <> KMAP_P2V a) by (intros E; rewrite <- E in Hfr; congruence).
  assert (Htab : tabs s' !! KMAP_P2V a = Some ∅) by (unfold s', with_child; simpl; by rewrite lookup_insert_ne, lookup_insert_eq).
  destruct n as [|n]; unfold ent; simpl.
  - unfold slot. by rewrite Htab.
  - unfold child. by rewrite Htab.
Qed.

Lemma with_child_ent n : forall r q' w, pos !! r = Some (n, q') -> ent s' n r w = ent s n r w.
Proof.
  pose proof new_table_fresh as Hfr. induction n as [|n IH]; intros r q' w Hr.
  - unfold ent. simpl. unfold slot, s', with_child. simpl. rewrite !lookup_insert_ne; [done|intros <-; congruence..].
  - unfold ent. cbn [walk]. rewrite (with_child_child r (S n, q')) by done. destruct (decide (r = t /\ index (S n) w = i)) as [[-> Hj]|Hne].
    + rewrite Hj, Hnone. apply (new_table_ent n w).
    + destruct (child s r (index (S n) w)) as [t1|] eqn:Hc; [|done]. apply (IH t1 _ w (child_pos s pos r n q' _ t1 W Hr Hc)).
Qed.

Lemma with_child_grown : grown s s' pos pos' /\ pos' !! KMAP_P2V a = Some (l, q * 512 + i) /\ child s' t i = Some (KMAP_P2V a).
Proof.
  pose proof new_table_fresh as Hfr. destruct (p2v_bounds f a Hf ltac:(lia)) as (_ & Hb & Hd). destruct (child_entry a Hd ltac:(lia)) as [E1 E2].
  assert (Hsub : pos ⊆ pos') by (by apply insert_subseteq).
  split; [|split; [apply lookup_insert_eq|by rewrite (with_child_child t (S l, q)), decide_True]]. destruct W as [W1 W2 W3]. split.
  - split; [done| |].
    + intros t' l' q'. unfold pos', s', with_child. simpl. intros [[<- [= <- <-]]|[Hne Ht']]%lookup_insert_Some.
      { rewrite lookup_insert_ne by congruence. rewrite lookup_insert_eq. eexists. split; [done|]. intros j e. by rewrite lookup_empty. }
      destruct (W2 t' l' q' Ht') as (m' & Hm' & He). destruct (decide (t' = t)) as [->|Htt].
      * rewrite lookup_insert_eq. eexists. split; [done|]. assert (m' = m) as -> by congruence.
        intros j e [[<- <-]|[Hj Hje]]%lookup_insert_Some.
        -- split; [done|]. intros l2 -> _. rewrite E1, lookup_insert_eq. congruence.
        -- destruct (He j e Hje) as [? Hp]. split; [done|]. intros l2 Hl2 Hpe. specialize (Hp l2 Hl2 Hpe).
           rewrite lookup_insert_ne; [done|]. intros E. rewrite <- E in Hp. congruence.
      * rewrite !lookup_insert_ne by congruence. exists m'. split; [done|]. intros j e Hje. destruct (He j e Hje) as [? Hp].
        split; [done|]. intros l2 Hl2 Hpe. specialize (Hp l2 Hl2 Hpe). rewrite lookup_insert_ne; [done|]. intros E. rewrite <- E in Hp. congruence.
    + intros t' x [[<- <-]|[Hne Ht']]%lookup_insert_Some; simpl; [exists a; lia|]. destruct (W3 t' x Ht') as (b & -> & Hrb).
      exists b. split; [done|]. rewrite Hothers; [done|]. congruence.
  - done.
  - intros n r q' w Hr. by apply (with_child_ent n r q').
  - intros t' x j t1 Ht' Hc. rewrite (with_child_child t' x) by done. rewrite decide_False; [done|]. intros [-> ->]. congruence.
  - intros b Hb'. simpl. apply Hothers. intros ->. lia.
  - done.
Qed.
End with_child.

Lemma next_table_true s pos t l q i : wf s pos -> pos !! t = Some (S l, q) -> 0 <= i < 512 ->
  exists o s' pos', next_table true t i s = Ret o s' /\ grown s s' pos pos' /\
    forall t', o = Some t' -> child s' t i = Some t' /\ pos' !! t' = Some (l, q * 512 + i).
Proof.
  intros W Ht Hi. destruct (wf_table _ _ W t _ _ Ht) as (m & Hm & _). unfold next_table. rewrite (rd_ok s pos t (S l, q)) by done.
  pose proof (child_slot s t i m Hm) as Hc. destruct (present (slot s t i)) eqn:Hp.
  - eexists _, s, pos. split; [done|]. split; [by apply grown_refl|]. intros t' [= <-]. split; [done|]. by apply (child_pos s pos t l q i).
  - simpl. unfold bind at 1, in_frames, zoom. destruct (falloc_spec (frames s) (wf_frames _ _ W)) as [(f & E & Hf & Hr)|(a & f & E & Hf & H0 & H1 & Hr)]; rewrite E.
    + eexists _, _, pos. split; [done|]. split; [by apply set_frames_grown|done].
    + pose proof (with_child_grown s pos t l q i a m f W Ht Hm Hi Hc Hf H0 H1 Hr) as (Hg & Hp' & Hcc).
      assert (Hfr : pos !! KMAP_P2V a = None) by (eapply new_table_fresh; eassumption).
      assert (Hrun : (clear_page (KMAP_P2V a) ;; wr t i (Z.lor (Z.lor (Z.lor a PTE_P) PTE_W) PTE_U)) (set_frames f s) =
        Ret tt (with_child s t i a m f)).
      { unfold bind, clear_page, modify, wr, with_child. simpl. rewrite lookup_insert_ne by congruence. by rewrite Hm. }
      unfold bind in Hrun |- *. simpl in Hrun |- *. rewrite Hrun.
      destruct (p2v_bounds f a Hf ltac:(lia)) as (_ & Hb & Hd). destruct (child_entry a Hd ltac:(lia)) as [E1 E2].
      eexists (Some (KMAP_P2V a)), (with_child s t i a m f), _. split; [|split; [exact Hg|]].
      * unfold rd. simpl. rewrite lookup_insert_eq. simpl. rewrite lookup_insert_eq. simpl. by rewrite E1.
      * intros t' [= <-]. done.
Qed.

Lemma find_pte_true s pos root v : wf s pos -> pos !! root = Some (3%nat, 0) ->
  exists o s' pos', find_pte root v true s = Ret o s' /\ grown s s' pos pos' /\
    forall t i, o = Some (t, i) -> walk s' 3 root v = Some t /\ i = index 0 v.
Proof.
  intros W Hr. unfold find_pte. pose proof (table_nz s pos root _ W Hr). rewrite bind_kassert by lia.
  destruct (next_table_true s pos root 2 0 (PML4X v) W Hr (index_range 3 v)) as (o1 & s1 & p1 & E1 & G1 & H1). rewrite (bind_Ret _ _ _ _ _ E1).
  destruct o1 as [t1|]; [|by exists None, s1, p1]. destruct (H1 t1 eq_refl) as [C1 P1].
  destruct (next_table_true s1 p1 t1 1 _ (PDPTX v) (gr_wf _ _ _ _ G1) P1 (index_range 2 v)) as (o2 & s2 & p2 & E2 & G2 & H2). rewrite (bind_Ret _ _ _ _ _ E2).
  pose proof (grown_trans _ _ _ _ _ _ G1 G2) as G12. destruct o2 as [t2|]; [|by exists None, s2, p2]. destruct (H2 t2 eq_refl) as [C2 P2].
  destruct (next_table_true s2 p2 t2 0 _ (PDX v) (gr_wf _ _ _ _ G2) P2 (index_range 1 v)) as (o3 & s3 & p3 & E3 & G3 & H3). rewrite (bind_Ret _ _ _ _ _ E3).
  pose proof (grown_trans _ _ _ _ _ _ G12 G3) as G. destruct o3 as [t3|]; [|by exists None, s3, p3]. destruct (H3 t3 eq_refl) as [C3 P3].
  exists (Some (t3, PTX v)), s3, p3. split; [done|]. split; [done|]. intros t i [= <- <-]. split; [|done]. cbn [walk].
  change (index 3 v) with (PML4X v). change (index 2 v) with (PDPTX v). change (index 1 v) with (PDX v).
  assert (Hr1 : p1 !! root = Some (3%nat, 0)) by (by apply (lookup_weaken _ _ _ _ Hr), G1).
  assert (Ht1 : p2 !! t1 = Some (2%nat, 0 * 512 + PML4X v)) by (by apply (lookup_weaken _ _ _ _ P1), G2).
  rewrite (gr_child _ _ _ _ G3 root (3%nat, 0) _ t1); [|by apply (lookup_weaken _ _ _ _ Hr1), G2|by apply (gr_child _ _ _ _ G2 root (3%nat, 0))].
  simpl. rewrite (gr_child _ _ _ _ G3 t1 _ _ t2 Ht1 C2). simpl. by rewrite C3.
Qed.

(** *** Mapping *)

Lemma wr_ok s pos t x i e : wf s pos -> pos !! t = Some x -> exists m, tabs s !! t = Some m /\ wr t i e s = Ret tt (with_slot s t i e m).
Proof. intros W Ht. destruct x as [l q]. destruct (wf_table _ _ W t _ _ Ht) as (m & Hm & _). exists m. split; [done|]. unfold wr. by rewrite Hm. Qed.

Lemma same_page_refl v : same_page v v.
Proof. done. Qed.

(** What one page of [map_loop] does. *)
Lemma map_one s pos root v e : wf s pos -> pos !! root = Some (3%nat, 0) ->
  exists s' pos', wf s' pos' /\ pos ⊆ pos' /\ vpmaps s' = vpmaps s /\
    (forall w, ~ same_page v w -> ent s' 3 root w = ent s 3 root w) /\
    ((find_pte root v true s = Ret None s') \/
     (exists t i s1, find_pte root v true s = Ret (Some (t, i)) s1 /\ wr t i e s1 = Ret tt s' /\ ent s' 3 root v = e)).
Proof.
  intros W Hr. destruct (find_pte_true s pos root v W Hr) as ([[t i]|] & s1 & p1 & E & G & Hw).
  - destruct (Hw t i eq_refl) as [Hwk ->]. assert (Hr1 : p1 !! root = Some (3%nat, 0)) by (by apply (lookup_weaken _ _ _ _ Hr), G).
    pose proof (walk_pos s1 p1 v 3 root t ltac:(lia) (gr_wf _ _ _ _ G) Hr1 Hwk) as Ht.
    destruct (wr_ok s1 p1 t _ (index 0 v) e (gr_wf _ _ _ _ G) Ht) as (m & Hm & Ewr).
    exists (with_slot s1 t (index 0 v) e m), p1. split; [apply (with_slot_wf s1 p1 t (range 3 v)); [apply G|done|done|apply index_range]|].
    split; [apply G|]. split; [apply G|].
    assert (Hent := fun w => with_slot_ent s1 p1 t _ e m root v w (gr_wf _ _ _ _ G) Hr1 Hwk Hm eq_refl). split.
    + intros w Hne. rewrite (proj2 (Hent w) Hne). by apply (gr_ent _ _ _ _ G 3 root 0).
    + right. exists t, (index 0 v), s1. split_and!; [done|done|]. by apply Hent.
  - exists s1, p1. split; [apply G|]. split; [apply G|]. split; [apply G|]. split; [|by left]. intros w _. by apply (gr_ent _ _ _ _ G 3 root 0).
Qed.

Lemma map_loop_ok root perm n : forall v p s pos, wf s pos -> pos !! root = Some (3%nat, 0) ->
  0 <= v -> v + Z.of_nat n * PG_SIZE <= 2 ^ 64 -> Z.of_nat n < 2 ^ 36 -> (PG_SIZE | p) -> 0 <= p -> p + Z.of_nat n * PG_SIZE <= 2 ^ 51 ->
  exists e s' pos', map_loop (S n) root (u64 v) (u64 (v + Z.of_nat n * PG_SIZE)) p perm s = Ret e s' /\ wf s' pos' /\ pos ⊆ pos' /\
    vpmaps s' = vpmaps s /\
    (forall w, (forall k, 0 <= k < Z.of_nat n -> ~ same_page (v + k * PG_SIZE) w) -> ent s' 3 root w = ent s 3 root w) /\
    (e = ERR_VPMAP_MAP \/
     (e = ERR_OK /\ forall k, 0 <= k < Z.of_nat n -> ent s' 3 root (v + k * PG_SIZE) = Z.lor (Z.lor (p + k * PG_SIZE) PTE_P) perm)).
Proof.
  induction n as [|n IH]; intros v p s pos W Hr Hv Hend Hn Hp Hp0 Hpe.
  { exists ERR_OK, s, pos. simpl. rewrite Z.add_0_r, Z.eqb_refl. split_and!; try done. right. split; [done|]. lia. }
  assert (Hu : u64 v = v) by (apply wrap_small; unfold PG_SIZE in *; lia).
  assert (Hne : (u64 v =? u64 (v + Z.of_nat (S n) * PG_SIZE)) = false).
  { rewrite Hu. apply Z.eqb_neq. destruct (decide (v + Z.of_nat (S n) * PG_SIZE = 2 ^ 64)) as [E|].
    - rewrite E. change (u64 (2 ^ 64)) with 0. unfold PG_SIZE in *. lia.
    - rewrite wrap_small; unfold PG_SIZE in *; lia. }
  cbn [map_loop]. rewrite Hne, Hu. destruct (map_one s pos root v (Z.lor (Z.lor p PTE_P) perm) W Hr) as (s1 & p1 & W1 & Hsub & Hv1 & Hsame & Hcase).
  destruct Hcase as [E|(t & i & s0 & E & Ewr & Hent)]; rewrite (bind_Ret _ _ _ _ _ E).
  { exists ERR_VPMAP_MAP, s1, p1. split_and!; try done; [|by left]. intros w Hw. apply Hsame. specialize (Hw 0 ltac:(lia)). by rewrite Z.add_0_r in Hw. }
  unfold PPN. rewrite entry_addr_aligned by (done || unfold PG_SIZE in *; lia). rewrite (bind_Ret _ _ _ _ _ Ewr).
  assert (Hr1 : p1 !! root = Some (3%nat, 0)) by (by eapply lookup_weaken).
  rewrite (wrap_small 64 (p + PG_SIZE)) by (unfold PG_SIZE in *; lia).
  replace (v + Z.of_nat (S n) * PG_SIZE) with (v + PG_SIZE + Z.of_nat n * PG_SIZE) by (unfold PG_SIZE; lia).
  destruct (IH (v + PG_SIZE) (p + PG_SIZE) s1 p1 W1 Hr1) as (e & s' & p' & E' & W' & Hsub' & Hv' & Hsame' & Hcase');
    try (unfold PG_SIZE in *; lia); [by apply Z.divide_add_r|].
  exists e, s', p'. split; [exact E'|]. split; [done|]. split; [by transitivity p1|]. split; [congruence|]. split.
  - intros w Hw. rewrite Hsame'; [apply Hsame|].
    + specialize (Hw 0 ltac:(lia)). by rewrite Z.add_0_r in Hw.
    + intros k Hk. replace (v + PG_SIZE + k * PG_SIZE) with (v + (k + 1) * PG_SIZE) by lia. apply Hw. lia.
  - destruct Hcase' as [->|[-> Hk']]; [by left|right]. split; [done|]. intros k Hk. destruct (decide (k = 0)) as [->|].
    + rewrite !Z.add_0_r, Hsame'; [done|]. intros k Hk2. replace (v + PG_SIZE + k * PG_SIZE) with (v + (k + 1) * PG_SIZE) by lia.
      intros Hs. replace v with (v + 0 * PG_SIZE) in Hs at 2 by lia. apply pages_differ in Hs; lia.
    + specialize (Hk' (k - 1) ltac:(lia)). replace (v + PG_SIZE + (k - 1) * PG_SIZE) with (v + k * PG_SIZE) in Hk' by lia.
      rewrite Hk'. do 2 f_equal. lia.
Qed.

(** *** Looking up *)

Lemma ent_zero s l r w : walk s l r w = None -> ent s l r w = 0.
Proof. intros H. unfold ent. by rewrite H. Qed.

(** The result of [vpmap_lookup_vaddr] is read off the entry. *)
Definition lookup_result (e v : Z) : err_t * Z :=
  if present e then (ERR_OK, PPN e + (v - VPN v)) else (ERR_VPMAP_NOTPRESENT, PADDR_NONE).

Lemma lookup_ok s pos vpmap root v : wf s pos -> vpmap <> 0 -> vpmaps s !! vpmap = Some root -> pos !! root = Some (3%nat, 0) ->
  vpmap_lookup_vaddr vpmap v s = Ret (lookup_result (ent s 3 root v) v) s.
Proof.
  intros W H0 Hv Hr. unfold vpmap_lookup_vaddr. rewrite bind_kassert by lia.
  rewrite (bind_Ret (get_pml4 vpmap) _ s root s) by (unfold get_pml4; by rewrite Hv).
  rewrite (bind_Ret _ _ _ _ _ (find_pte_false s pos root v W Hr)). destruct (walk s 3 root v) as [t|] eqn:Hw; cbn [fmap option_fmap option_map].
  - pose proof (walk_pos s pos v 3 root t ltac:(lia) W Hr Hw) as Ht. rewrite (rd_ok s pos t _ (PTX v)) with (1 := W) (2 := Ht).
    unfold lookup_result, ent. rewrite Hw. cbn [from_option]. change (index 0 v) with (PTX v). by destruct (present (slot s t (PTX v))).
  - rewrite (ent_zero s 3 root v Hw). done.
Qed.

Lemma round_down_aligned v : 0 <= v < 2 ^ 64 -> (PG_SIZE | v) -> pg_round_down v = v.
Proof. intros Hv Hd. rewrite pg_round_down_spec by done. apply Z.mod_divide in Hd; [|done]. lia. Qed.

Lemma round_down_facts v : 0 <= v < 2 ^ 64 -> 0 <= pg_round_down v <= v /\ (PG_SIZE | pg_round_down v) /\ v < pg_round_down v + PG_SIZE.
Proof.
  intros Hv. rewrite pg_round_down_spec by done. pose proof (Z.mod_pos_bound v PG_SIZE ltac:(done)). pose proof (Z.mod_le v PG_SIZE ltac:(lia) ltac:(done)).
  split_and!; [lia|lia| |lia]. exists (v `div` PG_SIZE). pose proof (Z.div_mod v PG_SIZE ltac:(done)). lia.
Qed.

Lemma pteperm_ok memperm s : 0 <= memperm <= 3 -> exists perm, memperm_to_pteperm memperm s = Ret perm s /\ perm ∈ [0; 2; 4; 6].
Proof.
  intros H. unfold memperm_to_pteperm, MEMPERM_R, MEMPERM_RW, MEMPERM_UR, MEMPERM_URW.
  assert (memperm = 0 \/ memperm = 1 \/ memperm = 2 \/ memperm = 3) as [->|[->|[->| ->]]] by lia; eexists; (split; [done|]); set_solver.
Qed.

(** The call of [map_loop] that [vpmap_map] makes. *)
Lemma vpmap_map_run s vpmap root vaddr paddr n memperm perm :
  vpmap <> 0 -> vpmaps s !! vpmap = Some root -> root <> 0 -> 0 <= vaddr < 2 ^ 64 -> 0 <= paddr < 2 ^ 64 -> 0 < n < 2 ^ 36 ->
  pg_round_down vaddr + n * PG_SIZE <= 2 ^ 64 -> memperm_to_pteperm memperm s = Ret perm s ->
  vpmap_map vpmap vaddr paddr n memperm s =
    map_loop (S (Z.to_nat n)) root (u64 (pg_round_down vaddr)) (u64 (pg_round_down vaddr + n * PG_SIZE)) (pg_round_down paddr) perm s.
Proof.
  intros H0 Hv Hr Hva Hpa Hn Hend Hperm. unfold vpmap_map. rewrite bind_kassert by lia. rewrite (proj2 (Z.eqb_neq n 0)) by lia.
  rewrite (bind_Ret (get_pml4 vpmap) _ s root s) by (unfold get_pml4; by rewrite Hv). rewrite (bind_Ret _ _ _ _ _ Hperm).
  destruct (round_down_facts vaddr Hva) as (Hv1 & Hv2 & _). destruct (round_down_facts paddr Hpa) as (Hp1 & Hp2 & _).
  unfold map_pages. rewrite bind_kassert by lia. rewrite !(round_down_aligned (pg_round_down _)) by (done || lia).
  set (v := pg_round_down vaddr) in *. assert (Hnp : u64 (n * PG_SIZE) = n * PG_SIZE) by (apply wrap_small; unfold PG_SIZE in *; lia).
  rewrite Hnp. assert (Hve : pg_round_down (u64 (v + n * PG_SIZE)) = u64 (v + n * PG_SIZE)).
  { apply round_down_aligned; [by apply wrap_range|]. apply Z.mod_divide; [done|]. rewrite wrap_mod by (by exists (2 ^ 52)).
    apply Z.mod_divide; [done|]. apply Z.divide_add_r; [done|]. by exists n. }
  rewrite Hve, (wrap_small 64 v) by lia. do 2 f_equal. f_equal.
  rewrite <- (wrap_small 64 v) at 2 by lia. rewrite wrap_sub_wrap. replace (v + n * PG_SIZE - v) with (n * PG_SIZE) by lia.
  by rewrite Hnp, Z.div_mul by done.
Qed.

(** An address inside the page [x]. *)
Lemma page_offset x off : 0 <= x -> (PG_SIZE | x) -> 0 <= off < PG_SIZE -> x + off < 2 ^ 64 ->
  same_page x (x + off) /\ x + off - VPN (x + off) = off.
Proof.
  intros Hx [z Hz] Ho Hb. assert (Hd : (x + off) `div` 4096 = x `div` 4096).
  { change 4096 with PG_SIZE. rewrite Hz, Z.add_comm, Z.div_add, Z.div_mul by done. rewrite Z.div_small by done. lia. }
  split.
  - intros l _. rewrite !index_div, !index_split by lia. by rewrite Hd.
  - unfold VPN. change 4095 with (PG_SIZE - 1). rewrite land_page_mask by lia. rewrite Hz, Z.add_comm, Z.mod_add by done.
    rewrite Z.mod_small by done. lia.
Qed.

Lemma ent_same_page s root v w : same_page v w -> ent s 3 root w = ent s 3 root v.
Proof. intros H. unfold ent. cbn [walk]. by rewrite <- !H by lia. Qed.

(** *** Permissions *)

Definition with_perm (e perm : Z) : Z := Z.lor (Z.lor (PPN e) (Z.land (ENTRY_FLAGS e) PTE_P)) perm.

Lemma entry_addr_facts e : (PG_SIZE | ENTRY_ADDR e) /\ 0 <= ENTRY_ADDR e < 2 ^ 51.
Proof.
  unfold ENTRY_ADDR. change PHYS_ADDR_MASK with (Z.ones 51). rewrite Z.land_ones by lia. split; [|by apply Z.mod_pos_bound].
  apply Z.mod_divide; [done|]. rewrite Z.mod_mod_divide by (by exists (2 ^ 39)). change PG_SIZE with (2 ^ 12). rewrite <- Z.land_ones by lia.
  rewrite <- Z.land_assoc. change (Z.land (u64 (Z.lnot 4095)) (Z.ones 12)) with 0. apply Z.land_0_r.
Qed.

(** Changing permissions does not change what an entry maps. *)
Lemma with_perm_ok e perm : perm ∈ [0; 2; 4; 6] -> present (with_perm e perm) = present e /\ PPN (with_perm e perm) = PPN e.
Proof.
  intros Hp. destruct (entry_addr_facts e) as [Hd Hb]. unfold with_perm, PPN. set (a := ENTRY_ADDR e) in *.
  assert (Hfl : Z.land (ENTRY_FLAGS e) PTE_P = Z.land e PTE_P).
  { unfold ENTRY_FLAGS, PTE_P. by rewrite <- Z.land_assoc. }
  rewrite Hfl. unfold present at 2. rewrite present_odd.
  assert (Z.land e PTE_P = 0 \/ Z.land e PTE_P = 1) as [-> | ->].
  { assert (Hl : Z.land e PTE_P = e `mod` 2) by (unfold PTE_P; change 1 with (Z.ones 1); by rewrite Z.land_ones).
    rewrite Hl. pose proof (Z.mod_pos_bound e 2 ltac:(lia)). lia. }
  - rewrite Z.lor_0_r. rewrite !elem_of_cons in Hp.
    assert (0 <= perm < PG_SIZE /\ Z.odd perm = false) as [Hr Ho] by (unfold PG_SIZE; destruct Hp as [->|[->|[->|[->|Hp]]]]; [done..|set_solver]).
    split; [|by apply entry_addr_ok]. rewrite lor_add by done. destruct Hd as [z ->]. unfold PG_SIZE. rewrite Z.odd_add, Z.odd_mul, Ho. by rewrite andb_false_r.
  - destruct (entry_ok a perm Hd Hb Hp) as [E1 E2]. rewrite present_odd in E2. done.
Qed.

Lemma set_perm_loop_ok root perm n : forall v s pos, wf s pos -> pos !! root = Some (3%nat, 0) ->
  0 <= v -> v + Z.of_nat n * PG_SIZE <= 2 ^ 64 -> Z.of_nat n < 2 ^ 36 -> perm ∈ [0; 2; 4; 6] ->
  exists s', set_perm_loop n root (u64 v) perm s = Ret tt s' /\ wf s' pos /\ vpmaps s' = vpmaps s /\
    (forall w, (forall k, 0 <= k < Z.of_nat n -> ~ same_page (v + k * PG_SIZE) w) -> ent s' 3 root w = ent s 3 root w) /\
    (forall k, 0 <= k < Z.of_nat n ->
       ent s' 3 root (v + k * PG_SIZE) = with_perm (ent s 3 root (v + k * PG_SIZE)) perm \/
       (walk s 3 root (v + k * PG_SIZE) = None /\ ent s' 3 root (v + k * PG_SIZE) = 0)) /\
    (forall w, walk s' 3 root w = walk s 3 root w).
Proof.
  induction n as [|n IH]; intros v s pos W Hr Hv Hend Hn Hp.
  { exists s. split_and!; try done. lia. }
  assert (Hu : u64 v = v) by (apply wrap_small; unfold PG_SIZE in *; lia). cbn [set_perm_loop].
  rewrite Hu, (bind_Ret _ _ _ _ _ (find_pte_false s pos root v W Hr)).
  set (s1 := match walk s 3 root v with
             | Some t => with_slot s t (index 0 v) (with_perm (ent s 3 root v) perm) (default ∅ (tabs s !! t)) | None => s end).
  assert (Hone : forall B (f : unit -> M (tables F A) B), bind match (fun t => (t, PTX v)) <$> walk s 3 root v with
      | None => ret tt | Some (t, i) => e <- rd t i ;; wr t i (Z.lor (Z.lor (PPN e) (Z.land (ENTRY_FLAGS e) PTE_P)) perm) end f s = f tt s1).
  { intros B f. apply bind_Ret. unfold s1. destruct (walk s 3 root v) as [t|] eqn:Hw; [|done]. cbn [fmap option_fmap option_map].
    pose proof (walk_pos s pos v 3 root t ltac:(lia) W Hr Hw) as Ht. rewrite (rd_ok s pos t _ (PTX v)) with (1 := W) (2 := Ht).
    destruct (wr_ok s pos t _ (PTX v) (with_perm (slot s t (PTX v)) perm) W Ht) as (m & Hm & E). unfold with_perm in E. rewrite E, Hm. simpl.
    unfold ent. rewrite Hw. done. }
  assert (H1 : wf s1 pos /\ vpmaps s1 = vpmaps s /\ (forall w, walk s1 3 root w = walk s 3 root w) /\
    (forall w, ~ same_page v w -> ent s1 3 root w = ent s 3 root w) /\
    (ent s1 3 root v = with_perm (ent s 3 root v) perm \/ (walk s 3 root v = None /\ ent s1 3 root v = 0))).
  { unfold s1. destruct (walk s 3 root v) as [t|] eqn:Hw; [|split_and!; try done; right; split; [done|by apply ent_zero]].
    pose proof (walk_pos s pos v 3 root t ltac:(lia) W Hr Hw) as Ht. destruct (wf_table _ _ W t _ _ Ht) as (m & Hm & _). rewrite Hm. change (default ∅ (Some m)) with m.
    assert (Hent := fun w => with_slot_ent s pos t _ (with_perm (ent s 3 root v) perm) m root v w W Hr Hw Hm eq_refl).
    split; [apply (with_slot_wf s pos t (range 3 v)); [done..|apply index_range]|]. split; [done|].
    split; [intros w; apply (with_slot_walk s pos t (range 3 v) (index 0 v) _ m w 3 root); eauto|]. split; [intros w; apply Hent|left; by apply Hent]. }
  destruct H1 as (W1 & Hv1 & Hw1 & Hsame & Hthis). rewrite Hone.
  destruct (IH (v + PG_SIZE) s1 pos W1 Hr) as (s' & E' & W' & Hv' & Hsame' & Hk' & Hw'); try (done || unfold PG_SIZE in *; lia).
  assert (Hlater : forall k, 0 <= k < Z.of_nat n -> ~ same_page (v + PG_SIZE + k * PG_SIZE) v /\ ~ same_page v (v + PG_SIZE + k * PG_SIZE)).
  { intros k Hk. replace (v + PG_SIZE + k * PG_SIZE) with (v + (k + 1) * PG_SIZE) by lia.
    split; intros Hs; [replace v with (v + 0 * PG_SIZE) in Hs at 2 by lia|replace v with (v + 0 * PG_SIZE) in Hs at 1 by lia]; apply pages_differ in Hs; lia. }
  exists s'. split; [exact E'|]. split; [done|]. split; [congruence|]. split; [|split].
  - intros w Hw. rewrite Hsame'; [apply Hsame|].
    + specialize (Hw 0 ltac:(lia)). by rewrite Z.add_0_r in Hw.
    + intros k Hk. replace (v + PG_SIZE + k * PG_SIZE) with (v + (k + 1) * PG_SIZE) by lia. apply Hw. lia.
  - intros k Hk. destruct (decide (k = 0)) as [->|].
    + rewrite !Z.add_0_r, Hsame'; [done|]. intros k Hk2. by apply Hlater.
    + specialize (Hk' (k - 1) ltac:(lia)). specialize (Hlater (k - 1) ltac:(lia)).
      replace (v + PG_SIZE + (k - 1) * PG_SIZE) with (v + k * PG_SIZE) in * by lia. rewrite Hw1, (Hsame (v + k * PG_SIZE)) in Hk' by apply Hlater. done.
  - intros w. by rewrite Hw', Hw1.
Qed.

(** *** Unmapping *)

(** The indices of the end of a range inside one page table. *)
Lemma end_index v n : 0 <= v -> (PG_SIZE | v) -> 0 < n -> index 0 v + n < 512 ->
  index 0 (v + n * PG_SIZE) = index 0 v + n /\ (forall l, index (S l) (v + n * PG_SIZE) = index (S l) v) /\
  index 3 (v + n * PG_SIZE - 1) = index 3 v.
Proof.
  intros Hv [z Hz] Hn Hi. assert (H0 : forall x, 0 <= x -> index 0 (x * 4096) = x `mod` 512).
  { intros x Hx. rewrite index_div, index_split by lia. change (512 ^ Z.of_nat 0) with 1. by rewrite Z.div_1_r, Z.div_mul by lia. }
  assert (HS : forall l x, 0 <= x -> index (S l) x = (x `div` 4096 `div` 512 `div` 512 ^ Z.of_nat l) `mod` 512).
  { intros l x Hx. rewrite index_div, index_split by lia. rewrite Nat2Z.inj_succ, Z.pow_succ_r by lia. by rewrite <- Z.div_div by (try apply Z.pow_pos_nonneg; lia). }
  unfold PG_SIZE in *. subst v. replace (z * 4096 + n * 4096) with ((z + n) * 4096) by lia. rewrite H0 in * by lia. rewrite H0 by lia.
  pose proof (Z.div_mod z 512 ltac:(lia)) as Hz5. pose proof (Z.mod_pos_bound z 512 ltac:(lia)).
  assert (Hdiv : forall k, 0 <= k -> z `mod` 512 + k < 512 -> (z + k) `div` 512 = z `div` 512 /\ (z + k) `mod` 512 = z `mod` 512 + k).
  { intros k Hk Hk5. replace (z + k) with (z `mod` 512 + k + z `div` 512 * 512) by lia.
    rewrite Z.div_add, Z.mod_add by lia. rewrite Z.div_small, (Z.mod_small (_ + k)) by lia. lia. }
  destruct (Hdiv n ltac:(lia) ltac:(lia)) as [E1 E2]. split; [done|]. split.
  - intros l. rewrite !HS by lia. rewrite !Z.div_mul by lia. by rewrite E1.
  - rewrite !HS by lia. replace ((z + n) * 4096 - 1) with (4095 + (z + (n - 1)) * 4096) by lia. rewrite Z.div_add, Z.div_mul by lia.
    change (4095 `div` 4096) with 0. destruct (Hdiv (n - 1) ltac:(lia) ltac:(lia)) as [E3 _]. by rewrite Z.add_0_l, E3.
Qed.

Lemma clear_ptes_inv t n : forall ptx s s' m, tabs s !! t = Some m -> clear_ptes n t ptx s = Ret tt s' ->
  exists m', tabs s' = <[t := m']> (tabs s) /\ forall j, ptx <= j < ptx + Z.of_nat n -> default 0 (m' !! j) = 0.
Proof.
  assert (Hkeep : forall n ptx s s' m, tabs s !! t = Some m -> clear_ptes n t ptx s = Ret tt s' ->
    exists m', tabs s' = <[t := m']> (tabs s) /\ (forall j, ptx <= j < ptx + Z.of_nat n -> default 0 (m' !! j) = 0) /\
      forall j, j < ptx -> m' !! j = m !! j).
  { clear n. induction n as [|n IH]; intros ptx s s' m Hm; cbn [clear_ptes].
    - intros [= <-]. exists m. split_and!; [by rewrite insert_id|lia|done].
    - intros (u & s1 & E1 & E2)%bind_inv. unfold clear_pte in E1. apply bind_inv in E1 as (e & s2 & Er & E1).
      unfold rd in Er. rewrite Hm in Er. injection Er as <- <-. apply bind_inv in E1 as (u' & s3 & E3 & E1).
      assert (Ht3 : tabs s3 = tabs s).
      { destruct (present _); [|by injection E3 as _ <-]. unfold in_frames, zoom in E3. destruct (fdec _ (frames s)); [|done]. by injection E3 as _ <-. }
      unfold wr in E1. rewrite Ht3, Hm in E1. injection E1 as _ <-.
      destruct (IH (ptx + 1) _ s' (<[ptx := 0]> m) (lookup_insert_eq _ _ _) E2) as (m' & Ht & Hz & Hk). exists m'.
      split; [rewrite Ht; simpl; by rewrite insert_insert_eq|]. split.
      + intros j Hj. destruct (decide (j = ptx)) as [->|]; [|apply Hz; lia]. rewrite Hk by lia. by rewrite lookup_insert_eq.
      + intros j Hj. rewrite Hk by lia. apply lookup_insert_ne. lia. }
  intros ptx s s' m Hm E. destruct (Hkeep n ptx s s' m Hm E) as (m' & H1 & H2 & _). eauto.
Qed.

Lemma walk_level0 s s' pos t q m' w l : wf s pos -> pos !! t = Some (0%nat, q) -> tabs s' = <[t := m']> (tabs s) ->
  forall r, (exists q', pos !! r = Some (l, q')) -> walk s' l r w = walk s l r w.
Proof.
  intros W Ht Hs. induction l as [|l IH]; intros r [q' Hr]; [done|]. cbn [walk].
  assert (Hc : child s' r (index (S l) w) = child s r (index (S l) w)).
  { unfold child. rewrite Hs, lookup_insert_ne; [done|]. intros <-. congruence. }
  rewrite Hc. destruct (child s r (index (S l) w)) as [t1|] eqn:E; [|done]. simpl. apply IH. eexists. by apply (child_pos s pos r l q').
Qed.

(** One level of the unmapping loops that looks at one entry only. *)
Lemma unmap_present s pos t l q i (f : Z -> M (tables F A) unit) : wf s pos -> pos !! t = Some (S l, q) ->
  bind (rd t i) (fun e => bind (if present e then bind (f (KMAP_P2V (ENTRY_ADDR e))) (fun _ => ret tt) else ret tt) (fun _ => ret tt)) s =
  match child s t i with Some t' => bind (f t') (fun _ => ret tt) s | None => Ret tt s end.
Proof.
  intros W Ht. destruct (wf_table _ _ W t _ _ Ht) as (m & Hm & _). rewrite (rd_ok s pos t (S l, q)) by done.
  rewrite (child_slot s t i m Hm). destruct (present (slot s t i)); [|done]. unfold bind, ret. by destruct (f _ s) as [[]|].
Qed.

(** [vpmap_unmap] of a range inside one page table clears the entries up to
    the end of the table. *)
Lemma vpmap_unmap_run s pos vpmap root v n : wf s pos -> vpmap <> 0 -> vpmaps s !! vpmap = Some root -> pos !! root = Some (3%nat, 0) ->
  0 <= v -> (PG_SIZE | v) -> 0 < n -> index 0 v + n < 512 -> v + n * PG_SIZE < 2 ^ 64 ->
  vpmap_unmap vpmap v n s = match walk s 3 root v with
                            | Some t => clear_ptes (Z.to_nat (512 - PTX v)) t (PTX v) s
                            | None => Ret tt s
                            end.
Proof.
  intros W H0 Hv Hr Hv0 Hd Hn Hi Hb. pose proof (table_nz s pos root _ W Hr). unfold vpmap_unmap. rewrite (proj2 (Z.eqb_neq vpmap 0) H0).
  rewrite (bind_Ret (get_pml4 vpmap) _ s root s) by (unfold get_pml4; by rewrite Hv).
  rewrite (proj2 (Z.eqb_neq root 0)), (proj2 (Z.eqb_neq n 0)) by lia. cbn [orb].
  rewrite round_down_aligned by (done || unfold PG_SIZE in *; lia). rewrite (wrap_small 64 (v + n * PG_SIZE)) by (unfold PG_SIZE in *; lia).
  destruct (end_index v n Hv0 Hd Hn Hi) as (E0 & ES & E3). change (PML4X v) with (index 3 v). change (PML4X (v + n * PG_SIZE)) with (index 3 (v + n * PG_SIZE)).
  rewrite bind_kassert by (rewrite ES; lia). unfold unmap_pages. rewrite wrap_small by (unfold PG_SIZE in *; lia).
  change (PML4X (v + n * PG_SIZE - 1)) with (index 3 (v + n * PG_SIZE - 1)). change (PML4X v) with (index 3 v).
  rewrite E3. rewrite bind_kassert by lia. replace (Z.to_nat (index 3 v + 1 - index 3 v)) with 1%nat by lia.
  cbn [unmap_pages_loop]. change (PDPTX (v + n * PG_SIZE)) with (index 2 (v + n * PG_SIZE)). change (PDPTX v) with (index 2 v). rewrite ES.
  assert (Hlim : forall x, limit x x = x + 1) by (intros x; unfold limit; by rewrite Z.ltb_irrefl). rewrite Hlim.
  rewrite (unmap_present s pos root 2 0 (index 3 v) (fun t => unmap_pdpt t v (v + n * PG_SIZE) (index 2 v) (index 2 v + 1) false) W Hr).
  cbn [walk]. destruct (child s root (index 3 v)) as [t1|] eqn:C1; [|done]. pose proof (child_pos s pos root 2 0 _ t1 W Hr C1) as P1. cbn [mbind option_bind].
  unfold unmap_pdpt. replace (Z.to_nat (index 2 v + 1 - index 2 v)) with 1%nat by lia. cbn [unmap_pdpt_loop].
  change (PDX (v + n * PG_SIZE)) with (index 1 (v + n * PG_SIZE)). change (PDX v) with (index 1 v). rewrite ES, Hlim.
  set (r1 := bind (rd t1 (index 2 v)) _). assert (Hr1 : r1 s = match child s t1 (index 2 v) with
      | Some t2 => bind (unmap_pd t2 v (v + n * PG_SIZE) (index 1 v) (index 1 v + 1) false) (fun _ => ret tt) s | None => Ret tt s end).
  { apply (unmap_present s pos t1 1 _ (index 2 v) (fun t => unmap_pd t v (v + n * PG_SIZE) (index 1 v) (index 1 v + 1) false) W P1). }
  unfold bind at 1. rewrite Hr1. destruct (child s t1 (index 2 v)) as [t2|] eqn:C2; [|done]. pose proof (child_pos s pos t1 1 _ _ t2 W P1 C2) as P2. cbn [mbind option_bind].
  unfold unmap_pd. replace (Z.to_nat (index 1 v + 1 - index 1 v)) with 1%nat by lia. cbn [unmap_pd_loop].
  change (PTX (v + n * PG_SIZE)) with (index 0 (v + n * PG_SIZE)). change (PTX v) with (index 0 v). rewrite E0. clear Hr1 r1.
  assert (Hl0 : limit (index 0 v) (index 0 v + n) = 512) by (unfold limit; rewrite (proj2 (Z.ltb_lt _ _)) by lia; done). rewrite Hl0.
  set (r2 := bind (rd t2 (index 1 v)) _). assert (Hr2 : r2 s = match child s t2 (index 1 v) with
      | Some t3 => bind (clear_ptes (Z.to_nat (512 - index 0 v)) t3 (index 0 v)) (fun _ => ret tt) s | None => Ret tt s end).
  { apply (unmap_present s pos t2 0 _ (index 1 v) (fun t => clear_ptes (Z.to_nat (512 - index 0 v)) t (index 0 v)) W P2). }
  unfold bind. rewrite Hr2. destruct (child s t2 (index 1 v)) as [t3|]; [|done]. cbn [mbind option_bind]. unfold bind, ret.
  by destruct (clear_ptes _ t3 _ s) as [[]|].
Qed.

(** The states in which a vpmap has a page table tree. *)
Definition has_root s pos (vpmap root : Z) : Prop :=
  wf s pos /\ vpmap <> 0 /\ vpmaps s !! vpmap = Some root /\ pos !! root = Some (3%nat, 0).

Lemma lookup_root s pos vpmap root v : has_root s pos vpmap root ->
  vpmap_lookup_vaddr vpmap v s = Ret (lookup_result (ent s 3 root v) v) s.
Proof. intros (W & H0 & Hv & Hr). by apply (lookup_ok s pos). Qed.

(** The page number an entry belongs to, within the 48 bits that are
    translated. *)
Lemma other_page v n w : 0 <= v -> (PG_SIZE | v) -> 0 <= w -> v + n * PG_SIZE <= 2 ^ 48 -> w < 2 ^ 48 -> w < v \/ v + n * PG_SIZE <= w ->
  forall k, 0 <= k < n -> ~ same_page (v + k * PG_SIZE) w.
Proof.
  intros Hv [z ->] Hw Hn Hw2 Hout k Hk Hs. unfold PG_SIZE in *.
  assert (E : ((z * 4096 + k * 4096) `div` 4096) `mod` 512 ^ 4 = (w `div` 4096) `mod` 512 ^ 4).
  { apply digits_eq; [apply Z.div_pos; lia..|]. intros l Hl. specialize (Hs l Hl). rewrite !index_div, !index_split in Hs by lia. done. }
  pose proof (Z.div_mod w 4096 ltac:(lia)). pose proof (Z.mod_pos_bound w 4096 ltac:(lia)).
  replace (z * 4096 + k * 4096) with ((z + k) * 4096) in E by lia. rewrite Z.div_mul in E by lia.
  rewrite !Z.mod_small in E by (change (512 ^ 4) with (2 ^ 36); lia). lia.
Qed.

(** C19. Mapping [n] pages and looking an address up again: [vpmap_map] runs to
    the end; it answers ERR_VPMAP_MAP when no page is left for a table, or
    every address of the range translates to the corresponding physical
    address.  The translation of an address outside of the range stays as it
    was in both cases, and the tables stay well formed. *)
Theorem vpmap_map_lookup_roundtrip s pos vpmap root vaddr paddr n memperm :
  has_root s pos vpmap root -> 0 <= vaddr -> 0 <= paddr -> 0 < n < 2 ^ 36 ->
  pg_round_down vaddr + n * PG_SIZE <= 2 ^ 48 -> pg_round_down paddr + n * PG_SIZE <= 2 ^ 51 ->
  vaddr < 2 ^ 64 -> paddr < 2 ^ 64 -> 0 <= memperm <= 3 ->
  exists e s' pos', vpmap_map vpmap vaddr paddr n memperm s = Ret e s' /\ has_root s' pos' vpmap root /\ pos ⊆ pos' /\
    (forall w, 0 <= w < 2 ^ 48 -> w < pg_round_down vaddr \/ pg_round_down vaddr + n * PG_SIZE <= w ->
       exists r, vpmap_lookup_vaddr vpmap w s = Ret r s /\ vpmap_lookup_vaddr vpmap w s' = Ret r s') /\
    (e = ERR_VPMAP_MAP \/
     (e = ERR_OK /\ forall k off, 0 <= k < n -> 0 <= off < PG_SIZE ->
        vpmap_lookup_vaddr vpmap (pg_round_down vaddr + k * PG_SIZE + off) s' =
        Ret (ERR_OK, pg_round_down paddr + k * PG_SIZE + off) s')).
Proof.
  intros (W & H0 & Hv & Hr) Hva Hpa Hn Hve Hpe Hv6 Hp6 Hmp. destruct (pteperm_ok memperm s Hmp) as (perm & Hperm & Hin).
  destruct (round_down_facts vaddr) as (Hv1 & Hv2 & _); [lia|]. destruct (round_down_facts paddr) as (Hp1 & Hp2 & _); [lia|].
  rewrite (vpmap_map_run s vpmap root vaddr paddr n memperm perm) by (try done; try (by eapply table_nz); unfold PG_SIZE in *; lia).
  set (v := pg_round_down vaddr) in *. set (p := pg_round_down paddr) in *.
  destruct (map_loop_ok root perm (Z.to_nat n) v p s pos W Hr) as (e & s' & pos' & E & W' & Hsub & Hvp & Hsame & Hcase);
    try (unfold PG_SIZE in *; done || lia). rewrite !Z2Nat.id in * by lia.
  assert (Hroot : has_root s' pos' vpmap root) by (split_and!; [done|done|congruence|by eapply lookup_weaken]).
  exists e, s', pos'. split; [done|]. split; [done|]. split; [done|]. split.
  - intros w Hw Hout. exists (lookup_result (ent s 3 root w) w). split; [by apply (lookup_root s pos)|].
    rewrite (lookup_root s' pos' vpmap root w Hroot). rewrite Hsame; [done|]. apply other_page; first [done|lia].
  - destruct Hcase as [->|[-> Hk]]; [by left|right]. split; [done|]. intros k off Hk1 Ho. rewrite (lookup_root s' pos' vpmap root _ Hroot).
    assert (Hd : (PG_SIZE | v + k * PG_SIZE)) by (apply Z.divide_add_r; [done|by exists k]).
    destruct (page_offset (v + k * PG_SIZE) off) as [Hs Hoff]; [unfold PG_SIZE in *; lia|done|done|unfold PG_SIZE in *; lia|].
    rewrite (ent_same_page s' root _ _ Hs), Hk by done.
    destruct (entry_ok (p + k * PG_SIZE) perm) as [E1 E2]; [apply Z.divide_add_r; [done|by exists k]|unfold PG_SIZE in *; lia|done|].
    unfold lookup_result. rewrite E2, Hoff. unfold PPN. by rewrite E1.
Qed.

(** Changing permissions: [vpmap_set_perm] gives the entries of the [n] pages
    that have one the new permission bits and changes no other entry; what
    every address translates to stays the same. *)
Theorem vpmap_set_perm_correct s pos vpmap root vaddr n memperm :
  has_root s pos vpmap root -> 0 <= vaddr < 2 ^ 64 -> 0 <= n < 2 ^ 36 ->
  pg_round_down vaddr + n * PG_SIZE <= 2 ^ 48 -> 0 <= memperm <= 3 ->
  exists s' perm, vpmap_set_perm vpmap vaddr n memperm s = Ret tt s' /\ memperm_to_pteperm memperm s = Ret perm s /\
    has_root s' pos vpmap root /\
    (forall w, exists r, vpmap_lookup_vaddr vpmap w s = Ret r s /\ vpmap_lookup_vaddr vpmap w s' = Ret r s') /\
    (forall k, 0 <= k < n -> walk s 3 root (pg_round_down vaddr + k * PG_SIZE) <> None ->
       ent s' 3 root (pg_round_down vaddr + k * PG_SIZE) = with_perm (ent s 3 root (pg_round_down vaddr + k * PG_SIZE)) perm) /\
    (forall w, 0 <= w < 2 ^ 48 -> w < pg_round_down vaddr \/ pg_round_down vaddr + n * PG_SIZE <= w -> ent s' 3 root w = ent s 3 root w).
Proof.
  intros (W & H0 & Hv & Hr) Hva Hn Hve Hmp. destruct (pteperm_ok memperm s Hmp) as (perm & Hperm & Hin).
  destruct (round_down_facts vaddr Hva) as (Hv1 & Hv2 & _). unfold vpmap_set_perm. rewrite bind_kassert by lia.
  rewrite (bind_Ret (get_pml4 vpmap) _ s root s) by (unfold get_pml4; by rewrite Hv). rewrite (bind_Ret _ _ _ _ _ Hperm).
  set (v := pg_round_down vaddr) in *.
  destruct (set_perm_loop_ok root perm (Z.to_nat n) v s pos W Hr) as (s' & E & W' & Hvp & Hsame & Hk & Hw);
    try (unfold PG_SIZE in *; done || lia). rewrite !Z2Nat.id in * by lia. rewrite wrap_small in E by lia.
  assert (Hroot : has_root s' pos vpmap root) by (split_and!; [done|done|congruence|done]).
  assert (Hent : forall w, lookup_result (ent s' 3 root w) w = lookup_result (ent s 3 root w) w).
  { intros w. destruct (decide (Exists (fun k => same_page (v + Z.of_nat k * PG_SIZE) w) (seq 0 (Z.to_nat n)))) as [Hin2|Hnot].
    - apply Exists_exists in Hin2 as (k & Hkin & Hs). apply elem_of_seq in Hkin. rewrite !(ent_same_page _ root _ w Hs).
      destruct (Hk (Z.of_nat k) ltac:(lia)) as [-> | [Hnone ->]]; [|by rewrite (ent_zero s 3 root _ Hnone)].
      unfold lookup_result. destruct (with_perm_ok (ent s 3 root (v + Z.of_nat k * PG_SIZE)) perm Hin) as [-> ->]. done.
    - rewrite Hsame; [done|]. intros k Hkn Hs. apply Hnot. apply Exists_exists. exists (Z.to_nat k). rewrite elem_of_seq, Z2Nat.id by lia. split; [lia|done]. }
  exists s', perm. split; [done|]. split; [done|]. split; [done|]. split; [|split].
  - intros w. eexists. split; [by apply (lookup_ok s pos vpmap root)|]. rewrite (lookup_root s' pos vpmap root w Hroot). by rewrite Hent.
  - intros k Hkn Hne. by destruct (Hk k Hkn) as [?|[? _]].
  - intros w Hw2 Hout. apply Hsame. apply other_page; first [done|lia].
Qed.

(** Unmapping clears too much: when [vpmap_unmap] of [n] pages that lie inside
    one page table returns, the entries of all later pages of this table are
    gone too, whatever [n] is. *)
Theorem vpmap_unmap_overreach s pos vpmap root v n s' w :
  has_root s pos vpmap root -> 0 <= v -> (PG_SIZE | v) -> 0 < n -> index 0 v + n < 512 -> v + n * PG_SIZE < 2 ^ 64 ->
  vpmap_unmap vpmap v n s = Ret tt s' ->
  (forall l, (1 <= l <= 3)%nat -> index l w = index l v) -> index 0 v <= index 0 w ->
  ent s' 3 root w = 0.
Proof.
  intros (W & H0 & Hv & Hr) Hv0 Hd Hn Hi Hb E Hl Hw. rewrite (vpmap_unmap_run s pos vpmap root v n) in E by done.
  assert (Hwk : walk s 3 root w = walk s 3 root v) by (cbn [walk]; by rewrite !Hl by lia).
  destruct (walk s 3 root v) as [t|] eqn:Ht; [|injection E as <-; by apply ent_zero].
  pose proof (walk_pos s pos v 3 root t ltac:(lia) W Hr Ht) as Hp. destruct (wf_table _ _ W t _ _ Hp) as (m & Hm & _).
  destruct (clear_ptes_inv t _ _ s s' m Hm E) as (m' & Hs' & Hz). unfold ent.
  rewrite (walk_level0 s s' pos t _ m' w 3 W Hp Hs' root) by eauto. rewrite Hwk. simpl. unfold slot. rewrite Hs', lookup_insert_eq. simpl.
  pose proof (index_range 0 w). pose proof (index_range 0 v). apply Hz. change (PTX v) with (index 0 v). rewrite Z2Nat.id by lia. lia.
Qed.

End tree.

(** The page tables implement the interface that the address spaces use.  A
    run that has stopped stays stopped. *)
Section instance.
Context {F : Type} `{!FrameAlloc F} {A : Type} `{!ObjAlloc A} (kvpmap : Z).

Definition run {B} (m : M (tables F A) B) (failed : B) (v : outcome (tables F A) unit) : B * outcome (tables F A) unit :=
  match v with
  | Halt w s => (failed, Halt w s)
  | Ret _ s => match m s with Ret b s' => (b, Ret tt s') | Halt w s' => (failed, Halt w s') end
  end.

Definition page_tables : PageMap (outcome (tables F A) unit) := {|
  Vm.vpmap_create v := let '(p, v') := run vpmap_create 0 v in (if p =? 0 then None else Some p, v');
  Vm.vpmap_copy_kernel_mapping d := run (vpmap_copy_kernel_mapping kvpmap d) ERR_OK;
  Vm.vpmap_destroy p v := (run (vpmap_destroy kvpmap p) tt v).2;
  Vm.vpmap_unmap p a n _ v := (run (vpmap_unmap p a n) tt v).2;
  Vm.vpmap_set_perm p a n perm v := (run (vpmap_set_perm p a n perm) tt v).2;
  Vm.vpmap_cow_copy p q a b n := run (vpmap_cow_copy kvpmap p q a b n) ERR_OK;
|}.
End instance.

(** ** A tree with two mapped pages *)

Definition ex_pos : gmap Z (nat * Z) :=
  {[ KMAP_P2V 4096 := (3%nat, 0); KMAP_P2V 8192 := (2%nat, 0); KMAP_P2V 12288 := (1%nat, 0); KMAP_P2V 16384 := (0%nat, 0) ]}.
Definition ex_tables : tables BumpFrames.bframes Bump.bump := mkTables
  {[ KMAP_P2V 4096 := {[ 0 := 8199 ]}; KMAP_P2V 8192 := {[ 0 := 12295 ]}; KMAP_P2V 12288 := {[ 0 := 16391 ]};
     KMAP_P2V 16384 := {[ 0 := 20487; 1 := 24583 ]} ]}
  (BumpFrames.mkBframes 28672 1048576 {[ 4096 := 1; 8192 := 1; 12288 := 1; 16384 := 1; 20480 := 1; 24576 := 1 ]})
  {[ 1 := KMAP_P2V 4096 ]} (Bump.mkBump 1 2 {[ 1 ]}) 0 1.

Lemma ex_root : has_root ex_tables ex_pos 1 (KMAP_P2V 4096).
Proof.
  split; [|by split_and!]. split.
  - split; [done|]. split; [by exists 7|]. split; [done|]. assert (Hc : forall a, 0 <= BumpFrames.fcount (frames ex_tables) a /\
      (0 < BumpFrames.fcount (frames ex_tables) a -> a ∈ [4096; 8192; 12288; 16384; 20480; 24576])).
    { intros a. unfold BumpFrames.fcount. simpl. destruct (_ !! a) as [c|] eqn:E; [|done]. rewrite !lookup_insert_Some, lookup_singleton_Some in E.
      split; [simpl; naive_solver lia|]. intros _. rewrite !elem_of_cons. naive_solver. }
    split; intros a; [|apply Hc]. intros Ha%(proj2 (Hc a)). revert a Ha. apply Forall_forall.
    repeat (apply Forall_cons_2; [split_and!; [done|by apply Z.mod_divide|done]|]). by constructor.
  - intros t l q. unfold ex_pos. rewrite !lookup_insert_Some, lookup_singleton_Some.
    intros Ht; repeat (destruct_or? || destruct_and?); simplify_eq; (eexists; split; [reflexivity|]); intros i e;
      rewrite ?lookup_insert_Some, lookup_singleton_Some; intros; repeat (destruct_or? || destruct_and?); subst; (split; [done|]); intros l' [= <-] _; reflexivity.
  - intros t x. unfold ex_pos. rewrite !lookup_insert_Some, lookup_singleton_Some.
    intros Ht; repeat (destruct_or? || destruct_and?); simplify_eq; eexists; (split; [reflexivity|done]).
Qed.

Lemma vpmap_map_lookup_roundtrip_witness :
  exists s', vpmap_map 1 1073741824 20480 2 MEMPERM_URW ex_tables = Ret ERR_OK s' /\
    vpmap_lookup_vaddr 1 (1073741824 + 1 * PG_SIZE + 17) s' = Ret (ERR_OK, 20480 + 1 * PG_SIZE + 17) s'.
Proof.
  destruct (vpmap_map_lookup_roundtrip ex_tables ex_pos 1 (KMAP_P2V 4096) 1073741824 20480 2 MEMPERM_URW)
    as (e & s' & pos' & E & _ & _ & _ & H); [apply ex_root|by vm_compute..|].
  exists s'. destruct H as [->|[-> H]]; [exfalso; vm_compute in E; discriminate E|]. split; [exact E|].
  change (pg_round_down 1073741824) with 1073741824 in H. change (pg_round_down 20480) with 20480 in H. refine (H 1 17 _ _); clear; done.
Defined.

Lemma vpmap_set_perm_correct_witness : exists s', vpmap_set_perm 1 0 2 MEMPERM_R ex_tables = Ret tt s' /\
  ent ex_tables 3 (KMAP_P2V 4096) 4096 = 24583 /\ ent s' 3 (KMAP_P2V 4096) 4096 = 24577.
Proof.
  destruct (vpmap_set_perm_correct ex_tables ex_pos 1 (KMAP_P2V 4096) 0 2 MEMPERM_R) as (s' & perm & E & Hp & _ & _ & H & _);
    [apply ex_root|by vm_compute..|]. exists s'. split; [exact E|]. split; [reflexivity|]. change (memperm_to_pteperm MEMPERM_R ex_tables) with (Ret 0 ex_tables) in Hp.
  assert (perm = 0) as -> by congruence. change (pg_round_down 0) with 0 in H. clear E Hp. refine (eq_trans (H 1 _ _) eq_refl); done.
Defined.

Lemma vpmap_unmap_overreach_witness : exists s', vpmap_unmap 1 0 1 ex_tables = Ret tt s' /\
  ent ex_tables 3 (KMAP_P2V 4096) 4096 = 24583 /\ ent s' 3 (KMAP_P2V 4096) 4096 = 0.
Proof.
  assert (Hs : forall s', vpmap_unmap 1 0 1 ex_tables = Ret tt s' -> ent s' 3 (KMAP_P2V 4096) 4096 = 0).
  { intros s' E. refine (vpmap_unmap_overreach ex_tables ex_pos 1 (KMAP_P2V 4096) 0 1 s' 4096 ex_root _ _ _ _ _ E _ _);
      clear; [done|by exists 0|done|done|done| |by vm_compute].
    intros l Hl. assert (l = 1 \/ l = 2 \/ l = 3)%nat as [->|[->| ->]] by lia; reflexivity. }
  eexists. split; [vm_compute; reflexivity|]. split; [reflexivity|]. apply Hs. vm_compute. reflexivity.
Defined.

End Vpmap.
