(* ===== verification/Bdev.v ===== *)
(** * Block devices: kernel/bdev.c, kernel/bdevms.c, kernel/mm/pgcache.c

    Blocks of 512 bytes are cached in pages, eight to a page; a block is
    reached through its header, which a client holds locked while it works on
    the data.  A page is named by its physical address.  The device is the
    history of the blocks written to it, the last write first, over its
    initial contents [disk0].  The model follows one thread: a sleeplock that
    is held makes the thread wait. *)

From S2P Require Import Prelude Page Alloc Lib RadixTree.
Local Open Scope kernel_scope.
Set Default Proof Using "Type".
Import Page Bits.

Module Bdev.

Definition BDEV_BLK_SIZE : Z := 512.
Definition N_BLKS_PER_PAGE : Z := PG_SIZE `div` BDEV_BLK_SIZE.
Definition FIRST_BLK_IN_PAGE (blk : Z) : Z := blk `div` N_BLKS_PER_PAGE * N_BLKS_PER_PAGE.
Definition BLK_HEADER_VALID : Z := 0.
Definition BLK_HEADER_DIRTY : Z := 1.
Definition ERR_MEMSTORE_NOMEM : err_t := 1.

(** The bytes of a block. *)
Abbreviation block := (list Z).

Record blk_header := mkBh {
  bh_lock : bool;
  bh_blk : Z;
  bh_page : Z;
  bh_data : Z;
  bh_state : Z;
  bh_ref : Z;
}.

(** The fields of [struct page] that the block layer uses. *)
Record cpage := mkCpage { pg_lock : bool; blk_headers : list Z; pg_dirty : bool }.

Inductive bio_op_t := BIO_READ | BIO_WRITE.
Record bio := mkBio { bio_blk : Z; bio_size : Z; bio_buffer : Z; bio_op : bio_op_t }.

(** The contents of a device after a history of writes. *)
Fixpoint dread (disk0 : Z -> block) (ws : list (Z * block)) (b : Z) : block :=
  match ws with
  | [] => disk0 b
  | (b', x) :: ws' => if b' =? b then x else dread disk0 ws' b
  end.

Section model.
Context {A : Type} `{!ObjAlloc A} {F : Type} `{!FrameAlloc F} {T : Type} `{!PtrMap T}.
(** The initial contents of the device, and the contents of the state field of
    freshly allocated header memory. *)
Context (disk0 : Z -> block) (junk : Z -> Z).

(** [mem] has the block buffers of the pages by address; [cached_pages] and
    [pgcache_lock] are those of the device's memory store. *)
Record bcache := mkBcache {
  disk : list (Z * block);
  mem : gmap Z block;
  bhs : gmap Z blk_header;
  pages : gmap Z cpage;
  blk_header_allocator : A;
  bio_allocator : A;
  frames : F;
  cached_pages : T;
  pgcache_lock : bool;
}.

Definition set_disk (x : list (Z * block)) (s : bcache) : bcache :=
  mkBcache x (mem s) (bhs s) (pages s) (blk_header_allocator s) (bio_allocator s) (frames s) (cached_pages s) (pgcache_lock s).
Definition set_mem (x : gmap Z block) (s : bcache) : bcache :=
  mkBcache (disk s) x (bhs s) (pages s) (blk_header_allocator s) (bio_allocator s) (frames s) (cached_pages s) (pgcache_lock s).
Definition set_bhs (x : gmap Z blk_header) (s : bcache) : bcache :=
  mkBcache (disk s) (mem s) x (pages s) (blk_header_allocator s) (bio_allocator s) (frames s) (cached_pages s) (pgcache_lock s).
Definition set_pages (x : gmap Z cpage) (s : bcache) : bcache :=
  mkBcache (disk s) (mem s) (bhs s) x (blk_header_allocator s) (bio_allocator s) (frames s) (cached_pages s) (pgcache_lock s).
Definition set_bh_alloc (x : A) (s : bcache) : bcache :=
  mkBcache (disk s) (mem s) (bhs s) (pages s) x (bio_allocator s) (frames s) (cached_pages s) (pgcache_lock s).
Definition set_bio_alloc (x : A) (s : bcache) : bcache :=
  mkBcache (disk s) (mem s) (bhs s) (pages s) (blk_header_allocator s) x (frames s) (cached_pages s) (pgcache_lock s).
Definition set_frames (x : F) (s : bcache) : bcache :=
  mkBcache (disk s) (mem s) (bhs s) (pages s) (blk_header_allocator s) (bio_allocator s) x (cached_pages s) (pgcache_lock s).
Definition set_cached (x : T) (s : bcache) : bcache :=
  mkBcache (disk s) (mem s) (bhs s) (pages s) (blk_header_allocator s) (bio_allocator s) (frames s) x (pgcache_lock s).
Definition set_cache_lock (x : bool) (s : bcache) : bcache :=
  mkBcache (disk s) (mem s) (bhs s) (pages s) (blk_header_allocator s) (bio_allocator s) (frames s) (cached_pages s) x.

Definition get_bh (h : Z) : M bcache blk_header :=
  fun s => match bhs s !! h with Some x => Ret x s | None => Halt Fault s end.
Definition put_bh (h : Z) (x : blk_header) : M bcache unit := modify (fun s => set_bhs (<[h := x]> (bhs s)) s).
Definition get_page (p : Z) : M bcache cpage :=
  fun s => match pages s !! p with Some x => Ret x s | None => Halt Fault s end.
Definition put_page (p : Z) (x : cpage) : M bcache unit := modify (fun s => set_pages (<[p := x]> (pages s)) s).

(** Acquiring and releasing the sleeplocks of a page, of a header and of the
    page cache. *)
Definition lock_page (p : Z) : M bcache unit :=
  c <- get_page p ;; if pg_lock c then stop Block else put_page p (mkCpage true (blk_headers c) (pg_dirty c)).
Definition unlock_page (p : Z) : M bcache unit :=
  c <- get_page p ;; kassert (pg_lock c) ;; put_page p (mkCpage false (blk_headers c) (pg_dirty c)).
Definition set_bh_lock (l : bool) (x : blk_header) : blk_header := mkBh l (bh_blk x) (bh_page x) (bh_data x) (bh_state x) (bh_ref x).
Definition set_bh_ref (r : Z) (x : blk_header) : blk_header := mkBh (bh_lock x) (bh_blk x) (bh_page x) (bh_data x) (bh_state x) r.
Definition set_bh_state (st : Z) (x : blk_header) : blk_header := mkBh (bh_lock x) (bh_blk x) (bh_page x) (bh_data x) st (bh_ref x).
Definition lock_bh (h : Z) : M bcache unit :=
  x <- get_bh h ;; if bh_lock x then stop Block else put_bh h (set_bh_lock true x).
Definition unlock_bh (h : Z) : M bcache unit :=
  x <- get_bh h ;; kassert (bh_lock x) ;; put_bh h (set_bh_lock false x).
Definition lock_cache : M bcache unit :=
  l <- gets pgcache_lock ;; if l : bool then stop Block else modify (set_cache_lock true).
Definition unlock_cache : M bcache unit :=
  l <- gets pgcache_lock ;; kassert l ;; modify (set_cache_lock false).

(** ** Requests *)

(** 0 is NULL. *)
Definition bio_alloc : M bcache Z :=
  fun s => match oalloc (bio_allocator s) with
           | (None, a) => Ret 0 (set_bio_alloc a s)
           | (Some p, a) => Ret p (set_bio_alloc a s)
           end.
Definition bio_free (p : Z) : M bcache unit := modify (fun s => set_bio_alloc (ofree p (bio_allocator s)) s).

(** The transfer of [n] blocks between the device and the memory at [buf]. *)
Fixpoint read_blks (n : nat) (blk buf : Z) : M bcache unit :=
  match n with
  | O => ret tt
  | S n' => modify (fun s => set_mem (<[buf := dread disk0 (disk s) blk]> (mem s)) s) ;; read_blks n' (blk + 1) (buf + BDEV_BLK_SIZE)
  end.
Fixpoint write_blks (n : nat) (blk buf : Z) : M bcache unit :=
  match n with
  | O => ret tt
  | S n' =>
      (fun s => match mem s !! buf with
                | Some x => Ret tt (set_disk ((blk, x) :: disk s) s)
                | None => Halt Fault s
                end) ;;
      write_blks n' (blk + 1) (buf + BDEV_BLK_SIZE)
  end.

(** [bdev_make_request] returns when the device has completed the request. *)
Definition bdev_make_request (b : bio) : M bcache unit :=
  match bio_op b with
  | BIO_READ => read_blks (Z.to_nat (bio_size b)) (bio_blk b) (bio_buffer b)
  | BIO_WRITE => write_blks (Z.to_nat (bio_size b)) (bio_blk b) (bio_buffer b)
  end.

(** [fillpage] of the device's memory store. *)
Definition fillpage (ofs page : Z) : M bcache err_t :=
  kassert (negb (page =? 0)) ;;
  p <- bio_alloc ;;
  if p =? 0 then ret ERR_MEMSTORE_NOMEM
  else
    bdev_make_request (mkBio (u32 (pg_round_down ofs `div` BDEV_BLK_SIZE)) (PG_SIZE `div` BDEV_BLK_SIZE) (KMAP_P2V page) BIO_READ) ;;
    bio_free p ;;
    ret ERR_OK.

(** ** The page cache *)

Definition in_frames {B} (m : M F B) : M bcache B := zoom frames set_frames m.
Definition in_cache {B} (m : M T B) : M bcache B := zoom cached_pages set_cached m.

(** 0 is NULL. *)
Definition pgcache_get_page (ofs : Z) : M bcache Z :=
  page <- in_cache (plookup (ofs `div` PG_SIZE)) ;;
  if negb (page =? 0) then ret page
  else
    o <- in_frames falloc ;;
    match o with
    | None => ret 0
    | Some paddr =>
        put_page paddr (mkCpage false [] false) ;;
        e <- fillpage ofs paddr ;;
        if negb (e =? ERR_OK) then in_frames (ffree paddr) ;; ret 0
        else
          e <- in_cache (pinsert (ofs `div` PG_SIZE) paddr) ;;
          if e =? 1 then in_frames (ffree paddr) ;; ret 0
          else if e =? 2 then stop Panic
          else ret paddr
    end.

(** ** Headers *)

Definition bdev_is_blk_valid (h : Z) : M bcache bool :=
  x <- get_bh h ;; ret (get_state_bit (bh_state x) BLK_HEADER_VALID).
Definition bdev_set_blk_valid (h : Z) (valid : bool) : M bcache unit :=
  x <- get_bh h ;; put_bh h (set_bh_state (set_state_bit (bh_state x) BLK_HEADER_VALID valid) x).
Definition bdev_is_blk_dirty (h : Z) : M bcache bool :=
  x <- get_bh h ;; ret (get_state_bit (bh_state x) BLK_HEADER_DIRTY).
Definition bdev_set_blk_dirty (h : Z) (dirty : bool) : M bcache unit :=
  x <- get_bh h ;;
  put_bh h (set_bh_state (set_state_bit (bh_state x) BLK_HEADER_DIRTY dirty) x) ;;
  if dirty then
    lock_page (bh_page x) ;;
    c <- get_page (bh_page x) ;;
    put_page (bh_page x) (mkCpage (pg_lock c) (blk_headers c) true) ;;
    unlock_page (bh_page x)
  else ret tt.

(** The loop of [init_blk_headers], with [n] headers to go. *)
Fixpoint new_headers (n : nat) (page first_blk index : Z) : M bcache err_t :=
  match n with
  | O => ret ERR_OK
  | S n' => fun s =>
      match oalloc (blk_header_allocator s) with
      | (None, a) => Ret ERR_NOMEM (set_bh_alloc a s)
      | (Some h, a) =>
          (c <- get_page page ;;
           put_page page (mkCpage (pg_lock c) (blk_headers c ++ [h]) (pg_dirty c)) ;;
           put_bh h (mkBh false (u32 (first_blk + index)) page (u64 (KMAP_P2V page + BDEV_BLK_SIZE * index)) (junk h) 0) ;;
           bdev_set_blk_valid h true ;;
           bdev_set_blk_dirty h false ;;
           new_headers n' page first_blk (index + 1)) (set_bh_alloc a s)
      end
  end.

Definition init_blk_headers (page first_blk : Z) : M bcache err_t :=
  c <- get_page page ;;
  match blk_headers c with
  | [] => new_headers (Z.to_nat N_BLKS_PER_PAGE) page first_blk 0
  | _ => ret ERR_OK
  end.

Fixpoint all_zero_ref (l : list Z) : M bcache bool :=
  match l with
  | [] => ret true
  | h :: l' => x <- get_bh h ;; if 0 <? bh_ref x then ret false else all_zero_ref l'
  end.
Definition blocks_zero_ref (page : Z) : M bcache bool := c <- get_page page ;; all_zero_ref (blk_headers c).

Fixpoint free_headers (page : Z) (l : list Z) : M bcache unit :=
  match l with
  | [] => ret tt
  | h :: l' =>
      d <- bdev_is_blk_dirty h ;;
      kassert (negb d) ;;
      c <- get_page page ;;
      put_page page (mkCpage (pg_lock c) l' (pg_dirty c)) ;;
      modify (fun s => set_bh_alloc (ofree h (blk_header_allocator s)) (set_bhs (delete h (bhs s)) s)) ;;
      free_headers page l'
  end.
Definition free_blk_headers (page : Z) : M bcache unit :=
  c <- get_page page ;;
  if pg_dirty c then ret tt else free_headers page (blk_headers c).

(** ** Blocks *)

(** The search for the header of [blk]; it takes a reference. *)
Fixpoint find_header (blk page : Z) (l : list Z) : M bcache Z :=
  match l with
  | [] => stop Panic
  | h :: l' =>
      kassert (negb (h =? 0)) ;;
      x <- get_bh h ;;
      if bh_blk x =? blk then put_bh h (set_bh_ref (u32 (bh_ref x + 1)) x) ;; unlock_page page ;; ret h
      else find_header blk page l'
  end.

(** 0 is NULL. *)
Definition bdev_get_blk_unlocked (blk : Z) : M bcache Z :=
  lock_cache ;;
  page <- pgcache_get_page (u32 (blk * BDEV_BLK_SIZE)) ;;
  unlock_cache ;;
  if page =? 0 then ret 0
  else
    lock_page page ;;
    e <- init_blk_headers page (FIRST_BLK_IN_PAGE blk) ;;
    if negb (e =? ERR_OK) then unlock_page page ;; ret 0
    else c <- get_page page ;; find_header blk page (blk_headers c).

Definition bdev_get_blk (blk : Z) : M bcache Z :=
  h <- bdev_get_blk_unlocked blk ;;
  (if negb (h =? 0) then lock_bh h else ret tt) ;;
  ret h.

Definition bdev_release_blk_unlocked (h : Z) : M bcache unit :=
  x <- get_bh h ;;
  let page := bh_page x in
  lock_page page ;;
  x <- get_bh h ;;
  kassert (0 <? bh_ref x) ;;
  put_bh h (set_bh_ref (bh_ref x - 1) x) ;;
  z <- (if bh_ref x - 1 =? 0 then blocks_zero_ref page else ret false) ;;
  (if z : bool then free_blk_headers page else ret tt) ;;
  unlock_page page.

Definition bdev_release_blk (h : Z) : M bcache unit :=
  unlock_bh h ;; bdev_release_blk_unlocked h.

Definition bdev_write_blk (h : Z) : M bcache err_t :=
  v <- bdev_is_blk_valid h ;;
  kassert v ;;
  p <- bio_alloc ;;
  if p =? 0 then ret ERR_NOMEM
  else
    x <- get_bh h ;;
    bdev_make_request (mkBio (bh_blk x) 1 (bh_data x) BIO_WRITE) ;;
    bio_free p ;;
    bdev_set_blk_dirty h false ;;
    ret ERR_OK.

(** The data of a block, which the holder of its header reads and writes. *)
Definition blk_data (h : Z) : M bcache block :=
  x <- get_bh h ;; fun s => match mem s !! bh_data x with Some b => Ret b s | None => Halt Fault s end.
Definition set_blk_data (h : Z) (b : block) : M bcache unit :=
  x <- get_bh h ;; modify (fun s => set_mem (<[bh_data x := b]> (mem s)) s).

End model.
Arguments bcache : clear implicits.

(** ** Invariant *)

Section lemmas.
Context {A : Type} `{!ObjAlloc A} {F : Type} `{!FrameAlloc F} {T : Type} `{!PtrMap T}.
Context (disk0 : Z -> block) (junk : Z -> Z).
Implicit Types s : bcache A F T.

(** [set_solver] without the section's variables in sight. *)
Local Ltac sset := try clear disk0; try clear junk; set_solver.

(** The address of block [k] of a page. *)
Definition buf (p k : Z) : Z := KMAP_P2V p + BDEV_BLK_SIZE * k.

(** The contents of a block as the clients see them: those of the cached page,
    or those on the device. *)
Definition content s (b : Z) : block :=
  let p := pget (cached_pages s) (b `div` 8) in
  if p =? 0 then dread disk0 (disk s) b else default [] (mem s !! buf p (b `mod` 8)).

Definition cached s (i p : Z) : Prop := 0 <= i < 2 ^ 30 /\ pget (cached_pages s) i = p /\ p <> 0.

Record header_ok s (h : Z) (x : blk_header) (i k : Z) : Prop := {
  ho_cached : cached s i (bh_page x);
  ho_k : 0 <= k < 8;
  ho_blk : bh_blk x = i * 8 + k /\ i < 2 ^ 20;
  ho_data : bh_data x = buf (bh_page x) k;
  ho_ref : 0 <= bh_ref x < 2 ^ 32;
  ho_valid : get_state_bit (bh_state x) BLK_HEADER_VALID = true;
  ho_list : exists c, pages s !! bh_page x = Some c /\ blk_headers c !! Z.to_nat k = Some h /\
    (get_state_bit (bh_state x) BLK_HEADER_DIRTY = true -> pg_dirty c = true);
}.

(** A page of the cache has a frame and its eight blocks; it has no header or
    one per block, unless it is locked ([l]) and its headers are being made. *)
Definition page_ok s (l i p : Z) : Prop :=
  exists c, pages s !! p = Some c /\ pg_lock c = bool_decide (p = l) /\ 0 < fref (frames s) p /\
    (forall k, 0 <= k < 8 -> is_Some (mem s !! buf p k)) /\
    (blk_headers c = [] \/ length (blk_headers c) = 8%nat \/ p = l) /\
    forall k h, blk_headers c !! k = Some h -> exists x, bhs s !! h = Some x /\ bh_page x = p /\ bh_blk x = i * 8 + Z.of_nat k.

Record inv (l : Z) s : Prop := {
  inv_frames : fok (frames s);
  inv_map : pok (cached_pages s);
  inv_bh_alloc : ook (blk_header_allocator s);
  inv_bio_alloc : ook (bio_allocator s);
  inv_page : forall i p, cached s i p -> page_ok s l i p;
  inv_inj : forall i j p, cached s i p -> cached s j p -> i = j;
  inv_hdr : forall h x, bhs s !! h = Some x -> h ∈ olive (blk_header_allocator s) /\ h <> 0 /\ exists i k, header_ok s h x i k;
}.

Lemma buf_inj f p q k j : fok f -> 0 < fref f p -> 0 < fref f q -> 0 <= k < 8 -> 0 <= j < 8 -> buf p k = buf q j -> p = q /\ k = j.
Proof.
  intros Hf Hp Hq Hk Hj. destruct (p2v_bounds f p Hf Hp) as (Ep & _ & [zp Hzp]). destruct (p2v_bounds f q Hf Hq) as (Eq & _ & [zq Hzq]).
  unfold buf. rewrite Ep, Eq. unfold PG_SIZE, BDEV_BLK_SIZE in *. lia.
Qed.

Lemma cached_frame l s i p : inv l s -> cached s i p -> 0 < fref (frames s) p.
Proof. intros I H. destruct (inv_page _ _ I i p H) as (c & _ & _ & ? & _). done. Qed.

(** A state that differs outside of the cached pages only. *)
Lemma inv_ext l s s' : inv l s -> fok (frames s') -> pok (cached_pages s') -> ook (bio_allocator s') ->
  bhs s' = bhs s -> blk_header_allocator s' = blk_header_allocator s ->
  (forall i, 0 <= i < 2 ^ 30 -> pget (cached_pages s') i = pget (cached_pages s) i) ->
  (forall i p, cached s i p -> pages s' !! p = pages s !! p /\ 0 < fref (frames s') p /\
     forall k, 0 <= k < 8 -> mem s' !! buf p k = mem s !! buf p k) -> inv l s'.
Proof.
  intros [I1 I2 I3 I4 I5 I6 I7] Hf Hp Hb Hbh Hba Hget Hsame.
  assert (Hc : forall i p, cached s' i p <-> cached s i p).
  { intros i p. unfold cached. split; intros (Hi & Hg & Hne); [rewrite Hget in Hg by done|rewrite <- Hget in Hg by done]; done. }
  split; [done|done|by rewrite Hba|done|..].
  - intros i p H%Hc. destruct (Hsame i p H) as (E1 & E2 & E3). destruct (I5 i p H) as (c & P1 & P2 & P3 & P4 & P5 & P6).
    exists c. rewrite E1, Hbh. split_and!; try done. intros k Hk. rewrite E3 by done. by apply P4.
  - intros i j p H1%Hc H2%Hc. by apply (I6 i j p).
  - intros h x. rewrite Hbh, Hba. intros Hx. destruct (I7 h x Hx) as (? & ? & i & k & [H1 H2 H3 H4 H5 H6 H7]).
    split_and!; [done|done|]. exists i, k. split; try done; [by apply Hc|]. destruct (Hsame i _ H1) as (-> & _). done.
Qed.

Lemma content_ext s s' b : disk s' = disk s -> 0 <= b < 2 ^ 33 ->
  (forall i, 0 <= i < 2 ^ 30 -> pget (cached_pages s') i = pget (cached_pages s) i) ->
  (forall i p, cached s i p -> forall k, 0 <= k < 8 -> mem s' !! buf p k = mem s !! buf p k) -> content s' b = content s b.
Proof.
  intros Hd Hb Hg Hm. assert (Hi : 0 <= b `div` 8 < 2 ^ 30) by (split; [apply Z.div_pos; lia|apply Z.div_lt_upper_bound; lia]).
  unfold content. rewrite Hg, Hd by done. destruct (Z.eqb_spec (pget (cached_pages s) (b `div` 8)) 0); [done|].
  rewrite (Hm (b `div` 8)); [done|done|]. apply Z.mod_pos_bound. lia.
Qed.

(** ** The page cache *)

Lemma read_blks_ok n : forall blk a s, exists m', read_blks disk0 n blk a s = Ret tt (set_mem m' s) /\
  (forall k, 0 <= k < Z.of_nat n -> m' !! (a + BDEV_BLK_SIZE * k) = Some (dread disk0 (disk s) (blk + k))) /\
  (forall q, (forall k, 0 <= k < Z.of_nat n -> q <> a + BDEV_BLK_SIZE * k) -> m' !! q = mem s !! q).
Proof.
  induction n as [|n IH]; intros blk a s.
  { exists (mem s). split_and!; [by destruct s|lia|done]. }
  cbn [read_blks]. set (s1 := set_mem (<[a := dread disk0 (disk s) blk]> (mem s)) s).
  destruct (IH (blk + 1) (a + BDEV_BLK_SIZE) s1) as (m' & E & Hk & Hq). exists m'. split; [exact E|]. unfold BDEV_BLK_SIZE in *. split.
  - intros k Hkn. destruct (decide (k = 0)) as [->|].
    + rewrite Hq by lia. unfold s1. simpl. rewrite !Z.add_0_r, lookup_insert_eq. done.
    + specialize (Hk (k - 1) ltac:(lia)). replace (a + 512 + 512 * (k - 1)) with (a + 512 * k) in Hk by lia.
      replace (blk + 1 + (k - 1)) with (blk + k) in Hk by lia. done.
  - intros q Hne. rewrite Hq; [|intros k Hkn; specialize (Hne (k + 1) ltac:(lia)); lia]. unfold s1. simpl.
    apply lookup_insert_ne. specialize (Hne 0 ltac:(lia)). lia.
Qed.

Lemma bio_alloc_ok l s : inv l s -> exists p a, bio_alloc s = Ret p (set_bio_alloc a s) /\ ook a /\
  (p <> 0 -> ook (ofree p a)).
Proof.
  intros I. unfold bio_alloc. destruct (oalloc (bio_allocator s)) as [[p|] a] eqn:E.
  - destruct (oalloc_Some _ p a (inv_bio_alloc _ _ I) E) as (H1 & H2 & H3 & H4). exists p, a. split_and!; [done|done|]. intros _.
    apply ofree_live; [done|]. rewrite H4. sset.
  - destruct (oalloc_None _ a (inv_bio_alloc _ _ I) E) as (H1 & _). exists 0, a. done.
Qed.

(** [fillpage] of the page of block [b]. *)
Lemma fillpage_ok l s p b : inv l s -> p <> 0 -> 0 <= b < 2 ^ 23 ->
  exists e m' a', fillpage disk0 (b * BDEV_BLK_SIZE) p s = Ret e (set_mem m' (set_bio_alloc a' s)) /\ ook a' /\
    (forall q, (forall k, 0 <= k < 8 -> q <> buf p k) -> m' !! q = mem s !! q) /\
    (e = ERR_MEMSTORE_NOMEM \/ (e = ERR_OK /\
     forall k, 0 <= k < 8 -> m' !! buf p k = Some (dread disk0 (disk s) (b `div` 8 * 8 + k)))).
Proof.
  intros I Hp Hb. unfold fillpage. rewrite bind_kassert by lia. destruct (bio_alloc_ok l s I) as (q & a & E & Ha & Hfree).
  rewrite (bind_Ret _ _ _ _ _ E). destruct (Z.eqb_spec q 0) as [->|Hq].
  { exists ERR_MEMSTORE_NOMEM, (mem s), a. split_and!; [by destruct s|done|done|by left]. }
  assert (Hr : u32 (pg_round_down (b * BDEV_BLK_SIZE) `div` BDEV_BLK_SIZE) = b `div` 8 * 8).
  { rewrite pg_round_down_spec by (unfold BDEV_BLK_SIZE; lia). unfold BDEV_BLK_SIZE. change PG_SIZE with (8 * 512).
    rewrite Z.mul_mod_distr_r by lia. replace (b * 512 - b `mod` 8 * 512) with ((b - b `mod` 8) * 512) by lia. rewrite Z.div_mul by lia.
    pose proof (Z.div_mod b 8 ltac:(lia)). pose proof (Z.mod_pos_bound b 8 ltac:(lia)). rewrite wrap_small by lia. lia. }
  rewrite Hr. unfold bdev_make_request. simpl bio_op. cbn iota beta. change (Z.to_nat (bio_size _)) with 8%nat. simpl bio_blk. simpl bio_buffer.
  destruct (read_blks_ok 8 (b `div` 8 * 8) (KMAP_P2V p) (set_bio_alloc a s)) as (m' & E' & Hk & Hn). rewrite (bind_Ret _ _ _ _ _ E').
  exists ERR_OK, m', (ofree q a). split; [done|]. split; [by apply Hfree|]. split; [exact Hn|]. right. split; [done|]. exact Hk.
Qed.

(** What stays the same for the holders of headers. *)
Definition kept s s' : Prop :=
  disk s' = disk s /\ bhs s' = bhs s /\ blk_header_allocator s' = blk_header_allocator s /\ pgcache_lock s' = pgcache_lock s /\
  forall b, 0 <= b < 2 ^ 33 -> content s' b = content s b.

Lemma not_cached_fresh l s a : inv l s -> fref (frames s) a = 0 -> forall i p, cached s i p -> p <> a.
Proof. intros I Ha i p Hc ->. pose proof (cached_frame _ _ _ _ I Hc). lia. Qed.

(** The states that [pgcache_get_page] goes through before it inserts a page. *)
Lemma uncached_ok l s s' a : inv l s -> fref (frames s) a = 0 -> fok (frames s') -> ook (bio_allocator s') ->
  (forall b, b <> a -> fref (frames s') b = fref (frames s) b) ->
  disk s' = disk s -> bhs s' = bhs s -> blk_header_allocator s' = blk_header_allocator s -> pgcache_lock s' = pgcache_lock s ->
  pok (cached_pages s') -> (forall i, 0 <= i < 2 ^ 30 -> pget (cached_pages s') i = pget (cached_pages s) i) ->
  (forall p, p <> a -> pages s' !! p = pages s !! p) ->
  (forall i p k, cached s i p -> 0 <= k < 8 -> mem s' !! buf p k = mem s !! buf p k) ->
  inv l s' /\ kept s s'.
Proof.
  intros I Ha Hf Hb Hrefs Hd Hbh Hba Hl Hpk Hg Hpg Hm. split.
  - apply (inv_ext l s); try done. intros i p Hc. pose proof (not_cached_fresh _ _ _ I Ha i p Hc) as Hne.
    split; [by apply Hpg|]. split; [rewrite Hrefs by done; by apply (cached_frame l s i)|]. intros k Hk. by apply (Hm i).
  - split_and!; try done. intros b Hb'. apply content_ext; try done. intros i p Hc k Hk. by apply (Hm i).
Qed.

(** The page [a] enters the cache at index [i]. *)
Lemma add_page_ok s i a t' : inv 0 s -> 0 <= i < 2 ^ 30 -> pget (cached_pages s) i = 0 -> a <> 0 -> 0 < fref (frames s) a ->
  (forall j p, cached s j p -> p <> a) -> pages s !! a = Some (mkCpage false [] false) ->
  (forall k, 0 <= k < 8 -> mem s !! buf a k = Some (dread disk0 (disk s) (i * 8 + k))) ->
  pok t' -> (forall j, 0 <= j < 2 ^ 30 -> j <> i -> pget t' j = pget (cached_pages s) j) -> pget t' i = a ->
  inv 0 (set_cached t' s) /\ kept s (set_cached t' s).
Proof.
  intros I Hi H0 Ha Hra Hfresh Hpg Hmem Ht Hsame Hget. assert (Hc : forall j p, cached (set_cached t' s) j p <-> cached s j p \/ (j = i /\ p = a)).
  { intros j p. unfold cached. simpl. destruct (decide (j = i)) as [->|Hj]; [|split].
    - rewrite Hget, H0. split; [intros (_ & <- & _); by right|intros [(_ & <- & ?)|[_ ->]]; done].
    - intros (Hj1 & Hg & Hp). left. rewrite Hsame in Hg by done. done.
    - intros [(Hj1 & Hg & Hp)|[-> _]]; [|done]. rewrite Hsame by done. done. }
  split.
  - destruct I as [I1 I2 I3 I4 I5 I6 I7]. split; try done.
    + intros j p [H|[-> ->]]%Hc; [destruct (I5 j p H) as (c & P1 & P2 & P3 & P4 & P5 & P6); by exists c|].
      exists (mkCpage false [] false). split_and!; try done; [by rewrite bool_decide_eq_false_2|intros k Hk; simpl; by rewrite Hmem|by left].
    + intros j j' p [H|[-> ->]]%Hc [H'|[-> ?]]%Hc; [by apply (I6 j j' p)| | |done].
      * subst p. by apply Hfresh in H.
      * by apply Hfresh in H'.
    + intros h x Hx. destruct (I7 h x Hx) as (? & ? & j & k & [H1 H2 H3 H4 H5 H6 H7]). split_and!; [done|done|].
      exists j, k. split; try done. apply Hc. by left.
  - split_and!; try done. intros b Hb. unfold content. simpl. destruct (decide (b `div` 8 = i)) as [E|E].
    + rewrite E, Hget, H0. rewrite (proj2 (Z.eqb_neq a 0)) by done. simpl. rewrite Hmem by (apply Z.mod_pos_bound; lia). simpl. f_equal.
      pose proof (Z.div_mod b 8 ltac:(lia)). lia.
    + rewrite Hsame; [done|split; [apply Z.div_pos; lia|apply Z.div_lt_upper_bound; lia]|done].
Qed.

Lemma kept_trans s1 s2 s3 : kept s1 s2 -> kept s2 s3 -> kept s1 s3.
Proof.
  intros (A1 & A2 & A3 & A4 & A5) (B1 & B2 & B3 & B4 & B5). split_and!; try congruence.
  intros b Hb. rewrite B5, A5 by done. done.
Qed.

Lemma ffree_uncached s a : inv 0 s -> 0 < fref (frames s) a -> (forall i p, cached s i p -> p <> a) ->
  exists f', in_frames (ffree a) s = Ret tt (set_frames f' s) /\ inv 0 (set_frames f' s) /\ kept s (set_frames f' s).
Proof.
  intros I Ha Hfresh. destruct (ffree_spec (frames s) a (inv_frames _ _ I) Ha) as (f' & E & Hf & Hz & Hsame). exists f'.
  split; [unfold in_frames, zoom; by rewrite E|]. split.
  - apply (inv_ext 0 s); try done; [apply I..|]. intros i p Hc. split_and!; try done. simpl. rewrite Hsame by (by apply (Hfresh i)). by apply (cached_frame 0 s i).
  - by split_and!.
Qed.

Lemma pgcache_get_page_ok s b : inv 0 s -> 0 <= b < 2 ^ 23 ->
  exists p s', pgcache_get_page disk0 (b * BDEV_BLK_SIZE) s = Ret p s' /\ inv 0 s' /\ kept s s' /\ (p = 0 \/ cached s' (b `div` 8) p).
Proof.
  intros I Hb. set (i := b `div` 8). assert (Hi : 0 <= i < 2 ^ 20) by (split; [apply Z.div_pos; lia|apply Z.div_lt_upper_bound; lia]).
  assert (Hdiv : (b * BDEV_BLK_SIZE) `div` PG_SIZE = i).
  { unfold i, BDEV_BLK_SIZE. change PG_SIZE with (8 * 512). by rewrite Z.div_mul_cancel_r. }
  unfold pgcache_get_page. rewrite Hdiv. assert (Hl : in_cache (plookup i) s = Ret (pget (cached_pages s) i) s).
  { unfold in_cache, zoom. rewrite plookup_spec by (apply I || lia). by destruct s. }
  rewrite (bind_Ret _ _ _ _ _ Hl). destruct (Z.eqb_spec (pget (cached_pages s) i) 0) as [H0|H0]; cbn [negb]; cycle 1.
  { exists (pget (cached_pages s) i), s. split_and!; try done. right. by split_and!; [lia..| |]. }
  destruct (falloc_spec (frames s) (inv_frames _ _ I)) as [(f & E & Hf & Hr)|(a & f & E & Hf & Ha0 & Ha1 & Hr)];
    rewrite (bind_Ret (in_frames falloc) _ s _ (set_frames f s)) by (unfold in_frames, zoom; by rewrite E).
  { exists 0, (set_frames f s). split; [done|]. split; [|split; [by split_and!|by left]]. apply (inv_ext 0 s); try done; [apply I..|].
    intros j p Hc. split_and!; try done. simpl. rewrite Hr. by apply (cached_frame 0 s j). }
  destruct (fok_frame f a Hf ltac:(lia)) as (Hapos & _). pose proof (not_cached_fresh 0 s a I Ha0) as Hfresh.
  set (s1 := set_pages (<[a := mkCpage false [] false]> (pages s)) (set_frames f s)).
  assert (H1 : inv 0 s1 /\ kept s s1).
  { apply (uncached_ok 0 s s1 a); try done; [apply I..|]. intros p Hp. apply lookup_insert_ne. congruence. }
  destruct H1 as [I1 K1]. unfold bind at 1, put_page, modify. change (set_pages _ (set_frames f s)) with s1.
  destruct (fillpage_ok 0 s1 a b I1 ltac:(lia) Hb) as (e & m' & a' & Ef & Ha' & Hm & Hcase). rewrite (bind_Ret _ _ _ _ _ Ef).
  set (s2 := set_mem m' (set_bio_alloc a' s1)) in *.
  assert (Hbuf : forall j p k, cached s j p -> 0 <= k < 8 -> mem s2 !! buf p k = mem s !! buf p k).
  { intros j p k Hc Hk. apply Hm. intros k' Hk' Eb. assert (Hrp : 0 < fref f p).
    { rewrite Hr by (by apply (Hfresh j)). by apply (cached_frame 0 s j). }
    apply (buf_inj f p a k k') in Eb as [-> _]; [|done|lia|lia|done|done]. by apply (Hfresh j a). }
  assert (H2 : inv 0 s2 /\ kept s s2).
  { apply (uncached_ok 0 s s2 a); try done; [apply I..|]. intros p Hp. apply lookup_insert_ne. congruence. }
  destruct H2 as [I2 K2]. assert (Hra2 : 0 < fref (frames s2) a) by (simpl; lia).
  destruct Hcase as [->|[-> Hfill]]; cbn [negb Z.eqb ERR_OK ERR_MEMSTORE_NOMEM].
  { destruct (ffree_uncached s2 a I2 Hra2 Hfresh) as (f' & Ef' & I3 & K3). rewrite (bind_Ret _ _ _ _ _ Ef').
    eexists 0, _. split; [done|]. split; [done|]. split; [by apply (kept_trans s s2)|by left]. }
  destruct (pinsert_spec (cached_pages s2) i a (inv_map _ _ I2) ltac:(lia) ltac:(lia) H0) as (e & t' & Ei & Ht & Hsame & Hres).
  rewrite (bind_Ret (in_cache (pinsert i a)) _ s2 e (set_cached t' s2)) by (unfold in_cache, zoom; by rewrite Ei).
  destruct Hres as [[-> Hg]|[-> Hg]]; cbn [Z.eqb Pos.eqb].
  - destruct (add_page_ok s2 i a t' I2 ltac:(lia) H0 ltac:(lia) Hra2 Hfresh) as [I3 K3]; try done; [apply lookup_insert_eq|].
    eexists a, _. split; [done|]. split; [done|]. split; [by apply (kept_trans s s2)|right]. split; [lia|]. split; [done|lia].
  - assert (Hsame' : forall j, 0 <= j < 2 ^ 30 -> pget t' j = pget (cached_pages s2) j).
    { intros j Hj. destruct (decide (j = i)) as [->|]; [by rewrite Hg|by apply Hsame]. }
    assert (H3 : inv 0 (set_cached t' s2) /\ kept s (set_cached t' s2)).
    { apply (uncached_ok 0 s _ a); try done. intros p Hp. apply lookup_insert_ne. congruence. }
    destruct H3 as [I3 K3]. destruct (ffree_uncached (set_cached t' s2) a I3 Hra2) as (f' & Ef' & I4 & K4).
    { intros j p (Hj & Hgj & Hp). simpl in Hgj. rewrite Hsame' in Hgj by done. by apply (Hfresh j). }
    rewrite (bind_Ret _ _ _ _ _ Ef'). eexists 0, _. split; [done|]. split; [done|]. split; [by eapply kept_trans|by left].
Qed.

(** ** Headers *)

Lemma cached_unfold s s' : cached_pages s' = cached_pages s -> cached s' = cached s.
Proof. intros E. unfold cached. by rewrite E. Qed.

Lemma header_ok_ext s s' h x i k : cached_pages s' = cached_pages s -> pages s' = pages s -> header_ok s h x i k -> header_ok s' h x i k.
Proof. intros E1 E2 [H1 H2 H3 H4 H5 H6 H7]. split; try done; [by rewrite (cached_unfold s s' E1)|by rewrite E2]. Qed.

(** Changing the lock, the reference count or the state of a header. *)
Lemma inv_bh_upd l s h x x' : inv l s -> bhs s !! h = Some x -> bh_blk x' = bh_blk x -> bh_page x' = bh_page x -> bh_data x' = bh_data x ->
  0 <= bh_ref x' < 2 ^ 32 -> get_state_bit (bh_state x') BLK_HEADER_VALID = true ->
  (get_state_bit (bh_state x') BLK_HEADER_DIRTY = true -> get_state_bit (bh_state x) BLK_HEADER_DIRTY = true) -> inv l (set_bhs (<[h := x']> (bhs s)) s).
Proof.
  intros [I1 I2 I3 I4 I5 I6 I7] Hx Eb Ep Ed Hr Hv Hdd. split; try done.
  - intros i p Hc. destruct (I5 i p Hc) as (c & P1 & P2 & P3 & P4 & P5 & P6). exists c. split_and!; try done. simpl.
    intros k h' Hk. destruct (P6 k h' Hk) as (y & Hy & Hyp & Hyb). destruct (decide (h' = h)) as [->|].
    + rewrite lookup_insert_eq. exists x'. assert (y = x) as -> by congruence. split_and!; congruence.
    + rewrite lookup_insert_ne by done. eauto.
  - intros h' y. simpl. intros [[<- <-]|[Hne Hy]]%lookup_insert_Some; cycle 1.
    { destruct (I7 h' y Hy) as (? & ? & i & k & Hok). split_and!; [done|done|]. exists i, k. by apply (header_ok_ext s). }
    destruct (I7 h x Hx) as (? & ? & i & k & [H1 H2 H3 H4 H5 H6 H7]). split_and!; [done|done|]. exists i, k.
    split; rewrite ?Eb, ?Ep, ?Ed; try done. destruct H7 as (c & ? & ? & H9). exists c. split_and!; try done. intros Hdy. by apply H9, Hdd.
Qed.

(** Changing the lock or the dirty bit of a cached page. *)
Lemma inv_page_upd l l' s i p c c' : inv l s -> cached s i p -> pages s !! p = Some c -> blk_headers c' = blk_headers c ->
  pg_lock c' = bool_decide (p = l') -> (forall q, q <> 0 -> q <> p -> q = l <-> q = l') ->
  (blk_headers c = [] \/ length (blk_headers c) = 8%nat \/ p = l') -> (pg_dirty c = true -> pg_dirty c' = true) ->
  inv l' (set_pages (<[p := c']> (pages s)) s).
Proof.
  intros [I1 I2 I3 I4 I5 I6 I7] Hcp Hc Eh El Hq Hlen Hdd. split; try done.
  - intros j q Hj. change (cached s j q) in Hj. destruct (I5 j q Hj) as (c0 & P1 & P2 & P3 & P4 & P5 & P6). unfold page_ok. simpl.
    destruct (decide (q = p)) as [->|Hne].
    + rewrite lookup_insert_eq. exists c'. assert (c0 = c) as -> by congruence. rewrite Eh. split_and!; done.
    + rewrite lookup_insert_ne by congruence. exists c0. split_and!; try done.
      * rewrite P2. apply bool_decide_ext. apply Hq; [apply Hj|done].
      * destruct P5 as [?|[?|E]]; [by left|by right; left|]. right; right. apply Hq in E; [done|apply Hj|done].
  - intros h x Hx. destruct (I7 h x Hx) as (? & ? & j & k & [H1 H2 H3 H4 H5 H6 (c0 & H7 & H8 & H9)]). split_and!; [done|done|].
    exists j, k. split; try done. simpl. destruct (decide (bh_page x = p)) as [E|E].
    + rewrite E, lookup_insert_eq. exists c'. assert (c0 = c) as -> by congruence. split; [done|]. rewrite Eh. split; [done|]. intros Hdy. by apply Hdd, H9.
    + rewrite lookup_insert_ne by congruence. eauto.
Qed.

(** A new header for block [k] of the page. *)
Lemma inv_add_header s i p c h a x : inv p s -> cached s i p -> i < 2 ^ 20 -> pages s !! p = Some c -> (length (blk_headers c) < 8)%nat ->
  oalloc (blk_header_allocator s) = (Some h, a) ->
  bh_blk x = i * 8 + Z.of_nat (length (blk_headers c)) -> bh_page x = p -> bh_data x = buf p (Z.of_nat (length (blk_headers c))) ->
  0 <= bh_ref x < 2 ^ 32 -> get_state_bit (bh_state x) BLK_HEADER_VALID = true -> get_state_bit (bh_state x) BLK_HEADER_DIRTY = false ->
  bhs s !! h = None /\ h <> 0 /\
  inv p (set_bhs (<[h := x]> (bhs s)) (set_pages (<[p := mkCpage (pg_lock c) (blk_headers c ++ [h]) (pg_dirty c)]> (pages s)) (set_bh_alloc a s))).
Proof.
  intros [I1 I2 I3 I4 I5 I6 I7] Hcp Hi Hc Hlen Ha Eb Ep Ed Hr Hv Hdd. destruct (oalloc_Some _ h a I3 Ha) as (Ha1 & Hh & Hfresh & Hlive).
  assert (Hnone : bhs s !! h = None).
  { destruct (bhs s !! h) as [y|] eqn:Hy; [|done]. by destruct (I7 h y Hy) as (? & _). }
  split; [done|]. split; [done|]. split; try done.
  - intros j q Hj. change (cached s j q) in Hj. destruct (I5 j q Hj) as (c0 & P1 & P2 & P3 & P4 & P5 & P6).
    assert (P6' : forall k h', blk_headers c0 !! k = Some h' -> exists x0, <[h := x]> (bhs s) !! h' = Some x0 /\ bh_page x0 = q /\ bh_blk x0 = j * 8 + Z.of_nat k).
    { intros k h' Hk. destruct (P6 k h' Hk) as (y & Hy & ?). exists y. rewrite lookup_insert_ne by congruence. done. }
    unfold page_ok. simpl. destruct (decide (q = p)) as [->|Hne].
    + rewrite lookup_insert_eq. eexists. split; [done|]. assert (c0 = c) as -> by congruence. simpl. split_and!; [done|done|done|by right; right|].
      assert (j = i) as -> by (by apply (I6 j i p)). intros k h' [Hk|[Hk Hk1]]%lookup_app_Some; [by apply P6'|].
      apply list_lookup_singleton_Some in Hk1 as [Hk0 <-]. assert (k = length (blk_headers c)) as -> by lia.
      exists x. rewrite lookup_insert_eq. done.
    + rewrite lookup_insert_ne by congruence. exists c0. done.
  - intros h' y. simpl. intros [[<- <-]|[Hne Hy]]%lookup_insert_Some.
    + split; [rewrite Hlive; sset|]. split; [done|]. exists i, (Z.of_nat (length (blk_headers c))).
      split; rewrite ?Ep; try done; [lia|]. simpl. rewrite lookup_insert_eq. eexists. split; [done|]. simpl. rewrite Nat2Z.id, Hdd. split; [by apply list_lookup_middle|done].
    + destruct (I7 h' y Hy) as (Hin & ? & j & k & [H1 H2 H3 H4 H5 H6 (c0 & H7 & H8 & H9)]).
      split; [rewrite Hlive; sset|]. split; [done|]. exists j, k. split; try done. simpl. destruct (decide (bh_page y = p)) as [E|E].
      * rewrite E, lookup_insert_eq. eexists. split; [done|]. simpl. assert (c0 = c) as -> by congruence. split; [by apply lookup_app_l_Some|done].
      * rewrite lookup_insert_ne by congruence. eauto.
Qed.

(** Headers were added, and nothing else changed for the holders of headers. *)
Definition grows s s' : Prop :=
  disk s' = disk s /\ mem s' = mem s /\ cached_pages s' = cached_pages s /\ pgcache_lock s' = pgcache_lock s /\
  (forall h x, bhs s !! h = Some x -> bhs s' !! h = Some x) /\
  (forall h x, bhs s' !! h = Some x -> bhs s !! h = None -> bh_ref x = 0 /\ bh_lock x = false).

Lemma grows_same s s' : disk s' = disk s -> mem s' = mem s -> cached_pages s' = cached_pages s -> pgcache_lock s' = pgcache_lock s ->
  bhs s' = bhs s -> grows s s'.
Proof. intros. split_and!; try done; intros h x; congruence. Qed.

Lemma set_dirty_valid st v : get_state_bit (set_state_bit st BLK_HEADER_DIRTY v) BLK_HEADER_VALID = get_state_bit st BLK_HEADER_VALID.
Proof.
  unfold BLK_HEADER_VALID, BLK_HEADER_DIRTY. rewrite !get_state_bit_spec by lia. by rewrite set_state_bit_spec by lia.
Qed.

Lemma fresh_state_valid st : get_state_bit (set_state_bit (set_state_bit st BLK_HEADER_VALID true) BLK_HEADER_DIRTY false) BLK_HEADER_VALID = true.
Proof. rewrite set_dirty_valid. unfold BLK_HEADER_VALID. rewrite get_state_bit_spec by lia. by rewrite set_state_bit_spec by lia. Qed.

Lemma fresh_state_clean st v : get_state_bit (set_state_bit st BLK_HEADER_DIRTY v) BLK_HEADER_DIRTY = v.
Proof. unfold BLK_HEADER_DIRTY. rewrite get_state_bit_spec by lia. by rewrite set_state_bit_spec by lia. Qed.

Lemma buf_wrap f p k : fok f -> 0 < fref f p -> 0 <= k < 8 -> u64 (KMAP_P2V p + BDEV_BLK_SIZE * k) = buf p k.
Proof.
  intros Hf Hp Hk. destruct (p2v_bounds f p Hf Hp) as (E & _ & _). destruct (fok_frame f p Hf Hp) as (? & _ & Hb).
  unfold buf. rewrite E. apply wrap_small. unfold BDEV_BLK_SIZE, PG_SIZE, DEVMEM_BASE, KMAP_BASE in *. lia.
Qed.

(** One header more, for a page in the list of which [c] are. *)
Lemma new_headers_step n s p c h a first idx : pages s !! p = Some c -> oalloc (blk_header_allocator s) = (Some h, a) ->
  new_headers junk (S n) p first idx s =
  new_headers junk n p first (idx + 1)
    (set_bhs (<[h := mkBh false (u32 (first + idx)) p (u64 (KMAP_P2V p + BDEV_BLK_SIZE * idx))
                       (set_state_bit (set_state_bit (junk h) BLK_HEADER_VALID true) BLK_HEADER_DIRTY false) 0]> (bhs s))
      (set_pages (<[p := mkCpage (pg_lock c) (blk_headers c ++ [h]) (pg_dirty c)]> (pages s)) (set_bh_alloc a s))).
Proof.
  intros Hc Ha. cbn [new_headers]. rewrite Ha. rewrite (bind_Ret (get_page p) _ _ c (set_bh_alloc a s)) by (unfold get_page; simpl; by rewrite Hc).
  unfold bind, put_page, put_bh, modify, bdev_set_blk_valid, bdev_set_blk_dirty, get_bh, put_bh, modify, ret, bind. simpl.
  rewrite !lookup_insert_eq. simpl. rewrite !lookup_insert_eq. simpl. f_equal. unfold set_bhs. simpl. by rewrite !insert_insert_eq.
Qed.

Lemma new_headers_ok i p n : forall s c, inv p s -> cached s i p -> i < 2 ^ 20 -> pages s !! p = Some c -> (length (blk_headers c) + n = 8)%nat ->
  exists e s' c', new_headers junk n p (i * 8) (Z.of_nat (length (blk_headers c))) s = Ret e s' /\ inv p s' /\ grows s s' /\
    pages s' !! p = Some c' /\ pg_lock c' = pg_lock c /\ (e = ERR_NOMEM \/ (e = ERR_OK /\ length (blk_headers c') = 8%nat)).
Proof.
  induction n as [|n IH]; intros s c I Hcp Hi Hc Hlen.
  { exists ERR_OK, s, c. split_and!; try done; [by apply grows_same|]. right. split; [done|lia]. }
  destruct (oalloc (blk_header_allocator s)) as [[h|] a] eqn:Ha; cycle 1.
  { cbn [new_headers]. rewrite Ha. destruct (oalloc_None _ a (inv_bh_alloc _ _ I) Ha) as [Ha1 Ha2]. exists ERR_NOMEM, (set_bh_alloc a s), c.
    split; [done|]. split; [|split_and!; try done; [by apply grows_same|by left]]. destruct I as [I1 I2 I3 I4 I5 I6 I7]. split; try done.
    intros h x Hx. destruct (I7 h x Hx) as (? & ? & j & k & Hok). split_and!; [simpl; by rewrite Ha2|done|]. exists j, k. by apply (header_ok_ext s). }
  set (k := length (blk_headers c)) in *. pose proof Hcp as (Hi0 & _). pose proof (cached_frame _ _ _ _ I Hcp) as Hfr.
  assert (Hblk : u32 (i * 8 + Z.of_nat k) = i * 8 + Z.of_nat k) by (apply wrap_small; lia).
  rewrite (new_headers_step n s p c h a (i * 8) (Z.of_nat k) Hc Ha), Hblk, (buf_wrap (frames s)) by (apply I || lia).
  set (c1 := mkCpage (pg_lock c) (blk_headers c ++ [h]) (pg_dirty c)).
  set (x := mkBh false (i * 8 + Z.of_nat k) p (buf p (Z.of_nat k)) (set_state_bit (set_state_bit (junk h) BLK_HEADER_VALID true) BLK_HEADER_DIRTY false) 0).
  destruct (inv_add_header s i p c h a x I Hcp Hi Hc ltac:(lia) Ha) as (Hnone & Hh & I1); try done; [apply fresh_state_valid|apply fresh_state_clean|].
  set (s1 := set_bhs (<[h := x]> (bhs s)) (set_pages (<[p := c1]> (pages s)) (set_bh_alloc a s))) in *.
  change (set_bhs _ _) with s1. destruct (IH s1 c1) as (e & s' & c' & E & I' & (G1 & G2 & G3 & G4 & G5 & G6) & Hc' & Hl' & Hcase); try done.
  { apply lookup_insert_eq. }
  { unfold c1. simpl. rewrite length_app. simpl. unfold k in Hlen. lia. }
  replace (Z.of_nat (length (blk_headers c1))) with (Z.of_nat k + 1) in E by (unfold c1; simpl; rewrite length_app; simpl; unfold k; lia).
  exists e, s', c'. split; [exact E|]. split; [done|]. split; [|done]. split_and!; try done.
  - intros h' y Hy. apply G5. unfold s1. simpl. rewrite lookup_insert_ne by congruence. done.
  - intros h' y Hy Hn. destruct (decide (h' = h)) as [->|]; [|apply (G6 h' y Hy); unfold s1; simpl; by rewrite lookup_insert_ne].
    rewrite (G5 h x) in Hy by (unfold s1; simpl; apply lookup_insert_eq). injection Hy as <-. done.
Qed.

Lemma find_header_run b p h x l1 l2 s : Forall (fun h' => h' <> 0 /\ exists y, bhs s !! h' = Some y /\ bh_blk y <> b) l1 ->
  h <> 0 -> bhs s !! h = Some x -> bh_blk x = b ->
  find_header b p (l1 ++ h :: l2) s = (unlock_page p ;; ret h) (set_bhs (<[h := set_bh_ref (u32 (bh_ref x + 1)) x]> (bhs s)) s).
Proof.
  intros Hl1 Hh Hx Hb. induction Hl1 as [|h' l1 (H0 & y & Hy & Hne) _ IH]; cbn [app find_header].
  - rewrite bind_kassert by lia. rewrite (bind_Ret (get_bh h) _ s x s) by (unfold get_bh; by rewrite Hx). by rewrite (proj2 (Z.eqb_eq _ _) Hb).
  - rewrite bind_kassert by lia. rewrite (bind_Ret (get_bh h') _ s y s) by (unfold get_bh; by rewrite Hy). by rewrite (proj2 (Z.eqb_neq _ _) Hne).
Qed.

(** A block has one header. *)
Lemma header_unique l s h h' x x' : inv l s -> bhs s !! h = Some x -> bhs s !! h' = Some x' -> bh_blk x = bh_blk x' -> h = h'.
Proof.
  intros I Hx Hx' E. destruct (inv_hdr _ _ I h x Hx) as (_ & _ & i & k & [H1 H2 H3 H4 H5 H6 (c & H7 & H8 & _)]).
  destruct (inv_hdr _ _ I h' x' Hx') as (_ & _ & i' & k' & [G1 G2 G3 G4 G5 G6 (c' & G7 & G8 & _)]).
  assert (i' = i /\ k' = k) as [-> ->] by lia. assert (bh_page x' = bh_page x) by (destruct H1 as (_ & <- & _); by destruct G1 as (_ & <- & _)). congruence.
Qed.

Lemma content_same s s' b : disk s' = disk s -> mem s' = mem s -> cached_pages s' = cached_pages s -> content s' b = content s b.
Proof. intros E1 E2 E3. unfold content. by rewrite E1, E2, E3. Qed.

(** ** Getting a block *)

(** The headers are as before, except that a reference to [h], the header of
    block [b], was taken; [h] may be new. *)
Definition got s s' (h b : Z) : Prop :=
  exists x, bhs s' !! h = Some (set_bh_ref (u32 (bh_ref x + 1)) x) /\ bh_blk x = b /\
    (bhs s !! h = Some x \/ (bhs s !! h = None /\ bh_ref x = 0 /\ bh_lock x = false)) /\
    (forall h' y, h' <> h -> bhs s !! h' = Some y -> bhs s' !! h' = Some y) /\
    (forall h' y, h' <> h -> bhs s' !! h' = Some y -> bhs s !! h' = Some y \/ (bh_ref y = 0 /\ bh_lock y = false)).

Definition free_cache s : Prop := inv 0 s /\ pgcache_lock s = false.

Lemma lock_page_ok s i p : inv 0 s -> cached s i p ->
  exists c, pages s !! p = Some c /\ (blk_headers c = [] \/ length (blk_headers c) = 8%nat) /\
    let s' := set_pages (<[p := mkCpage true (blk_headers c) (pg_dirty c)]> (pages s)) s in lock_page p s = Ret tt s' /\ inv p s'.
Proof.
  intros I Hcp. pose proof Hcp as (_ & _ & Hp0). destruct (inv_page _ _ I i p Hcp) as (c & P1 & P2 & P3 & P4 & P5 & P6).
  rewrite bool_decide_eq_false_2 in P2 by done. assert (P5' : blk_headers c = [] \/ length (blk_headers c) = 8%nat) by (destruct P5 as [?|[?|?]]; [by left|by right|done]).
  exists c. split; [done|]. split; [done|]. split.
  - unfold lock_page. rewrite (bind_Ret (get_page p) _ s c s) by (unfold get_page; by rewrite P1). by rewrite P2.
  - apply (inv_page_upd 0 p s i p c); try done; [by rewrite bool_decide_eq_true_2|by right; right].
Qed.

Lemma unlock_page_ok s i p c : inv p s -> cached s i p -> pages s !! p = Some c -> blk_headers c = [] \/ length (blk_headers c) = 8%nat ->
  let s' := set_pages (<[p := mkCpage false (blk_headers c) (pg_dirty c)]> (pages s)) s in unlock_page p s = Ret tt s' /\ inv 0 s'.
Proof.
  intros I Hcp Hc Hlen. pose proof Hcp as (_ & _ & Hp0). destruct (inv_page _ _ I i p Hcp) as (c0 & P1 & P2 & _).
  assert (c0 = c) as -> by congruence. rewrite bool_decide_eq_true_2 in P2 by done. split.
  - unfold unlock_page. rewrite (bind_Ret (get_page p) _ s c s) by (unfold get_page; by rewrite Hc). by rewrite P2.
  - apply (inv_page_upd p 0 s i p c); try done; [by rewrite bool_decide_eq_false_2|destruct Hlen; [by left|by right; left]].
Qed.

(** The search succeeds on a page that has all its headers. *)
Lemma find_header_ok s i k p c : inv p s -> cached s i p -> 0 <= k < 8 -> pages s !! p = Some c -> length (blk_headers c) = 8%nat ->
  exists h x s', find_header (i * 8 + k) p (blk_headers c) s = Ret h s' /\ inv 0 s' /\ h <> 0 /\
    bhs s !! h = Some x /\ bh_blk x = i * 8 + k /\ bhs s' = <[h := set_bh_ref (u32 (bh_ref x + 1)) x]> (bhs s) /\
    disk s' = disk s /\ mem s' = mem s /\ cached_pages s' = cached_pages s /\ pgcache_lock s' = pgcache_lock s.
Proof.
  intros I Hcp Hk Hc Hlen. destruct (inv_page _ _ I i p Hcp) as (c0 & P1 & P2 & P3 & P4 & P5 & P6). assert (c0 = c) as -> by congruence.
  destruct (lookup_lt_is_Some_2 (blk_headers c) (Z.to_nat k) ltac:(lia)) as [h Hh]. destruct (P6 _ h Hh) as (x & Hx & Hxp & Hxb).
  rewrite Z2Nat.id in Hxb by lia. pose proof (take_drop_middle _ _ _ Hh) as Hsplit. destruct (inv_hdr _ _ I h x Hx) as (_ & Hh0 & ix & kx & Hok).
  set (s1 := set_bhs (<[h := set_bh_ref (u32 (bh_ref x + 1)) x]> (bhs s)) s).
  assert (I1 : inv p s1) by (apply (inv_bh_upd p s h x); try done; [by apply wrap_range|apply (ho_valid _ _ _ _ _ Hok)]).
  destruct (unlock_page_ok s1 i p c I1 Hcp Hc (or_intror Hlen)) as [Eu I2].
  exists h, x, (set_pages (<[p := mkCpage false (blk_headers c) (pg_dirty c)]> (pages s1)) s1). split; [|done].
  rewrite <- Hsplit at 1. rewrite (find_header_run _ _ h x) with (4 := Hxb); [|  |done|done].
  - change (set_bhs _ s) with s1. by rewrite (bind_Ret _ _ _ _ _ Eu).
  - apply Forall_forall. intros h' Hin. apply list_elem_of_lookup in Hin as [j Hj]. pose proof (lookup_lt_Some _ _ _ Hj) as Hjl. rewrite length_take in Hjl.
    rewrite lookup_take_lt in Hj by lia. destruct (P6 j h' Hj) as (y & Hy & _ & Hyb). destruct (inv_hdr _ _ I h' y Hy) as (_ & ? & _).
    split; [done|]. exists y. split; [done|]. lia.
Qed.

Lemma get_blk_unlocked_ok s b : free_cache s -> 0 <= b < 2 ^ 23 ->
  exists h s', bdev_get_blk_unlocked disk0 junk b s = Ret h s' /\ disk s' = disk s /\
    (forall b', 0 <= b' < 2 ^ 33 -> content s' b' = content s b') /\
    ((h = 0 /\ forall h' x, bhs s !! h' = Some x -> bhs s' !! h' = Some x) \/ (h <> 0 /\ free_cache s' /\ got s s' h b)).
Proof.
  intros [I Hl] Hb. set (i := b `div` 8). assert (Hi : 0 <= i < 2 ^ 20) by (split; [apply Z.div_pos; lia|apply Z.div_lt_upper_bound; lia]).
  pose proof (Z.div_mod b 8 ltac:(lia)) as Hbk. pose proof (Z.mod_pos_bound b 8 ltac:(lia)) as Hk. fold i in Hbk. set (k := b `mod` 8) in *.
  unfold bdev_get_blk_unlocked. set (s0 := set_cache_lock true s).
  rewrite (bind_Ret lock_cache _ s tt s0) by (unfold lock_cache; by rewrite bind_gets, Hl). assert (I0 : inv 0 s0) by (by apply (inv_ext 0 s); try done; [apply I..|]; intros j p Hc; split_and!; try done; apply (cached_frame 0 s j)).
  rewrite (wrap_small 32) by (unfold BDEV_BLK_SIZE; lia).
  destruct (pgcache_get_page_ok s0 b I0 Hb) as (p & s1 & E1 & I1 & (K1 & K2 & K3 & K4 & K5) & Hp). rewrite (bind_Ret _ _ _ _ _ E1).
  set (s2 := set_cache_lock false s1). rewrite (bind_Ret unlock_cache _ s1 tt s2) by (unfold unlock_cache; by rewrite bind_gets, K4).
  assert (Hcont : forall b', 0 <= b' < 2 ^ 33 -> content s2 b' = content s b') by (intros b' Hb'; exact (K5 b' Hb')).
  destruct (Z.eqb_spec p 0) as [->|Hp0].
  { exists 0, s2. split; [done|]. split; [done|]. split; [done|]. left. split; [done|]. intros h x Hx. simpl. by rewrite K2. }
  destruct Hp as [?|Hcp]; [done|]. fold i in Hcp. assert (I2 : inv 0 s2) by (by apply (inv_ext 0 s1); try done; [apply I1..|]; intros j q Hc; split_and!; try done; apply (cached_frame 0 s1 j)).
  destruct (lock_page_ok s2 i p I2 Hcp) as (c & Hc & Hlen & E3 & I3). rewrite (bind_Ret _ _ _ _ _ E3).
  set (s3 := set_pages _ s2) in *. assert (Hc3 : pages s3 !! p = Some (mkCpage true (blk_headers c) (pg_dirty c))) by (apply lookup_insert_eq).
  assert (H4 : exists e s4 c4, init_blk_headers junk p (FIRST_BLK_IN_PAGE b) s3 = Ret e s4 /\ inv p s4 /\ grows s3 s4 /\ pages s4 !! p = Some c4 /\
    pg_lock c4 = true /\ (e = ERR_NOMEM \/ (e = ERR_OK /\ length (blk_headers c4) = 8%nat))).
  { unfold init_blk_headers. rewrite (bind_Ret (get_page p) _ s3 _ s3) by (unfold get_page; by rewrite Hc3). simpl blk_headers.
    destruct (blk_headers c) as [|h0 hs] eqn:Ehs.
    - change (FIRST_BLK_IN_PAGE b) with (i * 8). change (Z.to_nat N_BLKS_PER_PAGE) with 8%nat.
      apply (new_headers_ok i p 8 s3 _ I3 Hcp ltac:(lia) Hc3). done.
    - exists ERR_OK, s3, (mkCpage true (h0 :: hs) (pg_dirty c)). split_and!; try done; [by apply grows_same|]. right. split; [done|].
      destruct Hlen as [?|?]; done. }
  destruct H4 as (e & s4 & c4 & E4 & I4 & (G1 & G2 & G3 & G4 & G5 & G6) & Hc4 & Hl4 & Hcase). rewrite (bind_Ret _ _ _ _ _ E4).
  assert (Hkeep : forall h x, bhs s !! h = Some x -> bhs s4 !! h = Some x) by (intros h x Hx; apply G5; simpl; by rewrite K2).
  assert (Hcp4 : cached s4 i p) by (by rewrite (cached_unfold s3 s4 G3)).
  destruct Hcase as [->|[-> Hlen4]].
  - eexists 0, _. split.
    { cbn [negb Z.eqb ERR_NOMEM ERR_OK]. rewrite (bind_Ret (unlock_page p) _ s4 tt (set_pages (<[p := mkCpage false (blk_headers c4) (pg_dirty c4)]> (pages s4)) s4)); [done|].
      unfold unlock_page. rewrite (bind_Ret (get_page p) _ s4 c4 s4) by (unfold get_page; by rewrite Hc4). by rewrite Hl4. }
    simpl. split; [by rewrite G1|]. split; [|by left].
    intros b' Hb'. rewrite <- Hcont by done. by apply content_same.
  - cbn [negb Z.eqb ERR_OK]. rewrite (bind_Ret (get_page p) _ s4 c4 s4) by (unfold get_page; by rewrite Hc4). replace b with (i * 8 + k) by lia.
    destruct (find_header_ok s4 i k p c4 I4 Hcp4 Hk Hc4 Hlen4) as (h & x & s5 & E5 & I5 & Hh & Hx & Hxb & Hbhs & D5 & M5 & C5 & L5). exists h, s5.
    split; [done|]. split; [rewrite D5, G1; done|]. split.
    { intros b' Hb'. rewrite <- Hcont by done. apply content_same; [by rewrite D5, G1|by rewrite M5, G2|by rewrite C5, G3]. }
    right. split; [done|]. split; [split; [done|]; rewrite L5, G4; done|]. exists x. rewrite Hbhs, lookup_insert_eq. split; [done|]. split; [done|]. split.
    + destruct (bhs s !! h) as [y|] eqn:Hy; [left; specialize (Hkeep h y Hy); congruence|right]. split; [done|]. apply (G6 h x Hx). simpl. by rewrite K2.
    + split; intros h' y Hne; rewrite lookup_insert_ne by done; [by apply Hkeep|]. intros Hy.
      destruct (bhs s !! h') as [z|] eqn:Hz; [left; by rewrite (Hkeep h' z Hz) in Hy|right]. apply (G6 h' y Hy). simpl. by rewrite K2.
Qed.

(** ** Locking, writing and releasing a block *)

Lemma lock_bh_ok s h x : free_cache s -> bhs s !! h = Some x -> bh_lock x = false ->
  let s' := set_bhs (<[h := set_bh_lock true x]> (bhs s)) s in lock_bh h s = Ret tt s' /\ free_cache s'.
Proof.
  intros [I Hl] Hx Hk. destruct (inv_hdr _ _ I h x Hx) as (_ & _ & i & k & Hok). split.
  - unfold lock_bh. rewrite (bind_Ret (get_bh h) _ s x s) by (unfold get_bh; by rewrite Hx). by rewrite Hk.
  - split; [|done]. apply (inv_bh_upd 0 s h x); try done; apply Hok.
Qed.

Lemma unlock_bh_ok s h x : free_cache s -> bhs s !! h = Some x -> bh_lock x = true ->
  let s' := set_bhs (<[h := set_bh_lock false x]> (bhs s)) s in unlock_bh h s = Ret tt s' /\ free_cache s'.
Proof.
  intros [I Hl] Hx Hk. destruct (inv_hdr _ _ I h x Hx) as (_ & _ & i & k & Hok). split.
  - unfold unlock_bh. rewrite (bind_Ret (get_bh h) _ s x s) by (unfold get_bh; by rewrite Hx). by rewrite Hk.
  - split; [|done]. apply (inv_bh_upd 0 s h x); try done; apply Hok.
Qed.

Lemma header_range l s h x : inv l s -> bhs s !! h = Some x -> 0 <= bh_blk x < 2 ^ 23.
Proof. intros I Hx. destruct (inv_hdr _ _ I h x Hx) as (_ & _ & i & k & [(H1 & _) H2 (H3 & H3') _ _ _ _]). lia. Qed.

(** The buffer of a header holds the contents of its block. *)
Lemma header_content l s h x : inv l s -> bhs s !! h = Some x -> mem s !! bh_data x = Some (content s (bh_blk x)) /\ 0 <= bh_blk x < 2 ^ 23.
Proof.
  intros I Hx. destruct (inv_hdr _ _ I h x Hx) as (_ & _ & i & k & [H1 H2 (H3 & H3') H4 H5 H6 H7]).
  destruct (inv_page _ _ I i _ H1) as (c & _ & _ & _ & P4 & _). destruct (P4 k H2) as [d Hd]. destruct H1 as (Hi & Hg & Hne).
  split; [|lia]. unfold content. assert (E1 : bh_blk x `div` 8 = i) by (rewrite H3; symmetry; apply Z.div_unique with k; lia).
  assert (E2 : bh_blk x `mod` 8 = k) by (rewrite H3; symmetry; apply Z.mod_unique with i; lia).
  rewrite E1, E2, Hg, (proj2 (Z.eqb_neq _ _) Hne), H4, Hd. done.
Qed.

(** Writing to the buffer of a header changes this block only. *)
Lemma set_blk_data_ok s h x d : free_cache s -> bhs s !! h = Some x ->
  exists s', set_blk_data h d s = Ret tt s' /\ free_cache s' /\ disk s' = disk s /\ bhs s' = bhs s /\
    forall b, 0 <= b < 2 ^ 33 -> content s' b = if b =? bh_blk x then d else content s b.
Proof.
  intros [I Hl] Hx. exists (set_mem (<[bh_data x := d]> (mem s)) s). destruct (inv_hdr _ _ I h x Hx) as (_ & _ & i & k & [H1 H2 (H3 & H3') H4 H5 H6 H7]).
  pose proof (cached_frame _ _ _ _ I H1) as Hfr. split; [unfold set_blk_data; by rewrite (bind_Ret (get_bh h) _ s x s) by (unfold get_bh; by rewrite Hx)|].
  split; [|split_and!; try done].
  - split; [|done]. destruct I as [I1 I2 I3 I4 I5 I6 I7]. split; try done.
    + intros j p Hj. destruct (I5 j p Hj) as (c & P1 & P2 & P3 & P4 & P5 & P6). exists c. split_and!; try done. simpl.
      intros n Hn. destruct (decide (buf p n = bh_data x)) as [->|]; [by rewrite lookup_insert_eq|rewrite lookup_insert_ne by congruence; by apply P4].
    + intros h' y Hy. destruct (I7 h' y Hy) as (? & ? & j & n & Hok). split_and!; [done|done|]. exists j, n. by apply (header_ok_ext s).
  - intros b Hb. unfold content. simpl. assert (Hi : 0 <= b `div` 8 < 2 ^ 30) by (split; [apply Z.div_pos; lia|apply Z.div_lt_upper_bound; lia]).
    pose proof (Z.div_mod b 8 ltac:(lia)) as Hdm. pose proof (Z.mod_pos_bound b 8 ltac:(lia)) as Hm. destruct (Z.eqb_spec b (bh_blk x)) as [->|Hne].
    + assert (E1 : bh_blk x `div` 8 = i) by lia. assert (E2 : bh_blk x `mod` 8 = k) by lia. destruct H1 as (_ & Hg & Hp).
      rewrite E1, E2, Hg, (proj2 (Z.eqb_neq _ _) Hp), H4, lookup_insert_eq. done.
    + destruct (Z.eqb_spec (pget (cached_pages s) (b `div` 8)) 0) as [|Hp]; [done|]. rewrite lookup_insert_ne; [done|]. rewrite H4. intros E.
      assert (Hc : cached s (b `div` 8) (pget (cached_pages s) (b `div` 8))) by done. pose proof (cached_frame _ _ _ _ I Hc) as Hfr2.
      apply (buf_inj (frames s)) in E as [E1 E2]; [|apply I|done|done|done|done]. rewrite <- E1 in Hc. pose proof (inv_inj _ _ I _ _ _ H1 Hc). lia.
Qed.

Lemma write_blk_ok s h x : free_cache s -> bhs s !! h = Some x ->
  exists e s', bdev_write_blk disk0 h s = Ret e s' /\ free_cache s' /\ (forall b, 0 <= b < 2 ^ 33 -> content s' b = content s b) /\
    ((e = ERR_NOMEM /\ disk s' = disk s /\ bhs s' = bhs s) \/
     (e = ERR_OK /\ disk s' = (bh_blk x, content s (bh_blk x)) :: disk s /\
      bhs s' = <[h := set_bh_state (set_state_bit (bh_state x) BLK_HEADER_DIRTY false) x]> (bhs s))).
Proof.
  intros [I Hl] Hx. destruct (inv_hdr _ _ I h x Hx) as (_ & _ & i & k & Hok). destruct (header_content 0 s h x I Hx) as [Hm Hb].
  assert (Hget : get_bh h s = Ret x s) by (unfold get_bh; by rewrite Hx). unfold bdev_write_blk.
  rewrite (bind_Ret (bdev_is_blk_valid h) _ s true s) by (unfold bdev_is_blk_valid; rewrite (bind_Ret _ _ _ _ _ Hget); by rewrite (ho_valid _ _ _ _ _ Hok)).
  rewrite bind_kassert by done. destruct (bio_alloc_ok 0 s I) as (p & a & E & Ha & Hfree). rewrite (bind_Ret _ _ _ _ _ E).
  assert (Hio : forall a' s', inv 0 s' -> ook a' -> inv 0 (set_bio_alloc a' s')).
  { intros a' s' I' Ha'. apply (inv_ext 0 s'); try done; [apply I'..|]. intros j q Hc. split_and!; try done. by apply (cached_frame 0 s' j). }
  destruct (Z.eqb_spec p 0) as [->|Hp]; [exists ERR_NOMEM, (set_bio_alloc a s); split_and!; try done; [by split; [apply Hio|]|by left]|].
  rewrite (bind_Ret (get_bh h) _ _ x (set_bio_alloc a s)) by (unfold get_bh; simpl; by rewrite Hx).
  set (s1 := set_disk ((bh_blk x, content s (bh_blk x)) :: disk s) (set_bio_alloc a s)).
  rewrite (bind_Ret (bdev_make_request _ _) _ (set_bio_alloc a s) tt s1) by (unfold bdev_make_request; simpl; unfold bind; simpl; by rewrite Hm).
  set (s2 := set_bio_alloc (ofree p a) s1). rewrite (bind_Ret (bio_free p) _ s1 tt s2) by done.
  set (x' := set_bh_state (set_state_bit (bh_state x) BLK_HEADER_DIRTY false) x). set (s3 := set_bhs (<[h := x']> (bhs s)) s2).
  rewrite (bind_Ret (bdev_set_blk_dirty h false) _ s2 tt s3)
    by (unfold bdev_set_blk_dirty; rewrite (bind_Ret (get_bh h) _ s2 x s2) by (unfold get_bh; simpl; by rewrite Hx); done).
  assert (I2 : inv 0 s2).
  { apply (inv_ext 0 s); try done; [apply I..|by apply Hfree|]. intros j q Hc. split_and!; try done. by apply (cached_frame 0 s j). }
  exists ERR_OK, s3. split; [done|]. split.
  - split; [|done]. apply (inv_bh_upd 0 s2 h x); try done; [apply Hok| |].
    + unfold x'. cbn [bh_state set_bh_state]. rewrite set_dirty_valid. apply Hok.
    + unfold x'. cbn [bh_state set_bh_state]. by rewrite fresh_state_clean.
  - split; [|by right]. intros b Hb'. unfold content. simpl. destruct (Z.eqb_spec (pget (cached_pages s) (b `div` 8)) 0) as [H0|]; [|done].
    destruct (Z.eqb_spec (bh_blk x) b) as [<-|]; [|done]. destruct Hok as [(? & Hg & Hne) Hk (Hbk & _) _ _ _ _]. exfalso.
    assert (E1 : bh_blk x `div` 8 = i) by (rewrite Hbk; symmetry; apply Z.div_unique with k; lia). congruence.
Qed.

Lemma free_headers_run p l : forall s c, pages s !! p = Some c -> blk_headers c = l -> NoDup l ->
  ook (blk_header_allocator s) -> (forall h, h ∈ l -> h ∈ olive (blk_header_allocator s)) ->
  (forall h, h ∈ l -> exists x, bhs s !! h = Some x /\ get_state_bit (bh_state x) BLK_HEADER_DIRTY = false) ->
  exists m a, free_headers p l s =
      Ret tt (set_bh_alloc a (set_bhs m (set_pages (<[p := mkCpage (pg_lock c) [] (pg_dirty c)]> (pages s)) s))) /\
    (forall h, m !! h = if decide (h ∈ l) then None else bhs s !! h) /\ ook a /\ olive a = olive (blk_header_allocator s) ∖ list_to_set l.
Proof.
  induction l as [|h l IH]; intros s c Hc Hl Hnd Hok Hlive Hh.
  { exists (bhs s), (blk_header_allocator s). cbn [free_headers]. split_and!; [|by intros h; rewrite decide_False by sset|done|sset].
    rewrite insert_id; [by destruct s|]. rewrite Hc. destruct c; simpl in *. by subst. }
  apply NoDup_cons in Hnd as [Hni Hnd]. destruct (Hh h ltac:(sset)) as (x & Hx & Hd). cbn [free_headers].
  rewrite (bind_Ret (bdev_is_blk_dirty h) _ s false s) by (unfold bdev_is_blk_dirty; rewrite (bind_Ret (get_bh h) _ s x s) by (unfold get_bh; by rewrite Hx); by rewrite Hd).
  rewrite bind_kassert by done. rewrite (bind_Ret (get_page p) _ s c s) by (unfold get_page; by rewrite Hc).
  set (c1 := mkCpage (pg_lock c) l (pg_dirty c)). set (s1 := set_pages (<[p := c1]> (pages s)) s). rewrite (bind_Ret (put_page p c1) _ s tt s1) by done.
  set (s2 := set_bh_alloc (ofree h (blk_header_allocator s)) (set_bhs (delete h (bhs s)) s1)). rewrite (bind_Ret (modify _) _ s1 tt s2) by done.
  destruct (ofree_live (blk_header_allocator s) h Hok ltac:(sset)) as [Hok' Hlive'].
  destruct (IH s2 c1) as (m & a & E & Hm & Ha & Hal); try done.
  - apply lookup_insert_eq.
  - intros h' Hin. simpl. rewrite Hlive'. specialize (Hlive h' ltac:(sset)). sset.
  - intros h' Hin. simpl. destruct (Hh h' ltac:(sset)) as (y & Hy & ?). exists y. rewrite lookup_delete_ne by congruence. done.
  - exists m, a. split; [|split_and!; [|done|rewrite Hal; simpl; rewrite Hlive'; sset]].
    + rewrite E. unfold s2, s1, set_bh_alloc, set_bhs, set_pages. simpl. by rewrite insert_insert_eq.
    + intros h'. rewrite Hm. simpl. destruct (decide (h' = h)) as [->|Hne].
      * rewrite decide_False by done. rewrite lookup_delete_eq. by rewrite decide_True by sset.
      * rewrite lookup_delete_ne by done. destruct (decide (h' ∈ l)); [rewrite decide_True by sset|rewrite decide_False by sset]; done.
Qed.

Lemma all_zero_ref_run l s : Forall (fun h => is_Some (bhs s !! h)) l ->
  exists z, all_zero_ref l s = Ret z s /\ (z = true -> forall h x, h ∈ l -> bhs s !! h = Some x -> bh_ref x <= 0).
Proof.
  induction 1 as [|h l [x Hx] _ (z & E & Hz)]; cbn [all_zero_ref]; [exists true; split; [done|]; intros _ h x Hin; sset|].
  rewrite (bind_Ret (get_bh h) _ s x s) by (unfold get_bh; by rewrite Hx). destruct (Z.ltb_spec 0 (bh_ref x)); [by exists false|].
  exists z. split; [done|]. intros Ez h' y [->|Hin]%elem_of_cons Hy; [|by eapply Hz]. assert (y = x) as -> by congruence. lia.
Qed.

(** Freeing the headers of a clean page without references. *)
Lemma free_page_headers s i p c : inv p s -> cached s i p -> pages s !! p = Some c -> length (blk_headers c) = 8%nat -> pg_dirty c = false ->
  exists s' c', free_headers p (blk_headers c) s = Ret tt s' /\ inv p s' /\ pages s' !! p = Some c' /\ blk_headers c' = [] /\
    disk s' = disk s /\ mem s' = mem s /\ cached_pages s' = cached_pages s /\ pgcache_lock s' = pgcache_lock s /\
    forall h, bhs s' !! h = if decide (h ∈ blk_headers c) then None else bhs s !! h.
Proof.
  intros I Hcp Hc Hlen Hd. destruct (inv_page _ _ I i p Hcp) as (c0 & P1 & P2 & P3 & P4 & P5 & P6). assert (c0 = c) as -> by congruence.
  assert (Hin : forall h, h ∈ blk_headers c -> exists k x, blk_headers c !! k = Some h /\ bhs s !! h = Some x /\ bh_page x = p).
  { intros h [k Hk]%list_elem_of_lookup. destruct (P6 k h Hk) as (x & ? & ? & _). eauto. }
  assert (Hnd : NoDup (blk_headers c)).
  { apply NoDup_alt. intros k k' h Hk Hk'. destruct (P6 k h Hk) as (x & Hx & _ & Hb). destruct (P6 k' h Hk') as (x' & Hx' & _ & Hb'). assert (x' = x) by congruence. subst. lia. }
  destruct (free_headers_run p (blk_headers c) s c Hc eq_refl Hnd (inv_bh_alloc _ _ I)) as (m & a & E & Hm & Ha & Hal).
  { intros h (k & x & _ & Hx & _)%Hin. apply (inv_hdr _ _ I h x Hx). }
  { intros h (k & x & _ & Hx & Hp)%Hin. exists x. split; [done|]. destruct (inv_hdr _ _ I h x Hx) as (_ & _ & j & n & [_ _ _ _ _ _ (c' & H1 & _ & H3)]).
    rewrite Hp, Hc in H1. injection H1 as <-. destruct (get_state_bit _ _) eqn:Eb; [|done]. specialize (H3 eq_refl). congruence. }
  eexists _, (mkCpage (pg_lock c) [] (pg_dirty c)). split; [exact E|]. split; [|split_and!; try done; apply lookup_insert_eq].
  destruct I as [I1 I2 I3 I4 I5 I6 I7]. split; try done.
  - intros j q Hj. change (cached s j q) in Hj. destruct (I5 j q Hj) as (c0 & Q1 & Q2 & Q3 & Q4 & Q5 & Q6). unfold page_ok. simpl.
    destruct (decide (q = p)) as [->|Hne]; [rewrite lookup_insert_eq|rewrite lookup_insert_ne by congruence].
    + eexists. split; [done|]. assert (c0 = c) as -> by congruence. split_and!; try done. by left.
    + exists c0. split_and!; try done. intros k h Hk. destruct (Q6 k h Hk) as (x & Hx & Hxp & ?). exists x. rewrite Hm, decide_False; [done|].
      intros (k' & x' & _ & Hx' & Hxp')%Hin. congruence.
  - intros h x. simpl. rewrite Hm. destruct (decide (h ∈ blk_headers c)) as [?|Hni]; intros Hx; [discriminate Hx|]. destruct (I7 h x Hx) as (? & ? & j & k & [H1 H2 H3 H4 H5 H6 (c0 & H7 & H8 & H9)]).
    split_and!; [rewrite Hal; sset|done|]. exists j, k. split; try done. simpl. rewrite lookup_insert_ne; [by exists c0|].
    intros Ep. apply Hni. rewrite <- Ep in H7. assert (c0 = c) as -> by congruence. by eapply list_elem_of_lookup_2.
Qed.

(** The reference to [h] was given back: the other headers in use stay, and so
    does [h] if it has another reference. *)
Definition released s s' (h : Z) (x : blk_header) : Prop :=
  (forall h' y, h' <> h -> 0 < bh_ref y -> bhs s !! h' = Some y -> bhs s' !! h' = Some y) /\
  (1 < bh_ref x -> bhs s' !! h = Some (set_bh_ref (bh_ref x - 1) x)) /\
  (forall h' y, bhs s' !! h' = Some y -> if decide (h' = h) then y = set_bh_ref (bh_ref x - 1) x else bhs s !! h' = Some y).

Lemma release_unlocked_ok s h x : free_cache s -> bhs s !! h = Some x -> 0 < bh_ref x ->
  exists s', bdev_release_blk_unlocked h s = Ret tt s' /\ free_cache s' /\ disk s' = disk s /\
    (forall b, content s' b = content s b) /\ released s s' h x.
Proof.
  intros [I Hl] Hx Hr. destruct (inv_hdr _ _ I h x Hx) as (_ & _ & i & k & Hok). pose proof (ho_cached _ _ _ _ _ Hok) as Hcp. set (p := bh_page x) in *.
  unfold bdev_release_blk_unlocked. rewrite (bind_Ret (get_bh h) _ s x s) by (unfold get_bh; by rewrite Hx). fold p.
  destruct (lock_page_ok s i p I Hcp) as (c & Hc & Hlen & E1 & I1). rewrite (bind_Ret _ _ _ _ _ E1). set (s1 := set_pages _ s) in *.
  rewrite (bind_Ret (get_bh h) _ s1 x s1) by (unfold get_bh; simpl; by rewrite Hx). rewrite bind_kassert by (by apply Z.ltb_lt).
  set (x' := set_bh_ref (bh_ref x - 1) x). set (s2 := set_bhs (<[h := x']> (bhs s)) s1). rewrite (bind_Ret (put_bh h x') _ s1 tt s2) by done.
  assert (I2 : inv p s2) by (apply (inv_bh_upd p s1 h x); try done; [destruct Hok as [_ _ _ _ H5 _ _]; simpl; lia|apply Hok]).
  destruct Hok as [_ Hk _ _ _ _ (c0 & Hc0 & Hk0 & _)]. assert (c0 = c) as -> by (unfold p in *; congruence).
  destruct Hlen as [Hnil|Hlen]; [by rewrite Hnil in Hk0|]. set (c2 := mkCpage true (blk_headers c) (pg_dirty c)).
  assert (Hc2 : pages s2 !! p = Some c2) by (apply lookup_insert_eq). assert (Hcp2 : cached s2 i p) by done.
  assert (Hz : exists z, (if bh_ref x - 1 =? 0 then blocks_zero_ref p else ret false) s2 = Ret z s2 /\
    (z = true -> forall h y, h ∈ blk_headers c -> bhs s2 !! h = Some y -> bh_ref y <= 0)).
  { destruct (bh_ref x - 1 =? 0); [|by exists false]. unfold blocks_zero_ref. rewrite (bind_Ret (get_page p) _ s2 c2 s2) by (unfold get_page; by rewrite Hc2).
    apply all_zero_ref_run. apply Forall_forall. intros h' [n Hn]%list_elem_of_lookup. destruct (inv_page _ _ I2 i p Hcp2) as (c3 & H1 & _ & _ & _ & _ & H6).
    assert (c3 = c2) as -> by congruence. destruct (H6 n h' Hn) as (y & -> & _). done. }
  destruct Hz as (z & Ez & Hz). rewrite (bind_Ret _ _ _ _ _ Ez).
  assert (Hfin : forall s3 c3, inv p s3 -> pages s3 !! p = Some c3 -> (blk_headers c3 = [] \/ length (blk_headers c3) = 8%nat) ->
    disk s3 = disk s -> mem s3 = mem s -> cached_pages s3 = cached_pages s -> pgcache_lock s3 = false -> released s s3 h x ->
    exists s', unlock_page p s3 = Ret tt s' /\ free_cache s' /\ disk s' = disk s /\ (forall b, content s' b = content s b) /\ released s s' h x).
  { intros s3 c3 I3 Hc3 Hl3 D3 M3 C3 L3 R3. destruct (unlock_page_ok s3 i p c3 I3 ltac:(by rewrite (cached_unfold s s3 C3)) Hc3 Hl3) as [Eu Iu].
    eexists. split; [exact Eu|]. split; [done|]. split; [done|]. split; [|done]. intros b. by apply content_same. }
  assert (Hr2 : released s s2 h x).
  { split; [|split].
    - intros h' y Hne _ Hy. simpl. by rewrite lookup_insert_ne.
    - intros _. apply lookup_insert_eq.
    - intros h' y. simpl. intros [[<- <-]|[Hne Hy]]%lookup_insert_Some; [by rewrite decide_True|by rewrite decide_False]. }
  destruct z; [|apply (Hfin s2 c2); try done; by right]. unfold free_blk_headers. rewrite bind_assoc. rewrite (bind_Ret (get_page p) _ s2 c2 s2) by (unfold get_page; by rewrite Hc2).
  destruct (pg_dirty c2) eqn:Hd; [apply (Hfin s2 c2); try done; by right|].
  destruct (free_page_headers s2 i p c2 I2 Hcp2 Hc2 Hlen Hd) as (s3 & c3 & E3 & I3 & Hc3 & Hn3 & D3 & M3 & C3 & L3 & B3).
  rewrite (bind_Ret _ _ _ _ _ E3). apply (Hfin s3 c3); try done; [by left|by rewrite L3|].
  assert (Hgone : bh_ref x <= 1) by (specialize (Hz eq_refl h x' ltac:(by eapply list_elem_of_lookup_2) (lookup_insert_eq _ _ _)); simpl in Hz; lia).
  split; [|split; [lia|]].
  - intros h' y Hne Hy0 Hy. rewrite B3, decide_False; [by apply Hr2|]. intros Hin. specialize (Hz eq_refl h' y Hin). simpl in Hz.
    rewrite lookup_insert_ne in Hz by done. specialize (Hz Hy). lia.
  - intros h' y. rewrite B3. destruct (decide (h' ∈ _)); intros Hy; [done|]. by apply Hr2.
Qed.

Lemma release_blk_ok s h x : free_cache s -> bhs s !! h = Some x -> bh_lock x = true -> 0 < bh_ref x ->
  exists s', bdev_release_blk h s = Ret tt s' /\ free_cache s' /\ disk s' = disk s /\
    (forall b, content s' b = content s b) /\ released (set_bhs (<[h := set_bh_lock false x]> (bhs s)) s) s' h (set_bh_lock false x).
Proof.
  intros Hc Hx Hk Hr. destruct (unlock_bh_ok s h x Hc Hx Hk) as [E1 Hc1]. unfold bdev_release_blk. rewrite (bind_Ret _ _ _ _ _ E1).
  destruct (release_unlocked_ok _ h (set_bh_lock false x) Hc1 (lookup_insert_eq _ _ _) Hr) as (s' & E & Hc' & Hd & Hcont & Hrel).
  exists s'. split_and!; done.
Qed.

(** [bdev_get_blk] of a block whose header nobody holds. *)
Lemma get_blk_ok s b : free_cache s -> 0 <= b < 2 ^ 23 -> (forall h x, bhs s !! h = Some x -> bh_blk x = b -> bh_lock x = false) ->
  exists h s', bdev_get_blk disk0 junk b s = Ret h s' /\ disk s' = disk s /\
    (forall b', 0 <= b' < 2 ^ 33 -> content s' b' = content s b') /\
    ((h = 0 /\ forall h' x, bhs s !! h' = Some x -> bhs s' !! h' = Some x) \/
     (h <> 0 /\ free_cache s' /\ exists x, bhs s' !! h = Some (set_bh_lock true (set_bh_ref (u32 (bh_ref x + 1)) x)) /\ bh_blk x = b /\
      (bhs s !! h = Some x \/ (bhs s !! h = None /\ bh_ref x = 0)) /\
      (forall h' y, h' <> h -> bhs s !! h' = Some y -> bhs s' !! h' = Some y) /\
      (forall h' y, h' <> h -> bhs s' !! h' = Some y -> bhs s !! h' = Some y \/ (bh_ref y = 0 /\ bh_lock y = false)))).
Proof.
  intros Hc Hb Hfree. unfold bdev_get_blk. destruct (get_blk_unlocked_ok s b Hc Hb) as (h & s1 & E1 & D1 & C1 & Hcase). rewrite (bind_Ret _ _ _ _ _ E1).
  destruct Hcase as [[-> Hkeep]|(Hh & Hc1 & x & Hx & Hxb & Hold & Hkeep & Hnew)].
  { exists 0, s1. split_and!; try done. by left. }
  rewrite (proj2 (Z.eqb_neq h 0) Hh). cbn [negb]. set (x1 := set_bh_ref (u32 (bh_ref x + 1)) x) in *.
  assert (Hlk : bh_lock x1 = false) by (destruct Hold as [Hy|(_ & _ & ?)]; [by apply (Hfree h x)|done]).
  destruct (lock_bh_ok s1 h x1 Hc1 Hx Hlk) as [E2 Hc2]. rewrite (bind_Ret _ _ _ _ _ E2).
  eexists h, _. split; [done|]. split; [done|]. split; [exact C1|]. right. split; [done|]. split; [done|]. exists x. simpl. rewrite lookup_insert_eq.
  split; [done|]. split; [done|]. split; [tauto|]. split; intros h' y Hne; rewrite lookup_insert_ne by done; [by apply Hkeep|by apply Hnew].
Qed.

(** ** Properties *)

(** Getting a block: [bdev_get_blk] of a block that nobody holds returns its
    one header, locked and with one reference more, and the buffer holds the
    contents of the block; NULL means that memory has run out.  The device, the
    contents of all blocks and the other headers stay as they are in both
    cases. *)
Theorem bdev_get_blk_correct s b : free_cache s -> 0 <= b < 2 ^ 23 -> (forall h x, bhs s !! h = Some x -> bh_blk x = b -> bh_lock x = false) ->
  exists h s', bdev_get_blk disk0 junk b s = Ret h s' /\ disk s' = disk s /\
    (forall b', 0 <= b' < 2 ^ 23 -> content s' b' = content s b') /\ (forall h' x, h' <> h -> bhs s !! h' = Some x -> bhs s' !! h' = Some x) /\
    (h = 0 \/ (h <> 0 /\ free_cache s' /\ (forall h' y, bhs s !! h' = Some y -> bh_blk y = b -> h' = h) /\
       exists x, bhs s' !! h = Some x /\ bh_blk x = b /\ bh_lock x = true /\ mem s' !! bh_data x = Some (content s b) /\
         bh_ref x = u32 (from_option bh_ref 0 (bhs s !! h) + 1))).
Proof.
  intros Hc Hb Hfree. destruct (get_blk_ok s b Hc Hb Hfree) as (h & s' & E & D & C & Hcase). exists h, s'. split; [done|]. split; [done|].
  split; [intros b' Hb'; apply C; lia|]. destruct Hcase as [[-> Hkeep]|(Hh & Hc' & x & Hx & Hxb & Hold & Hkeep & _)].
  { split; [intros h' x _; apply Hkeep|by left]. }
  split; [done|]. right. split; [done|]. split; [done|]. split.
  - intros h' y Hy Hyb. destruct (decide (h' = h)) as [|Hne]; [done|]. apply (header_unique 0 s' h' h y _ (proj1 Hc') (Hkeep h' y Hne Hy) Hx). simpl. congruence.
  - eexists. split; [exact Hx|]. simpl. split; [done|]. split; [done|]. destruct (header_content 0 s' h _ (proj1 Hc') Hx) as [Hm _]. simpl in Hm.
    split; [rewrite Hm, Hxb; by rewrite C by lia|]. destruct Hold as [-> |[-> ->]]; done.
Qed.

(** The allocator has [n] objects left. *)
Fixpoint exhausts (n : nat) (a : A) : Prop :=
  match n with
  | O => exists a', oalloc a = (None, a')
  | S n' => exists h a', oalloc a = (Some h, a') /\ exhausts n' a'
  end.

Lemma new_headers_short p first n : forall m s c idx, pages s !! p = Some c -> exhausts n (blk_header_allocator s) ->
  exists s' c', new_headers junk (n + S m) p first idx s = Ret ERR_NOMEM s' /\ pages s' !! p = Some c' /\
    length (blk_headers c') = (length (blk_headers c) + n)%nat.
Proof.
  induction n as [|n IH]; intros m s c idx Hc.
  - intros [a' Ha]. exists (set_bh_alloc a' s), c. split; [|split; [done|lia]]. cbn [plus new_headers]. by rewrite Ha.
  - intros (h & a' & Ha & Hex). cbn [plus]. rewrite (new_headers_step _ s p c h a' _ _ Hc Ha).
    match goal with |- context [new_headers junk _ _ _ _ ?s1] => destruct (IH m s1 _ (idx + 1) (lookup_insert_eq _ _ _) Hex) as (s' & c' & E & Hc' & Hl) end. exists s', c'. split; [exact E|]. split; [done|].
    rewrite Hl. simpl. rewrite length_app. simpl. lia.
Qed.

Lemma find_header_none b p l s : Forall (fun h => h <> 0 /\ exists y, bhs s !! h = Some y /\ bh_blk y <> b) l -> find_header b p l s = Halt Panic s.
Proof.
  induction 1 as [|h l (H0 & y & Hy & Hne) _ IH]; [done|]. cbn [find_header]. rewrite bind_kassert by lia.
  rewrite (bind_Ret (get_bh h) _ s y s) by (unfold get_bh; by rewrite Hy). by rewrite (proj2 (Z.eqb_neq _ _) Hne).
Qed.

(** The run of [bdev_get_blk_unlocked] up to the headers when the page is in
    the cache. *)
Lemma get_blk_cached s b p : pok (cached_pages s) -> pgcache_lock s = false -> 0 <= b < 2 ^ 23 -> cached s (b `div` 8) p ->
  bdev_get_blk_unlocked disk0 junk b s =
  bind (lock_page p) (fun _ => bind (init_blk_headers junk p (FIRST_BLK_IN_PAGE b)) (fun e =>
    if negb (e =? ERR_OK) then unlock_page p ;; ret 0 else c <- get_page p ;; find_header b p (blk_headers c))) s.
Proof.
  intros Hok Hl Hb (Hi & Hg & Hp). unfold bdev_get_blk_unlocked. rewrite (bind_Ret lock_cache _ s tt (set_cache_lock true s)) by (unfold lock_cache; by rewrite bind_gets, Hl).
  rewrite (wrap_small 32) by (unfold BDEV_BLK_SIZE; lia). unfold pgcache_get_page.
  assert (Hdiv : (b * BDEV_BLK_SIZE) `div` PG_SIZE = b `div` 8) by (unfold BDEV_BLK_SIZE; change PG_SIZE with (8 * 512); by rewrite Z.div_mul_cancel_r).
  rewrite Hdiv, bind_assoc. rewrite (bind_Ret (in_cache _) _ (set_cache_lock true s) p (set_cache_lock true s)) by (unfold in_cache, zoom; simpl; rewrite plookup_spec, Hg by done; done).
  rewrite (proj2 (Z.eqb_neq p 0) Hp). cbn [negb]. rewrite bind_ret. rewrite (bind_Ret unlock_cache _ (set_cache_lock true s) tt s) by (unfold unlock_cache; rewrite bind_gets; destruct s; simpl in *; by subst).
  by rewrite (proj2 (Z.eqb_neq p 0) Hp).
Qed.

(** Running out of header memory corrupts the page: when the headers of a page
    cannot all be allocated, those that were made stay in its list, and the
    next request for the block panics. *)
Theorem bdev_get_blk_partial_panics s b p c n : free_cache s -> 0 <= b < 2 ^ 23 -> cached s (b `div` 8) p -> pages s !! p = Some c -> blk_headers c = [] ->
  (0 < n)%nat -> Z.of_nat n <= b `mod` 8 -> exhausts n (blk_header_allocator s) ->
  exists s' s'', bdev_get_blk disk0 junk b s = Ret 0 s' /\ bdev_get_blk disk0 junk b s' = Halt Panic s''.
Proof.
  intros [I Hl] Hb Hcp Hc Hnil Hn Hnb Hex. pose proof (Z.mod_pos_bound b 8 ltac:(lia)) as Hm. pose proof (Z.div_mod b 8 ltac:(lia)) as Hdm. set (i := b `div` 8) in *.
  destruct (lock_page_ok s i p I Hcp) as (c0 & Hc0 & _ & E1 & I1). assert (c0 = c) as -> by congruence. set (c1 := mkCpage true (blk_headers c) (pg_dirty c)) in *.
  set (s1 := set_pages (<[p := c1]> (pages s)) s) in *. assert (Hc1 : pages s1 !! p = Some c1) by apply lookup_insert_eq.
  destruct (new_headers_short p (i * 8) n (7 - n) s1 c1 0 Hc1 Hex) as (s2 & c2 & E2 & Hc2 & Hlen2). replace (n + S (7 - n))%nat with 8%nat in E2 by lia.
  destruct (new_headers_ok i p 8 s1 c1 I1 Hcp ltac:(lia) Hc1) as (e & s2' & c2' & E2' & I2 & G & _ & Hl2 & _); [unfold c1; simpl; by rewrite Hnil|].
  assert (Hidx : length (blk_headers c1) = 0%nat) by (unfold c1; simpl; by rewrite Hnil). rewrite Hidx in E2', Hlen2. change (Z.of_nat 0) with 0 in E2'. rewrite E2 in E2'. injection E2' as <- <-.
  destruct G as (_ & _ & G3 & G4 & _). pose proof (inv_page _ _ I2 i p ltac:(by rewrite (cached_unfold s1 s2 G3))) as (c3 & H1 & H2 & H3 & H4 & H5 & H6). assert (c3 = c2) as -> by congruence.
  rewrite bool_decide_eq_true_2 in H2 by done. set (s3 := set_pages (<[p := mkCpage false (blk_headers c2) (pg_dirty c2)]> (pages s2)) s2). exists s3.
  assert (Hget : bdev_get_blk_unlocked disk0 junk b s = Ret 0 s3).
  { rewrite (get_blk_cached s b p (inv_map _ _ I) Hl Hb Hcp), (bind_Ret _ _ _ _ _ E1). unfold init_blk_headers. rewrite bind_assoc.
    rewrite (bind_Ret (get_page p) _ s1 c1 s1) by (unfold get_page; by rewrite Hc1). unfold c1 at 1. simpl blk_headers. rewrite Hnil.
    change (Z.to_nat N_BLKS_PER_PAGE) with 8%nat. change (FIRST_BLK_IN_PAGE b) with (i * 8). rewrite (bind_Ret _ _ _ _ _ E2). cbn [negb Z.eqb ERR_NOMEM ERR_OK].
    unfold unlock_page. rewrite bind_assoc, (bind_Ret (get_page p) _ s2 c2 s2) by (unfold get_page; by rewrite Hc2). by rewrite H2. }
  enough (exists s'', bdev_get_blk disk0 junk b s3 = Halt Panic s'') as [s'' E].
  { exists s''. split; [unfold bdev_get_blk; rewrite (bind_Ret _ _ _ _ _ Hget); done|done]. }
  unfold bdev_get_blk. unfold bind at 1.
  rewrite (get_blk_cached s3 b p); [|by apply I2|simpl; by rewrite G4|done|by rewrite (cached_unfold s s3) by (simpl; rewrite G3; done)].
  set (c4 := mkCpage true (blk_headers c2) (pg_dirty c2)). set (s4 := set_pages (<[p := c4]> (pages s3)) s3).
  rewrite (bind_Ret (lock_page p) _ s3 tt s4) by (unfold lock_page; rewrite (bind_Ret (get_page p) _ s3 _ s3) by (unfold get_page; simpl; by rewrite lookup_insert_eq); done).
  assert (Hg4 : get_page p s4 = Ret c4 s4) by (unfold get_page; simpl; by rewrite lookup_insert_eq).
  unfold init_blk_headers. rewrite bind_assoc, (bind_Ret _ _ _ _ _ Hg4). unfold c4 at 1. simpl blk_headers. destruct (blk_headers c2) as [|h0 hs] eqn:Ehs; [simpl in Hlen2; lia|].
  rewrite bind_ret. cbn [negb Z.eqb ERR_OK]. rewrite (bind_Ret _ _ _ _ _ Hg4). exists s4. rewrite find_header_none; [done|]. unfold c4. simpl blk_headers.
  apply Forall_forall. intros h [j Hj]%list_elem_of_lookup. destruct (H6 j h Hj) as (y & Hy & _ & Hyb). destruct (inv_hdr _ _ I2 h y Hy) as (_ & Hh0 & _).
  split; [done|]. exists y. split; [done|]. pose proof (lookup_lt_Some _ _ _ Hj). lia.
Qed.

End lemmas.

(** ** An empty cache with some header memory *)

Definition ex_disk (b : Z) : block := replicate 512 0.
Definition ex_junk (h : Z) : Z := 7.
Definition ex_cache (n : nat) : bcache Bump.bump BumpFrames.bframes (RadixTree.rtree Bump.bump) :=
  mkBcache [] ∅ ∅ ∅ (Bump.mkBump n 1 ∅) (Bump.mkBump 1000 1 ∅) (BumpFrames.mkBframes 4096 1048576 ∅) RadixTree.ex_empty false.

Lemma ex_cache_free n : free_cache (ex_cache n).
Proof.
  assert (Hg : forall i, 0 <= i < 2 ^ 30 -> pget (cached_pages (ex_cache n)) i = 0).
  { intros i Hi. simpl. unfold RadixTree.radix_tree_lookup, bind, RadixTree.radix_tree_max_index. simpl. destruct i; [done|done|lia]. }
  split; [|done]. split.
  - split; [done|]. split; [by exists 1|]. split; [done|]. split; intros a; unfold BumpFrames.fcount; simpl; by rewrite lookup_empty.
  - apply RadixTree.ex_empty_inv.
  - split; [done|]. by intros p ?%elem_of_empty.
  - split; [done|]. by intros p ?%elem_of_empty.
  - intros i p (Hi & E & Hp). by rewrite Hg in E.
  - intros i j p (Hi & E & Hp). by rewrite Hg in E.
  - intros h x. simpl. by rewrite lookup_empty.
Qed.

(** The state in which a computation ends. *)
Definition final {S B} (o : outcome S B) : S := match o with Ret _ s | Halt _ s => s end.

Lemma bdev_get_blk_correct_witness : exists s', bdev_get_blk ex_disk ex_junk 13 (ex_cache 8) = Ret 6 s' /\ free_cache s' /\ content ex_disk s' 13 = ex_disk 13.
Proof.
  destruct (bdev_get_blk_correct ex_disk ex_junk (ex_cache 8) 13) as (h & s' & E & _ & C & _ & Hcase); [apply ex_cache_free|lia|by intros h x|].
  assert (h = 6) as ->.
  { assert (Hc : match bdev_get_blk ex_disk ex_junk 13 (ex_cache 8) with Ret h _ => h | _ => 0 end = 6) by (vm_compute; reflexivity). by rewrite E in Hc. }
  exists s'. split; [exact E|]. destruct Hcase as [?|(_ & Hf & _)]; [done|]. split; [exact Hf|]. rewrite C by lia. reflexivity.
Defined.

(** The cache after the page of block 13 was read. *)
Definition ex_page (n : nat) : bcache Bump.bump BumpFrames.bframes (RadixTree.rtree Bump.bump) :=
  final (pgcache_get_page ex_disk (13 * BDEV_BLK_SIZE) (ex_cache n)).

Lemma bdev_get_blk_partial_panics_witness :
  exists s' s'', bdev_get_blk ex_disk ex_junk 13 (ex_page 3) = Ret 0 s' /\ bdev_get_blk ex_disk ex_junk 13 s' = Halt Panic s''.
Proof.
  assert (Hs : free_cache (ex_page 3)).
  { destruct (pgcache_get_page_ok ex_disk (ex_cache 3) 13 (proj1 (ex_cache_free 3)) ltac:(lia)) as (p & s' & E & I & (_ & _ & _ & K & _) & _).
    unfold ex_page. rewrite E. split; [exact I|]. exact K. }
  apply (bdev_get_blk_partial_panics ex_disk ex_junk (ex_page 3) 13 4096 (mkCpage false [] false) 3); [exact Hs|lia| | |done|lia|vm_compute; discriminate|].
  - split; [vm_compute; split; [discriminate|reflexivity]|]. split; [vm_compute; reflexivity|done].
  - vm_compute. reflexivity.
  - vm_compute. repeat (do 2 eexists; split; [reflexivity|]). eexists. reflexivity.
Defined.

End Bdev.
