(* ===== verification/Jbd.v ===== *)
(** * The journal: kernel/fs/jbd.c, include/kernel/jbd.h

    A transaction collects the headers of the blocks it modifies; its commit
    writes the blocks to the journal area, then the journal header, then the
    blocks to their places, and erases the header.  The journal runs on the
    block cache of Bdev.v; [journal_bmap] is that of the simple file system,
    whose journal area starts at [s_journal_start]. *)

From S2P Require Import Prelude Page Alloc Lib RadixTree Bdev.
Local Open Scope kernel_scope.
Set Default Proof Using "Type".
Import Page Bdev.

Module Jbd.

Definition JOURNAL_SIZE : Z := 128.
Definition HEADER_BLK : Z := 0.
Definition BMAP_START_BLK : Z := HEADER_BLK + 1.
Definition BMAP_BLKS : Z :=
  (JOURNAL_SIZE * 4) `div` BDEV_BLK_SIZE + (if (JOURNAL_SIZE * 4) `mod` BDEV_BLK_SIZE =? 0 then 0 else 1).
Definition JDATA_START_BLK : Z := BMAP_START_BLK + BMAP_BLKS.

Inductive journal_state := IDLE | BUSY.
#[export] Instance journal_state_eq_dec : EqDecision journal_state.
Proof. solve_decision. Defined.

Record journal := mkJournal { enabled : bool; state : journal_state; next_index : Z; datablks : list Z }.

(** [memmove] of some bytes to the start of a block. *)
Definition overwrite (bytes blk : block) : block := bytes ++ drop (length bytes) blk.

Section model.
Context {A : Type} `{!ObjAlloc A} {F : Type} `{!FrameAlloc F} {T : Type} `{!PtrMap T}.
Context (disk0 : Z -> block) (junk : Z -> Z) (s_journal_start : Z).

Record jstate := mkJstate { jn : journal; bc : bcache A F T }.

Definition set_jn (j : journal) (s : jstate) : jstate := mkJstate j (bc s).
Definition set_bc (b : bcache A F T) (s : jstate) : jstate := mkJstate (jn s) b.
Definition on_bdev {B} (m : M (bcache A F T) B) : M jstate B := zoom bc set_bc m.
Definition set_next (n : Z) : M jstate unit :=
  modify (fun s => set_jn (mkJournal (enabled (jn s)) (state (jn s)) n (datablks (jn s))) s).
Definition set_state (st : journal_state) : M jstate unit :=
  modify (fun s => set_jn (mkJournal (enabled (jn s)) st (next_index (jn s)) (datablks (jn s))) s).

Definition sfs_journal_bmap (lb : Z) : Z := u32 (s_journal_start + lb).
Definition datablk (i : nat) : M jstate Z := j <- gets jn ;; of_option Fault (datablks j !! i).

(** Writing a block that is held: new data, the write to the device, and the
    release, which an error skips. *)
Definition put_blk (bh : Z) (d : block) : M (bcache A F T) err_t :=
  set_blk_data bh d ;;
  e <- bdev_write_blk disk0 bh ;;
  if negb (e =? ERR_OK) then ret e
  else bdev_release_blk bh ;; ret ERR_OK.

(** Copying one data block to the journal area; the result is the error code
    and the number of the block. *)
Definition write_data_blk (i : nat) : M jstate (err_t * Z) :=
  let pb := sfs_journal_bmap (JDATA_START_BLK + Z.of_nat i) in
  h <- datablk i ;;
  on_bdev
   (x <- get_bh h ;;
    jbh <- bdev_get_blk disk0 junk pb ;;
    if jbh =? 0 then ret (ERR_NOMEM, 0)
    else
      lock_bh h ;;
      d <- blk_data h ;;
      set_blk_data jbh d ;;
      unlock_bh h ;;
      e <- bdev_write_blk disk0 jbh ;;
      if negb (e =? ERR_OK) then ret (e, 0)
      else bdev_release_blk jbh ;; ret (ERR_OK, bh_blk x)).

(** The first loop of [write_journal_blks], from [i] on with [n] blocks to go;
    it returns the map [bmap] of block numbers. *)
Fixpoint write_data_loop (n i : nat) : M jstate (err_t * list Z) :=
  match n with
  | O => ret (ERR_OK, [])
  | S n' =>
      r <- write_data_blk i ;;
      if negb (r.1 =? ERR_OK) then ret (r.1, [])
      else r' <- write_data_loop n' (S i) ;; ret (r'.1, r.2 :: r'.2)
  end.

(** Getting block [lb] of the journal area, writing bytes to its start and
    the block to the device. *)
Definition write_journal_bytes (lb : Z) (bytes : block) : M jstate err_t :=
  on_bdev
   (bh <- bdev_get_blk disk0 junk (sfs_journal_bmap lb) ;;
    if bh =? 0 then ret ERR_NOMEM
    else d <- blk_data bh ;; put_blk bh (overwrite bytes d)).

(** The second loop of [write_journal_blks]: [bs] is [bmap] from the current
    position on, [bi] the number of the map block, [k] how many are left. *)
Fixpoint write_bmap_loop (k : nat) (bi : Z) (bs : list Z) : M jstate err_t :=
  match k, bs with
  | O, _ | _, [] => ret ERR_OK
  | S k', _ =>
      e <- write_journal_bytes (BMAP_START_BLK + bi) (concat (le32 <$> take 128 bs)) ;;
      if negb (e =? ERR_OK) then ret e else write_bmap_loop k' (bi + 1) (drop 128 bs)
  end.

Definition write_journal_blks : M jstate err_t :=
  j <- gets jn ;;
  kassert (next_index j <? JOURNAL_SIZE) ;;
  r <- write_data_loop (Z.to_nat (next_index j)) 0 ;;
  if negb (r.1 =? ERR_OK) then ret r.1
  else write_bmap_loop (Z.to_nat BMAP_BLKS) 0 r.2.

Definition write_journal_header : M jstate err_t :=
  j <- gets jn ;; write_journal_bytes HEADER_BLK (le32 (next_index j)).

Fixpoint apply_loop (n i : nat) : M jstate err_t :=
  match n with
  | O => ret ERR_OK
  | S n' =>
      h <- datablk i ;;
      on_bdev (lock_bh h) ;;
      e <- on_bdev (bdev_write_blk disk0 h) ;;
      if negb (e =? ERR_OK) then ret e
      else
        on_bdev (bdev_set_blk_dirty h false) ;;
        on_bdev (bdev_release_blk h) ;;
        apply_loop n' (S i)
  end.
Definition apply_journal : M jstate err_t := j <- gets jn ;; apply_loop (Z.to_nat (next_index j)) 0.

Definition erase_journal : M jstate err_t := set_next 0 ;; write_journal_header.

Definition commit_journal : M jstate err_t :=
  e <- write_journal_blks ;;
  if negb (e =? ERR_OK) then ret e
  else
    e <- write_journal_header ;;
    if negb (e =? ERR_OK) then ret e
    else
      e <- apply_journal ;;
      if negb (e =? ERR_OK) then ret e
      else
        e <- erase_journal ;;
        if negb (e =? ERR_OK) then ret e else ret ERR_OK.

(** ** The interface *)

(** [jbd_alloc_journal] sets the fields up; the structure itself comes from
    an object allocator. *)
Definition jbd_alloc_journal : M jstate unit :=
  modify (set_jn (mkJournal true IDLE 0 (replicate (Z.to_nat JOURNAL_SIZE) 0))).

Definition jbd_begin_txn : M jstate unit :=
  j <- gets jn ;;
  if negb (enabled j) then ret tt
  else if bool_decide (state j = IDLE) then set_state BUSY else stop Block.

(** [fuel] bounds how often the commit is tried. *)
Fixpoint commit_loop (fuel : nat) : M jstate unit :=
  match fuel with
  | O => stop Fuel
  | S fuel' => e <- commit_journal ;; if e =? ERR_OK then ret tt else commit_loop fuel'
  end.
Definition jbd_end_txn (fuel : nat) : M jstate unit :=
  j <- gets jn ;;
  if negb (enabled j) then ret tt
  else
    kassert (bool_decide (state j = BUSY)) ;;
    (if 0 <? next_index j then commit_loop fuel else ret tt) ;;
    set_state IDLE.

(** Is the block of the header in the journal? *)
Fixpoint recorded (blk : Z) (n i : nat) : M jstate bool :=
  match n with
  | O => ret false
  | S n' => h <- datablk i ;; x <- on_bdev (get_bh h) ;; if bh_blk x =? blk then ret true else recorded blk n' (S i)
  end.

Definition jbd_write_blk (h : Z) : M jstate unit :=
  j <- gets jn ;;
  if negb (enabled j) then ret tt
  else
    kassert (bool_decide (state j = BUSY)) ;;
    x <- on_bdev (get_bh h) ;;
    r <- recorded (bh_blk x) (Z.to_nat (next_index j)) 0 ;;
    if r : bool then ret tt
    else if JOURNAL_SIZE <=? next_index j then stop Panic
    else
      on_bdev (lock_page (bh_page x)) ;;
      x <- on_bdev (get_bh h) ;;
      on_bdev (put_bh h (set_bh_ref (u32 (bh_ref x + 1)) x)) ;;
      on_bdev (unlock_page (bh_page x)) ;;
      modify (fun s => set_jn (mkJournal (enabled j) (state j) (next_index j + 1)
                                 (<[Z.to_nat (next_index j) := h]> (datablks j))) s).

Definition jbd_recover : M jstate err_t := ret ERR_OK.

End model.
Arguments jstate : clear implicits.

(** ** Writes of the journal area *)

Section lemmas.
Context {A : Type} `{!ObjAlloc A} {F : Type} `{!FrameAlloc F} {T : Type} `{!PtrMap T}.
Context (disk0 : Z -> block) (junk : Z -> Z) (start : Z).
Implicit Types (c : bcache A F T) (s : jstate A F T).

(** [set_solver] without the section's variables in sight. *)
Local Ltac sset := try clear disk0; try clear junk; try clear start; set_solver.

(** The journal area is on the device; nobody holds its blocks; no reference
    count is about to wrap around. *)
Definition injournal (b : Z) : Prop := start <= b < start + 130.
Definition ready c : Prop :=
  free_cache c /\ 0 <= start /\ start + 130 <= 2 ^ 23 /\
  forall h x, bhs c !! h = Some x -> bh_ref x < 2 ^ 32 - 1 /\ (injournal (bh_blk x) -> bh_lock x = false).

(** Block [pb] of the journal area was written: it has the new data on the
    device and in the cache, and the headers in use outside of the area are as
    before. *)
Definition written c c' (pb : Z) (d : block) : Prop :=
  ready c' /\ disk c' = (pb, d) :: disk c /\
  (forall b, 0 <= b < 2 ^ 33 -> content disk0 c' b = if b =? pb then d else content disk0 c b) /\
  forall h x, bhs c !! h = Some x -> ~ injournal (bh_blk x) -> 0 < bh_ref x -> bhs c' !! h = Some x.

Lemma put_blk_ok c bh y d : free_cache c -> bhs c !! bh = Some y -> bh_lock y = true -> 0 < bh_ref y ->
  exists e c', put_blk disk0 bh d c = Ret e c' /\
    ((e = ERR_NOMEM /\ disk c' = disk c) \/
     (e = ERR_OK /\ free_cache c' /\ disk c' = (bh_blk y, d) :: disk c /\
      (forall b, 0 <= b < 2 ^ 33 -> content disk0 c' b = if b =? bh_blk y then d else content disk0 c b) /\
      (forall h x, h <> bh -> bhs c !! h = Some x -> 0 < bh_ref x -> bhs c' !! h = Some x) /\
      (forall h x, bhs c' !! h = Some x -> if decide (h = bh) then bh_blk x = bh_blk y /\ bh_lock x = false /\ bh_ref x = bh_ref y - 1 else bhs c !! h = Some x))).
Proof.
  intros Hc Hy Hk Hr. unfold put_blk. destruct (set_blk_data_ok disk0 c bh y d Hc Hy) as (c1 & E1 & Hc1 & D1 & B1 & C1). rewrite (bind_Ret _ _ _ _ _ E1).
  rewrite <- B1 in Hy. destruct (header_content disk0 0 c1 bh y (proj1 Hc1) Hy) as [_ Hb].
  destruct (write_blk_ok disk0 c1 bh y Hc1 Hy) as (e & c2 & E2 & Hc2 & C2 & [(-> & D2 & _)|(-> & D2 & B2)]); rewrite (bind_Ret _ _ _ _ _ E2).
  { exists ERR_NOMEM, c2. split; [done|]. left. split; [done|]. congruence. }
  cbn [negb Z.eqb ERR_OK]. set (y2 := set_bh_state _ y) in *.
  destruct (release_blk_ok disk0 c2 bh y2 Hc2) as (c3 & E3 & Hc3 & D3 & C3 & R1 & _ & R3); [rewrite B2; apply lookup_insert_eq|done|done|].
  rewrite (bind_Ret _ _ _ _ _ E3). exists ERR_OK, c3. split; [done|]. right. split; [done|]. split; [done|]. rewrite C1, Z.eqb_refl in D2 by lia.
  split; [congruence|]. split; [intros b Hb'; rewrite C3, C2, C1 by done; done|]. split.
  - intros h x Hne Hx Hrx. apply R1; [done|done|]. simpl. rewrite lookup_insert_ne, B2, lookup_insert_ne, B1 by congruence. done.
  - intros h x Hx. specialize (R3 h x Hx). destruct (decide (h = bh)) as [->|Hne]; [by subst x|]. simpl in R3.
    rewrite lookup_insert_ne, B2, lookup_insert_ne, B1 in R3 by congruence. done.
Qed.

(** [put_blk] of the block that [bdev_get_blk] has returned. *)
Lemma got_put_ok c pb bh c1 x d : ready c -> injournal pb -> disk c1 = disk c ->
  (forall b, 0 <= b < 2 ^ 33 -> content disk0 c1 b = content disk0 c b) -> free_cache c1 ->
  bhs c1 !! bh = Some (set_bh_lock true (set_bh_ref (u32 (bh_ref x + 1)) x)) -> bh_blk x = pb ->
  (bhs c !! bh = Some x \/ (bhs c !! bh = None /\ bh_ref x = 0)) ->
  (forall h y, h <> bh -> bhs c !! h = Some y -> bhs c1 !! h = Some y) ->
  (forall h y, h <> bh -> bhs c1 !! h = Some y -> bhs c !! h = Some y \/ (bh_ref y = 0 /\ bh_lock y = false)) ->
  exists e c', put_blk disk0 bh d c1 = Ret e c' /\ ((e = ERR_NOMEM /\ disk c' = disk c) \/ (e = ERR_OK /\ written c c' pb d)).
Proof.
  intros (Hc & Hs1 & Hs2 & Hrefs) Hpb D1 C1 Hc1 Hx Hxb Hold Hkeep Hnew. set (y := set_bh_lock true _) in *.
  assert (Hr0 : 0 <= bh_ref x < 2 ^ 32 - 1).
  { destruct Hold as [Ho|[_ ->]]; [|done]. split; [|by apply (Hrefs bh)]. destruct (inv_hdr _ _ (proj1 Hc) bh x Ho) as (_ & _ & i & k & [_ _ _ _ H _ _]). lia. }
  assert (Hry : bh_ref y = bh_ref x + 1) by (unfold y; simpl; apply wrap_small; lia).
  destruct (put_blk_ok c1 bh y d Hc1 Hx eq_refl ltac:(lia)) as (e & c' & E & [[-> D']|(-> & Hc' & D' & C' & K' & N')]); exists e, c' || eexists _, c'; (split; [exact E|]).
  { left. split; [done|congruence]. }
  right. split; [done|]. change (bh_blk y) with (bh_blk x) in *. rewrite Hxb in *. split; [|split; [congruence|split]].
  - split; [done|]. split; [done|]. split; [done|]. intros h z Hz. specialize (N' h z Hz). destruct (decide (h = bh)) as [->|Hne].
    + destruct N' as (_ & Hl & Hr). split; [lia|done].
    + destruct (Hnew h z Hne N') as [Ho|[-> ->]]; [by apply (Hrefs h)|]. split; [lia|done].
  - intros b Hb. rewrite C', C1 by done. done.
  - intros h z Hz Hnj Hrz. assert (Hne : h <> bh).
    { intros ->. destruct Hold as [Ho|[Ho _]]; [|congruence]. assert (z = x) as -> by congruence. by rewrite Hxb in Hnj. }
    apply K'; [done|by apply Hkeep|done].
Qed.

Lemma on_bdev_Ret {B} (m : M (bcache A F T) B) s a c' : m (bc s) = Ret a c' -> on_bdev m s = Ret a (set_bc c' s).
Proof. unfold on_bdev, zoom. by intros ->. Qed.

Lemma bmap_ok c lb : ready c -> 0 <= lb < 130 -> sfs_journal_bmap start lb = start + lb /\ injournal (start + lb) /\ 0 <= start + lb < 2 ^ 23.
Proof. intros (_ & H1 & H2 & _) Hlb. unfold sfs_journal_bmap, injournal. rewrite wrap_small by lia. lia. Qed.

Lemma write_journal_bytes_ok s lb bytes : ready (bc s) -> 0 <= lb < 130 ->
  exists e c', write_journal_bytes disk0 junk start lb bytes s = Ret e (set_bc c' s) /\
    ((e = ERR_NOMEM /\ disk c' = disk (bc s)) \/
     (e = ERR_OK /\ written (bc s) c' (start + lb) (overwrite bytes (content disk0 (bc s) (start + lb))))).
Proof.
  intros R Hlb. destruct (bmap_ok (bc s) lb R Hlb) as (Eb & Hj & Hb). unfold write_journal_bytes. rewrite Eb.
  set (m := bind (bdev_get_blk disk0 junk (start + lb)) _). assert (H : exists e c', m (bc s) = Ret e c' /\
    ((e = ERR_NOMEM /\ disk c' = disk (bc s)) \/ (e = ERR_OK /\ written (bc s) c' (start + lb) (overwrite bytes (content disk0 (bc s) (start + lb)))))).
  { unfold m. pose proof R as (Hc & _ & _ & Hrefs).
    destruct (get_blk_ok disk0 junk (bc s) (start + lb) Hc Hb) as (bh & c1 & E1 & D1 & C1 & Hcase); [intros h x Hx Hxb; apply (Hrefs h x Hx); by rewrite Hxb|].
    rewrite (bind_Ret _ _ _ _ _ E1). destruct Hcase as [[-> _]|(Hbh & Hc1 & x & Hx & Hxb & Hold & Hkeep & Hnew)]; [exists ERR_NOMEM, c1; split; [done|by left]|].
    rewrite (proj2 (Z.eqb_neq bh 0) Hbh). destruct (header_content disk0 0 c1 bh _ (proj1 Hc1) Hx) as [Hm _]. simpl in Hm. rewrite Hxb, C1 in Hm by lia.
    rewrite (bind_Ret (blk_data bh) _ c1 (content disk0 (bc s) (start + lb)) c1)
      by (unfold blk_data; rewrite (bind_Ret (get_bh bh) _ c1 _ c1) by (unfold get_bh; by rewrite Hx); simpl; by rewrite Hm).
    by apply (got_put_ok (bc s) (start + lb) bh c1 x). }
  destruct H as (e & c' & E & Hcase). exists e, c'. split; [by apply on_bdev_Ret|done].
Qed.

(** Copying between two blocks, with the source locked. *)
Lemma copy_run {B} c h jbh x y d0 (k : unit -> M (bcache A F T) B) : bhs c !! h = Some x -> bh_lock x = false -> bhs c !! jbh = Some y -> h <> jbh ->
  mem c !! bh_data x = Some d0 ->
  bind (lock_bh h) (fun _ => bind (blk_data h) (fun d => bind (set_blk_data jbh d) (fun _ => bind (unlock_bh h) k))) c =
  bind (set_blk_data jbh d0) k c.
Proof.
  intros Hx Hl Hy Hne Hm. unfold lock_bh, blk_data, set_blk_data, unlock_bh, get_bh, put_bh, bind, kassert, modify, ret. rewrite Hx, Hl. simpl.
  rewrite lookup_insert_eq. simpl. rewrite Hm. simpl. rewrite lookup_insert_ne, Hy by done. simpl. rewrite lookup_insert_eq. simpl. f_equal.
  unfold set_bhs, set_mem. simpl. f_equal. rewrite insert_insert_eq. apply insert_id. rewrite Hx. destruct x. simpl in *. by subst.
Qed.

Lemma write_data_blk_ok s i h x : ready (bc s) -> (i < 128)%nat -> datablks (jn s) !! i = Some h -> bhs (bc s) !! h = Some x ->
  bh_lock x = false -> ~ injournal (bh_blk x) -> 0 < bh_ref x ->
  exists r c', write_data_blk disk0 junk start i s = Ret r (set_bc c' s) /\
    ((r.1 = ERR_NOMEM /\ disk c' = disk (bc s)) \/
     (r = (ERR_OK, bh_blk x) /\ written (bc s) c' (start + 2 + Z.of_nat i) (content disk0 (bc s) (bh_blk x)))).
Proof.
  intros R Hi Hh Hx Hl Hnj Hr. unfold write_data_blk. change JDATA_START_BLK with 2. replace (start + 2 + Z.of_nat i) with (start + (2 + Z.of_nat i)) by lia.
  destruct (bmap_ok (bc s) (2 + Z.of_nat i) R ltac:(lia)) as (Eb & Hj & Hb). rewrite Eb. set (pb := start + (2 + Z.of_nat i)) in *.
  rewrite (bind_Ret (datablk i) _ s h s) by (unfold datablk; rewrite bind_gets, Hh; done).
  set (m := bind (get_bh h) _). set (d := content disk0 (bc s) (bh_blk x)).
  assert (H : exists r c', m (bc s) = Ret r c' /\ ((r.1 = ERR_NOMEM /\ disk c' = disk (bc s)) \/ (r = (ERR_OK, bh_blk x) /\ written (bc s) c' pb d))).
  { unfold m. pose proof R as (Hc & _ & _ & Hrefs). rewrite (bind_Ret (get_bh h) _ (bc s) x (bc s)) by (unfold get_bh; by rewrite Hx).
    destruct (get_blk_ok disk0 junk (bc s) pb Hc Hb) as (bh & c1 & E1 & D1 & C1 & Hcase); [intros h' x' Hx' Hxb; apply (Hrefs h' x' Hx'); by rewrite Hxb|].
    rewrite (bind_Ret _ _ _ _ _ E1). destruct Hcase as [[-> _]|(Hbh & Hc1 & y & Hy & Hyb & Hold & Hkeep & Hnew)]; [eexists _, c1; split; [done|by left]|].
    rewrite (proj2 (Z.eqb_neq bh 0) Hbh). assert (Hne : h <> bh).
    { intros ->. destruct Hold as [Ho|[Ho _]]; [|congruence]. assert (y = x) as -> by congruence. apply Hnj. by rewrite Hyb. }
    destruct (header_content disk0 0 c1 h x (proj1 Hc1) (Hkeep h x Hne Hx)) as [Hm Hbx]. rewrite C1 in Hm by lia. fold d in Hm.
    rewrite (copy_run c1 h bh x _ d) with (1 := Hkeep h x Hne Hx) (3 := Hy) (5 := Hm) by done.
    destruct (got_put_ok (bc s) pb bh c1 y d) as (e & c' & E & Hcase); try done.
    exists (if e =? ERR_OK then (ERR_OK, bh_blk x) else (e, 0)), c'. split; [|destruct Hcase as [[-> ?]|[-> ?]]; [by left|by right]].
    unfold put_blk, bind, ret in E |- *. destruct (set_blk_data bh d c1) as [u c2|]; [|done]. destruct (bdev_write_blk disk0 bh c2) as [e' c3|]; [|done].
    destruct (Z.eqb_spec e' ERR_OK) as [->|Hne']; cbn [negb] in *.
    - destruct (bdev_release_blk bh c3) as [u' c4|]; [|done]. injection E as <- <-. by rewrite Z.eqb_refl.
    - injection E as <- <-. by rewrite (proj2 (Z.eqb_neq _ _) Hne'). }
  destruct H as (r & c' & E & Hcase). exists r, c'. split; [by apply on_bdev_Ret|done].
Qed.

(** ** Sequences of writes *)

(** The writes [ws] to the journal area, the first one first. *)
Definition wrote c c' (ws : list (Z * block)) : Prop :=
  ready c' /\ disk c' = rev ws ++ disk c /\
  (forall b, 0 <= b < 2 ^ 33 -> content disk0 c' b = dread (content disk0 c) (rev ws) b) /\
  forall h x, bhs c !! h = Some x -> ~ injournal (bh_blk x) -> 0 < bh_ref x -> bhs c' !! h = Some x.

(** A run that makes all the writes, or runs out of memory after some. *)
Definition run_of c c' (e : err_t) (ws : list (Z * block)) : Prop :=
  (e = ERR_OK /\ wrote c c' ws) \/ (e = ERR_NOMEM /\ exists pre suf, ws = pre ++ suf /\ disk c' = rev pre ++ disk c).

Lemma dread_app d l1 l2 b : dread d (l1 ++ l2) b = dread (dread d l2) l1 b.
Proof. induction l1 as [|[b' x] l1 IH]; simpl; [done|]. by rewrite IH. Qed.

Lemma dread_ext (d d' : Z -> block) l b : d b = d' b -> dread d l b = dread d' l b.
Proof. intros E. induction l as [|[b' x] l IH]; simpl; [done|]. by rewrite IH. Qed.

Lemma dread_notin (d : Z -> block) l b : b ∉ l.*1 -> dread d l b = d b.
Proof.
  induction l as [|[b' x] l IH]; simpl; [done|]. intros [H1 H2]%not_elem_of_cons. rewrite (proj2 (Z.eqb_neq b' b)) by congruence. by apply IH.
Qed.

Lemma wrote_nil c : ready c -> wrote c c [].
Proof. by intros. Qed.

Lemma wrote_app c c1 c2 w1 w2 : wrote c c1 w1 -> wrote c1 c2 w2 -> wrote c c2 (w1 ++ w2).
Proof.
  intros (R1 & D1 & C1 & K1) (R2 & D2 & C2 & K2). split; [done|]. rewrite rev_app_distr. split; [by rewrite D2, D1, app_assoc|]. split.
  - intros b Hb. rewrite C2, dread_app by done. apply dread_ext. by apply C1.
  - intros h x Hx Hn Hr. apply K2; [|done|done]. by apply K1.
Qed.

Lemma run_app c c1 c2 e w1 w2 : wrote c c1 w1 -> run_of c1 c2 e w2 -> run_of c c2 e (w1 ++ w2).
Proof.
  intros W1 [[-> W2]|(-> & pre & suf & -> & D)]; [left; split; [done|]; by eapply wrote_app|right]. split; [done|]. exists (w1 ++ pre), suf.
  rewrite app_assoc. split; [done|]. destruct W1 as (_ & D1 & _). by rewrite D, D1, rev_app_distr, app_assoc.
Qed.

Lemma run_more c c' w1 w2 : run_of c c' ERR_NOMEM w1 -> run_of c c' ERR_NOMEM (w1 ++ w2).
Proof.
  intros [[? _]|(_ & pre & suf & -> & D)]; [done|]. right. split; [done|]. exists pre, (suf ++ w2). by rewrite app_assoc.
Qed.

Lemma run_one c c' e pb d : (e = ERR_NOMEM /\ disk c' = disk c) \/ (e = ERR_OK /\ written c c' pb d) -> run_of c c' e [(pb, d)].
Proof.
  intros [[-> D]|(-> & R & D & C & K)]; [right; split; [done|]; by exists [], [(pb, d)]|left]. split; [done|]. split; [done|]. split; [done|].
  split; [|done]. intros b Hb. simpl. rewrite C by done. by rewrite Z.eqb_sym.
Qed.

(** The headers of the transaction: their blocks are outside of the journal
    area and nobody holds them. *)
Definition held c (hs bs : list Z) : Prop :=
  Forall2 (fun h b => exists x, bhs c !! h = Some x /\ bh_blk x = b /\ bh_lock x = false /\ 0 < bh_ref x /\ ~ injournal b) hs bs.

Lemma held_wrote c c' ws hs bs : wrote c c' ws -> held c hs bs -> held c' hs bs.
Proof.
  intros (_ & _ & _ & K) H. refine (Forall2_impl _ _ _ _ H _). intros h b (x & Hx & <- & Hl & Hr & Hn). exists x. split_and!; try done. by apply K.
Qed.

Lemma held_block c hs bs b : free_cache c -> held c hs bs -> b ∈ bs -> 0 <= b < 2 ^ 23 /\ ~ injournal b.
Proof.
  intros [I _] Hh [j Hj]%list_elem_of_lookup. destruct (Forall2_lookup_r _ _ _ _ _ Hh Hj) as (h & _ & x & Hx & <- & _ & _ & Hn). split; [|done].
  by apply (header_range 0 c h x).
Qed.

(** The first loop writes the blocks to the journal area. *)
Fixpoint data_writes c (i : nat) (bs : list Z) : list (Z * block) :=
  match bs with [] => [] | b :: bs' => (start + 2 + Z.of_nat i, content disk0 c b) :: data_writes c (S i) bs' end.

Lemma data_writes_ext c c' bs : (forall b, b ∈ bs -> content disk0 c' b = content disk0 c b) -> forall i, data_writes c' i bs = data_writes c i bs.
Proof.
  induction bs as [|b bs IH]; intros H i; simpl; [done|]. rewrite H by (by left). f_equal. apply IH. intros b' Hb'. apply H. by right.
Qed.

Lemma data_writes_area c bs : forall i w, w ∈ data_writes c i bs -> start + 2 + Z.of_nat i <= w.1 < start + 2 + Z.of_nat i + Z.of_nat (length bs).
Proof.
  induction bs as [|b bs IH]; intros i w; simpl; [by intros ?%elem_of_nil|]. intros [->|Hw]%elem_of_cons; simpl; [lia|]. specialize (IH _ _ Hw). lia.
Qed.

Lemma write_data_loop_ok hs : forall bs i s, ready (bc s) -> (i + length hs <= 128)%nat ->
  (forall j h, hs !! j = Some h -> datablks (jn s) !! (i + j)%nat = Some h) -> held (bc s) hs bs ->
  exists r c', write_data_loop disk0 junk start (length hs) i s = Ret r (set_bc c' s) /\
    run_of (bc s) c' r.1 (data_writes (bc s) i bs) /\ (r.1 = ERR_OK -> r.2 = bs).
Proof.
  induction hs as [|h hs IH]; intros bs i s R Hi Hdat Hheld.
  { apply Forall2_nil_inv_l in Hheld as ->. exists (ERR_OK, []), (bc s). cbn [length write_data_loop]. split; [by destruct s|]. split; [|done]. left. split; [done|]. by apply wrote_nil. }
  apply Forall2_cons_inv_l in Hheld as (b & bs' & (x & Hx & <- & Hl & Hr & Hn) & Hheld & ->). cbn [length write_data_loop]. simpl in Hi.
  destruct (write_data_blk_ok s i h x R ltac:(lia)) as (r & c1 & E1 & Hcase); try done; [rewrite <- (Nat.add_0_r i); by apply Hdat|].
  rewrite (bind_Ret _ _ _ _ _ E1). cbn [data_writes]. set (d := content disk0 (bc s) (bh_blk x)) in *. set (w := (start + 2 + Z.of_nat i, d)).
  change (w :: data_writes (bc s) (S i) bs') with ([w] ++ data_writes (bc s) (S i) bs').
  assert (Hrun : run_of (bc s) c1 r.1 [w]) by (apply run_one; destruct Hcase as [[-> ?]|[-> ?]]; [by left|by right]).
  destruct Hcase as [[Er D]|[-> Hw]].
  { rewrite Er in *. cbn [negb Z.eqb ERR_NOMEM ERR_OK]. exists (ERR_NOMEM, []), c1. split; [done|]. split; [by apply run_more|done]. }
  cbn [negb Z.eqb ERR_OK fst snd]. destruct Hrun as [[_ Hwr]|[? _]]; [|done].
  destruct (IH bs' (S i) (set_bc c1 s)) as (r' & c' & E' & Hrun' & Hok); [apply Hwr|lia| |by apply (held_wrote (bc s) c1 [w])|].
  { intros j h' Hj. replace (S i + j)%nat with (i + S j)%nat by lia. by apply Hdat. }
  rewrite (bind_Ret _ _ _ _ _ E'). exists (r'.1, bh_blk x :: r'.2), c'. split; [done|]. split; [|intros E; simpl in *; by rewrite Hok].
  simpl bc in Hrun'. rewrite (data_writes_ext (bc s) c1) in Hrun'; [by apply (run_app _ c1)|].
  intros b Hb. destruct (held_block (bc s) hs bs' b (proj1 R) Hheld Hb) as [Hb1 Hb2]. destruct Hwr as (_ & _ & C & _). rewrite C by lia.
  apply dread_notin. simpl. intros ->%list_elem_of_singleton. apply Hb2. unfold injournal. lia.
Qed.

(** ** Applying the journal *)

Definition apply_writes c (bs : list Z) : list (Z * block) := (fun b => (b, content disk0 c b)) <$> bs.

(** One block goes to its place and is released. *)
Definition apply_one (h : Z) : M (bcache A F T) err_t :=
  lock_bh h ;;
  e <- bdev_write_blk disk0 h ;;
  if negb (e =? ERR_OK) then ret e else bdev_set_blk_dirty h false ;; bdev_release_blk h ;; ret ERR_OK.

Lemma apply_one_ok c h x : ready c -> bhs c !! h = Some x -> bh_lock x = false -> 0 < bh_ref x ->
  exists e c', apply_one h c = Ret e c' /\
    ((e = ERR_NOMEM /\ disk c' = disk c) \/
     (e = ERR_OK /\ ready c' /\ disk c' = (bh_blk x, content disk0 c (bh_blk x)) :: disk c /\
      (forall b, 0 <= b < 2 ^ 33 -> content disk0 c' b = content disk0 c b) /\
      forall h' y, h' <> h -> bhs c !! h' = Some y -> 0 < bh_ref y -> bhs c' !! h' = Some y)).
Proof.
  intros (Hc & Hs1 & Hs2 & Hrefs) Hx Hl Hr. unfold apply_one. destruct (lock_bh_ok c h x Hc Hx Hl) as [E1 Hc1]. rewrite (bind_Ret _ _ _ _ _ E1).
  set (c1 := set_bhs _ c) in *. set (x1 := set_bh_lock true x) in *. assert (Hx1 : bhs c1 !! h = Some x1) by apply lookup_insert_eq.
  destruct (header_content disk0 0 c h x (proj1 Hc) Hx) as [_ Hb].
  destruct (write_blk_ok disk0 c1 h x1 Hc1 Hx1) as (e & c2 & E2 & Hc2 & C2 & [(-> & D2 & _)|(-> & D2 & B2)]); rewrite (bind_Ret _ _ _ _ _ E2).
  { exists ERR_NOMEM, c2. split; [done|]. by left. }
  cbn [negb Z.eqb ERR_OK]. set (x2 := set_bh_state _ x1) in *. assert (Hx2 : bhs c2 !! h = Some x2) by (rewrite B2; apply lookup_insert_eq).
  set (x3 := set_bh_state (Bits.set_state_bit (bh_state x2) BLK_HEADER_DIRTY false) x2). set (c3 := set_bhs (<[h := x3]> (bhs c2)) c2).
  rewrite (bind_Ret (bdev_set_blk_dirty h false) _ c2 tt c3) by (unfold bdev_set_blk_dirty; rewrite (bind_Ret (get_bh h) _ c2 x2 c2) by (unfold get_bh; by rewrite Hx2); done).
  destruct (inv_hdr _ _ (proj1 Hc2) h x2 Hx2) as (_ & _ & i & k & Hok). assert (Hc3 : free_cache c3).
  { split; [|apply Hc2]. apply (inv_bh_upd 0 c2 h x2); try done; [apply Hc2|apply Hok| |]; unfold x3; cbn [bh_state set_bh_state]; [rewrite set_dirty_valid; apply Hok|by rewrite fresh_state_clean]. }
  destruct (release_blk_ok disk0 c3 h x3 Hc3) as (c4 & E4 & Hc4 & D4 & C4 & R1 & _ & R3); [apply lookup_insert_eq|done|done|].
  rewrite (bind_Ret _ _ _ _ _ E4). exists ERR_OK, c4. split; [done|]. right. split; [done|].
  assert (Hold : forall h' (y y' : blk_header), h' <> h -> bhs (set_bhs (<[h := y']> (bhs c3)) c3) !! h' = bhs c !! h').
  { intros h' y y' Hne. simpl. rewrite !lookup_insert_ne, B2, lookup_insert_ne by done. unfold c1. simpl. by rewrite lookup_insert_ne. }
  split; [|split; [rewrite D4; exact D2|split]].
  - split; [done|]. split; [done|]. split; [done|]. intros h' y Hy. specialize (R3 h' y Hy). destruct (decide (h' = h)) as [->|Hne].
    + subst y. simpl. specialize (Hrefs h x Hx). split; [lia|done].
    + rewrite (Hold h' y) in R3 by done. by apply (Hrefs h').
  - intros b Hb'. rewrite C4. change (content disk0 c3 b) with (content disk0 c2 b). by rewrite C2.
  - intros h' y Hne Hy Hry. apply R1; [done|done|]. by rewrite (Hold h' y).
Qed.

Lemma apply_loop_ok hs : forall bs i s, ready (bc s) -> NoDup hs ->
  (forall j h, hs !! j = Some h -> datablks (jn s) !! (i + j)%nat = Some h) -> held (bc s) hs bs ->
  exists e c', apply_loop disk0 (length hs) i s = Ret e (set_bc c' s) /\
    ((e = ERR_OK /\ ready c' /\ disk c' = rev (apply_writes (bc s) bs) ++ disk (bc s) /\
      forall b, 0 <= b < 2 ^ 33 -> content disk0 c' b = content disk0 (bc s) b) \/
     (e = ERR_NOMEM /\ exists pre suf, apply_writes (bc s) bs = pre ++ suf /\ disk c' = rev pre ++ disk (bc s))).
Proof.
  induction hs as [|h hs IH]; intros bs i s R Hnd Hdat Hheld.
  { apply Forall2_nil_inv_l in Hheld as ->. exists ERR_OK, (bc s). cbn [length apply_loop]. split; [by destruct s|]. by left. }
  pose proof Hheld as Hheld0. apply Forall2_cons_inv_l in Hheld as (b & bs' & (x & Hx & <- & Hl & Hr & Hn) & Hheld & ->). apply NoDup_cons in Hnd as [Hni Hnd].
  cbn [length apply_loop]. rewrite (bind_Ret (datablk i) _ s h s) by (unfold datablk; rewrite bind_gets; rewrite <- (Nat.add_0_r i); by rewrite (Hdat 0%nat h)).
  destruct (apply_one_ok (bc s) h x R Hx Hl Hr) as (e & c1 & E1 & Hcase).
  assert (Hstep : forall k : M (jstate A F T) err_t, bind (on_bdev (lock_bh h)) (fun _ => bind (on_bdev (bdev_write_blk disk0 h)) (fun e =>
      if negb (e =? ERR_OK) then ret e else bind (on_bdev (bdev_set_blk_dirty h false)) (fun _ => bind (on_bdev (bdev_release_blk h)) (fun _ => k)))) s =
    if negb (e =? ERR_OK) then Ret e (set_bc c1 s) else k (set_bc c1 s)).
  { intros k. unfold apply_one, bind, on_bdev, zoom, ret in *. destruct (lock_bh h (bc s)) as [[] c2|]; [|done]. simpl.
    destruct (bdev_write_blk disk0 h c2) as [e' c3|]; [|done]. destruct (Z.eqb_spec e' ERR_OK) as [->|Hne']; cbn [negb] in *.
    - simpl. destruct (bdev_set_blk_dirty h false c3) as [[] c4|]; [|done]. simpl. destruct (bdev_release_blk h c4) as [[] c5|]; [|done]. by injection E1 as <- <-.
    - injection E1 as <- <-. by rewrite (proj2 (Z.eqb_neq _ _) Hne'). }
  rewrite Hstep. destruct Hcase as [[-> D1]|(-> & R1 & D1 & C1 & K1)]; cbn [negb Z.eqb ERR_NOMEM ERR_OK].
  { exists ERR_NOMEM, c1. split; [done|]. right. split; [done|]. by exists [], (apply_writes (bc s) (bh_blk x :: bs')). }
  destruct (IH bs' (S i) (set_bc c1 s)) as (e' & c' & E' & Hres); [done|done| | |].
  { intros j h' Hj. replace (S i + j)%nat with (i + S j)%nat by lia. by apply Hdat. }
  { apply Forall2_same_length_lookup in Hheld as [Hlen Hheld]. apply Forall2_same_length_lookup. split; [done|]. intros j h' b' Hj Hb'.
    destruct (Hheld j h' b' Hj Hb') as (y & Hy & Hyb & Hyl & Hyr & Hyn). exists y. split_and!; try done. apply K1; [|done|done].
    intros ->. apply Hni. by eapply list_elem_of_lookup_2. }
  assert (Hws : apply_writes c1 bs' = apply_writes (bc s) bs').
  { apply list_fmap_ext. intros j b Hb. f_equal. apply C1.
    destruct (held_block (bc s) hs bs' b (proj1 R) Hheld (list_elem_of_lookup_2 _ _ _ Hb)). lia. }
  exists e', c'. split; [done|]. simpl bc in Hres. rewrite Hws in Hres. change (apply_writes (bc s) (bh_blk x :: bs')) with ([(bh_blk x, content disk0 (bc s) (bh_blk x))] ++ apply_writes (bc s) bs').
  destruct Hres as [(-> & R' & D' & C')|(-> & pre & suf & E2 & D')]; [left|right]; (split; [done|]).
  - split; [done|]. split; [rewrite D', D1, rev_app_distr, <- app_assoc; done|]. intros b Hb. rewrite C' by done. by apply C1.
  - exists ([(bh_blk x, content disk0 (bc s) (bh_blk x))] ++ pre), suf. rewrite E2, app_assoc. split; [done|]. rewrite D', D1, rev_app_distr, <- app_assoc. done.
Qed.

(** ** The writes of a commit *)

Definition map_block c (bs : list Z) : block := overwrite (concat (le32 <$> bs)) (content disk0 c (start + 1)).
Definition header_block c (n : Z) : block := overwrite (le32 n) (content disk0 c start).
Definition log_writes c (bs : list Z) : list (Z * block) := data_writes c 0 bs ++ [(start + 1, map_block c bs)].
Definition txn_writes c (bs : list Z) : list (Z * block) :=
  let n := Z.of_nat (length bs) in
  (log_writes c bs ++ [(start, header_block c n)]) ++ apply_writes c bs ++ [(start, overwrite (le32 0) (header_block c n))].

(** The transaction at the start of the commit. *)
Definition txn s (hs bs : list Z) : Prop :=
  ready (bc s) /\ next_index (jn s) = Z.of_nat (length hs) /\ (0 < length hs < 128)%nat /\
  (forall j h, hs !! j = Some h -> datablks (jn s) !! j = Some h) /\ held (bc s) hs bs /\ NoDup hs.

Lemma data_writes_other c i bs b : b < start + 2 -> b ∉ (rev (data_writes c i bs)).*1.
Proof.
  intros Hb (w & -> & Hw)%list_elem_of_fmap. rewrite rev_alt, rev_append_rev, app_nil_r, <- in_rev in Hw || apply list_elem_of_In, in_rev, list_elem_of_In in Hw.
  apply data_writes_area in Hw. lia.
Qed.

Lemma write_journal_blks_ok s hs bs : txn s hs bs ->
  exists e c', write_journal_blks disk0 junk start s = Ret e (set_bc c' s) /\ run_of (bc s) c' e (log_writes (bc s) bs).
Proof.
  intros (R & Hn & Hlen & Hdat & Hheld & _). pose proof R as (_ & Hs1 & Hs2 & _). unfold write_journal_blks. rewrite bind_gets, Hn.
  rewrite bind_kassert by (unfold JOURNAL_SIZE; lia). rewrite Nat2Z.id.
  destruct (write_data_loop_ok hs bs 0 s R ltac:(lia) Hdat Hheld) as (r & c1 & E1 & Hrun & Hr2). rewrite (bind_Ret _ _ _ _ _ E1).
  pose proof (Forall2_length _ _ _ Hheld) as Hlb. destruct Hrun as [[Er Hw]|[Er Hf]]; rewrite Er; cbn [negb Z.eqb ERR_OK ERR_NOMEM]; cycle 1.
  { exists ERR_NOMEM, c1. split; [done|]. apply run_more. by right. }
  rewrite (Hr2 Er). change (Z.to_nat BMAP_BLKS) with 1%nat. destruct bs as [|b bs]; [simpl in Hlb; lia|]. set (l := b :: bs) in *. cbn [write_bmap_loop].
  rewrite (take_ge l) by (unfold l in *; lia). change (BMAP_START_BLK + 0) with 1. unfold l at 1. cbn iota.
  destruct (write_journal_bytes_ok (set_bc c1 s) 1 (concat (le32 <$> l)) (proj1 Hw) ltac:(lia)) as (e & c2 & E2 & Hcase). simpl bc in Hcase.
  assert (Hc1 : content disk0 c1 (start + 1) = content disk0 (bc s) (start + 1)).
  { destruct Hw as (_ & _ & C & _). rewrite C by lia. apply dread_notin, data_writes_other. lia. }
  rewrite Hc1 in Hcase. rewrite (bind_Ret _ _ _ _ _ E2). exists e, c2. split.
  - destruct Hcase as [[-> _]|[-> _]]; done.
  - apply (run_app _ c1); [done|]. by apply run_one.
Qed.

Lemma log_writes_other c bs b : b < start + 1 \/ ~ injournal b -> (length bs < 128)%nat -> 0 <= start -> b ∉ (rev (log_writes c bs)).*1.
Proof.
  intros Hb Hlen Hs. unfold log_writes. rewrite rev_app_distr. simpl. intros [->|Hin]%elem_of_cons; [unfold injournal in Hb; lia|].
  apply list_elem_of_fmap in Hin as (w & -> & Hw). apply list_elem_of_In, in_rev, list_elem_of_In, data_writes_area in Hw. unfold injournal in Hb. lia.
Qed.

Lemma commit_ok s hs bs : txn s hs bs ->
  exists e s' pre suf, commit_journal disk0 junk start s = Ret e s' /\ txn_writes (bc s) bs = pre ++ suf /\
    disk (bc s') = rev pre ++ disk (bc s) /\
    ((e = ERR_OK /\ suf = [] /\ next_index (jn s') = 0 /\ ready (bc s')) \/ e = ERR_NOMEM).
Proof.
  intros Htxn. pose proof Htxn as (R & Hn & Hlen & Hdat & Hheld & Hnd). pose proof R as (_ & Hs1 & Hs2 & _).
  pose proof (Forall2_length _ _ _ Hheld) as Hlb. set (n := Z.of_nat (length bs)).
  assert (Etxn : txn_writes (bc s) bs = (log_writes (bc s) bs ++ [(start, header_block (bc s) n)]) ++ apply_writes (bc s) bs ++
    [(start, overwrite (le32 0) (header_block (bc s) n))]) by done.
  assert (Hfail : forall e c' s', bc s' = c' -> run_of (bc s) c' e (log_writes (bc s) bs ++ [(start, header_block (bc s) n)]) -> e = ERR_NOMEM ->
    exists pre suf, txn_writes (bc s) bs = pre ++ suf /\ disk (bc s') = rev pre ++ disk (bc s)).
  { intros e c' s' <- Hrun ->. destruct Hrun as [[? _]|(_ & pre & suf & E & D)]; [done|]. eexists pre, _. split; [|done]. rewrite Etxn, E, <- app_assoc. done. }
  unfold commit_journal. destruct (write_journal_blks_ok s hs bs Htxn) as (e1 & c1 & E1 & Hrun1). rewrite (bind_Ret _ _ _ _ _ E1).
  destruct Hrun1 as [[-> Hw1]|Hf1]; cbn [negb Z.eqb ERR_OK]; cycle 1.
  { destruct (Hfail e1 c1 (set_bc c1 s) eq_refl) as (pre & suf & ? & ?); [|apply Hf1|].
    - destruct Hf1 as [-> Hf1]. apply run_more. by right.
    - destruct Hf1 as [-> _]. exists ERR_NOMEM, (set_bc c1 s), pre, suf. split_and!; try done. by right. }
  unfold write_journal_header at 1. rewrite bind_assoc, bind_gets. simpl jn. rewrite Hn, Hlb. fold n. change HEADER_BLK with 0.
  destruct (write_journal_bytes_ok (set_bc c1 s) 0 (le32 n) (proj1 Hw1) ltac:(lia)) as (e2 & c2 & E2 & Hcase2). rewrite Z.add_0_r in Hcase2. simpl bc in Hcase2.
  assert (Hc1 : content disk0 c1 start = content disk0 (bc s) start).
  { destruct Hw1 as (_ & _ & C & _). rewrite C by lia. apply dread_notin, log_writes_other; [by left; lia|lia|done]. }
  rewrite Hc1 in Hcase2. change (overwrite _ _) with (header_block (bc s) n) in Hcase2. apply run_one in Hcase2. pose proof (run_app _ c1 c2 e2 _ _ Hw1 Hcase2) as Hrun2. rewrite (bind_Ret _ _ _ _ _ E2).
  destruct Hrun2 as [[-> Hw2]|Hf2]; cbn [negb Z.eqb ERR_OK]; cycle 1.
  { destruct (Hfail e2 c2 (set_bc c2 s) eq_refl) as (pre & suf & ? & ?); [by right|apply Hf2|].
    destruct Hf2 as [-> _]. exists ERR_NOMEM, (set_bc c2 s), pre, suf. split_and!; try done. by right. }
  change (set_bc c2 (set_bc c1 s)) with (set_bc c2 s). unfold apply_journal. rewrite bind_assoc, bind_gets. simpl jn. rewrite Hn, Nat2Z.id.
  pose proof (held_wrote _ _ _ _ _ Hw2 Hheld) as Hheld2.
  destruct (apply_loop_ok hs bs 0 (set_bc c2 s) (proj1 Hw2) Hnd Hdat Hheld2) as (e3 & c3 & E3 & Hres3). rewrite (bind_Ret _ _ _ _ _ E3). simpl bc in Hres3.
  set (w2 := log_writes (bc s) bs ++ [(start, header_block (bc s) n)]) in *. pose proof Hw2 as (R2 & D2 & C2 & _).
  assert (Ha : apply_writes c2 bs = apply_writes (bc s) bs).
  { apply list_fmap_ext. intros j b Hb. f_equal. destruct (held_block (bc s) hs bs b (proj1 R) Hheld (list_elem_of_lookup_2 _ _ _ Hb)) as [Hb1 Hb2].
    rewrite C2 by lia. apply dread_notin. unfold w2. rewrite rev_app_distr. simpl. intros [->|Hin]%elem_of_cons; [apply Hb2; unfold injournal; lia|].
    revert Hin. apply log_writes_other; [by right|lia|done]. }
  rewrite Ha in Hres3. destruct Hres3 as [(-> & R3 & D3 & C3)|(-> & pre & suf & Epre & D3)]; cbn [negb Z.eqb ERR_OK ERR_NOMEM]; cycle 1.
  { exists ERR_NOMEM, (set_bc c3 (set_bc c2 s)), (w2 ++ pre), (suf ++ [(start, overwrite (le32 0) (header_block (bc s) n))]). split; [done|]. split.
    - rewrite Etxn. fold w2. rewrite Epre, <- !app_assoc. done.
    - split; [|by right]. simpl. rewrite D3, D2, rev_app_distr. by rewrite app_assoc. }
  unfold erase_journal. rewrite bind_assoc. set (s3 := mkJstate (mkJournal (enabled (jn s)) (state (jn s)) 0 (datablks (jn s))) c3).
  rewrite (bind_Ret (set_next 0) _ (set_bc c3 (set_bc c2 s)) tt s3) by done. unfold write_journal_header. rewrite bind_assoc, bind_gets. change HEADER_BLK with 0. simpl (next_index _).
  destruct (write_journal_bytes_ok s3 0 (le32 0) R3 ltac:(lia)) as (e4 & c4 & E4 & Hcase4). rewrite (bind_Ret _ _ _ _ _ E4). rewrite Z.add_0_r in Hcase4. simpl bc in Hcase4.
  assert (Hc3 : content disk0 c3 start = header_block (bc s) n) by (rewrite C3, C2 by lia; unfold w2; rewrite rev_app_distr; simpl; by rewrite Z.eqb_refl).
  rewrite Hc3 in Hcase4. assert (Happ : rev (apply_writes (bc s) bs) ++ rev w2 = rev (w2 ++ apply_writes (bc s) bs)) by (by rewrite rev_app_distr).
  destruct Hcase4 as [[-> D4]|(-> & R4 & D4 & _)]; cbn [negb Z.eqb ERR_OK ERR_NOMEM].
  - exists ERR_NOMEM, (set_bc c4 s3), (w2 ++ apply_writes (bc s) bs), [(start, overwrite (le32 0) (header_block (bc s) n))]. split; [done|].
    split; [rewrite Etxn; fold w2; by rewrite <- !app_assoc|]. split; [|by right]. simpl. by rewrite D4, D3, D2, app_assoc, Happ.
  - exists ERR_OK, (set_bc c4 s3), (txn_writes (bc s) bs), []. split; [done|]. split; [by rewrite app_nil_r|]. split; [|by left].
    simpl. rewrite D4, D3, D2, Etxn. fold w2. rewrite (app_assoc w2), rev_app_distr. simpl. by rewrite app_assoc, Happ.
Qed.

(** ** Recovery *)

(** What a journal of the documented layout on a device stands for: when its
    header has [n] blocks, each of them replaces the block that the map names.
    [jbd_recover] would have to establish this. *)
Definition log_of (d : Z -> block) : list (Z * block) :=
  (fun i => (of_le32 (drop (4 * i) (d (start + 1))), d (start + 2 + Z.of_nat i))) <$> seq 0 (Z.to_nat (of_le32 (d start))).
Definition recovered (d : Z -> block) (b : Z) : block := dread d (rev (log_of d)) b.

Lemma bmap_lookup bs j b l : bs !! j = Some b -> 0 <= b < 2 ^ 32 -> of_le32 (drop (4 * j) (concat (le32 <$> bs) ++ l)) = b.
Proof.
  revert j. induction bs as [|b' bs IH]; intros [|j] Hj Hb; [done|done|..].
  - injection Hj as ->. change (4 * 0)%nat with 0%nat. rewrite drop_0. cbn [fmap list_fmap concat]. rewrite <- app_assoc. by apply of_le32_le32.
  - simpl in Hj. rewrite <- (IH j Hj Hb). replace (4 * S j)%nat with (4 + 4 * j)%nat by lia. cbn [fmap list_fmap concat]. rewrite <- app_assoc. done.
Qed.

Lemma dread_map (d f : Z -> block) bs b : dread d (rev ((fun b => (b, f b)) <$> bs)) b = if decide (b ∈ bs) then f b else d b.
Proof.
  induction bs as [|b' bs IH]; [done|]. cbn [fmap list_fmap rev]. rewrite dread_app. destruct (decide (b ∈ bs)) as [Hin|Hni].
  - rewrite decide_True by (by right). rewrite <- IH. clear IH. revert Hin. induction bs as [|b2 bs IH2] using rev_ind; [by intros ?%elem_of_nil|].
    rewrite fmap_app, rev_app_distr. simpl. destruct (Z.eqb_spec b2 b); [done|]. intros [?|E%list_elem_of_singleton]%elem_of_app; [by apply IH2|congruence].
  - rewrite dread_notin; [|intros (w & -> & Hw)%list_elem_of_fmap; apply Hni; apply list_elem_of_In, in_rev, list_elem_of_In, list_elem_of_fmap in Hw as (b2 & -> & ?); done].
    simpl. destruct (Z.eqb_spec b' b) as [->|Hne]; [by rewrite decide_True by (by left)|]. rewrite decide_False; [done|]. intros [?|?]%elem_of_cons; congruence.
Qed.

Lemma recovered_ext (d d' : Z -> block) b : (forall x, d x = d' x) -> recovered d b = recovered d' b.
Proof.
  intros H. unfold recovered. assert (E : log_of d = log_of d'); [unfold log_of; rewrite (H start); apply list_fmap_ext; intros i x _; simpl; by rewrite !H|].
  rewrite E. by apply dread_ext.
Qed.

Lemma recovered_empty d b : of_le32 (d start) = 0 -> recovered d b = d b.
Proof. intros E. unfold recovered, log_of. by rewrite E. Qed.

(** A device with a complete journal stands for the new contents. *)
Lemma recovered_full c (d : Z -> block) bs b l1 l2 : (forall b, b ∈ bs -> 0 <= b < 2 ^ 32) -> (length bs < 128)%nat ->
  d start = overwrite (le32 (Z.of_nat (length bs))) l1 -> d (start + 1) = overwrite (concat (le32 <$> bs)) l2 ->
  (forall j b, bs !! j = Some b -> d (start + 2 + Z.of_nat j) = content disk0 c b) ->
  recovered d b = if decide (b ∈ bs) then content disk0 c b else d b.
Proof.
  intros Hbs Hlen Hd0 Hd1 Hd2. unfold recovered. assert (E : log_of d = (fun b => (b, content disk0 c b)) <$> bs); [|by rewrite E, dread_map].
  unfold log_of. rewrite Hd0. unfold overwrite at 1. rewrite of_le32_le32 by lia. rewrite Nat2Z.id. apply list_eq. intros j. rewrite !list_lookup_fmap.
  destruct (bs !! j) as [b'|] eqn:Hj; cycle 1.
  { apply lookup_ge_None in Hj. rewrite (proj2 (lookup_ge_None _ _)); [done|]. by rewrite length_seq. }
  rewrite lookup_seq_lt by (by eapply lookup_lt_Some). simpl fmap. do 2 f_equal; [|by apply Hd2].
  rewrite Hd1. unfold overwrite. apply bmap_lookup; [done|]. apply Hbs. by eapply list_elem_of_lookup_2.
Qed.

Lemma data_writes_lookup c bs : forall d i j b, bs !! j = Some b -> dread d (rev (data_writes c i bs)) (start + 2 + Z.of_nat (i + j)) = content disk0 c b.
Proof.
  induction bs as [|b' bs IH]; intros d i j b Hj; [done|]. cbn [data_writes rev]. rewrite dread_app. destruct j as [|j]; simpl in Hj.
  - injection Hj as ->. rewrite dread_notin; [simpl; replace (i + 0)%nat with i by lia; by rewrite Z.eqb_refl|].
    intros (w & Ew & Hw)%list_elem_of_fmap. apply list_elem_of_In, in_rev, list_elem_of_In, data_writes_area in Hw. lia.
  - replace (i + S j)%nat with (S i + j)%nat by lia. by apply IH.
Qed.

Lemma prefix_stages {X} (l1 l2 pre suf : list X) x y : (l1 ++ [x]) ++ l2 ++ [y] = pre ++ suf ->
  (exists k, l1 = pre ++ k) \/ (exists k1 k2, pre = (l1 ++ [x]) ++ k1 /\ l2 = k1 ++ k2) \/ pre = (l1 ++ [x]) ++ l2 ++ [y].
Proof.
  intros E. apply app_eq_app in E as (k & [[E1 E2]|[E1 E2]]).
  - destruct k as [|z k _] using rev_ind; [right; left; exists [], l2; by rewrite E1, !app_nil_r|]. rewrite app_assoc in E1. apply app_inj_tail in E1 as [-> _].
    left. by exists k.
  - destruct suf as [|z suf _] using rev_ind; [right; right; by rewrite E1, E2, app_nil_r|]. rewrite app_assoc in E2. apply app_inj_tail in E2 as [-> _].
    right; left. by exists k, suf.
Qed.

(** Every prefix of the writes of a commit leaves a device that stands for the
    old contents or for the new ones. *)
Section crash.
Context (c : bcache A F T) (bs : list Z) (d : Z -> block).
Context (Hbs : forall b, b ∈ bs -> 0 <= b < 2 ^ 23 /\ ~ injournal b) (Hlen : (length bs < 128)%nat) (Hstart : 0 <= start) (Hempty : of_le32 (d start) = 0).

Let new (b : Z) : block := if decide (b ∈ bs) then content disk0 c b else d b.
Let n := Z.of_nat (length bs).
Let w2 := log_writes c bs ++ [(start, header_block c n)].

Lemma old_outside ws b : (forall w, w ∈ ws -> injournal w.1) -> ~ injournal b -> dread d (rev ws) b = d b.
Proof.
  intros Hws Hb. apply dread_notin. intros (w & -> & Hw)%list_elem_of_fmap. apply Hb, Hws. by apply list_elem_of_In, in_rev, list_elem_of_In.
Qed.

Lemma log_in_area w : w ∈ log_writes c bs -> injournal w.1 /\ w.1 <> start.
Proof using Hlen Hstart.
  unfold log_writes. intros [Hw%data_writes_area| ->%list_elem_of_singleton]%elem_of_app; unfold injournal; simpl in *; lia.
Qed.

Lemma apply_outside w : w ∈ apply_writes c bs -> w.1 ∈ bs.
Proof. intros (b & -> & Hb)%list_elem_of_fmap. done. Qed.

Lemma before_header pre suf : log_writes c bs = pre ++ suf -> forall b, ~ injournal b -> recovered (dread d (rev pre)) b = d b.
Proof using Hlen Hstart Hempty.
  intros E b Hb. assert (Hpre : forall w, w ∈ pre -> injournal w.1 /\ w.1 <> start) by (intros w Hw; apply log_in_area; rewrite E; by apply elem_of_app; left).
  rewrite recovered_empty; [apply old_outside; [apply Hpre|done]|]. rewrite dread_notin; [done|].
  intros (w & Ew & Hw)%list_elem_of_fmap. apply list_elem_of_In, in_rev, list_elem_of_In in Hw. by apply (Hpre w Hw).
Qed.

Lemma after_header pre suf : apply_writes c bs = pre ++ suf -> forall b, ~ injournal b -> recovered (dread d (rev (w2 ++ pre))) b = new b.
Proof using Hlen Hstart Hbs.
  intros E b Hb. assert (Hpre : forall w, w ∈ pre -> w.1 ∈ bs) by (intros w Hw; apply apply_outside; rewrite E; by apply elem_of_app; left).
  assert (Hpre2 : forall x, injournal x -> forall d', dread d' (rev pre) x = d' x).
  { intros x Hx d'. apply dread_notin. intros (w & -> & Hw)%list_elem_of_fmap. apply list_elem_of_In, in_rev, list_elem_of_In, Hpre in Hw. by destruct (Hbs _ Hw). }
  rewrite rev_app_distr. assert (Hin : forall x, injournal x -> dread d (rev pre ++ rev w2) x = dread d (rev w2) x) by (intros x Hx; rewrite dread_app; by apply Hpre2).
  assert (Hj : forall k, 0 <= k < 130 -> injournal (start + k)) by (intros k Hk; unfold injournal; lia). assert (Hj0 : injournal start) by (unfold injournal; lia).
  rewrite (recovered_full c _ bs b (content disk0 c start) (content disk0 c (start + 1))).
  - unfold new. destruct (decide (b ∈ bs)) as [|Hni]; [done|]. rewrite dread_app. rewrite dread_notin.
    + apply old_outside; [|done]. unfold w2. intros w [Hw%log_in_area| ->%list_elem_of_singleton]%elem_of_app; [apply Hw|exact Hj0].
    + intros (w & -> & Hw)%list_elem_of_fmap. apply Hni, Hpre. by apply list_elem_of_In, in_rev, list_elem_of_In.
  - intros b' Hb'. destruct (Hbs b' Hb'). lia.
  - done.
  - rewrite Hin by done. unfold w2. rewrite rev_app_distr. simpl. by rewrite Z.eqb_refl.
  - rewrite Hin by (apply Hj; lia). unfold w2, log_writes. rewrite !rev_app_distr. simpl. rewrite (proj2 (Z.eqb_neq start (start + 1))) by lia. by rewrite Z.eqb_refl.
  - intros j b' Hjb. pose proof (lookup_lt_Some _ _ _ Hjb). replace (start + 2 + Z.of_nat j) with (start + (2 + Z.of_nat j)) by lia.
    rewrite Hin by (apply Hj; lia). unfold w2, log_writes. rewrite !rev_app_distr. simpl. rewrite !(proj2 (Z.eqb_neq _ _)) by lia.
    replace (start + (2 + Z.of_nat j)) with (start + 2 + Z.of_nat (0 + j)) by lia. by apply data_writes_lookup.
Qed.

Lemma all_applied b : ~ injournal b -> dread d (rev (txn_writes c bs)) b = new b.
Proof using Hlen Hstart.
  intros Hb. unfold txn_writes. fold n. fold w2. rewrite app_assoc, !rev_app_distr.
  assert (Hb0 : start <> b) by (intros <-; apply Hb; unfold injournal; lia). cbn [rev app dread]. rewrite (proj2 (Z.eqb_neq _ _) Hb0), dread_app.
  unfold apply_writes. rewrite dread_map. unfold new. destruct (decide (b ∈ bs)); [done|].
  apply old_outside; [|done]. unfold w2. intros w [Hw%log_in_area| ->%list_elem_of_singleton]%elem_of_app; [apply Hw|unfold injournal; simpl; lia].
Qed.

Lemma all_erased : of_le32 (dread d (rev (txn_writes c bs)) start) = 0.
Proof. unfold txn_writes. rewrite app_assoc, rev_app_distr. simpl. rewrite Z.eqb_refl. done. Qed.

Lemma crash_cases pre suf : txn_writes c bs = pre ++ suf ->
  (forall b, ~ injournal b -> recovered (dread d (rev pre)) b = d b) \/ (forall b, ~ injournal b -> recovered (dread d (rev pre)) b = new b).
Proof using Hlen Hstart Hempty Hbs.
  intros E. pose proof E as E0. unfold txn_writes in E. fold n in E. apply prefix_stages in E as [[k E]|[(k1 & k2 & -> & E)| ->]].
  - left. by apply (before_header pre k).
  - right. by apply (after_header k1 k2).
  - right. intros b Hb. change (_ ++ _) with (txn_writes c bs). rewrite recovered_empty by apply all_erased. by apply all_applied.
Qed.
End crash.

(** ** Properties *)

(** The contents of the device in a history of writes. *)
Definition on_disk (h : list (Z * block)) : Z -> block := dread disk0 h.

(** What the blocks of the file system are after the transaction. *)
Definition after s (bs : list Z) (b : Z) : block :=
  if decide (b ∈ bs) then content disk0 (bc s) b else on_disk (disk (bc s)) b.

(** C9. A commit is atomic: started on an empty journal, it returns success or
    ERR_NOMEM, and wherever the power fails between two of its writes, the
    device with its journal stands for the file system before the transaction
    or for the one after it.  After success all the blocks of the transaction
    are on the device and the journal is empty again. *)
Theorem jbd_commit_atomic s hs bs : txn s hs bs -> of_le32 (on_disk (disk (bc s)) start) = 0 ->
  exists e s', commit_journal disk0 junk start s = Ret e s' /\ (e = ERR_OK \/ e = ERR_NOMEM) /\
    (forall l l', disk (bc s') = l ++ l' ++ disk (bc s) ->
       (forall b, ~ injournal b -> recovered (on_disk (l' ++ disk (bc s))) b = on_disk (disk (bc s)) b) \/
       (forall b, ~ injournal b -> recovered (on_disk (l' ++ disk (bc s))) b = after s bs b)) /\
    (e = ERR_OK -> of_le32 (on_disk (disk (bc s')) start) = 0 /\ forall b, ~ injournal b -> on_disk (disk (bc s')) b = after s bs b).
Proof.
  intros Htxn H0. destruct (commit_ok s hs bs Htxn) as (e & s' & pre & suf & E & Ew & D & Hcase). pose proof Htxn as (R & _ & Hlen & _ & Hheld & _).
  pose proof (Forall2_length _ _ _ Hheld) as Hlb. pose proof R as (Hc & Hs & _ & _).
  assert (Hbs : forall b, b ∈ bs -> 0 <= b < 2 ^ 23 /\ ~ injournal b) by (intros b Hb; by apply (held_block (bc s) hs bs)).
  exists e, s'. split; [done|]. split; [destruct Hcase as [[-> _]| ->]; [by left|by right]|]. rewrite D. split.
  - intros l l' El. rewrite app_assoc in El. apply app_inv_tail in El. assert (Ep : pre = rev l' ++ rev l) by (by rewrite <- rev_app_distr, <- El, rev_involutive).
    rewrite Ep, <- app_assoc in Ew. destruct (crash_cases (bc s) bs (on_disk (disk (bc s))) Hbs ltac:(lia) Hs H0 _ _ Ew) as [Hold|Hnew]; rewrite rev_involutive in *.
    + left. intros b Hb. rewrite <- (Hold b Hb). apply recovered_ext. intros x. apply dread_app.
    + right. intros b Hb. unfold after. rewrite <- (Hnew b Hb). apply recovered_ext. intros x. apply dread_app.
  - intros He. destruct Hcase as [(_ & -> & _)| ->]; [|done]. rewrite app_nil_r in Ew. subst pre. unfold on_disk. rewrite dread_app. split; [apply all_erased|].
    intros b Hb. rewrite dread_app. apply all_applied; [lia|done|done].
Qed.

(** The recovery that would make a commit atomic is not there: the kernel's
    [jbd_recover] changes nothing, and when the power fails after the first of
    two blocks was written to its place, one block is new and the other one is
    old. *)
Theorem jbd_crash_torn s hs b1 b2 bs s' : txn s hs (b1 :: b2 :: bs) -> b1 <> b2 -> commit_journal disk0 junk start s = Ret ERR_OK s' ->
  exists l l', disk (bc s') = l ++ l' ++ disk (bc s) /\
    on_disk (l' ++ disk (bc s)) b1 = content disk0 (bc s) b1 /\ on_disk (l' ++ disk (bc s)) b2 = on_disk (disk (bc s)) b2 /\
    forall sc : jstate A F T, jbd_recover sc = Ret ERR_OK sc.
Proof.
  intros Htxn Hne E. destruct (commit_ok s hs _ Htxn) as (e & s2 & pre & suf & E' & Ew & D & Hcase). rewrite E in E'. injection E' as <- <-.
  destruct Hcase as [(_ & -> & _)|?]; [|done]. rewrite app_nil_r in Ew. subst pre. pose proof Htxn as (R & _ & Hlen & _ & Hheld & _). pose proof R as (Hc & Hs & _ & _).
  pose proof (Forall2_length _ _ _ Hheld) as Hlb. set (l := b1 :: b2 :: bs) in *. set (n := Z.of_nat (length l)).
  destruct (held_block (bc s) hs l b2 Hc Hheld ltac:(by right; left)) as [_ Hb2].
  set (w2 := log_writes (bc s) l ++ [(start, header_block (bc s) n)]). set (w1 := (b1, content disk0 (bc s) b1)).
  exists (rev (apply_writes (bc s) (b2 :: bs) ++ [(start, overwrite (le32 0) (header_block (bc s) n))])), (rev (w2 ++ [w1])). split; [|split; [|split; [|done]]].
  - rewrite D, app_assoc, <- rev_app_distr. do 2 f_equal. unfold txn_writes. fold n. fold w2. by rewrite <- !app_assoc.
  - unfold on_disk. rewrite rev_app_distr. simpl. by rewrite Z.eqb_refl.
  - unfold on_disk. rewrite rev_app_distr. change (rev [w1]) with [w1]. unfold w1. cbn [app dread]. rewrite (proj2 (Z.eqb_neq _ _) Hne), dread_app. unfold w2.
    apply (old_outside (dread disk0 (disk (bc s)))); [|done].
    intros w [Hw%log_in_area|Hw%list_elem_of_singleton]%elem_of_app; [apply Hw|lia|done|subst w; unfold injournal; simpl; lia].
Qed.

(** A full journal stops the machine: [jbd_write_blk] accepts the 128th block
    of a transaction, but [write_journal_blks] asserts that there are fewer,
    so that the end of the transaction panics. *)
Theorem jbd_full_journal_panics s h x fuel : enabled (jn s) = true -> state (jn s) = BUSY -> next_index (jn s) = JOURNAL_SIZE - 1 ->
  free_cache (bc s) -> bhs (bc s) !! h = Some x -> recorded (bh_blk x) 127 0 s = Ret false s ->
  exists s', jbd_write_blk h s = Ret tt s' /\ next_index (jn s') = JOURNAL_SIZE /\
    jbd_end_txn disk0 junk start (S fuel) s' = Halt Panic s'.
Proof.
  intros He Hst Hn [I Hl] Hx Hrec. unfold jbd_write_blk. rewrite bind_gets, He. cbn [negb]. rewrite bind_kassert by (by rewrite bool_decide_eq_true_2).
  rewrite (bind_Ret (on_bdev (get_bh h)) _ s x s) by (unfold on_bdev, zoom, get_bh; rewrite Hx; by destruct s). rewrite Hn. change (Z.to_nat (JOURNAL_SIZE - 1)) with 127%nat.
  rewrite (bind_Ret _ _ _ _ _ Hrec). change (JOURNAL_SIZE <=? JOURNAL_SIZE - 1) with false. cbn iota.
  destruct (inv_hdr _ _ I h x Hx) as (_ & _ & i & k & Hok). pose proof (ho_cached _ _ _ _ _ Hok) as Hcp. set (p := bh_page x) in *.
  destruct (lock_page_ok (bc s) i p I Hcp) as (c & Hc & Hlen & E1 & I1). rewrite (bind_Ret _ _ _ _ _ (on_bdev_Ret _ s _ _ E1)). set (c1 := set_pages _ (bc s)) in *.
  rewrite (bind_Ret (on_bdev (get_bh h)) _ (set_bc c1 s) x (set_bc c1 s)) by (unfold on_bdev, zoom, get_bh; simpl; by rewrite Hx).
  set (x' := set_bh_ref (u32 (bh_ref x + 1)) x). set (c2 := set_bhs (<[h := x']> (bhs (bc s))) c1).
  rewrite (bind_Ret (on_bdev (put_bh h x')) _ (set_bc c1 s) tt (set_bc c2 s)) by done.
  assert (I2 : inv p c2) by (apply (inv_bh_upd p c1 h x); try done; [by apply wrap_range|apply Hok]).
  destruct (unlock_page_ok c2 i p _ I2 Hcp (lookup_insert_eq _ _ _) Hlen) as [E3 _].
  rewrite (bind_Ret (on_bdev (unlock_page p)) _ (set_bc c2 s) tt _ (on_bdev_Ret _ (set_bc c2 s) _ _ E3)).
  eexists. split; [done|]. simpl jn. cbn [next_index]. split; [done|]. unfold jbd_end_txn. rewrite bind_gets. cbn [jn set_jn set_bc enabled state next_index negb].
  rewrite Hst. rewrite bind_kassert by (by rewrite bool_decide_eq_true_2). done.
Qed.

End lemmas.

(** ** A transaction of two blocks *)

Abbreviation ex_bcache := (bcache Bump.bump BumpFrames.bframes (RadixTree.rtree Bump.bump)).

(** Blocks 200 and 201 are in use and were changed; the journal area starts at
    block 1000. *)
Definition ex_bc1 : ex_bcache := final (bdev_get_blk_unlocked ex_disk ex_junk 200 (ex_cache 64)).
Definition ex_bc2 : ex_bcache := final (bdev_get_blk_unlocked ex_disk ex_junk 201 ex_bc1).
Definition ex_bc3 : ex_bcache := final (set_blk_data 1 (replicate 512 1) ex_bc2).
Definition ex_bc : ex_bcache := final (set_blk_data 2 (replicate 512 2) ex_bc3).
Definition ex_journal (n : Z) (l : list Z) : jstate Bump.bump BumpFrames.bframes (RadixTree.rtree Bump.bump) :=
  mkJstate (mkJournal true BUSY n l) ex_bc.
Definition ex_txn := ex_journal 2 ([1; 2] ++ replicate 126 0).

Lemma ex_get b (c : ex_bcache) h : free_cache c -> 0 <= b < 2 ^ 23 ->
  match bdev_get_blk_unlocked ex_disk ex_junk b c with Ret h' _ => h' | _ => 0 end = h -> h <> 0 -> free_cache (final (bdev_get_blk_unlocked ex_disk ex_junk b c)).
Proof.
  intros Hc Hb E Hh. destruct (get_blk_unlocked_ok ex_disk ex_junk c b Hc Hb) as (h' & c' & E' & _ & _ & Hcase). rewrite E' in *. destruct Hcase as [[-> _]|(_ & ? & _)]; [congruence|done].
Qed.

Lemma ex_set h x d (c : ex_bcache) : free_cache c -> bhs c !! h = Some x -> free_cache (final (set_blk_data h d c)).
Proof. intros Hc Hx. destruct (set_blk_data_ok ex_disk c h x d Hc Hx) as (c' & E & Hc' & _). by rewrite E. Qed.

Lemma ex_bc_free : free_cache ex_bc.
Proof.
  assert (H1 : free_cache ex_bc1) by (apply (ex_get 200 _ 1); [apply ex_cache_free|lia|vm_compute; reflexivity|done]).
  assert (H2 : free_cache ex_bc2) by (apply (ex_get 201 _ 2); [done|lia|vm_compute; reflexivity|done]).
  assert (H3 : free_cache ex_bc3) by (eapply ex_set; [done|vm_compute; reflexivity]).
  eapply ex_set; [done|vm_compute; reflexivity].
Qed.

#[local] Opaque ex_bc ex_bc1 ex_bc2 ex_bc3.

Lemma ex_txn_ok : txn 1000 ex_txn [1; 2] [200; 201].
Proof.
  assert (Hf : Forall (fun e => bh_ref e.2 < 2 ^ 32 - 1 /\ bh_lock e.2 = false) (map_to_list (bhs ex_bc))).
  { apply (bool_decide_unpack _). vm_compute. reflexivity. }
  split; [|split; [reflexivity|split; [simpl; lia|split; [|split]]]].
  - split; [apply ex_bc_free|]. split; [lia|]. split; [lia|]. intros h x Hx%elem_of_map_to_list. rewrite Forall_forall in Hf. destruct (Hf _ Hx) as [H1 H2]. split; [exact H1|intros _; exact H2].
  - intros [|[|j]] h Hj; [exact Hj|exact Hj|discriminate Hj].
  - repeat (apply Forall2_cons; split; [eexists; split; [vm_compute; reflexivity|]; unfold injournal; simpl; split_and!; (reflexivity || lia)|]). apply Forall2_nil. done.
  - apply (bool_decide_unpack _). reflexivity.
Qed.

Lemma jbd_commit_atomic_witness : exists s', commit_journal ex_disk ex_junk 1000 ex_txn = Ret ERR_OK s' /\
  on_disk ex_disk (disk (bc s')) 201 = replicate 512 2.
Proof.
  destruct (jbd_commit_atomic ex_disk ex_junk 1000 ex_txn [1; 2] [200; 201] ex_txn_ok) as (e & s' & E & _ & _ & H); [vm_compute; reflexivity|].
  assert (e = ERR_OK) as ->.
  { assert (Hc : match commit_journal ex_disk ex_junk 1000 ex_txn with Ret e _ => e | _ => 9 end = ERR_OK) by (vm_compute; reflexivity). by rewrite E in Hc. }
  exists s'. split; [exact E|]. destruct (H eq_refl) as [_ ->]; [vm_compute; reflexivity|unfold injournal; lia].
Defined.

Lemma jbd_crash_torn_witness : exists l l', disk (bc (final (commit_journal ex_disk ex_junk 1000 ex_txn))) = l ++ l' ++ disk (bc ex_txn) /\
  on_disk ex_disk (l' ++ disk (bc ex_txn)) 200 = replicate 512 1 /\ on_disk ex_disk (l' ++ disk (bc ex_txn)) 201 = replicate 512 0.
Proof.
  destruct (jbd_crash_torn ex_disk ex_junk 1000 ex_txn [1; 2] 200 201 [] (final (commit_journal ex_disk ex_junk 1000 ex_txn)) ex_txn_ok) as (l & l' & H1 & H2 & H3 & _);
    [done|vm_compute; reflexivity|].
  exists l, l'. split; [exact H1|]. split; [rewrite H2; vm_compute; reflexivity|rewrite H3; vm_compute; reflexivity].
Defined.

Lemma jbd_full_journal_panics_witness : exists s', jbd_write_blk 2 (ex_journal 127 (replicate 128 1)) = Ret tt s' /\
  next_index (jn s') = JOURNAL_SIZE /\ jbd_end_txn ex_disk ex_junk 1000 1 s' = Halt Panic s'.
Proof.
  eapply (jbd_full_journal_panics ex_disk ex_junk 1000 (ex_journal 127 (replicate 128 1)) 2 _ 0); [reflexivity|reflexivity|reflexivity|apply ex_bc_free|vm_compute; reflexivity|vm_compute; reflexivity].
Defined.

End Jbd.
