(* ===== verification/Bufs.v ===== *)
(** * What the block cache promises: include/kernel/bdev.h

    The abstract view of the block cache that the file system is written
    against: the contents of the blocks, the blocks whose header is locked, and
    how many references without the lock a block has.  [nomem] says which of
    the coming requests for a block that is not in use fail; when it is used
    up, memory suffices.  [bdev_refines_bufs] relates the view to the block
    cache of Bdev.v. *)

From S2P Require Import Prelude Page Alloc Lib RadixTree Bdev.
Local Open Scope kernel_scope.
Import Page Bdev.

Module Bufs.

Record bufs := mkBufs { blocks : gmap Z block; locked : gset Z; pins : gmap Z Z; nomem : list bool }.

Definition blk (s : bufs) (b : Z) : block := default (replicate 512 0) (blocks s !! b).
Definition pin (s : bufs) (b : Z) : Z := default 0 (pins s !! b).
Definition set_blocks (x : gmap Z block) (s : bufs) : bufs := mkBufs x (locked s) (pins s) (nomem s).
Definition set_locked (x : gset Z) (s : bufs) : bufs := mkBufs (blocks s) x (pins s) (nomem s).
Definition set_pin (b n : Z) (s : bufs) : bufs := mkBufs (blocks s) (locked s) (<[b := n]> (pins s)) (nomem s).

(** Is there memory for the block?  A block in use needs none. *)
Definition grant (b : Z) : M bufs bool :=
  fun s => if (0 <? pin s b) || bool_decide (b ∈ locked s) then Ret true s
           else match nomem s with
                | [] => Ret true s
                | x :: l => Ret (negb x) (mkBufs (blocks s) (locked s) (pins s) l)
                end.

(** [bdev_get_blk] and [bdev_get_blk_unlocked]; false is NULL. *)
Definition blk_get (b : Z) : M bufs bool :=
  ok <- grant b ;;
  if negb ok then ret false
  else l <- gets locked ;; if bool_decide (b ∈ l) then stop Block else modify (fun s => set_locked ({[b]} ∪ locked s) s) ;; ret true.
Definition blk_get_unlocked (b : Z) : M bufs bool :=
  ok <- grant b ;;
  if negb ok then ret false else modify (fun s => set_pin b (pin s b + 1) s) ;; ret true.
(** [bdev_release_blk] and [bdev_release_blk_unlocked]. *)
Definition blk_release (b : Z) : M bufs unit :=
  l <- gets locked ;; kassert (bool_decide (b ∈ l)) ;; modify (fun s => set_locked (locked s ∖ {[b]}) s).
Definition blk_release_unlocked (b : Z) : M bufs unit :=
  n <- gets (fun s => pin s b) ;; kassert (0 <? n) ;; modify (set_pin b (n - 1)).

(** [bh->data] of a block that is held. *)
Definition rdata (b : Z) : M bufs block :=
  l <- gets locked ;; if bool_decide (b ∈ l) then gets (fun s => blk s b) else stop Fault.
Definition wdata (b : Z) (d : block) : M bufs unit :=
  l <- gets locked ;; if bool_decide (b ∈ l) then modify (fun s => set_blocks (<[b := d]> (blocks s)) s) else stop Fault.

(** ** Lemmas *)

Lemma blk_set s b d b' : blk (set_blocks (<[b := d]> (blocks s)) s) b' = if b' =? b then d else blk s b'.
Proof.
  unfold blk. simpl. destruct (Z.eqb_spec b' b) as [->|]; [by rewrite lookup_insert_eq|by rewrite lookup_insert_ne by congruence].
Qed.

Lemma rdata_ok {B} s b (k : block -> M bufs B) : b ∈ locked s -> bind (rdata b) k s = k (blk s b) s.
Proof. intros H. unfold rdata. rewrite bind_assoc, bind_gets, bool_decide_eq_true_2 by done. done. Qed.

Lemma wdata_ok s b d : b ∈ locked s -> wdata b d s = Ret tt (set_blocks (<[b := d]> (blocks s)) s).
Proof. intros H. unfold wdata. rewrite bind_gets, bool_decide_eq_true_2 by done. done. Qed.

Lemma blk_release_ok s b : b ∈ locked s -> blk_release b s = Ret tt (set_locked (locked s ∖ {[b]}) s).
Proof. intros H. unfold blk_release. rewrite bind_gets, bind_kassert by (by rewrite bool_decide_eq_true_2). done. Qed.

Lemma grant_ok s b : exists ok l, grant b s = Ret ok (mkBufs (blocks s) (locked s) (pins s) l) /\
  (0 < pin s b -> ok = true) /\ (nomem s = [] -> ok = true /\ l = []).
Proof.
  unfold grant. destruct (0 <? pin s b) eqn:Hp; cbn [orb]; zbool.
  { exists true, (nomem s). split; [by destruct s|]. split; [done|]. intros ->. done. }
  destruct (bool_decide (b ∈ locked s)); [exists true, (nomem s); split; [by destruct s|]; split; [done|]; by intros ->|].
  destruct (nomem s) as [|x l] eqn:Hn; [exists true, []; split; [rewrite <- Hn; by destruct s|done]|].
  exists (negb x), l. split; [done|]. split; [lia|done].
Qed.

(** The outcome of [blk_get] on a block that is not held. *)
Lemma blk_get_ok s b : b ∉ locked s ->
  exists ok l, blk_get b s = Ret ok (mkBufs (blocks s) (if ok : bool then {[b]} ∪ locked s else locked s) (pins s) l) /\
    (0 < pin s b -> ok = true) /\ (nomem s = [] -> ok = true /\ l = []).
Proof.
  intros H. destruct (grant_ok s b) as (ok & l & E & H1 & H2). unfold blk_get. rewrite (bind_Ret _ _ _ _ _ E). exists ok, l.
  destruct ok; cbn [negb]; [|done]. rewrite bind_gets. cbn [locked]. rewrite bool_decide_eq_false_2 by done. done.
Qed.

(** ** The block cache refines the view *)

Section refinement.
Context {A : Type} `{!ObjAlloc A} {F : Type} `{!FrameAlloc F} {T : Type} `{!PtrMap T}.
Context (disk0 : Z -> block) (junk : Z -> Z).
Implicit Types (c : bcache A F T) (s : bufs).

(** The contents agree; a header is locked when the view says so and counts
    the lock and the other references; a block in use has a header. *)
Definition abs c s : Prop :=
  free_cache c /\ (forall b, 0 <= b < 2 ^ 23 -> content disk0 c b = blk s b) /\
  (forall h x, bhs c !! h = Some x -> bh_lock x = bool_decide (bh_blk x ∈ locked s) /\
     bh_ref x = (if bool_decide (bh_blk x ∈ locked s) then 1 else 0) + pin s (bh_blk x) /\ bh_ref x < 2 ^ 32 - 1) /\
  (forall b, 0 <= pin s b) /\
  (forall b, b ∈ locked s \/ 0 < pin s b -> exists h x, bhs c !! h = Some x /\ bh_blk x = b).

(** Taking a block whose header nobody holds: the cache returns NULL, or the
    header of the block, and then the view has locked the block. *)
Lemma get_refines c s b : abs c s -> 0 <= b < 2 ^ 23 -> b ∉ locked s -> pin s b < 2 ^ 32 - 2 ->
  exists h c', bdev_get_blk disk0 junk b c = Ret h c' /\
    (h = 0 \/ (h <> 0 /\ abs c' (set_locked ({[b]} ∪ locked s) s) /\ exists x, bhs c' !! h = Some x /\ bh_blk x = b)).
Proof.
  intros (Hf & Hcont & Hhdr & Hpin & Huse) Hb Hnl Hpb.
  destruct (get_blk_ok disk0 junk c b Hf Hb) as (h & c' & E & _ & C & Hcase).
  { intros h x Hx Hxb. destruct (Hhdr h x Hx) as [-> _]. by rewrite bool_decide_eq_false_2 by (by rewrite Hxb). }
  exists h, c'. split; [done|]. destruct Hcase as [[-> _]|(Hh & Hf' & x & Hx & Hxb & Hold & Hkeep & Hnew)]; [by left|right].
  split; [done|]. assert (Hrx : bh_ref x = pin s b).
  { destruct Hold as [Ho|[Ho Hr]].
    - destruct (Hhdr h x Ho) as (_ & -> & _). rewrite Hxb, bool_decide_eq_false_2 by done. lia.
    - rewrite Hr. specialize (Hpin b). destruct (decide (0 < pin s b)) as [Hp|]; [|lia]. destruct (Huse b (or_intror Hp)) as (h' & y & Hy & Hyb).
      assert (Hne : h' <> h) by congruence. specialize (Hkeep h' y Hne Hy). exfalso. apply Hne, (header_unique 0 c' h' h y _ (proj1 Hf') Hkeep Hx). simpl. congruence. }
  split; [|eexists; split; [exact Hx|done]]. split; [done|]. split; [intros b' Hb'; rewrite C by lia; by apply Hcont|]. split; [|split; [done|]].
  - intros h' y Hy. simpl. change (pin (set_locked _ s)) with (pin s). destruct (decide (h' = h)) as [->|Hne].
    + rewrite Hx in Hy. injection Hy as <-. simpl. rewrite Hxb, bool_decide_eq_true_2 by set_solver. rewrite Hrx, wrap_small by (specialize (Hpin b); lia). lia.
    + assert (Hyb : bh_blk y <> b) by (intros Eb; apply Hne, (header_unique 0 c' h' h y _ (proj1 Hf') Hy Hx); simpl; congruence).
      assert (Hdec : bool_decide (bh_blk y ∈ {[b]} ∪ locked s) = bool_decide (bh_blk y ∈ locked s)) by (apply bool_decide_ext; set_solver).
      rewrite Hdec. destruct (Hnew h' y Hne Hy) as [Ho|[Hr Hl]]; [by apply (Hhdr h')|]. rewrite Hr, Hl.
      destruct (decide (bh_blk y ∈ locked s \/ 0 < pin s (bh_blk y))) as [Hu|Hu].
      * destruct (Huse _ Hu) as (h2 & z & Hz & Hzb). assert (h2 = h').
        { destruct (decide (h2 = h)) as [->|Hn2]; [|apply (header_unique 0 c' h2 h' z y (proj1 Hf') (Hkeep h2 z Hn2 Hz) Hy Hzb)].
          destruct Hold as [Ho|[Ho _]]; congruence. }
        subst h2. rewrite (Hkeep h' z Hne Hz) in Hy. injection Hy as ->. destruct (Hhdr h' y Hz) as (<- & <- & ?). by rewrite Hl, Hr.
      * specialize (Hpin (bh_blk y)). rewrite bool_decide_eq_false_2 by tauto. split; [done|]. lia.
  - intros b' Hb'. destruct (decide (b' = b)) as [->|Hne]; [eexists h, _; split; [exact Hx|done]|].
    destruct (Huse b') as (h' & y & Hy & Hyb); [simpl in Hb'; set_solver|]. destruct (decide (h' = h)) as [->|Hn2]; [destruct Hold as [Ho|[Ho _]]; congruence|].
    exists h', y. split; [by apply Hkeep|done].
Qed.

Lemma set_refines c s h x d : abs c s -> bhs c !! h = Some x -> bh_blk x ∈ locked s ->
  exists c', set_blk_data h d c = Ret tt c' /\ abs c' (set_blocks (<[bh_blk x := d]> (blocks s)) s).
Proof.
  intros (Hf & Hcont & Hhdr & Hpin & Huse) Hx Hl. destruct (set_blk_data_ok disk0 c h x d Hf Hx) as (c' & E & Hf' & _ & B & C).
  exists c'. split; [done|]. split; [done|]. rewrite B. split; [|done]. intros b Hb. rewrite C, blk_set by lia. destruct (b =? bh_blk x); [done|by apply Hcont].
Qed.

Lemma release_refines c s h x : abs c s -> bhs c !! h = Some x -> bh_blk x ∈ locked s ->
  exists c', bdev_release_blk h c = Ret tt c' /\ abs c' (set_locked (locked s ∖ {[bh_blk x]}) s).
Proof.
  intros (Hf & Hcont & Hhdr & Hpin & Huse) Hx Hl. set (b := bh_blk x) in *. destruct (Hhdr h x Hx) as (Hxl & Hxr & Hxm). fold b in Hxl, Hxr.
  rewrite bool_decide_eq_true_2 in Hxl, Hxr by done. pose proof (Hpin b) as Hpb.
  destruct (release_blk_ok disk0 c h x Hf Hx Hxl ltac:(lia)) as (c' & E & Hf' & _ & C & R1 & R2 & R3). exists c'. split; [done|]. split; [done|].
  split; [intros b' Hb'; rewrite C; by apply Hcont|].
  assert (Hdec : forall b', b' <> b -> bool_decide (b' ∈ locked s ∖ {[b]}) = bool_decide (b' ∈ locked s)) by (intros b' Hne; apply bool_decide_ext; set_solver).
  split; [|split; [done|]].
  - intros h' y Hy. specialize (R3 h' y Hy). simpl. change (pin (set_locked _ s)) with (pin s). destruct (decide (h' = h)) as [->|Hne].
    + subst y. simpl. fold b. rewrite bool_decide_eq_false_2 by set_solver. split; [done|]. lia.
    + simpl in R3. rewrite lookup_insert_ne in R3 by done. destruct (decide (bh_blk y = b)) as [Eb|Eb]; [exfalso; apply Hne, (header_unique 0 c h' h y x (proj1 Hf) R3 Hx Eb)|].
      rewrite Hdec by done. by apply (Hhdr h').
  - intros b' Hb'. simpl in Hb'. change (pin (set_locked _ s) b') with (pin s b') in Hb'. destruct (Huse b') as (h' & y & Hy & Hyb); [set_solver|].
    destruct (decide (h' = h)) as [->|Hne].
    + assert (y = x) as -> by congruence. exists h, (set_bh_ref (bh_ref x - 1) (set_bh_lock false x)). split; [|done]. apply R2. simpl. fold b in Hyb. subst b'. destruct Hb' as [?|?]; [set_solver|lia].
    + exists h', y. split; [|done]. apply R1; [done| |simpl; by rewrite lookup_insert_ne]. destruct (Hhdr h' y Hy) as (_ & -> & _). rewrite Hyb.
      specialize (Hpin b'). destruct (bool_decide (b' ∈ locked s)) eqn:Ed; [lia|]. apply bool_decide_eq_false in Ed. destruct Hb' as [?|?]; [set_solver|lia].
Qed.


End refinement.


End Bufs.
