(* ===== verification/Sfs.v ===== *)
(** * The simple file system on disk: kernel/fs/sfs/sfs.c

    The operations of the file system on the view [bufs] of the block cache: a
    block header is named by its block number, and NULL is the answer [false]
    of [blk_get].  The in-memory inodes are a heap of records; the fields of
    the superblock are parameters.  [sfs_get_sb] switches the journal off, so
    [jbd_write_blk] returns at once; the flag that [bdev_set_blk_dirty] sets is
    not part of the view. *)

From S2P Require Import Prelude Lib Bdev Bufs.
Local Open Scope kernel_scope.
Set Default Proof Using "Type".
Import Bits Bdev Bufs.

Module Sfs.

(** ** Layout *)

Definition SFS_SUPER_BLK : Z := 2.
Definition SFS_INODE_BMAP_BLK : Z := 3.
Definition SFS_INODE_TABLE_BLK : Z := 4.
Definition SFS_ROOT_INUM : Z := 1.
Definition SFS_NDIRECT : Z := 12.
Definition SFS_NINDIRECT : Z := 2.
Definition SFS_DIRENT_NAMELEN : Z := 28.
Definition sizeof_sfs_inode : Z := 64.
Definition sizeof_sfs_dirent : Z := 32.
Definition SFS_MAX_FILE_SIZE : Z := (SFS_NDIRECT + SFS_NINDIRECT * (BDEV_BLK_SIZE `div` 4)) * BDEV_BLK_SIZE.
Definition FTYPE_DIR : Z := 1.
Definition FTYPE_FILE : Z := 2.
Definition INODE_VALID : Z := 0.
Definition INODE_DIRTY : Z := 1.

Record sfs_sb_info := mkSb {
  s_size : Z;
  s_num_inodes : Z;
  s_data_bmap_start : Z;
  s_journal_start : Z;
  s_data_start : Z;
}.

(** [struct inode], with the [i_addrs] of its [sfs_inode_info]. *)
Record inode := mkInode {
  i_inum : Z;
  i_ref : Z;
  i_nlink : Z;
  i_ftype : Z;
  i_mode : Z;
  i_size : Z;
  i_addrs : list Z;
  i_state : Z;
  i_lock : bool;
}.

Definition set_inum (x : Z) (i : inode) : inode := mkInode x (i_ref i) (i_nlink i) (i_ftype i) (i_mode i) (i_size i) (i_addrs i) (i_state i) (i_lock i).
Definition set_ref (x : Z) (i : inode) : inode := mkInode (i_inum i) x (i_nlink i) (i_ftype i) (i_mode i) (i_size i) (i_addrs i) (i_state i) (i_lock i).
Definition set_nlink (x : Z) (i : inode) : inode := mkInode (i_inum i) (i_ref i) x (i_ftype i) (i_mode i) (i_size i) (i_addrs i) (i_state i) (i_lock i).
Definition set_size (x : Z) (i : inode) : inode := mkInode (i_inum i) (i_ref i) (i_nlink i) (i_ftype i) (i_mode i) x (i_addrs i) (i_state i) (i_lock i).
Definition set_addrs (x : list Z) (i : inode) : inode := mkInode (i_inum i) (i_ref i) (i_nlink i) (i_ftype i) (i_mode i) (i_size i) x (i_state i) (i_lock i).
Definition set_state (x : Z) (i : inode) : inode := mkInode (i_inum i) (i_ref i) (i_nlink i) (i_ftype i) (i_mode i) (i_size i) (i_addrs i) x (i_lock i).
Definition set_ilock (x : bool) (i : inode) : inode := mkInode (i_inum i) (i_ref i) (i_nlink i) (i_ftype i) (i_mode i) (i_size i) (i_addrs i) (i_state i) x.

Definition fs_is_inode_valid (i : inode) : bool := get_state_bit (i_state i) INODE_VALID.
Definition fs_set_inode_valid (v : bool) (i : inode) : inode := set_state (set_state_bit (i_state i) INODE_VALID v) i.
Definition fs_is_inode_dirty (i : inode) : bool := get_state_bit (i_state i) INODE_DIRTY.
Definition fs_set_inode_dirty (v : bool) (i : inode) : inode := set_state (set_state_bit (i_state i) INODE_DIRTY v) i.

(** The bytes of a [struct sfs_inode], and its fields. *)
Definition le16 (x : Z) : list Z := [x `mod` 256; (x `div` 256) `mod` 256].
Definition of_le16 (l : list Z) : Z := match l with a :: b :: _ => a + 256 * b | _ => 0 end.
Definition sfs_inode_bytes (ftype mode nlink size : Z) (addrs : list Z) : list Z :=
  [u8 ftype; u8 mode] ++ le16 nlink ++ le32 size ++ mjoin (le32 <$> addrs).
(** The [n] 32-bit words at the start of a buffer. *)
Fixpoint words (n : nat) (l : list Z) : list Z :=
  match n with O => [] | S n' => of_le32 l :: words n' (drop 4 l) end.
Definition inum_to_blk (inum : Z) : Z := u32 (SFS_INODE_TABLE_BLK + u32 (inum - 1) `div` (BDEV_BLK_SIZE `div` sizeof_sfs_inode)).
Definition inum_to_ofs (inum : Z) : Z := u64 (u32 (inum - 1) * sizeof_sfs_inode) `mod` BDEV_BLK_SIZE.

(** The state: the blocks and the in-memory inodes. *)
Record sfs := mkSfs { bf : bufs; inodes : gmap Z inode }.
Definition set_bf (b : bufs) (s : sfs) : sfs := mkSfs b (inodes s).
Definition onb {A} (m : M bufs A) : M sfs A := zoom bf set_bf m.
Definition geti (p : Z) : M sfs inode := fun s => match inodes s !! p with Some i => Ret i s | None => Halt Fault s end.
Definition updi (p : Z) (f : inode -> inode) : M sfs unit :=
  i <- geti p ;; modify (fun s => mkSfs (bf s) (<[p := f i]> (inodes s))).

(** ** Bitmaps *)

Fixpoint alloc_bit (n : nat) (bh byte bit : Z) : M bufs (option Z) :=
  match n with
  | O => ret None
  | S n' =>
      let mask := u8 (Z.shiftl 1 bit) in
      bmap <- rdata bh ;;
      x <- of_option Fault (bmap !! Z.to_nat byte) ;;
      if Z.land x mask =? 0 then
        wdata bh (<[Z.to_nat byte := Z.lor x mask]> bmap) ;; ret (Some (byte * 8 + bit))
      else alloc_bit n' bh byte (bit + 1)
  end.
Fixpoint alloc_byte (n : nat) (bh byte : Z) : M bufs Z :=
  match n with
  | O => ret (-1)
  | S n' => r <- alloc_bit 8 bh byte 0 ;; match r with Some i => ret i | None => alloc_byte n' bh (byte + 1) end
  end.
Definition bmap_alloc_element (bh size : Z) : M bufs Z := alloc_byte (Z.to_nat size) bh 0.

Definition bmap_free_element (bh index : Z) : M bufs unit :=
  bmap <- rdata bh ;;
  let mask := u8 (Z.shiftl 1 (index `mod` 8)) in
  x <- of_option Fault (bmap !! Z.to_nat (index `div` 8)) ;;
  wdata bh (<[Z.to_nat (index `div` 8) := Z.land x (u8 (Z.lnot mask))]> bmap).

Section sfs.
Context (sb : sfs_sb_info).

Definition alloc_disk_inode (ftype mode : Z) : M bufs (err_t * Z) :=
  ok <- blk_get SFS_INODE_BMAP_BLK ;;
  if negb ok then ret (ERR_NOMEM, 0)
  else
    index <- bmap_alloc_element SFS_INODE_BMAP_BLK (s_num_inodes sb `div` 8) ;;
    if index =? -1 then blk_release SFS_INODE_BMAP_BLK ;; ret (ERR_NORES, 0)
    else
      let inum := u32 (index + 1) in
      ok <- blk_get (inum_to_blk inum) ;;
      if negb ok then
        bmap_free_element SFS_INODE_BMAP_BLK index ;; blk_release SFS_INODE_BMAP_BLK ;; ret (ERR_NOMEM, inum)
      else
        blk_release SFS_INODE_BMAP_BLK ;;
        d <- rdata (inum_to_blk inum) ;;
        wdata (inum_to_blk inum) (splice (Z.to_nat (inum_to_ofs inum)) (sfs_inode_bytes ftype mode 1 0 (replicate 14 0)) d) ;;
        blk_release (inum_to_blk inum) ;;
        ret (ERR_OK, inum).

Definition free_disk_inode (inum : Z) : M bufs err_t :=
  kassert (negb (inum =? 0)) ;;
  ok <- blk_get SFS_INODE_BMAP_BLK ;;
  if negb ok then ret ERR_NOMEM
  else bmap_free_element SFS_INODE_BMAP_BLK (u32 (inum - 1)) ;; blk_release SFS_INODE_BMAP_BLK ;; ret ERR_OK.

(** The loop of [alloc_data_block] over the blocks of the bitmap. *)
Fixpoint alloc_data_loop (n : nat) (bmap_blk num_blks : Z) : M bufs (err_t * Z) :=
  match n with
  | O => ret (ERR_NORES, 0)
  | S n' =>
      ok <- blk_get bmap_blk ;;
      if negb ok then ret (ERR_NOMEM, 0)
      else
        index <- bmap_alloc_element bmap_blk (Z.min BDEV_BLK_SIZE (num_blks `div` 8)) ;;
        if 0 <=? index then
          let blk := u32 (s_data_start sb + BDEV_BLK_SIZE * 8 * u32 (bmap_blk - s_data_bmap_start sb) + index) in
          ok <- blk_get blk ;;
          if negb ok then bmap_free_element bmap_blk index ;; blk_release bmap_blk ;; ret (ERR_NOMEM, blk)
          else
            blk_release bmap_blk ;;
            wdata blk (replicate (Z.to_nat BDEV_BLK_SIZE) 0) ;;
            blk_release blk ;;
            ret (ERR_OK, blk)
        else blk_release bmap_blk ;; alloc_data_loop n' (u32 (bmap_blk + 1)) (u64 (num_blks - BDEV_BLK_SIZE * 8))
  end.
Definition alloc_data_block : M bufs (err_t * Z) :=
  alloc_data_loop (Z.to_nat (s_journal_start sb - s_data_bmap_start sb)) (s_data_bmap_start sb) (s_size sb).

Definition free_data_block (blk : Z) : M bufs err_t :=
  kassert (s_data_start sb <=? blk) ;;
  let bmap_blk := u32 (s_data_bmap_start sb + u32 (blk - s_data_start sb) `div` (BDEV_BLK_SIZE * 8)) in
  ok <- blk_get bmap_blk ;;
  if negb ok then ret ERR_NOMEM
  else bmap_free_element bmap_blk (u32 (blk - s_data_start sb) `mod` (BDEV_BLK_SIZE * 8)) ;; blk_release bmap_blk ;; ret ERR_OK.

(** ** Inodes *)

(** The fields that [sfs_read_inode] takes from the bytes on disk. *)
Definition load_inode (e : list Z) (i : inode) : inode :=
  fs_set_inode_valid true
    (mkInode (i_inum i) (i_ref i) (of_le16 (drop 2 e)) (default 0 (e !! 0%nat)) (default 0 (e !! 1%nat)) (of_le32 (drop 4 e)) (words 14 (drop 8 e)) (i_state i) (i_lock i)).

Definition sfs_read_inode (p : Z) : M sfs err_t :=
  i <- geti p ;;
  kassert (negb (i_inum i =? 0)) ;; kassert (negb (fs_is_inode_dirty i)) ;;
  let b := inum_to_blk (i_inum i) in
  ok <- onb (blk_get b) ;;
  if negb ok then ret ERR_NOMEM
  else
    d <- onb (rdata b) ;;
    let e := drop (Z.to_nat (inum_to_ofs (i_inum i))) d in
    updi p (load_inode e) ;;
    onb (blk_release b) ;; ret ERR_OK.

Definition sfs_write_inode (p : Z) : M sfs err_t :=
  i <- geti p ;;
  kassert (negb (i_inum i =? 0)) ;;
  let b := inum_to_blk (i_inum i) in
  ok <- onb (blk_get b) ;;
  if negb ok then ret ERR_NOMEM
  else
    d <- onb (rdata b) ;;
    onb (wdata b (splice (Z.to_nat (inum_to_ofs (i_inum i))) (sfs_inode_bytes (i_ftype i) (i_mode i) (i_nlink i) (i_size i) (i_addrs i)) d)) ;;
    updi p (fs_set_inode_dirty false) ;;
    onb (blk_release b) ;; ret ERR_OK.

(** Store a block number in [i_addrs] and write the inode out; the result of
    [sfs_write_inode] is not looked at. *)
Definition set_addr (p k blk : Z) : M sfs unit :=
  i <- geti p ;;
  _ <- of_option Fault (i_addrs i !! Z.to_nat k) ;;
  updi p (fun i => fs_set_inode_dirty true (set_addrs (<[Z.to_nat k := blk]> (i_addrs i)) i)) ;;
  sfs_write_inode p ;; ret tt.

(** A new block for an entry of [i_addrs]. *)
Definition alloc_addr (p k : Z) : M sfs (err_t * Z) :=
  r <- onb alloc_data_block ;;
  if negb (r.1 =? ERR_OK) then ret r else set_addr p k r.2 ;; ret (ERR_OK, r.2).

(** The direct and the indirect case of [get_data_block]: the error, the
    block, and the [indir_bh] that the failure path releases. *)
Definition direct_block (p blk_index : Z) (alloc : bool) : M sfs (err_t * Z * option Z) :=
  i <- geti p ;;
  blk <- of_option Fault (i_addrs i !! Z.to_nat blk_index) ;;
  if negb (blk =? 0) then ret (ERR_OK, blk, None)
  else if negb alloc then ret (ERR_NOTEXIST, 0, None)
  else r <- alloc_addr p blk_index ;; ret (r.1, r.2, None).

(** The indirect block exists, or is allocated; then the block number is read
    from it. *)
Definition indirect_addr (p indir_blk_index : Z) (alloc : bool) : M sfs err_t :=
  i <- geti p ;;
  a <- of_option Fault (i_addrs i !! Z.to_nat indir_blk_index) ;;
  if negb (a =? 0) then ret ERR_OK
  else if negb alloc then ret ERR_NOTEXIST
  else r <- alloc_addr p indir_blk_index ;; ret r.1.
Definition indirect_entry (p indir_blk_index indir_blk_ofs : Z) (alloc : bool) : M sfs (err_t * Z * option Z) :=
  i <- geti p ;;
  indir <- of_option Fault (i_addrs i !! Z.to_nat indir_blk_index) ;;
  kassert (0 <? indir) ;;
  ok <- onb (blk_get indir) ;;
  if negb ok then ret (ERR_NOMEM, 0, None)
  else
    d <- onb (rdata indir) ;;
    let blk := of_le32 (drop (Z.to_nat (4 * indir_blk_ofs)) d) in
    if negb (blk =? 0) then onb (blk_release indir) ;; ret (ERR_OK, blk, Some indir)
    else if negb alloc then ret (ERR_NOTEXIST, 0, Some indir)
    else
      r <- onb alloc_data_block ;;
      if negb (r.1 =? ERR_OK) then ret (r.1, 0, Some indir)
      else
        d <- onb (rdata indir) ;;
        onb (wdata indir (splice (Z.to_nat (4 * indir_blk_ofs)) (le32 r.2) d)) ;;
        onb (blk_release indir) ;; ret (ERR_OK, r.2, Some indir).
Definition indirect_block (p blk_index : Z) (alloc : bool) : M sfs (err_t * Z * option Z) :=
  let indir_blk_index := SFS_NDIRECT + (blk_index - SFS_NDIRECT) `div` (BDEV_BLK_SIZE `div` 4) in
  kassert (indir_blk_index <? SFS_NDIRECT + SFS_NINDIRECT) ;;
  err <- indirect_addr p indir_blk_index alloc ;;
  if negb (err =? ERR_OK) then ret (err, 0, None)
  else indirect_entry p indir_blk_index ((blk_index - SFS_NDIRECT) `mod` (BDEV_BLK_SIZE `div` 4)) alloc.

Definition get_data_block (p ofs : Z) (alloc : bool) : M sfs (err_t * Z) :=
  kassert (ofs <? SFS_MAX_FILE_SIZE) ;;
  i <- geti p ;;
  let inode_bh := inum_to_blk (i_inum i) in
  ok <- onb (blk_get_unlocked inode_bh) ;;
  if negb ok then ret (ERR_NOMEM, 0)
  else
    let fail err (indir_bh : option Z) :=
      match indir_bh with Some b => onb (blk_release b) | None => ret tt end ;;
      onb (blk_release_unlocked inode_bh) ;; ret (err, 0) in
    let blk_index := ofs `div` BDEV_BLK_SIZE in
    r <- (if blk_index <? SFS_NDIRECT then direct_block p blk_index alloc else indirect_block p blk_index alloc) ;;
    let '(err, blk, indir_bh) := r in
    if negb (err =? ERR_OK) then fail err indir_bh
    else
      kassert (0 <? blk) ;;
      ok <- onb (blk_get blk) ;;
      if negb ok then fail ERR_NOMEM indir_bh
      else onb (blk_release_unlocked inode_bh) ;; ret (ERR_OK, blk).

(** ** File data *)

(** The loop of [read_data]: the bytes copied to the buffer so far are [dst]. *)
Fixpoint sfs_read_loop (fuel : nat) (p count ofs : Z) (dst : list Z) : M sfs (list Z) :=
  match fuel with
  | O => stop Fuel
  | S fuel' =>
      let total := Z.of_nat (length dst) in
      i <- geti p ;;
      if negb ((total <? count) && (ofs <? i_size i)) then ret dst
      else
        r <- get_data_block p ofs false ;;
        if negb (r.1 =? ERR_OK) then ret dst
        else
          d <- onb (rdata r.2) ;;
          let s := Z.min (Z.min (BDEV_BLK_SIZE - ofs `mod` BDEV_BLK_SIZE) (count - total)) (i_size i - ofs) in
          onb (blk_release r.2) ;;
          sfs_read_loop fuel' p count (u64 (ofs + s)) (dst ++ take (Z.to_nat s) (drop (Z.to_nat (ofs `mod` BDEV_BLK_SIZE)) d))
  end.
Definition read_data (p count ofs : Z) : M sfs (list Z) := sfs_read_loop (S (Z.to_nat count)) p count ofs [].

(** The loop of [write_data] returns [total] and the offset it has reached. *)
Fixpoint sfs_write_loop (fuel : nat) (p : Z) (buf : list Z) (ofs total : Z) : M sfs (Z * Z) :=
  match fuel with
  | O => stop Fuel
  | S fuel' =>
      let count := Z.of_nat (length buf) in
      if negb (total <? count) then ret (total, ofs)
      else
        r <- get_data_block p ofs true ;;
        if negb (r.1 =? ERR_OK) then ret (total, ofs)
        else
          let s := Z.min (BDEV_BLK_SIZE - ofs `mod` BDEV_BLK_SIZE) (count - total) in
          d <- onb (rdata r.2) ;;
          onb (wdata r.2 (splice (Z.to_nat (ofs `mod` BDEV_BLK_SIZE)) (take (Z.to_nat s) (drop (Z.to_nat total) buf)) d)) ;;
          onb (blk_release r.2) ;;
          sfs_write_loop fuel' p buf (u64 (ofs + s)) (total + s)
  end.
Definition write_data (p : Z) (buf : list Z) (ofs : Z) : M sfs Z :=
  r <- sfs_write_loop (S (length buf)) p buf ofs 0 ;;
  let '(total, ofs) := r in
  i <- geti p ;;
  (if (0 <? Z.of_nat (length buf)) && (i_size i <? ofs) then
     updi p (fun i => fs_set_inode_dirty true (set_size ofs i)) ;; sfs_write_inode p ;; ret tt
   else ret tt) ;;
  ret total.

(** [sfs_delete_inode] frees the blocks of an indirect block, and the blocks of
    the inode.  Neither loop compares its index with the length of its array. *)
Fixpoint free_indirect (fuel : nat) (p bh indir_index size : Z) : M sfs (err_t * Z) :=
  match fuel with
  | O => stop Fuel
  | S fuel' =>
      i <- geti p ;;
      if negb (size <? i_size i) then ret (ERR_OK, size)
      else if BDEV_BLK_SIZE `div` 4 <=? indir_index then stop Fault
      else
        d <- onb (rdata bh) ;;
        let a := of_le32 (drop (Z.to_nat (4 * indir_index)) d) in
        if a =? 0 then free_indirect fuel' p bh (indir_index + 1) (u64 (size + BDEV_BLK_SIZE))
        else
          kassert (s_data_start sb <=? a) ;;
          err <- onb (free_data_block a) ;;
          if negb (err =? ERR_OK) then ret (err, size)
          else
            d <- onb (rdata bh) ;;
            onb (wdata bh (splice (Z.to_nat (4 * indir_index)) (le32 0) d)) ;;
            free_indirect fuel' p bh (indir_index + 1) (u64 (size + BDEV_BLK_SIZE))
  end.
Fixpoint free_blocks (fuel : nat) (p index size : Z) : M sfs err_t :=
  match fuel with
  | O => stop Fuel
  | S fuel' =>
      i <- geti p ;;
      if negb (size <? i_size i) then ret ERR_OK
      else
        blk <- of_option Fault (i_addrs i !! Z.to_nat index) ;;
        if blk =? 0 then free_blocks fuel' p (index + 1) size
        else
          kassert (s_data_start sb <=? blk) ;;
          r <- (if index <? SFS_NDIRECT then ret (ERR_OK, u64 (size + BDEV_BLK_SIZE))
                else
                  ok <- onb (blk_get blk) ;;
                  if negb ok then ret (ERR_NOMEM, size)
                  else
                    r <- free_indirect 130 p blk 0 size ;;
                    if negb (r.1 =? ERR_OK) then ret r else onb (blk_release blk) ;; ret r) ;;
          if negb (r.1 =? ERR_OK) then ret r.1
          else
            err <- onb (free_data_block blk) ;;
            if negb (err =? ERR_OK) then ret err
            else
              updi p (fun i => set_addrs (<[Z.to_nat index := 0]> (i_addrs i)) i) ;;
              free_blocks fuel' p (index + 1) r.2
  end.
Definition sfs_delete_inode (p : Z) : M sfs err_t :=
  i <- geti p ;;
  kassert (0 <? i_inum i) ;; kassert (i_nlink i =? 0) ;;
  err <- free_blocks 16 p 0 0 ;;
  if negb (err =? ERR_OK) then ret err
  else
    err <- onb (free_disk_inode (i_inum i)) ;;
    if negb (err =? ERR_OK) then ret err
    else updi p (fun i => fs_set_inode_dirty false (fs_set_inode_valid false (set_inum 0 i))) ;; ret ERR_OK.

(** ** Directories *)

(** [strncmp] and [strncpy] of lib/string.c on a name given by its bytes
    before the terminating 0; [strncpy] as the bytes it stores. *)
Fixpoint strncmp_name (n : nat) (s name : list Z) : Z :=
  match n with
  | O => 0
  | S n' =>
      let a := default 0 (s !! 0%nat) in
      let b := default 0 (name !! 0%nat) in
      if negb (a =? 0) && (a =? b) then strncmp_name n' (drop 1 s) (drop 1 name) else Str.schar a - Str.schar b
  end.
Fixpoint strncpy_name (n : nat) (name : list Z) : list Z :=
  match n with
  | O => []
  | S n' => match name with [] => 0 :: replicate n 0 | c :: name' => c :: strncpy_name n' name' end
  end.

(** The entry at offset [o] of a block. *)
Definition dirent_inum (d : block) (o : Z) : Z := of_le32 (drop (Z.to_nat o) d).
Definition dirent_name (d : block) (o : Z) : list Z := take 28 (drop (Z.to_nat (o + 4)) d).

(** The start of the body of the loops over a directory: at the end of a block
    the next one takes its place.  [bh] is None before the first block. *)
Definition next_block (p ofs : Z) (bh : option Z) (alloc : bool) : M sfs (err_t * option Z) :=
  if ofs `mod` BDEV_BLK_SIZE =? 0 then
    match bh with Some b => onb (blk_release b) | None => ret tt end ;;
    r <- get_data_block p ofs alloc ;;
    ret (r.1, Some r.2)
  else ret (ERR_OK, bh).
Definition release_last (bh : option Z) : M sfs unit := match bh with Some b => onb (blk_release b) | None => ret tt end.

Fixpoint search_loop (fuel : nat) (p : Z) (name : list Z) (ofs : Z) (bh : option Z) : M sfs Z :=
  match fuel with
  | O => stop Fuel
  | S fuel' =>
      i <- geti p ;;
      if negb (ofs <? i_size i) then release_last bh ;; ret 0
      else
        r <- next_block p ofs bh false ;;
        if negb (r.1 =? ERR_OK) then ret 0
        else
          b <- of_option Fault r.2 ;;
          d <- onb (rdata b) ;;
          let o := ofs `mod` BDEV_BLK_SIZE in
          if (0 <? dirent_inum d o) && (strncmp_name (Z.to_nat SFS_DIRENT_NAMELEN) (dirent_name d o) name =? 0) then
            onb (blk_release b) ;; ret (dirent_inum d o)
          else search_loop fuel' p name (u64 (ofs + sizeof_sfs_dirent)) r.2
  end.
(** The fuel of the loops over a directory: one more than its entries. *)
Definition dir_fuel (p : Z) : M sfs nat := i <- geti p ;; ret (Z.to_nat (i_size i `div` sizeof_sfs_dirent + 2)).
Definition search_dir (p : Z) (name : list Z) : M sfs Z := n <- dir_fuel p ;; search_loop n p name 0 None.

Fixpoint empty_loop (fuel : nat) (p : Z) (ofs : Z) (bh : option Z) : M sfs (err_t * bool) :=
  match fuel with
  | O => stop Fuel
  | S fuel' =>
      i <- geti p ;;
      if negb (ofs <? i_size i) then release_last bh ;; ret (ERR_OK, true)
      else
        r <- next_block p ofs bh false ;;
        if negb (r.1 =? ERR_OK) then ret (r.1, false)
        else
          b <- of_option Fault r.2 ;;
          d <- onb (rdata b) ;;
          if 0 <? dirent_inum d (ofs `mod` BDEV_BLK_SIZE) then onb (blk_release b) ;; ret (ERR_OK, false)
          else empty_loop fuel' p (u64 (ofs + sizeof_sfs_dirent)) r.2
  end.
Definition is_dir_empty (p : Z) : M sfs (err_t * bool) := n <- dir_fuel p ;; empty_loop n p 0 None.

Fixpoint free_dirent_loop (fuel : nat) (p : Z) (name : list Z) (ofs : Z) (bh : option Z) : M sfs err_t :=
  match fuel with
  | O => stop Fuel
  | S fuel' =>
      i <- geti p ;;
      if negb (ofs <? i_size i) then release_last bh ;; ret ERR_NOTEXIST
      else
        r <- next_block p ofs bh false ;;
        if negb (r.1 =? ERR_OK) then ret r.1
        else
          b <- of_option Fault r.2 ;;
          d <- onb (rdata b) ;;
          let o := ofs `mod` BDEV_BLK_SIZE in
          if (0 <? dirent_inum d o) && (strncmp_name (Z.to_nat SFS_DIRENT_NAMELEN) (dirent_name d o) name =? 0) then
            onb (wdata b (splice (Z.to_nat o) (le32 0) d)) ;; onb (blk_release b) ;; ret ERR_OK
          else free_dirent_loop fuel' p name (u64 (ofs + sizeof_sfs_dirent)) r.2
  end.
Definition free_dirent (p : Z) (name : list Z) : M sfs err_t := n <- dir_fuel p ;; free_dirent_loop n p name 0 None.

(** A store of bytes at offset [o] of the buffer of a held block.  The buffers
    of eight blocks are one page, so what goes past the end of the buffer
    lands in the next block of the page; past the page it is a fault. *)
Definition store_bytes (b o : Z) (l : list Z) : M bufs unit :=
  d <- rdata b ;;
  let n := (512 - Z.to_nat o)%nat in
  wdata b (splice (Z.to_nat o) (take n l) d) ;;
  match drop n l with
  | [] => ret tt
  | rest => if b `mod` 8 =? 7 then stop Fault
            else modify (fun s => set_blocks (<[b + 1 := splice 0 rest (blk s (b + 1))]> (blocks s)) s)
  end.
Definition write_dirent (b o inum : Z) (name : list Z) : M bufs unit :=
  store_bytes b o (le32 inum) ;;
  store_bytes b (o + 4) (strncpy_name (Z.to_nat SFS_DIRENT_NAMELEN) name) ;;
  store_bytes b (o + 4 + SFS_DIRENT_NAMELEN - 1) [0].

Fixpoint alloc_dirent_loop (fuel : nat) (p : Z) (name : list Z) (inum ofs : Z) (bh : option Z) : M sfs err_t :=
  match fuel with
  | O => stop Fuel
  | S fuel' =>
      if negb (ofs <? SFS_MAX_FILE_SIZE) then release_last bh ;; ret ERR_NORES
      else
        r <- next_block p ofs bh true ;;
        if negb (r.1 =? ERR_OK) then ret r.1
        else
          b <- of_option Fault r.2 ;;
          i <- geti p ;;
          d <- onb (rdata b) ;;
          let o := ofs `mod` BDEV_BLK_SIZE in
          if (i_size i <=? ofs) || (dirent_inum d o =? 0) then
            (if i_size i <=? ofs then
               updi p (fun i => fs_set_inode_dirty true (set_size (ofs + sizeof_sfs_dirent) i)) ;; sfs_write_inode p ;; ret tt
             else ret tt) ;;
            onb (write_dirent b o inum name) ;;
            onb (blk_release b) ;; ret ERR_OK
          else alloc_dirent_loop fuel' p name inum (ofs + sizeof_sfs_dirent) r.2
  end.
(** Every path that has taken the reference to the disk inode gives it back. *)
Definition alloc_dirent (p : Z) (name : list Z) (inum : Z) : M sfs err_t :=
  i <- geti p ;;
  let inode_bh := inum_to_blk (i_inum i) in
  ok <- onb (blk_get_unlocked inode_bh) ;;
  if negb ok then ret ERR_NOMEM
  else
    err <- alloc_dirent_loop (Z.to_nat (SFS_MAX_FILE_SIZE `div` sizeof_sfs_dirent + 1)) p name inum 0 None ;;
    onb (blk_release_unlocked inode_bh) ;; ret err.

Definition create_inode_in_dir (p ftype : Z) (name : list Z) (mode : Z) : M sfs err_t :=
  inum <- search_dir p name ;;
  if negb (inum =? 0) then ret ERR_EXIST
  else
    ok <- onb (blk_get_unlocked SFS_INODE_BMAP_BLK) ;;
    if negb ok then ret ERR_NOMEM
    else
      r <- onb (alloc_disk_inode ftype mode) ;;
      if negb (r.1 =? ERR_OK) then onb (blk_release_unlocked SFS_INODE_BMAP_BLK) ;; ret r.1
      else
        err <- alloc_dirent p name r.2 ;;
        if negb (err =? ERR_OK) then
          onb (free_disk_inode r.2) ;; onb (blk_release_unlocked SFS_INODE_BMAP_BLK) ;; ret err
        else onb (blk_release_unlocked SFS_INODE_BMAP_BLK) ;; ret ERR_OK.
Definition sfs_create (p : Z) (name : list Z) (mode : Z) : M sfs err_t := create_inode_in_dir p FTYPE_FILE name mode.
Definition sfs_mkdir (p : Z) (name : list Z) (mode : Z) : M sfs err_t := create_inode_in_dir p FTYPE_DIR name mode.

(** [page] as the bytes that are read into it. *)
Definition sfs_fillpage (p ofs : Z) : M sfs (err_t * list Z) :=
  l <- read_data p 4096 ofs ;;
  ret (if Z.of_nat (length l) <? 4096 then ERR_INCOMP else ERR_OK, l).

(** The superblock of the device. *)
Definition sfs_write_sb : M bufs err_t :=
  ok <- blk_get SFS_SUPER_BLK ;;
  if negb ok then ret ERR_NOMEM
  else
    d <- rdata SFS_SUPER_BLK ;;
    wdata SFS_SUPER_BLK (splice 0 (mjoin (le32 <$> [s_size sb; s_num_inodes sb; s_data_bmap_start sb; s_journal_start sb; s_data_start sb])) d) ;;
    blk_release SFS_SUPER_BLK ;; ret ERR_OK.

End sfs.

(** ** Bitmaps: equivalence with the first clear bit *)

Definition bmap_bit (d : block) (i : Z) : bool := Z.testbit (default 0 (d !! Z.to_nat (i `div` 8))) (i `mod` 8).
(** The reference for the search of [bmap_alloc_element]. *)
Definition first_clear (d : block) (n : Z) : option Z := List.find (fun i => negb (bmap_bit d i)) (seqZ 0 n).
Definition bytes_ok (d : block) : Prop := length d = 512%nat /\ Forall (fun x => 0 <= x < 256) d.
#[export] Instance bytes_ok_dec d : Decision (bytes_ok d).
Proof. apply _. Defined.

Lemma mask_testbit bit i : 0 <= bit < 8 -> Z.testbit (u8 (Z.shiftl 1 bit)) i = (i =? bit).
Proof.
  intros Hb. rewrite wrap_small; [apply shiftl_1_testbit; lia|]. rewrite Z.shiftl_1_l. split; [lia|]. apply Z.pow_lt_mono_r; lia.
Qed.

Lemma land_mask x bit : 0 <= bit < 8 -> (Z.land x (u8 (Z.shiftl 1 bit)) =? 0) = negb (Z.testbit x bit).
Proof.
  intros Hb. destruct (Z.testbit x bit) eqn:E; simpl.
  - apply Z.eqb_neq. intros H. apply (f_equal (fun z => Z.testbit z bit)) in H. by rewrite Z.land_spec, E, mask_testbit, Z.eqb_refl, Z.bits_0 in H.
  - apply Z.eqb_eq, Z.bits_inj'. intros n Hn. rewrite Z.land_spec, mask_testbit, Z.bits_0 by done.
    destruct (Z.eqb_spec n bit) as [->|]; [by rewrite E|by rewrite andb_false_r].
Qed.

Lemma byte_testbit x i : 0 <= x < 256 -> 8 <= i -> Z.testbit x i = false.
Proof.
  intros Hx Hi. destruct (decide (x = 0)) as [->|]; [apply Z.bits_0|]. apply Z.bits_above_log2; [lia|]. apply Z.log2_lt_pow2; [lia|].
  assert (2 ^ 8 <= 2 ^ i) by (apply Z.pow_le_mono_r; lia). lia.
Qed.

Lemma byte_bits x : (forall i, 8 <= i -> Z.testbit x i = false) -> 0 <= x -> x < 256.
Proof.
  intros H Hx. destruct (decide (x = 0)) as [->|]; [lia|]. change 256 with (2 ^ 8). apply Z.log2_lt_pow2; [lia|].
  destruct (decide (Z.log2 x < 8)) as [|Hl]; [done|]. specialize (H (Z.log2 x) ltac:(lia)). rewrite Z.bit_log2 in H by lia. done.
Qed.

Lemma block_byte d i : bytes_ok d -> 0 <= i < 512 -> exists x, d !! Z.to_nat i = Some x /\ 0 <= x < 256.
Proof.
  intros [Hl Hf] Hi. destruct (lookup_lt_is_Some_2 d (Z.to_nat i)) as [x Hx]; [lia|]. exists x. split; [done|]. by eapply (Forall_lookup_1 _ _ _ _ Hf).
Qed.

(** Storing a byte that differs from the old one in at most one bit. *)
Lemma store_bit d i x y v : bytes_ok d -> 0 <= i < 4096 -> d !! Z.to_nat (i `div` 8) = Some x -> 0 <= y ->
  (forall k, 0 <= k -> Z.testbit y k = if k =? i `mod` 8 then v else Z.testbit x k) ->
  bytes_ok (<[Z.to_nat (i `div` 8) := y]> d) /\
  forall j, 0 <= j -> bmap_bit (<[Z.to_nat (i `div` 8) := y]> d) j = if j =? i then v else bmap_bit d j.
Proof.
  intros Hd Hi Hx Hy Hbits. assert (0 <= i `mod` 8 < 8) by (apply Z.mod_pos_bound; lia). assert (0 <= i `div` 8 < 512) by (split; [apply Z.div_pos|apply Z.div_lt_upper_bound]; lia).
  destruct (block_byte d (i `div` 8) Hd ltac:(lia)) as (x' & Hx' & Hr). rewrite Hx in Hx'. injection Hx' as <-.
  split.
  - split; [rewrite length_insert; apply Hd|]. apply Forall_insert; [apply Hd|]. split; [done|]. apply byte_bits; [|done]. intros k Hk.
    rewrite Hbits, (proj2 (Z.eqb_neq k (i `mod` 8))) by lia. by apply byte_testbit.
  - intros j Hj. unfold bmap_bit. assert (0 <= j `div` 8) by (apply Z.div_pos; lia). pose proof (Z.div_mod i 8 ltac:(lia)). pose proof (Z.div_mod j 8 ltac:(lia)).
    pose proof (Z.mod_pos_bound j 8 ltac:(lia)). destruct (decide (j `div` 8 = i `div` 8)) as [E|E].
    + rewrite E, list_lookup_insert_eq by (destruct Hd; lia). simpl. rewrite Hbits, Hx by lia. simpl.
      destruct (Z.eqb_spec (j `mod` 8) (i `mod` 8)), (Z.eqb_spec j i); try done; lia.
    + rewrite list_lookup_insert_ne by lia. destruct (Z.eqb_spec j i); [lia|done].
Qed.

Abbreviation setb b d s := (set_blocks (<[b := d]> (blocks s)) s).
Abbreviation clear d := (fun i => negb (bmap_bit d i)).

(** What an allocation leaves: the bit is set, the others are as before. *)
Definition bit_set (d d' : block) (i : Z) : Prop :=
  bytes_ok d' /\ forall j, 0 <= j -> bmap_bit d' j = (j =? i) || bmap_bit d j.

Lemma bit_div_mod byte bit : 0 <= bit < 8 -> (byte * 8 + bit) `div` 8 = byte /\ (byte * 8 + bit) `mod` 8 = bit.
Proof.
  intros. rewrite Z.add_comm, Z.div_add, Z_mod_plus_full, Z.div_small, Z.mod_small by lia. lia.
Qed.

Lemma alloc_bit_ok s b byte n : b ∈ locked s -> bytes_ok (blk s b) -> 0 <= byte < 512 -> forall bit, 0 <= bit -> bit + Z.of_nat n = 8 ->
  match List.find (clear (blk s b)) (seqZ (byte * 8 + bit) (Z.of_nat n)) with
  | Some i => exists d', alloc_bit n b byte bit s = Ret (Some i) (setb b d' s) /\ bit_set (blk s b) d' i
  | None => alloc_bit n b byte bit s = Ret None s
  end.
Proof.
  intros Hl Hd Hbyte. induction n as [|n IH]; intros bit H0 Hn; [done|]. rewrite seqZ_cons by lia. cbn [List.find alloc_bit].
  destruct (bit_div_mod byte bit ltac:(lia)) as [E1 E2]. destruct (block_byte _ byte Hd Hbyte) as (x & Hx & Hxr).
  assert (Hb : bmap_bit (blk s b) (byte * 8 + bit) = Z.testbit x bit) by (unfold bmap_bit; by rewrite E1, E2, Hx).
  rewrite rdata_ok by done. rewrite Hx. unfold of_option. rewrite bind_ret, land_mask, Hb by lia.
  destruct (Z.testbit x bit) eqn:Ex; cbn [negb].
  - replace (Z.succ (byte * 8 + bit)) with (byte * 8 + (bit + 1)) by lia. replace (Z.pred (Z.of_nat (S n))) with (Z.of_nat n) by lia. apply IH; lia.
  - rewrite (bind_Ret _ _ _ _ _ (wdata_ok _ _ _ Hl)). eexists. split; [done|].
    destruct (store_bit (blk s b) (byte * 8 + bit) x (Z.lor x (u8 (Z.shiftl 1 bit))) true Hd) as [? Hj]; [lia|by rewrite E1| | |rewrite E1 in *].
    + apply Z.lor_nonneg. split; [lia|]. apply wrap_range. lia.
    + intros k Hk. rewrite E2, Z.lor_spec, mask_testbit by lia. destruct (k =? bit); [by rewrite orb_true_r|by rewrite orb_false_r].
    + split; [done|]. intros j Hj0. rewrite Hj by done. by destruct (j =? _).
Qed.

Lemma find_app {A} (f : A -> bool) l1 l2 :
  List.find f (l1 ++ l2) = match List.find f l1 with Some x => Some x | None => List.find f l2 end.
Proof. induction l1 as [|x l1 IH]; simpl; [done|]. by destruct (f x). Qed.

Lemma alloc_byte_ok s b n : b ∈ locked s -> bytes_ok (blk s b) -> forall byte, 0 <= byte -> byte + Z.of_nat n <= 512 ->
  match List.find (clear (blk s b)) (seqZ (byte * 8) (8 * Z.of_nat n)) with
  | Some i => exists d', alloc_byte n b byte s = Ret i (setb b d' s) /\ bit_set (blk s b) d' i
  | None => alloc_byte n b byte s = Ret (-1) s
  end.
Proof.
  intros Hl Hd. induction n as [|n IH]; intros byte H0 Hn; [done|]. cbn [alloc_byte].
  replace (8 * Z.of_nat (S n)) with (8 + 8 * Z.of_nat n) by lia. rewrite seqZ_app, find_app by lia.
  pose proof (alloc_bit_ok s b byte 8 Hl Hd ltac:(lia) 0 ltac:(lia) ltac:(lia)) as H. rewrite Z.add_0_r in H. change (Z.of_nat 8) with 8 in H.
  destruct (List.find _ (seqZ (byte * 8) 8)).
  - destruct H as (d' & E & ?). rewrite (bind_Ret _ _ _ _ _ E). eauto.
  - rewrite (bind_Ret _ _ _ _ _ H). replace (byte * 8 + 8) with ((byte + 1) * 8) by lia. apply IH; lia.
Qed.

Lemma alloc_element_ok s b size : b ∈ locked s -> bytes_ok (blk s b) -> 0 <= size <= 512 ->
  match first_clear (blk s b) (8 * size) with
  | Some i => exists d', bmap_alloc_element b size s = Ret i (setb b d' s) /\ bit_set (blk s b) d' i
  | None => bmap_alloc_element b size s = Ret (-1) s
  end.
Proof.
  intros Hl Hd Hs. pose proof (alloc_byte_ok s b (Z.to_nat size) Hl Hd 0 ltac:(lia) ltac:(lia)) as H. rewrite Z2Nat.id in H by lia. exact H.
Qed.

Lemma first_clear_Some d n i : first_clear d n = Some i -> 0 <= i < n /\ bmap_bit d i = false /\ forall j, 0 <= j < i -> bmap_bit d j = true.
Proof.
  unfold first_clear. intros H. destruct (List.find_some _ _ H) as [Hin%list_elem_of_In%elem_of_seqZ Hc]. apply negb_true_iff in Hc.
  split; [lia|]. split; [done|]. intros j Hj. replace n with (i + (n - i)) in H by lia. rewrite seqZ_app, find_app in H by lia.
  destruct (List.find _ (seqZ 0 i)) eqn:E.
  - injection H as ->. destruct (List.find_some _ _ E) as [Hi2%list_elem_of_In%elem_of_seqZ _]. lia.
  - pose proof (List.find_none _ _ E j) as Hn. rewrite <- list_elem_of_In, elem_of_seqZ in Hn. specialize (Hn ltac:(lia)). by apply negb_false_iff in Hn.
Qed.

Lemma first_clear_None d n j : first_clear d n = None -> 0 <= j < n -> bmap_bit d j = true.
Proof.
  intros H Hj. pose proof (List.find_none _ _ H j) as Hn. rewrite <- list_elem_of_In, elem_of_seqZ in Hn. specialize (Hn ltac:(lia)). by apply negb_false_iff in Hn.
Qed.

Lemma free_element_ok s b i : b ∈ locked s -> bytes_ok (blk s b) -> 0 <= i < 4096 ->
  exists d', bmap_free_element b i s = Ret tt (setb b d' s) /\ bytes_ok d' /\
    forall j, 0 <= j -> bmap_bit d' j = negb (j =? i) && bmap_bit (blk s b) j.
Proof.
  intros Hl Hd Hi. assert (0 <= i `mod` 8 < 8) by (apply Z.mod_pos_bound; lia). assert (0 <= i `div` 8 < 512) by (split; [apply Z.div_pos|apply Z.div_lt_upper_bound]; lia).
  destruct (block_byte _ (i `div` 8) Hd ltac:(lia)) as (x & Hx & Hr).
  unfold bmap_free_element. rewrite rdata_ok by done. rewrite Hx. unfold of_option. rewrite bind_ret, wdata_ok by done. eexists. split; [done|].
  destruct (store_bit (blk s b) i x (Z.land x (u8 (Z.lnot (u8 (Z.shiftl 1 (i `mod` 8)))))) false Hd) as [? Hj]; [lia|done| | |].
  - apply Z.land_nonneg. lia.
  - intros k Hk. rewrite Z.land_spec. destruct (decide (k < 8)) as [Hk8|Hk8].
    + unfold wrap at 1. rewrite Z.mod_pow2_bits_low, Z.lnot_spec, mask_testbit by lia. destruct (k =? i `mod` 8); simpl; [apply andb_false_r|apply andb_true_r].
    + rewrite (byte_testbit x k) by lia. destruct (Z.eqb_spec k (i `mod` 8)); [done|done].
  - split; [done|]. intros j Hj0. rewrite Hj by done. by destruct (j =? i).
Qed.

(** C23. [bmap_alloc_element] returns the first clear bit of the bitmap below
    [8 * size], as a linear search over the bits finds it, and sets that bit and
    no other; it returns -1 when all are set.  [bmap_free_element] of the result
    restores the bitmap. *)
Theorem bmap_alloc_element_correct s b size : b ∈ locked s -> bytes_ok (blk s b) -> 0 <= size <= 512 ->
  match first_clear (blk s b) (8 * size) with
  | Some k => exists s' s'', bmap_alloc_element b size s = Ret k s' /\ (forall j, 0 <= j -> bmap_bit (blk s' b) j = (j =? k) || bmap_bit (blk s b) j) /\
      (forall c, c <> b -> blk s' c = blk s c) /\
      bmap_free_element b k s' = Ret tt s'' /\ (forall j, 0 <= j -> bmap_bit (blk s'' b) j = bmap_bit (blk s b) j)
  | None => bmap_alloc_element b size s = Ret (-1) s
  end.
Proof.
  intros Hl Hd Hs. pose proof (alloc_element_ok s b size Hl Hd Hs) as H. destruct (first_clear (blk s b) (8 * size)) as [k|] eqn:Ek; [|done]. destruct H as (d & E & Hd' & Hbits).
  apply first_clear_Some in Ek as (Hk & Hclear & _). assert (Hblk : blk (setb b d s) b = d) by (by rewrite blk_set, Z.eqb_refl).
  destruct (free_element_ok (setb b d s) b k) as (d2 & E2 & _ & Hbits2); [done|by rewrite Hblk|lia|]. rewrite Hblk in Hbits2.
  eexists _, _. split; [exact E|]. rewrite Hblk. split; [done|]. split; [intros c Hc; rewrite blk_set; by rewrite (proj2 (Z.eqb_neq c b))|]. split; [exact E2|].
  intros j Hj. rewrite blk_set, Z.eqb_refl, Hbits2, Hbits by done. destruct (Z.eqb_spec j k) as [->|]; [by rewrite Hclear|done].
Qed.

Lemma bmap_alloc_element_correct_witness : exists s', bmap_alloc_element 3 10 (mkBufs {[3 := 255 :: 11 :: replicate 510 0]} {[3]} ∅ []) = Ret 10 s'.
Proof.
  assert (Hd : bytes_ok (255 :: 11 :: replicate 510 0)) by (apply (bool_decide_eq_true_1 (bytes_ok _)); vm_compute; reflexivity).
  pose proof (bmap_alloc_element_correct (mkBufs {[3 := 255 :: 11 :: replicate 510 0]} {[3]} ∅ []) 3 10) as H. destruct H as (s' & s'' & E & _); [set_solver|exact Hd|lia|]. exists s'. exact E.
Defined.

(** ** Allocation of data blocks *)

Record sb_ok (sb : sfs_sb_info) : Prop := {
  sb_inodes : 8 <= s_num_inodes sb <= 4096;
  sb_table : SFS_INODE_TABLE_BLK + (s_num_inodes sb - 1) `div` 8 < s_data_bmap_start sb;
  sb_bmap : s_data_bmap_start sb < s_journal_start sb <= s_data_start sb;
  sb_size : 4096 * (s_journal_start sb - s_data_bmap_start sb - 1) <= s_size sb <= 4096 * (s_journal_start sb - s_data_bmap_start sb);
  sb_max : s_data_start sb + s_size sb < 2 ^ 32;
}.

(** The buffers hold bytes, and memory suffices. *)
Definition bufs_ok (s : bufs) : Prop := (forall b, bytes_ok (blk s b)) /\ (forall b, 0 <= pin s b) /\ nomem s = [].

Lemma zeros_ok : bytes_ok (replicate (Z.to_nat BDEV_BLK_SIZE) 0).
Proof. split; [by rewrite length_replicate|]. by apply Forall_replicate. Qed.

Lemma setb_ok s b d : bufs_ok s -> bytes_ok d -> bufs_ok (setb b d s).
Proof. intros (H & ? & ?) Hd. split_and!; [|done..]. intros b'. rewrite blk_set. by destruct (b' =? b). Qed.

Lemma get_ok s b : bufs_ok s -> b ∉ locked s -> blk_get b s = Ret true (set_locked ({[b]} ∪ locked s) s).
Proof.
  intros (_ & _ & Hn) Hb. destruct (blk_get_ok s b Hb) as (ok & l & E & _ & H). destruct (H Hn) as [-> ->]. rewrite E. f_equal. destruct s. simpl in *. by subst.
Qed.

Lemma bind_get {B} s b (k : bool -> M bufs B) : bufs_ok s -> b ∉ locked s ->
  bind (blk_get b) k s = k true (set_locked ({[b]} ∪ locked s) s).
Proof. intros. by apply bind_Ret, get_ok. Qed.

Lemma bind_release {B} s b (k : unit -> M bufs B) : b ∈ locked s -> bind (blk_release b) k s = k tt (set_locked (locked s ∖ {[b]}) s).
Proof. intros. by apply bind_Ret, blk_release_ok. Qed.

Lemma bind_wdata {B} s b d (k : unit -> M bufs B) : b ∈ locked s -> bind (wdata b d) k s = k tt (setb b d s).
Proof. intros. by apply bind_Ret, wdata_ok. Qed.

Lemma set_locked_id s : set_locked (locked s) s = s.
Proof. by destruct s. Qed.

Lemma lock_unlock s b : b ∉ locked s -> set_locked (({[b]} ∪ locked s) ∖ {[b]}) (set_locked ({[b]} ∪ locked s) s) = s.
Proof. change (set_locked ?x (set_locked _ s)) with (set_locked x s). intros Hb. assert ((({[b]} ∪ locked s) ∖ {[b]}) = locked s) as -> by set_solver. apply set_locked_id. Qed.

Section alloc.
Context (sb : sfs_sb_info) (Hsb : sb_ok sb).

Definition is_data (b : Z) : Prop := s_data_start sb <= b < s_data_start sb + s_size sb.
Definition bmap_of (b : Z) : Z := s_data_bmap_start sb + (b - s_data_start sb) `div` 4096.
(** The bit of a data block in the bitmap. *)
Definition used (s : bufs) (b : Z) : bool := bmap_bit (blk s (bmap_of b)) ((b - s_data_start sb) `mod` 4096).

Definition allocated (s : bufs) (b : Z) (s' : bufs) : Prop :=
  is_data b /\ used s b = false /\
  exists d, bit_set (blk s (bmap_of b)) d ((b - s_data_start sb) `mod` 4096) /\
    s' = setb b (replicate 512 0) (setb (bmap_of b) d s).

Lemma bmap_range b : is_data b -> s_data_bmap_start sb <= bmap_of b < s_journal_start sb.
Proof using Hsb.
  intros [H1 H2]. destruct Hsb. unfold bmap_of. assert (0 <= (b - s_data_start sb) `div` 4096) by (apply Z.div_pos; lia).
  assert ((b - s_data_start sb) `div` 4096 < s_journal_start sb - s_data_bmap_start sb) by (apply Z.div_lt_upper_bound; lia). lia.
Qed.

Lemma sb_pos : 4 < s_data_bmap_start sb.
Proof using Hsb. destruct Hsb as [Hi Ht _ _ _]. pose proof (Z.div_pos (s_num_inodes sb - 1) 8 ltac:(lia) ltac:(lia)). unfold SFS_INODE_TABLE_BLK in Ht. lia. Qed.

(** Index [k] of the bitmap block [m] of the bitmap. *)
Lemma bmap_index m k : 0 <= k < 4096 ->
  bmap_of (s_data_start sb + 4096 * m + k) = s_data_bmap_start sb + m /\ (s_data_start sb + 4096 * m + k - s_data_start sb) `mod` 4096 = k.
Proof.
  intros Hk. unfold bmap_of. replace (s_data_start sb + 4096 * m + k - s_data_start sb) with (k + m * 4096) by lia.
  rewrite Z.div_add, Z_mod_plus_full, Z.div_small, Z.mod_small by lia. lia.
Qed.

Lemma alloc_data_loop_ok n : forall s m, bufs_ok s -> (forall b, b ∈ locked s -> is_data b /\ used s b = true) -> 0 <= m ->
  m + Z.of_nat n = s_journal_start sb - s_data_bmap_start sb ->
  exists e b s', alloc_data_loop sb n (s_data_bmap_start sb + m) (s_size sb - 4096 * m) s = Ret (e, b) s' /\
    ((e = ERR_OK /\ allocated s b s') \/
     (e = ERR_NORES /\ s' = s /\ forall b, s_data_start sb + 4096 * m <= b < s_data_start sb + s_size sb `div` 8 * 8 -> used s b = true)).
Proof using Hsb.
  induction n as [|n IH]; intros s m Hok Hlk Hm Hn; pose proof sb_pos as Hpos; destruct Hsb as [_ _ Hbm Hsz Hmax].
  { eexists _, _, _. split; [done|]. right. split_and!; [done..|]. intros b Hb. pose proof (Z.mul_div_le (s_size sb) 8 ltac:(lia)). lia. }
  cbn [alloc_data_loop]. set (B := s_data_bmap_start sb + m) in *.
  assert (HB : B ∉ locked s) by (intros H%Hlk; unfold is_data in H; lia).
  rewrite bind_get by done. cbn [negb]. set (num := s_size sb - 4096 * m).
  set (sz := Z.min BDEV_BLK_SIZE (num `div` 8)). set (s1 := set_locked _ s).
  assert (Hnum : 0 <= num) by lia. assert (Hsz1 : 0 <= sz <= 512) by (pose proof (Z.div_pos num 8 Hnum ltac:(lia)); unfold BDEV_BLK_SIZE in sz; lia).
  pose proof (Z.mul_div_le num 8 ltac:(lia)) as Hdiv.
  assert (Hl1 : B ∈ locked s1) by (simpl; set_solver).
  pose proof (alloc_element_ok s1 B sz Hl1 (proj1 Hok B) Hsz1) as Ha. change (blk s1 B) with (blk s B) in Ha.
  destruct (first_clear (blk s B) (8 * sz)) as [k|] eqn:Ek.
  - destruct Ha as (d & E & Hd). rewrite (bind_Ret _ _ _ _ _ E). apply first_clear_Some in Ek as (Hk & Hbit & _).
    rewrite (proj2 (Z.leb_le 0 k)) by lia. assert (Hk1 : 0 <= k < 4096) by lia. assert (Hk2 : 4096 * m + k < s_size sb) by lia.
    rewrite (wrap_small 32 (B - s_data_bmap_start sb)) by lia. replace (B - s_data_bmap_start sb) with m by lia.
    rewrite wrap_small by (unfold BDEV_BLK_SIZE; lia). change (BDEV_BLK_SIZE * 8) with 4096. set (b := s_data_start sb + 4096 * m + k).
    destruct (bmap_index m k Hk1) as [Eb1 Eb2]. fold b B in Eb1, Eb2.
    assert (Hused : used s b = false) by (unfold used; by rewrite Eb1, Eb2).
    assert (Hbl : b ∉ {[B]} ∪ locked s). { rewrite elem_of_union, elem_of_singleton. intros [?|[_ H]%Hlk]; [lia|congruence]. }
    rewrite bind_get by (done || by apply setb_ok, Hd). cbn [negb]. simpl locked.
    rewrite bind_release by (simpl; set_solver). simpl locked.
    rewrite bind_wdata by (simpl; rewrite elem_of_difference, elem_of_singleton; split; [set_solver|lia]). simpl locked.
    rewrite bind_release by (simpl; rewrite elem_of_difference, elem_of_singleton; split; [set_solver|lia]). simpl locked.
    eexists _, _, _. split; [done|]. left. split; [done|]. split; [unfold is_data; lia|]. split; [done|]. exists d. split; [by rewrite Eb1, Eb2|].
    rewrite Eb1. unfold set_locked, set_blocks. simpl. f_equal. clear -HB Hbl. set_solver.
  - rewrite (bind_Ret _ _ _ _ _ Ha). change (0 <=? -1) with false. cbn [negb].
    rewrite bind_release by done. subst s1. simpl locked. rewrite lock_unlock by done.
    assert (Hall : forall b, s_data_start sb + 4096 * m <= b < s_data_start sb + 4096 * m + 8 * sz -> used s b = true).
    { intros b Hb. destruct (bmap_index m (b - s_data_start sb - 4096 * m) ltac:(lia)) as [E1 E2].
      replace (s_data_start sb + 4096 * m + (b - s_data_start sb - 4096 * m)) with b in E1, E2 by lia.
      unfold used. rewrite E1, E2. apply (first_clear_None _ _ _ Ek). lia. }
    assert (Hmod : s_size sb `div` 8 * 8 = 4096 * m + num `div` 8 * 8).
    { replace (s_size sb) with (num + 512 * m * 8) by lia. rewrite Z.div_add by lia. lia. }
    assert (Hsz8 : sz = Z.min 512 (num `div` 8)) by done. pose proof (Z.div_mod num 8 ltac:(lia)). pose proof (Z.mod_pos_bound num 8 ltac:(lia)).
    destruct (decide (n = O)) as [->|Hn0].
    + eexists _, _, _. split; [done|]. right. split_and!; [done..|]. intros b Hb. apply Hall. lia.
    + rewrite wrap_small by lia. change (BDEV_BLK_SIZE * 8) with 4096. rewrite wrap_small by lia.
      destruct (IH s (m + 1) Hok Hlk ltac:(lia) ltac:(lia)) as (e & b & s' & E' & Hcase). subst B num.
      replace (s_data_bmap_start sb + m + 1) with (s_data_bmap_start sb + (m + 1)) by lia.
      replace (s_size sb - 4096 * m - 4096) with (s_size sb - 4096 * (m + 1)) by lia. exists e, b, s'. split; [done|].
      destruct Hcase as [?|(? & ? & Hrest)]; [by left|right]. split_and!; [done..|]. intros b' Hb'.
      destruct (decide (b' < s_data_start sb + 4096 * m + 8 * sz)); [apply Hall; lia|apply Hrest; lia].
Qed.

Lemma alloc_data_block_ok s : bufs_ok s -> (forall b, b ∈ locked s -> is_data b /\ used s b = true) ->
  exists e b s', alloc_data_block sb s = Ret (e, b) s' /\
    ((e = ERR_OK /\ allocated s b s') \/
     (e = ERR_NORES /\ s' = s /\ forall b, s_data_start sb <= b < s_data_start sb + s_size sb `div` 8 * 8 -> used s b = true)).
Proof using Hsb.
  intros Hok Hlk. destruct Hsb as [_ _ Hb _ _].
  destruct (alloc_data_loop_ok (Z.to_nat (s_journal_start sb - s_data_bmap_start sb)) s 0 Hok Hlk ltac:(lia) ltac:(lia)) as (e & b & s' & E & H).
  rewrite Z.mul_0_r, Z.sub_0_r, !Z.add_0_r in *. eauto.
Qed.

End alloc.

(** ** Words of a block, inodes of the table *)

Abbreviation byte_range := (fun x => 0 <= x < 256).

Lemma of_le32_ext l l' : (forall i, (i < 4)%nat -> l !! i = l' !! i) -> of_le32 l = of_le32 l'.
Proof.
  intros H. assert (Hd : forall l, of_le32 l = of_le32 (take 4 l)) by (intros [|? [|? [|? [|? ?]]]]; done).
  rewrite (Hd l), (Hd l'). f_equal. apply list_eq. intros i. destruct (decide (i < 4)%nat); [by rewrite !lookup_take_lt, H by lia|by rewrite !lookup_take_ge by lia].
Qed.

Lemma bytes_ok_splice d ofs l : bytes_ok d -> Forall byte_range l -> (ofs + length l <= 512)%nat -> bytes_ok (splice ofs l d).
Proof.
  intros [Hl Hf] Hfl Ho. split; [by rewrite length_splice by lia|]. unfold splice. rewrite !Forall_app. split_and!; [by apply Forall_take|done|by apply Forall_drop].
Qed.

Lemma le32_bytes x : Forall byte_range (le32 x).
Proof. unfold le32. repeat (constructor; [apply Z.mod_pos_bound; lia|]). constructor. Qed.

Lemma of_le32_range d ofs : bytes_ok d -> 0 <= of_le32 (drop ofs d) < 2 ^ 32.
Proof.
  intros [_ Hf]. apply (Forall_drop _ ofs) in Hf. destruct (drop ofs d) as [|a [|b [|c [|e l]]]]; try (simpl; lia).
  rewrite !Forall_cons in Hf. destruct Hf as (?&?&?&?&_). simpl. lia.
Qed.

(** The [n]th 32-bit word of a block. *)
Definition word (d : block) (n : Z) : Z := of_le32 (drop (Z.to_nat (4 * n)) d).

Lemma word_put d n x m : bytes_ok d -> 0 <= n < 128 -> 0 <= m < 128 -> 0 <= x < 2 ^ 32 ->
  word (splice (Z.to_nat (4 * n)) (le32 x) d) m = if m =? n then x else word d m.
Proof.
  intros [Hl _] Hn Hm Hx. unfold word. destruct (Z.eqb_spec m n) as [->|Hne].
  - rewrite splice_read by lia. by apply of_le32_le32.
  - apply of_le32_ext. intros i Hi. rewrite !lookup_drop, splice_lookup_ne; [done|simpl; lia|]. simpl. lia.
Qed.

Lemma word_zeros n : word (replicate 512 0) n = 0.
Proof. unfold word. rewrite drop_replicate. by destruct (512 - Z.to_nat (4 * n))%nat as [|[|[|[|?]]]]. Qed.

Lemma inode_bytes_length ftype mode nlink size addrs : length addrs = 14%nat -> length (sfs_inode_bytes ftype mode nlink size addrs) = 64%nat.
Proof. intros H. do 14 (destruct addrs as [|? addrs]; [done|]). by destruct addrs. Qed.

Lemma inode_bytes_range ftype mode nlink size addrs : Forall byte_range (sfs_inode_bytes ftype mode nlink size addrs).
Proof.
  unfold sfs_inode_bytes. rewrite !Forall_app. split_and!.
  - repeat (constructor; [apply wrap_range; lia|]). constructor.
  - unfold le16. repeat (constructor; [apply Z.mod_pos_bound; lia|]). constructor.
  - apply le32_bytes.
  - apply Forall_join, Forall_fmap, Forall_true. intros x. apply le32_bytes.
Qed.

Lemma bind_onb {A B} (m : M bufs A) (k : A -> M sfs B) s a b' : m (bf s) = Ret a b' -> bind (onb m) k s = k a (mkSfs b' (inodes s)).
Proof. intros H. apply bind_Ret. unfold onb, zoom. by rewrite H. Qed.

Lemma bind_geti {B} s p i (k : inode -> M sfs B) : inodes s !! p = Some i -> bind (geti p) k s = k i s.
Proof. intros H. apply bind_Ret. unfold geti. by rewrite H. Qed.

Lemma bind_updi {B} s p i f (k : unit -> M sfs B) : inodes s !! p = Some i -> bind (updi p f) k s = k tt (mkSfs (bf s) (<[p := f i]> (inodes s))).
Proof. intros H. apply bind_Ret. unfold updi. by rewrite (bind_geti _ _ _ _ H). Qed.

Section files.
Context (sb : sfs_sb_info) (Hsb : sb_ok sb).
Set Default Proof Using "Type*".

Definition inum_ok (n : Z) : Prop := 1 <= n <= s_num_inodes sb.

Lemma inum_blk n : inum_ok n -> inum_to_blk n = 4 + (n - 1) `div` 8 /\ inum_to_ofs n = 64 * ((n - 1) `mod` 8) /\ 4 <= inum_to_blk n < s_data_bmap_start sb.
Proof.
  intros Hn. unfold inum_ok in Hn. destruct Hsb as [Hi Ht _ _ _]. unfold SFS_INODE_TABLE_BLK in Ht.
  assert (0 <= (n - 1) `div` 8) by (apply Z.div_pos; lia). assert ((n - 1) `div` 8 <= (s_num_inodes sb - 1) `div` 8) by (apply Z.div_le_mono; lia).
  assert ((s_num_inodes sb - 1) `div` 8 < 512) by (apply Z.div_lt_upper_bound; lia).
  unfold inum_to_blk, inum_to_ofs, SFS_INODE_TABLE_BLK, sizeof_sfs_inode. change (BDEV_BLK_SIZE `div` 64) with 8. change BDEV_BLK_SIZE with (8 * 64).
  rewrite !(wrap_small 32 (n - 1)), !wrap_small by lia. split; [done|]. split; [|lia]. rewrite Z.mul_mod_distr_r by lia. lia.
Qed.

(** The 64 bytes of an inode in the table. *)
Definition entry (s : bufs) (n : Z) : list Z := take 64 (drop (Z.to_nat (inum_to_ofs n)) (blk s (inum_to_blk n))).
Definition inode_image (i : inode) : list Z := sfs_inode_bytes (i_ftype i) (i_mode i) (i_nlink i) (i_size i) (i_addrs i).
Definition put_inode (i : inode) (s : bufs) : bufs :=
  let b := inum_to_blk (i_inum i) in setb b (splice (Z.to_nat (inum_to_ofs (i_inum i))) (inode_image i) (blk s b)) s.

Lemma put_inode_ok i s : bufs_ok s -> inum_ok (i_inum i) -> length (i_addrs i) = 14%nat ->
  bufs_ok (put_inode i s) /\ entry (put_inode i s) (i_inum i) = inode_image i /\
  (forall n, inum_ok n -> n <> i_inum i -> entry (put_inode i s) n = entry s n).
Proof.
  intros Hok Hi Hl. pose proof (inode_bytes_length (i_ftype i) (i_mode i) (i_nlink i) (i_size i) _ Hl) as Hlen. fold (inode_image i) in Hlen.
  destruct (inum_blk _ Hi) as (Eb & Eo & _). pose proof (Z.mod_pos_bound (i_inum i - 1) 8 ltac:(lia)) as Hm. destruct (proj1 Hok (inum_to_blk (i_inum i))) as [Hbl _]. split_and!.
  - apply setb_ok; [done|]. apply bytes_ok_splice; [apply Hok|apply inode_bytes_range|]. rewrite Hlen, Eo. lia.
  - unfold entry, put_inode. rewrite blk_set, Z.eqb_refl, splice_read by (rewrite Hbl, Eo; lia). by rewrite take_app_length' by done.
  - intros n Hn Hne. destruct (inum_blk _ Hn) as (Eb' & Eo' & _). pose proof (Z.mod_pos_bound (n - 1) 8 ltac:(lia)) as Hm'.
    unfold entry, put_inode. rewrite blk_set. destruct (Z.eqb_spec (inum_to_blk n) (inum_to_blk (i_inum i))) as [E|]; [|done].
    pose proof (Z.div_mod (n - 1) 8 ltac:(lia)). pose proof (Z.div_mod (i_inum i - 1) 8 ltac:(lia)). rewrite E. apply list_eq. intros k.
    destruct (decide (k < 64)%nat); [|by rewrite !lookup_take_ge by lia]. rewrite !lookup_take_lt, !lookup_drop by lia.
    apply splice_lookup_ne; rewrite Hlen, ?Hbl, ?Eo, ?Eo'; lia.
Qed.

Lemma write_inode_ok s p i : inodes s !! p = Some i -> bufs_ok (bf s) -> inum_ok (i_inum i) -> inum_to_blk (i_inum i) ∉ locked (bf s) ->
  sfs_write_inode p s = Ret ERR_OK (mkSfs (put_inode i (bf s)) (<[p := fs_set_inode_dirty false i]> (inodes s))).
Proof.
  intros Hp Hok Hi Hl. unfold sfs_write_inode. rewrite (bind_geti _ _ _ _ Hp), bind_kassert by (unfold inum_ok in Hi; apply negb_true_iff, Z.eqb_neq; lia).
  set (b := inum_to_blk (i_inum i)) in *. rewrite (bind_onb _ _ _ _ _ (get_ok _ b Hok Hl)). cbn [negb].
  set (s1 := set_locked _ (bf s)). assert (Hl1 : b ∈ locked s1) by (simpl; set_solver).
  rewrite (bind_onb _ _ _ (blk s1 b) s1) by (unfold rdata; rewrite bind_gets; simpl bf; by rewrite bool_decide_eq_true_2).
  erewrite bind_onb by (apply wdata_ok; exact Hl1). erewrite bind_updi by (simpl; exact Hp).
  erewrite bind_onb by (apply blk_release_ok; exact Hl1). unfold ret. do 2 f_equal. unfold put_inode. fold b. subst s1. unfold set_locked, set_blocks. simpl. f_equal. set_solver.
Qed.

End files.

End Sfs.
