(* ===== verification/SfsFile.v ===== *)
(** * Files of the simple file system

    The contents of a file as a function from offsets to bytes: [get_data_block]
    finds, and extends, the blocks of a file; [read_data] and [write_data] of
    kernel/fs/sfs/sfs.c read and write that function. *)

From S2P Require Import Prelude Lib Bdev Bufs Sfs.
Local Open Scope kernel_scope.
Import Bits Bdev Bufs Sfs.

Module SfsFile.

Section files.
Context (sb : sfs_sb_info) (Hsb : sb_ok sb).
Set Default Proof Using "Type*".
Implicit Types (s : bufs) (i : inode) (b k o : Z).

(** ** The blocks of a file

    The slots of a file are the 14 entries of [i_addrs] and, from 14 on, the
    128 words of each of the two indirect blocks. *)
Definition addr s i k : Z :=
  if k <? 14 then default 0 (i_addrs i !! Z.to_nat k)
  else let a := default 0 (i_addrs i !! Z.to_nat (12 + (k - 14) `div` 128)) in
       if a =? 0 then 0 else word (blk s a) ((k - 14) `mod` 128).
(** The slot of the [n]th block of the contents. *)
Definition slot (n : Z) : Z := if n <? 12 then n else n + 2.
Definition fblk s i (n : Z) : Z := addr s i (slot n).
Definition fbyte s i o : Z :=
  let b := fblk s i (o `div` 512) in if b =? 0 then 0 else default 0 (blk s b !! Z.to_nat (o `mod` 512)).

(** The blocks of a file are marked in the bitmap, no block has two slots, and
    the inode on disk is the one in memory. *)
Record file_ok s i : Prop := {
  f_inum : inum_ok sb (i_inum i);
  f_len : length (i_addrs i) = 14%nat;
  f_data : forall k, 0 <= k < 270 -> addr s i k <> 0 -> is_data sb (addr s i k) /\ used sb s (addr s i k) = true;
  f_inj : forall k k', 0 <= k < 270 -> 0 <= k' < 270 -> addr s i k = addr s i k' -> addr s i k <> 0 -> k = k';
  f_sync : entry s (i_inum i) = inode_image i;
}.

(** A file may grow: slots that are taken stay, new blocks were free; blocks in
    use by others and the other inodes of the table stay as they are. *)
Record grow s i s' i' : Prop := {
  g_meta : i_inum i' = i_inum i /\ i_ref i' = i_ref i /\ i_nlink i' = i_nlink i /\ i_ftype i' = i_ftype i /\ i_mode i' = i_mode i /\ i_lock i' = i_lock i;
  g_addr : forall k, 0 <= k < 270 -> addr s i k <> 0 -> addr s' i' k = addr s i k;
  g_new : forall k, 0 <= k < 270 -> addr s i k = 0 -> addr s' i' k <> 0 -> used sb s (addr s' i' k) = false;
  g_used : forall b, is_data sb b -> used sb s b = true -> used sb s' b = true;
  g_frame : forall b, is_data sb b -> used sb s b = true -> (forall k, 0 <= k < 270 -> addr s i k <> b) -> blk s' b = blk s b;
  g_table : forall n, inum_ok sb n -> n <> i_inum i -> entry s' n = entry s n;
}.

Lemma grow_refl s i : grow s i s i.
Proof. by split. Qed.

Lemma grow_trans s i s1 i1 s2 i2 : file_ok s1 i1 -> file_ok s2 i2 -> grow s i s1 i1 -> grow s1 i1 s2 i2 -> grow s i s2 i2.
Proof.
  intros F1 F2 G1 G2. destruct (g_meta _ _ _ _ G1) as (A1 & A2 & A3 & A4 & A5 & A6), (g_meta _ _ _ _ G2) as (B1 & B2 & B3 & B4 & B5 & B6).
  assert (Hkeep : forall k, 0 <= k < 270 -> addr s i k <> 0 -> addr s1 i1 k = addr s i k) by apply G1.
  assert (Hfree : forall b, is_data sb b -> used sb s1 b = false -> used sb s b = false).
  { intros b Hb Hu. destruct (used sb s b) eqn:E; [|done]. by rewrite (g_used _ _ _ _ G1 b Hb E) in Hu. }
  split.
  - split_and!; congruence.
  - intros k Hk H0. rewrite (g_addr _ _ _ _ G2 k Hk), Hkeep; [done..|]. by rewrite Hkeep.
  - intros k Hk H0 H2. destruct (decide (addr s1 i1 k = 0)) as [E|E].
    + apply Hfree; [by apply (f_data _ _ F2)|]. by apply (g_new _ _ _ _ G2).
    + rewrite (g_addr _ _ _ _ G2 k Hk E). by apply (g_new _ _ _ _ G1).
  - intros b Hb Hu. apply (g_used _ _ _ _ G2 b Hb), (g_used _ _ _ _ G1 b Hb Hu).
  - intros b Hb Hu Hn. rewrite (g_frame _ _ _ _ G2 b Hb (g_used _ _ _ _ G1 b Hb Hu)); [by apply (g_frame _ _ _ _ G1)|].
    intros k Hk E. destruct (decide (addr s i k = 0)) as [E0|E0].
    + rewrite <- E in Hb, Hu. rewrite (g_new _ _ _ _ G1 k Hk E0) in Hu; [done|]. unfold is_data in Hb. pose proof (sb_pos sb Hsb). destruct Hsb. lia.
    + apply (Hn k Hk). by rewrite <- E, Hkeep.
  - intros n Hn Hne. rewrite (g_table _ _ _ _ G2) by congruence. by apply (g_table _ _ _ _ G1).
Qed.

(** Blocks of the three kinds are different blocks. *)
Lemma data_pos b : is_data sb b -> 4 < s_data_bmap_start sb < b /\ s_journal_start sb <= b /\ b < 2 ^ 32.
Proof. unfold is_data. pose proof (sb_pos sb Hsb). destruct Hsb. lia. Qed.

(** ** Taking a free block *)

Lemma allocated_blk s b s' : allocated sb s b s' -> forall c, c <> bmap_of sb b -> blk s' c = if c =? b then replicate 512 0 else blk s c.
Proof. intros (_ & _ & d & _ & ->) c Hc. rewrite !blk_set. by rewrite (proj2 (Z.eqb_neq c (bmap_of sb b))). Qed.

Lemma allocated_used s b s' c : allocated sb s b s' -> is_data sb c -> used sb s' c = (c =? b) || used sb s c.
Proof.
  intros (Hb & Hu & d & [Hd1 Hd2] & ->) Hc. pose proof (bmap_range sb Hsb b Hb). pose proof (bmap_range sb Hsb c Hc). pose proof (data_pos b Hb).
  unfold used. rewrite !blk_set, (proj2 (Z.eqb_neq (bmap_of sb c) b)) by lia.
  pose proof (Z.mod_pos_bound (c - s_data_start sb) 4096 ltac:(lia)). destruct (Z.eqb_spec (bmap_of sb c) (bmap_of sb b)) as [E|E].
  - rewrite Hd2, <- E by lia. f_equal. unfold bmap_of in E. pose proof (Z.div_mod (c - s_data_start sb) 4096 ltac:(lia)). pose proof (Z.div_mod (b - s_data_start sb) 4096 ltac:(lia)). bool_lia.
  - destruct (Z.eqb_spec c b) as [->|]; done.
Qed.

Lemma allocated_ok s b s' : bufs_ok s -> allocated sb s b s' -> bufs_ok s' /\ locked s' = locked s /\ pins s' = pins s.
Proof. intros Hok (_ & _ & d & [Hd _] & ->). split; [|done]. apply setb_ok; [by apply setb_ok|apply zeros_ok]. Qed.

Lemma addr_ext s s' i k : (forall j, 12 <= j < 14 -> addr s i j <> 0 -> blk s' (addr s i j) = blk s (addr s i j)) -> 0 <= k < 270 -> addr s' i k = addr s i k.
Proof.
  intros H Hk. unfold addr. destruct (Z.ltb_spec k 14); [done|]. set (j := 12 + (k - 14) `div` 128).
  assert (0 <= (k - 14) `div` 128 < 2) by (split; [apply Z.div_pos|apply Z.div_lt_upper_bound]; lia).
  specialize (H j ltac:(lia)). unfold addr in H. rewrite (proj2 (Z.ltb_lt j 14)) in H by lia. destruct (Z.eqb_spec (default 0 (i_addrs i !! Z.to_nat j)) 0); [done|]. by rewrite H.
Qed.

(** A file with the same slots over blocks that did not change. *)
Lemma file_taken s i b s' : file_ok s i -> allocated sb s b s' ->
  file_ok s' i /\ grow s i s' i /\ (forall k, 0 <= k < 270 -> addr s' i k = addr s i k) /\
  (forall k, 0 <= k < 270 -> addr s i k <> 0 -> blk s' (addr s i k) = blk s (addr s i k)) /\ (forall k, 0 <= k < 270 -> addr s i k <> b).
Proof.
  intros F Ha. pose proof Ha as (Hb & Hu & _). pose proof (data_pos b Hb). pose proof (bmap_range sb Hsb b Hb).
  assert (Hsame : forall c, is_data sb c -> used sb s c = true -> blk s' c = blk s c).
  { intros c Hc Huc. pose proof (data_pos c Hc). rewrite (allocated_blk s b s' Ha) by lia. destruct (Z.eqb_spec c b); [congruence|done]. }
  assert (Hblk : forall k, 0 <= k < 270 -> addr s i k <> 0 -> blk s' (addr s i k) = blk s (addr s i k)).
  { intros k Hk Hz. destruct (f_data _ _ F k Hk Hz). by apply Hsame. }
  assert (Hadr : forall k, 0 <= k < 270 -> addr s' i k = addr s i k) by (intros k Hk; apply addr_ext; [intros j Hj; apply Hblk; lia|done]).
  assert (Hent : forall n, inum_ok sb n -> entry s' n = entry s n).
  { intros n Hn. destruct (inum_blk sb Hsb n Hn) as (_ & _ & ?). unfold entry. rewrite (allocated_blk s b s' Ha) by lia. by rewrite (proj2 (Z.eqb_neq _ b)) by lia. }
  destruct F as [F1 F2 F3 F4 F5]. split_and!; [split|split| | |]; try done.
  - intros k Hk. rewrite Hadr by done. intros Hz. destruct (F3 k Hk Hz) as [Hd Hu']. split; [done|]. rewrite (allocated_used s b s' _ Ha Hd), Hu'. apply orb_true_r.
  - intros k k' Hk Hk'. rewrite !Hadr by done. by apply F4.
  - by rewrite Hent.
  - intros k Hk Hz. by apply Hadr.
  - intros k Hk Hz Hn. by rewrite Hadr in Hn.
  - intros c Hc Huc. rewrite (allocated_used s b s' _ Ha Hc), Huc. apply orb_true_r.
  - intros c Hc Huc _. by apply Hsame.
  - intros n Hn _. by apply Hent.
  - intros k Hk E. destruct (F3 k Hk) as [_ Hu']; [lia|]. congruence.
Qed.

(** ** Filling a slot *)

Lemma slot_range n : 0 <= n < 268 -> 0 <= slot n < 270 /\ slot n <> 12 /\ slot n <> 13.
Proof. unfold slot. destruct (Z.ltb_spec n 12); lia. Qed.

Lemma max_size : SFS_MAX_FILE_SIZE = 137216.
Proof. done. Qed.

Lemma ofs_block o : 0 <= o < SFS_MAX_FILE_SIZE -> 0 <= o `div` 512 < 268.
Proof. rewrite max_size. intros Ho. split; [apply Z.div_pos|apply Z.div_lt_upper_bound]; lia. Qed.

(** [s'], [i'] are [s], [i] with the free block [b] in the empty slot [k]: the
    contents are the same, as the block is full of zeros. *)
Record filled s i k b s' i' : Prop := {
  fl_file : file_ok s' i';
  fl_grow : grow s i s' i';
  fl_addr : forall k', 0 <= k' < 270 -> addr s' i' k' = if k' =? k then b else addr s i k';
  fl_size : i_size i' = i_size i;
  fl_bytes : forall o, 0 <= o < SFS_MAX_FILE_SIZE -> fbyte s' i' o = fbyte s i o;
}.

Lemma fill_ok s i k b s1 s' i' : file_ok s i -> allocated sb s b s1 -> 0 <= k < 270 -> addr s i k = 0 ->
  (i_inum i' = i_inum i /\ i_ref i' = i_ref i /\ i_nlink i' = i_nlink i /\ i_ftype i' = i_ftype i /\ i_mode i' = i_mode i /\ i_lock i' = i_lock i) ->
  i_size i' = i_size i -> length (i_addrs i') = 14%nat -> entry s' (i_inum i) = inode_image i' ->
  (forall n, inum_ok sb n -> n <> i_inum i -> entry s' n = entry s1 n) ->
  (forall c, is_data sb c -> used sb s' c = used sb s1 c) ->
  (forall c, is_data sb c -> c <> addr s i 12 -> c <> addr s i 13 -> blk s' c = blk s1 c) ->
  (forall k', 0 <= k' < 270 -> addr s' i' k' = if k' =? k then b else addr s i k') ->
  filled s i k b s' i'.
Proof.
  intros F Ha Hk Hk0 Hmeta Hsize Hlen Hsync Htab Hused Hblk Haddr. pose proof Ha as (Hb & Hub & _).
  destruct (file_taken s i b s1 F Ha) as (F1 & G1 & Hadr1 & Hblk1 & Hnb). pose proof (data_pos b Hb) as Hpb.
  assert (Hu' : forall c, is_data sb c -> used sb s' c = (c =? b) || used sb s c) by (intros c Hc; rewrite Hused by done; by apply (allocated_used s b s1)).
  assert (Hkeep : forall k', 0 <= k' < 270 -> addr s i k' <> 0 -> addr s' i' k' = addr s i k').
  { intros k' Hk' H0. rewrite Haddr by done. destruct (Z.eqb_spec k' k) as [->|]; [congruence|done]. }
  split; [split|split| | |]; try done.
  - rewrite (proj1 Hmeta). apply F.
  - intros k' Hk'. rewrite Haddr by done. destruct (Z.eqb_spec k' k); [rewrite Hu', Z.eqb_refl by done; done|]. intros H0. destruct (f_data _ _ F k' Hk' H0) as [Hd Hu]. by rewrite Hu', Hu, orb_true_r.
  - intros k1 k2 Hk1 Hk2. rewrite !Haddr by done. destruct (Z.eqb_spec k1 k), (Z.eqb_spec k2 k); intros E H0; [congruence|by destruct (Hnb k2 Hk2)|by destruct (Hnb k1 Hk1)|by apply (f_inj _ _ F)].
  - by rewrite (proj1 Hmeta).
  - intros k' Hk' H0. rewrite Haddr by done. destruct (Z.eqb_spec k' k) as [->|]; [done|congruence].
  - intros c Hc Hu. by rewrite Hu', Hu, orb_true_r.
  - intros c Hc Hu Hn. rewrite Hblk by (done || (intros ->; by eapply Hn; [|reflexivity])). by apply (g_frame _ _ _ _ G1).
  - intros n Hn Hne. rewrite Htab by done. by apply (g_table _ _ _ _ G1).
  - intros o Ho. destruct (slot_range (o `div` 512) (ofs_block o Ho)) as (Hs & H12 & H13). unfold fbyte, fblk.
    assert (Hind : forall c, is_data sb c -> (forall j, 12 <= j < 14 -> c <> addr s i j) -> blk s' c = blk s1 c) by (intros c Hc Hj; apply Hblk; [done|apply Hj; lia..]).
    rewrite Haddr by done. set (kk := slot _) in *. destruct (Z.eqb_spec kk k) as [E|E].
    + rewrite E, Hk0, (proj2 (Z.eqb_neq b 0)) by lia. simpl. rewrite Hind; [|done|intros j Hj E'; by apply (Hnb j ltac:(lia))].
      pose proof (bmap_range sb Hsb b Hb). rewrite (allocated_blk s b s1 Ha), Z.eqb_refl by lia. destruct (replicate 512 0 !! Z.to_nat (o `mod` 512)) as [x|] eqn:Ex; [|done]. by apply lookup_replicate in Ex as [-> _].
    + destruct (Z.eqb_spec (addr s i kk) 0) as [|H0]; [done|]. rewrite Hind, Hblk1; [done..|by apply (f_data _ _ F)|].
      intros j Hj Ej. pose proof (f_inj _ _ F kk j Hs ltac:(lia) Ej H0). lia.
Qed.

(** Slots of the inode: the new inode is written out. *)
Lemma fill_inode s i k b s1 st : bufs_ok s1 -> file_ok s i -> allocated sb s b s1 -> 0 <= k < 14 -> addr s i k = 0 ->
  let i' := set_state st (set_addrs (<[Z.to_nat k := b]> (i_addrs i)) i) in filled s i k b (put_inode i' s1) i'.
Proof.
  intros Hok F Ha Hk Hk0 i'. pose proof Ha as (Hb & _). destruct (file_taken s i b s1 F Ha) as (F1 & _ & Hadr1 & _ & Hnb).
  pose proof (f_inum _ _ F) as Hi. pose proof (f_len _ _ F) as Hl. assert (Hl' : length (i_addrs i') = 14%nat) by (simpl; by rewrite length_insert).
  destruct (put_inode_ok sb Hsb i' s1 Hok Hi Hl') as (Hok' & Hent & Htab). destruct (inum_blk sb Hsb _ Hi) as (_ & _ & Hir).
  assert (Hblk : forall c, s_data_bmap_start sb <= c -> blk (put_inode i' s1) c = blk s1 c).
  { intros c Hc. unfold put_inode. rewrite blk_set, (proj2 (Z.eqb_neq c _)); [done|]. simpl. lia. }
  apply (fill_ok s i k b s1); try done; [lia| | |].
  - intros c Hc. unfold used. rewrite Hblk; [done|]. apply (bmap_range sb Hsb c Hc).
  - intros c Hc _ _. apply Hblk. pose proof (data_pos c Hc). lia.
  - intros k' Hk'. unfold addr. destruct (Z.ltb_spec k' 14) as [H14|H14]; simpl i_addrs.
    + destruct (Z.eqb_spec k' k) as [->|]; [by rewrite list_lookup_insert_eq by lia|by rewrite list_lookup_insert_ne by lia].
    + rewrite (proj2 (Z.eqb_neq k' k)) by lia. assert (0 <= (k' - 14) `div` 128 < 2) by (split; [apply Z.div_pos|apply Z.div_lt_upper_bound]; lia).
      set (j := 12 + (k' - 14) `div` 128) in *. assert (Hj : 12 <= j < 14) by lia. destruct (decide (j = k)) as [->|Hne].
      * rewrite list_lookup_insert_eq by lia. unfold addr in Hk0. rewrite (proj2 (Z.ltb_lt k 14)) in Hk0 by lia. rewrite Hk0. change (default 0 (Some b)) with b. change (0 =? 0) with true. cbn [negb]. rewrite Hblk by (pose proof (data_pos b Hb); lia).
        pose proof (bmap_range sb Hsb b Hb). pose proof (data_pos b Hb). rewrite (allocated_blk s b s1 Ha), Z.eqb_refl, word_zeros by lia. by destruct (b =? 0).
      * rewrite list_lookup_insert_ne by lia. pose proof (Hadr1 k' Hk') as E. unfold addr in E. rewrite (proj2 (Z.ltb_ge k' 14)) in E by lia. fold j in E. rewrite <- E.
        destruct (Z.eqb_spec (default 0 (i_addrs i !! Z.to_nat j)) 0) as [|H0]; [done|]. f_equal. apply Hblk.
        pose proof (f_data _ _ F j ltac:(lia)) as Hd. unfold addr in Hd. rewrite (proj2 (Z.ltb_lt j 14)) in Hd by lia. destruct (Hd H0) as [Hd' _]. pose proof (data_pos _ Hd'). lia.
Qed.

Lemma ind_range k : 14 <= k < 270 -> 12 <= 12 + (k - 14) `div` 128 < 14 /\ 0 <= (k - 14) `mod` 128 < 128.
Proof. intros. pose proof (Z.mod_pos_bound (k - 14) 128 ltac:(lia)). pose proof (Z.div_mod (k - 14) 128 ltac:(lia)). lia. Qed.

Lemma addr_ind s i k : 14 <= k < 270 ->
  addr s i k = let a := addr s i (12 + (k - 14) `div` 128) in if a =? 0 then 0 else word (blk s a) ((k - 14) `mod` 128).
Proof.
  intros Hk. destruct (ind_range k Hk). unfold addr at 1. rewrite (proj2 (Z.ltb_ge k 14)) by lia. unfold addr.
  by rewrite (proj2 (Z.ltb_lt (12 + _) 14)) by lia.
Qed.

(** Slots of an indirect block: the word is stored in that block. *)
Lemma fill_indirect s i k b s1 a : bufs_ok s1 -> file_ok s i -> allocated sb s b s1 -> 14 <= k < 270 -> addr s i k = 0 ->
  a = addr s i (12 + (k - 14) `div` 128) -> a <> 0 ->
  filled s i k b (setb a (splice (Z.to_nat (4 * ((k - 14) `mod` 128))) (le32 b) (blk s1 a)) s1) i.
Proof.
  intros Hok F Ha Hk Hk0 Ea Ha0. pose proof Ha as (Hb & _). destruct (file_taken s i b s1 F Ha) as (F1 & _ & Hadr1 & Hblk1 & Hnb).
  pose proof (ind_range k Hk) as [Hj Hm]. set (j := 12 + (k - 14) `div` 128) in *. rewrite Ea in Ha0. destruct (f_data _ _ F j ltac:(lia) Ha0) as [Hda Hua]. rewrite <- Ea in *.
  pose proof (data_pos a Hda) as Hpa. pose proof (data_pos b Hb) as Hpb.
  apply (fill_ok s i k b s1); try done; [lia|apply F| | | | |].
  - unfold entry. destruct (inum_blk sb Hsb _ (f_inum _ _ F)) as (_ & _ & ?). rewrite blk_set, (proj2 (Z.eqb_neq _ a)) by lia. apply (f_sync _ _ F1).
  - intros n Hn _. destruct (inum_blk sb Hsb n Hn) as (_ & _ & ?). unfold entry. by rewrite blk_set, (proj2 (Z.eqb_neq _ a)) by lia.
  - intros c Hc. unfold used. pose proof (bmap_range sb Hsb c Hc). by rewrite blk_set, (proj2 (Z.eqb_neq _ a)) by lia.
  - intros c Hc H12 H13. rewrite blk_set. destruct (Z.eqb_spec c a) as [->|]; [|done]. assert (j = 12 \/ j = 13) as [E|E] by lia; rewrite E in Ea; congruence.
  - intros k' Hk'. destruct (decide (k' < 14)) as [H14|H14].
    { unfold addr at 1. rewrite (proj2 (Z.ltb_lt k' 14)) by lia. rewrite (proj2 (Z.eqb_neq k' k)) by lia. unfold addr. by rewrite (proj2 (Z.ltb_lt k' 14)) by lia. }
    rewrite (addr_ind _ i k'), (addr_ind s i k') by lia. destruct (ind_range k' ltac:(lia)) as [Hj' Hm']. set (j' := 12 + (k' - 14) `div` 128) in *.
    assert (E1 : addr (setb a (splice (Z.to_nat (4 * ((k - 14) `mod` 128))) (le32 b) (blk s1 a)) s1) i j' = addr s i j') by (unfold addr; by rewrite (proj2 (Z.ltb_lt j' 14)) by lia).
    rewrite E1. cbv zeta. destruct (Z.eqb_spec (addr s i j') 0) as [E0|E0].
    { rewrite (proj2 (Z.eqb_neq k' k)); [done|]. intros ->. exact (Ha0 (eq_trans Ea E0)). }
    rewrite blk_set. destruct (Z.eqb_spec (addr s i j') a) as [Eq|Eq].
    + assert (j' = j) by (apply (f_inj _ _ F); [lia|lia|congruence|done]). rewrite word_put by (try apply Hok; lia). rewrite Ea, (Hblk1 j) by (lia || congruence). rewrite Eq, Ea.
      pose proof (Z.div_mod (k - 14) 128 ltac:(lia)). pose proof (Z.div_mod (k' - 14) 128 ltac:(lia)). destruct (Z.eqb_spec ((k' - 14) `mod` 128) ((k - 14) `mod` 128)), (Z.eqb_spec k' k); subst j j'; (done || lia).
    + rewrite (proj2 (Z.eqb_neq k' k)) by (intros ->; exact (Eq (eq_sym Ea))). by rewrite Hblk1 by (lia || done).
Qed.

(** ** The block of an offset *)

(** What [get_data_block] leaves of a file: its contents, and all of it when
    nothing may be allocated. *)
Record kept (alloc : bool) s i s' i' : Prop := {
  k_bufs : bufs_ok s';
  k_file : file_ok s' i';
  k_grow : grow s i s' i';
  k_size : i_size i' = i_size i;
  k_bytes : forall o, 0 <= o < SFS_MAX_FILE_SIZE -> fbyte s' i' o = fbyte s i o;
  k_pin : forall b, pin s' b = pin s b;
  k_same : alloc = false -> i' = i /\ blocks s' = blocks s;
}.

Lemma kept_refl alloc s i : bufs_ok s -> file_ok s i -> kept alloc s i s i.
Proof. by split. Qed.

Lemma file_kept_trans alloc s i s1 i1 s2 i2 : kept alloc s i s1 i1 -> kept alloc s1 i1 s2 i2 -> kept alloc s i s2 i2.
Proof.
  intros [A1 A2 A3 A4 A5 A6 A7] [B1 B2 B3 B4 B5 B6 B7]. split; try done.
  - by apply (grow_trans s i s1 i1 s2 i2).
  - congruence.
  - intros o Ho. by rewrite B5, A5.
  - intros b. by rewrite B6.
  - intros E. destruct (A7 E), (B7 E). split; congruence.
Qed.

(** Only the blocks matter to a file. *)
Lemma file_ok_blocks s t i : blocks t = blocks s -> file_ok s i -> file_ok t i.
Proof. destruct s, t. simpl. intros -> []. by split. Qed.

Lemma grow_blocks s i s' t i' : blocks t = blocks s' -> grow s i s' i' -> grow s i t i'.
Proof. destruct s', t. simpl. intros -> []. by split. Qed.

Lemma grow_blocks_l s t i s' i' : blocks t = blocks s -> grow s i s' i' -> grow t i s' i'.
Proof. destruct s, t. simpl. intros -> []. by split. Qed.

Lemma fbyte_blocks s t i o : blocks t = blocks s -> fbyte t i o = fbyte s i o.
Proof. destruct s, t. simpl. by intros ->. Qed.

(** Locking, unlocking and references leave the file alone. *)
Lemma kept_view alloc s t i : blocks t = blocks s -> (forall b, pin t b = pin s b) -> bufs_ok t -> file_ok s i -> kept alloc s i t i.
Proof.
  intros E Hp Hok F. split; try done.
  - by apply (file_ok_blocks s).
  - apply (grow_blocks s i s t i E), grow_refl.
  - intros o _. by apply fbyte_blocks.
Qed.

Lemma filled_kept s i k b s' i' : bufs_ok s' -> (forall b, pin s' b = pin s b) -> filled s i k b s' i' -> kept true s i s' i'.
Proof. intros Hok Hp []. by split. Qed.

Lemma set_addr_ok (s : sfs) p i k b : inodes s !! p = Some i -> bufs_ok (bf s) -> inum_ok sb (i_inum i) -> inum_to_blk (i_inum i) ∉ locked (bf s) ->
  length (i_addrs i) = 14%nat -> 0 <= k < 14 ->
  exists st, let i' := set_state st (set_addrs (<[Z.to_nat k := b]> (i_addrs i)) i) in
    set_addr p k b s = Ret tt (mkSfs (put_inode i' (bf s)) (<[p := i']> (inodes s))).
Proof.
  intros Hp Hok Hi Hl Hlen Hk. unfold set_addr. rewrite (bind_geti _ _ _ _ Hp).
  destruct (lookup_lt_is_Some_2 (i_addrs i) (Z.to_nat k)) as [x Hx]; [lia|]. rewrite Hx. unfold of_option. rewrite bind_ret.
  erewrite bind_updi by exact Hp. exists (set_state_bit (set_state_bit (i_state i) INODE_DIRTY true) INODE_DIRTY false). cbv zeta. erewrite bind_Ret.
  2: { apply (write_inode_ok sb Hsb); [apply lookup_insert_eq|exact Hok|exact Hi|exact Hl]. }
  unfold ret. simpl inodes. rewrite insert_insert_eq. reflexivity.
Qed.

(** The file at [p] after a step on the whole state. *)
Definition stepped (alloc : bool) (s : sfs) (p : Z) i (s' : sfs) i' : Prop :=
  inodes s' = <[p := i']> (inodes s) /\ kept alloc (bf s) i (bf s') i'.

Lemma stepped_trans alloc (s s1 s2 : sfs) p i i1 i2 : stepped alloc s p i s1 i1 -> stepped alloc s1 p i1 s2 i2 -> stepped alloc s p i s2 i2.
Proof. intros [E1 K1] [E2 K2]. split; [by rewrite E2, E1, insert_insert_eq|by apply (file_kept_trans alloc _ _ _ _ _ _ K1)]. Qed.

Lemma stepped_view alloc (s : sfs) p i t : inodes s !! p = Some i -> file_ok (bf s) i -> blocks t = blocks (bf s) -> (forall b, pin t b = pin (bf s) b) -> bufs_ok t ->
  stepped alloc s p i (mkSfs t (inodes s)) i.
Proof. intros. split; [simpl; by rewrite insert_id|by apply kept_view]. Qed.

Lemma stepped_lookup alloc (s s' : sfs) p i i' : stepped alloc s p i s' i' -> inodes s' !! p = Some i'.
Proof. intros [-> _]. apply lookup_insert_eq. Qed.

Lemma addr_top s i k : length (i_addrs i) = 14%nat -> 0 <= k < 14 -> i_addrs i !! Z.to_nat k = Some (addr s i k).
Proof.
  intros Hl Hk. unfold addr. rewrite (proj2 (Z.ltb_lt k 14)) by lia. by destruct (lookup_lt_is_Some_2 (i_addrs i) (Z.to_nat k)) as [x ->]; [lia|].
Qed.

(** The error when a block is missing. *)
Definition no_block (alloc : bool) : err_t := if alloc then ERR_NORES else ERR_NOTEXIST.

Lemma no_block_err alloc : negb (no_block alloc =? ERR_OK) = true.
Proof. by destruct alloc. Qed.

(** No data block of the bitmap is free. *)
Definition full s : Prop := forall b, s_data_start sb <= b < s_data_start sb + s_size sb `div` 8 * 8 -> used sb s b = true.

Lemma alloc_addr_ok (s : sfs) p i k : inodes s !! p = Some i -> bufs_ok (bf s) -> file_ok (bf s) i -> locked (bf s) = ∅ -> 0 <= k < 14 -> addr (bf s) i k = 0 ->
  exists e b (s' : sfs) i', alloc_addr sb p k s = Ret (e, b) s' /\ stepped true s p i s' i' /\ locked (bf s') = ∅ /\
    ((e = ERR_OK /\ b = addr (bf s') i' k /\ b <> 0) \/ (e = ERR_NORES /\ full (bf s'))).
Proof.
  intros Hp Hok F Hl Hk H0. unfold alloc_addr.
  destruct (alloc_data_block_ok sb Hsb (bf s) Hok) as (e & b & t & E & Hcase); [rewrite Hl; intros ? []%elem_of_empty|].
  rewrite (bind_onb _ _ _ _ _ E). destruct Hcase as [[-> Ha]|(-> & -> & Hfull)]; cbn [fst snd].
  - cbn [negb Z.eqb ERR_OK]. destruct (allocated_ok _ _ _ Hok Ha) as (Hok1 & Hl1 & Hp1). pose proof (f_inum _ _ F) as Hi.
    destruct (set_addr_ok (mkSfs t (inodes s)) p i k b Hp Hok1 Hi) as [st E2]; [simpl; rewrite Hl1, Hl; apply not_elem_of_empty|apply F|done|]. cbv zeta in E2.
    rewrite (bind_Ret _ _ _ _ _ E2). pose proof (fill_inode (bf s) i k b t st Hok1 F Ha Hk H0) as Hf. cbv zeta in Hf. set (i' := set_state st _) in *.
    eexists _, _, _, i'. split; [done|]. simpl. split; [|split; [by rewrite Hl1|left]].
    + split; [done|]. apply (filled_kept _ _ k b); [|intros c; unfold pin; simpl; by rewrite Hp1|done].
      apply (put_inode_ok sb Hsb i' t); [done|done|]. simpl. rewrite length_insert. apply F.
    + split; [done|]. destruct Ha as (Hb & _). pose proof (data_pos b Hb). rewrite (fl_addr _ _ _ _ _ _ Hf), Z.eqb_refl by lia. lia.
  - eexists _, _, (mkSfs (bf s) (inodes s)), i. split; [done|]. split; [by apply stepped_view|]. split; [done|]. by right.
Qed.

Lemma direct_block_ok (s : sfs) p i n alloc : inodes s !! p = Some i -> bufs_ok (bf s) -> file_ok (bf s) i -> locked (bf s) = ∅ -> 0 <= n < 12 ->
  exists e b (s' : sfs) i', direct_block sb p n alloc s = Ret (e, b, None) s' /\ stepped alloc s p i s' i' /\ locked (bf s') = ∅ /\
    ((e = ERR_OK /\ b = addr (bf s') i' n /\ b <> 0) \/ (e = no_block alloc /\ addr (bf s) i n = 0 /\ (alloc = true -> full (bf s')))).
Proof.
  intros Hp Hok F Hl Hn. unfold direct_block. rewrite (bind_geti _ _ _ _ Hp), (addr_top (bf s) i n) by (apply F || lia). unfold of_option. rewrite bind_ret.
  destruct (Z.eqb_spec (addr (bf s) i n) 0) as [E|E]; cbn [negb].
  - destruct alloc; cbn [negb].
    + destruct (alloc_addr_ok s p i n Hp Hok F Hl ltac:(lia) E) as (e & b & s' & i' & E2 & H1 & H2 & H3). rewrite (bind_Ret _ _ _ _ _ E2).
      exists e, b, s', i'. split; [done|]. split_and!; [done..|]. destruct H3 as [|[? ?]]; [by left|by right].
    + eexists _, _, (mkSfs (bf s) (inodes s)), i. split; [by destruct s|]. split; [by apply stepped_view|]. split; [done|]. by right.
  - eexists _, _, (mkSfs (bf s) (inodes s)), i. split; [by destruct s|]. split; [by apply stepped_view|]. split; [done|]. by left.
Qed.

Lemma indirect_addr_ok (s : sfs) p i j alloc : inodes s !! p = Some i -> bufs_ok (bf s) -> file_ok (bf s) i -> locked (bf s) = ∅ -> 12 <= j < 14 ->
  exists e (s' : sfs) i', indirect_addr sb p j alloc s = Ret e s' /\ stepped alloc s p i s' i' /\ locked (bf s') = ∅ /\
    ((e = ERR_OK /\ addr (bf s') i' j <> 0) \/ (e = no_block alloc /\ addr (bf s) i j = 0 /\ (alloc = true -> full (bf s')))).
Proof.
  intros Hp Hok F Hl Hj. unfold indirect_addr. rewrite (bind_geti _ _ _ _ Hp), (addr_top (bf s) i j) by (apply F || lia). unfold of_option. rewrite bind_ret.
  destruct (Z.eqb_spec (addr (bf s) i j) 0) as [E|E]; cbn [negb].
  - destruct alloc; cbn [negb].
    + destruct (alloc_addr_ok s p i j Hp Hok F Hl ltac:(lia) E) as (e & b & s' & i' & E2 & H1 & H2 & H3). rewrite (bind_Ret _ _ _ _ _ E2).
      exists e, s', i'. split; [done|]. split_and!; [done..|]. destruct H3 as [(-> & -> & ?)|[-> ?]]; [by left|by right].
    + eexists _, (mkSfs (bf s) (inodes s)), i. split; [by destruct s|]. split; [by apply stepped_view|]. split; [done|]. by right.
  - eexists _, (mkSfs (bf s) (inodes s)), i. split; [by destruct s|]. split; [by apply stepped_view|]. split; [done|]. by left.
Qed.

Lemma rdata_onb {B} (s : sfs) b (f : block -> M sfs B) : b ∈ locked (bf s) -> bind (onb (rdata b)) f s = f (blk (bf s) b) s.
Proof.
  intros H. rewrite (bind_onb _ _ _ (blk (bf s) b) (bf s)); [by destruct s|]. unfold rdata. by rewrite bind_gets, bool_decide_eq_true_2.
Qed.

Lemma bufs_ok_locked s x : bufs_ok s -> bufs_ok (set_locked x s).
Proof. done. Qed.

Lemma indirect_entry_ok (s : sfs) p i k alloc : inodes s !! p = Some i -> bufs_ok (bf s) -> file_ok (bf s) i -> locked (bf s) = ∅ -> 14 <= k < 270 ->
  let j := 12 + (k - 14) `div` 128 in addr (bf s) i j <> 0 ->
  exists e b h (s' : sfs) i', indirect_entry sb p j ((k - 14) `mod` 128) alloc s = Ret (e, b, h) s' /\ stepped alloc s p i s' i' /\
    ((e = ERR_OK /\ b = addr (bf s') i' k /\ b <> 0 /\ locked (bf s') = ∅) \/
     (e = no_block alloc /\ addr (bf s) i k = 0 /\ locked (bf s') = match h with Some a => {[a]} | None => ∅ end /\ (alloc = true -> full (bf s')))).
Proof.
  intros Hp Hok F Hl Hk j Hj0. destruct (ind_range k Hk) as [Hj Hm]. fold j in Hj. set (a := addr (bf s) i j) in *.
  destruct (f_data _ _ F j ltac:(lia) Hj0) as [Hda Hua]. fold a in Hda, Hua. pose proof (data_pos a Hda) as Hpa.
  unfold indirect_entry. rewrite (bind_geti _ _ _ _ Hp), (addr_top (bf s) i j) by (apply F || lia). unfold of_option at 1. rewrite bind_ret, bind_kassert by (apply Z.ltb_lt; fold a; lia).
  fold a. assert (Hal : a ∉ locked (bf s)) by (rewrite Hl; apply not_elem_of_empty). rewrite (bind_onb _ _ _ _ _ (get_ok _ a Hok Hal)). cbn [negb].
  set (t1 := set_locked _ (bf s)). assert (Hl1 : a ∈ locked t1) by (simpl; set_solver).
  assert (HL1 : locked t1 = {[a]}) by (simpl; rewrite Hl; apply union_empty_r_L). rewrite rdata_onb by done.
  change (of_le32 _) with (word (blk (bf s) a) ((k - 14) `mod` 128)).
  assert (Ek : addr (bf s) i k = word (blk (bf s) a) ((k - 14) `mod` 128)) by (rewrite addr_ind by done; fold j a; cbv zeta; by rewrite (proj2 (Z.eqb_neq a 0))).
  rewrite <- Ek. assert (F1 : file_ok t1 i) by (by apply (file_ok_blocks (bf s))).
  assert (K1 : kept alloc (bf s) i t1 i) by (by apply kept_view). assert (Hid : inodes s = <[p := i]> (inodes s)) by (by rewrite insert_id).
  destruct (Z.eqb_spec (addr (bf s) i k) 0) as [E0|E0]; cbn [negb].
  - destruct alloc; cbn [negb]; [|by eexists _, _, _, _, i; split; [done|]; split; [done|right]].
    destruct (alloc_data_block_ok sb Hsb t1 Hok) as (e & b & t & E & Hcase); [rewrite HL1; by intros b ->%elem_of_singleton|].
    rewrite (bind_onb _ _ (mkSfs t1 (inodes s)) _ _ E). destruct Hcase as [[-> Ha]|(-> & -> & Hfull)]; cbn [fst snd]; [|by eexists _, _, _, _, i; split; [done|]; split; [done|right]].
    destruct (allocated_ok t1 _ _ Hok Ha) as (Hok2 & Hl2 & Hp2). cbn [negb Z.eqb ERR_OK]. assert (Hlt : a ∈ locked t) by (by rewrite Hl2).
    rewrite rdata_onb by done. simpl bf. erewrite bind_onb by (apply wdata_ok; exact Hlt). erewrite bind_onb by (apply blk_release_ok; exact Hlt). simpl inodes.
    simpl bf. set (t3 := setb a _ t). assert (Hf : filled t1 i k b t3 i) by (by apply fill_indirect).
    eexists _, _, _, _, i. split; [done|]. destruct Ha as (Hb & _). pose proof (data_pos b Hb). split; [split; [done|]|left].
    + assert (Hok3 : bufs_ok t3). { apply setb_ok; [done|]. apply bytes_ok_splice; [apply Hok2|apply le32_bytes|simpl; lia]. }
      apply (file_kept_trans true _ _ _ _ _ _ K1), (file_kept_trans true t1 i t3 i _ i); [|by apply kept_view; [..|apply Hf]].
      apply (filled_kept _ _ k b); [done|intros c; unfold pin; simpl; by rewrite Hp2|done].
    + split; [done|]. split; [|split; [lia|simpl; rewrite Hl2, HL1; set_solver]]. pose proof (fl_addr _ _ _ _ _ _ Hf k ltac:(lia)) as E2. rewrite Z.eqb_refl in E2. by rewrite <- E2.
  - erewrite bind_onb by (apply blk_release_ok; exact Hl1). simpl inodes. eexists _, _, _, _, i. split; [done|].
    split; [split; [done|by apply kept_view]|left]. split; [done|]. split; [done|]. split; [done|]. simpl. rewrite Hl. set_solver.
Qed.

Lemma pin_set s b n c : pin (set_pin b n s) c = if c =? b then n else pin s c.
Proof. unfold pin. simpl. destruct (Z.eqb_spec c b) as [->|]; [by rewrite lookup_insert_eq|by rewrite lookup_insert_ne]. Qed.

Lemma get_unlocked_ok s b : bufs_ok s -> blk_get_unlocked b s = Ret true (set_pin b (pin s b + 1) s).
Proof.
  intros (_ & _ & Hn). unfold blk_get_unlocked. destruct (grant_ok s b) as (ok & l & E & _ & H). destruct (H Hn) as [-> ->].
  rewrite (bind_Ret _ _ _ _ _ E). cbn [negb]. unfold modify, bind, ret. f_equal. destruct s. simpl in *. by subst.
Qed.

Lemma unpin_ok s b : 0 < pin s b -> blk_release_unlocked b s = Ret tt (set_pin b (pin s b - 1) s).
Proof. intros H. unfold blk_release_unlocked. by rewrite bind_gets, bind_kassert by (by apply Z.ltb_lt). Qed.

Lemma bufs_ok_pin s b n : bufs_ok s -> 0 <= n -> bufs_ok (set_pin b n s).
Proof. intros (? & Hp & ?) Hn. split_and!; [done| |done]. intros c. rewrite pin_set. by destruct (c =? b). Qed.

(** The reference to the inode block is taken before and given back after. *)
Lemma kept_pinned alloc s i b t' i' t'' : kept alloc (set_pin b (pin s b + 1) s) i t' i' -> bufs_ok t'' ->
  blocks t'' = blocks t' -> (forall c, pin t'' c = if c =? b then pin t' b - 1 else pin t' c) -> kept alloc s i t'' i'.
Proof.
  intros [K1 K2 K3 K4 K5 K6 K7] Hok Hb Hp. split; try done.
  - by apply (file_ok_blocks t').
  - apply (grow_blocks _ _ t'); [done|]. by apply (grow_blocks_l (set_pin b (pin s b + 1) s)).
  - intros o Ho. rewrite (fbyte_blocks t') by done. by rewrite K5.
  - intros c. rewrite Hp. destruct (Z.eqb_spec c b) as [->|Hne]; rewrite K6, pin_set; [rewrite Z.eqb_refl; lia|]. by rewrite (proj2 (Z.eqb_neq c b)).
  - intros E. destruct (K7 E) as [? E2]. split; [done|]. by rewrite Hb, E2.
Qed.

(** The block of the [n]th part of a file, direct or indirect. *)
Lemma find_block_ok (s : sfs) p i n alloc : inodes s !! p = Some i -> bufs_ok (bf s) -> file_ok (bf s) i -> locked (bf s) = ∅ -> 0 <= n < 268 ->
  exists e b h (s' : sfs) i', (if n <? SFS_NDIRECT then direct_block sb p n alloc else indirect_block sb p n alloc) s = Ret (e, b, h) s' /\ stepped alloc s p i s' i' /\
    ((e = ERR_OK /\ b = fblk (bf s') i' n /\ b <> 0 /\ locked (bf s') = ∅) \/
     (e = no_block alloc /\ fblk (bf s) i n = 0 /\ locked (bf s') = match h with Some a => {[a]} | None => ∅ end /\ (alloc = true -> full (bf s')))).
Proof.
  intros Hp Hok F Hl Hn. unfold fblk, slot. change SFS_NDIRECT with 12. destruct (Z.ltb_spec n 12) as [Hd|Hd].
  - destruct (direct_block_ok s p i n alloc Hp Hok F Hl ltac:(lia)) as (e & b & s' & i' & E & Hs & Hl' & Hcase). exists e, b, None, s', i'. split; [done|]. split; [done|].
    destruct Hcase as [(? & ? & ?)|(? & ? & ?)]; [by left|by right].
  - set (k := n + 2). assert (Hk : 14 <= k < 270) by lia. destruct (ind_range k Hk) as [Hj _]. unfold indirect_block. change (BDEV_BLK_SIZE `div` 4) with 128. change SFS_NDIRECT with 12.
    replace (n - 12) with (k - 14) by lia. cbv zeta. set (j := 12 + (k - 14) `div` 128) in *. rewrite bind_kassert by (apply Z.ltb_lt; unfold SFS_NINDIRECT; lia).
    destruct (indirect_addr_ok s p i j alloc Hp Hok F Hl Hj) as (e1 & s1 & i1 & E1 & S1 & Hl1 & Hcase). rewrite (bind_Ret _ _ _ _ _ E1).
    assert (Hback : addr (bf s1) i1 k = 0 -> addr (bf s) i k = 0).
    { intros E. destruct (Z.eq_dec (addr (bf s) i k) 0) as [|H0]; [done|]. by rewrite (g_addr _ _ _ _ (k_grow _ _ _ _ _ (proj2 S1)) k ltac:(lia) H0) in E. }
    destruct Hcase as [[-> Hj0]|(-> & Hj0 & Hfull)].
    + cbn [negb Z.eqb ERR_OK].
      destruct (indirect_entry_ok s1 p i1 k alloc (stepped_lookup _ _ _ _ _ _ S1) (k_bufs _ _ _ _ _ (proj2 S1)) (k_file _ _ _ _ _ (proj2 S1)) Hl1 Hk Hj0) as (e & b & h & s' & i' & E & S2 & Hcase).
      exists e, b, h, s', i'. split; [done|]. split; [by apply (stepped_trans _ _ _ _ _ _ _ _ S1)|]. destruct Hcase as [?|(? & ? & ? & ?)]; [by left|right]. auto.
    + rewrite no_block_err.
      eexists _, _, None, s1, i1. split; [done|]. split; [done|]. right. split; [done|]. split; [|done]. rewrite addr_ind by done. fold j. cbv zeta. by rewrite Hj0.
Qed.

Lemma get_data_block_ok (s : sfs) p i ofs alloc : inodes s !! p = Some i -> bufs_ok (bf s) -> file_ok (bf s) i -> locked (bf s) = ∅ -> 0 <= ofs < SFS_MAX_FILE_SIZE ->
  exists e b (s' : sfs) i', get_data_block sb p ofs alloc s = Ret (e, b) s' /\ stepped alloc s p i s' i' /\
    ((e = ERR_OK /\ b = fblk (bf s') i' (ofs `div` 512) /\ b <> 0 /\ locked (bf s') = {[b]}) \/
     (e = no_block alloc /\ fblk (bf s) i (ofs `div` 512) = 0 /\ locked (bf s') = ∅ /\ (alloc = true -> full (bf s')))).
Proof.
  intros Hp Hok F Hl Ho. unfold get_data_block. rewrite bind_kassert by (apply Z.ltb_lt; lia). rewrite (bind_geti _ _ _ _ Hp).
  set (ib := inum_to_blk (i_inum i)). rewrite (bind_onb _ _ _ _ _ (get_unlocked_ok _ ib Hok)). cbn [negb]. change BDEV_BLK_SIZE with 512.
  set (s1 := mkSfs (set_pin ib (pin (bf s) ib + 1) (bf s)) (inodes s)). pose proof (proj1 (proj2 Hok) ib) as Hpin.
  destruct (find_block_ok s1 p i (ofs `div` 512) alloc) as (e & b & h & s2 & i2 & E & [S1 S2] & Hcase);
    [done|by apply bufs_ok_pin; [|lia]|by apply (file_ok_blocks (bf s))|done|by apply ofs_block|].
  rewrite (bind_Ret _ _ _ _ _ E). assert (Hp2 : 0 < pin (bf s2) ib) by (rewrite (k_pin _ _ _ _ _ S2); simpl bf; rewrite pin_set, Z.eqb_refl; lia).
  assert (Hfin : forall x, kept alloc (bf s) i (set_pin ib (pin (bf s2) ib - 1) (set_locked x (bf s2))) i2).
  { intros x. apply (kept_pinned alloc (bf s) i ib (bf s2)); [done|apply bufs_ok_pin; [apply S2|lia]|done|]. intros c. by rewrite pin_set. }
  destruct Hcase as [(-> & -> & Hb & Hl2)|(-> & H0 & Hl2 & Hfull)].
  - cbn [negb Z.eqb ERR_OK]. set (b := fblk _ _ _) in *. pose proof (ofs_block ofs Ho) as Hn. destruct (slot_range _ Hn) as (Hs & _).
    destruct (f_data _ _ (k_file _ _ _ _ _ S2) _ Hs Hb) as [Hdb _]. pose proof (data_pos _ Hdb) as Hpb. fold (fblk (bf s2) i2 (ofs `div` 512)) in Hpb. fold b in Hpb.
    rewrite bind_kassert by (apply Z.ltb_lt; lia). assert (Hbl : b ∉ locked (bf s2)) by (rewrite Hl2; apply not_elem_of_empty).
    rewrite (bind_onb _ _ _ _ _ (get_ok _ b (k_bufs _ _ _ _ _ S2) Hbl)). cbn [negb]. erewrite bind_onb by (apply unpin_ok; exact Hp2).
    eexists _, _, _, i2. split; [done|]. split; [by split; [|apply Hfin]|]. left. split; [done|]. split; [done|]. split; [done|]. simpl. rewrite Hl2. apply union_empty_r_L.
  - rewrite no_block_err.
    assert (Hrel : match h with Some b0 => onb (blk_release b0) | None => ret tt end s2 = Ret tt (mkSfs (set_locked ∅ (bf s2)) (inodes s2))).
    { destruct h as [a|]; [|rewrite <- Hl2, set_locked_id; by destruct s2]. unfold onb, zoom. rewrite blk_release_ok by (rewrite Hl2; set_solver). simpl. unfold set_bf. rewrite Hl2, difference_diag_L. done. }
    rewrite (bind_Ret _ _ _ _ _ Hrel). erewrite bind_onb by (apply unpin_ok; exact Hp2). eexists _, _, _, i2. split; [done|]. split; [by split; [|apply Hfin]|]. right. done.
Qed.

(** ** Reading *)

(** Every block of the file is there. *)
Definition dense s i : Prop := forall n, 0 <= n -> n * 512 < i_size i -> fblk s i n <> 0.

Lemma split_ofs o k : 0 <= o -> 0 <= k -> o `mod` 512 + k < 512 -> (o + k) `div` 512 = o `div` 512 /\ (o + k) `mod` 512 = o `mod` 512 + k.
Proof.
  intros Ho Hk Hm. pose proof (Z.div_mod o 512 ltac:(lia)). pose proof (Z.mod_pos_bound o 512 ltac:(lia)).
  replace (o + k) with ((o `mod` 512 + k) + o `div` 512 * 512) by lia. rewrite Z.div_add, Z_mod_plus_full, Z.div_small, Z.mod_small by lia. lia.
Qed.

Lemma block_bytes s i o m : bytes_ok (blk s (fblk s i (o `div` 512))) -> fblk s i (o `div` 512) <> 0 -> 0 <= o -> 0 <= m -> o `mod` 512 + m <= 512 ->
  take (Z.to_nat m) (drop (Z.to_nat (o `mod` 512)) (blk s (fblk s i (o `div` 512)))) = fbyte s i <$> seqZ o m.
Proof.
  intros [Hl _] H0 Ho Hm Hle. pose proof (Z.mod_pos_bound o 512 ltac:(lia)). apply list_eq. intros x. rewrite list_lookup_fmap. destruct (decide (Z.of_nat x < m)) as [Hx|Hx].
  - rewrite lookup_take_lt, lookup_drop by lia. rewrite lookup_seqZ_lt by lia. simpl. destruct (split_ofs o (Z.of_nat x) Ho ltac:(lia) ltac:(lia)) as [E1 E2].
    unfold fbyte. rewrite E1, E2, (proj2 (Z.eqb_neq _ 0) H0). replace (Z.to_nat (o `mod` 512 + Z.of_nat x)) with (Z.to_nat (o `mod` 512) + x)%nat by lia.
    by destruct (lookup_lt_is_Some_2 (blk s (fblk s i (o `div` 512))) (Z.to_nat (o `mod` 512) + x)) as [y ->]; [lia|].
  - rewrite lookup_take_ge by lia. by rewrite lookup_seqZ_ge by lia.
Qed.

Lemma sfs_read_loop_ok p i count fuel : forall (s : sfs) ofs dst, inodes s !! p = Some i -> bufs_ok (bf s) -> file_ok (bf s) i -> locked (bf s) = ∅ ->
  dense (bf s) i -> i_size i <= SFS_MAX_FILE_SIZE -> 0 <= ofs < 2 ^ 63 -> (Z.to_nat (count - Z.of_nat (length dst)) < fuel)%nat ->
  exists s' : sfs, sfs_read_loop sb fuel p count ofs dst s = Ret (dst ++ (fbyte (bf s) i <$> seqZ ofs (Z.min (count - Z.of_nat (length dst)) (i_size i - ofs)))) s' /\
    stepped false s p i s' i /\ locked (bf s') = ∅.
Proof.
  induction fuel as [|fuel IH]; intros s ofs dst Hp Hok F Hl Hdense Hmax Ho Hfuel; [lia|]. cbn [sfs_read_loop]. rewrite (bind_geti _ _ _ _ Hp).
  set (total := Z.of_nat (length dst)) in *. assert (Hid : stepped false s p i s i) by (destruct s; by apply stepped_view).
  destruct (Z.ltb_spec total count) as [Ht|Ht]; [|exists s; rewrite seqZ_nil, app_nil_r by lia; done].
  destruct (Z.ltb_spec ofs (i_size i)) as [Hs|Hs]; [|exists s; rewrite seqZ_nil, app_nil_r by lia; done]. cbn [andb negb].
  destruct (get_data_block_ok s p i ofs false Hp Hok F Hl ltac:(lia)) as (e & b & s1 & i1 & E & S1 & Hcase). rewrite (bind_Ret _ _ _ _ _ E).
  destruct (k_same _ _ _ _ _ (proj2 S1) eq_refl) as [-> Hb]. pose proof (Z.mod_pos_bound ofs 512 ltac:(lia)) as Hmod. pose proof (Z.div_mod ofs 512 ltac:(lia)) as Hdm.
  destruct Hcase as [(-> & -> & Hb0 & Hl1)|(-> & H0 & _)]; [|exfalso; apply (Hdense (ofs `div` 512)); [apply Z.div_pos; lia|lia|done]].
  cbn [negb Z.eqb ERR_OK fst snd]. set (b := fblk _ _ _) in *. rewrite rdata_onb by (rewrite Hl1; set_solver). erewrite bind_onb by (apply blk_release_ok; rewrite Hl1; set_solver).
  change BDEV_BLK_SIZE with 512. set (m := Z.min _ (i_size i - ofs)). rewrite wrap_small by (rewrite max_size in Hmax; lia).
  set (t := set_locked _ (bf s1)). set (s2 := mkSfs t (inodes s1)). destruct S1 as [S1 K1].
  assert (S2 : stepped false s p i s2 i). { split; [done|]. apply (file_kept_trans _ _ _ _ _ _ _ K1). apply kept_view; [done|done|apply K1|apply K1]. }
  assert (Hm : 0 < m /\ ofs `mod` 512 + m <= 512) by lia.
  assert (Hbytes : take (Z.to_nat m) (drop (Z.to_nat (ofs `mod` 512)) (blk (bf s1) b)) = fbyte (bf s) i <$> seqZ ofs m).
  { subst b. rewrite block_bytes; [|apply K1|done|lia..]. apply list_fmap_ext. intros k o Hk. by apply fbyte_blocks. }
  rewrite Hbytes. destruct (IH s2 (ofs + m) (dst ++ (fbyte (bf s) i <$> seqZ ofs m))) as (s' & E' & S' & Hl');
    [by apply (stepped_lookup _ _ _ _ _ _ S2)|apply S2|apply S2|simpl; rewrite Hl1; apply difference_diag_L| |done|rewrite max_size in Hmax; lia| |].
  - intros n Hn1 Hn2. specialize (Hdense n Hn1 Hn2). clear -Hdense Hb. unfold fblk in *. destruct (bf s), (bf s1) eqn:E. simpl in *. by subst.
  - rewrite length_app, length_fmap, length_seqZ. lia.
  - exists s'. rewrite E'. split; [|split; [by apply (stepped_trans _ _ _ _ _ _ _ _ S2)|done]]. f_equal. rewrite <- app_assoc. f_equal.
    rewrite length_app, length_fmap, length_seqZ. replace (Z.min (count - total) (i_size i - ofs)) with (m + Z.min (count - total - m) (i_size i - (ofs + m))) by lia.
    rewrite seqZ_app, fmap_app by lia. f_equal. replace (count - Z.of_nat (length dst + Z.to_nat m)) with (count - total - m) by lia. apply list_fmap_ext. intros k o Hk. apply fbyte_blocks. exact Hb.
Qed.

(** ** Writing *)

(** A store to a block of the contents. *)
Lemma write_block_ok s i n d : file_ok s i -> 0 <= n < 268 -> fblk s i n <> 0 -> let s' := setb (fblk s i n) d s in
  file_ok s' i /\ grow s i s' i /\ (forall k, 0 <= k < 270 -> addr s' i k = addr s i k) /\
  (forall o, 0 <= o < SFS_MAX_FILE_SIZE -> fbyte s' i o = if o `div` 512 =? n then default 0 (d !! Z.to_nat (o `mod` 512)) else fbyte s i o).
Proof.
  intros F Hn Hb s'. set (b := fblk s i n) in *. destruct (slot_range n Hn) as (Hs & H12 & H13). destruct (f_data _ _ F _ Hs Hb) as [Hd Hu]. change (addr s i (slot n)) with b in Hd, Hu.
  pose proof (data_pos b Hd) as Hpos. assert (Hinj : forall k, 0 <= k < 270 -> addr s i k = b -> k = slot n) by (intros k Hk E; apply (f_inj _ _ F); [done|done|done|congruence]).
  assert (Haddr : forall k, 0 <= k < 270 -> addr s' i k = addr s i k).
  { intros k Hk. apply addr_ext; [|done]. intros j Hj _. unfold s'. rewrite blk_set. destruct (Z.eqb_spec (addr s i j) b) as [E|]; [|done]. pose proof (Hinj j ltac:(lia) E). lia. }
  assert (Hused : forall c, is_data sb c -> used sb s' c = used sb s c).
  { intros c Hc. pose proof (bmap_range sb Hsb c Hc). unfold used, s'. by rewrite blk_set, (proj2 (Z.eqb_neq _ b)) by lia. }
  assert (Hent : forall m, inum_ok sb m -> entry s' m = entry s m).
  { intros m Hm. destruct (inum_blk sb Hsb m Hm) as (_ & _ & ?). unfold entry, s'. by rewrite blk_set, (proj2 (Z.eqb_neq _ b)) by lia. }
  destruct F as [F1 F2 F3 F4 F5]. split_and!; [split|split| |]; try done.
  - intros k Hk. rewrite Haddr by done. intros H0. destruct (F3 k Hk H0). by rewrite Hused.
  - intros k k' Hk Hk'. rewrite !Haddr by done. by apply F4.
  - by rewrite Hent.
  - intros k Hk _. by apply Haddr.
  - intros k Hk H0 H1. by rewrite Haddr in H1.
  - intros c Hc. by rewrite Hused.
  - intros c Hc _ Hc'. unfold s'. rewrite blk_set. destruct (Z.eqb_spec c b) as [->|]; [by destruct (Hc' _ Hs)|done].
  - intros m Hm _. by apply Hent.
  - intros o Ho. pose proof (ofs_block o Ho) as Ho'. destruct (slot_range _ Ho') as (Hs' & _). unfold fbyte, fblk. rewrite Haddr by done. unfold s'. rewrite blk_set.
    destruct (Z.eqb_spec (o `div` 512) n) as [->|Hne]; [fold (fblk s i n); fold b; by rewrite Z.eqb_refl, (proj2 (Z.eqb_neq b 0))|].
    destruct (Z.eqb_spec (addr s i (slot (o `div` 512))) b) as [E|]; [|done]. pose proof (Hinj _ Hs' E) as Es. exfalso. apply Hne. clear -Es Ho' Hn. unfold slot in Es. destruct (Z.ltb_spec (o `div` 512) 12), (Z.ltb_spec n 12); lia.
Qed.

(** The contents of the file between the two states are those of [f]. *)
Record wrote (s : sfs) p i (s' : sfs) i' (f : Z -> Z) : Prop := {
  w_inodes : inodes s' = <[p := i']> (inodes s);
  w_bufs : bufs_ok (bf s');
  w_file : file_ok (bf s') i';
  w_grow : grow (bf s) i (bf s') i';
  w_bytes : forall o, 0 <= o < SFS_MAX_FILE_SIZE -> fbyte (bf s') i' o = f o;
  w_pin : forall b, pin (bf s') b = pin (bf s) b;
}.

Lemma stepped_wrote alloc (s s' : sfs) p i i' : stepped alloc s p i s' i' -> wrote s p i s' i' (fbyte (bf s) i).
Proof. by intros [? []]. Qed.

Lemma wrote_trans (s s1 s2 : sfs) p i i1 f i2 g : wrote s p i s1 i1 f -> wrote s1 p i1 s2 i2 g -> wrote s p i s2 i2 g.
Proof.
  intros [A1 A2 A3 A4 A5 A6] [B1 B2 B3 B4 B5 B6]. split; try done.
  - by rewrite B1, A1, insert_insert_eq.
  - by apply (grow_trans _ _ (bf s1) i1).
  - intros b. by rewrite B6.
Qed.

Lemma wrote_ext (s s' : sfs) p i i' f g : (forall o, 0 <= o < SFS_MAX_FILE_SIZE -> f o = g o) -> wrote s p i s' i' f -> wrote s p i s' i' g.
Proof. intros E []. split; try done. intros o Ho. by rewrite <- E; auto. Qed.

(** [ofs ≤ o < ofs + total] is the part of the buffer that was written. *)
Definition overlay (f : Z -> Z) (ofs total : Z) (buf : list Z) (o : Z) : Z :=
  if (ofs <=? o) && (o <? ofs + total) then default 0 (buf !! Z.to_nat (o - ofs)) else f o.

(** One round of the loop: the block of the offset is found or allocated and a
    part of it is overwritten. *)
Lemma write_round (s : sfs) p i ofs l : inodes s !! p = Some i -> bufs_ok (bf s) -> file_ok (bf s) i -> locked (bf s) = ∅ -> Forall byte_range l ->
  0 <= ofs < SFS_MAX_FILE_SIZE -> ofs `mod` 512 + Z.of_nat (length l) <= 512 ->
  exists e b (s1 : sfs) i1, get_data_block sb p ofs true s = Ret (e, b) s1 /\
    ((e = ERR_NORES /\ stepped true s p i s1 i1 /\ locked (bf s1) = ∅ /\ full (bf s1)) \/
     (e = ERR_OK /\ b ∈ locked (bf s1) /\ i_size i1 = i_size i /\
      let t := setb b (splice (Z.to_nat (ofs `mod` 512)) l (blk (bf s1) b)) (bf s1) in let s2 := mkSfs (set_locked (locked t ∖ {[b]}) t) (inodes s1) in
      locked (bf s2) = ∅ /\ fblk (bf s2) i1 (ofs `div` 512) <> 0 /\ wrote s p i s2 i1 (overlay (fbyte (bf s) i) ofs (Z.of_nat (length l)) l))).
Proof.
  intros Hp Hok F Hl Hbl Ho Hfit. destruct (get_data_block_ok s p i ofs true Hp Hok F Hl Ho) as (e & b & s1 & i1 & E & S1 & Hcase). exists e, b, s1, i1. split; [done|].
  destruct Hcase as [(-> & -> & Hb0 & Hl1)|(-> & H0 & Hl1 & Hfull)]; [right|left; auto]. split; [done|]. split; [rewrite Hl1; set_solver|]. split; [exact (k_size _ _ _ _ _ (proj2 S1))|].
  pose proof (ofs_block ofs Ho) as Hn. pose proof S1 as [S1a K1]. cbv zeta. set (d := splice (Z.to_nat (ofs `mod` 512)) l _).
  destruct (write_block_ok (bf s1) i1 (ofs `div` 512) d (k_file _ _ _ _ _ K1) Hn Hb0) as (F2 & G2 & A2 & B2). cbv zeta in F2, G2, A2, B2. set (b := fblk _ _ _) in *. set (t := setb b d (bf s1)) in *.
  pose proof (Z.mod_pos_bound ofs 512 ltac:(lia)) as Hmod. pose proof (Z.div_mod ofs 512 ltac:(lia)) as Hdm. destruct (proj1 (k_bufs _ _ _ _ _ K1) b) as [Hlen Hfb].
  assert (Hd : bytes_ok d) by (apply bytes_ok_splice; [done|done|lia]).
  split; [simpl; rewrite Hl1; apply difference_diag_L|]. split; [destruct (slot_range _ Hn) as (Hs & _); pose proof (A2 _ Hs) as E2; intros E3; apply Hb0; rewrite <- E3; symmetry; exact E2|]. split.
  - done.
  - by apply setb_ok; [apply K1|].
  - by apply (file_ok_blocks t).
  - simpl. apply (grow_blocks (bf s) i t); [done|]. apply (grow_trans _ _ (bf s1) i1); [apply K1|done|apply K1|done].
  - intros o Ho2. simpl bf. rewrite (fbyte_blocks t), B2 by done. unfold overlay. pose proof (Z.div_mod o 512 ltac:(lia)) as Hdo. pose proof (Z.mod_pos_bound o 512 ltac:(lia)) as Hmo.
    destruct (Z.eqb_spec (o `div` 512) (ofs `div` 512)) as [Eq|Hne].
    + destruct (Z.leb_spec ofs o), (Z.ltb_spec o (ofs + Z.of_nat (length l))); cbn [andb].
      1: { unfold d. replace (Z.to_nat (o `mod` 512)) with (Z.to_nat (ofs `mod` 512) + Z.to_nat (o - ofs))%nat by lia. by rewrite splice_lookup by lia. }
      all: unfold d; rewrite splice_lookup_ne by lia; rewrite <- (k_bytes _ _ _ _ _ K1 o Ho2); unfold fbyte; rewrite Eq; fold b; by rewrite (proj2 (Z.eqb_neq b 0)).
    + rewrite (k_bytes _ _ _ _ _ K1 o Ho2). destruct (Z.leb_spec ofs o), (Z.ltb_spec o (ofs + Z.of_nat (length l))); cbn [andb]; try done. exfalso. apply Hne. lia.
  - intros c. exact (k_pin _ _ _ _ _ K1 c).
Qed.

Lemma overlay_app f ofs total buf m o : 0 <= ofs -> 0 <= m -> 0 <= total -> total + m <= Z.of_nat (length buf) ->
  overlay (overlay f ofs total buf) (ofs + total) m (take (Z.to_nat m) (drop (Z.to_nat total) buf)) o = overlay f ofs (total + m) buf o.
Proof.
  intros Ho Hm Ht Hlen. unfold overlay. destruct (Z.leb_spec (ofs + total) o), (Z.ltb_spec o (ofs + total + m)), (Z.leb_spec ofs o), (Z.ltb_spec o (ofs + total)), (Z.ltb_spec o (ofs + (total + m))); cbn [andb]; try lia; try done.
  rewrite lookup_take_lt, lookup_drop by lia. do 2 f_equal. lia.
Qed.

Lemma overlay_0 f ofs buf o : overlay f ofs 0 buf o = f o.
Proof. unfold overlay. destruct (Z.leb_spec ofs o), (Z.ltb_spec o (ofs + 0)); cbn [andb]; (done || lia). Qed.

(** The loop of [write_data]; [f] are the contents at its start. *)
Lemma sfs_write_loop_ok p buf ofs f fuel : Forall byte_range buf -> 0 <= ofs -> ofs + Z.of_nat (length buf) <= SFS_MAX_FILE_SIZE ->
  forall (s : sfs) i total, inodes s !! p = Some i -> bufs_ok (bf s) -> file_ok (bf s) i -> locked (bf s) = ∅ -> 0 <= total <= Z.of_nat (length buf) ->
  (forall o, 0 <= o < SFS_MAX_FILE_SIZE -> fbyte (bf s) i o = overlay f ofs total buf o) -> (Z.to_nat (Z.of_nat (length buf) - total) < fuel)%nat ->
  exists total' (s' : sfs) i', sfs_write_loop sb fuel p buf (ofs + total) total s = Ret (total', ofs + total') s' /\ total <= total' <= Z.of_nat (length buf) /\
    locked (bf s') = ∅ /\ i_size i' = i_size i /\ wrote s p i s' i' (overlay f ofs total' buf) /\
    (total' < Z.of_nat (length buf) -> full (bf s')) /\ (forall o, ofs + total <= o < ofs + total' -> fblk (bf s') i' (o `div` 512) <> 0).
Proof.
  intros Hbuf Ho Hmax. induction fuel as [|fuel IH]; intros s i total Hp Hok F Hl Ht Hf Hfuel; [lia|]. cbn [sfs_write_loop]. set (count := Z.of_nat (length buf)) in *.
  assert (Hid : forall g, (forall o, 0 <= o < SFS_MAX_FILE_SIZE -> fbyte (bf s) i o = g o) -> wrote s p i s i g).
  { intros g Hg. apply (wrote_ext _ _ _ _ _ (fbyte (bf s) i)); [done|]. apply (stepped_wrote true). destruct s. by apply stepped_view. }
  destruct (Z.ltb_spec total count) as [Hlt|Hge]; cbn [negb].
  2: { exists total, s, i. replace count with total by lia. split; [done|]. split; [lia|]. split; [done|]. split; [done|]. split; [by apply Hid|]. split; lia. }
  change BDEV_BLK_SIZE with 512. set (m := Z.min (512 - (ofs + total) `mod` 512) (count - total)). pose proof (Z.mod_pos_bound (ofs + total) 512 ltac:(lia)) as Hmod.
  set (l := take (Z.to_nat m) (drop (Z.to_nat total) buf)). assert (Hlen : Z.of_nat (length l) = m) by (subst l; rewrite length_take, length_drop; lia).
  destruct (write_round s p i (ofs + total) l Hp Hok F Hl) as (e & b & s1 & i1 & E & Hcase); [by apply Forall_take, Forall_drop|lia|lia|].
  rewrite (bind_Ret _ _ _ _ _ E). destruct Hcase as [(-> & S1 & Hl1 & Hfull)|(-> & Hbl & Hsz & Hl2 & Hn0 & W)].
  - exists total, s1, i1. split; [done|]. split; [lia|]. split; [done|]. split; [exact (k_size _ _ _ _ _ (proj2 S1))|]. split; [|split; [done|lia]].
    apply (wrote_ext _ _ _ _ _ (fbyte (bf s) i)); [done|]. by apply (stepped_wrote true).
  - cbn [negb Z.eqb ERR_OK fst snd]. rewrite rdata_onb by done. erewrite bind_onb by (apply wdata_ok; exact Hbl). erewrite bind_onb by (apply blk_release_ok; exact Hbl). simpl bf. simpl inodes.
    cbv zeta in Hl2, Hn0, W. set (s2 := mkSfs _ (inodes s1)) in *. pose proof Hmax as Hmax'. rewrite max_size in Hmax. rewrite wrap_small by lia. rewrite Hlen in W. rewrite <- Z.add_assoc.
    destruct (IH s2 i1 (total + m)) as (total' & s' & i' & E' & ? & ? & Hsz' & W' & ? & Hnz); [rewrite (w_inodes _ _ _ _ _ _ W); apply lookup_insert_eq|apply W|apply W|done|lia| |lia|].
    { intros o Ho2. rewrite (w_bytes _ _ _ _ _ _ W o Ho2). rewrite <- overlay_app by lia. unfold overlay at 1 2. destruct (_ && _); [done|]. by apply Hf. }
    exists total', s', i'. split; [done|]. split; [lia|]. split; [done|]. split; [congruence|]. split; [by apply (wrote_trans _ _ _ _ _ _ _ _ _ W)|]. split; [done|].
    intros o Ho2. destruct (decide (ofs + (total + m) <= o)) as [|Hin]; [apply Hnz; lia|].
    destruct (split_ofs (ofs + total) (o - (ofs + total)) ltac:(lia) ltac:(lia) ltac:(lia)) as [Eb _]. replace (ofs + total + (o - (ofs + total))) with o in Eb by lia. rewrite Eb.
    destruct (slot_range _ (ofs_block (ofs + total) ltac:(lia))) as (Hs & _). unfold fblk. by rewrite (g_addr _ _ _ _ (w_grow _ _ _ _ _ _ W') _ Hs Hn0).
Qed.

(** Writing the inode out after a change of its size, flags or links. *)
Lemma write_meta_ok s i i2 : bufs_ok s -> file_ok s i -> i_inum i2 = i_inum i -> i_addrs i2 = i_addrs i ->
  bufs_ok (put_inode i2 s) /\ file_ok (put_inode i2 s) i2 /\ (forall o, 0 <= o < SFS_MAX_FILE_SIZE -> fbyte (put_inode i2 s) i2 o = fbyte s i o) /\
  (forall k, 0 <= k < 270 -> addr (put_inode i2 s) i2 k = addr s i k) /\
  (forall b, is_data sb b -> used sb (put_inode i2 s) b = used sb s b /\ blk (put_inode i2 s) b = blk s b) /\
  (forall n, inum_ok sb n -> n <> i_inum i -> entry (put_inode i2 s) n = entry s n).
Proof.
  intros Hok F Ei Ea. pose proof F as [F1 F2 F3 F4 F5]. rewrite <- Ei in F1. rewrite <- Ea in F2. destruct (put_inode_ok sb Hsb i2 s Hok F1 F2) as (Hok' & Hent & Htab). destruct (inum_blk sb Hsb _ F1) as (_ & _ & Hr).
  assert (Hblk : forall c, s_data_bmap_start sb <= c -> blk (put_inode i2 s) c = blk s c).
  { intros c Hc. unfold put_inode. rewrite blk_set, (proj2 (Z.eqb_neq c _)); [done|]. lia. }
  assert (Hu : forall b, is_data sb b -> used sb (put_inode i2 s) b = used sb s b /\ blk (put_inode i2 s) b = blk s b).
  { intros b Hb. pose proof (bmap_range sb Hsb b Hb). pose proof (data_pos b Hb). unfold used. rewrite !Hblk by lia. done. }
  assert (Hadr0 : forall k, 0 <= k < 270 -> addr (put_inode i2 s) i k = addr s i k) by (intros k Hk; apply addr_ext; [intros j Hj H0; apply Hu, (F3 j); lia|done]).
  assert (Hi : forall t k, addr t i2 k = addr t i k) by (intros t k; unfold addr; by rewrite Ea).
  assert (Hadr : forall k, 0 <= k < 270 -> addr (put_inode i2 s) i2 k = addr s i k) by (intros k Hk; rewrite Hi; auto).
  split; [done|]. split; [|split; [|split; [done|split; [done|by rewrite <- Ei]]]].
  - split; [done|done| | |done].
    + intros k Hk. rewrite Hadr by done. intros H0. destruct (F3 k Hk H0) as [Hd ?]. split; [done|]. by rewrite (proj1 (Hu _ Hd)).
    + intros k k' Hk Hk'. rewrite !Hadr by done. by apply F4.
  - intros o Ho. destruct (slot_range _ (ofs_block o Ho)) as (Hs & _). unfold fbyte, fblk. rewrite Hadr by done. destruct (Z.eqb_spec (addr s i (slot (o `div` 512))) 0) as [|H0]; [done|].
    by rewrite (proj2 (Hu _ (proj1 (F3 _ Hs H0)))).
Qed.

Lemma write_meta_wrote (s : sfs) p i i2 : inodes s !! p = Some i -> bufs_ok (bf s) -> file_ok (bf s) i ->
  (i_inum i2 = i_inum i /\ i_ref i2 = i_ref i /\ i_nlink i2 = i_nlink i /\ i_ftype i2 = i_ftype i /\ i_mode i2 = i_mode i /\ i_lock i2 = i_lock i) -> i_addrs i2 = i_addrs i ->
  wrote s p i (mkSfs (put_inode i2 (bf s)) (<[p := i2]> (inodes s))) i2 (fbyte (bf s) i).
Proof.
  intros Hp Hok F Hmeta Ea. destruct (write_meta_ok (bf s) i i2 Hok F (proj1 Hmeta) Ea) as (Hok' & F' & B & A & U & T). split; try done. simpl. split; try done.
  - intros k Hk _. by apply A.
  - intros k Hk H0 H1. by rewrite A in H1.
  - intros b Hb. by rewrite (proj1 (U b Hb)).
  - intros b Hb _ _. by apply U.
Qed.

(** The size after a write. *)
Definition new_size (size ofs total : Z) (buf : list Z) : Z := if 0 <? Z.of_nat (length buf) then Z.max size (ofs + total) else size.

Lemma write_data_ok (s : sfs) p i buf ofs : inodes s !! p = Some i -> bufs_ok (bf s) -> file_ok (bf s) i -> locked (bf s) = ∅ -> Forall byte_range buf ->
  0 <= ofs -> ofs + Z.of_nat (length buf) <= SFS_MAX_FILE_SIZE ->
  exists total (s' : sfs) i', write_data sb p buf ofs s = Ret total s' /\ 0 <= total <= Z.of_nat (length buf) /\ locked (bf s') = ∅ /\
    wrote s p i s' i' (overlay (fbyte (bf s) i) ofs total buf) /\ i_size i' = new_size (i_size i) ofs total buf /\ (total < Z.of_nat (length buf) -> full (bf s')) /\
    (forall o, ofs <= o < ofs + total -> fblk (bf s') i' (o `div` 512) <> 0).
Proof.
  intros Hp Hok F Hl Hbuf Ho Hmax. unfold write_data.
  destruct (sfs_write_loop_ok p buf ofs (fbyte (bf s) i) (S (length buf)) Hbuf Ho Hmax s i 0 Hp Hok F Hl ltac:(lia)) as (total & s1 & i1 & E & Ht & Hl1 & Hsz & W & Hfull & Hnz);
    [intros o _; by rewrite overlay_0|lia|]. rewrite Z.add_0_r in E. rewrite Z.add_0_r in Hnz. rewrite (bind_Ret _ _ _ _ _ E). cbv beta iota.
  assert (Hp1 : inodes s1 !! p = Some i1) by (rewrite (w_inodes _ _ _ _ _ _ W); apply lookup_insert_eq). rewrite (bind_geti _ _ _ _ Hp1). unfold new_size. rewrite Hsz.
  destruct (Z.ltb_spec 0 (Z.of_nat (length buf))) as [Hc|Hc]; cbn [andb]; [destruct (Z.ltb_spec (i_size i) (ofs + total)) as [Hs|Hs]|].
  - set (i2 := fs_set_inode_dirty true (set_size (ofs + total) i1)). set (i3 := fs_set_inode_dirty false i2).
    rewrite bind_assoc. erewrite bind_updi by exact Hp1. fold i2. rewrite bind_assoc. pose proof (f_inum _ _ (w_file _ _ _ _ _ _ W)) as Hi.
    erewrite bind_Ret by (apply (write_inode_ok sb Hsb _ p i2); [apply lookup_insert_eq|apply W|exact Hi|simpl; rewrite Hl1; apply not_elem_of_empty]). fold i3. simpl bf. simpl inodes. rewrite insert_insert_eq.
    assert (W2 : wrote s1 p i1 (mkSfs (put_inode i3 (bf s1)) (<[p := i3]> (inodes s1))) i3 (fbyte (bf s1) i1)) by (apply write_meta_wrote; [done|apply W|apply W|done|done]).
    eexists total, _, i3. split; [done|]. split; [lia|]. split; [done|]. split; [|split; [simpl; lia|split]].
    + eapply wrote_ext; [|apply (wrote_trans _ _ _ _ _ _ _ _ _ W W2)]. apply W.
    + intros Hlt b Hb. specialize (Hfull Hlt b Hb). apply (g_used _ _ _ _ (w_grow _ _ _ _ _ _ W2)); [|done]. unfold is_data. pose proof (Z.mul_div_le (s_size sb) 8 ltac:(lia)). lia.
    + intros o Ho2. destruct (slot_range _ (ofs_block o ltac:(lia))) as (Hs2 & _). pose proof (g_addr _ _ _ _ (w_grow _ _ _ _ _ _ W2) _ Hs2 (Hnz o Ho2)) as E2. unfold fblk. intros E3. apply (Hnz o Ho2). unfold fblk. rewrite <- E2. exact E3.
  - eexists total, s1, i1. split; [done|]. split; [lia|]. split; [done|]. split; [done|]. split; [lia|done].
  - eexists total, s1, i1. split; [done|]. split; [lia|]. split; [done|]. split; [done|]. split; [lia|done].
Qed.

(** Two files without a common block. *)
Definition apart s i j : Prop := i_inum i <> i_inum j /\ forall k k', 0 <= k < 270 -> 0 <= k' < 270 -> addr s i k = addr s j k' -> addr s i k = 0.

(** What a file that grows leaves to another file. *)
Lemma grow_addr s i s' i' j k : file_ok s j -> apart s i j -> grow s i s' i' -> 0 <= k < 270 ->
  addr s' j k = addr s j k /\ (addr s j k <> 0 -> blk s' (addr s j k) = blk s (addr s j k)).
Proof.
  intros Fj [Hne Hap] G. revert k. assert (Hblk : forall k, 0 <= k < 270 -> addr s j k <> 0 -> blk s' (addr s j k) = blk s (addr s j k)).
  { intros k Hk H0. destruct (f_data _ _ Fj k Hk H0). apply (g_frame _ _ _ _ G); [done|done|]. intros k' Hk' E. pose proof (Hap k' k Hk' Hk E). congruence. }
  intros k Hk. split; [|auto]. apply addr_ext; [intros x Hx; apply Hblk; lia|done].
Qed.
Lemma grow_apart s i s' i' j : file_ok s j -> apart s i j -> file_ok s' i' -> grow s i s' i' ->
  file_ok s' j /\ apart s' i' j /\ forall o, 0 <= o < SFS_MAX_FILE_SIZE -> fbyte s' j o = fbyte s j o.
Proof.
  intros Fj Hapt F' G. pose proof Fj as [J1 J2 J3 J4 J5]. pose proof (fun k Hk => grow_addr s i s' i' j k Fj Hapt G Hk) as HG. destruct Hapt as [Hne Hap].
  assert (Hblk : forall k, 0 <= k < 270 -> addr s j k <> 0 -> blk s' (addr s j k) = blk s (addr s j k)) by (intros k Hk; by apply HG).
  assert (Hadr : forall k, 0 <= k < 270 -> addr s' j k = addr s j k) by (intros k Hk; by apply HG).
  split; [split; try done|split; [split|]].
  - intros k Hk. rewrite Hadr by done. intros H0. destruct (J3 k Hk H0). split; [done|]. by apply (g_used _ _ _ _ G).
  - intros k k' Hk Hk'. rewrite !Hadr by done. by apply J4.
  - rewrite (g_table _ _ _ _ G); [done..|congruence].
  - by rewrite (proj1 (g_meta _ _ _ _ G)).
  - intros k k' Hk Hk' E. rewrite Hadr in E by done. destruct (Z.eq_dec (addr s' i' k) 0) as [|H0]; [done|]. exfalso. destruct (Z.eq_dec (addr s i k) 0) as [E0|E0].
    + pose proof (g_new _ _ _ _ G k Hk E0 H0) as Hu. rewrite E in Hu, H0. destruct (J3 k' Hk' H0). congruence.
    + rewrite (g_addr _ _ _ _ G k Hk E0) in E. by apply E0, (Hap k k').
  - intros o Ho. destruct (slot_range _ (ofs_block o Ho)) as (Hs & _). unfold fbyte, fblk. rewrite Hadr by done. destruct (Z.eqb_spec (addr s j (slot (o `div` 512))) 0) as [|H0]; [done|]. by rewrite Hblk.
Qed.

Lemma read_data_ok (s : sfs) p i count ofs : inodes s !! p = Some i -> bufs_ok (bf s) -> file_ok (bf s) i -> locked (bf s) = ∅ ->
  dense (bf s) i -> i_size i <= SFS_MAX_FILE_SIZE -> 0 <= ofs < 2 ^ 63 -> 0 <= count ->
  exists s' : sfs, read_data sb p count ofs s = Ret (fbyte (bf s) i <$> seqZ ofs (Z.min count (i_size i - ofs))) s' /\ stepped false s p i s' i /\ locked (bf s') = ∅.
Proof.
  intros Hp Hok F Hl Hd Hs Ho Hc. destruct (sfs_read_loop_ok p i count (S (Z.to_nat count)) s ofs [] Hp Hok F Hl Hd Hs Ho ltac:(simpl; lia)) as (s' & E & H).
  exists s'. rewrite Z.sub_0_r in E. done.
Qed.

Lemma dense_write s i s' i' buf ofs total : dense s i -> grow s i s' i' -> i_size i' = new_size (i_size i) ofs total buf -> 0 <= ofs <= i_size i ->
  (forall o, ofs <= o < ofs + total -> fblk s' i' (o `div` 512) <> 0) -> i_size i <= SFS_MAX_FILE_SIZE -> dense s' i'.
Proof.
  intros Hd G Hsz Ho Hnew Hmax n Hn Hlt. rewrite max_size in Hmax. destruct (decide (n * 512 < i_size i)) as [Hold|Hold].
  - unfold fblk. destruct (slot_range n ltac:(lia)) as (Hs & _). rewrite (g_addr _ _ _ _ G _ Hs); by apply Hd.
  - rewrite Hsz in Hlt. unfold new_size in Hlt. destruct (0 <? _); [|lia]. specialize (Hnew (n * 512) ltac:(lia)). by rewrite Z.div_mul in Hnew by lia.
Qed.

(** C21. [write_data] writes a file: it returns the number of bytes written,
    which is all of them unless no data block is free; these bytes of the
    contents are those of the buffer, all others are as before, also in every
    other file; the size grows as needed, the file stays well formed with its
    inode on disk equal to the one in memory, without holes when it had none and
    the offset is not beyond its end, and no block stays locked. *)
Theorem write_data_correct (s : sfs) p i buf ofs :
  inodes s !! p = Some i -> bufs_ok (bf s) -> file_ok (bf s) i -> locked (bf s) = ∅ -> Forall byte_range buf ->
  0 <= ofs -> ofs + Z.of_nat (length buf) <= SFS_MAX_FILE_SIZE ->
  exists total (s' : sfs) i', write_data sb p buf ofs s = Ret total s' /\ inodes s' = <[p := i']> (inodes s) /\ 0 <= total <= Z.of_nat (length buf) /\
    (total < Z.of_nat (length buf) -> full (bf s')) /\
    (forall o, 0 <= o < SFS_MAX_FILE_SIZE -> fbyte (bf s') i' o = if (ofs <=? o) && (o <? ofs + total) then default 0 (buf !! Z.to_nat (o - ofs)) else fbyte (bf s) i o) /\
    i_size i' = (if 0 <? Z.of_nat (length buf) then Z.max (i_size i) (ofs + total) else i_size i) /\
    file_ok (bf s') i' /\ bufs_ok (bf s') /\ locked (bf s') = ∅ /\
    (dense (bf s) i -> ofs <= i_size i <= SFS_MAX_FILE_SIZE -> dense (bf s') i') /\
    (forall j, file_ok (bf s) j -> apart (bf s) i j ->
       file_ok (bf s') j /\ apart (bf s') i' j /\ forall o, 0 <= o < SFS_MAX_FILE_SIZE -> fbyte (bf s') j o = fbyte (bf s) j o).
Proof.
  intros Hp Hok F Hl Hbuf Ho Hmax. destruct (write_data_ok s p i buf ofs Hp Hok F Hl Hbuf Ho Hmax) as (total & s' & i' & E & Ht & Hl' & [W1 W2 W3 W4 W5 W6] & Hsz & Hfull & Hnz).
  exists total, s', i'. split_and!; try done; [lia|lia|intros Hd Hs; by apply (dense_write (bf s) i _ _ buf ofs total); try lia|]. intros j Hj Hap. by apply (grow_apart (bf s) i (bf s') i').
Qed.

(** [read_data] reads a file all of whose blocks are there: it returns the
    bytes of the contents from the offset on, as many as asked for or up to
    the end of the file, and changes neither the file nor the locks. *)
Theorem read_data_correct (s : sfs) p i count ofs :
  inodes s !! p = Some i -> bufs_ok (bf s) -> file_ok (bf s) i -> locked (bf s) = ∅ ->
  dense (bf s) i -> i_size i <= SFS_MAX_FILE_SIZE -> 0 <= ofs < 2 ^ 63 -> 0 <= count ->
  exists s' : sfs, read_data sb p count ofs s = Ret (fbyte (bf s) i <$> seqZ ofs (Z.min count (i_size i - ofs))) s' /\
    inodes s' = inodes s /\ blocks (bf s') = blocks (bf s) /\ locked (bf s') = ∅.
Proof.
  intros Hp Hok F Hl Hd Hs Ho Hc. destruct (read_data_ok s p i count ofs Hp Hok F Hl Hd Hs Ho Hc) as (s' & E & [S1 S2] & Hl').
  exists s'. split; [done|]. split; [by rewrite S1, insert_id|]. split; [|done]. by apply S2.
Qed.

(** ** Inodes on disk *)

Lemma words_join xs rest : Forall (fun x => 0 <= x < 2 ^ 32) xs -> words (length xs) (mjoin (le32 <$> xs) ++ rest) = xs.
Proof.
  induction 1 as [|x xs Hx _ IH]; [done|]. rewrite fmap_cons. change (mjoin (le32 x :: ?l)) with (le32 x ++ mjoin l). rewrite <- app_assoc. cbn [length words].
  rewrite of_le32_le32 by done. by rewrite (drop_app_length' (le32 x)), IH.
Qed.

Lemma of_le16_le16 x rest : 0 <= x < 2 ^ 16 -> of_le16 (le16 x ++ rest) = x.
Proof.
  intros Hx. simpl. pose proof (Z.div_mod x 256 ltac:(lia)). rewrite (Z.mod_small (x `div` 256)); [lia|]. split; [apply Z.div_pos; lia|apply Z.div_lt_upper_bound; lia].
Qed.

(** The fields of an inode fit the structure on disk. *)
Definition inode_fits i : Prop :=
  0 <= i_ftype i < 256 /\ 0 <= i_mode i < 256 /\ 0 <= i_nlink i < 2 ^ 16 /\ 0 <= i_size i < 2 ^ 32 /\ Forall (fun x => 0 <= x < 2 ^ 32) (i_addrs i).

Lemma image_fields j rest : inode_fits j -> length (i_addrs j) = 14%nat -> let e := inode_image j ++ rest in
  of_le16 (drop 2 e) = i_nlink j /\ default 0 (e !! 0%nat) = i_ftype j /\ default 0 (e !! 1%nat) = i_mode j /\ of_le32 (drop 4 e) = i_size j /\ words 14 (drop 8 e) = i_addrs j.
Proof.
  intros (H1 & H2 & H3 & H4 & H5) Hlen e. subst e. unfold inode_image, sfs_inode_bytes. rewrite <- !app_assoc. split; [exact (of_le16_le16 _ _ H3)|].
  split; [simpl; by apply wrap_small|]. split; [simpl; by apply wrap_small|]. split; [exact (of_le32_le32 _ _ H4)|]. rewrite <- Hlen. exact (words_join _ rest H5).
Qed.

Lemma valid_set i v : fs_is_inode_valid (fs_set_inode_valid v i) = v.
Proof. change (get_state_bit (set_state_bit (i_state i) 0 v) 0 = v). by rewrite get_state_bit_spec, set_state_bit_spec by lia. Qed.

Lemma read_inode_run (s : sfs) p i : inodes s !! p = Some i -> bufs_ok (bf s) -> i_inum i <> 0 -> fs_is_inode_dirty i = false -> inum_to_blk (i_inum i) ∉ locked (bf s) ->
  sfs_read_inode p s = Ret ERR_OK (mkSfs (bf s) (<[p := load_inode (drop (Z.to_nat (inum_to_ofs (i_inum i))) (blk (bf s) (inum_to_blk (i_inum i)))) i]> (inodes s))).
Proof.
  intros Hp Hok Hi Hd Hl. unfold sfs_read_inode. rewrite (bind_geti _ _ _ _ Hp), !bind_kassert by (by rewrite ?Hd || by apply negb_true_iff, Z.eqb_neq).
  set (b := inum_to_blk (i_inum i)) in *. rewrite (bind_onb _ _ _ _ _ (get_ok _ b Hok Hl)). cbn [negb].
  set (t := set_locked _ (bf s)). assert (Hl1 : b ∈ locked t) by (apply elem_of_union_l; by apply elem_of_singleton). rewrite rdata_onb by done. change (blk (bf (mkSfs t (inodes s))) b) with (blk (bf s) b).
  cbv zeta. erewrite bind_updi by exact Hp. erewrite bind_onb by (apply blk_release_ok; exact Hl1). unfold ret. do 2 f_equal.
  simpl bf. subst t. simpl locked. by apply lock_unlock.
Qed.

Lemma read_inode_ok (s : sfs) p i rest : inodes s !! p = Some i -> bufs_ok (bf s) -> inum_ok sb (i_inum i) -> fs_is_inode_dirty i = false -> inum_to_blk (i_inum i) ∉ locked (bf s) ->
  forall j, inode_fits j -> length (i_addrs j) = 14%nat -> drop (Z.to_nat (inum_to_ofs (i_inum i))) (blk (bf s) (inum_to_blk (i_inum i))) = inode_image j ++ rest ->
  sfs_read_inode p s = Ret ERR_OK (mkSfs (bf s) (<[p := fs_set_inode_valid true
    (mkInode (i_inum i) (i_ref i) (i_nlink j) (i_ftype j) (i_mode j) (i_size j) (i_addrs j) (i_state i) (i_lock i))]> (inodes s))).
Proof.
  intros Hp Hok Hi Hd Hl j Hfit Hlen Himg. destruct (image_fields j rest Hfit Hlen) as (H1 & H2 & H3 & H4 & H5). rewrite (read_inode_run s p i) by (done || (unfold inum_ok in Hi; lia)).
  rewrite Himg. unfold load_inode. by rewrite H1, H2, H3, H4, H5.
Qed.

(** Writing an inode out and reading it into another in-memory inode with
    the same number gives the same fields, if they fit the structure on disk;
    the other inodes of the table are not touched. *)
Theorem inode_write_read_roundtrip (s : sfs) p q i j :
  inodes s !! p = Some i -> inodes s !! q = Some j -> p <> q -> i_inum j = i_inum i -> fs_is_inode_dirty j = false ->
  bufs_ok (bf s) -> inum_ok sb (i_inum i) -> length (i_addrs i) = 14%nat -> inode_fits i -> locked (bf s) = ∅ ->
  exists (s' : sfs) j', (e <- sfs_write_inode p ;; e' <- sfs_read_inode q ;; ret (e, e')) s = Ret (ERR_OK, ERR_OK) s' /\
    inodes s' !! q = Some j' /\ fs_is_inode_valid j' = true /\ i_inum j' = i_inum i /\ i_nlink j' = i_nlink i /\ i_ftype j' = i_ftype i /\ i_mode j' = i_mode i /\
    i_size j' = i_size i /\ i_addrs j' = i_addrs i /\ locked (bf s') = ∅ /\
    forall n, inum_ok sb n -> n <> i_inum i -> entry (bf s') n = entry (bf s) n.
Proof.
  intros Hp Hq Hne Ej Hd Hok Hi Hlen Hfit Hl.
  erewrite bind_Ret by (apply (write_inode_ok sb Hsb); [exact Hp|exact Hok|exact Hi|rewrite Hl; apply not_elem_of_empty]).
  destruct (put_inode_ok sb Hsb i (bf s) Hok Hi Hlen) as (Hok' & _ & Htab). destruct (inum_blk sb Hsb _ Hi) as (_ & Eo & _). pose proof (Z.mod_pos_bound (i_inum i - 1) 8 ltac:(lia)).
  set (s1 := mkSfs _ _). assert (Hq1 : inodes s1 !! q = Some j) by (simpl; by rewrite lookup_insert_ne).
  assert (Himg : exists rest, drop (Z.to_nat (inum_to_ofs (i_inum j))) (blk (bf s1) (inum_to_blk (i_inum j))) = inode_image i ++ rest).
  { rewrite Ej. simpl. unfold put_inode. rewrite blk_set, Z.eqb_refl. destruct (proj1 Hok (inum_to_blk (i_inum i))) as [Hb _]. rewrite splice_read by (rewrite Hb, Eo; lia). eauto. }
  destruct Himg as [rest Himg].
  erewrite bind_Ret by (eapply (read_inode_ok s1 q j rest Hq1 Hok'); [by rewrite Ej|exact Hd|simpl; rewrite Hl; apply not_elem_of_empty|exact Hfit|exact Hlen|exact Himg]).
  eexists _, _. split; [done|]. split; [apply lookup_insert_eq|]. split; [apply valid_set|by split_and!].
Qed.

(** ** Failures *)

(** The offset of a write is not checked against the largest file. *)
Lemma write_data_too_far (s : sfs) p buf ofs : SFS_MAX_FILE_SIZE <= ofs -> buf <> [] -> write_data sb p buf ofs s = Halt Panic s.
Proof.
  intros Ho Hb. unfold write_data, bind at 1. cbn [sfs_write_loop]. rewrite (proj2 (Z.ltb_lt 0 (Z.of_nat (length buf)))) by (destruct buf; [done|simpl; lia]). cbn [negb].
  unfold get_data_block, bind at 1, bind at 1, kassert. by rewrite (proj2 (Z.ltb_ge ofs SFS_MAX_FILE_SIZE)).
Qed.

Lemma get_granted s b x l : b ∉ locked s -> pin s b = 0 -> nomem s = x :: l ->
  blk_get b s = Ret (negb x) (mkBufs (blocks s) (if x then locked s else {[b]} ∪ locked s) (pins s) l).
Proof.
  intros Hb Hp Hn. unfold blk_get, grant. unfold bind at 1. rewrite Hp, bool_decide_eq_false_2, Hn by done. cbn [orb Z.ltb Z.compare]. destruct x; cbn [negb]; [done|].
  rewrite bind_gets. simpl locked. by rewrite bool_decide_eq_false_2.
Qed.

Lemma indirect_entry_present (s : sfs) p i j m alloc a l : inodes s !! p = Some i -> i_addrs i !! Z.to_nat j = Some a -> 0 < a -> a ∉ locked (bf s) -> pin (bf s) a = 0 ->
  nomem (bf s) = false :: l -> locked (bf s) = ∅ -> word (blk (bf s) a) m <> 0 ->
  indirect_entry sb p j m alloc s = Ret (ERR_OK, word (blk (bf s) a) m, Some a) (mkSfs (mkBufs (blocks (bf s)) ∅ (pins (bf s)) l) (inodes s)).
Proof.
  intros Hp Ha Ha0 Hal Hpin Hn Hl Hw. unfold indirect_entry. rewrite (bind_geti _ _ _ _ Hp), Ha. unfold of_option. rewrite bind_ret, bind_kassert by (by apply Z.ltb_lt).
  rewrite (bind_onb _ _ _ _ _ (get_granted _ a false l Hal Hpin Hn)). cbn [negb]. set (t := mkBufs _ _ _ l). assert (Ha1 : a ∈ locked t) by (simpl; set_solver).
  rewrite rdata_onb by done. change (of_le32 _) with (word (blk (bf s) a) m). rewrite (proj2 (Z.eqb_neq _ 0) Hw). cbn [negb]. erewrite bind_onb by (apply blk_release_ok; exact Ha1).
  unfold ret. do 2 f_equal. unfold set_locked. subst t. simpl. f_equal. rewrite Hl. set_solver.
Qed.

(** When there is no memory for the last block, [get_data_block] on a part of
    a file behind an indirect block panics instead of returning ERR_NOMEM: the
    failure path releases the indirect block a second time. *)
Theorem get_data_block_double_release (s : sfs) p i ofs alloc :
  inodes s !! p = Some i -> file_ok (bf s) i -> locked (bf s) = ∅ -> (forall b, pin (bf s) b = 0) -> nomem (bf s) = [false; false; true] ->
  6144 <= ofs < SFS_MAX_FILE_SIZE -> fblk (bf s) i (ofs `div` 512) <> 0 ->
  exists s' : sfs, get_data_block sb p ofs alloc s = Halt Panic s'.
Proof.
  intros Hp F Hl Hpin Hn Ho Hb. pose proof (ofs_block ofs ltac:(lia)) as Hrange. assert (12 <= ofs `div` 512) by (apply Z.div_le_lower_bound; lia). set (n := ofs `div` 512) in *.
  assert (Hk : 14 <= n + 2 < 270) by lia. destruct (ind_range _ Hk) as [Hj _]. unfold fblk, slot in Hb. rewrite (proj2 (Z.ltb_ge n 12)), addr_ind in Hb by lia. cbv zeta in Hb.
  replace (n + 2 - 14) with (n - 12) in * by lia. set (j := 12 + (n - 12) `div` 128) in *. set (a := addr (bf s) i j) in *. destruct (Z.eqb_spec a 0) as [|Ha0]; [done|].
  destruct (f_data _ _ F j ltac:(lia) Ha0) as [Hda _]. pose proof (data_pos a Hda) as Hpa. destruct (inum_blk sb Hsb _ (f_inum _ _ F)) as (_ & _ & Hir). set (w := word _ _) in *.
  unfold get_data_block. rewrite bind_kassert by (apply Z.ltb_lt; lia). rewrite (bind_geti _ _ _ _ Hp). set (ib := inum_to_blk (i_inum i)) in *. change BDEV_BLK_SIZE with 512. fold n.
  set (t1 := mkBufs (blocks (bf s)) ∅ (<[ib := 1]> (pins (bf s))) [false; true]).
  assert (E1 : blk_get_unlocked ib (bf s) = Ret true t1).
  { unfold blk_get_unlocked, grant, bind at 1. rewrite (Hpin ib), Hl, bool_decide_eq_false_2, Hn by apply not_elem_of_empty. cbn [orb Z.ltb Z.compare negb]. unfold bind, modify, ret, set_pin. simpl. pose proof (Hpin ib) as E0. unfold pin in *. simpl. by rewrite E0. }
  rewrite (bind_onb _ _ _ _ _ E1). cbn [negb]. change SFS_NDIRECT with 12. rewrite (proj2 (Z.ltb_ge n 12)) by lia. unfold indirect_block. change SFS_NDIRECT with 12. change (BDEV_BLK_SIZE `div` 4) with 128.
  fold j. assert (Hp1 : forall c, c <> ib -> pin t1 c = 0). { intros c Hc. unfold pin. simpl. rewrite lookup_insert_ne by done. apply (Hpin c). }
  rewrite bind_assoc, bind_kassert, bind_assoc by (apply Z.ltb_lt; unfold SFS_NINDIRECT; lia). set (s1 := mkSfs t1 (inodes s)).
  erewrite (bind_Ret (indirect_addr sb p j alloc) _ s1 ERR_OK s1).
  2: { unfold indirect_addr. rewrite (bind_geti s1 _ _ _ Hp), (addr_top (bf s) i j) by (apply F || lia). fold a. unfold of_option. rewrite bind_ret. by rewrite (proj2 (Z.eqb_neq a 0)). }
  cbn [negb Z.eqb ERR_OK]. erewrite bind_Ret by (apply (indirect_entry_present s1 p i j _ alloc a [true]); [exact Hp|apply addr_top; [apply F|lia]|lia|apply not_elem_of_empty|apply Hp1; lia|done|done|exact Hb]).
  change (word (blk (bf s1) a) ((n - 12) `mod` 128)) with w. cbn [negb Z.eqb ERR_OK].
  assert (Ew : addr (bf s) i (n + 2) = w) by (rewrite addr_ind by lia; cbv zeta; replace (n + 2 - 14) with (n - 12) by lia; fold j a; by rewrite (proj2 (Z.eqb_neq a 0) Ha0)).
  destruct (f_data _ _ F (n + 2) ltac:(lia)) as [Hd _]; [by rewrite Ew|]. rewrite Ew in Hd. pose proof (data_pos _ Hd) as Hpw.
  rewrite bind_kassert by (apply Z.ltb_lt; lia). erewrite bind_onb by (apply (get_granted _ w true []); [apply not_elem_of_empty|apply Hp1; lia|done]). cbn [negb].
  eexists. reflexivity.
Qed.

(** ** A decision procedure for well-formed files *)

Definition file_check s i : bool :=
  let l := addr s i <$> seqZ 0 270 in
  (1 <=? i_inum i) && (i_inum i <=? s_num_inodes sb) && bool_decide (length (i_addrs i) = 14%nat) &&
  forallb (fun a => (a =? 0) || ((s_data_start sb <=? a) && (a <? s_data_start sb + s_size sb) && used sb s a)) l &&
  bool_decide (NoDup (filter (fun a => a <> 0) l)) && bool_decide (entry s (i_inum i) = inode_image i).

Lemma NoDup_filter_lookup (l : list Z) (k k' : nat) a : NoDup (filter (fun a => a <> 0) l) -> l !! k = Some a -> l !! k' = Some a -> a <> 0 -> k = k'.
Proof.
  revert k k'. induction l as [|x l IH]; intros k k' Hnd Hk Hk' Ha; [done|]. destruct k as [|k], k' as [|k']; [done| | |]; simpl in Hk, Hk'.
  - injection Hk as ->. rewrite filter_cons_True in Hnd by done. apply NoDup_cons in Hnd as [Hn _]. destruct Hn. apply list_elem_of_filter. split; [done|]. by eapply list_elem_of_lookup_2.
  - injection Hk' as ->. rewrite filter_cons_True in Hnd by done. apply NoDup_cons in Hnd as [Hn _]. destruct Hn. apply list_elem_of_filter. split; [done|]. by eapply list_elem_of_lookup_2.
  - f_equal. apply IH; [|done..]. rewrite filter_cons in Hnd. destruct (decide (x <> 0)); [by apply NoDup_cons in Hnd as [_ ?]|done].
Qed.

Lemma file_check_ok s i : file_check s i = true -> file_ok s i.
Proof.
  unfold file_check. rewrite !andb_true_iff, !bool_decide_eq_true, forallb_forall, !Z.leb_le. intros [[[[[H1 H2] H3] H4] H5] H6].
  assert (Hl : forall k, 0 <= k < 270 -> (addr s i <$> seqZ 0 270) !! Z.to_nat k = Some (addr s i k)).
  { intros k Hk. rewrite list_lookup_fmap, lookup_seqZ_lt by lia. simpl. f_equal. f_equal. lia. }
  split; [done|done| | |done].
  - intros k Hk H0. specialize (H4 (addr s i k)). rewrite <- list_elem_of_In in H4. specialize (H4 (list_elem_of_lookup_2 _ _ _ (Hl k Hk))).
    rewrite (proj2 (Z.eqb_neq _ 0) H0) in H4. cbn [orb] in H4. rewrite !andb_true_iff, Z.leb_le, Z.ltb_lt in H4. unfold is_data. lia || (destruct H4 as [[? ?] ?]; done).
  - intros k k' Hk Hk' E H0. pose proof (NoDup_filter_lookup _ (Z.to_nat k) (Z.to_nat k') _ H5 (Hl k Hk)) as H. rewrite (Hl k' Hk'), E in H. specialize (H eq_refl). rewrite E in H0. specialize (H H0). lia.
Qed.

End files.

(** ** A small file system

    80 inodes in ten blocks, one block of bitmap, two blocks of journal. *)
Definition ex_sb : sfs_sb_info := mkSb 400 80 14 15 17.
Lemma ex_sb_ok : sb_ok ex_sb.
Proof. split; vm_compute; (done || split; done || idtac). Qed.

Definition ex_bmap1 : block := 3 :: replicate 511 0.
Definition ex_indirect : block := le32 18 ++ replicate 508 0.
Definition ex_base (l : list bool) : bufs := setb 17 ex_indirect (setb 14 ex_bmap1 (setb 3 ex_bmap1 (mkBufs ∅ ∅ ∅ l))).
(** An empty file, and one with a single block behind an indirect block. *)
Definition ex_file : inode := mkInode 1 1 1 FTYPE_FILE 6 0 (replicate 14 0) 1 false.
Definition ex_far : inode := mkInode 2 1 1 FTYPE_FILE 6 6656 (replicate 12 0 ++ [17; 0]) 1 false.
Definition ex_sfs (l : list bool) : sfs :=
  mkSfs (put_inode ex_far (put_inode ex_file (ex_base l))) {[100 := ex_file; 101 := ex_far]}.

Lemma ex_bufs_ok : bufs_ok (bf (ex_sfs [])).
Proof.
  assert (H : bufs_ok (ex_base [])).
  { assert (Hb : forall d, bool_decide (bytes_ok d) = true -> bytes_ok d) by (intros d; apply bool_decide_eq_true_1).
    repeat apply setb_ok; [|by apply Hb; vm_compute..]. split; [intros b; apply zeros_ok|done]. }
  apply (put_inode_ok ex_sb ex_sb_ok); [|vm_compute; done|done]. by apply (put_inode_ok ex_sb ex_sb_ok); [|vm_compute; done|done].
Qed.

Lemma ex_file_ok l : file_ok ex_sb (bf (ex_sfs l)) ex_file.
Proof. apply (file_ok_blocks ex_sb ex_sb_ok (bf (ex_sfs []))); [done|]. apply (file_check_ok ex_sb ex_sb_ok). vm_compute. reflexivity. Qed.
Lemma ex_far_ok l : file_ok ex_sb (bf (ex_sfs l)) ex_far.
Proof. apply (file_ok_blocks ex_sb ex_sb_ok (bf (ex_sfs []))); [done|]. apply (file_check_ok ex_sb ex_sb_ok). vm_compute. reflexivity. Qed.

Lemma ex_apart : apart (bf (ex_sfs [])) ex_file ex_far.
Proof.
  split; [done|]. intros k k' Hk Hk' _. assert (H : forallb (fun k => addr (bf (ex_sfs [])) ex_file k =? 0) (seqZ 0 270) = true) by (vm_compute; reflexivity).
  rewrite forallb_forall in H. apply Z.eqb_eq, H, list_elem_of_In, elem_of_seqZ. lia.
Qed.

Lemma write_data_correct_witness : exists total (s' : sfs) i', write_data ex_sb 100 [1; 2; 3] 0 (ex_sfs []) = Ret total s' /\
  fbyte (bf s') i' 1 = (if 1 <? total then 2 else 0) /\ file_ok ex_sb (bf s') ex_far.
Proof.
  destruct (write_data_correct ex_sb ex_sb_ok (ex_sfs []) 100 ex_file [1; 2; 3] 0) as (total & s' & i' & E & _ & Ht & _ & B & _ & _ & _ & _ & _ & J);
    [done|exact ex_bufs_ok|exact (ex_file_ok [])|done|repeat constructor; lia|lia|vm_compute; discriminate|].
  exists total, s', i'. split; [exact E|]. split; [|by apply (J ex_far (ex_far_ok []) ex_apart)]. rewrite (B 1) by (rewrite max_size; lia).
  destruct (Z.ltb_spec 1 (0 + total)), (Z.ltb_spec 1 total); cbn; (reflexivity || lia).
Defined.

Lemma read_data_correct_witness : exists s' s'' : sfs, write_data ex_sb 100 [1; 2; 3] 0 (ex_sfs []) = Ret 3 s' /\ read_data ex_sb 100 9 1 s' = Ret [2; 3] s''.
Proof.
  destruct (write_data_ok ex_sb ex_sb_ok (ex_sfs []) 100 ex_file [1; 2; 3] 0) as (total & s' & i' & E & Ht & Hl & W & Hsz & _ & Hnz);
    [done|exact ex_bufs_ok|exact (ex_file_ok [])|done|repeat constructor; lia|lia|vm_compute; discriminate|].
  assert (total = 3) as ->. { assert (H : match write_data ex_sb 100 [1; 2; 3] 0 (ex_sfs []) with Ret t _ => t = 3 | Halt _ _ => False end) by (vm_compute; reflexivity). by rewrite E in H. }
  change (new_size (i_size ex_file) 0 3 [1; 2; 3]) with 3 in Hsz.
  destruct (read_data_correct ex_sb ex_sb_ok s' 100 i' 9 1) as (s'' & E' & _); [rewrite (w_inodes _ _ _ _ _ _ _ W); apply lookup_insert_eq|apply W|apply W|exact Hl| |rewrite Hsz, max_size; lia|lia|lia|].
  { apply (dense_write ex_sb ex_sb_ok (bf (ex_sfs [])) ex_file (bf s') i' [1; 2; 3] 0 3); [|apply W|exact Hsz|simpl; lia|exact Hnz|simpl; rewrite max_size; lia]. intros n Hn Hlt. simpl in Hlt. lia. }
  exists s', s''. split; [exact E|]. rewrite E', Hsz. change (Z.min 9 (3 - 1)) with 2. rewrite !seqZ_cons, seqZ_nil by lia. cbn [fmap list_fmap]. do 2 f_equal; [|f_equal]; rewrite (w_bytes _ _ _ _ _ _ _ W) by (rewrite max_size; simpl; lia); reflexivity.
Defined.

Lemma inode_write_read_roundtrip_witness : exists (s' : sfs) j',
  (e <- sfs_write_inode 101 ;; e' <- sfs_read_inode 102 ;; ret (e, e')) (mkSfs (bf (ex_sfs [])) {[101 := ex_far; 102 := mkInode 2 1 0 0 0 0 (replicate 14 0) 0 false]}) = Ret (ERR_OK, ERR_OK) s' /\
  inodes s' !! 102 = Some j' /\ i_size j' = 6656.
Proof.
  destruct (inode_write_read_roundtrip ex_sb ex_sb_ok (mkSfs (bf (ex_sfs [])) {[101 := ex_far; 102 := mkInode 2 1 0 0 0 0 (replicate 14 0) 0 false]}) 101 102 ex_far (mkInode 2 1 0 0 0 0 (replicate 14 0) 0 false))
    as (s' & j' & E & Hj & _ & _ & _ & _ & _ & Hs & _); [done|done|lia|done|vm_compute; reflexivity|exact ex_bufs_ok|vm_compute; split; discriminate|done| |done|].
  { unfold inode_fits. split; [simpl; unfold FTYPE_FILE; lia|]. do 3 (split; [simpl; lia|]). apply (bool_decide_eq_true_1 (Forall (fun x => 0 <= x < 2 ^ 32) (replicate 12 0 ++ [17; 0]))). vm_compute. reflexivity. }
  exists s', j'. split; [exact E|]. split; [exact Hj|]. exact Hs.
Defined.

Lemma get_data_block_double_release_witness : exists s' : sfs, get_data_block ex_sb 101 6144 false (ex_sfs [false; false; true]) = Halt Panic s'.
Proof.
  apply (get_data_block_double_release ex_sb ex_sb_ok _ 101 ex_far); [done|exact (ex_far_ok _)|done|by intros b|done|rewrite max_size; lia|]. vm_compute. discriminate.
Defined.

End SfsFile.
