(* ===== verification/SfsDir.v ===== *)
(** * Directories of the simple file system

    A directory is a file of entries of 32 bytes.  [search_dir], [is_dir_empty]
    and [free_dirent] of kernel/fs/sfs/sfs.c are compared with searches in the
    sequence of its entries. *)

From S2P Require Import Prelude Lib Bdev Bufs Sfs SfsFile.
Local Open Scope kernel_scope.
Import Bits Bdev Bufs Sfs SfsFile.

Module SfsDir.

(** ** Names *)

(** A name up to its terminating 0. *)
Fixpoint cname (l : list Z) : list Z :=
  match l with [] => [] | c :: l' => if c =? 0 then [] else c :: cname l' end.

Definition name_ok (name : list Z) : Prop := Forall (fun c => 0 < c < 256) name.

(** Two names agree for [strncmp] when their first [n] bytes do. *)
Lemma strncmp_name_0 n : forall s name, Forall byte_range s -> name_ok name ->
  strncmp_name n s name = 0 <-> take n (cname s) = take n name.
Proof.
  induction n as [|n IH]; intros s name Hs Hn; [done|]. cbn [strncmp_name].
  destruct s as [|a s], name as [|b name]; simpl; rewrite ?Forall_cons in Hs; try apply Forall_cons in Hn as [Hb Hn]; try destruct Hs as [Ha Hs].
  - done.
  - split; [|done]. intros E. pose proof (Str.schar_inj 0 b ltac:(lia) ltac:(lia) ltac:(lia)). lia.
  - destruct (Z.eqb_spec a 0) as [->|Hne]; simpl; [done|]. split; [|done].
    intros E. pose proof (Str.schar_inj a 0 ltac:(lia) ltac:(lia) ltac:(lia)). lia.
  - destruct (Z.eqb_spec a 0) as [->|Hne]; simpl.
    { split; [|done]. intros E. pose proof (Str.schar_inj 0 b ltac:(lia) ltac:(lia) ltac:(lia)). lia. }
    destruct (Z.eqb_spec a b) as [->|Hab]; simpl.
    + rewrite !drop_0, IH by done. split; [by intros ->|by intros [=]].
    + split; [|by intros [=]]. intros E. pose proof (Str.schar_inj a b ltac:(lia) ltac:(lia) ltac:(lia)). lia.
Qed.

Section dirs.
Context (sb : sfs_sb_info) (Hsb : sb_ok sb).
Set Default Proof Using "Type*".
Implicit Types (i : inode) (k : Z).

(** ** Entries *)

Definition ent_inum (s : bufs) i k : Z := of_le32 (fbyte s i <$> seqZ (32 * k) 4).
Definition ent_name (s : bufs) i k : list Z := fbyte s i <$> seqZ (32 * k + 4) 28.
Definition num_ents i : Z := i_size i `div` 32.

(** The reference for the searches: the first entry in use that has the name,
    comparing 28 bytes. *)
Definition matches (s : bufs) i (name : list Z) k : bool := (0 <? ent_inum s i k) && bool_decide (cname (ent_name s i k) = take 28 name).
Definition dir_index (s : bufs) i (name : list Z) : option Z := List.find (matches s i name) (seqZ 0 (num_ents i)).
Definition dir_find (s : bufs) i (name : list Z) : Z := match dir_index s i name with Some k => ent_inum s i k | None => 0 end.

Record dir_ok (s : bufs) i : Prop := {
  d_file : file_ok sb s i;
  d_dense : dense s i;
  d_size : 0 <= i_size i <= SFS_MAX_FILE_SIZE;
  d_ents : (32 | i_size i);
}.

Lemma ents_size i : (32 | i_size i) -> i_size i = 32 * num_ents i.
Proof. intros [m E]. unfold num_ents. rewrite E, Z.div_mul; lia. Qed.

Lemma ent_block k : 0 <= k -> (32 * k) `div` 512 = k `div` 16 /\ (32 * k) `mod` 512 = 32 * (k `mod` 16).
Proof. intros Hk. change 512 with (32 * 16). rewrite Z.div_mul_cancel_l, Z.mul_mod_distr_l by lia. done. Qed.

Lemma fbyte_range s i o : bufs_ok s -> 0 <= fbyte s i o < 256.
Proof.
  intros (H & _). unfold fbyte. destruct (_ =? 0); [lia|]. destruct (blk s _ !! _) as [x|] eqn:E; [|simpl; lia]. eapply (Forall_lookup_1 _ _ _ _ (proj2 (H _)) E).
Qed.

(** The entry as the code reads it from the block. *)
Lemma dirent_ok s i k : bufs_ok s -> 0 <= k -> let b := fblk s i ((32 * k) `div` 512) in b <> 0 ->
  dirent_inum (blk s b) ((32 * k) `mod` 512) = ent_inum s i k /\ dirent_name (blk s b) ((32 * k) `mod` 512) = ent_name s i k.
Proof.
  intros Hok Hk b Hb. destruct (ent_block k Hk) as [E1 E2]. pose proof (Z.mod_pos_bound k 16 ltac:(lia)). split.
  - unfold dirent_inum, ent_inum. rewrite <- (block_bytes s i (32 * k) 4); [|apply Hok|done|lia..]. change (Z.to_nat 4) with 4%nat. fold b.
    by destruct (drop _ (blk s b)) as [|? [|? [|? [|? ?]]]].
  - unfold dirent_name, ent_name. destruct (split_ofs (32 * k) 4 ltac:(lia) ltac:(lia) ltac:(lia)) as [E3 E4].
    rewrite <- (block_bytes s i (32 * k + 4) 28); rewrite ?E3, ?E4; [done|apply Hok|done|lia..].
Qed.

Lemma matches_ok s i name k : bufs_ok s -> name_ok name -> 0 <= k -> let b := fblk s i ((32 * k) `div` 512) in b <> 0 ->
  (0 <? dirent_inum (blk s b) ((32 * k) `mod` 512)) && (strncmp_name (Z.to_nat SFS_DIRENT_NAMELEN) (dirent_name (blk s b) ((32 * k) `mod` 512)) name =? 0) = matches s i name k.
Proof.
  intros Hok Hn Hk b Hb. destruct (dirent_ok s i k Hok Hk Hb) as [E1 E2]. fold b in E1, E2. rewrite E1, E2. unfold matches. f_equal. apply eq_true_iff_eq. rewrite Z.eqb_eq, bool_decide_eq_true.
  rewrite strncmp_name_0; [|apply Forall_fmap, Forall_true; intros o; by apply fbyte_range|done]. change (Z.to_nat SFS_DIRENT_NAMELEN) with 28%nat. rewrite (take_ge (cname _)); [done|].
  assert (Hc : forall l, (length (cname l) <= length l)%nat) by (induction l as [|c l IH]; simpl; [lia|]; destruct (c =? 0); simpl; lia).
  etransitivity; [apply Hc|]. unfold ent_name. rewrite length_fmap, length_seqZ. lia.
Qed.

(** ** The loops *)

(** The state at entry [k] of a loop that has [bh]. *)
Record at_ent (s : sfs) p i k (bh : option Z) : Prop := {
  a_inode : inodes s !! p = Some i;
  a_bufs : bufs_ok (bf s);
  a_dir : dir_ok (bf s) i;
  a_lock : locked (bf s) = match bh with Some b => {[b]} | None => ∅ end;
  a_bh : k `mod` 16 <> 0 -> bh = Some (fblk (bf s) i (k `div` 16));
}.

Lemma dir_ok_blocks s t i : blocks t = blocks s -> dir_ok s i -> dir_ok t i.
Proof.
  intros E [D1 D2 D3 D4]. split; [by apply (file_ok_blocks sb Hsb s)| |done|done]. intros n Hn Hlt. specialize (D2 n Hn Hlt). clear -D2 E. unfold fblk in *. destruct s, t. simpl in *. by subst.
Qed.

Lemma release_last_ok (s : sfs) bh : locked (bf s) = match bh with Some b => {[b]} | None => ∅ end ->
  release_last bh s = Ret tt (mkSfs (set_locked ∅ (bf s)) (inodes s)).
Proof.
  intros Hl. destruct bh as [b|]; simpl; [|rewrite <- Hl, set_locked_id; by destruct s]. unfold onb, zoom. rewrite blk_release_ok by (rewrite Hl; by apply elem_of_singleton).
  unfold set_bf. by rewrite Hl, difference_diag_L.
Qed.

Lemma next_block_ok (s : sfs) p i k bh : at_ent s p i k bh -> 0 <= k < num_ents i ->
  exists s' : sfs, let b := fblk (bf s) i ((32 * k) `div` 512) in next_block sb p (32 * k) bh false s = Ret (ERR_OK, Some b) s' /\ b <> 0 /\
    inodes s' = inodes s /\ blocks (bf s') = blocks (bf s) /\ bufs_ok (bf s') /\ locked (bf s') = {[b]}.
Proof.
  intros [Hp Hok [F Hd [Hs0 Hs] Hm] Hl Hbh] Hk. pose proof (ents_size i Hm) as Esz. destruct (ent_block k ltac:(lia)) as [E1 E2]. pose proof (Z.mod_pos_bound k 16 ltac:(lia)). pose proof (Z.div_mod (32 * k) 512 ltac:(lia)).
  assert (Hb : fblk (bf s) i ((32 * k) `div` 512) <> 0) by (apply Hd; [apply Z.div_pos; lia|]; pose proof (Z.mod_pos_bound (32 * k) 512 ltac:(lia)); lia).
  unfold next_block. change BDEV_BLK_SIZE with 512. destruct (Z.eqb_spec ((32 * k) `mod` 512) 0) as [E0|E0].
  - change (match bh with Some b => onb (blk_release b) | None => ret tt end) with (release_last bh). rewrite (bind_Ret _ _ _ _ _ (release_last_ok s bh Hl)). set (s1 := mkSfs _ _).
    destruct (get_data_block_ok sb Hsb s1 p i (32 * k) false) as (e & b & s2 & i2 & E & [S1 K] & Hcase); [done|done|by apply (file_ok_blocks sb Hsb (bf s))|done|lia|]. rewrite (bind_Ret _ _ _ _ _ E).
    destruct (k_same _ _ _ _ _ _ K eq_refl) as [-> Hbl]. destruct Hcase as [(-> & -> & Hz & Hl2)|(-> & Hz & _)]; [|by destruct Hb].
    assert (Ef : fblk (bf s2) i ((32 * k) `div` 512) = fblk (bf s) i ((32 * k) `div` 512)) by (clear -Hbl; unfold fblk; simpl in Hbl; destruct (bf s2), (bf s); simpl in *; by subst).
    exists s2. cbv zeta. rewrite Ef in *. split; [done|]. split; [done|]. split; [by rewrite S1, insert_id|]. split; [done|]. split; [apply K|done].
  - exists s. cbv zeta. rewrite E1 in *. specialize (Hbh ltac:(lia)). subst bh. done.
Qed.

(** The state for the next entry. *)
Lemma at_ent_next (s s' : sfs) p i k bh : at_ent s p i k bh -> 0 <= k -> let b := fblk (bf s) i ((32 * k) `div` 512) in
  inodes s' = inodes s -> blocks (bf s') = blocks (bf s) -> bufs_ok (bf s') -> locked (bf s') = {[b]} -> at_ent s' p i (k + 1) (Some b).
Proof.
  intros [Hp Hok D Hl Hbh] Hk b E1 E2 Hok' Hl'. split; [by rewrite E1|done|by apply (dir_ok_blocks (bf s))|done|]. intros Hm. f_equal. unfold b. destruct (ent_block k Hk) as [-> _].
  assert (Ef : fblk (bf s') i (k `div` 16) = fblk (bf s) i (k `div` 16)) by (clear -E2; unfold fblk; destruct (bf s'), (bf s); simpl in *; by subst). rewrite <- Ef. f_equal.
  pose proof (Z.div_mod k 16 ltac:(lia)). pose proof (Z.mod_pos_bound k 16 ltac:(lia)). pose proof (Z.div_mod (k + 1) 16 ltac:(lia)). pose proof (Z.mod_pos_bound (k + 1) 16 ltac:(lia)). lia.
Qed.

Lemma ent_blocks s t i k : blocks t = blocks s -> ent_inum t i k = ent_inum s i k /\ ent_name t i k = ent_name s i k.
Proof. destruct s, t. simpl. by intros ->. Qed.

Lemma matches_blocks s t i name k : blocks t = blocks s -> matches t i name k = matches s i name k.
Proof. destruct s, t. simpl. by intros ->. Qed.

Lemma find_ext {A} (f g : A -> bool) l : (forall x, f x = g x) -> List.find f l = List.find g l.
Proof. intros H. induction l as [|x l IH]; simpl; [done|]. by rewrite H, IH. Qed.

(** The step of a loop over the entries: at entry [k] the loop has the block of
    the entry, and goes on with the next one or releases it. *)
Lemma loop_step (s : sfs) p i k bh : at_ent s p i k bh -> 0 <= k < num_ents i ->
  exists s1 : sfs, let b := fblk (bf s) i ((32 * k) `div` 512) in next_block sb p (32 * k) bh false s = Ret (ERR_OK, Some b) s1 /\ b ∈ locked (bf s1) /\
    b = fblk (bf s1) i ((32 * k) `div` 512) /\ b <> 0 /\ bufs_ok (bf s1) /\ inodes s1 = inodes s /\ blocks (bf s1) = blocks (bf s) /\ locked (bf s1) = {[b]} /\
    at_ent s1 p i (k + 1) (Some b) /\ u64 (32 * k + sizeof_sfs_dirent) = 32 * (k + 1).
Proof.
  intros A Hk. pose proof (next_block_ok s p i k bh A Hk) as (s1 & E & Hb & H1 & H2 & H3 & H4). pose proof (at_ent_next s s1 p i k bh A ltac:(lia) H1 H2 H3 H4) as A1.
  pose proof (a_dir _ _ _ _ _ A) as [_ _ [_ Hs] Hm]. rewrite max_size in Hs. pose proof (ents_size i Hm).
  exists s1. cbv zeta in *. split; [done|]. split; [rewrite H4; by apply elem_of_singleton|]. split; [clear -H2; unfold fblk; destruct (bf s1), (bf s); simpl in *; by subst|].
  split_and!; try done. unfold sizeof_sfs_dirent. rewrite wrap_small by lia. lia.
Qed.

Lemma dir_end (s : sfs) p i k bh : at_ent s p i k bh -> 0 <= k -> (32 * k <? i_size i) = (k <? num_ents i).
Proof. intros A Hk. pose proof (ents_size i (d_ents _ _ (a_dir _ _ _ _ _ A))). bool_lia. Qed.

Lemma search_loop_ok p i name fuel : name_ok name -> forall (s : sfs) k bh, at_ent s p i k bh -> 0 <= k <= num_ents i -> (Z.to_nat (num_ents i - k) < fuel)%nat ->
  exists s' : sfs, search_loop sb fuel p name (32 * k) bh s = Ret (match List.find (matches (bf s) i name) (seqZ k (num_ents i - k)) with Some k' => ent_inum (bf s) i k' | None => 0 end) s' /\
    inodes s' = inodes s /\ blocks (bf s') = blocks (bf s) /\ locked (bf s') = ∅.
Proof.
  intros Hn. induction fuel as [|fuel IH]; intros s k bh A Hk Hf; [lia|]. cbn [search_loop]. rewrite (bind_geti _ _ _ _ (a_inode _ _ _ _ _ A)), (dir_end s p i k bh A) by lia.
  destruct (Z.ltb_spec k (num_ents i)) as [Hlt|Hge]; cbn [negb].
  2: { rewrite (bind_Ret _ _ _ _ _ (release_last_ok s bh (a_lock _ _ _ _ _ A))), seqZ_nil by lia. eexists. split; [done|]. done. }
  destruct (loop_step s p i k bh A ltac:(lia)) as (s1 & E & Hbl & Eb & Hb & Hok & H1 & H2 & H3 & A1 & Ew). cbv zeta in *. set (b := fblk (bf s) i _) in *.
  rewrite (bind_Ret _ _ _ _ _ E). cbn [negb Z.eqb ERR_OK fst snd of_option]. rewrite bind_ret, (rdata_onb _ b) by done. change BDEV_BLK_SIZE with 512.
  rewrite Eb, matches_ok, (matches_blocks (bf s)) by (done || lia || by rewrite <- Eb). rewrite seqZ_cons by lia. cbn [List.find]. destruct (matches (bf s) i name k) eqn:Em.
  - rewrite <- Eb. erewrite bind_onb by (apply blk_release_ok; exact Hbl). rewrite Eb, (proj1 (dirent_ok (bf s1) i k Hok ltac:(lia) ltac:(by rewrite <- Eb))), (proj1 (ent_blocks (bf s) (bf s1) i k H2)).
    eexists. split; [done|]. split; [done|]. split; [done|]. simpl. rewrite H3, <- Eb. apply difference_diag_L.
  - rewrite <- Eb, Ew. destruct (IH s1 (k + 1) (Some b) A1 ltac:(lia) ltac:(lia)) as (s' & E' & I1 & I2 & I3). exists s'. rewrite E'. split; [|split_and!; congruence].
    replace (Z.pred (num_ents i - k)) with (num_ents i - (k + 1)) by lia. change (Z.succ k) with (k + 1). rewrite (find_ext _ (matches (bf s) i name)) by (intros x; by apply matches_blocks).
    destruct (List.find (matches (bf s) i name) _) as [k'|]; [|reflexivity]. rewrite (proj1 (ent_blocks (bf s) (bf s1) i k' H2)). reflexivity.
Qed.

Lemma at_start (s : sfs) p i : inodes s !! p = Some i -> bufs_ok (bf s) -> dir_ok (bf s) i -> locked (bf s) = ∅ -> at_ent s p i 0 None.
Proof. by intros. Qed.

Lemma dir_fuel_ok {B} (s : sfs) p i (f : nat -> M sfs B) : inodes s !! p = Some i -> bind (dir_fuel p) f s = f (Z.to_nat (num_ents i + 2)) s.
Proof. intros Hp. unfold dir_fuel. by rewrite bind_assoc, (bind_geti _ _ _ _ Hp). Qed.

(** [is_dir_empty] looks for an entry in use. *)
Definition dir_empty (s : bufs) i : bool := forallb (fun k => negb (0 <? ent_inum s i k)) (seqZ 0 (num_ents i)).

Lemma empty_loop_ok p i fuel : forall (s : sfs) k bh, at_ent s p i k bh -> 0 <= k <= num_ents i -> (Z.to_nat (num_ents i - k) < fuel)%nat ->
  exists s' : sfs, empty_loop sb fuel p (32 * k) bh s = Ret (ERR_OK, forallb (fun k => negb (0 <? ent_inum (bf s) i k)) (seqZ k (num_ents i - k))) s' /\
    inodes s' = inodes s /\ blocks (bf s') = blocks (bf s) /\ locked (bf s') = ∅.
Proof.
  induction fuel as [|fuel IH]; intros s k bh A Hk Hf; [lia|]. cbn [empty_loop]. rewrite (bind_geti _ _ _ _ (a_inode _ _ _ _ _ A)), (dir_end s p i k bh A) by lia.
  destruct (Z.ltb_spec k (num_ents i)) as [Hlt|Hge]; cbn [negb].
  2: { rewrite (bind_Ret _ _ _ _ _ (release_last_ok s bh (a_lock _ _ _ _ _ A))), seqZ_nil by lia. eexists. split; [done|]. done. }
  destruct (loop_step s p i k bh A ltac:(lia)) as (s1 & E & Hbl & Eb & Hb & Hok & H1 & H2 & H3 & A1 & Ew). cbv zeta in *. set (b := fblk (bf s) i _) in *.
  rewrite (bind_Ret _ _ _ _ _ E). cbn [negb Z.eqb ERR_OK fst snd of_option]. rewrite bind_ret, (rdata_onb _ b) by done. change BDEV_BLK_SIZE with 512.
  rewrite Eb, (proj1 (dirent_ok (bf s1) i k Hok ltac:(lia) ltac:(by rewrite <- Eb))), (proj1 (ent_blocks (bf s) (bf s1) i k H2)). rewrite seqZ_cons by lia. cbn [forallb]. destruct (0 <? ent_inum (bf s) i k) eqn:Em; cbn [negb andb].
  - rewrite <- Eb. erewrite bind_onb by (apply blk_release_ok; exact Hbl). eexists. split; [done|]. split; [done|]. split; [done|]. simpl. rewrite H3. apply difference_diag_L.
  - rewrite <- Eb, Ew. destruct (IH s1 (k + 1) (Some b) A1 ltac:(lia) ltac:(lia)) as (s' & E' & I1 & I2 & I3). exists s'. rewrite E'. split; [|split_and!; congruence].
    replace (Z.pred (num_ents i - k)) with (num_ents i - (k + 1)) by lia. change (Z.succ k) with (k + 1). do 2 f_equal. clear -H2. induction (seqZ _ _) as [|x l IHl]; [reflexivity|]. cbn [forallb]. by rewrite (proj1 (ent_blocks (bf s) (bf s1) i x H2)), IHl.
Qed.

(** The directory after entry [k] was freed. *)
Record freed (s : bufs) i k (s' : bufs) : Prop := {
  fr_dir : dir_ok s' i;
  fr_grow : grow sb s i s' i;
  fr_inum : forall k', 0 <= k' < num_ents i -> ent_inum s' i k' = if k' =? k then 0 else ent_inum s i k';
  fr_name : forall k', 0 <= k' < num_ents i -> ent_name s' i k' = ent_name s i k';
}.

Lemma freed_ok s i k : bufs_ok s -> dir_ok s i -> 0 <= k < num_ents i ->
  let b := fblk s i ((32 * k) `div` 512) in freed s i k (setb b (splice (Z.to_nat ((32 * k) `mod` 512)) (le32 0) (blk s b)) s).
Proof.
  intros Hok D Hk b. pose proof D as [F Hd [Hs0 Hs] Hm]. pose proof (ents_size i Hm) as Esz. destruct (ent_block k ltac:(lia)) as [E1 E2]. pose proof (Z.mod_pos_bound k 16 ltac:(lia)) as Hk16.
  pose proof (Z.div_mod (32 * k) 512 ltac:(lia)) as Hdk. assert (Hn : 0 <= (32 * k) `div` 512 < 268) by (apply (ofs_block (32 * k)); lia).
  assert (Hb : b <> 0) by (apply Hd; [lia|]; pose proof (Z.mod_pos_bound (32 * k) 512 ltac:(lia)); lia). set (d := splice _ _ _).
  destruct (write_block_ok sb Hsb s i ((32 * k) `div` 512) d F Hn Hb) as (F' & G' & A' & B'). cbv zeta in *. fold b in F', G', A', B'. set (s' := setb b d s) in *.
  assert (Hbyte : forall o, 0 <= o < i_size i -> fbyte s' i o = if (32 * k <=? o) && (o <? 32 * k + 4) then 0 else fbyte s i o).
  { intros o Ho. rewrite B' by lia. pose proof (Z.div_mod o 512 ltac:(lia)) as Hdo. pose proof (Z.mod_pos_bound o 512 ltac:(lia)) as Hmo. destruct (proj1 Hok b) as [Hlen _].
    destruct (Z.eqb_spec (o `div` 512) ((32 * k) `div` 512)) as [Eq|Hne].
    - destruct (Z.leb_spec (32 * k) o), (Z.ltb_spec o (32 * k + 4)); cbn [andb].
      1: { unfold d. replace (Z.to_nat (o `mod` 512)) with (Z.to_nat ((32 * k) `mod` 512) + Z.to_nat (o - 32 * k))%nat by lia. rewrite splice_lookup by (simpl; lia).
           assert (Hx : o - 32 * k = 0 \/ o - 32 * k = 1 \/ o - 32 * k = 2 \/ o - 32 * k = 3) by lia. by destruct Hx as [-> |[-> |[-> | ->]]]. }
      all: unfold d; rewrite splice_lookup_ne by (simpl; lia); unfold fbyte; rewrite Eq; fold b; by rewrite (proj2 (Z.eqb_neq b 0)).
    - destruct (Z.leb_spec (32 * k) o), (Z.ltb_spec o (32 * k + 4)); cbn [andb]; try done. exfalso. apply Hne. lia. }
  split; [split; [done| |done|done]|done| |].
  - intros n Hn' Hlt. unfold fblk. rewrite max_size in Hs. rewrite A' by (apply slot_range; lia). by apply Hd.
  - intros k' Hk'. unfold ent_inum. destruct (Z.eqb_spec k' k) as [->|Hne].
    + rewrite !seqZ_cons, seqZ_nil by lia. simpl. rewrite !Hbyte by lia. rewrite !(proj2 (Z.leb_le (32 * k) _)), !(proj2 (Z.ltb_lt _ (32 * k + 4))) by lia. done.
    + f_equal. apply list_fmap_ext. intros x o [-> Hx]%lookup_seqZ. rewrite Hbyte by lia. destruct (Z.leb_spec (32 * k) (32 * k' + Z.of_nat x)), (Z.ltb_spec (32 * k' + Z.of_nat x) (32 * k + 4)); (done || lia).
  - intros k' Hk'. apply list_fmap_ext. intros x o [-> Hx]%lookup_seqZ. rewrite Hbyte by lia. destruct (Z.leb_spec (32 * k) (32 * k' + 4 + Z.of_nat x)), (Z.ltb_spec (32 * k' + 4 + Z.of_nat x) (32 * k + 4)); (done || lia).
Qed.

Lemma freed_blocks s t i k s' t' : blocks t = blocks s -> blocks t' = blocks s' -> freed s i k s' -> freed t i k t'.
Proof.
  intros E E' [D G H1 H2]. split; [by apply (dir_ok_blocks s')|apply (grow_blocks sb Hsb t i s'); [done|]; by apply (grow_blocks_l sb Hsb s)| |].
  - intros k' Hk'. rewrite (proj1 (ent_blocks s' t' i k' E')), (proj1 (ent_blocks s t i k' E)). by apply H1.
  - intros k' Hk'. rewrite (proj2 (ent_blocks s' t' i k' E')), (proj2 (ent_blocks s t i k' E)). by apply H2.
Qed.

Lemma free_loop_ok p i name fuel : name_ok name -> forall (s : sfs) k bh, at_ent s p i k bh -> 0 <= k <= num_ents i -> (Z.to_nat (num_ents i - k) < fuel)%nat ->
  exists e (s' : sfs), free_dirent_loop sb fuel p name (32 * k) bh s = Ret e s' /\ inodes s' = inodes s /\ locked (bf s') = ∅ /\
    match List.find (matches (bf s) i name) (seqZ k (num_ents i - k)) with
    | Some k' => e = ERR_OK /\ freed (bf s) i k' (bf s')
    | None => e = ERR_NOTEXIST /\ blocks (bf s') = blocks (bf s)
    end.
Proof.
  intros Hn. induction fuel as [|fuel IH]; intros s k bh A Hk Hf; [lia|]. cbn [free_dirent_loop]. rewrite (bind_geti _ _ _ _ (a_inode _ _ _ _ _ A)), (dir_end s p i k bh A) by lia.
  destruct (Z.ltb_spec k (num_ents i)) as [Hlt|Hge]; cbn [negb].
  2: { rewrite (bind_Ret _ _ _ _ _ (release_last_ok s bh (a_lock _ _ _ _ _ A))), seqZ_nil by lia. eexists _, _. split; [done|]. done. }
  destruct (loop_step s p i k bh A ltac:(lia)) as (s1 & E & Hbl & Eb & Hb & Hok & H1 & H2 & H3 & A1 & Ew). cbv zeta in *. set (b := fblk (bf s) i _) in *.
  rewrite (bind_Ret _ _ _ _ _ E). cbn [negb Z.eqb ERR_OK fst snd of_option]. rewrite bind_ret, (rdata_onb _ b) by done. change BDEV_BLK_SIZE with 512. rewrite seqZ_cons by lia. cbn [List.find].
  assert (Em : (0 <? dirent_inum (blk (bf s1) b) ((32 * k) `mod` 512)) && (strncmp_name (Z.to_nat SFS_DIRENT_NAMELEN) (dirent_name (blk (bf s1) b) ((32 * k) `mod` 512)) name =? 0) = matches (bf s) i name k).
  { rewrite Eb, matches_ok, (matches_blocks (bf s)) by (done || lia || by rewrite <- Eb). done. }
  rewrite Em. destruct (matches (bf s) i name k).
  - erewrite bind_onb by (apply wdata_ok; exact Hbl). erewrite bind_onb by (apply blk_release_ok; exact Hbl). eexists _, _. split; [done|]. split; [done|]. split; [simpl; rewrite H3; apply difference_diag_L|].
    split; [done|]. pose proof (freed_ok (bf s1) i k Hok (dir_ok_blocks _ _ _ H2 (a_dir _ _ _ _ _ A)) ltac:(lia)) as Hfr. cbv zeta in Hfr. rewrite <- Eb in Hfr. eapply (freed_blocks (bf s1) (bf s) i k); [by symmetry| |exact Hfr]. reflexivity.
  - rewrite Ew. destruct (IH s1 (k + 1) (Some b) A1 ltac:(lia) ltac:(lia)) as (e & s' & E' & I1 & I2 & I3). exists e, s'. rewrite E'. split; [done|]. split; [congruence|]. split; [done|].
    replace (Z.pred (num_ents i - k)) with (num_ents i - (k + 1)) by lia. change (Z.succ k) with (k + 1). rewrite (find_ext _ (matches (bf s) i name)) in I3 by (intros x; by apply matches_blocks).
    destruct (List.find (matches (bf s) i name) _) as [k'|]; destruct I3 as [-> I3]; (split; [reflexivity|]); [by apply (freed_blocks (bf s1) (bf s) i k' (bf s') (bf s') (eq_sym H2) eq_refl)|congruence].
Qed.

Lemma search_dir_ok (s : sfs) p i name :
  inodes s !! p = Some i -> bufs_ok (bf s) -> dir_ok (bf s) i -> locked (bf s) = ∅ -> name_ok name ->
  exists s' : sfs, search_dir sb p name s = Ret (dir_find (bf s) i name) s' /\ inodes s' = inodes s /\ blocks (bf s') = blocks (bf s) /\ locked (bf s') = ∅.
Proof.
  intros Hp Hok D Hl Hn. unfold search_dir. rewrite (dir_fuel_ok _ _ _ _ Hp). pose proof (d_size _ _ D). pose proof (ents_size i (d_ents _ _ D)).
  destruct (search_loop_ok p i name (Z.to_nat (num_ents i + 2)) Hn s 0 None (at_start s p i Hp Hok D Hl) ltac:(lia) ltac:(lia)) as (s' & E & H'). rewrite Z.sub_0_r in E. eauto.
Qed.

(** C22. [search_dir] terminates and finds what the reference search finds in the
    entries of the directory: the inode number of the first entry in use
    whose name agrees with the given one in 28 bytes, or 0. *)
Theorem search_dir_correct (s : sfs) p i name :
  inodes s !! p = Some i -> bufs_ok (bf s) -> dir_ok (bf s) i -> locked (bf s) = ∅ -> name_ok name ->
  exists s' : sfs, search_dir sb p name s = Ret (dir_find (bf s) i name) s' /\ inodes s' = inodes s /\ blocks (bf s') = blocks (bf s) /\ locked (bf s') = ∅.
Proof. apply search_dir_ok. Qed.

(** [free_dirent] frees exactly the entry that the reference search finds:
    every other entry, the names and every other file stay; without such an
    entry it reports ERR_NOTEXIST and changes nothing. *)
Theorem free_dirent_correct (s : sfs) p i name :
  inodes s !! p = Some i -> bufs_ok (bf s) -> dir_ok (bf s) i -> locked (bf s) = ∅ -> name_ok name ->
  exists e (s' : sfs), free_dirent sb p name s = Ret e s' /\ inodes s' = inodes s /\ locked (bf s') = ∅ /\
    match dir_index (bf s) i name with
    | None => e = ERR_NOTEXIST /\ blocks (bf s') = blocks (bf s)
    | Some k => e = ERR_OK /\ dir_ok (bf s') i /\ (forall k', 0 <= k' < num_ents i -> ent_inum (bf s') i k' = if k' =? k then 0 else ent_inum (bf s) i k') /\
        (forall k', 0 <= k' < num_ents i -> ent_name (bf s') i k' = ent_name (bf s) i k') /\
        (forall j, file_ok sb (bf s) j -> apart (bf s) i j -> forall o, 0 <= o < SFS_MAX_FILE_SIZE -> fbyte (bf s') j o = fbyte (bf s) j o)
    end.
Proof.
  intros Hp Hok D Hl Hn. unfold free_dirent. rewrite (dir_fuel_ok _ _ _ _ Hp). pose proof (d_size _ _ D). pose proof (ents_size i (d_ents _ _ D)).
  destruct (free_loop_ok p i name (Z.to_nat (num_ents i + 2)) Hn s 0 None (at_start s p i Hp Hok D Hl) ltac:(lia) ltac:(lia)) as (e & s' & E & H1 & H2 & H3). rewrite Z.sub_0_r in H3.
  exists e, s'. split; [done|]. split; [done|]. split; [done|]. unfold dir_index. destruct (List.find (matches (bf s) i name) _) as [k|]; [|done]. destruct H3 as [-> [D' G' I' N']].
  split_and!; try done. intros j Hj Hap. by apply (grow_apart sb Hsb (bf s) i (bf s') i j Hj Hap (d_file _ _ D') G').
Qed.

(** [is_dir_empty] tells whether an entry is in use. *)
Lemma is_dir_empty_ok (s : sfs) p i : inodes s !! p = Some i -> bufs_ok (bf s) -> dir_ok (bf s) i -> locked (bf s) = ∅ ->
  exists s' : sfs, is_dir_empty sb p s = Ret (ERR_OK, dir_empty (bf s) i) s' /\ inodes s' = inodes s /\ blocks (bf s') = blocks (bf s) /\ locked (bf s') = ∅.
Proof.
  intros Hp Hok D Hl. unfold is_dir_empty. rewrite (dir_fuel_ok _ _ _ _ Hp). pose proof (d_size _ _ D). pose proof (ents_size i (d_ents _ _ D)).
  destruct (empty_loop_ok p i (Z.to_nat (num_ents i + 2)) s 0 None (at_start s p i Hp Hok D Hl) ltac:(lia) ltac:(lia)) as (s' & E & H'). rewrite Z.sub_0_r in E. eauto.
Qed.

End dirs.

(** ** Storing an entry *)

Lemma strncpy_short n : forall name, (length name < n)%nat -> strncpy_name n name = name ++ replicate (n + 1 - length name) 0.
Proof.
  induction n as [|n IH]; intros name H; [lia|]. destruct name as [|c name]; cbn [strncpy_name app length]; [by replace (S n + 1 - 0)%nat with (S (S n)) by lia|]. f_equal. simpl in H. rewrite IH by lia. reflexivity.
Qed.

Lemma store_fits s b o l : b ∈ locked s -> 0 <= o -> o + Z.of_nat (length l) <= 512 -> store_bytes b o l s = Ret tt (setb b (splice (Z.to_nat o) l (blk s b)) s).
Proof.
  intros Hb Ho Hl. unfold store_bytes. rewrite rdata_ok by done. rewrite bind_wdata by done. rewrite (drop_ge l), (take_ge l) by lia. done.
Qed.

Lemma of_le32_lookup d (k : nat) x0 x1 x2 x3 : d !! k = Some x0 -> d !! (k + 1)%nat = Some x1 -> d !! (k + 2)%nat = Some x2 -> d !! (k + 3)%nat = Some x3 ->
  of_le32 (drop k d) = x0 + 256 * (x1 + 256 * (x2 + 256 * x3)).
Proof.
  intros H0 H1 H2 H3. rewrite (drop_S _ x0 k), (drop_S _ x1 (S k)), (drop_S _ x2 (S (S k))), (drop_S _ x3 (S (S (S k)))); [done|..]; rewrite <- ?H0, <- ?H1, <- ?H2, <- ?H3; f_equal; lia.
Qed.

Lemma cname_app name n : name_ok name -> cname (name ++ replicate (S n) 0) = name.
Proof. induction 1 as [|c name Hc _ IH]; simpl; [done|]. rewrite (proj2 (Z.eqb_neq c 0)) by lia. by f_equal. Qed.

(** Storing an entry with a name of at most 27 bytes gives the entry its
    inode number and name, and clears the low byte of the inode number of the
    entry after it: if that number is below 256, the entry is gone. *)
Theorem write_dirent_clobbers_next s b o inum name :
  b ∈ locked s -> bytes_ok (blk s b) -> 0 <= o -> o + 64 <= 512 -> 0 <= inum < 2 ^ 32 -> name_ok name -> (length name < 28)%nat ->
  exists s', write_dirent b o inum name s = Ret tt s' /\ dirent_inum (blk s' b) o = inum /\ cname (dirent_name (blk s' b) o) = name /\
    dirent_inum (blk s' b) (o + 32) = dirent_inum (blk s b) (o + 32) `div` 256 * 256.
Proof.
  intros Hb [Hlen Hf] Ho Ho2 Hi Hn Hl. unfold write_dirent. rewrite (bind_Ret _ _ _ _ _ (store_fits s b o (le32 inum) Hb Ho ltac:(simpl; lia))).
  change (Z.to_nat SFS_DIRENT_NAMELEN) with 28%nat. rewrite strncpy_short by done. set (l := name ++ _). assert (Hll : length l = 29%nat) by (subst l; rewrite length_app, length_replicate; lia).
  erewrite bind_Ret by (apply (store_fits _ b (o + 4) l); [exact Hb|lia|lia]). rewrite store_fits by (exact Hb || (unfold SFS_DIRENT_NAMELEN; simpl; lia)). eexists. split; [reflexivity|]. rewrite !blk_set, !Z.eqb_refl.
  set (d := blk s b) in *. set (d1 := splice (Z.to_nat o) (le32 inum) d). set (d2 := splice (Z.to_nat (o + 4)) l d1). set (d3 := splice _ [0] d2).
  assert (L1 : length d1 = 512%nat) by (subst d1; rewrite length_splice by (simpl; lia); done). assert (L2 : length d2 = 512%nat) by (subst d2; rewrite length_splice by lia; done).
  assert (Hd3 : forall k : nat, d3 !! k = if decide (k = Z.to_nat (o + 31)) then Some 0 else d2 !! k).
  { intros k. subst d3. unfold SFS_DIRENT_NAMELEN. replace (Z.to_nat (o + 4 + 28 - 1)) with (Z.to_nat (o + 31)) by lia. case_decide as E.
    - replace k with (Z.to_nat (o + 31) + 0)%nat by lia. rewrite splice_lookup by (simpl; lia). done.
    - apply splice_lookup_ne; simpl; lia. }
  assert (Hname : forall k : nat, (k < 29)%nat -> d2 !! (Z.to_nat (o + 4) + k)%nat = l !! k) by (intros k Hk; apply splice_lookup; lia).
  assert (Hl0 : forall k : nat, (length name <= k < 29)%nat -> l !! k = Some 0) by (intros k Hk; subst l; rewrite lookup_app_r by lia; apply lookup_replicate_2; lia).
  split; [|split].
  - unfold dirent_inum. rewrite <- (of_le32_le32 inum (drop (Z.to_nat o + 4) d)) by done. apply of_le32_ext. intros k Hk. rewrite lookup_drop, Hd3, decide_False by lia. subst d2.
    rewrite splice_lookup_ne by lia. subst d1. rewrite splice_lookup by (simpl; lia). rewrite lookup_app_l by (simpl; lia). done.
  - unfold dirent_name. transitivity (cname (name ++ replicate (S (27 - length name)) 0)); [f_equal|by apply cname_app]. apply list_eq. intros k. destruct (decide (k < 28)%nat) as [Hk|Hk].
    + rewrite lookup_take_lt, lookup_drop, Hd3 by lia. replace (name ++ replicate (S (27 - length name)) 0) with (take 28 l) by (subst l; rewrite take_app_ge, take_replicate by lia; do 2 f_equal; lia). rewrite lookup_take_lt by lia.
      case_decide as E; [rewrite Hl0 by lia; done|apply Hname; lia].
    + rewrite lookup_take_ge by lia. symmetry. apply lookup_ge_None. rewrite length_app, length_replicate. lia.
  - unfold dirent_inum. set (k := Z.to_nat (o + 32)). assert (Hx : forall j, (j < 4)%nat -> is_Some (d !! (k + j)%nat)) by (intros j Hj; apply lookup_lt_is_Some_2; lia).
    destruct (Hx 0%nat ltac:(lia)) as [x0 E0], (Hx 1%nat ltac:(lia)) as [x1 E1], (Hx 2%nat ltac:(lia)) as [x2 E2], (Hx 3%nat ltac:(lia)) as [x3 E3]. rewrite Nat.add_0_r in E0.
    assert (Hsame : forall j, (1 <= j < 4)%nat -> d3 !! (k + j)%nat = d !! (k + j)%nat).
    { intros j Hj. rewrite Hd3, decide_False by lia. subst d2. rewrite splice_lookup_ne by lia. subst d1. apply splice_lookup_ne; simpl; lia. }
    assert (Hz : d3 !! k = Some 0). { rewrite Hd3, decide_False by lia. replace k with (Z.to_nat (o + 4) + 28)%nat by lia. rewrite Hname by lia. apply Hl0. lia. }
    rewrite (of_le32_lookup d3 k 0 x1 x2 x3), (of_le32_lookup d k x0 x1 x2 x3) by (rewrite ?Hsame by lia; done). pose proof (Forall_lookup_1 _ _ _ _ Hf E0) as Hx0. simpl in Hx0.
    rewrite (Z.mul_comm 256), Z.div_add, (Z.div_small x0) by lia. lia.
Qed.

(** ** A small directory *)

Definition ex_name (c : Z) : list Z := [102; c].
Definition ex_dir_block : block := le32 5 ++ ex_name 97 ++ replicate 26 0 ++ le32 6 ++ ex_name 98 ++ replicate 26 0 ++ replicate 448 0.
Definition ex_dir : inode := mkInode 1 1 1 FTYPE_DIR 5 64 (17 :: replicate 13 0) 1 false.
Definition ex_dirs (l : list bool) : sfs := mkSfs (put_inode ex_dir (setb 17 ex_dir_block (setb 14 ex_bmap1 (setb 3 ex_bmap1 (mkBufs ∅ ∅ ∅ l))))) {[100 := ex_dir]}.

Lemma ex_dirs_ok : bufs_ok (bf (ex_dirs [])) /\ dir_ok ex_sb (bf (ex_dirs [])) ex_dir.
Proof.
  split.
  - apply (put_inode_ok ex_sb ex_sb_ok); [|vm_compute; done|done]. assert (Hb : forall d, bool_decide (bytes_ok d) = true -> bytes_ok d) by (intros d; apply bool_decide_eq_true_1).
    repeat apply setb_ok; [|by apply Hb; vm_compute..]. split; [intros b; apply zeros_ok|done].
  - split; [apply (file_check_ok ex_sb ex_sb_ok); vm_compute; reflexivity| |simpl; rewrite max_size; lia|by exists 2]. intros n Hn Hlt. simpl in Hlt. assert (n = 0) as -> by lia. vm_compute. discriminate.
Qed.

Lemma search_dir_correct_witness : exists s' : sfs, search_dir ex_sb 100 (ex_name 98) (ex_dirs []) = Ret 6 s'.
Proof.
  destruct ex_dirs_ok as [Hok D]. destruct (search_dir_correct ex_sb ex_sb_ok (ex_dirs []) 100 ex_dir (ex_name 98)) as (s' & E & _); [done|exact Hok|exact D|done|repeat constructor; lia|].
  exists s'. rewrite E. f_equal.
Defined.

Lemma free_dirent_correct_witness : exists s' : sfs, free_dirent ex_sb 100 (ex_name 98) (ex_dirs []) = Ret ERR_OK s' /\ ent_inum (bf s') ex_dir 0 = 5 /\ ent_inum (bf s') ex_dir 1 = 0.
Proof.
  destruct ex_dirs_ok as [Hok D]. destruct (free_dirent_correct ex_sb ex_sb_ok (ex_dirs []) 100 ex_dir (ex_name 98)) as (e & s' & E & _ & _ & H); [done|exact Hok|exact D|done|repeat constructor; lia|].
  change (dir_index (bf (ex_dirs [])) ex_dir (ex_name 98)) with (Some 1) in H. destruct H as (-> & _ & H & _). exists s'. split; [exact E|]. rewrite !H by (vm_compute; done). done.
Defined.

Lemma write_dirent_clobbers_next_witness : exists s', write_dirent 17 0 7 (ex_name 99) (set_locked {[17]} (bf (ex_dirs []))) = Ret tt s' /\ dirent_inum (blk s' 17) 32 = 0.
Proof.
  destruct (write_dirent_clobbers_next (set_locked {[17]} (bf (ex_dirs []))) 17 0 7 (ex_name 99)) as (s' & E & _ & _ & H); [set_solver|apply (proj1 ex_dirs_ok)|lia|lia|lia|repeat constructor; lia|simpl; lia|].
  exists s'. split; [exact E|]. etransitivity; [exact H|]. reflexivity.
Defined.

End SfsDir.
