(* ===== verification/Fs.v ===== *)
(** * The file system interface: kernel/fs/fs.c

    The inode cache, path names and open files over the simple file system, and
    those operations of kernel/fs/sfs/sfs.c that go through the inode cache.
    There is one mounted file system; its operations tables are those of the
    simple file system, so a call through [s_ops], [i_ops] or [f_ops] is a call
    of the sfs function.  The journal is switched off, so that beginning and
    ending a transaction return at once.  The model follows one thread: a
    sleeplock that is held makes it wait. *)

From S2P Require Import Prelude Lib Alloc RadixTree Bdev Bufs Sfs SfsFile SfsDir.
Local Open Scope kernel_scope.
Set Default Proof Using "Type".
Import Bits Bufs Sfs SfsFile SfsDir.

Module Fs.

Definition MAX_FILENAME_LEN : Z := 64.
Definition FMODE_R : Z := 4.
Definition FMODE_X : Z := 1.
Definition FS_RDONLY : Z := 0.
Definition FS_WRONLY : Z := 1.
Definition FS_RDWR : Z := 2.
Definition FS_CREAT : Z := 256.
Definition ERR_RADIX_TREE_ALLOC : err_t := 1.

(** ** Path names

    A path is the list of its bytes before the terminating 0. *)

Definition slash : Z := 47.
Fixpoint skip_slashes (path : list Z) : list Z :=
  match path with c :: path' => if c =? slash then skip_slashes path' else path | [] => [] end.
(** The bytes up to the next slash, and what is left. *)
Fixpoint split_element (path : list Z) : list Z * list Z :=
  match path with
  | [] => ([], [])
  | c :: path' => if c =? slash then ([], path) else let '(e, rest) := split_element path' in (c :: e, rest)
  end.
(** The path that follows, and the name. *)
Definition path_next_element (path : list Z) : list Z * list Z :=
  match skip_slashes path with
  | [] => ([], [])
  | path =>
      let '(e, rest) := split_element path in
      (skip_slashes rest, take (Z.to_nat (Z.min (Z.of_nat (length e)) (MAX_FILENAME_LEN - 1))) e)
  end.

Definition validate_flag (flags : Z) : bool :=
  let f := Z.land flags (Z.lnot FS_CREAT) in (f =? FS_RDONLY) || (f =? FS_WRONLY) || (f =? FS_RDWR).

Record file := mkFile { f_ref : Z; oflag : Z; f_inode : Z; f_pos : Z; f_lock : bool }.
Definition set_f_ref (x : Z) (f : file) : file := mkFile x (oflag f) (f_inode f) (f_pos f) (f_lock f).
Definition set_f_pos (x : Z) (f : file) : file := mkFile (f_ref f) (oflag f) (f_inode f) x (f_lock f).

Section fs.
Context {A : Type} `{!ObjAlloc A} {T : Type} `{!PtrMap T} (sb : sfs_sb_info).

(** The parts of an inode in memory: [i_fs_info], [store] and the information
    of its memory store. *)
Record parts := mkParts { i_info : Z; i_store : Z; i_sinfo : Z }.

Record fsys := mkFsys {
  st : sfs;
  mem_parts : gmap Z parts;
  s_icache : T;
  s_lock : bool;
  fs_inode_allocator : A;
  sfs_inode_allocator : A;
  memstore_allocator : A;
  filems_allocator : A;
  fs_file_allocator : A;
  cleanup_thread_inodes : list Z;
  files : gmap Z file;
}.

Definition set_st (x : sfs) (f : fsys) : fsys := mkFsys x (mem_parts f) (s_icache f) (s_lock f) (fs_inode_allocator f) (sfs_inode_allocator f) (memstore_allocator f) (filems_allocator f) (fs_file_allocator f) (cleanup_thread_inodes f) (files f).
Definition set_parts (x : gmap Z parts) (f : fsys) : fsys := mkFsys (st f) x (s_icache f) (s_lock f) (fs_inode_allocator f) (sfs_inode_allocator f) (memstore_allocator f) (filems_allocator f) (fs_file_allocator f) (cleanup_thread_inodes f) (files f).
Definition set_icache (x : T) (f : fsys) : fsys := mkFsys (st f) (mem_parts f) x (s_lock f) (fs_inode_allocator f) (sfs_inode_allocator f) (memstore_allocator f) (filems_allocator f) (fs_file_allocator f) (cleanup_thread_inodes f) (files f).
Definition set_s_lock (x : bool) (f : fsys) : fsys := mkFsys (st f) (mem_parts f) (s_icache f) x (fs_inode_allocator f) (sfs_inode_allocator f) (memstore_allocator f) (filems_allocator f) (fs_file_allocator f) (cleanup_thread_inodes f) (files f).
Definition set_ialloc (x : A) (f : fsys) : fsys := mkFsys (st f) (mem_parts f) (s_icache f) (s_lock f) x (sfs_inode_allocator f) (memstore_allocator f) (filems_allocator f) (fs_file_allocator f) (cleanup_thread_inodes f) (files f).
Definition set_infoalloc (x : A) (f : fsys) : fsys := mkFsys (st f) (mem_parts f) (s_icache f) (s_lock f) (fs_inode_allocator f) x (memstore_allocator f) (filems_allocator f) (fs_file_allocator f) (cleanup_thread_inodes f) (files f).
Definition set_stalloc (x : A) (f : fsys) : fsys := mkFsys (st f) (mem_parts f) (s_icache f) (s_lock f) (fs_inode_allocator f) (sfs_inode_allocator f) x (filems_allocator f) (fs_file_allocator f) (cleanup_thread_inodes f) (files f).
Definition set_fmalloc (x : A) (f : fsys) : fsys := mkFsys (st f) (mem_parts f) (s_icache f) (s_lock f) (fs_inode_allocator f) (sfs_inode_allocator f) (memstore_allocator f) x (fs_file_allocator f) (cleanup_thread_inodes f) (files f).
Definition set_falloc (x : A) (f : fsys) : fsys := mkFsys (st f) (mem_parts f) (s_icache f) (s_lock f) (fs_inode_allocator f) (sfs_inode_allocator f) (memstore_allocator f) (filems_allocator f) x (cleanup_thread_inodes f) (files f).
Definition set_cleanup (x : list Z) (f : fsys) : fsys := mkFsys (st f) (mem_parts f) (s_icache f) (s_lock f) (fs_inode_allocator f) (sfs_inode_allocator f) (memstore_allocator f) (filems_allocator f) (fs_file_allocator f) x (files f).
Definition set_files (x : gmap Z file) (f : fsys) : fsys := mkFsys (st f) (mem_parts f) (s_icache f) (s_lock f) (fs_inode_allocator f) (sfs_inode_allocator f) (memstore_allocator f) (filems_allocator f) (fs_file_allocator f) (cleanup_thread_inodes f) x.

Definition ons {B} (m : M sfs B) : M fsys B := zoom st set_st m.
Definition ont {B} (m : M T B) : M fsys B := zoom s_icache set_icache m.

(** [kmem_cache_alloc] of the allocator that [get] and [put] select, 0 for NULL. *)
Definition cache_alloc (get : fsys -> A) (put : A -> fsys -> fsys) : M fsys Z :=
  fun f => let '(r, a) := oalloc (get f) in Ret (default 0 r) (put a f).
Definition cache_free (get : fsys -> A) (put : A -> fsys -> fsys) (p : Z) : M fsys unit :=
  modify (fun f => put (ofree p (get f)) f).

(** [sleeplock_acquire] and [sleeplock_release] on [i_lock] and [s_lock]. *)
Definition ilock (p : Z) : M fsys unit :=
  i <- ons (geti p) ;; if i_lock i then stop Block else ons (updi p (set_ilock true)).
Definition iunlock (p : Z) : M fsys unit :=
  i <- ons (geti p) ;; kassert (i_lock i) ;; ons (updi p (set_ilock false)).
Definition slock : M fsys unit := l <- gets s_lock ;; if l then stop Block else modify (set_s_lock true).
Definition sunlock : M fsys unit := l <- gets s_lock ;; kassert l ;; modify (set_s_lock false).

(** ** Inodes in memory *)

(** [filems_alloc] of kernel/fs/filems.c: the store and its information. *)
Definition filems_alloc : M fsys (Z * Z) :=
  store <- cache_alloc memstore_allocator set_stalloc ;;
  if store =? 0 then ret (0, 0)
  else
    info <- cache_alloc filems_allocator set_fmalloc ;;
    if info =? 0 then cache_free memstore_allocator set_stalloc store ;; ret (0, 0) else ret (store, info).
Definition filems_free (store info : Z) : M fsys unit :=
  kassert (negb (store =? 0)) ;; kassert (negb (info =? 0)) ;;
  cache_free filems_allocator set_fmalloc info ;; cache_free memstore_allocator set_stalloc store.

Definition put_inode_mem (p : Z) (i : inode) (x : parts) : M fsys unit :=
  modify (fun f => set_parts (<[p := x]> (mem_parts f)) (set_st (mkSfs (bf (st f)) (<[p := i]> (inodes (st f)))) f)).
Definition drop_inode_mem (p : Z) : M fsys unit :=
  modify (fun f => set_parts (delete p (mem_parts f)) (set_st (mkSfs (bf (st f)) (delete p (inodes (st f)))) f)).
Definition get_parts (p : Z) : M fsys parts := x <- gets (fun f => mem_parts f !! p) ;; of_option Fault x.

Definition fs_alloc_inode : M fsys Z :=
  p <- cache_alloc fs_inode_allocator set_ialloc ;;
  if p =? 0 then ret 0
  else
    let i := fs_set_inode_dirty false (fs_set_inode_valid false (mkInode 0 1 0 0 0 0 [] 0 false)) in
    r <- filems_alloc ;;
    if r.1 =? 0 then cache_free fs_inode_allocator set_ialloc p ;; ret 0
    else put_inode_mem p i (mkParts 0 r.1 r.2) ;; ret p.
Definition fs_free_inode (p : Z) : M fsys unit :=
  i <- ons (geti p) ;;
  kassert (i_ref i =? 0) ;;
  x <- get_parts p ;;
  filems_free (i_store x) (i_sinfo x) ;;
  drop_inode_mem p ;;
  cache_free fs_inode_allocator set_ialloc p.

Definition sfs_alloc_inode : M fsys Z :=
  p <- fs_alloc_inode ;;
  if p =? 0 then ret 0
  else
    info <- cache_alloc sfs_inode_allocator set_infoalloc ;;
    if info =? 0 then fs_free_inode p ;; ret 0
    else
      i <- ons (geti p) ;; x <- get_parts p ;;
      put_inode_mem p (set_addrs (replicate 14 0) i) (mkParts info (i_store x) (i_sinfo x)) ;; ret p.
Definition sfs_free_inode (p : Z) : M fsys unit :=
  x <- get_parts p ;; cache_free sfs_inode_allocator set_infoalloc (i_info x) ;; fs_free_inode p.

Definition fs_push_inode_cleanup (p : Z) : M fsys unit := modify (fun f => set_cleanup (cleanup_thread_inodes f ++ [p]) f).

Definition fs_release_inode (p : Z) : M fsys unit :=
  ilock p ;; slock ;;
  i <- ons (geti p) ;;
  kassert (0 <? i_inum i) ;; kassert (0 <? i_ref i) ;;
  ons (updi p (set_ref (u32 (i_ref i - 1)))) ;;
  i <- ons (geti p) ;;
  if i_ref i =? 0 then
    if fs_is_inode_valid i && ((i_nlink i =? 0) || fs_is_inode_dirty i) then
      ons (updi p (set_ref (u32 (i_ref i + 1)))) ;; fs_push_inode_cleanup p ;; sunlock ;; iunlock p
    else
      q <- ont (premove (i_inum i)) ;; kassert (q =? p) ;;
      sunlock ;; sfs_free_inode p
  else sunlock ;; iunlock p.

(** The second half of [fs_get_inode]: read an inode that is not valid yet. *)
Definition read_in_inode (res : Z) : M fsys (err_t * Z) :=
  ilock res ;;
  i <- ons (geti res) ;;
  err <- (if negb (fs_is_inode_valid i) then ons (sfs_read_inode res) else ret ERR_OK) ;;
  iunlock res ;;
  if negb (err =? ERR_OK) then fs_release_inode res ;; ret (err, 0) else ret (ERR_OK, res).
Definition fs_get_inode (inum : Z) : M fsys (err_t * Z) :=
  slock ;;
  res <- ont (plookup inum) ;;
  r <- (if res =? 0 then
          res <- sfs_alloc_inode ;;
          if res =? 0 then sunlock ;; ret (ERR_NOMEM, 0)
          else
            ons (updi res (set_inum inum)) ;;
            err <- ont (pinsert inum res) ;;
            if err =? ERR_OK then ret (ERR_OK, res)
            else if err =? ERR_RADIX_TREE_ALLOC then sfs_free_inode res ;; sunlock ;; ret (ERR_NOMEM, 0)
            else stop Panic
        else i <- ons (geti res) ;; ons (updi res (set_ref (u32 (i_ref i + 1)))) ;; ret (ERR_OK, res)) ;;
  if negb (r.1 =? ERR_OK) then ret r else sunlock ;; read_in_inode r.2.

(** One round of [fs_inode_cleanup_thread]; [delete_inode] and [write_inode]
    are repeated until they succeed. *)
Fixpoint retry (fuel : nat) (m : M sfs err_t) : M fsys unit :=
  match fuel with O => stop Fuel | S fuel' => e <- ons m ;; if e =? ERR_OK then ret tt else retry fuel' m end.
Definition cleanup_round (fuel : nat) : M fsys unit :=
  l <- gets cleanup_thread_inodes ;;
  match l with
  | [] => stop Block
  | p :: l' =>
      modify (set_cleanup l') ;;
      ilock p ;;
      i <- ons (geti p) ;;
      (if i_nlink i =? 0 then retry fuel (sfs_delete_inode sb p)
       else kassert (fs_is_inode_dirty i) ;; retry fuel (sfs_write_inode p)) ;;
      iunlock p ;;
      fs_release_inode p
  end.

(** ** Directories *)

Definition sfs_lookup (dir : Z) (name : list Z) : M fsys (err_t * Z) :=
  inum <- ons (search_dir sb dir name) ;;
  if inum =? 0 then ret (ERR_NOTEXIST, 0) else fs_get_inode inum.

(** The part of [unlink_inode_in_dir] between taking and releasing [i_lock]. *)
Definition unlink_locked (dir p ftype : Z) (name : list Z) : M fsys err_t :=
  i <- ons (geti p) ;;
  kassert (0 <? i_inum i) ;; kassert (0 <? i_nlink i) ;; kassert (fs_is_inode_valid i) ;;
  if negb (i_ftype i =? ftype) then ret ERR_FTYPE
  else
    r <- (if ftype =? FTYPE_DIR then ons (is_dir_empty sb p) else ret (ERR_OK, true)) ;;
    if negb (r.1 =? ERR_OK) then ret r.1
    else if negb r.2 then ret ERR_NOTEMPTY
    else
      err <- ons (free_dirent sb dir name) ;;
      if negb (err =? ERR_OK) then kassert (negb (err =? ERR_NOTEXIST)) ;; ret err
      else
        ons (updi p (fun i => fs_set_inode_dirty true (set_nlink (u32 (i_nlink i - 1)) i))) ;;
        ons (sfs_write_inode p) ;; ret ERR_OK.
Definition unlink_inode_in_dir (dir ftype : Z) (name : list Z) : M fsys err_t :=
  r <- sfs_lookup dir name ;;
  if negb (r.1 =? ERR_OK) then ret r.1
  else
    let p := r.2 in
    i <- ons (geti p) ;;
    let inode_bh := inum_to_blk (i_inum i) in
    ok <- ons (onb (blk_get_unlocked inode_bh)) ;;
    if negb ok then ret ERR_NOMEM
    else
      ilock p ;;
      err <- unlink_locked dir p ftype name ;;
      iunlock p ;; ons (onb (blk_release_unlocked inode_bh)) ;; fs_release_inode p ;; ret err.
Definition sfs_rmdir (dir : Z) (name : list Z) : M fsys err_t := unlink_inode_in_dir dir FTYPE_DIR name.
Definition sfs_unlink (dir : Z) (name : list Z) : M fsys err_t := unlink_inode_in_dir dir FTYPE_FILE name.

Definition sfs_link (dir src : Z) (name : list Z) : M fsys err_t :=
  i <- ons (geti src) ;;
  kassert (i_ftype i =? FTYPE_FILE) ;;
  inum <- ons (search_dir sb dir name) ;;
  if negb (inum =? 0) then ret ERR_EXIST
  else
    let inode_bh := inum_to_blk (i_inum i) in
    ok <- ons (onb (blk_get_unlocked inode_bh)) ;;
    if negb ok then ret ERR_NOMEM
    else
      err <- ons (alloc_dirent sb dir name (i_inum i)) ;;
      if negb (err =? ERR_OK) then ons (onb (blk_release_unlocked inode_bh)) ;; ret err
      else
        ons (updi src (fun i => fs_set_inode_dirty true (set_nlink (u32 (i_nlink i + 1)) i))) ;;
        ons (sfs_write_inode src) ;;
        ons (onb (blk_release_unlocked inode_bh)) ;; ret ERR_OK.

(** ** Path lookup

    [cwd] is the working directory of the calling process, if it has one; the
    result is the parent inode and the name of the leaf. *)
Fixpoint find_path_loop (fuel : nat) (curr : Z) (path : list Z) : M fsys (err_t * Z * list Z) :=
  match fuel with
  | O => stop Fuel
  | S fuel' =>
      ilock curr ;;
      i <- ons (geti curr) ;;
      if negb (i_ftype i =? FTYPE_DIR) then iunlock curr ;; fs_release_inode curr ;; ret (ERR_FTYPE, 0, [])
      else
        let '(path, name) := path_next_element path in
        match path with
        | [] => iunlock curr ;; ret (ERR_OK, curr, name)
        | _ =>
            r <- sfs_lookup curr name ;;
            if negb (r.1 =? ERR_OK) then iunlock curr ;; fs_release_inode curr ;; ret (r.1, 0, [])
            else iunlock curr ;; fs_release_inode curr ;; find_path_loop fuel' r.2 path
        end
  end.
Definition fs_find_parent_inode (cwd : option Z) (path : list Z) : M fsys (err_t * Z * list Z) :=
  inum <- match cwd with
          | Some c => if default 0 (path !! 0%nat) =? slash then ret SFS_ROOT_INUM else i <- ons (geti c) ;; ret (i_inum i)
          | None => ret SFS_ROOT_INUM
          end ;;
  kassert (0 <? inum) ;;
  r <- fs_get_inode inum ;;
  if negb (r.1 =? ERR_OK) then ret (r.1, 0, []) else find_path_loop (S (length path)) r.2 path.

Definition fs_find_inode (cwd : option Z) (path : list Z) : M fsys (err_t * Z) :=
  r <- fs_find_parent_inode cwd path ;;
  let '(err, parent, name) := r in
  if negb (err =? ERR_OK) then ret (err, 0)
  else match name with
       | [] => ret (ERR_OK, parent)
       | _ => r <- sfs_lookup parent name ;; fs_release_inode parent ;; ret r
       end.

(** The shape of [fs_unlink], [fs_mkdir] and [fs_rmdir]: the operation runs with
    the parent locked; [on_root] is the answer for the root directory. *)
Definition with_parent (cwd : option Z) (path : list Z) (on_root : err_t) (op : Z -> list Z -> M fsys err_t) : M fsys err_t :=
  r <- fs_find_parent_inode cwd path ;;
  let '(err, dir, name) := r in
  if negb (err =? ERR_OK) then ret err
  else match name with
       | [] => fs_release_inode dir ;; ret on_root
       | _ => ilock dir ;; err <- op dir name ;; iunlock dir ;; fs_release_inode dir ;; ret err
       end.
Definition fs_unlink (cwd : option Z) (path : list Z) : M fsys err_t := with_parent cwd path ERR_FTYPE sfs_unlink.
Definition fs_mkdir (cwd : option Z) (path : list Z) : M fsys err_t :=
  with_parent cwd path ERR_EXIST (fun dir name => ons (sfs_mkdir sb dir name (Z.lor FMODE_R FMODE_X))).
Definition fs_rmdir (cwd : option Z) (path : list Z) : M fsys err_t := with_parent cwd path ERR_NOTEMPTY sfs_rmdir.

Definition fs_link (cwd : option Z) (oldpath newpath : list Z) : M fsys err_t :=
  r <- fs_find_inode cwd oldpath ;;
  if negb (r.1 =? ERR_OK) then ret r.1
  else
    let src := r.2 in
    i <- ons (geti src) ;;
    if negb (i_ftype i =? FTYPE_FILE) then fs_release_inode src ;; ret ERR_FTYPE
    else
      r <- fs_find_parent_inode cwd newpath ;;
      let '(err, dir, name) := r in
      if negb (err =? ERR_OK) then fs_release_inode src ;; ret err
      else match name with
           | [] => fs_release_inode dir ;; fs_release_inode src ;; ret ERR_EXIST
           | _ =>
               ilock src ;; ilock dir ;;
               err <- sfs_link dir src name ;;
               iunlock dir ;; iunlock src ;; fs_release_inode dir ;; fs_release_inode src ;; ret err
           end.

(** ** Open files

    Files of the file system; the operations of pipes and of the console are
    not in this table. *)
Definition get_file (p : Z) : M fsys file := x <- gets (fun f => files f !! p) ;; of_option Fault x.
Definition put_file (p : Z) (x : file) : M fsys unit := modify (fun f => set_files (<[p := x]> (files f)) f).

Definition fs_alloc_file : M fsys Z :=
  p <- cache_alloc fs_file_allocator set_falloc ;;
  if p =? 0 then ret 0 else put_file p (mkFile 1 0 0 0 false) ;; ret p.
Definition fs_free_file (p : Z) : M fsys unit :=
  modify (fun f => set_files (delete p (files f)) f) ;; cache_free fs_file_allocator set_falloc p.

(** The leaf of [fs_open_file]: found, or created when FS_CREAT is given. *)
Definition open_leaf (parent : Z) (name : list Z) (flags mode : Z) : M fsys (err_t * Z) :=
  r <- sfs_lookup parent name ;;
  if r.1 =? ERR_OK then ret r
  else if negb (r.1 =? ERR_NOTEXIST) then ret (r.1, 0)
  else if Z.land flags FS_CREAT =? 0 then ret (r.1, 0)
  else
    err <- ons (sfs_create sb parent name mode) ;;
    if negb (err =? ERR_OK) then kassert (negb (err =? ERR_EXIST)) ;; ret (err, 0)
    else
      r <- sfs_lookup parent name ;;
      if r.1 =? ERR_OK then ret r else kassert (negb (r.1 =? ERR_NOTEXIST)) ;; ret (r.1, 0).
Definition fs_open_file (cwd : option Z) (path : list Z) (flags mode : Z) : M fsys (err_t * Z) :=
  if negb (validate_flag flags) then ret (ERR_INVAL, 0)
  else
    r <- fs_find_parent_inode cwd path ;;
    let '(err, parent, name) := r in
    if negb (err =? ERR_OK) then ret (err, 0)
    else
      r <- match name with
           | [] => ret (ERR_OK, parent)
           | _ =>
               ilock parent ;;
               r <- open_leaf parent name flags mode ;;
               iunlock parent ;; fs_release_inode parent ;; ret r
           end ;;
      if negb (r.1 =? ERR_OK) then ret (r.1, 0)
      else
        p <- fs_alloc_file ;;
        if p =? 0 then fs_release_inode r.2 ;; ret (ERR_NOMEM, 0)
        else
          x <- get_file p ;;
          put_file p (mkFile (f_ref x) (Z.land flags (Z.lnot FS_CREAT)) r.2 (f_pos x) (f_lock x)) ;; ret (ERR_OK, p).

Definition fs_reopen_file (p : Z) : M fsys unit := x <- get_file p ;; put_file p (set_f_ref (s32 (f_ref x + 1)) x).
(** [std] are the addresses of [stdin] and [stdout], which are not closed. *)
Definition fs_close_file (std : list Z) (p : Z) : M fsys unit :=
  x <- get_file p ;;
  put_file p (set_f_ref (s32 (f_ref x - 1)) x) ;;
  if (0 <? s32 (f_ref x - 1)) || bool_decide (p ∈ std) then ret tt
  else
    (if negb (f_inode x =? 0) then fs_release_inode (f_inode x) else ret tt) ;;
    fs_free_file p.

(** Reads and writes at the offset [ofs]: the bytes or the count, and the new
    offset. *)
Definition sfs_read (p count ofs : Z) : M fsys (list Z * Z) :=
  x <- get_file p ;;
  ilock (f_inode x) ;;
  l <- ons (read_data sb (f_inode x) count ofs) ;;
  iunlock (f_inode x) ;;
  ret (l, if 0 <? Z.of_nat (length l) then u64 (ofs + Z.of_nat (length l)) else ofs).
Definition sfs_write (p : Z) (buf : list Z) (ofs : Z) : M fsys (Z * Z) :=
  x <- get_file p ;;
  ilock (f_inode x) ;;
  ws <- ons (write_data sb (f_inode x) buf ofs) ;;
  iunlock (f_inode x) ;;
  ret (ws, if 0 <? ws then u64 (ofs + ws) else ofs).
Definition fs_read_file (p count ofs : Z) : M fsys (list Z * Z) :=
  x <- get_file p ;; if oflag x =? FS_WRONLY then ret ([], ofs) else sfs_read p count ofs.
Definition fs_write_file (p : Z) (buf : list Z) (ofs : Z) : M fsys (Z * Z) :=
  x <- get_file p ;; if oflag x =? FS_RDONLY then ret (0, ofs) else sfs_write p buf ofs.

(** The entry: its inode number and its name up to the 0. *)
Definition sfs_readdir (p : Z) : M fsys (err_t * Z * list Z) :=
  x <- get_file p ;;
  ilock (f_inode x) ;;
  i <- ons (geti (f_inode x)) ;;
  if i_size i <? u64 (f_pos x + sizeof_sfs_dirent) then iunlock (f_inode x) ;; ret (ERR_END, 0, [])
  else
    l <- ons (read_data sb (f_inode x) sizeof_sfs_dirent (f_pos x)) ;;
    if Z.of_nat (length l) <? sizeof_sfs_dirent then iunlock (f_inode x) ;; ret (ERR_NOMEM, 0, [])
    else
      put_file p (set_f_pos (u64 (f_pos x + Z.of_nat (length l))) x) ;;
      iunlock (f_inode x) ;;
      ret (ERR_OK, of_le32 l, cname (drop 4 l)).
Definition fs_readdir (p : Z) : M fsys (err_t * Z * list Z) :=
  x <- get_file p ;; i <- ons (geti (f_inode x)) ;;
  if negb (i_ftype i =? FTYPE_DIR) then ret (ERR_FTYPE, 0, []) else sfs_readdir p.

End fs.

(** ** The inode cache *)

Section cache.
Context {A : Type} `{!ObjAlloc A} {T : Type} `{!PtrMap T}.
Implicit Types (f : fsys (A := A) (T := T)) (p n : Z) (i : inode).

Lemma bind_ons {B C} (m : M sfs B) (k : B -> M fsys C) f a s' : m (st f) = Ret a s' -> bind (ons m) k f = k a (set_st s' f).
Proof. intros H. apply bind_Ret. unfold ons, zoom. by rewrite H. Qed.

Lemma set_st_id f : set_st (st f) f = f.
Proof. by destruct f. Qed.

Lemma bind_ogeti {C} f p i (k : inode -> M fsys C) : inodes (st f) !! p = Some i -> bind (ons (geti p)) k f = k i f.
Proof. intros H. rewrite (bind_ons _ _ _ i (st f)) by (unfold geti; by rewrite H). by rewrite set_st_id. Qed.

Definition upd_inode p (g : inode -> inode) i f : fsys := set_st (mkSfs (bf (st f)) (<[p := g i]> (inodes (st f)))) f.

Lemma bind_oupdi {C} f p i g (k : unit -> M fsys C) : inodes (st f) !! p = Some i -> bind (ons (updi p g)) k f = k tt (upd_inode p g i f).
Proof. intros H. apply bind_ons. unfold updi. by rewrite (bind_geti _ _ _ _ H). Qed.

Lemma updi_ok f p i g : inodes (st f) !! p = Some i -> ons (updi p g) f = Ret tt (upd_inode p g i f).
Proof. intros H. unfold ons, zoom, updi. by rewrite (bind_geti _ _ _ _ H). Qed.

Lemma ilock_ok f p i : inodes (st f) !! p = Some i -> i_lock i = false -> ilock p f = Ret tt (upd_inode p (set_ilock true) i f).
Proof. intros H Hl. unfold ilock. rewrite (bind_ogeti _ _ _ _ H), Hl. by apply updi_ok. Qed.

Lemma iunlock_ok f p i : inodes (st f) !! p = Some i -> i_lock i = true -> iunlock p f = Ret tt (upd_inode p (set_ilock false) i f).
Proof. intros H Hl. unfold iunlock. rewrite (bind_ogeti _ _ _ _ H), bind_kassert by done. by apply updi_ok. Qed.

(** What the cache knows of an inode in memory. *)
Record inode_ok f p i : Prop := {
  o_inum : 0 < i_inum i < 2 ^ 30;
  o_cached : pget (s_icache f) (i_inum i) = p;
  o_live : p <> 0 /\ p ∈ olive (fs_inode_allocator f);
  o_ref : 0 < i_ref i < 2 ^ 32;
  o_lock : i_lock i = false;
  o_valid : fs_is_inode_valid i = true;
  o_parts : exists x, mem_parts f !! p = Some x /\ i_info x <> 0 /\ i_info x ∈ olive (sfs_inode_allocator f) /\
    i_store x <> 0 /\ i_store x ∈ olive (memstore_allocator f) /\ i_sinfo x <> 0 /\ i_sinfo x ∈ olive (filems_allocator f);
}.

(** Every inode in memory is in the cache under its number, every entry of the
    cache is an inode with this number, and no lock is held. *)
Record cache_ok f : Prop := {
  c_map : pok (s_icache f);
  c_alloc : ook (fs_inode_allocator f) /\ ook (sfs_inode_allocator f) /\ ook (memstore_allocator f) /\ ook (filems_allocator f);
  c_slock : s_lock f = false;
  c_bufs : bufs_ok (bf (st f)) /\ locked (bf (st f)) = ∅;
  c_entry : forall n p, 0 <= n < 2 ^ 30 -> pget (s_icache f) n = p -> p <> 0 -> exists i, inodes (st f) !! p = Some i /\ i_inum i = n;
  c_inode : forall p i, inodes (st f) !! p = Some i -> inode_ok f p i;
  c_parts : forall p q x y, mem_parts f !! p = Some x -> mem_parts f !! q = Some y -> p <> q -> i_info x <> i_info y /\ i_store x <> i_store y /\ i_sinfo x <> i_sinfo y;
  c_dom : forall p x, mem_parts f !! p = Some x -> is_Some (inodes (st f) !! p);
}.

(** A change of the inode at [p] that keeps its number, a positive count and
    its validity keeps the cache. *)
Lemma cache_upd f p i i' : cache_ok f -> inodes (st f) !! p = Some i -> i_inum i' = i_inum i -> 0 < i_ref i' < 2 ^ 32 -> i_lock i' = false -> fs_is_inode_valid i' = true ->
  cache_ok (set_st (mkSfs (bf (st f)) (<[p := i']> (inodes (st f)))) f).
Proof.
  intros [C1 C2 C3 C4 C5 C6 C7 C8] Hp En Hr Hl Hv. split; try done.
  - intros n q Hn Hq Hq0. destruct (C5 n q Hn Hq Hq0) as (j & Hj & Ej). simpl. destruct (decide (q = p)) as [->|Hne]; [|rewrite lookup_insert_ne by done; eauto].
    exists i'. rewrite lookup_insert_eq. split; [done|]. congruence.
  - intros q j Hq. simpl in Hq. apply lookup_insert_Some in Hq as [[<- <-]|[Hne Hj]]; [|by destruct (C6 q j Hj)]. destruct (C6 p i Hp) as [O1 O2 O3 O4 O5 O6 O7]. split; rewrite ?En; done.
  - intros q x Hq. apply C8 in Hq. simpl. by apply lookup_insert_is_Some'; right.
Qed.

(** The outcome of giving up a reference. *)
Inductive released f p i f' : Prop :=
| rel_shared : 1 < i_ref i -> inodes (st f') = <[p := set_ref (i_ref i - 1) i]> (inodes (st f)) -> cleanup_thread_inodes f' = cleanup_thread_inodes f -> released f p i f'
| rel_cleanup : i_ref i = 1 -> i_nlink i = 0 \/ fs_is_inode_dirty i = true -> inodes (st f') = inodes (st f) -> cleanup_thread_inodes f' = cleanup_thread_inodes f ++ [p] -> released f p i f'
| rel_freed : i_ref i = 1 -> i_nlink i <> 0 -> fs_is_inode_dirty i = false -> inodes (st f') = delete p (inodes (st f)) ->
    pget (s_icache f') (i_inum i) = 0 -> olive (fs_inode_allocator f') = olive (fs_inode_allocator f) ∖ {[p]} -> cleanup_thread_inodes f' = cleanup_thread_inodes f -> released f p i f'.

(** Freeing an inode whose count is 0. *)
Lemma free_inode_run f p i x : inodes (st f) !! p = Some i -> i_ref i = 0 -> mem_parts f !! p = Some x -> i_store x <> 0 -> i_sinfo x <> 0 ->
  sfs_free_inode p f = Ret tt (mkFsys (mkSfs (bf (st f)) (delete p (inodes (st f)))) (delete p (mem_parts f)) (s_icache f) (s_lock f) (ofree p (fs_inode_allocator f)) (ofree (i_info x) (sfs_inode_allocator f))
    (ofree (i_store x) (memstore_allocator f)) (ofree (i_sinfo x) (filems_allocator f)) (fs_file_allocator f) (cleanup_thread_inodes f) (files f)).
Proof.
  intros Hp Hr Hx Hs Hs2. unfold sfs_free_inode, get_parts. rewrite bind_assoc, bind_gets, Hx. unfold of_option. rewrite bind_ret. unfold cache_free at 1, modify at 1. unfold bind at 1.
  unfold fs_free_inode. rewrite (bind_ogeti _ p i) by done. rewrite bind_kassert by (by rewrite Hr). unfold get_parts. rewrite bind_assoc, bind_gets. cbn [mem_parts set_infoalloc]. rewrite Hx. unfold of_option. rewrite bind_ret.
  unfold filems_free. rewrite bind_assoc, bind_kassert, bind_assoc, bind_kassert by (by apply negb_true_iff, Z.eqb_neq). done.
Qed.

Lemma unlocked_eq f s c : s_lock f = false ->
  mkFsys s (mem_parts f) (s_icache f) false (fs_inode_allocator f) (sfs_inode_allocator f) (memstore_allocator f) (filems_allocator f) (fs_file_allocator f) c (files f) = set_cleanup c (set_st s f).
Proof. destruct f. simpl. by intros ->. Qed.

Lemma unlock_ref i r : i_lock i = false -> set_ilock false (set_ref (i_ref i) (set_ref r (set_ilock true i))) = i.
Proof. destruct i as [? ? ? ? ? ? ? ? l]. simpl. by intros ->. Qed.

Lemma unlock_set_ref i r : i_lock i = false -> set_ilock false (set_ref r (set_ilock true i)) = set_ref r i.
Proof. destruct i as [? ? ? ? ? ? ? ? l]. simpl. by intros ->. Qed.

Lemma slock_ok {C} f (k : unit -> M fsys C) : s_lock f = false -> bind slock k f = k tt (set_s_lock true f).
Proof. intros H. apply bind_Ret. unfold slock. by rewrite bind_gets, H. Qed.

Lemma sunlock_ok {C} f (k : unit -> M fsys C) : s_lock f = true -> bind sunlock k f = k tt (set_s_lock false f).
Proof. intros H. apply bind_Ret. unfold sunlock. by rewrite bind_gets, H. Qed.

Lemma bind_ont {B C} (m : M T B) (k : B -> M fsys C) f a t : m (s_icache f) = Ret a t -> bind (ont m) k f = k a (set_icache t f).
Proof. intros H. apply bind_Ret. unfold ont, zoom. by rewrite H. Qed.

(** The cache after the inode at [p] has been taken out and freed. *)
Lemma cache_free_ok f p i x t : cache_ok f -> inodes (st f) !! p = Some i -> mem_parts f !! p = Some x -> pok t -> pget t (i_inum i) = 0 ->
  (forall j, 0 <= j < 2 ^ 30 -> j <> i_inum i -> pget t j = pget (s_icache f) j) ->
  cache_ok (mkFsys (mkSfs (bf (st f)) (delete p (inodes (st f)))) (delete p (mem_parts f)) t false (ofree p (fs_inode_allocator f)) (ofree (i_info x) (sfs_inode_allocator f))
    (ofree (i_store x) (memstore_allocator f)) (ofree (i_sinfo x) (filems_allocator f)) (fs_file_allocator f) (cleanup_thread_inodes f) (files f)) /\
  olive (ofree p (fs_inode_allocator f)) = olive (fs_inode_allocator f) ∖ {[p]}.
Proof.
  intros [C1 (A1 & A2 & A3 & A4) C3 C4 C5 C6 C7 C8] Hp Hx Ht H0 Hkeep. destruct (C6 p i Hp) as [O1 O2 [Hp0 O3] O4 O5 O6 (x' & Hx' & X1 & X2 & X3 & X4 & X5 & X6)].
  rewrite Hx in Hx'. injection Hx' as <-. destruct (ofree_live _ _ A1 O3) as [A1' L1], (ofree_live _ _ A2 X2) as [A2' L2], (ofree_live _ _ A3 X4) as [A3' L3], (ofree_live _ _ A4 X6) as [A4' L4].
  split; [|done]. split; simpl; try done.
  - intros n q Hn Hq Hq0. destruct (Z.eq_dec n (i_inum i)) as [->|Hne]; [congruence|]. rewrite Hkeep in Hq by done. destruct (C5 n q Hn Hq Hq0) as (j & Hj & Ej).
    exists j. split; [|done]. rewrite lookup_delete_ne; [done|]. intros ->. congruence.
  - intros q j Hq. apply lookup_delete_Some in Hq as [Hne Hj]. destruct (C6 q j Hj) as [P1 P2 [Hq0 P3] P4 P5 P6 (y & Hy & Y1 & Y2 & Y3 & Y4 & Y5 & Y6)].
    destruct (C7 p q x y Hx Hy Hne) as (D1 & D2 & D3). split; simpl; try done.
    + rewrite Hkeep; [done|lia|]. intros E. rewrite E in P2. congruence.
    + rewrite L1. split; [done|]. apply elem_of_difference. split; [done|]. rewrite elem_of_singleton. congruence.
    + exists y. rewrite lookup_delete_ne by done. rewrite L2, L3, L4, !elem_of_difference, !elem_of_singleton. split_and!; congruence || done.
  - intros q r y z Hy Hz. apply lookup_delete_Some in Hy as [_ Hy]. apply lookup_delete_Some in Hz as [_ Hz]. by apply C7.
  - intros q y Hy. apply lookup_delete_Some in Hy as [Hne Hy]. rewrite lookup_delete_ne by done. by apply (C8 q y).
Qed.

Lemma release_inode_ok f p i : cache_ok f -> inodes (st f) !! p = Some i ->
  exists f', fs_release_inode p f = Ret tt f' /\ cache_ok f' /\ bf (st f') = bf (st f) /\ released f p i f'.
Proof.
  intros C Hp. pose proof (c_inode _ C p i Hp) as [O1 O2 O3 O4 O5 O6 (x & Hx & X1 & X2 & X3 & X4 & X5 & X6)]. unfold fs_release_inode.
  rewrite (bind_Ret _ _ _ _ _ (ilock_ok f p i Hp O5)), slock_ok by apply C. set (f2 := set_s_lock true _). assert (H2 : inodes (st f2) !! p = Some (set_ilock true i)) by apply lookup_insert_eq.
  rewrite (bind_ogeti _ _ _ _ H2), !bind_kassert by (apply Z.ltb_lt; simpl; lia). rewrite (bind_oupdi _ _ _ _ _ H2). simpl i_ref. rewrite wrap_small by lia.
  set (i3 := set_ref (i_ref i - 1) (set_ilock true i)). set (f3 := upd_inode _ _ _ _). assert (H3 : inodes (st f3) !! p = Some i3) by apply lookup_insert_eq.
  rewrite (bind_ogeti _ _ _ _ H3). simpl (i_ref i3). destruct (Z.eqb_spec (i_ref i - 1) 0) as [E1|E1].
  - change (fs_is_inode_valid i3) with (fs_is_inode_valid i). change (fs_is_inode_dirty i3) with (fs_is_inode_dirty i). simpl (i_nlink i3). rewrite O6. cbn [andb].
    destruct ((i_nlink i =? 0) || fs_is_inode_dirty i) eqn:Ec.
    + rewrite (bind_oupdi _ _ _ _ _ H3). simpl i_ref. rewrite E1. change (u32 (0 + 1)) with 1. unfold fs_push_inode_cleanup, modify at 1. unfold bind at 1. rewrite sunlock_ok by done.
      erewrite iunlock_ok by (try apply lookup_insert_eq; done). eexists. split; [reflexivity|].
      assert (Ei : set_ilock false (set_ref 1 i3) = i) by (replace 1 with (i_ref i) by lia; by apply unlock_ref).
      match goal with |- cache_ok ?F /\ _ => assert (Ef : F = set_cleanup (cleanup_thread_inodes f ++ [p]) (set_st (mkSfs (bf (st f)) (inodes (st f))) f)) end.
      { unfold f3, f2, upd_inode. simpl. rewrite !insert_insert_eq, Ei, insert_id by done. exact (unlocked_eq f (mkSfs (bf (st f)) (inodes (st f))) (cleanup_thread_inodes f ++ [p]) (c_slock _ C)). }
      rewrite Ef. split; [by destruct C as [? ? ? ? ? C6 ? ?]; split; [..|intros q j Hq; destruct (C6 q j Hq)| |]|]. split; [done|]. apply rel_cleanup; [lia| |done|done]. apply orb_true_iff in Ec as [E|E]; [left; by apply Z.eqb_eq|by right].
    + apply orb_false_iff in Ec as [En Ed]. apply Z.eqb_neq in En. simpl (i_inum i3).
      destruct (premove_spec (s_icache f) (i_inum i) (c_map _ C) ltac:(lia) ltac:(rewrite O2; apply O3)) as (t & Et & Ht & H0 & Hkeep).
      erewrite bind_ont by exact Et. rewrite O2, bind_kassert by apply Z.eqb_refl. rewrite sunlock_ok by done.
      erewrite (free_inode_run _ p i3 x) by (try done; exact E1). eexists. split; [reflexivity|]. simpl. rewrite !delete_insert_eq.
      destruct (cache_free_ok f p i x t C Hp Hx Ht H0 Hkeep) as [C' L']. split; [exact C'|]. split; [done|]. apply rel_freed; try done. lia.
  - rewrite sunlock_ok by done. erewrite iunlock_ok by (try apply lookup_insert_eq; done). eexists. split; [reflexivity|].
    match goal with |- cache_ok ?F /\ _ => assert (Ef : F = upd_inode p (set_ref (i_ref i - 1)) i f) end.
    { unfold f3, f2, upd_inode. simpl. rewrite !insert_insert_eq, unlock_set_ref by done. exact (unlocked_eq f (mkSfs (bf (st f)) (<[p := set_ref (i_ref i - 1) i]> (inodes (st f)))) (cleanup_thread_inodes f) (c_slock _ C)). }
    rewrite Ef. split; [by apply (cache_upd f p i); [..|simpl; lia| |]|]. split; [done|]. apply rel_shared; [lia|done|done].
Qed.

(** The same allocator state for its clients. *)
Definition same_alloc (a a' : A) : Prop := ook a' /\ olive a' = olive a.
(** An object more. *)
Definition one_more (a : A) (p : Z) (a' : A) : Prop := ook a' /\ p <> 0 /\ p ∉ olive a /\ olive a' = {[p]} ∪ olive a.

Lemma alloc_cases get put f : ook (get f) ->
  (exists a, cache_alloc get put f = Ret 0 (put a f) /\ same_alloc (get f) a) \/ (exists p a, cache_alloc get put f = Ret p (put a f) /\ one_more (get f) p a).
Proof.
  intros Hok. unfold cache_alloc. destruct (oalloc (get f)) as [[p|] a] eqn:E; simpl.
  - right. exists p, a. split; [done|]. destruct (oalloc_Some _ _ _ Hok E) as (? & ? & ? & ?). by split_and!.
  - left. exists a. split; [done|]. destruct (oalloc_None _ _ Hok E). done.
Qed.

Lemma alloc_free a p a' : one_more a p a' -> same_alloc a (ofree p a').
Proof.
  intros (Hok & _ & Hn & L). destruct (ofree_live a' p Hok) as [H1 H2]; [rewrite L; apply elem_of_union_l; by apply elem_of_singleton|]. split; [done|]. rewrite H2, L.
  apply set_eq. intros x. rewrite elem_of_difference, elem_of_union, !elem_of_singleton. split; [by intros [[?|?] ?]|]. intros Hx. split; [by right|]. by intros ->.
Qed.

(** The fields of the memory of inodes. *)
Definition with_mem (s : sfs) (m : gmap Z parts) (a1 a2 a3 a4 : A) f : fsys :=
  mkFsys s m (s_icache f) (s_lock f) a1 a2 a3 a4 (fs_file_allocator f) (cleanup_thread_inodes f) (files f).

Definition fresh_inode : inode := fs_set_inode_dirty false (fs_set_inode_valid false (mkInode 0 1 0 0 0 0 [] 0 false)).
Definition add_inode (s : sfs) p i : sfs := mkSfs (bf s) (<[p := i]> (inodes s)).

Lemma fs_alloc_inode_ok f : ook (fs_inode_allocator f) -> ook (memstore_allocator f) -> ook (filems_allocator f) ->
  (exists a1 a3 a4, fs_alloc_inode f = Ret 0 (with_mem (st f) (mem_parts f) a1 (sfs_inode_allocator f) a3 a4 f) /\
     same_alloc (fs_inode_allocator f) a1 /\ same_alloc (memstore_allocator f) a3 /\ same_alloc (filems_allocator f) a4) \/
  (exists p x y a1 a3 a4, fs_alloc_inode f = Ret p (with_mem (add_inode (st f) p fresh_inode) (<[p := mkParts 0 x y]> (mem_parts f)) a1 (sfs_inode_allocator f) a3 a4 f) /\
     one_more (fs_inode_allocator f) p a1 /\ one_more (memstore_allocator f) x a3 /\ one_more (filems_allocator f) y a4).
Proof.
  intros O1 O3 O4. unfold fs_alloc_inode. destruct (alloc_cases fs_inode_allocator set_ialloc f O1) as [(a1 & E1 & S1)|(p & a1 & E1 & S1)]; rewrite (bind_Ret _ _ _ _ _ E1).
  { left. by exists a1, (memstore_allocator f), (filems_allocator f). }
  rewrite (proj2 (Z.eqb_neq p 0)) by apply S1. unfold filems_alloc.
  destruct (alloc_cases memstore_allocator set_stalloc (set_ialloc a1 f) O3) as [(a3 & E3 & S3)|(x & a3 & E3 & S3)]; rewrite bind_assoc, (bind_Ret _ _ _ _ _ E3).
  { left. exists (ofree p a1), a3, (filems_allocator f). split; [done|]. split; [by apply alloc_free|]. done. }
  rewrite (proj2 (Z.eqb_neq x 0)) by apply S3. rewrite bind_assoc.
  destruct (alloc_cases filems_allocator set_fmalloc (set_stalloc a3 (set_ialloc a1 f)) O4) as [(a4 & E4 & S4)|(y & a4 & E4 & S4)]; rewrite (bind_Ret _ _ _ _ _ E4).
  { left. exists (ofree p a1), (ofree x a3), a4. split; [done|]. split; [by apply alloc_free|]. split; [by apply alloc_free|done]. }
  right. rewrite (proj2 (Z.eqb_neq y 0)) by apply S4. exists p, x, y, a1, a3, a4. split; [|done]. rewrite bind_ret. cbn [fst snd]. by rewrite (proj2 (Z.eqb_neq x 0)) by apply S3.
Qed.

Definition new_inode : inode := set_addrs (replicate 14 0) fresh_inode.

(** A new inode; or NULL; or no memory for its sfs part, and then the kernel
    panics. *)
Lemma sfs_alloc_inode_ok f : ook (fs_inode_allocator f) -> ook (sfs_inode_allocator f) -> ook (memstore_allocator f) -> ook (filems_allocator f) ->
  (exists a1 a3 a4, sfs_alloc_inode f = Ret 0 (with_mem (st f) (mem_parts f) a1 (sfs_inode_allocator f) a3 a4 f) /\
     same_alloc (fs_inode_allocator f) a1 /\ same_alloc (memstore_allocator f) a3 /\ same_alloc (filems_allocator f) a4) \/
  (exists p w x y a1 a2 a3 a4, sfs_alloc_inode f = Ret p (with_mem (add_inode (st f) p new_inode) (<[p := mkParts w x y]> (mem_parts f)) a1 a2 a3 a4 f) /\
     one_more (fs_inode_allocator f) p a1 /\ one_more (sfs_inode_allocator f) w a2 /\ one_more (memstore_allocator f) x a3 /\ one_more (filems_allocator f) y a4) \/
  (fst (oalloc (sfs_inode_allocator f)) = None /\ exists f', sfs_alloc_inode f = Halt Panic f').
Proof.
  intros O1 O2 O3 O4. unfold sfs_alloc_inode. destruct (fs_alloc_inode_ok f O1 O3 O4) as [(a1 & a3 & a4 & E & H)|(p & x & y & a1 & a3 & a4 & E & S1 & S3 & S4)]; rewrite (bind_Ret _ _ _ _ _ E).
  { left. by exists a1, a3, a4. }
  right. rewrite (proj2 (Z.eqb_neq p 0)) by apply S1. set (f1 := with_mem _ _ _ _ _ _ _).
  assert (Hp : inodes (st f1) !! p = Some fresh_inode) by apply lookup_insert_eq. assert (Hx : mem_parts f1 !! p = Some (mkParts 0 x y)) by apply lookup_insert_eq.
  destruct (oalloc (sfs_inode_allocator f)) as [[w|] a2] eqn:Ew.
  - left. destruct (oalloc_Some _ _ _ O2 Ew) as (W1 & W2 & W3 & W4). rewrite (bind_Ret _ _ f1 w (set_infoalloc a2 f1)) by (unfold cache_alloc; simpl; by rewrite Ew).
    rewrite (proj2 (Z.eqb_neq w 0)) by done. rewrite (bind_ogeti _ p fresh_inode) by done. unfold get_parts. rewrite bind_assoc, bind_gets. simpl mem_parts. rewrite lookup_insert_eq. unfold of_option. rewrite bind_ret.
    exists p, w, x, y, a1, a2, a3, a4. split; [|by split_and!]. unfold put_inode_mem, modify, bind, ret. do 2 f_equal. unfold f1, with_mem, add_inode, set_parts, set_st, set_infoalloc. simpl. by rewrite !insert_insert_eq.
  - right. split; [done|]. rewrite (bind_Ret _ _ f1 0 (set_infoalloc a2 f1)) by (unfold cache_alloc; simpl; by rewrite Ew). change (0 =? 0) with true. cbn iota. unfold fs_free_inode.
    eexists. rewrite bind_assoc, (bind_ogeti _ p fresh_inode) by done. reflexivity.
Qed.

(** The cache with a new inode. *)
Lemma cache_add f p i w x y a1 a2 a3 a4 t : cache_ok f -> 0 < i_inum i < 2 ^ 30 -> pget (s_icache f) (i_inum i) = 0 -> i_ref i = 1 -> i_lock i = false -> fs_is_inode_valid i = true ->
  one_more (fs_inode_allocator f) p a1 -> one_more (sfs_inode_allocator f) w a2 -> one_more (memstore_allocator f) x a3 -> one_more (filems_allocator f) y a4 ->
  pok t -> pget t (i_inum i) = p -> (forall j, 0 <= j < 2 ^ 30 -> j <> i_inum i -> pget t j = pget (s_icache f) j) ->
  cache_ok (mkFsys (add_inode (st f) p i) (<[p := mkParts w x y]> (mem_parts f)) t false a1 a2 a3 a4 (fs_file_allocator f) (cleanup_thread_inodes f) (files f)).
Proof.
  intros [C1 C2 C3 C4 C5 C6 C7 C8] Hn H0 Hr Hl Hv (P1 & P2 & P3 & P4) (W1 & W2 & W3 & W4) (X1 & X2 & X3 & X4) (Y1 & Y2 & Y3 & Y4) Ht Hp Hkeep.
  assert (Hold : forall q j, inodes (st f) !! q = Some j -> q <> p /\ exists z, mem_parts f !! q = Some z /\ i_info z <> w /\ i_store z <> x /\ i_sinfo z <> y /\ i_inum j <> i_inum i).
  { intros q j Hq. destruct (C6 q j Hq) as [O1 O2 [Hq0 O3] O4 O5 O6 (z & Hz & Z1 & Z2 & Z3 & Z4 & Z5 & Z6)]. split; [congruence|]. exists z. split_and!; congruence. }
  split; simpl; try done.
  - intros n q Hn' Hq Hq0. destruct (Z.eq_dec n (i_inum i)) as [->|Hne].
    + rewrite Hp in Hq. subst q. exists i. by rewrite lookup_insert_eq.
    + rewrite Hkeep in Hq by done. destruct (C5 n q Hn' Hq Hq0) as (j & Hj & Ej). exists j. rewrite lookup_insert_ne; [done|]. intros E. by destruct (Hold q j Hj).
  - intros q j Hq. apply lookup_insert_Some in Hq as [[<- <-]|[Hne Hj]].
    + split; simpl; try done; [rewrite P4; split; [done|apply elem_of_union_l; by apply elem_of_singleton]|lia|]. exists (mkParts w x y). rewrite lookup_insert_eq, W4, X4, Y4. simpl. split_and!; try done; apply elem_of_union_l; by apply elem_of_singleton.
    + destruct (C6 q j Hj) as [O1 O2 [Hq0 O3] O4 O5 O6 (z & Hz & Z1 & Z2 & Z3 & Z4 & Z5 & Z6)]. split; simpl; try done.
      * rewrite Hkeep; [done|lia|]. by destruct (Hold q j Hj) as (_ & _ & _ & _ & _ & _ & ?).
      * rewrite P4. split; [done|]. by apply elem_of_union_r.
      * exists z. rewrite lookup_insert_ne by done. rewrite W4, X4, Y4. split_and!; try done; by apply elem_of_union_r.
  - intros q r u v Hu Hv' Hne. apply lookup_insert_Some in Hu as [[<- <-]|[Hq Hu]]; apply lookup_insert_Some in Hv' as [[<- <-]|[Hr' Hv']]; [done| | |by apply (C7 q r)]; simpl.
    + destruct (C8 r v Hv') as [j Hj]. destruct (Hold r j Hj) as (_ & z & Hz & ? & ? & ? & _). rewrite Hv' in Hz. injection Hz as <-. split_and!; congruence.
    + destruct (C8 q u Hu) as [j Hj]. destruct (Hold q j Hj) as (_ & z & Hz & ? & ? & ? & _). rewrite Hu in Hz. injection Hz as <-. done.
  - intros q z Hq. apply lookup_insert_Some in Hq as [[<- <-]|[Hne Hq]]; [by rewrite lookup_insert_eq|]. rewrite lookup_insert_ne by done. by apply (C8 q z).
Qed.

Lemma cache_same f a1 a3 a4 : cache_ok f -> same_alloc (fs_inode_allocator f) a1 -> same_alloc (memstore_allocator f) a3 -> same_alloc (filems_allocator f) a4 ->
  cache_ok (mkFsys (st f) (mem_parts f) (s_icache f) false a1 (sfs_inode_allocator f) a3 a4 (fs_file_allocator f) (cleanup_thread_inodes f) (files f)).
Proof.
  intros [C1 (? & ? & ? & ?) C3 C4 C5 C6 C7 C8] [S1 L1] [S3 L3] [S4 L4]. split; simpl; try done. intros q j Hq. destruct (C6 q j Hq) as [O1 O2 O3 O4 O5 O6 O7]. split; simpl; try done; by rewrite ?L1, ?L3, ?L4.
Qed.

(** The inode on disk, read into [i]. *)
Definition from_disk (b : bufs) i : inode := load_inode (drop (Z.to_nat (inum_to_ofs (i_inum i))) (blk b (inum_to_blk (i_inum i)))) i.

Lemma read_in_ok f p i : inodes (st f) !! p = Some i -> i_lock i = false -> bufs_ok (bf (st f)) -> locked (bf (st f)) = ∅ -> i_inum i <> 0 -> (fs_is_inode_valid i = false -> fs_is_inode_dirty i = false) ->
  read_in_inode p f = Ret (ERR_OK, p) (upd_inode p (fun i => if fs_is_inode_valid i then i else from_disk (bf (st f)) i) i f).
Proof.
  intros Hp Hl Hok Hlk Hi Hd. unfold read_in_inode. rewrite (bind_Ret _ _ _ _ _ (ilock_ok f p i Hp Hl)). set (f1 := upd_inode p _ _ _). set (i1 := set_ilock true i).
  assert (H1 : inodes (st f1) !! p = Some i1) by apply lookup_insert_eq. rewrite (bind_ogeti _ _ _ _ H1). change (fs_is_inode_valid i1) with (fs_is_inode_valid i).
  assert (Hunl : forall g, set_ilock false (set_ilock g i) = i) by (intros g; destruct i; simpl in *; by subst). unfold upd_inode.
  destruct (fs_is_inode_valid i) eqn:Ev; cbn [negb].
  - rewrite bind_ret, (bind_Ret _ _ _ _ _ (iunlock_ok f1 p i1 H1 eq_refl)). unfold f1, upd_inode, ret. simpl. rewrite insert_insert_eq. unfold i1. by rewrite Hunl.
  - rewrite (bind_ons _ _ f1 ERR_OK (mkSfs (bf (st f)) (<[p := from_disk (bf (st f)) i1]> (inodes (st f1))))).
    2: { apply (read_inode_run (st f1) p i1 H1 Hok Hi (Hd eq_refl)). change (locked (bf (st f1))) with (locked (bf (st f))). rewrite Hlk. apply not_elem_of_empty. }
    set (f2 := set_st _ f1). assert (H2 : inodes (st f2) !! p = Some (from_disk (bf (st f)) i1)) by apply lookup_insert_eq.
    rewrite (bind_Ret _ _ _ _ _ (iunlock_ok f2 p _ H2 eq_refl)). cbn [negb Z.eqb ERR_OK]. unfold f2, f1, upd_inode, ret. simpl. rewrite !insert_insert_eq.
    replace (set_ilock false (from_disk (bf (st f)) i1)) with (from_disk (bf (st f)) i); [done|]. unfold from_disk, load_inode, i1. destruct i; simpl in *. by subst.
Qed.

(** The outcome of taking a reference. *)
Inductive taken f n p f' : Prop :=
| tk_cached i : inodes (st f) !! p = Some i -> i_inum i = n -> inodes (st f') = <[p := set_ref (i_ref i + 1) i]> (inodes (st f)) -> taken f n p f'
| tk_read : pget (s_icache f) n = 0 -> inodes (st f) !! p = None -> inodes (st f') = <[p := from_disk (bf (st f)) (set_inum n new_inode)]> (inodes (st f)) -> taken f n p f'.

Lemma get_inode_ok f n : cache_ok f -> 0 < n < 2 ^ 30 -> (forall p i, inodes (st f) !! p = Some i -> i_inum i = n -> i_ref i < 2 ^ 32 - 1) ->
  (exists p f', fs_get_inode n f = Ret (ERR_OK, p) f' /\ cache_ok f' /\ bf (st f') = bf (st f) /\ pget (s_icache f') n = p /\ cleanup_thread_inodes f' = cleanup_thread_inodes f /\ taken f n p f') \/
  (exists f', fs_get_inode n f = Ret (ERR_NOMEM, 0) f' /\ cache_ok f' /\ st f' = st f) \/
  (pget (s_icache f) n = 0 /\ (fst (oalloc (sfs_inode_allocator f)) = None \/ exists p t, pinsert n p (s_icache f) = Ret ERR_RADIX_TREE_ALLOC t) /\
   exists f', fs_get_inode n f = Halt Panic f').
Proof.
  intros C Hn Hmax. pose proof (c_bufs _ C) as [Hok Hlk]. pose proof (c_alloc _ C) as (A1 & A2 & A3 & A4). unfold fs_get_inode. rewrite slock_ok by apply C. set (f1 := set_s_lock true f).
  rewrite (bind_ont _ _ f1 (pget (s_icache f) n) (s_icache f)) by (apply plookup_spec; [apply C|lia]). change (set_icache (s_icache f) f1) with f1.
  destruct (Z.eqb_spec (pget (s_icache f) n) 0) as [E0|E0].
  - destruct (sfs_alloc_inode_ok f1 A1 A2 A3 A4) as [(a1 & a3 & a4 & E & S1 & S3 & S4)|[(p & w & x & y & a1 & a2 & a3 & a4 & E & S1 & S2 & S3 & S4)|(Hno & f' & E)]].
    + right. left. rewrite bind_assoc, (bind_Ret _ _ _ _ _ E). change (0 =? 0) with true. cbn iota. rewrite bind_assoc, sunlock_ok by done. eexists. split; [reflexivity|]. split; [exact (cache_same f a1 a3 a4 C S1 S3 S4)|done].
    + rewrite bind_assoc, (bind_Ret _ _ _ _ _ E). rewrite (proj2 (Z.eqb_neq p 0)) by apply S1. set (f2 := with_mem _ _ _ _ _ _ _).
      assert (H2 : inodes (st f2) !! p = Some new_inode) by apply lookup_insert_eq. rewrite bind_assoc, (bind_oupdi _ _ _ _ _ H2), bind_assoc. set (f3 := upd_inode _ _ _ _).
      assert (Hfresh : inodes (st f) !! p = None). { destruct (inodes (st f) !! p) as [j|] eqn:Ej; [|done]. destruct (c_inode _ C p j Ej) as [_ _ [_ L] _ _ _ _]. by destruct S1 as (_ & _ & ? & _). }
      destruct (pinsert_spec (s_icache f) n p (c_map _ C) ltac:(lia) ltac:(apply S1) E0) as (e & t & Et & Ht & Hkeep & Hres). erewrite bind_ont by exact Et.
      destruct Hres as [[-> Hp]|[-> _]].
      * left. change (0 =? ERR_OK) with true. cbn iota. rewrite bind_ret. cbn [negb Z.eqb ERR_OK fst snd]. rewrite sunlock_ok by done. set (f4 := set_s_lock false _).
        assert (H4 : inodes (st f4) !! p = Some (set_inum n new_inode)) by apply lookup_insert_eq.
        rewrite (read_in_ok f4 p (set_inum n new_inode) H4 eq_refl Hok Hlk) by (simpl; (lia || done)). eexists p, _. split; [reflexivity|].
        change (fs_is_inode_valid (set_inum n new_inode)) with false. cbn iota. unfold upd_inode, f4, f3, f2, upd_inode. simpl. rewrite !insert_insert_eq.
        assert (C' := cache_add f p (from_disk (bf (st f)) (set_inum n new_inode)) w x y a1 a2 a3 a4 t C). split; [|split; [done|split; [done|split; [done|by apply tk_read]]]].
        apply C'; try done.
      * right. right. split; [done|]. split; [right; by exists p, t|]. change (1 =? ERR_OK) with false. change (1 =? ERR_RADIX_TREE_ALLOC) with true. cbn iota. rewrite bind_assoc. unfold sfs_free_inode, get_parts. rewrite !bind_assoc, bind_gets.
        simpl mem_parts. rewrite lookup_insert_eq. unfold of_option. rewrite bind_ret. unfold cache_free at 1, modify at 1. rewrite bind_assoc. unfold bind at 1. unfold fs_free_inode. rewrite bind_assoc, (bind_ogeti _ p (set_inum n new_inode)) by apply lookup_insert_eq. eexists. reflexivity.
    + right. right. split; [done|]. split; [by left|]. eexists. rewrite bind_assoc. unfold bind at 1. rewrite E. reflexivity.
  - left. set (p := pget (s_icache f) n) in *. destruct (c_entry _ C n p ltac:(lia) eq_refl E0) as (i & Hi & En). pose proof (c_inode _ C p i Hi) as [O1 O2 O3 O4 O5 O6 O7]. specialize (Hmax p i Hi En).
    rewrite bind_assoc, (bind_ogeti f1 p i) by done. rewrite bind_assoc, (bind_oupdi f1 p i) by done. rewrite wrap_small by lia. rewrite bind_ret. cbn [negb Z.eqb ERR_OK fst snd]. rewrite sunlock_ok by done.
    set (f2 := set_s_lock false _). assert (H2 : inodes (st f2) !! p = Some (set_ref (i_ref i + 1) i)) by apply lookup_insert_eq.
    rewrite (read_in_ok f2 p _ H2 O5 Hok Hlk) by (simpl; (lia || (intros Hv; change (fs_is_inode_valid i = false) in Hv; by rewrite O6 in Hv))). eexists p, _. split; [reflexivity|]. cbv beta.
    match goal with |- cache_ok ?F /\ _ => assert (Ef : F = upd_inode p (set_ref (i_ref i + 1)) i f) end.
    { unfold f2, f1, upd_inode. change (fs_is_inode_valid (set_ref (i_ref i + 1) i)) with (fs_is_inode_valid i). rewrite O6. simpl. rewrite insert_insert_eq. exact (unlocked_eq f (mkSfs (bf (st f)) (<[p := set_ref (i_ref i + 1) i]> (inodes (st f)))) (cleanup_thread_inodes f) (c_slock _ C)). }
    rewrite Ef. split; [by apply (cache_upd f p i); [..|simpl; lia| |]|]. split; [done|]. split; [done|]. split; [done|]. by apply (tk_cached f n p _ i).
Qed.

(** C24. [fs_get_inode] gives a reference to the one inode in memory with the
    number: a cached inode gains a reference, otherwise the inode is read from
    disk into a new one.  No other inode changes, and the cache stays exact:
    every inode in memory is cached under its number and only there.  Without
    memory for the inode the result is ERR_NOMEM and nothing changes; without
    memory for its sfs part or for the cache the kernel panics. *)
Theorem fs_get_inode_correct f n :
  cache_ok f -> 0 < n < 2 ^ 30 -> (forall p i, inodes (st f) !! p = Some i -> i_inum i = n -> i_ref i < 2 ^ 32 - 1) ->
  (exists p f', fs_get_inode n f = Ret (ERR_OK, p) f' /\ cache_ok f' /\ bf (st f') = bf (st f) /\ pget (s_icache f') n = p /\
     ((exists i, inodes (st f) !! p = Some i /\ i_inum i = n /\ inodes (st f') = <[p := set_ref (i_ref i + 1) i]> (inodes (st f))) \/
      (pget (s_icache f) n = 0 /\ inodes (st f) !! p = None /\ inodes (st f') = <[p := from_disk (bf (st f)) (set_inum n new_inode)]> (inodes (st f))))) \/
  (exists f', fs_get_inode n f = Ret (ERR_NOMEM, 0) f' /\ cache_ok f' /\ st f' = st f) \/
  (pget (s_icache f) n = 0 /\ (fst (oalloc (sfs_inode_allocator f)) = None \/ exists p t, pinsert n p (s_icache f) = Ret ERR_RADIX_TREE_ALLOC t) /\
   exists f', fs_get_inode n f = Halt Panic f').
Proof.
  intros C Hn Hmax. destruct (get_inode_ok f n C Hn Hmax) as [(p & f' & E & C' & Hb & Hp & _ & H)|H]; [left|by right]. exists p, f'. split_and!; try done. destruct H as [i H1 H2 H3|H1 H2 H3]; [left; by exists i|by right].
Qed.

(** [fs_release_inode] gives a reference back: a shared inode loses one; the
    last reference to a changed or unlinked inode passes to the cleanup thread;
    the last reference to any other inode removes it from the cache and frees
    it with its parts.  No other inode changes and the cache stays exact. *)
Theorem fs_release_inode_correct f p i :
  cache_ok f -> inodes (st f) !! p = Some i ->
  exists f', fs_release_inode p f = Ret tt f' /\ cache_ok f' /\ bf (st f') = bf (st f) /\
    if 1 <? i_ref i then inodes (st f') = <[p := set_ref (i_ref i - 1) i]> (inodes (st f)) /\ cleanup_thread_inodes f' = cleanup_thread_inodes f
    else if (i_nlink i =? 0) || fs_is_inode_dirty i then inodes (st f') = inodes (st f) /\ cleanup_thread_inodes f' = cleanup_thread_inodes f ++ [p]
    else inodes (st f') = delete p (inodes (st f)) /\ pget (s_icache f') (i_inum i) = 0 /\ p ∉ olive (fs_inode_allocator f') /\ cleanup_thread_inodes f' = cleanup_thread_inodes f.
Proof.
  intros C Hp. destruct (release_inode_ok f p i C Hp) as (f' & E & C' & Hb & H). exists f'. split_and!; try done.
  destruct H as [H1 H2 H3|H1 H2 H3 H4|H1 H2 H3 H4 H5 H6 H7].
  - by rewrite (proj2 (Z.ltb_lt 1 (i_ref i))).
  - rewrite (proj2 (Z.ltb_ge 1 (i_ref i))) by lia. assert ((i_nlink i =? 0) || fs_is_inode_dirty i = true) as ->; [|done]. apply orb_true_iff. rewrite Z.eqb_eq. done.
  - rewrite (proj2 (Z.ltb_ge 1 (i_ref i))), (proj2 (Z.eqb_neq (i_nlink i) 0)), H3 by lia. cbn [orb]. split_and!; try done. rewrite H6, elem_of_difference, elem_of_singleton. by intros [_ ?].
Qed.

End cache.

(** ** Deleting an inode *)

Section delete.
Context {A : Type} `{!ObjAlloc A} {T : Type} `{!PtrMap T} (sb : sfs_sb_info).

Lemma delete_clears_inum (s s' : sfs) p : sfs_delete_inode sb p s = Ret ERR_OK s' -> exists i, inodes s' !! p = Some i /\ i_inum i = 0.
Proof.
  unfold sfs_delete_inode. intros H. apply bind_inv in H as (i & s1 & _ & H). apply bind_inv in H as (? & s2 & _ & H). apply bind_inv in H as (? & s3 & _ & H). apply bind_inv in H as (e & s4 & _ & H).
  destruct (Z.eqb_spec e ERR_OK) as [->|Hne]; cbn [negb] in H; [|by injection H]. apply bind_inv in H as (e & s5 & _ & H).
  destruct (Z.eqb_spec e ERR_OK) as [->|Hne]; cbn [negb] in H; [|by injection H]. apply bind_inv in H as (? & s6 & H6 & H). injection H as <-.
  unfold updi in H6. apply bind_inv in H6 as (j & s7 & _ & H6). injection H6 as _ <-. simpl. rewrite lookup_insert_eq. eexists. split; [done|done].
Qed.

(** When the cleanup thread has deleted an unlinked inode it panics:
    [sfs_delete_inode] has set the inode number to 0, and [fs_release_inode]
    asserts that it is positive. *)
Theorem cleanup_deleted_panics (f : fsys (A := A) (T := T)) p l i s' fuel :
  cleanup_thread_inodes f = p :: l -> s_lock f = false -> inodes (st f) !! p = Some i -> i_lock i = false -> i_nlink i = 0 ->
  sfs_delete_inode sb p (mkSfs (bf (st f)) (<[p := set_ilock true i]> (inodes (st f)))) = Ret ERR_OK s' ->
  exists f', cleanup_round sb (S fuel) f = Halt Panic f'.
Proof.
  intros Hl Hs Hp Hlock Hn Hdel. destruct (delete_clears_inum _ _ _ Hdel) as (j & Hj & Hj0). unfold cleanup_round. rewrite bind_gets, Hl. unfold modify at 1. unfold bind at 1.
  erewrite bind_Ret by (apply (ilock_ok _ p i); done). set (f1 := upd_inode _ _ _ _). assert (H1 : inodes (st f1) !! p = Some (set_ilock true i)) by apply lookup_insert_eq.
  rewrite (bind_ogeti _ _ _ _ H1). simpl i_nlink. rewrite Hn. change (0 =? 0) with true. cbn [retry]. rewrite bind_assoc, (bind_ons _ _ f1 ERR_OK s' Hdel). change (ERR_OK =? ERR_OK) with true. cbn iota. rewrite bind_ret.
  set (f2 := set_st s' f1). unfold iunlock. rewrite bind_assoc, (bind_ogeti f2 p j) by done. rewrite bind_assoc. destruct (i_lock j) eqn:Ej; [|by eexists]. rewrite bind_kassert by done.
  rewrite (bind_oupdi f2 p j) by done. unfold fs_release_inode. erewrite bind_Ret by (apply (ilock_ok _ p (set_ilock false j)); [apply lookup_insert_eq|done]).
  rewrite slock_ok by done. erewrite bind_ogeti by (simpl; apply lookup_insert_eq). simpl i_inum. rewrite Hj0. by eexists.
Qed.

End delete.

(** ** Path names *)

(** The reference: the parts between the slashes that are not empty. *)
Fixpoint split_slash (path : list Z) : list (list Z) :=
  match path with
  | [] => [[]]
  | c :: path' =>
      if c =? slash then [] :: split_slash path'
      else match split_slash path' with e :: es => (c :: e) :: es | [] => [[c]] end
  end.
Definition components (path : list Z) : list (list Z) := filter (fun e => e <> []) (split_slash path).

Lemma components_skip path : components (skip_slashes path) = components path /\ (length (skip_slashes path) <= length path)%nat.
Proof.
  induction path as [|c path [IH1 IH2]]; [done|]. simpl skip_slashes. destruct (Z.eqb_spec c slash) as [->|]; [|done]. split; [rewrite IH1; unfold components; simpl; done|simpl; lia].
Qed.

Lemma skip_head path c rest : skip_slashes path = c :: rest -> c <> slash.
Proof. induction path as [|d path IH]; simpl; [done|]. destruct (Z.eqb_spec d slash); [done|]. by intros [= -> ->]. Qed.

Lemma split_slash_ne path : split_slash path <> [].
Proof. destruct path as [|c path]; simpl; [done|]. destruct (c =? slash); [done|]. by destruct (split_slash path). Qed.

Lemma split_element_ok path e rest : split_element path = (e, rest) ->
  exists es, split_slash path = e :: es /\ components rest = filter (fun e => e <> []) es /\ (length e + length rest = length path)%nat.
Proof.
  revert e rest. induction path as [|c path IH]; intros e rest; simpl.
  - intros [= <- <-]. by exists [].
  - destruct (Z.eqb_spec c slash) as [->|Hc].
    + intros [= <- <-]. exists (split_slash path). split; [done|]. split; [|done]. unfold components. simpl. done.
    + destruct (split_element path) as [e' r'] eqn:E. intros [= <- <-]. destruct (IH e' r' eq_refl) as (es & -> & H1 & H2). exists es. split; [done|]. split; [done|]. simpl. lia.
Qed.

Lemma components_nonempty c path : c <> slash -> components (c :: path) <> [].
Proof.
  intros Hc. unfold components. simpl. rewrite (proj2 (Z.eqb_neq c slash) Hc). destruct (split_slash path) eqn:E; [by destruct (split_slash_ne path)|]. rewrite filter_cons_True by done. done.
Qed.



(** ** A mounted file system *)

Definition ex_bump (n : nat) (b : Z) : Bump.bump := Bump.mkBump n b ∅.
(** The root directory is inode 1; nothing is cached. *)
Definition ex_fs : fsys := mkFsys (mkSfs (bf (ex_dirs [])) ∅) ∅ RadixTree.ex_empty false (ex_bump 9 1000) (ex_bump 9 2000) (ex_bump 9 3000) (ex_bump 9 4000) (ex_bump 9 5000) [] ∅.

Lemma ex_fs_ok : cache_ok ex_fs.
Proof.
  split; try done.
  - exact RadixTree.ex_empty_inv.
  - split; [apply ex_dirs_ok|done].
  - intros n p Hn Hg Hp. destruct Hp. rewrite <- Hg. simpl. unfold RadixTree.radix_tree_lookup, bind, RadixTree.radix_tree_max_index. simpl. destruct n; [done|done|lia].
Qed.

(** A run that returns [x], as a computation shows. *)
Lemma run_final {S B} (r : outcome S B) x : match r with Ret a _ => a = x | Halt _ _ => False end -> exists s, r = Ret x s.
Proof. destruct r as [a s|]; [|done]. intros ->. by exists s. Qed.

Lemma fs_get_inode_correct_witness : exists p f', fs_get_inode 1 ex_fs = Ret (ERR_OK, p) f' /\ cache_ok f'.
Proof.
  destruct (run_final (fs_get_inode 1 ex_fs) (ERR_OK, 1000)) as [f1 E1]; [vm_compute; reflexivity|].
  destruct (fs_get_inode_correct ex_fs 1 ex_fs_ok ltac:(lia)) as [(p & f' & E & C & _)|[(f' & E & _)|(_ & _ & f' & E)]]; [by intros p i Hp|exists p, f'; split; [exact E|exact C]|rewrite E1 in E; discriminate E|rewrite E1 in E; discriminate E].
Defined.

Lemma fs_release_inode_correct_witness : exists f1 f2, fs_get_inode 1 ex_fs = Ret (ERR_OK, 1000) f1 /\ fs_release_inode 1000 f1 = Ret tt f2 /\ cache_ok f2.
Proof.
  destruct (run_final (fs_get_inode 1 ex_fs) (ERR_OK, 1000)) as [f1 E1]; [vm_compute; reflexivity|].
  destruct (get_inode_ok ex_fs 1 ex_fs_ok ltac:(lia)) as [(p & f' & E & C & _ & _ & _ & H)|[(f' & E & _)|(_ & _ & f' & E)]]; [by intros p i Hp| |rewrite E1 in E; discriminate E|rewrite E1 in E; discriminate E].
  rewrite E1 in E. injection E as <- <-. assert (Hi : exists i, inodes (st f1) !! 1000 = Some i) by (destruct H as [i H1 H2 H3|H1 H2 H3]; rewrite H3, lookup_insert_eq; eauto).
  destruct Hi as [i Hi]. destruct (fs_release_inode_correct f1 1000 i C Hi) as (f2 & E2 & C2 & _). exists f1, f2. split; [exact E1|]. split; [exact E2|exact C2].
Defined.

Definition ex_unlinked : inode := mkInode 2 1 0 FTYPE_FILE 6 0 (replicate 14 0) 1 false.
Definition ex_fs2 : fsys := set_cleanup [7] (set_st (mkSfs (bf (ex_dirs [])) {[7 := ex_unlinked]}) ex_fs).

Lemma cleanup_deleted_panics_witness : exists f', cleanup_round ex_sb 1 ex_fs2 = Halt Panic f'.
Proof.
  destruct (run_final (sfs_delete_inode ex_sb 7 (mkSfs (bf (st ex_fs2)) (<[7 := set_ilock true ex_unlinked]> (inodes (st ex_fs2))))) ERR_OK) as [s' E]; [vm_compute; reflexivity|].
  apply (cleanup_deleted_panics ex_sb ex_fs2 7 [] ex_unlinked s' 0); [done..|exact E].
Defined.

End Fs.
