(* ===== verification/Mount.v ===== *)
(** * Mounting: the superblocks of kernel/fs/fs.c and kernel/fs/sfs/sfs.c

    The list of file system types, the table of superblocks by device number
    with their reference counts, and how the simple file system builds and
    frees a superblock (sfs_get_sb, sfs_free_sb).  The table is a radix tree
    through [PtrMap], the structures come from object allocators, and the block
    cache of each device is the view of Bufs.v.  fs_sb_table_lock is held
    across an operation, so that an operation is one step. *)

From S2P Require Import Prelude Page Alloc Lib RadixTree Bdev Bufs Sfs.

Module Mount.

#[local] Open Scope kernel_scope.
Import Bits Bufs.Bufs Sfs.Sfs.

Definition SB_DIRTY : Z := 0.
Definition FS_TYPE_NAMELEN : Z := 16.

(** [struct super_block]; [s_icache] has the cached inodes. *)
Record super_block := mkSuper {
  sb_bdev : Z;
  s_fs_type : Z;
  s_root_inum : Z;
  s_icache : gmap Z Z;
  s_ref : Z;
  s_state : Z;
  s_fs_info : Z;
}.

Definition set_root n s := mkSuper (sb_bdev s) (s_fs_type s) n (s_icache s) (s_ref s) (s_state s) (s_fs_info s).
Definition set_ref n s := mkSuper (sb_bdev s) (s_fs_type s) (s_root_inum s) (s_icache s) n (s_state s) (s_fs_info s).
Definition set_state x s := mkSuper (sb_bdev s) (s_fs_type s) (s_root_inum s) (s_icache s) (s_ref s) x (s_fs_info s).
Definition set_info x s := mkSuper (sb_bdev s) (s_fs_type s) (s_root_inum s) (s_icache s) (s_ref s) (s_state s) x.

(** [struct sfs_sb_info]: the fields of the on-disk superblock and the journal. *)
Record sb_info := mkInfo { fields : sfs_sb_info; i_journal : Z }.

(** What a journal is about here; Jbd.v has the rest of it. *)
Record journal := mkJournal { j_sb : Z; j_enabled : bool }.

(** [struct bdev]: device number, superblock and the cache of its blocks. *)
Record device := mkDevice { dev : Z; d_sb : Z; cache : bufs }.

Section model.
Context {A : Type} `{!ObjAlloc A} {T : Type} `{!PtrMap T}.

Record mounts := mkMounts {
  types : gmap Z (list Z);  (* names of the file system types *)
  fs_type_list : list Z;
  fs_sb_table : T;
  sbs : gmap Z super_block;
  infos : gmap Z sb_info;
  journals : gmap Z journal;
  fs_sb_allocator : A;
  sfs_sb_allocator : A;
  journal_allocator : A;
  devs : gmap Z device;
}.

Definition set_list x s := mkMounts (types s) x (fs_sb_table s) (sbs s) (infos s) (journals s) (fs_sb_allocator s) (sfs_sb_allocator s) (journal_allocator s) (devs s).
Definition set_table x s := mkMounts (types s) (fs_type_list s) x (sbs s) (infos s) (journals s) (fs_sb_allocator s) (sfs_sb_allocator s) (journal_allocator s) (devs s).
Definition set_sbs x a s := mkMounts (types s) (fs_type_list s) (fs_sb_table s) x (infos s) (journals s) a (sfs_sb_allocator s) (journal_allocator s) (devs s).
Definition set_infos x a s := mkMounts (types s) (fs_type_list s) (fs_sb_table s) (sbs s) x (journals s) (fs_sb_allocator s) a (journal_allocator s) (devs s).
Definition set_journals x a s := mkMounts (types s) (fs_type_list s) (fs_sb_table s) (sbs s) (infos s) x (fs_sb_allocator s) (sfs_sb_allocator s) a (devs s).
Definition set_devs x s := mkMounts (types s) (fs_type_list s) (fs_sb_table s) (sbs s) (infos s) (journals s) (fs_sb_allocator s) (sfs_sb_allocator s) (journal_allocator s) x.

Definition on_table {B} (m : M T B) : M mounts B := zoom fs_sb_table set_table m.
Definition get_super (p : Z) : M mounts super_block := fun s => of_option Fault (sbs s !! p) s.
Definition put_super (p : Z) (x : super_block) : M mounts unit := modify (fun s => set_sbs (<[p := x]> (sbs s)) (fs_sb_allocator s) s).
Definition get_info (p : Z) : M mounts sb_info := fun s => of_option Fault (infos s !! p) s.
Definition put_info (p : Z) (x : sb_info) : M mounts unit := modify (fun s => set_infos (<[p := x]> (infos s)) (sfs_sb_allocator s) s).
Definition get_dev (b : Z) : M mounts device := fun s => of_option Fault (devs s !! b) s.
Definition put_dev (b : Z) (d : device) : M mounts unit := modify (fun s => set_devs (<[b := d]> (devs s)) s).

(** An operation on the cache of the device at [b]. *)
Definition on_cache {B} (b : Z) (m : M bufs B) : M mounts B :=
  d <- get_dev b ;;
  fun s => match m (cache d) with
           | Ret x c => Ret x (set_devs (<[b := mkDevice (dev d) (d_sb d) c]> (devs s)) s)
           | Halt w c => Halt w (set_devs (<[b := mkDevice (dev d) (d_sb d) c]> (devs s)) s)
           end.

(** ** File system types *)

Definition fs_register_fs (fs : Z) : M mounts unit := modify (fun s => set_list (fs_type_list s ++ [fs]) s).

Fixpoint find_fs (l : list Z) (name : list Z) : M mounts Z :=
  match l with
  | [] => ret 0
  | fs :: q =>
      n <- (fun s => of_option Fault (types s !! fs) s) ;;
      if strncmp_name (Z.to_nat FS_TYPE_NAMELEN) n name =? 0 then ret fs else find_fs q name
  end.
Definition fs_get_fs (name : list Z) : M mounts Z := l <- gets fs_type_list ;; find_fs l name.

(** ** Superblocks *)

Definition fs_is_sb_dirty (x : super_block) : bool := get_state_bit (s_state x) SB_DIRTY.
Definition fs_set_sb_dirty (p : Z) (dirty : bool) : M mounts unit :=
  x <- get_super p ;; put_super p (set_state (set_state_bit (s_state x) SB_DIRTY dirty) x).

(** 0 is NULL. *)
Definition fs_alloc_sb (bdev fs_type : Z) : M mounts Z := fun s =>
  match oalloc (fs_sb_allocator s) with
  | (None, a) => Ret 0 (set_sbs (sbs s) a s)
  | (Some p, a) =>
      (fs_set_sb_dirty p false ;; ret p) (set_sbs (<[p := mkSuper bdev fs_type 0 ∅ 1 0 0]> (sbs s)) a s)
  end.

Definition fs_free_sb (p : Z) : M mounts unit :=
  x <- get_super p ;;
  kassert (bool_decide (s_icache x = ∅)) ;;
  kassert (s_ref x =? 0) ;;
  kassert (negb (fs_is_sb_dirty x)) ;;
  modify (fun s => set_sbs (delete p (sbs s)) (ofree p (fs_sb_allocator s)) s).

Definition new_info : M mounts Z := fun s =>
  match oalloc (sfs_sb_allocator s) with
  | (None, a) => Ret 0 (set_infos (infos s) a s)
  | (Some p, a) => Ret p (set_infos (<[p := mkInfo (mkSb 0 0 0 0 0) 0]> (infos s)) a s)
  end.
Definition free_info (p : Z) : M mounts unit := modify (fun s => set_infos (delete p (infos s)) (ofree p (sfs_sb_allocator s)) s).

Definition jbd_alloc_journal (sb : Z) : M mounts Z := fun s =>
  match oalloc (journal_allocator s) with
  | (None, a) => Ret 0 (set_journals (journals s) a s)
  | (Some p, a) => Ret p (set_journals (<[p := mkJournal sb true]> (journals s)) a s)
  end.
Definition disable_journal (j : Z) : M mounts unit := fun s =>
  (x <- of_option Fault (journals s !! j) ;;
   modify (fun s => set_journals (<[j := mkJournal (j_sb x) false]> (journals s)) (journal_allocator s) s)) s.

(** The superblock in a block. *)
Definition sb_of (d : list Z) : sfs_sb_info :=
  match words 5 d with
  | [a; b; c; e; f] => mkSb a b c e f
  | _ => mkSb 0 0 0 0 0
  end.

(** The error exit of [sfs_get_sb]. *)
Definition sfs_get_sb_fail (sb info : Z) : M mounts Z :=
  (if negb (info =? 0) then free_info info else ret tt) ;;
  (if negb (sb =? 0) then fs_free_sb sb else ret tt) ;;
  ret 0.

Definition sfs_get_sb (bdev fs_type : Z) : M mounts Z :=
  sb <- fs_alloc_sb bdev fs_type ;;
  if sb =? 0 then sfs_get_sb_fail sb 0
  else
    info <- new_info ;;
    if info =? 0 then sfs_get_sb_fail sb info
    else
      ok <- on_cache bdev (blk_get SFS_SUPER_BLK) ;;
      if negb ok then sfs_get_sb_fail sb info
      else
        d <- on_cache bdev (rdata SFS_SUPER_BLK) ;;
        x <- get_super sb ;;
        put_super sb (set_root SFS_ROOT_INUM x) ;;
        put_info info (mkInfo (sb_of d) 0) ;;
        j <- jbd_alloc_journal sb ;;
        put_info info (mkInfo (sb_of d) j) ;;
        if j =? 0 then sfs_get_sb_fail sb info
        else
          disable_journal j ;;
          x <- get_super sb ;;
          put_super sb (set_info info x) ;;
          on_cache bdev (blk_release SFS_SUPER_BLK) ;;
          ret sb.

Definition sfs_free_sb (sb : Z) : M mounts unit :=
  x <- get_super sb ;;
  free_info (s_fs_info x) ;;
  fs_free_sb sb.

(** The operations of a type are called through its structure; the simple file
    system, at [sfs_fs_type], is the only one. *)
Variable sfs_fs_type : Z.
Definition call_get_sb (bdev fs_type : Z) : M mounts Z := if fs_type =? sfs_fs_type then sfs_get_sb bdev fs_type else stop Fault.
Definition call_free_sb (fs_type sb : Z) : M mounts unit := if fs_type =? sfs_fs_type then sfs_free_sb sb else stop Fault.

Definition fs_get_sb (bdev fs_type : Z) : M mounts Z :=
  d <- get_dev bdev ;;
  sb <- on_table (plookup (dev d)) ;;
  if sb =? 0 then
    sb <- call_get_sb bdev fs_type ;;
    if sb =? 0 then ret 0
    else
      e <- on_table (pinsert (dev d) sb) ;;
      if negb (e =? ERR_OK) then call_free_sb fs_type sb ;; ret 0
      else
        d <- get_dev bdev ;;
        put_dev bdev (mkDevice (dev d) sb (cache d)) ;;
        ret sb
  else
    x <- get_super sb ;;
    put_super sb (set_ref (u32 (s_ref x + 1)) x) ;;
    ret sb.

Definition fs_release_sb (sb : Z) : M mounts unit :=
  x <- get_super sb ;;
  put_super sb (set_ref (u32 (s_ref x - 1)) x) ;;
  if u32 (s_ref x - 1) =? 0 then
    d <- get_dev (sb_bdev x) ;;
    r <- on_table (premove (dev d)) ;;
    kassert (r =? sb) ;;
    call_free_sb (s_fs_type x) sb
  else ret tt.

(** [sfs_init] with the two object allocators, created or not. *)
Definition sfs_init (sb_ok inode_ok : bool) : M mounts err_t :=
  if negb sb_ok then ret ERR_INIT
  else if negb inode_ok then ret ERR_INIT
  else fs_register_fs sfs_fs_type ;; ret ERR_OK.

(** ** The table *)

(** Every superblock is in the table under the number of its device, has its
    own information block, and is counted. *)
Record inv (s : mounts) : Prop := {
  i_table : pok (fs_sb_table s);
  i_sb_alloc : ook (fs_sb_allocator s) /\ olive (fs_sb_allocator s) = dom (sbs s);
  i_info_alloc : ook (sfs_sb_allocator s) /\ olive (sfs_sb_allocator s) = dom (infos s);
  i_journal_alloc : ook (journal_allocator s) /\ olive (journal_allocator s) = dom (journals s);
  i_dev b d : devs s !! b = Some d -> 0 <= dev d < 2 ^ 30 /\ SFS_SUPER_BLK ∉ locked (cache d);
  i_dev_inj b b' d d' : devs s !! b = Some d -> devs s !! b' = Some d' -> dev d = dev d' -> b = b';
  i_entry b d : devs s !! b = Some d -> pget (fs_sb_table s) (dev d) <> 0 ->
    exists x, sbs s !! pget (fs_sb_table s) (dev d) = Some x /\ sb_bdev x = b;
  i_super p x : sbs s !! p = Some x -> p <> 0 /\ s_fs_type x = sfs_fs_type /\ 0 < s_ref x < 2 ^ 32 /\ is_Some (infos s !! s_fs_info x) /\
    exists d, devs s !! sb_bdev x = Some d /\ pget (fs_sb_table s) (dev d) = p;
  i_info_inj p q x y : sbs s !! p = Some x -> sbs s !! q = Some y -> s_fs_info x = s_fs_info y -> p = q;
}.

(** What is mounted from a device: the superblock, how often it is in use, and
    what was read from the device. *)
Definition view (s : mounts) (b : Z) : option (Z * Z * sfs_sb_info) :=
  d ← devs s !! b;
  let p := pget (fs_sb_table s) (dev d) in
  if p =? 0 then None else x ← sbs s !! p; i ← infos s !! s_fs_info x; Some (p, s_ref x, fields i).

(** Memory runs out after the superblock itself was allocated. *)
Definition short (s : mounts) (d : device) : Prop :=
  (oalloc (sfs_sb_allocator s)).1 = None \/ (oalloc (journal_allocator s)).1 = None \/ nomem (cache d) <> [] \/
  (exists p e t, p <> 0 /\ pinsert (dev d) p (fs_sb_table s) = Ret e t /\ e <> ERR_OK).

Lemma get_super_ok {B} s p x (k : super_block -> M mounts B) : sbs s !! p = Some x -> bind (get_super p) k s = k x s.
Proof. intros E. unfold bind, get_super. by rewrite E. Qed.

Lemma get_dev_ok {B} s b d (k : device -> M mounts B) : devs s !! b = Some d -> bind (get_dev b) k s = k d s.
Proof. intros E. unfold bind, get_dev. by rewrite E. Qed.

Lemma on_cache_ok {B} s b d (m : M bufs B) r c : devs s !! b = Some d -> m (cache d) = Ret r c ->
  on_cache b m s = Ret r (set_devs (<[b := mkDevice (dev d) (d_sb d) c]> (devs s)) s).
Proof. intros Ed Em. unfold on_cache. rewrite (get_dev_ok s b d) by done. by rewrite Em. Qed.

(** A superblock that is in use cannot be freed. *)
Lemma fs_free_sb_used s p x : sbs s !! p = Some x -> s_ref x <> 0 -> exists s', fs_free_sb p s = Halt Panic s'.
Proof.
  intros E Hr. unfold fs_free_sb. rewrite (get_super_ok s p x) by done. unfold bind at 1, kassert at 1.
  destruct (bool_decide _); [|by eexists]. unfold ret. unfold bind at 1, kassert at 1. rewrite (proj2 (Z.eqb_neq _ _) Hr). by eexists.
Qed.

(** The error exit of [sfs_get_sb] panics once there is a superblock. *)
Lemma sfs_get_sb_fail_panics s p i x : p <> 0 -> sbs s !! p = Some x -> s_ref x <> 0 -> exists s', sfs_get_sb_fail p i s = Halt Panic s'.
Proof.
  intros Hp E Hr. unfold sfs_get_sb_fail. rewrite (proj2 (Z.eqb_neq p 0) Hp). cbn [negb].
  set (s1 := if negb (i =? 0) then set_infos (delete i (infos s)) (ofree i (sfs_sb_allocator s)) s else s).
  assert (E1 : (if negb (i =? 0) then free_info i else ret tt) s = Ret tt s1) by (unfold s1; by destruct (negb (i =? 0))).
  rewrite (bind_Ret _ _ _ _ _ E1). assert (Es : sbs s1 !! p = Some x) by (unfold s1; by destruct (negb (i =? 0))).
  destruct (fs_free_sb_used s1 p x Es Hr) as [s' E']. exists s'. unfold bind. by rewrite E'.
Qed.

Lemma disable_journal_ok s j x : journals s !! j = Some x ->
  disable_journal j s = Ret tt (set_journals (<[j := mkJournal (j_sb x) false]> (journals s)) (journal_allocator s) s).
Proof. intros E. unfold disable_journal. by rewrite E. Qed.

Definition fresh_super (b i : Z) : super_block := mkSuper b sfs_fs_type SFS_ROOT_INUM ∅ 1 0 i.

(** The states in which [sfs_get_sb] leaves a new superblock. *)
Record built (s : mounts) (b : Z) (d : device) (p i j : Z) (s' : mounts) : Prop := {
  bu_sb : p <> 0 /\ sbs s !! p = None /\ sbs s' = <[p := fresh_super b i]> (sbs s);
  bu_info : infos s !! i = None /\ infos s' = <[i := mkInfo (sb_of (blk (cache d) SFS_SUPER_BLK)) j]> (infos s);
  bu_journal : journals s' = <[j := mkJournal p false]> (journals s);
  bu_table : fs_sb_table s' = fs_sb_table s;
  bu_alloc : ook (fs_sb_allocator s') /\ olive (fs_sb_allocator s') = dom (sbs s') /\
    ook (sfs_sb_allocator s') /\ olive (sfs_sb_allocator s') = dom (infos s') /\
    ook (journal_allocator s') /\ olive (journal_allocator s') = dom (journals s');
  bu_dev : exists c, devs s' = <[b := mkDevice (dev d) (d_sb d) c]> (devs s) /\ blocks c = blocks (cache d) /\ locked c = locked (cache d) }.

Lemma fs_alloc_sb_eq b ty s : fs_alloc_sb b ty s =
  match oalloc (fs_sb_allocator s) with
  | (None, a) => Ret 0 (set_sbs (sbs s) a s)
  | (Some p, a) => Ret p (set_sbs (<[p := mkSuper b ty 0 ∅ 1 0 0]> (sbs s)) a s)
  end.
Proof.
  unfold fs_alloc_sb. destruct (oalloc (fs_sb_allocator s)) as [[p|] a]; [|done].
  unfold fs_set_sb_dirty. rewrite bind_assoc, (get_super_ok _ p (mkSuper b ty 0 ∅ 1 0 0)) by apply lookup_insert_eq.
  unfold put_super. rewrite bind_modify. unfold ret. cbn [sbs set_sbs fs_sb_allocator]. rewrite insert_insert_eq. done.
Qed.

(** How [sfs_get_sb] ends: no memory for the superblock, a new superblock, or a
    failed assertion when memory runs out later. *)
Definition get_outcome (s : mounts) (b : Z) (d : device) (o : outcome mounts Z) : Prop :=
  (exists a, o = Ret 0 (set_sbs (sbs s) a s) /\ ook a /\ olive a = dom (sbs s)) \/
  (exists p i j s', o = Ret p s' /\ built s b d p i j s') \/
  (exists s', o = Halt Panic s' /\ short s d).

Lemma sfs_get_sb_ok s b d : inv s -> devs s !! b = Some d -> get_outcome s b d (sfs_get_sb b sfs_fs_type s).
Proof.
  intros Hinv Hd. destruct (i_sb_alloc _ Hinv) as [Hsa Hsd]. destruct (i_info_alloc _ Hinv) as [Hia Hid].
  destruct (i_journal_alloc _ Hinv) as [Hja Hjd]. destruct (i_dev _ Hinv b d Hd) as [_ Hlk].
  unfold sfs_get_sb, bind at 1. rewrite fs_alloc_sb_eq. destruct (oalloc (fs_sb_allocator s)) as [[p|] a] eqn:Ea.
  2:{ rewrite Z.eqb_refl. left. exists a. destruct (oalloc_None _ _ Hsa Ea) as [? ->]. done. }
  destruct (oalloc_Some _ _ _ Hsa Ea) as (Hsa' & Hp0 & Hpn & Hsd'). rewrite (proj2 (Z.eqb_neq p 0) Hp0).
  set (s1 := set_sbs _ a _). assert (Es1 : sbs s1 !! p = Some (mkSuper b sfs_fs_type 0 ∅ 1 0 0)) by apply lookup_insert_eq.
  unfold bind at 1, new_info. cbn [sfs_sb_allocator s1 set_sbs].
  destruct (oalloc (sfs_sb_allocator s)) as [[i|] a2] eqn:Ea2.
  2:{ rewrite Z.eqb_refl. right; right. destruct (sfs_get_sb_fail_panics (set_infos (infos s1) a2 s1) p 0 _ Hp0 Es1) as [s' E]; [done|]. exists s'. split; [exact E|].
      left. by rewrite Ea2. }
  destruct (oalloc_Some _ _ _ Hia Ea2) as (Hia' & Hi0 & Hin & Hid'). rewrite (proj2 (Z.eqb_neq i 0) Hi0).
  set (s2 := set_infos _ a2 _). assert (Hd2 : devs s2 !! b = Some d) by exact Hd.
  destruct (blk_get_ok (cache d) SFS_SUPER_BLK Hlk) as (ok & l & Eg & _ & Hn).
  rewrite (bind_Ret _ _ _ _ _ (on_cache_ok s2 b d _ _ _ Hd2 Eg)). set (s3 := set_devs _ s2).
  assert (Es3 : sbs s3 !! p = Some (mkSuper b sfs_fs_type 0 ∅ 1 0 0)) by exact Es1.
  destruct ok; cbn [negb].
  2:{ right; right. destruct (sfs_get_sb_fail_panics s3 p i _ Hp0 Es3) as [s' E]; [done|]. exists s'. split; [exact E|].
      right; right; left. intros Hnil. by destruct (Hn Hnil). }
  set (c3 := mkBufs _ _ _ l) in *. assert (Hd3 : devs s3 !! b = Some (mkDevice (dev d) (d_sb d) c3)) by apply lookup_insert_eq.
  assert (Hl3 : SFS_SUPER_BLK ∈ locked c3) by (simpl; set_solver).
  assert (Er : rdata SFS_SUPER_BLK c3 = Ret (blk (cache d) SFS_SUPER_BLK) c3).
  { unfold rdata. rewrite bind_gets, bool_decide_eq_true_2 by done. done. }
  rewrite (bind_Ret _ _ _ _ _ (on_cache_ok s3 b _ _ _ _ Hd3 Er)). set (s4 := set_devs _ s3).
  rewrite (get_super_ok s4 p (mkSuper b sfs_fs_type 0 ∅ 1 0 0)) by exact Es3. unfold put_super at 1, put_info at 1. rewrite !bind_modify.
  set (s5 := set_infos _ _ _). unfold bind at 1, jbd_alloc_journal. cbn [journal_allocator s5 set_infos set_sbs s4 set_devs s3 s2 s1].
  destruct (oalloc (journal_allocator s)) as [[j|] a3] eqn:Ea3.
  2:{ unfold put_info. rewrite bind_modify, Z.eqb_refl. set (s6 := set_infos _ _ _). right; right.
      destruct (sfs_get_sb_fail_panics s6 p i (set_root SFS_ROOT_INUM (mkSuper b sfs_fs_type 0 ∅ 1 0 0)) Hp0) as [s' E]; [apply lookup_insert_eq|done|]. exists s'. split; [exact E|].
      right; left. by rewrite Ea3. }
  destruct (oalloc_Some _ _ _ Hja Ea3) as (Hja' & Hj0 & Hjn & Hjd').
  unfold put_info. rewrite bind_modify, (proj2 (Z.eqb_neq j 0) Hj0). set (s6 := set_infos _ _ _).
  assert (Ej : journals s6 !! j = Some (mkJournal p true)) by apply lookup_insert_eq.
  rewrite (bind_Ret _ _ _ _ _ (disable_journal_ok s6 j _ Ej)). set (s7 := set_journals _ _ s6).
  rewrite (get_super_ok s7 p (set_root SFS_ROOT_INUM (mkSuper b sfs_fs_type 0 ∅ 1 0 0))) by apply lookup_insert_eq.
  unfold put_super. rewrite bind_modify. set (s8 := set_sbs _ _ s7).
  assert (Hd8 : devs s8 !! b = Some (mkDevice (dev d) (d_sb d) c3)) by apply lookup_insert_eq.
  rewrite (bind_Ret _ _ _ _ _ (on_cache_ok s8 b _ _ _ _ Hd8 (blk_release_ok c3 _ Hl3))).
  right; left. exists p, i, j. eexists. split; [reflexivity|].
  split; cbn; rewrite ?insert_insert_eq, ?dom_insert_L, ?Hsd', ?Hid', ?Hjd', ?Hsd, ?Hid, ?Hjd; try done.
  - split; [done|]. split; [|done]. apply not_elem_of_dom. by rewrite <- Hsd.
  - split; [|done]. apply not_elem_of_dom. by rewrite <- Hid.
  - eexists. split; [reflexivity|]. split; [done|]. cbn. set_solver.
Qed.

(** *** Mounting *)

(** The superblock of the device [b] of number [n]. *)
Lemma view_mounted s b d : inv s -> devs s !! b = Some d -> pget (fs_sb_table s) (dev d) <> 0 ->
  exists x i, sbs s !! pget (fs_sb_table s) (dev d) = Some x /\ sb_bdev x = b /\ infos s !! s_fs_info x = Some i /\
    view s b = Some (pget (fs_sb_table s) (dev d), s_ref x, fields i).
Proof.
  intros Hinv Hd Hp. destruct (i_entry _ Hinv b d Hd Hp) as (x & Ex & Hb).
  destruct (i_super _ Hinv _ _ Ex) as (_ & _ & _ & [i Ei] & _). exists x, i. split; [done|]. split; [done|]. split; [done|].
  unfold view. rewrite Hd. simpl. rewrite (proj2 (Z.eqb_neq _ _) Hp), Ex. simpl. by rewrite Ei.
Qed.

Lemma view_unmounted s b d : devs s !! b = Some d -> pget (fs_sb_table s) (dev d) = 0 -> view s b = None.
Proof. intros Hd Hp. unfold view. rewrite Hd. simpl. by rewrite Hp. Qed.

(** Another count of a mounted superblock. *)
Lemma mount_recount_ok s b d x n : let p := pget (fs_sb_table s) (dev d) in
  inv s -> devs s !! b = Some d -> p <> 0 -> sbs s !! p = Some x -> 0 < n < 2 ^ 32 ->
  let s' := set_sbs (<[p := set_ref n x]> (sbs s)) (fs_sb_allocator s) s in
  inv s' /\ (forall b', b' <> b -> view s' b' = view s b') /\
  (forall i, infos s !! s_fs_info x = Some i -> view s' b = Some (p, n, fields i)).
Proof.
  intros p Hinv Hd Hp Ex Hn s'. destruct (i_entry _ Hinv b d Hd Hp) as (x' & Ex' & Hb). fold p in Ex'. rewrite Ex in Ex'. injection Ex' as <-.
  destruct (i_super _ Hinv _ _ Ex) as (_ & Hty & _ & Hi & d' & Hd' & Hpd').
  split; [|split].
  - destruct Hinv as [H1 H2 H3 H4 H5 H6 H7 H8 H9]. split; cbn; try done.
    + rewrite dom_insert_lookup_L by eauto. done.
    + intros b' d1 Hd1 Hp1. destruct (H7 b' d1 Hd1 Hp1) as (y & Ey & Hby). destruct (decide (pget (fs_sb_table s) (dev d1) = p)) as [E|Hne].
      * rewrite E in *. rewrite Ex in Ey. injection Ey as <-. exists (set_ref n x). by rewrite lookup_insert_eq.
      * exists y. by rewrite lookup_insert_ne.
    + intros q y [[<- <-]|[_ Ey]]%lookup_insert_Some; [|by apply H8]. cbn. split_and!; try done; [lia|lia|eauto].
    + intros q1 q2 y1 y2 [[<- <-]|[Hq1 E1]]%lookup_insert_Some [[<- <-]|[Hq2 E2]]%lookup_insert_Some; cbn; intros Heq; [done|..]; by eapply H9.
  - intros b' Hb'. unfold view. cbn. destruct (devs s !! b') as [d1|] eqn:Ed1; [|done]. simpl.
    destruct (Z.eqb_spec (pget (fs_sb_table s) (dev d1)) 0) as [|Hnz]; [done|]. rewrite lookup_insert_ne; [done|]. intros E.
    destruct (i_entry _ Hinv b' d1 Ed1 Hnz) as (y & Ey & Hby). rewrite <- E in Ey. fold p in Ey. rewrite Ex in Ey. injection Ey as <-. congruence.
  - intros i Ei. unfold view. cbn. rewrite Hd. simpl. fold p. rewrite (proj2 (Z.eqb_neq _ _) Hp), lookup_insert_eq. simpl. by rewrite Ei.
Qed.

(** A new superblock, once it is in the table. *)
Lemma built_ok s b d p i j s1 t : inv s -> devs s !! b = Some d -> pget (fs_sb_table s) (dev d) = 0 -> built s b d p i j s1 ->
  pok t -> pget t (dev d) = p -> (forall k, 0 <= k < 2 ^ 30 -> k <> dev d -> pget t k = pget (fs_sb_table s) k) ->
  exists c, devs s1 !! b = Some (mkDevice (dev d) (d_sb d) c) /\
  let s' := set_devs (<[b := mkDevice (dev d) p c]> (devs s1)) (set_table t s1) in
  inv s' /\ (forall b', b' <> b -> view s' b' = view s b') /\ view s' b = Some (p, 1, sb_of (blk (cache d) SFS_SUPER_BLK)).
Proof.
  intros Hinv Hd H0 [(Hp0 & Hpn & Esb) (Hin & Ein) Ej Et (A1 & A2 & A3 & A4 & A5 & A6) (c & Edv & Hbl & Hlk)] Hok Htd Hto.
  destruct (i_dev _ Hinv b d Hd) as [Hdr Hnl]. exists c. split; [by rewrite Edv, lookup_insert_eq|]. rewrite Edv, insert_insert_eq. set (d' := mkDevice (dev d) p c).
  intros s'. assert (Edvs : devs s' = <[b := d']> (devs s)) by done.
  assert (Hdev : forall b' d1, devs s' !! b' = Some d1 -> exists d0, devs s !! b' = Some d0 /\ dev d0 = dev d1 /\ (b' = b /\ d1 = d' \/ b' <> b /\ d0 = d1)).
  { rewrite Edvs. intros b' d1 [[<- <-]|[Hne E]]%lookup_insert_Some; [exists d; naive_solver|exists d1; naive_solver]. }
  assert (Hother : forall b' d1, b' <> b -> devs s !! b' = Some d1 -> pget t (dev d1) = pget (fs_sb_table s) (dev d1)).
  { intros b' d1 Hne E. apply Hto; [by apply (i_dev _ Hinv b')|]. intros Heq. apply Hne. by apply (i_dev_inj _ Hinv b' b d1 d). }
  assert (Esbs : sbs s' = <[p := fresh_super b i]> (sbs s)) by exact Esb.
  assert (Einf : infos s' = <[i := mkInfo (sb_of (blk (cache d) SFS_SUPER_BLK)) j]> (infos s)) by exact Ein.
  assert (Hold : forall q y, sbs s !! q = Some y -> q <> p /\ s_fs_info y <> i).
  { intros q y Ey. split; [congruence|]. intros E. destruct (i_super _ Hinv q y Ey) as (_ & _ & _ & [z Ez] & _). congruence. }
  split; [split|split].
  - exact Hok.
  - by split.
  - by split.
  - by split.
  - intros b' d1 (d0 & E0 & Edd & Hcase)%Hdev. rewrite <- Edd. destruct (i_dev _ Hinv b' d0 E0) as [Hr Hl].
    split; [done|]. destruct Hcase as [[-> ->]|[_ <-]]; [|done]. cbn. by rewrite Hlk.
  - intros b1 b2 d1 d2 (e1 & E1 & <- & _)%Hdev (e2 & E2 & <- & _)%Hdev. by apply (i_dev_inj _ Hinv).
  - change (fs_sb_table s') with t. rewrite Esbs. intros b' d1 (d0 & E0 & Edd & Hcase)%Hdev. destruct Hcase as [[-> ->]|[Hne <-]].
    + cbn [dev d']. rewrite Htd. intros _. exists (fresh_super b i). by rewrite lookup_insert_eq.
    + rewrite (Hother b' d0 Hne E0). intros Hnz. destruct (i_entry _ Hinv b' d0 E0 Hnz) as (y & Ey & Hy). exists y.
      rewrite lookup_insert_ne; [done|]. by destruct (Hold _ _ Ey) as [? _].
  - rewrite Esbs. intros q y [[<- <-]|[_ Ey]]%lookup_insert_Some.
    + split; [done|]. split; [done|]. split; [cbn; lia|]. split; [change (is_Some (infos s' !! i)); rewrite Einf, lookup_insert_eq; by eexists|].
      exists d'. cbn [sb_bdev fresh_super]. rewrite Edvs, lookup_insert_eq. by split.
    + destruct (i_super _ Hinv q y Ey) as (Hq0 & Hty & Hrf & Hi & d0 & E0 & Hpd). split; [done|]. split; [done|]. split; [done|].
      split; [change (is_Some (infos s' !! s_fs_info y)); rewrite Einf; destruct (Hold _ _ Ey) as [_ Hni]; by rewrite lookup_insert_ne|].
      exists d0. assert (Hne : sb_bdev y <> b) by (intros Eb; rewrite Eb, Hd in E0; injection E0 as <-; congruence).
      rewrite Edvs, lookup_insert_ne by done. split; [done|]. change (fs_sb_table s') with t. by rewrite (Hother _ _ Hne E0).
  - rewrite Esbs. intros q1 q2 y1 y2 [[<- <-]|[_ E1]]%lookup_insert_Some [[<- <-]|[_ E2]]%lookup_insert_Some Heq; cbn in Heq.
    + done.
    + by destruct (Hold _ _ E2) as [_ Hni].
    + by destruct (Hold _ _ E1) as [_ Hni].
    + by apply (i_info_inj _ Hinv _ _ _ _ E1 E2).
  - intros b' Hne. unfold view. rewrite Edvs, lookup_insert_ne by done. destruct (devs s !! b') as [d1|] eqn:E1; [|done]. simpl.
    rewrite (Hother b' d1 Hne E1).
    destruct (Z.eqb_spec (pget (fs_sb_table s) (dev d1)) 0) as [|Hnz]; [done|].
    destruct (i_entry _ Hinv b' d1 E1 Hnz) as (y & Ey & _). destruct (Hold _ _ Ey) as [Hnp Hni].
    rewrite Esb, lookup_insert_ne, Ey by done. simpl. by rewrite Ein, lookup_insert_ne by done.
  - unfold view. rewrite Edvs, lookup_insert_eq. simpl. rewrite Htd, (proj2 (Z.eqb_neq _ _) Hp0).
    rewrite Esb, lookup_insert_eq. simpl. by rewrite Ein, lookup_insert_eq.
Qed.

Lemma zoom_table_ok {B} (m : M T B) s r t : m (fs_sb_table s) = Ret r t -> on_table m s = Ret r (set_table t s).
Proof. intros E. unfold on_table, zoom. by rewrite E. Qed.

Lemma set_table_same s : set_table (fs_sb_table s) s = s.
Proof. by destruct s. Qed.

Lemma realloc_ok s a : inv s -> ook a -> olive a = dom (sbs s) -> inv (set_sbs (sbs s) a s).
Proof. intros [H1 H2 H3 H4 H5 H6 H7 H8 H9] Ha Hd. by split. Qed.

(** How [fs_get_sb] ends. *)
Definition mounted (s : mounts) (b : Z) (d : device) (o : outcome mounts Z) : Prop :=
  (exists p s', o = Ret p s' /\ inv s' /\ (forall b', b' <> b -> view s' b' = view s b') /\
     ((p = 0 /\ view s b = None /\ view s' b = None) \/
      (p <> 0 /\ view s b = None /\ view s' b = Some (p, 1, sb_of (blk (cache d) SFS_SUPER_BLK))) \/
      (exists r f, view s b = Some (p, r, f) /\ view s' b = Some (p, r + 1, f)))) \/
  (exists s', o = Halt Panic s' /\ view s b = None /\ short s d).

Lemma fs_get_sb_ok s b d : inv s -> devs s !! b = Some d -> (forall p r f, view s b = Some (p, r, f) -> r < 2 ^ 32 - 1) ->
  mounted s b d (fs_get_sb b sfs_fs_type s).
Proof.
  intros Hinv Hd Hr. destruct (i_dev _ Hinv b d Hd) as [Hdr _]. unfold fs_get_sb. rewrite (get_dev_ok s b d) by done.
  rewrite (bind_Ret _ _ _ _ _ (zoom_table_ok _ s _ _ (plookup_spec _ _ (i_table _ Hinv) Hdr))), set_table_same.
  destruct (Z.eqb_spec (pget (fs_sb_table s) (dev d)) 0) as [H0|Hnz].
  - pose proof (view_unmounted s b d Hd H0) as Hv. unfold call_get_sb. rewrite Z.eqb_refl.
    destruct (sfs_get_sb_ok s b d Hinv Hd) as [(a & E & Ha & Hda)|[(p & i & j & s1 & E & Hb)|(s1 & E & Hsh)]].
    + rewrite (bind_Ret _ _ _ _ _ E), Z.eqb_refl. left. exists 0. eexists. split; [reflexivity|]. split; [by apply realloc_ok|]. split; [done|]. left. done.
    + rewrite (bind_Ret _ _ _ _ _ E). pose proof Hb as [(Hp0 & Hpn & Esb) _ _ Et _ _]. rewrite (proj2 (Z.eqb_neq _ _) Hp0).
      destruct (pinsert_spec (fs_sb_table s) (dev d) p (i_table _ Hinv) Hdr Hp0 H0) as (e & t & Ei & Hok & Hto & Hcase).
      assert (Ei1 : pinsert (dev d) p (fs_sb_table s1) = Ret e t) by by rewrite Et.
      rewrite (bind_Ret _ _ _ _ _ (zoom_table_ok _ s1 _ _ Ei1)). destruct Hcase as [[-> Htd]|[-> _]]; cbn [Z.eqb ERR_OK negb].
      * destruct (built_ok s b d p i j s1 t Hinv Hd H0 Hb Hok Htd Hto) as (c & Ed1 & Hinv' & Hoth & Hvb).
        rewrite (get_dev_ok _ b (mkDevice (dev d) (d_sb d) c)) by exact Ed1. unfold put_dev. rewrite bind_modify.
        left. exists p. eexists. split; [reflexivity|]. split; [exact Hinv'|]. split; [exact Hoth|]. right; left. by split.
      * right. unfold call_free_sb. rewrite Z.eqb_refl. unfold sfs_free_sb.
        assert (Ep : sbs (set_table t s1) !! p = Some (fresh_super b i)) by (cbn; by rewrite Esb, lookup_insert_eq).
        rewrite bind_assoc, (get_super_ok _ p (fresh_super b i)) by exact Ep. unfold free_info. rewrite bind_assoc, bind_modify.
        set (s2 := set_infos _ _ _). destruct (fs_free_sb_used s2 p (fresh_super b i) Ep) as [s' E']; [done|].
        exists s'. unfold bind. rewrite E'. split; [done|]. split; [done|]. right; right; right. by exists p, 1, t.
    + right. exists s1. unfold bind. by rewrite E.
  - destruct (view_mounted s b d Hinv Hd Hnz) as (x & i & Ex & Hxb & Ei & Hv). specialize (Hr _ _ _ Hv).
    destruct (i_super _ Hinv _ _ Ex) as (_ & _ & Hrx & _). rewrite (get_super_ok s _ x) by done. rewrite (wrap_small 32) by lia.
    unfold put_super. rewrite bind_modify. destruct (mount_recount_ok s b d x (s_ref x + 1) Hinv Hd Hnz Ex) as (Hinv' & Hoth & Hvb); [lia|].
    left. eexists _, _. split; [reflexivity|]. split; [done|]. split; [done|]. right; right. exists (s_ref x), (fields i). split; [done|]. by apply Hvb.
Qed.

(** *** Unmounting *)

(** No inode of the file system is cached and the superblock is clean. *)
Definition idle (x : super_block) : Prop := s_icache x = ∅ /\ fs_is_sb_dirty x = false.

(** A superblock that has left the table and was freed with its information. *)
Lemma unmount_freed_ok s b d x t : let p := pget (fs_sb_table s) (dev d) in
  inv s -> devs s !! b = Some d -> p <> 0 -> sbs s !! p = Some x ->
  pok t -> pget t (dev d) = 0 -> (forall k, 0 <= k < 2 ^ 30 -> k <> dev d -> pget t k = pget (fs_sb_table s) k) ->
  let s' := set_sbs (delete p (sbs s)) (ofree p (fs_sb_allocator s))
              (set_infos (delete (s_fs_info x) (infos s)) (ofree (s_fs_info x) (sfs_sb_allocator s)) (set_table t s)) in
  inv s' /\ (forall b', b' <> b -> view s' b' = view s b') /\ view s' b = None.
Proof.
  intros p Hinv Hd Hp Ex Hok Htd Hto s'. destruct (i_entry _ Hinv b d Hd Hp) as (x' & Ex' & Hb). fold p in Ex'. rewrite Ex in Ex'. injection Ex' as <-.
  destruct (i_super _ Hinv _ _ Ex) as (_ & _ & _ & Hi & _).
  assert (Hother : forall b' d1, b' <> b -> devs s !! b' = Some d1 -> pget t (dev d1) = pget (fs_sb_table s) (dev d1)).
  { intros b' d1 Hne E. apply Hto; [by apply (i_dev _ Hinv b')|]. intros Heq. apply Hne. by apply (i_dev_inj _ Hinv b' b d1 d). }
  assert (Hnot : forall b' d1 y, b' <> b -> devs s !! b' = Some d1 -> sbs s !! pget (fs_sb_table s) (dev d1) = Some y -> sb_bdev y = b' -> pget (fs_sb_table s) (dev d1) <> p).
  { intros b' d1 y Hne _ Ey Hy E. rewrite E, Ex in Ey. injection Ey as <-. congruence. }
  assert (Hinfo : forall q y, q <> p -> sbs s !! q = Some y -> s_fs_info y <> s_fs_info x).
  { intros q y Hq Ey E. apply Hq. by apply (i_info_inj _ Hinv _ _ _ _ Ey Ex). }
  destruct (i_sb_alloc _ Hinv) as [Hsa Hsd]. destruct (i_info_alloc _ Hinv) as [Hia Hid].
  destruct (ofree_live (fs_sb_allocator s) p Hsa) as [Hsa' Hsd']; [rewrite Hsd; by apply elem_of_dom_2 in Ex|].
  destruct (ofree_live (sfs_sb_allocator s) (s_fs_info x) Hia) as [Hia' Hid']; [rewrite Hid; by apply elem_of_dom|].
  split; [split; cbn|split].
  - done.
  - rewrite Hsd', Hsd, dom_delete_L. done.
  - rewrite Hid', Hid, dom_delete_L. done.
  - apply (i_journal_alloc _ Hinv).
  - apply (i_dev _ Hinv).
  - apply (i_dev_inj _ Hinv).
  - intros b' d1 E1 Hnz. destruct (decide (b' = b)) as [->|Hne]; [rewrite Hd in E1; injection E1 as <-; by destruct Hnz|].
    rewrite (Hother b' d1 Hne E1) in *. destruct (i_entry _ Hinv b' d1 E1 Hnz) as (y & Ey & Hy). exists y.
    rewrite lookup_delete_ne; [done|]. apply not_eq_sym. by apply (Hnot b' d1 y).
  - intros q y [Hqp Ey]%lookup_delete_Some. destruct (i_super _ Hinv q y Ey) as (H1 & H2 & H3 & H4 & d1 & E1 & H5).
    split; [done|]. split; [done|]. split; [done|]. split; [rewrite lookup_delete_ne; [done|apply not_eq_sym, (Hinfo q y); [by apply not_eq_sym|done]]|].
    exists d1. split; [done|]. rewrite (Hother (sb_bdev y) d1); [done| |done]. intros Eb. rewrite Eb, Hd in E1. injection E1 as <-. by apply Hqp.
  - intros q1 q2 y1 y2 [_ E1]%lookup_delete_Some [_ E2]%lookup_delete_Some. by apply (i_info_inj _ Hinv).
  - intros b' Hne. unfold view. cbn. destruct (devs s !! b') as [d1|] eqn:E1; [|done]. simpl. rewrite (Hother b' d1 Hne E1).
    destruct (Z.eqb_spec (pget (fs_sb_table s) (dev d1)) 0) as [|Hnz]; [done|]. destruct (i_entry _ Hinv b' d1 E1 Hnz) as (y & Ey & Hy).
    pose proof (Hnot b' d1 y Hne E1 Ey Hy) as Hnp. rewrite lookup_delete_ne, Ey by congruence. simpl. rewrite lookup_delete_ne; [done|].
    apply not_eq_sym. by apply (Hinfo _ y Hnp).
  - apply (view_unmounted s' b d Hd Htd).
Qed.

Lemma fs_free_sb_ok s p x : sbs s !! p = Some x -> s_ref x = 0 -> idle x ->
  fs_free_sb p s = Ret tt (set_sbs (delete p (sbs s)) (ofree p (fs_sb_allocator s)) s).
Proof.
  intros E Hr [Hic Hdi]. unfold fs_free_sb. rewrite (get_super_ok s p x) by done.
  rewrite !bind_kassert; [done|by rewrite Hdi|by rewrite Hr|by apply bool_decide_eq_true_2].
Qed.

Lemma fs_release_sb_ok s b d p r f x : inv s -> devs s !! b = Some d -> view s b = Some (p, r, f) -> sbs s !! p = Some x -> (r = 1 -> idle x) ->
  exists s', fs_release_sb p s = Ret tt s' /\ inv s' /\ (forall b', b' <> b -> view s' b' = view s b') /\
    view s' b = if r =? 1 then None else Some (p, r - 1, f).
Proof.
  intros Hinv Hd Hv Ex Hidle. destruct (i_dev _ Hinv b d Hd) as [Hdr _].
  destruct (decide (pget (fs_sb_table s) (dev d) = 0)) as [H0|Hnz]; [by rewrite (view_unmounted s b d Hd H0) in Hv|].
  destruct (view_mounted s b d Hinv Hd Hnz) as (x' & i & Ex' & Hxb & Ei & Hv'). rewrite Hv' in Hv. injection Hv as <- <- <-.
  rewrite Ex in Ex'. injection Ex' as <-. destruct (i_super _ Hinv _ _ Ex) as (_ & Hty & Hrx & _).
  unfold fs_release_sb. rewrite (get_super_ok s _ x) by done. rewrite (wrap_small 32) by lia. unfold put_super. rewrite bind_modify.
  destruct (Z.eqb_spec (s_ref x - 1) 0) as [H1|Hne]; destruct (Z.eqb_spec (s_ref x) 1) as [H1'|H1']; try lia.
  - rewrite (get_dev_ok _ (sb_bdev x) d) by (cbn; by rewrite Hxb). set (s1 := set_sbs _ _ s).
    destruct (premove_spec (fs_sb_table s) (dev d) (i_table _ Hinv) Hdr Hnz) as (t & Er & Hok & Htd & Hto).
    rewrite (bind_Ret _ _ _ _ _ (zoom_table_ok _ s1 _ _ Er)), bind_kassert by apply Z.eqb_refl.
    unfold call_free_sb. rewrite Hty, Z.eqb_refl. unfold sfs_free_sb.
    rewrite (get_super_ok _ _ (set_ref (s_ref x - 1) x)) by apply lookup_insert_eq. unfold free_info. rewrite bind_modify. set (s2 := set_infos _ _ _).
    rewrite (fs_free_sb_ok s2 _ (set_ref (s_ref x - 1) x)) by (apply lookup_insert_eq || done || by apply Hidle).
    eexists. split; [reflexivity|]. cbn. rewrite delete_insert_eq. by apply (unmount_freed_ok s b d x t).
  - destruct (mount_recount_ok s b d x (s_ref x - 1) Hinv Hd Hnz Ex) as (Hinv' & Hoth & Hvb); [lia|].
    eexists. split; [reflexivity|]. split; [done|]. split; [done|]. by apply Hvb.
Qed.

(** *** Runs *)

(** The table at boot, before anything is mounted. *)
Record boot (s : mounts) : Prop := {
  b_table : pok (fs_sb_table s) /\ forall k, 0 <= k < 2 ^ 30 -> pget (fs_sb_table s) k = 0;
  b_empty : sbs s = ∅ /\ infos s = ∅ /\ journals s = ∅;
  b_alloc : Forall (fun a => ook a /\ olive a = ∅) [fs_sb_allocator s; sfs_sb_allocator s; journal_allocator s];
  b_dev b d : devs s !! b = Some d -> 0 <= dev d < 2 ^ 30 /\ SFS_SUPER_BLK ∉ locked (cache d);
  b_dev_inj b b' d d' : devs s !! b = Some d -> devs s !! b' = Some d' -> dev d = dev d' -> b = b' }.

(** The count of a superblock does not reach the width of [s_ref]. *)
Definition countable (s : mounts) (b : Z) : Prop := forall p r f, view s b = Some (p, r, f) -> r < 2 ^ 32 - 1.

Inductive reach : mounts -> Prop :=
| reach_boot s : boot s -> reach s
| reach_get s b d p s' : reach s -> devs s !! b = Some d -> countable s b -> fs_get_sb b sfs_fs_type s = Ret p s' -> reach s'
| reach_release s b d p r f x s' : reach s -> devs s !! b = Some d -> view s b = Some (p, r, f) -> sbs s !! p = Some x ->
    (r = 1 -> idle x) -> fs_release_sb p s = Ret tt s' -> reach s'.

Lemma boot_mounts_inv s : boot s -> inv s.
Proof.
  intros [[Hok H0] (Esb & Ein & Ej) Ha Hdev Hinj].
  apply Forall_cons in Ha as [[A1 A2] [[A3 A4] [[A5 A6] _]%Forall_cons]%Forall_cons].
  split; rewrite ?Esb, ?Ein, ?Ej, ?dom_empty_L; try done. intros b d Hd Hnz. rewrite H0 in Hnz; [done|]. by apply (Hdev b).
Qed.

Lemma reach_mounts_inv s : reach s -> inv s.
Proof.
  induction 1 as [s Hb|s b d p s' _ IH Hd Hc E|s b d p r f x s' _ IH Hd Hv Ex Hi E]; [by apply boot_mounts_inv|..].
  - destruct (fs_get_sb_ok s b d IH Hd Hc) as [(p' & s1 & E1 & Hinv & _)|(s1 & E1 & _)]; rewrite E in E1; [by injection E1 as <- <-|done].
  - destruct (fs_release_sb_ok s b d p r f x IH Hd Hv Ex Hi) as (s1 & E1 & Hinv & _). rewrite E in E1. by injection E1 as <-.
Qed.

(** C35. In every sequence of mounts and releases, mounting a device that is
    mounted gives the same superblock with one more reference; mounting another
    one gives a superblock of its own with what its block 2 says, unless there
    is no memory for the superblock, when the result is NULL, or memory runs
    out later, when an assertion of the error exit fails; releasing drops one
    reference and with the last one takes the superblock out of the table and
    frees it; no operation changes what is mounted from the other devices. *)
Theorem superblocks_shared s b d : reach s -> devs s !! b = Some d -> countable s b ->
  mounted s b d (fs_get_sb b sfs_fs_type s) /\
  (forall p r f x, view s b = Some (p, r, f) -> sbs s !! p = Some x -> (r = 1 -> idle x) ->
     exists s', fs_release_sb p s = Ret tt s' /\ (forall b', b' <> b -> view s' b' = view s b') /\
       view s' b = if r =? 1 then None else Some (p, r - 1, f)).
Proof.
  intros Hinv%reach_mounts_inv Hd Hc. split; [by apply fs_get_sb_ok|]. intros p r f x Hv Ex Hi.
  destruct (fs_release_sb_ok s b d p r f x Hinv Hd Hv Ex Hi) as (s' & E & _ & Ho & Hv'). eauto.
Qed.

End model.
Arguments mounts : clear implicits.

(** ** A concrete table: two devices, of numbers 0 and 3 *)

Definition ex_block : list Z := mjoin (le32 <$> [100; 16; 9; 40; 60]) ++ replicate 492 0.
Definition ex_cache : bufs := mkBufs {[2 := ex_block]} ∅ ∅ [].
Definition ex_mounts (n : nat) : mounts Bump.bump (RadixTree.rtree Bump.bump) :=
  mkMounts {[7 := [115; 102; 115]]} [] RadixTree.ex_empty ∅ ∅ ∅ (Bump.mkBump 9 1 ∅) (Bump.mkBump n 1 ∅) (Bump.mkBump 9 1 ∅)
    (<[1000 := mkDevice 0 0 ex_cache]> {[1001 := mkDevice 3 0 ex_cache]}).

Lemma ex_mounts_boot n : boot (ex_mounts n).
Proof.
  split.
  - split; [apply RadixTree.ex_empty_inv|]. intros i Hi. simpl. unfold RadixTree.radix_tree_lookup, bind, RadixTree.radix_tree_max_index. simpl. destruct i; [done|done|lia].
  - done.
  - repeat constructor; try (by vm_compute); by intros p ?%elem_of_empty.
  - cbn [devs ex_mounts]. intros b d [[<- <-]|[_ [<- <-]%lookup_singleton_Some]]%lookup_insert_Some; (split; [simpl; lia|apply not_elem_of_empty]).
  - cbn [devs ex_mounts]. intros b b' d d' [[<- <-]|[_ [<- <-]%lookup_singleton_Some]]%lookup_insert_Some [[<- <-]|[_ [<- <-]%lookup_singleton_Some]]%lookup_insert_Some; done.
Qed.

(** The type that [sfs_init] registers is found by its name. *)
Lemma sfs_registered : exists s, (sfs_init 7 true true ;; fs_get_fs [115; 102; 115]) (ex_mounts 9) = Ret 7 s.
Proof. eexists. vm_compute. reflexivity. Qed.

(** Mounting a device and releasing it again. *)
Definition ex_mounted : mounts Bump.bump (RadixTree.rtree Bump.bump) :=
  Eval vm_compute in match fs_get_sb 7 1000 7 (ex_mounts 9) with Ret _ s => s | Halt _ s => s end.

Lemma superblocks_shared_witness :
  view ex_mounted 1000 = Some (1, 1, mkSb 100 16 9 40 60) /\
  exists s', fs_release_sb 7 1 ex_mounted = Ret tt s' /\ view s' 1000 = None.
Proof.
  assert (Hr : reach 7 ex_mounted).
  { apply (reach_get 7 (ex_mounts 9) 1000 (mkDevice 0 0 ex_cache) 1); [by apply reach_boot, ex_mounts_boot|done|by intros p r f E; vm_compute in E|by vm_compute]. }
  assert (Hv : view ex_mounted 1000 = Some (1, 1, mkSb 100 16 9 40 60)) by by vm_compute.
  split; [done|].
  destruct (superblocks_shared 7 ex_mounted 1000 (mkDevice 0 1 ex_cache) Hr) as [_ Hrel]; [by vm_compute|intros p r f E; rewrite Hv in E; injection E; lia|].
  destruct (Hrel 1 1 (mkSb 100 16 9 40 60) (mkSuper 1000 7 1 ∅ 1 0 1) Hv) as (s' & E & _ & Hv'); [by vm_compute|by intros _; split; vm_compute|].
  exists s'. split; [exact E|exact Hv'].
Defined.

(** Without memory for the information block the kernel panics: the error exit
    frees a superblock whose count is 1. *)
Lemma mount_panics : exists s, fs_get_sb 7 1000 7 (ex_mounts 0) = Halt Panic s.
Proof. eexists. vm_compute. reflexivity. Qed.

End Mount.
