(* ===== verification/Shmms.v ===== *)
(** * Named shared memory: kernel/fs/shmms.c, include/kernel/shmms.h

    A table of contexts, one per named region; each context owns a memory
    store whose reverse mapping lists the address spaces the region is mapped
    into.  The model keeps the contexts, the stores and the nodes of the
    reverse mappings in heaps, and calls the region operations of [Vm.v].
    The end of the file has the operations of vm.c that call back into this
    component: copying and destroying an address space. *)

From S2P Require Import Prelude Page Alloc CList Vm.
Local Open Scope kernel_scope.
Import Page.

Module Shmms.

Definition MAX_NAME_LEN : Z := 128.
Definition RS_DEFAULT : Z := 0.
Definition RS_PERSIST : Z := 256.
Definition ERR_MAPPED : err_t := -1.
Definition ERR_PERSIST : err_t := -2.

(** [struct smemcontext]; the name is the string without its terminator. *)
Record smemcontext := mkCtx {
  name : list Z;
  cstore : Z;
  lock_by : Z;
  size : Z;
  refcnt : Z;
  flag : Z;
}.

(** [struct memstore]: the context and the nodes of the reverse mapping. *)
Record memstore := mkStore { info : Z; rmap : list Z }.

Record pid2mem := mkNode { p_as : Z; p_mr : Z }.

Section model.
Context {A : Type} `{!ObjAlloc A} {V : Type} `{!PageMap V}.
Context (kas kvm_base : Z).

Record shm := mkShm {
  ctxs : gmap Z smemcontext;
  ctable : list Z;
  stores : gmap Z memstore;
  nodes : gmap Z pid2mem;
  ctx_alloc : A;
  store_alloc : A;
  node_alloc : A;
  ctable_lock : bool;
  wait_cv : list Z;
  mem : Vm.vm A V;
}.

Definition set_ctxs (x : gmap Z smemcontext) (s : shm) : shm :=
  mkShm x (ctable s) (stores s) (nodes s) (ctx_alloc s) (store_alloc s) (node_alloc s) (ctable_lock s) (wait_cv s) (mem s).
Definition set_ctable (x : list Z) (s : shm) : shm :=
  mkShm (ctxs s) x (stores s) (nodes s) (ctx_alloc s) (store_alloc s) (node_alloc s) (ctable_lock s) (wait_cv s) (mem s).
Definition set_stores (x : gmap Z memstore) (al : A) (s : shm) : shm :=
  mkShm (ctxs s) (ctable s) x (nodes s) (ctx_alloc s) al (node_alloc s) (ctable_lock s) (wait_cv s) (mem s).
Definition set_nodes (x : gmap Z pid2mem) (al : A) (s : shm) : shm :=
  mkShm (ctxs s) (ctable s) (stores s) x (ctx_alloc s) (store_alloc s) al (ctable_lock s) (wait_cv s) (mem s).
Definition set_ctx_alloc (x : gmap Z smemcontext) (al : A) (s : shm) : shm :=
  mkShm x (ctable s) (stores s) (nodes s) al (store_alloc s) (node_alloc s) (ctable_lock s) (wait_cv s) (mem s).
Definition set_lock (b : bool) (s : shm) : shm :=
  mkShm (ctxs s) (ctable s) (stores s) (nodes s) (ctx_alloc s) (store_alloc s) (node_alloc s) b (wait_cv s) (mem s).
Definition set_cv (l : list Z) (s : shm) : shm :=
  mkShm (ctxs s) (ctable s) (stores s) (nodes s) (ctx_alloc s) (store_alloc s) (node_alloc s) (ctable_lock s) l (mem s).
Definition set_mem (x : Vm.vm A V) (s : shm) : shm :=
  mkShm (ctxs s) (ctable s) (stores s) (nodes s) (ctx_alloc s) (store_alloc s) (node_alloc s) (ctable_lock s) (wait_cv s) x.

Definition get_ctx (c : Z) : M shm smemcontext :=
  fun s => match ctxs s !! c with Some x => Ret x s | None => Halt Fault s end.
Definition put_ctx (c : Z) (x : smemcontext) : M shm unit := modify (fun s => set_ctxs (<[c := x]> (ctxs s)) s).
Definition get_store (c : Z) : M shm memstore :=
  fun s => match stores s !! c with Some x => Ret x s | None => Halt Fault s end.
Definition put_store (c : Z) (x : memstore) : M shm unit :=
  modify (fun s => set_stores (<[c := x]> (stores s)) (store_alloc s) s).
Definition get_node (c : Z) : M shm pid2mem :=
  fun s => match nodes s !! c with Some x => Ret x s | None => Halt Fault s end.
Definition in_mem {B} (m : M (Vm.vm A V) B) : M shm B := zoom mem set_mem m.

Definition acquire : M shm unit :=
  fun s => if ctable_lock s then Halt Block s else Ret tt (set_lock true s).
Definition release : M shm unit := modify (set_lock false).

(** ** Memory stores and nodes *)

(** [shmms_alloc] and the [memstore_alloc] it calls; 0 is NULL. *)
Definition shmms_alloc (c : Z) : M shm Z :=
  fun s => match oalloc (store_alloc s) with
           | (None, al) => Ret 0 (set_stores (stores s) al s)
           | (Some p, al) => Ret p (set_stores (<[p := mkStore c []]> (stores s)) al s)
           end.

(** [shmms_free]: [memstore_free] asserts that the reverse mapping is empty. *)
Definition shmms_free (p : Z) : M shm unit :=
  kassert (negb (p =? 0)) ;;
  st <- get_store p ;;
  kassert (match rmap st with [] => true | _ => false end) ;;
  modify (fun s => set_stores (delete p (stores s)) (ofree p (store_alloc s)) s).

Definition pid2mem_alloc : M shm Z :=
  fun s => match oalloc (node_alloc s) with
           | (None, al) => Ret 0 (set_nodes (nodes s) al s)
           | (Some p, al) => Ret p (set_nodes (<[p := mkNode 0 0]> (nodes s)) al s)
           end.
Definition pid2mem_free (p : Z) : M shm unit :=
  kassert (negb (p =? 0)) ;;
  modify (fun s => set_nodes (delete p (nodes s)) (ofree p (node_alloc s)) s).

(** ** The context table *)

Fixpoint find_name (nm : list Z) (l : list Z) : M shm Z :=
  match l with
  | [] => ret 0
  | c :: l' => x <- get_ctx c ;; if decide (name x = nm) then ret c else find_name nm l'
  end.

Fixpoint any_as (a : Z) (l : list Z) : M shm bool :=
  match l with
  | [] => ret false
  | n :: l' => x <- get_node n ;; if p_as x =? a then ret true else any_as a l'
  end.

(** The context, or 0 for [ERR_NOTEXIST]. *)
Definition getContextByHandle (nm : list Z) (mapped : bool) (a : Z) : M shm Z :=
  l <- gets ctable ;;
  c <- find_name nm l ;;
  if negb (c =? 0) && mapped then
    x <- get_ctx c ;;
    kassert (negb (cstore x =? 0)) ;;
    st <- get_store (cstore x) ;;
    found <- any_as a (rmap st) ;;
    if (found : bool) then ret c else ret 0
  else ret c.

(** [strcpy] into [name] overruns the structure when the name is too long. *)
Definition contextInit (c : Z) (nm : list Z) (n fl : Z) : M shm err_t :=
  kassert (negb (c =? 0)) ;;
  (if Z.of_nat (length nm) <? MAX_NAME_LEN then ret tt else stop Fault) ;;
  p <- shmms_alloc c ;;
  if p =? 0 then
    put_ctx c (mkCtx nm 0 0 0 0 0) ;; ret ERR_NOMEM
  else
    put_ctx c (mkCtx nm p (-1) n 0 fl) ;; ret ERR_OK.

Definition ctx_new : M shm Z :=
  fun s => match oalloc (ctx_alloc s) with
           | (None, al) => Ret 0 (set_ctx_alloc (ctxs s) al s)
           | (Some p, al) => Ret p (set_ctx_alloc (<[p := mkCtx [] 0 0 0 0 0]> (ctxs s)) al s)
           end.
Definition ctx_free (c : Z) : M shm unit :=
  modify (fun s => set_ctx_alloc (delete c (ctxs s)) (ofree c (ctx_alloc s)) s).

(** [smem_sys_init]: the lists and the lock; [al] is the new object cache. *)
Definition smem_sys_init (al : A) (s : shm) : shm :=
  mkShm ∅ [] (stores s) (nodes s) al (store_alloc s) (node_alloc s) false [] (mem s).

Definition createSharedRegion (nm : list Z) (n fl : Z) : M shm err_t :=
  acquire ;;
  c <- getContextByHandle nm false 0 ;;
  if negb (c =? 0) then release ;; ret ERR_EXIST
  else
    c <- ctx_new ;;
    if c =? 0 then release ;; ret ERR_NOMEM
    else
      e <- contextInit c nm n fl ;;
      if negb (e =? ERR_OK) then ctx_free c ;; release ;; ret ERR_NOMEM
      else
        modify (fun s => set_ctable (ctable s ++ [c]) s) ;;
        release ;;
        ret ERR_OK.

Definition destroySharedRegion_Internal (c forceDestroy : Z) : M shm err_t :=
  x <- get_ctx c ;;
  if negb (refcnt x =? 0) then ret ERR_MAPPED
  else if negb (Z.land (Z.land (flag x) RS_PERSIST) (Z.lnot forceDestroy) =? 0) then ret ERR_PERSIST
  else
    modify (fun s => set_ctable (filter (fun d => d <> c) (ctable s)) s) ;;
    shmms_free (cstore x) ;;
    ctx_free c ;;
    ret ERR_OK.

Definition destroySharedRegion (nm : list Z) : M shm err_t :=
  acquire ;;
  c <- getContextByHandle nm false 0 ;;
  if c =? 0 then release ;; ret ERR_NOTEXIST
  else
    x <- get_ctx c ;;
    e <- destroySharedRegion_Internal c (Z.land (flag x) RS_PERSIST) ;;
    release ;;
    ret e.

(** ** Mappings *)

Definition set_refcnt (r : Z) (x : smemcontext) : smemcontext :=
  mkCtx (name x) (cstore x) (lock_by x) (size x) r (flag x).
Definition set_lock_by (t : Z) (x : smemcontext) : smemcontext :=
  mkCtx (name x) (cstore x) t (size x) (refcnt x) (flag x).

(** The result is the error code and [*start]; [mr] is 0 when the region is
    still to be mapped.  [context->size * PG_SIZE] is an [int] product. *)
Definition createMapping_Internal (start_ a c mr : Z) : M shm (err_t * Z) :=
  x <- get_ctx c ;;
  mr <- (if mr =? 0 then
           in_mem (Vm.as_map_memregion kas kvm_base a (if start_ =? 0 then Vm.ADDR_ANYWHERE else start_)
                     (u64 (s32 (size x * PG_SIZE))) MEMPERM_URW (cstore x) 0 true)
         else ret mr) ;;
  if mr =? 0 then ret (ERR_NOMEM, start_)
  else
    n <- pid2mem_alloc ;;
    if n =? 0 then in_mem (Vm.memregion_unmap mr) ;; ret (ERR_NOMEM, start_)
    else
      modify (fun s => set_nodes (<[n := mkNode a mr]> (nodes s)) (node_alloc s) s) ;;
      st <- get_store (cstore x) ;;
      put_store (cstore x) (mkStore (info st) (rmap st ++ [n])) ;;
      x <- get_ctx c ;;
      put_ctx c (set_refcnt (refcnt x + 1) x) ;;
      m <- in_mem (Vm.get_mr mr) ;;
      ret (ERR_OK, Vm.start m).

Definition createMapping (nm : list Z) (region_beg a : Z) : M shm (err_t * Z) :=
  acquire ;;
  c <- getContextByHandle nm false 0 ;;
  if c =? 0 then release ;; ret (ERR_NOTEXIST, region_beg)
  else
    r <- createMapping_Internal region_beg a c 0 ;;
    release ;;
    ret r.

Definition addContextRef (c start_ a mr : Z) : M shm unit :=
  kassert (negb (c =? 0)) ;;
  kassert (negb (a =? 0)) ;;
  acquire ;;
  createMapping_Internal start_ a c mr ;;
  release.

(** [find_remove_rmapping]: the node, unlinked from the store, or 0. *)
Fixpoint find_rmapping (l : list Z) (a vaddr : Z) : M shm Z :=
  match l with
  | [] => ret 0
  | n :: l' =>
      x <- get_node n ;;
      if p_as x =? a then
        m <- in_mem (Vm.get_mr (p_mr x)) ;;
        if (Vm.start m <=? vaddr) && (vaddr <? Vm.end_ m) then ret n else find_rmapping l' a vaddr
      else find_rmapping l' a vaddr
  end.

Definition find_remove_rmapping (c a vaddr : Z) : M shm Z :=
  x <- get_ctx c ;;
  st <- get_store (cstore x) ;;
  n <- find_rmapping (rmap st) a vaddr ;;
  if n =? 0 then ret 0
  else put_store (cstore x) (mkStore (info st) (filter (fun d => d <> n) (rmap st))) ;; ret n.

Definition destroyMapping_Internal (c mr : Z) (forceDestroy : bool) : M shm err_t :=
  kassert (negb (c =? 0)) ;;
  in_mem (Vm.memregion_unmap mr) ;;
  acquire ;;
  x <- get_ctx c ;;
  put_ctx c (set_refcnt (refcnt x - 1) x) ;;
  e <- (if (refcnt x - 1 =? 0) && (Z.land (flag x) RS_PERSIST =? 0) && forceDestroy
        then destroySharedRegion_Internal c 0 else ret ERR_OK) ;;
  release ;;
  ret e.

(** The first critical section of [destroyMapping]: an error code, or the
    context and the region that [destroyMapping_Internal] goes on with. *)
Definition destroyMapping_begin (nm : list Z) (vaddr a : Z) : M shm (err_t + Z * Z) :=
  acquire ;;
  c <- getContextByHandle nm true a ;;
  if c =? 0 then release ;; ret (inl ERR_NOTEXIST)
  else
    n <- find_remove_rmapping c a vaddr ;;
    if n =? 0 then release ;; ret (inl ERR_NOTEXIST)
    else
      x <- get_node n ;;
      pid2mem_free n ;;
      release ;;
      ret (inr (c, p_mr x)).

Definition destroyMapping (nm : list Z) (vaddr a : Z) : M shm err_t :=
  r <- destroyMapping_begin nm vaddr a ;;
  match r with
  | inl e => ret e
  | inr (c, mr) => destroyMapping_Internal c mr false
  end.

(** ** Locking a region *)

Inductive lresult := LDone (e : err_t) | LSleep (c : Z).

(** [lockRegion] from the test of its waiting loop on, with the lock held by
    the thread [t]; [LSleep] is asleep in [condvar_wait]. *)
Definition lock_locked (t c : Z) : M shm lresult :=
  x <- get_ctx c ;;
  if negb (lock_by x =? t) && negb (lock_by x =? -1) then
    modify (fun s => set_cv (wait_cv s ++ [t]) s) ;; release ;; ret (LSleep c)
  else
    put_ctx c (set_lock_by t x) ;; release ;; ret (LDone ERR_OK).

Definition lockRegion (t : Z) (nm : list Z) (a : Z) : M shm lresult :=
  acquire ;;
  c <- getContextByHandle nm true a ;;
  if c =? 0 then release ;; ret (LDone ERR_NOTEXIST) else lock_locked t c.

(** [lockRegion] after [condvar_wait] returned. *)
Definition lockRegion_woken (t c : Z) : M shm lresult := acquire ;; lock_locked t c.

(** The result is the error code and the thread that [condvar_signal] wakes. *)
Definition unlockRegion (t : Z) (nm : list Z) (a : Z) : M shm (err_t * option Z) :=
  acquire ;;
  c <- getContextByHandle nm true a ;;
  if c =? 0 then release ;; ret (ERR_NOTEXIST, None)
  else
    x <- get_ctx c ;;
    if negb (lock_by x =? t) then release ;; ret (ERR_INVAL, None)
    else
      put_ctx c (set_lock_by (-1) x) ;;
      w <- gets wait_cv ;;
      modify (set_cv (tail w)) ;;
      release ;;
      ret (ERR_OK, head w).

(** ** Address spaces with shared regions (kernel/mm/vm.c) *)

(** [unmapAll] up to the release of the address space's lock, which the caller
    holds; the result is the context and the address space, if there is a
    mapping to take down. *)
Definition unmapAll_begin (r : Z) : M shm (option (Z * Z)) :=
  m <- in_mem (Vm.get_mr r) ;;
  kassert (negb (Vm.store m =? 0)) ;;
  st <- get_store (Vm.store m) ;;
  kassert (negb (info st =? 0)) ;;
  n <- find_remove_rmapping (info st) (Vm.as_ m) (Vm.start m) ;;
  if n =? 0 then ret None
  else
    pid2mem_free n ;;
    in_mem (Vm.release (Vm.as_ m)) ;;
    ret (Some (info st, Vm.as_ m)).

Definition unmapAll (r : Z) : M shm unit :=
  o <- unmapAll_begin r ;;
  match o with
  | None => ret tt
  | Some (c, a) => destroyMapping_Internal c r true ;; in_mem (Vm.acquire a)
  end.

Fixpoint destroy_regions (l : list Z) : M shm unit :=
  match l with
  | [] => ret tt
  | r :: l' =>
      m <- in_mem (Vm.get_mr r) ;;
      (if Vm.shared m then unmapAll r else in_mem (Vm.memregion_unmap_internal r)) ;;
      destroy_regions l'
  end.

Definition as_destroy (a : Z) : M shm unit :=
  kassert (negb (a =? 0)) ;;
  kassert (negb (a =? kas)) ;;
  in_mem (Vm.acquire a) ;;
  x <- in_mem (Vm.get_as a) ;;
  in_mem (modify (fun v => Vm.set_pts (vpmap_destroy (Vm.vpmap x) (Vm.pts v)) v)) ;;
  in_mem (Vm.put_as a (Vm.mkSpace (Vm.regions x) 0 (Vm.as_lock x) (Vm.heap x))) ;;
  destroy_regions (Vm.regions x) ;;
  in_mem (Vm.release a).

(** [memregion_copy_internal], with both address spaces locked; 0 is NULL. *)
Definition memregion_copy_internal (a src addr : Z) : M shm Z :=
  m <- in_mem (Vm.get_mr src) ;;
  dst <- in_mem (Vm.memregion_map_internal kas kvm_base a addr (u64 (Vm.end_ m - Vm.start m))
                   (Vm.perm m) (Vm.store m) (Vm.ofs m) (Vm.shared m)) ;;
  if dst =? 0 then ret 0
  else if Vm.shared m then
    kassert (negb (Vm.store m =? 0)) ;;
    st <- get_store (Vm.store m) ;;
    in_mem (Vm.release a) ;;
    addContextRef (info st) (Vm.start m) a dst ;;
    in_mem (Vm.acquire a) ;;
    ret dst
  else
    x <- in_mem (Vm.get_as (Vm.as_ m)) ;;
    y <- in_mem (Vm.get_as a) ;;
    e <- in_mem (fun v =>
           let '(e, p) := vpmap_cow_copy (Vm.vpmap x) (Vm.vpmap y) (Vm.start m) addr
                            (pg_round_up (u64 (Vm.end_ m - Vm.start m)) `div` PG_SIZE) (Vm.pts v) in
           Ret e (Vm.set_pts p v)) ;;
    if negb (e =? ERR_OK) then in_mem (Vm.memregion_unmap_internal dst) ;; ret 0 else ret dst.

Fixpoint copy_regions (src_as dst_as : Z) (l : list Z) : M shm err_t :=
  match l with
  | [] => ret ERR_OK
  | r :: l' =>
      m <- in_mem (Vm.get_mr r) ;;
      d <- memregion_copy_internal dst_as r (Vm.start m) ;;
      if d =? 0 then ret ERR_NOMEM
      else
        x <- in_mem (Vm.get_as src_as) ;;
        (if r =? Vm.heap x then
           y <- in_mem (Vm.get_as dst_as) ;;
           in_mem (Vm.put_as dst_as (Vm.mkSpace (Vm.regions y) (Vm.vpmap y) (Vm.as_lock y) d))
         else ret tt) ;;
        copy_regions src_as dst_as l'
  end.

Definition as_copy_as (src_as dst_as : Z) : M shm err_t :=
  kassert (negb (src_as =? 0) && negb (dst_as =? 0)) ;;
  kassert (negb (src_as =? dst_as)) ;;
  in_mem (Vm.acquire src_as) ;;
  in_mem (Vm.acquire dst_as) ;;
  x <- in_mem (Vm.get_as src_as) ;;
  e <- copy_regions src_as dst_as (Vm.regions x) ;;
  in_mem (Vm.release src_as) ;;
  in_mem (Vm.release dst_as) ;;
  ret e.

End model.
Arguments shm : clear implicits.

(** ** The invariant *)

Section invariant.
Context {A : Type} `{!ObjAlloc A} {V : Type} `{!PageMap V}.
Implicit Types s : shm A V.

(** An unmapping between its two critical sections: the context, the region,
    and whether the context goes away with its last mapping. *)
Definition pending : Type := Z * Z * bool.
Definition pctx (p : pending) : Z := p.1.1.
Definition pmr (p : pending) : Z := p.1.2.

Definition pcount (c : Z) (pend : list pending) : nat := length (filter (fun p => pctx p = c) pend).

(** [n] is in the reverse mapping of the store [p]. *)
Definition listed s (p n : Z) : Prop := exists st, stores s !! p = Some st /\ n ∈ rmap st.

(** The region [mr] is mapped for the store [p]. *)
Definition maps s (p mr : Z) : Prop :=
  exists m, Vm.mrs (mem s) !! mr = Some m /\ Vm.store m = p /\ Vm.shared m = true.

Record core s (pend : list pending) : Prop := {
  co_vm : Vm.vm_ok (mem s);
  co_ctx_alloc : ook (ctx_alloc s) /\ forall c, is_Some (ctxs s !! c) -> c ∈ olive (ctx_alloc s);
  co_store_alloc : ook (store_alloc s) /\ forall p, is_Some (stores s !! p) -> p ∈ olive (store_alloc s);
  co_node_alloc : ook (node_alloc s) /\ forall n, is_Some (nodes s !! n) -> n ∈ olive (node_alloc s);
  co_table : NoDup (ctable s) /\ 0 ∉ ctable s /\ forall c, c ∈ ctable s <-> is_Some (ctxs s !! c);
  co_names : forall c d x y, ctxs s !! c = Some x -> ctxs s !! d = Some y -> name x = name y -> c = d;
  (** a context owns its store and counts its mappings *)
  co_ctx : forall c x, ctxs s !! c = Some x ->
    cstore x <> 0 /\ exists st, stores s !! cstore x = Some st /\ info st = c /\ NoDup (rmap st) /\
      refcnt x = Z.of_nat (length (rmap st) + pcount c pend);
  co_store : forall p st, stores s !! p = Some st -> exists x, ctxs s !! info st = Some x /\ cstore x = p;
  co_node : forall p n, listed s p n -> n <> 0 /\ exists y m, nodes s !! n = Some y /\
    Vm.mrs (mem s) !! p_mr y = Some m /\ Vm.as_ m = p_as y /\ Vm.store m = p /\ Vm.shared m = true;
  co_pend : forall q, q ∈ pend -> exists x, ctxs s !! pctx q = Some x /\ maps s (cstore x) (pmr q);
  (** a region is accounted for once *)
  co_once_node : forall p n p' n' y y', listed s p n -> listed s p' n' ->
    nodes s !! n = Some y -> nodes s !! n' = Some y' -> p_mr y = p_mr y' -> n = n';
  co_once_pend : NoDup (map pmr pend);
  co_once_both : forall p n y q, listed s p n -> nodes s !! n = Some y -> q ∈ pend -> p_mr y <> pmr q;
}.

Definition inv s pend : Prop := core s pend /\ ctable_lock s = false.

Lemma core_set_lock b s pend : core (set_lock b s) pend <-> core s pend.
Proof. split; intros []; by split. Qed.

Lemma core_set_cv l s pend : core (set_cv l s) pend <-> core s pend.
Proof. split; intros []; by split. Qed.

(** ** Table look-ups *)

Lemma get_ctx_Some {B} c x s (f : smemcontext -> M (shm A V) B) : ctxs s !! c = Some x -> bind (get_ctx c) f s = f x s.
Proof. intros H. apply bind_Ret. unfold get_ctx. by rewrite H. Qed.
Lemma get_store_Some {B} c x s (f : memstore -> M (shm A V) B) : stores s !! c = Some x -> bind (get_store c) f s = f x s.
Proof. intros H. apply bind_Ret. unfold get_store. by rewrite H. Qed.
Lemma get_node_Some {B} c x s (f : pid2mem -> M (shm A V) B) : nodes s !! c = Some x -> bind (get_node c) f s = f x s.
Proof. intros H. apply bind_Ret. unfold get_node. by rewrite H. Qed.

Lemma ctable_acquire s : ctable_lock s = false -> acquire s = Ret tt (set_lock true s).
Proof. intros H. unfold acquire. by rewrite H. Qed.

Lemma find_name_ok s nm l : (forall c, c ∈ l -> is_Some (ctxs s !! c)) -> 0 ∉ l ->
  exists c, find_name nm l s = Ret c s /\
    ((c = 0 /\ forall d y, d ∈ l -> ctxs s !! d = Some y -> name y <> nm) \/
     (c <> 0 /\ c ∈ l /\ exists x, ctxs s !! c = Some x /\ name x = nm)).
Proof.
  induction l as [|d l IH]; intros Hl H0; cbn [find_name].
  { exists 0. split; [done|]. left. split; [done|]. set_solver. }
  destruct (Hl d ltac:(set_solver)) as [x Hx]. rewrite (get_ctx_Some d x) by done. apply not_elem_of_cons in H0 as [Hd0 H0].
  destruct (decide (name x = nm)) as [Hn|Hn].
  - exists d. split; [done|]. right. split_and!; [done|set_solver|eauto].
  - destruct (IH ltac:(set_solver) H0) as (c & E & Hc). exists c. split; [done|].
    destruct Hc as [[-> Hno]|(Hc0 & Hcl & Hx')].
    + left. split; [done|]. intros e y [->|He]%elem_of_cons Hy; [congruence|eauto].
    + right. split_and!; [done|set_solver|done].
Qed.

Lemma getContext_any_ok s pend nm a : core s pend ->
  exists c, getContextByHandle nm false a s = Ret c s /\
    ((c = 0 /\ forall d y, ctxs s !! d = Some y -> name y <> nm) \/
     (c <> 0 /\ exists x, ctxs s !! c = Some x /\ name x = nm)).
Proof.
  intros C. destruct (co_table _ _ C) as (_ & H0 & Ht). unfold getContextByHandle. rewrite bind_gets.
  destruct (find_name_ok s nm (ctable s)) as (c & E & Hc); [intros c; apply Ht|done|].
  rewrite (bind_Ret _ _ _ _ _ E), andb_false_r. exists c. split; [done|].
  destruct Hc as [[-> Hno]|(Hc0 & _ & Hx)]; [left|by right]. split; [done|]. intros d y Hd. apply (Hno d y); [|done].
  apply Ht. eauto.
Qed.

Lemma any_as_ok s a l : (forall n, n ∈ l -> is_Some (nodes s !! n)) ->
  exists b, any_as a l s = Ret b s /\ (b = true <-> exists n y, n ∈ l /\ nodes s !! n = Some y /\ p_as y = a).
Proof.
  induction l as [|d l IH]; intros Hl; cbn [any_as].
  { exists false. split; [done|]. split; [done|]. intros (? & ? & ? & _). set_solver. }
  destruct (Hl d ltac:(set_solver)) as [x Hx]. rewrite (get_node_Some d x) by done. destruct (Z.eqb_spec (p_as x) a) as [Ha|Ha].
  - exists true. split; [done|]. split; [|done]. intros _. exists d, x. split_and!; [set_solver|done|done].
  - destruct (IH ltac:(set_solver)) as (b & E & Hb). exists b. split; [done|]. rewrite Hb. split.
    + intros (n & y & Hn & ?). exists n, y. set_solver.
    + intros (n & y & [->|Hn]%elem_of_cons & ? & ?); [congruence|eauto].
Qed.

(** The context with a name that is mapped in [a]. *)
Lemma getContext_mapped_ok s pend nm a : core s pend ->
  exists c, getContextByHandle nm true a s = Ret c s /\
    ((c = 0 /\ forall d x n y, ctxs s !! d = Some x -> name x = nm -> listed s (cstore x) n -> nodes s !! n = Some y -> p_as y <> a) \/
     (c <> 0 /\ exists x, ctxs s !! c = Some x /\ name x = nm /\
        exists n y, listed s (cstore x) n /\ nodes s !! n = Some y /\ p_as y = a)).
Proof.
  intros C. destruct (co_table _ _ C) as (_ & H0 & Ht). unfold getContextByHandle. rewrite bind_gets.
  destruct (find_name_ok s nm (ctable s)) as (c & E & Hc); [intros c; apply Ht|done|].
  rewrite (bind_Ret _ _ _ _ _ E), andb_true_r. destruct Hc as [[-> Hno]|(Hc0 & _ & x & Hx & Hn)].
  { exists 0. split; [done|]. left. split; [done|]. intros d x n y Hd Hn. destruct (Hno d x); [|done..]. apply Ht. eauto. }
  rewrite (proj2 (Z.eqb_neq c 0) Hc0). simpl. destruct (co_ctx _ _ C c x Hx) as (Hs0 & st & Hst & _).
  rewrite (get_ctx_Some c x), bind_kassert, (get_store_Some _ st) by (done || lia).
  destruct (any_as_ok s a (rmap st)) as (b & E' & Hb).
  { intros n Hn'. destruct (co_node _ _ C (cstore x) n) as (_ & y & ? & Hy & _); [by exists st|eauto]. }
  rewrite (bind_Ret _ _ _ _ _ E'). destruct b.
  - exists c. split; [done|]. right. split; [done|]. exists x. split_and!; try done.
    destruct (proj1 Hb eq_refl) as (n & y & ? & ? & ?). exists n, y. split_and!; try done. by exists st.
  - exists 0. split; [done|]. left. split; [done|]. intros d x' n y Hd Hn' (st' & Hst' & Hin) Hy Ha.
    assert (d = c) as -> by (apply (co_names _ _ C d c x' x); congruence). simplify_eq. discriminate (proj2 Hb). by exists n, y.
Qed.

End invariant.

(** ** How the operations change the tables *)

Section changes.
Context {A : Type} `{!ObjAlloc A} {V : Type} `{!PageMap V}.
Implicit Types s : shm A V.

Lemma pcount_zero c pend : (forall q, q ∈ pend -> pctx q <> c) -> pcount c pend = 0%nat.
Proof.
  intros H. unfold pcount. induction pend as [|q pend IH]; [done|].
  rewrite filter_cons_False by (apply H; set_solver). apply IH. set_solver.
Qed.

Lemma pcount_app c p1 p2 : pcount c (p1 ++ p2) = (pcount c p1 + pcount c p2)%nat.
Proof. unfold pcount. by rewrite filter_app, length_app. Qed.

Lemma pcount_one c q : pcount c [q] = if decide (pctx q = c) then 1%nat else 0%nat.
Proof. unfold pcount. rewrite filter_cons. by case_decide. Qed.

(** A fresh context with a fresh store and a new name. *)
Lemma core_create s pend nm n fl c p al_c al_s :
  core s pend -> ctxs s !! c = None -> stores s !! p = None -> c <> 0 -> p <> 0 ->
  (forall d y, ctxs s !! d = Some y -> name y <> nm) ->
  ook al_c -> olive al_c = {[c]} ∪ olive (ctx_alloc s) -> ook al_s -> olive al_s = {[p]} ∪ olive (store_alloc s) ->
  core (mkShm (<[c := mkCtx nm p (-1) n 0 fl]> (ctxs s)) (ctable s ++ [c]) (<[p := mkStore c []]> (stores s)) (nodes s)
          al_c al_s (node_alloc s) (ctable_lock s) (wait_cv s) (mem s)) pend.
Proof.
  intros C Hc Hp Hc0 Hp0 Hnm Hoc Hlc Hos Hls. pose proof C as [C1 C2 C3 C4 C5 C6 C7 C8 C9 C10 C11 C12 C13].
  assert (Hpc : pcount c pend = 0%nat).
  { apply pcount_zero. intros q Hq <-. destruct (C10 q Hq) as (x & Hx & _). congruence. }
  assert (Hlist : forall q n', listed (mkShm (<[c := mkCtx nm p (-1) n 0 fl]> (ctxs s)) (ctable s ++ [c])
      (<[p := mkStore c []]> (stores s)) (nodes s) al_c al_s (node_alloc s) (ctable_lock s) (wait_cv s) (mem s)) q n' ->
      listed s q n').
  { intros q n' (st & Hst & Hin). simpl in Hst. apply lookup_insert_Some in Hst as [[<- <-]|[_ Hst]]; [set_solver|by exists st]. }
  split; simpl; auto.
  - split; [done|]. intros d. rewrite Hlc, lookup_insert_is_Some. intros [<-|[_ Hd]]; [set_solver|]. apply elem_of_union_r. by apply C2.
  - split; [done|]. intros d. rewrite Hls, lookup_insert_is_Some. intros [<-|[_ Hd]]; [set_solver|]. apply elem_of_union_r. by apply C3.
  - destruct C5 as (Hnd & H0 & Ht). split_and!.
    + apply NoDup_app. split_and!; [done| |apply NoDup_singleton]. intros d Hd ->%list_elem_of_singleton.
      apply Ht in Hd as [? ?]. congruence.
    + set_solver.
    + intros d. rewrite elem_of_app, list_elem_of_singleton, lookup_insert_is_Some', Ht. naive_solver.
  - intros d e x y. rewrite !lookup_insert_Some. intros [[<- <-]|[Hd Hx]] [[<- <-]|[He Hy]]; simpl; intros Hn; try done.
    + by destruct (Hnm e y Hy).
    + by destruct (Hnm d x Hx).
    + eauto.
  - intros d x. rewrite lookup_insert_Some. intros [[<- <-]|[Hd Hx]]; simpl.
    + split; [done|]. exists (mkStore c []). rewrite lookup_insert_eq, Hpc. split_and!; try done. apply NoDup_nil_2.
    + destruct (C7 d x Hx) as (H1 & st & Hst & H2). split; [done|]. exists st. rewrite lookup_insert_ne by congruence. done.
  - intros q st. rewrite lookup_insert_Some. intros [[<- <-]|[Hq Hst]]; simpl.
    + rewrite lookup_insert_eq. eauto.
    + destruct (C8 q st Hst) as (x & Hx & Hs). exists x. rewrite lookup_insert_ne by congruence. done.
  - intros q Hq. destruct (C10 q Hq) as (x & Hx & Hm). exists x. rewrite lookup_insert_ne by congruence. done.
  - intros q n1 q' n2 y y' H1%Hlist H2%Hlist. eauto.
  - intros q n1 y r H1%Hlist. eauto.
Qed.

(** A context without mappings and its store go away. *)
Lemma core_destroy s pend c x :
  core s pend -> ctxs s !! c = Some x -> refcnt x = 0 ->
  core (mkShm (delete c (ctxs s)) (filter (fun d => d <> c) (ctable s)) (delete (cstore x) (stores s)) (nodes s)
          (ofree c (ctx_alloc s)) (ofree (cstore x) (store_alloc s)) (node_alloc s) (ctable_lock s) (wait_cv s) (mem s)) pend.
Proof.
  intros C Hx Hr. pose proof C as [C1 [C2 C2'] [C3 C3'] C4 C5 C6 C7 C8 C9 C10 C11 C12 C13].
  destruct (C7 c x Hx) as (Hs0 & st & Hst & Hinfo & _ & Hcnt). rewrite Hr in Hcnt.
  assert (Hpend : forall q, q ∈ pend -> pctx q <> c).
  { intros q Hq <-. assert (pcount (pctx q) pend <> 0%nat); [|lia]. unfold pcount. intros Hz%nil_length_inv.
    assert (q ∈ filter (fun p => pctx p = pctx q) pend) as Hin by (by apply list_elem_of_filter). rewrite Hz in Hin. set_solver. }
  destruct (ofree_live _ c C2 (C2' c ltac:(eauto))) as [Hoc Hlc]. destruct (ofree_live _ (cstore x) C3 (C3' _ ltac:(eauto))) as [Hos Hls].
  assert (Hlist : forall q n', listed (mkShm (delete c (ctxs s)) (filter (fun d => d <> c) (ctable s)) (delete (cstore x) (stores s)) (nodes s)
          (ofree c (ctx_alloc s)) (ofree (cstore x) (store_alloc s)) (node_alloc s) (ctable_lock s) (wait_cv s) (mem s)) q n' ->
      listed s q n').
  { intros q n' (st' & Hst' & Hin). simpl in Hst'. apply lookup_delete_Some in Hst' as [_ Hst']. by exists st'. }
  split; simpl; auto.
  - split; [done|]. intros d [y [Hd Hy]%lookup_delete_Some]. rewrite Hlc. apply elem_of_difference.
    split; [apply C2'; eauto|]. rewrite elem_of_singleton. congruence.
  - split; [done|]. intros d [y [Hd Hy]%lookup_delete_Some]. rewrite Hls. apply elem_of_difference.
    split; [apply C3'; eauto|]. rewrite elem_of_singleton. congruence.
  - destruct C5 as (Hnd & H0 & Ht). split_and!; [by apply NoDup_filter|rewrite list_elem_of_filter; tauto|].
    intros d. rewrite list_elem_of_filter, Ht, lookup_delete_is_Some. naive_solver.
  - intros d e y z. rewrite !lookup_delete_Some. intros [_ Hy] [_ Hz]. eauto.
  - intros d y [Hd Hy]%lookup_delete_Some. destruct (C7 d y Hy) as (H1 & st' & Hst' & Hi' & H2). split; [done|]. exists st'.
    rewrite lookup_delete_ne; [done|]. intros E. rewrite <- E, Hst in Hst'. simplify_eq.
  - intros q st' [Hq Hst']%lookup_delete_Some. destruct (C8 q st' Hst') as (y & Hy & Hs). exists y.
    rewrite lookup_delete_ne; [done|]. intros E. rewrite <- E, Hx in Hy. simplify_eq.
  - intros q Hq. destruct (C10 q Hq) as (y & Hy & Hm). exists y. rewrite lookup_delete_ne; [done|]. intros E. by apply (Hpend q).
  - intros q n1 q' n2 y y' H1%Hlist H2%Hlist. eauto.
  - intros q n1 y r H1%Hlist. eauto.
Qed.

(** The address spaces changed, but every known region is still there. *)
Lemma core_mem s pend v :
  core s pend -> Vm.vm_ok v -> (forall r m, Vm.mrs (mem s) !! r = Some m -> Vm.mrs v !! r = Some m) ->
  core (set_mem v s) pend.
Proof.
  intros [C1 C2 C3 C4 C5 C6 C7 C8 C9 C10 C11 C12 C13] Hv Hm. split; try done.
  - intros p n Hl. destruct (C9 p n Hl) as (Hn & y & m & Hy & Hr & H'). split; [done|]. exists y, m. split_and!; try done; [by apply Hm|apply H'..].
  - intros q Hq. destruct (C10 q Hq) as (x & Hx & m & Hr & H'). exists x. split; [done|]. exists m. split; [by apply Hm|done].
Qed.

(** A new node for a region that nothing accounts for yet. *)
Lemma core_map s pend c x st n a mr al :
  core s pend -> ctxs s !! c = Some x -> stores s !! cstore x = Some st -> nodes s !! n = None -> n <> 0 ->
  ook al -> olive al = {[n]} ∪ olive (node_alloc s) ->
  (exists m, Vm.mrs (mem s) !! mr = Some m /\ Vm.as_ m = a /\ Vm.store m = cstore x /\ Vm.shared m = true) ->
  (forall p n' y, listed s p n' -> nodes s !! n' = Some y -> p_mr y <> mr) -> (forall q, q ∈ pend -> pmr q <> mr) ->
  core (mkShm (<[c := set_refcnt (refcnt x + 1) x]> (ctxs s)) (ctable s)
          (<[cstore x := mkStore (info st) (rmap st ++ [n])]> (stores s)) (<[n := mkNode a mr]> (nodes s))
          (ctx_alloc s) (store_alloc s) al (ctable_lock s) (wait_cv s) (mem s)) pend.
Proof.
  intros C Hx Hst Hn Hn0 Hoa Hla (m & Hm & Ha & Hms & Hsh) Hfresh Hfp.
  pose proof C as [C1 [C2 C2'] [C3 C3'] [C4 C4'] C5 C6 C7 C8 C9 C10 C11 C12 C13].
  destruct (C7 c x Hx) as (Hs0 & st0 & Hst0 & Hinfo & Hnd & Hcnt). assert (st0 = st) as -> by congruence.
  assert (Hnl : forall p, ~ listed s p n).
  { intros p Hl. destruct (C9 p n Hl) as (_ & y & ? & Hy & _). congruence. }
  set (s' := mkShm _ _ _ _ _ _ _ _ _ _).
  assert (Hlist : forall q n', listed s' q n' -> (q = cstore x /\ n' = n) \/ listed s q n').
  { intros q n' (st' & Hst' & Hin). simpl in Hst'. apply lookup_insert_Some in Hst' as [[<- <-]|[_ Hst']]; [|right; by exists st'].
    simpl in Hin. apply elem_of_app in Hin as [Hin| ->%list_elem_of_singleton]; [right; by exists st|by left]. }
  assert (Hold : forall q n', listed s q n' -> nodes s' !! n' = nodes s !! n').
  { intros q n' Hl. simpl. apply lookup_insert_ne. intros ->. by apply (Hnl q). }
  split; simpl; auto.
  - split; [done|]. intros d. rewrite lookup_insert_is_Some. intros [<-|[_ Hd]]; apply C2'; eauto.
  - split; [done|]. intros d. rewrite lookup_insert_is_Some. intros [<-|[_ Hd]]; apply C3'; eauto.
  - split; [done|]. intros d. rewrite Hla, lookup_insert_is_Some. intros [<-|[_ Hd]]; [set_solver|]. apply elem_of_union_r. auto.
  - destruct C5 as (Hnd5 & H05 & Ht). split_and!; try done. intros d. rewrite Ht, lookup_insert_is_Some'. naive_solver.
  - intros d e y z. rewrite !lookup_insert_Some. intros [[<- <-]|[Hd Hy]] [[<- <-]|[He Hz]]; simpl; eauto.
  - intros d y. rewrite lookup_insert_Some. intros [[<- <-]|[Hd Hy]]; simpl.
    + split; [done|]. exists (mkStore (info st) (rmap st ++ [n])). rewrite lookup_insert_eq. simpl. split_and!; try done.
      * apply NoDup_app. split_and!; [done| |apply NoDup_singleton]. intros n' Hn' ->%list_elem_of_singleton.
        apply (Hnl (cstore x)). by exists st.
      * rewrite length_app. simpl. lia.
    + destruct (C7 d y Hy) as (H1 & st' & Hst' & Hi' & H2). split; [done|]. exists st'.
      rewrite lookup_insert_ne; [done|]. intros E. rewrite <- E, Hst in Hst'. simplify_eq.
  - intros q st'. rewrite lookup_insert_Some. intros [[<- <-]|[Hq Hst']]; simpl.
    + rewrite Hinfo, lookup_insert_eq. eexists. split; done.
    + destruct (C8 q st' Hst') as (y & Hy & Hs). destruct (decide (info st' = c)) as [E|].
      * rewrite E, lookup_insert_eq. eexists. split; [done|]. simpl. rewrite E in Hy. by simplify_eq.
      * exists y. by rewrite lookup_insert_ne.
  - intros q n' [[-> ->]|Hl]%Hlist.
    + split; [done|]. exists (mkNode a mr), m. rewrite lookup_insert_eq. done.
    + destruct (C9 q n' Hl) as (H1 & y & m' & Hy & H2). split; [done|]. exists y, m'. split; [|done].
      by rewrite <- (Hold q n' Hl) in Hy.
  - intros q Hq. destruct (C10 q Hq) as (y & Hy & Hmp). destruct (decide (pctx q = c)) as [E|].
    + rewrite E, lookup_insert_eq. eexists. split; [done|]. simpl. rewrite E in Hy. simplify_eq. done.
    + exists y. by rewrite lookup_insert_ne.
  - intros p1 n1 p2 n2 y1 y2 [[-> ->]|L1]%Hlist [[-> ->]|L2]%Hlist; [done|..].
    + change (nodes s' !! n = Some y1 -> nodes s' !! n2 = Some y2 -> p_mr y1 = p_mr y2 -> n = n2).
      rewrite (Hold p2 n2 L2). simpl. rewrite lookup_insert_eq. intros [= <-] H2 E. by destruct (Hfresh p2 n2 y2 L2 H2).
    + change (nodes s' !! n1 = Some y1 -> nodes s' !! n = Some y2 -> p_mr y1 = p_mr y2 -> n1 = n).
      rewrite (Hold p1 n1 L1). simpl. rewrite lookup_insert_eq. intros H1 [= <-] E. by destruct (Hfresh p1 n1 y1 L1 H1).
    + change (nodes s' !! n1 = Some y1 -> nodes s' !! n2 = Some y2 -> p_mr y1 = p_mr y2 -> n1 = n2).
      rewrite (Hold p1 n1 L1), (Hold p2 n2 L2). eauto.
  - intros p1 n1 y q [[-> ->]|L1]%Hlist.
    + rewrite lookup_insert_eq. intros [= <-] Hq. simpl. intros E. by apply (Hfp q).
    + change (nodes s' !! n1 = Some y -> q ∈ pend -> p_mr y <> pmr q). rewrite (Hold p1 n1 L1). eauto.
Qed.

(** A node is unlinked and its region is pending. *)
Lemma core_begin s pend c x st n y f :
  core s pend -> ctxs s !! c = Some x -> stores s !! cstore x = Some st -> n ∈ rmap st -> nodes s !! n = Some y ->
  core (mkShm (ctxs s) (ctable s)
          (<[cstore x := mkStore (info st) (filter (fun d => d <> n) (rmap st))]> (stores s)) (delete n (nodes s))
          (ctx_alloc s) (store_alloc s) (ofree n (node_alloc s)) (ctable_lock s) (wait_cv s) (mem s))
       ((c, p_mr y, f) :: pend).
Proof.
  intros C Hx Hst Hn Hy. pose proof C as [C1 [C2 C2'] [C3 C3'] [C4 C4'] C5 C6 C7 C8 C9 C10 C11 C12 C13].
  destruct (C7 c x Hx) as (Hs0 & st0 & Hst0 & Hinfo & Hnd & Hcnt). assert (st0 = st) as -> by congruence.
  assert (Hln : listed s (cstore x) n) by (by exists st).
  destruct (C9 _ n Hln) as (_ & y' & m & Hy' & Hm & Ha & Hms & Hsh). assert (y' = y) as -> by congruence.
  destruct (ofree_live _ n C4 (C4' n ltac:(eauto))) as [Hoa Hla].
  set (s' := mkShm _ _ _ _ _ _ _ _ _ _).
  assert (Hlist : forall q n', listed s' q n' -> n' <> n /\ listed s q n').
  { intros q n' (st' & Hst' & Hin). simpl in Hst'. apply lookup_insert_Some in Hst' as [[<- <-]|[Hne Hst']].
    - simpl in Hin. apply list_elem_of_filter in Hin as [Hne Hin]. split; [done|]. by exists st.
    - split; [|by exists st']. intros ->. destruct (C9 q n ltac:(by exists st')) as (_ & y2 & m2 & H2 & H3 & _ & H4 & _).
      simplify_eq. }
  split; simpl; auto.
  - split; [done|]. intros d. rewrite lookup_insert_is_Some. intros [<-|[_ Hd]]; apply C3'; eauto.
  - split; [done|]. intros d [z [Hd Hz]%lookup_delete_Some]. rewrite Hla. apply elem_of_difference.
    split; [apply C4'; eauto|]. rewrite elem_of_singleton. congruence.
  - intros d z Hz. destruct (C7 d z Hz) as (H1 & st' & Hst' & Hi' & Hnd' & Hc'). split; [done|].
    change ((c, p_mr y, f) :: pend) with ([(c, p_mr y, f)] ++ pend). rewrite pcount_app, pcount_one.
    destruct (decide (cstore z = cstore x)) as [E|Hne].
    + rewrite E, lookup_insert_eq. rewrite E, Hst in Hst'. simplify_eq. eexists. split; [done|]. simpl. split_and!; [done|by apply NoDup_filter|].
      rewrite decide_True by done. apply list_elem_of_split in Hn as (l1 & l2 & El). rewrite El in *.
      rewrite Vm.filter_drop by done. rewrite !length_app in *. simpl in *. lia.
    + rewrite lookup_insert_ne by done. exists st'. split_and!; try done. rewrite decide_False; [lia|].
      unfold pctx; simpl. intros ->. congruence.
  - intros q st'. rewrite lookup_insert_Some. intros [[<- <-]|[Hq Hst']]; simpl; [rewrite Hinfo|]; eauto.
  - intros q n' [Hne Hl]%Hlist. destruct (C9 q n' Hl) as (H1 & z & m' & Hz & H2). split; [done|]. exists z, m'.
    by rewrite lookup_delete_ne.
  - intros q [->|Hq]%elem_of_cons; [|auto]. exists x. split; [done|]. exists m. done.
  - intros p1 n1 p2 n2 y1 y2 [Hn1 L1]%Hlist [Hn2 L2]%Hlist. rewrite !lookup_delete_ne by done. eauto.
  - apply NoDup_cons. split; [|done]. unfold pmr at 1; simpl. intros (q & E & Hq)%list_elem_of_fmap.
    by apply (C13 _ n y q Hln Hy Hq).
  - intros p1 n1 y1 q [Hn1 L1]%Hlist. rewrite lookup_delete_ne by done. intros H1 [->|Hq]%elem_of_cons; [|eauto].
    unfold pmr; simpl. intros E. apply Hn1. by apply (C11 p1 n1 (cstore x) n y1 y).
Qed.

(** A pending region is unmapped and its reference is dropped. *)
Lemma core_end s p1 q p2 x (v : Vm.vm A V) :
  core s (p1 ++ q :: p2) -> ctxs s !! pctx q = Some x -> Vm.vm_ok v ->
  Vm.mrs v = delete (pmr q) (Vm.mrs (mem s)) ->
  core (mkShm (<[pctx q := set_refcnt (refcnt x - 1) x]> (ctxs s)) (ctable s) (stores s) (nodes s)
          (ctx_alloc s) (store_alloc s) (node_alloc s) (ctable_lock s) (wait_cv s) v) (p1 ++ p2).
Proof.
  intros C Hx Hv Hm. pose proof C as [C1 [C2 C2'] C3 C4 C5 C6 C7 C8 C9 C10 C11 C12 C13].
  assert (Hsub : forall q', q' ∈ p1 ++ p2 -> q' ∈ p1 ++ q :: p2) by set_solver.
  rewrite map_app in C12. simpl in C12. apply NoDup_app in C12 as (N1 & N2 & [N3 N4]%NoDup_cons).
  assert (Hne : forall q', q' ∈ p1 ++ p2 -> pmr q' <> pmr q).
  { intros q' [Hq|Hq]%elem_of_app E.
    - apply (N2 (pmr q')); [by apply list_elem_of_fmap_2|]. rewrite E. set_solver.
    - apply N3. rewrite <- E. by apply list_elem_of_fmap_2. }
  split; simpl; auto.
  - split; [done|]. intros d. rewrite lookup_insert_is_Some. intros [<-|[_ Hd]]; apply C2'; eauto.
  - destruct C5 as (Hnd5 & H05 & Ht). split_and!; try done. intros d. rewrite Ht, lookup_insert_is_Some'. naive_solver.
  - intros d e y z. rewrite !lookup_insert_Some. intros [[<- <-]|[Hd Hy]] [[<- <-]|[He Hz]]; simpl; eauto.
  - intros d y. rewrite lookup_insert_Some. change (q :: p2) with ([q] ++ p2) in C7. intros [[<- <-]|[Hd Hy]]; simpl.
    + destruct (C7 _ x Hx) as (H1 & st & Hst & Hi & Hnd & Hc). split; [done|]. exists st. split_and!; try done.
      rewrite !pcount_app, pcount_one, decide_True in Hc by done. rewrite pcount_app. lia.
    + destruct (C7 d y Hy) as (H1 & st & Hst & Hi & Hnd & Hc). split; [done|]. exists st. split_and!; try done.
      rewrite !pcount_app, pcount_one, decide_False in Hc by done. rewrite pcount_app. lia.
  - intros p st Hst. destruct (C8 p st Hst) as (y & Hy & Hs). destruct (decide (info st = pctx q)) as [E|].
    + rewrite E, lookup_insert_eq. eexists. split; [done|]. simpl. congruence.
    + exists y. by rewrite lookup_insert_ne.
  - intros p n Hl. destruct (C9 p n Hl) as (H1 & y & m & Hy & H2 & H3). split; [done|]. exists y, m. split_and!; try done; try apply H3.
    rewrite Hm. rewrite lookup_delete_ne; [done|]. intros E. apply (C13 p n y q Hl Hy); [set_solver|done].
  - intros q' Hq'. destruct (C10 q' (Hsub q' Hq')) as (y & Hy & m & H2 & H3).
    assert (maps (mkShm (<[pctx q := set_refcnt (refcnt x - 1) x]> (ctxs s)) (ctable s) (stores s) (nodes s)
          (ctx_alloc s) (store_alloc s) (node_alloc s) (ctable_lock s) (wait_cv s) v) (cstore y) (pmr q')).
    { exists m. simpl. rewrite Hm, lookup_delete_ne; [done|]. intros E. by apply (Hne q'). }
    destruct (decide (pctx q' = pctx q)) as [E|].
    + rewrite E, lookup_insert_eq. eexists. split; [done|]. rewrite E in Hy. simplify_eq. done.
    + exists y. by rewrite lookup_insert_ne.
  - rewrite map_app. apply NoDup_app. split_and!; [done| |done]. intros z Hz Hz'. apply (N2 z Hz). set_solver.
  - intros p n y q' Hl Hy Hq'. eauto.
Qed.

End changes.

(** ** The operations keep the invariant *)

Section operations.
Context {A : Type} `{!ObjAlloc A} {V : Type} `{!PageMap V}.
Implicit Types s : shm A V.

(** Allocators that hand out the same objects as before. *)
Lemma core_allocs s pend ac as' an :
  core s pend -> ook ac -> olive ac = olive (ctx_alloc s) -> ook as' -> olive as' = olive (store_alloc s) ->
  ook an -> olive an = olive (node_alloc s) ->
  core (mkShm (ctxs s) (ctable s) (stores s) (nodes s) ac as' an (ctable_lock s) (wait_cv s) (mem s)) pend.
Proof.
  intros [C1 [C2 C2'] [C3 C3'] [C4 C4'] C5 C6 C7 C8 C9 C10 C11 C12 C13] H1 H2 H3 H4 H5 H6.
  split; simpl; try done; (split; [done|]); by rewrite ?H2, ?H4, ?H6.
Qed.

Lemma set_lock_unlock s : ctable_lock s = false -> set_lock false (set_lock true s) = s.
Proof. destruct s; simpl. by intros ->. Qed.

(** No region has this name. *)
Definition unused s (nm : list Z) : Prop := forall d y, ctxs s !! d = Some y -> name y <> nm.

Lemma create_ok s pend nm n fl :
  inv s pend -> Z.of_nat (length nm) < MAX_NAME_LEN ->
  exists e s', createSharedRegion nm n fl s = Ret e s' /\ inv s' pend /\ mem s' = mem s /\ nodes s' = nodes s /\
    ((e = ERR_EXIST /\ s' = s /\ exists c x, ctxs s !! c = Some x /\ name x = nm) \/
     (e = ERR_NOMEM /\ unused s nm /\ ctxs s' = ctxs s /\ ctable s' = ctable s /\ stores s' = stores s) \/
     (e = ERR_OK /\ unused s nm /\ exists c p, ctxs s !! c = None /\ stores s !! p = None /\
        ctxs s' = <[c := mkCtx nm p (-1) n 0 fl]> (ctxs s) /\ ctable s' = ctable s ++ [c] /\
        stores s' = <[p := mkStore c []]> (stores s))).
Proof.
  intros [C Hl] Hlen. unfold createSharedRegion. rewrite (bind_Ret _ _ _ _ _ (ctable_acquire s Hl)).
  pose proof (proj2 (core_set_lock true s pend) C) as Cl.
  destruct (getContext_any_ok _ _ nm 0 Cl) as (c & E & Hc). rewrite (bind_Ret _ _ _ _ _ E).
  destruct Hc as [[-> Hno]|(Hc0 & x & Hx & Hn)].
  2: { rewrite (proj2 (Z.eqb_neq c 0) Hc0). do 2 eexists. split; [done|]. simpl. rewrite set_lock_unlock by done.
       split_and!; try done. left. split_and!; try done. eauto. }
  simpl. unfold bind at 1, ctx_new. simpl. destruct (co_ctx_alloc _ _ C) as [Hoc Hlc]. destruct (co_store_alloc _ _ C) as [Hos Hls].
  destruct (co_node_alloc _ _ C) as [Hon _].
  destruct (oalloc (ctx_alloc s)) as [[c|] al] eqn:Ea.
  - destruct (oalloc_Some _ _ _ Hoc Ea) as (Hoa & Hc0 & Hcl & Hla). rewrite (proj2 (Z.eqb_neq c 0) Hc0).
    assert (Hcn : ctxs s !! c = None) by (destruct (ctxs s !! c) eqn:Em; [destruct Hcl; eauto|done]).
    unfold contextInit. rewrite bind_assoc, bind_kassert by lia. rewrite (proj2 (Z.ltb_lt _ _) Hlen).
    rewrite bind_assoc, bind_ret, bind_assoc. unfold bind at 1, shmms_alloc. simpl.
    destruct (oalloc (store_alloc s)) as [[p|] al'] eqn:Ea'.
    + destruct (oalloc_Some _ _ _ Hos Ea') as (Hoa' & Hp0 & Hpl & Hla'). rewrite (proj2 (Z.eqb_neq p 0) Hp0).
      assert (Hpn : stores s !! p = None) by (destruct (stores s !! p) eqn:Em; [destruct Hpl; eauto|done]).
      do 2 eexists. split; [done|]. simpl. rewrite insert_insert_eq. split; [split; [|done]|].
      * by apply (core_set_lock false), (core_create (set_lock true s) pend nm n fl c p al al').
      * split_and!; try done. right; right. split_and!; try done. by exists c, p.
    + destruct (oalloc_None _ _ Hos Ea') as (Hoa' & Hla').
      destruct (ofree_live al c Hoa ltac:(set_solver)) as [Hof Hlf].
      do 2 eexists. split; [done|]. simpl. rewrite insert_insert_eq, delete_insert_id by done. split; [split; [|done]|].
      * apply (core_allocs (set_lock false s) pend (ofree c al) al' (node_alloc s)); try done; [by apply core_set_lock|].
        simpl. rewrite Hlf, Hla. clear -Hcl. set_solver.
      * split_and!; try done. right; left. done.
  - destruct (oalloc_None _ _ Hoc Ea) as (Hoa & Hla). do 2 eexists. split; [done|]. split; [split; [|done]|].
    + apply (core_allocs (set_lock false s) pend al (store_alloc s) (node_alloc s)); try done. by apply core_set_lock.
    + split_and!; try done. right; left. done.
Qed.

(** The context of a region without mappings, taken out of all tables. *)
Lemma destroy_internal_ok s pend c x force :
  core s pend -> ctxs s !! c = Some x -> refcnt x = 0 -> Z.land (Z.land (flag x) RS_PERSIST) (Z.lnot force) = 0 ->
  exists s', destroySharedRegion_Internal c force s = Ret ERR_OK s' /\ core s' pend /\ ctable_lock s' = ctable_lock s /\
    ctxs s' = delete c (ctxs s) /\ stores s' = delete (cstore x) (stores s) /\ nodes s' = nodes s /\ mem s' = mem s.
Proof.
  intros C Hx Hr Hf. destruct (co_ctx _ _ C c x Hx) as (Hs0 & st & Hst & _ & _ & Hcnt). rewrite Hr in Hcnt.
  unfold destroySharedRegion_Internal. rewrite (get_ctx_Some c x), Hr, Hf by done. simpl.
  unfold bind at 1, modify at 1. unfold shmms_free. rewrite bind_assoc, bind_kassert by lia.
  rewrite bind_assoc, (get_store_Some _ st) by done.
  assert (rmap st = []) as -> by (destruct (rmap st); [done|simpl in Hcnt; lia]). rewrite bind_assoc, bind_kassert by done.
  eexists. split; [done|]. split_and!; try done. by apply (core_destroy s pend c x).
Qed.

Lemma destroy_ok s pend nm :
  inv s pend ->
  exists e s', destroySharedRegion nm s = Ret e s' /\ inv s' pend /\
    ((e = ERR_NOTEXIST /\ s' = s /\ unused s nm) \/
     (exists c x, ctxs s !! c = Some x /\ name x = nm /\
        ((e = ERR_MAPPED /\ s' = s /\ refcnt x <> 0) \/
         (e = ERR_OK /\ refcnt x = 0 /\ ctxs s' = delete c (ctxs s) /\ stores s' = delete (cstore x) (stores s) /\
          nodes s' = nodes s /\ mem s' = mem s)))).
Proof.
  intros [C Hl]. unfold destroySharedRegion. rewrite (bind_Ret _ _ _ _ _ (ctable_acquire s Hl)).
  pose proof (proj2 (core_set_lock true s pend) C) as Cl.
  destruct (getContext_any_ok _ _ nm 0 Cl) as (c & E & Hc). rewrite (bind_Ret _ _ _ _ _ E).
  destruct Hc as [[-> Hno]|(Hc0 & x & Hx & Hn)].
  { do 2 eexists. split; [done|]. simpl. rewrite set_lock_unlock by done. split; [done|]. left. done. }
  rewrite (proj2 (Z.eqb_neq c 0) Hc0). rewrite (get_ctx_Some c x) by done. destruct (decide (refcnt x = 0)) as [Hr|Hr].
  - destruct (destroy_internal_ok (set_lock true s) pend c x (Z.land (flag x) RS_PERSIST) Cl Hx Hr) as
      (s' & E' & C' & _ & H1 & H2 & H3 & H4); [apply Z.land_lnot_diag|].
    rewrite (bind_Ret _ _ _ _ _ E'). exists ERR_OK, (set_lock false s'). split; [done|].
    split; [split; [by apply core_set_lock|done]|]. right. exists c, x. split_and!; try done. right. done.
  - unfold destroySharedRegion_Internal. rewrite bind_assoc, (get_ctx_Some c x) by done.
    rewrite (proj2 (Z.eqb_neq _ 0) Hr). do 2 eexists. split; [done|]. simpl. rewrite set_lock_unlock by done.
    split; [done|]. right. exists c, x. split_and!; try done. by left.
Qed.

Lemma in_mem_Ret {B C} (m : M (Vm.vm A V) B) (k : B -> M (shm A V) C) s b v :
  m (mem s) = Ret b v -> bind (in_mem m) k s = k b (set_mem v s).
Proof. intros H. apply bind_Ret. unfold in_mem, zoom. by rewrite H. Qed.

Lemma set_mem_id s : set_mem (mem s) s = s.
Proof. by destruct s. Qed.

(** The node [n] is for a region of the space [a] that contains [vaddr]. *)
Definition node_at s (n a vaddr : Z) : Prop :=
  exists y m, nodes s !! n = Some y /\ Vm.mrs (mem s) !! p_mr y = Some m /\ p_as y = a /\ Vm.start m <= vaddr < Vm.end_ m.

(** Looking for the node of an address: one of the listed ones, or none. *)
Lemma find_rmapping_ok s a vaddr l :
  (forall n, n ∈ l -> n <> 0 /\ exists y m, nodes s !! n = Some y /\ Vm.mrs (mem s) !! p_mr y = Some m) ->
  exists n, find_rmapping l a vaddr s = Ret n s /\
    ((n = 0 /\ forall d, d ∈ l -> ~ node_at s d a vaddr) \/ (n ∈ l /\ n <> 0 /\ node_at s n a vaddr)).
Proof.
  induction l as [|n l IH]; intros Hl; cbn [find_rmapping]; [exists 0; split; [done|]; left; set_solver|].
  destruct (Hl n ltac:(set_solver)) as (Hn0 & y & m & Hy & Hm). destruct (IH ltac:(set_solver)) as (n' & E & Hn').
  assert (Hrest : ~ node_at s n a vaddr -> exists n0, find_rmapping l a vaddr s = Ret n0 s /\
    ((n0 = 0 /\ forall d, d ∈ n :: l -> ~ node_at s d a vaddr) \/ (n0 ∈ n :: l /\ n0 <> 0 /\ node_at s n0 a vaddr))).
  { intros Hno. exists n'. split; [done|]. destruct Hn' as [[? Hl']|(? & ?)]; [left|right]; (split; [set_solver|]); [|done].
    intros d [->|Hd]%elem_of_cons; [done|by apply Hl']. }
  rewrite (get_node_Some n y) by done. destruct (Z.eqb_spec (p_as y) a) as [Ha|Ha].
  2: { apply Hrest. intros (y' & m' & Hy' & _ & ? & _). congruence. }
  rewrite (in_mem_Ret _ _ s m (mem s)) by (unfold Vm.get_mr; by rewrite Hm). rewrite set_mem_id.
  destruct ((Vm.start m <=? vaddr) && (vaddr <? Vm.end_ m)) eqn:Hin.
  - zbool. exists n. split; [done|]. right. split_and!; [set_solver|done|]. by exists y, m.
  - apply Hrest. intros (y' & m' & Hy' & Hm' & _ & Hr). assert (y' = y) as -> by congruence. assert (m' = m) as -> by congruence.
    apply andb_false_iff in Hin. zbool. lia.
Qed.

Lemma find_remove_ok s c x st a vaddr :
  ctxs s !! c = Some x -> stores s !! cstore x = Some st ->
  (forall n, n ∈ rmap st -> n <> 0 /\ exists y m, nodes s !! n = Some y /\ Vm.mrs (mem s) !! p_mr y = Some m) ->
  (find_remove_rmapping c a vaddr s = Ret 0 s /\ forall d, d ∈ rmap st -> ~ node_at s d a vaddr) \/
  exists n y m, find_remove_rmapping c a vaddr s =
      Ret n (set_stores (<[cstore x := mkStore (info st) (filter (fun d => d <> n) (rmap st))]> (stores s)) (store_alloc s) s) /\
    n ∈ rmap st /\ n <> 0 /\ nodes s !! n = Some y /\ p_as y = a /\
    Vm.mrs (mem s) !! p_mr y = Some m /\ Vm.start m <= vaddr < Vm.end_ m.
Proof.
  intros Hx Hst Hnodes. unfold find_remove_rmapping. rewrite (get_ctx_Some c x), (get_store_Some _ st) by done.
  destruct (find_rmapping_ok s a vaddr (rmap st) Hnodes) as (n & E & Hn).
  rewrite (bind_Ret _ _ _ _ _ E). destruct Hn as [[-> Hno]|(Hin & Hn0 & y & m & Hy & Hm & Ha & Hr)]; [by left|right].
  rewrite (proj2 (Z.eqb_neq n 0) Hn0). exists n, y, m. done.
Qed.

Lemma core_listed s pend p st n : core s pend -> stores s !! p = Some st -> n ∈ rmap st ->
  n <> 0 /\ exists y m, nodes s !! n = Some y /\ Vm.mrs (mem s) !! p_mr y = Some m.
Proof. intros C Hst Hn. destruct (co_node _ _ C p n) as (H0 & y & m & Hy & Hm & _); [by exists st|eauto]. Qed.

(** The region [nm] is mapped at [vaddr] in the space [a]. *)
Definition mapped_at s (nm : list Z) (a vaddr : Z) : Prop :=
  exists c x n, ctxs s !! c = Some x /\ name x = nm /\ listed s (cstore x) n /\ node_at s n a vaddr.

(** The first half of [destroyMapping]. *)
Lemma begin_ok s pend nm vaddr a :
  inv s pend ->
  (destroyMapping_begin nm vaddr a s = Ret (inl ERR_NOTEXIST) s /\ ~ mapped_at s nm a vaddr) \/
  exists c mr s' x m, destroyMapping_begin nm vaddr a s = Ret (inr (c, mr)) s' /\ inv s' ((c, mr, false) :: pend) /\
    ctxs s !! c = Some x /\ name x = nm /\ ctxs s' = ctxs s /\ mem s' = mem s /\
    Vm.mrs (mem s) !! mr = Some m /\ Vm.as_ m = a /\ Vm.store m = cstore x /\ Vm.start m <= vaddr < Vm.end_ m.
Proof.
  intros [C Hl]. unfold destroyMapping_begin. rewrite (bind_Ret _ _ _ _ _ (ctable_acquire s Hl)).
  pose proof (proj2 (core_set_lock true s pend) C) as Cl.
  destruct (getContext_mapped_ok _ _ nm a Cl) as (c & E & Hc). rewrite (bind_Ret _ _ _ _ _ E).
  destruct Hc as [[-> Hno]|(Hc0 & x & Hx & Hn & _)].
  { left. simpl. unfold bind, release, modify, ret. rewrite set_lock_unlock by done. split; [done|].
    intros (d & x & n & Hd & Hn & Hln & y & m & Hy & _ & Ha & _). by apply (Hno d x n y). }
  rewrite (proj2 (Z.eqb_neq c 0) Hc0).
  destruct (co_ctx _ _ C c x Hx) as (_ & st & Hst & _).
  destruct (find_remove_ok (set_lock true s) c x st a vaddr Hx Hst (fun n => core_listed s pend _ st n C Hst)) as
    [[E' Hno]|(n & y & m & E' & Hin & Hn0 & Hy & Ha & Hm & Hr)]; rewrite (bind_Ret _ _ _ _ _ E').
  { left. simpl. unfold bind, release, modify, ret. rewrite set_lock_unlock by done. split; [done|].
    intros (d & x' & n & Hd & Hn' & (st' & Hst' & Hin) & Hat).
    change (ctxs s !! c = Some x) in Hx. assert (d = c) as -> by (apply (co_names _ _ C d c x' x); congruence).
    simplify_eq. by apply (Hno n). }
  right. rewrite (proj2 (Z.eqb_neq n 0) Hn0). rewrite (get_node_Some n y) by done. unfold pid2mem_free.
  rewrite bind_assoc, bind_kassert by lia.
  destruct (co_node _ _ C (cstore x) n) as (_ & y' & m' & Hy' & Hm' & Ha' & Hs' & _); [by exists st|].
  assert (y' = y) as -> by (simpl in *; congruence). assert (m' = m) as -> by (simpl in *; congruence).
  exists c, (p_mr y). do 3 eexists. split; [done|]. split; [split; [|done]|].
  - apply (core_set_lock false). by apply (core_begin (set_lock true s) pend c x st n y false).
  - split_and!; try done; try lia.
Qed.

(** The second half of [destroyMapping], also run when an address space goes
    away: it finds its context alive. *)
Lemma end_ok s p1 q p2 :
  inv s (p1 ++ q :: p2) ->
  exists x s', destroyMapping_Internal (pctx q) (pmr q) q.2 s = Ret ERR_OK s' /\ inv s' (p1 ++ p2) /\
    Vm.mrs (mem s') = delete (pmr q) (Vm.mrs (mem s)) /\ ctxs s !! pctx q = Some x /\
    ctxs s' = (if (refcnt x - 1 =? 0) && (Z.land (flag x) RS_PERSIST =? 0) && q.2 then delete (pctx q) (ctxs s)
               else <[pctx q := set_refcnt (refcnt x - 1) x]> (ctxs s)).
Proof.
  intros [C Hl]. destruct (co_pend _ _ C q ltac:(set_solver)) as (x & Hx & m & Hm & _).
  destruct (co_table _ _ C) as (_ & H0 & Ht).
  assert (Hc0 : pctx q <> 0) by (intros E; apply H0; rewrite <- E; apply Ht; eauto).
  unfold destroyMapping_Internal. rewrite bind_kassert by lia.
  destruct (Vm.memregion_unmap_ok (mem s) (pmr q) m (co_vm _ _ C) Hm) as (_ & _ & _ & v & _ & _ & Ev & Hv & Hmv & _ & _ & _).
  rewrite (in_mem_Ret _ _ s tt v Ev). rewrite (bind_Ret _ _ _ _ _ (ctable_acquire (set_mem v s) Hl)).
  rewrite (get_ctx_Some (pctx q) x) by done. unfold bind at 1, put_ctx, modify at 1.
  pose proof (core_end (set_lock true s) p1 q p2 x v (proj2 (core_set_lock true s _) C) Hx Hv Hmv) as C1.
  set (s1 := set_ctxs (<[pctx q := set_refcnt (refcnt x - 1) x]> (ctxs (set_lock true (set_mem v s)))) (set_lock true (set_mem v s))).
  change (core s1 (p1 ++ p2)) in C1. exists x.
  destruct ((refcnt x - 1 =? 0) && (Z.land (flag x) RS_PERSIST =? 0) && q.2) eqn:Hd.
  - zbool. destruct (destroy_internal_ok s1 (p1 ++ p2) (pctx q) (set_refcnt (refcnt x - 1) x) 0 C1) as
      (s2 & E2 & C2 & _ & Hc2 & _ & _ & Hm2); [apply lookup_insert_eq|done| |].
    { simpl. match goal with H : Z.land (flag x) RS_PERSIST = 0 |- _ => rewrite H end. done. }
    rewrite (bind_Ret _ _ _ _ _ E2). eexists. split; [done|]. split; [split; [by apply core_set_lock|done]|].
    simpl. rewrite Hm2, Hc2. split_and!; [done..|]. simpl. by rewrite delete_insert_eq.
  - rewrite bind_ret. eexists. split; [done|]. split; [split; [by apply core_set_lock|done]|]. done.
Qed.

(** The first block of [createMapping_Internal]: the new region is known to
    the address space and to nothing else. *)
Lemma fresh_region s pend v mr m : core s pend -> Vm.vm_ok v -> Vm.mrs (mem s) !! mr = None ->
  Vm.mrs v = <[mr := m]> (Vm.mrs (mem s)) ->
  core (set_mem v s) pend /\ (forall p n y, listed s p n -> nodes s !! n = Some y -> p_mr y <> mr) /\
  (forall q, q ∈ pend -> pmr q <> mr).
Proof.
  intros C Hv Hn Hm. split_and!.
  - apply core_mem; [done|done|]. intros r m' Hr. rewrite Hm, lookup_insert_ne; [done|]. congruence.
  - intros p n y Hl Hy <-. destruct (co_node _ _ C p n Hl) as (_ & y' & m' & Hy' & Hm' & _). congruence.
  - intros q Hq <-. destruct (co_pend _ _ C q Hq) as (x & _ & m' & Hm' & _). congruence.
Qed.

(** A mapping of the context [c] at [lo] appeared in the space [a]. *)
Definition mapping_added s a c x ms (lo : Z) s' : Prop :=
  exists mr n st, Vm.mrs (mem s) !! mr = None /\ nodes s !! n = None /\ stores s !! cstore x = Some st /\
    ctxs s' = <[c := set_refcnt (refcnt x + 1) x]> (ctxs s) /\ nodes s' = <[n := mkNode a mr]> (nodes s) /\
    stores s' = <[cstore x := mkStore (info st) (rmap st ++ [n])]> (stores s) /\
    Vm.mrs (mem s') = <[mr := Vm.mkRegion a lo (lo + size x * PG_SIZE) MEMPERM_URW true (cstore x) 0]> (Vm.mrs (mem s)) /\
    Forall (Vm.apart lo (lo + size x * PG_SIZE)) ms.

Lemma createMapping_internal_ok kas kvm_base s pend beg a xs ms c x :
  core s pend -> ctxs s !! c = Some x -> Vm.spaces (mem s) !! a = Some xs -> Vm.layout (Vm.mrs (mem s)) a (Vm.regions xs) ms ->
  0 <= size x < 2 ^ 19 ->
  Vm.args_ok kas a (if beg =? 0 then Vm.ADDR_ANYWHERE else beg) (size x * PG_SIZE) ms ->
  exists e lo s', createMapping_Internal kas kvm_base beg a c 0 s = Ret (e, lo) s' /\ core s' pend /\
    ctable_lock s' = ctable_lock s /\
    ((e = ERR_NOMEM /\ lo = beg /\ ctxs s' = ctxs s /\ stores s' = stores s /\ nodes s' = nodes s /\
      Vm.mrs (mem s') = Vm.mrs (mem s)) \/
     (e = ERR_OK /\ mapping_added s a c x ms lo s')).
Proof.
  intros C Hx Hxs L Hsz Harg. destruct (co_ctx _ _ C c x Hx) as (_ & st & Hst & _).
  unfold createMapping_Internal. rewrite (get_ctx_Some c x) by done. simpl.
  assert (Hu : u64 (s32 (size x * PG_SIZE)) = size x * PG_SIZE).
  { unfold PG_SIZE in *. rewrite swrap_small, wrap_small by lia. done. }
  destruct (Vm.as_map_ok kas kvm_base (mem s) a xs ms (if beg =? 0 then Vm.ADDR_ANYWHERE else beg) (size x * PG_SIZE)
    MEMPERM_URW (cstore x) 0 true (co_vm _ _ C) Hxs L Harg) as (mr & v & E & Hv & _ & Hr).
  rewrite Hu, (in_mem_Ret _ _ s mr v E). destruct Hr as [(-> & Hm & _)|(lo & l1 & l2 & Hr0 & Hn & _ & _ & Hap & Hm & _)].
  { exists ERR_NOMEM, beg, (set_mem v s). split; [done|]. split_and!; try done; [|by left].
    apply core_mem; [done|done|]. by rewrite Hm. }
  destruct (fresh_region s pend v mr _ C Hv Hn Hm) as (C1 & Hf1 & Hf2).
  rewrite (proj2 (Z.eqb_neq mr 0) Hr0). unfold bind at 1, pid2mem_alloc. simpl. destruct (co_node_alloc _ _ C) as [Hon Hln].
  destruct (oalloc (node_alloc s)) as [[n|] al] eqn:Ea.
  - destruct (oalloc_Some _ _ _ Hon Ea) as (Hoa & Hn0 & Hnl & Hla). rewrite (proj2 (Z.eqb_neq n 0) Hn0).
    assert (Hnn : nodes s !! n = None) by (destruct (nodes s !! n) eqn:Em; [destruct Hnl; eauto|done]).
    unfold bind at 1, modify. rewrite (get_store_Some _ st) by done. unfold bind at 1, put_store, modify.
    rewrite (get_ctx_Some c x) by done. unfold bind at 1, put_ctx, modify.
    erewrite in_mem_Ret by (unfold Vm.get_mr; simpl; by rewrite Hm, lookup_insert_eq).
    do 3 eexists. split; [done|]. simpl. rewrite insert_insert_eq. split_and!; try done.
    + apply (core_map (set_mem v s) pend c x st n a mr al); try done. eexists. simpl. rewrite Hm, lookup_insert_eq. done.
    + right. split; [done|]. by exists mr, n, st.
  - destruct (oalloc_None _ _ Hon Ea) as (Hoa & Hla). simpl.
    destruct (Vm.memregion_unmap_ok v mr _ Hv ltac:(rewrite Hm; apply lookup_insert_eq)) as (_ & _ & _ & v' & _ & _ & Ev & Hv' & Hm' & _).
    erewrite in_mem_Ret by done. rewrite Hm, delete_insert_id in Hm' by done.
    do 3 eexists. split; [done|]. split_and!; try done; [|by left].
    apply (core_allocs (set_mem v' s) pend (ctx_alloc s) (store_alloc s) al); try done;
      [|apply C..]. apply core_mem; [done|done|]. by rewrite Hm'.
Qed.

Lemma map_ok kas kvm_base s pend nm beg a xs ms :
  inv s pend -> Vm.spaces (mem s) !! a = Some xs -> Vm.layout (Vm.mrs (mem s)) a (Vm.regions xs) ms ->
  (forall c x, ctxs s !! c = Some x -> name x = nm -> 0 <= size x < 2 ^ 19 /\
     Vm.args_ok kas a (if beg =? 0 then Vm.ADDR_ANYWHERE else beg) (size x * PG_SIZE) ms) ->
  exists e lo s', createMapping kas kvm_base nm beg a s = Ret (e, lo) s' /\ inv s' pend /\
    ((e = ERR_NOTEXIST /\ lo = beg /\ s' = s /\ unused s nm) \/
     (e = ERR_NOMEM /\ lo = beg /\ ctxs s' = ctxs s /\ stores s' = stores s /\ nodes s' = nodes s /\
      Vm.mrs (mem s') = Vm.mrs (mem s)) \/
     (e = ERR_OK /\ exists c x, ctxs s !! c = Some x /\ name x = nm /\ mapping_added s a c x ms lo s')).
Proof.
  intros [C Hl] Hxs L Harg. unfold createMapping. rewrite (bind_Ret _ _ _ _ _ (ctable_acquire s Hl)).
  pose proof (proj2 (core_set_lock true s pend) C) as Cl.
  destruct (getContext_any_ok _ _ nm 0 Cl) as (c & E & Hc). rewrite (bind_Ret _ _ _ _ _ E).
  destruct Hc as [[-> Hno]|(Hc0 & x & Hx & Hn)].
  { do 3 eexists. split; [done|]. simpl. rewrite set_lock_unlock by done. split; [done|]. by left. }
  rewrite (proj2 (Z.eqb_neq c 0) Hc0). destruct (Harg c x Hx Hn) as [Hsz Ha].
  destruct (createMapping_internal_ok kas kvm_base (set_lock true s) pend beg a xs ms c x Cl Hx Hxs L Hsz Ha) as (e & lo & s' & E' & C' & _ & H).
  rewrite (bind_Ret _ _ _ _ _ E'). do 3 eexists. split; [done|]. split; [split; [by apply core_set_lock|done]|]. right.
  destruct H as [H|[-> H]]; [left; exact H|right]. split; [done|]. exists c, x. split_and!; [done..|exact H].
Qed.

(** The first block of [unmapAll], in the address space that is going away:
    the node that it unlinks is the node of the region. *)
Lemma exit_ok s pend r m c a s' :
  inv s pend -> Vm.mrs (mem s) !! r = Some m -> Vm.start m < Vm.end_ m ->
  (in_mem (Vm.acquire (Vm.as_ m)) ;; unmapAll_begin r) s = Ret (Some (c, a)) s' ->
  inv s' ((c, r, true) :: pend) /\ mem s' = mem s.
Proof.
  intros [C Hl] Hm Hne. destruct (Vm.vo_owner _ (co_vm _ _ C) r m Hm) as (xs & Hxs & _).
  destruct (Vm.vo_space _ (co_vm _ _ C) _ xs Hxs) as [Hlk _].
  rewrite (in_mem_Ret _ _ s _ _ (Vm.acquire_ok _ xs _ Hxs Hlk)). unfold unmapAll_begin.
  set (s0 := set_mem (Vm.with_lock (Vm.as_ m) xs (mem s)) s).
  rewrite (in_mem_Ret _ _ s0 m (mem s0)), set_mem_id by (unfold Vm.get_mr; simpl; by rewrite Hm).
  destruct (Vm.store m =? 0); [done|]. rewrite bind_kassert by done.
  destruct (stores s !! Vm.store m) as [st|] eqn:Hst; [|by unfold bind, get_store; simpl; rewrite Hst].
  rewrite (get_store_Some _ st) by done. destruct (co_store _ _ C _ _ Hst) as (x & Hx & Hcs).
  destruct (info st =? 0); [done|]. rewrite bind_kassert by done. rewrite <- Hcs in Hst.
  destruct (find_remove_ok s0 (info st) x st (Vm.as_ m) (Vm.start m) Hx Hst (fun n => core_listed s pend _ st n C Hst)) as
    [[E _]|(n & y & m' & E & Hin & Hn0 & Hy & Ha & Hm' & Hr)]; rewrite (bind_Ret _ _ _ _ _ E); [done|].
  rewrite (proj2 (Z.eqb_neq n 0) Hn0). unfold pid2mem_free. rewrite bind_assoc, bind_kassert by lia. unfold bind at 1, modify.
  erewrite in_mem_Ret by (apply Vm.release_ok; apply lookup_insert_eq). unfold ret. intros [= <- <- <-].
  match goal with |- context [set_mem ?v _] => replace v with (mem s) by (symmetry; by apply Vm.unlock_with_lock) end.
  simpl in Hy, Hm'.
  destruct (co_node _ _ C (cstore x) n) as (_ & y' & m2 & Hy' & Hm2 & Ha2 & _); [by exists st|].
  assert (y' = y) as -> by congruence. assert (m2 = m') as -> by congruence.
  assert (r = p_mr y) as -> by (apply (Vm.region_unique (mem s) r (p_mr y) m m' (Vm.start m) (co_vm _ _ C)); (done || lia || congruence)).
  split; [|done]. split; [|done]. by apply (core_begin s pend (info st) x st n y true).
Qed.

(** The lock of a region is free for the other fields. *)
Lemma core_lock_by s pend c x t : core s pend -> ctxs s !! c = Some x ->
  core (set_ctxs (<[c := set_lock_by t x]> (ctxs s)) s) pend.
Proof.
  intros [C1 [C2 C2'] C3 C4 C5 C6 C7 C8 C9 C10 C11 C12 C13] Hx.
  assert (Hget : forall d y, <[c := set_lock_by t x]> (ctxs s) !! d = Some y ->
    exists y0, ctxs s !! d = Some y0 /\ name y = name y0 /\ cstore y = cstore y0 /\ refcnt y = refcnt y0).
  { intros d y [[<- <-]|[_ Hy]]%lookup_insert_Some; eauto. }
  assert (Hput : forall d y, ctxs s !! d = Some y ->
    exists y0, <[c := set_lock_by t x]> (ctxs s) !! d = Some y0 /\ cstore y0 = cstore y).
  { intros d y Hy. destruct (decide (d = c)) as [E|]; [|exists y; by rewrite lookup_insert_ne].
    rewrite E, lookup_insert_eq. eexists. split; [done|]. simpl. congruence. }
  split; simpl; auto.
  - split; [done|]. intros d [y (y0 & Hy0 & _)%Hget]. eauto.
  - destruct C5 as (? & ? & Ht). split_and!; try done. intros d. rewrite Ht, lookup_insert_is_Some'. naive_solver.
  - intros d e y z (y0 & Hy & Hn & _)%Hget (z0 & Hz & Hn' & _)%Hget E. apply (C6 d e y0 z0); congruence.
  - intros d y (y0 & Hy & _ & -> & ->)%Hget. eauto.
  - intros p st Hst. destruct (C8 p st Hst) as (y & (y0 & ? & ?)%Hput & ?). exists y0. split; [done|congruence].
  - intros q Hq. destruct (C10 q Hq) as (y & (y0 & ? & Hc)%Hput & Hm). exists y0. split; [done|]. rewrite Hc. exact Hm.
Qed.

(** Taking the lock of a region, or going to sleep on the condition variable. *)
Lemma lock_locked_ok s pend t c x : core s pend -> ctxs s !! c = Some x ->
  exists r s', lock_locked t c s = Ret r s' /\ inv s' pend /\ mem s' = mem s /\
    ((r = LSleep c /\ lock_by x <> t /\ lock_by x <> -1 /\ s' = set_lock false (set_cv (wait_cv s ++ [t]) s)) \/
     (r = LDone ERR_OK /\ (lock_by x = t \/ lock_by x = -1) /\ wait_cv s' = wait_cv s /\
      ctxs s' = <[c := set_lock_by t x]> (ctxs s))).
Proof.
  intros C Hx. unfold lock_locked. rewrite (get_ctx_Some c x) by done.
  destruct (Z.eqb_spec (lock_by x) t) as [Et|Et], (Z.eqb_spec (lock_by x) (-1)) as [E1|E1]; simpl; do 2 eexists;
    (split; [done|]); (split; [split; [|done]|]).
  all: try (apply (core_set_lock false), core_lock_by; done).
  all: try (apply (core_set_lock false), (core_set_cv (wait_cv s ++ [t])); done).
  all: (split; [done|]); first [right; split_and!; done || tauto|left; by split_and!].
Qed.

Lemma lock_ok s pend t nm a : inv s pend ->
  exists r s', lockRegion t nm a s = Ret r s' /\ inv s' pend /\ mem s' = mem s.
Proof.
  intros [C Hl]. unfold lockRegion. rewrite (bind_Ret _ _ _ _ _ (ctable_acquire s Hl)).
  pose proof (proj2 (core_set_lock true s pend) C) as Cl.
  destruct (getContext_mapped_ok _ _ nm a Cl) as (c & E & Hc). rewrite (bind_Ret _ _ _ _ _ E).
  destruct Hc as [[-> _]|(Hc0 & x & Hx & _)].
  - simpl. do 2 eexists. split; [done|]. simpl. by rewrite set_lock_unlock.
  - rewrite (proj2 (Z.eqb_neq c 0) Hc0). destruct (lock_locked_ok _ pend t c x Cl Hx) as (r & s' & E' & Hi & Hm & _). eauto.
Qed.

Lemma woken_ok s pend t c r s' : inv s pend -> lockRegion_woken t c s = Ret r s' -> inv s' pend.
Proof.
  intros [C Hl]. unfold lockRegion_woken. rewrite (bind_Ret _ _ _ _ _ (ctable_acquire s Hl)).
  pose proof (proj2 (core_set_lock true s pend) C) as Cl. destruct (ctxs s !! c) as [x|] eqn:Hx.
  - destruct (lock_locked_ok _ pend t c x Cl Hx) as (r' & s1 & E' & Hi & _). rewrite E'. by intros [= _ <-].
  - unfold lock_locked, bind, get_ctx. simpl. by rewrite Hx.
Qed.

Lemma unlock_ok s pend t nm a : inv s pend ->
  exists e w s', unlockRegion t nm a s = Ret (e, w) s' /\ inv s' pend /\ mem s' = mem s.
Proof.
  intros [C Hl]. unfold unlockRegion. rewrite (bind_Ret _ _ _ _ _ (ctable_acquire s Hl)).
  pose proof (proj2 (core_set_lock true s pend) C) as Cl.
  destruct (getContext_mapped_ok _ _ nm a Cl) as (c & E & Hc). rewrite (bind_Ret _ _ _ _ _ E).
  destruct Hc as [[-> _]|(Hc0 & x & Hx & _)].
  - simpl. do 3 eexists. split; [done|]. simpl. by rewrite set_lock_unlock.
  - rewrite (proj2 (Z.eqb_neq c 0) Hc0), (get_ctx_Some c x) by done. destruct (lock_by x =? t); simpl; do 3 eexists; (split; [done|]).
    + split; [split; [|done]|done]. apply (core_set_lock false), (core_set_cv (tail (wait_cv s))). by apply core_lock_by.
    + simpl. by rewrite set_lock_unlock.
Qed.

(** ** Interleavings

    A step is one critical section of one thread: the operations that hold
    [ctable_lock] throughout, the two halves of [destroyMapping], and the two
    halves of [unmapAll] when an address space goes away. *)
Section steps.
Context (kas kvm_base : Z).

Definition config : Type := shm A V * list pending.

(** The space [a] can take the region [nm] at [beg] without wrapping around. *)
Definition mappable s (nm : list Z) (beg a : Z) : Prop :=
  exists xs ms, Vm.spaces (mem s) !! a = Some xs /\ Vm.layout (Vm.mrs (mem s)) a (Vm.regions xs) ms /\
    forall c x, ctxs s !! c = Some x -> name x = nm -> 0 <= size x < 2 ^ 19 /\
      Vm.args_ok kas a (if beg =? 0 then Vm.ADDR_ANYWHERE else beg) (size x * PG_SIZE) ms.

Inductive step : config -> config -> Prop :=
| step_create s pend nm n fl e s' : Z.of_nat (length nm) < MAX_NAME_LEN ->
    createSharedRegion nm n fl s = Ret e s' -> step (s, pend) (s', pend)
| step_destroy s pend nm e s' : destroySharedRegion nm s = Ret e s' -> step (s, pend) (s', pend)
| step_map s pend nm beg a r s' : mappable s nm beg a ->
    createMapping kas kvm_base nm beg a s = Ret r s' -> step (s, pend) (s', pend)
| step_unmap s pend nm vaddr a c mr s' :
    destroyMapping_begin nm vaddr a s = Ret (inr (c, mr)) s' -> step (s, pend) (s', (c, mr, false) :: pend)
| step_exit s pend r m c a s' : Vm.mrs (mem s) !! r = Some m -> Vm.start m < Vm.end_ m ->
    (in_mem (Vm.acquire (Vm.as_ m)) ;; unmapAll_begin r) s = Ret (Some (c, a)) s' ->
    step (s, pend) (s', (c, r, true) :: pend)
| step_unmapped s p1 q p2 e s' :
    destroyMapping_Internal (pctx q) (pmr q) q.2 s = Ret e s' -> step (s, p1 ++ q :: p2) (s', p1 ++ p2)
| step_lock s pend t nm a r s' : lockRegion t nm a s = Ret r s' -> step (s, pend) (s', pend)
| step_woken s pend t c r s' : lockRegion_woken t c s = Ret r s' -> step (s, pend) (s', pend)
| step_unlock s pend t nm a r s' : unlockRegion t nm a s = Ret r s' -> step (s, pend) (s', pend).

Lemma step_inv k k' : step k k' -> inv k.1 k.2 -> inv k'.1 k'.2.
Proof.
  destruct 1 as [s pend nm n fl e s' Hn E|s pend nm e s' E|s pend nm beg a r s' (xs & ms & H1 & H2 & H3) E|
    s pend nm vaddr a c mr s' E|s pend r m c a s' Hm Hne E|s p1 q p2 e s' E|s pend t nm a r s' E|s pend t c r s' E|
    s pend t nm a r s' E]; simpl; intros Hi.
  - destruct (create_ok s pend nm n fl Hi Hn) as (? & ? & E' & Hi' & _). congruence.
  - destruct (destroy_ok s pend nm Hi) as (? & ? & E' & Hi' & _). congruence.
  - destruct (map_ok kas kvm_base s pend nm beg a xs ms Hi H1 H2 H3) as (? & ? & ? & E' & Hi' & _). congruence.
  - destruct (begin_ok s pend nm vaddr a Hi) as [[E' _]|(? & ? & ? & ? & ? & E' & Hi' & _)]; congruence.
  - by apply (exit_ok s pend r m c a s').
  - destruct (end_ok s p1 q p2 Hi) as (? & ? & E' & Hi' & _). congruence.
  - destruct (lock_ok s pend t nm a Hi) as (? & ? & E' & Hi' & _). congruence.
  - by apply (woken_ok s pend t c r).
  - destruct (unlock_ok s pend t nm a Hi) as (? & ? & ? & E' & Hi' & _). congruence.
Qed.

Lemma steps_inv k k' : rtc step k k' -> inv k.1 k.2 -> inv k'.1 k'.2.
Proof. induction 1; [done|]. intros H'. by apply IHrtc, (step_inv x). Qed.

Lemma init_inv al s : ook al -> ook (store_alloc s) -> ook (node_alloc s) -> stores s = ∅ -> nodes s = ∅ ->
  Vm.vm_ok (mem s) -> inv (smem_sys_init al s) [].
Proof.
  intros H1 H2 H3 Hs Hn Hv.
  assert (Hnl : forall p n, ~ listed (smem_sys_init al s) p n).
  { intros p n (st & Hst & _). simpl in Hst. rewrite Hs in Hst. by rewrite lookup_empty in Hst. }
  split; [|done]. split; simpl; try done; rewrite ?Hs, ?Hn.
  - split; [done|]. intros c [x Hx]. by rewrite lookup_empty in Hx.
  - split; [done|]. intros c [x Hx]. by rewrite lookup_empty in Hx.
  - split; [done|]. intros c [x Hx]. by rewrite lookup_empty in Hx.
  - split_and!; [apply NoDup_nil_2|set_solver|]. intros c. rewrite lookup_empty. split; [set_solver|by intros [? ?]].
  - intros p st Hst. by rewrite lookup_empty in Hst.
  - intros p n Hl. by destruct (Hnl p n).
  - set_solver.
  - intros p n ? ? ? ? Hl. by destruct (Hnl p n).
  - apply NoDup_nil_2.
  - intros p n ? ? Hl. by destruct (Hnl p n).
Qed.

End steps.

End operations.

(** ** Properties *)

Section properties.
Context {A : Type} `{!ObjAlloc A} {V : Type} `{!PageMap V}.
Implicit Types s : shm A V.


(** [createSharedRegion] refuses a name that is in use and leaves the
    tables alone when it runs out of memory; otherwise it adds one context
    with the name, no mappings, an empty store of its own and a free lock. *)
Theorem createSharedRegion_correct s pend nm n fl :
  inv s pend -> Z.of_nat (length nm) < MAX_NAME_LEN ->
  exists e s', createSharedRegion nm n fl s = Ret e s' /\ inv s' pend /\ mem s' = mem s /\ nodes s' = nodes s /\
    ((e = ERR_EXIST /\ s' = s /\ exists c x, ctxs s !! c = Some x /\ name x = nm) \/
     (e = ERR_NOMEM /\ unused s nm /\ ctxs s' = ctxs s /\ ctable s' = ctable s /\ stores s' = stores s) \/
     (e = ERR_OK /\ unused s nm /\ exists c p, ctxs s !! c = None /\ stores s !! p = None /\
        ctxs s' = <[c := mkCtx nm p (-1) n 0 fl]> (ctxs s) /\ ctable s' = ctable s ++ [c] /\
        stores s' = <[p := mkStore c []]> (stores s))).
Proof. apply create_ok. Qed.

(** [destroySharedRegion] frees the context and its store exactly when the
    name is in use and nothing maps the region; a persistent region is
    destroyed like any other, so [ERR_PERSIST] is never returned. *)
Theorem destroySharedRegion_correct s pend nm :
  inv s pend ->
  exists e s', destroySharedRegion nm s = Ret e s' /\ inv s' pend /\
    ((e = ERR_NOTEXIST /\ s' = s /\ unused s nm) \/
     (exists c x, ctxs s !! c = Some x /\ name x = nm /\
        ((e = ERR_MAPPED /\ s' = s /\ refcnt x <> 0) \/
         (e = ERR_OK /\ refcnt x = 0 /\ ctxs s' = delete c (ctxs s) /\ stores s' = delete (cstore x) (stores s) /\
          nodes s' = nodes s /\ mem s' = mem s)))).
Proof. apply destroy_ok. Qed.

(** [createMapping] adds one region of the context's size to the address
    space, apart from all its regions, records it in the reverse mapping and
    counts it; if either allocation fails, nothing stays behind. *)
Theorem createMapping_correct kas kvm_base s pend nm beg a xs ms :
  inv s pend -> Vm.spaces (mem s) !! a = Some xs -> Vm.layout (Vm.mrs (mem s)) a (Vm.regions xs) ms ->
  (forall c x, ctxs s !! c = Some x -> name x = nm -> 0 <= size x < 2 ^ 19 /\
     Vm.args_ok kas a (if beg =? 0 then Vm.ADDR_ANYWHERE else beg) (size x * PG_SIZE) ms) ->
  exists e lo s', createMapping kas kvm_base nm beg a s = Ret (e, lo) s' /\ inv s' pend /\
    ((e = ERR_NOTEXIST /\ lo = beg /\ s' = s /\ unused s nm) \/
     (e = ERR_NOMEM /\ lo = beg /\ ctxs s' = ctxs s /\ stores s' = stores s /\ nodes s' = nodes s /\
      Vm.mrs (mem s') = Vm.mrs (mem s)) \/
     (e = ERR_OK /\ exists c x, ctxs s !! c = Some x /\ name x = nm /\ mapping_added s a c x ms lo s')).
Proof. apply map_ok. Qed.

(** [destroyMapping] reports an error exactly when the named region is not
    mapped at the address in this address space; otherwise the region that
    contains the address is gone and the context counts one mapping less. *)
Theorem destroyMapping_correct s pend nm vaddr a :
  inv s pend ->
  (destroyMapping nm vaddr a s = Ret ERR_NOTEXIST s /\ ~ mapped_at s nm a vaddr) \/
  exists c x mr m s', destroyMapping nm vaddr a s = Ret ERR_OK s' /\ inv s' pend /\
    ctxs s !! c = Some x /\ name x = nm /\ Vm.mrs (mem s) !! mr = Some m /\ Vm.as_ m = a /\ Vm.store m = cstore x /\
    Vm.start m <= vaddr < Vm.end_ m /\ Vm.mrs (mem s') = delete mr (Vm.mrs (mem s)) /\
    ctxs s' = <[c := set_refcnt (refcnt x - 1) x]> (ctxs s).
Proof.
  intros Hi. unfold destroyMapping.
  destruct (begin_ok s pend nm vaddr a Hi) as [[E Hno]|(c & mr & s1 & x & m & E & Hi1 & Hx & Hn & Hc1 & Hm1 & Hm & Ha & Hs & Hr)];
    rewrite (bind_Ret _ _ _ _ _ E); [by left|right].
  destruct (end_ok s1 [] (c, mr, false) pend Hi1) as (x' & s' & E' & Hi' & Hm' & Hx' & Hc').
  unfold pctx, pmr in *. simpl in *.
  rewrite Hc1 in Hx'. assert (x' = x) as -> by congruence. rewrite andb_false_r, Hc1 in Hc'. rewrite Hm1 in Hm'.
  exists c, x, mr, m, s'. done.
Qed.

(** All regions share one condition variable and [unlockRegion] signals one
    thread.  When the first sleeper waits for another region, which is still
    locked, it goes back to sleep, and a thread that waits for the region
    that became free stays asleep although it could take the lock. *)
Theorem unlockRegion_lost_wakeup s pend t a c x d y u v rest :
  inv s pend -> ctxs s !! c = Some x -> lock_by x = t ->
  (exists n z, listed s (cstore x) n /\ nodes s !! n = Some z /\ p_as z = a) ->
  ctxs s !! d = Some y -> d <> c -> lock_by y <> u -> lock_by y <> -1 -> wait_cv s = u :: rest -> v ∈ rest ->
  exists s1 s2 s3, unlockRegion t (name x) a s = Ret (ERR_OK, Some u) s1 /\
    lockRegion_woken u d s1 = Ret (LSleep d) s2 /\ v ∈ wait_cv s2 /\
    lockRegion_woken v c s2 = Ret (LDone ERR_OK) s3.
Proof.
  intros [C Hl] Hx Ht (n & z & Hln & Hz & Ha) Hy Hne Hu Hy1 Hcv Hv.
  pose proof (proj2 (core_set_lock true s pend) C) as Cl. unfold unlockRegion. rewrite (bind_Ret _ _ _ _ _ (ctable_acquire s Hl)).
  destruct (getContext_mapped_ok _ _ (name x) a Cl) as (c' & E & Hc). rewrite (bind_Ret _ _ _ _ _ E).
  destruct Hc as [[-> Hno]|(Hc0 & x' & Hx' & Hn & _)]; [by destruct (Hno c x n z)|]. change (ctxs s !! c' = Some x') in Hx'.
  assert (c' = c) as -> by (by apply (co_names _ _ C c' c x' x)). assert (x' = x) as -> by congruence.
  rewrite (proj2 (Z.eqb_neq c 0) Hc0), (get_ctx_Some c x), (proj2 (Z.eqb_eq _ _) Ht) by done. simpl. unfold bind, put_ctx, gets, modify. simpl.
  do 3 eexists. split; [unfold release, modify, ret; by rewrite Hcv|]. simpl.
  unfold lockRegion_woken, lock_locked, acquire, bind, get_ctx. simpl. rewrite lookup_insert_ne, Hy by done.
  rewrite (proj2 (Z.eqb_neq _ _) Hu), (proj2 (Z.eqb_neq _ _) Hy1). simpl. split; [done|]. simpl. split; [set_solver|].
  rewrite lookup_insert_eq. simpl. by rewrite andb_false_r.
Qed.

End properties.

(** *** Witnesses: a region that is created, mapped into the space of
    [Vm.ex_vm] and about to be unmapped *)

Notation ex_shm := (shm Bump.bump unit).

Definition after {B} (m : M ex_shm B) (s : ex_shm) : ex_shm := match m s with Ret _ s' => s' | Halt _ s' => s' end.

Definition ex_boot : ex_shm :=
  mkShm ∅ [] ∅ ∅ (Bump.mkBump 0 1 ∅) (Bump.mkBump 5 2000 ∅) (Bump.mkBump 5 3000 ∅) false [] Vm.ex_vm.
Definition ex_cache : Bump.bump := Bump.mkBump 5 1000 ∅.
Definition ex_init : ex_shm := smem_sys_init ex_cache ex_boot.
Definition ex_created : ex_shm := after (createSharedRegion [97] 1 RS_DEFAULT) ex_init.
Definition ex_mapped : ex_shm := after (createMapping 1 KMAP_BASE [97] 0 50) ex_created.
Definition ex_unmapping : ex_shm := after (destroyMapping_begin [97] 8192 50) ex_mapped.

Lemma ex_ook n : 0 < n -> ook (Bump.mkBump 5 n ∅).
Proof. split; simpl; [done|set_solver]. Qed.

Lemma ex_created_ctxs : ctxs ex_created = {[ 1000 := mkCtx [97] 2000 (-1) 1 0 RS_DEFAULT ]}.
Proof. vm_compute. done. Qed.

Lemma ex_args c x : ctxs ex_created !! c = Some x -> name x = [97] ->
  0 <= size x < 2 ^ 19 /\ Vm.args_ok 1 50 (if 0 =? 0 then Vm.ADDR_ANYWHERE else 0) (size x * PG_SIZE) [Vm.ex_m1; Vm.ex_m2].
Proof.
  rewrite ex_created_ctxs, lookup_singleton_Some. intros [_ <-] _. simpl. split; [lia|]. split; [unfold PG_SIZE; lia|]. simpl.
  unfold PG_SIZE. split_and!; [lia..|]. repeat constructor; simpl; lia.
Qed.

Lemma ex_mappable : mappable 1 ex_created [97] 0 50.
Proof. exists Vm.ex_space, [Vm.ex_m1; Vm.ex_m2]. split; [done|]. split; [apply Vm.ex_layout|]. apply ex_args. Qed.

Lemma ex_init_inv : inv ex_init [].
Proof. apply init_inv; try done; try (apply ex_ook; lia). apply Vm.ex_vm_ok. Qed.

Lemma ex_step_create : step 1 KMAP_BASE (ex_init, []) (ex_created, []).
Proof. apply (step_create 1 KMAP_BASE ex_init [] [97] 1 RS_DEFAULT ERR_OK ex_created); vm_compute; done. Qed.

Lemma ex_step_map : step 1 KMAP_BASE (ex_created, []) (ex_mapped, []).
Proof. apply (step_map 1 KMAP_BASE ex_created [] [97] 0 50 (ERR_OK, 8192)); [apply ex_mappable|]. vm_compute. done. Qed.

Lemma ex_step_unmap : step 1 KMAP_BASE (ex_mapped, []) (ex_unmapping, [(1000, 300, false)]).
Proof. apply (step_unmap 1 KMAP_BASE ex_mapped [] [97] 8192 50 1000 300). vm_compute. done. Qed.

Lemma ex_created_inv : inv ex_created [].
Proof. exact (step_inv 1 KMAP_BASE _ _ ex_step_create ex_init_inv). Qed.

Lemma ex_mapped_inv : inv ex_mapped [].
Proof. exact (step_inv 1 KMAP_BASE _ _ ex_step_map ex_created_inv). Qed.


Lemma createSharedRegion_correct_witness :
  inv ex_mapped [] /\
  exists e s', createSharedRegion [98] 2 RS_PERSIST ex_mapped = Ret e s' /\ inv s' [] /\ mem s' = mem ex_mapped /\
    nodes s' = nodes ex_mapped /\
    ((e = ERR_EXIST /\ s' = ex_mapped /\ exists c x, ctxs ex_mapped !! c = Some x /\ name x = [98]) \/
     (e = ERR_NOMEM /\ unused ex_mapped [98] /\ ctxs s' = ctxs ex_mapped /\ ctable s' = ctable ex_mapped /\
      stores s' = stores ex_mapped) \/
     (e = ERR_OK /\ unused ex_mapped [98] /\ exists c p, ctxs ex_mapped !! c = None /\ stores ex_mapped !! p = None /\
        ctxs s' = <[c := mkCtx [98] p (-1) 2 0 RS_PERSIST]> (ctxs ex_mapped) /\ ctable s' = ctable ex_mapped ++ [c] /\
        stores s' = <[p := mkStore c []]> (stores ex_mapped))).
Proof. split; [exact ex_mapped_inv|]. apply (createSharedRegion_correct ex_mapped [] [98] 2 RS_PERSIST ex_mapped_inv). done. Defined.

Lemma destroySharedRegion_correct_witness :
  destroySharedRegion [97] ex_mapped = Ret ERR_MAPPED ex_mapped /\
  exists e s', destroySharedRegion [97] ex_mapped = Ret e s' /\ inv s' [].
Proof.
  split; [vm_compute; done|].
  destruct (destroySharedRegion_correct ex_mapped [] [97] ex_mapped_inv) as (e & s' & E & Hi & _). by exists e, s'.
Defined.

Lemma createMapping_correct_witness :
  exists e lo s', createMapping 1 KMAP_BASE [97] 0 50 ex_created = Ret (e, lo) s' /\ inv s' [] /\
    ((e = ERR_NOTEXIST /\ lo = 0 /\ s' = ex_created /\ unused ex_created [97]) \/
     (e = ERR_NOMEM /\ lo = 0 /\ ctxs s' = ctxs ex_created /\ stores s' = stores ex_created /\ nodes s' = nodes ex_created /\
      Vm.mrs (mem s') = Vm.mrs (mem ex_created)) \/
     (e = ERR_OK /\ exists c x, ctxs ex_created !! c = Some x /\ name x = [97] /\
        mapping_added ex_created 50 c x [Vm.ex_m1; Vm.ex_m2] lo s')).
Proof.
  exact (createMapping_correct 1 KMAP_BASE ex_created [] [97] 0 50 Vm.ex_space [Vm.ex_m1; Vm.ex_m2] ex_created_inv eq_refl
    Vm.ex_layout ex_args).
Defined.

Lemma destroyMapping_correct_witness :
  (destroyMapping [97] 4096 50 ex_mapped = Ret ERR_NOTEXIST ex_mapped /\ ~ mapped_at ex_mapped [97] 50 4096) /\
  exists s', destroyMapping [97] 8192 50 ex_mapped = Ret ERR_OK s'.
Proof.
  split.
  - destruct (destroyMapping_correct ex_mapped [] [97] 4096 50 ex_mapped_inv) as [H|(c & x & mr & m & s' & E & _)]; [exact H|].
    exfalso. revert E. vm_compute. done.
  - eexists. vm_compute. done.
Defined.

(** Two mapped regions, both locked by thread 7; thread 8 sleeps for the second
    one and thread 9 for the first one. *)
Definition ex_locked : ex_shm :=
  after (lockRegion 7 [97] 50 ;; createSharedRegion [98] 1 RS_DEFAULT) ex_mapped.
Definition ex_sleepers : ex_shm :=
  set_cv [8; 9] (set_ctxs (<[1001 := mkCtx [98] 2001 7 1 0 RS_DEFAULT]> (ctxs ex_locked)) ex_locked).

Lemma ex_locked_inv : inv ex_locked [].
Proof.
  destruct (lock_ok ex_mapped [] 7 [97] 50 ex_mapped_inv) as (r & s1 & E1 & Hi1 & _).
  destruct (create_ok s1 [] [98] 1 RS_DEFAULT Hi1 ltac:(done)) as (e & s2 & E2 & Hi2 & _).
  unfold ex_locked, after. rewrite (bind_Ret _ _ _ _ _ E1), E2. done.
Qed.

Lemma ex_sleepers_inv : inv ex_sleepers [].
Proof.
  destruct ex_locked_inv as [C Hl]. split; [|exact Hl]. apply core_set_cv.
  apply (core_lock_by ex_locked [] 1001 (mkCtx [98] 2001 (-1) 1 0 RS_DEFAULT) 7 C). vm_compute. done.
Qed.

Lemma unlockRegion_lost_wakeup_witness :
  exists s1 s2 s3, unlockRegion 7 [97] 50 ex_sleepers = Ret (ERR_OK, Some 8) s1 /\
    lockRegion_woken 8 1001 s1 = Ret (LSleep 1001) s2 /\ 9 ∈ wait_cv s2 /\
    lockRegion_woken 9 1000 s2 = Ret (LDone ERR_OK) s3.
Proof.
  apply (unlockRegion_lost_wakeup ex_sleepers [] 7 50 1000 (mkCtx [97] 2000 7 1 1 RS_DEFAULT) 1001
    (mkCtx [98] 2001 7 1 0 RS_DEFAULT) 8 9 [9] ex_sleepers_inv); try done.
  - exists 3000, (mkNode 50 300). split; [|vm_compute; done]. exists (mkStore 1000 [3000]).
    split; [vm_compute; done|]. set_solver.
  - set_solver.
Defined.

End Shmms.
