(* ===== verification/Sched.v ===== *)
(** * Threads, scheduling and locks

    kernel/synch.c, kernel/sched.c, kernel/thread.c and kernel/timer.c, with
    the parts of arch/x86_64/kernel (cpu.c, thread.c, trap.c) they rest on.
    Several processors run at the same time; each has a current thread, an
    interrupt flag and the depth of its interrupt disabling.  A function runs
    on the processor [c].  [swtch] replaces the current thread, so that what
    follows it in [sched] is run by the thread that is switched to; what a
    thread still has to do when it returns from [sched_sched] is its [todo].

    A call is one step of a processor.  Spinning for a lock is not a step: the
    call has the outcome [Block] and is made again later.  [sched_lock] is
    taken and released within a step, since the thread that is switched to
    releases it first thing. *)

From S2P Require Import Prelude Page Alloc.
Import Page.
Local Open Scope kernel_scope.

Module Sched.

Inductive threadstate_t := RUNNING | READY | SLEEPING | ZOMBIE.
#[export] Instance threadstate_eq_dec : EqDecision threadstate_t.
Proof. solve_decision. Defined.

Definition THREAD_NAME_LEN : Z := 32.
Definition DEFAULT_PRI : Z := 10.
Definition ERR_LOCK_BUSY : err_t := 1.

(** The code address in the saved context of a thread: a new thread starts in
    [thread_start] (or [kstart], which calls it), another one returns from
    [swtch] in [sched]. *)
Inductive context := InStart | InSched.
#[export] Instance context_eq_dec : EqDecision context.
Proof. solve_decision. Defined.

(** What a thread does after it returned from [sched_sched]: its own code, or
    the rest of [condvar_wait] on [cv] with the lock [l], called from its own
    code or from the loop of [sleeplock_acquire]. *)
Inductive todo := Code | CvWait (cv l : Z) | SlWait (s : Z).

Record thread := mkThread {
  name : list Z;
  priority : Z;
  tid : Z;
  state : threadstate_t;
  proc : Z;
  sched_ctx : context;
  kstack : Z;
  next : todo;
}.

Definition set_state (st : threadstate_t) (t : thread) : thread :=
  mkThread (name t) (priority t) (tid t) st (proc t) (sched_ctx t) (kstack t) (next t).
Definition set_ctx (k : context) (t : thread) : thread :=
  mkThread (name t) (priority t) (tid t) (state t) (proc t) k (kstack t) (next t).
Definition set_next (n : todo) (t : thread) : thread :=
  mkThread (name t) (priority t) (tid t) (state t) (proc t) (sched_ctx t) (kstack t) n.

Record spinlock := mkSpin { lock_status : Z; intrlock : Z; holder : Z }.

(** [struct x86_64_cpu], with the interrupt flag and the thread whose stack the
    processor uses ([thread_current]). *)
Record cpu := mkCpu {
  idle_thread : Z;
  cpu_thread : Z;
  num_disabled : Z;
  intr_enabled : bool;
  fl_if : bool;
  current : Z;
}.

(** A sleeplock at [s] has its spinlock at [s] and its condition variable
    behind it; the map [sleeps] gives its holder. *)
Definition lk (s : Z) : Z := s.
Definition waiters (s : Z) : Z := s + 16.

(** The addresses of the locks of sched.c, timer.c and thread.c. *)
Definition sched_lock : Z := 1.
Definition timer_lock : Z := 2.
Definition tid_lock : Z := 3.

Section model.
Context {A F : Type} `{!ObjAlloc A} `{!FrameAlloc F}.

Record kern := mkKern {
  synch_enabled : bool;
  cpus : gmap Z cpu;
  threads : gmap Z thread;
  ready_queue : list Z;
  spins : gmap Z spinlock;
  condvars : gmap Z (list Z);
  sleeps : gmap Z Z;
  attached : gmap Z (list Z);
  ticks : Z;
  tid_allocator : Z;
  thread_allocator : A;
  pmem : F;
}.

Definition set_cpus x s := mkKern (synch_enabled s) x (threads s) (ready_queue s) (spins s) (condvars s) (sleeps s) (attached s) (ticks s) (tid_allocator s) (thread_allocator s) (pmem s).
Definition set_threads x s := mkKern (synch_enabled s) (cpus s) x (ready_queue s) (spins s) (condvars s) (sleeps s) (attached s) (ticks s) (tid_allocator s) (thread_allocator s) (pmem s).
Definition set_ready x s := mkKern (synch_enabled s) (cpus s) (threads s) x (spins s) (condvars s) (sleeps s) (attached s) (ticks s) (tid_allocator s) (thread_allocator s) (pmem s).
Definition set_spins x s := mkKern (synch_enabled s) (cpus s) (threads s) (ready_queue s) x (condvars s) (sleeps s) (attached s) (ticks s) (tid_allocator s) (thread_allocator s) (pmem s).
Definition set_condvars x s := mkKern (synch_enabled s) (cpus s) (threads s) (ready_queue s) (spins s) x (sleeps s) (attached s) (ticks s) (tid_allocator s) (thread_allocator s) (pmem s).
Definition set_sleeps x s := mkKern (synch_enabled s) (cpus s) (threads s) (ready_queue s) (spins s) (condvars s) x (attached s) (ticks s) (tid_allocator s) (thread_allocator s) (pmem s).
Definition set_attached x s := mkKern (synch_enabled s) (cpus s) (threads s) (ready_queue s) (spins s) (condvars s) (sleeps s) x (ticks s) (tid_allocator s) (thread_allocator s) (pmem s).
Definition set_ticks x s := mkKern (synch_enabled s) (cpus s) (threads s) (ready_queue s) (spins s) (condvars s) (sleeps s) (attached s) x (tid_allocator s) (thread_allocator s) (pmem s).
Definition set_tid x s := mkKern (synch_enabled s) (cpus s) (threads s) (ready_queue s) (spins s) (condvars s) (sleeps s) (attached s) (ticks s) x (thread_allocator s) (pmem s).
Definition set_alloc x s := mkKern (synch_enabled s) (cpus s) (threads s) (ready_queue s) (spins s) (condvars s) (sleeps s) (attached s) (ticks s) (tid_allocator s) x (pmem s).
Definition set_pmem x s := mkKern (synch_enabled s) (cpus s) (threads s) (ready_queue s) (spins s) (condvars s) (sleeps s) (attached s) (ticks s) (tid_allocator s) (thread_allocator s) x.

(** ** Memory *)

Definition load {B} (f : kern -> gmap Z B) (a : Z) : M kern B := x <- gets (fun s => f s !! a) ;; of_option Fault x.
Definition put_cpu (c : Z) (x : cpu) : M kern unit := modify (fun s => set_cpus (<[c := x]> (cpus s)) s).
Definition put_thread (t : Z) (x : thread) : M kern unit := modify (fun s => set_threads (<[t := x]> (threads s)) s).
Definition upd_thread (t : Z) (f : thread -> thread) : M kern unit := x <- load threads t ;; put_thread t (f x).
Definition put_spin (l : Z) (k : spinlock) : M kern unit := modify (fun s => set_spins (<[l := k]> (spins s)) s).
Definition put_cv (cv : Z) (w : list Z) : M kern unit := modify (fun s => set_condvars (<[cv := w]> (condvars s)) s).
Definition put_sleep (s h : Z) : M kern unit := modify (fun k => set_sleeps (<[s := h]> (sleeps k)) k).

Definition thread_current (c : Z) : M kern Z := x <- load cpus c ;; ret (current x).
Definition cpu_idle_thread (c : Z) : M kern Z := x <- load cpus c ;; ret (idle_thread x).
Definition cpu_set_idle_thread (c t : Z) : M kern unit :=
  x <- load cpus c ;;
  kassert (idle_thread x =? 0) ;; kassert (negb (t =? 0)) ;;
  put_cpu c (mkCpu t (cpu_thread x) (num_disabled x) (intr_enabled x) (fl_if x) (current x)).

(** ** Interrupts *)

(** Switching interrupts off counts, and switching them on undoes one count;
    the flag is set when the count is 0 and it was set before. *)
Definition intr_set_level (c : Z) (on : bool) : M kern bool :=
  x <- load cpus c ;;
  if on then
    kassert (negb (fl_if x)) ;;
    (if num_disabled x =? 0 then
       put_cpu c (mkCpu (idle_thread x) (cpu_thread x) (num_disabled x) (intr_enabled x) true (current x))
     else
       let n := if 0 <? num_disabled x then num_disabled x - 1 else num_disabled x in
       put_cpu c (mkCpu (idle_thread x) (cpu_thread x) n (intr_enabled x) (if (n =? 0) && intr_enabled x then true else fl_if x) (current x))) ;;
    ret (fl_if x)
  else
    put_cpu c (mkCpu (idle_thread x) (cpu_thread x) (num_disabled x + 1) (if num_disabled x =? 0 then fl_if x else intr_enabled x) false (current x)) ;;
    ret (fl_if x).

(** ** Spinlocks *)

Definition spinlock_init (l intr : Z) : M kern unit := kassert (negb (l =? 0)) ;; put_spin l (mkSpin 0 intr 0).

Definition spinlock_acquire (c l : Z) : M kern unit :=
  on <- gets synch_enabled ;;
  if negb on then ret tt
  else
    kassert (negb (l =? 0)) ;;
    intr_set_level c false ;;
    curr <- thread_current c ;;
    k <- load spins l ;;
    if negb (holder k =? 0) && (holder k =? curr) then stop Panic
    else if negb (lock_status k =? 0) then stop Block
    else put_spin l (mkSpin 1 (intrlock k) curr).

Definition spinlock_try_acquire (c l : Z) : M kern err_t :=
  on <- gets synch_enabled ;;
  if negb on then ret ERR_OK
  else
    kassert (negb (l =? 0)) ;;
    intr_set_level c false ;;
    curr <- thread_current c ;;
    k <- load spins l ;;
    kassert ((holder k =? 0) || negb (holder k =? curr)) ;;
    if lock_status k =? 0 then put_spin l (mkSpin 1 (intrlock k) curr) ;; ret ERR_OK
    else intr_set_level c true ;; ret ERR_LOCK_BUSY.

Definition spinlock_release (c l : Z) : M kern unit :=
  on <- gets synch_enabled ;;
  if negb on then ret tt
  else
    kassert (negb (l =? 0)) ;;
    k <- load spins l ;;
    put_spin l (mkSpin 0 (intrlock k) 0) ;;
    intr_set_level c true ;; ret tt.

(** ** The scheduler *)

Definition sched_ready (c t : Z) : M kern unit :=
  kassert (negb (t =? 0)) ;;
  spinlock_acquire c sched_lock ;;
  upd_thread t (set_state READY) ;;
  modify (fun s => set_ready (ready_queue s ++ [t]) s) ;;
  spinlock_release c sched_lock.

Definition thread_cleanup (c t : Z) : M kern unit :=
  curr <- thread_current c ;;
  kassert (negb (curr =? t)) ;;
  x <- load threads t ;;
  zoom pmem set_pmem (ffree (KMAP_V2P (kstack x))) ;;
  modify (fun s => set_alloc (ofree t (thread_allocator s)) (set_threads (delete t (threads s)) s)).

Definition thread_start (c : Z) : M kern unit :=
  x <- load cpus c ;; kassert (negb (fl_if x)) ;; spinlock_release c sched_lock.

(** [cpu_switch_thread]: the processor goes on with [t]; the result is the
    thread that [t] gets as [prev]. *)
Definition cpu_switch_thread (c t : Z) : M kern Z :=
  x <- load cpus c ;;
  kassert (negb (fl_if x)) ;;
  upd_thread (current x) (set_ctx InSched) ;;
  put_cpu c (mkCpu (idle_thread x) t (num_disabled x) true (fl_if x) t) ;;
  ret (current x).

(** [sched] up to the switch. *)
Definition sched (c : Z) : M kern Z :=
  curr <- thread_current c ;;
  q <- gets ready_queue ;;
  t <- match q with
       | t :: q' => x <- load threads t ;; kassert (bool_decide (state x = READY)) ;; modify (set_ready q') ;; ret t
       | [] => idle <- cpu_idle_thread c ;; kassert (negb (idle =? curr)) ;; ret idle
       end ;;
  upd_thread t (set_state RUNNING) ;;
  cpu_switch_thread c t.

(** What the thread that was switched to does: a new thread releases the lock;
    another one is in [sched] and goes on in its call of [sched_sched]. *)
Definition switched (c prev : Z) : M kern unit :=
  t <- thread_current c ;;
  x <- load threads t ;;
  match sched_ctx x with
  | InStart => thread_start c
  | InSched =>
      kassert (negb (prev =? 0)) ;;
      p <- load threads prev ;;
      spinlock_release c sched_lock ;;
      if bool_decide (state p = ZOMBIE) then thread_cleanup c prev else ret tt
  end.

(** [lock] is 0 for NULL. *)
Definition sched_sched (c : Z) (next_state : threadstate_t) (lock : Z) : M kern unit :=
  curr <- thread_current c ;;
  spinlock_acquire c sched_lock ;;
  q <- gets ready_queue ;;
  if bool_decide (next_state = READY) && bool_decide (q = []) then spinlock_release c sched_lock
  else
    idle <- cpu_idle_thread c ;;
    (if bool_decide (next_state = READY) && negb (curr =? idle) then modify (set_ready (q ++ [curr])) else ret tt) ;;
    (if negb (lock =? 0) then spinlock_release c lock else ret tt) ;;
    upd_thread curr (set_state next_state) ;;
    prev <- sched c ;;
    switched c prev.

(** ** Condition variables *)

Definition condvar_init (cv : Z) : M kern unit := kassert (negb (cv =? 0)) ;; put_cv cv [].

(** [condvar_wait] up to the switch; [k] is what the thread does when it runs
    again. *)
Definition condvar_wait (c cv lock : Z) (k : todo) : M kern unit :=
  on <- gets synch_enabled ;;
  if negb on then ret tt
  else
    kassert (negb (cv =? 0) && negb (lock =? 0)) ;;
    t <- thread_current c ;;
    l <- load spins lock ;;
    kassert (holder l =? t) ;;
    w <- load condvars cv ;;
    put_cv cv (w ++ [t]) ;;
    upd_thread t (set_next k) ;;
    sched_sched c SLEEPING lock.

Definition condvar_signal (c cv : Z) : M kern unit :=
  on <- gets synch_enabled ;;
  if negb on then ret tt
  else
    kassert (negb (cv =? 0)) ;;
    w <- load condvars cv ;;
    match w with
    | [] => ret tt
    | t :: w' => put_cv cv w' ;; sched_ready c t
    end.

Fixpoint broadcast_loop (n : nat) (c cv : Z) : M kern unit :=
  match n with
  | O => ret tt
  | S n' =>
      w <- load condvars cv ;;
      match w with
      | [] => ret tt
      | t :: w' => put_cv cv w' ;; sched_ready c t ;; broadcast_loop n' c cv
      end
  end.
Definition condvar_broadcast (c cv : Z) : M kern unit :=
  on <- gets synch_enabled ;;
  if negb on then ret tt
  else
    kassert (negb (cv =? 0)) ;;
    w <- load condvars cv ;;
    broadcast_loop (length w) c cv.

(** ** Sleeplocks *)

Definition sleeplock_init (s : Z) : M kern unit :=
  kassert (negb (s =? 0)) ;; spinlock_init (lk s) 0 ;; condvar_init (waiters s) ;; put_sleep s 0.

(** The loop of [sleeplock_acquire], with the spinlock held. *)
Definition sleeplock_test (c s : Z) : M kern unit :=
  h <- load sleeps s ;;
  if negb (h =? 0) then condvar_wait c (waiters s) (lk s) (SlWait s)
  else t <- thread_current c ;; put_sleep s t ;; spinlock_release c (lk s).

Definition sleeplock_acquire (c s : Z) : M kern unit :=
  on <- gets synch_enabled ;;
  if negb on then ret tt
  else kassert (negb (s =? 0)) ;; spinlock_acquire c (lk s) ;; sleeplock_test c s.

Definition sleeplock_release (c s : Z) : M kern unit :=
  on <- gets synch_enabled ;;
  if negb on then ret tt
  else
    h <- load sleeps s ;; t <- thread_current c ;;
    kassert (negb (s =? 0) && (h =? t)) ;;
    spinlock_acquire c (lk s) ;;
    put_sleep s 0 ;;
    condvar_signal c (waiters s) ;;
    spinlock_release c (lk s).

(** The current thread goes on after [sched_sched] returned: it takes the lock
    again, and in [sleeplock_acquire] tests again. *)
Definition wait_return (c : Z) : M kern unit :=
  t <- thread_current c ;;
  x <- load threads t ;;
  match next x with
  | Code => stop Fault
  | CvWait _ l => spinlock_acquire c l ;; upd_thread t (set_next Code)
  | SlWait s => spinlock_acquire c (lk s) ;; upd_thread t (set_next Code) ;; sleeplock_test c s
  end.

(** ** Threads *)

Definition proc_attach_thread (p t : Z) : M kern unit :=
  kassert (negb (t =? 0)) ;;
  if p =? 0 then ret tt
  else l <- gets (fun s => default [] (attached s !! p)) ;; modify (fun s => set_attached (<[p := l ++ [t]]> (attached s)) s).

(** Without an idle thread the processor is starting up and the new thread gets
    the stack in use, at [boot].  The state of the new thread is not set:
    [junk] is what the memory held. *)
Definition thread_create (c boot : Z) (junk : threadstate_t) (nm : list Z) (p pri : Z) : M kern Z :=
  t <- (fun s => match oalloc (thread_allocator s) with
                 | (None, a) => Ret 0 (set_alloc a s)
                 | (Some t, a) => Ret t (set_alloc a s)
                 end) ;;
  if t =? 0 then ret 0
  else
    idle <- cpu_idle_thread c ;;
    pg <- (if idle =? 0 then ret (Some boot)
           else a <- zoom pmem set_pmem falloc ;; ret (option_map KMAP_P2V a)) ;;
    match pg with
    | None => ret 0
    | Some vaddr =>
        spinlock_acquire c tid_lock ;;
        modify (fun s => set_tid (tid_allocator s + 1) s) ;;
        spinlock_release c tid_lock ;;
        n <- gets tid_allocator ;;
        put_thread t (mkThread (take (Z.to_nat (THREAD_NAME_LEN - 1)) nm) pri n junk p InSched vaddr Code) ;;
        (if idle =? 0 then x <- load cpus c ;; put_cpu c (mkCpu (idle_thread x) (cpu_thread x) (num_disabled x) (intr_enabled x) (fl_if x) t) else ret tt) ;;
        proc_attach_thread p t ;;
        ret t
    end.

Definition thread_start_context (c t func : Z) : M kern unit :=
  kassert (negb (t =? 0)) ;;
  x <- load threads t ;;
  kassert (negb (proc x =? 0) || negb (func =? 0)) ;;
  put_thread t (set_ctx InStart x) ;;
  sched_ready c t.

Definition thread_exit (c : Z) : M kern unit := sched_sched c ZOMBIE 0.

(** ** Start of a processor and the timer *)

Definition sched_start (c : Z) : M kern err_t :=
  x <- load cpus c ;; kassert (negb (fl_if x)) ;;
  t <- thread_current c ;; cpu_set_idle_thread c t ;; intr_set_level c true ;; ret ERR_OK.

Definition sched_start_ap (c boot : Z) (junk : threadstate_t) (nm : list Z) : M kern err_t :=
  x <- load cpus c ;; kassert (negb (fl_if x)) ;;
  t <- thread_create c boot junk nm 0 DEFAULT_PRI ;;
  if t =? 0 then ret 1
  else cpu_set_idle_thread c t ;; intr_set_level c true ;; ret ERR_OK.

(** The interrupt clears the interrupt flag; [iret] restores it, as it was set
    in the code that was interrupted.  When [sched_sched] switches, the thread
    that goes on has its interrupts on already. *)
Definition set_if (c : Z) (b : bool) : M kern unit :=
  x <- load cpus c ;; put_cpu c (mkCpu (idle_thread x) (cpu_thread x) (num_disabled x) (intr_enabled x) b (current x)).
Definition timer_trap_handler (c : Z) : M kern unit :=
  spinlock_acquire c timer_lock ;;
  modify (fun s => set_ticks (u32 (ticks s + 1)) s) ;;
  spinlock_release c timer_lock ;;
  sched_sched c READY 0.
Definition timer_interrupt (c : Z) : M kern unit := set_if c false ;; timer_trap_handler c ;; set_if c true.

(** ** Steps of the system *)

Inductive op :=
| Acquire (c l : Z) | TryAcquire (c l : Z) | Release (c l : Z)
| Wait (c cv l : Z) | Signal (c cv : Z) | Broadcast (c cv : Z)
| SleepAcquire (c s : Z) | SleepRelease (c s : Z)
| Return (c : Z)
| Timer (c : Z)
| Create (c : Z) (junk : threadstate_t) (nm : list Z) (p pri func : Z)
| Exit (c : Z)
| NewSpin (l intr : Z) | NewCv (cv : Z) | NewSleep (s : Z).

Definition exec (o : op) : M kern unit :=
  match o with
  | Acquire c l => spinlock_acquire c l
  | TryAcquire c l => spinlock_try_acquire c l ;; ret tt
  | Release c l => spinlock_release c l
  | Wait c cv l => condvar_wait c cv l (CvWait cv l)
  | Signal c cv => condvar_signal c cv
  | Broadcast c cv => condvar_broadcast c cv
  | SleepAcquire c s => sleeplock_acquire c s
  | SleepRelease c s => sleeplock_release c s
  | Return c => wait_return c
  | Timer c => timer_interrupt c
  | Create c junk nm p pri func => t <- thread_create c 0 junk nm p pri ;; if t =? 0 then ret tt else thread_start_context c t func
  | Exit c => thread_exit c
  | NewSpin l intr => spinlock_init l intr
  | NewCv cv => condvar_init cv
  | NewSleep s => sleeplock_init s
  end.

(** The thread on [c] is in its own code. *)
Definition at_code (s : kern) (c : Z) (x : cpu) : Prop :=
  cpus s !! c = Some x /\ exists t, threads s !! current x = Some t /\ next t = Code.
(** A lock and a condition variable that belong to no other lock. *)
Definition user_lock (s : kern) (l : Z) : Prop := l ∉ [0; sched_lock; timer_lock; tid_lock] /\ is_Some (spins s !! l) /\ sleeps s !! l = None.
Definition user_cv (s : kern) (cv : Z) : Prop := cv <> 0 /\ is_Some (condvars s !! cv) /\ sleeps s !! (cv - 16) = None.
Definition holds (s : kern) (t l : Z) : Prop := exists k, spins s !! l = Some k /\ holder k = t.

(** What the callers of these functions have to obey: a thread releases only
    locks it holds and takes none that it holds; it sleeps with no spinlock but
    the one of the condition variable, and exits with none; the idle thread
    does neither. *)
Definition allowed (s : kern) (o : op) : Prop :=
  match o with
  | Acquire c l | TryAcquire c l => exists x, at_code s c x /\ user_lock s l /\ ~ holds s (current x) l
  | Release c l => exists x, at_code s c x /\ user_lock s l /\ holds s (current x) l
  | Wait c cv l => exists x, at_code s c x /\ user_lock s l /\ user_cv s cv /\ current x <> idle_thread x /\ holds s (current x) l /\ num_disabled x = 1
  | Signal c cv | Broadcast c cv => exists x, at_code s c x /\ user_cv s cv
  | SleepAcquire c sl => exists x, at_code s c x /\ is_Some (sleeps s !! sl) /\ current x <> idle_thread x /\ num_disabled x = 0
  | SleepRelease c sl => exists x, at_code s c x /\ sleeps s !! sl = Some (current x)
  | Return c => exists x t, cpus s !! c = Some x /\ threads s !! current x = Some t /\ next t <> Code
  | Timer c => exists x, cpus s !! c = Some x /\ fl_if x = true
  | Create c _ _ p _ func => exists x, at_code s c x /\ (p <> 0 \/ func <> 0)
  | Exit c => exists x, at_code s c x /\ current x <> idle_thread x /\ num_disabled x = 0
  | NewSpin l _ => l <> 0 /\ spins s !! l = None
  | NewCv cv => cv <> 0 /\ condvars s !! cv = None /\ sleeps s !! (cv - 16) = None
  | NewSleep sl => 0 < sl /\ spins s !! sl = None /\ condvars s !! (sl + 16) = None
  end.

Definition step (s s' : kern) : Prop := exists o, allowed s o /\ exec o s = Ret tt s'.

(** ** The invariant *)

Definition cv_of (n : todo) : option Z :=
  match n with Code => None | CvWait cv _ => Some cv | SlWait s => Some (waiters s) end.

(** Where the threads are: every thread that is not a zombie runs on one
    processor, or is once in the ready queue, or is once in the queue of one
    condition variable, or is an idle thread that does not run. *)
Record place (idle cur : gmap Z Z) (th : gmap Z thread) (rq : list Z) (cvs : gmap Z (list Z)) : Prop := {
  pl_inj c d t : cur !! c = Some t -> cur !! d = Some t -> c = d;
  pl_idle_inj c d t : idle !! c = Some t -> idle !! d = Some t -> c = d;
  pl_home c d t : idle !! c = Some t -> cur !! d = Some t -> d = c;
  pl_cur c t : cur !! c = Some t -> exists x, th !! t = Some x /\ state x = RUNNING;
  pl_idle c t : idle !! c = Some t -> exists x, th !! t = Some x /\ next x = Code /\ (state x = RUNNING \/ state x = READY /\ sched_ctx x = InSched);
  pl_nodup : NoDup rq;
  pl_ready t : t ∈ rq -> exists x, th !! t = Some x /\ state x = READY /\ forall c, idle !! c <> Some t;
  pl_wait cv w : cvs !! cv = Some w -> NoDup w /\ forall t, t ∈ w -> exists x, th !! t = Some x /\ state x = SLEEPING /\ cv_of (next x) = Some cv;
  pl_all t x : th !! t = Some x ->
    match state x with
    | RUNNING => exists c, cur !! c = Some t
    | READY => t ∈ rq \/ exists c, idle !! c = Some t
    | SLEEPING => exists cv w, cv_of (next x) = Some cv /\ cvs !! cv = Some w /\ t ∈ w
    | ZOMBIE => True
    end;
}.

(** Spinlocks are held by running threads only; interrupts are off on a
    processor exactly while its thread holds some, and are counted. *)
Definition heldby (t : Z) (sp : gmap Z spinlock) : Z := Z.of_nat (size (filter (fun lk => holder lk.2 = t) sp)).
Definition cpu_ok (sp : gmap Z spinlock) (x : cpu) : Prop :=
  current x <> 0 /\ num_disabled x = heldby (current x) sp /\
  (if num_disabled x =? 0 then fl_if x = true else fl_if x = false /\ intr_enabled x = true).
Definition spin_ok (cs : gmap Z cpu) (k : spinlock) : Prop :=
  lock_status k = 0 /\ holder k = 0 \/ lock_status k = 1 /\ exists c x, cs !! c = Some x /\ current x = holder k.
Record locks (cs : gmap Z cpu) (sp : gmap Z spinlock) : Prop := {
  lo_cpu c x : cs !! c = Some x -> cpu_ok sp x;
  lo_spin l k : sp !! l = Some k -> spin_ok cs k;
}.

(** A thread that returned from a switch in [condvar_wait] has no spinlock. *)
Definition unlocked (cs : gmap Z cpu) (th : gmap Z thread) : Prop :=
  forall c x v, cs !! c = Some x -> th !! current x = Some v -> next v <> Code -> num_disabled x = 0.

(** Locks and condition variables that a thread is to use exist; the spinlocks
    of the kernel and of the sleeplocks are free between two steps; and nobody
    sleeps for a sleeplock that is free, unless some thread was woken up and
    has still to look at it. *)
Definition lock_free (sp : gmap Z spinlock) (l : Z) : Prop := exists k, sp !! l = Some k /\ lock_status k = 0.
Definition awake (th : gmap Z thread) (sl : Z) : Prop :=
  exists t x, th !! t = Some x /\ next x = SlWait sl /\ (state x = READY \/ state x = RUNNING).
Record sleepers (th : gmap Z thread) (sp : gmap Z spinlock) (cvs : gmap Z (list Z)) (sl : gmap Z Z) : Prop := {
  sp_sys l : l ∈ [sched_lock; timer_lock; tid_lock] -> lock_free sp l /\ sl !! l = None;
  sp_next t x : th !! t = Some x ->
    match next x with
    | Code => True
    | CvWait cv l => (l ∉ [0; sched_lock; timer_lock; tid_lock] /\ is_Some (sp !! l) /\ sl !! l = None) /\ (cv <> 0 /\ is_Some (cvs !! cv) /\ sl !! (cv - 16) = None)
    | SlWait s => is_Some (sl !! s)
    end;
  sp_sleep s h : sl !! s = Some h -> 0 < s /\ lock_free sp s /\
    exists w, cvs !! waiters s = Some w /\ (h = 0 -> w = [] \/ awake th s);
}.

Record memory (idle : gmap Z Z) (th : gmap Z thread) (a : A) (f : F) : Prop := {
  me_ook : ook a;
  me_fok : fok f;
  me_live t : is_Some (th !! t) -> t <> 0 /\ t ∈ olive a;
  me_stack t x : th !! t = Some x -> (forall c, idle !! c <> Some t) -> exists pa, kstack x = KMAP_P2V pa /\ 0 < fref f pa;
  me_inj t u x y : th !! t = Some x -> th !! u = Some y -> (forall c, idle !! c <> Some t) -> (forall c, idle !! c <> Some u) -> kstack x = kstack y -> t = u;
}.

Definition idles (s : kern) : gmap Z Z := idle_thread <$> cpus s.
Definition currents (s : kern) : gmap Z Z := current <$> cpus s.

Record Inv (s : kern) : Prop := {
  inv_on : synch_enabled s = true;
  inv_place : place (idles s) (currents s) (threads s) (ready_queue s) (condvars s);
  inv_locks : locks (cpus s) (spins s);
  inv_unlocked : unlocked (cpus s) (threads s);
  inv_sleepers : sleepers (threads s) (spins s) (condvars s) (sleeps s);
  inv_memory : memory (idles s) (threads s) (thread_allocator s) (pmem s);
}.

(** ** Moves of the threads *)

Section moves.
Context {idle cur : gmap Z Z} {th : gmap Z thread} {rq : list Z} {cvs : gmap Z (list Z)}.
Context (P : place idle cur th rq cvs).

Ltac split_place := destruct P as [Pinj Piinj Phome Pcur Pidle Pnd Prdy Pwait Pall]; split.

Lemma cur_not_ready c t : cur !! c = Some t -> t ∉ rq.
Proof. intros Hc (x & Hx & Hs & _)%(pl_ready _ _ _ _ _ P). destruct (pl_cur _ _ _ _ _ P c t Hc) as (y & Hy & Hr). congruence. Qed.

Lemma cur_not_waiting c t cv w : cur !! c = Some t -> cvs !! cv = Some w -> t ∉ w.
Proof.
  intros Hc Hw Hin. destruct (proj2 (pl_wait _ _ _ _ _ P cv w Hw) t Hin) as (x & Hx & Hs & _).
  destruct (pl_cur _ _ _ _ _ P c t Hc) as (y & Hy & Hr). congruence.
Qed.

(** A change of a thread that keeps its state. *)
Lemma place_same t x y : th !! t = Some x -> state y = state x ->
  (forall c, idle !! c = Some t -> next y = Code /\ sched_ctx y = sched_ctx x) -> (state x = SLEEPING -> next y = next x) ->
  place idle cur (<[t := y]> th) rq cvs.
Proof.
  intros Hx Hs Hi Hn. split_place; try done.
  - intros c u Hc. destruct (decide (u = t)) as [->|Hne]; [|rewrite lookup_insert_ne by done; eauto].
    rewrite lookup_insert_eq. exists y. split; [done|]. destruct (Pcur c t Hc) as (z & Hz & ?). congruence.
  - intros c u Hc. destruct (decide (u = t)) as [->|Hne]; [|rewrite lookup_insert_ne by done; eauto].
    rewrite lookup_insert_eq. exists y. destruct (Pidle c t Hc) as (z & Hz & ? & Ho). destruct (Hi c Hc) as [H1 H2].
    assert (z = x) as -> by congruence. split_and!; [done|done|]. rewrite Hs, H2. done.
  - intros u Hu. destruct (decide (u = t)) as [->|Hne]; [|rewrite lookup_insert_ne by done; eauto].
    rewrite lookup_insert_eq. exists y. destruct (Prdy t Hu) as (z & Hz & ? & ?). split_and!; [done|congruence|done].
  - intros cv w Hw. destruct (Pwait cv w Hw) as [H1 H2]. split; [done|]. intros u Hu.
    destruct (decide (u = t)) as [->|Hne]; [|rewrite lookup_insert_ne by done; eauto].
    rewrite lookup_insert_eq. exists y. destruct (H2 t Hu) as (z & Hz & Hsz & Hcz). assert (z = x) as -> by congruence.
    split_and!; [done|congruence|]. by rewrite Hn.
  - intros u z Hu. apply lookup_insert_Some in Hu as [[<- <-]|[Hne Hu]]; [|by apply (Pall u)].
    rewrite Hs. pose proof (Pall t x Hx) as H. destruct (state x) eqn:E; [done|done| |done]. by rewrite Hn.
Qed.

(** The thread of a processor leaves it with the new data [y], which say where
    it is queued. *)
Lemma depart c t y rq' cvs' : cur !! c = Some t ->
  (forall d, idle !! d = Some t -> next y = Code /\ state y = READY /\ sched_ctx y = InSched) ->
  NoDup rq' -> (forall u, u ∈ rq' -> u ∈ rq \/ u = t /\ state y = READY /\ forall d, idle !! d <> Some t) -> (forall u, u ∈ rq -> u ∈ rq') ->
  (forall cv w', cvs' !! cv = Some w' -> NoDup w' /\ exists w, cvs !! cv = Some w /\ forall u, u ∈ w' -> u ∈ w \/ u = t /\ state y = SLEEPING /\ cv_of (next y) = Some cv) ->
  (forall cv w, cvs !! cv = Some w -> exists w', cvs' !! cv = Some w' /\ forall u, u ∈ w -> u ∈ w') ->
  match state y with
  | RUNNING => False
  | READY => t ∈ rq' \/ exists d, idle !! d = Some t
  | SLEEPING => exists cv w', cv_of (next y) = Some cv /\ cvs' !! cv = Some w' /\ t ∈ w'
  | ZOMBIE => True
  end ->
  place idle (delete c cur) (<[t := y]> th) rq' cvs'.
Proof.
  intros Hc Hi Hnd Hq1 Hq2 Hw1 Hw2 Hy. pose proof (cur_not_ready c t Hc) as Hnr. pose proof (cur_not_waiting c t) as Hnw. split_place.
  - intros d e u [_ Hd]%lookup_delete_Some [_ He]%lookup_delete_Some. eauto.
  - done.
  - intros d e u Hd [_ He]%lookup_delete_Some. eauto.
  - intros d u [Hne Hd]%lookup_delete_Some. rewrite lookup_insert_ne; [eauto|]. intros <-. apply Hne. eauto.
  - intros d u Hd. destruct (decide (u = t)) as [->|Hne]; [|rewrite lookup_insert_ne by done; eauto].
    rewrite lookup_insert_eq. destruct (Hi d Hd) as (? & ? & ?). eauto 10.
  - done.
  - intros u [Hu|(-> & ? & ?)]%Hq1; [|rewrite lookup_insert_eq; eauto]. rewrite lookup_insert_ne by (by intros <-). eauto.
  - intros cv w' (Hn & w & Hw & Hin)%Hw1. split; [done|]. intros u [Hu|(-> & ? & ?)]%Hin; [|rewrite lookup_insert_eq; eauto].
    rewrite lookup_insert_ne; [by apply (Pwait cv w Hw)|]. intros <-. by apply (Hnw cv w).
  - intros u z [[<- <-]|[Hne Hu]]%lookup_insert_Some; [by destruct (state y)|].
    pose proof (Pall u z Hu) as H. destruct (state z) eqn:E; [|naive_solver| |done].
    + destruct H as [d Hd]. exists d. apply lookup_delete_Some. split; [|done]. intros <-. congruence.
    + destruct H as (cv & w & ? & (w' & ? & ?)%Hw2 & ?). eauto 10.
Qed.

Lemma nodup_snoc (l : list Z) t : NoDup l -> t ∉ l -> NoDup (l ++ [t]).
Proof. intros H Ht. apply NoDup_app. split_and!; [done| |apply NoDup_singleton]. intros u Hu ->%list_elem_of_singleton. done. Qed.

Lemma elem_of_snoc (l : list Z) t u : u ∈ l ++ [t] <-> u ∈ l \/ u = t.
Proof. by rewrite elem_of_app, list_elem_of_singleton. Qed.

Lemma waits_same cv w : cvs !! cv = Some w -> NoDup w /\ exists w', cvs !! cv = Some w' /\ forall u, u ∈ w -> u ∈ w' \/ False.
Proof. intros Hw. destruct (pl_wait _ _ _ _ _ P cv w Hw). eauto. Qed.

(** It goes to the ready queue, ... *)
Lemma depart_ready c t y : cur !! c = Some t -> (forall d, idle !! d <> Some t) -> state y = READY ->
  place idle (delete c cur) (<[t := y]> th) (rq ++ [t]) cvs.
Proof.
  intros Hc Hi Hy. apply depart; [done|naive_solver|apply nodup_snoc; [apply P|by eapply cur_not_ready]|..].
  - intros u [?| ->]%elem_of_snoc; auto.
  - intros u Hu. apply elem_of_snoc. auto.
  - intros cv w (? & ? & ? & ?)%waits_same. naive_solver.
  - eauto.
  - rewrite Hy. left. apply elem_of_snoc. auto.
Qed.

(** ... to its place as an idle thread, ... *)
Lemma depart_idle c t y : cur !! c = Some t -> idle !! c = Some t -> state y = READY -> next y = Code -> sched_ctx y = InSched ->
  place idle (delete c cur) (<[t := y]> th) rq cvs.
Proof.
  intros Hc Hi Hy Hn Hk. apply depart; [done|done|apply P|auto|done| |eauto|rewrite Hy; eauto].
  intros cv w (? & ? & ? & ?)%waits_same. naive_solver.
Qed.

(** ... to the queue of a condition variable, ... *)
Lemma depart_sleep c t y cv w : cur !! c = Some t -> (forall d, idle !! d <> Some t) -> cvs !! cv = Some w ->
  state y = SLEEPING -> cv_of (next y) = Some cv -> place idle (delete c cur) (<[t := y]> th) rq (<[cv := w ++ [t]]> cvs).
Proof.
  intros Hc Hi Hw Hy Hn. apply depart; [done|naive_solver|apply P|auto|done|..].
  - intros cv' w' [[<- <-]|[Hne Hw']]%lookup_insert_Some.
    + split; [apply nodup_snoc; [by apply (pl_wait _ _ _ _ _ P cv w)|by eapply cur_not_waiting]|].
      exists w. split; [done|]. intros u [?| ->]%elem_of_snoc; auto.
    + apply waits_same in Hw' as (? & ? & ? & ?). naive_solver.
  - intros cv' w' Hw'. destruct (decide (cv' = cv)) as [->|Hne]; [|rewrite lookup_insert_ne by done; eauto].
    rewrite lookup_insert_eq. assert (w' = w) as -> by congruence. eexists. split; [done|]. intros u Hu. apply elem_of_snoc. auto.
  - rewrite Hy. exists cv, (w ++ [t]). rewrite lookup_insert_eq. split_and!; [done|done|]. apply elem_of_snoc. auto.
Qed.

(** ... or away for good. *)
Lemma depart_zombie c t y : cur !! c = Some t -> (forall d, idle !! d <> Some t) -> state y = ZOMBIE ->
  place idle (delete c cur) (<[t := y]> th) rq cvs.
Proof.
  intros Hc Hi Hy. apply depart; [done|naive_solver|apply P|auto|done| |eauto|by rewrite Hy].
  intros cv w (? & ? & ? & ?)%waits_same. naive_solver.
Qed.

(** A processor that left its thread goes on with a ready one: the first of the
    queue, or its idle thread. *)
Lemma arrive c t y rq' : cur !! c = None -> (rq = t :: rq' \/ rq = rq' /\ idle !! c = Some t /\ exists x, th !! t = Some x /\ state x = READY /\ next y = next x) ->
  state y = RUNNING -> place idle (<[c := t]> cur) (<[t := y]> th) rq' cvs.
Proof.
  intros Hc Ht Hy. assert (exists x, th !! t = Some x /\ state x = READY /\ ((forall d, idle !! d <> Some t) \/ idle !! c = Some t /\ next y = next x)) as (x & Hx & Hs & Hi).
  { destruct Ht as [->|(-> & H1 & x & H2 & H3 & H4)]; [|eauto 10]. destruct (pl_ready _ _ _ _ _ P t) as (x & ? & ? & ?); [by left|]. eauto 10. }
  assert (Hq : NoDup rq' /\ t ∉ rq' /\ (forall u, u ∈ rq' -> u ∈ rq) /\ forall u, u ∈ rq -> u ≠ t -> u ∈ rq').
  { pose proof (pl_nodup _ _ _ _ _ P) as Hnd. destruct Ht as [->|(-> & H1 & _)].
    - apply NoDup_cons in Hnd as [? ?]. split_and!; [done|done|by right|]. by intros u [->|?]%elem_of_cons.
    - split_and!; [done| |done|done]. intros (z & _ & _ & Hz)%(pl_ready _ _ _ _ _ P). by apply (Hz c). }
  assert (Hnc : forall d, cur !! d <> Some t).
  { intros d Hd. destruct (pl_cur _ _ _ _ _ P d t Hd) as (z & ? & ?). congruence. }
  destruct Hq as (Hnd & Hnin & Hq1 & Hq2). split_place.
  - intros d e u [[<- <-]|[_ Hd]]%lookup_insert_Some [[<- ?]|[_ He]]%lookup_insert_Some; naive_solver.
  - done.
  - intros d e u Hd [[<- <-]|[_ He]]%lookup_insert_Some; [|eauto]. destruct Hi as [Hi|[Hi _]]; [by destruct (Hi d)|eauto].
  - intros d u [[<- <-]|[_ Hd]]%lookup_insert_Some; [rewrite lookup_insert_eq; eauto|]. rewrite lookup_insert_ne by (intros <-; by apply (Hnc d)). eauto.
  - intros d u Hd. destruct (decide (u = t)) as [->|Hne]; [|rewrite lookup_insert_ne by done; eauto].
    rewrite lookup_insert_eq. destruct (Pidle d t Hd) as (z & ? & ? & _). destruct Hi as [Hi|[_ Hi]]; [by destruct (Hi d)|].
    exists y. split_and!; [done|congruence|by left].
  - done.
  - intros u Hu. rewrite lookup_insert_ne by (by intros <-). eauto.
  - intros cv w Hw. destruct (Pwait cv w Hw) as [H1 H2]. split; [done|]. intros u Hu. destruct (H2 u Hu) as (z & Hz & ? & ?).
    rewrite lookup_insert_ne by (intros <-; congruence). eauto.
  - intros u z [[<- <-]|[Hne Hu]]%lookup_insert_Some; [rewrite Hy; exists c; by rewrite lookup_insert_eq|].
    pose proof (Pall u z Hu) as H. destruct (state z) eqn:E; [|destruct H; auto|done|done].
    destruct H as [d Hd]. exists d. rewrite lookup_insert_ne; [done|]. intros <-. congruence.
Qed.

(** The first sleeper of a condition variable becomes ready. *)
Lemma wake cv w t y x : cvs !! cv = Some (t :: w) -> th !! t = Some x -> state y = READY ->
  place idle cur (<[t := y]> th) (rq ++ [t]) (<[cv := w]> cvs).
Proof.
  intros Hw Hx Hy. destruct (pl_wait _ _ _ _ _ P cv _ Hw) as [Hnd Hin]. destruct (Hin t) as (x' & Hx' & Hs & Hcv); [by left|].
  assert (x' = x) as -> by congruence. apply NoDup_cons in Hnd as [Htw Hnd].
  assert (Hni : forall c, idle !! c <> Some t). { intros c Hc. destruct (pl_idle _ _ _ _ _ P c t Hc) as (z & Hz & Hn & _). assert (z = x) as -> by congruence. by rewrite Hn in Hcv. }
  assert (Hnr : t ∉ rq). { intros (z & ? & ? & _)%(pl_ready _ _ _ _ _ P). congruence. }
  split_place; try done.
  - intros c u Hc. destruct (Pcur c u Hc) as (z & ? & ?). rewrite lookup_insert_ne by (intros <-; congruence). eauto.
  - intros c u Hc. rewrite lookup_insert_ne by (intros <-; by apply (Hni c)). eauto.
  - by apply nodup_snoc.
  - intros u [Hu| ->]%elem_of_snoc; [|rewrite lookup_insert_eq; eauto]. rewrite lookup_insert_ne by (by intros <-). eauto.
  - intros cv' w' [[<- <-]|[Hne Hw']]%lookup_insert_Some.
    + split; [done|]. intros u Hu. rewrite lookup_insert_ne by (by intros <-). apply Hin. by right.
    + destruct (Pwait cv' w' Hw') as [? H2]. split; [done|]. intros u Hu. rewrite lookup_insert_ne; [auto|]. intros <-. destruct (H2 t Hu) as (z & ? & ? & ?). congruence.
  - intros u z [[<- <-]|[Hne Hu]]%lookup_insert_Some; [rewrite Hy; left; apply elem_of_snoc; auto|].
    pose proof (Pall u z Hu) as H. destruct (state z) eqn:E; [done| | |done].
    + destruct H as [H|H]; [left; apply elem_of_snoc; auto|auto].
    + destruct H as (cv' & w' & H1 & H2 & H3). destruct (decide (cv' = cv)) as [->|Hd]; [|exists cv', w'; by rewrite lookup_insert_ne by done].
      exists cv, w. rewrite lookup_insert_eq. split_and!; [done|done|]. assert (w' = t :: w) as -> by congruence. by apply elem_of_cons in H3 as [->|].
Qed.

(** A new thread is ready; a zombie can go. *)
Lemma place_create t y : th !! t = None -> state y = READY -> place idle cur (<[t := y]> th) (rq ++ [t]) cvs.
Proof.
  intros Ht Hy. assert (Hnr : t ∉ rq). { intros (z & ? & _)%(pl_ready _ _ _ _ _ P). congruence. }
  assert (Hex : forall u z, th !! u = Some z -> <[t := y]> th !! u = Some z) by (intros u z Hu; rewrite lookup_insert_ne; [done|intros <-; congruence]).
  split_place; try done.
  - intros c u (z & ? & ?)%Pcur. eauto.
  - intros c u (z & ? & ?)%Pidle. eauto.
  - by apply nodup_snoc.
  - intros u [(z & ? & ?)%Prdy| ->]%elem_of_snoc; [eauto|]. rewrite lookup_insert_eq. exists y. split_and!; [done|done|].
    intros c (z & ? & _)%Pidle. congruence.
  - intros cv w [? H2]%Pwait. split; [done|]. intros u (z & ? & ?)%H2. eauto.
  - intros u z [[<- <-]|[Hne Hu]]%lookup_insert_Some; [rewrite Hy; left; apply elem_of_snoc; auto|].
    pose proof (Pall u z Hu) as H. destruct (state z) eqn:E; [done| |done|done]. destruct H; [left; apply elem_of_snoc|]; auto.
Qed.

Lemma place_free t x : th !! t = Some x -> state x = ZOMBIE -> place idle cur (delete t th) rq cvs.
Proof.
  intros Ht Hz. assert (Hex : forall u z, th !! u = Some z -> state z <> ZOMBIE -> delete t th !! u = Some z).
  { intros u z Hu Hne. rewrite lookup_delete_ne; [done|]. intros <-. congruence. }
  split_place; try done.
  - intros c u (z & ? & E)%Pcur. exists z. split; [apply Hex; [done|by rewrite E]|done].
  - intros c u (z & ? & ? & E)%Pidle. exists z. split; [|done]. apply Hex; [done|]. destruct E as [->|[-> _]]; done.
  - intros u (z & ? & E & ?)%Prdy. exists z. split; [apply Hex; [done|by rewrite E]|done].
  - intros cv w [? H2]%Pwait. split; [done|]. intros u (z & ? & E & ?)%H2. exists z. split; [apply Hex; [done|by rewrite E]|done].
  - intros u z [_ Hu]%lookup_delete_Some. by apply (Pall u).
Qed.

Lemma place_newcv cv : cvs !! cv = None -> place idle cur th rq (<[cv := []]> cvs).
Proof.
  intros Hcv. split_place; try done.
  - intros cv' w [[<- <-]|[_ Hw]]%lookup_insert_Some; [|by apply Pwait]. split; [constructor|]. by intros u ?%elem_of_nil.
  - intros u z Hu. pose proof (Pall u z Hu) as H. destruct (state z) eqn:E; [done|done| |done].
    destruct H as (cv' & w & ? & ? & ?). exists cv', w. rewrite lookup_insert_ne by (intros <-; congruence). done.
Qed.

End moves.
(** ** Locks *)

Definition off (x : cpu) : cpu := mkCpu (idle_thread x) (cpu_thread x) (num_disabled x + 1) (if num_disabled x =? 0 then fl_if x else intr_enabled x) false (current x).
Definition on (x : cpu) : cpu :=
  mkCpu (idle_thread x) (cpu_thread x) (num_disabled x - 1) (intr_enabled x) ((num_disabled x - 1 =? 0) && intr_enabled x) (current x).
Definition taken (k : spinlock) (t : Z) : spinlock := mkSpin 1 (intrlock k) t.
Definition freed (k : spinlock) : spinlock := mkSpin 0 (intrlock k) 0.
Definition lock_set (c : Z) (x : cpu) (l : Z) (k : spinlock) (s : kern) : kern :=
  set_spins (<[l := k]> (spins s)) (set_cpus (<[c := x]> (cpus s)) s).

Lemma bind_load {B C} (f : kern -> gmap Z B) a b s (k : B -> M kern C) : f s !! a = Some b -> bind (load f a) k s = k b s.
Proof. intros H. unfold load. rewrite bind_assoc, bind_gets, H. done. Qed.

Lemma upd_thread_eq t x f s : threads s !! t = Some x -> upd_thread t f s = Ret tt (set_threads (<[t := f x]> (threads s)) s).
Proof. intros H. unfold upd_thread. by rewrite (bind_load _ _ x). Qed.

Lemma current_eq c x s : cpus s !! c = Some x -> thread_current c s = Ret (current x) s.
Proof. intros H. unfold thread_current. by rewrite (bind_load _ _ x). Qed.

Lemma intr_off_eq c x s : cpus s !! c = Some x -> intr_set_level c false s = Ret (fl_if x) (set_cpus (<[c := off x]> (cpus s)) s).
Proof. intros H. unfold intr_set_level. by rewrite (bind_load _ _ x). Qed.

Lemma intr_on_eq c x s : cpus s !! c = Some x -> fl_if x = false -> 0 < num_disabled x ->
  intr_set_level c true s = Ret false (set_cpus (<[c := on x]> (cpus s)) s).
Proof.
  intros H Hi Hn. unfold intr_set_level. rewrite (bind_load _ _ x) by done. rewrite bind_kassert by (by rewrite Hi). unfold on. rewrite Hi.
  rewrite (proj2 (Z.eqb_neq (num_disabled x) 0)) by lia. rewrite (proj2 (Z.ltb_lt 0 (num_disabled x))) by lia.
  by destruct ((num_disabled x - 1 =? 0) && intr_enabled x).
Qed.

(** Taking a lock that is free, finding it taken, and giving it back. *)
Lemma acquire_eq c x l k s : synch_enabled s = true -> cpus s !! c = Some x -> l <> 0 -> spins s !! l = Some k ->
  lock_status k = 0 -> holder k = 0 -> spinlock_acquire c l s = Ret tt (lock_set c (off x) l (taken k (current x)) s).
Proof.
  intros Hon Hc Hl Hk H0 H1. unfold spinlock_acquire. rewrite bind_gets, Hon. cbn [negb].
  rewrite bind_kassert by (by apply negb_true_iff, Z.eqb_neq). rewrite (bind_Ret _ _ _ _ _ (intr_off_eq c x s Hc)).
  erewrite bind_Ret by (apply (current_eq c (off x)); apply lookup_insert_eq). erewrite bind_load by (simpl; exact Hk). rewrite H0, H1. done.
Qed.

Lemma acquire_busy c x l k s : synch_enabled s = true -> cpus s !! c = Some x -> l <> 0 -> spins s !! l = Some k ->
  lock_status k <> 0 -> holder k <> current x -> exists s', spinlock_acquire c l s = Halt Block s'.
Proof.
  intros Hon Hc Hl Hk H0 H1. unfold spinlock_acquire. rewrite bind_gets, Hon. cbn [negb].
  rewrite bind_kassert by (by apply negb_true_iff, Z.eqb_neq). rewrite (bind_Ret _ _ _ _ _ (intr_off_eq c x s Hc)).
  erewrite bind_Ret by (apply (current_eq c (off x)); apply lookup_insert_eq). erewrite bind_load by (simpl; exact Hk).
  cbn [current off]. rewrite (proj2 (Z.eqb_neq (holder k) _) H1), andb_false_r, (proj2 (Z.eqb_neq (lock_status k) 0) H0). eexists. done.
Qed.

Lemma release_lock_eq c x l k s : synch_enabled s = true -> cpus s !! c = Some x -> l <> 0 -> spins s !! l = Some k ->
  fl_if x = false -> 0 < num_disabled x -> spinlock_release c l s = Ret tt (lock_set c (on x) l (freed k) s).
Proof.
  intros Hon Hc Hl Hk H0 H1. unfold spinlock_release. rewrite bind_gets, Hon. cbn [negb].
  rewrite bind_kassert by (by apply negb_true_iff, Z.eqb_neq). rewrite (bind_load _ _ k) by done.
  unfold put_spin, modify at 1. unfold bind at 1. by erewrite bind_Ret by (by apply (intr_on_eq c x)).
Qed.

Definition bit (b : bool) : Z := if b then 1 else 0.

Lemma heldby_new t sp l k : sp !! l = None -> heldby t (<[l := k]> sp) = heldby t sp + bit (bool_decide (holder k = t)).
Proof.
  intros Hl. unfold heldby. rewrite map_filter_insert. simpl. case_decide as E.
  - rewrite bool_decide_true by done. rewrite map_size_insert_None; [simpl; lia|]. apply map_lookup_filter_None. by left.
  - rewrite bool_decide_false by done. rewrite delete_id by done. simpl. lia.
Qed.

Lemma heldby_insert t sp l k k' : sp !! l = Some k ->
  heldby t (<[l := k']> sp) = heldby t sp - bit (bool_decide (holder k = t)) + bit (bool_decide (holder k' = t)).
Proof.
  intros Hk. rewrite <- (insert_delete_id sp l k Hk) at 2. rewrite <- insert_delete_eq.
  rewrite !heldby_new by apply lookup_delete_eq. lia.
Qed.

Lemma heldby_nonneg t sp : 0 <= heldby t sp.
Proof. unfold heldby. lia. Qed.

Lemma heldby_pos t sp l k : sp !! l = Some k -> holder k = t -> 0 < heldby t sp.
Proof.
  intros Hk Ht. unfold heldby. assert (Hl : filter (fun lk : Z * spinlock => holder lk.2 = t) sp !! l = Some k) by (by apply map_lookup_filter_Some).
  pose proof (map_size_ne_0_lookup_2 _ l (mk_is_Some _ _ Hl)). lia.
Qed.

Lemma heldby_zero t sp : (forall l k, sp !! l = Some k -> holder k <> t) -> heldby t sp = 0.
Proof.
  intros H. unfold heldby. replace (filter (fun lk : Z * spinlock => holder lk.2 = t) sp) with (∅ : gmap Z spinlock); [done|].
  symmetry. apply map_eq. intros l. rewrite lookup_empty. apply map_lookup_filter_None. right. intros k Hk. by apply (H l).
Qed.

(** The current threads of two processors differ. *)
Definition distinct (cs : gmap Z cpu) : Prop := forall c d x y, cs !! c = Some x -> cs !! d = Some y -> current x = current y -> c = d.

Lemma cpu_ok_other sp l k k' y t : sp !! l = Some k -> current y <> t -> (holder k = 0 \/ holder k = t) -> (holder k' = 0 \/ holder k' = t) ->
  cpu_ok sp y -> cpu_ok (<[l := k']> sp) y.
Proof.
  intros Hk Hne H1 H2 (H0 & Hn & Hf). split_and!; [done| |done]. rewrite (heldby_insert _ _ _ k) by done.
  rewrite !bool_decide_false by (destruct H1, H2; congruence). simpl. lia.
Qed.

Lemma locks_acquire cs sp c x l k : locks cs sp -> distinct cs -> cs !! c = Some x -> sp !! l = Some k -> lock_status k = 0 ->
  locks (<[c := off x]> cs) (<[l := taken k (current x)]> sp).
Proof.
  intros [L1 L2] Hd Hc Hl H0. destruct (L2 l k Hl) as [[_ Hh]|[? _]]; [|congruence]. destruct (L1 c x Hc) as (Hz & Hn & Hf).
  pose proof (heldby_nonneg (current x) sp) as Hnn. split.
  - intros d y [[<- <-]|[Hne Hy]]%lookup_insert_Some.
    + split_and!; [done| |].
      * simpl. rewrite (heldby_insert _ _ _ k) by done. rewrite bool_decide_false, bool_decide_true by (simpl; congruence). simpl. lia.
      * simpl. rewrite (proj2 (Z.eqb_neq (num_disabled x + 1) 0)) by lia. split; [done|]. by destruct (Z.eqb_spec (num_disabled x) 0); [|apply Hf].
    + apply (cpu_ok_other _ _ k _ _ (current x)); [done| |by left|by right|eauto]. intros E. by apply Hne, (Hd c d x y).
  - intros l' k' [[<- <-]|[Hne Hk]]%lookup_insert_Some.
    + right. split; [done|]. exists c, (off x). by rewrite lookup_insert_eq.
    + destruct (L2 l' k' Hk) as [?|(H1 & d & y & Hy & Hh')]; [by left|]. right. split; [done|].
      destruct (decide (d = c)) as [->|]; [exists c, (off x); rewrite lookup_insert_eq; split; [done|]; simpl; congruence|].
      exists d, y. by rewrite lookup_insert_ne by done.
Qed.

Lemma locks_release cs sp c x l k : locks cs sp -> distinct cs -> cs !! c = Some x -> sp !! l = Some k -> holder k = current x ->
  locks (<[c := on x]> cs) (<[l := freed k]> sp) /\ fl_if x = false /\ 0 < num_disabled x.
Proof.
  intros [L1 L2] Hd Hc Hl Hh. destruct (L1 c x Hc) as (Hz & Hn & Hf). pose proof (heldby_pos _ _ _ _ Hl Hh) as Hp.
  rewrite (proj2 (Z.eqb_neq (num_disabled x) 0)) in Hf by lia. destruct Hf as [Hf He]. split; [|split; [done|lia]]. split.
  - intros d y [[<- <-]|[Hne Hy]]%lookup_insert_Some.
    + split_and!; [done| |].
      * simpl. rewrite (heldby_insert _ _ _ k) by done. rewrite bool_decide_true, bool_decide_false by (simpl; congruence). simpl. lia.
      * simpl. rewrite He. by destruct (num_disabled x - 1 =? 0).
    + apply (cpu_ok_other _ _ k _ _ (current x)); [done| |by right|by left|eauto]. intros E. by apply Hne, (Hd c d x y).
  - intros l' k' [[<- <-]|[Hne Hk]]%lookup_insert_Some; [by left|].
    destruct (L2 l' k' Hk) as [?|(H1 & d & y & Hy & Hh')]; [by left|]. right. split; [done|].
    destruct (decide (d = c)) as [->|]; [exists c, (on x); rewrite lookup_insert_eq; split; [done|]; simpl; congruence|].
    exists d, y. by rewrite lookup_insert_ne by done.
Qed.

(** A change of the flags of a processor. *)
Lemma locks_flags cs sp c x y : locks cs sp -> cs !! c = Some x -> cpu_ok sp y -> current y = current x -> locks (<[c := y]> cs) sp.
Proof.
  intros [L1 L2] Hc Hok Hy. split.
  - intros d z [[<- <-]|[_ Hd]]%lookup_insert_Some; [done|eauto].
  - intros l k Hk. destruct (L2 l k Hk) as [?|(? & d & z & Hd & Hz)]; [by left|right]. split; [done|].
    destruct (decide (d = c)) as [->|]; [|exists d, z; by rewrite lookup_insert_ne]. exists c, y. rewrite lookup_insert_eq. split; [done|]. congruence.
Qed.

Lemma onoff_ok sp x : cpu_ok sp x -> cpu_ok sp (on (off x)).
Proof.
  intros (Hz & Hn & Hf). split_and!; [done|simpl; lia|]. simpl. replace (num_disabled x + 1 - 1) with (num_disabled x) by lia.
  destruct (num_disabled x =? 0); [by rewrite Hf|by destruct Hf as [_ ->]].
Qed.

(** A processor that holds no lock goes on with another thread. *)
Lemma locks_switch cs sp c x t y : locks cs sp -> cs !! c = Some x -> num_disabled x = 0 -> (forall d z, cs !! d = Some z -> current z <> t) -> t <> 0 ->
  current y = t -> num_disabled y = 0 -> fl_if y = true -> locks (<[c := y]> cs) sp.
Proof.
  intros [L1 L2] Hc Hn Ht Ht0 Hy Hy0 Hyf. destruct (L1 c x Hc) as (Hz & Hh & _). split.
  - intros d z [[<- <-]|[Hne Hd]]%lookup_insert_Some; [|eauto]. unfold cpu_ok. rewrite Hy, Hy0. split_and!; [done| |done].
    symmetry. apply heldby_zero. intros l k Hk E. destruct (L2 l k Hk) as [[_ ?]|(_ & d & z & Hd & ?)]; [congruence|]. apply (Ht d z Hd). congruence.
  - intros l k Hk. destruct (L2 l k Hk) as [?|(H1 & d & z & Hd & Hh')]; [by left|]. right. split; [done|].
    exists d, z. rewrite lookup_insert_ne; [done|]. intros <-. assert (z = x) as -> by congruence.
    pose proof (heldby_pos _ _ _ _ Hk eq_refl). rewrite Hh' in Hh. lia.
Qed.

(** ** The switch *)

(** The processor goes on with [t], whose data were [u]; the thread [curr] left
    it with the data [v]; the locks are [sp]. *)
Definition switch_state (c : Z) (x : cpu) (curr : Z) (v : thread) (t : Z) (u : thread) (q : list Z) (sp : gmap Z spinlock) (s : kern) : kern :=
  set_cpus (<[c := mkCpu (idle_thread x) t 0 true true t]> (cpus s))
    (set_threads (<[t := set_state RUNNING u]> (<[curr := set_ctx InSched v]> (threads s))) (set_ready q (set_spins sp s))).
Definition reaped (curr : Z) (v u : thread) (c : Z) : M kern unit :=
  if bool_decide (state v = ZOMBIE) && bool_decide (sched_ctx u = InSched) then thread_cleanup c curr else ret tt.

(** The thread that is chosen. *)
Definition chosen (s : kern) (x : cpu) (t : Z) (u : thread) (q : list Z) : Prop :=
  ready_queue s = t :: q /\ state u = READY \/ ready_queue s = [] /\ q = [] /\ t = idle_thread x.

Lemma pick_eq {B} s c x t u q (k : Z -> M kern B) : cpus s !! c = Some x -> threads s !! t = Some u -> t <> current x -> chosen s x t u q ->
  bind (match ready_queue s with
        | t :: q' => x <- load threads t ;; kassert (bool_decide (state x = READY)) ;; modify (set_ready q') ;; ret t
        | [] => idle <- cpu_idle_thread c ;; kassert (negb (idle =? current x)) ;; ret idle
        end) k s = k t (set_ready q s).
Proof.
  intros Hc Hu Hne [[-> Hs]|(Hq & -> & ->)].
  - apply bind_Ret. rewrite (bind_load _ _ u) by done. by rewrite bind_kassert by (by rewrite bool_decide_true).
  - rewrite Hq. replace (set_ready [] s) with s by (destruct s; simpl in *; by subst).
    apply bind_Ret. unfold cpu_idle_thread. rewrite bind_assoc, (bind_load _ _ x), bind_ret by done.
    by rewrite bind_kassert by (by apply negb_true_iff, Z.eqb_neq).
Qed.

Lemma switch_eq s c x v t u q k : synch_enabled s = true -> cpus s !! c = Some x -> num_disabled x = 1 -> fl_if x = false -> current x <> 0 ->
  threads s !! current x = Some v -> threads s !! t = Some u -> t <> current x -> chosen s x t u q -> spins s !! sched_lock = Some k ->
  bind (sched c) (switched c) s = reaped (current x) v u c (switch_state c x (current x) v t u q (<[sched_lock := freed k]> (spins s)) s).
Proof.
  intros Hon Hc Hn Hf H0 Hv Hu Hne Hch Hk. unfold sched. rewrite bind_assoc, (bind_Ret _ _ _ _ _ (current_eq c x s Hc)), bind_assoc, bind_gets.
  rewrite bind_assoc, (pick_eq s c x t u q) by done. rewrite bind_assoc, (bind_Ret _ _ _ _ _ (upd_thread_eq t u (set_state RUNNING) (set_ready q s) Hu)).
  set (s1 := set_threads _ _). unfold cpu_switch_thread. rewrite bind_assoc, (bind_load _ _ x) by done. rewrite bind_assoc, bind_kassert by (by rewrite Hf).
  rewrite bind_assoc. assert (Hv1 : threads s1 !! current x = Some v) by (simpl; by rewrite lookup_insert_ne).
  rewrite (bind_Ret _ _ _ _ _ (upd_thread_eq _ v (set_ctx InSched) s1 Hv1)). simpl. rewrite bind_assoc. unfold put_cpu. rewrite bind_modify, bind_ret.
  set (x2 := mkCpu _ _ _ _ _ _). set (s2 := set_cpus _ _). assert (Hc2 : cpus s2 !! c = Some x2) by apply lookup_insert_eq.
  assert (Hu2 : threads s2 !! t = Some (set_state RUNNING u)) by (simpl; rewrite lookup_insert_ne, lookup_insert_eq; done).
  unfold switched. rewrite (bind_Ret _ _ _ _ _ (current_eq c x2 s2 Hc2)). cbn [current x2]. rewrite (bind_load _ _ _ _ _ Hu2). cbn [sched_ctx set_state].
  assert (Hr : spinlock_release c sched_lock s2 = Ret tt (lock_set c (on x2) sched_lock (freed k) s2)) by (apply release_lock_eq; simpl; try done; by rewrite Hn).
  assert (E : lock_set c (on x2) sched_lock (freed k) s2 = switch_state c x (current x) v t u q (<[sched_lock := freed k]> (spins s)) s).
  { unfold lock_set, switch_state, on, x2. simpl. rewrite Hn, insert_insert_eq, (insert_insert_ne _ t (current x)) by done. done. }
  rewrite E in Hr. unfold reaped. destruct (sched_ctx u).
  - unfold thread_start. rewrite (bind_load _ _ _ _ _ Hc2), bind_kassert by (simpl; by rewrite Hf). rewrite Hr, andb_false_r. done.
  - rewrite bind_kassert by (by apply negb_true_iff, Z.eqb_neq). erewrite (bind_load _ (current x)) by (simpl; apply lookup_insert_eq).
    rewrite (bind_Ret _ _ _ _ _ Hr). rewrite andb_true_r. done.
Qed.

(** The queue [sched] looks at. *)
Definition queue1 (ns : threadstate_t) (x : cpu) (q : list Z) : list Z :=
  if bool_decide (ns = READY) && negb (current x =? idle_thread x) then q ++ [current x] else q.
(** The lock that [sched_sched] releases, and the locks afterwards. *)
Definition given_back (s : kern) (x : cpu) (lock : Z) (sp : gmap Z spinlock) : Prop :=
  lock = 0 /\ num_disabled x = 0 /\ sp = spins s \/
  lock <> 0 /\ lock <> sched_lock /\ num_disabled x = 1 /\ exists k, spins s !! lock = Some k /\ sp = <[lock := freed k]> (spins s).

Lemma freed_taken (sp : gmap Z spinlock) l k t : sp !! l = Some k -> lock_status k = 0 -> holder k = 0 -> freed (taken k t) = k.
Proof. intros _. destruct k; simpl. by intros -> ->. Qed.

Lemma sched_sched_eq s c x ns lock sp v t u q k : synch_enabled s = true -> cpus s !! c = Some x -> current x <> 0 -> threads s !! current x = Some v ->
  spins s !! sched_lock = Some k -> lock_status k = 0 -> holder k = 0 -> given_back s x lock sp ->
  ~ (ns = READY /\ ready_queue s = []) -> t <> current x -> threads s !! t = Some u -> chosen (set_ready (queue1 ns x (ready_queue s)) s) x t u q ->
  sched_sched c ns lock s = reaped (current x) (set_state ns v) u c (switch_state c x (current x) (set_state ns v) t u q sp s).
Proof.
  intros Hon Hc H0 Hv Hk Hk0 Hk1 Hg Hns Hne Hu Hch. unfold sched_sched. rewrite (bind_Ret _ _ _ _ _ (current_eq c x s Hc)).
  rewrite (bind_Ret _ _ _ _ _ (acquire_eq c x sched_lock k s Hon Hc ltac:(done) Hk Hk0 Hk1)). set (s1 := lock_set _ _ _ _ _). rewrite bind_gets.
  change (ready_queue s1) with (ready_queue s). replace (bool_decide (ns = READY) && bool_decide (ready_queue s = [])) with false
    by (symmetry; apply andb_false_iff; rewrite !bool_decide_eq_false; destruct (decide (ns = READY)); auto).
  assert (Hc1 : cpus s1 !! c = Some (off x)) by apply lookup_insert_eq. unfold cpu_idle_thread. rewrite bind_assoc, (bind_load _ _ _ _ _ Hc1), bind_ret.
  cbn [idle_thread off]. set (q1 := queue1 ns x (ready_queue s)) in *. set (s2 := set_ready q1 s1).
  erewrite (bind_Ret _ _ s1 tt s2). 2:{ unfold s2, q1, queue1. destruct (_ && _); [done|]. by destruct s. }
  set (y := mkCpu (idle_thread x) (cpu_thread x) 1 (intr_enabled (off x)) false (current x)).
  assert (Hg' : (if negb (lock =? 0) then spinlock_release c lock else ret tt) s2 =
    Ret tt (set_spins (<[sched_lock := taken k (current x)]> sp) (set_cpus (<[c := y]> (cpus s)) (set_ready q1 s)))).
  { destruct Hg as [(-> & Hn & ->)|(Hl & Hl' & Hn & kl & Hkl & ->)].
    - unfold s2, s1, lock_set, y, off. simpl. rewrite Hn. done.
    - rewrite (proj2 (Z.eqb_neq lock 0) Hl). cbn [negb]. rewrite (release_lock_eq c (off x) lock kl); try done; simpl; [|by rewrite lookup_insert_ne|lia].
      unfold lock_set, s2, s1, y, on, off. simpl. rewrite Hn. simpl. rewrite insert_insert_eq, insert_insert_ne by done. done. }
  rewrite (bind_Ret _ _ _ _ _ Hg'). set (s3 := set_spins _ _). rewrite (bind_Ret _ _ _ _ _ (upd_thread_eq _ v (set_state ns) s3 Hv)).
  set (s4 := set_threads _ _). etransitivity; [apply (switch_eq s4 c y (set_state ns v) t u q (taken k (current x))); simpl; try done|].
  - apply lookup_insert_eq.
  - apply lookup_insert_eq.
  - by rewrite lookup_insert_ne.
  - apply lookup_insert_eq.
  - f_equal. unfold switch_state, s4, s3. simpl. rewrite !insert_insert_eq. rewrite (freed_taken _ _ _ _ Hk) by done.
    assert (Hid : <[sched_lock := k]> sp = sp); [|by rewrite Hid].
    apply insert_id. destruct Hg as [(_ & _ & ->)|(_ & ? & _ & kl & _ & ->)]; [done|by rewrite lookup_insert_ne].
Qed.

(** ** Memory of the threads *)

Lemma v2p_p2v f a : fok f -> 0 < fref f a -> KMAP_V2P (KMAP_P2V a) = a.
Proof.
  intros Hf Ha. destruct (p2v_bounds f a Hf Ha) as (-> & Hb & _). unfold KMAP_V2P. rewrite wrap_small by lia. lia.
Qed.

Lemma memory_upd idle th a f t x y : memory idle th a f -> th !! t = Some x -> kstack y = kstack x -> memory idle (<[t := y]> th) a f.
Proof.
  intros [M1 M2 M3 M4 M5] Hx Hy. assert (Hl : forall u z, <[t := y]> th !! u = Some z -> exists z', th !! u = Some z' /\ kstack z = kstack z').
  { intros u z [[<- <-]|[_ Hu]]%lookup_insert_Some; eauto. }
  split; try done.
  - intros u [z (z' & Hz & _)%Hl]. eauto.
  - intros u z (z' & Hz & ->)%Hl. eauto.
  - intros u w z z' (z1 & Hz1 & ->)%Hl (z2 & Hz2 & ->)%Hl. eauto.
Qed.

(** A thread that is not current is freed with its stack. *)
Lemma cleanup_eq s c x t y : cpus s !! c = Some x -> current x <> t -> threads s !! t = Some y -> (forall d, idles s !! d <> Some t) ->
  memory (idles s) (threads s) (thread_allocator s) (pmem s) ->
  exists f, thread_cleanup c t s = Ret tt (set_alloc (ofree t (thread_allocator s)) (set_threads (delete t (threads s)) (set_pmem f s))) /\
    memory (idles s) (delete t (threads s)) (ofree t (thread_allocator s)) f.
Proof.
  intros Hc Hne Ht Hi [M1 M2 M3 M4 M5]. destruct (M4 t y Ht Hi) as (pa & Hk & Hp). destruct (M3 t (mk_is_Some _ _ Ht)) as [_ Hl].
  destruct (ffree_spec _ pa M2 Hp) as (f & Hf & Hf2 & Hf0 & Hfo). exists f. split.
  - unfold thread_cleanup. rewrite (bind_Ret _ _ _ _ _ (current_eq c x s Hc)), bind_kassert by (by apply negb_true_iff, Z.eqb_neq).
    rewrite (bind_load _ _ y) by done. rewrite Hk, (v2p_p2v (pmem s)) by done. unfold zoom, bind. by rewrite Hf.
  - destruct (ofree_live _ t M1 Hl) as [Hok Hlive]. split; [done|done|..].
    + intros u [z [Hne' Hu]%lookup_delete_Some]. destruct (M3 u (mk_is_Some _ _ Hu)) as [? ?]. split; [done|]. rewrite Hlive.
      apply elem_of_difference. split; [done|]. by rewrite elem_of_singleton.
    + intros u z [Hne' Hu]%lookup_delete_Some Hiu. destruct (M4 u z Hu Hiu) as (pb & Hkb & Hpb). exists pb. split; [done|].
      rewrite Hfo; [done|]. intros ->. apply Hne'. apply (M5 t u y z); congruence.
    + intros u w z z' [_ Hu]%lookup_delete_Some [_ Hw]%lookup_delete_Some. eauto.
Qed.

(** ** Sleepers *)

Definition next_ok (sp : gmap Z spinlock) (cvs : gmap Z (list Z)) (sl : gmap Z Z) (n : todo) : Prop :=
  match n with
  | Code => True
  | CvWait cv l => (l ∉ [0; sched_lock; timer_lock; tid_lock] /\ is_Some (sp !! l) /\ sl !! l = None) /\ (cv <> 0 /\ is_Some (cvs !! cv) /\ sl !! (cv - 16) = None)
  | SlWait s => is_Some (sl !! s)
  end.
Definition awake_state (st : threadstate_t) : Prop := st = READY \/ st = RUNNING.

Lemma awake_upd th t x y sl : th !! t = Some x -> (next x = SlWait sl -> awake_state (state x) -> next y = SlWait sl /\ awake_state (state y)) ->
  awake th sl -> awake (<[t := y]> th) sl.
Proof.
  intros Hx Hk (u & z & Hu & Hn & Hs). destruct (decide (u = t)) as [->|Hne]; [|exists u, z; by rewrite lookup_insert_ne].
  assert (z = x) as -> by congruence. destruct (Hk Hn Hs). exists t, y. by rewrite lookup_insert_eq.
Qed.

Lemma sleepers_thread th sp cvs sl t x y : sleepers th sp cvs sl -> th !! t = Some x -> next_ok sp cvs sl (next y) ->
  (forall s, next x = SlWait s -> awake_state (state x) -> next y = SlWait s /\ awake_state (state y) \/ sl !! s <> Some 0) ->
  sleepers (<[t := y]> th) sp cvs sl.
Proof.
  intros [S1 S2 S3] Hx Hy Hk. split; [done| |].
  - intros u z [[<- <-]|[_ Hu]]%lookup_insert_Some; [done|by apply (S2 u)].
  - intros s h Hs. destruct (S3 s h Hs) as (H0 & Hf & w & Hw & Ha). split_and!; [done|done|]. exists w. split; [done|]. intros ->.
    destruct (Ha eq_refl) as [?|Haw]; [by left|right]. apply (awake_upd _ _ x); [done| |done]. intros H1 H2. by destruct (Hk s H1 H2).
Qed.

Lemma sleepers_cv th sp cvs sl cv w : sleepers th sp cvs sl -> (forall s, waiters s = cv -> sl !! s = Some 0 -> w = [] \/ awake th s) ->
  sleepers th sp (<[cv := w]> cvs) sl.
Proof.
  intros [S1 S2 S3] Hw. assert (Hs : forall v, is_Some (cvs !! v) -> is_Some (<[cv := w]> cvs !! v)) by (intros v Hv; apply lookup_insert_is_Some'; by right).
  split; [done| |].
  - intros u z Hu. specialize (S2 u z Hu). destruct (next z); [done| |done]. destruct S2 as [H1 (H2 & H3 & H4)]. split; [done|]. auto.
  - intros s h Hsl. destruct (S3 s h Hsl) as (H0 & Hf & w' & Hw' & Ha). split_and!; [done|done|].
    destruct (decide (waiters s = cv)) as [E|Hne]; [|exists w'; by rewrite lookup_insert_ne].
    exists w. rewrite <- E, lookup_insert_eq. split; [done|]. intros ->. by apply Hw.
Qed.

Lemma sleepers_spin th sp cvs sl l k : sleepers th sp cvs sl -> (lock_status k = 0 \/ l ∉ [sched_lock; timer_lock; tid_lock] /\ sl !! l = None) ->
  sleepers th (<[l := k]> sp) cvs sl.
Proof.
  intros [S1 S2 S3] Hk.
  assert (Hf : forall l', lock_free sp l' -> (l' ∈ [sched_lock; timer_lock; tid_lock] \/ is_Some (sl !! l')) -> lock_free (<[l := k]> sp) l').
  { intros l' (k' & Hk' & H0) Hl. unfold lock_free. destruct (decide (l' = l)) as [->|Hne]; [|exists k'; by rewrite lookup_insert_ne].
    exists k. rewrite lookup_insert_eq. split; [done|]. destruct Hk as [?|[H1 H2]]; [done|]. destruct Hl as [?|[? ?]]; [done|congruence]. }
  split.
  - intros l' Hl. destruct (S1 l' Hl). split; [apply Hf; auto|done].
  - intros u z Hu. specialize (S2 u z Hu). destruct (next z); [done| |done]. destruct S2 as [(H1 & H2 & H3) H4]. split; [|done].
    split_and!; [done|apply lookup_insert_is_Some'; by right|done].
  - intros s h Hs. destruct (S3 s h Hs) as (H0 & Hf' & Hw). split_and!; [done| |done]. apply Hf; eauto.
Qed.

(** ** A switch keeps the invariant *)

Lemma idles_same s c x y : cpus s !! c = Some x -> idle_thread y = idle_thread x -> idle_thread <$> <[c := y]> (cpus s) = idles s.
Proof. intros Hc Hy. rewrite fmap_insert, insert_id; [done|]. rewrite lookup_fmap, Hc. simpl. by rewrite Hy. Qed.

Lemma currents_same s c x y : cpus s !! c = Some x -> current y = current x -> current <$> <[c := y]> (cpus s) = currents s.
Proof. intros Hc Hy. rewrite fmap_insert, insert_id; [done|]. rewrite lookup_fmap, Hc. simpl. by rewrite Hy. Qed.

Lemma lookup_idles s c x : cpus s !! c = Some x -> idles s !! c = Some (idle_thread x).
Proof. intros Hc. unfold idles. by rewrite lookup_fmap, Hc. Qed.

Lemma lookup_currents s c x : cpus s !! c = Some x -> currents s !! c = Some (current x).
Proof. intros Hc. unfold currents. by rewrite lookup_fmap, Hc. Qed.

Lemma place_distinct s th rq cvs : place (idles s) (currents s) th rq cvs -> distinct (cpus s).
Proof. intros P c d x y Hx Hy E. apply (pl_inj _ _ _ _ _ P c d (current x)); rewrite (lookup_currents _ _ _) by done; congruence. Qed.

(** Everything that holds when the thread [current x], with the data [v], has
    left the processor and given its lock back. *)
Record departed (s : kern) (c : Z) (x : cpu) (v : thread) (q : list Z) (sp : gmap Z spinlock) : Prop := {
  de_on : synch_enabled s = true;
  de_cpu : cpus s !! c = Some x;
  de_thread : exists v0, threads s !! current x = Some v0 /\ kstack v = kstack v0;
  de_place : place (idles s) (delete c (currents s)) (<[current x := v]> (threads s)) q (condvars s);
  de_distinct : distinct (cpus s);
  de_locks : exists y, num_disabled y = 0 /\ current y = current x /\ locks (<[c := y]> (cpus s)) sp;
  de_unlocked d y w : d <> c -> cpus s !! d = Some y -> threads s !! current y = Some w -> next w <> Code -> num_disabled y = 0;
  de_sleepers : sleepers (<[current x := v]> (threads s)) sp (condvars s) (sleeps s);
  de_memory : memory (idles s) (threads s) (thread_allocator s) (pmem s);
}.

Lemma departed_chosen s c x v q sp : departed s c x v q sp -> (q = [] -> current x <> idle_thread x) -> (forall q', q <> current x :: q') ->
  exists t u q', t <> current x /\ threads s !! t = Some u /\ state u = READY /\ (q = t :: q' \/ q = [] /\ q' = [] /\ t = idle_thread x).
Proof.
  intros D Hi Hq. pose proof (de_place _ _ _ _ _ _ D) as P. destruct q as [|t q'].
  - specialize (Hi eq_refl). pose proof (lookup_idles _ _ _ (de_cpu _ _ _ _ _ _ D)) as Hid.
    destruct (pl_idle _ _ _ _ _ P c _ Hid) as (u & Hu & Hn & Hs). rewrite lookup_insert_ne in Hu by done.
    exists (idle_thread x), u, []. split_and!; [done|done| |by right]. destruct Hs as [Hr|[? _]]; [|done].
    pose proof (pl_all _ _ _ _ _ P (idle_thread x) u) as Hall. rewrite lookup_insert_ne, Hr in Hall by done. destruct (Hall Hu) as [d Hd].
    pose proof (pl_home _ _ _ _ _ P c d _ Hid Hd) as ->. by rewrite lookup_delete_eq in Hd.
  - destruct (pl_ready _ _ _ _ _ P t) as (u & Hu & Hs & _); [by left|]. assert (t <> current x) by (intros ->; by apply (Hq q')).
    rewrite lookup_insert_ne in Hu by done. exists t, u, q'. auto.
Qed.

Lemma switch_inv s c x v q sp t u q' : departed s c x (set_ctx InSched v) q sp -> t <> current x -> threads s !! t = Some u -> state u = READY ->
  (q = t :: q' \/ q = [] /\ q' = [] /\ t = idle_thread x) -> Inv (switch_state c x (current x) v t u q' sp s).
Proof.
  intros [Don Dc (v0 & Hv0 & Hst) Dpl Ddi (y & Hy0 & Hyc & Dlo) Dun Dsl Dme] Hne Hu Hs Hq. unfold switch_state.
  assert (Hu' : <[current x := set_ctx InSched v]> (threads s) !! t = Some u) by (by rewrite lookup_insert_ne).
  assert (Ht0 : t <> 0) by (by apply (me_live _ _ _ _ Dme); exists u).
  split; simpl; [done|..].
  - unfold idles at 1, currents at 1. simpl. rewrite (idles_same s c x) by done. rewrite fmap_insert, <- insert_delete_eq. simpl.
    apply (arrive Dpl); [apply lookup_delete_eq| |done]. destruct Hq as [->|(-> & -> & ->)]; [by left|right].
    split_and!; [done|by apply lookup_idles|]. exists u. auto.
  - rewrite <- (insert_insert_eq (cpus s) c _ y). apply (locks_switch _ _ c y t); try done; [apply lookup_insert_eq|].
    intros d z [[<- <-]|[Hdc Hd]]%lookup_insert_Some; [congruence|]. intros E. pose proof (pl_cur _ _ _ _ _ Dpl d t) as Hcur.
    rewrite lookup_delete_ne, (lookup_currents _ _ _ Hd), E in Hcur by done. destruct (Hcur eq_refl) as (w & Hw & Hr). congruence.
  - intros d z w [[<- <-]|[Hdc Hd]]%lookup_insert_Some; [done|].
    assert (Hcd : current z <> current x) by (intros E; by apply Hdc, (Ddi c d x z)).
    assert (Hct : current z <> t). { intros E. destruct (pl_cur _ _ _ _ _ Dpl d t) as (w' & Hw' & Hr'); [rewrite lookup_delete_ne, (lookup_currents _ _ _ Hd) by done; congruence|]. congruence. }
    rewrite !lookup_insert_ne by done. by apply (Dun d).
  - apply (sleepers_thread _ _ _ _ t u); [done|done| |].
    + apply (sp_next _ _ _ _ Dsl t u Hu').
    + intros s0 H1 _. left. split; [done|by right].
  - unfold idles at 1. simpl. rewrite (idles_same s c x) by done. apply (memory_upd _ _ _ _ t u); [|done|done].
    by apply (memory_upd _ _ _ _ (current x) v0).
Qed.

Lemma reaped_inv s c x v t u q sp : Inv (switch_state c x (current x) v t u q sp s) -> t <> current x -> (forall d, idles s !! d <> Some (current x)) \/ state v <> ZOMBIE ->
  cpus s !! c = Some x -> exists s', reaped (current x) v u c (switch_state c x (current x) v t u q sp s) = Ret tt s' /\ Inv s' /\
    cpus s' = <[c := mkCpu (idle_thread x) t 0 true true t]> (cpus s) /\ ready_queue s' = q.
Proof.
  intros HI Hne Hi Hc. unfold reaped. set (s1 := switch_state _ _ _ _ _ _ _ _ _) in *. destruct (bool_decide (state v = ZOMBIE)) eqn:Ez; [|by eauto].
  destruct (bool_decide (sched_ctx u = InSched)); [|by eauto]. cbn [andb]. apply bool_decide_eq_true in Ez. destruct Hi as [Hi|?]; [|done].
  pose proof HI as [I1 I2 I3 I6 I4 I5].
  assert (Hid : idles s1 = idles s) by (unfold idles; simpl; by apply (idles_same s c x)).
  assert (Hth : threads s1 !! current x = Some (set_ctx InSched v)) by (simpl; rewrite lookup_insert_ne, lookup_insert_eq; done).
  destruct (cleanup_eq s1 c (mkCpu (idle_thread x) t 0 true true t) (current x) _ (lookup_insert_eq _ _ _) Hne Hth) as (f & Hf & Hme); [by rewrite Hid|done|].
  eexists. split; [exact Hf|]. split; [|done]. split; [done| |done| | |done].
  - by apply (place_free I2 (current x) _ Hth).
  - intros d z w Hd Hw. simpl in Hw. apply lookup_delete_Some in Hw as [_ Hw]. by apply (I6 d).
  - destruct I4 as [S1 S2 S3]. split; [done| |].
    + intros w z Hw. simpl in Hw. apply lookup_delete_Some in Hw as [_ Hw]. by apply (S2 w).
    + intros sl h Hsl. destruct (S3 sl h Hsl) as (? & ? & w & Hw & Ha). split_and!; [done|done|]. exists w. split; [done|]. intros ->.
      destruct (Ha eq_refl) as [?|(w' & z & Hz & Hn & Hs)]; [by left|right]. exists w', z. split; [|done].
      simpl. rewrite lookup_delete_ne; [done|]. intros <-. assert (z = set_ctx InSched v) as -> by congruence. simpl in Hs. destruct Hs; congruence.
Qed.

(** What a switch leaves: processor [c] runs a thread it took from the front of
    the queue [q], or its idle thread when the queue was empty. *)
Definition switched_to (s : kern) (c : Z) (x : cpu) (q : list Z) (s' : kern) : Prop :=
  exists t, cpus s' = <[c := mkCpu (idle_thread x) t 0 true true t]> (cpus s) /\ (q = t :: ready_queue s' \/ q = [] /\ ready_queue s' = [] /\ t = idle_thread x).

Lemma sched_sched_ok s c x ns v lock sp : departed s c x (set_ctx InSched (set_state ns v)) (queue1 ns x (ready_queue s)) sp ->
  threads s !! current x = Some v -> given_back s x lock sp -> current x ∉ ready_queue s ->
  (ns = READY /\ ready_queue s <> [] \/ ns <> READY /\ forall d, idles s !! d <> Some (current x)) ->
  exists s', sched_sched c ns lock s = Ret tt s' /\ Inv s' /\ switched_to s c x (queue1 ns x (ready_queue s)) s'.
Proof.
  intros D Hv Hg Hnin Hns. pose proof (de_cpu _ _ _ _ _ _ D) as Hc.
  destruct (departed_chosen _ _ _ _ _ _ D) as (t & u & q' & Hne & Hu & Hs & Hq).
  { intros Hq. destruct Hns as [[-> Hr]|[Hns Hi]]; [unfold queue1 in Hq; rewrite bool_decide_true in Hq by done|].
    - destruct (negb _); simpl in Hq; [by destruct (ready_queue s)|done].
    - intros E. apply (Hi c). rewrite (lookup_idles _ _ _ Hc). congruence. }
  { intros q' Hq. assert (Hin : current x ∈ queue1 ns x (ready_queue s)) by (rewrite Hq; by left). unfold queue1 in *.
    destruct (bool_decide (ns = READY) && negb (current x =? idle_thread x)) eqn:E; [|done].
    destruct (ready_queue s) as [|z r]; [|injection Hq as -> _; by destruct Hnin; left].
    apply andb_true_iff in E as [E _]. apply bool_decide_eq_true in E. destruct Hns as [[_ ?]|[? _]]; done. }
  pose proof (switch_inv _ _ _ _ _ _ _ _ _ D Hne Hu Hs Hq) as HI.
  destruct (sp_sys _ _ _ _ (de_sleepers _ _ _ _ _ _ D) sched_lock) as [(k & Hk & Hk0) _]; [by left|].
  assert (Hk' : spins s !! sched_lock = Some k). { destruct Hg as [(_ & _ & ->)|(_ & ? & _ & kl & _ & ->)]; [done|by rewrite lookup_insert_ne in Hk]. }
  assert (Hk1 : holder k = 0). { destruct (de_locks _ _ _ _ _ _ D) as (y & _ & _ & L). destruct (lo_spin _ _ L _ _ Hk) as [[_ ?]|[? _]]; [done|congruence]. }
  assert (H0 : current x <> 0) by (by apply (me_live _ _ _ _ (de_memory _ _ _ _ _ _ D)); exists v).
  destruct (reaped_inv s c x (set_state ns v) t u q' sp HI Hne) as (s' & Hr & HI' & Hf1 & Hf2); [|done|].
  { destruct Hns as [[-> _]|[_ ?]]; [by right|by left]. }
  exists s'. split_and!; [|done|].
  - rewrite <- Hr. apply (sched_sched_eq s c x ns lock sp v t u q' k); try done; [apply D|naive_solver|]. destruct Hq as [->|(-> & -> & ->)]; [left|right]; done.
  - exists t. split; [done|]. rewrite Hf2. naive_solver.
Qed.

(** ** Changes of locks and flags only *)

Lemma Inv_locks s cs sp : Inv s -> idle_thread <$> cs = idles s -> current <$> cs = currents s -> locks cs sp ->
  unlocked cs (threads s) -> sleepers (threads s) sp (condvars s) (sleeps s) -> Inv (set_spins sp (set_cpus cs s)).
Proof. intros [I1 I2 I3 I6 I4 I5] Hi Hc Hl Hu Hs. split; try done; unfold idles, currents; simpl; by rewrite ?Hi, ?Hc. Qed.

Lemma unlocked_cpu cs th c x y : unlocked cs th -> cs !! c = Some x -> current y = current x ->
  (num_disabled y <= num_disabled x /\ 0 <= num_disabled y \/ exists v, th !! current x = Some v /\ next v = Code) -> unlocked (<[c := y]> cs) th.
Proof.
  intros U Hc Hy Hn d z v [[<- <-]|[_ Hd]]%lookup_insert_Some Hv Hc'; [|by eapply U]. rewrite Hy in Hv.
  destruct Hn as [Hn|(w & Hw & Hwc)]; [|congruence]. pose proof (U c x v Hc Hv Hc'). lia.
Qed.

Lemma Inv_lock_set s c x y l k : Inv s -> cpus s !! c = Some x -> idle_thread y = idle_thread x -> current y = current x ->
  (num_disabled y <= num_disabled x /\ 0 <= num_disabled y \/ exists v, threads s !! current x = Some v /\ next v = Code) ->
  locks (<[c := y]> (cpus s)) (<[l := k]> (spins s)) -> (lock_status k = 0 \/ l ∉ [sched_lock; timer_lock; tid_lock] /\ sleeps s !! l = None) -> Inv (lock_set c y l k s).
Proof.
  intros HI Hc Hi Hy Hn Hl Hk. apply Inv_locks; [done|by apply (idles_same s c x)|by apply (currents_same s c x)|done| |].
  { apply (unlocked_cpu _ _ c x); try done. apply HI. }
  apply sleepers_spin; [apply HI|done].
Qed.

Lemma Inv_distinct s : Inv s -> distinct (cpus s).
Proof. intros HI. by eapply place_distinct, inv_place. Qed.

Lemma user_lock_sys s l : user_lock s l -> l <> 0 /\ l ∉ [sched_lock; timer_lock; tid_lock] /\ sleeps s !! l = None.
Proof. intros (H1 & _ & H2). apply not_elem_of_cons in H1 as [? ?]. done. Qed.

Lemma spin_acquire_ok s c x l : Inv s -> at_code s c x -> user_lock s l -> ~ holds s (current x) l ->
  (exists s', spinlock_acquire c l s = Ret tt s' /\ Inv s' /\ threads s' = threads s /\ cpus s' = <[c := off x]> (cpus s) /\ ready_queue s' = ready_queue s) \/
  (exists s' k d y, spinlock_acquire c l s = Halt Block s' /\ spins s !! l = Some k /\ d <> c /\ cpus s !! d = Some y /\ holder k = current y).
Proof.
  intros HI [Hc Hcode] Hl Hh. pose proof (inv_locks _ HI) as L. destruct (user_lock_sys _ _ Hl) as (Hl0 & Hl1 & Hl2). destruct Hl as (_ & [k Hk] & _).
  destruct (lo_spin _ _ L l k Hk) as [[H0 H1]|(H1 & d & y & Hd & Hy)]; [left|right].
  - eexists. split; [by apply (acquire_eq c x l k); try done; apply HI|]. split; [|done].
    apply (Inv_lock_set s c x); [done|done|done|done|by right| |by right]. apply locks_acquire; try done. by apply Inv_distinct.
  - assert (current y <> current x) by (intros E; apply Hh; exists k; split; congruence).
    destruct (acquire_busy c x l k s) as (s' & Hs'); [apply HI|done|done|done|lia|congruence|].
    exists s', k, d, y. split_and!; try done. intros ->. congruence.
Qed.

Lemma try_acquire_ok s c x l : Inv s -> at_code s c x -> user_lock s l -> ~ holds s (current x) l ->
  exists e s', spinlock_try_acquire c l s = Ret e s' /\ Inv s' /\ ready_queue s' = ready_queue s.
Proof.
  intros HI [Hc Hcode] Hl Hh. pose proof (inv_locks _ HI) as L. destruct (user_lock_sys _ _ Hl) as (Hl0 & Hl1 & Hl2). destruct Hl as (_ & [k Hk] & _).
  unfold spinlock_try_acquire. rewrite bind_gets, (inv_on _ HI). cbn [negb].
  rewrite bind_kassert by (by apply negb_true_iff, Z.eqb_neq). rewrite (bind_Ret _ _ _ _ _ (intr_off_eq c x s Hc)).
  assert (Hc1 : <[c := off x]> (cpus s) !! c = Some (off x)) by apply lookup_insert_eq.
  erewrite bind_Ret by (by apply (current_eq c (off x))). erewrite bind_load by (simpl; exact Hk). cbn [current off].
  assert (Hne : holder k <> current x) by (intros E; apply Hh; by exists k).
  rewrite bind_kassert by (rewrite (proj2 (Z.eqb_neq (holder k) _) Hne); by destruct (_ =? 0)).
  destruct (Z.eqb_spec (lock_status k) 0) as [H0|H0].
  - do 2 eexists. split; [done|]. split; [|done]. apply (Inv_lock_set s c x (off x) l (taken k (current x))); [done|done|done|done|by right| |by right].
    apply locks_acquire; try done. by apply Inv_distinct.
  - destruct (lo_cpu _ _ L c x Hc) as (Hz & Hn & Hf). pose proof (heldby_nonneg (current x) (spins s)).
    erewrite bind_Ret by (apply (intr_on_eq c (off x)); [done|done|simpl; lia]).
    do 2 eexists. split; [done|]. split; [|done].
    replace (set_cpus _ _) with (set_spins (spins s) (set_cpus (<[c := on (off x)]> (cpus s)) s)) by (destruct s; simpl; by rewrite insert_insert_eq).
    apply Inv_locks; [done|by apply (idles_same s c x)|by apply (currents_same s c x)| |apply (unlocked_cpu _ _ c x); [apply HI|done|done|by right]|apply HI].
    by apply (locks_flags _ _ c x); [..|apply onoff_ok, (lo_cpu _ _ L c)|].
Qed.

Lemma release_lock_ok s c x l : Inv s -> cpus s !! c = Some x -> user_lock s l -> holds s (current x) l ->
  exists s', spinlock_release c l s = Ret tt s' /\ Inv s' /\ ready_queue s' = ready_queue s.
Proof.
  intros HI Hc Hl (k & Hk & Hh). destruct (locks_release _ _ c x l k (inv_locks _ HI) (Inv_distinct _ HI) Hc Hk Hh) as (L & Hf & Hn).
  destruct (user_lock_sys _ _ Hl) as (Hl0 & _). eexists. split; [by apply (release_lock_eq c x l k); try done; apply HI|]. split; [|done].
  apply (Inv_lock_set s c x); try done; left; simpl; [lia|done].
Qed.

(** ** Waking up *)

Definition ready_state (c : Z) (x : cpu) (t : Z) (y : thread) (s : kern) : kern :=
  set_cpus (<[c := on (off x)]> (cpus s)) (set_threads (<[t := set_state READY y]> (threads s)) (set_ready (ready_queue s ++ [t]) s)).

(** A lock that is free is taken and given back in a step. *)
Lemma taken_freed_id (sp : gmap Z spinlock) l k t : sp !! l = Some k -> lock_status k = 0 -> holder k = 0 -> <[l := freed (taken k t)]> sp = sp.
Proof. intros Hk H0 H1. rewrite (freed_taken sp l) by done. by apply insert_id. Qed.

Definition idle_lock (s : kern) (l : Z) : Prop := exists k, spins s !! l = Some k /\ lock_status k = 0 /\ holder k = 0.

Lemma sched_ready_eq s c x t y : synch_enabled s = true -> cpus s !! c = Some x -> 0 <= num_disabled x -> idle_lock s sched_lock -> t <> 0 ->
  threads s !! t = Some y -> sched_ready c t s = Ret tt (ready_state c x t y s).
Proof.
  intros Hon Hc Hn (k & Hk & H0 & H1) Ht Hy. unfold sched_ready. rewrite bind_kassert by (by apply negb_true_iff, Z.eqb_neq).
  rewrite (bind_Ret _ _ _ _ _ (acquire_eq c x sched_lock k s Hon Hc ltac:(done) Hk H0 H1)). erewrite bind_Ret by (by apply (upd_thread_eq t y)).
  rewrite bind_modify. rewrite (release_lock_eq c (off x) sched_lock (taken k (current x))); simpl; try done; try apply lookup_insert_eq; [|lia].
  unfold lock_set, ready_state. simpl. rewrite !insert_insert_eq, (taken_freed_id _ _ _ _ Hk) by done. destruct s; done.
Qed.

Lemma Inv_sys_lock s l : Inv s -> l ∈ [sched_lock; timer_lock; tid_lock] -> idle_lock s l.
Proof.
  intros HI Hl. destruct (sp_sys _ _ _ _ (inv_sleepers _ HI) l Hl) as [(k & Hk & H0) _]. exists k. split_and!; try done.
  destruct (lo_spin _ _ (inv_locks _ HI) l k Hk) as [[_ ?]|[? _]]; [done|congruence].
Qed.

Lemma cpu_ok_nonneg sp x : cpu_ok sp x -> 0 <= num_disabled x.
Proof. intros (_ & -> & _). apply heldby_nonneg. Qed.

Lemma signal_eq s c x cv w : synch_enabled s = true -> cpus s !! c = Some x -> 0 <= num_disabled x -> idle_lock s sched_lock -> cv <> 0 ->
  condvars s !! cv = Some w -> (forall t w', w = t :: w' -> t <> 0 /\ is_Some (threads s !! t)) ->
  (w = [] /\ condvar_signal c cv s = Ret tt s) \/
  (exists t w' y, w = t :: w' /\ threads s !! t = Some y /\ condvar_signal c cv s = Ret tt (ready_state c x t y (set_condvars (<[cv := w']> (condvars s)) s))).
Proof.
  intros Hon Hc Hn Hk Hcv Hw Ht. unfold condvar_signal. rewrite bind_gets, Hon. cbn [negb]. rewrite bind_kassert by (by apply negb_true_iff, Z.eqb_neq).
  rewrite (bind_load _ _ _ _ _ Hw). destruct w as [|t w']; [by left|right]. destruct (Ht t w' eq_refl) as [Ht0 [y Hy]]. exists t, w', y. split_and!; try done.
  unfold put_cv. rewrite bind_modify. by apply sched_ready_eq.
Qed.

(** The queue only grows at its end. *)
Definition grows (s s' : kern) : Prop := exists l, ready_queue s' = ready_queue s ++ l.

Lemma waiting_thread s cv w t w' : Inv s -> condvars s !! cv = Some w -> w = t :: w' ->
  t <> 0 /\ exists y, threads s !! t = Some y /\ state y = SLEEPING /\ cv_of (next y) = Some cv.
Proof.
  intros HI Hw ->. destruct (proj2 (pl_wait _ _ _ _ _ (inv_place _ HI) cv _ Hw) t) as (y & Hy & Hs & Hn); [by left|].
  split; [by apply (me_live _ _ _ _ (inv_memory _ HI)); exists y|eauto].
Qed.

(** Who waits on the condition variable of a sleeplock is in its loop. *)
Lemma waiter_next s t y sl : Inv s -> threads s !! t = Some y -> cv_of (next y) = Some (waiters sl) -> is_Some (sleeps s !! sl) -> next y = SlWait sl.
Proof.
  intros HI Hy Hn [h Hh]. pose proof (sp_next _ _ _ _ (inv_sleepers _ HI) t y Hy) as Hok. unfold waiters in *. destruct (next y) as [|cv l|s1]; [done| |].
  - injection Hn as ->. destruct Hok as [_ (_ & _ & Hno)]. replace (sl + 16 - 16) with sl in Hno by lia. congruence.
  - injection Hn as Hn. unfold waiters in *. f_equal. lia.
Qed.

(** A thread that leaves the queue of a condition variable; of a sleeplock that
    is free no obligation is left, as the thread that was woken will look. *)
Lemma woken_inv s c x cv t w y : Inv s -> cpus s !! c = Some x -> condvars s !! cv = Some (t :: w) -> threads s !! t = Some y ->
  Inv (ready_state c x t y (set_condvars (<[cv := w]> (condvars s)) s)).
Proof.
  intros HI Hc Hw Hy. destruct (waiting_thread s cv _ t w HI Hw eq_refl) as (Ht0 & y' & Hy' & Hs & Hn). assert (y' = y) as -> by congruence.
  pose proof HI as [I1 I2 I3 I6 I4 I5]. split; simpl; [done| | | | |].
  - unfold idles, currents. simpl. rewrite (idles_same s c x), (currents_same s c x) by done. by apply (wake I2 cv w t _ y).
  - by apply (locks_flags _ _ c x); [..|apply onoff_ok, (lo_cpu _ _ I3 c)|].
  - intros d z v Hd Hv Hn'.
    assert (exists z', cpus s !! d = Some z' /\ num_disabled z = num_disabled z' /\ current z = current z') as (z' & Hd' & -> & E).
    { apply lookup_insert_Some in Hd as [[<- <-]|[_ Hd]]; [exists x; split_and!; [done|simpl; lia|done]|eauto]. }
    assert (exists v', threads s !! current z = Some v' /\ next v' = next v) as (v' & Hv' & E').
    { apply lookup_insert_Some in Hv as [[<- <-]|[_ Hv]]; eauto. }
    apply (I6 d z' v'); congruence.
  - assert (Sl : sleepers (<[t := set_state READY y]> (threads s)) (spins s) (condvars s) (sleeps s)).
    { apply (sleepers_thread _ _ _ _ t y); [done|done|apply (sp_next _ _ _ _ I4 t y Hy)|]. intros s0 _ [?|?]; congruence. }
    apply sleepers_cv; [done|]. intros s0 Hs0 Hz. right. exists t, (set_state READY y). rewrite lookup_insert_eq. split_and!; [done| |by left].
    simpl. apply (waiter_next s t y s0); [done|done|congruence|eauto].
  - unfold idles. simpl. rewrite (idles_same s c x) by done. by apply (memory_upd _ _ _ _ t y).
Qed.

Lemma signal_ok s c x cv : Inv s -> cpus s !! c = Some x -> cv <> 0 -> is_Some (condvars s !! cv) ->
  exists s', condvar_signal c cv s = Ret tt s' /\ Inv s' /\ grows s s'.
Proof.
  intros HI Hc Hcv [w Hw]. destruct (signal_eq s c x cv w) as [[-> He]|(t & w' & y & -> & Hy & He)]; try done.
  - apply HI.
  - apply (cpu_ok_nonneg (spins s)), (lo_cpu _ _ (inv_locks _ HI) c x Hc).
  - apply Inv_sys_lock; [done|by left].
  - intros t w' E. destruct (waiting_thread s cv w t w' HI Hw E) as (? & y & ? & _). eauto.
  - exists s. split_and!; [done|done|]. exists []. by rewrite app_nil_r.
  - eexists. split; [done|]. split; [by apply woken_inv|by exists [t]].
Qed.

Lemma broadcast_loop_ok n : forall s c x cv, Inv s -> cpus s !! c = Some x -> is_Some (condvars s !! cv) ->
  exists s', broadcast_loop n c cv s = Ret tt s' /\ Inv s' /\ grows s s'.
Proof.
  induction n as [|n IH]; intros s c x cv HI Hc [w Hw]; cbn [broadcast_loop].
  { exists s. split_and!; [done|done|]. exists []. by rewrite app_nil_r. }
  rewrite (bind_load _ _ _ _ _ Hw). destruct w as [|t w]; [exists s; split_and!; [done|done|]; exists []; by rewrite app_nil_r|].
  destruct (waiting_thread s cv _ t w HI Hw eq_refl) as (Ht0 & y & Hy & _). unfold put_cv. rewrite bind_modify.
  erewrite bind_Ret. 2:{ apply (sched_ready_eq _ c x t y); try done; [apply HI| |].
    - apply (cpu_ok_nonneg (spins s)), (lo_cpu _ _ (inv_locks _ HI) c x Hc).
    - apply (Inv_sys_lock s); [done|by left]. }
  destruct (IH _ c (on (off x)) cv (woken_inv s c x cv t w y HI Hc Hw Hy)) as (s' & E & HI' & l & Hl); [apply lookup_insert_eq|simpl; rewrite lookup_insert_eq; eauto|].
  exists s'. split_and!; [done|done|]. exists ([t] ++ l). rewrite Hl. simpl. by rewrite <- app_assoc.
Qed.

Lemma broadcast_ok s c x cv : Inv s -> cpus s !! c = Some x -> cv <> 0 -> is_Some (condvars s !! cv) ->
  exists s', condvar_broadcast c cv s = Ret tt s' /\ Inv s' /\ grows s s'.
Proof.
  intros HI Hc Hcv [w Hw]. unfold condvar_broadcast. rewrite bind_gets, (inv_on _ HI). cbn [negb].
  rewrite bind_kassert by (by apply negb_true_iff, Z.eqb_neq). rewrite (bind_load _ _ _ _ _ Hw). eapply broadcast_loop_ok; eauto.
Qed.

(** ** Giving up the processor *)

Lemma running_thread s c x : Inv s -> cpus s !! c = Some x -> exists v, threads s !! current x = Some v /\ state v = RUNNING /\ current x ∉ ready_queue s.
Proof.
  intros HI Hc. pose proof (lookup_currents _ _ _ Hc) as Hl. destruct (pl_cur _ _ _ _ _ (inv_place _ HI) c _ Hl) as (v & Hv & Hs).
  exists v. split_and!; [done|done|]. by apply (cur_not_ready (inv_place _ HI) c).
Qed.

(** The idle thread of a processor is nobody else's. *)
Lemma not_idle s c x : Inv s -> cpus s !! c = Some x -> current x <> idle_thread x -> forall d, idles s !! d <> Some (current x).
Proof.
  intros HI Hc Hne d Hd. pose proof (pl_home _ _ _ _ _ (inv_place _ HI) d c _ Hd (lookup_currents _ _ _ Hc)) as ->.
  rewrite (lookup_idles _ _ _ Hc) in Hd. congruence.
Qed.

(** Preemption: the thread goes to the end of the ready queue, unless it is the
    idle thread. *)
Lemma departed_ready s c x x1 v f : Inv s -> cpus s !! c = Some x -> num_disabled x = 0 -> threads s !! current x = Some v ->
  idle_thread x1 = idle_thread x -> current x1 = current x ->
  departed (set_ticks f (set_cpus (<[c := x1]> (cpus s)) s)) c x1 (set_ctx InSched (set_state READY v)) (queue1 READY x1 (ready_queue s)) (spins s).
Proof.
  intros HI Hc Hn Hv Hi Hx. pose proof HI as [I1 I2 I3 I6 I4 I5]. set (s1 := set_ticks _ _).
  assert (Ei : idles s1 = idles s) by (by apply (idles_same s c x)). assert (Ec : currents s1 = currents s) by (by apply (currents_same s c x)).
  pose proof (lookup_currents _ _ _ Hc) as Hl. pose proof (lookup_idles _ _ _ Hc) as Hli. split.
  - done.
  - apply lookup_insert_eq.
  - rewrite Hx. exists v. done.
  - rewrite Ei, Ec, Hx. simpl. unfold queue1. rewrite Hi, Hx. rewrite bool_decide_true by done. simpl. destruct (Z.eqb_spec (current x) (idle_thread x)) as [E|Hne]; simpl.
    + apply (depart_idle I2); try done; [congruence|]. simpl. destruct (pl_idle _ _ _ _ _ I2 c _ Hli) as (z & Hz & ? & _). congruence.
    + apply (depart_ready I2); try done. by apply not_idle with (c := c).
  - apply (place_distinct s1 (threads s1) (ready_queue s1) (condvars s1)). by rewrite Ei, Ec.
  - exists x. split_and!; [done|done|]. simpl. rewrite insert_insert_eq. by rewrite insert_id.
  - intros d y w Hne Hd. apply (I6 d). simpl in Hd. by rewrite lookup_insert_ne in Hd.
  - rewrite Hx. simpl. apply (sleepers_thread _ _ _ _ (current x) v); [done|done|apply (sp_next _ _ _ _ I4 _ v Hv)|].
    intros s0 H1 _. left. split; [done|by left].
  - by rewrite Ei.
Qed.

Lemma Inv_flags s c x y n : Inv s -> cpus s !! c = Some x -> idle_thread y = idle_thread x -> current y = current x -> cpu_ok (spins s) y -> num_disabled y = num_disabled x ->
  Inv (set_ticks n (set_cpus (<[c := y]> (cpus s)) s)).
Proof.
  intros [I1 I2 I3 I6 I4 I5] Hc Hi Hy Hok Hn. split; try done; unfold idles, currents; simpl; rewrite ?(idles_same s c x), ?(currents_same s c x) by done; try done.
  - by apply (locks_flags _ _ c x).
  - apply (unlocked_cpu _ _ c x); try done. left. rewrite Hn. split; [done|]. apply (cpu_ok_nonneg (spins s)), (lo_cpu _ _ I3 c x Hc).
Qed.

(** ** Timer interrupts *)

Definition in_trap (x : cpu) : cpu := mkCpu (idle_thread x) (cpu_thread x) 0 false false (current x).

Lemma set_if_eq s c x b : cpus s !! c = Some x ->
  set_if c b s = Ret tt (set_cpus (<[c := mkCpu (idle_thread x) (cpu_thread x) (num_disabled x) (intr_enabled x) b (current x)]> (cpus s)) s).
Proof. intros Hc. unfold set_if. by rewrite (bind_load _ _ x). Qed.

Lemma acquire_release_eq {B} s c x l k (f : kern -> kern) (g : M kern B) : synch_enabled s = true -> cpus s !! c = Some x -> 0 <= num_disabled x -> l <> 0 ->
  spins s !! l = Some k -> lock_status k = 0 -> holder k = 0 ->
  (forall s, synch_enabled (f s) = synch_enabled s /\ cpus (f s) = cpus s /\ spins (f s) = spins s) ->
  (forall cs sp s, set_spins sp (set_cpus cs (f s)) = f (set_spins sp (set_cpus cs s))) ->
  (spinlock_acquire c l ;; modify f ;; spinlock_release c l ;; g)%K s = g (f (set_cpus (<[c := on (off x)]> (cpus s)) s)).
Proof.
  intros Hon Hc Hn Hl Hk H0 H1 Hf Hcomm. rewrite (bind_Ret _ _ _ _ _ (acquire_eq c x l k s Hon Hc Hl Hk H0 H1)), bind_modify.
  set (s1 := lock_set _ _ _ _ _). destruct (Hf s1) as (F1 & F2 & F3).
  erewrite bind_Ret. 2:{ apply (release_lock_eq c (off x) l (taken k (current x))); rewrite ?F1, ?F2, ?F3; simpl; try done; try apply lookup_insert_eq; lia. }
  unfold lock_set. rewrite F2, F3, Hcomm. do 2 f_equal. unfold s1, lock_set. simpl. rewrite !insert_insert_eq, (taken_freed_id _ _ _ _ Hk) by done. by destruct s.
Qed.

(** Two computations with the same outcome, on whatever state. *)
Lemma bind_at {B C} (m m' : M kern B) (k : B -> M kern C) s s' : m s = m' s' -> bind m k s = bind m' k s'.
Proof. unfold bind. by intros ->. Qed.

Lemma timer_prefix s c x : Inv s -> cpus s !! c = Some x -> fl_if x = true ->
  num_disabled x = 0 /\ timer_interrupt c s = (sched_sched c READY 0 ;; set_if c true)%K (set_ticks (u32 (ticks s + 1)) (set_cpus (<[c := in_trap x]> (cpus s)) s)).
Proof.
  intros HI Hc Hf. destruct (lo_cpu _ _ (inv_locks _ HI) c x Hc) as (Hz & Hn & Hfl).
  assert (H0 : num_disabled x = 0). { destruct (Z.eqb_spec (num_disabled x) 0); [done|]. destruct Hfl. congruence. } split; [done|].
  unfold timer_interrupt. rewrite (bind_Ret _ _ _ _ _ (set_if_eq s c x false Hc)). set (s0 := set_cpus _ s).
  destruct (Inv_sys_lock s timer_lock HI) as (k & Hk & Hk0 & Hk1); [right; by left|].
  apply bind_at. unfold timer_trap_handler.
  rewrite (acquire_release_eq s0 c (mkCpu (idle_thread x) (cpu_thread x) (num_disabled x) (intr_enabled x) false (current x)) timer_lock k (fun s => set_ticks (u32 (ticks s + 1)) s)); try done.
  - f_equal. unfold s0. simpl. unfold set_ticks, set_cpus. simpl. rewrite insert_insert_eq. unfold in_trap, on, off. simpl. by rewrite H0.
  - apply HI.
  - apply lookup_insert_eq.
  - simpl. lia.
Qed.

Lemma timer_ok s c x : Inv s -> cpus s !! c = Some x -> fl_if x = true ->
  exists s', timer_interrupt c s = Ret tt s' /\ Inv s' /\
    (ready_queue s = [] /\ ready_queue s' = [] \/ ready_queue s <> [] /\ switched_to s c x (queue1 READY x (ready_queue s)) s').
Proof.
  intros HI Hc Hf. destruct (timer_prefix s c x HI Hc Hf) as [H0 ->]. set (s1 := set_ticks _ _). destruct (running_thread s c x HI Hc) as (v & Hv & Hs & Hnr).
  assert (Hc1 : cpus s1 !! c = Some (in_trap x)) by apply lookup_insert_eq.
  destruct (decide (ready_queue s = [])) as [Hq|Hq].
  - destruct (Inv_sys_lock s sched_lock HI) as (k & Hk & Hk0 & Hk1); [by left|].
    assert (E : sched_sched c READY 0 s1 = Ret tt s1).
    { unfold sched_sched. rewrite (bind_Ret _ _ _ _ _ (current_eq c _ s1 Hc1)).
      rewrite (bind_Ret _ _ _ _ _ (acquire_eq c (in_trap x) sched_lock k s1 (inv_on _ HI) Hc1 ltac:(done) Hk Hk0 Hk1)). rewrite bind_gets.
      change (ready_queue (lock_set c (off (in_trap x)) sched_lock (taken k (current (in_trap x))) s1)) with (ready_queue s). rewrite Hq. simpl.
      erewrite (release_lock_eq c (off (in_trap x)) sched_lock (taken k (current x))); simpl; try done; try apply lookup_insert_eq; [|apply HI].
      unfold lock_set. simpl. rewrite !insert_insert_eq, (taken_freed_id _ _ _ _ Hk) by done. unfold s1. by destruct s. }
    rewrite (bind_Ret _ _ _ _ _ E), (set_if_eq _ _ _ _ Hc1). eexists. split; [done|]. split; [|by left].
    replace (set_cpus _ s1) with (set_ticks (u32 (ticks s + 1)) (set_cpus (<[c := mkCpu (idle_thread x) (cpu_thread x) 0 false true (current x)]> (cpus s)) s))
      by (unfold s1, set_ticks, set_cpus; simpl; by rewrite insert_insert_eq).
    apply (Inv_flags s c x); try done. destruct (lo_cpu _ _ (inv_locks _ HI) c x Hc) as (Hz & Hn & Hfl). split_and!; [done|simpl; congruence|done].
  - destruct (sched_sched_ok s1 c (in_trap x) READY v 0 (spins s)) as (s' & E & HI' & t & Hcs & Ht); [|done|by left|done|by left|].
    { by apply (departed_ready s c x (in_trap x) v). }
    assert (Hc' : cpus s' !! c = Some (mkCpu (idle_thread x) t 0 true true t)) by (rewrite Hcs; apply lookup_insert_eq).
    rewrite (bind_Ret _ _ _ _ _ E), (set_if_eq _ _ _ _ Hc'). rewrite insert_id by done. replace (set_cpus (cpus s') s') with s' by (by destruct s').
    exists s'. split_and!; [done|done|right]. split; [done|]. exists t. split; [|done]. rewrite Hcs. simpl. by rewrite insert_insert_eq.
Qed.

(** ** Sleeping and exiting *)

(** [s1] is [s] with the thread of [c] in its own code, holding the lock [l]
    and nothing else; it goes to sleep. *)
Lemma wait_ok s s1 c x x1 v cv w l kl k : Inv s -> cpus s !! c = Some x -> num_disabled x = 0 -> current x <> idle_thread x ->
  idle_thread x1 = idle_thread x -> current x1 = current x -> num_disabled x1 = 1 -> fl_if x1 = false ->
  spins s !! l = Some kl -> lock_status kl = 0 -> l <> 0 -> l <> sched_lock ->
  s1 = set_threads (<[current x := set_next Code v]> (threads s)) (set_spins (<[l := taken kl (current x)]> (spins s)) (set_cpus (<[c := x1]> (cpus s)) s)) ->
  threads s !! current x = Some v -> cv <> 0 -> condvars s !! cv = Some w -> cv_of k = Some cv -> next_ok (spins s) (condvars s) (sleeps s) k ->
  (forall sl, waiters sl = cv -> sleeps s !! sl <> Some 0) -> (forall sl, next v = SlWait sl -> sleeps s !! sl <> Some 0) ->
  exists s', condvar_wait c cv l k s1 = Ret tt s' /\ Inv s' /\ switched_to s c x (ready_queue s) s'.
Proof.
  intros HI Hc Hn Hid E1 E2 E3 E4 Hl H0 Hl0 Hl1 -> Hv Hcv Hw Hk Hkok Hnz Hnz'. pose proof HI as [I1 I2 I3 I6 I4 I5].
  assert (Hh : holder kl = 0) by (destruct (lo_spin _ _ I3 l kl Hl) as [[_ ?]|[? _]]; [done|congruence]).
  unfold condvar_wait. rewrite bind_gets. cbn [synch_enabled set_threads set_spins set_cpus]. rewrite I1. cbn [negb].
  rewrite bind_kassert by (apply andb_true_iff; split; by apply negb_true_iff, Z.eqb_neq).
  erewrite bind_Ret by (apply (current_eq c x1); apply lookup_insert_eq). erewrite bind_load by (simpl; apply lookup_insert_eq).
  rewrite bind_kassert by (simpl; rewrite E2; apply Z.eqb_refl). erewrite bind_load by (simpl; exact Hw). unfold put_cv. rewrite bind_modify.
  rewrite E2. erewrite bind_Ret by (apply (upd_thread_eq _ (set_next Code v)); simpl; apply lookup_insert_eq). set (s2 := set_threads _ _).
  assert (Es2 : s2 = set_threads (<[current x := set_next k v]> (threads s)) (set_condvars (<[cv := w ++ [current x]]> (condvars s))
    (set_spins (<[l := taken kl (current x)]> (spins s)) (set_cpus (<[c := x1]> (cpus s)) s)))) by (unfold s2; simpl; unfold set_threads, set_condvars; simpl; by rewrite insert_insert_eq).
  clearbody s2. subst s2. set (s2 := set_threads _ _).
  assert (Ei : idles s2 = idles s) by (by apply (idles_same s c x)). assert (Ec : currents s2 = currents s) by (by apply (currents_same s c x)).
  pose proof (not_idle s c x HI Hc Hid) as Hni. destruct (running_thread s c x HI Hc) as (v' & Hv' & _ & Hnr).
  destruct (sched_sched_ok s2 c x1 SLEEPING (set_next k v) l (spins s)) as (s' & E & HI' & t & Hcs & Ht).
  - change (queue1 SLEEPING x1 (ready_queue s2)) with (ready_queue s). split.
    + done.
    + apply lookup_insert_eq.
    + rewrite E2. exists (set_next k v). split; [apply lookup_insert_eq|done].
    + rewrite Ei, Ec, E2. simpl. rewrite insert_insert_eq. apply (depart_sleep I2); try done. by apply lookup_currents.
    + apply (place_distinct s2 (threads s) (ready_queue s) (condvars s)). by rewrite Ei, Ec.
    + exists x. split_and!; [done|done|]. simpl. rewrite insert_insert_eq. by rewrite insert_id.
    + intros d y z Hne Hd Hz. simpl in Hd, Hz. rewrite lookup_insert_ne in Hd by done. apply lookup_insert_Some in Hz as [[Hz _]|[_ Hz]]; [|by apply (I6 d y z)].
      exfalso. apply Hne. by apply (Inv_distinct s HI d c y x).
    + rewrite E2. simpl. rewrite insert_insert_eq. apply (sleepers_thread _ _ _ _ _ v); [apply sleepers_cv; [done|]|done| |].
      * intros sl Hsl Hz. by destruct (Hnz sl Hsl).
      * simpl. destruct k as [|cv' l'|sl]; [done| |done]. destruct Hkok as [? (? & ? & ?)]. split; [done|]. split_and!; [done| |done]. apply lookup_insert_is_Some'. by right.
      * intros sl Hsl _. right. by apply Hnz'.
    + rewrite Ei. by apply (memory_upd _ _ _ _ _ v).
  - rewrite E2. apply lookup_insert_eq.
  - right. split_and!; [done|done|done|]. exists (taken kl (current x)). split; [apply lookup_insert_eq|]. simpl. rewrite insert_insert_eq.
    symmetry. by apply taken_freed_id.
  - by rewrite E2.
  - right. split; [done|]. by rewrite Ei, E2.
  - exists s'. split_and!; [done|done|]. exists t. rewrite Hcs, <- E1. simpl. by rewrite insert_insert_eq.
Qed.

Lemma thread_exit_ok s c x v : Inv s -> cpus s !! c = Some x -> threads s !! current x = Some v -> next v = Code -> current x <> idle_thread x -> num_disabled x = 0 ->
  exists s', thread_exit c s = Ret tt s' /\ Inv s' /\ switched_to s c x (ready_queue s) s'.
Proof.
  intros HI Hc Hv Hn Hid H0. pose proof HI as [I1 I2 I3 I6 I4 I5]. pose proof (not_idle s c x HI Hc Hid) as Hni.
  destruct (running_thread s c x HI Hc) as (v' & Hv' & _ & Hnr).
  apply (sched_sched_ok s c x ZOMBIE v 0 (spins s)); [|done|by left|done|by right].
  change (queue1 ZOMBIE x (ready_queue s)) with (ready_queue s). split; try done.
  - by exists v.
  - apply (depart_zombie I2); try done. by apply lookup_currents.
  - by apply Inv_distinct.
  - exists x. split_and!; [done|done|]. by rewrite insert_id.
  - intros d y w _ Hd. by apply (I6 d).
  - apply (sleepers_thread _ _ _ _ _ v); [done|done| |]; simpl; rewrite Hn; done.
Qed.

(** ** Sleeplocks *)

Lemma lookup_dom_insert {B} (m : gmap Z B) i b b0 j : m !! i = Some b0 -> is_Some (<[i := b]> m !! j) <-> is_Some (m !! j).
Proof. intros Hi. rewrite lookup_insert_is_Some'. split; [intros [->|?]; eauto|auto]. Qed.

Lemma sleepers_holder th sp cvs sl s h h0 : sleepers th sp cvs sl -> sl !! s = Some h0 -> (h = 0 -> cvs !! waiters s = Some [] \/ awake th s) ->
  sleepers th sp cvs (<[s := h]> sl).
Proof.
  intros [S1 S2 S3] Hs Hh. assert (Hnone : forall j, sl !! j = None -> <[s := h]> sl !! j = None) by (intros j Hj; rewrite lookup_insert_ne; [done|intros <-; congruence]).
  split.
  - intros l Hl. destruct (S1 l Hl). auto.
  - intros t x Hx. specialize (S2 t x Hx). destruct (next x); [done| |by apply (lookup_dom_insert _ _ _ h0)].
    destruct S2 as [(? & ? & ?) (? & ? & ?)]. split; split_and!; auto.
  - intros j g Hj. apply lookup_insert_Some in Hj as [[<- <-]|[_ Hj]]; [|by apply (S3 j)].
    destruct (S3 s h0 Hs) as (? & ? & w & Hw & _). split_and!; [done|done|]. exists w. split; [done|]. intros E. destruct (Hh E) as [Hw'|?]; [left; congruence|by right].
Qed.

(** The loop of [sleeplock_acquire] from a state [s] in which the thread of [c]
    has no lock yet: it takes the lock, or goes to sleep. *)
Definition kept_or_switched (s : kern) (c : Z) (x : cpu) (s' : kern) : Prop :=
  ready_queue s' = ready_queue s \/ switched_to s c x (ready_queue s) s'.

Lemma sleeplock_test_ok s c x v sl h kl : Inv s -> cpus s !! c = Some x -> num_disabled x = 0 -> current x <> idle_thread x -> threads s !! current x = Some v ->
  sleeps s !! sl = Some h -> spins s !! lk sl = Some kl -> lock_status kl = 0 -> (next v = Code \/ next v = SlWait sl) ->
  exists s', sleeplock_test c sl (set_threads (<[current x := set_next Code v]> (threads s)) (lock_set c (off x) (lk sl) (taken kl (current x)) s)) = Ret tt s' /\
    Inv s' /\ kept_or_switched s c x s' /\ (h = 0 -> sleeps s' !! sl = Some (current x)).
Proof.
  intros HI Hc H0 Hid Hv Hs Hkl Hk0 Hnx. pose proof HI as [I1 I2 I3 I6 I4 I5]. destruct (sp_sleep _ _ _ _ I4 sl h Hs) as (Hpos & _ & w & Hw & _).
  assert (Hsys : lk sl <> sched_lock) by (intros E; destruct (sp_sys _ _ _ _ I4 (lk sl)) as [_ Hno]; [rewrite E; by left|]; unfold lk in Hno; congruence).
  unfold sleeplock_test. erewrite bind_load by (simpl; exact Hs). destruct (Z.eqb_spec h 0) as [->|Hh]; cbn [negb].
  - erewrite bind_Ret by (apply (current_eq c (off x)); apply lookup_insert_eq). unfold put_sleep. rewrite bind_modify.
    rewrite (release_lock_eq c (off x) (lk sl) (taken kl (current x))); simpl; try done; [|apply lookup_insert_eq|unfold lk; lia|apply lookup_insert_eq|lia].
    eexists. split; [done|]. split; [|split; [by left|intros _; apply lookup_insert_eq]].
    assert (Hh : holder kl = 0) by (destruct (lo_spin _ _ I3 _ kl Hkl) as [[_ ?]|[? _]]; [done|congruence]).
    set (s' := lock_set _ _ _ _ _). replace s' with (set_sleeps (<[sl := current x]> (sleeps s)) (set_threads (<[current x := set_next Code v]> (threads s)) (set_cpus (<[c := on (off x)]> (cpus s)) s))).
    2:{ unfold s', lock_set. simpl. rewrite !insert_insert_eq, (taken_freed_id _ _ _ _ Hkl) by done. by destruct s. }
    clear s'. pose proof (lo_cpu _ _ I3 c x Hc) as Hok. split; simpl; try done.
    + unfold idles, currents. simpl. rewrite (idles_same s c x), (currents_same s c x) by done. apply (place_same I2 _ v); try done.
      destruct (running_thread s c x HI Hc) as (v' & Hv' & Hr & _). congruence.
    + by apply (locks_flags _ _ c x); [..|apply onoff_ok|].
    + intros d y z Hd Hz Hnc. apply lookup_insert_Some in Hd as [[<- <-]|[Hne Hd]]; [simpl; lia|].
      apply lookup_insert_Some in Hz as [[_ <-]|[_ Hz]]; [done|by apply (I6 d y z)].
    + apply (sleepers_thread _ _ _ _ _ v); [apply (sleepers_holder _ _ _ _ _ _ 0); try done|done|done|].
      * intros E. by destruct Hok as [? _].
      * intros sl' Hsl' _. right. destruct Hnx as [?|Hnx]; [congruence|]. assert (sl' = sl) as -> by congruence. rewrite lookup_insert_eq. destruct Hok as [? _]. congruence.
    + unfold idles. simpl. rewrite (idles_same s c x) by done. by apply (memory_upd _ _ _ _ _ v).
  - set (s1 := set_threads _ _). destruct (wait_ok s s1 c x (off x) v (waiters sl) w (lk sl) kl (SlWait sl)) as (s' & E & HI' & Hsw); try done; [..|exists s'; split_and!; [done|done|by right|done]].
    + simpl. lia.
    + unfold lk. lia.
    + unfold waiters. lia.
    + simpl. eauto.
    + intros sl' Hsl'. unfold waiters in Hsl'. assert (sl' = sl) as -> by lia. congruence.
    + intros sl' Hsl'. destruct Hnx as [?|Hnx]; [congruence|]. assert (sl' = sl) as -> by congruence. congruence.
Qed.

Lemma Inv_sleeplock s sl h : Inv s -> sleeps s !! sl = Some h -> 0 < sl /\ exists k w, spins s !! lk sl = Some k /\ lock_status k = 0 /\ holder k = 0 /\ condvars s !! waiters sl = Some w.
Proof.
  intros HI Hs. destruct (sp_sleep _ _ _ _ (inv_sleepers _ HI) sl h Hs) as (Hpos & (k & Hk & H0) & w & Hw & _). split; [done|]. exists k, w. split_and!; try done.
  destruct (lo_spin _ _ (inv_locks _ HI) _ _ Hk) as [[_ ?]|[? _]]; [done|congruence].
Qed.

Lemma sleep_acquire_ok s c x v sl : Inv s -> cpus s !! c = Some x -> threads s !! current x = Some v -> next v = Code -> is_Some (sleeps s !! sl) ->
  current x <> idle_thread x -> num_disabled x = 0 -> exists s', sleeplock_acquire c sl s = Ret tt s' /\ Inv s' /\ kept_or_switched s c x s'.
Proof.
  intros HI Hc Hv Hn [h Hh] Hid H0. destruct (Inv_sleeplock s sl h HI Hh) as (Hpos & k & w & Hk & Hk0 & Hk1 & Hw).
  unfold sleeplock_acquire. rewrite bind_gets, (inv_on _ HI). cbn [negb]. rewrite bind_kassert by (apply negb_true_iff, Z.eqb_neq; lia).
  erewrite bind_Ret by (apply (acquire_eq c x (lk sl) k); try done; [apply HI|unfold lk; lia]).
  destruct (sleeplock_test_ok s c x v sl h k) as (s' & E & HI' & Hr & _); try done; [by left|]. exists s'. split; [|done]. rewrite <- E. f_equal.
  rewrite (insert_id (threads s)); [done|]. rewrite Hv. f_equal. destruct v; simpl in *. by subst.
Qed.

Lemma on_off_off x : 0 <= num_disabled x -> on (off (off x)) = off x.
Proof.
  intros Hn. unfold on, off. simpl. rewrite (proj2 (Z.eqb_neq (num_disabled x + 1) 0)) by lia. f_equal; [lia|].
  by rewrite (proj2 (Z.eqb_neq (num_disabled x + 1 + 1 - 1) 0)) by lia.
Qed.

Lemma kern_ext s s' : synch_enabled s = synch_enabled s' -> cpus s = cpus s' -> threads s = threads s' -> ready_queue s = ready_queue s' -> spins s = spins s' ->
  condvars s = condvars s' -> sleeps s = sleeps s' -> attached s = attached s' -> ticks s = ticks s' -> tid_allocator s = tid_allocator s' ->
  thread_allocator s = thread_allocator s' -> pmem s = pmem s' -> s = s'.
Proof. destruct s, s'; simpl. by intros -> -> -> -> -> -> -> -> -> -> -> ->. Qed.

Lemma onoff_idem x : on (off (on (off x))) = on (off x).
Proof.
  unfold on, off. simpl. replace (num_disabled x + 1 - 1) with (num_disabled x) by lia. replace (num_disabled x + 1 - 1) with (num_disabled x) by lia.
  by destruct (num_disabled x =? 0), (fl_if x).
Qed.

Lemma Inv_holder s sl h h0 : Inv s -> sleeps s !! sl = Some h0 -> (h = 0 -> condvars s !! waiters sl = Some [] \/ awake (threads s) sl) ->
  Inv (set_sleeps (<[sl := h]> (sleeps s)) s).
Proof. intros [I1 I2 I3 I6 I4 I5] Hs Hh. split; try done. by apply (sleepers_holder _ _ _ _ _ _ h0). Qed.

Lemma sleep_release_ok s c x sl : Inv s -> cpus s !! c = Some x -> sleeps s !! sl = Some (current x) ->
  exists s', sleeplock_release c sl s = Ret tt s' /\ Inv s' /\ grows s s'.
Proof.
  intros HI Hc Hh. destruct (Inv_sleeplock s sl _ HI Hh) as (Hpos & k & w & Hk & Hk0 & Hk1 & Hw). pose proof (lo_cpu _ _ (inv_locks _ HI) c x Hc) as Hok.
  pose proof (cpu_ok_nonneg _ _ Hok) as Hnn. assert (Hsys : lk sl <> sched_lock).
  { intros E. destruct (sp_sys _ _ _ _ (inv_sleepers _ HI) (lk sl)) as [_ Hno]; [rewrite E; by left|]. unfold lk in Hno. congruence. }
  unfold sleeplock_release. rewrite bind_gets, (inv_on _ HI). cbn [negb]. rewrite (bind_load _ _ _ _ _ Hh), (bind_Ret _ _ _ _ _ (current_eq c x s Hc)).
  rewrite bind_kassert by (rewrite Z.eqb_refl, andb_true_r; apply negb_true_iff, Z.eqb_neq; lia).
  erewrite bind_Ret by (apply (acquire_eq c x (lk sl) k); try done; [apply HI|unfold lk; lia]). unfold put_sleep. rewrite bind_modify. set (s2 := set_sleeps _ _).
  assert (Hrel : forall s3 y, synch_enabled s3 = true -> cpus s3 !! c = Some y -> y = off x -> spins s3 = spins s2 -> spinlock_release c (lk sl) s3 = Ret tt (set_spins (spins s) (set_cpus (<[c := on (off x)]> (cpus s3)) s3))).
  { intros s3 y Hon Hy -> Hsp. rewrite (release_lock_eq c (off x) (lk sl) (taken k (current x))); [|done|done|unfold lk; lia|rewrite Hsp; simpl; apply lookup_insert_eq|done|simpl; lia].
    unfold lock_set. rewrite Hsp. simpl. by rewrite insert_insert_eq, (taken_freed_id _ _ _ _ Hk). }
  destruct (signal_eq s2 c (off x) (waiters sl) w) as [[-> E]|(t & w' & y & -> & Hy & E)]; [apply HI|apply lookup_insert_eq|simpl; lia| |unfold waiters; lia|done| |..].
  - destruct (Inv_sys_lock s sched_lock HI) as (k0 & ? & ? & ?); [by left|]. exists k0. split; [simpl; by rewrite lookup_insert_ne|done].
  - intros t w' Ew. destruct (waiting_thread s (waiters sl) w t w' HI Hw Ew) as (? & y & ? & _). simpl. eauto.
  - rewrite (bind_Ret _ _ _ _ _ E). erewrite (Hrel s2); [|apply HI|simpl; apply lookup_insert_eq|done|done]. eexists. split; [done|]. split; [|exists []; by rewrite app_nil_r].
    assert (HI2 : Inv (set_ticks (ticks s) (set_cpus (<[c := on (off x)]> (cpus s)) s))) by (apply (Inv_flags s c x); try done; [by apply onoff_ok|simpl; lia]).
    apply (Inv_holder _ sl 0 (current x)) in HI2; [|done|by left]. replace (set_spins _ _) with (set_sleeps (<[sl := 0]> (sleeps s)) (set_ticks (ticks s) (set_cpus (<[c := on (off x)]> (cpus s)) s))); [done|].
    apply kern_ext; simpl; by rewrite ?insert_insert_eq.
  - destruct (waiting_thread s (waiters sl) _ t w' HI Hw eq_refl) as (Ht0 & y' & Hy' & _ & Hny). assert (y' = y) as -> by (simpl in Hy; congruence).
    rewrite (bind_Ret _ _ _ _ _ E). erewrite (Hrel (ready_state _ _ _ _ _) (off x)); [|apply HI|rewrite <- (on_off_off x) at 2 by done; apply lookup_insert_eq|done|done].
    eexists. split; [done|]. split; [|by exists [t]].
    pose proof (woken_inv s c x (waiters sl) t w' y HI Hc Hw Hy') as HI2. apply (Inv_holder _ sl 0 (current x)) in HI2; [|done|].
    + replace (set_spins _ _) with (set_sleeps (<[sl := 0]> (sleeps s)) (ready_state c x t y (set_condvars (<[waiters sl := w']> (condvars s)) s))); [done|].
      apply kern_ext; simpl; by rewrite ?insert_insert_eq.
    + intros _. right. exists t, (set_state READY y). simpl. rewrite lookup_insert_eq. split_and!; [done| |by left]. apply (waiter_next s t y sl); eauto.
Qed.

(** A thread that was woken up and finds the sleeplock free takes it. *)
Lemma return_takes s c x v sl : Inv s -> cpus s !! c = Some x -> threads s !! current x = Some v -> next v = SlWait sl -> sleeps s !! sl = Some 0 ->
  exists s', wait_return c s = Ret tt s' /\ sleeps s' !! sl = Some (current x).
Proof.
  intros HI Hc Hv En Hh. pose proof (inv_unlocked _ HI c x v Hc Hv) as H0. rewrite En in H0.
  assert (Hid : current x <> idle_thread x).
  { intros E. destruct (pl_idle _ _ _ _ _ (inv_place _ HI) c _ (lookup_idles _ _ _ Hc)) as (z & Hz' & Hzn & _). congruence. }
  destruct (Inv_sleeplock s sl 0 HI Hh) as (Hpos & k & w & Hk & Hk0 & Hk1 & Hw).
  unfold wait_return. rewrite (bind_Ret _ _ _ _ _ (current_eq c x s Hc)), (bind_load _ _ _ _ _ Hv), En.
  erewrite bind_Ret by (apply (acquire_eq c x (lk sl) k); try done; [apply HI|unfold lk; lia]). erewrite bind_Ret by (apply upd_thread_eq; exact Hv).
  destruct (sleeplock_test_ok s c x v sl 0 k) as (s' & E & _ & _ & Hr); try done; [by apply H0|by right|]. exists s'. split; [done|by apply Hr].
Qed.

(** ** The other steps *)

Lemma set_next_id v : next v = Code -> set_next Code v = v.
Proof. destruct v; simpl. by intros ->. Qed.

Lemma wait_op_ok s c x v cv l : Inv s -> cpus s !! c = Some x -> threads s !! current x = Some v -> next v = Code -> user_lock s l -> user_cv s cv ->
  current x <> idle_thread x -> holds s (current x) l -> num_disabled x = 1 ->
  exists s', condvar_wait c cv l (CvWait cv l) s = Ret tt s' /\ Inv s' /\ switched_to s c x (ready_queue s) s'.
Proof.
  intros HI Hc Hv Hn Hl Hcv Hid (k & Hk & Hh) H1. pose proof HI as [_ _ I3 _ I4 _]. destruct (user_lock_sys _ _ Hl) as (Hl0 & Hl1 & Hl2).
  destruct (locks_release _ _ c x l k I3 (Inv_distinct _ HI) Hc Hk Hh) as (L & Hf & _). set (s0 := lock_set c (on x) l (freed k) s).
  assert (HI0 : Inv s0) by (apply (Inv_lock_set s c x); try done; left; simpl; [lia|done]).
  assert (Hst : lock_status k = 1). { destruct (lo_spin _ _ I3 l k Hk) as [[_ ?]|[? _]]; [|done]. destruct (lo_cpu _ _ I3 c x Hc). congruence. }
  destruct Hcv as (Hcv0 & [w Hw] & Hcv1).
  destruct (wait_ok s0 s c (on x) x v cv w l (freed k) (CvWait cv l)) as (s' & E & HI' & t & Hcs & Ht); try done.
  - apply lookup_insert_eq.
  - simpl. lia.
  - simpl. apply lookup_insert_eq.
  - intros ->. apply Hl1. by left.
  - apply kern_ext; simpl; rewrite ?insert_insert_eq; try done; symmetry; apply insert_id; [done|by rewrite set_next_id|].
    rewrite Hk. f_equal. destruct k; simpl in *. by subst.
  - split; [|by eauto]. destruct Hl as (? & ? & ?). split_and!; [done| |done]. simpl. apply lookup_insert_is_Some'. by left.
  - intros sl Hsl Hz. replace (cv - 16) with sl in Hcv1 by (unfold waiters in Hsl; lia). simpl in Hz. congruence.
  - intros sl Hsl. congruence.
  - exists s'. split_and!; [done|done|]. exists t. split; [|done]. rewrite Hcs. simpl. by rewrite insert_insert_eq.
Qed.

Lemma Inv_set_next s c x v cv l : Inv s -> cpus s !! c = Some x -> threads s !! current x = Some v -> next v = CvWait cv l ->
  Inv (set_threads (<[current x := set_next Code v]> (threads s)) s).
Proof.
  intros HI Hc Hv Hn. pose proof HI as [I1 I2 I3 I6 I4 I5]. split; try done; simpl.
  - apply (place_same I2 _ v); try done. destruct (running_thread s c x HI Hc) as (v' & Hv' & Hr & _). congruence.
  - intros d y w Hd Hw Hnc. apply lookup_insert_Some in Hw as [[_ <-]|[_ Hw]]; [done|by apply (I6 d y w)].
  - apply (sleepers_thread _ _ _ _ _ v); try done. intros sl Hsl. congruence.
  - by apply (memory_upd _ _ _ _ _ v).
Qed.

Lemma return_ok s c x v : Inv s -> cpus s !! c = Some x -> threads s !! current x = Some v -> next v <> Code ->
  (exists s', wait_return c s = Ret tt s' /\ Inv s' /\ kept_or_switched s c x s') \/
  (exists s' cv l k d y, wait_return c s = Halt Block s' /\ next v = CvWait cv l /\ spins s !! l = Some k /\ d <> c /\ cpus s !! d = Some y /\ holder k = current y).
Proof.
  intros HI Hc Hv Hn. pose proof (inv_unlocked _ HI c x v Hc Hv Hn) as H0. pose proof (lo_cpu _ _ (inv_locks _ HI) c x Hc) as (Hz & Hheld & _).
  assert (Hid : current x <> idle_thread x).
  { intros E. destruct (pl_idle _ _ _ _ _ (inv_place _ HI) c _ (lookup_idles _ _ _ Hc)) as (z & Hz' & Hzn & _). congruence. }
  unfold wait_return. rewrite (bind_Ret _ _ _ _ _ (current_eq c x s Hc)), (bind_load _ _ _ _ _ Hv). pose proof (sp_next _ _ _ _ (inv_sleepers _ HI) _ v Hv) as Hok.
  destruct (next v) as [|cv l|sl] eqn:En; [done| |].
  - destruct Hok as [(Hl & [k Hk] & Hl2) _]. assert (Hl0 : l <> 0) by (intros ->; apply Hl; by left).
    destruct (lo_spin _ _ (inv_locks _ HI) l k Hk) as [[Hk0 Hk1]|(Hk1 & d & y & Hd & Hy)]; [left|right].
    + erewrite bind_Ret by (apply (acquire_eq c x l k); try done; apply HI). erewrite upd_thread_eq by (simpl; exact Hv). eexists. split; [done|]. split; [|by left].
      pose proof (Inv_set_next s c x v cv l HI Hc Hv En) as HI0. set (s0 := set_threads (<[current x := set_next Code v]> (threads s)) s) in *.
      assert (HI1 : Inv (lock_set c (off x) l (taken k (current x)) s0)); [|by destruct s].
      apply (Inv_lock_set s0 c x); [done|done|done|done|right; exists (set_next Code v); split; [apply lookup_insert_eq|done]| |].
      * apply locks_acquire; try done; [apply HI|by apply Inv_distinct].
      * right. split; [|done]. apply not_elem_of_cons in Hl as [_ Hl]. done.
    + assert (Hne : current y <> current x). { intros E. pose proof (heldby_pos _ _ _ _ Hk eq_refl) as Hp. rewrite <- Hy, E in Hp. lia. }
      destruct (acquire_busy c x l k s) as (s' & Hs'); [apply HI|done|done|done|lia|congruence|].
      exists s', cv, l, k, d, y. split; [unfold bind; by rewrite Hs'|]. split_and!; try done. intros ->. congruence.
  - left. destruct Hok as [h Hh]. destruct (Inv_sleeplock s sl h HI Hh) as (Hpos & k & w & Hk & Hk0 & Hk1 & Hw).
    erewrite bind_Ret by (apply (acquire_eq c x (lk sl) k); try done; [apply HI|unfold lk; lia]). erewrite bind_Ret by (apply upd_thread_eq; exact Hv).
    destruct (sleeplock_test_ok s c x v sl h k) as (s' & E & HI' & Hr & _); try done; [by right|]. by exists s'.
Qed.

Lemma p2v_inj f a g b : fok f -> 0 < fref f a -> fok g -> 0 < fref g b -> KMAP_P2V a = KMAP_P2V b -> a = b.
Proof. intros Hf Ha Hg Hb E. rewrite <- (v2p_p2v f a), <- (v2p_p2v g b) by done. by rewrite E. Qed.

(** A new thread with a new stack. *)
Lemma memory_create idle th a a' f f' t y pa : memory idle th a f -> oalloc a = (Some t, a') -> fok f' -> fref f pa = 0 -> fref f' pa = 1 ->
  (forall b, b <> pa -> fref f' b = fref f b) -> kstack y = KMAP_P2V pa -> memory idle (<[t := y]> th) a' f' /\ th !! t = None /\ t <> 0.
Proof.
  intros [M1 M2 M3 M4 M5] Ha Hf' H0 H1 Ho Hy. destruct (oalloc_Some _ _ _ M1 Ha) as (Hok & Ht0 & Hnl & Hl).
  assert (Hnone : th !! t = None). { destruct (th !! t) as [z|] eqn:E; [|done]. by destruct (M3 t (mk_is_Some _ _ E)). }
  assert (Hst : forall u z, th !! u = Some z -> (forall c, idle !! c <> Some u) -> exists pb, kstack z = KMAP_P2V pb /\ 0 < fref f pb /\ pb <> pa).
  { intros u z Hu Hi. destruct (M4 u z Hu Hi) as (pb & ? & ?). exists pb. split_and!; [done|done|]. intros ->. lia. }
  assert (Hfresh : forall u z, th !! u = Some z -> (forall c, idle !! c <> Some u) -> kstack z <> kstack y).
  { intros u z Hu Hi E. destruct (Hst u z Hu Hi) as (pb & Hpb & Hp & Hne). apply Hne. apply (p2v_inj f _ f'); [done|done|done|lia|congruence]. }
  split; [|done]. split; [done|done|..].
  - intros u [z Hu]. apply lookup_insert_Some in Hu as [[<- _]|[_ Hu]]; rewrite Hl.
    + split; [done|]. apply elem_of_union. left. by apply elem_of_singleton.
    + destruct (M3 u (mk_is_Some _ _ Hu)). split; [done|]. apply elem_of_union. by right.
  - intros u z [[<- <-]|[_ Hu]]%lookup_insert_Some Hi; [exists pa; split; [done|lia]|]. destruct (Hst u z Hu Hi) as (pb & ? & ? & ?). exists pb. by rewrite Ho.
  - intros u w z z' [[<- <-]|[_ Hu]]%lookup_insert_Some [[<- <-]|[_ Hw]]%lookup_insert_Some Hi Hi' E; [done|..].
    + by destruct (Hfresh w z' Hw Hi').
    + by destruct (Hfresh u z Hu Hi).
    + by apply (M5 u w z z').
Qed.

(** The kernel after [thread_create]. *)
Definition created (c : Z) (x : cpu) (t : Z) (y : thread) (a : A) (f : F) (s : kern) : kern :=
  mkKern (synch_enabled s) (<[c := on (off x)]> (cpus s)) (<[t := y]> (threads s)) (ready_queue s) (spins s) (condvars s) (sleeps s)
    (if proc y =? 0 then attached s else <[proc y := default [] (attached s !! proc y) ++ [t]]> (attached s)) (ticks s) (tid_allocator s + 1) a f.
Definition new_thread (junk : threadstate_t) (nm : list Z) (pri n p vaddr : Z) : thread :=
  mkThread (take (Z.to_nat (THREAD_NAME_LEN - 1)) nm) pri n junk p InSched vaddr Code.

Lemma thread_create_eq s c x boot junk nm p pri t a pa f : Inv s -> cpus s !! c = Some x -> idle_thread x <> 0 -> oalloc (thread_allocator s) = (Some t, a) -> t <> 0 ->
  falloc (pmem s) = Ret (Some pa) f ->
  thread_create c boot junk nm p pri s = Ret t (created c x t (new_thread junk nm pri (tid_allocator s + 1) p (KMAP_P2V pa)) a f s).
Proof.
  intros HI Hc Hid Ha Ht Hf. pose proof (cpu_ok_nonneg _ _ (lo_cpu _ _ (inv_locks _ HI) c x Hc)) as Hnn.
  destruct (Inv_sys_lock s tid_lock HI) as (k & Hk & Hk0 & Hk1); [do 2 right; by left|].
  unfold thread_create. unfold bind at 1. rewrite Ha, (proj2 (Z.eqb_neq t 0) Ht). unfold cpu_idle_thread. rewrite bind_assoc.
  erewrite bind_load by (simpl; exact Hc). rewrite bind_ret, (proj2 (Z.eqb_neq _ 0) Hid), bind_assoc.
  erewrite bind_Ret by (unfold zoom; simpl; rewrite Hf; done). rewrite bind_ret. cbn [option_map].
  rewrite (acquire_release_eq _ c x tid_lock k (fun s => set_tid (tid_allocator s + 1) s)); try done; [|apply HI].
  rewrite bind_gets. unfold put_thread. rewrite bind_modify, bind_ret. unfold proc_attach_thread. rewrite bind_assoc, bind_kassert by (by apply negb_true_iff, Z.eqb_neq).
  unfold created, new_thread. cbn [proc]. destruct (p =? 0); done.
Qed.

Lemma Inv_memory s a f : Inv s -> memory (idles s) (threads s) a f -> Inv (set_alloc a (set_pmem f s)).
Proof. by intros [I1 I2 I3 I6 I4 I5] Hm. Qed.

Lemma create_inv s c x a f t y att n : Inv s -> cpus s !! c = Some x -> memory (idles s) (<[t := y]> (threads s)) a f -> threads s !! t = None -> state y = READY -> next y = Code ->
  Inv (mkKern (synch_enabled s) (<[c := on (off x)]> (cpus s)) (<[t := y]> (threads s)) (ready_queue s ++ [t]) (spins s) (condvars s) (sleeps s) att (ticks s) n a f).
Proof.
  intros HI Hc Hm Ht Hs Hn. pose proof HI as [I1 I2 I3 I6 I4 I5]. pose proof (lo_cpu _ _ I3 c x Hc) as Hok. split; simpl; try done.
  - unfold idles, currents. simpl. rewrite (idles_same s c x), (currents_same s c x) by done. by apply place_create.
  - by apply (locks_flags _ _ c x); [..|apply onoff_ok|].
  - apply (unlocked_cpu _ _ c x); try done; [|left; simpl; pose proof (cpu_ok_nonneg _ _ Hok); lia].
    intros d z w Hd Hw Hnc. apply lookup_insert_Some in Hw as [[_ <-]|[_ Hw]]; [done|by apply (I6 d z w)].
  - destruct I4 as [S1 S2 S3]. split; [done| |].
    + intros u z [[<- <-]|[_ Hu]]%lookup_insert_Some; [by rewrite Hn|by apply (S2 u)].
    + intros sl h Hsl. destruct (S3 sl h Hsl) as (? & ? & w & Hw & Ha). split_and!; [done|done|]. exists w. split; [done|]. intros E.
      destruct (Ha E) as [?|(u & z & Hu & ?)]; [by left|right]. exists u, z. split; [|done]. rewrite lookup_insert_ne; [done|]. intros <-. congruence.
  - unfold idles. simpl. by rewrite (idles_same s c x).
Qed.

Lemma thread_create_ok s c x junk nm p pri func : Inv s -> cpus s !! c = Some x -> p <> 0 \/ func <> 0 ->
  exists s', exec (Create c junk nm p pri func) s = Ret tt s' /\ Inv s' /\ grows s s'.
Proof.
  intros HI Hc Hp. pose proof HI as [I1 I2 I3 I6 I4 I5]. pose proof I5 as [M1 M2 M3 M4 M5]. pose proof (cpu_ok_nonneg _ _ (lo_cpu _ _ I3 c x Hc)) as Hnn.
  assert (Hidle : idle_thread x <> 0). { destruct (pl_idle _ _ _ _ _ I2 c _ (lookup_idles _ _ _ Hc)) as (z & Hz & _). by apply M3; exists z. }
  cbn [exec]. destruct (oalloc (thread_allocator s)) as [[t|] a] eqn:Ea; cycle 1.
  { eexists. split; [unfold thread_create, bind; rewrite Ea; done|]. destruct (oalloc_None _ _ M1 Ea) as [Hok Hl]. split; [|exists []; by rewrite app_nil_r].
    apply (Inv_memory s a (pmem s)) in HI; [by destruct s|]. split; try done. by rewrite Hl. }
  destruct (oalloc_Some _ _ _ M1 Ea) as (Hoka & Ht0 & Hnl & Hl).
  destruct (falloc_spec _ M2) as [(f & Ef & Hf & Hfe)|(pa & f & Ef & Hf & H0 & H1 & Hfo)].
  { eexists. split.
    - unfold thread_create. rewrite bind_assoc. unfold bind at 1. rewrite Ea, (proj2 (Z.eqb_neq t 0) Ht0). unfold cpu_idle_thread. rewrite !bind_assoc.
      erewrite bind_load by (simpl; exact Hc). rewrite bind_ret, (proj2 (Z.eqb_neq _ 0) Hidle), !bind_assoc.
      erewrite bind_Ret by (unfold zoom; simpl; rewrite Ef; done). done.
    - split; [|exists []; by rewrite app_nil_r].
      apply (Inv_memory s a f) in HI; [by destruct s|]. split; try done; [|intros u z Hu Hi; destruct (M4 u z Hu Hi) as (pb & ? & ?); exists pb; by rewrite Hfe].
      intros u Hu. destruct (M3 u Hu). split; [done|]. rewrite Hl. apply elem_of_union. by right. }
  rewrite (bind_Ret _ _ _ _ _ (thread_create_eq s c x 0 junk nm p pri t a pa f HI Hc Hidle Ea Ht0 Ef)). rewrite (proj2 (Z.eqb_neq t 0) Ht0).
  unfold thread_start_context. rewrite bind_kassert by (by apply negb_true_iff, Z.eqb_neq). erewrite bind_load by (simpl; apply lookup_insert_eq).
  rewrite bind_kassert by (simpl; apply orb_true_iff; rewrite !negb_true_iff, !Z.eqb_neq; done). unfold put_thread. rewrite bind_modify.
  set (y := set_ctx InStart _). set (s2 := set_threads _ _).
  erewrite (sched_ready_eq s2 c (on (off x)) t y); [|apply HI|apply lookup_insert_eq|simpl; lia|by apply (Inv_sys_lock s); [|left]|done|apply lookup_insert_eq].
  eexists. split; [done|]. split; [|by exists [t]].
  destruct (memory_create _ _ _ _ _ f t (set_state READY y) pa I5 Ea Hf H0 H1 Hfo eq_refl) as (Hm & Hnone & _).
  pose proof (create_inv s c x a f t (set_state READY y) (attached s2) (tid_allocator s + 1) HI Hc Hm Hnone eq_refl eq_refl) as HI'.
  eapply eq_ind; [exact HI'|]. apply kern_ext; simpl; rewrite ?insert_insert_eq, ?onoff_idem; done.
Qed.

Lemma locks_new cs sp l k : locks cs sp -> sp !! l = None -> lock_status k = 0 -> holder k = 0 -> locks cs (<[l := k]> sp).
Proof.
  intros [L1 L2] Hl H0 H1. split.
  - intros c x Hc. destruct (L1 c x Hc) as (? & ? & ?). split_and!; [done| |done]. rewrite heldby_new by done. rewrite bool_decide_false by congruence. simpl. lia.
  - intros l' k' [[<- <-]|[_ Hk]]%lookup_insert_Some; [by left|by apply (L2 l')].
Qed.

Lemma Inv_new_spin s l k : Inv s -> spins s !! l = None -> lock_status k = 0 -> holder k = 0 -> Inv (set_spins (<[l := k]> (spins s)) s).
Proof.
  intros [I1 I2 I3 I6 I4 I5] Hl H0 H1. split; try done; [by apply locks_new|]. apply sleepers_spin; [done|by left].
Qed.

Lemma Inv_new_cv s cv : Inv s -> condvars s !! cv = None -> Inv (set_condvars (<[cv := []]> (condvars s)) s).
Proof.
  intros [I1 I2 I3 I6 I4 I5] Hcv. split; try done; [by apply place_newcv|]. apply sleepers_cv; [done|]. by left.
Qed.

Lemma new_sleep_ok s sl : Inv s -> 0 < sl -> spins s !! sl = None -> condvars s !! waiters sl = None ->
  exists s', sleeplock_init sl s = Ret tt s' /\ Inv s' /\ grows s s'.
Proof.
  intros HI Hs Hl Hcv. unfold sleeplock_init, spinlock_init, condvar_init, put_spin, put_cv, put_sleep.
  rewrite bind_kassert by (apply negb_true_iff, Z.eqb_neq; lia). rewrite bind_assoc, bind_kassert by (apply negb_true_iff, Z.eqb_neq; unfold lk; lia). rewrite bind_modify.
  rewrite bind_assoc, bind_kassert by (apply negb_true_iff, Z.eqb_neq; unfold waiters; lia). rewrite bind_modify. eexists. split; [done|]. split; [|exists []; by rewrite app_nil_r].
  pose proof (Inv_new_cv _ (waiters sl) (Inv_new_spin s (lk sl) (mkSpin 0 0 0) HI Hl eq_refl eq_refl) Hcv) as [I1 I2 I3 I6 I4 I5]. split; try done.
  assert (Hsl : sleeps s !! sl = None). { destruct (sleeps s !! sl) as [h|] eqn:E; [|done]. destruct (sp_sleep _ _ _ _ (inv_sleepers _ HI) sl h E) as (_ & (k & ? & _) & _). congruence. }
  destruct (inv_sleepers _ HI) as [T1 T2 _]. destruct I4 as [S1 S2 S3]. split; simpl in *.
  - intros l Hsys. destruct (S1 l Hsys) as [Hf Hno]. split; [done|]. rewrite lookup_insert_ne; [done|]. intros <-. destruct (T1 sl Hsys) as [(k & ? & _) _]. congruence.
  - intros t x Hx. specialize (S2 t x Hx). specialize (T2 t x Hx). destruct (next x) as [|cv l|s1]; [done| |apply lookup_insert_is_Some'; by right].
    destruct S2 as [(H1 & H2 & H3) (H4 & H5 & H6)]. destruct T2 as [(_ & [? Hl'] & _) (_ & [? Hcv'] & _)]. split; split_and!; try done; rewrite lookup_insert_ne; try done.
    + intros <-. congruence.
    + intros E. unfold waiters in Hcv. replace (sl + 16) with cv in Hcv by lia. congruence.
  - intros s1 h [[<- <-]|[_ Hs1]]%lookup_insert_Some; [|by apply (S3 s1)]. split; [done|]. split; [exists (mkSpin 0 0 0); by rewrite lookup_insert_eq|].
    exists []. rewrite lookup_insert_eq. split; [done|by left].
Qed.

(** ** Every step *)

(** The ready queue after a step: it is a queue, from whose front one thread is
    taken by a switch; a timer interrupt always switches unless it is empty. *)
Definition is_timer (o : op) : bool := match o with Timer _ => true | _ => false end.
Definition moved (s : kern) (o : op) (s' : kern) : Prop :=
  grows s s' /\ (is_timer o = true -> ready_queue s = []) \/ exists c x l, cpus s !! c = Some x /\ switched_to s c x (ready_queue s ++ l) s'.

(** A step cannot be made now: the lock it needs is held by the thread of
    another processor. *)
Definition spinning (s : kern) (o : op) : Prop :=
  exists c l k d y, spins s !! l = Some k /\ d <> c /\ cpus s !! d = Some y /\ holder k = current y /\
    match o with
    | Acquire c' l' => c' = c /\ l' = l
    | Return c' => c' = c /\ exists x v cv, cpus s !! c = Some x /\ threads s !! current x = Some v /\ next v = CvWait cv l
    | _ => False
    end.

Lemma moved_same s o s' : ready_queue s' = ready_queue s -> is_timer o = false -> moved s o s'.
Proof. intros E H. left. split; [exists []; by rewrite app_nil_r|]. congruence. Qed.

Lemma moved_grows s o s' : grows s s' -> is_timer o = false -> moved s o s'.
Proof. intros E H. left. split; [done|]. congruence. Qed.

Lemma moved_switched s o c x s' : cpus s !! c = Some x -> switched_to s c x (ready_queue s) s' -> moved s o s'.
Proof. intros Hc H. right. exists c, x, []. by rewrite app_nil_r. Qed.

Lemma moved_either s o c x s' : cpus s !! c = Some x -> kept_or_switched s c x s' -> is_timer o = false -> moved s o s'.
Proof. intros Hc [H|H] Ho; [by apply moved_same|by apply (moved_switched s o c x)]. Qed.

Lemma exec_ok s o : Inv s -> allowed s o ->
  (exists s', exec o s = Ret tt s' /\ Inv s' /\ moved s o s') \/ (exists s', exec o s = Halt Block s' /\ spinning s o).
Proof.
  intros HI Ha. destruct o; simpl in Ha.
  - destruct Ha as (x & Hc & Hl & Hh). destruct (spin_acquire_ok s c x l HI Hc Hl Hh) as [(s' & E & HI' & _ & _ & Hq)|(s' & k & d & y & E & ? & ? & ? & ?)]; [left|right].
    + exists s'. split_and!; [done|done|by apply moved_same].
    + exists s'. split; [done|]. by exists c, l, k, d, y.
  - destruct Ha as (x & Hc & Hl & Hh). destruct (try_acquire_ok s c x l HI Hc Hl Hh) as (e & s' & E & HI' & Hq). left.
    exists s'. split_and!; [simpl; by rewrite (bind_Ret _ _ _ _ _ E)|done|by apply moved_same].
  - destruct Ha as (x & [Hc _] & Hl & Hh). destruct (release_lock_ok s c x l HI Hc Hl Hh) as (s' & E & HI' & Hq). left. exists s'. split_and!; [done|done|by apply moved_same].
  - destruct Ha as (x & [Hc (v & Hv & Hn)] & Hl & Hcv & Hid & Hh & H1). left. destruct (wait_op_ok s c x v cv l) as (s' & E & HI' & Hq); try done.
    exists s'. split_and!; [done|done|by apply (moved_switched s _ c x)].
  - destruct Ha as (x & [Hc _] & Hcv0 & Hcv & _). left. destruct (signal_ok s c x cv HI Hc Hcv0 Hcv) as (s' & E & HI' & Hq). exists s'. split_and!; [done|done|by apply moved_grows].
  - destruct Ha as (x & [Hc _] & Hcv0 & Hcv & _). left. destruct (broadcast_ok s c x cv HI Hc Hcv0 Hcv) as (s' & E & HI' & Hq). exists s'. split_and!; [done|done|by apply moved_grows].
  - destruct Ha as (x & [Hc (v & Hv & Hn)] & Hs & Hid & H0). left. destruct (sleep_acquire_ok s c x v s0) as (s' & E & HI' & Hq); try done.
    exists s'. split_and!; [done|done|by apply (moved_either s _ c x)].
  - destruct Ha as (x & [Hc _] & Hs). left. destruct (sleep_release_ok s c x s0 HI Hc Hs) as (s' & E & HI' & Hq). exists s'. split_and!; [done|done|by apply moved_grows].
  - destruct Ha as (x & v & Hc & Hv & Hn). destruct (return_ok s c x v HI Hc Hv Hn) as [(s' & E & HI' & Hq)|(s' & cv & l & k & d & y & E & Hcv & ? & ? & ? & ?)]; [left|right].
    + exists s'. split_and!; [done|done|by apply (moved_either s _ c x)].
    + exists s'. split; [done|]. exists c, l, k, d, y. split_and!; try done. eauto 10.
  - destruct Ha as (x & Hc & Hf). left. destruct (timer_ok s c x HI Hc Hf) as (s' & E & HI' & Hq). exists s'. split_and!; [done|done|].
    destruct Hq as [[Hq Hq']|[_ Hq]]; [left; split; [exists []; by rewrite Hq, Hq'|done]|right].
    unfold queue1 in Hq. rewrite bool_decide_true in Hq by done. exists c, x. destruct (negb _); simpl in Hq; [by exists [current x]|exists []; by rewrite app_nil_r].
  - destruct Ha as (x & [Hc _] & Hp). left. destruct (thread_create_ok s c x junk nm p pri func HI Hc Hp) as (s' & E & HI' & Hq). exists s'. split_and!; [done|done|by apply moved_grows].
  - destruct Ha as (x & [Hc (v & Hv & Hn)] & Hid & H0). left. destruct (thread_exit_ok s c x v) as (s' & E & HI' & Hq); try done.
    exists s'. split_and!; [done|done|by apply (moved_switched s _ c x)].
  - destruct Ha as (Hl0 & Hl). left. eexists. split; [simpl; unfold spinlock_init; rewrite bind_kassert by (by apply negb_true_iff, Z.eqb_neq); done|].
    split; [by apply Inv_new_spin|by apply moved_same].
  - destruct Ha as (Hl0 & Hl & _). left. eexists. split; [simpl; unfold condvar_init; rewrite bind_kassert by (by apply negb_true_iff, Z.eqb_neq); done|].
    split; [by apply Inv_new_cv|by apply moved_same].
  - destruct Ha as (Hl0 & Hl & Hcv). left. destruct (new_sleep_ok s s0 HI Hl0 Hl Hcv) as (s' & E & HI' & Hq). exists s'. split_and!; [done|done|by apply moved_grows].
Qed.

(** ** Runs *)

Lemma sched_steps_inv s s' : Inv s -> rtc step s s' -> Inv s'.
Proof.
  intros HI. induction 1 as [|s s1 s' (o & Ha & E) _ IH]; [done|]. apply IH.
  destruct (exec_ok s o HI Ha) as [(s2 & E2 & HI2 & _)|(s2 & E2 & _)]; congruence.
Qed.

(** C8. Starting from a state in which the invariant holds (as after the start of
    the processors), however the processors' calls of the lock, condition
    variable, sleeplock and thread operations and the timer interrupts
    interleave: every thread is in one place, once (on one processor, in the
    ready queue, or in the queue of the one condition variable it waits for);
    spinlocks are held by running threads with interrupts off, and counted; and
    a call that obeys the rules never panics or faults, it returns and keeps
    this so, or spins for a lock that a thread running on another processor
    holds. *)
Theorem threads_safe s0 s o : Inv s0 -> rtc step s0 s ->
  Inv s /\ (allowed s o -> (exists s', exec o s = Ret tt s' /\ Inv s') \/ (exists s', exec o s = Halt Block s' /\ spinning s o)).
Proof.
  intros HI Hr. pose proof (sched_steps_inv s0 s HI Hr) as HI'. split; [done|]. intros Ha. destruct (exec_ok s o HI' Ha) as [(s' & E & ? & _)|?]; eauto.
Qed.

(** C26. No wakeup of a sleeplock is lost: in every reachable state, when threads
    sleep for a sleeplock that nobody holds, some other thread of its loop has
    been woken up and is ready or running; and when such a thread runs and the
    lock is still free, it returns from [condvar_wait] and takes it. *)
Theorem sleeplock_no_lost_wakeup s0 s sl w : Inv s0 -> rtc step s0 s ->
  sleeps s !! sl = Some 0 -> condvars s !! waiters sl = Some w -> w <> [] ->
  exists t v, threads s !! t = Some v /\ next v = SlWait sl /\ t ∉ w /\ (t ∈ ready_queue s \/ exists c, currents s !! c = Some t) /\
    forall c x, cpus s !! c = Some x -> current x = t -> exists s', exec (Return c) s = Ret tt s' /\ sleeps s' !! sl = Some t.
Proof.
  intros HI Hr Hs Hw Hne. pose proof (sched_steps_inv s0 s HI Hr) as HI'. destruct (sp_sleep _ _ _ _ (inv_sleepers _ HI') sl 0 Hs) as (_ & _ & w' & Hw' & Ha).
  destruct (Ha eq_refl) as [?|(t & v & Hv & Hn & Hst)]; [congruence|]. exists t, v. split_and!; [done|done| | |].
  - intros Hin. destruct (proj2 (pl_wait _ _ _ _ _ (inv_place _ HI') _ w Hw) t Hin) as (v' & Hv' & Hs' & _). destruct Hst; congruence.
  - pose proof (pl_all _ _ _ _ _ (inv_place _ HI') t v Hv) as Hall. destruct Hst as [E|E]; rewrite E in Hall; [|by right]. destruct Hall as [?|[c Hc]]; [by left|].
    destruct (pl_idle _ _ _ _ _ (inv_place _ HI') c t Hc) as (v' & Hv' & Hn' & _). congruence.
  - intros c x Hc <-. by apply (return_takes s c x v sl).
Qed.

(** [allowed] is decidable. *)
Definition code_cpu (s : kern) (c : Z) : option cpu :=
  x ← cpus s !! c; t ← threads s !! current x; match next t with Code => Some x | _ => None end.
Definition user_lockb (s : kern) (l : Z) : bool :=
  bool_decide (l ∉ [0; sched_lock; timer_lock; tid_lock]) && bool_decide (is_Some (spins s !! l)) && bool_decide (sleeps s !! l = None).
Definition user_cvb (s : kern) (cv : Z) : bool := bool_decide (cv <> 0) && bool_decide (is_Some (condvars s !! cv)) && bool_decide (sleeps s !! (cv - 16) = None).
Definition holdsb (s : kern) (t l : Z) : bool := match spins s !! l with Some k => holder k =? t | None => false end.
Definition allowedb (s : kern) (o : op) : bool :=
  let code c f := match code_cpu s c with Some x => f x | None => false end in
  match o with
  | Acquire c l | TryAcquire c l => code c (fun x => user_lockb s l && negb (holdsb s (current x) l))
  | Release c l => code c (fun x => user_lockb s l && holdsb s (current x) l)
  | Wait c cv l => code c (fun x => user_lockb s l && user_cvb s cv && negb (current x =? idle_thread x) && holdsb s (current x) l && (num_disabled x =? 1))
  | Signal c cv | Broadcast c cv => code c (fun _ => user_cvb s cv)
  | SleepAcquire c sl => code c (fun x => bool_decide (is_Some (sleeps s !! sl)) && negb (current x =? idle_thread x) && (num_disabled x =? 0))
  | SleepRelease c sl => code c (fun x => bool_decide (sleeps s !! sl = Some (current x)))
  | Return c => match cpus s !! c with
                | Some x => match threads s !! current x with Some t => match next t with Code => false | _ => true end | None => false end
                | None => false
                end
  | Timer c => match cpus s !! c with Some x => fl_if x | None => false end
  | Create c _ _ p _ func => code c (fun _ => negb (p =? 0) || negb (func =? 0))
  | Exit c => code c (fun x => negb (current x =? idle_thread x) && (num_disabled x =? 0))
  | NewSpin l _ => negb (l =? 0) && bool_decide (spins s !! l = None)
  | NewCv cv => negb (cv =? 0) && bool_decide (condvars s !! cv = None) && bool_decide (sleeps s !! (cv - 16) = None)
  | NewSleep sl => (0 <? sl) && bool_decide (spins s !! sl = None) && bool_decide (condvars s !! (sl + 16) = None)
  end.

Lemma code_cpu_spec s c x : code_cpu s c = Some x -> at_code s c x.
Proof.
  unfold code_cpu, at_code. destruct (cpus s !! c) as [y|]; [|done]. simpl. destruct (threads s !! current y) as [t|] eqn:E; [|done]. simpl.
  destruct (next t) eqn:En; [|done|done]. intros [= <-]. eauto.
Qed.

Lemma holdsb_spec s t l : reflect (holds s t l) (holdsb s t l).
Proof.
  unfold holdsb, holds. destruct (spins s !! l) as [k|]; [|right; naive_solver]. destruct (Z.eqb_spec (holder k) t); [left; eauto|right; naive_solver].
Qed.

Ltac split_allowed := repeat match goal with
  | H : (_ && _) = true |- _ => apply andb_true_iff in H as [? H]
  | H : bool_decide _ = true |- _ => apply bool_decide_eq_true in H
  | H : holdsb _ _ _ = true |- _ => apply (reflect_iff _ _ (holdsb_spec _ _ _)) in H
  | H : negb (holdsb ?s ?t ?l) = true |- _ => destruct (holdsb_spec s t l) in H; [done|clear H]
  end.

Lemma allowedb_spec s o : allowedb s o = true -> allowed s o.
Proof.
  unfold allowedb, allowed, user_lockb, user_cvb, user_lock, user_cv.
  destruct o; try (destruct (code_cpu s c) as [x|] eqn:Ec; [apply code_cpu_spec in Ec|done]; intros H; exists x; split; [done|]); try (intros H); split_allowed; zbool; try naive_solver.
  - destruct (cpus s !! c) as [x|]; [|done]. destruct (threads s !! current x) as [t|] eqn:E; [|done]. exists x, t. split_and!; [done|done|]. by destruct (next t).
  - destruct (cpus s !! c) as [x|]; [|done]. eauto.
  - apply orb_true_iff in H as [H|H]; zbool; auto.
Qed.

(** A run with its calls. *)
Inductive trace : kern -> list op -> kern -> Prop :=
| trace_nil s : trace s [] s
| trace_cons s o s1 os s' : allowed s o -> exec o s = Ret tt s1 -> trace s1 os s' -> trace s (o :: os) s'.

Fixpoint run (os : list op) (s : kern) : option kern :=
  match os with
  | [] => Some s
  | o :: os' => if allowedb s o then match exec o s with Ret _ s1 => run os' s1 | Halt _ _ => None end else None
  end.

Lemma run_trace os s s' : run os s = Some s' -> trace s os s'.
Proof.
  revert s. induction os as [|o os IH]; intros s H; simpl in H; [injection H as ->; constructor|].
  destruct (allowedb s o) eqn:Ea; [|done]. destruct (exec o s) as [[] s1|] eqn:E; [|done]. econstructor; [by apply allowedb_spec|done|auto].
Qed.

Lemma trace_rtc s os s' : trace s os s' -> rtc step s s'.
Proof. induction 1; [done|]. econstructor; [by eexists|done]. Qed.

Lemma moved_position s o s' l1 t l2 : moved s o s' -> ready_queue s = l1 ++ t :: l2 ->
  (exists c x, cpus s' !! c = Some x /\ current x = t) \/
  exists l1' l2', ready_queue s' = l1' ++ t :: l2' /\ (length l1' <= length l1)%nat /\ (is_timer o = true -> (length l1' < length l1)%nat).
Proof.
  intros [[[l Hl] Ht]|(c & x & l & Hc & u & Hcs & Hu)] Hq; [right|].
  - exists l1, (l2 ++ l). rewrite Hl, Hq, <- app_assoc. split_and!; [done|done|]. intros E. rewrite (Ht E) in Hq. by destruct l1.
  - rewrite Hq in Hu. destruct Hu as [Hu|[Hu _]]; [|by destruct l1]. destruct l1 as [|z l1]; injection Hu as -> Hu; [left|right].
    + exists c. eexists. rewrite Hcs, lookup_insert_eq. done.
    + exists l1, (l2 ++ l). simpl. rewrite <- Hu, <- app_assoc. split_and!; [done|lia|lia].
Qed.

(** C27. The ready queue is served in order: in every run with more timer interrupts
    (on whatever processors) than there are threads before [t] in the ready
    queue, there is a point at which [t] runs. *)
Theorem ready_thread_runs s os s' l1 t l2 : Inv s -> ready_queue s = l1 ++ t :: l2 -> trace s os s' ->
  (length l1 < length (filter (fun o => is_timer o = true) os))%nat ->
  exists os1 os2 sm c x, os = os1 ++ os2 /\ trace s os1 sm /\ trace sm os2 s' /\ cpus sm !! c = Some x /\ current x = t.
Proof.
  intros HI Hq Htr. revert l1 l2 HI Hq. induction Htr as [s|s o s1 os s' Ha E Htr IH]; intros l1 l2 HI Hq Hn; [simpl in Hn; lia|].
  destruct (exec_ok s o HI Ha) as [(s2 & E2 & HI2 & Hm)|(s2 & E2 & _)]; [|congruence]. assert (s2 = s1) as -> by congruence.
  destruct (moved_position s o s1 l1 t l2 Hm Hq) as [(c & x & Hc & Hx)|(l1' & l2' & Hq' & Hle & Hlt)].
  - exists [o], os, s1, c, x. split_and!; try done. econstructor; [done|done|constructor].
  - destruct (IH l1' l2' HI2 Hq') as (os1 & os2 & sm & c & x & -> & ? & ? & ? & ?).
    + rewrite filter_cons in Hn. case_decide as Ht; [specialize (Hlt Ht); simpl in Hn; lia|lia].
    + exists (o :: os1), os2, sm, c, x. split_and!; try done. by econstructor.
Qed.

(** A thread that exits while a new thread is first in the ready queue is not
    freed: [thread_start] does not look at the thread it replaces. *)
Lemma exit_to_new_thread_leaks s c x v t u q : Inv s -> cpus s !! c = Some x -> threads s !! current x = Some v -> current x <> idle_thread x -> num_disabled x = 0 ->
  ready_queue s = t :: q -> threads s !! t = Some u -> sched_ctx u = InStart ->
  exists s' z, exec (Exit c) s = Ret tt s' /\ threads s' !! current x = Some z /\ state z = ZOMBIE /\ thread_allocator s' = thread_allocator s /\ pmem s' = pmem s.
Proof.
  intros HI Hc Hv Hid H0 Hq Hu Hk. destruct (Inv_sys_lock s sched_lock HI) as (k & Hk0 & Hk1 & Hk2); [by left|].
  destruct (running_thread s c x HI Hc) as (v' & _ & _ & Hnr). assert (Hne : t <> current x) by (intros ->; apply Hnr; rewrite Hq; by left).
  destruct (pl_ready _ _ _ _ _ (inv_place _ HI) t) as (u' & Hu' & Hs & _); [rewrite Hq; by left|]. assert (u' = u) as -> by congruence.
  exists (switch_state c x (current x) (set_state ZOMBIE v) t u q (spins s) s), (set_ctx InSched (set_state ZOMBIE v)). split_and!; try done.
  - simpl. unfold thread_exit. rewrite (sched_sched_eq s c x ZOMBIE 0 (spins s) v t u q k); try done; [|apply HI|apply (lo_cpu _ _ (inv_locks _ HI) c x Hc)|by left|naive_solver|by left].
    unfold reaped. rewrite Hk. done.
  - simpl. rewrite lookup_insert_ne, lookup_insert_eq; done.
Qed.

End model.
Arguments kern : clear implicits.

(** ** Two processors *)

Definition ex_cpu (i : Z) : cpu := mkCpu i i 0 true true i.
Definition ex_idle (n stack : Z) : thread := mkThread [] DEFAULT_PRI n RUNNING 0 InSched stack Code.
Definition boot : kern Bump.bump BumpFrames.bframes :=
  mkKern true {[0 := ex_cpu 100; 1 := ex_cpu 101]} {[100 := ex_idle 1 8192; 101 := ex_idle 2 12288]} []
    {[sched_lock := mkSpin 0 1 0; timer_lock := mkSpin 0 1 0; tid_lock := mkSpin 0 0 0]} ∅ ∅ ∅ 0 2
    (Bump.mkBump 10 102 {[100; 101]}) (BumpFrames.mkBframes PG_SIZE (100 * PG_SIZE) ∅).

Ltac by_entries := repeat match goal with
  | H : (<[_ := _]> _) !! _ = Some _ |- _ => apply lookup_insert_Some in H as [[? ?]|[? H]]
  | H : {[_ := _]} !! _ = Some _ |- _ => apply lookup_singleton_Some in H as [? ?]
  | H : ∅ !! _ = Some _ |- _ => by rewrite lookup_empty in H
  end.

Lemma boot_inv : Inv boot.
Proof.
  split; [done|..].
  - change (idles boot) with ({[0 := 100; 1 := 101]} : gmap Z Z). change (currents boot) with ({[0 := 100; 1 := 101]} : gmap Z Z). split; simpl.
    + intros c d t Hc Hd. by_entries; congruence.
    + intros c d t Hc Hd. by_entries; congruence.
    + intros c d t Hc Hd. by_entries; congruence.
    + intros c t Hc. by_entries; subst; eexists; split; reflexivity.
    + intros c t Hc. by_entries; subst; eexists; (split; [reflexivity|]); (split; [reflexivity|by left]).
    + constructor.
    + intros t Ht. by apply elem_of_nil in Ht.
    + intros cv w Hw. by_entries.
    + intros t x Ht. by_entries; subst; simpl; [exists 0|exists 1]; reflexivity.
  - split; simpl.
    + intros c x Hc. by_entries; subst; (split; [done|]); (split; [vm_compute; reflexivity|done]).
    + intros l k Hl. by_entries; subst; by left.
  - intros c x v Hc Hv Hn. simpl in *. by_entries; subst; done.
  - split; simpl.
    + intros l Hl. rewrite !elem_of_cons, elem_of_nil in Hl. destruct Hl as [->|[->|[->|[]]]]; (split; [eexists; split; reflexivity|reflexivity]).
    + intros t x Ht. by_entries; subst; done.
    + intros sl h Hs. by_entries.
  - change (idles boot) with ({[0 := 100; 1 := 101]} : gmap Z Z). split; simpl.
    + split; [done|]. intros p [->%elem_of_singleton| ->%elem_of_singleton]%elem_of_union; done.
    + assert (Hz : forall a, BumpFrames.fcount (BumpFrames.mkBframes PG_SIZE (100 * PG_SIZE) ∅) a = 0) by done.
      split; [done|]. split; [by exists 1|]. split; [done|]. split; intros a; rewrite Hz; lia.
    + intros t [x Ht]. by_entries; subst; split; [done|by apply elem_of_union_l, elem_of_singleton|done|by apply elem_of_union_r, elem_of_singleton].
    + intros t x Ht Hi. by_entries; subst; [by destruct (Hi 0)|by destruct (Hi 1)].
    + intros t u x y Ht Hu Hi. by_entries; subst; done.
Qed.
(** Two threads wait for a sleeplock that a third one releases. *)
Definition ex_ops : list op :=
  [NewSleep 1000; Create 0 RUNNING [] 0 DEFAULT_PRI 7; Create 0 RUNNING [] 0 DEFAULT_PRI 7; Timer 0; SleepAcquire 0 1000; Timer 1; SleepAcquire 1 1000;
   Create 0 RUNNING [] 0 DEFAULT_PRI 7; Timer 1; SleepAcquire 1 1000; SleepRelease 0 1000].
Definition after (os : list op) : kern Bump.bump BumpFrames.bframes := default boot (run os boot).

Lemma after_trace os : is_Some (run os boot) -> trace boot os (after os).
Proof. intros [s E]. unfold after. rewrite E. by apply run_trace. Qed.

Lemma threads_safe_witness : Inv (after ex_ops) /\ (exists s', exec (Timer 1) (after ex_ops) = Ret tt s' /\ Inv s').
Proof.
  assert (H : is_Some (run ex_ops boot)) by (vm_compute; eauto).
  destruct (threads_safe boot (after ex_ops) (Timer 1) boot_inv (trace_rtc _ _ _ (after_trace _ H))) as [HI Ho]. split; [exact HI|].
  destruct Ho as [E|(s' & E & _)]; [apply allowedb_spec; vm_compute; reflexivity|exact E|]. vm_compute in E. discriminate E.
Defined.

Lemma sleeplock_no_lost_wakeup_witness : exists t v, threads (after ex_ops) !! t = Some v /\ next v = SlWait 1000 /\ t ∉ [104].
Proof.
  assert (H : is_Some (run ex_ops boot)) by (vm_compute; eauto).
  destruct (sleeplock_no_lost_wakeup boot (after ex_ops) 1000 [104] boot_inv (trace_rtc _ _ _ (after_trace _ H))) as (t & v & ? & ? & ? & _); [vm_compute; reflexivity..|discriminate|].
  exists t, v. auto.
Defined.

Lemma ready_thread_runs_witness : exists os1 os2 sm c x, [Signal 0 77; Timer 1; Timer 0] = os1 ++ os2 /\
  trace (after (NewCv 77 :: take 3 ex_ops)) os1 sm /\ cpus sm !! c = Some x /\ current x = 103.
Proof.
  assert (H : is_Some (run (NewCv 77 :: take 3 ex_ops) boot)) by (vm_compute; eauto).
  destruct (ready_thread_runs (after (NewCv 77 :: take 3 ex_ops)) [Signal 0 77; Timer 1; Timer 0] (default boot (run [Signal 0 77; Timer 1; Timer 0] (after (NewCv 77 :: take 3 ex_ops)))) [102] 103 [])
    as (os1 & os2 & sm & c & x & ? & ? & _ & ? & ?).
  - apply (sched_steps_inv boot); [exact boot_inv|exact (trace_rtc _ _ _ (after_trace _ H))].
  - vm_compute. reflexivity.
  - apply run_trace. vm_compute. reflexivity.
  - vm_compute. lia.
  - exists os1, os2, sm, c, x. auto.
Defined.

End Sched.
