(* ===== verification/Console.v ===== *)
(** * The console: kernel/console.c, kernel/drivers (keyboard.c, cga.c, uart.c)

    Characters come in from the keyboard and the serial line and go through a
    line editor into a ring buffer of 256 bytes, from which readers take them.
    Output goes to the serial line and to the screen.  The theorems show that
    the ring buffer with its three 32-bit indices is a line editor, that the
    screen is never written outside its 2000 cells, and what numbers are printed
    as.  A reader that finds no line sleeps; its call is split there. *)

From S2P Require Import Prelude Lib.
Local Open Scope kernel_scope.

Module Console.

Definition BUF_LEN : Z := 256.
Definition BACKSPACE : Z := 256. (* 0x100 *)
Definition ctl (x : Z) : Z := x - 64. (* C(x), '@' is 64 *)
Definition NL : Z := 10.
Definition CR : Z := 13.
Definition RES_X : Z := 80.
Definition RES_Y : Z := 25.
Definition ATB_NORMAL : Z := 1792. (* 0x0700 *)

(** Bytes are 0..255; [Str.schar] is the [int] a [char] is promoted to. *)
Record input := mkInput { buf : list Z; rd : Z; wr : Z; ed : Z }.

(** The buffer, the screen with the cursor register of the video controller, the
    bytes sent on the serial line, and the sleeping readers. *)
Record console := mkConsole {
  inp : input;
  cga_mem : option (list Z);
  cursor : Z;
  uart_initialized : bool;
  uart_out : list Z;
  read_cv : list Z;
}.

Definition set_inp i s := mkConsole i (cga_mem s) (cursor s) (uart_initialized s) (uart_out s) (read_cv s).
Definition set_screen m c s := mkConsole (inp s) m c (uart_initialized s) (uart_out s) (read_cv s).
Definition set_out o s := mkConsole (inp s) (cga_mem s) (cursor s) (uart_initialized s) o (read_cv s).
Definition set_read_cv l s := mkConsole (inp s) (cga_mem s) (cursor s) (uart_initialized s) (uart_out s) l.

(** ** Output *)

Definition uart_putc (c : Z) : M console unit :=
  s <- gets (fun s => s) ;;
  if negb (uart_initialized s) then ret tt else modify (set_out (uart_out s ++ [u8 c])).

(** [cga_putc]: a store outside the 80 * 25 cells is a fault. *)
Definition cga_putc (c : Z) : M console unit :=
  s <- gets (fun s => s) ;;
  match cga_mem s with
  | None => ret tt
  | Some m =>
      let cur := cursor s in
      r <- (if c =? NL then ret (m, cur + (RES_X - cur `mod` RES_X))
            else if c =? BACKSPACE then ret (m, if 0 <? cur then cur - 1 else cur)
            else
              _ <- of_option Fault (m !! Z.to_nat cur) ;;
              ret (<[Z.to_nat cur := wrap 16 (Z.lor c ATB_NORMAL)]> m, cur + 1)) ;;
      let '(m, cur) := r in
      let '(m, cur) :=
        if RES_X * RES_Y <=? cur then
          let m1 := drop (Z.to_nat RES_X) m ++ drop (Z.to_nat (RES_X * (RES_Y - 1))) m in
          let cur1 := cur - RES_X in
          (take (Z.to_nat cur1) m1 ++ replicate (Z.to_nat (RES_X * RES_Y - cur1)) 0, cur1)
        else (m, cur) in
      modify (set_screen (Some m) (Z.land cur 255 + 256 * Z.land (Z.shiftr cur 8) 255))
  end.

Definition console_putc (c : Z) : M console unit :=
  (if c =? BACKSPACE then uart_putc 8 ;; uart_putc 32 ;; uart_putc 8 else uart_putc c) ;;
  cga_putc c.

Fixpoint putcs (l : list Z) : M console unit :=
  match l with [] => ret tt | c :: l' => console_putc c ;; putcs l' end.

Definition console_write (b : list Z) : M console Z := putcs (map Str.schar b) ;; ret (Z.of_nat (length b)).

(** ** The line editor *)

Definition at_ (b : list Z) (i : Z) : option Z := b !! Z.to_nat (i `mod` BUF_LEN).

(** The loop that kills the line. *)
Fixpoint kill_loop (fuel : nat) : M console unit :=
  match fuel with
  | O => stop Fuel
  | S fuel' =>
      i <- gets inp ;;
      if ed i =? wr i then ret tt
      else
        c <- of_option Fault (at_ (buf i) (u32 (ed i - 1))) ;;
        if c =? NL then ret tt
        else modify (set_inp (mkInput (buf i) (rd i) (wr i) (u32 (ed i - 1)))) ;; console_putc BACKSPACE ;; kill_loop fuel'
  end.

(** [condvar_signal]: the first sleeping reader is made ready. *)
Definition signal_reader : M console unit := modify (fun s => set_read_cv (drop 1 (read_cv s)) s).

Definition console_storec (c : Z) : M console unit :=
  i <- gets inp ;;
  if c =? ctl 85 then kill_loop 257
  else if (c =? ctl 72) || (c =? 127) then
    if negb (ed i =? wr i) then modify (set_inp (mkInput (buf i) (rd i) (wr i) (u32 (ed i - 1)))) ;; console_putc BACKSPACE else ret tt
  else if negb (c =? 0) && (u32 (ed i - rd i) <? BUF_LEN) then
    let c := if c =? CR then NL else c in
    let e := u32 (ed i + 1) in
    let w := if (c =? NL) || (c =? ctl 68) || (e =? u32 (rd i + BUF_LEN)) then e else wr i in
    modify (set_inp (mkInput (<[Z.to_nat (ed i `mod` BUF_LEN) := c]> (buf i)) (rd i) w e)) ;;
    console_putc (Str.schar c) ;;
    signal_reader
  else ret tt.

(** [console_read] from the test of its loop on, with the lock held and the
    bytes [got] stored in the caller's buffer: the call returns, or sleeps and
    goes on from here. *)
Inductive rresult := RDone (bytes : list Z) | RSleep (bytes : list Z).
Fixpoint console_read_loop (n : nat) (t : Z) (got : list Z) : M console rresult :=
  match n with
  | O => ret (RDone got)
  | S n' =>
      i <- gets inp ;;
      if rd i =? wr i then modify (fun s => set_read_cv (read_cv s ++ [t]) s) ;; ret (RSleep got)
      else
        c <- of_option Fault (at_ (buf i) (rd i)) ;;
        if c =? ctl 68 then
          (if 0 <? Z.of_nat (length got) then ret tt else modify (set_inp (mkInput (buf i) (u32 (rd i + 1)) (wr i) (ed i)))) ;;
          ret (RDone got)
        else
          modify (set_inp (mkInput (buf i) (u32 (rd i + 1)) (wr i) (ed i))) ;;
          if c =? NL then ret (RDone (got ++ [c])) else console_read_loop n' t (got ++ [c])
  end.
Definition console_read (t size : Z) (got : list Z) : M console rresult :=
  console_read_loop (Z.to_nat size - length got) t got.

(** ** Printing *)

Definition digits : list Z := [48; 49; 50; 51; 52; 53; 54; 55; 56; 57; 65; 66; 67; 68; 69; 70].

(** The loop of [printnum] and [printnum64]: the digits in [buf], the lowest
    first; [len] is the size of [buf]. *)
Fixpoint digit_loop (fuel len : nat) (num base : Z) (b : list Z) : option (list Z) :=
  match fuel with
  | O => None
  | S fuel' =>
      if (length b <? len)%nat then
        d ← digits !! Z.to_nat (num `mod` base);
        let b := b ++ [d] in
        if num `div` base =? 0 then Some b else digit_loop fuel' len (num `div` base) base b
      else None
  end.

(** What [printnum] writes for the [w]-bit number [num], with a buffer of [len]
    characters. *)
Definition printnum (w : Z) (len : nat) (num base : Z) (sign : bool) : option (list Z) :=
  let neg := sign && (swrap w num <? 0) in
  let num := if neg then wrap w (- swrap w num) else num in
  b ← digit_loop (S len) len num base [];
  Some ((if neg then [45] else []) ++ (if base =? 16 then [48; 120] else []) ++ rev b).

(** The arguments of [kprintf]: a number, or the bytes of a string. *)
Inductive arg := ANum (n : Z) | AStr (s : option (list Z)).
Definition null_str : list Z := [40; 110; 117; 108; 108; 41].

(** [kprintf]: the characters it passes to [console_putc].  An argument that is
    not there or of the other kind is a fault. *)
Fixpoint kprintf_out (fmt : list Z) (args : list arg) : option (list Z) :=
  match fmt with
  | [] => Some []
  | 37 :: f :: fmt' =>
      let emit (o : option (list Z)) args := x ← o; y ← kprintf_out fmt' args; Some (x ++ y) in
      if f =? 99 then match args with ANum n :: args => emit (Some [n]) args | _ => None end
      else if f =? 100 then match args with ANum n :: args => emit (printnum 32 16 (u32 n) 10 true) args | _ => None end
      else if f =? 117 then match args with ANum n :: args => emit (printnum 32 16 (u32 n) 10 false) args | _ => None end
      else if (f =? 120) || (f =? 112) then match args with ANum n :: args => emit (printnum 64 32 (u64 n) 16 false) args | _ => None end
      else if f =? 115 then match args with AStr s :: args => emit (Some (map Str.schar (default null_str s))) args | _ => None end
      else if f =? 37 then emit (Some [37]) args
      else emit (Some [37; Str.schar f]) args
  | [37] => Some []
  | c :: fmt' => y ← kprintf_out fmt' args; Some (Str.schar c :: y)
  end.
Definition kprintf (fmt : list Z) (args : list arg) : M console unit := l <- of_option Fault (kprintf_out fmt args) ;; putcs l.

(** ** The keyboard *)

Definition SHIFT : Z := 1.
Definition CTL : Z := 2.
Definition ALT : Z := 4.
Definition CAPSLOCK : Z := 8.
Definition NUMLOCK : Z := 16.
Definition SCROLLLOCK : Z := 32.
Definition E0ESC : Z := 64.
Definition KB_DIB : Z := 1.

(** The leading entries of the tables; the other entries, given by their index
    in the source, are in [escaped]. *)
Definition normalmap : list Z :=
  [0; 27; 49; 50; 51; 52; 53; 54; 55; 56; 57; 48; 45; 61; 8; 9; 113; 119; 101; 114; 116; 121; 117; 105; 111; 112; 91; 93; 10; 0; 97; 115;
   100; 102; 103; 104; 106; 107; 108; 59; 39; 96; 0; 92; 122; 120; 99; 118; 98; 110; 109; 44; 46; 47; 0; 42; 0; 32; 0; 0; 0; 0; 0; 0; 0; 0;
   0; 0; 0; 0; 0; 55; 56; 57; 45; 52; 53; 54; 43; 49; 50; 51; 48; 46; 0; 0; 0; 0].
Definition shiftmap : list Z :=
  [0; 27; 33; 64; 35; 36; 37; 94; 38; 42; 40; 41; 95; 43; 8; 9; 81; 87; 69; 82; 84; 89; 85; 73; 79; 80; 123; 125; 10; 0; 65; 83; 68; 70; 71;
   72; 74; 75; 76; 58; 34; 126; 0; 124; 90; 88; 67; 86; 66; 78; 77; 60; 62; 63; 0; 42; 0; 32; 0; 0; 0; 0; 0; 0; 0; 0; 0; 0; 0; 0; 0; 55; 56;
   57; 45; 52; 53; 54; 43; 49; 50; 51; 48; 46; 0; 0; 0; 0].
Definition ctlmap : list Z :=
  [0; 0; 0; 0; 0; 0; 0; 0; 0; 0; 0; 0; 0; 0; 0; 0; 17; 23; 5; 18; 20; 25; 21; 9; 15; 16; 0; 0; 13; 0; 1; 19; 4; 6; 7; 8; 10; 11; 12; 0; 0;
   0; 0; 28; 26; 24; 3; 22; 2; 14; 13; 0; 0; 239; 0; 0].
Definition escaped (enter div : Z) : gmap Z Z :=
  list_to_map [(156, enter); (181, div); (200, 226); (208, 227); (201, 230); (209, 231); (203, 228); (205, 229); (151, 224); (207, 225); (210, 232); (211, 233)].

Definition shiftcode (k : Z) : Z :=
  default 0 ((list_to_map [(29, CTL); (42, SHIFT); (54, SHIFT); (56, ALT); (157, CTL); (184, ALT)] : gmap Z Z) !! k).
Definition togglecode (k : Z) : Z :=
  default 0 ((list_to_map [(58, CAPSLOCK); (69, NUMLOCK); (70, SCROLLLOCK)] : gmap Z Z) !! k).
Definition charcode (map k : Z) : Z :=
  let entry (l : list Z) enter div := match l !! Z.to_nat k with Some c => c | None => default 0 (escaped enter div !! k) end in
  if map =? 0 then entry normalmap 10 47 else if map =? 1 then entry shiftmap 10 47 else entry ctlmap 13 239.

(** [keyboard_input_handler] after the two reads of the status port, which gave
    [st] and [data]: the new [shift], and the character for [console_storec]
    unless there was no data. *)
Definition key (shift st data : Z) : Z * option Z :=
  if Z.land st KB_DIB =? 0 then (shift, None)
  else if data =? 224 then (Z.lor shift E0ESC, Some 0)
  else if negb (Z.land data 128 =? 0) then
    let d := if negb (Z.land shift E0ESC =? 0) then data else Z.land data 127 in
    (Z.land shift (u32 (Z.lnot (Z.lor (shiftcode d) E0ESC))), Some 0)
  else
    let '(d, sh) := if negb (Z.land shift E0ESC =? 0) then (Z.lor data 128, Z.land shift (u32 (Z.lnot E0ESC))) else (data, shift) in
    let sh := Z.lxor (Z.lor sh (shiftcode d)) (togglecode d) in
    let c := charcode (Z.land sh (Z.lor CTL SHIFT)) d in
    let c := if negb (Z.land sh CAPSLOCK =? 0) then
               if (97 <=? c) && (c <=? 122) then c - 32 else if (65 <=? c) && (c <=? 90) then c + 32 else c
             else c in
    (sh, Some (u8 c)).
Definition keyboard_input_handler (shift st data : Z) : M console Z :=
  match key shift st data with
  | (sh, None) => ret sh
  | (sh, Some c) => console_storec c ;; ret sh
  end.

(** [uart_getc] with the line status [lsr] and the received byte [rbr]. *)
Definition uart_getc (lsr rbr : Z) : M console Z :=
  on <- gets uart_initialized ;;
  if negb on then ret 255 else if Z.land lsr 1 =? 0 then ret 255 else ret rbr.
Definition uart_input_handler (lsr rbr : Z) : M console unit := c <- uart_getc lsr rbr ;; console_storec c.

(** A key with Ctrl held is the control character the editor acts on. *)
Example keyboard_ctl_u : key 2 1 22 = (2, Some (ctl 85)).
Proof. by vm_compute. Qed.

(** ** The ring buffer *)

(** [n] bytes of the buffer from index [i] on. *)
Definition ring (b : list Z) (i : Z) (n : nat) : list Z := (fun k => b !!! Z.to_nat ((i + Z.of_nat k) `mod` BUF_LEN)) <$> seq 0 n.

Lemma ring_at_snoc b i n : ring b i (S n) = ring b i n ++ [b !!! Z.to_nat ((i + Z.of_nat n) `mod` BUF_LEN)].
Proof. unfold ring. by rewrite seq_S, fmap_app. Qed.

Lemma ring_cons b i n : ring b i (S n) = b !!! Z.to_nat (i `mod` BUF_LEN) :: ring b (i + 1) n.
Proof.
  unfold ring. rewrite <- cons_seq, fmap_cons. f_equal; [by rewrite Z.add_0_r|]. rewrite <- fmap_S_seq, <- list_fmap_compose.
  apply list_fmap_ext. intros j k _. simpl. do 3 f_equal. lia.
Qed.

Lemma ring_app b i n m : ring b i (n + m) = ring b i n ++ ring b (i + Z.of_nat n) m.
Proof.
  revert i. induction n as [|n IH]; intros i; [simpl; by rewrite Z.add_0_r|].
  rewrite Nat.add_succ_l, !ring_cons, IH. simpl. do 3 f_equal. lia.
Qed.

Lemma ring_at_mod b i j n : i `mod` BUF_LEN = j `mod` BUF_LEN -> ring b i n = ring b j n.
Proof.
  intros H. apply list_fmap_ext. intros k m _. do 2 f_equal. by rewrite (Zplus_mod i), (Zplus_mod j), H.
Qed.

Lemma length_ring b i n : length (ring b i n) = n.
Proof. unfold ring. by rewrite length_fmap, length_seq. Qed.

(** Storing behind the bytes of a ring that is not full leaves them alone. *)
Lemma ring_insert b i n c : (n < 256)%nat -> ring (<[Z.to_nat ((i + Z.of_nat n) `mod` BUF_LEN) := c]> b) i n = ring b i n.
Proof.
  intros Hn. apply list_fmap_ext. intros j k Hk. apply lookup_seq in Hk as [-> Hj]. simpl. rewrite list_lookup_total_insert_ne; [done|].
  intros E. apply Z2Nat.inj in E; [|apply Z.mod_pos_bound; done..]. assert (Hd : (i + Z.of_nat n - (i + Z.of_nat j)) `mod` BUF_LEN = 0) by (rewrite Zminus_mod, E, Z.sub_diag; done).
  unfold BUF_LEN in *. rewrite Z.mod_small in Hd; lia.
Qed.

(** ** The screen *)

Definition SCREEN : nat := 2000.
Definition screen_ok (s : console) : Prop :=
  match cga_mem s with Some m => length m = SCREEN /\ 0 <= cursor s < RES_X * RES_Y | None => True end.

(** The screen a terminal shows: the cell a character goes to and the next
    cursor position, and the lines moved up when the cursor leaves the screen. *)
Definition term_put (c : Z) (m : list Z) (cur : Z) : list Z * Z :=
  if c =? NL then (m, RES_X * (cur `div` RES_X + 1))
  else if c =? BACKSPACE then (m, Z.max 0 (cur - 1))
  else (<[Z.to_nat cur := wrap 16 (Z.lor c ATB_NORMAL)]> m, cur + 1).
Definition term_scroll (mc : list Z * Z) : list Z * Z :=
  if mc.2 <? RES_X * RES_Y then mc else (drop (Z.to_nat RES_X) mc.1 ++ replicate (Z.to_nat RES_X) 0, mc.2 - RES_X).

Lemma cursor_register x : 0 <= x < 65536 -> Z.land x 255 + 256 * Z.land (Z.shiftr x 8) 255 = x.
Proof.
  intros Hx. change 255 with (Z.ones 8). rewrite !Z.land_ones, Z.shiftr_div_pow2 by lia. change (2 ^ 8) with 256.
  pose proof (Z.div_mod x 256 ltac:(lia)). rewrite (Z.mod_small (x `div` 256)); [lia|]. split; [apply Z.div_pos; lia|apply Z.div_lt_upper_bound; lia].
Qed.

Lemma cga_putc_ok s m c : cga_mem s = Some m -> length m = SCREEN -> 0 <= cursor s < RES_X * RES_Y ->
  exists m' cur', term_scroll (term_put c m (cursor s)) = (m', cur') /\ cga_putc c s = Ret tt (set_screen (Some m') cur' s) /\ length m' = SCREEN /\ 0 <= cur' < RES_X * RES_Y.
Proof.
  intros Hm Hl Hc. unfold cga_putc. rewrite bind_gets, Hm. pose proof (Z.div_mod (cursor s) RES_X ltac:(done)) as Hd. pose proof (Z.mod_pos_bound (cursor s) RES_X ltac:(done)) as Hb.
  assert (Hq : cursor s `div` RES_X < RES_Y) by (apply Z.div_lt_upper_bound; unfold RES_X, RES_Y in *; lia).
  assert (Hstep : exists m1 c1, term_put c m (cursor s) = (m1, c1) /\ length m1 = SCREEN /\ 0 <= c1 <= RES_X * RES_Y /\
    forall (k : list Z * Z -> M console unit), bind (if c =? NL then ret (m, cursor s + (RES_X - cursor s `mod` RES_X))
            else if c =? BACKSPACE then ret (m, if 0 <? cursor s then cursor s - 1 else cursor s)
            else _ <- of_option Fault (m !! Z.to_nat (cursor s)) ;; ret (<[Z.to_nat (cursor s) := wrap 16 (Z.lor c ATB_NORMAL)]> m, cursor s + 1)) k s = k (m1, c1) s).
  { unfold term_put. destruct (c =? NL); [|destruct (c =? BACKSPACE)].
    - do 2 eexists. split; [done|]. unfold RES_X, RES_Y in *. split_and!; [done|lia..|]. intros k. rewrite bind_ret. do 2 f_equal. lia.
    - do 2 eexists. split; [done|]. split_and!; [done|lia..|]. intros k. rewrite bind_ret. do 2 f_equal. destruct (Z.ltb_spec 0 (cursor s)); lia.
    - do 2 eexists. split; [done|]. split_and!; [by rewrite length_insert|lia..|]. intros k. destruct (lookup_lt_is_Some_2 m (Z.to_nat (cursor s))) as [y Hy]; [unfold SCREEN, RES_X, RES_Y in *; lia|].
      unfold bind, of_option. by rewrite Hy. }
  destruct Hstep as (m1 & c1 & Ht & Hl1 & Hc1 & Hk). rewrite Hk, Ht. unfold term_scroll. cbn [fst snd]. destruct (Z.leb_spec (RES_X * RES_Y) c1) as [Hge|Hlt].
  - assert (c1 = 2000) as -> by (unfold RES_X, RES_Y in *; lia). rewrite (proj2 (Z.ltb_ge 2000 (RES_X * RES_Y))) by done. do 2 eexists. split; [done|]. split_and!; [|rewrite length_app, length_drop, length_replicate; unfold SCREEN, RES_X in *; lia|done|done].
    unfold modify. do 3 f_equal. change (Z.to_nat (2000 - RES_X)) with 1920%nat. change (Z.to_nat (RES_X * (RES_Y - 1))) with 1920%nat. change (Z.to_nat RES_X) with 80%nat.
    rewrite take_app_le by (rewrite length_drop; unfold SCREEN in *; lia). rewrite take_ge by (rewrite length_drop; unfold SCREEN in *; lia). done.
  - rewrite (proj2 (Z.ltb_lt c1 (RES_X * RES_Y))) by done. do 2 eexists. split; [done|]. split_and!; [|done|lia|done]. unfold modify. rewrite cursor_register by (unfold RES_X, RES_Y in *; lia). done.
Qed.

Lemma putc_ok c s : screen_ok s -> exists s', console_putc c s = Ret tt s' /\ screen_ok s' /\ inp s' = inp s /\ read_cv s' = read_cv s.
Proof.
  intros Hs. assert (Hu : forall s x, screen_ok s -> exists s', uart_putc x s = Ret tt s' /\ screen_ok s' /\ inp s' = inp s /\ read_cv s' = read_cv s).
  { intros t x Ht. unfold uart_putc. rewrite bind_gets. destruct (uart_initialized t); simpl; eexists; split; try done. }
  assert (H1 : exists s1, (if c =? BACKSPACE then uart_putc 8 ;; uart_putc 32 ;; uart_putc 8 else uart_putc c)%K s = Ret tt s1 /\ screen_ok s1 /\ inp s1 = inp s /\ read_cv s1 = read_cv s).
  { destruct (c =? BACKSPACE); [|by apply Hu]. destruct (Hu s 8 Hs) as (s1 & E1 & H1 & I1 & V1). rewrite (bind_Ret _ _ _ _ _ E1). destruct (Hu s1 32 H1) as (s2 & E2 & H2 & I2 & V2).
    rewrite (bind_Ret _ _ _ _ _ E2). destruct (Hu s2 8 H2) as (s3 & E3 & H3 & I3 & V3). exists s3. split_and!; congruence. }
  destruct H1 as (s1 & E1 & H1 & I1 & V1). unfold console_putc. rewrite (bind_Ret _ _ _ _ _ E1). unfold screen_ok in H1. destruct (cga_mem s1) as [m|] eqn:Em.
  - destruct H1 as [Hl Hc]. destruct (cga_putc_ok s1 m c Em Hl Hc) as (m' & cur' & _ & E & Hl' & Hc'). eexists. split; [exact E|]. done.
  - exists s1. split; [unfold cga_putc; by rewrite bind_gets, Em|]. split_and!; try done. unfold screen_ok. by rewrite Em.
Qed.

(** ** The line editor as an abstract machine *)

(** Finished lines that can be read, and the line being edited. *)
Record lines := mkLines { ready : list Z; edit : list Z }.

Definition spec_store (c : Z) (l : lines) : lines :=
  if c =? ctl 85 then mkLines (ready l) []
  else if (c =? ctl 72) || (c =? 127) then mkLines (ready l) (take (length (edit l) - 1) (edit l))
  else if negb (c =? 0) && (Z.of_nat (length (ready l) + length (edit l)) <? BUF_LEN) then
    let c := if c =? CR then NL else c in
    if (c =? NL) || (c =? ctl 68) || (Z.of_nat (length (ready l) + length (edit l)) + 1 =? BUF_LEN)
    then mkLines (ready l ++ edit l ++ [c]) [] else mkLines (ready l) (edit l ++ [c])
  else l.

(** A read ends with a newline, with [n] bytes, or at an end of file; an end of
    file behind some bytes stays for the next read. *)
Fixpoint spec_read (n : nat) (got : list Z) (l : lines) : rresult * lines :=
  match n with
  | O => (RDone got, l)
  | S n' =>
      match ready l with
      | [] => (RSleep got, l)
      | c :: q =>
          if c =? ctl 68 then (RDone got, if bool_decide (got = []) then mkLines q (edit l) else l)
          else if c =? NL then (RDone (got ++ [c]), mkLines q (edit l))
          else spec_read n' (got ++ [c]) (mkLines q (edit l))
      end
  end.

Definition n_ready (i : input) : Z := u32 (wr i - rd i).
Definition n_edit (i : input) : Z := u32 (ed i - wr i).
Definition lines_of (i : input) : lines :=
  mkLines (ring (buf i) (rd i) (Z.to_nat (n_ready i))) (ring (buf i) (wr i) (Z.to_nat (n_edit i))).

Record input_ok (i : input) : Prop := {
  io_len : length (buf i) = 256%nat;
  io_fits : n_ready i + n_edit i <= BUF_LEN;
  io_rd : 0 <= rd i < 2 ^ 32;
  io_wr : 0 <= wr i < 2 ^ 32;
  io_ed : 0 <= ed i < 2 ^ 32;
  io_line : NL ∉ edit (lines_of i);
}.

(** The two distances add up, as long as they fit. *)
Lemma distances r w e : 0 <= r < 2 ^ 32 -> 0 <= w < 2 ^ 32 -> 0 <= e < 2 ^ 32 -> u32 (w - r) + u32 (e - w) <= BUF_LEN -> u32 (e - r) = u32 (w - r) + u32 (e - w).
Proof.
  intros Hr Hw He H. unfold wrap, BUF_LEN in *. pose proof (Z.mod_pos_bound (w - r) (2 ^ 32) ltac:(lia)). pose proof (Z.mod_pos_bound (e - w) (2 ^ 32) ltac:(lia)).
  replace (e - r) with (w - r + (e - w)) by lia. rewrite Zplus_mod. apply Z.mod_small. lia.
Qed.

Lemma u32_sub_0 x y : 0 <= x < 2 ^ 32 -> 0 <= y < 2 ^ 32 -> u32 (x - y) = 0 -> x = y.
Proof. unfold wrap. intros Hx Hy H. apply Z.mod_divide in H as [k Hk]; [|lia]. nia. Qed.

Lemma u32_mod x : u32 x `mod` BUF_LEN = x `mod` BUF_LEN.
Proof. apply wrap_mod. exists (2 ^ 24). done. Qed.

Lemma u32_add_sub x y n : 0 <= n -> n + u32 (x - y) < 2 ^ 32 -> u32 (u32 (x + n) - y) = u32 (x - y) + n.
Proof.
  intros Hn H. unfold wrap in *. rewrite Zminus_mod_idemp_l. replace (x + n - y) with (x - y + n) by lia. rewrite Zplus_mod, (Z.mod_small n) by (pose proof (Z.mod_pos_bound (x - y) (2 ^ 32)); lia).
  apply Z.mod_small. pose proof (Z.mod_pos_bound (x - y) (2 ^ 32)). lia.
Qed.

Lemma u32_sub_sub x y n : 0 <= n <= u32 (x - y) -> u32 (u32 (x - n) - y) = u32 (x - y) - n.
Proof.
  intros H. unfold wrap in *. rewrite Zminus_mod_idemp_l. replace (x - n - y) with (x - y - n) by lia. rewrite Zminus_mod. pose proof (Z.mod_pos_bound (x - y) (2 ^ 32) ltac:(lia)).
  rewrite (Z.mod_small n) by lia. apply Z.mod_small. lia.
Qed.

Lemma at_total b i : length b = 256%nat -> at_ b i = Some (b !!! Z.to_nat (i `mod` BUF_LEN)).
Proof. intros Hl. unfold at_. apply list_lookup_lookup_total_lt. rewrite Hl. pose proof (Z.mod_pos_bound i BUF_LEN ltac:(done)). unfold BUF_LEN in *. lia. Qed.

Lemma u32_ltz x : 0 <= u32 x < 2 ^ 32.
Proof. apply wrap_range. lia. Qed.

(** The index at the end of the line being edited. *)
Lemma ed_mod i : 0 <= n_edit i -> (wr i + n_edit i) `mod` BUF_LEN = ed i `mod` BUF_LEN.
Proof.
  intros _. unfold n_edit. rewrite <- Zplus_mod_idemp_r. rewrite (u32_mod (ed i - wr i)). rewrite Zplus_mod_idemp_r. f_equal. lia.
Qed.

(** Removing the last byte. *)
Definition erase (i : input) : input := mkInput (buf i) (rd i) (wr i) (u32 (ed i - 1)).

Lemma erase_ok i : input_ok i -> ed i <> wr i ->
  input_ok (erase i) /\ lines_of (erase i) = mkLines (ready (lines_of i)) (take (length (edit (lines_of i)) - 1) (edit (lines_of i))) /\ n_edit (erase i) = n_edit i - 1.
Proof.
  intros [I1 I2 I3 I4 I5 I6] Hne. pose proof (u32_ltz (ed i - wr i)) as Hb. assert (Hp : 0 < n_edit i).
  { unfold n_edit. destruct (Z.eq_dec (u32 (ed i - wr i)) 0) as [E|]; [|lia]. by apply u32_sub_0 in E. }
  assert (En : n_edit (erase i) = n_edit i - 1) by (unfold n_edit; simpl; apply u32_sub_sub; unfold n_edit in Hp; lia).
  assert (El : edit (lines_of (erase i)) = take (length (edit (lines_of i)) - 1) (edit (lines_of i))).
  { simpl. rewrite En, length_ring. replace (Z.to_nat (n_edit i)) with (S (Z.to_nat (n_edit i - 1))) at 2 by lia. rewrite ring_at_snoc.
    replace (Z.to_nat (n_edit i) - 1)%nat with (Z.to_nat (n_edit i - 1)) by lia. by rewrite take_app_length' by (by rewrite length_ring). }
  split_and!; [split; try done|by unfold lines_of at 1; f_equal|done].
  - unfold n_ready in *. simpl. lia.
  - apply u32_ltz.
  - rewrite El. intros Hin. apply I6. apply elem_of_take in Hin as (k & Hk & _). by eapply list_elem_of_lookup_2.
Qed.

(** The byte before the end of the line is not a newline, so killing the line
    stops where the line starts. *)
Lemma erase_last i : input_ok i -> ed i <> wr i -> exists c, at_ (buf i) (u32 (ed i - 1)) = Some c /\ c <> NL.
Proof.
  intros [I1 I2 I3 I4 I5 I6] Hne. pose proof (u32_ltz (ed i - wr i)) as Hb. rewrite at_total by done. eexists. split; [done|]. intros E. apply I6.
  assert (Hp : 0 < n_edit i). { unfold n_edit. destruct (Z.eq_dec (u32 (ed i - wr i)) 0) as [E0|]; [|lia]. by apply u32_sub_0 in E0. }
  simpl. replace (Z.to_nat (n_edit i)) with (S (Z.to_nat (n_edit i - 1))) by lia. rewrite ring_at_snoc. apply elem_of_app. right. apply list_elem_of_singleton. rewrite <- E, u32_mod. do 2 f_equal.
  rewrite Z2Nat.id by lia. replace (wr i + (n_edit i - 1)) with (wr i + n_edit i - 1) by lia. by rewrite (Zminus_mod (wr i + n_edit i) 1), ed_mod, <- Zminus_mod by lia.
Qed.

Lemma kill_loop_ok fuel s : input_ok (inp s) -> screen_ok s -> n_edit (inp s) < Z.of_nat fuel ->
  exists s', kill_loop fuel s = Ret tt s' /\ input_ok (inp s') /\ screen_ok s' /\ read_cv s' = read_cv s /\ lines_of (inp s') = mkLines (ready (lines_of (inp s))) [].
Proof.
  revert s. induction fuel as [|fuel IH]; intros s Hi Hs Hf; [pose proof (u32_ltz (ed (inp s) - wr (inp s))); unfold n_edit in Hf; lia|].
  simpl. rewrite bind_gets. destruct (Z.eqb_spec (ed (inp s)) (wr (inp s))) as [E|Hne].
  - exists s. split_and!; try done. unfold lines_of. f_equal. unfold n_edit. by rewrite E, Z.sub_diag.
  - destruct (erase_last _ Hi Hne) as (c & Hc & Hnl). rewrite (bind_opt _ _ _ _ _ Hc), (proj2 (Z.eqb_neq c NL) Hnl), bind_modify.
    destruct (erase_ok _ Hi Hne) as (Hi' & El & En). fold (erase (inp s)).
    destruct (putc_ok BACKSPACE (set_inp (erase (inp s)) s)) as (s1 & E1 & S1 & I1 & V1); [done|]. rewrite (bind_Ret _ _ _ _ _ E1).
    simpl in I1. destruct (IH s1) as (s' & E' & K1 & K2 & K3 & K4); [by rewrite I1|done|rewrite I1; lia|].
    exists s'. split_and!; [done|done|done|by rewrite K3, V1|]. by rewrite K4, I1, El.
Qed.

(** Storing a byte. *)
Definition push (c : Z) (i : input) : input :=
  let e := u32 (ed i + 1) in
  mkInput (<[Z.to_nat (ed i `mod` BUF_LEN) := c]> (buf i)) (rd i)
    (if (c =? NL) || (c =? ctl 68) || (e =? u32 (rd i + BUF_LEN)) then e else wr i) e.

Lemma full_line i : input_ok i -> n_ready i + n_edit i < BUF_LEN -> (u32 (ed i + 1) =? u32 (rd i + BUF_LEN)) = (n_ready i + n_edit i + 1 =? BUF_LEN).
Proof.
  intros [I1 I2 I3 I4 I5 I6] Hf. pose proof (distances _ _ _ I3 I4 I5 I2) as D. fold (n_ready i) (n_edit i) in D. unfold BUF_LEN in *.
  apply eq_true_iff_eq. rewrite !Z.eqb_eq. unfold wrap in *. pose proof (Z.div_mod (ed i - rd i) (2 ^ 32) ltac:(lia)) as E. split; intros H.
  - pose proof (Z.div_mod (ed i + 1) (2 ^ 32) ltac:(lia)). pose proof (Z.div_mod (rd i + 256) (2 ^ 32) ltac:(lia)).
    pose proof (u32_ltz (wr i - rd i)). pose proof (u32_ltz (ed i - wr i)). unfold n_ready, n_edit in *.
    set (a := (ed i + 1) `div` 2 ^ 32) in *. set (b := (rd i + 256) `div` 2 ^ 32) in *. set (d := (ed i - rd i) `div` 2 ^ 32) in *. unfold wrap in *. nia.
  - replace (ed i + 1) with (rd i + 256 + (ed i - rd i) `div` 2 ^ 32 * 2 ^ 32) by lia. by rewrite Z_mod_plus_full.
Qed.

Lemma push_lines i c : input_ok i -> n_ready i + n_edit i < BUF_LEN ->
  let b' := <[Z.to_nat (ed i `mod` BUF_LEN) := c]> (buf i) in
  ring b' (rd i) (Z.to_nat (n_ready i)) = ready (lines_of i) /\
  ring b' (wr i) (Z.to_nat (n_edit i) + 1) = edit (lines_of i) ++ [c] /\
  ring b' (rd i) (Z.to_nat (n_ready i) + (Z.to_nat (n_edit i) + 1)) = ready (lines_of i) ++ edit (lines_of i) ++ [c].
Proof.
  intros Hi Hf. pose proof (u32_ltz (wr i - rd i)) as Hb1. pose proof (u32_ltz (ed i - wr i)) as Hb2. fold (n_ready i) in Hb1. fold (n_edit i) in Hb2.
  destruct Hi as [I1 I2 I3 I4 I5 I6]. intros b'. assert (E0 : ring b' (rd i) (Z.to_nat (n_ready i) + Z.to_nat (n_edit i)) = ring (buf i) (rd i) (Z.to_nat (n_ready i) + Z.to_nat (n_edit i))).
  { rewrite <- (ring_insert (buf i) (rd i) _ c) by (unfold BUF_LEN in *; lia). unfold b'. do 3 f_equal. rewrite Nat2Z.inj_add, !Z2Nat.id by lia. rewrite Z.add_assoc.
    rewrite <- (ed_mod i) by lia. unfold n_ready at 1. rewrite (Zplus_mod (rd i + _)), (Zplus_mod (rd i)), u32_mod, <- (Zplus_mod (rd i)), <- Zplus_mod. do 2 f_equal. lia. }
  rewrite !ring_app in E0. apply app_inj_1 in E0 as [E1 E2]; [|by rewrite !length_ring].
  assert (Ew : forall b n, ring b (rd i + Z.of_nat (Z.to_nat (n_ready i))) n = ring b (wr i) n).
  { intros b n. apply ring_at_mod. rewrite Z2Nat.id by lia. unfold n_ready. rewrite Zplus_mod, u32_mod, <- Zplus_mod. f_equal. lia. }
  rewrite !Ew in E2. assert (E3 : ring b' (wr i) (Z.to_nat (n_edit i) + 1) = edit (lines_of i) ++ [c]).
  { rewrite Nat.add_1_r, ring_at_snoc, E2. simpl. do 2 f_equal. unfold b'. rewrite Z2Nat.id, ed_mod by lia. apply list_lookup_total_insert_eq.
    rewrite I1. pose proof (Z.mod_pos_bound (ed i) BUF_LEN ltac:(done)). unfold BUF_LEN in *. lia. }
  split_and!; [done|done|]. rewrite ring_app, Ew, E1, E3. done.
Qed.

Lemma push_ok i c : input_ok i -> n_ready i + n_edit i < BUF_LEN -> input_ok (push c i) /\
  lines_of (push c i) = (if (c =? NL) || (c =? ctl 68) || (n_ready i + n_edit i + 1 =? BUF_LEN) then mkLines (ready (lines_of i) ++ edit (lines_of i) ++ [c]) [] else mkLines (ready (lines_of i)) (edit (lines_of i) ++ [c])).
Proof.
  intros Hi Hf. pose proof (full_line i Hi Hf) as Hfull. destruct (push_lines i c Hi Hf) as (P1 & P2 & P3). pose proof Hi as [I1 I2 I3 I4 I5 I6].
  pose proof (u32_ltz (wr i - rd i)) as Hb1. pose proof (u32_ltz (ed i - wr i)) as Hb2. pose proof (distances _ _ _ I3 I4 I5 I2) as D. fold (n_ready i) (n_edit i) in D, Hb1, Hb2.
  assert (Hr : u32 (u32 (ed i + 1) - rd i) = n_ready i + n_edit i + 1) by (rewrite u32_add_sub; unfold BUF_LEN in *; lia).
  assert (Hw : u32 (u32 (ed i + 1) - wr i) = n_edit i + 1) by (unfold n_edit; rewrite u32_add_sub; unfold n_edit, BUF_LEN in *; lia).
  rewrite <- Hfull. unfold push, lines_of, n_ready, n_edit. destruct ((c =? NL) || (c =? ctl 68) || (u32 (ed i + 1) =? u32 (rd i + BUF_LEN))) eqn:Ec; simpl.
  - rewrite Z.sub_diag, Hr. change (Z.to_nat (u32 0)) with 0%nat. replace (Z.to_nat (n_ready i + n_edit i + 1)) with (Z.to_nat (n_ready i) + (Z.to_nat (n_edit i) + 1))%nat by lia.
    split; [|by rewrite P3]. split; simpl; try done; [by rewrite length_insert|unfold n_ready, n_edit; simpl; rewrite Z.sub_diag, Hr; change (u32 0) with 0; lia|apply u32_ltz..|].
    unfold n_edit. simpl. rewrite Z.sub_diag. by apply not_elem_of_nil.
  - rewrite Hw. fold (n_ready i). replace (Z.to_nat (n_edit i + 1)) with (Z.to_nat (n_edit i) + 1)%nat by lia. split; [|by rewrite P1, P2].
    split; simpl; try done; [by rewrite length_insert|unfold n_ready, n_edit; simpl; rewrite Hw; fold (n_ready i); lia|apply u32_ltz|].
    unfold n_edit. simpl. rewrite Hw. replace (Z.to_nat (n_edit i + 1)) with (Z.to_nat (n_edit i) + 1)%nat by lia. rewrite P2. intros [Hin|Hin]%elem_of_app; [by apply I6|].
    apply list_elem_of_singleton in Hin as <-. done.
Qed.

Lemma storec_ok s c : input_ok (inp s) -> screen_ok s ->
  exists s', console_storec c s = Ret tt s' /\ input_ok (inp s') /\ screen_ok s' /\ lines_of (inp s') = spec_store c (lines_of (inp s)).
Proof.
  intros Hi Hs. unfold console_storec, spec_store. rewrite bind_gets. pose proof (u32_ltz (wr (inp s) - rd (inp s))) as Hb1. pose proof (u32_ltz (ed (inp s) - wr (inp s))) as Hb2.
  fold (n_ready (inp s)) in Hb1. fold (n_edit (inp s)) in Hb2. pose proof Hi as [I1 I2 I3 I4 I5 I6].
  destruct (c =? ctl 85); [|destruct ((c =? ctl 72) || (c =? 127))].
  - destruct (kill_loop_ok 257 s) as (s' & E & K1 & K2 & _ & K4); try done; [unfold BUF_LEN in *; lia|]. by exists s'.
  - destruct (Z.eqb_spec (ed (inp s)) (wr (inp s))) as [E|Hne]; cbn [negb].
    + exists s. split_and!; try done. unfold lines_of, n_edit. simpl. rewrite E, Z.sub_diag. done.
    + rewrite bind_modify. fold (erase (inp s)). destruct (erase_ok _ Hi Hne) as (Hi' & El & _).
      destruct (putc_ok BACKSPACE (set_inp (erase (inp s)) s)) as (s1 & E1 & S1 & J1 & _); [done|]. exists s1. simpl in J1. rewrite J1. done.
  - rewrite (distances _ _ _ I3 I4 I5 I2). fold (n_ready (inp s)) (n_edit (inp s)).
    replace (Z.of_nat (length (ready (lines_of (inp s))) + length (edit (lines_of (inp s))))) with (n_ready (inp s) + n_edit (inp s)) by (simpl; rewrite !length_ring; lia).
    destruct (negb (c =? 0) && (n_ready (inp s) + n_edit (inp s) <? BUF_LEN)) eqn:Ec; [|by exists s].
    apply andb_true_iff in Ec as [_ Hf%Z.ltb_lt]. rewrite bind_modify. set (c' := if c =? CR then NL else c). fold (push c' (inp s)).
    destruct (push_ok _ c' Hi Hf) as [Hi' El]. destruct (putc_ok (Str.schar c') (set_inp (push c' (inp s)) s)) as (s1 & E1 & S1 & J1 & _); [done|].
    rewrite (bind_Ret _ _ _ _ _ E1). eexists. split; [done|]. simpl in *. rewrite J1. done.
Qed.

(** Taking the first byte. *)
Definition pop (i : input) : input := mkInput (buf i) (u32 (rd i + 1)) (wr i) (ed i).

Lemma pop_ok i : input_ok i -> rd i <> wr i -> exists c q, at_ (buf i) (rd i) = Some c /\ ready (lines_of i) = c :: q /\ input_ok (pop i) /\ lines_of (pop i) = mkLines q (edit (lines_of i)).
Proof.
  intros [I1 I2 I3 I4 I5 I6] Hne. pose proof (u32_ltz (wr i - rd i)) as Hb. assert (Hp : 0 < n_ready i).
  { unfold n_ready. destruct (Z.eq_dec (u32 (wr i - rd i)) 0) as [E|]; [|lia]. by apply u32_sub_0 in E. }
  assert (En : n_ready (pop i) = n_ready i - 1).
  { unfold n_ready, pop. simpl. unfold n_ready, wrap in *. rewrite Zminus_mod_idemp_r. replace (wr i - (rd i + 1)) with (wr i - rd i - 1) by lia. rewrite Zminus_mod. rewrite (Z.mod_small 1) by lia. apply Z.mod_small. lia. }
  exists (buf i !!! Z.to_nat (rd i `mod` BUF_LEN)), (ring (buf i) (rd i + 1) (Z.to_nat (n_ready i - 1))). split; [by apply at_total|].
  split. { simpl. replace (Z.to_nat (n_ready i)) with (S (Z.to_nat (n_ready i - 1))) by lia. apply ring_cons. }
  split; [split; simpl; try done; [unfold n_edit in *; simpl; rewrite En; lia|apply u32_ltz]|]. unfold lines_of. rewrite En. f_equal. simpl. apply ring_at_mod, u32_mod.
Qed.

Lemma read_loop_ok n t got s : input_ok (inp s) -> screen_ok s ->
  exists r s', console_read_loop n t got s = Ret r s' /\ input_ok (inp s') /\ screen_ok s' /\ (r, lines_of (inp s')) = spec_read n got (lines_of (inp s)).
Proof.
  revert got s. induction n as [|n IH]; intros got s Hi Hs; [by exists (RDone got), s|]. simpl console_read_loop. rewrite bind_gets. destruct (Z.eqb_spec (rd (inp s)) (wr (inp s))) as [E|Hne].
  - rewrite bind_modify. do 2 eexists. split; [done|]. simpl. unfold n_ready. rewrite E, Z.sub_diag. done.
  - destruct (pop_ok _ Hi Hne) as (c & q & Hc & Hq & Hi' & El). rewrite (bind_opt _ _ _ _ _ Hc). cbn [spec_read]. rewrite Hq. fold (pop (inp s)). destruct (c =? ctl 68).
    + destruct got as [|g got]; simpl.
      * rewrite bind_modify. do 2 eexists. split; [done|]. simpl. rewrite El. done.
      * do 2 eexists. split; [done|]. done.
    + rewrite bind_modify. destruct (c =? NL).
      * do 2 eexists. split; [done|]. simpl. rewrite El. done.
      * destruct (IH (got ++ [c]) (set_inp (pop (inp s)) s)) as (r & s' & E1 & K1 & K2 & K3); [done|done|]. exists r, s'. split_and!; try done. by rewrite K3; simpl; rewrite El.
Qed.

(** A history of the console: characters that arrive, and reads (a read that
    slept goes on with the bytes it has). *)
Inductive event := Store (c : Z) | Read (t size : Z) (got : list Z).

Fixpoint run (h : list event) : M console (list rresult) :=
  match h with
  | [] => ret []
  | Store c :: h' => console_storec c ;; run h'
  | Read t size got :: h' => r <- console_read t size got ;; l <- run h' ;; ret (r :: l)
  end.
Fixpoint spec_run (h : list event) (l : lines) : list rresult * lines :=
  match h with
  | [] => ([], l)
  | Store c :: h' => spec_run h' (spec_store c l)
  | Read t size got :: h' =>
      let '(r, l1) := spec_read (Z.to_nat size - length got) got l in
      let '(rs, l2) := spec_run h' l1 in (r :: rs, l2)
  end.

(** The console after [console_init], with or without a screen and a serial line. *)
Definition console_boot (screen : option (list Z)) (cur : Z) (uart : bool) : console :=
  mkConsole (mkInput (replicate 256 0) 0 0 0) screen cur uart [] [].

Lemma run_ok h s : input_ok (inp s) -> screen_ok s ->
  exists rs s', run h s = Ret rs s' /\ input_ok (inp s') /\ screen_ok s' /\ (rs, lines_of (inp s')) = spec_run h (lines_of (inp s)).
Proof.
  revert s. induction h as [|[c|t size got] h IH]; intros s Hi Hs; [by exists [], s|..]; simpl.
  - destruct (storec_ok s c Hi Hs) as (s1 & E1 & H1 & S1 & L1). rewrite (bind_Ret _ _ _ _ _ E1), <- L1. by apply IH.
  - unfold console_read. destruct (read_loop_ok (Z.to_nat size - length got) t got s Hi Hs) as (r & s1 & E1 & H1 & S1 & L1). rewrite (bind_Ret _ _ _ _ _ E1), <- L1.
    destruct (IH s1 H1 S1) as (rs & s' & E' & H' & S' & L'). rewrite (bind_Ret _ _ _ _ _ E'), <- L'. by exists (r :: rs), s'.
Qed.

(** C38. The ring buffer is a line editor: whatever characters arrive and whoever
    reads, starting from an empty buffer every call ends without a fault, the
    reads return what the abstract machine returns (whole lines, the bytes up to
    an end of file, or nothing yet), and the bytes kept are those of its lines,
    the 32-bit indices wrapping around included. *)
Theorem console_refines screen cur uart h : screen_ok (console_boot screen cur uart) ->
  exists rs s', run h (console_boot screen cur uart) = Ret rs s' /\ screen_ok s' /\ (rs, lines_of (inp s')) = spec_run h (mkLines [] []).
Proof.
  intros Hs. destruct (run_ok h (console_boot screen cur uart)) as (rs & s' & E & _ & S & L); [|done|by exists rs, s'].
  split; simpl; try done. unfold n_edit. simpl. by apply not_elem_of_nil.
Qed.

Lemma console_refines_witness : screen_ok (console_boot None 0 false) /\
  exists s', run [Store 97; Store 98; Store 8; Store 99; Read 7 9 []; Store 13; Read 7 9 []; Store 4; Read 7 9 []] (console_boot None 0 false) = Ret [RSleep []; RDone [97; 99; 10]; RDone []] s'.
Proof.
  split; [done|]. destruct (console_refines None 0 false [Store 97; Store 98; Store 8; Store 99; Read 7 9 []; Store 13; Read 7 9 []; Store 4; Read 7 9 []]) as (rs & s' & E & _ & L); [done|].
  pose proof (f_equal fst L) as Hrs. change (rs = fst (spec_run [Store 97; Store 98; Store 8; Store 99; Read 7 9 []; Store 13; Read 7 9 []; Store 4; Read 7 9 []] (mkLines [] []))) in Hrs.
  vm_compute in Hrs. exists s'. by rewrite <- Hrs.
Defined.

(** C39. Writing one character to a screen that is there shows what a terminal shows:
    the cell at the cursor, the cursor moved, the lines moved up by one when it
    leaves the last one; the memory written is that of the 2000 cells, and the
    cursor stays among them. *)
Theorem cga_putc_screen s m c : cga_mem s = Some m -> screen_ok s ->
  exists m' cur', cga_putc c s = Ret tt (set_screen (Some m') cur' s) /\ term_scroll (term_put c m (cursor s)) = (m', cur') /\ length m' = SCREEN /\ 0 <= cur' < RES_X * RES_Y.
Proof. intros Hm Hs. unfold screen_ok in Hs. rewrite Hm in Hs. destruct (cga_putc_ok s m c Hm) as (m' & cur' & T & E & H); [apply Hs..|]. by exists m', cur'. Qed.

Lemma cga_putc_screen_witness : exists s, screen_ok s /\ exists m', cga_putc 65 s = Ret tt (set_screen (Some m') 1920 s).
Proof.
  exists (console_boot (Some (replicate 2000 0)) 1999 false). split; [by vm_compute|].
  destruct (cga_putc_screen (console_boot (Some (replicate 2000 0)) 1999 false) (replicate 2000 0) 65) as (m' & cur' & E & T & _); [done|by vm_compute|].
  exists m'. rewrite E. apply (f_equal snd) in T. vm_compute in T. by rewrite <- T.
Defined.

(** ** Numbers *)

(** The number a string of digits stands for, the lowest first. *)
Definition digit_val (d : Z) : Z := if d <? 65 then d - 48 else d - 55.
Fixpoint value (base : Z) (l : list Z) : Z := match l with [] => 0 | d :: l' => digit_val d + base * value base l' end.

Lemma digits_val k : (k < 16)%nat -> exists d, digits !! k = Some d /\ digit_val d = Z.of_nat k /\ d <> 45.
Proof. intros Hk. do 16 (destruct k as [|k]; [by eexists|]). lia. Qed.

Lemma value_snoc base l d : value base (l ++ [d]) = value base l + base ^ Z.of_nat (length l) * digit_val d.
Proof. induction l as [|x l IH]; [simpl; lia|]. simpl value. rewrite IH. cbn [length]. rewrite Nat2Z.inj_succ, Z.pow_succ_r by lia. lia. Qed.

(** [num] has at most [k] digits left: the loop ends within the buffer, and the
    digits it stores stand for [num]. *)
Lemma digit_loop_ok base k len fuel num b : 2 <= base <= 16 -> 0 <= num < base ^ Z.of_nat (S k) -> (length b + S k <= len)%nat -> (k < fuel)%nat -> 45 ∉ b ->
  exists b', digit_loop fuel len num base b = Some b' /\ value base b' = value base b + base ^ Z.of_nat (length b) * num /\ 45 ∉ b'.
Proof.
  revert fuel num b. induction k as [|k IH]; intros fuel num b Hb Hn Hl Hf Hm; (destruct fuel as [|fuel]; [lia|]); simpl digit_loop;
    rewrite (proj2 (Nat.ltb_lt (length b) len)) by lia; pose proof (Z.mod_pos_bound num base ltac:(lia)) as Hr; pose proof (Z.div_mod num base ltac:(lia)) as Hd;
    (destruct (digits_val (Z.to_nat (num `mod` base))) as (d & E & Hv & Hd45); [lia|]); rewrite E; simpl; rewrite Z2Nat.id in Hv by lia;
    (assert (Hm' : 45 ∉ b ++ [d]) by (intros [Hin|Hin%list_elem_of_singleton]%elem_of_app; [by apply Hm|congruence])).
  - rewrite Z.pow_1_r in Hn. rewrite (Z.div_small num base) by lia. simpl. eexists. split; [done|]. rewrite value_snoc, Hv, Z.mod_small by lia. done.
  - destruct (Z.eqb_spec (num `div` base) 0) as [E0|Hnz].
    + eexists. split; [done|]. rewrite value_snoc, Hv. replace (num `mod` base) with num by lia. done.
    + destruct (IH fuel (num `div` base) (b ++ [d])) as (b' & E' & V' & M'); [done| |rewrite length_app; simpl; lia|lia|done|].
      { rewrite Nat2Z.inj_succ, Z.pow_succ_r in Hn by lia. split; [apply Z.div_pos; lia|apply Z.div_lt_upper_bound; lia]. }
      exists b'. split_and!; [done| |done]. rewrite V', value_snoc, Hv, length_app. simpl length. rewrite Nat2Z.inj_add, Z.pow_add_r by lia. rewrite Z.pow_1_r. nia.
Qed.

(** What a reader makes of the characters: a sign, a [0x] when the base is 16,
    and the digits. *)
Definition read_num (base : Z) (l : list Z) : Z :=
  let '(neg, l) := match l with 45 :: l' => (true, l') | _ => (false, l) end in
  let n := value base (rev (if base =? 16 then drop 2 l else l)) in
  if neg then - n else n.

Lemma read_num_pos base l : 45 ∉ l -> read_num base ((if base =? 16 then [48; 120] else []) ++ rev l) = value base l.
Proof.
  intros Hm. unfold read_num. destruct (base =? 16); cbn [app]; [simpl; by rewrite drop_0, rev_involutive|]. assert (Hm' : 45 ∉ rev l) by (intros H%list_elem_of_In%in_rev%list_elem_of_In; done).
  rewrite <- (rev_involutive l) at 2. destruct (rev l) as [|c q]; [done|]. destruct (Z.eq_dec c 45) as [->|Hne]; [exfalso; apply Hm', list_elem_of_here|].
  destruct c as [|c|c]; try done. do 6 (destruct c as [c|c|]; try done).
Qed.

Lemma swrap_range w x : 0 < w -> - 2 ^ (w - 1) <= swrap w x < 2 ^ (w - 1).
Proof.
  intros Hw. unfold swrap. pose proof (wrap_range w x ltac:(lia)). assert (2 ^ w = 2 * 2 ^ (w - 1)) by (rewrite <- Z.pow_succ_r by lia; f_equal; lia).
  destruct (Z.ltb_spec (wrap w x) (2 ^ (w - 1))); lia.
Qed.

Lemma swrap_nonneg w x : 0 <= x < 2 ^ w -> 0 <= swrap w x -> swrap w x = x.
Proof.
  intros Hx. unfold swrap. rewrite wrap_small by done. destruct (Z.ltb_spec x (2 ^ (w - 1))); lia.
Qed.

Lemma swrap_wrap w x : 0 <= w -> swrap w (wrap w x) = swrap w x.
Proof. intros Hw. unfold swrap. rewrite (wrap_small w (wrap w x)); [done|]. apply wrap_range. lia. Qed.

Lemma read_num_neg base l : read_num base ([45] ++ (if base =? 16 then [48; 120] else []) ++ rev l) = - value base l.
Proof. unfold read_num. simpl. destruct (base =? 16); simpl; by rewrite ?drop_0, rev_involutive. Qed.

(** A buffer of [len] characters is enough for [w] bits when [base ^ len] is at
    least [2 ^ w]. *)
Lemma printnum_ok w len base sign num : 0 < w -> 2 <= base <= 16 -> 2 ^ w <= base ^ Z.of_nat (S len) -> 0 <= num < 2 ^ w ->
  exists l, printnum w (S len) num base sign = Some l /\ read_num base l = if sign then swrap w num else num.
Proof.
  intros Hw Hb Hlen Hn. assert (Hloop : forall x, 0 <= x < 2 ^ w -> exists b, digit_loop (S (S len)) (S len) x base [] = Some b /\ value base b = x /\ 45 ∉ b).
  { intros x Hx. destruct (digit_loop_ok base len (S len) (S (S len)) x []) as (b & E & V & M); [done|lia|simpl; lia|lia|apply not_elem_of_nil|].
    exists b. split_and!; [done| |done]. rewrite V. simpl. lia. }
  unfold printnum. pose proof (swrap_range w num Hw) as Hs. destruct sign; cbn [andb]; [destruct (Z.ltb_spec (swrap w num) 0) as [Hneg|Hpos]|].
  - destruct (Hloop (wrap w (- swrap w num))) as (b & E & V & M); [apply wrap_range; lia|]. rewrite E. cbn [mbind option_bind]. eexists. split; [done|]. rewrite (read_num_neg base b), V, wrap_small; [lia|].
    assert (2 ^ (w - 1) < 2 ^ w) by (apply Z.pow_lt_mono_r; lia). lia.
  - destruct (Hloop num Hn) as (b & E & V & M). rewrite E. cbn [mbind option_bind]. eexists. split; [done|]. cbn [app]. rewrite (read_num_pos base b M), V. symmetry. by apply swrap_nonneg.
  - destruct (Hloop num Hn) as (b & E & V & M). rewrite E. cbn [mbind option_bind]. eexists. split; [done|]. cbn [app]. by rewrite (read_num_pos base b M).
Qed.

(** C40. What [kprintf] prints for a number reads back as that number, cut to the
    width of the conversion: [%d] a signed and [%u] an unsigned 32-bit number,
    [%x] a 64-bit one.  The buffers of 16 and 32 characters never overflow. *)
Theorem kprintf_numbers n :
  (exists l, kprintf_out [37; 100] [ANum n] = Some l /\ read_num 10 l = swrap 32 n) /\
  (exists l, kprintf_out [37; 117] [ANum n] = Some l /\ read_num 10 l = u32 n) /\
  (exists l, kprintf_out [37; 120] [ANum n] = Some l /\ read_num 16 l = u64 n).
Proof.
  pose proof (wrap_range 32 n ltac:(lia)) as H32. pose proof (wrap_range 64 n ltac:(lia)) as H64. simpl.
  destruct (printnum_ok 32 15 10 true (u32 n)) as (l1 & E1 & R1); [lia..|]. destruct (printnum_ok 32 15 10 false (u32 n)) as (l2 & E2 & R2); [lia..|].
  destruct (printnum_ok 64 31 16 false (u64 n)) as (l3 & E3 & R3); try done. rewrite E1, E2, E3. simpl. rewrite !app_nil_r.
  split_and!; eexists; (split; [done|]); [rewrite R1; by apply swrap_wrap|done|done].
Qed.

End Console.
