(* ===== verification/Pgfault.v ===== *)
(** * Page faults: kernel/pgfault.c, kernel/mm/pgcache.c, kernel/mm/memstore.c

    The handler maps a zeroed page where the heap or the stack has none, makes
    private copies of pages shared by fork, and maps the pages of named shared
    memory out of the cache of the region's memory store.  The theorems are
    about user memory as a whole: the bytes of a shared region are the same
    bytes in every process that maps it, and all other bytes belong to one
    process.  Page tables and frames are reached through the class [Paging], the
    cached pages through [PtrMap], as for the page cache of a device. *)

From S2P Require Import Prelude Page Alloc RadixTree Vm Paging.
Local Open Scope kernel_scope.
Import Page Paging.

Module Pgfault.

Section model.
Context {A : Type} `{!ObjAlloc A} {V : Type} `{!PageMap V} `{!Paging V} {T : Type} `{!PtrMap T}.

(** The address spaces, the contents of the frames, the cached pages of each
    memory store, the locks that are held, and the counter of faults. *)
Record pf := mkPf {
  vmst : Vm.vm A V;
  mem : gmap Z (list Z);
  caches : gmap Z T;
  store_locks : gset Z;
  page_locks : gset Z;
  user_pgfault : Z;
}.
Definition set_vm (x : Vm.vm A V) (s : pf) : pf := mkPf x (mem s) (caches s) (store_locks s) (page_locks s) (user_pgfault s).
Definition set_pts (x : V) (s : pf) : pf := set_vm (Vm.set_pts x (vmst s)) s.
Definition set_mem (x : gmap Z (list Z)) (s : pf) : pf := mkPf (vmst s) x (caches s) (store_locks s) (page_locks s) (user_pgfault s).
Definition set_caches (x : gmap Z T) (s : pf) : pf := mkPf (vmst s) (mem s) x (store_locks s) (page_locks s) (user_pgfault s).
Definition set_slocks (x : gset Z) (s : pf) : pf := mkPf (vmst s) (mem s) (caches s) x (page_locks s) (user_pgfault s).
Definition set_plocks (x : gset Z) (s : pf) : pf := mkPf (vmst s) (mem s) (caches s) (store_locks s) x (user_pgfault s).
Definition set_faults (x : Z) (s : pf) : pf := mkPf (vmst s) (mem s) (caches s) (store_locks s) (page_locks s) x.

Definition on_vm {B} (m : M (Vm.vm A V) B) : M pf B := zoom vmst set_vm m.
Definition on_pts {B} (m : M V B) : M pf B := zoom (fun s => Vm.pts (vmst s)) set_pts m.

(** [sleeplock_acquire] and [sleeplock_release] of [pg->lock] and
    [store->pgcache_lock]. *)
Definition lock_page (p : Z) : M pf unit :=
  l <- gets page_locks ;; if decide (p ∈ l) then stop Block else modify (set_plocks ({[p]} ∪ l)).
Definition unlock_page (p : Z) : M pf unit := modify (fun s => set_plocks (page_locks s ∖ {[p]}) s).
Definition lock_store (st : Z) : M pf unit :=
  l <- gets store_locks ;; if decide (st ∈ l) then stop Block else modify (set_slocks ({[st]} ∪ l)).
Definition unlock_store (st : Z) : M pf unit := modify (fun s => set_slocks (store_locks s ∖ {[st]}) s).

(** The bytes of a frame, through the kernel's map of physical memory. *)
Definition zero_page : list Z := replicate 4096 0.
Definition get_page (p : Z) : M pf (list Z) := o <- gets (fun s => mem s !! p) ;; of_option Fault o.
Definition put_page (p : Z) (l : list Z) : M pf unit := modify (fun s => set_mem (<[p := l]> (mem s)) s).

(** [memstore_alloc] constructs an empty tree of cached pages. *)
Definition memstore_construct (st : Z) (empty : T) : M pf unit := modify (fun s => set_caches (<[st := empty]> (caches s)) s).
Definition get_cache (st : Z) : M pf T := o <- gets (fun s => caches s !! st) ;; of_option Fault o.
Definition on_cache {B} (st : Z) (m : M T B) : M pf B :=
  t <- get_cache st ;;
  fun s => match m t with
           | Ret b t' => Ret b (set_caches (<[st := t']> (caches s)) s)
           | Halt w t' => Halt w (set_caches (<[st := t']> (caches s)) s)
           end.

(** [fillpage] of kernel/fs/shmms.c. *)
Definition fillpage (st ofs page : Z) : M pf err_t :=
  kassert (negb (st =? 0)) ;; kassert (negb (page =? 0)) ;; put_page page zero_page ;; ret ERR_OK.

(** A [struct page] is named by the address of its frame; 0 is NULL. *)
Definition pgcache_get_page (st ofs : Z) : M pf Z :=
  kassert (negb (st =? 0)) ;;
  page <- on_cache st (plookup (ofs `div` PG_SIZE)) ;;
  if negb (page =? 0) then ret page
  else
    o <- on_pts page_alloc ;;
    match o with
    | None => ret 0
    | Some paddr =>
        e <- fillpage st ofs paddr ;;
        if negb (e =? ERR_OK) then on_pts (page_free paddr) ;; ret 0
        else
          e <- on_cache st (pinsert (ofs `div` PG_SIZE) paddr) ;;
          if e =? ERR_OK then ret paddr
          else if e =? 1 then on_pts (page_free paddr) ;; ret 0
          else stop Panic
    end.
Definition pgcache_remove_page (st ofs : Z) : M pf unit :=
  kassert (negb (st =? 0)) ;; on_cache st (premove (ofs `div` PG_SIZE)) ;; ret tt.

Definition setup_page (a fault_addr : Z) : M pf err_t :=
  o <- on_pts page_alloc ;;
  match o with
  | None => ret ERR_NOMEM
  | Some paddr =>
      put_page paddr zero_page ;;
      x <- on_vm (Vm.get_as a) ;;
      e <- on_pts (vpmap_map1 (Vm.vpmap x) (pg_round_down fault_addr) paddr MEMPERM_URW) ;;
      if negb (e =? ERR_OK) then on_pts (page_free paddr) ;; ret ERR_NOMEM else ret ERR_OK
  end.

(** The copy reads the page through the address that faulted, which [vpmap]
    translates. *)
Definition handleCOW (vpmap fault_addr : Z) : M pf err_t :=
  let pageAddr := pg_round_down fault_addr in
  r <- on_pts (vpmap_lookup1 vpmap pageAddr) ;;
  if negb (r.1 =? ERR_OK) then ret ERR_FAULT
  else
    let paddr := r.2 in
    lock_page paddr ;;
    c <- on_pts (page_refcnt paddr) ;;
    done <- (if c =? 1 then on_pts (vpmap_perm1 vpmap pageAddr MEMPERM_URW) ;; ret true
             else
               o <- on_pts page_alloc ;;
               match o with
               | None => unlock_page paddr ;; ret false
               | Some cpPage =>
                   l <- get_page paddr ;;
                   put_page cpPage l ;;
                   e <- on_pts (vpmap_map1 vpmap pageAddr cpPage MEMPERM_URW) ;;
                   if negb (e =? ERR_OK) then on_pts (page_free cpPage) ;; unlock_page paddr ;; ret false
                   else on_pts (page_dec paddr) ;; ret true
               end) ;;
    if negb done then ret ERR_FAULT
    else unlock_page paddr ;; on_pts vpmap_flush ;; ret ERR_OK.

Definition handleSharedRegion (mr : Vm.memregion) (vpmap fault_addr : Z) : M pf err_t :=
  lock_store (Vm.store mr) ;;
  pg <- pgcache_get_page (Vm.store mr) (u64 (fault_addr - Vm.start mr)) ;;
  if pg =? 0 then unlock_store (Vm.store mr) ;; ret ERR_FAULT
  else
    lock_page pg ;;
    e <- on_pts (vpmap_map1 vpmap (pg_round_down fault_addr) pg MEMPERM_URW) ;;
    if negb (e =? ERR_OK) then unlock_store (Vm.store mr) ;; unlock_page pg ;; ret ERR_FAULT
    else
      on_pts (page_inc pg) ;;
      unlock_page pg ;; unlock_store (Vm.store mr) ;; ret ERR_OK.

(** [FExit]: the handler ended the process with [proc_exit(-1)]. *)
Inductive fresult := FReturn | FExit.

(** The part of [handle_page_fault] for faults of user code on the region [mr]. *)
Definition fault_tail (a fault_addr mr : Z) (m : Vm.memregion) : M pf fresult :=
  y <- on_vm (Vm.get_as a) ;;
  if Vm.end_ m =? Vm.USTACK_UPPERBOUND then e <- setup_page a fault_addr ;; ret (if e =? ERR_OK then FReturn else FExit)
  else if mr =? Vm.heap y then e <- setup_page a fault_addr ;; ret (if e =? ERR_OK then FReturn else FExit)
  else ret FExit.

(** [a] is the address space of the current process. *)
Definition handle_page_fault (a fault_addr : Z) (present write user : bool) : M pf fresult :=
  (if user then modify (fun s => set_faults (u64 (user_pgfault s + 1)) s) else ret tt) ;;
  mr <- on_vm (Vm.as_find_memregion a fault_addr 1) ;;
  if mr =? 0 then ret FExit
  else
    m <- on_vm (Vm.get_mr mr) ;;
    x <- on_vm (Vm.get_as (Vm.as_ m)) ;;
    e <- (if Vm.shared m then handleSharedRegion m (Vm.vpmap x) fault_addr else ret ERR_FAULT) ;;
    if Vm.shared m && (e =? ERR_OK) then ret FReturn
    else
      e <- (if present && write && (Vm.perm m =? MEMPERM_URW) then handleCOW (Vm.vpmap x) fault_addr else ret ERR_FAULT) ;;
      if present && write && (Vm.perm m =? MEMPERM_URW) && (e =? ERR_OK) then ret FReturn
      else if user then fault_tail a fault_addr mr m
      else stop Panic.

(** ** Memory accesses of a user process

    What the processor does with an address: it translates it through the page
    table, and raises a page fault when there is no entry or the entry does not
    allow the access; the handler returns to the instruction, which is tried
    again. *)
Definition pt_entry (s : pf) (a v : Z) : option (Z * Z) :=
  x ← Vm.spaces (vmst s) !! a; entry (Vm.pts (vmst s)) (Vm.vpmap x) (page_no v).
Definition translate (s : pf) (a v : Z) (write : bool) : option Z :=
  e ← pt_entry s a v; if negb write || (e.2 =? MEMPERM_URW) then Some e.1 else None.

(** The frame, or [None] when the process was ended; a second fault on the same
    access is not answered, and the theorem shows that there is none. *)
Definition access (a v : Z) (write : bool) : M pf (option Z) :=
  s <- gets (fun s => s) ;;
  match translate s a v write with
  | Some p => ret (Some p)
  | None =>
      r <- handle_page_fault a v (bool_decide (is_Some (pt_entry s a v))) write true ;;
      match r with
      | FExit => ret None
      | FReturn => s <- gets (fun s => s) ;; p <- of_option Fuel (translate s a v write) ;; ret (Some p)
      end
  end.

Definition load (a v : Z) : M pf (option Z) :=
  o <- access a v false ;;
  match o with
  | None => ret None
  | Some p => l <- get_page p ;; b <- of_option Fault (l !! Z.to_nat (v `mod` PG_SIZE)) ;; ret (Some b)
  end.
Definition store (a v b : Z) : M pf bool :=
  o <- access a v true ;;
  match o with
  | None => ret false
  | Some p => l <- get_page p ;; put_page p (<[Z.to_nat (v `mod` PG_SIZE) := b]> l) ;; ret true
  end.

End model.
Arguments pf : clear implicits.

(** ** Counting references *)

Section refs.
Context {K W : Type} `{Countable K} (f : W -> Z).
Implicit Types m : gmap K W.

Definition refs_of m (p : Z) : nat := size (filter (fun kv : K * W => f kv.2 = p) m).

Lemma refs_insert_new m k w q : m !! k = None -> refs_of (<[k := w]> m) q = (refs_of m q + if decide (q = f w) then 1 else 0)%nat.
Proof.
  intros Hk. unfold refs_of. destruct (decide (q = f w)) as [->|Hne].
  - rewrite map_filter_insert_True by done. rewrite map_size_insert_None; [lia|]. rewrite map_lookup_filter_None. by left.
  - rewrite map_filter_insert_False by (simpl; congruence). rewrite delete_id by done. lia.
Qed.

Lemma refs_delete m k w q : m !! k = Some w -> (refs_of (delete k m) q + (if decide (q = f w) then 1 else 0))%nat = refs_of m q.
Proof.
  intros Hk. rewrite <- (insert_delete_id m k w Hk) at 2. rewrite refs_insert_new by apply lookup_delete_eq. done.
Qed.

Lemma refs_insert_old m k w w0 q : m !! k = Some w0 ->
  (refs_of (<[k := w]> m) q + (if decide (q = f w0) then 1 else 0))%nat = (refs_of m q + if decide (q = f w) then 1 else 0)%nat.
Proof.
  intros Hk. rewrite <- insert_delete_eq. rewrite refs_insert_new by apply lookup_delete_eq. rewrite <- (refs_delete m k w0 q Hk). lia.
Qed.

Lemma refs_pos m k w : m !! k = Some w -> (0 < refs_of m (f w))%nat.
Proof. intros Hk. rewrite <- (refs_delete m k w (f w) Hk). rewrite decide_True by done. lia. Qed.

Lemma refs_two m k k' w w' : m !! k = Some w -> m !! k' = Some w' -> f w' = f w -> k <> k' -> (2 <= refs_of m (f w))%nat.
Proof.
  intros Hk Hk' E Hne. rewrite <- (refs_delete m k w (f w) Hk). rewrite decide_True by done.
  assert (Hd : delete k m !! k' = Some w') by (by rewrite lookup_delete_ne). apply refs_pos in Hd. rewrite E in Hd. lia.
Qed.

Lemma refs_zero m k w p : refs_of m p = 0%nat -> m !! k = Some w -> f w <> p.
Proof. intros H0 Hk <-. apply refs_pos in Hk. lia. Qed.
End refs.

(** ** User addresses *)

(** The canonical addresses below the kernel's. *)
Definition user_addr (v : Z) : Prop := 0 <= v < 2 ^ 47 \/ 2 ^ 64 - 2 ^ 47 <= v < USER_END.

Lemma page_no_inj v w : user_addr v -> user_addr w -> page_no v = page_no w -> v `div` PG_SIZE = w `div` PG_SIZE.
Proof.
  unfold user_addr, page_no, USER_END, PG_SIZE. intros Hv Hw E.
  pose proof (Z.div_mod v 4096 ltac:(lia)). pose proof (Z.mod_pos_bound v 4096 ltac:(lia)). pose proof (Z.div_mod w 4096 ltac:(lia)). pose proof (Z.mod_pos_bound w 4096 ltac:(lia)).
  set (x := v `div` 4096) in *. set (y := w `div` 4096) in *.
  pose proof (Z.div_mod x (2 ^ 36) ltac:(lia)). pose proof (Z.div_mod y (2 ^ 36) ltac:(lia)). pose proof (Z.mod_pos_bound x (2 ^ 36) ltac:(lia)). lia.
Qed.

Lemma round_down_user v : user_addr v -> 0 <= pg_round_down v < USER_END /\ (PG_SIZE | pg_round_down v) /\ page_no (pg_round_down v) = page_no v.
Proof.
  intros Hv. assert (Hb : 0 <= v < 2 ^ 64) by (unfold user_addr, USER_END in Hv; lia). rewrite pg_round_down_spec by done.
  pose proof (Z.mod_pos_bound v PG_SIZE ltac:(done)) as Hm. pose proof (Z.div_mod v PG_SIZE ltac:(done)) as Hd.
  replace (v - v `mod` PG_SIZE) with (v `div` PG_SIZE * PG_SIZE) by lia. split; [|split; [by exists (v `div` PG_SIZE)|unfold page_no; by rewrite Z.div_mul]].
  split; [apply Z.mul_nonneg_nonneg; [apply Z.div_pos; lia|done]|]. unfold user_addr, USER_END in *. unfold PG_SIZE in *. lia.
Qed.

Definition hit (v : Z) (m : Vm.memregion) : bool := (Vm.start m <=? v) && (u64 (v + 1) <=? pg_round_up (Vm.end_ m)).

(** A region holds all addresses of a page or none. *)
Lemma hit_page v w m : user_addr v -> user_addr w -> v `div` PG_SIZE = w `div` PG_SIZE ->
  (PG_SIZE | Vm.start m) -> 0 <= Vm.end_ m <= 2 ^ 64 - PG_SIZE -> hit v m = hit w m.
Proof.
  intros Hv Hw E [z Hz] He. destruct (pg_round_up_spec _ He) as [[y Hy] _]. unfold hit. rewrite Hz, Hy. unfold user_addr, USER_END in *.
  rewrite !wrap_small by lia. pose proof (Z.div_mod v PG_SIZE ltac:(done)). pose proof (Z.mod_pos_bound v PG_SIZE ltac:(done)).
  pose proof (Z.div_mod w PG_SIZE ltac:(done)). pose proof (Z.mod_pos_bound w PG_SIZE ltac:(done)). unfold PG_SIZE in *.
  f_equal; apply eq_true_iff_eq; rewrite !Z.leb_le; lia.
Qed.

Section lemmas.
Context {A : Type} `{!ObjAlloc A} {V : Type} `{!PageMap V} `{!Paging V} {T : Type} `{!PtrMap T}.
Implicit Types (s : pf A V T) (M : gmap (Z * Z) (Z * Z)) (C : gmap (Z * Z) Z).

(** ** Regions *)

(** The first region that has the address, as [as_find_memregion] finds it. *)
Fixpoint locate (h : gmap Z Vm.memregion) (l : list Z) (v : Z) : option (Z * Vm.memregion) :=
  match l with
  | [] => None
  | r :: l' => m ← h !! r; if hit v m then Some (r, m) else locate h l' v
  end.
Definition region_at s (a v : Z) : option (Z * Vm.memregion) :=
  x ← Vm.spaces (vmst s) !! a; locate (Vm.mrs (vmst s)) (Vm.regions x) v.

(** The page of a memory store behind an address in shared memory. *)
Definition page_of s (a v : Z) : option (Z * Z) :=
  rm ← region_at s a v; if Vm.shared rm.2 then Some (Vm.store rm.2, (v - Vm.start rm.2) `div` PG_SIZE) else None.
(** The regions whose pages come into being with the first access. *)
Definition lazy s (a v : Z) : bool :=
  match Vm.spaces (vmst s) !! a, region_at s a v with
  | Some x, Some (r, m) => (Vm.end_ m =? Vm.USTACK_UPPERBOUND) || (r =? Vm.heap x)
  | _, _ => false
  end.

(** What faults rely on and never change: the regions are those of their address
    spaces; heap and stack are private and writable; a shared region has a
    memory store with a cache and at most 2^30 pages. *)
Record region_ok s (a : Z) (x : Vm.addrspace) (r : Z) (m : Vm.memregion) : Prop := {
  ro_as : Vm.as_ m = a;
  ro_id : r <> 0;
  ro_start : 0 <= Vm.start m /\ (PG_SIZE | Vm.start m);
  ro_end : 0 <= Vm.end_ m <= 2 ^ 64 - PG_SIZE;
  ro_private : Vm.end_ m = Vm.USTACK_UPPERBOUND \/ r = Vm.heap x -> Vm.perm m = MEMPERM_URW /\ Vm.shared m = false;
  ro_shared : Vm.shared m = true -> Vm.store m <> 0 /\ is_Some (caches s !! Vm.store m) /\ pg_round_up (Vm.end_ m) - Vm.start m <= 2 ^ 42;
}.
Record regions_ok s : Prop := {
  rs_space : forall a x, Vm.spaces (vmst s) !! a = Some x -> Vm.as_lock x = false /\ Vm.vpmap x ∈ tables (Vm.pts (vmst s));
  rs_region : forall a x r, Vm.spaces (vmst s) !! a = Some x -> r ∈ Vm.regions x -> exists m, Vm.mrs (vmst s) !! r = Some m /\ region_ok s a x r m;
  rs_inj : forall a b x y, Vm.spaces (vmst s) !! a = Some x -> Vm.spaces (vmst s) !! b = Some y -> Vm.vpmap x = Vm.vpmap y -> a = b;
}.

Lemma locate_in h l v r m : locate h l v = Some (r, m) -> r ∈ l /\ h !! r = Some m /\ hit v m = true.
Proof.
  induction l as [|q l IH]; simpl; [done|]. destruct (h !! q) as [n|] eqn:E; simpl; [|done]. destruct (hit v n) eqn:Eh.
  - intros [= -> ->]. split; [apply list_elem_of_here|done].
  - intros H. destruct (IH H) as (? & ? & ?). split; [by apply list_elem_of_further|done].
Qed.

Lemma region_at_ok s a x v r m : regions_ok s -> Vm.spaces (vmst s) !! a = Some x -> region_at s a v = Some (r, m) ->
  region_ok s a x r m /\ Vm.mrs (vmst s) !! r = Some m /\ hit v m = true.
Proof.
  intros [_ H2 _] Ha H. unfold region_at in H. rewrite Ha in H. simpl in H. apply locate_in in H as (Hin & Hm & Hh).
  destruct (H2 a x r Ha Hin) as (m' & Hm' & Hr). rewrite Hm in Hm'. injection Hm' as <-. done.
Qed.

Lemma region_at_page s a v w : regions_ok s -> user_addr v -> user_addr w -> v `div` PG_SIZE = w `div` PG_SIZE -> region_at s a v = region_at s a w.
Proof.
  intros [_ H2 _] Hv Hw E. unfold region_at. destruct (Vm.spaces (vmst s) !! a) as [x|] eqn:Ha; [|done]. simpl.
  assert (Hl : forall r, r ∈ Vm.regions x -> exists m, Vm.mrs (vmst s) !! r = Some m /\ region_ok s a x r m) by (intros r; by apply H2).
  clear H2. induction (Vm.regions x) as [|r l IH]; [done|]. simpl. destruct (Hl r) as (m & Hm & Hr); [apply list_elem_of_here|]. rewrite Hm. simpl.
  rewrite (hit_page v w m Hv Hw E) by apply Hr. destruct (hit w m); [done|]. apply IH. intros q Hq. apply Hl. by apply list_elem_of_further.
Qed.

Lemma page_of_page s a v w : regions_ok s -> user_addr v -> user_addr w -> v `div` PG_SIZE = w `div` PG_SIZE -> page_of s a v = page_of s a w.
Proof.
  intros Hs Hv Hw E. unfold page_of. rewrite (region_at_page s a v w) by done. destruct (region_at s a w) as [[r m]|] eqn:Er; [|done]. simpl.
  destruct (Vm.shared m); [|done]. do 2 f_equal. unfold region_at in Er. destruct (Vm.spaces (vmst s) !! a) as [x|] eqn:Ha; [|done].
  destruct (region_at_ok s a x w r m Hs Ha) as (Hr & _ & _); [unfold region_at; by rewrite Ha|]. destruct (ro_start _ _ _ _ _ Hr) as [_ [z ->]].
  unfold PG_SIZE in *. replace (v - z * 4096) with (v + - z * 4096) by lia. replace (w - z * 4096) with (w + - z * 4096) by lia.
  by rewrite !Z.div_add, E by lia.
Qed.

(** [as_find_memregion] with its lock. *)
Lemma find_region_locate s a x v (w : Vm.vm A V) : regions_ok s -> Vm.spaces (vmst s) !! a = Some x -> Vm.mrs w = Vm.mrs (vmst s) ->
  Vm.find_region (fun m => (Vm.start m <=? v) && (u64 (v + 1) <=? pg_round_up (Vm.end_ m))) (Vm.regions x) w = Ret (from_option fst 0 (region_at s a v)) w.
Proof.
  intros [_ H2 _] Ha Hw. unfold region_at. rewrite Ha. simpl.
  assert (Hl : forall r, r ∈ Vm.regions x -> exists m, Vm.mrs (vmst s) !! r = Some m) by (intros r Hr; destruct (H2 a x r Ha Hr) as (m & ? & _); eauto).
  clear H2. induction (Vm.regions x) as [|r l IH]; [done|]. simpl. destruct (Hl r) as (m & Hm); [apply list_elem_of_here|].
  rewrite (Vm.get_mr_Some r m) by congruence. rewrite Hm. simpl. change ((Vm.start m <=? v) && (u64 (v + 1) <=? pg_round_up (Vm.end_ m))) with (hit v m).
  destruct (hit v m); [done|]. apply IH. intros q Hq. apply Hl. by apply list_elem_of_further.
Qed.

Lemma find_memregion_ok s a x v : regions_ok s -> Vm.spaces (vmst s) !! a = Some x ->
  on_vm (Vm.as_find_memregion a v 1) s = Ret (from_option fst 0 (region_at s a v)) s.
Proof.
  intros Hs Ha. destruct (rs_space _ Hs a x Ha) as [Hl _]. unfold on_vm, zoom, Vm.as_find_memregion.
  rewrite (bind_Ret _ _ _ _ _ (Vm.acquire_ok a x _ Ha Hl)).
  rewrite (Vm.get_as_Some a (Vm.set_as_lock true x)) by (unfold Vm.with_lock; simpl; by rewrite lookup_insert_eq).
  rewrite (bind_Ret _ _ _ _ _ (find_region_locate s a x v (Vm.with_lock a x (vmst s)) Hs Ha eq_refl)).
  rewrite (bind_Ret (Vm.release a) _ _ tt (vmst s)); [by destruct s|].
  rewrite (Vm.release_ok a (Vm.set_as_lock true x)) by (unfold Vm.with_lock; simpl; by rewrite lookup_insert_eq). f_equal. by apply Vm.unlock_with_lock.
Qed.

(** ** The invariant

    [M] lists the user pages of all address spaces with their frames and
    permissions, [C] the cached pages of all memory stores. *)

Definition refs M C (p : Z) : nat := (refs_of fst M p + refs_of (fun q => q) C p)%nat.

Record inv s M C : Prop := {
  iv_static : regions_ok s;
  iv_vok : vok (Vm.pts (vmst s));
  iv_ent : forall a x v, Vm.spaces (vmst s) !! a = Some x -> user_addr v -> entry (Vm.pts (vmst s)) (Vm.vpmap x) (page_no v) = M !! (a, page_no v);
  iv_dom : forall a n e, M !! (a, n) = Some e -> is_Some (Vm.spaces (vmst s) !! a);
  iv_cache : forall st t, caches s !! st = Some t -> pok t /\ forall i, 0 <= i < 2 ^ 30 -> pget t i = default 0 (C !! (st, i));
  iv_cdom : forall c p, C !! c = Some p -> p <> 0;
  iv_count : forall p, (0 < refs M C p)%nat -> count (Vm.pts (vmst s)) p = Z.of_nat (refs M C p);
  iv_mem : forall p, (0 < refs M C p)%nat -> exists l, mem s !! p = Some l /\ length l = 4096%nat;
  iv_perm : forall k p perm, M !! k = Some (p, perm) -> perm = MEMPERM_UR \/ perm = MEMPERM_URW;
  iv_inj : forall c c' p, C !! c = Some p -> C !! c' = Some p -> c = c';
  iv_shared : forall a v c p perm, user_addr v -> page_of s a v = Some c -> M !! (a, page_no v) = Some (p, perm) -> C !! c = Some p /\ perm = MEMPERM_URW;
  iv_priv : forall a v p perm, user_addr v -> page_of s a v = None -> M !! (a, page_no v) = Some (p, perm) ->
    (forall c, C !! c <> Some p) /\ (perm = MEMPERM_URW -> forall k e, M !! k = Some (p, e) -> k = (a, page_no v));
  iv_locks : page_locks s = ∅;
}.

Lemma refs_M M C k p perm : M !! k = Some (p, perm) -> (0 < refs M C p)%nat.
Proof. intros H. apply (refs_pos fst) in H. unfold refs. simpl in H. lia. Qed.

Lemma refs_C M C c p : C !! c = Some p -> (0 < refs M C p)%nat.
Proof. intros H. apply (refs_pos (fun q => q)) in H. unfold refs. lia. Qed.

Lemma refs_one M C k p perm : M !! k = Some (p, perm) -> refs M C p = 1%nat -> (forall c, C !! c <> Some p) /\ forall k' e, M !! k' = Some (p, e) -> k' = k.
Proof.
  intros Hk H1. split.
  - intros c Hc. apply (refs_pos (fun q => q)) in Hc. apply (refs_pos fst) in Hk. unfold refs in H1. simpl in Hk. lia.
  - intros k' e Hk'. destruct (decide (k = k')) as [|Hne]; [done|]. pose proof (refs_two fst M k k' _ _ Hk Hk' eq_refl Hne) as H2. unfold refs in H1. simpl in H2. lia.
Qed.

Lemma fresh_frame s M C p : inv s M C -> count (Vm.pts (vmst s)) p = 0 -> refs M C p = 0%nat.
Proof. intros I H. destruct (decide (refs M C p = 0%nat)) as [|Hne]; [done|]. rewrite (iv_count _ _ _ I p) in H by lia. lia. Qed.

(** The same regions, and possibly other page tables, frames and contents. *)
Definition step_to s (v : V) (h : gmap Z (list Z)) : pf A V T := set_mem h (set_pts v s).

Lemma step_static s v h : regions_ok s -> tables v = tables (Vm.pts (vmst s)) -> regions_ok (step_to s v h).
Proof.
  intros [H1 H2 H3] Ht. split; [intros a x Ha; simpl; rewrite Ht; exact (H1 a x Ha)| |done].
  intros a x r Ha Hr. destruct (H2 a x r Ha Hr) as (m & Hm & [? ? ? ? ? ?]). by exists m.
Qed.

(** The entry of one page changed. *)
Definition entries_set (v v' : V) (m n : Z) (e : Z * Z) : Prop :=
  forall m' n', entry v' m' n' = if decide (m' = m /\ n' = n) then Some e else entry v m' n'.

Lemma inv_set s M C a x w p v' h' : inv s M C -> Vm.spaces (vmst s) !! a = Some x -> user_addr w ->
  let M' := <[(a, page_no w) := (p, MEMPERM_URW)]> M in
  vok v' -> tables v' = tables (Vm.pts (vmst s)) -> entries_set (Vm.pts (vmst s)) v' (Vm.vpmap x) (page_no w) (p, MEMPERM_URW) ->
  (forall q, (0 < refs M' C q)%nat -> count v' q = Z.of_nat (refs M' C q)) ->
  (forall q, (0 < refs M' C q)%nat -> exists l, h' !! q = Some l /\ length l = 4096%nat) ->
  match page_of s a w with
  | Some c => C !! c = Some p
  | None => (forall c, C !! c <> Some p) /\ forall k e, k <> (a, page_no w) -> M !! k <> Some (p, e)
  end ->
  inv (step_to s v' h') M' C.
Proof.
  intros I Ha Hw M' Hv Ht He Hc Hm Hkind. pose proof I as [Hs J2 J3 J4 J5 J6 J7 J8 J9 J10 J11 J12 J13]. split; try done.
  - by apply step_static.
  - intros b y u Hb Hu. simpl. rewrite He. unfold M'. case_decide as Ed.
    + destruct Ed as [Ev En]. rewrite (rs_inj _ Hs b a y x Hb Ha Ev), En, lookup_insert_eq. done.
    + rewrite lookup_insert_ne; [by apply J3|]. intros [= <- En]. apply Ed. simpl in Hb. rewrite Ha in Hb. by injection Hb as <-.
  - intros b n e [[[= <- <-] _]|[_ Hb]]%lookup_insert_Some; [eauto|by eapply J4].
  - intros k q perm [[_ [= <- <-]]|[_ Hk]]%lookup_insert_Some; [by right|by eapply J9].
  - intros b u c q perm Hu Hpg [[[= <- En] [= <- <-]]|[_ Hk]]%lookup_insert_Some; [|by eapply J11].
    change (page_of (step_to s v' h') a u) with (page_of s a u) in Hpg. rewrite (page_of_page s a u w) in Hpg by (try done; symmetry; by apply page_no_inj). by rewrite Hpg in Hkind.
  - intros b u q perm Hu Hpg Hk. change (page_of (step_to s v' h') b u) with (page_of s b u) in Hpg. unfold M' in Hk. apply lookup_insert_Some in Hk as [[[= <- En] [= <- <-]]|[Hne Hk]].
    + rewrite (page_of_page s a u w) in Hpg by (try done; symmetry; by apply page_no_inj). rewrite Hpg in Hkind. destruct Hkind as [K1 K2]. split; [done|].
      intros _ k e [[<- _]|[Hne Hk]]%lookup_insert_Some; [by rewrite En|]. exfalso. by eapply K2.
    + destruct (J12 b u q perm Hu Hpg Hk) as [P1 P2]. split; [done|]. intros Hp k e [[<- [= -> <-]]|[Hne' Hk']]%lookup_insert_Some; [|by eapply P2].
      exfalso. destruct (page_of s a w) as [c|]; [by eapply P1|]. destruct Hkind as [_ K2]. by eapply K2.
Qed.

(** A frame that is not referred to changed. *)
Lemma inv_frames s M C v' h' : inv s M C -> vok v' -> tables v' = tables (Vm.pts (vmst s)) -> (forall m n, entry v' m n = entry (Vm.pts (vmst s)) m n) ->
  (forall q, (0 < refs M C q)%nat -> count v' q = count (Vm.pts (vmst s)) q /\ h' !! q = mem s !! q) -> inv (step_to s v' h') M C.
Proof.
  intros I Hv Ht He Hq. pose proof I as [Hs J2 J3 J4 J5 J6 J7 J8 J9 J10 J11 J12 J13]. split; try done.
  - by apply step_static.
  - intros b y u Hb Hu. simpl. rewrite He. by apply J3.
  - intros p Hp. simpl. rewrite (proj1 (Hq p Hp)). by apply J7.
  - intros p Hp. simpl. rewrite (proj2 (Hq p Hp)). by apply J8.
Qed.

(** ** The parts of the handler *)

Abbreviation pts s := (Vm.pts (vmst s)).

Lemma set_pts_id s : set_pts (pts s) s = s.
Proof. by destruct s as [[] ? ? ? ? ?]. Qed.

Lemma bind_pts {B D} (m : M V B) (k : B -> M (pf A V T) D) s b v' : m (pts s) = Ret b v' -> bind (on_pts m) k s = k b (set_pts v' s).
Proof. intros E. apply bind_Ret. unfold on_pts, zoom. by rewrite E. Qed.

Lemma bind_same {B D} (m : M V B) (k : B -> M (pf A V T) D) s b : m (pts s) = Ret b (pts s) -> bind (on_pts m) k s = k b s.
Proof. intros E. rewrite (bind_pts m k s b (pts s) E). by rewrite set_pts_id. Qed.

Lemma bind_vm_as {D} (k : Vm.addrspace -> M (pf A V T) D) s a x : Vm.spaces (vmst s) !! a = Some x -> bind (on_vm (Vm.get_as a)) k s = k x s.
Proof. intros E. apply bind_Ret. unfold on_vm, zoom, Vm.get_as. rewrite E. by destruct s. Qed.

(** One step on the page tables, whose outcome is the equation [E]. *)
Local Ltac run_pts E := erewrite bind_pts; [|exact E].

(** An allocation that failed. *)
Inductive starved s : Prop :=
| no_frame : page_alloc (pts s) = Ret None (pts s) -> starved s
| no_table m w p perm v e v' : v = pts s \/ page_alloc (pts s) = Ret (Some p) v -> vpmap_map1 m w p perm v = Ret e v' -> e <> ERR_OK -> starved s
| no_node st t i p t' : caches s !! st = Some t -> pinsert i p t = Ret 1 t' -> starved s.

(** The contents of the frames in use stay as they are. *)
Definition kept s M C s' : Prop := vmst s' = Vm.set_pts (pts s') (vmst s) /\ forall p, (0 < refs M C p)%nat -> mem s' !! p = mem s !! p.

Lemma setup_page_ok s M C a x v : inv s M C -> Vm.spaces (vmst s) !! a = Some x -> user_addr v -> M !! (a, page_no v) = None -> page_of s a v = None ->
  exists e s', setup_page a v s = Ret e s' /\ store_locks s' = store_locks s /\ kept s M C s' /\
    ((e <> ERR_OK /\ starved s /\ inv s' M C) \/
     (e = ERR_OK /\ exists p, inv s' (<[(a, page_no v) := (p, MEMPERM_URW)]> M) C /\ refs M C p = 0%nat /\ mem s' !! p = Some zero_page)).
Proof.
  intros I Ha Hv Hnone Hpriv. destruct (rs_space _ (iv_static _ _ _ I) a x Ha) as [_ Htab]. destruct (round_down_user v Hv) as (Hr1 & Hr2 & Hr3). unfold setup_page.
  destruct (page_alloc_spec (pts s) (iv_vok _ _ _ I)) as [E|(p & v1 & E & V1 & T1 & E1 & Hp0 & Hc0 & Hc1)].
  - rewrite (bind_same _ _ _ _ E). exists ERR_NOMEM, s. split; [done|]. split; [done|]. split; [by destruct s as [[] ? ? ? ? ?]|]. left. split; [done|]. split; [by apply no_frame|done].
  - run_pts E. unfold put_page. rewrite bind_modify. rewrite (bind_vm_as _ _ a x) by done.
    pose proof (fresh_frame s M C p I Hc0) as Hfresh. destruct (map1_spec v1 (Vm.vpmap x) (pg_round_down v) p MEMPERM_URW) as (e & v2 & E2 & V2 & T2 & C2 & Hcase); [done|by rewrite T1|done|done|rewrite Hc1, decide_True by done; lia|done|].
    run_pts E2. rewrite Hr3 in Hcase.
    destruct Hcase as [(Hne & _ & He)|(-> & He)].
    + rewrite (proj2 (Z.eqb_neq e ERR_OK) Hne). cbn [negb]. destruct (page_free_spec v2 p V2) as (v3 & E3 & V3 & T3 & N3 & C3); [rewrite C2, Hc1, decide_True by done; lia|].
      run_pts E3. exists ERR_NOMEM. eexists. split; [done|]. split; [done|]. change (set_pts v3 _) with (step_to s v3 (<[p := zero_page]> (mem s))).
      assert (Hmem : forall q, (0 < refs M C q)%nat -> <[p := zero_page]> (mem s) !! q = mem s !! q) by (intros q Hq; apply lookup_insert_ne; intros <-; lia).
      split; [split; [done|exact Hmem]|]. left. split; [done|]. split; [eapply no_table; eauto|].
      apply inv_frames; [done|done|by rewrite T3, T2|intros m n; by rewrite N3, He, E1|]. intros q Hq. split; [|by apply Hmem]. rewrite C3, C2, Hc1. repeat case_decide; subst; lia.
    + exists ERR_OK. eexists. split; [done|]. split; [done|]. change (set_pts v2 _) with (step_to s v2 (<[p := zero_page]> (mem s))).
      split; [split; [done|]; intros q Hq; simpl; apply lookup_insert_ne; intros <-; lia|]. right. split; [done|]. exists p.
      assert (Hrefs : forall q, refs (<[(a, page_no v) := (p, MEMPERM_URW)]> M) C q = (refs M C q + if decide (q = p) then 1 else 0)%nat).
      { intros q. unfold refs. rewrite (refs_insert_new fst) by done. simpl. lia. }
      split; [|split; [done|simpl; apply lookup_insert_eq]]. apply (inv_set s M C a x v p); [done|done|done|done|by rewrite T2| | | |].
      * intros m n. rewrite He. case_decide; [done|by rewrite E1].
      * intros q. rewrite Hrefs, C2, Hc1. case_decide as Eq; [subst; rewrite Hfresh; done|]. rewrite Nat.add_0_r. apply (iv_count _ _ _ I).
      * intros q. rewrite Hrefs. destruct (decide (q = p)) as [->|Hne]; [rewrite lookup_insert_eq; by eexists|]. rewrite Nat.add_0_r, lookup_insert_ne by done. apply (iv_mem _ _ _ I).
      * rewrite Hpriv. split; [intros c Hc; apply (refs_C M) in Hc; lia|]. intros k e _ Hk. apply (refs_M M C) in Hk. lia.
Qed.

Lemma page_lock_unlock s M C p : inv s M C -> ({[p]} ∪ page_locks s) ∖ {[p]} = page_locks s.
Proof. intros I. rewrite (iv_locks _ _ _ I). set_solver. Qed.

Lemma bind_lock_page {D} s M C p (k : unit -> Prelude.M (pf A V T) D) : inv s M C -> bind (lock_page p) k s = k tt (set_plocks ({[p]} ∪ page_locks s) s).
Proof. intros I. unfold lock_page. rewrite bind_assoc, bind_gets. by rewrite decide_False by (rewrite (iv_locks _ _ _ I); set_solver). Qed.

Lemma handleCOW_ok s M C a x v p perm : inv s M C -> Vm.spaces (vmst s) !! a = Some x -> user_addr v -> M !! (a, page_no v) = Some (p, perm) -> page_of s a v = None ->
  exists e s', handleCOW (Vm.vpmap x) v s = Ret e s' /\ store_locks s' = store_locks s /\ kept s M C s' /\
    ((e <> ERR_OK /\ page_alloc (pts s) = Ret None (pts s) /\ s' = s) \/
     (e = ERR_OK /\ exists q, inv s' (<[(a, page_no v) := (q, MEMPERM_URW)]> M) C /\ (q = p \/ refs M C q = 0%nat) /\ mem s' !! q = mem s !! p)).
Proof.
  intros I Ha Hv Hp Hpriv. destruct (rs_space _ (iv_static _ _ _ I) a x Ha) as [_ Htab]. destruct (round_down_user v Hv) as (Hr1 & Hr2 & Hr3).
  pose proof (iv_ent _ _ _ I a x v Ha Hv) as Hent. rewrite Hp in Hent. pose proof (refs_M M C _ _ _ Hp) as Hpos. pose proof (iv_count _ _ _ I p Hpos) as Hcnt. pose proof (iv_vok _ _ _ I) as V0.
  unfold handleCOW. erewrite bind_same; [|apply lookup1_spec; done]. rewrite Hr3, Hent. cbn [fst snd]. change (negb (ERR_OK =? ERR_OK)) with false. cbn [negb].
  rewrite (bind_lock_page s M C) by done. set (s1 := set_plocks _ s). erewrite bind_same; [|apply page_refcnt_spec; [done|simpl; lia]].
  change (pts s1) with (pts s). rewrite Hcnt. destruct (Z.eqb_spec (Z.of_nat (refs M C p)) 1) as [E1|Hne1].
  - destruct (perm1_spec (pts s) (Vm.vpmap x) (pg_round_down v) p perm MEMPERM_URW) as (v1 & E & V1 & T1 & C1 & N1); [done|done|done|done|done|by rewrite Hr3|].
    rewrite bind_assoc. run_pts E. rewrite bind_ret. cbn [negb]. unfold unlock_page. rewrite bind_modify. destruct (flush_spec v1 V1) as (v2 & E2 & V2 & T2 & C2 & N2). run_pts E2.
    exists ERR_OK. eexists. split; [done|]. split; [done|]. simpl page_locks. rewrite (page_lock_unlock s M C p I). change (set_pts v2 _) with (set_plocks (page_locks s) (set_pts v2 s)).
    replace (set_plocks (page_locks s) (set_pts v2 s)) with (step_to s v2 (mem s)) by (by destruct s as [[] ? ? ? ? ?]). split; [done|]. right. split; [done|]. exists p.
    split; [|split; [by left|done]]. assert (Hrefs : forall q, refs (<[(a, page_no v) := (p, MEMPERM_URW)]> M) C q = refs M C q).
    { intros q. unfold refs. pose proof (refs_insert_old fst M _ (p, MEMPERM_URW) _ q Hp) as H. simpl in H. case_decide; lia. }
    apply (inv_set s M C a x v p); [done|done|done|done|by rewrite T2| | | |].
    * intros m n. rewrite N2, N1, Hr3. done.
    * intros q. rewrite Hrefs, C2, C1. apply (iv_count _ _ _ I).
    * intros q. rewrite Hrefs. apply (iv_mem _ _ _ I).
    * rewrite Hpriv. destruct (refs_one M C _ p perm Hp ltac:(lia)) as [K1 K2]. split; [done|]. intros k e Hk Hk'. by apply Hk, (K2 _ e).
  - rewrite bind_assoc. destruct (page_alloc_spec (pts s) V0) as [E|(q & v1 & E & V1 & T1 & N1 & Hq0 & Hc0 & Hc1)].
    { erewrite bind_same; [|exact E]. cbv beta iota. rewrite bind_assoc. unfold unlock_page. rewrite bind_modify, bind_ret. cbn [negb]. exists ERR_FAULT. eexists. split; [done|]. split; [done|]. simpl page_locks.
      rewrite (page_lock_unlock s M C p I). replace (set_plocks (page_locks s) s1) with s by (by destruct s as [[] ? ? ? ? ?]). split; [by destruct s as [[] ? ? ? ? ?]|]. left. done. }
    run_pts E. cbv beta iota. pose proof (fresh_frame s M C q I Hc0) as Hfresh. destruct (iv_mem _ _ _ I p Hpos) as (l & Hl & Hlen).
    assert (Hqp : q <> p) by (intros ->; lia). unfold get_page. rewrite !bind_assoc, bind_gets, (bind_opt _ _ l) by done. unfold put_page. rewrite bind_assoc, bind_modify. rewrite bind_assoc.
    destruct (map1_spec v1 (Vm.vpmap x) (pg_round_down v) q MEMPERM_URW) as (e & v2 & E2 & V2 & T2 & C2 & Hcase); [done|by rewrite T1|done|done|rewrite Hc1, decide_True by done; lia|done|].
    run_pts E2. rewrite Hr3, N1, Hent in Hcase. destruct Hcase as [(_ & Habs & _)|(-> & He)]; [done|]. change (negb (ERR_OK =? ERR_OK)) with false. cbn iota. rewrite bind_assoc.
    destruct (page_dec_spec v2 p V2) as (v3 & E3 & V3 & T3 & N3 & C3); [rewrite C2, Hc1, decide_False, Hcnt by done; lia|]. run_pts E3. rewrite bind_ret. cbn [negb]. unfold unlock_page. rewrite bind_modify.
    destruct (flush_spec v3 V3) as (v4 & E4 & V4 & T4 & C4 & N4). run_pts E4. exists ERR_OK. eexists. split; [done|]. split; [done|]. simpl page_locks. rewrite (page_lock_unlock s M C p I).
    change (set_pts v4 _) with (set_plocks (page_locks s) (step_to s v4 (<[q := l]> (mem s)))).
    replace (set_plocks (page_locks s) (step_to s v4 (<[q := l]> (mem s)))) with (step_to s v4 (<[q := l]> (mem s))) by (by destruct s as [[] ? ? ? ? ?]).
    split; [split; [done|]; intros r Hr; simpl; apply lookup_insert_ne; intros <-; lia|]. right. split; [done|]. exists q. split; [|split; [by right|simpl; by rewrite lookup_insert_eq]].
    assert (Hrefs : forall r, (refs (<[(a, page_no v) := (q, MEMPERM_URW)]> M) C r + (if decide (r = p) then 1 else 0) = refs M C r + if decide (r = q) then 1 else 0)%nat).
    { intros r. unfold refs. pose proof (refs_insert_old fst M _ (q, MEMPERM_URW) _ r Hp) as H. simpl in H. lia. }
    apply (inv_set s M C a x v q); [done|done|done|done|by rewrite T4, T3, T2| | | |].
    * intros m n. rewrite N4, N3, He. case_decide; [done|apply N1].
    * intros r Hr. specialize (Hrefs r). rewrite C4, C3, C2, Hc1, C2, Hc1, (decide_False _ _ (P := p = q)) by done. destruct (decide (r = p)) as [->|Hrp]; [rewrite Hcnt; rewrite decide_False in Hrefs by done; lia|].
      rewrite Nat.add_0_r in Hrefs. rewrite Hrefs in Hr |- *. destruct (decide (r = q)) as [->|Hrq]; [rewrite Hfresh; done|]. rewrite Nat.add_0_r in Hr |- *. by apply (iv_count _ _ _ I).
    * intros r Hr. specialize (Hrefs r). destruct (decide (r = q)) as [->|Hrq]; [rewrite lookup_insert_eq; by eexists|]. rewrite lookup_insert_ne by done. apply (iv_mem _ _ _ I). destruct (decide (r = p)); lia.
    * rewrite Hpriv. split; [intros c Hc; apply (refs_C M) in Hc; lia|]. intros k e _ Hk. apply (refs_M M C) in Hk. lia.
Qed.

(** The cache of a store grew by at most one page. *)
Lemma caches_static s st t' : regions_ok s -> is_Some (caches s !! st) -> regions_ok (set_caches (<[st := t']> (caches s)) s).
Proof.
  intros [H1 H2 H3] Hst. split; [exact H1| |exact H3]. intros a x r Ha Hr. destruct (H2 a x r Ha Hr) as (m & Hm & [? ? ? ? ? R6]). exists m. split; [done|]. split; try done.
  intros Hsh. destruct (R6 Hsh) as (? & ? & ?). split_and!; try done. simpl. destruct (decide (Vm.store m = st)) as [->|]; [rewrite lookup_insert_eq; eauto|by rewrite lookup_insert_ne].
Qed.

Lemma inv_cache_same s M C st t t' : inv s M C -> caches s !! st = Some t -> pok t' -> (forall i, 0 <= i < 2 ^ 30 -> pget t' i = pget t i) ->
  inv (set_caches (<[st := t']> (caches s)) s) M C.
Proof.
  intros I Hst Ht Hget. pose proof I as [Hs J2 J3 J4 J5 J6 J7 J8 J9 J10 J11 J12 J13]. split; try done.
  - apply caches_static; eauto.
  - intros st' u Hu. simpl in Hu. apply lookup_insert_Some in Hu as [[<- <-]|[_ Hu]]; [|by apply J5]. split; [done|]. intros i Hi. rewrite Hget by done. by apply (J5 st t).
Qed.

Lemma inv_cache_add s M C st t t' i p : inv s M C -> caches s !! st = Some t -> pok t' -> 0 <= i < 2 ^ 30 -> C !! (st, i) = None ->
  p <> 0 -> refs M C p = 0%nat -> count (pts s) p = 1 -> mem s !! p = Some zero_page -> pget t' i = p -> (forall j, 0 <= j < 2 ^ 30 -> j <> i -> pget t' j = pget t j) ->
  inv (set_caches (<[st := t']> (caches s)) s) M (<[(st, i) := p]> C).
Proof.
  intros I Hst Ht Hi HC Hp0 Hp Hc Hm Hget Hother. pose proof I as [Hs J2 J3 J4 J5 J6 J7 J8 J9 J10 J11 J12 J13].
  assert (Hrefs : forall q, refs M (<[(st, i) := p]> C) q = (refs M C q + if decide (q = p) then 1 else 0)%nat) by (intros q; unfold refs; rewrite (refs_insert_new (fun q => q)) by done; lia).
  split; try done.
  - apply caches_static; eauto.
  - intros st' u Hu. simpl in Hu. apply lookup_insert_Some in Hu as [[<- <-]|[Hne Hu]].
    + split; [done|]. intros j Hj. destruct (decide (j = i)) as [->|Hji]; [by rewrite lookup_insert_eq|]. rewrite lookup_insert_ne by congruence. rewrite Hother by done. by apply (J5 st t).
    + destruct (J5 st' u Hu) as [U1 U2]. split; [done|]. intros j Hj. rewrite lookup_insert_ne by congruence. by apply U2.
  - intros c q [[_ <-]|[_ Hq]]%lookup_insert_Some; [done|by eapply J6].
  - intros q. rewrite Hrefs. case_decide as E; [subst; rewrite Hp; done|]. rewrite Nat.add_0_r. apply J7.
  - intros q. rewrite Hrefs. case_decide as E; [subst; intros _; by eexists|]. rewrite Nat.add_0_r. apply J8.
  - intros c c' q [[<- <-]|[_ H1]]%lookup_insert_Some [[<- E]|[_ H2]]%lookup_insert_Some; [done|exfalso; apply (refs_C M) in H2; lia|exfalso; subst; apply (refs_C M) in H1; lia|by eapply J10].
  - intros a v c q perm Hv Hpg Hk. destruct (J11 a v c q perm Hv Hpg Hk) as [E1 E2]. split; [|done]. rewrite lookup_insert_ne; [done|]. intros <-. congruence.
  - intros a v q perm Hv Hpg Hk. destruct (J12 a v q perm Hv Hpg Hk) as [E1 E2]. split; [|done]. intros c [[_ <-]|[_ Hc']]%lookup_insert_Some; [apply (refs_M M C) in Hk; lia|by eapply E1].
Qed.

Lemma bind_cache {B D} s st t (m : Prelude.M T B) (k : B -> Prelude.M (pf A V T) D) b t' : caches s !! st = Some t -> m t = Ret b t' ->
  bind (on_cache st m) k s = k b (set_caches (<[st := t']> (caches s)) s).
Proof. intros Ht E. apply bind_Ret. unfold on_cache, get_cache. rewrite bind_assoc, bind_gets, (bind_opt _ _ t) by done. by rewrite E. Qed.

Lemma get_page_ok s M C st ofs : inv s M C -> st <> 0 -> is_Some (caches s !! st) -> let i := ofs `div` PG_SIZE in 0 <= i < 2 ^ 30 ->
  exists p s', pgcache_get_page st ofs s = Ret p s' /\ kept s M C s' /\ store_locks s' = store_locks s /\
    ((p = 0 /\ starved s /\ inv s' M C) \/
     (p <> 0 /\ C !! (st, i) = Some p /\ s' = s) \/
     (C !! (st, i) = None /\ inv s' M (<[(st, i) := p]> C) /\ p <> 0 /\ refs M C p = 0%nat /\ mem s' !! p = Some zero_page /\ page_alloc (pts s) = Ret (Some p) (pts s'))).
Proof.
  intros I H0 [t Ht] i Hi. destruct (iv_cache _ _ _ I st t Ht) as [Hok Hget]. unfold pgcache_get_page. rewrite bind_kassert by lia.
  rewrite (bind_cache s st t _ _ (pget t i) t Ht) by (by apply plookup_spec). rewrite insert_id by done. replace (set_caches (caches s) s) with s by (by destruct s).
  assert (Hk : kept s M C s) by (split; [by destruct s as [[] ? ? ? ? ?]|done]). pose proof (Hget i Hi) as Hgi. destruct (C !! (st, i)) as [p|] eqn:HC; simpl in Hgi.
  { pose proof (iv_cdom _ _ _ I _ p HC) as Hp0. rewrite Hgi, (proj2 (Z.eqb_neq p 0) Hp0). exists p, s. split_and!; try done. right. left. done. }
  rewrite Hgi. cbn [Z.eqb negb]. destruct (page_alloc_spec (pts s) (iv_vok _ _ _ I)) as [E|(p & v1 & E & V1 & T1 & N1 & Hp0 & Hc0 & Hc1)].
  { erewrite bind_same; [|exact E]. exists 0, s. split_and!; try done. left. split; [done|]. split; [by apply no_frame|done]. }
  run_pts E. cbv beta iota. pose proof (fresh_frame s M C p I Hc0) as Hfresh. unfold fillpage. rewrite bind_assoc, bind_kassert by lia. rewrite bind_assoc, bind_kassert by lia. rewrite bind_assoc. unfold put_page.
  rewrite bind_modify, bind_ret. change (negb (ERR_OK =? ERR_OK)) with false. cbn iota. change (set_mem _ _) with (step_to s v1 (<[p := zero_page]> (mem s))).
  assert (Hmem : forall q, (0 < refs M C q)%nat -> <[p := zero_page]> (mem s) !! q = mem s !! q) by (intros q Hq; apply lookup_insert_ne; intros <-; lia).
  assert (I1 : inv (step_to s v1 (<[p := zero_page]> (mem s))) M C).
  { apply inv_frames; [done|done|done|done|]. intros q Hq. split; [|by apply Hmem]. rewrite Hc1, decide_False; [done|]. intros ->. lia. }
  destruct (pinsert_spec t i p Hok Hi Hp0 Hgi) as (e & t' & Ei & Hok' & Hoth & Hcase). rewrite (bind_cache _ st t _ _ e t') by done.
  destruct Hcase as [[-> Hgp]|[-> Hgp]].
  - change (0 =? ERR_OK) with true. cbn iota. do 2 eexists. split; [done|]. split; [done|]. split; [done|]. right. right. split; [done|]. split; [|split; [done|split; [done|split; [simpl; by rewrite lookup_insert_eq|done]]]].
    apply (inv_cache_add _ M C st t t' i p); try done; [simpl; rewrite Hc1, decide_True by done; done|simpl; by rewrite lookup_insert_eq].
  - change (1 =? ERR_OK) with false. cbn iota. change (1 =? 1) with true. cbn iota. destruct (page_free_spec v1 p V1) as (v2 & E2 & V2 & T2 & N2 & C2); [rewrite Hc1, decide_True by done; lia|].
    run_pts E2. do 2 eexists. split; [done|]. split; [done|]. split; [done|]. left. split; [done|]. split; [by eapply no_node|].
    change (set_pts v2 _) with (set_caches (<[st := t']> (caches (step_to s v2 (<[p := zero_page]> (mem s))))) (step_to s v2 (<[p := zero_page]> (mem s)))). apply (inv_cache_same _ M C st t t'); [|done|done|].
    + apply inv_frames; [done|done|by rewrite T2|intros m n; by rewrite N2, N1|]. intros q Hq. split; [|by apply Hmem]. rewrite C2, Hc1. repeat case_decide; subst; lia.
    + intros j Hj. destruct (decide (j = i)) as [->|Hji]; [by rewrite Hgp, Hgi|by apply Hoth].
Qed.

Lemma inv_slocks s M C L : inv s M C -> inv (set_slocks L s) M C.
Proof. intros [[H1 H2 H3] J2 J3 J4 J5 J6 J7 J8 J9 J10 J11 J12 J13]. split; try done. split; [exact H1| |exact H3]. intros a x r Ha Hr. destruct (H2 a x r Ha Hr) as (m & Hm & [? ? ? ? ? ?]). by exists m. Qed.

(** [C'] is [C], or has one page of zeros more. *)
Definition cache_grown s' M C (c : Z * Z) C' : Prop := C' = C \/ (C !! c = None /\ exists p, C' = <[c := p]> C /\ refs M C p = 0%nat /\ mem s' !! p = Some zero_page).

(** The mapping step of [handleSharedRegion]. *)
Lemma map_shared_ok s M C a x v c p : inv s M C -> Vm.spaces (vmst s) !! a = Some x -> user_addr v -> M !! (a, page_no v) = None -> page_of s a v = Some c -> C !! c = Some p ->
  count (pts s) p < 2 ^ 31 - 1 ->
  exists e v1, vpmap_map1 (Vm.vpmap x) (pg_round_down v) p MEMPERM_URW (pts s) = Ret e v1 /\
    ((e <> ERR_OK /\ inv (step_to s v1 (mem s)) M C) \/
     (e = ERR_OK /\ exists v2, page_inc p v1 = Ret tt v2 /\ inv (step_to s v2 (mem s)) (<[(a, page_no v) := (p, MEMPERM_URW)]> M) C)).
Proof.
  intros I Ha Hv Hnone Hpg HC Hb. destruct (rs_space _ (iv_static _ _ _ I) a x Ha) as [_ Htab]. destruct (round_down_user v Hv) as (Hr1 & Hr2 & Hr3).
  pose proof (refs_C M C _ _ HC) as Hpos. pose proof (iv_count _ _ _ I p Hpos) as Hcnt. pose proof (iv_vok _ _ _ I) as V0.
  destruct (map1_spec (pts s) (Vm.vpmap x) (pg_round_down v) p MEMPERM_URW) as (e & v1 & E & V1 & T1 & C1 & Hcase); [done|done|done|done|lia|done|]. exists e, v1. split; [done|].
  destruct Hcase as [(Hne & _ & He)|(-> & He)].
  { left. split; [done|]. apply inv_frames; try done. }
  right. split; [done|]. destruct (page_inc_spec v1 p V1) as (v2 & E2 & V2 & T2 & N2 & C2); [rewrite C1; lia|]. exists v2. split; [done|].
  assert (Hrefs : forall q, refs (<[(a, page_no v) := (p, MEMPERM_URW)]> M) C q = (refs M C q + if decide (q = p) then 1 else 0)%nat).
  { intros q. unfold refs. rewrite (refs_insert_new fst) by done. simpl. lia. }
  apply (inv_set s M C a x v p); [done|done|done|done|by rewrite T2| | | |].
  - intros m n. rewrite N2, He, Hr3. done.
  - intros q. rewrite Hrefs, C2, !C1. case_decide as Eq; [subst; rewrite Hcnt; lia|]. rewrite Nat.add_0_r. apply (iv_count _ _ _ I).
  - intros q. rewrite Hrefs. case_decide as Eq; [subst; intros _; by apply (iv_mem _ _ _ I)|]. rewrite Nat.add_0_r. apply (iv_mem _ _ _ I).
  - by rewrite Hpg.
Qed.

Lemma handleShared_ok s M C a x v r m : inv s M C -> store_locks s = ∅ -> (forall p, count (pts s) p < 2 ^ 31 - 1) -> Vm.spaces (vmst s) !! a = Some x -> user_addr v ->
  M !! (a, page_no v) = None -> region_at s a v = Some (r, m) -> Vm.shared m = true -> let c := (Vm.store m, (v - Vm.start m) `div` PG_SIZE) in
  exists e s' C', handleSharedRegion m (Vm.vpmap x) v s = Ret e s' /\ kept s M C s' /\ store_locks s' = ∅ /\ cache_grown s' M C c C' /\
    ((e <> ERR_OK /\ starved s /\ inv s' M C') \/ (e = ERR_OK /\ exists p, C' !! c = Some p /\ inv s' (<[(a, page_no v) := (p, MEMPERM_URW)]> M) C')).
Proof.
  intros I Hl Hb Ha Hv Hnone Hreg Hsh c. destruct (region_at_ok s a x v r m (iv_static _ _ _ I) Ha Hreg) as ([_ _ [Hst1 Hst2] Hend _ R6] & _ & Hhit).
  destruct (R6 Hsh) as (R1 & R2 & R3). assert (Hpg : page_of s a v = Some c) by (unfold page_of; by rewrite Hreg; simpl; rewrite Hsh).
  unfold hit in Hhit. apply andb_true_iff in Hhit as [Hh1%Z.leb_le Hh2%Z.leb_le]. assert (Hu : 0 <= v < 2 ^ 64 - 1) by (unfold user_addr, USER_END in Hv; lia). rewrite wrap_small in Hh2 by lia.
  assert (Hi : 0 <= (v - Vm.start m) `div` PG_SIZE < 2 ^ 30) by (split; [apply Z.div_pos; [lia|done]|apply Z.div_lt_upper_bound; [done|unfold PG_SIZE; lia]]).
  unfold handleSharedRegion. unfold lock_store. rewrite bind_assoc, bind_gets. rewrite decide_False by (rewrite Hl; set_solver). rewrite bind_modify, Hl.
  rewrite (wrap_small 64 (v - Vm.start m)) by lia. set (s1 := set_slocks _ s). assert (I1 : inv s1 M C) by (by apply inv_slocks).
  destruct (get_page_ok s1 M C (Vm.store m) (v - Vm.start m) I1 R1 R2 Hi) as (p & s2 & E & Hk & Hl2 & Hcase). rewrite (bind_Ret _ _ _ _ _ E).
  assert (Hunl : store_locks s2 ∖ {[Vm.store m]} = ∅) by (rewrite Hl2; unfold s1; simpl; set_solver).
  destruct Hcase as [(-> & Hst & I2)|Hcase].
  { cbn [Z.eqb]. unfold unlock_store. rewrite bind_modify. do 3 eexists. split; [done|]. split; [exact Hk|]. split; [done|]. split; [by left|]. left. split; [done|]. split; [|by apply inv_slocks].
    destruct Hst as [?|? ? ? ? ? ? ? ?|? ? ? ? ? ? ?]; [by apply no_frame|by eapply no_table|by eapply no_node]. }
  assert (HC' : exists C', inv s2 M C' /\ C' !! c = Some p /\ p <> 0 /\ cache_grown s2 M C c C' /\ count (pts s2) p < 2 ^ 31 - 1 /\ (pts s2 = pts s \/ page_alloc (pts s) = Ret (Some p) (pts s2))).
  { destruct Hcase as [(Hp0 & HC & ->)|(HC & I2 & Hp0 & Hf & Hz & Hal)].
    - exists C. split; [done|]. split; [done|]. split; [done|]. split; [by left|]. split; [apply Hb|by left].
    - exists (<[c := p]> C). split_and!; try done; [by rewrite lookup_insert_eq|right; split; [done|by exists p]| |by right].
      rewrite (iv_count _ _ _ I2 p); unfold refs in *; rewrite (refs_insert_new (fun q => q)), decide_True by done; lia. }
  destruct HC' as (C' & I2 & HCc & Hp0 & Hgrow & Hb2 & Hal). rewrite (proj2 (Z.eqb_neq p 0) Hp0).
  assert (Hvm : vmst s2 = Vm.set_pts (pts s2) (vmst s)) by apply Hk. assert (Ha2 : Vm.spaces (vmst s2) !! a = Some x) by (by rewrite Hvm).
  assert (Hpg2 : page_of s2 a v = Some c) by (unfold page_of, region_at in *; by rewrite Hvm).
  rewrite (bind_lock_page s2 M C') by done. destruct (map_shared_ok s2 M C' a x v c p) as (e & v1 & E1 & Hcase2); try done. run_pts E1.
  assert (Hfin : forall v' L, set_plocks (({[p]} ∪ page_locks s2) ∖ {[p]}) (set_slocks L (set_pts v' (set_plocks ({[p]} ∪ page_locks s2) s2))) = set_slocks L (step_to s2 v' (mem s2))).
  { intros v' L. rewrite (page_lock_unlock s2 M C' p I2). by destruct s2 as [[] ? ? ? ? ?]. }
  destruct Hcase2 as [[Hne I3]|(-> & v2 & E2 & I3)].
  - rewrite (proj2 (Z.eqb_neq e ERR_OK) Hne). cbn [negb]. unfold unlock_store, unlock_page. rewrite !bind_modify. do 3 eexists. split; [done|]. simpl store_locks. simpl page_locks. rewrite Hunl, Hfin.
    split; [split; [simpl; by rewrite Hvm|apply Hk]|]. split; [done|]. split; [exact Hgrow|]. left. split; [done|]. split; [|by apply inv_slocks].
    destruct Hal as [Hal|Hal]; [rewrite Hal in E1|]; (eapply no_table; [|exact E1|done]); eauto.
  - change (negb (ERR_OK =? ERR_OK)) with false. cbn iota. run_pts E2. unfold unlock_store, unlock_page. rewrite !bind_modify. do 3 eexists. split; [done|]. simpl store_locks. simpl page_locks. rewrite Hunl.
    change (set_slocks ∅ _) with (set_plocks (({[p]} ∪ page_locks s2) ∖ {[p]}) (set_slocks ∅ (set_pts v2 (set_plocks ({[p]} ∪ page_locks s2) s2)))). rewrite Hfin.
    split; [split; [simpl; by rewrite Hvm|apply Hk]|]. split; [done|]. split; [exact Hgrow|]. right. split; [done|]. exists p. split; [done|by apply inv_slocks].
Qed.

(** ** User memory as the processes see it *)

Definition byte (h : gmap Z (list Z)) (p v : Z) : Z := default 0 (l ← h !! p; l !! Z.to_nat (v `mod` PG_SIZE)).

(** The byte at an address of a process: in shared memory the one of the memory
    store (0 while the store has no page there), elsewhere the one of the
    process's own page, or 0 where heap and stack have no page yet. *)
Definition gview s M C (h : gmap Z (list Z)) (a v : Z) : option Z :=
  match page_of s a v with
  | Some c => Some (from_option (fun p => byte h p v) 0 (C !! c))
  | None => match M !! (a, page_no v) with
            | Some e => Some (byte h e.1 v)
            | None => if lazy s a v then Some 0 else None
            end
  end.

Lemma byte_zero h p v : h !! p = Some zero_page -> byte h p v = 0.
Proof. intros E. unfold byte. rewrite E. simpl. unfold zero_page. destruct (replicate 4096 0 !! Z.to_nat (v `mod` PG_SIZE)) as [b|] eqn:Eb; [|done]. by apply lookup_replicate in Eb as [-> _]. Qed.

Lemma byte_ext h h' p q v : h' !! q = h !! p -> byte h' q v = byte h p v.
Proof. intros E. unfold byte. by rewrite E. Qed.

Lemma gview_static s s' M C h a v : vmst s' = Vm.set_pts (pts s') (vmst s) -> gview s' M C h a v = gview s M C h a v.
Proof.
  intros E. assert (E1 : Vm.spaces (vmst s') = Vm.spaces (vmst s)) by (by rewrite E). assert (E2 : Vm.mrs (vmst s') = Vm.mrs (vmst s)) by (by rewrite E).
  unfold gview, page_of, lazy, region_at. by rewrite E1, E2.
Qed.

Lemma gview_mem s M C h h' a v : (forall p, (0 < refs M C p)%nat -> h' !! p = h !! p) -> gview s M C h' a v = gview s M C h a v.
Proof.
  intros H. unfold gview. destruct (page_of s a v) as [c|].
  - destruct (C !! c) as [p|] eqn:HC; [|done]. simpl. f_equal. apply byte_ext, H. by apply (refs_C M) in HC.
  - destruct (M !! _) as [[p perm]|] eqn:HM; [|done]. f_equal. apply byte_ext, H. by apply (refs_M M C) in HM.
Qed.

Lemma gview_grown s s' M C C' c a v : cache_grown s' M C c C' -> gview s M C' (mem s') a v = gview s M C (mem s') a v.
Proof.
  intros [->|(HC & p & -> & _ & Hz)]; [done|]. unfold gview. destruct (page_of s a v) as [c'|]; [|done]. f_equal. destruct (decide (c' = c)) as [->|Hne].
  - rewrite lookup_insert_eq, HC. simpl. by apply byte_zero.
  - by rewrite lookup_insert_ne by done.
Qed.

(** A page that is put at an address does not change what is seen there. *)
Lemma gview_map s M C h a w e : regions_ok s -> user_addr w -> (forall v, user_addr v -> v `div` PG_SIZE = w `div` PG_SIZE -> page_of s a v = None -> Some (byte h e.1 v) = gview s M C h a v) ->
  forall b v, user_addr v -> gview s (<[(a, page_no w) := e]> M) C h b v = gview s M C h b v.
Proof.
  intros Hs Hw He b v Hv. unfold gview at 1. destruct (page_of s b v) as [c|] eqn:Hpg; [unfold gview; by rewrite Hpg|].
  destruct (decide (b = a /\ page_no v = page_no w)) as [[-> En]|Hne].
  - rewrite En, lookup_insert_eq. apply He; [done|by apply page_no_inj|done].
  - rewrite lookup_insert_ne by (intros [= Ea En]; by apply Hne). unfold gview. by rewrite Hpg.
Qed.

Lemma lazy_page s a v w : regions_ok s -> user_addr v -> user_addr w -> v `div` PG_SIZE = w `div` PG_SIZE -> lazy s a v = lazy s a w.
Proof. intros Hs Hv Hw E. unfold lazy. by rewrite (region_at_page s a v w). Qed.

Lemma page_no_div v w : v `div` PG_SIZE = w `div` PG_SIZE -> page_no v = page_no w.
Proof. unfold page_no. by intros ->. Qed.

(** Why a process is ended: it touched an address where it has nothing, or wrote
    to read-only memory, or memory ran out. *)
Definition denied s M C (a v : Z) (write : bool) : Prop :=
  region_at s a v = None \/ gview s M C (mem s) a v = None \/
  (write = true /\ exists r m, region_at s a v = Some (r, m) /\ Vm.perm m <> MEMPERM_URW) \/ starved s.

Lemma inv_faults s M C n : inv s M C -> inv (set_faults n s) M C.
Proof. intros [[H1 H2 H3] J2 J3 J4 J5 J6 J7 J8 J9 J10 J11 J12 J13]. split; try done. split; [exact H1| |exact H3]. intros a x r Ha Hr. destruct (H2 a x r Ha Hr) as (m & Hm & [? ? ? ? ? ?]). by exists m. Qed.

(** What handling a fault guarantees. *)
Record handled s M C (a v : Z) (write : bool) (r : fresult) s' M' C' : Prop := {
  hd_inv : inv s' M' C';
  hd_locks : store_locks s' = ∅;
  hd_vm : vmst s' = Vm.set_pts (pts s') (vmst s);
  hd_views : forall b u, user_addr u -> gview s' M' C' (mem s') b u = gview s M C (mem s) b u;
  hd_page : r = FReturn -> exists p, M' !! (a, page_no v) = Some (p, MEMPERM_URW);
  hd_exit : r = FExit -> denied s M C a v write;
}.

Lemma handled_same s M C a v write s' : inv s' M C -> store_locks s' = ∅ -> kept s M C s' -> denied s M C a v write -> handled s M C a v write FExit s' M C.
Proof.
  intros I Hl [Hvm Hm] Hd. split; try done. intros b u Hu. rewrite (gview_static s s') by done. by apply gview_mem.
Qed.

Lemma tail_exit s a x v r m : Vm.spaces (vmst s) !! a = Some x -> Vm.end_ m <> Vm.USTACK_UPPERBOUND -> r <> Vm.heap x -> fault_tail a v r m s = Ret FExit s.
Proof. intros Ha H1 H2. unfold fault_tail. rewrite (bind_vm_as _ _ a x) by done. rewrite (proj2 (Z.eqb_neq _ _) H1), (proj2 (Z.eqb_neq _ _) H2). done. Qed.

Lemma tail_setup s a x v r m : Vm.spaces (vmst s) !! a = Some x -> Vm.end_ m = Vm.USTACK_UPPERBOUND \/ r = Vm.heap x ->
  fault_tail a v r m s = (e <- setup_page a v ;; ret (if e =? ERR_OK then FReturn else FExit)) s.
Proof.
  intros Ha H. unfold fault_tail. rewrite (bind_vm_as _ _ a x) by done. destruct (Z.eqb_spec (Vm.end_ m) Vm.USTACK_UPPERBOUND) as [|Hne]; [done|]. destruct H as [|H]; [done|].
  by rewrite (proj2 (Z.eqb_eq _ _) H).
Qed.

Lemma lazy_cases s a x v r m : Vm.spaces (vmst s) !! a = Some x -> region_at s a v = Some (r, m) ->
  (lazy s a v = true /\ (Vm.end_ m = Vm.USTACK_UPPERBOUND \/ r = Vm.heap x)) \/ (lazy s a v = false /\ Vm.end_ m <> Vm.USTACK_UPPERBOUND /\ r <> Vm.heap x).
Proof.
  intros Ha Hr. unfold lazy. rewrite Ha, Hr. destruct (Z.eqb_spec (Vm.end_ m) Vm.USTACK_UPPERBOUND); [left; auto|]. destruct (Z.eqb_spec r (Vm.heap x)); [left; auto|right; auto].
Qed.

(** A missing page of the heap or of the stack. *)
Lemma tail_missing s M C a x v r m write : inv s M C -> store_locks s = ∅ -> Vm.spaces (vmst s) !! a = Some x -> user_addr v -> M !! (a, page_no v) = None ->
  region_at s a v = Some (r, m) -> Vm.shared m = false -> exists res s' M' C', fault_tail a v r m s = Ret res s' /\ handled s M C a v write res s' M' C'.
Proof.
  intros I Hl Ha Hv Hnone Hr Hsh. pose proof (iv_static _ _ _ I) as Hs. assert (Hpg : page_of s a v = None) by (unfold page_of; by rewrite Hr; simpl; rewrite Hsh).
  destruct (lazy_cases s a x v r m Ha Hr) as [[Hlz Hc]|(Hlz & H1 & H2)].
  - rewrite (tail_setup s a x) by done. destruct (setup_page_ok s M C a x v I Ha Hv Hnone Hpg) as (e & s' & E & Hl' & Hk & Hcase). rewrite (bind_Ret _ _ _ _ _ E). rewrite Hl in Hl'.
    destruct Hcase as [(Hne & Hst & I')|(-> & p & I' & Hp & Hz)].
    + exists FExit, s', M, C. rewrite (proj2 (Z.eqb_neq _ _) Hne). split; [done|]. apply handled_same; try done. by do 3 right.
    + exists FReturn, s', (<[(a, page_no v) := (p, MEMPERM_URW)]> M), C. split; [done|]. destruct Hk as [Hvm Hm]. split; try done; [|intros _; exists p; apply lookup_insert_eq].
      intros b u Hu. rewrite (gview_static s s') by done. rewrite (gview_map s M C (mem s') a v (p, MEMPERM_URW)); [by apply gview_mem|done|done| |done].
      intros w Hw Ew Hpw. simpl. rewrite (byte_zero _ _ _ Hz). unfold gview. rewrite Hpw, (page_no_div w v Ew), Hnone, (lazy_page s a w v) by done. by rewrite Hlz.
  - exists FExit, s, M, C. rewrite (tail_exit s a x) by done. split; [done|]. apply handled_same; [done|done|split; [by destruct s as [[] ? ? ? ? ?]|done]|].
    right. left. unfold gview. by rewrite Hpg, Hnone, Hlz.
Qed.

(** A missing page of shared memory. *)
Lemma shared_missing s M C a x v r m write : inv s M C -> store_locks s = ∅ -> (forall p, count (pts s) p < 2 ^ 31 - 1) -> Vm.spaces (vmst s) !! a = Some x -> user_addr v ->
  M !! (a, page_no v) = None -> region_at s a v = Some (r, m) -> Vm.shared m = true ->
  exists e s' M' C', handleSharedRegion m (Vm.vpmap x) v s = Ret e s' /\ handled s M C a v write (if e =? ERR_OK then FReturn else FExit) s' M' C'.
Proof.
  intros I Hl Hb Ha Hv Hnone Hr Hsh. pose proof (iv_static _ _ _ I) as Hs. destruct (handleShared_ok s M C a x v r m I Hl Hb Ha Hv Hnone Hr Hsh) as (e & s' & C' & E & [Hvm Hm] & Hl' & Hg & Hcase).
  assert (Hviews : forall b u, gview s' M C' (mem s') b u = gview s M C (mem s) b u).
  { intros b u. rewrite (gview_static s s') by done. rewrite (gview_grown s s' M C C' _ b u Hg). by apply gview_mem. }
  destruct Hcase as [(Hne & Hst & I')|(-> & p & HC & I')].
  - exists e, s', M, C'. rewrite (proj2 (Z.eqb_neq _ _) Hne). split; [done|]. split; try done. intros _. by do 3 right.
  - exists ERR_OK, s', (<[(a, page_no v) := (p, MEMPERM_URW)]> M), C'. split; [done|]. split; try done; [|intros _; exists p; apply lookup_insert_eq].
    intros b u Hu. rewrite <- Hviews. apply gview_map; [|done| |done].
    + apply (iv_static _ _ _ I').
    + intros w Hw Ew Hpw. exfalso. assert (Hpg : page_of s' a w = page_of s a w).
      { unfold page_of, region_at. assert (E1 : Vm.spaces (vmst s') = Vm.spaces (vmst s)) by (by rewrite Hvm). assert (E2 : Vm.mrs (vmst s') = Vm.mrs (vmst s)) by (by rewrite Hvm). by rewrite E1, E2. }
      rewrite Hpg, (page_of_page s a w v) in Hpw by done. unfold page_of in Hpw. rewrite Hr in Hpw. simpl in Hpw. by rewrite Hsh in Hpw.
Qed.

(** A write to a private page that is mapped read-only. *)
Lemma cow_present s M C a x v r m p perm : inv s M C -> store_locks s = ∅ -> Vm.spaces (vmst s) !! a = Some x -> user_addr v -> M !! (a, page_no v) = Some (p, perm) ->
  region_at s a v = Some (r, m) -> Vm.shared m = false ->
  exists e s' M' C', handleCOW (Vm.vpmap x) v s = Ret e s' /\ handled s M C a v true (if e =? ERR_OK then FReturn else FExit) s' M' C' /\
    (e <> ERR_OK -> s' = s /\ page_alloc (pts s) = Ret None (pts s)).
Proof.
  intros I Hl Ha Hv Hp Hr Hsh. pose proof (iv_static _ _ _ I) as Hs. assert (Hpg : page_of s a v = None) by (unfold page_of; by rewrite Hr; simpl; rewrite Hsh).
  destruct (handleCOW_ok s M C a x v p perm I Ha Hv Hp Hpg) as (e & s' & E & Hl' & Hk & Hcase). rewrite Hl in Hl'. destruct Hcase as [(Hne & Hst & ->)|(-> & q & I' & Hq & Hm)].
  - exists e, s, M, C. rewrite (proj2 (Z.eqb_neq _ _) Hne). split; [done|]. split; [|done]. apply handled_same; try done. do 3 right. by apply no_frame.
  - exists ERR_OK, s', (<[(a, page_no v) := (q, MEMPERM_URW)]> M), C. split; [done|]. split; [|done]. destruct Hk as [Hvm Hmem]. split; try done; [|intros _; exists q; apply lookup_insert_eq].
    intros b u Hu. rewrite (gview_static s s') by done. rewrite (gview_map s M C (mem s') a v (q, MEMPERM_URW)); [by apply gview_mem|done|done| |done].
    intros w Hw Ew Hpw. unfold gview. rewrite Hpw, (page_no_div w v Ew), Hp. simpl. f_equal. apply byte_ext. rewrite Hm. symmetry. apply Hmem. by apply (refs_M M C) in Hp.
Qed.

Lemma bind_vm_mr {D} (k : Vm.memregion -> Prelude.M (pf A V T) D) s r m : Vm.mrs (vmst s) !! r = Some m -> bind (on_vm (Vm.get_mr r)) k s = k m s.
Proof. intros E. apply bind_Ret. unfold on_vm, zoom, Vm.get_mr. rewrite E. by destruct s. Qed.

Lemma handled_from s s0 M C a v write r s' M' C' : vmst s0 = vmst s -> mem s0 = mem s -> caches s0 = caches s -> handled s0 M C a v write r s' M' C' -> handled s M C a v write r s' M' C'.
Proof.
  intros E1 E2 E3 [H1 H2 H3 H4 H5 H6]. assert (Hg : forall b u, gview s0 M C (mem s0) b u = gview s M C (mem s) b u) by (intros b u; rewrite (gview_static s s0), E2; [done|rewrite E1; by destruct (vmst s)]).
  split; try done; [by rewrite H3, E1|intros b u Hu; by rewrite H4|]. intros Hr. destruct (H6 Hr) as [Hd|[Hd|[Hd|Hd]]]; unfold denied.
  - left. unfold region_at in *. by rewrite E1 in Hd.
  - right. left. by rewrite <- Hg.
  - do 2 right. left. destruct Hd as (Hw & r' & m & Hd). split; [done|]. exists r', m. unfold region_at in *. by rewrite E1 in Hd.
  - do 3 right. destruct Hd as [Hd|? ? ? ? ? ? ? Hd ? ?|? ? ? ? ? Hd ?]; [apply no_frame; by rewrite E1 in Hd|eapply no_table; [|done..]; by rewrite E1 in Hd|eapply no_node; [|done]; by rewrite E3 in Hd].
Qed.

Lemma fault_ok s M C a x v write : inv s M C -> store_locks s = ∅ -> (forall p, count (pts s) p < 2 ^ 31 - 1) -> Vm.spaces (vmst s) !! a = Some x -> user_addr v ->
  (M !! (a, page_no v) = None \/ (write = true /\ exists p, M !! (a, page_no v) = Some (p, MEMPERM_UR))) ->
  exists r s' M' C', handle_page_fault a v (bool_decide (is_Some (M !! (a, page_no v)))) write true s = Ret r s' /\ handled s M C a v write r s' M' C'.
Proof.
  intros I Hl Hb Ha Hv Hfault. unfold handle_page_fault. rewrite bind_modify. set (s0 := set_faults _ s). assert (I0 : inv s0 M C) by (by apply inv_faults).
  assert (Hfrom : forall r s' M' C', handled s0 M C a v write r s' M' C' -> handled s M C a v write r s' M' C') by (intros *; by apply handled_from). cut (exists r s' M' C',
    (mr <- on_vm (Vm.as_find_memregion a v 1) ;;
     if mr =? 0 then ret FExit
     else
       m <- on_vm (Vm.get_mr mr) ;;
       x <- on_vm (Vm.get_as (Vm.as_ m)) ;;
       e <- (if Vm.shared m then handleSharedRegion m (Vm.vpmap x) v else ret ERR_FAULT) ;;
       if Vm.shared m && (e =? ERR_OK) then ret FReturn
       else
         e <- (if bool_decide (is_Some (M !! (a, page_no v))) && write && (Vm.perm m =? MEMPERM_URW) then handleCOW (Vm.vpmap x) v else ret ERR_FAULT) ;;
         if bool_decide (is_Some (M !! (a, page_no v))) && write && (Vm.perm m =? MEMPERM_URW) && (e =? ERR_OK) then ret FReturn
         else fault_tail a v mr m) s0 = Ret r s' /\ handled s0 M C a v write r s' M' C').
  { intros (r & s' & M' & C' & E & H). exists r, s', M', C'. split; [exact E|by apply Hfrom]. }
  clear Hfrom. pose proof (iv_static _ _ _ I0) as Hs. rewrite (bind_Ret _ _ _ _ _ (find_memregion_ok s0 a x v Hs Ha)).
  destruct (region_at s0 a v) as [[r m]|] eqn:Hr; cbn [from_option fst].
  2:{ exists FExit, s0, M, C. split; [done|]. apply handled_same; [done|done|split; [by destruct s as [[] ? ? ? ? ?]|done]|by left]. }
  destruct (region_at_ok s0 a x v r m Hs Ha Hr) as ([R1 R2 R3 R4 R5 R6] & Hm & Hh). rewrite (proj2 (Z.eqb_neq r 0) R2), (bind_vm_mr _ _ r m) by done. rewrite (bind_vm_as _ _ (Vm.as_ m) x) by (by rewrite R1).
  destruct (Vm.shared m) eqn:Hsh; cbn [andb].
  - assert (Hpg : page_of s0 a v = Some (Vm.store m, (v - Vm.start m) `div` PG_SIZE)) by (unfold page_of; by rewrite Hr; simpl; rewrite Hsh).
    assert (Hnone : M !! (a, page_no v) = None). { destruct Hfault as [|(_ & p & Hp)]; [done|]. by destruct (iv_shared _ _ _ I0 _ _ _ _ _ Hv Hpg Hp) as [_ ?]. }
    rewrite Hnone. rewrite bool_decide_eq_false_2 by (by intros [? ?]). cbn [andb]. destruct (shared_missing s0 M C a x v r m write) as (e & s' & M' & C' & E & H); try done. rewrite (bind_Ret _ _ _ _ _ E).
    destruct (e =? ERR_OK); [by exists FReturn, s', M', C'|]. rewrite bind_ret. exists FExit, s', M', C'. split; [|done].
    apply (tail_exit s' a x); [rewrite (hd_vm _ _ _ _ _ _ _ _ _ _ H); done|intros E1; destruct (R5 (or_introl E1)); congruence|intros E1; destruct (R5 (or_intror E1)); congruence].
  - rewrite bind_ret. destruct (M !! (a, page_no v)) as [[p perm]|] eqn:Hp.
    2:{ rewrite bool_decide_eq_false_2 by (by intros [? ?]). cbn [andb]. rewrite bind_ret. by apply (tail_missing s0 M C a x). }
    destruct Hfault as [|(-> & p' & [= <- ->])]; [done|]. rewrite bool_decide_eq_true_2 by eauto. cbn [andb]. destruct (Z.eqb_spec (Vm.perm m) MEMPERM_URW) as [Hpm|Hpm].
    + destruct (cow_present s0 M C a x v r m p MEMPERM_UR) as (e & s' & M' & C' & E & H & Hfail); try done. rewrite (bind_Ret _ _ _ _ _ E). destruct (Z.eqb_spec e ERR_OK) as [->|Hne]; cbn [andb].
      * by exists FReturn, s', M', C'.
      * destruct (Hfail Hne) as [-> Hal]. exists FExit, s0, M', C'. split; [|done]. destruct (lazy_cases s0 a x v r m Ha Hr) as [[_ Hc]|(_ & H1 & H2)]; [|by apply (tail_exit s0 a x)].
        rewrite (tail_setup s0 a x) by done. unfold setup_page. rewrite bind_assoc. by erewrite bind_same by exact Hal.
    + cbn [andb]. rewrite bind_ret. exists FExit, s0, M, C. split; [|apply handled_same; [done|done|split; [by destruct s as [[] ? ? ? ? ?]|done]|do 2 right; left; split; [done|by exists r, m]]].
      apply (tail_exit s0 a x); [done|intros E1; destruct (R5 (or_introl E1)); congruence|intros E1; destruct (R5 (or_intror E1)); congruence].
Qed.

(** ** Accesses *)

(** The byte at an address, read off the state. *)
Definition view s (a v : Z) : option Z :=
  match page_of s a v with
  | Some (st, i) => let p := from_option (fun t => pget t i) 0 (caches s !! st) in Some (if p =? 0 then 0 else byte (mem s) p v)
  | None => match pt_entry s a v with
            | Some e => Some (byte (mem s) e.1 v)
            | None => if lazy s a v then Some 0 else None
            end
  end.

Lemma page_of_cached s a v st i : regions_ok s -> user_addr v -> page_of s a v = Some (st, i) -> is_Some (caches s !! st) /\ 0 <= i < 2 ^ 30.
Proof.
  intros Hs Hv. unfold page_of. destruct (region_at s a v) as [[r m]|] eqn:Hr; [|done]. simpl. destruct (Vm.shared m) eqn:Hsh; [|done]. intros [= <- <-].
  assert (Ha : exists x, Vm.spaces (vmst s) !! a = Some x) by (unfold region_at in Hr; destruct (Vm.spaces (vmst s) !! a); [eauto|done]). destruct Ha as [x Ha].
  destruct (region_at_ok s a x v r m Hs Ha Hr) as ([_ _ R3 R4 _ R6] & _ & Hh). destruct (R6 Hsh) as (_ & Hst & Hsz). split; [done|].
  unfold hit in Hh. apply andb_true_iff in Hh as [H1%Z.leb_le H2%Z.leb_le]. assert (Hu : 0 <= v < 2 ^ 64 - 1) by (unfold user_addr, USER_END in Hv; lia). rewrite wrap_small in H2 by lia.
  split; [apply Z.div_pos; [lia|done]|apply Z.div_lt_upper_bound; [done|unfold PG_SIZE; lia]].
Qed.

Lemma pt_entry_M s M C a v : inv s M C -> user_addr v -> pt_entry s a v = M !! (a, page_no v).
Proof.
  intros I Hv. unfold pt_entry. destruct (Vm.spaces (vmst s) !! a) as [x|] eqn:Ha; simpl; [by apply (iv_ent _ _ _ I)|].
  destruct (M !! (a, page_no v)) as [e|] eqn:Hm; [|done]. destruct (iv_dom _ _ _ I a _ e Hm). congruence.
Qed.

Lemma view_gview s M C a v : inv s M C -> user_addr v -> view s a v = gview s M C (mem s) a v.
Proof.
  intros I Hv. unfold view, gview. rewrite (pt_entry_M s M C) by done. destruct (page_of s a v) as [[st i]|] eqn:Hpg; [|done].
  destruct (page_of_cached s a v st i (iv_static _ _ _ I) Hv Hpg) as ([t Ht] & Hi). rewrite Ht. simpl. rewrite (proj2 (iv_cache _ _ _ I st t Ht) i Hi).
  destruct (C !! (st, i)) as [p|] eqn:HC; simpl; [|done]. by rewrite (proj2 (Z.eqb_neq p 0) (iv_cdom _ _ _ I _ p HC)).
Qed.

Lemma access_ok s M C a x v write : inv s M C -> store_locks s = ∅ -> (forall p, count (pts s) p < 2 ^ 31 - 1) -> Vm.spaces (vmst s) !! a = Some x -> user_addr v ->
  exists o s' M' C', access a v write s = Ret o s' /\ inv s' M' C' /\ store_locks s' = ∅ /\ vmst s' = Vm.set_pts (pts s') (vmst s) /\
    (forall b u, user_addr u -> gview s' M' C' (mem s') b u = gview s M C (mem s) b u) /\
    match o with Some p => exists perm, M' !! (a, page_no v) = Some (p, perm) /\ (write = true -> perm = MEMPERM_URW) | None => denied s M C a v write end.
Proof.
  intros I Hl Hb Ha Hv. unfold access. rewrite bind_gets. unfold translate at 1. rewrite (pt_entry_M s M C) by done.
  assert (Hrun : (M !! (a, page_no v) = None \/ (write = true /\ exists p, M !! (a, page_no v) = Some (p, MEMPERM_UR))) ->
    exists o s' M' C', (r <- handle_page_fault a v (bool_decide (is_Some (M !! (a, page_no v)))) write true ;;
      match r with FExit => ret None | FReturn => s <- gets (fun s => s) ;; p <- of_option Fuel (translate s a v write) ;; ret (Some p) end) s = Ret o s' /\ inv s' M' C' /\ store_locks s' = ∅ /\ vmst s' = Vm.set_pts (pts s') (vmst s) /\
      (forall b u, user_addr u -> gview s' M' C' (mem s') b u = gview s M C (mem s) b u) /\
      match o with Some p => exists perm, M' !! (a, page_no v) = Some (p, perm) /\ (write = true -> perm = MEMPERM_URW) | None => denied s M C a v write end).
  { intros Hf. destruct (fault_ok s M C a x v write I Hl Hb Ha Hv Hf) as (r & s' & M' & C' & E & [H1 H2 H3 H4 H5 H6]). rewrite (bind_Ret _ _ _ _ _ E). destruct r.
    - destruct (H5 eq_refl) as [p Hp]. rewrite bind_gets. rewrite (bind_opt _ _ p) by (unfold translate; rewrite (pt_entry_M s' M' C'), Hp by done; simpl; by rewrite orb_true_r).
      exists (Some p), s', M', C'. split_and!; try done. by exists MEMPERM_URW.
    - exists None, s', M', C'. split_and!; try done. by apply H6. }
  destruct (M !! (a, page_no v)) as [[p perm]|] eqn:Hp; [|apply Hrun; by left]. simpl. destruct write; simpl.
  - destruct (Z.eqb_spec perm MEMPERM_URW) as [->|Hne].
    + exists (Some p), s, M, C. split_and!; try done; [by destruct s as [[] ? ? ? ? ?]|by exists MEMPERM_URW].
    + destruct (iv_perm _ _ _ I _ _ _ Hp) as [->| ->]; [|done]. apply Hrun. right. split; [done|]. by exists p.
  - exists (Some p), s, M, C. split_and!; try done; [by destruct s as [[] ? ? ? ? ?]|by exists perm].
Qed.

(** The same byte of memory at two addresses. *)
Definition same_byte s (a v b u : Z) : bool :=
  match page_of s a v, page_of s b u with
  | Some c, Some c' => bool_decide (c = c') && (v `mod` PG_SIZE =? u `mod` PG_SIZE)
  | None, None => (a =? b) && (v =? u)
  | _, _ => false
  end.

Lemma byte_write h p q l v u b : h !! p = Some l -> length l = 4096%nat ->
  byte (<[p := <[Z.to_nat (v `mod` PG_SIZE) := b]> l]> h) q u = if decide (q = p /\ v `mod` PG_SIZE = u `mod` PG_SIZE) then b else byte h q u.
Proof.
  intros Hl Hlen. pose proof (Z.mod_pos_bound v PG_SIZE ltac:(done)) as Hv. pose proof (Z.mod_pos_bound u PG_SIZE ltac:(done)) as Hu. unfold byte. destruct (decide (q = p)) as [->|Hne].
  - rewrite lookup_insert_eq, Hl. simpl. destruct (decide (v `mod` PG_SIZE = u `mod` PG_SIZE)) as [E|Hne].
    + rewrite decide_True by done. rewrite E, list_lookup_insert_eq by (unfold PG_SIZE in *; lia). done.
    + rewrite decide_False by (intros [_ ?]; done). rewrite list_lookup_insert_ne; [done|]. intros E. apply Z2Nat.inj in E; lia.
  - rewrite lookup_insert_ne by done. rewrite decide_False by (intros [? _]; done). done.
Qed.

Lemma inv_write s M C p l : inv s M C -> length l = 4096%nat -> inv (set_mem (<[p := l]> (mem s)) s) M C.
Proof.
  intros [[H1 H2 H3] J2 J3 J4 J5 J6 J7 J8 J9 J10 J11 J12 J13] Hlen. split; try done.
  - split; [exact H1| |exact H3]. intros a x r Ha Hr. destruct (H2 a x r Ha Hr) as (m & Hm & [? ? ? ? ? ?]). by exists m.
  - intros q Hq. simpl. destruct (decide (q = p)) as [->|]; [rewrite lookup_insert_eq; eauto|rewrite lookup_insert_ne by done; by apply J8].
Qed.

(** A write through an entry that allows it changes the one byte, wherever it is
    seen. *)
Lemma gview_write s M C a v p l b : inv s M C -> user_addr v -> M !! (a, page_no v) = Some (p, MEMPERM_URW) -> mem s !! p = Some l -> length l = 4096%nat ->
  forall c u, user_addr u -> gview s M C (<[p := <[Z.to_nat (v `mod` PG_SIZE) := b]> l]> (mem s)) c u = if same_byte s a v c u then Some b else gview s M C (mem s) c u.
Proof.
  intros I Hv Hp Hl Hlen c u Hu. pose proof (iv_static _ _ _ I) as Hs. unfold same_byte. destruct (page_of s a v) as [k|] eqn:Hk.
  - destruct (iv_shared _ _ _ I a v k p _ Hv Hk Hp) as [HC _]. unfold gview. destruct (page_of s c u) as [k'|] eqn:Hk'.
    + destruct (C !! k') as [q|] eqn:HC'; simpl.
      * rewrite (byte_write _ p q l v u b) by done. destruct (decide (k = k')) as [->|Hne].
        -- assert (q = p) as -> by congruence. rewrite bool_decide_eq_true_2 by done. simpl. destruct (Z.eqb_spec (v `mod` PG_SIZE) (u `mod` PG_SIZE)); [by rewrite decide_True|rewrite decide_False; [done|by intros [_ ?]]].
        -- rewrite bool_decide_eq_false_2 by done. simpl. rewrite decide_False; [done|]. intros [-> _]. apply Hne. by apply (iv_inj _ _ _ I k k' p).
      * rewrite bool_decide_eq_false_2; [done|]. intros ->. congruence.
    + destruct (M !! (c, page_no u)) as [[q perm]|] eqn:Hq; [|done]. simpl. rewrite (byte_write _ p q l v u b) by done. rewrite decide_False; [done|]. intros [-> _].
      by apply (proj1 (iv_priv _ _ _ I c u p perm Hu Hk' Hq) k).
  - destruct (iv_priv _ _ _ I a v p _ Hv Hk Hp) as [Hnc Hex]. unfold gview. destruct (page_of s c u) as [k'|] eqn:Hk'.
    + destruct (C !! k') as [q|] eqn:HC'; simpl; [|done]. rewrite (byte_write _ p q l v u b) by done. rewrite decide_False; [done|]. intros [-> _]. by apply (Hnc k').
    + destruct (M !! (c, page_no u)) as [[q perm]|] eqn:Hq.
      * simpl. rewrite (byte_write _ p q l v u b) by done. destruct (Z.eqb_spec a c) as [<-|Hac]; simpl.
        -- destruct (Z.eqb_spec v u) as [<-|Hvu]; [assert (q = p) as -> by congruence; by rewrite decide_True|]. rewrite decide_False; [done|]. intros [-> Em]. apply Hvu.
           injection (Hex eq_refl _ _ Hq) as En. pose proof (page_no_inj u v Hu Hv En) as Ed. rewrite (Z.div_mod v PG_SIZE), (Z.div_mod u PG_SIZE) by done. congruence.
        -- rewrite decide_False; [done|]. intros [-> _]. injection (Hex eq_refl _ _ Hq) as Ec _. done.
      * destruct (Z.eqb_spec a c) as [<-|]; simpl; [|done]. destruct (Z.eqb_spec v u) as [<-|]; [congruence|done].
Qed.

(** The states between page faults; the reference counts are C [int]s, and none
    is at its limit. *)
Definition memory_ok s : Prop := (exists M C, inv s M C) /\ store_locks s = ∅ /\ forall p, count (pts s) p < 2 ^ 31 - 1.

(** Why a process is ended at an access. *)
Definition killed s (a v : Z) (write : bool) : Prop :=
  region_at s a v = None \/ view s a v = None \/ (write = true /\ exists r m, region_at s a v = Some (r, m) /\ Vm.perm m <> MEMPERM_URW) \/ starved s.

Lemma denied_killed s M C a v write : inv s M C -> user_addr v -> denied s M C a v write -> killed s a v write.
Proof. intros I Hv [H|[H|[H|H]]]; unfold killed; [by left|right; left; by rewrite (view_gview s M C)|by do 2 right; left|by do 3 right]. Qed.

Definition same_memory s s' : Prop := forall b u, user_addr u -> view s' b u = view s b u.

Lemma user_load_ok s a x v : memory_ok s -> Vm.spaces (vmst s) !! a = Some x -> user_addr v ->
  exists o s', load a v s = Ret o s' /\ (exists M C, inv s' M C) /\ store_locks s' = ∅ /\ vmst s' = Vm.set_pts (pts s') (vmst s) /\ same_memory s s' /\
    match o with Some b => view s a v = Some b | None => killed s a v false end.
Proof.
  intros ((M & C & I) & Hl & Hb) Ha Hv. destruct (access_ok s M C a x v false I Hl Hb Ha Hv) as (o & s' & M' & C' & E & I' & Hl' & Hvm & Hview & Ho).
  unfold load. rewrite (bind_Ret _ _ _ _ _ E). assert (Hsame : same_memory s s') by (intros b u Hu; rewrite (view_gview s' M' C'), (view_gview s M C) by done; by apply Hview).
  destruct o as [p|]; [|exists None, s'; split_and!; [done|eauto|done|done|done|by apply (denied_killed s M C)]].
  destruct Ho as (perm & Hp & _). destruct (iv_mem _ _ _ I' p) as (l & Hm & Hlen); [by apply (refs_M M' C') in Hp|]. unfold get_page. rewrite bind_assoc, bind_gets, (bind_opt _ _ l) by done.
  pose proof (Z.mod_pos_bound v PG_SIZE ltac:(done)) as Hmod. destruct (lookup_lt_is_Some_2 l (Z.to_nat (v `mod` PG_SIZE))) as [b Hbt]; [unfold PG_SIZE in *; lia|]. rewrite (bind_opt _ _ b) by done.
  exists (Some b), s'. split_and!; [done|eauto|done|done|done|]. rewrite <- (Hsame a v Hv), (view_gview s' M' C') by done.
  assert (Hbyte : byte (mem s') p v = b) by (unfold byte; by rewrite Hm; simpl; rewrite Hbt).
  unfold gview. destruct (page_of s' a v) as [c|] eqn:Hpg; [|rewrite Hp; simpl; by rewrite Hbyte]. destruct (iv_shared _ _ _ I' a v c p perm Hv Hpg Hp) as [-> _]. simpl. by rewrite Hbyte.
Qed.

Lemma user_store_ok s a x v b : memory_ok s -> Vm.spaces (vmst s) !! a = Some x -> user_addr v ->
  exists r s', store a v b s = Ret r s' /\ (exists M C, inv s' M C) /\ store_locks s' = ∅ /\ vmst s' = Vm.set_pts (pts s') (vmst s) /\
    if r : bool then forall c u, user_addr u -> view s' c u = if same_byte s a v c u then Some b else view s c u
    else same_memory s s' /\ killed s a v true.
Proof.
  intros ((M & C & I) & Hl & Hb) Ha Hv. destruct (access_ok s M C a x v true I Hl Hb Ha Hv) as (o & s' & M' & C' & E & I' & Hl' & Hvm & Hview & Ho).
  unfold store. rewrite (bind_Ret _ _ _ _ _ E). assert (Hsame : same_memory s s') by (intros c u Hu; rewrite (view_gview s' M' C'), (view_gview s M C) by done; by apply Hview).
  destruct o as [p|]; [|exists false, s'; split_and!; [done|eauto|done|done|done|by apply (denied_killed s M C)]].
  destruct Ho as (perm & Hp & Hperm). rewrite (Hperm eq_refl) in Hp. destruct (iv_mem _ _ _ I' p) as (l & Hm & Hlen); [by apply (refs_M M' C') in Hp|]. unfold get_page. rewrite bind_assoc, bind_gets, (bind_opt _ _ l) by done.
  unfold put_page. rewrite bind_modify. set (s2 := set_mem _ s'). exists true, s2. assert (I2 : inv s2 M' C') by (apply inv_write; [done|by rewrite length_insert]).
  split_and!; [done|eauto|done|done|]. intros c u Hu. rewrite (view_gview s2 M' C') by done. rewrite (gview_static s' s2) by (by destruct s' as [[] ? ? ? ? ?]).
  change (mem s2) with (<[p := <[Z.to_nat (v `mod` PG_SIZE) := b]> l]> (mem s')). rewrite (gview_write s' M' C' a v p l b) by done.
  assert (E1 : Vm.spaces (vmst s') = Vm.spaces (vmst s)) by (by rewrite Hvm). assert (E2 : Vm.mrs (vmst s') = Vm.mrs (vmst s)) by (by rewrite Hvm).
  assert (Hsb : same_byte s' a v c u = same_byte s a v c u) by (unfold same_byte, page_of, region_at; by rewrite E1, E2). rewrite Hsb.
  destruct (same_byte s a v c u); [done|]. rewrite <- (view_gview s' M' C') by done. by apply Hsame.
Qed.

(** C2. User memory behaves as memory: a read returns the byte that is at the
    address and changes none; a write changes the byte at the address, which for
    an address in shared memory is the byte at the same place of the region in
    every process that maps it, and no other byte of any process.  Page faults
    on the way (demand-zero pages, copies after fork, pages of shared regions)
    are not visible; a process is ended only for an access it may not make, or
    when memory runs out. *)
Theorem user_memory_correct s a x v : memory_ok s -> Vm.spaces (vmst s) !! a = Some x -> user_addr v ->
  (exists o s', load a v s = Ret o s' /\ (exists M C, inv s' M C) /\ same_memory s s' /\ match o with Some b => view s a v = Some b | None => killed s a v false end) /\
  (forall b, exists r s', store a v b s = Ret r s' /\ (exists M C, inv s' M C) /\
     if r : bool then forall c u, user_addr u -> view s' c u = if same_byte s a v c u then Some b else view s c u else same_memory s s' /\ killed s a v true).
Proof.
  intros H Ha Hv. split; [|intros b].
  - destruct (user_load_ok s a x v H Ha Hv) as (o & s' & E & HI & _ & _ & Hs & Ho). by exists o, s'.
  - destruct (user_store_ok s a x v b H Ha Hv) as (r & s' & E & HI & _ & _ & Hr). by exists r, s'.
Qed.

(** C28. Two processes that map a named region share its memory: after the first one
    has written a byte, the second one reads that byte at the same place of the
    region, at whatever address it has the region mapped, unless it is ended
    for want of memory. *)
Theorem shared_write_seen s a x v b c y u i s1 : memory_ok s -> Vm.spaces (vmst s) !! a = Some x -> Vm.spaces (vmst s) !! c = Some y -> user_addr v -> user_addr u ->
  page_of s a v = Some i -> page_of s c u = Some i -> v `mod` PG_SIZE = u `mod` PG_SIZE ->
  store a v b s = Ret true s1 -> (forall p, count (pts s1) p < 2 ^ 31 - 1) ->
  exists o s2, load c u s1 = Ret o s2 /\ (o = Some b \/ (o = None /\ starved s1)).
Proof.
  intros H Ha Hc Hv Hu Hp1 Hp2 Hm E Hb. destruct (user_store_ok s a x v b H Ha Hv) as (r & s' & E' & HI & Hl & Hvm & Hr). rewrite E in E'. injection E' as <- <-.
  assert (Hview : view s1 c u = Some b).
  { rewrite Hr by done. unfold same_byte. rewrite Hp1, Hp2, bool_decide_eq_true_2 by done. simpl. by rewrite (proj2 (Z.eqb_eq _ _) Hm). }
  destruct (user_load_ok s1 c y u) as (o & s2 & E2 & _ & _ & _ & _ & Ho); [done|by rewrite Hvm|done|]. exists o, s2. split; [done|].
  destruct o as [b'|]; [left; congruence|right; split; [done|]]. destruct Ho as [Hk|[Hk|[[Hk _]|Hk]]]; [|congruence|done|done].
  assert (E1 : Vm.spaces (vmst s1) = Vm.spaces (vmst s)) by (by rewrite Hvm). assert (E3 : Vm.mrs (vmst s1) = Vm.mrs (vmst s)) by (by rewrite Hvm).
  exfalso. unfold page_of in Hp2. unfold region_at in *. rewrite E1, E3 in Hk. by rewrite Hk in Hp2.
Qed.

End lemmas.

(** ** Two processes with a shared region *)

Definition ex_state : pf Bump.bump Flat.flat (RadixTree.rtree Bump.bump) :=
  mkPf (Vm.mkVm (<[100 := Vm.mkRegion 1 8192 16384 MEMPERM_URW true 500 0]> (<[101 := Vm.mkRegion 1 65536 69632 MEMPERM_URW false 0 0]> {[ 200 := Vm.mkRegion 2 40960 49152 MEMPERM_URW true 500 0 ]}))
          (<[1 := Vm.mkSpace [100; 101] 10 false 101]> {[ 2 := Vm.mkSpace [200] 20 false 0 ]}) (Bump.mkBump 5 300 ∅) (Flat.mkFlat ∅ ∅ 4096 1048576 {[ 10; 20 ]}))
    ∅ {[ 500 := RadixTree.ex_empty ]} ∅ ∅ 0.

Lemma ex_state_ok : memory_ok ex_state.
Proof.
  assert (Hroom : forall p, Flat.fcount (Vm.pts (vmst ex_state)) p = 0) by (intros p; unfold Flat.fcount; simpl; by rewrite lookup_empty).
  split; [|split; [done|intros p; simpl; unfold Flat.fcount; simpl; rewrite lookup_empty; simpl; lia]]. exists ∅, ∅.
  assert (Hrefs : forall p, refs ∅ ∅ p = 0%nat) by (intros p; unfold refs, refs_of; by rewrite !map_filter_empty, !map_size_empty).
  split; try done; try (intros *; rewrite lookup_empty; done); try (intros p Hp; rewrite Hrefs in Hp; lia).
  - split.
    + intros a x. simpl. rewrite lookup_insert_Some, lookup_singleton_Some. intros [[<- <-]|[_ [<- <-]]]; (split; [done|]); simpl; set_solver.
    + intros a x r. simpl. rewrite lookup_insert_Some, lookup_singleton_Some. intros [[<- <-]|[_ [<- <-]]] Hr; simpl in Hr.
      * rewrite !elem_of_cons in Hr. destruct Hr as [->|[->|Hr]]; [| |by apply not_elem_of_nil in Hr]; eexists; (split; [reflexivity|]).
        -- split; simpl; [done|done|split; [done|by exists 2]|done|by intros [?|?]|intros _; split_and!; [done|by eexists|done]].
        -- split; simpl; [done|done|split; [done|by exists 16]|done|done|done].
      * rewrite !elem_of_cons in Hr. destruct Hr as [->|Hr]; [|by apply not_elem_of_nil in Hr]; eexists; (split; [reflexivity|]).
        split; simpl; [done|done|split; [done|by exists 10]|done|by intros [?|?]|intros _; split_and!; [done|by eexists|done]].
    + intros a b x y. simpl. rewrite !lookup_insert_Some, !lookup_singleton_Some. intros [[<- <-]|[_ [<- <-]]] [[<- <-]|[_ [<- <-]]]; done.
  - intros st t. simpl. rewrite lookup_singleton_Some. intros [<- <-]. split; [apply RadixTree.ex_empty_inv|]. intros i Hi. rewrite lookup_empty. simpl.
    unfold RadixTree.radix_tree_lookup, bind, RadixTree.radix_tree_max_index. simpl. destruct i; [done|done|lia].
Qed.

Lemma user_memory_correct_witness : memory_ok ex_state /\ exists s', store 1 8200 77 ex_state = Ret true s' /\ view s' 2 40968 = Some 77.
Proof.
  split; [apply ex_state_ok|]. destruct (user_memory_correct ex_state 1 (Vm.mkSpace [100; 101] 10 false 101) 8200) as [_ H]; [apply ex_state_ok|done|left; done|].
  destruct (H 77) as (r & s' & E & _ & Hr). assert (r = true) as ->.
  { assert (Hc : match store 1 8200 77 ex_state with Ret r _ => r | _ => false end = true) by (vm_compute; reflexivity). by rewrite E in Hc. }
  exists s'. split; [exact E|]. rewrite Hr by (left; done). reflexivity.
Defined.

Lemma shared_write_seen_witness : exists s1 o s2, store 1 8200 77 ex_state = Ret true s1 /\ load 2 40968 s1 = Ret o s2 /\ (o = Some 77 \/ (o = None /\ starved s1)).
Proof.
  destruct (store 1 8200 77 ex_state) as [r s1|] eqn:E; [|vm_compute in E; discriminate E]. assert (r = true) as ->.
  { assert (Hc : match store 1 8200 77 ex_state with Ret r _ => r | _ => false end = true) by (vm_compute; reflexivity). by rewrite E in Hc. }
  destruct (shared_write_seen ex_state 1 (Vm.mkSpace [100; 101] 10 false 101) 8200 77 2 (Vm.mkSpace [200] 20 false 0) 40968 (500, 0) s1) as (o & s2 & E2 & Ho);
    [apply ex_state_ok|done|done|left; done|left; done|reflexivity|reflexivity|reflexivity|exact E| |by exists s1, o, s2].
  intros p. assert (Hs : s1 = match store 1 8200 77 ex_state with Ret _ s => s | Halt _ s => s end) by (by rewrite E). rewrite Hs. clear. 
  set (f := Vm.pts (vmst match store 1 8200 77 ex_state with Ret _ s | Halt _ s => s end)). change (Flat.fcount f p < 2 ^ 31 - 1). unfold Flat.fcount.
  assert (Ef : Flat.fcounts f = {[ 4096 := 2 ]}) by (vm_compute; reflexivity). rewrite Ef. destruct (decide (p = 4096)) as [->|Hne]; [by rewrite lookup_singleton_eq|by rewrite lookup_singleton_ne by done].
Defined.

End Pgfault.
