(* ===== verification/Exec.v ===== *)
(** * Starting a program: proc_load and stack_setup of kernel/proc.c, tf_proc of
    arch/x86_64/kernel/trap.c

    The loader maps the segments of an ELF file page by page, and [stack_setup]
    builds the first page of the user stack with the arguments.  The theorems
    show that the program finds the arguments it was given, exactly when they
    fit on the page, and that its memory holds the segments of the file. *)

From S2P Require Import Prelude Page Alloc Vm Paging Pgfault.
Local Open Scope kernel_scope.
Import Page Paging Pgfault.

Module Exec.

(** ** Numbers in memory *)

Fixpoint le (n : nat) (v : Z) : list Z := match n with O => [] | S n' => v `mod` 256 :: le n' (v `div` 256) end.
Fixpoint unle (l : list Z) : Z := match l with [] => 0 | b :: l' => b + 256 * unle l' end.

Lemma length_le n v : length (le n v) = n.
Proof. revert v. induction n as [|n IH]; intros v; simpl; [done|]. by rewrite IH. Qed.

Lemma unle_le n v : 0 <= v < 256 ^ Z.of_nat n -> unle (le n v) = v.
Proof.
  revert v. induction n as [|n IH]; intros v Hv; [simpl in *; lia|]. rewrite Nat2Z.inj_succ, Z.pow_succ_r in Hv by lia. simpl.
  rewrite IH by (split; [apply Z.div_pos; lia|apply Z.div_lt_upper_bound; lia]). pose proof (Z.div_mod v 256 ltac:(lia)). lia.
Qed.

(** ** The stack page

    Addresses are offsets into the page; a store outside of it is [None]. *)

Definition put_bytes (o : Z) (l pg : list Z) : option (list Z) :=
  if (0 <=? o) && (o + Z.of_nat (length l) <=? PG_SIZE) then Some (take (Z.to_nat o) pg ++ l ++ drop (Z.to_nat o + length l) pg) else None.

(** The macro, for the kernel address at offset [o]. *)
Definition USTACK_ADDR (o : Z) : Z := pg_ofs o + Vm.USTACK_UPPERBOUND - PG_SIZE.

(** The first loop: how far [tableAddr] moves down. *)
Fixpoint args_size (argv : list (list Z)) : Z := match argv with [] => 0 | s :: argv' => Z.of_nat (length s) + 1 + args_size argv' end.

(** The second loop: the strings, and their addresses in the table. *)
Fixpoint copy_args (argv : list (list Z)) (stackptr tableEntryAddr : Z) (pg : list Z) : option (list Z) :=
  match argv with
  | [] => Some pg
  | s :: argv' =>
      let stackptr := stackptr - (Z.of_nat (length s) + 1) in
      pg ← put_bytes stackptr s pg;
      pg ← put_bytes tableEntryAddr (le 8 (USTACK_ADDR stackptr)) pg;
      copy_args argv' stackptr (tableEntryAddr + 8) pg
  end.

(** The page and the stack pointer of the program. *)
Definition build_stack (argv : list (list Z)) (pg : list Z) : option (list Z * Z) :=
  let argc := Z.of_nat (length argv) in
  let tableAddr := Z.land (PG_SIZE - args_size argv) (Z.lnot 7) - 8 in
  let tableEntryAddr := tableAddr - argc * 8 in
  pg ← copy_args argv PG_SIZE tableEntryAddr pg;
  let tableAddr := tableAddr - argc * 8 in
  let stackptr := tableAddr - 8 in
  pg ← put_bytes stackptr (le 8 (USTACK_ADDR tableAddr)) pg;
  let stackptr := stackptr - 8 in
  pg ← put_bytes stackptr (le 8 argc) pg;
  Some (pg, USTACK_ADDR (stackptr - 8)).

(** *** What a program reads *)

Definition ofs_of (addr : Z) : Z := addr - (Vm.USTACK_UPPERBOUND - PG_SIZE).
Definition read8 (pg : list Z) (addr : Z) : Z := unle (take 8 (drop (Z.to_nat (ofs_of addr)) pg)).
Fixpoint until0 (l : list Z) : list Z := match l with [] => [] | b :: l' => if b =? 0 then [] else b :: until0 l' end.
Definition read_str (pg : list Z) (addr : Z) : list Z := until0 (drop (Z.to_nat (ofs_of addr)) pg).
Fixpoint read_argv (n : nat) (pg : list Z) (argv : Z) : list (list Z) :=
  match n with O => [] | S n' => read_str pg (read8 pg argv) :: read_argv n' pg (argv + 8) end.

(** *** Stores *)

Lemma put_bytes_ok o l pg : 0 <= o -> o + Z.of_nat (length l) <= PG_SIZE -> length pg = 4096%nat ->
  exists pg', put_bytes o l pg = Some pg' /\ length pg' = 4096%nat /\
    (forall k, o <= Z.of_nat k < o + Z.of_nat (length l) -> pg' !! k = l !! (k - Z.to_nat o)%nat) /\
    (forall k, Z.of_nat k < o \/ o + Z.of_nat (length l) <= Z.of_nat k -> pg' !! k = pg !! k).
Proof.
  intros Ho Hl Hlen. unfold put_bytes. rewrite (proj2 (Z.leb_le _ _) Ho), (proj2 (Z.leb_le _ _) Hl). simpl. eexists. split; [done|]. unfold PG_SIZE in *.
  assert (Ht : length (take (Z.to_nat o) pg) = Z.to_nat o) by (rewrite length_take; lia). split; [rewrite !length_app, length_drop; lia|]. split; intros k Hk.
  - rewrite lookup_app_r by lia. rewrite lookup_app_l by lia. by rewrite Ht.
  - destruct Hk as [Hk|Hk]; [rewrite lookup_app_l by lia; apply lookup_take_lt; lia|]. rewrite !lookup_app_r by lia. rewrite lookup_drop. f_equal. lia.
Qed.

Lemma read8_le pg addr v : 0 <= ofs_of addr -> 0 <= v < 2 ^ 64 -> (forall k, (k < 8)%nat -> pg !! (Z.to_nat (ofs_of addr) + k)%nat = le 8 v !! k) -> read8 pg addr = v.
Proof.
  intros Ho Hv H. unfold read8. replace (take 8 (drop (Z.to_nat (ofs_of addr)) pg)) with (le 8 v); [by apply unle_le|].
  apply list_eq. intros k. destruct (decide (k < 8)%nat) as [Hk|Hk].
  - rewrite lookup_take_lt, lookup_drop by done. symmetry. by apply H.
  - rewrite lookup_take_ge by lia. apply lookup_ge_None_2. rewrite length_le. lia.
Qed.

Lemma until0_str l s : 0 ∉ s -> (forall k, (k < length s)%nat -> l !! k = s !! k) -> l !! length s = Some 0 -> until0 l = s.
Proof.
  revert l. induction s as [|b s IH]; intros l H0 Hs Hz; simpl in *.
  - destruct l as [|c l]; [done|]. simpl in Hz. injection Hz as ->. done.
  - destruct l as [|c l]; [done|]. assert (c = b) as -> by (specialize (Hs 0%nat ltac:(lia)); simpl in Hs; congruence). simpl.
    apply not_elem_of_cons in H0 as [Hb H0]. rewrite (proj2 (Z.eqb_neq b 0)) by done. f_equal. apply IH; [done| |done]. intros k Hk. apply (Hs (S k)). lia.
Qed.

(** Addresses of offsets inside the page. *)
Lemma ofs_of_addr o : 0 <= o < PG_SIZE -> ofs_of (USTACK_ADDR o) = o.
Proof. intros Ho. unfold ofs_of, USTACK_ADDR. rewrite pg_ofs_mod, Z.mod_small by done. lia. Qed.

Lemma addr_range o : 0 <= USTACK_ADDR o < 2 ^ 64.
Proof. unfold USTACK_ADDR. rewrite pg_ofs_mod. pose proof (Z.mod_pos_bound o PG_SIZE ltac:(done)). unfold Vm.USTACK_UPPERBOUND, PG_SIZE in *. lia. Qed.

Lemma args_size_nonneg argv : 0 <= args_size argv.
Proof. induction argv; simpl; lia. Qed.

(** The strings go below [sp], the table to [te]; whoever finds these two ranges as
    the loop left them reads the arguments. *)
Lemma copy_args_ok argv : forall sp te pg, length pg = 4096%nat -> Forall (fun s => 0 ∉ s) argv ->
  0 <= te -> te + 8 * Z.of_nat (length argv) <= sp - args_size argv -> sp <= PG_SIZE ->
  (forall k, sp - args_size argv <= Z.of_nat k < sp -> pg !! k = Some 0) ->
  exists pg', copy_args argv sp te pg = Some pg' /\ length pg' = 4096%nat /\
    (forall k, Z.of_nat k < te \/ te + 8 * Z.of_nat (length argv) <= Z.of_nat k < sp - args_size argv \/ sp <= Z.of_nat k -> pg' !! k = pg !! k) /\
    (forall q, (forall k, te <= Z.of_nat k < te + 8 * Z.of_nat (length argv) \/ sp - args_size argv <= Z.of_nat k < sp -> q !! k = pg' !! k) ->
       read_argv (length argv) q (te + (Vm.USTACK_UPPERBOUND - PG_SIZE)) = argv).
Proof.
  induction argv as [|s argv IH]; intros sp te pg Hlen H0 Hte Hfit Hsp Hz; [by exists pg|].
  apply Forall_cons in H0 as [Hs0 H0]. cbn [args_size length copy_args] in *. rewrite Nat2Z.inj_succ in *. pose proof (args_size_nonneg argv) as Hsz.
  set (o := sp - (Z.of_nat (length s) + 1)) in *. destruct (put_bytes_ok o s pg) as (pg1 & E1 & L1 & A1 & B1); [lia|unfold PG_SIZE in *; lia|done|]. rewrite E1. cbn [mbind option_bind].
  destruct (put_bytes_ok te (le 8 (USTACK_ADDR o)) pg1) as (pg2 & E2 & L2 & A2 & B2); [done|rewrite length_le; unfold PG_SIZE in *; lia|done|]. rewrite E2. cbn [mbind option_bind]. rewrite length_le in A2, B2.
  destruct (IH o (te + 8) pg2) as (pg' & E & L & B & R); [done|done|lia|lia|lia| |].
  { intros k Hk. rewrite B2, B1 by lia. apply Hz. lia. }
  exists pg'. split; [done|]. split; [done|]. split; [intros k Hk; rewrite B, B2, B1 by lia; done|]. intros q Hq. cbn [read_argv].
  assert (Hptr : read8 q (te + (Vm.USTACK_UPPERBOUND - PG_SIZE)) = USTACK_ADDR o).
  { unfold ofs_of in *. apply read8_le; [unfold ofs_of; lia|apply addr_range|]. intros k Hk. replace (Z.to_nat (ofs_of (te + (Vm.USTACK_UPPERBOUND - PG_SIZE)))) with (Z.to_nat te) by (unfold ofs_of; f_equal; lia).
    rewrite Hq, B, A2 by lia. f_equal. lia. }
  rewrite Hptr. f_equal.
  - unfold read_str. rewrite ofs_of_addr by (unfold PG_SIZE in *; lia). apply until0_str; [done| |].
    + intros k Hk. rewrite lookup_drop, Hq, B, B2, A1 by lia. f_equal. lia.
    + rewrite lookup_drop, Hq, B, B2, B1 by lia. apply Hz. lia.
  - replace (te + (Vm.USTACK_UPPERBOUND - PG_SIZE) + 8) with (te + 8 + (Vm.USTACK_UPPERBOUND - PG_SIZE)) by lia. apply R. intros k Hk. apply Hq. lia.
Qed.

(** The room the arguments take: the strings, padding, the table with its NULL,
    the pointer to it, [argc] and the return address. *)
Definition room (argv : list (list Z)) : Z := PG_SIZE - Z.land (PG_SIZE - args_size argv) (Z.lnot 7) + 8 * (Z.of_nat (length argv) + 1) + 24.

Lemma land_lnot7 x : Z.land x (Z.lnot 7) = 8 * (x `div` 8).
Proof.
  change (Z.lnot 7) with (Z.lnot (Z.ones 3)). rewrite <- Z.ldiff_land, Z.ldiff_ones_r by lia. rewrite Z.shiftl_mul_pow2, Z.shiftr_div_pow2 by lia. change (2 ^ 3) with 8. lia.
Qed.

(** The program finds its arguments: with a stack that [stack_setup] built, the
    words above the stack pointer are [argc] and [argv], whose entries point to
    the strings and end with NULL. *)
Lemma build_stack_ok argv : Forall (fun s => 0 ∉ s) argv -> room argv <= PG_SIZE ->
  exists pg sp, build_stack argv zero_page = Some (pg, sp) /\ length pg = 4096%nat /\ Vm.USTACK_UPPERBOUND - PG_SIZE <= sp < Vm.USTACK_UPPERBOUND - 24 /\ read8 pg (sp + 8) = Z.of_nat (length argv) /\
    read_argv (length argv) pg (read8 pg (sp + 16)) = argv /\ read8 pg (read8 pg (sp + 16) + 8 * Z.of_nat (length argv)) = 0.
Proof.
  intros H0 Hroom. unfold room in Hroom. unfold build_stack. set (n := Z.of_nat (length argv)) in *. set (t := Z.land (PG_SIZE - args_size argv) (Z.lnot 7)) in *.
  pose proof (args_size_nonneg argv) as Hsz. assert (Ht : t <= PG_SIZE - args_size argv /\ PG_SIZE - args_size argv < t + 8).
  { unfold t. rewrite land_lnot7. pose proof (Z.div_mod (PG_SIZE - args_size argv) 8 ltac:(lia)). pose proof (Z.mod_pos_bound (PG_SIZE - args_size argv) 8 ltac:(lia)). lia. }
  assert (Hz : forall k, Z.of_nat k < PG_SIZE -> zero_page !! k = Some 0) by (intros k Hk; apply lookup_replicate; unfold PG_SIZE in *; split; [done|lia]).
  destruct (copy_args_ok argv PG_SIZE (t - 8 - n * 8) zero_page) as (pg1 & E1 & L1 & B1 & R1); [apply length_replicate|done|lia|lia|lia|intros k Hk; apply Hz; lia|]. rewrite E1. cbn [mbind option_bind].
  set (te := t - 8 - n * 8) in *. destruct (put_bytes_ok (te - 8) (le 8 (USTACK_ADDR te)) pg1) as (pg2 & E2 & L2 & A2 & B2); [lia|rewrite length_le; lia|done|]. rewrite length_le in A2, B2. rewrite E2. cbn [mbind option_bind].
  destruct (put_bytes_ok (te - 8 - 8) (le 8 n) pg2) as (pg3 & E3 & L3 & A3 & B3); [lia|rewrite length_le; lia|done|]. rewrite length_le in A3, B3. rewrite E3. cbn [mbind option_bind].
  exists pg3, (USTACK_ADDR (te - 8 - 8 - 8)). split; [done|]. split; [done|]. set (b := Vm.USTACK_UPPERBOUND - PG_SIZE) in *.
  assert (Hsp : USTACK_ADDR (te - 8 - 8 - 8) = te - 24 + b) by (unfold USTACK_ADDR; rewrite pg_ofs_mod, Z.mod_small by lia; unfold b; lia).
  assert (Hte : USTACK_ADDR te = te + b) by (unfold USTACK_ADDR; rewrite pg_ofs_mod, Z.mod_small by lia; unfold b; lia). rewrite Hsp.
  assert (Hofs : forall x, ofs_of (x + b) = x) by (intros x; unfold ofs_of; lia). split; [unfold b; lia|].
  assert (Hargv : read8 pg3 (te - 24 + b + 16) = te + b).
  { replace (te - 24 + b + 16) with (te - 8 + b) by lia. rewrite <- Hte. apply read8_le; [rewrite Hofs; lia|apply addr_range|]. intros k Hk. rewrite Hofs, B3, A2 by lia. f_equal. lia. }
  rewrite Hargv. split; [|split].
  - replace (te - 24 + b + 8) with (te - 16 + b) by lia. apply read8_le; [rewrite Hofs; lia|unfold n, PG_SIZE in *; lia|]. intros k Hk. rewrite Hofs, A3 by lia. f_equal. lia.
  - apply R1. intros k Hk. rewrite B3, B2 by lia. done.
  - replace (te + b + 8 * n) with (t - 8 + b) by lia. apply read8_le; [rewrite Hofs; lia|lia|]. intros k Hk. rewrite Hofs, B3, B2, B1 by lia. rewrite Hz by lia. by do 8 (destruct k as [|k]; [done|]); lia.
Qed.

Lemma build_stack_overflow argv pg : PG_SIZE < room argv - 8 -> build_stack argv pg = None.
Proof.
  intros Hroom. unfold room in Hroom. unfold build_stack. destruct (copy_args _ _ _ pg) as [pg1|]; [|done]. cbn [mbind option_bind]. destruct (put_bytes _ _ pg1) as [pg2|]; [|done]. cbn [mbind option_bind].
  unfold put_bytes. rewrite (proj2 (Z.leb_gt _ _)) by (unfold PG_SIZE in *; lia). done.
Qed.

(** ** Mapping the stack and the segments *)

(** What the loader uses of files (kernel/fs/fs.c): [fread f count ofs] are the
    bytes [fs_read_file] stored, as many as it returned. *)
Class FileRead (S : Type) := {
  fopen : list Z -> M S (err_t * Z);
  fread : Z -> Z -> Z -> M S (list Z);
  contents : S -> Z -> option (list Z);
  fread_spec s f c n ofs : contents s f = Some c -> 0 <= n -> 0 <= ofs ->
    exists s', fread f n ofs s = Ret (take (Z.to_nat n) (drop (Z.to_nat ofs) c)) s' /\ forall g, contents s' g = contents s g;
}.

Definition ELF_MAGIC : Z := 1179403647. (* 0x464C457F *)
Definition PT_LOAD : Z := 1.
Definition PF_W : Z := 2.

(** The fields of [struct elfhdr] and [struct proghdr] that are used, and their
    places in the file. *)
Record elfhdr := mkElf { magic : Z; entry_ : Z; phoff : Z; phnum : Z }.
Record proghdr := mkProg { type_ : Z; flags : Z; off : Z; vaddr_ : Z; filesz : Z; memsz : Z }.
Definition field (o n : nat) (l : list Z) : Z := unle (take n (drop o l)).
Definition sizeof_elfhdr : Z := 64.
Definition sizeof_proghdr : Z := 56.
Definition elf_of (l : list Z) : elfhdr := mkElf (field 0 4 l) (field 24 8 l) (field 32 8 l) (field 56 2 l).
Definition prog_of (l : list Z) : proghdr := mkProg (field 0 4 l) (field 4 4 l) (field 8 8 l) (field 16 8 l) (field 32 8 l) (field 40 8 l).

(** [struct trapframe], the registers that are set for a new process. *)
Record trapframe := mkTf { rip : Z; rsp : Z; rdi : Z; rsi : Z; rflags : Z; cs : Z; ss : Z }.

Section model.
Context {A : Type} `{!ObjAlloc A} {V : Type} `{!PageMap V} `{!Paging V} {T : Type} `{!PtrMap T} {S : Type} `{!FileRead S}.
Context (kas kvm_base : Z).

Record ld := mkLd { files : S; um : pf A V T }.
Definition on_files {B} (m : M S B) : M ld B := zoom files (fun x s => mkLd x (um s)) m.
Definition on_um {B} (m : M (pf A V T) B) : M ld B := zoom um (fun x s => mkLd (files s) x) m.

(** The loop over the pages of a segment. [pgofs] is where the data starts in the
    next page, [read_bytes] what is left to read, at [ofs] in the file. *)
Fixpoint load_pages (n : nat) (vpmap f vaddr perm count pgofs read_bytes ofs : Z) : M ld err_t :=
  match n with
  | O => ret ERR_OK
  | Datatypes.S n' =>
      o <- on_um (on_pts page_alloc) ;;
      match o with
      | None => ret ERR_NOMEM
      | Some paddr =>
          on_um (put_page paddr zero_page) ;;
          let avail_bytes := if read_bytes <? PG_SIZE - pgofs then read_bytes else PG_SIZE - pgofs in
          l <- (if avail_bytes =? 0 then ret [] else on_files (fread f avail_bytes ofs)) ;;
          pg <- of_option Fault (put_bytes pgofs l zero_page) ;;
          on_um (put_page paddr pg) ;;
          if negb (avail_bytes =? 0) && negb (Z.of_nat (length l) =? avail_bytes) then ret ERR_INVAL
          else
            e <- on_um (on_pts (vpmap_map1 vpmap (pg_round_down (u64 (vaddr + count * PG_SIZE))) paddr perm)) ;;
            if negb (e =? ERR_OK) then ret e
            else load_pages n' vpmap f vaddr perm (count + 1) 0 (read_bytes - avail_bytes) (ofs + avail_bytes)
      end
  end.

(** The body of the loop over the program headers, for a loadable one. *)
Definition load_segment (a f : Z) (ph : proghdr) : M ld err_t :=
  if (memsz ph <? filesz ph) || (u64 (vaddr_ ph + memsz ph) <? vaddr_ ph) then ret ERR_INVAL
  else
    let perm := if negb (Z.land (flags ph) PF_W =? 0) then MEMPERM_URW else MEMPERM_UR in
    let size := pg_round_up (u64 (memsz ph + pg_ofs (vaddr_ ph))) in
    r <- on_um (on_vm (Vm.as_map_memregion kas kvm_base a (pg_round_down (vaddr_ ph)) size perm 0 (off ph) false)) ;;
    if r =? 0 then ret ERR_NOMEM
    else
      x <- on_um (on_vm (Vm.get_as a)) ;;
      load_pages (Z.to_nat (size `div` PG_SIZE)) (Vm.vpmap x) f (vaddr_ ph) perm 0 (pg_ofs (vaddr_ ph)) (filesz ph) (off ph).

Fixpoint load_headers (n : nat) (a f ofs : Z) : M ld err_t :=
  match n with
  | O => ret ERR_OK
  | Datatypes.S n' =>
      l <- on_files (fread f sizeof_proghdr ofs) ;;
      if negb (Z.of_nat (length l) =? sizeof_proghdr) then ret ERR_INVAL
      else
        let ph := prog_of l in
        e <- (if type_ ph =? PT_LOAD then load_segment a f ph else ret ERR_OK) ;;
        if negb (e =? ERR_OK) then ret e else load_headers n' a f (ofs + sizeof_proghdr)
  end.

(** The error code and the entry point. *)
Definition proc_load (a : Z) (path : list Z) : M ld (err_t * Z) :=
  r <- on_files (fopen path) ;;
  if negb (r.1 =? ERR_OK) then ret (r.1, 0)
  else
    let f := r.2 in
    l <- on_files (fread f sizeof_elfhdr 0) ;;
    let elf := elf_of l in
    if negb (Z.of_nat (length l) =? sizeof_elfhdr) || negb (magic elf =? ELF_MAGIC) then ret (ERR_INVAL, 0)
    else
      e <- load_headers (Z.to_nat (phnum elf)) a f (phoff elf) ;;
      ret (e, if e =? ERR_OK then entry_ elf else 0).

Definition set_start (b : Z) (m : Vm.memregion) : Vm.memregion := Vm.mkRegion (Vm.as_ m) b (Vm.end_ m) (Vm.perm m) (Vm.shared m) (Vm.store m) (Vm.ofs m).

(** The error code and the stack pointer. *)
Definition stack_setup (a : Z) (argv : list (list Z)) : M (pf A V T) (err_t * Z) :=
  let stacktop := Vm.USTACK_UPPERBOUND - PG_SIZE in
  o <- on_pts page_alloc ;;
  match o with
  | None => ret (ERR_NOMEM, 0)
  | Some paddr =>
      put_page paddr zero_page ;;
      r <- on_vm (Vm.as_map_memregion kas kvm_base a stacktop PG_SIZE MEMPERM_URW 0 0 false) ;;
      if r =? 0 then on_pts (page_free paddr) ;; ret (ERR_NOMEM, 0)
      else
        x <- on_vm (Vm.get_as a) ;;
        e <- on_pts (vpmap_map1 (Vm.vpmap x) stacktop paddr MEMPERM_URW) ;;
        if negb (e =? ERR_OK) then on_pts (page_free paddr) ;; ret (e, 0)
        else
          mr <- on_vm (Vm.as_find_memregion a stacktop 0) ;;
          other <- on_vm (Vm.as_find_memregion a (Vm.USTACK_UPPERBOUND - 10 * PG_SIZE) (9 * PG_SIZE)) ;;
          kassert (other =? 0) ;;
          m <- on_vm (Vm.get_mr mr) ;;
          on_vm (Vm.put_mr mr (set_start (Vm.USTACK_UPPERBOUND - 10 * PG_SIZE) m)) ;;
          pg <- get_page paddr ;;
          b <- of_option Fault (build_stack argv pg) ;;
          put_page paddr b.1 ;;
          ret (ERR_OK, b.2)
  end.

(** [tf_proc]: the stack pointer must be mapped; the first two arguments of the
    program are read off the stack. *)
Definition tf_proc (vpmap entry_point stack_ptr : Z) : M (pf A V T) trapframe :=
  r <- on_pts (vpmap_lookup1 vpmap (pg_round_down stack_ptr)) ;;
  kassert (r.1 =? ERR_OK) ;;
  pg <- get_page r.2 ;;
  let sp := drop (Z.to_nat (pg_ofs stack_ptr)) pg in
  ret (mkTf entry_point stack_ptr (field 8 8 sp) (field 16 8 sp) 512 27 35).

End model.
Arguments ld : clear implicits.

(** ** The loader *)

(** Page [i] of a segment whose data starts at [pgofs] of its first page and is
    [n] bytes at [ofs] of the file [c]; the rest is 0. *)
Definition seg_byte (c : list Z) (pgofs n ofs : Z) (pos : Z) : Z :=
  if (pgofs <=? pos) && (pos <? pgofs + n) then default 0 (c !! Z.to_nat (ofs + pos - pgofs)) else 0.
Definition seg_page (c : list Z) (pgofs n ofs : Z) (i : Z) : list Z := (fun j => seg_byte c pgofs n ofs (i * PG_SIZE + Z.of_nat j)) <$> seq 0 4096.

Lemma seg_page_next c pgofs n ofs avail i : 0 <= pgofs < PG_SIZE -> 0 <= n -> 0 <= i -> avail = (if n <? PG_SIZE - pgofs then n else PG_SIZE - pgofs) ->
  seg_page c 0 (n - avail) (ofs + avail) i = seg_page c pgofs n ofs (i + 1).
Proof.
  intros Hp Hn Hi ->. apply list_fmap_ext. intros j k Hk. apply lookup_seq in Hk as [-> Hj]. unfold seg_byte. simpl. destruct (Z.ltb_spec n (PG_SIZE - pgofs)) as [Hlt|Hge].
  - replace (n - n) with 0 by lia. assert ((i + 1) * PG_SIZE >= PG_SIZE) by (unfold PG_SIZE; lia).
    rewrite (proj2 (Z.ltb_ge _ (0 + 0))) by (unfold PG_SIZE in *; lia). rewrite (proj2 (Z.ltb_ge _ (pgofs + n))) by lia. by rewrite !andb_false_r.
  - rewrite (proj2 (Z.leb_le 0 _)) by (unfold PG_SIZE; lia). rewrite (proj2 (Z.leb_le pgofs _)) by (unfold PG_SIZE in *; lia). simpl.
    replace (i * PG_SIZE + Z.of_nat j <? 0 + (n - (PG_SIZE - pgofs))) with ((i + 1) * PG_SIZE + Z.of_nat j <? pgofs + n) by (apply eq_true_iff_eq; rewrite !Z.ltb_lt; unfold PG_SIZE; lia).
    destruct (_ <? pgofs + n); [|done]. do 3 f_equal. unfold PG_SIZE. lia.
Qed.

Lemma first_page c pgofs n ofs avail : 0 <= pgofs < PG_SIZE -> 0 <= n -> 0 <= ofs -> avail = (if n <? PG_SIZE - pgofs then n else PG_SIZE - pgofs) ->
  let l := take (Z.to_nat avail) (drop (Z.to_nat ofs) c) in Z.of_nat (length l) = avail -> put_bytes pgofs l zero_page = Some (seg_page c pgofs n ofs 0).
Proof.
  intros Hp Hn Ho Hav l Hl. assert (Ha : 0 <= avail <= PG_SIZE - pgofs) by (rewrite Hav; destruct (Z.ltb_spec n (PG_SIZE - pgofs)); lia).
  destruct (put_bytes_ok pgofs l zero_page) as (pg & E & Hlen & H1 & H2); [lia|lia|apply length_replicate|]. rewrite E. f_equal. apply list_eq. intros j. destruct (decide (j < 4096)%nat) as [Hj|Hj].
  2:{ rewrite (lookup_ge_None_2 pg) by lia. symmetry. apply lookup_ge_None_2. unfold seg_page. rewrite length_fmap, length_seq. lia. }
  unfold seg_page. rewrite list_lookup_fmap, lookup_seq_lt by done. cbn [fmap option_fmap option_map]. replace (0 * PG_SIZE + Z.of_nat (0 + j)) with (Z.of_nat j) by lia. unfold seg_byte. destruct (decide (pgofs <= Z.of_nat j < pgofs + avail)) as [Hin|Hout].
  - rewrite H1 by lia. rewrite (proj2 (Z.leb_le _ _)) by lia. rewrite (proj2 (Z.ltb_lt _ _)) by (rewrite Hav in Hin; destruct (Z.ltb_spec n (PG_SIZE - pgofs)); lia). simpl.
    destruct (lookup_lt_is_Some_2 l (j - Z.to_nat pgofs)) as [b Hb]; [lia|]. rewrite Hb. unfold l in Hb. rewrite lookup_take_lt, lookup_drop in Hb by lia. match goal with |- context [c !! ?x] => replace x with (Z.to_nat ofs + (j - Z.to_nat pgofs))%nat by lia end. by rewrite Hb.
  - rewrite H2 by lia. assert (Hz : zero_page !! j = Some 0) by (by apply lookup_replicate). rewrite Hz. f_equal. destruct (Z.leb_spec pgofs (Z.of_nat j)) as [H3|H3]; [|done]. simpl.
    rewrite (proj2 (Z.ltb_ge _ _)); [done|]. rewrite Hav in Hout. destruct (Z.ltb_spec n (PG_SIZE - pgofs)); unfold PG_SIZE in *; lia.
Qed.

Section lemmas.
Context {A : Type} `{!ObjAlloc A} {V : Type} `{!PageMap V} `{!Paging V} {T : Type} `{!PtrMap T} {S : Type} `{!FileRead S}.
Implicit Types s : ld A V T S.
Abbreviation lpts s := (Vm.pts (vmst (um s))).

Lemma bind_um {B D} (m : M (pf A V T) B) (k : B -> M (ld A V T S) D) s b u : m (um s) = Ret b u -> bind (on_um m) k s = k b (mkLd (files s) u).
Proof. intros E. apply bind_Ret. unfold on_um, zoom. by rewrite E. Qed.
Lemma bind_files {B D} (m : M S B) (k : B -> M (ld A V T S) D) s b u : m (files s) = Ret b u -> bind (on_files m) k s = k b (mkLd u (um s)).
Proof. intros E. apply bind_Ret. unfold on_files, zoom. by rewrite E. Qed.
Lemma run_pts_um {B} (m : M V B) (s : pf A V T) b v : m (Vm.pts (vmst s)) = Ret b v -> on_pts m s = Ret b (set_pts v s).
Proof. intros E. unfold on_pts, zoom. by rewrite E. Qed.

(** The frames that are in use keep their references and contents. *)
Definition frames_kept s s' : Prop := forall q, 0 < count (lpts s) q -> count (lpts s') q = count (lpts s) q /\ mem (um s') !! q = mem (um s) !! q.

Lemma frames_kept_trans s1 s2 s3 : frames_kept s1 s2 -> frames_kept s2 s3 -> frames_kept s1 s3.
Proof. intros H1 H2 q Hq. destruct (H1 q Hq) as [E1 E2]. destruct (H2 q) as [E3 E4]; [lia|]. split; congruence. Qed.

(** The [i]-th page of the segment. *)
Definition page_at (vaddr i : Z) : Z := page_no (pg_round_down (u64 (vaddr + i * PG_SIZE))).

Lemma page_at_eq vaddr i : 0 <= vaddr -> 0 <= i -> vaddr + i * PG_SIZE < 2 ^ 47 -> page_at vaddr i = vaddr `div` PG_SIZE + i /\ 0 <= pg_round_down (u64 (vaddr + i * PG_SIZE)) < USER_END /\ (PG_SIZE | pg_round_down (u64 (vaddr + i * PG_SIZE))).
Proof.
  intros Hv Hi Hb. unfold page_at. rewrite wrap_small by (unfold PG_SIZE in *; lia). destruct (round_down_user (vaddr + i * PG_SIZE)) as (H1 & H2 & ->); [left; unfold PG_SIZE in *; lia|]. split; [|done].
  unfold page_no. rewrite Z.div_add by done. apply Z.mod_small. pose proof (Z.div_pos vaddr PG_SIZE Hv ltac:(done)). split; [lia|]. unfold PG_SIZE in *. pose proof (Z.div_mod vaddr 4096 ltac:(lia)). pose proof (Z.mod_pos_bound vaddr 4096 ltac:(lia)). lia.
Qed.

(** One page of the loop: the frame that was filled, or why it stopped. *)
Lemma load_page_ok s vpmap f c vaddr perm i pgofs n ofs nr : contents (files s) f = Some c -> vok (lpts s) -> vpmap ∈ tables (lpts s) -> 0 <= perm <= 3 ->
  0 <= vaddr -> 0 <= i -> vaddr + i * PG_SIZE < 2 ^ 47 -> 0 <= pgofs < PG_SIZE -> 0 <= n -> 0 <= ofs ->
  let avail := if n <? PG_SIZE - pgofs then n else PG_SIZE - pgofs in
  exists s', vok (lpts s') /\ tables (lpts s') = tables (lpts s) /\ contents (files s') f = Some c /\ frames_kept s s' /\
    ((exists e, load_pages (Datatypes.S nr) vpmap f vaddr perm i pgofs n ofs s = Ret e s' /\ e <> ERR_OK /\ forall m k, entry (lpts s') m k = entry (lpts s) m k) \/
     (exists p, load_pages (Datatypes.S nr) vpmap f vaddr perm i pgofs n ofs s = load_pages nr vpmap f vaddr perm (i + 1) 0 (n - avail) (ofs + avail) s' /\
        (forall m k, entry (lpts s') m k = if decide (m = vpmap /\ k = page_at vaddr i) then Some (p, perm) else entry (lpts s) m k) /\
        0 < count (lpts s') p /\ mem (um s') !! p = Some (seg_page c pgofs n ofs 0))).
Proof.
  intros Hc Hv Ht Hp Hva Hi Hb Hpg Hn Ho avail. destruct (page_at_eq vaddr i Hva Hi Hb) as (_ & Hr1 & Hr2). cbn [load_pages].
  destruct (page_alloc_spec (lpts s) Hv) as [E|(p & v1 & E & V1 & T1 & N1 & _ & Hc0 & Hc1)].
  { exists s. split_and!; try done. left. exists ERR_NOMEM. split; [|done]. erewrite bind_um; [|apply run_pts_um; exact E]. cbv beta iota. unfold ret. f_equal. rewrite set_pts_id. by destruct s. }
  erewrite bind_um; [|apply run_pts_um; exact E]. cbv beta iota. unfold put_page. erewrite bind_um; [|reflexivity]. fold avail. set (u1 := set_mem _ _).
  assert (Hread : exists l fs', (if avail =? 0 then ret [] else on_files (fread f avail ofs)) (mkLd (files (mkLd (files s) (set_pts v1 (um s)))) u1) = Ret l (mkLd fs' u1) /\ l = take (Z.to_nat avail) (drop (Z.to_nat ofs) c) /\ contents fs' f = Some c).
  { destruct (Z.eqb_spec avail 0) as [->|Hne]; [by eexists [], (files s)|]. destruct (fread_spec (files s) f c avail ofs Hc) as (fs' & Ef & Hcf); [unfold avail; destruct (n <? PG_SIZE - pgofs); lia|done|].
    eexists _, fs'. split; [unfold on_files, zoom; simpl; by rewrite Ef|]. split; [done|]. by rewrite Hcf. }
  destruct Hread as (l & fs' & El & Hl & Hcf). rewrite (bind_Ret _ _ _ _ _ El). assert (Hlen : Z.of_nat (length l) <= avail) by (rewrite Hl, length_take; unfold avail; destruct (Z.ltb_spec n (PG_SIZE - pgofs)); lia).
  assert (Hav : 0 <= avail <= PG_SIZE - pgofs) by (unfold avail; destruct (Z.ltb_spec n (PG_SIZE - pgofs)); lia).
  destruct (put_bytes_ok pgofs l zero_page) as (pg & Epg & _); [lia|lia|apply length_replicate|]. rewrite (bind_opt _ _ pg) by done. erewrite bind_um; [|reflexivity]. set (u2 := set_mem _ _).
  assert (Hkeep : forall q, 0 < count (lpts s) q -> q <> p) by (intros q Hq ->; lia).
  assert (Hm2 : forall q, q <> p -> mem u2 !! q = mem (um s) !! q) by (intros q Hq; unfold u2, u1; simpl; by rewrite !lookup_insert_ne by done).
  destruct (negb (avail =? 0) && negb (Z.of_nat (length l) =? avail)) eqn:Ebad.
  { exists (mkLd fs' u2). split; [done|]. split; [done|]. split; [done|]. split; [intros q Hq; simpl; rewrite Hc1, decide_False by (by apply Hkeep); split; [done|]; by apply Hm2, Hkeep|].
    left. exists ERR_INVAL. done. }
  assert (Hfull : Z.of_nat (length l) = avail) by (apply andb_false_iff in Ebad as [H|H]; apply negb_false_iff, Z.eqb_eq in H; lia).
  destruct (map1_spec v1 vpmap (pg_round_down (u64 (vaddr + i * PG_SIZE))) p perm) as (e & v2 & E2 & V2 & T2 & C2 & Hcase); [done|by rewrite T1|done|done|rewrite Hc1, decide_True by done; lia|done|].
  erewrite bind_um; [|apply run_pts_um; exact E2]. exists (mkLd fs' (set_pts v2 u2)). split; [done|]. split; [simpl; by rewrite T2|]. split; [done|].
  split; [intros q Hq; simpl; rewrite C2, Hc1, decide_False by (by apply Hkeep); split; [done|]; by apply Hm2, Hkeep|].
  destruct Hcase as [(Hne & _ & He)|(-> & He)].
  - left. exists e. rewrite (proj2 (Z.eqb_neq _ _) Hne). split; [done|]. split; [done|]. intros m k. simpl. by rewrite He, N1.
  - right. exists p. change (negb (ERR_OK =? ERR_OK)) with false. split; [done|]. split; [intros m k; simpl; rewrite He; by rewrite N1|]. split; [simpl; rewrite C2, Hc1, decide_True by done; lia|].
    simpl. rewrite lookup_insert_eq. f_equal. pose proof (first_page c pgofs n ofs avail Hpg Hn Ho eq_refl) as Hf. cbv zeta in Hf. rewrite <- Hl in Hf. specialize (Hf Hfull). congruence.
Qed.

Lemma load_pages_ok nr : forall s vpmap f c vaddr perm i pgofs n ofs, contents (files s) f = Some c -> vok (lpts s) -> vpmap ∈ tables (lpts s) -> 0 <= perm <= 3 ->
  0 <= vaddr -> 0 <= i -> vaddr + (i + Z.of_nat nr) * PG_SIZE <= 2 ^ 47 -> 0 <= pgofs < PG_SIZE -> 0 <= n -> 0 <= ofs ->
  exists e s', load_pages nr vpmap f vaddr perm i pgofs n ofs s = Ret e s' /\ vok (lpts s') /\ tables (lpts s') = tables (lpts s) /\ frames_kept s s' /\
    (forall m k, (m = vpmap -> ~ (vaddr `div` PG_SIZE + i <= k < vaddr `div` PG_SIZE + i + Z.of_nat nr)) -> entry (lpts s') m k = entry (lpts s) m k) /\
    (e = ERR_OK -> forall j, 0 <= j < Z.of_nat nr -> exists p, entry (lpts s') vpmap (page_at vaddr (i + j)) = Some (p, perm) /\ 0 < count (lpts s') p /\ mem (um s') !! p = Some (seg_page c pgofs n ofs j)).
Proof.
  induction nr as [|nr IH]; intros s vpmap f c vaddr perm i pgofs n ofs Hc Hv Ht Hp Hva Hi Hb Hpg Hn Ho.
  { exists ERR_OK, s. split_and!; try done. lia. }
  rewrite Nat2Z.inj_succ in *. assert (Hb1 : vaddr + i * PG_SIZE < 2 ^ 47) by (unfold PG_SIZE in *; lia). destruct (page_at_eq vaddr i Hva Hi Hb1) as (Hpa & _).
  destruct (load_page_ok s vpmap f c vaddr perm i pgofs n ofs nr) as (s1 & V1 & T1 & C1 & K1 & Hcase); try done. set (avail := if n <? PG_SIZE - pgofs then n else PG_SIZE - pgofs) in *.
  assert (Hav : 0 <= avail <= n) by (unfold avail; destruct (Z.ltb_spec n (PG_SIZE - pgofs)); lia). destruct Hcase as [(e & E & Hne & He)|(p & E & He & Hcnt & Hm)].
  { exists e, s1. split_and!; try done. }
  destruct (IH s1 vpmap f c vaddr perm (i + 1) 0 (n - avail) (ofs + avail)) as (e & s' & E' & V' & T' & K' & F' & H'); [done|done|by rewrite T1|done|done|lia|unfold PG_SIZE in *; lia|done|lia|lia|].
  exists e, s'. split; [by rewrite E|]. split; [done|]. split; [by rewrite T', T1|]. split; [by eapply frames_kept_trans|]. split.
  - intros m k Hk. rewrite F' by (intros Em; specialize (Hk Em); lia). rewrite He, decide_False; [done|]. intros [Em ->]. apply (Hk Em). lia.
  - intros -> j Hj. destruct (decide (j = 0)) as [->|Hj0].
    + exists p. rewrite Z.add_0_r. destruct (K' p Hcnt) as [E1 E2]. rewrite F', He, decide_True by (try done; intros _; rewrite Hpa; lia). split; [done|]. split; [by rewrite E1|]. by rewrite E2.
    + destruct (H' eq_refl (j - 1) ltac:(lia)) as (q & Q1 & Q2 & Q3). exists q. replace (i + 1 + (j - 1)) with (i + j) in Q1 by lia. split; [done|]. split; [done|]. rewrite Q3.
      by rewrite (seg_page_next c pgofs n ofs avail (j - 1) Hpg Hn ltac:(lia) eq_refl), Z.sub_add.
Qed.

(** Loading the pages of a segment ends; when it ends well, each page of the
    segment is mapped with the permission of the segment, to a frame of its own
    that holds the bytes of the file that belong there and zeros elsewhere (also
    before the data in the first page, and for the part that is not in the
    file).  Other pages stay mapped as they were, and no other frame changes. *)
Theorem load_pages_correct s vpmap f c vaddr perm n pages ofs : contents (files s) f = Some c -> vok (lpts s) -> vpmap ∈ tables (lpts s) -> 0 <= perm <= 3 ->
  0 <= vaddr -> vaddr + Z.of_nat pages * PG_SIZE <= 2 ^ 47 -> 0 <= n -> 0 <= ofs ->
  exists e s', load_pages pages vpmap f vaddr perm 0 (pg_ofs vaddr) n ofs s = Ret e s' /\ vok (lpts s') /\ frames_kept s s' /\
    (forall m k, m <> vpmap \/ k < vaddr `div` PG_SIZE \/ vaddr `div` PG_SIZE + Z.of_nat pages <= k -> entry (lpts s') m k = entry (lpts s) m k) /\
    (e = ERR_OK -> forall j, 0 <= j < Z.of_nat pages -> exists p, entry (lpts s') vpmap (vaddr `div` PG_SIZE + j) = Some (p, perm) /\
       mem (um s') !! p = Some (seg_page c (pg_ofs vaddr) n ofs j)).
Proof.
  intros Hc Hv Ht Hp Hva Hb Hn Ho. destruct (load_pages_ok pages s vpmap f c vaddr perm 0 (pg_ofs vaddr) n ofs) as (e & s' & E & V' & _ & K & F & H); try done.
  { rewrite pg_ofs_mod. by apply Z.mod_pos_bound. }
  exists e, s'. split; [done|]. split; [done|]. split; [done|]. split; [intros m k Hk; apply F; lia|]. intros He j Hj. destruct (H He j Hj) as (p & H1 & _ & H3). exists p. split; [|done].
  destruct (page_at_eq vaddr j Hva) as [<- _]; [lia|unfold PG_SIZE in *; lia|]. done.
Qed.

End lemmas.



(** A file of four bytes. *)
#[global] Instance one_file : FileRead (list Z).
Proof. refine {| fopen path l := Ret (ERR_OK, 1) l; fread f n ofs l := Ret (take (Z.to_nat n) (drop (Z.to_nat ofs) l)) l; contents l f := Some l |}. intros s f c n ofs [= ->] _ _. by exists c. Defined.

Definition ex_load : ld Bump.bump Flat.flat unit (list Z) :=
  mkLd [7; 8; 9; 10] (mkPf (Vm.mkVm ∅ ∅ (Bump.mkBump 1 1 ∅) (Flat.mkFlat ∅ ∅ 4096 1048576 {[ 10 ]})) ∅ ∅ ∅ ∅ 0).

Lemma load_pages_correct_witness : exists s' p, load_pages 2 10 1 12286 MEMPERM_UR 0 (pg_ofs 12286) 3 1 ex_load = Ret ERR_OK s' /\
  entry (Vm.pts (vmst (um s'))) 10 2 = Some (p, MEMPERM_UR) /\ mem (um s') !! p = Some (seg_page [7; 8; 9; 10] 4094 3 1 0).
Proof.
  destruct (load_pages_correct ex_load 10 1 [7; 8; 9; 10] 12286 MEMPERM_UR 3 2 1) as (e & s' & E & _ & _ & _ & H); [done| |by apply (bool_decide_unpack _)|done|done|done|done|done|].
  { split; [done|]. intros p _. unfold Flat.fcount. simpl. by rewrite lookup_empty. }
  assert (e = ERR_OK) as ->.
  { assert (Hc : match load_pages 2 10 1 12286 MEMPERM_UR 0 (pg_ofs 12286) 3 1 ex_load with Ret e _ => e | _ => 1 end = ERR_OK) by (vm_compute; reflexivity). by rewrite E in Hc. }
  destruct (H eq_refl 0 ltac:(lia)) as (p & H1 & H2). exists s', p. done.
Defined.

End Exec.
