(* ===== verification/Proc.v ===== *)
(** * Processes: kernel/proc.c

    The process table, the lists of children, exit and wait, fork and spawn, and
    the table of open files that each process has.  What processes use of other
    components (address spaces, the loader, threads, inodes, open files and
    pipes) is reached through the class [ProcServices]; of those components the
    proofs use the address spaces that are set up and the reference counts of
    inodes and open files.  A call is one step, and a wait that finds its child
    alive is two: it sleeps, and goes on when it has been woken up. *)

From S2P Require Import Prelude Alloc.
Local Open Scope kernel_scope.

Module Proc.

Definition ANY_CHILD : Z := -1.
Definition STATUS_ALIVE : Z := 0xbeefeeb.
Definition PROC_NAME_LEN : Z := 32.
Definition PROC_MAX_FILE : Z := 128.

(** What the other components hold for processes: the address spaces that are
    set up, named by the process structure they are part of; the reference
    counts of the open files that are allocated; the references to inodes that
    have been handed out as current directories. *)
Record kview := mkView { spaces : gset Z; frefs : gmap Z Z; irefs : gmap Z Z }.
Definition iref (i : Z) (v : kview) : Z := default 0 (irefs v !! i).
Definition with_spaces x v := mkView x (frefs v) (irefs v).
Definition with_frefs x v := mkView (spaces v) x (irefs v).
Definition with_iref i n v := mkView (spaces v) (frefs v) (<[i := n]> (irefs v)).

Class KView (K : Type) := { view : K -> kview; kok : K -> Prop }.

(** A service returns from [k] with a result and a view in [Q], and leaves the
    components in order. *)
Definition yields `{!KView K} {B} (m : M K B) (k : K) (Q : B -> kview -> Prop) : Prop :=
  wp m (fun b k' => kok k' /\ Q b (view k')) k.

(** [stdin] and [stdout] are the addresses of the two static files.
    [load_program] is [proc_load], [setup_stack] is [stack_setup], [map_heap]
    the call that maps the heap, [start_thread] is [tf_proc] with
    [thread_start_context], [fork_frame] the copy of the trap frame,
    [get_root_inode] the call of [fs_get_inode].  [proc_load] opens the program
    and does not close it, so that it may leave open files behind. *)
Class ProcServices (K : Type) `{!KView K} := {
  stdin : Z;
  stdout : Z;
  as_init : Z -> M K err_t;
  as_destroy : Z -> M K unit;
  as_copy_as : Z -> Z -> M K err_t;
  load_program : Z -> list Z -> M K (err_t * Z);
  map_heap : Z -> M K bool;
  setup_stack : Z -> list (list Z) -> M K (err_t * Z);
  thread_create : list Z -> Z -> M K Z;
  start_thread : Z -> Z -> Z -> M K unit;
  fork_frame : Z -> Z -> Z -> M K unit;
  get_root_inode : M K (err_t * Z);
  fs_release_inode : Z -> M K unit;
  load_kernel_vpmap : M K unit;
  kpipe_ref_increase : Z -> Z -> M K unit;
  kpipe_ref_decrease : Z -> Z -> M K unit;
  fs_reopen_file : Z -> M K unit;
  fs_close_file : Z -> M K unit;
  std_null : stdin <> 0 /\ stdout <> 0;
  as_init_spec k p : kok k -> p ∉ spaces (view k) ->
    yields (as_init p) k (fun e v => v = if decide (e = ERR_OK) then with_spaces ({[p]} ∪ spaces (view k)) (view k) else view k);
  as_destroy_spec k p : kok k -> p ∈ spaces (view k) ->
    yields (as_destroy p) k (fun _ v => v = with_spaces (spaces (view k) ∖ {[p]}) (view k));
  as_copy_spec k p q : kok k -> p ∈ spaces (view k) -> q ∈ spaces (view k) ->
    yields (as_copy_as p q) k (fun _ v => v = view k);
  load_spec k p nm : kok k -> p ∈ spaces (view k) ->
    yields (load_program p nm) k (fun _ v => frefs (view k) ⊆ frefs v /\ v = with_frefs (frefs v) (view k));
  heap_spec k p : kok k -> p ∈ spaces (view k) -> yields (map_heap p) k (fun _ v => v = view k);
  stack_spec k p argv : kok k -> p ∈ spaces (view k) -> yields (setup_stack p argv) k (fun _ v => v = view k);
  thread_create_spec k nm p : kok k -> p ∈ spaces (view k) -> yields (thread_create nm p) k (fun _ v => v = view k);
  start_spec k t e sp : kok k -> t <> 0 -> yields (start_thread t e sp) k (fun _ v => v = view k);
  fork_frame_spec k t c n : kok k -> t <> 0 -> yields (fork_frame t c n) k (fun _ v => v = view k);
  root_spec k : kok k ->
    yields get_root_inode k (fun r v => v = if decide (r.1 = ERR_OK) then with_iref r.2 (iref r.2 (view k) + 1) (view k) else view k);
  release_spec k i : kok k -> 0 < iref i (view k) ->
    yields (fs_release_inode i) k (fun _ v => v = with_iref i (iref i (view k) - 1) (view k));
  vpmap_spec k : kok k -> yields load_kernel_vpmap k (fun _ v => v = view k);
  pipe_inc_spec k f fd : kok k -> f = stdin \/ f = stdout \/ is_Some (frefs (view k) !! f) ->
    yields (kpipe_ref_increase f fd) k (fun _ v => v = view k);
  pipe_dec_spec k f fd : kok k -> f = stdin \/ f = stdout \/ is_Some (frefs (view k) !! f) ->
    yields (kpipe_ref_decrease f fd) k (fun _ v => v = view k);
  reopen_std k f : kok k -> f = stdin \/ f = stdout -> yields (fs_reopen_file f) k (fun _ v => v = view k);
  reopen_spec k f n : kok k -> frefs (view k) !! f = Some n -> 0 < n < 2 ^ 31 - 1 ->
    yields (fs_reopen_file f) k (fun _ v => v = with_frefs (<[f := n + 1]> (frefs (view k))) (view k));
  close_std k f : kok k -> f = stdin \/ f = stdout -> yields (fs_close_file f) k (fun _ v => v = view k);
  close_spec k f n : kok k -> frefs (view k) !! f = Some n -> 0 < n < 2 ^ 31 ->
    yields (fs_close_file f) k (fun _ v => v = with_frefs (if n =? 1 then delete f (frefs (view k)) else <[f := n - 1]> (frefs (view k))) (view k));
}.

(** [struct proc], without the list nodes; [files] has PROC_MAX_FILE entries, 0
    for NULL. *)
Record proc := mkProc {
  pid : Z;
  name : list Z;
  cwd : Z;
  threads : list Z;
  children : list Z;
  files : list Z;
  wait_cv : list Z;
  exit_status : Z;
}.

(** What a process in [proc_wait] sleeps for, and whether it has been woken up. *)
Record sleeper := mkSleeper { s_child : Z; s_woken : bool }.

Section model.
Context {A : Type} `{!ObjAlloc A} {K : Type} `{!KView K, !ProcServices K}.

Record pst := mkPst {
  procs : gmap Z proc;
  ptable : list Z;
  pid_allocator : Z;
  proc_allocator : A;
  asleep : gmap Z sleeper;
  svc : K;
}.

Definition set_procs x s := mkPst x (ptable s) (pid_allocator s) (proc_allocator s) (asleep s) (svc s).
Definition set_ptable x s := mkPst (procs s) x (pid_allocator s) (proc_allocator s) (asleep s) (svc s).
Definition set_asleep x s := mkPst (procs s) (ptable s) (pid_allocator s) (proc_allocator s) x (svc s).
Definition set_svc x s := mkPst (procs s) (ptable s) (pid_allocator s) (proc_allocator s) (asleep s) x.
Definition call {B} (m : M K B) : M pst B := zoom svc set_svc m.

Definition get_proc (p : Z) : M pst proc := o <- gets (fun s => procs s !! p) ;; of_option Fault o.
Definition put_proc (p : Z) (x : proc) : M pst unit := modify (fun s => set_procs (<[p := x]> (procs s)) s).
Definition upd_proc (p : Z) (f : proc -> proc) : M pst unit := x <- get_proc p ;; put_proc p (f x).
Definition set_threads l x := mkProc (pid x) (name x) (cwd x) l (children x) (files x) (wait_cv x) (exit_status x).
Definition set_children l x := mkProc (pid x) (name x) (cwd x) (threads x) l (files x) (wait_cv x) (exit_status x).
Definition set_files l x := mkProc (pid x) (name x) (cwd x) (threads x) (children x) l (wait_cv x) (exit_status x).
Definition set_wait_cv l x := mkProc (pid x) (name x) (cwd x) (threads x) (children x) (files x) l (exit_status x).
Definition set_exit st x := mkProc (pid x) (name x) (cwd x) (threads x) (children x) (files x) (wait_cv x) st.

(** ** Creating processes *)

(** 0 is NULL.  The structure is not cleared; [proc_init] sets every field before
    it is used. *)
Definition proc_alloc : M pst Z :=
  fun s => match oalloc (proc_allocator s) with
           | (None, a) => Ret 0 (mkPst (procs s) (ptable s) (pid_allocator s) a (asleep s) (svc s))
           | (Some p, a) =>
               Ret p (mkPst (<[p := mkProc (pid_allocator s) [] 0 [] [] [] [] 0]> (procs s)) (ptable s) (s32 (pid_allocator s + 1)) a (asleep s) (svc s))
           end.
Definition proc_free (p : Z) : M pst unit :=
  modify (fun s => mkPst (delete p (procs s)) (ptable s) (pid_allocator s) (ofree p (proc_allocator s)) (asleep s) (svc s)).

Definition std_files : list Z := stdin :: stdout :: replicate 126 0.

Definition proc_init (nm : list Z) : M pst Z :=
  p <- proc_alloc ;;
  if p =? 0 then ret 0
  else
    e <- call (as_init p) ;;
    if negb (e =? ERR_OK) then proc_free p ;; ret 0
    else
      upd_proc p (fun x => mkProc (pid x) (take (Z.to_nat (Z.min (Z.of_nat (length nm)) (PROC_NAME_LEN - 1))) nm) (cwd x) [] (children x) (files x) (wait_cv x) (exit_status x)) ;;
      r <- call get_root_inode ;;
      if negb (r.1 =? ERR_OK) then call (as_destroy p) ;; proc_free p ;; ret 0
      else
        upd_proc p (fun x => mkProc (pid x) (name x) r.2 (threads x) (children x) std_files (wait_cv x) (exit_status x)) ;;
        call (fs_reopen_file stdin) ;;
        call (fs_reopen_file stdout) ;;
        upd_proc p (fun x => mkProc (pid x) (name x) (cwd x) (threads x) [] (files x) [] STATUS_ALIVE) ;;
        ret p.

(** [thread_create] with the [proc_attach_thread] it calls. *)
Definition attach_thread (nm : list Z) (p : Z) : M pst Z :=
  t <- call (thread_create nm p) ;;
  if t =? 0 then ret 0 else upd_proc p (fun x => set_threads (threads x ++ [t]) x) ;; ret t.

(** [cur] is the current process, 0 before there is one. *)
Definition proc_spawn (cur : Z) (nm : list Z) (argv : list (list Z)) : M pst (err_t * Z) :=
  p <- proc_init nm ;;
  if p =? 0 then ret (ERR_NOMEM, 0)
  else
    let error e := call (as_destroy p) ;; proc_free p ;; ret (e, 0) in
    r <- call (load_program p nm) ;;
    if negb (r.1 =? ERR_OK) then error r.1
    else
      h <- call (map_heap p) ;;
      if negb h then error ERR_NOMEM
      else
        sp <- call (setup_stack p argv) ;;
        if negb (sp.1 =? ERR_OK) then error sp.1
        else
          x <- get_proc p ;;
          t <- attach_thread (name x) p ;;
          if t =? 0 then error ERR_NOMEM
          else
            (if negb (cur =? 0) then upd_proc cur (fun x => set_children (children x ++ [p]) x) else ret tt) ;;
            modify (fun s => set_ptable (ptable s ++ [p]) s) ;;
            call (start_thread t r.2 sp.2) ;;
            ret (ERR_OK, p).

(** The copy of the file table in [proc_fork]: from descriptor [i] on. *)
Fixpoint copy_files (l : list Z) (i child : Z) : M pst unit :=
  match l with
  | [] => ret tt
  | f :: l' =>
      (if negb (f =? 0) then
         call (kpipe_ref_increase f i) ;;
         upd_proc child (fun x => set_files (<[Z.to_nat i := f]> (files x)) x) ;;
         call (fs_reopen_file f)
       else ret tt) ;;
      copy_files l' (i + 1) child
  end.

(** [th] is the thread of the parent; 0 is NULL. *)
Definition proc_fork (cur th : Z) (th_name : list Z) : M pst Z :=
  x <- get_proc cur ;;
  child <- proc_init (name x) ;;
  if child =? 0 then ret 0
  else
    let error := call (as_destroy child) ;; proc_free child ;; ret 0 in
    e <- call (as_copy_as cur child) ;;
    if negb (e =? ERR_OK) then error
    else
      t <- attach_thread th_name child ;;
      if t =? 0 then error
      else
        y <- get_proc child ;;
        call (fs_close_file (default 0 (files y !! 0%nat))) ;;
        call (fs_close_file (default 0 (files y !! 1%nat))) ;;
        copy_files (files x) 0 child ;;
        upd_proc cur (fun x => set_children (children x ++ [child]) x) ;;
        y <- get_proc child ;;
        call (fork_frame t th (pid y)) ;;
        modify (fun s => set_ptable (ptable s ++ [child]) s) ;;
        call (start_thread t 0 0) ;;
        ret child.

(** ** Waiting and exiting *)

(** The loop that looks for the child; 0 is NULL. *)
Fixpoint find_child (n : Z) (l : list Z) : M pst Z :=
  match l with
  | [] => ret 0
  | c :: l' =>
      x <- get_proc c ;;
      if (pid x =? n) || ((n =? ANY_CHILD) && match l' with [] => true | _ => false end) then ret c else find_child n l'
  end.

Inductive wresult := WDone (r status : Z) | WSleep.

(** [proc_wait] from the test of its loop on. *)
Definition wait_child (cur c : Z) : M pst wresult :=
  y <- get_proc c ;;
  if exit_status y =? STATUS_ALIVE then
    put_proc c (set_wait_cv (wait_cv y ++ [cur]) y) ;;
    modify (fun s => set_asleep (<[cur := mkSleeper c false]> (asleep s)) s) ;;
    ret WSleep
  else
    upd_proc cur (fun x => set_children (filter (fun d => d <> c) (children x)) x) ;;
    proc_free c ;;
    ret (WDone (pid y) (exit_status y)).

Definition proc_wait (cur n : Z) : M pst wresult :=
  x <- get_proc cur ;;
  c <- find_child n (children x) ;;
  if c =? 0 then ret (WDone ERR_CHILD 0) else wait_child cur c.

(** [condvar_wait] returned. *)
Definition wait_resume (cur : Z) : M pst wresult :=
  o <- gets (fun s => asleep s !! cur) ;;
  z <- of_option Fault o ;;
  if s_woken z then modify (fun s => set_asleep (delete cur (asleep s)) s) ;; wait_child cur (s_child z) else stop Block.

(** [getProcByPID]; 0 is ERR_INVAL. *)
Fixpoint find_pid (n : Z) (l : list Z) : M pst Z :=
  match l with
  | [] => ret 0
  | p :: l' => x <- get_proc p ;; if (n =? ANY_CHILD) || (pid x =? n) then ret p else find_pid n l'
  end.
Definition getProcByPID (n : Z) : M pst Z := l <- gets ptable ;; find_pid n l.

Fixpoint close_files (l : list Z) (i : Z) : M pst unit :=
  match l with
  | [] => ret tt
  | f :: l' => (if negb (f =? 0) then call (kpipe_ref_decrease f i) ;; call (fs_close_file f) else ret tt) ;; close_files l' (i + 1)
  end.

(** The loop over the children of the exiting process [p]. *)
Fixpoint give_away (l : list Z) (p init : Z) : M pst unit :=
  match l with
  | [] => ret tt
  | c :: l' =>
      upd_proc p (fun x => set_children (filter (fun d => d <> c) (children x)) x) ;;
      y <- get_proc c ;;
      (if exit_status y =? STATUS_ALIVE then upd_proc init (fun x => set_children (children x ++ [c]) x) else proc_free c) ;;
      give_away l' p init
  end.

(** [condvar_signal] of [wait_cv]. *)
Definition signal_wait (p : Z) : M pst unit :=
  x <- get_proc p ;;
  match wait_cv x with
  | [] => ret tt
  | q :: l =>
      put_proc p (set_wait_cv l x) ;;
      modify (fun s => match asleep s !! q with Some z => set_asleep (<[q := mkSleeper (s_child z) true]> (asleep s)) s | None => s end)
  end.

(** [proc_exit] of process [p], whose thread is [t], up to [thread_exit]. *)
Definition proc_exit (p t status : Z) : M pst unit :=
  upd_proc p (fun x => set_threads (filter (fun u => u <> t) (threads x)) x) ;;
  call load_kernel_vpmap ;;
  call (as_destroy p) ;;
  x <- get_proc p ;;
  call (fs_release_inode (cwd x)) ;;
  close_files (files x) 0 ;;
  modify (fun s => set_ptable (filter (fun q => q <> p) (ptable s)) s) ;;
  init <- getProcByPID 0 ;;
  kassert (negb (init =? 0)) ;;
  x <- get_proc p ;;
  give_away (children x) p init ;;
  upd_proc p (set_exit status) ;;
  signal_wait p.

End model.
Arguments pst : clear implicits.

(** ** Counting the references that processes hold *)

(** The entries of a list that are [f]. *)
Fixpoint occ (f : Z) (l : list Z) : Z :=
  match l with [] => 0 | g :: l' => (if g =? f then 1 else 0) + occ f l' end.

(** The sum of [g] over the processes of a list. *)
Definition of_proc (g : proc -> Z) (m : gmap Z proc) (p : Z) : Z := match m !! p with Some x => g x | None => 0 end.
Fixpoint tot (g : proc -> Z) (m : gmap Z proc) (l : list Z) : Z :=
  match l with [] => 0 | p :: l' => of_proc g m p + tot g m l' end.

Definition slots (f : Z) (x : proc) : Z := occ f (files x).
Definition holds (i : Z) (x : proc) : Z := if cwd x =? i then 1 else 0.

Lemma occ_bound f l : 0 <= occ f l <= Z.of_nat (length l).
Proof. induction l; simpl; [lia|]. destruct (_ =? _); lia. Qed.

Lemma occ_elem f l : f ∈ l -> 0 < occ f l.
Proof.
  induction l as [|g l IH]; [by intros ?%elem_of_nil|]. simpl. pose proof (occ_bound f l).
  intros [<-|H1]%elem_of_cons; [rewrite Z.eqb_refl; lia|]. specialize (IH H1). destruct (_ =? _); lia.
Qed.

Lemma occ_insert f l i g h : l !! i = Some h -> occ f (<[i := g]> l) = occ f l + (if g =? f then 1 else 0) - (if h =? f then 1 else 0).
Proof.
  revert i. induction l as [|k l IH]; intros [|i] H; simplify_eq/=; [lia|]. rewrite (IH _ H). lia.
Qed.

Lemma occ_replicate f n : f <> 0 -> occ f (replicate n 0) = 0.
Proof. intros Hf. induction n; cbn [occ replicate]; [done|]. rewrite (proj2 (Z.eqb_neq 0 f)) by congruence. lia. Qed.

Lemma tot_app g m l1 l2 : tot g m (l1 ++ l2) = tot g m l1 + tot g m l2.
Proof. induction l1; simpl; lia. Qed.

Lemma tot_ext g m m' l : (forall p, p ∈ l -> of_proc g m p = of_proc g m' p) -> tot g m l = tot g m' l.
Proof.
  induction l as [|p l IH]; intros H; simpl; [done|]. rewrite (H p) by left. rewrite IH; [done|]. intros; apply H; by right.
Qed.

Lemma tot_insert g m l p x y : NoDup l -> p ∈ l -> m !! p = Some x -> tot g (<[p := y]> m) l = tot g m l + g y - g x.
Proof.
  intros Hn Hp Hx. induction Hn as [|q l Hq Hn IH]; [by apply elem_of_nil in Hp|]. simpl.
  apply elem_of_cons in Hp as [<-|Hp].
  - rewrite (tot_ext g (<[p := y]> m) m l).
    + unfold of_proc. rewrite lookup_insert_eq, Hx. lia.
    + intros q Hql. unfold of_proc. rewrite lookup_insert_ne; [done|]. by intros ->.
  - rewrite (IH Hp). unfold of_proc. rewrite lookup_insert_ne; [lia|]. by intros ->.
Qed.

Lemma tot_other g m m' l p : p ∉ l -> (forall q, q <> p -> m' !! q = m !! q) -> tot g m' l = tot g m l.
Proof. intros Hp Hm. apply tot_ext. intros q Hq. unfold of_proc. rewrite Hm; [done|]. by intros ->. Qed.

Lemma tot_remove g m l p x : NoDup l -> p ∈ l -> m !! p = Some x -> tot g m (filter (fun q => q <> p) l) = tot g m l - g x.
Proof.
  intros Hn Hp Hx. induction Hn as [|q l Hq Hn IH]; [by apply elem_of_nil in Hp|]. rewrite filter_cons. simpl.
  apply elem_of_cons in Hp as [<-|Hp].
  - rewrite decide_False by (intros H; by apply H). unfold of_proc. rewrite Hx.
    assert (filter (fun q => q <> p) l = l) as ->; [|lia].
    clear -Hq. induction l as [|r l IH]; [done|]. rewrite filter_cons, decide_True by (intros ->; apply Hq; left).
    f_equal. apply IH. intros H. apply Hq. by right.
  - rewrite decide_True by (by intros ->). simpl. rewrite (IH Hp). lia.
Qed.

Lemma tot_bound g m l b : (forall p x, p ∈ l -> m !! p = Some x -> 0 <= g x <= b) -> 0 <= b -> 0 <= tot g m l <= b * Z.of_nat (length l).
Proof.
  intros H Hb. induction l as [|p l IH]; [simpl; lia|].
  assert (0 <= tot g m l <= b * Z.of_nat (length l)) by (apply IH; intros q x Hq; apply H; by right).
  assert (0 <= of_proc g m p <= b). { unfold of_proc. destruct (m !! p) eqn:E; [|lia]. apply (H p); [left|done]. }
  simpl. lia.
Qed.

Lemma tot_elem g m l p x : (forall y, 0 <= g y) -> p ∈ l -> m !! p = Some x -> g x <= tot g m l.
Proof.
  intros Hg Hp Hx.
  assert (H0 : forall l, 0 <= tot g m l). { clear -Hg. induction l; simpl; [lia|]. unfold of_proc. destruct (m !! _); [pose proof (Hg p)|]; lia. }
  induction l as [|q l IH]; [by apply elem_of_nil in Hp|]. simpl.
  apply elem_of_cons in Hp as [<-|Hp].
  - unfold of_proc. rewrite Hx. pose proof (H0 l). lia.
  - assert (0 <= of_proc g m q) by (unfold of_proc; destruct (m !! q) eqn:E; [apply Hg|lia]). specialize (IH Hp). lia.
Qed.

(** ** Invariants *)

Definition alive (x : proc) : Prop := exit_status x = STATUS_ALIVE.

(** The family of processes [m], with the table [pt], the next pid [n] and the
    sleeping parents [sl]; the processes of [pend] are set up and not yet in the
    table.  The table lists the processes that are alive.  Only they have
    children, every other process is the child of exactly one of them (the
    first process, pid 0, apart), and pids are unique.  A parent that sleeps
    has not been woken up and is queued at a child that is alive, or has been
    woken up and the child has exited: no wakeup is lost. *)
Record tree (pend : list Z) (m : gmap Z proc) (pt : list Z) (n : Z) (sl : gmap Z sleeper) : Prop := {
  t_nodup : NoDup (pt ++ pend);
  t_live p : p ∈ pt ++ pend -> exists x, m !! p = Some x /\ alive x;
  t_table p x : m !! p = Some x -> alive x -> p ∈ pt ++ pend;
  t_null : m !! 0 = None;
  t_kids p x c : m !! p = Some x -> c ∈ children x -> p ∈ pt /\ c ∉ pend /\ is_Some (m !! c);
  t_knd p x : m !! p = Some x -> NoDup (children x);
  t_one p q x y c : m !! p = Some x -> m !! q = Some y -> c ∈ children x -> c ∈ children y -> p = q;
  t_parent c x : m !! c = Some x -> c ∉ pend -> pid x <> 0 -> exists p y, m !! p = Some y /\ c ∈ children y;
  t_pid p x : m !! p = Some x -> 0 <= pid x < n;
  t_pids p q x y : m !! p = Some x -> m !! q = Some y -> pid x = pid y -> p = q;
  t_max : 0 <= n < 2 ^ 31;
  t_sleep p z : sl !! p = Some z -> p ∈ pt /\ exists x y, m !! p = Some x /\ s_child z ∈ children x /\ m !! s_child z = Some y /\
    (if s_woken z then ~ alive y else alive y /\ p ∈ wait_cv y);
  t_cv c y p : m !! c = Some y -> p ∈ wait_cv y -> sl !! p = Some (mkSleeper c false);
  t_cvnd c y : m !! c = Some y -> NoDup (wait_cv y);
}.

(** Case analysis of the lookups in updated maps. *)
Ltac mcase :=
  repeat match goal with
  | H : <[_ := _]> _ !! _ = Some _ |- _ => apply lookup_insert_Some in H as [[<- <-]|[? H]]
  | H : delete _ _ !! _ = Some _ |- _ => apply lookup_delete_Some in H as [? H]
  end; simplify_eq/=.

Section trees.
Context (m : gmap Z proc) (pt : list Z) (n : Z) (sl : gmap Z sleeper).

Lemma tree_skip pend : tree pend m pt n sl -> n + 1 < 2 ^ 31 -> tree pend m pt (n + 1) sl.
Proof. intros [] ?. split; eauto; [|lia]. intros p x Hx. pose proof (t_pid0 p x Hx). lia. Qed.

Lemma tree_add p x : tree [] m pt n sl -> m !! p = None -> p <> 0 -> n + 1 < 2 ^ 31 ->
  pid x = n -> alive x -> children x = [] -> wait_cv x = [] -> tree [p] (<[p := x]> m) pt (n + 1) sl.
Proof.
  intros T Hp H0 Hn Hpid Ha Hc Hw. destruct T. rewrite app_nil_r in *.
  assert (Hpt : p ∉ pt) by (intros (? & ? & _)%t_live0; congruence).
  split.
  - apply NoDup_app. split_and!; [done|set_solver|apply NoDup_singleton].
  - intros q [Hq|Hq]%elem_of_app; [|apply list_elem_of_singleton in Hq as ->; exists x; by rewrite lookup_insert_eq].
    rewrite lookup_insert_ne by (by intros ->). eauto.
  - intros q y Hy Hal. mcase; apply elem_of_app; [right; by left|left; eauto].
  - by rewrite lookup_insert_ne.
  - intros q y c Hy Hcy. mcase; [rewrite Hc in Hcy; by apply elem_of_nil in Hcy|].
    destruct (t_kids0 q y c) as (? & _ & Hs); [done..|]. assert (c <> p) by (intros ->; destruct Hs; congruence).
    split_and!; [done|set_solver|by rewrite lookup_insert_ne].
  - intros q y Hy. mcase; [rewrite Hc; constructor|eauto].
  - intros q r y z c Hy Hz Hcy Hcz. mcase; rewrite ?Hc in *; eauto; set_solver.
  - intros c y Hy Hcp Hnz. mcase; [set_solver|]. destruct (t_parent0 c y) as (q & z & Hz & ?); [done|set_solver|done|].
    exists q, z. rewrite lookup_insert_ne by (intros ->; congruence). done.
  - intros q y Hy. mcase; [lia|]. pose proof (t_pid0 q y Hy). lia.
  - intros q r y z Hy Hz E. mcase; eauto; [pose proof (t_pid0 _ _ Hy)|pose proof (t_pid0 _ _ Hz)]; lia.
  - lia.
  - intros q z Hz. destruct (t_sleep0 q z Hz) as (? & y & w & ? & ? & ? & ?). split; [done|]. exists y, w.
    rewrite !lookup_insert_ne by (intros ->; congruence). done.
  - intros c y q Hy Hq. mcase; [rewrite Hw in Hq; by apply elem_of_nil in Hq|eauto].
  - intros c y Hy. mcase; [rewrite Hw; constructor|eauto].
Qed.

Lemma tree_drop p : tree [p] m pt n sl -> tree [] (delete p m) pt n sl.
Proof.
  intros []. apply NoDup_app in t_nodup0 as (Hn & Hd & _).
  assert (Hkid : forall q y, m !! q = Some y -> p ∉ children y) by (intros q y Hy Hc; destruct (t_kids0 _ _ _ Hy Hc) as (_ & ? & _); set_solver).
  split; rewrite ?app_nil_r.
  - done.
  - intros q Hq. rewrite lookup_delete_ne by (intros ->; set_solver). apply t_live0. set_solver.
  - intros q y Hy Ha. mcase. specialize (t_table0 q y Hy Ha). set_solver.
  - rewrite lookup_delete_None. by right.
  - intros q y c Hy Hc. mcase. destruct (t_kids0 q y c) as (? & ? & ?); [done..|].
    split_and!; [done|set_solver|]. rewrite lookup_delete_ne; [done|]. set_solver.
  - intros q y Hy. mcase. eauto.
  - intros q r y z c Hy Hz. mcase. eauto.
  - intros c y Hy _ ?. mcase. destruct (t_parent0 c y) as (q & z & Hz & Hc); [done|set_solver|done|]. exists q, z.
    rewrite lookup_delete_ne; [done|]. intros ->. destruct (t_kids0 _ _ _ Hz Hc) as (? & _). set_solver.
  - intros q y Hy. mcase. eauto.
  - intros q r y z Hy Hz. mcase. eauto.
  - done.
  - intros q z Hz. destruct (t_sleep0 q z Hz) as (? & y & w & Hy & Hc & ? & ?). split; [done|]. exists y, w.
    pose proof (Hkid _ _ Hy). rewrite !lookup_delete_ne; [done|congruence|set_solver].
  - intros c y q Hy. mcase. eauto.
  - intros c y Hy. mcase. eauto.
Qed.

(** A new process becomes the child of [cur] and enters the table. *)
Lemma tree_link cur p x : tree [p] m pt n sl -> cur ∈ pt -> m !! cur = Some x ->
  tree [] (<[cur := set_children (children x ++ [p]) x]> m) (pt ++ [p]) n sl.
Proof.
  intros [] Hcur Hx. pose proof t_nodup0 as (Hn & Hd & _)%NoDup_app.
  assert (Hkid : forall q y, m !! q = Some y -> p ∉ children y) by (intros q y Hy Hc; destruct (t_kids0 _ _ _ Hy Hc) as (_ & ? & _); set_solver).
  assert (cur <> p) by set_solver. assert (Hp : is_Some (m !! p)) by (destruct (t_live0 p) as (? & ? & _); [set_solver|eauto]).
  assert (Hdom : forall q, is_Some (m !! q) -> is_Some (<[cur := set_children (children x ++ [p]) x]> m !! q)).
  { intros q ?. destruct (decide (q = cur)) as [->|]; [rewrite lookup_insert_eq; eauto|by rewrite lookup_insert_ne]. }
  split; rewrite ?app_nil_r.
  - done.
  - intros q (y & Hy & Ha)%t_live0. destruct (decide (q = cur)) as [->|].
    + simplify_eq. rewrite lookup_insert_eq. by eexists.
    + rewrite lookup_insert_ne by done. eauto.
  - intros q y Hy Ha. mcase; eauto.
  - rewrite lookup_insert_ne; [done|]. intros ->. congruence.
  - intros q y c Hy Hc. mcase.
    + apply elem_of_app in Hc as [Hc|Hc%list_elem_of_singleton]; [destruct (t_kids0 _ _ _ Hx Hc) as (? & _ & ?)|subst c]; set_solver.
    + destruct (t_kids0 _ _ _ Hy Hc) as (? & _ & ?). set_solver.
  - intros q y Hy. mcase; [|eauto]. apply NoDup_app. split_and!; [eauto|set_solver|apply NoDup_singleton].
  - intros q r y z c Hy Hz Hcy Hcz. mcase; [done| | |eauto].
    + apply elem_of_app in Hcz as [?|Hcz%list_elem_of_singleton]; [eauto|]. subst c. by destruct (Hkid _ _ Hy).
    + apply elem_of_app in Hcy as [?|Hcy%list_elem_of_singleton]; [eauto|]. subst c. by destruct (Hkid _ _ Hz).
  - intros c y Hy _ Hnz. destruct (decide (c = p)) as [->|Hcp].
    { exists cur, (set_children (children x ++ [p]) x). rewrite lookup_insert_eq. split; [done|]. set_solver. }
    assert (exists z, m !! c = Some z /\ pid z <> 0) as (z & Hz & Hz0) by (mcase; eauto).
    destruct (t_parent0 c z) as (q & w & Hw & ?); [done|set_solver|done|].
    destruct (decide (q = cur)) as [->|]; [|exists q, w; by rewrite lookup_insert_ne].
    eexists cur, _. rewrite lookup_insert_eq. split; [done|]. simplify_eq. set_solver.
  - intros q y Hy. mcase; eauto.
  - intros q r y z Hy Hz. mcase; eauto.
  - done.
  - intros q z Hz. destruct (t_sleep0 q z Hz) as (? & y & w & Hy & ? & Hw & Hal). split; [set_solver|].
    destruct (decide (q = cur)) as [->|], (decide (s_child z = cur)) as [E|]; simplify_eq; rewrite ?E, ?lookup_insert_eq, ?lookup_insert_ne by done;
      do 2 eexists; (split; [done|]); rewrite ?E in *; simplify_eq; (split; [set_solver|]); (split; [done|]); by destruct (s_woken z).
  - intros c y q Hy. mcase; eauto.
  - intros c y Hy. mcase; eauto.
Qed.

(** The first process has no parent. *)
Lemma tree_root p x : tree [p] m pt n sl -> m !! p = Some x -> pid x = 0 -> tree [] m (pt ++ [p]) n sl.
Proof.
  intros [] Hx H0. split; rewrite ?app_nil_r; eauto.
  - intros q y c Hy Hc. destruct (t_kids0 _ _ _ Hy Hc) as (? & _ & ?). set_solver.
  - intros c y Hy _ ?. destruct (decide (c = p)) as [->|]; [congruence|]. apply t_parent0 with y; [done|set_solver|done].
  - intros q z Hz. destruct (t_sleep0 q z Hz) as (? & ?). split; [set_solver|done].
Qed.

(** What the invariant says of a process. *)
Definition kin (x : proc) := (pid x, children x, wait_cv x, exit_status x).

Lemma tree_same pend p x y : tree pend m pt n sl -> m !! p = Some x -> kin y = kin x -> tree pend (<[p := y]> m) pt n sl.
Proof.
  intros T Hx E. unfold kin in E. simplify_eq.
  assert (L : forall q z, <[p := y]> m !! q = Some z -> exists w, m !! q = Some w /\ kin z = kin w).
  { intros q z Hz. mcase; [|eauto]. exists x. unfold kin. by split; [|f_equal; [f_equal; [f_equal|]|]]. }
  assert (R : forall q w, m !! q = Some w -> exists z, <[p := y]> m !! q = Some z /\ kin z = kin w).
  { intros q w Hw. destruct (decide (q = p)) as [->|]; [|rewrite lookup_insert_ne by done; eauto].
    rewrite lookup_insert_eq. exists y. simplify_eq. unfold kin. by split; [|f_equal; [f_equal; [f_equal|]|]]. }
  unfold kin in L, R. destruct T. split; try done.
  - intros q (z & Hz & Ha)%t_live0. destruct (R _ _ Hz) as (w & ? & ?). simplify_eq. exists w. split; [done|]. unfold alive in *. congruence.
  - intros q z (w & ? & ?)%L Ha. simplify_eq. eapply t_table0; [done|]. unfold alive in *. congruence.
  - rewrite lookup_insert_ne; [done|]. intros ->. congruence.
  - intros q z c (w & Hw & ?)%L Hc. simplify_eq. destruct (t_kids0 q w c) as (? & ? & r & Hr); [done|congruence|].
    destruct (R _ _ Hr) as (? & ? & _). eauto.
  - intros q z (w & ? & ?)%L. simplify_eq. replace (children z) with (children w). eauto.
  - intros q r z w c (z' & ? & ?)%L (w' & ? & ?)%L ? ?. simplify_eq. apply (t_one0 q r z' w' c); congruence.
  - intros c z (w & ? & ?)%L ? ?. simplify_eq. destruct (t_parent0 c w) as (q & r & Hr & ?); [done|done|congruence|].
    destruct (R _ _ Hr) as (r' & ? & ?). simplify_eq. exists q, r'. split; [done|congruence].
  - intros q z (w & Hw & ?)%L. simplify_eq. pose proof (t_pid0 _ _ Hw). congruence.
  - intros q r z w (z' & ? & ?)%L (w' & ? & ?)%L ?. simplify_eq. apply (t_pids0 q r z' w'); congruence.
  - intros q z Hz. destruct (t_sleep0 q z Hz) as (? & a & b & Ha & ? & Hb & Hal). split; [done|].
    destruct (R _ _ Ha) as (a' & ? & ?), (R _ _ Hb) as (b' & ? & ?). simplify_eq. exists a', b'.
    split_and!; [done|congruence|done|]. unfold alive in *. destruct (s_woken z); [congruence|]. destruct Hal. split; congruence.
  - intros c z q (w & ? & ?)%L ?. simplify_eq. apply (t_cv0 c w q); congruence.
  - intros c z (w & ? & ?)%L. simplify_eq. replace (wait_cv z) with (wait_cv w). eauto.
Qed.

(** A wait removes the child that has exited. *)
Lemma tree_reap cur c x y : tree [] m pt n sl -> sl !! cur = None -> m !! cur = Some x -> c ∈ children x -> m !! c = Some y -> ~ alive y ->
  tree [] (delete c (<[cur := set_children (filter (fun d => d <> c) (children x)) x]> m)) pt n sl.
Proof.
  intros [] Hs Hx Hc Hy Hd. rewrite app_nil_r in *. destruct (t_kids0 _ _ _ Hx Hc) as (Hcur & _).
  assert (Hcc : c <> cur) by (intros ->; destruct (t_live0 cur Hcur) as (? & ? & ?); by simplify_eq).
  set (x' := set_children _ x). set (m' := delete c _).
  assert (L : forall q z, m' !! q = Some z -> q <> c /\ exists w, m !! q = Some w /\ pid z = pid w /\ wait_cv z = wait_cv w /\
    exit_status z = exit_status w /\ forall d, d ∈ children z <-> d ∈ children w /\ d <> c).
  { intros q z Hz. unfold m' in Hz. mcase; (split; [done|]); eexists; (split; [done|]); (split_and!; [done..|]); intros d; subst x'; simpl.
    - rewrite list_elem_of_filter. tauto.
    - split; [intros Hdz; split; [done|]; intros ->; by destruct (t_one0 _ _ _ _ _ Hx Hz Hc Hdz)|tauto]. }
  assert (R : forall q w, m !! q = Some w -> q <> c -> exists z, m' !! q = Some z /\ pid z = pid w /\ wait_cv z = wait_cv w /\
    exit_status z = exit_status w /\ forall d, d ∈ children w -> d <> c -> d ∈ children z).
  { intros q w Hw Hqc. unfold m'. rewrite lookup_delete_ne by done. destruct (decide (q = cur)) as [->|].
    - rewrite lookup_insert_eq. simplify_eq. exists x'. split_and!; [done..|]. intros d ? ?. subst x'. simpl. by apply list_elem_of_filter.
    - rewrite lookup_insert_ne by done. exists w. done. }
  split; rewrite ?app_nil_r.
  - done.
  - intros q Hq. destruct (t_live0 q Hq) as (w & Hw & Ha). destruct (R q w Hw) as (z & ? & _ & _ & E & _); [by intros ->; simplify_eq|].
    exists z. split; [done|]. unfold alive in *. congruence.
  - intros q z (_ & w & Hw & _ & _ & E & _)%L Ha. apply (t_table0 q w Hw). unfold alive in *. congruence.
  - unfold m'. rewrite lookup_delete_ne by (intros ->; congruence). rewrite lookup_insert_ne; [done|]. intros ->. congruence.
  - intros q z d (_ & w & Hw & _ & _ & _ & Hk)%L [Hdw Hdc]%Hk. destruct (t_kids0 _ _ _ Hw Hdw) as (? & _ & v & Hv).
    split_and!; [done|set_solver|]. destruct (R d v Hv Hdc) as (? & ? & _). eauto.
  - intros q z Hz. unfold m' in Hz. mcase; [|eauto]. apply NoDup_filter. eauto.
  - intros q r z w d (_ & z' & Hz & _ & _ & _ & Kz)%L (_ & w' & Hw & _ & _ & _ & Kw)%L [? _]%Kz [? _]%Kw. eauto.
  - intros d z (Hdc & w & Hw & Ep & _)%L _ Hnz. rewrite Ep in Hnz. destruct (t_parent0 d w Hw) as (q & v & Hv & Hdv); [set_solver|done|].
    destruct (R q v Hv) as (v' & ? & _ & _ & _ & Hk); [|eauto].
    intros ->. destruct (t_kids0 _ _ _ Hv Hdv) as (Hin & _). destruct (t_live0 _ Hin) as (? & ? & ?). by simplify_eq.
  - intros q z (_ & w & Hw & -> & _)%L. eauto.
  - intros q r z w (_ & z' & Hz & -> & _)%L (_ & w' & Hw & -> & _)%L ?. eauto.
  - done.
  - intros q z Hz. destruct (t_sleep0 q z Hz) as (Hq & a & b & Ha & Hk & Hb & Hal). split; [done|].
    assert (Hqc : s_child z <> c) by (intros E; rewrite E in Hk; pose proof (t_one0 _ _ _ _ _ Hx Ha Hc Hk); congruence).
    destruct (R q a Ha) as (a' & ? & _ & _ & _ & Hka); [intros ->; destruct (t_live0 _ Hq) as (? & ? & ?); by simplify_eq|].
    destruct (R _ b Hb Hqc) as (b' & ? & _ & Ew & Ee & _). exists a', b'. unfold alive. rewrite Ew, Ee. eauto.
  - intros d z q (_ & w & Hw & _ & -> & _)%L. eauto.
  - intros d z (_ & w & Hw & _ & -> & _)%L. eauto.
Qed.

(** A wait sleeps at a child that is alive. *)
Lemma tree_sleep cur c x y : tree [] m pt n sl -> sl !! cur = None -> m !! cur = Some x -> c ∈ children x -> m !! c = Some y -> alive y ->
  tree [] (<[c := set_wait_cv (wait_cv y ++ [cur]) y]> m) pt n (<[cur := mkSleeper c false]> sl).
Proof.
  intros [] Hs Hx Hc Hy Ha. rewrite app_nil_r in *. destruct (t_kids0 _ _ _ Hx Hc) as (Hcur & _).
  set (y' := set_wait_cv _ y). set (m' := <[c := y']> m).
  assert (L : forall q z, m' !! q = Some z -> exists w, m !! q = Some w /\ pid z = pid w /\ children z = children w /\ exit_status z = exit_status w).
  { intros q z Hz. unfold m' in Hz. mcase; eauto. }
  assert (R : forall q w, m !! q = Some w -> exists z, m' !! q = Some z /\ pid z = pid w /\ children z = children w /\
    exit_status z = exit_status w /\ forall d, d ∈ wait_cv w -> d ∈ wait_cv z).
  { intros q w Hw. unfold m'. destruct (decide (q = c)) as [->|]; [|rewrite lookup_insert_ne by done; eauto 10].
    rewrite lookup_insert_eq. simplify_eq. exists y'. split_and!; [done..|]. intros d ?. subst y'. simpl. set_solver. }
  assert (Hnw : cur ∉ wait_cv y) by (intros Hw; specialize (t_cv0 _ _ _ Hy Hw); congruence).
  split; rewrite ?app_nil_r.
  - done.
  - intros q Hq. destruct (t_live0 q Hq) as (w & Hw & Hal). destruct (R q w Hw) as (z & ? & _ & _ & E & _).
    exists z. split; [done|]. unfold alive in *. congruence.
  - intros q z (w & Hw & _ & _ & E)%L Hal. apply (t_table0 q w Hw). unfold alive in *. congruence.
  - unfold m'. rewrite lookup_insert_ne; [done|]. intros ->. congruence.
  - intros q z d (w & Hw & _ & Hk & _)%L. rewrite Hk. intros Hdw. destruct (t_kids0 _ _ _ Hw Hdw) as (? & _ & v & Hv).
    split_and!; [done|set_solver|]. destruct (R d v Hv) as (? & ? & _). eauto.
  - intros q z (w & Hw & _ & -> & _)%L. eauto.
  - intros q r z w d (z' & Hz & _ & -> & _)%L (w' & Hw & _ & -> & _)%L. eauto.
  - intros d z (w & Hw & -> & _)%L ? ?. destruct (t_parent0 d w) as (q & v & Hv & ?); [done..|].
    destruct (R q v Hv) as (v' & ? & _ & E & _). exists q, v'. by rewrite E.
  - intros q z (w & Hw & -> & _)%L. eauto.
  - intros q r z w (z' & Hz & -> & _)%L (w' & Hw & -> & _)%L. eauto.
  - done.
  - intros q z Hz. apply lookup_insert_Some in Hz as [[<- <-]|[Hqc Hz]].
    + destruct (R _ _ Hx) as (x' & ? & _ & E & _). split; [done|]. exists x', y'. simpl. rewrite E. unfold m'.
      rewrite lookup_insert_eq. split_and!; [done..|]. subst y'. simpl. set_solver.
    + destruct (t_sleep0 q z Hz) as (Hq & a & b & Hqa & Hk & Hb & Hal). split; [done|].
      destruct (R _ _ Hqa) as (a' & ? & _ & E & _), (R _ _ Hb) as (b' & ? & _ & _ & Ee & Hw). exists a', b'.
      unfold alive in *. rewrite E, Ee. destruct (s_woken z); [done|]. destruct Hal. eauto 10.
  - intros d z q Hz Hq. unfold m' in Hz. mcase.
    + apply elem_of_app in Hq as [Hq|Hq%list_elem_of_singleton]; [|subst; by rewrite lookup_insert_eq].
      rewrite lookup_insert_ne by (intros ->; done). eauto.
    + rewrite lookup_insert_ne; [eauto|]. intros ->. specialize (t_cv0 _ _ _ Hz Hq). congruence.
  - intros d z Hz. unfold m' in Hz. mcase; [|eauto]. apply NoDup_app. split_and!; [eauto|set_solver|apply NoDup_singleton].
Qed.

Lemma tree_wake p z : tree [] m pt n sl -> sl !! p = Some z -> s_woken z = true -> tree [] m pt n (delete p sl).
Proof.
  intros [] Hz Hw. split; try done.
  - intros q z' (_ & ?)%lookup_delete_Some. eauto.
  - intros c y q Hy Hq. pose proof (t_cv0 _ _ _ Hy Hq). rewrite lookup_delete_ne; [done|]. intros ->. simplify_eq.
Qed.

(** At most the parent is queued at a process. *)
Lemma tree_waiter p x q : tree [] m pt n sl -> m !! p = Some x -> q ∈ wait_cv x -> wait_cv x = [q].
Proof.
  intros [] Hx Hq. pose proof (t_cvnd0 _ _ Hx) as Hnd.
  assert (H1 : forall r, r ∈ wait_cv x -> r = q).
  { assert (Hpar : forall r, r ∈ wait_cv x -> exists w, m !! r = Some w /\ p ∈ children w).
    { intros r Hr. destruct (t_sleep0 _ _ (t_cv0 _ _ _ Hx Hr)) as (_ & w & _ & ? & ? & _). eauto. }
    intros r Hr. destruct (Hpar r Hr) as (w & ? & ?), (Hpar q Hq) as (v & ? & ?). eauto. }
  destruct (wait_cv x) as [|a [|b l]]; [by apply elem_of_nil in Hq|by rewrite (H1 a) by left|].
  rewrite (H1 a), (H1 b) in Hnd by set_solver. apply NoDup_cons in Hnd as [Hnd _]. set_solver.
Qed.

(** The table after [p] with record [x] has exited, when [i] with record [y] is
    the first process. *)
Definition live_in (c : Z) : bool := match m !! c with Some z => exit_status z =? STATUS_ALIVE | None => false end.
Definition exited (status : Z) (x : proc) : proc := set_wait_cv (tail (wait_cv x)) (set_exit status (set_children [] x)).
Definition adopter (x y : proc) : proc := set_children (children y ++ filter (fun c => live_in c = true) (children x)) y.
Definition signalled (x : proc) : gmap Z sleeper :=
  match wait_cv x with
  | q :: _ => match sl !! q with Some z => <[q := mkSleeper (s_child z) true]> sl | None => sl end
  | [] => sl
  end.
Definition after_exit (p i status : Z) (x y : proc) (m' : gmap Z proc) : Prop :=
  m' !! p = Some (exited status x) /\ m' !! i = Some (adopter x y) /\
  forall q, q <> p -> q <> i -> m' !! q = if bool_decide (q ∈ children x) && negb (live_in q) then None else m !! q.

Lemma live_in_spec c z : m !! c = Some z -> live_in c = true <-> alive z.
Proof. intros Hz. unfold live_in. rewrite Hz. apply Z.eqb_eq. Qed.

Section exit.
Context (p i status : Z) (x y : proc) (m' : gmap Z proc).
Context (T : tree [] m pt n sl) (Hp : p ∈ pt) (Hs : sl !! p = None) (Hx : m !! p = Some x) (Hx0 : pid x <> 0).
Context (Hi : i ∈ pt) (Hy : m !! i = Some y) (Hy0 : pid y = 0) (Hst : status <> STATUS_ALIVE) (E : after_exit p i status x y m').

Lemma exit_ne : i <> p.
Proof. intros ->. congruence. Qed.

Lemma exit_in q z : m' !! q = Some z ->
  (q = p /\ z = exited status x) \/ (q = i /\ z = adopter x y) \/ (q <> p /\ q <> i /\ m !! q = Some z /\ (q ∈ children x -> alive z)).
Proof.
  destruct E as (Ep & Ei & Eo). intros Hz. destruct (decide (q = p)) as [->|]; [left; by simplify_eq|].
  destruct (decide (q = i)) as [->|]; [right; left; by simplify_eq|]. right; right. rewrite Eo in Hz by done.
  destruct (bool_decide _) eqn:Eb; simpl in Hz.
  - destruct (live_in q) eqn:El; simplify_eq/=. split_and!; try done. intros _. by apply (live_in_spec q).
  - apply bool_decide_eq_false in Eb. done.
Qed.

Lemma exit_rev q w : m !! q = Some w -> q <> p -> q ∉ children x \/ alive w ->
  exists z, m' !! q = Some z /\ pid z = pid w /\ wait_cv z = wait_cv w /\ exit_status z = exit_status w /\ forall c, c ∈ children w -> c ∈ children z.
Proof.
  destruct E as (Ep & Ei & Eo). intros Hw Hqp Ho. destruct (decide (q = i)) as [->|].
  - simplify_eq. eexists. split; [done|]. split_and!; [done..|]. intros c Hc. simpl. set_solver.
  - rewrite Eo by done. exists w. destruct (bool_decide _) eqn:Eb; simpl; [|done]. apply bool_decide_eq_true in Eb.
    destruct Ho as [|Ha]; [done|]. by rewrite (proj2 (live_in_spec q w Hw) Ha).
Qed.

Lemma exit_old q z : m' !! q = Some z -> q <> p -> exists w, m !! q = Some w /\ pid z = pid w /\ wait_cv z = wait_cv w /\ exit_status z = exit_status w.
Proof. intros [[-> ->]|[[-> ->]|(? & ? & ? & _)]]%exit_in ?; [done|exists y; done|exists z; done]. Qed.

(** The parent of a process after the exit. *)
Lemma exit_child q z c : m' !! q = Some z -> c ∈ children z ->
  (q = i /\ c ∈ children x /\ live_in c = true) \/ (q <> p /\ c ∉ children x /\ exists w, m !! q = Some w /\ c ∈ children w).
Proof.
  assert (N : forall q w, m !! q = Some w -> q <> p -> c ∈ children w -> c ∉ children x).
  { intros r w Hw Hr Hc Hc'. by destruct Hr; apply (t_one _ _ _ _ _ T r p w x c). }
  intros [[-> ->]|[[-> ->]|(? & ? & Hz & _)]]%exit_in Hc.
  - by apply elem_of_nil in Hc.
  - simpl in Hc. apply elem_of_app in Hc as [Hc|[? ?]%list_elem_of_filter]; [|by left]. right. pose proof exit_ne. eauto 10.
  - right. eauto 10.
Qed.

Lemma exit_kid c : (c ∈ children x /\ live_in c = true) \/ (c ∉ children x /\ is_Some (m !! c)) -> is_Some (m' !! c).
Proof.
  intros Hc. destruct (decide (c = p)) as [->|]; [destruct E as (-> & _); eauto|].
  destruct Hc as [[Hc Hl]|[Hc [w Hw]]].
  - destruct (t_kids _ _ _ _ _ T p x c Hx Hc) as (_ & _ & w & Hw). destruct (exit_rev c w) as (? & ? & _); eauto.
    right. by apply (live_in_spec c).
  - destruct (exit_rev c w) as (? & ? & _); eauto.
Qed.

Lemma signalled_other q : s_child <$> sl !! q <> Some p -> signalled x !! q = sl !! q.
Proof.
  intros Hq. unfold signalled. destruct (wait_cv x) as [|h l] eqn:Ew; [done|].
  rewrite (t_cv _ _ _ _ _ T p x h Hx) by (rewrite Ew; left).
  rewrite lookup_insert_ne; [done|]. intros ->. apply Hq. by rewrite (t_cv _ _ _ _ _ T p x q Hx) by (rewrite Ew; left).
Qed.

Lemma signalled_dom q z : signalled x !! q = Some z -> exists z', sl !! q = Some z' /\ s_child z = s_child z'.
Proof.
  unfold signalled. destruct (wait_cv x) as [|h l]; [eauto|]. destruct (sl !! h) eqn:Eh; [|eauto].
  intros [[<- <-]|[? ?]]%lookup_insert_Some; eauto.
Qed.

Lemma exit_sleep q z : signalled x !! q = Some z -> q ∈ filter (fun r => r <> p) pt /\ exists a b, m' !! q = Some a /\ s_child z ∈ children a /\
  m' !! s_child z = Some b /\ (if s_woken z then ~ alive b else alive b /\ q ∈ wait_cv b).
Proof.
  intros Hz. destruct (signalled_dom _ _ Hz) as (z' & Hz' & Ec).
  destruct (t_sleep _ _ _ _ _ T q z' Hz') as (Hq & a & b & Ha & Hk & Hb & Hal).
  assert (Hqp : q <> p) by congruence. split; [by apply list_elem_of_filter|].
  assert (Haa : alive a) by (destruct (t_live _ _ _ _ _ T q) as (? & ? & ?); [by rewrite app_nil_r|by simplify_eq]).
  destruct (exit_rev q a Ha Hqp) as (a' & Ha' & _ & _ & _ & Hka); [by right|]. exists a'. rewrite Ec.
  destruct (decide (s_child z' = p)) as [Ep|Ep].
  - rewrite Ep in *. exists (exited status x). split_and!; [done|eauto|by destruct E|].
    assert (b = x) as -> by congruence. destruct (t_live _ _ _ _ _ T p) as (x1 & Hx1 & Hax); [by rewrite app_nil_r|].
    assert (x1 = x) as -> by congruence. destruct (s_woken z'); [done|]. destruct Hal as [_ Hw].
    unfold signalled in Hz. rewrite (tree_waiter p x q T Hx Hw), Hz', lookup_insert_eq in Hz. by injection Hz as <-.
  - destruct (exit_rev (s_child z') b Hb Ep) as (b' & Hb' & _ & Ew & Ee & _).
    { left. intros Hc. pose proof (t_one _ _ _ _ _ T q p a x _ Ha Hx Hk Hc). done. }
    rewrite signalled_other in Hz by (rewrite Hz'; simpl; congruence). simplify_eq. exists b'. unfold alive in *. rewrite Ew, Ee. eauto.
Qed.

Lemma tree_exit : tree [] m' (filter (fun q => q <> p) pt) n (signalled x).
Proof.
  pose proof exit_ne as Hne. pose proof T as T'. destruct T'. rewrite app_nil_r in *.
  split; rewrite ?app_nil_r.
  - by apply NoDup_filter.
  - intros q [Hqp Hq]%list_elem_of_filter. destruct (t_live0 q Hq) as (w & Hw & Ha).
    destruct (exit_rev q w Hw Hqp) as (z & ? & _ & _ & Ee & _); [by right|]. exists z. split; [done|]. unfold alive in *. congruence.
  - intros q z Hz Ha. apply list_elem_of_filter. destruct (decide (q = p)) as [->|Hqp].
    + destruct E as (Ep & _). simplify_eq.
    + split; [done|]. destruct (exit_old q z Hz Hqp) as (w & Hw & _ & _ & Ee). apply (t_table0 q w Hw). unfold alive in *. congruence.
  - destruct E as (_ & _ & Eo). rewrite Eo by (intros <-; congruence). rewrite t_null0. by destruct (_ && _).
  - intros q z c Hz Hc. split_and!; [|set_solver|].
    + apply list_elem_of_filter. destruct (exit_child q z c Hz Hc) as [(-> & _)|(? & _ & w & Hw & Hcw)]; [done|].
      split; [done|]. by destruct (t_kids0 q w c Hw Hcw).
    + apply exit_kid. destruct (exit_child q z c Hz Hc) as [(_ & ? & ?)|(_ & ? & w & Hw & Hcw)]; [by left|right].
      split; [done|]. by destruct (t_kids0 q w c Hw Hcw) as (_ & _ & ?).
  - intros q z [[-> ->]|[[-> ->]|(? & ? & Hz & _)]]%exit_in; [constructor| |eauto]. simpl. apply NoDup_app. split_and!.
    + eauto.
    + intros c Hc [_ Hc']%list_elem_of_filter. apply Hne. eauto.
    + apply NoDup_filter. eauto.
  - intros q r z w c Hz Hw Hcz Hcw.
    destruct (exit_child q z c Hz Hcz) as [(-> & ? & ?)|(? & ? & z' & ? & ?)],
      (exit_child r w c Hw Hcw) as [(-> & ? & ?)|(? & ? & w' & ? & ?)]; try done. eauto.
  - intros c z Hz _ Hnz.
    assert (exists w, m !! c = Some w /\ pid w <> 0 /\ (c ∈ children x -> alive w)) as (w & Hw & Hw0 & Hcx).
    { apply exit_in in Hz as [[-> ->]|[[-> ->]|(? & ? & Hz & ?)]]; [|done|eauto]. exists x. split_and!; [done..|]. intros _.
      destruct (t_live0 p) as (? & ? & ?); [done|]. congruence. }
    destruct (t_parent0 c w Hw) as (r & v & Hv & Hc); [set_solver|done|]. destruct (decide (r = p)) as [->|Hrp].
    + exists i, (adopter x y). split; [by destruct E as (_ & ? & _)|]. simpl. assert (v = x) as -> by congruence.
      apply elem_of_app. right. apply list_elem_of_filter. split; [|done]. apply (live_in_spec c w); eauto.
    + destruct (exit_rev r v Hv Hrp) as (v' & ? & _ & _ & _ & ?); [|eauto]. right.
      destruct (t_kids0 r v c Hv Hc) as (Hr & _). destruct (t_live0 r Hr) as (? & ? & ?). congruence.
  - intros q z Hz. destruct (decide (q = p)) as [->|Hqp]; [destruct E as (Ep & _); simplify_eq; apply (t_pid0 _ _ Hx)|].
    destruct (exit_old q z Hz Hqp) as (w & Hw & -> & _). eauto.
  - assert (O : forall q z, m' !! q = Some z -> exists w, m !! q = Some w /\ pid z = pid w).
    { intros q z Hz. destruct (decide (q = p)) as [->|Hqp]; [destruct E as (Ep & _); simplify_eq; eauto|].
      destruct (exit_old q z Hz Hqp) as (w & Hw & ? & _). eauto. }
    intros q r z w (z' & ? & ->)%O (w' & ? & ->)%O. eauto.
  - done.
  - apply exit_sleep.
  - intros c z q Hz Hq. destruct (decide (c = p)) as [->|Hcp].
    + destruct E as (Ep & _). simplify_eq. simpl in Hq. destruct (wait_cv x) as [|h l] eqn:Ew; [by apply elem_of_nil in Hq|].
      pose proof (tree_waiter p x h T Hx) as Hh. rewrite Ew in Hh. injection (Hh ltac:(left)) as ->. by apply elem_of_nil in Hq.
    + destruct (exit_old c z Hz Hcp) as (w & Hw & _ & Ew & _). rewrite Ew in Hq. pose proof (t_cv0 c w q Hw Hq) as Hsl.
      rewrite signalled_other; [done|]. rewrite Hsl. simpl. congruence.
  - intros c z Hz. destruct (decide (c = p)) as [->|Hcp].
    + destruct E as (Ep & _). simplify_eq. simpl. pose proof (t_cvnd0 _ _ Hx) as Hnd. destruct (wait_cv x); [done|]. by apply NoDup_cons in Hnd as [_ ?].
    + destruct (exit_old c z Hz Hcp) as (w & Hw & _ & -> & _). eauto.
Qed.

End exit.

End trees.

End Proc.
