(* ===== verification/ProcOps.v ===== *)
(** * What processes own, and the steps of kernel/proc.c

    The second half of the invariant of Proc.v: address spaces, descriptors and
    current directories, and the proofs that process creation, wait and exit
    keep the invariant. *)

From S2P Require Import Prelude Alloc Proc.
Import Proc.
Local Open Scope kernel_scope.

Module ProcOps.

(** ** Resources *)

Section properties.
Context {A : Type} `{!ObjAlloc A} {K : Type} `{!KView K, !ProcServices K}.
Local Notation pst := (pst A K).

(** A file of the allocator, as opposed to an empty descriptor or one of the
    static files. *)
Definition owned (f : Z) : Prop := f <> 0 /\ f <> stdin /\ f <> stdout.

(** The address spaces that are set up are those of the processes that are
    alive; a file that has a descriptor is allocated and its reference count is
    the number of its descriptors; the current directories are referenced. *)
Record res (pend : list Z) (m : gmap Z proc) (pt : list Z) (a : A) (v : kview) : Prop := {
  r_ook : ook a;
  r_olive : olive a = dom m;
  r_spaces : spaces v = list_to_set (pt ++ pend);
  r_len p x : p ∈ pt ++ pend -> m !! p = Some x -> length (files x) = 128%nat;
  r_files f : owned f -> 0 < tot (slots f) m (pt ++ pend) -> frefs v !! f = Some (tot (slots f) m (pt ++ pend));
  r_cwd i : tot (holds i) m (pt ++ pend) <= iref i v;
}.

Definition inv (pend : list Z) (s : pst) : Prop :=
  tree pend (procs s) (ptable s) (pid_allocator s) (asleep s) /\ res pend (procs s) (ptable s) (proc_allocator s) (view (svc s)) /\ kok (svc s).

Lemma dom_update (m : gmap Z proc) p x y : m !! p = Some x -> dom (<[p := y]> m) = dom m.
Proof. intros Hx. rewrite dom_insert_L. apply subseteq_union_1_L, singleton_subseteq_l. by apply elem_of_dom. Qed.

(** What [res] says of a process. *)
Definition held (x : proc) := (files x, cwd x).

Lemma held_of f i x y : held x = held y -> slots f x = slots f y /\ holds i x = holds i y.
Proof. unfold held, slots, holds. intros E. injection E as -> ->. done. Qed.

(** Changes that concern neither descriptors nor current directories. *)
Lemma res_ext pend pend' m m' pt pt' a a' v : res pend m pt a v -> pt' ++ pend' = pt ++ pend -> ook a' -> olive a' = dom m' ->
  (forall p x, p ∈ pt ++ pend -> m !! p = Some x -> exists y, m' !! p = Some y /\ held y = held x) ->
  (forall p, p ∈ pt ++ pend -> is_Some (m !! p)) -> res pend' m' pt' a' v.
Proof.
  intros [] El Ho Hd Hm HS.
  assert (T : forall g, (forall x y, held x = held y -> g x = g y) -> tot g m' (pt ++ pend) = tot g m (pt ++ pend)).
  { intros g Hg. apply tot_ext. intros p Hp. destruct (HS p Hp) as [x Hx]. destruct (Hm p x Hp Hx) as (y & Hy & E).
    unfold of_proc. rewrite Hx, Hy. by apply Hg. }
  split; rewrite ?El; try done.
  - intros p y Hp Hy. destruct (HS p Hp) as [x Hx]. destruct (Hm p x Hp Hx) as (y' & Hy' & E). injection E as E1 _.
    rewrite Hy in Hy'. injection Hy' as <-. rewrite E1. eauto.
  - intros f Hf. rewrite T by (intros; by apply (held_of f 0)). eauto.
  - intros i. rewrite T by (intros; by apply (held_of 0 i)). eauto.
Qed.

Lemma slots_bound f x : 0 <= slots f x <= Z.of_nat (length (files x)).
Proof. apply occ_bound. Qed.
Lemma holds_bound i x : 0 <= holds i x <= 1.
Proof. unfold holds. destruct (_ =? _); lia. Qed.

Lemma std_slots f x : owned f -> files x = std_files -> slots f x = 0.
Proof.
  intros (? & ? & ?) E. unfold slots. rewrite E. unfold std_files. cbn [occ].
  rewrite (proj2 (Z.eqb_neq stdin f)), (proj2 (Z.eqb_neq stdout f)), occ_replicate by congruence. done.
Qed.

Lemma res_add m pt a a' v p x : res [] m pt a v -> p ∉ pt -> m !! p = None -> ook a' -> olive a' = {[p]} ∪ olive a -> files x = std_files ->
  res [p] (<[p := x]> m) pt a' (with_iref (cwd x) (iref (cwd x) v + 1) (with_spaces ({[p]} ∪ spaces v) v)).
Proof.
  intros [] Hp Hm Ho Hl Hf. rewrite app_nil_r in *.
  assert (T : forall g, tot g (<[p := x]> m) (pt ++ [p]) = tot g m pt + g x).
  { intros g. rewrite tot_app. rewrite (tot_other g m _ pt p) by (done || (intros; by apply lookup_insert_ne)). simpl. unfold of_proc. rewrite lookup_insert_eq. lia. }
  split.
  - done.
  - rewrite Hl, r_olive0. set_solver.
  - simpl. rewrite r_spaces0, list_to_set_app_L. simpl. set_solver.
  - intros q y [Hq|Hq%list_elem_of_singleton]%elem_of_app Hy.
    + rewrite lookup_insert_ne in Hy by (intros ->; done). eauto.
    + subst q. rewrite lookup_insert_eq in Hy. simplify_eq. by rewrite Hf.
  - intros f Ho'. rewrite T, std_slots, Z.add_0_r by done. simpl. eauto.
  - intros i. rewrite T. specialize (r_cwd0 i). unfold holds, iref in *. simpl.
    destruct (Z.eqb_spec (cwd x) i) as [->|]; [rewrite lookup_insert_eq|rewrite lookup_insert_ne by done]; simpl; lia.
Qed.

Lemma res_drop m pt a v p x : res [p] m pt a v -> p ∉ pt -> m !! p = Some x -> (forall f, owned f -> slots f x = 0) ->
  res [] (delete p m) pt (ofree p a) (with_spaces (spaces v ∖ {[p]}) v).
Proof.
  intros [] Hp Hx Hf.
  assert (T : forall g, tot g m (pt ++ [p]) = tot g (delete p m) pt + g x).
  { intros g. rewrite tot_app. rewrite (tot_other g m (delete p m) pt p) by (done || (intros; by apply lookup_delete_ne)). simpl. unfold of_proc. rewrite Hx. lia. }
  destruct (ofree_live a p) as [Ho Hl]; [done|rewrite r_olive0; by apply elem_of_dom|].
  split; rewrite ?app_nil_r.
  - done.
  - rewrite Hl, r_olive0. set_solver.
  - simpl. rewrite r_spaces0, list_to_set_app_L. simpl. set_solver.
  - intros q y Hq Hy. mcase. apply (r_len0 q); [set_solver|done].
  - intros f Ho'. specialize (r_files0 f Ho'). rewrite T, Hf, Z.add_0_r in r_files0 by done. done.
  - intros i. specialize (r_cwd0 i). rewrite T in r_cwd0. pose proof (holds_bound i x). unfold iref in *. simpl. lia.
Qed.

Lemma res_frefs pend m pt a v v' : res pend m pt a v -> frefs v ⊆ frefs v' -> v' = with_frefs (frefs v') v -> res pend m pt a v'.
Proof. intros [] Hs ->. split; try done. simpl. intros f Hf H0. eapply lookup_weaken; eauto. Qed.

(** A descriptor changes. *)
Lemma res_slot pend m pt a v p x i g f n : res pend m pt a v -> NoDup (pt ++ pend) -> p ∈ pt ++ pend -> m !! p = Some x -> files x !! i = Some g ->
  let y := set_files (<[i := f]> (files x)) x in
  (forall h, owned h -> let c := tot (slots h) m (pt ++ pend) + (if f =? h then 1 else 0) - (if g =? h then 1 else 0) in
    0 < c -> n !! h = Some c) ->
  res pend (<[p := y]> m) pt a (with_frefs n v).
Proof.
  intros [] Hnd Hp Hx Hg y Hn.
  split; try done.
  - rewrite r_olive0. by erewrite dom_update.
  - intros q z Hq Hz. mcase; [rewrite length_insert|]; eauto.
  - intros h Hh. rewrite (tot_insert _ _ _ _ x) by done. unfold slots at 2 3 5 6. simpl. rewrite (occ_insert _ _ _ _ g) by done. simpl.
    specialize (Hn h Hh). simpl in Hn. intros H0.
    replace (tot (slots h) m (pt ++ pend) + (occ h (files x) + (if f =? h then 1 else 0) - (if g =? h then 1 else 0)) - occ h (files x))
      with (tot (slots h) m (pt ++ pend) + (if f =? h then 1 else 0) - (if g =? h then 1 else 0)) in * by lia. auto.
  - intros j. rewrite (tot_insert _ _ _ _ x) by done. specialize (r_cwd0 j). unfold holds in *. simpl. unfold iref in *. simpl. lia.
Qed.

(** A file with a descriptor is allocated. *)
Lemma res_ref pend m pt a v p x f : res pend m pt a v -> p ∈ pt ++ pend -> m !! p = Some x -> f ∈ files x -> owned f ->
  0 < tot (slots f) m (pt ++ pend) <= 128 * Z.of_nat (length (pt ++ pend)) /\ frefs v !! f = Some (tot (slots f) m (pt ++ pend)).
Proof.
  intros [] Hp Hx Hf Ho. assert (H0 : 0 < tot (slots f) m (pt ++ pend)).
  { pose proof (occ_elem _ _ Hf). pose proof (tot_elem (slots f) m (pt ++ pend) p x ltac:(intros; apply slots_bound) Hp Hx). unfold slots in *. lia. }
  split; [|eauto]. split; [done|]. apply tot_bound; [|lia]. intros q y Hq Hy. pose proof (slots_bound f y). specialize (r_len0 q y Hq Hy). lia.
Qed.

(** ** Specifications of the steps *)

Lemma wp_svc {B} (m : M K B) P (s : pst) : yields m (svc s) P -> wp (call m) (fun b s' => exists k, s' = set_svc k s /\ kok k /\ P b (view k)) s.
Proof. intros H. apply wp_zoom. eapply wp_mono; [apply H|]. intros b k (? & ?). eauto. Qed.

Lemma wp_get_proc p x s (Q : proc -> pst -> Prop) : procs s !! p = Some x -> Q x s -> wp (get_proc p) Q s.
Proof. intros Hx HQ. apply wp_bind, wp_gets. by rewrite Hx. Qed.

Lemma wp_upd_proc p x f s (Q : unit -> pst -> Prop) : procs s !! p = Some x -> Q tt (set_procs (<[p := f x]> (procs s)) s) -> wp (upd_proc p f) Q s.
Proof. intros Hx HQ. apply wp_bind, (wp_get_proc p x); [done|]. exact HQ. Qed.

Lemma inv_svc pend s k : inv pend s -> kok k -> view k = view (svc s) -> inv pend (set_svc k s).
Proof. intros (T & R & _) Hk Hv. split_and!; [done|by rewrite <- Hv in R|done]. Qed.

(** Take back the process structure, its address space being gone. *)
Lemma wp_proc_free p s (Q : unit -> pst -> Prop) :
  Q tt (mkPst (delete p (procs s)) (ptable s) (pid_allocator s) (ofree p (proc_allocator s)) (asleep s) (svc s)) -> wp (proc_free p) Q s.
Proof. done. Qed.

Lemma proc_init_ok nm (s : pst) : inv [] s -> pid_allocator s + 1 < 2 ^ 31 -> wp (proc_init nm) (fun p s' =>
  ptable s' = ptable s /\ asleep s' = asleep s /\
  (p = 0 /\ inv [] s' /\ procs s' = procs s \/
   p <> 0 /\ inv [p] s' /\ procs s !! p = None /\ exists x, procs s' = <[p := x]> (procs s) /\ pid x = pid_allocator s /\ files x = std_files)) s.
Proof.
  intros (T & R & Hk) Hn. pose proof R as R'. destruct R' as [Ho Hl Hsp _ _ _]. unfold proc_init. apply wp_bind. unfold proc_alloc, wp at 1.
  destruct (oalloc (proc_allocator s)) as [[p|] a] eqn:Ea; cycle 1.
  { destruct (oalloc_None _ _ Ho Ea) as [Ho' Hl']. do 2 (split; [done|]). left. split_and!; [done| |done]. split_and!; [done| |done].
    simpl. destruct R. split; try done. by rewrite Hl'. }
  destruct (oalloc_Some _ _ _ Ho Ea) as (Ho' & Hp0 & Hpl & Hl').
  assert (Hp : procs s !! p = None) by (apply not_elem_of_dom; by rewrite <- Hl).
  assert (Hpt : p ∉ ptable s) by (intros H; destruct (t_live _ _ _ _ _ T p) as (? & ? & _); [by rewrite app_nil_r|congruence]).
  assert (Hs32 : s32 (pid_allocator s + 1) = pid_allocator s + 1) by (apply swrap_small; [|lia]; pose proof (t_max _ _ _ _ _ T); lia).
  assert (Back : forall x : proc, delete p (<[p := x]> (procs s)) = procs s) by (intros; by apply delete_insert_id).
  destruct (ofree_live a p) as [Ho2 Hl2]; [done|set_solver|].
  assert (Hl3 : olive (ofree p a) = dom (procs s)) by set_solver.
  rewrite (proj2 (Z.eqb_neq p 0)) by done. rewrite Hs32.
  eapply wp_call; [apply wp_svc, as_init_spec; simpl; [done|]; rewrite Hsp, app_nil_r; set_solver|].
  intros e s1 (k & -> & Hk1 & Hv). simpl in Hv. destruct (Z.eqb_spec e ERR_OK) as [->|He]; simpl; cycle 1.
  { rewrite decide_False in Hv by done. apply wp_bind, wp_proc_free, wp_ret. simpl. rewrite Back. do 2 (split; [done|]). left.
    split_and!; [done| |done]. split_and!; [by apply tree_skip| |done]. simpl. rewrite Hv. destruct R. by split. }
  rewrite decide_True in Hv by done.
  eapply wp_bind, wp_upd_proc; [apply lookup_insert_eq|]. simpl.
  eapply wp_call; [apply wp_svc, root_spec; done|]. intros r s2 (k2 & -> & Hk2 & Hv2). simpl in Hv2.
  destruct (Z.eqb_spec r.1 ERR_OK) as [Er|Er]; simpl; cycle 1.
  { rewrite decide_False in Hv2 by done. eapply wp_call; [apply wp_svc, as_destroy_spec; simpl; [done|]; rewrite Hv2, Hv; set_solver|].
    intros [] s3 (k3 & -> & Hk3 & Hv3). simpl in Hv3. apply wp_bind, wp_proc_free, wp_ret. simpl. rewrite insert_insert_eq, Back. do 2 (split; [done|]). left.
    split_and!; [done| |done]. split_and!; [by apply tree_skip| |done]. simpl. rewrite Hv3, Hv2, Hv. destruct R. split; try done. simpl. set_solver. }
  rewrite decide_True in Hv2 by done.
  eapply wp_bind, wp_upd_proc; [apply lookup_insert_eq|]. simpl.
  eapply wp_call; [apply wp_svc, reopen_std; [done|by left]|]. intros [] s3 (k3 & -> & Hk3 & Hv3).
  eapply wp_call; [apply wp_svc, reopen_std; [done|by right]|]. intros [] s4 (k4 & -> & Hk4 & Hv4).
  eapply wp_bind, wp_upd_proc; [apply lookup_insert_eq|]. simpl. simpl in Hv3, Hv4. apply wp_ret. simpl. rewrite !insert_insert_eq.
  do 2 (split; [done|]). right. split; [done|]. split; [|split; [done|by eexists]].
  split_and!; [by apply tree_add| |done]. simpl. rewrite Hv4, Hv3, Hv2, Hv. by refine (res_add _ _ _ a (view (svc s)) p (mkProc _ _ _ _ _ _ _ _) R _ _ _ _ _).
Qed.

(** ** Process creation *)

(** A change to a process that the invariant does not mention. *)
Lemma inv_same pend s p x y : inv pend s -> procs s !! p = Some x -> kin y = kin x -> held y = held x -> inv pend (set_procs (<[p := y]> (procs s)) s).
Proof.
  intros (T & R & Hk) Hx E1 E2. split_and!; [eapply tree_same; eauto| |done]. simpl. pose proof R as []. eapply res_ext; try done.
  - rewrite r_olive0. by erewrite dom_update.
  - intros q z Hq Hz. destruct (decide (q = p)) as [->|]; [|rewrite lookup_insert_ne by done; eauto].
    rewrite lookup_insert_eq. exists y. assert (z = x) as -> by congruence. done.
  - intros q Hq. destruct (t_live _ _ _ _ _ T q Hq) as (? & ? & _). eauto.
Qed.

Lemma pend_facts p s : inv [p] s -> p ∉ ptable s /\ p ∈ spaces (view (svc s)) /\ exists x, procs s !! p = Some x.
Proof.
  intros (T & R & _). pose proof (t_nodup _ _ _ _ _ T) as (_ & Hd & _)%NoDup_app. split_and!; [set_solver|rewrite (r_spaces _ _ _ _ _ R); set_solver|].
  destruct (t_live _ _ _ _ _ T p) as (x & ? & _); [set_solver|eauto].
Qed.

(** The error exits of [proc_spawn] and [proc_fork]. *)
Lemma discard_ok {B} (b : B) p x s : inv [p] s -> procs s !! p = Some x -> files x = std_files ->
  wp (call (as_destroy p) ;; proc_free p ;; ret b) (fun r s' => r = b /\ inv [] s' /\ procs s' = delete p (procs s) /\ ptable s' = ptable s /\ asleep s' = asleep s) s.
Proof.
  intros I Hx Hf. destruct (pend_facts p s I) as (Hpt & Hsp & _). destruct I as (T & R & Hk).
  eapply wp_call; [by apply wp_svc, as_destroy_spec|]. intros [] s1 (k & -> & Hk1 & Hv).
  apply wp_bind, wp_proc_free, wp_ret. split; [done|]. split; [|done]. split_and!; [by apply tree_drop| |done].
  simpl. rewrite Hv. eapply res_drop; eauto. intros f ?. by apply std_slots.
Qed.

Lemma attach_thread_ok nm p x s : inv [p] s -> procs s !! p = Some x ->
  wp (attach_thread nm p) (fun t s' => inv [p] s' /\ ptable s' = ptable s /\ asleep s' = asleep s /\ pid_allocator s' = pid_allocator s /\
    (t = 0 /\ procs s' = procs s \/ t <> 0 /\ exists y, procs s' = <[p := y]> (procs s) /\ kin y = kin x /\ held y = held x)) s.
Proof.
  intros I Hx. destruct (pend_facts p s I) as (Hpt & Hsp & _). unfold attach_thread.
  eapply wp_call; [apply wp_svc, thread_create_spec; [apply I|done]|]. intros t s1 (k & -> & Hk1 & Hv).
  pose proof (inv_svc _ _ _ I Hk1 Hv) as I1. destruct (Z.eqb_spec t 0) as [->|Ht]; [apply wp_ret; eauto 10|].
  eapply wp_bind, wp_upd_proc; [exact Hx|]. apply wp_ret. split_and!; [by eapply (inv_same _ (set_svc k s))|done..|].
  right. split; [done|]. by eexists.
Qed.

(** The new process is registered with its parent [cur] and in the table. *)
Definition registered (cur p : Z) (x : proc) (s : pst) : pst :=
  set_ptable (ptable s ++ [p]) (set_procs (<[cur := set_children (children x ++ [p]) x]> (procs s)) s).

Lemma register_ok cur p x s : inv [p] s -> cur ∈ ptable s -> procs s !! cur = Some x -> inv [] (registered cur p x s).
Proof.
  intros (T & R & Hk) Hc Hx. split_and!; [by apply tree_link| |done]. simpl. pose proof R as []. eapply res_ext; eauto.
  - by rewrite app_nil_r.
  - simpl. rewrite r_olive0. by erewrite dom_update.
  - simpl. intros q z Hq Hz. destruct (decide (q = cur)) as [->|]; [|rewrite lookup_insert_ne by done; eauto].
    rewrite lookup_insert_eq. simplify_eq. by eexists.
  - intros q Hq. destruct (t_live _ _ _ _ _ T q Hq) as (? & ? & _). eauto.
Qed.

(** The effect of a successful creation: [p] is new, has the next pid, is the
    last child of [cur] and the last entry of the table. *)
Definition born (cur p : Z) (y : proc) (s s' : pst) : Prop :=
  procs s !! p = None /\ ptable s' = ptable s ++ [p] /\ pid y = pid_allocator s /\
  exists x, procs s !! cur = Some x /\ procs s' = <[cur := set_children (children x ++ [p]) x]> (<[p := y]> (procs s)).

Definition spawned (cur : Z) (s : pst) (r : err_t * Z) (s' : pst) : Prop :=
  inv [] s' /\ asleep s' = asleep s /\
  (r.1 <> ERR_OK /\ ptable s' = ptable s /\ procs s' = procs s \/ r.1 = ERR_OK /\ exists y, born cur r.2 y s s' /\ files y = std_files).

(** [proc_spawn] up to the registration of the new process. *)
Lemma proc_spawn_start cur nm argv s (Q : err_t * Z -> pst -> Prop) : inv [] s -> pid_allocator s + 1 < 2 ^ 31 ->
  (forall e s', e <> ERR_OK -> inv [] s' -> asleep s' = asleep s -> ptable s' = ptable s -> procs s' = procs s -> Q (e, 0) s') ->
  (forall p t e sp y s', p <> 0 -> t <> 0 -> inv [p] s' -> procs s !! p = None -> procs s' = <[p := y]> (procs s) -> ptable s' = ptable s ->
     asleep s' = asleep s -> pid y = pid_allocator s -> files y = std_files ->
     wp ((if negb (cur =? 0) then upd_proc cur (fun x => set_children (children x ++ [p]) x) else ret tt) ;;
         modify (fun s => set_ptable (ptable s ++ [p]) s) ;; call (start_thread t e sp) ;; ret (ERR_OK, p)) Q s') ->
  wp (proc_spawn cur nm argv) Q s.
Proof.
  intros I Hn Qf Qs. unfold proc_spawn. eapply wp_call; [by apply proc_init_ok|].
  intros p s1 (Ept & Esl & [(-> & I1 & Ep)|(Hp0 & I1 & Hnew & x & Ep & Hpid & Hf)]); [by apply wp_ret, Qf|].
  rewrite (proj2 (Z.eqb_neq p 0)) by done. destruct (pend_facts p s1 I1) as (Hpt & Hsp & _).
  assert (Hx : procs s1 !! p = Some x) by (rewrite Ep; apply lookup_insert_eq).
  assert (Fail : forall e s2, e <> ERR_OK -> inv [p] s2 -> procs s2 = procs s1 -> ptable s2 = ptable s1 -> asleep s2 = asleep s1 ->
    wp (call (as_destroy p) ;; proc_free p ;; ret (e, 0)) Q s2).
  { intros e s2 He I2 E1 E2 E3. eapply wp_mono; [apply (discard_ok _ p x); [done|by rewrite E1|done]|].
    intros r s' (-> & I3 & D1 & D2 & D3). apply Qf; [done|done|congruence|congruence|]. rewrite D1, E1, Ep. by apply delete_insert_id. }
  eapply wp_call; [apply wp_svc, load_spec; [apply I1|done]|]. intros r s2 (k2 & -> & Hk2 & Hsub & Hv2).
  assert (I2 : inv [p] (set_svc k2 s1)) by (destruct I1 as (T1 & R1 & _); split_and!; [done|by eapply res_frefs|done]).
  destruct (Z.eqb_spec r.1 ERR_OK) as [Er|Er]; simpl; [|by apply Fail].
  eapply wp_call; [apply wp_svc, heap_spec; [done|apply (proj1 (proj2 (pend_facts p _ I2)))]|]. intros h s3 (k3 & -> & Hk3 & Hv3).
  pose proof (inv_svc _ _ _ I2 Hk3 Hv3) as I3. destruct h; simpl; [|by apply Fail].
  eapply wp_call; [apply wp_svc, stack_spec; [done|apply (proj1 (proj2 (pend_facts p _ I3)))]|]. intros sp s4 (k4 & -> & Hk4 & Hv4).
  pose proof (inv_svc _ _ _ I3 Hk4 Hv4) as I4. destruct (Z.eqb_spec sp.1 ERR_OK) as [Es|Es]; simpl; [|by apply Fail].
  eapply wp_bind, wp_get_proc; [exact Hx|]. eapply wp_call; [apply (attach_thread_ok _ p x); [exact I4|done]|].
  intros t s5 (I5 & Ept5 & Esl5 & _ & [(-> & Ep5)|(Ht & y & Ep5 & Hkin & Hheld)]); [by apply Fail|].
  rewrite (proj2 (Z.eqb_neq t 0)) by done. simpl in Ept5, Esl5, Ep5. rewrite Ep, insert_insert_eq in Ep5.
  injection Hkin as Hpid' _ _ _. injection Hheld as Hf' _. apply (Qs p t r.2 sp.2 y); done || congruence.
Qed.

Lemma proc_spawn_ok cur nm argv s : inv [] s -> cur ∈ ptable s -> pid_allocator s + 1 < 2 ^ 31 -> wp (proc_spawn cur nm argv) (spawned cur s) s.
Proof.
  intros I Hc Hn. apply proc_spawn_start; [done|done|intros e s' He I' E1 E2 E3; split_and!; [done|done|by left]|].
  intros p t e sp y s5 Hp0 Ht I5 Hnew Ep5 Ept5 Esl5 Hpid Hf.
  destruct (t_live _ _ _ _ _ (proj1 I) cur) as (z & Hz & _); [by rewrite app_nil_r|]. assert (Hcp : cur <> p) by congruence.
  assert (Hz5 : procs s5 !! cur = Some z) by (by rewrite Ep5, lookup_insert_ne by done).
  rewrite (proj2 (Z.eqb_neq cur 0)) by (intros ->; pose proof (t_null _ _ _ _ _ (proj1 I)); congruence). simpl.
  eapply wp_bind, wp_upd_proc; [exact Hz5|]. apply wp_bind, wp_modify.
  eapply wp_call; [apply wp_svc, start_spec; [apply I5|done]|]. intros [] s6 (k6 & -> & Hk6 & Hv6). apply wp_ret.
  split; [apply (inv_svc _ (registered cur p z s5)); [apply register_ok; [done|congruence|done]|done|done]|]. split; [done|]. right. split; [done|].
  exists y. split; [|done]. split_and!; [done|simpl; congruence|done|]. exists z. split; [done|]. simpl. by rewrite Ep5.
Qed.

(** The first process, which the kernel itself creates. *)
Lemma proc_spawn_first nm argv s : inv [] s -> pid_allocator s = 0 -> wp (proc_spawn 0 nm argv) (fun r s' => inv [] s' /\
  (r.1 = ERR_OK -> exists y, r.2 ∈ ptable s' /\ procs s' !! r.2 = Some y /\ pid y = 0)) s.
Proof.
  intros I H0. apply proc_spawn_start; [done|lia|intros e s' He I' E1 E2 E3; by split|].
  intros p t e sp y s5 Hp0 Ht I5 Hnew Ep5 Ept5 Esl5 Hpid Hf. assert (Hy : procs s5 !! p = Some y) by (rewrite Ep5; apply lookup_insert_eq).
  apply wp_bind, wp_ret, wp_bind, wp_modify. eapply wp_call; [apply wp_svc, start_spec; [apply I5|done]|]. intros [] s6 (k6 & -> & Hk6 & Hv6). apply wp_ret.
  destruct I5 as (T5 & R5 & Hk5). split.
  - split_and!; [apply (tree_root _ _ _ _ p y); [done|done|congruence]| |done]. simpl. simpl in Hv6. rewrite Hv6. destruct R5. split; simpl; rewrite ?app_nil_r; done.
  - intros _. exists y. split_and!; [simpl; set_solver|done|congruence].
Qed.

(** One descriptor of the parent is copied. *)
Lemma copy_one_ok cur c i f x y g s : inv [c] s -> cur ∈ ptable s -> procs s !! cur = Some x -> f ∈ files x -> f <> 0 ->
  procs s !! c = Some y -> files y !! i = Some g -> ~ owned g -> Z.of_nat (length (ptable s)) < 2 ^ 23 ->
  wp (call (kpipe_ref_increase f (Z.of_nat i)) ;; upd_proc c (fun x => set_files (<[i := f]> (files x)) x) ;; call (fs_reopen_file f))
    (fun _ s' => inv [c] s' /\ ptable s' = ptable s /\ asleep s' = asleep s /\ pid_allocator s' = pid_allocator s /\
       procs s' = <[c := set_files (<[i := f]> (files y)) y]> (procs s)) s.
Proof.
  intros (T & R & Hk) Hc Hx Hf H0 Hy Hg Hno Hn. pose proof (t_nodup _ _ _ _ _ T) as Hnd.
  assert (Hcur : cur ∈ ptable s ++ [c]) by set_solver. assert (Hcc : c ∈ ptable s ++ [c]) by set_solver.
  assert (Hg0 : forall h, owned h -> (g =? h) = false) by (intros h Hh; apply Z.eqb_neq; by intros ->).
  set (m' := <[c := _]> (procs s)).
  assert (Fin : forall k n, kok k -> view k = with_frefs n (view (svc s)) ->
    (forall h, owned h -> let t := tot (slots h) (procs s) (ptable s ++ [c]) + (if f =? h then 1 else 0) in 0 < t -> n !! h = Some t) ->
    inv [c] (set_svc k (set_procs m' s))).
  { intros k n Hk' Hv Hn'. split_and!; [by eapply tree_same| |done]. simpl. rewrite Hv. eapply res_slot; eauto.
    intros h Hh t Ht. unfold t in *. rewrite Hg0, Z.sub_0_r in * by done. by apply Hn'. }
  destruct (decide (owned f)) as [Ho|Ho].
  - destruct (res_ref _ _ _ _ _ cur x f R Hcur Hx Hf Ho) as (Ht & Hr). rewrite length_app in Ht. simpl in Ht.
    eapply wp_call; [apply wp_svc, pipe_inc_spec; [done|right; right; by eexists]|]. intros [] s1 (k & -> & Hk1 & Hv).
    eapply wp_bind, wp_upd_proc; [exact Hy|]. eapply wp_mono; [apply wp_svc, (reopen_spec _ _ (tot (slots f) (procs s) (ptable s ++ [c]))); simpl; [done|by rewrite Hv|lia]|].
    intros [] s2 (k2 & -> & Hk2 & Hv2). split; [|done]. simpl in Hv2. rewrite Hv in Hv2. eapply (Fin k2); [done|done|].
    intros h Hh t. subst t. destruct (Z.eqb_spec f h) as [->|]; [by rewrite lookup_insert_eq|]. rewrite lookup_insert_ne, Z.add_0_r by done.
    intros Ht'. by apply (r_files _ _ _ _ _ R).
  - assert (Hstd : f = stdin \/ f = stdout) by (unfold owned in Ho; destruct (decide (f = stdin)), (decide (f = stdout)); tauto).
    eapply wp_call; [apply wp_svc, pipe_inc_spec; [done|tauto]|]. intros [] s1 (k & -> & Hk1 & Hv).
    eapply wp_bind, wp_upd_proc; [exact Hy|]. eapply wp_mono; [apply wp_svc, reopen_std; [done|done]|].
    intros [] s2 (k2 & -> & Hk2 & Hv2). split; [|done]. simpl in Hv2. eapply (Fin k2 (frefs (view (svc s)))); [done|by rewrite Hv2, Hv; destruct (view (svc s))|].
    intros h Hh t. subst t. rewrite (proj2 (Z.eqb_neq f h)), Z.add_0_r by (by intros ->). apply (r_files _ _ _ _ _ R). done.
Qed.

Definition closed_from (i : nat) (l : list Z) : Prop := forall j g, (i <= j)%nat -> l !! j = Some g -> ~ owned g.

Lemma copy_files_ok cur c x l pre y s : inv [c] s -> cur ∈ ptable s -> procs s !! cur = Some x -> files x = pre ++ l -> length (files x) = 128%nat ->
  procs s !! c = Some y -> closed_from (length pre) (files y) -> Z.of_nat (length (ptable s)) < 2 ^ 23 ->
  wp (copy_files l (Z.of_nat (length pre)) c) (fun _ s' => inv [c] s' /\ ptable s' = ptable s /\ asleep s' = asleep s /\ pid_allocator s' = pid_allocator s /\
    exists y', procs s' = <[c := y']> (procs s) /\ kin y' = kin y /\ (forall j, (j < length pre)%nat -> files y' !! j = files y !! j) /\
      forall j f, (length pre <= j)%nat -> files x !! j = Some f -> files y' !! j = if f =? 0 then files y !! j else Some f) s.
Proof.
  revert pre y s. induction l as [|f l IH]; intros pre y s I Hc Hx Hfx Hlen Hy Hcl Hn.
  - apply wp_ret. split_and!; [done..|]. exists y. rewrite insert_id by done. split_and!; [done..|].
    intros j f Hj Hf. apply lookup_lt_Some in Hf. rewrite Hfx, app_nil_r in Hf. lia.
  - cbn [copy_files]. assert (Hcc : cur <> c) by (intros ->; by apply (pend_facts c s I)).
    assert (Hfx' : files x = (pre ++ [f]) ++ l) by (by rewrite <- app_assoc).
    assert (El : Z.of_nat (length pre) + 1 = Z.of_nat (length (pre ++ [f]))) by (rewrite length_app; simpl; lia).
    assert (Hly : length (files y) = 128%nat) by (eapply (r_len _ _ _ _ _ (proj1 (proj2 I)) c); [set_solver|done]).
    assert (Hf : files x !! length pre = Some f) by (rewrite Hfx; by apply list_lookup_middle).
    destruct (Z.eqb_spec f 0) as [->|Hf0]; simpl.
    + apply wp_bind, wp_ret. rewrite El. eapply wp_mono; [eapply IH; eauto|].
      { intros j g Hj. rewrite length_app in Hj. simpl in Hj. apply Hcl. lia. }
      intros [] s' (I' & E1 & E2 & E3 & y' & Ey & Hk & H1 & H2). split_and!; [done..|]. exists y'. split_and!; [done..| |].
      * intros j Hj. apply H1. rewrite length_app. simpl. lia.
      * intros j g Hj Hg. destruct (decide (j = length pre)) as [->|]; [|apply H2; [rewrite length_app; simpl; lia|done]].
        rewrite H1 by (rewrite length_app; simpl; lia). by simplify_eq.
    + destruct (lookup_lt_is_Some_2 (files y) (length pre)) as [g Hg]; [apply lookup_lt_Some in Hf; lia|].
      eapply wp_call.
      { rewrite Nat2Z.id. apply (copy_one_ok cur c (length pre) f x y g); try done; [by eapply list_elem_of_lookup_2|by eapply Hcl]. }
      intros [] s1 (I1 & E1 & E2 & E3 & Ep). cbv beta in Ep. rewrite El. eapply wp_mono.
      { eapply (IH (pre ++ [f]) (set_files (<[length pre := f]> (files y)) y)); eauto; [congruence| | | |congruence].
        - rewrite Ep, lookup_insert_ne by done. done.
        - rewrite Ep. apply lookup_insert_eq.
        - intros j h Hj. rewrite length_app in Hj. simpl in *. rewrite list_lookup_insert_ne by lia. apply Hcl. lia. }
      intros [] s' (I' & E1' & E2' & E3' & y' & Ey & Hk & H1 & H2). split_and!; [done|congruence..|]. exists y'.
      rewrite Ep, insert_insert_eq in Ey. split_and!; [done|done| |].
      * intros j Hj. rewrite H1 by (rewrite length_app; simpl; lia). simpl. by rewrite list_lookup_insert_ne by lia.
      * intros j h Hj Hh. destruct (decide (j = length pre)) as [->|].
        -- rewrite H1 by (rewrite length_app; simpl; lia). simplify_eq. simpl. rewrite (proj2 (Z.eqb_neq f 0)) by done.
           apply list_lookup_insert_eq. by apply lookup_lt_Some in Hg.
        -- rewrite (H2 j h) by (done || (rewrite length_app; simpl; lia)). simpl. by rewrite list_lookup_insert_ne by lia.
Qed.

(** The child of a fork has the open descriptors of its parent; where the parent
    has none, it keeps those of a new process. *)
Definition inherits (l l' : list Z) : Prop := forall j f, l !! j = Some f -> l' !! j = if f =? 0 then std_files !! j else Some f.

Definition forked (cur : Z) (s : pst) (c : Z) (s' : pst) : Prop :=
  inv [] s' /\ asleep s' = asleep s /\
  (c = 0 /\ ptable s' = ptable s /\ procs s' = procs s \/
   c <> 0 /\ exists x y, procs s !! cur = Some x /\ born cur c y s s' /\ inherits (files x) (files y)).

Lemma std_closed : closed_from 0 std_files.
Proof.
  intros j g _ Hg (H0 & H1 & H2). destruct j as [|[|j]]; [injection Hg as <-; done|injection Hg as <-; done|].
  change (replicate 126 0 !! j = Some g) in Hg. apply lookup_replicate in Hg as [? _]. done.
Qed.

Lemma proc_fork_ok cur th nm s : inv [] s -> cur ∈ ptable s -> pid_allocator s + 1 < 2 ^ 31 -> Z.of_nat (length (ptable s)) < 2 ^ 23 ->
  wp (proc_fork cur th nm) (forked cur s) s.
Proof.
  intros I Hc Hn Hlen. destruct (t_live _ _ _ _ _ (proj1 I) cur) as (x & Hx & _); [by rewrite app_nil_r|].
  assert (Hlx : length (files x) = 128%nat) by (eapply (r_len _ _ _ _ _ (proj1 (proj2 I)) cur); [by rewrite app_nil_r|done]).
  unfold proc_fork. eapply wp_bind, wp_get_proc; [exact Hx|]. eapply wp_call; [by apply proc_init_ok|].
  intros c s1 (Ept & Esl & [(-> & I1 & Ep)|(Hc0 & I1 & Hnew & y & Ep & Hpid & Hf)]).
  { apply wp_ret. split_and!; [done..|]. left. done. }
  rewrite (proj2 (Z.eqb_neq c 0)) by done. destruct (pend_facts c s1 I1) as (Hpt & Hsp & _).
  assert (Hcc : cur <> c) by congruence. assert (Hy : procs s1 !! c = Some y) by (rewrite Ep; apply lookup_insert_eq).
  assert (Fail : forall s2, inv [c] s2 -> procs s2 = procs s1 -> ptable s2 = ptable s1 -> asleep s2 = asleep s1 ->
    wp (call (as_destroy c) ;; proc_free c ;; ret 0) (forked cur s) s2).
  { intros s2 I2 E1 E2 E3. eapply wp_mono; [apply (discard_ok _ c y); [done|by rewrite E1|done]|].
    intros r s' (-> & I3 & D1 & D2 & D3). split_and!; [done|congruence|]. left. split_and!; [done|congruence|].
    rewrite D1, E1, Ep. by apply delete_insert_id. }
  eapply wp_call; [apply wp_svc, as_copy_spec; [apply I1|rewrite (r_spaces _ _ _ _ _ (proj1 (proj2 I1))), Ept; set_solver|done]|].
  intros e s2 (k2 & -> & Hk2 & Hv2). pose proof (inv_svc _ _ _ I1 Hk2 Hv2) as I2. destruct (Z.eqb_spec e ERR_OK) as [->|He]; simpl; [|by apply Fail].
  eapply wp_call; [apply (attach_thread_ok _ c y); [exact I2|done]|].
  intros t s3 (I3 & Ept3 & Esl3 & Epa3 & [(-> & Ep3)|(Ht & y3 & Ep3 & Hkin & Hheld)]); [by apply Fail|].
  rewrite (proj2 (Z.eqb_neq t 0)) by done. simpl in Ept3, Esl3, Ep3. injection Hheld as Hf3 _. rewrite Hf in Hf3.
  assert (Hy3 : procs s3 !! c = Some y3) by (rewrite Ep3; apply lookup_insert_eq).
  eapply wp_bind, wp_get_proc; [exact Hy3|]. rewrite Hf3. simpl.
  eapply wp_call; [apply wp_svc, close_std; [apply I3|by left]|]. intros [] s4 (k4 & -> & Hk4 & Hv4). pose proof (inv_svc _ _ _ I3 Hk4 Hv4) as I4.
  eapply wp_call; [apply wp_svc, close_std; [apply I4|by right]|]. intros [] s5 (k5 & -> & Hk5 & Hv5). pose proof (inv_svc _ _ _ I4 Hk5 Hv5) as I5.
  assert (Hx5 : procs s3 !! cur = Some x) by (by rewrite Ep3, Ep, !lookup_insert_ne by done).
  eapply wp_call; [apply (copy_files_ok cur c x (files x) [] y3 _ I5); simpl; try done; [congruence|rewrite Hf3; apply std_closed|congruence]|].
  intros [] s6 (I6 & Ept6 & Esl6 & _ & y6 & Ep6 & Hkin6 & _ & Hinh). simpl in Ept6, Esl6, Ep6, Hinh.
  assert (Hx6 : procs s6 !! cur = Some x) by (by rewrite Ep6, lookup_insert_ne by done).
  assert (Hy6 : procs s6 !! c = Some y6) by (rewrite Ep6; apply lookup_insert_eq).
  eapply wp_bind, wp_upd_proc; [exact Hx6|]. eapply wp_bind, wp_get_proc; [simpl; rewrite lookup_insert_ne by done; exact Hy6|].
  eapply wp_call; [apply wp_svc, fork_frame_spec; [apply I6|done]|]. intros [] s7 (k7 & -> & Hk7 & Hv7).
  apply wp_bind, wp_modify.
  eapply wp_call; [apply wp_svc, start_spec; done|]. intros [] s8 (k8 & -> & Hk8 & Hv8). apply wp_ret. simpl in Hv7, Hv8.
  split; [apply (inv_svc _ (registered cur c x s6)); [apply register_ok; [done|congruence|done]|done|simpl; congruence]|].
  split; [simpl; congruence|]. right. split; [done|]. exists x, y6. unfold kin in *. split_and!; [done| |].
  - split_and!; [done|simpl; congruence|congruence|]. exists x. split; [done|]. simpl. by rewrite Ep6, Ep3, Ep, !insert_insert_eq.
  - intros j f Hj. rewrite (Hinh j f) by (done || lia). by rewrite Hf3.
Qed.

(** ** Waiting *)

(** The child that [proc_wait(n)] is about. *)
Definition matches (m : gmap Z proc) (n : Z) (l : list Z) (c : Z) : Prop :=
  c ∈ l /\ exists y, m !! c = Some y /\ (pid y = n \/ n = ANY_CHILD /\ last l = Some c).

Lemma find_child_ok n l (s : pst) : NoDup l -> (forall c, c ∈ l -> c <> 0 /\ is_Some (procs s !! c)) ->
  wp (find_child n l) (fun c s' => s' = s /\ if c =? 0 then forall d, ~ matches (procs s) n l d else matches (procs s) n l c) s.
Proof.
  intros Hnd. induction Hnd as [|c l Hcl Hnd IH]; intros Hl.
  - apply wp_ret. split; [done|]. intros d [Hd _]. by apply elem_of_nil in Hd.
  - destruct (Hl c) as (Hc0 & y & Hy); [left|]. eapply wp_bind, wp_get_proc; [exact Hy|].
    destruct (Z.eqb_spec (pid y) n) as [E|E]; simpl.
    { apply wp_ret. split; [done|]. rewrite (proj2 (Z.eqb_neq c 0)) by done. split; [left|eauto]. }
    destruct (_ && _) eqn:Ea.
    { apply andb_true_iff in Ea as [Ea%Z.eqb_eq Eb]. apply wp_ret. split; [done|]. rewrite (proj2 (Z.eqb_neq c 0)) by done.
      split; [left|]. exists y. split; [done|]. right. by destruct l. }
    eapply wp_mono; [apply IH; intros d Hd; apply Hl; by right|]. intros d s' (-> & Hd). split; [done|].
    destruct l as [|c' l].
    { destruct (d =? 0); [|by destruct Hd as [?%elem_of_nil _]]. intros d' [Hd'%list_elem_of_singleton (z & Hz & [Hm|[-> _]])]; [congruence|done]. }
    destruct (d =? 0).
    + intros d' [[->|Hin]%elem_of_cons (z & Hz & Hm)]; [|by apply (Hd d'); split; [|exists z]].
      destruct Hm as [|[_ Hlast]]; [congruence|]. apply Hcl, last_Some_elem_of. by rewrite last_cons_cons in Hlast.
    + destruct Hd as [Hin (z & Hz & Hm)]. split; [by right|]. exists z. by rewrite last_cons_cons.
Qed.

(** What a wait does: it reports the exit status of the child and takes the
    child away, or sleeps at a child that is alive, or there is no such child. *)
Definition reaped (cur c : Z) (s : pst) (r : wresult) (s' : pst) : Prop :=
  exists x y, procs s !! cur = Some x /\ procs s !! c = Some y /\ ~ alive y /\ r = WDone (pid y) (exit_status y) /\
    procs s' = delete c (<[cur := set_children (filter (fun d => d <> c) (children x)) x]> (procs s)) /\
    ptable s' = ptable s /\ asleep s' = delete cur (asleep s) /\ svc s' = svc s.
Definition slept (cur c : Z) (s : pst) (r : wresult) (s' : pst) : Prop :=
  exists y, procs s !! c = Some y /\ alive y /\ r = WSleep /\ asleep s' = <[cur := mkSleeper c false]> (asleep s) /\ ptable s' = ptable s /\
    procs s' = <[c := set_wait_cv (wait_cv y ++ [cur]) y]> (procs s) /\ svc s' = svc s.

Lemma wait_child_ok cur c x s : inv [] s -> asleep s !! cur = None -> procs s !! cur = Some x -> c ∈ children x ->
  wp (wait_child cur c) (fun r s' => inv [] s' /\ (reaped cur c s r s' \/ slept cur c s r s')) s.
Proof.
  intros (T & R & Hk) Hs Hx Hc. destruct (t_kids _ _ _ _ _ T cur x c Hx Hc) as (Hcur & _ & y & Hy).
  assert (S : forall q, q ∈ ptable s ++ [] -> is_Some (procs s !! q)) by (intros q Hq; destruct (t_live _ _ _ _ _ T q Hq) as (? & ? & _); eauto).
  unfold wait_child. eapply wp_bind, wp_get_proc; [exact Hy|]. destruct (Z.eqb_spec (exit_status y) STATUS_ALIVE) as [Ha|Ha].
  - split; [|right; by exists y]. split_and!; [eapply tree_sleep; eauto| |done]. simpl. pose proof R as []. eapply res_ext; try done.
    + rewrite r_olive0. by erewrite dom_update.
    + intros q z Hq Hz. destruct (decide (q = c)) as [->|]; [|rewrite lookup_insert_ne by done; eauto].
      rewrite lookup_insert_eq. assert (z = y) as -> by congruence. by eexists.
  - eapply wp_bind, wp_upd_proc; [exact Hx|]. apply wp_bind, wp_proc_free, wp_ret. simpl.
    split; [|left; exists x, y; split_and!; [done..|symmetry; by apply delete_id|done]]. split_and!; [eapply tree_reap; eauto| |done]. simpl.
    pose proof R as []. destruct (ofree_live (proc_allocator s) c) as [Ho Hl]; [done|rewrite r_olive0; by apply elem_of_dom|].
    eapply res_ext; try done.
    + rewrite Hl, r_olive0, dom_delete_L. by erewrite dom_update.
    + intros q z Hq Hz. destruct (t_live _ _ _ _ _ T q Hq) as (z' & Hz' & Hal). rewrite lookup_delete_ne by (intros <-; congruence).
      destruct (decide (q = cur)) as [->|]; [|rewrite lookup_insert_ne by done; eauto].
      rewrite lookup_insert_eq. assert (z = x) as -> by congruence. by eexists.
Qed.

Lemma proc_wait_ok cur n x s : inv [] s -> asleep s !! cur = None -> procs s !! cur = Some x ->
  wp (proc_wait cur n) (fun r s' => inv [] s' /\
    ((forall c, ~ matches (procs s) n (children x) c) /\ r = WDone ERR_CHILD 0 /\ s' = s \/
     exists c, matches (procs s) n (children x) c /\ (reaped cur c s r s' \/ slept cur c s r s'))) s.
Proof.
  intros I Hs Hx. pose proof I as (T & _). unfold proc_wait. eapply wp_bind, wp_get_proc; [exact Hx|]. eapply wp_call; [apply find_child_ok|].
  - by eapply t_knd.
  - intros c Hc. destruct (t_kids _ _ _ _ _ T cur x c Hx Hc) as (_ & _ & H). split; [|done]. intros ->. rewrite (t_null _ _ _ _ _ T) in H. by destruct H.
  - intros c s' (-> & Hc). destruct (c =? 0); [apply wp_ret; eauto|]. eapply wp_mono; [eapply wait_child_ok; eauto; apply Hc|]. cbv beta. intros r s' (? & ?). eauto.
Qed.

(** A parent that has been woken up gets the exit status at once. *)
Lemma wait_resume_ok cur z s : inv [] s -> asleep s !! cur = Some z -> s_woken z = true ->
  wp (wait_resume cur) (fun r s' => inv [] s' /\ reaped cur (s_child z) s r s') s.
Proof.
  intros (T & R & Hk) Hz Hw. destruct (t_sleep _ _ _ _ _ T cur z Hz) as (Hcur & x & y & Hx & Hc & Hy & Ha). rewrite Hw in Ha.
  unfold wait_resume. apply wp_bind, wp_gets.
  apply wp_bind, (wp_of_option _ _ z); [done|]. rewrite Hw. apply wp_bind, wp_modify. eapply wp_mono.
  - apply (wait_child_ok cur (s_child z) x (set_asleep (delete cur (asleep s)) s)); [|simpl; apply lookup_delete_eq|done|done].
    split_and!; [eapply tree_wake; eauto|done|done].
  - intros r s' (I' & [(x' & y' & E1 & E2 & E3 & E4 & E5 & E6 & E7 & E8)|(y' & E1 & E2 & _)]); [|simpl in E1; congruence].
    split; [done|]. exists x', y'. simpl in *. rewrite delete_delete_eq in E7. done.
Qed.

(** ** Exiting *)

(** Closing the descriptors of [l], where [N] counts the other descriptors. *)
Lemma close_files_ok (N : Z -> Z) l i (s : pst) : kok (svc s) -> (forall f, 0 <= N f) -> (forall f, N f + occ f l < 2 ^ 31) ->
  (forall f, owned f -> 0 < N f + occ f l -> frefs (view (svc s)) !! f = Some (N f + occ f l)) ->
  wp (close_files l i) (fun _ s' => exists k n, s' = set_svc k s /\ kok k /\ view k = with_frefs n (view (svc s)) /\
    forall f, owned f -> 0 < N f -> n !! f = Some (N f)) s.
Proof.
  revert i s. induction l as [|f l IH]; intros i s Hk HN Hb Hf; cbn [close_files occ] in *.
  - apply wp_ret. exists (svc s), (frefs (view (svc s))). split_and!; [by destruct s|done|by destruct (view (svc s))|].
    intros f Ho H0. rewrite <- (Z.add_0_r (N f)). apply Hf; [done|lia].
  - assert (Step : forall n k, kok k -> view k = with_frefs n (view (svc s)) ->
      (forall g, owned g -> 0 < N g + occ g l -> n !! g = Some (N g + occ g l)) ->
      wp (close_files l (i + 1)) (fun _ s' => exists k n, s' = set_svc k s /\ kok k /\ view k = with_frefs n (view (svc s)) /\
        forall f, owned f -> 0 < N f -> n !! f = Some (N f)) (set_svc k s)).
    { intros n k Hk1 Hv Hn. eapply wp_mono; [apply IH; [done|done| |]|].
      - intros g. specialize (Hb g). destruct (_ =? _); lia.
      - simpl. rewrite Hv. done.
      - intros [] s' (k' & n' & -> & ? & Hv' & ?). exists k', n'. simpl in Hv'. by rewrite Hv', Hv. }
    assert (Id : set_svc (svc s) s = s) by (by destruct s).
    destruct (Z.eqb_spec f 0) as [->|H0]; simpl.
    { apply wp_bind, wp_ret. rewrite <- Id. apply (Step (frefs (view (svc s)))); [done|by destruct (view (svc s))|].
      intros g Hg Hp. specialize (Hf g Hg). rewrite (proj2 (Z.eqb_neq 0 g)) in Hf by (destruct Hg; congruence). auto. }
    destruct (decide (owned f)) as [Ho|Ho].
    + pose proof (Hf f Ho) as Hff. rewrite Z.eqb_refl in Hff. pose proof (occ_bound f l) as Hob. specialize (HN f) as HNf. specialize (Hb f) as Hbf.
      rewrite Z.eqb_refl in Hbf. specialize (Hff ltac:(lia)).
      apply wp_bind. eapply wp_call; [apply wp_svc, pipe_dec_spec; [done|right; right; by eexists]|]. intros [] s1 (k & -> & Hk1 & Hv).
      eapply wp_mono; [apply wp_svc, (close_spec _ _ (N f + (1 + occ f l))); simpl; [done|by rewrite Hv|lia]|].
      intros [] s2 (k2 & -> & Hk2 & Hv2). simpl in Hv2. rewrite Hv in Hv2. eapply (Step _ k2 Hk2 Hv2). intros g Hg Hp. specialize (Hf g Hg).
      destruct (decide (g = f)) as [->|Hfg].
      * rewrite (proj2 (Z.eqb_neq _ 1)) by lia. rewrite lookup_insert_eq. f_equal. lia.
      * rewrite (proj2 (Z.eqb_neq f g)) in Hf by congruence. assert (frefs (view (svc s)) !! g = Some (N g + occ g l)) by (apply Hf; lia).
        destruct (_ =? 1); [by rewrite lookup_delete_ne|by rewrite lookup_insert_ne].
    + assert (Hstd : f = stdin \/ f = stdout) by (unfold owned in Ho; destruct (decide (f = stdin)), (decide (f = stdout)); tauto).
      apply wp_bind. eapply wp_call; [apply wp_svc, pipe_dec_spec; [done|tauto]|]. intros [] s1 (k & -> & Hk1 & Hv).
      eapply wp_mono; [apply wp_svc, close_std; done|]. intros [] s2 (k2 & -> & Hk2 & Hv2). simpl in Hv2. rewrite Hv in Hv2.
      apply (Step (frefs (view (svc s))) k2 Hk2); [by rewrite Hv2; destruct (view (svc s))|].
      intros g Hg Hp. specialize (Hf g Hg). rewrite (proj2 (Z.eqb_neq f g)) in Hf by (by intros ->). auto.
Qed.

(** The table while the children of [p] are given away: [d] are done, [l] are
    left. *)
Definition moving (m : gmap Z proc) (p i : Z) (x y : proc) (d l : list Z) (m' : gmap Z proc) : Prop :=
  m' !! p = Some (set_children l x) /\ m' !! i = Some (set_children (children y ++ filter (fun c => live_in m c = true) d) y) /\
  forall q, q <> p -> q <> i -> m' !! q = if bool_decide (q ∈ d) && negb (live_in m q) then None else m !! q.

Lemma moving_status m p i x y d c l m' z : moving m p i x y d (c :: l) m' -> c ∉ d -> m !! p = Some x -> m !! i = Some y -> m !! c = Some z ->
  exists z', m' !! c = Some z' /\ exit_status z' = exit_status z.
Proof.
  intros (Mp & Mi & Mo) Hd Hx Hy Hz. destruct (decide (c = p)) as [->|]; [eexists; split; [done|]; simpl; congruence|].
  destruct (decide (c = i)) as [->|]; [eexists; split; [done|]; simpl; congruence|].
  rewrite Mo by done. rewrite bool_decide_eq_false_2 by done. simpl. eauto.
Qed.

Lemma give_away_ok m p i x y l d (s : pst) : p <> i -> m !! p = Some x -> m !! i = Some y -> alive x -> alive y -> NoDup (d ++ l) ->
  (forall c, c ∈ l -> is_Some (m !! c)) -> moving m p i x y d l (procs s) -> ook (proc_allocator s) -> olive (proc_allocator s) = dom (procs s) ->
  wp (give_away l p i) (fun _ s' => exists m' a', s' = mkPst m' (ptable s) (pid_allocator s) a' (asleep s) (svc s) /\
    moving m p i x y (d ++ l) [] m' /\ ook a' /\ olive a' = dom m') s.
Proof.
  intros Hne Hx Hy Hax Hay. revert d s. induction l as [|c l IH]; intros d s Hnd Hl Hm Ho Hd.
  - rewrite app_nil_r. apply wp_ret. exists (procs s), (proc_allocator s). by destruct s.
  - cbn [give_away]. pose proof Hnd as (_ & Hdis & [Hcl Hndl]%NoDup_cons)%NoDup_app.
    assert (Hcd : c ∉ d) by (intros H; apply (Hdis c H); left). destruct (Hl c) as [z Hz]; [left|].
    assert (Efil : filter (fun e => e <> c) (c :: l) = l).
    { rewrite filter_cons, decide_False by (intros H; by apply H). clear -Hcl. induction l as [|e l IH]; [done|].
      rewrite filter_cons, decide_True by set_solver. f_equal. apply IH. set_solver. }
    pose proof Hm as (Mp & Mi & Mo). eapply wp_bind, wp_upd_proc; [exact Mp|]. cbn [children set_children]. rewrite Efil.
    set (xl := set_children l _). set (s1 := set_procs (<[p := xl]> (procs s)) s).
    assert (Hm1 : forall q, q <> p -> procs s1 !! q = procs s !! q) by (intros q Hq; by apply lookup_insert_ne).
    assert (Hd1 : olive (proc_allocator s1) = dom (procs s1)) by (simpl; rewrite Hd; by erewrite dom_update).
    assert (exists z', procs s1 !! c = Some z' /\ exit_status z' = exit_status z) as (z' & Hz' & Ee).
    { destruct (moving_status _ _ _ _ _ _ _ _ _ _ Hm Hcd Hx Hy Hz) as (z' & Hz' & Ee). destruct (decide (c = p)) as [->|].
      - exists xl. split; [apply lookup_insert_eq|]. simpl. congruence.
      - exists z'. by rewrite Hm1. }
    replace (d ++ c :: l) with ((d ++ [c]) ++ l) in * by (by rewrite <- app_assoc).
    eapply wp_bind, wp_get_proc; [exact Hz'|]. rewrite Ee. destruct (Z.eqb_spec (exit_status z) STATUS_ALIVE) as [Ha|Ha].
    + assert (El : live_in m c = true) by (by apply (live_in_spec m c z)).
      eapply wp_bind, wp_upd_proc; [rewrite Hm1 by done; exact Mi|].
      apply (IH (d ++ [c]) (set_procs _ s1)); [done|intros; apply Hl; by right| |done|simpl; rewrite Hd; erewrite (dom_update _ i); [by erewrite dom_update|by rewrite lookup_insert_ne]].
      split_and!; simpl.
      * rewrite lookup_insert_ne, lookup_insert_eq by done. done.
      * rewrite lookup_insert_eq, filter_app, filter_cons, decide_True by done. simpl. by rewrite app_assoc.
      * intros q Hqp Hqi. rewrite !lookup_insert_ne, Mo by done. destruct (decide (q = c)) as [->|Hqc].
        -- rewrite El, !andb_false_r. done.
        -- assert (E : bool_decide (q ∈ d ++ [c]) = bool_decide (q ∈ d)) by (apply bool_decide_ext; set_solver). by rewrite E.
    + assert (El : live_in m c = false) by (unfold live_in; rewrite Hz; by apply Z.eqb_neq).
      assert (Hcp : c <> p) by (intros ->; unfold alive in *; congruence). assert (Hci : c <> i) by (intros ->; unfold alive in *; congruence).
      apply wp_bind, wp_proc_free. destruct (ofree_live (proc_allocator s1) c) as [Ho2 Hl2]; [done|rewrite Hd1; by apply elem_of_dom_2 in Hz'|].
      eapply wp_mono; [apply (IH (d ++ [c])); [done|intros; apply Hl; by right| |done|simpl; simpl in Hl2; rewrite Hl2, Hd, dom_delete_L; by erewrite dom_update]|done].
      split_and!; simpl.
      * rewrite lookup_delete_ne, lookup_insert_eq by done. done.
      * rewrite lookup_delete_ne, lookup_insert_ne, filter_app, filter_cons, decide_False, app_nil_r by (done || by rewrite El). done.
      * intros q Hqp Hqi. destruct (decide (q = c)) as [->|Hqc].
        -- rewrite lookup_delete_eq, bool_decide_eq_true_2, El by set_solver. done.
        -- assert (E : bool_decide (q ∈ d ++ [c]) = bool_decide (q ∈ d)) by (apply bool_decide_ext; set_solver).
           by rewrite E, lookup_delete_ne, lookup_insert_ne, Mo by done.
Qed.

Lemma find_pid_ok n i y l (s : pst) : n <> ANY_CHILD -> i ∈ l -> procs s !! i = Some y -> pid y = n ->
  (forall q, q ∈ l -> exists x, procs s !! q = Some x /\ (pid x = n -> q = i)) -> wp (find_pid n l) (fun c s' => c = i /\ s' = s) s.
Proof.
  intros Hn Hi Hy Hpid. induction l as [|q l IH]; intros Hl; [by apply elem_of_nil in Hi|]. cbn [find_pid].
  destruct (Hl q) as (x & Hx & Hq); [left|]. eapply wp_bind, wp_get_proc; [exact Hx|].
  rewrite (proj2 (Z.eqb_neq n ANY_CHILD)) by done. simpl. destruct (Z.eqb_spec (pid x) n) as [E|E]; [apply wp_ret; split; [by apply Hq|done]|].
  apply IH; [|intros; apply Hl; by right]. apply elem_of_cons in Hi as [->|]; [congruence|done].
Qed.

(** The processes other than [p] keep their descriptors and directories. *)
Lemma after_exit_held m p i status x y m' q z : after_exit m p i status x y m' -> q <> p -> m !! i = Some y -> m !! q = Some z -> alive z ->
  exists z', m' !! q = Some z' /\ held z' = held z.
Proof.
  intros (_ & Ei & Eo) Hq Hy Hz Ha. destruct (decide (q = i)) as [->|]; [eexists; split; [done|]; unfold held; simpl; congruence|].
  rewrite Eo by done. rewrite (proj2 (live_in_spec m q z Hz) Ha), andb_false_r. eauto.
Qed.

Lemma exit_res m pt n sl a a' v p i status x y m' nf : tree [] m pt n sl -> res [] m pt a v -> p ∈ pt -> m !! p = Some x -> m !! i = Some y ->
  after_exit m p i status x y m' -> ook a' -> olive a' = dom m' ->
  (forall f, owned f -> 0 < tot (slots f) m (filter (fun q => q <> p) pt) -> nf !! f = Some (tot (slots f) m (filter (fun q => q <> p) pt))) ->
  res [] m' (filter (fun q => q <> p) pt) a'
    (with_frefs nf (with_iref (cwd x) (iref (cwd x) v - 1) (with_spaces (spaces v ∖ {[p]}) v))).
Proof.
  intros T [] Hp Hx Hy E Ho Hd Hn. rewrite app_nil_r in *.
  assert (O : forall q, q ∈ filter (fun q => q <> p) pt -> exists z z', m !! q = Some z /\ m' !! q = Some z' /\ held z' = held z).
  { intros q [Hqp Hq]%list_elem_of_filter. destruct (t_live _ _ _ _ _ T q) as (z & Hz & Ha); [by rewrite app_nil_r|].
    destruct (after_exit_held _ _ _ _ _ _ _ q z E Hqp Hy Hz Ha) as (z' & ? & ?). eauto. }
  assert (Eg : forall g, (forall x y, held x = held y -> g x = g y) -> tot g m' (filter (fun q => q <> p) pt) = tot g m (filter (fun q => q <> p) pt)).
  { intros g Hg. apply tot_ext. intros q Hq. destruct (O q Hq) as (z & z' & Hz & Hz' & Eh). unfold of_proc. rewrite Hz, Hz'. by apply Hg. }
  split; rewrite ?app_nil_r; try done.
  - simpl. rewrite r_spaces0. apply set_eq. intros q. rewrite elem_of_difference, !elem_of_list_to_set, list_elem_of_filter. set_solver.
  - intros q z' Hq Hz'. destruct (O q Hq) as (z & z1 & Hz & Hz1 & [E1 _]%pair_eq). apply list_elem_of_filter in Hq as [_ Hq].
    assert (z1 = z') as <- by congruence. rewrite E1. eauto.
  - intros f Hf. rewrite Eg by (intros; by apply (held_of f 0)). simpl. auto.
  - intros j. rewrite Eg by (intros; by apply (held_of 0 j)). rewrite (tot_remove _ _ _ _ x) by (done || apply (NoDup_app pt []), (t_nodup _ _ _ _ _ T)).
    specialize (r_cwd0 j). unfold holds in *. unfold iref in *. simpl.
    destruct (Z.eqb_spec (cwd x) j) as [->|]; [rewrite lookup_insert_eq|rewrite lookup_insert_ne by done]; simpl; lia.
Qed.

(** The queue of the exiting process is served. *)
Lemma signal_wait_ok p x (s : pst) : procs s !! p = Some x -> wp (signal_wait p) (fun _ s' =>
  s' = set_asleep (signalled (asleep s) x) (set_procs (<[p := set_wait_cv (tail (wait_cv x)) x]> (procs s)) s)) s.
Proof.
  intros Hx. eapply wp_bind, wp_get_proc; [exact Hx|]. unfold signalled. destruct (wait_cv x) as [|q l] eqn:Ew; simpl.
  - apply wp_ret. rewrite insert_id; [by destruct s|]. rewrite Hx. f_equal. rewrite <- Ew. by destruct x.
  - apply wp_bind, wp_modify, wp_modify. simpl. by destruct (asleep s !! q).
Qed.

(** [x0] is the record of the process without its thread. *)
Lemma proc_exit_ok p t status i x y s : inv [] s -> p ∈ ptable s -> asleep s !! p = None -> procs s !! p = Some x -> pid x <> 0 ->
  i ∈ ptable s -> procs s !! i = Some y -> pid y = 0 -> status <> STATUS_ALIVE -> Z.of_nat (length (ptable s)) < 2 ^ 23 ->
  wp (proc_exit p t status) (fun _ s' => inv [] s' /\ ptable s' = filter (fun q => q <> p) (ptable s) /\
    let x0 := set_threads (filter (fun u => u <> t) (threads x)) x in
    after_exit (<[p := x0]> (procs s)) p i status x0 y (procs s') /\ asleep s' = signalled (asleep s) x0) s.
Proof.
  intros I0 Hp Hs Hx Hx0 Hi Hy Hy0 Hst Hlen. set (x0 := set_threads _ x). unfold proc_exit.
  eapply wp_bind, wp_upd_proc; [exact Hx|]. fold x0. set (m := <[p := x0]> (procs s)).
  assert (I : inv [] (set_procs m s)) by (by eapply inv_same). destruct I as (T & R & Hk). simpl in T, R, Hk.
  assert (Hpi : p <> i) by (intros ->; congruence). assert (Hxm : m !! p = Some x0) by apply lookup_insert_eq.
  assert (Hym : m !! i = Some y) by (unfold m; by rewrite lookup_insert_ne).
  pose proof (t_nodup _ _ _ _ _ T) as Hnd. rewrite app_nil_r in Hnd.
  assert (Hax : alive x0) by (destruct (t_live _ _ _ _ _ T p) as (? & ? & ?); [by rewrite app_nil_r|congruence]).
  assert (Hay : alive y) by (destruct (t_live _ _ _ _ _ T i) as (? & ? & ?); [by rewrite app_nil_r|congruence]).
  set (N := fun f => tot (slots f) m (filter (fun q => q <> p) (ptable s))).
  assert (EN : forall f, N f + occ f (files x0) = tot (slots f) m (ptable s)) by (intros f; unfold N; rewrite (tot_remove _ _ _ _ x0) by done; unfold slots; lia).
  assert (HB : forall f l, (forall q, q ∈ l -> q ∈ ptable s) -> 0 <= tot (slots f) m l <= 128 * Z.of_nat (length l)).
  { intros f l Hl. apply tot_bound; [|lia]. intros q z Hq Hz. pose proof (slots_bound f z).
    pose proof (r_len _ _ _ _ _ R q z) as Hq'. rewrite app_nil_r in Hq'. specialize (Hq' (Hl q Hq) Hz). lia. }
  assert (Hcwd : 0 < iref (cwd x0) (view (svc s))).
  { pose proof (r_cwd _ _ _ _ _ R (cwd x0)) as H1. rewrite app_nil_r in H1. pose proof (tot_elem (holds (cwd x0)) m (ptable s) p x0 ltac:(intros; apply holds_bound) Hp Hxm) as H2.
    unfold holds at 1 in H2. rewrite Z.eqb_refl in H2. lia. }
  eapply wp_call; [by apply wp_svc, vpmap_spec|]. intros [] s1 (k1 & -> & Hk1 & Hv1). simpl in Hv1.
  eapply wp_call; [apply wp_svc, as_destroy_spec; [done|simpl; rewrite Hv1, (r_spaces _ _ _ _ _ R); set_solver]|]. intros [] s2 (k2 & -> & Hk2 & Hv2). simpl in Hv2. rewrite Hv1 in Hv2.
  eapply wp_bind, wp_get_proc; [exact Hxm|].
  eapply wp_call; [apply wp_svc, release_spec; [done|simpl; by rewrite Hv2]|]. intros [] s3 (k3 & -> & Hk3 & Hv3). simpl in Hv3. rewrite Hv2 in Hv3.
  eapply wp_call; [apply (close_files_ok N); [done| | |]|].
  { intros f. apply HB. intros q [_ ?]%list_elem_of_filter. done. }
  { intros f. rewrite EN. pose proof (HB f (ptable s) ltac:(done)). lia. }
  { intros f Ho. rewrite EN. simpl. rewrite Hv3. simpl. pose proof (r_files _ _ _ _ _ R f Ho) as HF. by rewrite app_nil_r in HF. }
  intros [] s4 (k4 & nf & -> & Hk4 & Hv4 & Hnf). simpl in Hv4. rewrite Hv3 in Hv4. apply wp_bind, wp_modify.
  eapply wp_call; [apply wp_bind, wp_gets, (find_pid_ok 0 i y); [done|by apply list_elem_of_filter|exact Hym|done|]|].
  { intros q [_ Hq]%list_elem_of_filter. destruct (t_live _ _ _ _ _ T q) as (z & Hz & _); [by rewrite app_nil_r|]. exists z. split; [done|].
    intros E. apply (t_pids _ _ _ _ _ T q i z y); [done|done|congruence]. }
  intros c s5 (-> & ->). apply wp_bind, wp_kassert.
  { apply negb_true_iff, Z.eqb_neq. intros ->. rewrite (t_null _ _ _ _ _ T) in Hym. done. }
  eapply wp_bind, wp_get_proc; [exact Hxm|]. eapply wp_call; [apply (give_away_ok m p i x0 y (children x0) []); try done|].
  { eapply t_knd; eauto. }
  { intros c Hc. by destruct (t_kids _ _ _ _ _ T p x0 c Hxm Hc) as (_ & _ & ?). }
  { split_and!; [exact Hxm|simpl; rewrite app_nil_r, Hym; by destruct y|done]. }
  { apply (r_ook _ _ _ _ _ R). }
  { apply (r_olive _ _ _ _ _ R). }
  intros [] s6 (m' & a' & -> & (Mp & Mi & Mo) & Ho' & Hd'). simpl in Mi, Mo.
  eapply wp_bind, wp_upd_proc; [exact Mp|]. eapply wp_mono; [apply signal_wait_ok; simpl; apply lookup_insert_eq|].
  intros [] s7 ->. simpl. rewrite insert_insert_eq.
  assert (AE : after_exit m p i status x0 y (<[p := exited status x0]> m')).
  { split_and!; [apply lookup_insert_eq|by rewrite lookup_insert_ne|]. intros q Hq Hqi. rewrite lookup_insert_ne by done. by apply Mo. }
  split; [|done]. split_and!; [exact (tree_exit m (ptable s) _ _ p i status x0 y _ T Hp Hs Hxm Hx0 Hi Hym Hy0 Hst AE)| |done]. simpl. rewrite Hv4.
  refine (exit_res m _ _ _ _ a' (view (svc s)) p i status x0 y _ nf T R Hp Hxm Hym AE Ho' _ Hnf). rewrite Hd'. by erewrite dom_update.
Qed.

End properties.

(** ** Exit and wait together *)

Section claims.
Context {A : Type} `{!ObjAlloc A} {K : Type} `{!KView K, !ProcServices K}.
Local Notation pst := (pst A K).

(** The parent of the process that exits. *)
Lemma after_exit_parent m p i status x y m' q z : after_exit m p i status x y m' -> q <> p -> m !! i = Some y -> m !! q = Some z -> alive z ->
  exists z', m' !! q = Some z' /\ forall c, c ∈ children z -> c ∈ children z'.
Proof.
  intros (_ & Ei & Eo) Hq Hy Hz Ha. destruct (decide (q = i)) as [->|].
  - eexists. split; [done|]. intros c Hc. simpl. apply elem_of_app. left. congruence.
  - rewrite Eo by done. rewrite (proj2 (live_in_spec m q z Hz) Ha), andb_false_r. eauto.
Qed.

(** C7. Exit and wait.  A process [p] that exits with a status hands it to its
    parent [q], and is then gone: if [q] already sleeps in a wait for [p], the
    exit has woken it up and its wait returns the pid of [p] and the status; if
    [q] waits for [p] later, that wait returns them at once. *)
Theorem exit_wait_status p t status i q x y z (s : pst) :
  inv [] s -> p ∈ ptable s -> asleep s !! p = None -> procs s !! p = Some x -> pid x <> 0 ->
  i ∈ ptable s -> procs s !! i = Some y -> pid y = 0 -> status <> STATUS_ALIVE -> Z.of_nat (length (ptable s)) < 2 ^ 23 ->
  q <> p -> procs s !! q = Some z -> p ∈ children z ->
  exists s1, proc_exit p t status s = Ret tt s1 /\
    (asleep s !! q = Some (mkSleeper p false) -> exists s2, wait_resume q s1 = Ret (WDone (pid x) status) s2 /\ procs s2 !! p = None) /\
    (asleep s !! q = None -> exists s2, proc_wait q (pid x) s1 = Ret (WDone (pid x) status) s2 /\ procs s2 !! p = None).
Proof.
  intros I Hp Hs Hx Hx0 Hi Hy Hy0 Hst Hlen Hqp Hz Hk. pose proof I as (T & _).
  assert (Hq : q ∈ ptable s) by (by destruct (t_kids _ _ _ _ _ T q z p Hz Hk)).
  assert (Haz : alive z) by (destruct (t_live _ _ _ _ _ T q) as (? & ? & ?); [by rewrite app_nil_r|congruence]).
  assert (Hax : alive x) by (destruct (t_live _ _ _ _ _ T p) as (? & ? & ?); [by rewrite app_nil_r|congruence]).
  pose proof (proc_exit_ok p t status i x y s I Hp Hs Hx Hx0 Hi Hy Hy0 Hst Hlen) as W. apply wp_returns in W as ([] & s1 & E1 & I1 & _ & AE & Esl).
  set (x0 := set_threads _ x) in *. exists s1. split; [done|]. pose proof AE as (Ep & _).
  assert (Hi0 : <[p := x0]> (procs s) !! i = Some y) by (rewrite lookup_insert_ne; [done|congruence]).
  split; intros Hsl.
  - destruct (t_sleep _ _ _ _ _ T q _ Hsl) as (_ & ? & x' & _ & _ & Hx' & _ & Hw). simpl in Hx'. assert (x' = x) as -> by congruence.
    assert (Hsl1 : asleep s1 !! q = Some (mkSleeper p true)).
    { rewrite Esl. unfold signalled. change (wait_cv x0) with (wait_cv x). rewrite (tree_waiter _ _ _ _ p x q T Hx Hw), Hsl. apply lookup_insert_eq. }
    pose proof (wait_resume_ok q _ s1 I1 Hsl1 eq_refl) as W. apply wp_returns in W as (r & s2 & E2 & _ & a & b & _ & Hb & _ & -> & E3 & _).
    simpl in Hb, E3. assert (b = exited status x0) as -> by congruence. exists s2. split; [done|]. rewrite E3. apply lookup_delete_eq.
  - assert (Hsl1 : asleep s1 !! q = None).
    { rewrite Esl. unfold signalled. change (wait_cv x0) with (wait_cv x). destruct (wait_cv x) as [|h l] eqn:Ew; [done|].
      rewrite (t_cv _ _ _ _ _ T p x h Hx) by (rewrite Ew; left). rewrite lookup_insert_ne; [done|]. intros ->.
      rewrite (t_cv _ _ _ _ _ T p x q Hx) in Hsl by (rewrite Ew; left). done. }
    destruct (after_exit_parent _ _ _ _ _ _ _ q z AE Hqp Hi0) as (z' & Hz' & Hkz); [by rewrite lookup_insert_ne|done|].
    pose proof (proc_wait_ok q (pid x) z' s1 I1 Hsl1 Hz') as W. apply wp_returns in W as (r & s2 & E2 & _ & [(Hno & _)|(c & Hm & Hr)]).
    { destruct (Hno p). split; [by apply Hkz|]. eexists. split; [exact Ep|]. by left. }
    assert (c = p) as ->.
    { destruct Hm as (_ & w & Hw & [E|[E _]]); [|pose proof (t_pid _ _ _ _ _ T p x Hx); unfold ANY_CHILD in E; lia].
      apply (t_pids _ _ _ _ _ (proj1 I1) c p w _ Hw Ep). done. }
    destruct Hr as [(a & b & _ & Hb & _ & -> & E3 & _)|(b & Hb & Ha & _)]; assert (b = exited status x0) as -> by congruence; [|done].
    exists s2. split; [done|]. rewrite E3. apply lookup_delete_eq.
Qed.


End claims.

(** ** Services that keep the books

    The smallest services: they hold the view itself, and the address of the
    next file.  They show that the interface can be met, and the examples run on
    them. *)
Module Books.
Record books := mkBooks { b_view : kview; b_next : Z }.

#[export] Instance books_view : KView books := {|
  view := b_view;
  kok b := 3 <= b_next b /\ forall f n, frefs (b_view b) !! f = Some n -> 3 <= f < b_next b |}.

Definition upd (g : kview -> kview) : M books unit := modify (fun b => mkBooks (g (b_view b)) (b_next b)).
Definition std (f : Z) : bool := (f =? 1) || (f =? 2).
Definition on_file (f : Z) (g : Z -> gmap Z Z -> gmap Z Z) : M books unit :=
  if std f then ret tt
  else o <- gets (fun b => frefs (b_view b) !! f) ;; n <- of_option Fault o ;; upd (fun v => with_frefs (g n (frefs v)) v).
Definition check_file (f : Z) : M books unit := on_file f (fun _ m => m).

Definition drop_ref (f n : Z) (m : gmap Z Z) : gmap Z Z := if n =? 1 then delete f m else <[f := n - 1]> m.

Lemma on_file_ok f n g b : kok b -> frefs (b_view b) !! f = Some n -> (forall m h, g n m !! h <> None -> h = f \/ m !! h <> None) ->
  yields (on_file f g) b (fun _ v => v = with_frefs (g n (frefs (b_view b))) (b_view b)).
Proof.
  intros [H3 Hb] Hf Hg. pose proof (Hb _ _ Hf). unfold on_file, std. rewrite (proj2 (Z.eqb_neq f 1)), (proj2 (Z.eqb_neq f 2)) by lia. simpl.
  apply wp_bind, wp_gets. rewrite Hf. apply wp_bind, wp_ret, wp_modify. split; [|done]. split; [done|]. simpl. intros h k Hh.
  destruct (Hg (frefs (b_view b)) h) as [->|Hn]; [congruence|done|]. destruct (frefs (b_view b) !! h) eqn:E; [eauto|done].
Qed.

Lemma with_frefs_id v : with_frefs (frefs v) v = v.
Proof. by destruct v. Qed.

Lemma std_true f : f = 1 \/ f = 2 -> std f = true.
Proof. intros [->| ->]; done. Qed.

Lemma check_file_ok f b : kok b -> f = 1 \/ f = 2 \/ is_Some (frefs (b_view b) !! f) -> yields (check_file f) b (fun _ v => v = b_view b).
Proof.
  intros Hk [H|[H|[n Hn]]]; [by rewrite H|by rewrite H|]. eapply wp_mono; [apply (on_file_ok f n); [done|done|by right]|].
  cbv beta. intros [] b' [? ->]. split; [done|apply with_frefs_id].
Qed.

Lemma drop_ref_dom f n m h : drop_ref f n m !! h <> None -> h = f \/ m !! h <> None.
Proof.
  unfold drop_ref. destruct (decide (h = f)); [by left|right]. destruct (n =? 1); [by rewrite lookup_delete_ne in H|by rewrite lookup_insert_ne in H].
Qed.

#[export] Instance books_services : ProcServices books.
Proof.
  refine {|
  stdin := 1;
  stdout := 2;
  as_init p := upd (fun v => with_spaces ({[p]} ∪ spaces v) v) ;; ret ERR_OK;
  as_destroy p := upd (fun v => with_spaces (spaces v ∖ {[p]}) v);
  as_copy_as _ _ := ret ERR_OK;
  load_program _ _ := ret (ERR_OK, 0);
  map_heap _ := ret true;
  setup_stack _ _ := ret (ERR_OK, 0);
  thread_create _ p := ret p;
  start_thread _ _ _ := ret tt;
  fork_frame _ _ _ := ret tt;
  get_root_inode := upd (fun v => with_iref 1 (iref 1 v + 1) v) ;; ret (ERR_OK, 1);
  fs_release_inode i := upd (fun v => with_iref i (iref i v - 1) v);
  load_kernel_vpmap := ret tt;
  kpipe_ref_increase f _ := check_file f;
  kpipe_ref_decrease f _ := check_file f;
  fs_reopen_file f := on_file f (fun n m => <[f := n + 1]> m);
  fs_close_file f := on_file f (drop_ref f) |}.
  - done.
  - by intros.
  - by intros.
  - by intros.
  - intros b p nm Hk Hp. split; [done|]. split; [done|symmetry; apply with_frefs_id].
  - by intros.
  - by intros.
  - by intros.
  - by intros.
  - by intros.
  - by intros.
  - by intros.
  - by intros.
  - intros b f fd. apply check_file_ok.
  - intros b f fd. apply check_file_ok.
  - intros b f Hk Hf. unfold on_file. by rewrite (std_true f Hf).
  - intros b f n Hk Hf _. apply (on_file_ok f n (fun n m => <[f := n + 1]> m)); [done|done|]. intros m h.
    destruct (decide (h = f)); [by left|]. rewrite lookup_insert_ne by done. by right.
  - intros b f Hk Hf. unfold on_file. by rewrite (std_true f Hf).
  - intros b f n Hk Hf _. apply (on_file_ok f n (drop_ref f)); [done|done|]. apply drop_ref_dom.
Defined.

End Books.

(** ** Witnesses: the first process and its child *)
Import Books.

Definition ex_boot : Proc.pst Bump.bump books := mkPst ∅ [] 0 (Bump.mkBump 8 100 ∅) ∅ (mkBooks (mkView ∅ ∅ ∅) 3).
Definition ex_final {S B} (s0 : S) (o : outcome S B) : S := match o with Ret _ s => s | Halt _ _ => s0 end.
(** The first process 100, its child 101 by fork, and a wait of 100 for 101. *)
Definition ex_s1 := ex_final ex_boot (proc_spawn 0 [105] [[105]] ex_boot).
Definition ex_s2 := ex_final ex_boot (proc_fork 100 100 [105] ex_s1).
Definition ex_s3 := ex_final ex_boot (proc_wait 100 1 ex_s2).

Lemma ex_boot_inv : inv [] ex_boot.
Proof.
  split_and!; [|split|]; try done.
  split; simpl; try done; try (intros; by simplify_map_eq); [constructor|intros ? ?%elem_of_nil; done].
Qed.
Lemma ex_s1_inv : inv [] ex_s1.
Proof.
  pose proof (proc_spawn_first [105] [[105]] ex_boot ex_boot_inv eq_refl) as W. apply wp_returns in W as (r & s & E & I & _).
  unfold ex_s1. rewrite E. exact I.
Qed.
Lemma ex_s2_inv : inv [] ex_s2.
Proof.
  assert (H : 100 ∈ ptable ex_s1) by (vm_compute; left).
  pose proof (proc_fork_ok 100 100 [105] ex_s1 ex_s1_inv H ltac:(vm_compute; done) ltac:(vm_compute; done)) as W. apply wp_returns in W as (r & s & E & I & _).
  unfold ex_s2. rewrite E. exact I.
Qed.
Lemma ex_s3_inv : inv [] ex_s3.
Proof.
  assert (exists x, procs ex_s2 !! 100 = Some x) as [x Hx] by (vm_compute; eauto).
  pose proof (proc_wait_ok 100 1 x ex_s2 ex_s2_inv ltac:(vm_compute; done) Hx) as W. apply wp_returns in W as (r & s & E & I & _).
  unfold ex_s3. rewrite E. exact I.
Qed.

Lemma exit_wait_status_witness : exists s1, proc_exit 101 101 7 ex_s3 = Ret tt s1 /\
  (exists s2, wait_resume 100 s1 = Ret (WDone 1 7) s2 /\ procs s2 !! 101 = None).
Proof.
  assert (exists x, procs ex_s3 !! 101 = Some x /\ pid x = 1) as (x & Hx & Ex) by (eexists; split; vm_compute; reflexivity).
  assert (exists y, procs ex_s3 !! 100 = Some y /\ pid y = 0 /\ 101 ∈ children y) as (y & Hy & Ey & Hc) by (eexists; split_and!; [vm_compute; reflexivity|vm_compute; reflexivity|vm_compute; left]).
  assert (H1 : 101 ∈ ptable ex_s3) by (vm_compute; right; left).
  assert (H2 : asleep ex_s3 !! 101 = None) by (vm_compute; reflexivity).
  assert (H3 : 100 ∈ ptable ex_s3) by (vm_compute; left).
  assert (H4 : Z.of_nat (length (ptable ex_s3)) < 2 ^ 23) by (vm_compute; reflexivity).
  assert (H5 : asleep ex_s3 !! 100 = Some (mkSleeper 101 false)) by (vm_compute; reflexivity).
  assert (H6 : pid x <> 0) by (rewrite Ex; discriminate). assert (H7 : 7 <> STATUS_ALIVE) by discriminate. assert (H8 : 100 <> 101) by discriminate.
  pose proof (exit_wait_status 101 101 7 100 100 x y y ex_s3 ex_s3_inv H1 H2 Hx H6 H3 Hy Ey H7 H4 H8 Hy Hc) as (s1 & E & H & _).
  exists s1. split; [exact E|]. rewrite Ex in H. exact (H H5).
Defined.


End ProcOps.
