(* ===== verification/Syscall.v ===== *)
(** * System calls: kernel/syscall.c and the x86_64 part of it

    The handlers, with the checks they make of the arguments, on top of the
    processes of Proc.v.  What the handlers reach in other components is the
    class [SysServices]: the regions and the bytes of a process, the file
    system, pipes, the heap and the shared regions.  A service may be called
    only with what the checks establish: a file that is open, a buffer inside a
    region, a string that ends inside a region. *)

From S2P Require Import Prelude Page Alloc Fs Shmms Proc ProcOps.
Import Proc ProcOps.
Local Open Scope kernel_scope.

Module Syscall.

Definition PROC_MAX_ARG : Z := 128.
Definition sizeof_stat : Z := 16.
Definition sizeof_sys_info : Z := 8.
Definition sizeof_ptr : Z := 8.

(** User memory: the regions of a process, from [start] to [end]; the byte at an
    address, [None] when the access faults; a process is [usable] when the pages
    of its regions are present and writable. *)
Class UserMem (K : Type) := {
  regions : K -> Z -> list (Z * Z);
  ubyte : K -> Z -> Z -> option Z;
  usable : K -> Z -> Prop;
  usable_byte k p st e b : usable k p -> (st, e) ∈ regions k p -> st <= b < e -> is_Some (ubyte k p b);
}.

(** [as_find_memregion] on the regions of a process: the first region that holds
    the range, by its bounds. *)
Fixpoint find_memregion (l : list (Z * Z)) (addr size : Z) : option (Z * Z) :=
  match l with
  | [] => None
  | (st, e) :: l' => if (st <=? addr) && (u64 (addr + size) <=? Page.pg_round_up e) then Some (st, e) else find_memregion l' addr size
  end.

(** The range is inside a region, without wrapping around. *)
Definition covers `{!UserMem K} (k : K) (p addr size : Z) : Prop :=
  addr <= u64 (addr + size) /\ is_Some (find_memregion (regions k p) addr size).

(** A service that, in addition, leaves the memory of processes in place. *)
Definition stays `{!KView K, !UserMem K} {B} (m : M K B) (k : K) (Q : B -> kview -> Prop) : Prop :=
  wp m (fun b k' => kok k' /\ Q b (view k') /\ forall p, regions k' p = regions k p /\ (usable k p -> usable k' p)) k.

Definition open_file `{!KView K, !ProcServices K} (k : K) (f : Z) : Prop := f = stdin \/ f = stdout \/ is_Some (frefs (view k) !! f).

(** The services, with what the handlers rely on.  [None] as a result: the
    caller sleeps.  [ustore] writes to user memory, [file_setup] sets the fields
    of a new file for a pipe, [pipe_share] gives the reader's file the pipe of
    the writer's file, [file_stat] is the contents of [struct stat] for a file,
    [None] when it has no inode, [heap_extend] is [memregion_extend] of the heap. *)
Class SysServices (K : Type) `{!KView K, !ProcServices K, !UserMem K} := {
  ustore : Z -> Z -> list Z -> M K unit;
  fs_open_file : list Z -> Z -> Z -> M K (err_t * Z);
  fs_read_file : Z -> Z -> Z -> Z -> M K (option Z);
  fs_write_file : Z -> Z -> Z -> Z -> M K (option Z);
  fs_link : list Z -> list Z -> M K err_t;
  fs_unlink : list Z -> M K err_t;
  fs_mkdir : list Z -> M K err_t;
  fs_rmdir : list Z -> M K err_t;
  fs_find_inode : list Z -> M K (err_t * Z);
  fs_alloc_file : M K Z;
  fs_free_file : Z -> M K unit;
  file_setup : Z -> Z -> M K unit;
  kpipe_init : Z -> Z -> Z -> M K err_t;
  pipe_share : Z -> Z -> M K unit;
  file_stat : Z -> M K (option (list Z));
  kmalloc : Z -> M K bool;
  heap_extend : Z -> Z -> M K (err_t * Z);
  as_meminfo : Z -> M K unit;
  user_pgfault : K -> Z;
  createSharedRegion : list Z -> Z -> Z -> M K Z;
  destroySharedRegion : list Z -> M K Z;
  createMapping : list Z -> Z -> Z -> M K Z;
  destroyMapping : list Z -> Z -> Z -> M K Z;
  lockRegion : list Z -> Z -> M K (option Z);
  unlockRegion : list Z -> Z -> M K Z;
  ustore_spec k p a l : kok k -> usable k p -> covers k p a (Z.of_nat (length l)) -> stays (ustore p a l) k (fun _ v => v = view k);
  open_spec k path fl md : kok k -> yields (fs_open_file path fl md) k (fun r v =>
    if decide (r.1 = ERR_OK) then owned r.2 /\ frefs (view k) !! r.2 = None /\ v = with_frefs (<[r.2 := 1]> (frefs (view k))) (view k) else v = view k);
  read_spec k f p a n : kok k -> usable k p -> open_file k f -> covers k p a n -> yields (fs_read_file f p a n) k (fun _ v => v = view k);
  write_spec k f p a n : kok k -> usable k p -> open_file k f -> covers k p a n -> yields (fs_write_file f p a n) k (fun _ v => v = view k);
  link_spec k o n : kok k -> yields (fs_link o n) k (fun _ v => v = view k);
  unlink_spec k o : kok k -> yields (fs_unlink o) k (fun _ v => v = view k);
  mkdir_spec k o : kok k -> yields (fs_mkdir o) k (fun _ v => v = view k);
  rmdir_spec k o : kok k -> yields (fs_rmdir o) k (fun _ v => v = view k);
  find_inode_spec k o : kok k -> yields (fs_find_inode o) k (fun r v =>
    v = if decide (r.1 = ERR_OK) then with_iref r.2 (iref r.2 (view k) + 1) (view k) else view k);
  alloc_file_spec k : kok k -> stays fs_alloc_file k (fun f v =>
    if f =? 0 then v = view k else owned f /\ frefs (view k) !! f = None /\ v = with_frefs (<[f := 1]> (frefs (view k))) (view k));
  free_file_spec k f : kok k -> is_Some (frefs (view k) !! f) -> yields (fs_free_file f) k (fun _ v => v = with_frefs (delete f (frefs (view k))) (view k));
  setup_spec k f fl : kok k -> frefs (view k) !! f = Some 1 -> stays (file_setup f fl) k (fun _ v => v = view k);
  pipe_init_spec k f r w : kok k -> is_Some (frefs (view k) !! f) -> stays (kpipe_init f r w) k (fun _ v => v = view k);
  share_spec k f g : kok k -> is_Some (frefs (view k) !! f) -> is_Some (frefs (view k) !! g) -> stays (pipe_share f g) k (fun _ v => v = view k);
  stat_spec k f : kok k -> is_Some (frefs (view k) !! f) ->
    stays (file_stat f) k (fun r v => v = view k /\ forall l, r = Some l -> Z.of_nat (length l) = sizeof_stat);
  kmalloc_spec k n : kok k -> yields (kmalloc n) k (fun _ v => v = view k);
  extend_spec k p n : kok k -> p ∈ spaces (view k) -> yields (heap_extend p n) k (fun _ v => v = view k);
  meminfo_spec k p : kok k -> p ∈ spaces (view k) -> yields (as_meminfo p) k (fun _ v => v = view k);
  create_spec k nm n fl : kok k -> Z.of_nat (length nm) < Shmms.MAX_NAME_LEN -> yields (createSharedRegion nm n fl) k (fun _ v => v = view k);
  destroy_spec k nm : kok k -> yields (destroySharedRegion nm) k (fun _ v => v = view k);
  map_spec k nm a p : kok k -> usable k p -> p ∈ spaces (view k) -> covers k p a sizeof_ptr ->
    yields (createMapping nm a p) k (fun _ v => v = view k);
  unmap_spec k nm a p : kok k -> p ∈ spaces (view k) -> yields (destroyMapping nm a p) k (fun _ v => v = view k);
  lock_spec k nm p : kok k -> p ∈ spaces (view k) -> yields (lockRegion nm p) k (fun _ v => v = view k);
  unlock_spec k nm p : kok k -> p ∈ spaces (view k) -> yields (unlockRegion nm p) k (fun _ v => v = view k);
}.

(** The registers of a trap frame that a system call uses (x86_64/kernel/syscall.c). *)
Record trapframe := mkTf { rax : Z; rdi : Z; rsi : Z; rdx : Z; rcx : Z; r8 : Z; r9 : Z }.

(** [None] is False. *)
Definition fetch_arg (tf : trapframe) (n : Z) : option Z :=
  if n =? 1 then Some (rdi tf)
  else if n =? 2 then Some (rsi tf)
  else if n =? 3 then Some (rdx tf)
  else if n =? 4 then Some (rcx tf)
  else if n =? 5 then Some (r8 tf)
  else if n =? 6 then Some (r9 tf)
  else None.

(** How a system call ends: with a value for the caller, with the caller
    asleep (in [proc_wait] at a child, or in another component), with the
    caller gone, or with the machine halted. *)
Inductive sysres := SRet (v : Z) | SWait (status : Z) | SAsleep | SGone | SHalt.

(** The tokens that the calls of [strtok_r] give for the delimiter " ". *)
Fixpoint split_args (tok l : list Z) : list (list Z) :=
  match l with
  | [] => match tok with [] => [] | _ => [tok] end
  | c :: l' =>
      if c =? 32 then match tok with [] => split_args [] l' | _ => tok :: split_args [] l' end
      else split_args (tok ++ [c]) l'
  end.

Section model.
Context {A : Type} `{!ObjAlloc A} {K : Type} `{!KView K, !ProcServices K, !UserMem K, !SysServices K}.
Local Notation pst := (pst A K).

Definition arg (tf : trapframe) (n : Z) : M pst Z := of_option Panic (fetch_arg tf n).

(** A kernel access to user memory that faults is a panic of the fault handler. *)
Definition load_user (cur a : Z) : M pst Z := o <- gets (fun s => ubyte (svc s) cur a) ;; of_option Panic o.

(** ** Checks of the arguments *)

Definition validate_fd (fd : Z) (x : proc) : bool :=
  negb ((fd <? 0) || (PROC_MAX_FILE <=? fd) || (default 0 (files x !! Z.to_nat fd) =? 0)).

(** The loop, [n] bytes before the end of the region. *)
Fixpoint str_loop (n : nat) (cur s : Z) : M pst bool :=
  match n with
  | O => ret false
  | S n' => c <- load_user cur s ;; if c =? 0 then ret true else str_loop n' cur (s + 1)
  end.
Definition validate_str (cur s : Z) : M pst bool :=
  o <- gets (fun st => find_memregion (regions (svc st) cur) s 1) ;;
  match o with
  | None => ret false
  | Some r => str_loop (Z.to_nat (r.2 - s)) cur s
  end.

Definition validate_bufptr (cur bufaddr size : Z) : M pst bool :=
  if u64 (bufaddr + size) <? bufaddr then ret false
  else o <- gets (fun st => find_memregion (regions (svc st) cur) bufaddr size) ;; ret (match o with None => false | Some _ => true end).

Fixpoint alloc_fd_loop (l : list Z) (i : Z) : Z :=
  match l with [] => -1 | f :: l' => if f =? 0 then i else alloc_fd_loop l' (i + 1) end.
Definition alloc_fd (x : proc) : Z := alloc_fd_loop (files x) 0.

(** The string at a user address, as the functions that are given the address
    read it; it ends before the end of the region. *)
Fixpoint str_bytes (n : nat) (cur s : Z) : M pst (list Z) :=
  match n with
  | O => stop Panic
  | S n' => c <- load_user cur s ;; if c =? 0 then ret [] else l <- str_bytes n' cur (s + 1) ;; ret (c :: l)
  end.
Definition user_string (cur s : Z) : M pst (list Z) :=
  o <- gets (fun st => find_memregion (regions (svc st) cur) s 1) ;;
  r <- of_option Panic o ;;
  str_bytes (Z.to_nat (r.2 - s)) cur s.

(** A call that takes one path or name. *)
Definition with_string (cur a : Z) (k : list Z -> M pst sysres) : M pst sysres :=
  b <- validate_str cur a ;;
  if negb b then ret (SRet ERR_FAULT) else l <- user_string cur a ;; k l.

(** ** Processes *)

Definition sys_fork (cur th : Z) (th_name : list Z) : M pst sysres :=
  p <- proc_fork cur th th_name ;;
  if p =? 0 then ret (SRet ERR_NOMEM) else y <- get_proc p ;; ret (SRet (pid y)).

(** The array [argv] has [cap + 1] entries, and the name of the program is read
    through its first entry. *)
Definition sys_spawn (cur : Z) (tf : trapframe) : M pst sysres :=
  args <- arg tf 1 ;;
  with_string cur args (fun str =>
    let len := Z.of_nat (length str) + 1 in
    b <- call (kmalloc len) ;;
    if negb b then ret (SRet ERR_NOMEM)
    else
      let cap := if len / 2 <? PROC_MAX_ARG then len / 2 else PROC_MAX_ARG in
      b <- call (kmalloc ((cap + 1) * sizeof_ptr)) ;;
      if negb b then ret (SRet ERR_NOMEM)
      else
        let argv := split_args [] str in
        if cap <? Z.of_nat (length argv) then stop Fault
        else
          match argv with
          | [] => stop Fault
          | nm :: _ =>
              r <- proc_spawn cur nm argv ;;
              if negb (r.1 =? ERR_OK) then ret (SRet r.1) else y <- get_proc r.2 ;; ret (SRet (pid y))
          end).

(** The little-endian bytes of an [int]. *)
Definition int_bytes (v : Z) : list Z := map (fun i => (u32 v / 2 ^ (8 * i)) mod 256) [0; 1; 2; 3].
Definition long_bytes (v : Z) : list Z := map (fun i => (u64 v / 2 ^ (8 * i)) mod 256) [0; 1; 2; 3; 4; 5; 6; 7].

(** The end of [proc_wait]: the status is stored through the pointer. *)
Definition finish_wait (cur statusPtr : Z) (w : wresult) : M pst sysres :=
  match w with
  | WSleep => ret (SWait statusPtr)
  | WDone r status =>
      (if negb (r =? ERR_CHILD) && negb (statusPtr =? 0) then call (ustore cur statusPtr (int_bytes status)) else ret tt) ;;
      ret (SRet r)
  end.
Definition sys_wait (cur : Z) (tf : trapframe) : M pst sysres :=
  n <- arg tf 1 ;;
  statusPtr <- arg tf 2 ;;
  b <- validate_bufptr cur statusPtr 4 ;;
  if negb b then ret (SRet ERR_FAULT) else w <- proc_wait cur (s32 n) ;; finish_wait cur statusPtr w.
(** The same after the parent has been woken up. *)
Definition sys_wait_woken (cur statusPtr : Z) : M pst sysres := w <- wait_resume cur ;; finish_wait cur statusPtr w.

Definition sys_exit (cur th : Z) (tf : trapframe) : M pst sysres :=
  status <- arg tf 1 ;;
  x <- get_proc cur ;;
  if pid x =? 1 then ret SHalt else proc_exit cur th (s32 status) ;; ret SGone.

Definition sys_getpid (cur : Z) : M pst sysres := x <- get_proc cur ;; ret (SRet (pid x)).
Definition sys_sleep : M pst sysres := stop Panic.

(** ** Files *)

Definition set_slot (cur i f : Z) : M pst unit := upd_proc cur (fun x => set_files (<[Z.to_nat i := f]> (files x)) x).

Definition sys_open (cur : Z) (tf : trapframe) : M pst sysres :=
  path <- arg tf 1 ;;
  flags <- arg tf 2 ;;
  mode <- arg tf 3 ;;
  with_string cur path (fun str =>
    x <- get_proc cur ;;
    let fd := alloc_fd x in
    if fd =? -1 then ret (SRet ERR_NOMEM)
    else
      r <- call (fs_open_file str (s32 flags) (s32 mode)) ;;
      if r.1 =? ERR_OK then set_slot cur fd r.2 ;; ret (SRet fd) else ret (SRet r.1)).

Definition sys_close (cur : Z) (tf : trapframe) : M pst sysres :=
  a <- arg tf 1 ;;
  x <- get_proc cur ;;
  let fd := s32 a in
  if negb (validate_fd fd x) then ret (SRet ERR_INVAL)
  else
    let f := default 0 (files x !! Z.to_nat fd) in
    call (kpipe_ref_decrease f fd) ;;
    call (fs_close_file f) ;;
    set_slot cur fd 0 ;;
    ret (SRet ERR_OK).

(** [None]: the caller sleeps in the service. *)
Definition io_result (r : option Z) : sysres := match r with Some n => SRet n | None => SAsleep end.

(** [p->files[fd]]; an index out of range is an invalid access. *)
Definition file_at (x : proc) (fd : Z) : option Z := if (0 <=? fd) && (fd <? PROC_MAX_FILE) then files x !! Z.to_nat fd else None.

(** [&(p->files[fd]->f_pos)] indexes with the whole register. *)
Definition sys_read (cur : Z) (tf : trapframe) : M pst sysres :=
  fd <- arg tf 1 ;;
  count <- arg tf 3 ;;
  buf <- arg tf 2 ;;
  b <- validate_bufptr cur buf count ;;
  if negb b then ret (SRet ERR_FAULT)
  else
    x <- get_proc cur ;;
    if negb (validate_fd (s32 fd) x) then ret (SRet ERR_INVAL)
    else
      _ <- of_option Fault (file_at x fd) ;;
      r <- call (fs_read_file (default 0 (files x !! Z.to_nat (s32 fd))) cur buf count) ;;
      ret (io_result r).

Definition sys_write (cur : Z) (tf : trapframe) : M pst sysres :=
  fd <- arg tf 1 ;;
  count <- arg tf 3 ;;
  buf <- arg tf 2 ;;
  b <- validate_bufptr cur buf count ;;
  if negb b then ret (SRet ERR_FAULT)
  else
    x <- get_proc cur ;;
    if negb (validate_fd (s32 fd) x) then ret (SRet ERR_INVAL)
    else
      r <- call (fs_write_file (default 0 (files x !! Z.to_nat (s32 fd))) cur buf count) ;;
      ret (io_result r).

(** Both names are checked before the first is used. *)
Definition sys_link (cur : Z) (tf : trapframe) : M pst sysres :=
  oldpath <- arg tf 1 ;;
  newpath <- arg tf 2 ;;
  with_string cur oldpath (fun o => with_string cur newpath (fun n => r <- call (fs_link o n) ;; ret (SRet r))).
Definition sys_unlink (cur : Z) (tf : trapframe) : M pst sysres :=
  p <- arg tf 1 ;; with_string cur p (fun str => r <- call (fs_unlink str) ;; ret (SRet r)).
Definition sys_mkdir (cur : Z) (tf : trapframe) : M pst sysres :=
  p <- arg tf 1 ;; with_string cur p (fun str => r <- call (fs_mkdir str) ;; ret (SRet r)).
Definition sys_rmdir (cur : Z) (tf : trapframe) : M pst sysres :=
  p <- arg tf 1 ;; with_string cur p (fun str => r <- call (fs_rmdir str) ;; ret (SRet r)).
Definition set_cwd (i : Z) (x : proc) : proc := mkProc (pid x) (name x) i (threads x) (children x) (files x) (wait_cv x) (exit_status x).
Definition sys_chdir (cur : Z) (tf : trapframe) : M pst sysres :=
  p <- arg tf 1 ;;
  with_string cur p (fun str =>
    r <- call (fs_find_inode str) ;;
    if negb (r.1 =? ERR_OK) then ret (SRet r.1)
    else
      x <- get_proc cur ;;
      call (fs_release_inode (cwd x)) ;;
      upd_proc cur (set_cwd r.2) ;;
      ret (SRet ERR_OK)).
Definition sys_readdir : M pst sysres := stop Panic.

Definition sys_fstat (cur : Z) (tf : trapframe) : M pst sysres :=
  fd <- arg tf 1 ;;
  stat <- arg tf 2 ;;
  b <- validate_bufptr cur stat sizeof_stat ;;
  if negb b then ret (SRet ERR_FAULT)
  else
    x <- get_proc cur ;;
    if negb (validate_fd (s32 fd) x) || (s32 fd <? 2) then ret (SRet ERR_INVAL)
    else
      let f := default 0 (files x !! Z.to_nat (s32 fd)) in
      if (f =? stdin) || (f =? stdout) then ret (SRet ERR_INVAL)
      else
        g <- of_option Fault (file_at x fd) ;;
        o <- call (file_stat g) ;;
        match o with
        | None => ret (SRet ERR_INVAL)
        | Some l => call (ustore cur stat l) ;; ret (SRet ERR_OK)
        end.

Definition sys_dup (cur : Z) (tf : trapframe) : M pst sysres :=
  a <- arg tf 1 ;;
  x <- get_proc cur ;;
  let fd := s32 a in
  if negb (validate_fd fd x) then ret (SRet ERR_INVAL)
  else
    let i := alloc_fd x in
    if i =? -1 then ret (SRet ERR_NOMEM)
    else
      let f := default 0 (files x !! Z.to_nat fd) in
      call (kpipe_ref_increase f fd) ;;
      set_slot cur i f ;;
      call (fs_reopen_file f) ;;
      ret (SRet i).

(** The reader's file is put in its slot before the writer's descriptor is
    looked for, and the error exits leave the slots as they are. *)
Definition sys_pipe (cur : Z) (tf : trapframe) : M pst sysres :=
  fd_reader <- arg tf 1 ;;
  b <- validate_bufptr cur fd_reader 4 ;;
  if negb b then ret (SRet ERR_FAULT)
  else
    fd_writer <- arg tf 2 ;;
    b <- validate_bufptr cur fd_writer 4 ;;
    if negb b then ret (SRet ERR_FAULT)
    else
      x <- get_proc cur ;;
      let rfd := alloc_fd x in
      if rfd =? -1 then ret (SRet ERR_NOMEM)
      else
        rf <- call fs_alloc_file ;;
        set_slot cur rfd rf ;;
        if rf =? 0 then ret (SRet ERR_NOMEM)
        else
          call (file_setup rf Fs.FS_RDONLY) ;;
          x <- get_proc cur ;;
          let wfd := alloc_fd x in
          if wfd =? -1 then ret (SRet ERR_NOMEM)
          else
            wf <- call fs_alloc_file ;;
            set_slot cur wfd wf ;;
            if wf =? 0 then call (fs_free_file rf) ;; ret (SRet ERR_NOMEM)
            else
              call (file_setup wf Fs.FS_WRONLY) ;;
              e <- call (kpipe_init wf rfd wfd) ;;
              if negb (e =? ERR_OK) then call (fs_free_file rf) ;; call (fs_free_file wf) ;; ret (SRet ERR_NOMEM)
              else
                call (pipe_share rf wf) ;;
                call (ustore cur fd_reader (int_bytes rfd)) ;;
                call (ustore cur (u64 (fd_reader + 4)) (int_bytes wfd)) ;;
                ret (SRet ERR_OK).

(** ** Memory and the machine *)

Definition sys_sbrk (cur : Z) (tf : trapframe) : M pst sysres :=
  size <- arg tf 1 ;;
  r <- call (heap_extend cur (s32 size)) ;;
  ret (SRet (if r.1 =? ERR_OK then r.2 else r.1)).
Definition sys_meminfo (cur : Z) : M pst sysres := call (as_meminfo cur) ;; ret (SRet ERR_OK).
Definition sys_info (cur : Z) (tf : trapframe) : M pst sysres :=
  info <- arg tf 1 ;;
  b <- validate_bufptr cur info sizeof_sys_info ;;
  if negb b then ret (SRet ERR_FAULT)
  else n <- gets (fun s => user_pgfault (svc s)) ;; call (ustore cur info (long_bytes n)) ;; ret (SRet ERR_OK).
Definition sys_halt : M pst sysres := ret SHalt.

(** ** Shared regions *)

Definition sys_createSharedRegion (cur : Z) (tf : trapframe) : M pst sysres :=
  nm <- arg tf 1 ;;
  with_string cur nm (fun str =>
    if Shmms.MAX_NAME_LEN <=? Z.of_nat (length str) then ret (SRet ERR_INVAL)
    else
      size <- arg tf 2 ;;
      flag <- arg tf 3 ;;
      r <- call (createSharedRegion str (s32 (Page.pg_round_up size)) (s32 flag)) ;;
      ret (SRet r)).
Definition sys_destroySharedRegion (cur : Z) (tf : trapframe) : M pst sysres :=
  nm <- arg tf 1 ;; with_string cur nm (fun str => r <- call (destroySharedRegion str) ;; ret (SRet r)).
Definition sys_createMapping (cur : Z) (tf : trapframe) : M pst sysres :=
  nm <- arg tf 1 ;;
  with_string cur nm (fun str =>
    reg_beg <- arg tf 2 ;;
    b <- validate_bufptr cur reg_beg sizeof_ptr ;;
    if negb b then ret (SRet ERR_FAULT)
    else
      call (ustore cur reg_beg (long_bytes 0)) ;;
      r <- call (createMapping str reg_beg cur) ;;
      ret (SRet r)).
Definition sys_destroyMapping (cur : Z) (tf : trapframe) : M pst sysres :=
  nm <- arg tf 1 ;; with_string cur nm (fun str => vaddr <- arg tf 2 ;; r <- call (destroyMapping str vaddr cur) ;; ret (SRet r)).
Definition sys_lockSharedRegion (cur : Z) (tf : trapframe) : M pst sysres :=
  nm <- arg tf 1 ;; with_string cur nm (fun str => r <- call (lockRegion str cur) ;; ret (io_result r)).
Definition sys_unlockSharedRegion (cur : Z) (tf : trapframe) : M pst sysres :=
  nm <- arg tf 1 ;; with_string cur nm (fun str => r <- call (unlockRegion str cur) ;; ret (SRet r)).

(** ** Dispatch *)

(** The current process, its thread and the thread's name. *)
Record caller := mkCaller { c_proc : Z; c_thread : Z; c_name : list Z }.

(** The table [syscalls]. *)
Definition syscalls (num : Z) (c : caller) (tf : trapframe) : option (M pst sysres) :=
  let cur := c_proc c in
  match num with
  | 1 => Some (sys_fork cur (c_thread c) (c_name c))
  | 2 => Some (sys_spawn cur tf)
  | 3 => Some (sys_wait cur tf)
  | 4 => Some (sys_exit cur (c_thread c) tf)
  | 5 => Some (sys_getpid cur)
  | 6 => Some sys_sleep
  | 7 => Some (sys_open cur tf)
  | 8 => Some (sys_close cur tf)
  | 9 => Some (sys_read cur tf)
  | 10 => Some (sys_write cur tf)
  | 11 => Some (sys_link cur tf)
  | 12 => Some (sys_unlink cur tf)
  | 13 => Some (sys_mkdir cur tf)
  | 14 => Some (sys_chdir cur tf)
  | 15 => Some sys_readdir
  | 16 => Some (sys_rmdir cur tf)
  | 17 => Some (sys_fstat cur tf)
  | 18 => Some (sys_sbrk cur tf)
  | 19 => Some (sys_meminfo cur)
  | 20 => Some (sys_dup cur tf)
  | 21 => Some (sys_pipe cur tf)
  | 22 => Some (sys_info cur tf)
  | 23 => Some sys_halt
  | 24 => Some (sys_createSharedRegion cur tf)
  | 25 => Some (sys_destroySharedRegion cur tf)
  | 26 => Some (sys_createMapping cur tf)
  | 27 => Some (sys_destroyMapping cur tf)
  | 28 => Some (sys_lockSharedRegion cur tf)
  | 29 => Some (sys_unlockSharedRegion cur tf)
  | _ => None
  end.
Definition NELEM_syscalls : Z := 30.

Definition syscall (num : Z) (c : caller) (tf : trapframe) : M pst sysres :=
  kassert (negb (c_proc c =? 0)) ;;
  if (0 <? num) && (num <? NELEM_syscalls) then
    match syscalls num c tf with Some h => h | None => stop Panic end
  else stop Panic.

(** [x86_64_syscall_trap_handler]: the number is in rax, as an [int]. *)
Definition syscall_trap (c : caller) (tf : trapframe) : M pst sysres := syscall (s32 (rax tf)) c tf.

End model.

(** ** Properties *)

Section properties.
Context {A : Type} `{!ObjAlloc A} {K : Type} `{!KView K, !ProcServices K, !UserMem K, !SysServices K}.
Local Notation pst := (pst A K).

(** The invariant of Proc.v and ProcOps.v, with the first process in the table. *)
Definition sinv (s : pst) : Prop := inv [] s /\ exists i y, i ∈ ptable s /\ procs s !! i = Some y /\ pid y = 0.

(** The process can make a system call. *)
Definition ready (cur : Z) (s : pst) : Prop := cur ∈ ptable s /\ asleep s !! cur = None /\ usable (svc s) cur.

Lemma sinv_svc s k : sinv s -> kok k -> view k = view (svc s) -> sinv (set_svc k s).
Proof. intros [I H] ? ?. split; [by apply inv_svc|done]. Qed.

Lemma wp_stays {B} (m : M K B) P (s : pst) : stays m (svc s) P -> wp (call m) (fun b s' => exists k, s' = set_svc k s /\ kok k /\ P b (view k) /\
  forall p, regions k p = regions (svc s) p /\ (usable (svc s) p -> usable k p)) s.
Proof. intros H. apply wp_zoom. eapply wp_mono; [apply H|]. intros b k (? & ? & ?). eauto. Qed.

(** A handler that ends with a service that concerns no process. *)
Lemma call_end {B} (m : M K B) (f : B -> sysres) (s : pst) : sinv s -> yields m (svc s) (fun _ v => v = view (svc s)) ->
  wp (r <- call m ;; ret (f r)) (fun _ => sinv) s.
Proof. intros I H. eapply wp_call; [by apply wp_svc|]. intros r s' (k & -> & Hk & Hv). by apply wp_ret, sinv_svc. Qed.

Lemma ready_proc cur s : inv [] s -> ready cur s -> exists x, procs s !! cur = Some x /\ length (files x) = 128%nat /\ cur ∈ spaces (view (svc s)) /\ cur <> 0.
Proof.
  intros (T & R & _) (Hc & _). destruct (t_live _ _ _ _ _ T cur) as (x & Hx & _); [by rewrite app_nil_r|]. exists x. split_and!; [done| | |].
  - apply (r_len _ _ _ _ _ R cur); [by rewrite app_nil_r|done].
  - rewrite (r_spaces _ _ _ _ _ R), app_nil_r. set_solver.
  - intros ->. rewrite (t_null _ _ _ _ _ T) in Hx. done.
Qed.

(** ** The checks *)

Lemma find_memregion_in l a n r : find_memregion l a n = Some r -> r ∈ l /\ r.1 <= a.
Proof.
  induction l as [|[st e] l IH]; simpl; [done|]. destruct (_ && _) eqn:E.
  - intros [= <-]. apply andb_true_iff in E as [?%Z.leb_le _]. split; [left|done].
  - intros [? ?]%IH. split; [by right|done].
Qed.

Lemma str_loop_ok n cur a (s : pst) : (forall b, a <= b < a + Z.of_nat n -> is_Some (ubyte (svc s) cur b)) ->
  exists r, str_loop n cur a s = Ret r s /\ (r = true -> exists l, str_bytes n cur a s = Ret l s).
Proof.
  revert a. induction n as [|n IH]; intros a H; [by exists false|].
  destruct (H a) as [c Hc]; [lia|]. destruct (IH (a + 1)) as (r & Hr & Hl); [intros b Hb; apply H; lia|].
  assert (E : load_user cur a s = Ret c s) by (unfold load_user; by rewrite bind_gets, Hc). cbn [str_loop str_bytes].
  rewrite !(bind_Ret _ _ _ _ _ E). destruct (c =? 0); [exists true; eauto|]. exists r. split; [done|]. intros ->.
  destruct Hl as [l Hl]; [done|]. rewrite (bind_Ret _ _ _ _ _ Hl). by eexists.
Qed.


(** The check of a string finds out whether it can be read. *)
Lemma validate_str_ok cur a (s : pst) : usable (svc s) cur ->
  exists b, validate_str cur a s = Ret b s /\ (b = true -> exists l, user_string cur a s = Ret l s).
Proof.
  intros Hu. unfold validate_str, user_string. rewrite !bind_gets. destruct (find_memregion _ _ _) as [r|] eqn:E; [|by exists false].
  apply find_memregion_in in E as [Hin Hst]. destruct r as [st e]. apply str_loop_ok. intros b Hb. eapply usable_byte; [done|done|]. simpl in *. lia.
Qed.

Lemma with_string_ok cur a k (Q : sysres -> pst -> Prop) s : usable (svc s) cur -> Q (SRet ERR_FAULT) s ->
  (forall l, user_string cur a s = Ret l s -> wp (k l) Q s) -> wp (with_string cur a k) Q s.
Proof.
  intros Hu Hf Hk. destruct (validate_str_ok cur a s Hu) as (b & Eb & Hb). unfold wp, with_string. rewrite (bind_Ret _ _ _ _ _ Eb).
  destruct b; [|done]. destruct Hb as [l Hl]; [done|]. simpl. rewrite (bind_Ret _ _ _ _ _ Hl). by apply Hk.
Qed.

Lemma validate_bufptr_ok cur a n (s : pst) : exists b, validate_bufptr cur a n s = Ret b s /\ (b = true <-> covers (svc s) cur a n).
Proof.
  unfold validate_bufptr, covers. destruct (Z.ltb_spec (u64 (a + n)) a) as [H|H]; [exists false; split; [done|]; split; [done|lia]|].
  rewrite bind_gets. destruct (find_memregion _ _ _).
  - exists true. split; [done|]. split; [|done]. split; [done|by eexists].
  - exists false. split; [done|]. split; [done|]. by intros [_ [? ?]].
Qed.

(** The handlers that begin with the check of a buffer. *)
Lemma with_buffer_ok {B} cur a n (k1 k2 : M pst B) (Q : B -> pst -> Prop) s : wp k1 Q s -> (covers (svc s) cur a n -> wp k2 Q s) ->
  wp (b <- validate_bufptr cur a n ;; if negb b then k1 else k2) Q s.
Proof.
  intros H1 H2. destruct (validate_bufptr_ok cur a n s) as (b & Eb & Hb). unfold wp. rewrite (bind_Ret _ _ _ _ _ Eb).
  destruct b; [|done]. by apply H2, Hb.
Qed.

Lemma alloc_fd_loop_ok l i : 0 <= i -> alloc_fd_loop l i = -1 /\ 0 ∉ l \/
  i <= alloc_fd_loop l i /\ l !! Z.to_nat (alloc_fd_loop l i - i) = Some 0.
Proof.
  revert i. induction l as [|f l IH]; intros i Hi; simpl; [left; split; [done|apply not_elem_of_nil]|].
  destruct (Z.eqb_spec f 0) as [->|Hf]; [right; split; [lia|]; by rewrite Z.sub_diag|].
  destruct (IH (i + 1)) as [[-> Hn]|[Hle Hl]]; [lia|left; split; [done|]; by apply not_elem_of_cons|right]. split; [lia|].
  replace (Z.to_nat (alloc_fd_loop l (i + 1) - i)) with (S (Z.to_nat (alloc_fd_loop l (i + 1) - (i + 1)))) by lia. done.
Qed.

Lemma alloc_fd_ok x : alloc_fd x = -1 \/ 0 <= alloc_fd x /\ files x !! Z.to_nat (alloc_fd x) = Some 0.
Proof. unfold alloc_fd. destruct (alloc_fd_loop_ok (files x) 0) as [[? _]|[? H]]; [lia|by left|right]. by rewrite Z.sub_0_r in H. Qed.

Lemma validate_fd_ok fd x : length (files x) = 128%nat -> validate_fd fd x = true ->
  exists f, files x !! Z.to_nat fd = Some f /\ f <> 0 /\ 0 <= fd < PROC_MAX_FILE.
Proof.
  intros Hl H. unfold validate_fd in H. apply negb_true_iff, orb_false_iff in H as [[?%Z.ltb_ge ?%Z.leb_gt]%orb_false_iff Hf%Z.eqb_neq].
  destruct (files x !! Z.to_nat fd) as [f|] eqn:E; [|done]. eauto.
Qed.

(** A file with a descriptor of a live process can be used. *)
Lemma slot_open cur x f (s : pst) : inv [] s -> cur ∈ ptable s -> procs s !! cur = Some x -> f ∈ files x -> f <> 0 -> open_file (svc s) f.
Proof.
  intros (_ & R & _) Hc Hx Hf H0. destruct (decide (f = stdin)); [by left|]. destruct (decide (f = stdout)); [by right; left|]. right; right.
  destruct (res_ref _ _ _ _ _ cur x f R) as (_ & ?); [by rewrite app_nil_r|done|done|done|]. eauto.
Qed.

(** ** Descriptors *)

(** A descriptor changes together with the reference counts. *)
Lemma slot_ok cur x i g f k n (s : pst) : sinv s -> cur ∈ ptable s -> procs s !! cur = Some x -> files x !! i = Some g ->
  kok k -> view k = with_frefs n (view (svc s)) ->
  (forall h, owned h -> let c := tot (slots h) (procs s) (ptable s) + (if f =? h then 1 else 0) - (if g =? h then 1 else 0) in 0 < c -> n !! h = Some c) ->
  sinv (set_svc k (set_procs (<[cur := set_files (<[i := f]> (files x)) x]> (procs s)) s)).
Proof.
  intros [(T & R & Hk0) (j & y & Hj & Hy & Hy0)] Hc Hx Hg Hk Hv Hn. split.
  - split_and!; [by eapply tree_same| |done]. simpl. rewrite Hv. eapply res_slot; eauto.
    + by apply (t_nodup _ _ _ _ _ T).
    + by rewrite app_nil_r.
    + by rewrite app_nil_r.
  - simpl. destruct (decide (j = cur)) as [->|].
    + eexists cur, _. split; [done|]. rewrite lookup_insert_eq. split; [done|]. simpl. congruence.
    + exists j, y. by rewrite lookup_insert_ne.
Qed.

(** ** Processes *)

(** The next argument. *)
Ltac sarg := eapply wp_bind, wp_of_option; [reflexivity|].

(** Fewer than 2^31 processes have been created and fewer than 2^23 are alive. *)
Definition small (s : pst) : Prop := pid_allocator s + 1 < 2 ^ 31 /\ Z.of_nat (length (ptable s)) < 2 ^ 23.

Definition has_init (s : pst) : Prop := exists i y, i ∈ ptable s /\ procs s !! i = Some y /\ pid y = 0.

Lemma init_same s s' : has_init s -> ptable s' = ptable s -> procs s' = procs s -> has_init s'.
Proof. intros (i & y & ? & ? & ?) E1 E2. exists i, y. by rewrite E1, E2. Qed.

Lemma init_born cur p y (s s' : pst) : has_init s -> born cur p y s s' -> has_init s'.
Proof.
  intros (i & z & Hi & Hz & Hz0) (Hnew & Ept & _ & x & Hx & Ep). assert (i <> p) by congruence. unfold has_init. rewrite Ept, Ep.
  destruct (decide (i = cur)) as [->|].
  - eexists cur, _. split; [set_solver|]. rewrite lookup_insert_eq. split; [done|]. simpl. congruence.
  - exists i, z. rewrite !lookup_insert_ne by done. set_solver.
Qed.

Lemma born_get cur p y (s s' : pst) : born cur p y s s' -> is_Some (procs s' !! p).
Proof. intros (Hnew & _ & _ & x & Hx & ->). rewrite lookup_insert_ne, lookup_insert_eq by congruence. eauto. Qed.

Lemma sys_fork_ok cur th nm s : sinv s -> ready cur s -> small s -> wp (sys_fork cur th nm) (fun _ => sinv) s.
Proof.
  intros [I H0] (Hc & _) [Hn Hl]. unfold sys_fork. eapply wp_call; [by apply proc_fork_ok|].
  intros p s' (I' & _ & [(-> & E1 & E2)|(Hp & x & y & Hx & B & _)]).
  - apply wp_ret. split; [done|by eapply (init_same s)].
  - rewrite (proj2 (Z.eqb_neq p 0)) by done. destruct (born_get _ _ _ _ _ B) as [z Hz].
    eapply wp_bind, wp_get_proc; [exact Hz|]. apply wp_ret. split; [done|by eapply (init_born _ _ _ s)].
Qed.

(** The arguments of [spawn] fit in [argv], and there is a program name. *)
Definition spawn_args (str : list Z) : Prop := split_args [] str <> [] /\ Z.of_nat (length (split_args [] str)) <= PROC_MAX_ARG.

(** Every token but the first is preceded by a space. *)
Lemma split_args_length tok l : Z.of_nat (length (split_args tok l)) <= (Z.of_nat (length l) + match tok with [] => 1 | _ => 2 end) / 2.
Proof.
  revert tok. induction l as [|c l IH]; intros tok; [by destruct tok|]. cbn [split_args length].
  rewrite Nat2Z.inj_succ. destruct (c =? 32).
  - specialize (IH []). simpl in IH. destruct tok; cbn [length]; [|rewrite Nat2Z.inj_succ].
    + etransitivity; [apply IH|]. apply Z.div_le_mono; lia.
    + replace (Z.succ (Z.of_nat (length l)) + 2) with (Z.of_nat (length l) + 1 + 1 * 2) by lia. rewrite Z.div_add by lia. lia.
  - specialize (IH (tok ++ [c])). destruct (tok ++ [c]) eqn:E; [by destruct tok|]. etransitivity; [apply IH|]. destruct tok; [apply Z.div_le_mono; lia|].
    apply Z.div_le_mono; lia.
Qed.

Lemma sys_spawn_ok cur tf s : sinv s -> ready cur s -> small s -> (forall str, user_string cur (rdi tf) s = Ret str s -> spawn_args str) ->
  wp (sys_spawn cur tf) (fun _ => sinv) s.
Proof.
  intros I (Hc & Hs & Hu) [Hn _] Ha. unfold sys_spawn. sarg. apply with_string_ok; [done|done|]. intros str Hstr. destruct (Ha str Hstr) as [Hne Hmax].
  eapply wp_call; [apply wp_svc, kmalloc_spec, I|]. intros b s1 (k1 & -> & Hk1 & Hv1). pose proof (sinv_svc _ _ I Hk1 Hv1) as I1.
  destruct b; [|by apply wp_ret]. simpl.
  eapply wp_call; [apply wp_svc, kmalloc_spec, I1|]. intros b s2 (k2 & -> & Hk2 & Hv2). pose proof (sinv_svc _ _ I1 Hk2 Hv2) as I2.
  destruct b; [|by apply wp_ret]. simpl negb. cbn iota.
  pose proof (split_args_length [] str) as Hlen. simpl in Hlen.
  destruct (Z.ltb_spec (if (Z.of_nat (length str) + 1) / 2 <? PROC_MAX_ARG then (Z.of_nat (length str) + 1) / 2 else PROC_MAX_ARG) (Z.of_nat (length (split_args [] str)))) as [H|_];
    [destruct (_ <? PROC_MAX_ARG); lia|].
  destruct (split_args [] str) as [|nm argv]; [done|].
  eapply wp_call; [apply proc_spawn_ok; [apply I2|done|done]|]. intros r s3 (I3 & _ & [(Hr & E1 & E2)|(-> & y & B & _)]).
  - rewrite (proj2 (Z.eqb_neq r.1 ERR_OK)) by done. apply wp_ret. split; [done|]. apply (init_same (set_svc k2 (set_svc k1 s))); [apply I2|done|done].
  - destruct (born_get _ _ _ _ _ B) as [z Hz]. eapply wp_bind, wp_get_proc; [exact Hz|]. apply wp_ret. split; [done|]. eapply init_born; [apply I2|exact B].
Qed.

(** The status pointer of a wait can be stored through. *)
Definition status_ok (cur a : Z) (s : pst) : Prop := usable (svc s) cur /\ (a = 0 \/ covers (svc s) cur a 4).

Lemma finish_wait_ok cur a w s : sinv s -> status_ok cur a s -> wp (finish_wait cur a w) (fun _ => sinv) s.
Proof.
  intros I [Hu Ha]. destruct w as [r st|]; [|by apply wp_ret]. cbn [finish_wait].
  destruct (negb (r =? ERR_CHILD) && negb (a =? 0)) eqn:E; [|by apply wp_bind, wp_ret, wp_ret].
  apply andb_true_iff in E as [_ H0%negb_true_iff%Z.eqb_neq]. destruct Ha as [|Ha]; [done|].
  eapply wp_call; [by apply wp_stays, ustore_spec; [apply I|..]|]. intros [] s' (k & -> & Hk & Hv & _). by apply wp_ret, sinv_svc.
Qed.

Lemma init_reaped cur c (s : pst) r s' : inv [] s -> has_init s -> reaped cur c s r s' -> has_init s'.
Proof.
  intros (T & _) (i & z & Hi & Hz & Hz0) (x & y & Hx & Hy & Hd & _ & Ep & Ept & _). unfold has_init. rewrite Ept, Ep.
  destruct (t_live _ _ _ _ _ T i) as (z' & Hz' & Ha); [by rewrite app_nil_r|]. assert (i <> c) by (intros ->; congruence).
  destruct (decide (i = cur)) as [->|].
  - eexists cur, _. split; [done|]. rewrite lookup_delete_ne, lookup_insert_eq by done. split; [done|]. simpl. congruence.
  - exists i, z. by rewrite lookup_delete_ne, lookup_insert_ne by done.
Qed.

Lemma init_slept cur c (s : pst) r s' : has_init s -> slept cur c s r s' -> has_init s'.
Proof.
  intros (i & z & Hi & Hz & Hz0) (y & Hy & _ & _ & _ & Ept & Ep & _). unfold has_init. rewrite Ept, Ep.
  destruct (decide (i = c)) as [->|]; [|exists i, z; by rewrite lookup_insert_ne].
  eexists c, _. split; [done|]. rewrite lookup_insert_eq. split; [done|]. simpl. congruence.
Qed.

Lemma sys_wait_ok cur tf s : sinv s -> ready cur s -> wp (sys_wait cur tf) (fun _ => sinv) s.
Proof.
  intros [I H0] Hr. destruct (ready_proc cur s I Hr) as (x & Hx & _). destruct Hr as (Hc & Hs & Hu). unfold sys_wait. sarg. sarg.
  apply with_buffer_ok; [by apply wp_ret|]. intros Hcov. eapply wp_call; [by eapply proc_wait_ok|].
  intros w s' (I' & [(_ & -> & ->)|(c & _ & [H|H])]); apply finish_wait_ok; try done.
  - by split; [|right].
  - split; [done|by eapply (init_reaped _ _ s)].
  - destruct H as (? & ? & _ & _ & _ & _ & _ & _ & _ & E). split; rewrite E; auto.
  - split; [done|by eapply (init_slept _ _ s)].
  - destruct H as (? & _ & _ & _ & _ & _ & _ & E). split; rewrite E; auto.
Qed.

Lemma sys_wait_woken_ok cur a z s : sinv s -> asleep s !! cur = Some z -> s_woken z = true -> status_ok cur a s -> wp (sys_wait_woken cur a) (fun _ => sinv) s.
Proof.
  intros [I H0] Hz Hw [Hu Ha]. eapply wp_call; [by eapply wait_resume_ok|]. intros w s' (I' & H). apply finish_wait_ok.
  - split; [done|by eapply (init_reaped _ _ s)].
  - destruct H as (? & ? & _ & _ & _ & _ & _ & _ & _ & E). unfold status_ok. by rewrite E.
Qed.

(** The first process does not exit, and no status is the mark of the living. *)
Definition exit_args (cur status : Z) (s : pst) : Prop :=
  s32 status <> STATUS_ALIVE /\ forall x, procs s !! cur = Some x -> pid x <> 0.

Lemma sys_exit_ok cur th tf s : sinv s -> ready cur s -> small s -> exit_args cur (rdi tf) s -> wp (sys_exit cur th tf) (fun _ => sinv) s.
Proof.
  intros [I (i & y & Hi & Hy & Hy0)] Hr [_ Hl] [Hst Hx0]. destruct (ready_proc cur s I Hr) as (x & Hx & _). destruct Hr as (Hc & Hs & _).
  unfold sys_exit. sarg. eapply wp_bind, wp_get_proc; [exact Hx|]. destruct (pid x =? 1); [apply wp_ret; split; [done|by exists i, y]|].
  eapply wp_call; [eapply (proc_exit_ok cur th (s32 (rdi tf)) i x y); eauto|]. intros [] s' (I' & Ept & (_ & Ei & _) & _). apply wp_ret.
  split; [done|]. exists i, (adopter (<[cur := set_threads (filter (fun u => u <> th) (threads x)) x]> (procs s)) (set_threads (filter (fun u => u <> th) (threads x)) x) y).
  split_and!; [|done|done]. rewrite Ept. apply list_elem_of_filter. split; [|done]. intros ->. specialize (Hx0 x Hx). congruence.
Qed.

(** ** Files *)

(** A file that is not allocated has no descriptor. *)
Lemma no_slots f (s : pst) : inv [] s -> owned f -> frefs (view (svc s)) !! f = None -> tot (slots f) (procs s) (ptable s) <= 0.
Proof.
  intros (_ & R & _) Ho Hf. pose proof (r_files _ _ _ _ _ R f Ho) as H. rewrite app_nil_r in H.
  destruct (Z.le_gt_cases (tot (slots f) (procs s) (ptable s)) 0) as [?|H1]; [done|]. rewrite H in Hf by lia. done.
Qed.
Lemma slots_nonneg f (s : pst) l : 0 <= tot (slots f) (procs s) l.
Proof. induction l; simpl; [lia|]. unfold of_proc. destruct (procs s !! _) as [x|]; [pose proof (slots_bound f x)|]; lia. Qed.

(** A new file is put in an empty slot. *)
Lemma new_slot_ok cur x i f k (s : pst) : sinv s -> cur ∈ ptable s -> procs s !! cur = Some x -> files x !! i = Some 0 -> kok k ->
  owned f -> frefs (view (svc s)) !! f = None -> view k = with_frefs (<[f := 1]> (frefs (view (svc s)))) (view (svc s)) ->
  sinv (set_svc k (set_procs (<[cur := set_files (<[i := f]> (files x)) x]> (procs s)) s)).
Proof.
  intros I Hc Hx Hi Hk Ho Hf Hv. eapply slot_ok; eauto. intros h Hh c. unfold c. rewrite (proj2 (Z.eqb_neq 0 h)) by (destruct Hh; congruence).
  destruct (Z.eqb_spec f h) as [->|Hfh].
  - pose proof (no_slots h s (proj1 I) Ho Hf). pose proof (slots_nonneg h s (ptable s)). intros _. rewrite lookup_insert_eq. f_equal. lia.
  - rewrite lookup_insert_ne, Z.add_0_r, Z.sub_0_r by done. intros H0. destruct I as [(_ & R & _) _].
    pose proof (r_files _ _ _ _ _ R h Hh) as H. rewrite app_nil_r in H. auto.
Qed.

Lemma sys_open_ok cur tf s : sinv s -> ready cur s -> wp (sys_open cur tf) (fun _ => sinv) s.
Proof.
  intros I Hr. destruct (ready_proc cur s (proj1 I) Hr) as (x & Hx & _). destruct Hr as (Hc & Hs & Hu). unfold sys_open. do 3 sarg.
  apply with_string_ok; [done|done|]. intros str _. eapply wp_bind, wp_get_proc; [exact Hx|].
  destruct (alloc_fd_ok x) as [->|[Hfd Hslot]]; [by apply wp_ret|]. rewrite (proj2 (Z.eqb_neq (alloc_fd x) (-1))) by lia.
  eapply wp_call; [apply wp_svc, open_spec, I|]. intros r s1 (k & -> & Hk & Hv). destruct (Z.eqb_spec r.1 ERR_OK) as [E|E].
  - rewrite decide_True in Hv by done. destruct Hv as (Ho & Hf & Hv). eapply wp_bind, wp_upd_proc; [exact Hx|]. apply wp_ret.
    exact (new_slot_ok cur x _ _ k s I Hc Hx Hslot Hk Ho Hf Hv).
  - rewrite decide_False in Hv by done. by apply wp_ret, sinv_svc.
Qed.

Lemma slots_small f (s : pst) : inv [] s -> small s -> tot (slots f) (procs s) (ptable s) < 2 ^ 30 + 1.
Proof.
  intros (_ & R & _) [_ Hl]. enough (0 <= tot (slots f) (procs s) (ptable s) <= 128 * Z.of_nat (length (ptable s))) by lia.
  apply tot_bound; [|lia]. intros p x Hp Hx. pose proof (slots_bound f x). pose proof (r_len _ _ _ _ _ R p x) as HL. rewrite app_nil_r in HL. specialize (HL Hp Hx). lia.
Qed.

Lemma sys_close_ok cur tf s : sinv s -> ready cur s -> small s -> wp (sys_close cur tf) (fun _ => sinv) s.
Proof.
  intros I Hr Hsm. destruct (ready_proc cur s (proj1 I) Hr) as (x & Hx & Hlen & _). destruct Hr as (Hc & Hs & Hu). unfold sys_close. sarg.
  eapply wp_bind, wp_get_proc; [exact Hx|]. destruct (validate_fd _ x) eqn:Ev; [|by apply wp_ret]. simpl.
  destruct (validate_fd_ok _ _ Hlen Ev) as (f & Hf & Hf0 & Hfd). rewrite Hf. simpl. pose proof (list_elem_of_lookup_2 _ _ _ Hf) as Hin.
  pose proof (slot_open cur x f s (proj1 I) Hc Hx Hin Hf0) as Hopen.
  eapply wp_call; [apply wp_svc, pipe_dec_spec; [apply I|done]|]. intros [] s1 (k1 & -> & Hk1 & Hv1).
  pose proof (proj1 I) as J. pose proof J as (_ & R & _). destruct (decide (owned f)) as [Ho|Ho].
  - destruct (res_ref _ _ _ _ _ cur x f R) as (Ht & Hr); [by rewrite app_nil_r|done..|]. rewrite app_nil_r in Ht, Hr. pose proof (slots_small f s J Hsm).
    eapply wp_call; [apply wp_svc, (close_spec _ _ (tot (slots f) (procs s) (ptable s))); simpl; [done|by rewrite Hv1|lia]|].
    intros [] s2 (k2 & -> & Hk2 & Hv2). simpl in Hv2. rewrite Hv1 in Hv2. eapply wp_bind, wp_upd_proc; [exact Hx|]. apply wp_ret.
    refine (slot_ok cur x _ f 0 k2 _ s I Hc Hx Hf Hk2 Hv2 _). intros h Hh c. unfold c. rewrite (proj2 (Z.eqb_neq 0 h)) by (destruct Hh; congruence).
    destruct (Z.eqb_spec f h) as [->|Hfh].
    + intros Hp. rewrite (proj2 (Z.eqb_neq _ 1)) by lia. rewrite lookup_insert_eq. f_equal. lia.
    + rewrite Z.add_0_r, Z.sub_0_r. intros H0. pose proof (r_files _ _ _ _ _ R h Hh) as HF. rewrite app_nil_r in HF. specialize (HF H0).
      destruct (_ =? 1); [by rewrite lookup_delete_ne|by rewrite lookup_insert_ne].
  - assert (Hstd : f = stdin \/ f = stdout) by (unfold owned in Ho; destruct (decide (f = stdin)), (decide (f = stdout)); tauto).
    eapply wp_call; [apply wp_svc, close_std; done|]. intros [] s2 (k2 & -> & Hk2 & Hv2). simpl in Hv2. rewrite Hv1 in Hv2.
    eapply wp_bind, wp_upd_proc; [exact Hx|]. apply wp_ret.
    refine (slot_ok cur x _ f 0 k2 (frefs (view (svc s))) s I Hc Hx Hf Hk2 _ _); [by rewrite Hv2; destruct (view (svc s))|].
    intros h Hh c. unfold c. rewrite (proj2 (Z.eqb_neq 0 h)) by (destruct Hh; congruence). rewrite (proj2 (Z.eqb_neq f h)) by (by intros ->). rewrite Z.add_0_r, Z.sub_0_r.
    intros H0. pose proof (r_files _ _ _ _ _ R h Hh) as HF. rewrite app_nil_r in HF. auto.
Qed.

Lemma sys_dup_ok cur tf s : sinv s -> ready cur s -> small s -> wp (sys_dup cur tf) (fun _ => sinv) s.
Proof.
  intros I Hr Hsm. destruct (ready_proc cur s (proj1 I) Hr) as (x & Hx & Hlen & _). destruct Hr as (Hc & Hs & Hu). unfold sys_dup. sarg.
  eapply wp_bind, wp_get_proc; [exact Hx|]. destruct (validate_fd _ x) eqn:Ev; [|by apply wp_ret]. simpl.
  destruct (validate_fd_ok _ _ Hlen Ev) as (f & Hf & Hf0 & Hfd). rewrite Hf. simpl. pose proof (list_elem_of_lookup_2 _ _ _ Hf) as Hin.
  destruct (alloc_fd_ok x) as [->|[Hi Hslot]]; [by apply wp_ret|]. rewrite (proj2 (Z.eqb_neq (alloc_fd x) (-1))) by lia.
  pose proof (slot_open cur x f s (proj1 I) Hc Hx Hin Hf0) as Hopen.
  eapply wp_call; [apply wp_svc, pipe_inc_spec; [apply I|done]|]. intros [] s1 (k1 & -> & Hk1 & Hv1).
  eapply wp_bind, wp_upd_proc; [exact Hx|]. pose proof (proj1 I) as J. pose proof J as (_ & R & _). destruct (decide (owned f)) as [Ho|Ho].
  - destruct (res_ref _ _ _ _ _ cur x f R) as (Ht & Hr); [by rewrite app_nil_r|done..|]. rewrite app_nil_r in Ht, Hr. pose proof (slots_small f s J Hsm).
    eapply wp_call; [apply wp_svc, (reopen_spec _ _ (tot (slots f) (procs s) (ptable s))); simpl; [done|by rewrite Hv1|lia]|].
    intros [] s2 (k2 & -> & Hk2 & Hv2). simpl in Hv2. rewrite Hv1 in Hv2. apply wp_ret.
    refine (slot_ok cur x _ 0 f k2 _ s I Hc Hx Hslot Hk2 Hv2 _). intros h Hh c. unfold c. rewrite (proj2 (Z.eqb_neq 0 h)) by (destruct Hh; congruence).
    destruct (Z.eqb_spec f h) as [->|Hfh]; [intros _; rewrite lookup_insert_eq; f_equal; lia|].
    rewrite Z.add_0_r, Z.sub_0_r, lookup_insert_ne by done. intros H0. pose proof (r_files _ _ _ _ _ R h Hh) as HF. rewrite app_nil_r in HF. auto.
  - assert (Hstd : f = stdin \/ f = stdout) by (unfold owned in Ho; destruct (decide (f = stdin)), (decide (f = stdout)); tauto).
    eapply wp_call; [apply wp_svc, reopen_std; done|]. intros [] s2 (k2 & -> & Hk2 & Hv2). simpl in Hv2. rewrite Hv1 in Hv2. apply wp_ret.
    refine (slot_ok cur x _ 0 f k2 (frefs (view (svc s))) s I Hc Hx Hslot Hk2 _ _); [by rewrite Hv2; destruct (view (svc s))|].
    intros h Hh c. unfold c. rewrite (proj2 (Z.eqb_neq 0 h)) by (destruct Hh; congruence). rewrite (proj2 (Z.eqb_neq f h)) by (by intros ->). rewrite Z.add_0_r, Z.sub_0_r.
    intros H0. pose proof (r_files _ _ _ _ _ R h Hh) as HF. rewrite app_nil_r in HF. auto.
Qed.

(** A register that holds a descriptor of the table. *)
Lemma s32_fd fd : 0 <= fd < 2 ^ 32 -> 0 <= s32 fd < PROC_MAX_FILE -> s32 fd = fd.
Proof.
  intros H. unfold s32, swrap. rewrite wrap_small by done. unfold PROC_MAX_FILE. destruct (Z.ltb_spec fd (2 ^ (32 - 1))); lia.
Qed.

Lemma file_at_in x fd : 0 <= fd < PROC_MAX_FILE -> file_at x fd = files x !! Z.to_nat fd.
Proof. intros [? ?]. unfold file_at. by rewrite (proj2 (Z.leb_le _ _)), (proj2 (Z.ltb_lt _ _)) by done. Qed.

Lemma sys_read_ok cur tf s : sinv s -> ready cur s -> 0 <= rdi tf < 2 ^ 32 -> wp (sys_read cur tf) (fun _ => sinv) s.
Proof.
  intros I Hr Hfd. destruct (ready_proc cur s (proj1 I) Hr) as (x & Hx & Hlen & _). destruct Hr as (Hc & Hs & Hu). unfold sys_read. do 3 sarg.
  apply with_buffer_ok; [by apply wp_ret|]. intros Hcov. eapply wp_bind, wp_get_proc; [exact Hx|]. destruct (validate_fd _ x) eqn:Ev; [|by apply wp_ret]. simpl.
  destruct (validate_fd_ok _ _ Hlen Ev) as (f & Hf & Hf0 & Hlt). pose proof (s32_fd _ Hfd Hlt) as E32. rewrite E32 in *. rewrite (file_at_in x _ Hlt), Hf. sarg. simpl.
  apply call_end; [done|]. apply read_spec; [apply I|done| |done]. eapply slot_open; eauto; [apply I|by eapply list_elem_of_lookup_2].
Qed.

Lemma sys_write_ok cur tf s : sinv s -> ready cur s -> wp (sys_write cur tf) (fun _ => sinv) s.
Proof.
  intros I Hr. destruct (ready_proc cur s (proj1 I) Hr) as (x & Hx & Hlen & _). destruct Hr as (Hc & Hs & Hu). unfold sys_write. do 3 sarg.
  apply with_buffer_ok; [by apply wp_ret|]. intros Hcov. eapply wp_bind, wp_get_proc; [exact Hx|]. destruct (validate_fd _ x) eqn:Ev; [|by apply wp_ret]. simpl.
  destruct (validate_fd_ok _ _ Hlen Ev) as (f & Hf & Hf0 & _). rewrite Hf. simpl.
  apply call_end; [done|]. apply write_spec; [apply I|done| |done]. eapply slot_open; eauto; [apply I|by eapply list_elem_of_lookup_2].
Qed.

(** The handlers of one path that only call the file system. *)
Lemma sys_path_ok {B} cur a (f : list Z -> M K B) g s : sinv s -> ready cur s -> (forall k l, kok k -> yields (f l) k (fun _ v => v = view k)) ->
  wp (with_string cur a (fun str => r <- call (f str) ;; ret (g r))) (fun _ => sinv) s.
Proof. intros I (_ & _ & Hu) Hf. apply with_string_ok; [done|done|]. intros str _. apply call_end; [done|]. apply Hf, I. Qed.

Lemma sys_link_ok cur tf s : sinv s -> ready cur s -> wp (sys_link cur tf) (fun _ => sinv) s.
Proof.
  intros I Hr. unfold sys_link. do 2 sarg. apply with_string_ok; [apply Hr|done|]. intros o _.
  apply (sys_path_ok cur _ (fs_link o)); [done|done|]. intros; by apply link_spec.
Qed.

(** The current directory changes together with its references. *)
Lemma cwd_ok cur x i k (s : pst) : sinv s -> cur ∈ ptable s -> procs s !! cur = Some x -> kok k ->
  (spaces (view k), frefs (view k)) = (spaces (view (svc s)), frefs (view (svc s))) ->
  (forall j, iref j (view k) = iref j (view (svc s)) + (if i =? j then 1 else 0) - (if cwd x =? j then 1 else 0)) ->
  sinv (set_svc k (set_procs (<[cur := set_cwd i x]> (procs s)) s)).
Proof.
  intros [(T & R & _) (j & y & Hj & Hy & Hy0)] Hc Hx Hk [E1 E2]%pair_eq Hv. pose proof (t_nodup _ _ _ _ _ T) as Hnd.
  assert (Hcur : cur ∈ ptable s ++ []) by (by rewrite app_nil_r). split.
  - split_and!; [by eapply tree_same| |done]. simpl. destruct R. split; try done.
    + rewrite r_olive0. by erewrite dom_update.
    + by rewrite E1.
    + intros p z Hp Hz. mcase; eauto.
    + intros f Hf. assert (Et : tot (slots f) (<[cur := set_cwd i x]> (procs s)) (ptable s ++ []) = tot (slots f) (procs s) (ptable s ++ [])).
      { rewrite (tot_insert _ _ _ _ x) by done. change (slots f (set_cwd i x)) with (slots f x). lia. }
      rewrite Et, E2. auto.
    + intros l. rewrite (tot_insert _ _ _ _ x), Hv by done. specialize (r_cwd0 l). unfold holds at 2 3. cbn [cwd set_cwd]. lia.
  - simpl. destruct (decide (j = cur)) as [->|].
    + eexists cur, _. split; [done|]. rewrite lookup_insert_eq. split; [done|]. simpl. congruence.
    + exists j, y. by rewrite lookup_insert_ne.
Qed.

Lemma sys_chdir_ok cur tf s : sinv s -> ready cur s -> wp (sys_chdir cur tf) (fun _ => sinv) s.
Proof.
  intros I Hr. destruct (ready_proc cur s (proj1 I) Hr) as (x & Hx & _). destruct Hr as (Hc & Hs & Hu). unfold sys_chdir. sarg.
  apply with_string_ok; [done|done|]. intros str _. eapply wp_call; [apply wp_svc, find_inode_spec, I|]. intros r s1 (k1 & -> & Hk1 & Hv1).
  destruct (Z.eqb_spec r.1 ERR_OK) as [E|E]; simpl; [rewrite decide_True in Hv1 by done|rewrite decide_False in Hv1 by done; by apply wp_ret, sinv_svc].
  eapply wp_bind, wp_get_proc; [exact Hx|].
  assert (Hcwd : 0 < iref (cwd x) (view (svc s))).
  { pose proof (proj1 I) as (_ & R & _). pose proof (r_cwd _ _ _ _ _ R (cwd x)) as H1. rewrite app_nil_r in H1.
    pose proof (tot_elem (holds (cwd x)) _ _ cur x ltac:(intros; apply holds_bound) Hc Hx) as H2. unfold holds at 1 in H2. rewrite Z.eqb_refl in H2. lia. }
  assert (Hi : forall j, iref j (view k1) = iref j (view (svc s)) + (if r.2 =? j then 1 else 0)).
  { intros j. rewrite Hv1. unfold iref. simpl. destruct (Z.eqb_spec r.2 j) as [->|]; [by rewrite lookup_insert_eq|]. by rewrite lookup_insert_ne, Z.add_0_r by done. }
  eapply wp_call; [apply wp_svc, release_spec; [done|]; simpl; rewrite Hi; destruct (_ =? _); lia|]. intros [] s2 (k2 & -> & Hk2 & Hv2). simpl in Hv2.
  eapply wp_bind, wp_upd_proc; [exact Hx|]. apply wp_ret. refine (cwd_ok cur x r.2 k2 s I Hc Hx Hk2 _ _).
  - by rewrite Hv2, Hv1.
  - intros j. rewrite Hv2. unfold iref at 1. simpl. destruct (Z.eqb_spec (cwd x) j) as [->|]; [rewrite lookup_insert_eq; simpl; rewrite Hi; lia|].
    rewrite lookup_insert_ne by done. fold (iref j (view k1)). rewrite Hi. lia.
Qed.

Lemma sys_fstat_ok cur tf s : sinv s -> ready cur s -> 0 <= rdi tf < 2 ^ 32 -> wp (sys_fstat cur tf) (fun _ => sinv) s.
Proof.
  intros I Hr Hfd. destruct (ready_proc cur s (proj1 I) Hr) as (x & Hx & Hlen & _). destruct Hr as (Hc & Hs & Hu). unfold sys_fstat. do 2 sarg.
  apply with_buffer_ok; [by apply wp_ret|]. intros Hcov. eapply wp_bind, wp_get_proc; [exact Hx|]. destruct (validate_fd _ x) eqn:Ev; [|by apply wp_ret]. cbn [negb orb].
  destruct (_ <? 2); [by apply wp_ret|]. destruct (validate_fd_ok _ _ Hlen Ev) as (f & Hf & Hf0 & Hlt). pose proof (s32_fd _ Hfd Hlt) as E32. rewrite E32 in *. rewrite (file_at_in x _ Hlt), Hf. change (default 0 (Some f)) with f.
  destruct ((f =? stdin) || (f =? stdout)) eqn:Es; [by apply wp_ret|]. apply orb_false_iff in Es as [?%Z.eqb_neq ?%Z.eqb_neq]. sarg.
  eapply wp_call; [apply wp_stays, stat_spec; [apply I|]|].
  { destruct (slot_open cur x f s (proj1 I) Hc Hx) as [|[|]]; try done. by eapply list_elem_of_lookup_2. }
  intros [l|] s1 (k & -> & Hk & [Hv Hl] & Hmem); [|by apply wp_ret, sinv_svc]. pose proof (sinv_svc _ _ I Hk Hv) as I1. destruct (Hmem cur) as [Er Hus].
  eapply wp_call; [apply wp_stays, ustore_spec; [done|by apply Hus|]|].
  { unfold covers. simpl. rewrite (Hl l), Er by done. exact Hcov. }
  intros [] s2 (k2 & -> & Hk2 & Hv2 & _). by apply wp_ret, (sinv_svc (set_svc k s)).
Qed.

(** A pipe is set up when the memory is there; the error exits after the first
    file leave descriptors of freed files behind. *)
Lemma sys_pipe_ok cur tf s : sinv s -> ready cur s -> covers (svc s) cur (u64 (rdi tf + 4)) 4 ->
  wp (sys_pipe cur tf) (fun r s' => r <> SRet ERR_NOMEM -> sinv s') s.
Proof.
  intros I Hr Hcov2. destruct (ready_proc cur s (proj1 I) Hr) as (x & Hx & Hlen & _). destruct Hr as (Hc & Hs & Hu). unfold sys_pipe. sarg.
  apply with_buffer_ok; [by apply wp_ret|]. intros Hcov. sarg. apply with_buffer_ok; [by apply wp_ret|]. intros _.
  eapply wp_bind, wp_get_proc; [exact Hx|]. destruct (alloc_fd_ok x) as [->|[Hi Hslot]]; [by apply wp_ret|]. rewrite (proj2 (Z.eqb_neq (alloc_fd x) (-1))) by lia.
  eapply wp_call; [apply wp_stays, alloc_file_spec, I|]. intros rf s1 (k1 & -> & Hk1 & Hv1 & Hm1).
  eapply wp_bind, wp_upd_proc; [exact Hx|]. destruct (Z.eqb_spec rf 0) as [->|Hrf]; [by apply wp_ret|]. destruct Hv1 as (Ho1 & Hn1 & Hv1).
  pose proof (new_slot_ok cur x _ _ k1 s I Hc Hx Hslot Hk1 Ho1 Hn1 Hv1) as I1. set (x1 := set_files _ x) in I1 |- *.
  set (s1 := set_svc k1 (set_procs (<[cur := x1]> (procs s)) s)) in I1. change (set_procs _ _) with s1.
  assert (Hx1 : procs s1 !! cur = Some x1) by apply lookup_insert_eq. assert (Hr1 : frefs (view k1) !! rf = Some 1) by (rewrite Hv1; apply lookup_insert_eq).
  eapply wp_call; [by apply wp_stays, setup_spec|]. intros [] s2 (k2 & -> & Hk2 & Hv2 & Hm2). simpl in Hv2, Hm2.
  eapply wp_bind, wp_get_proc; [exact Hx1|]. destruct (alloc_fd_ok x1) as [->|[Hi2 Hslot2]]; [by apply wp_ret|].
  rewrite (proj2 (Z.eqb_neq (alloc_fd x1) (-1))) by lia. pose proof (sinv_svc s1 k2 I1 Hk2 Hv2) as I2.
  eapply wp_call; [apply wp_stays, alloc_file_spec, I2|]. intros wf s3 (k3 & -> & Hk3 & Hv3 & Hm3). simpl in Hv3, Hm3.
  eapply wp_bind, wp_upd_proc; [exact Hx1|]. destruct (Z.eqb_spec wf 0) as [->|Hwf].
  { eapply wp_call; [apply wp_svc, free_file_spec; [done|]; simpl; rewrite Hv3, Hv2, Hr1; eauto|]. intros [] s4 _. by apply wp_ret. }
  destruct Hv3 as (Ho3 & Hn3 & Hv3). pose proof (new_slot_ok cur x1 _ _ k3 (set_svc k2 s1) I2 Hc Hx1 Hslot2 Hk3 Ho3 Hn3 Hv3) as I3.
  set (x2 := set_files _ x1) in I3 |- *. set (s3 := set_svc k3 _) in I3. change (set_procs _ _) with s3.
  assert (Hw3 : frefs (view k3) !! wf = Some 1) by (rewrite Hv3; apply lookup_insert_eq).
  assert (Hr3 : frefs (view k3) !! rf = Some 1) by (rewrite Hv3; simpl; rewrite lookup_insert_ne, Hv2 by congruence; done).
  eapply wp_call; [by apply wp_stays, setup_spec|]. intros [] s4 (k4 & -> & Hk4 & Hv4 & Hm4). simpl in Hv4, Hm4.
  eapply wp_call; [apply wp_stays, pipe_init_spec; [done|]; simpl; rewrite Hv4, Hw3; eauto|]. intros e s5 (k5 & -> & Hk5 & Hv5 & Hm5). simpl in Hv5, Hm5. rewrite Hv4 in Hv5.
  destruct (Z.eqb_spec e ERR_OK) as [->|He]; simpl; cycle 1.
  { eapply wp_call; [apply wp_svc, free_file_spec; [done|]; simpl; rewrite Hv5, Hr3; eauto|]. intros [] s6 (k6 & -> & Hk6 & Hv6). simpl in Hv6.
    eapply wp_call; [apply wp_svc, free_file_spec; [done|]; simpl; rewrite Hv6; simpl; rewrite lookup_delete_ne, Hv5 by congruence; eauto|]. intros [] s7 _. by apply wp_ret. }
  eapply wp_call; [apply wp_stays, share_spec; simpl; rewrite ?Hv5, ?Hr3, ?Hw3; eauto|]. intros [] s6 (k6 & -> & Hk6 & Hv6 & Hm6). simpl in Hv6, Hm6. rewrite Hv5 in Hv6.
  assert (Hm : regions k6 cur = regions (svc s) cur /\ usable k6 cur).
  { destruct (Hm1 cur), (Hm2 cur), (Hm3 cur), (Hm4 cur), (Hm5 cur), (Hm6 cur). split; [congruence|auto 10]. }
  destruct Hm as [Er Hu6]. eapply wp_call; [apply wp_stays, ustore_spec; [done|done|]; unfold covers; simpl; rewrite Er; exact Hcov|].
  intros [] s7 (k7 & -> & Hk7 & Hv7 & Hm7). simpl in Hv7, Hm7. destruct (Hm7 cur) as [Er7 Hu7].
  eapply wp_call; [apply wp_stays, ustore_spec; [done|by apply Hu7|]; unfold covers; simpl; rewrite Er7, Er; exact Hcov2|].
  intros [] s8 (k8 & -> & Hk8 & Hv8 & _). simpl in Hv8. apply wp_ret. intros _. apply (sinv_svc s3 k8 I3 Hk8). simpl. congruence.
Qed.

(** ** Memory, shared regions and dispatch *)

Lemma sys_info_ok cur tf s : sinv s -> ready cur s -> wp (sys_info cur tf) (fun _ => sinv) s.
Proof.
  intros I (Hc & Hs & Hu). unfold sys_info. sarg. apply with_buffer_ok; [by apply wp_ret|]. intros Hcov. apply wp_bind, wp_gets.
  eapply wp_call; [by apply wp_stays, ustore_spec; [apply I|..]|]. intros [] s1 (k & -> & Hk & Hv & _). by apply wp_ret, sinv_svc.
Qed.

Lemma sys_create_ok cur tf s : sinv s -> ready cur s -> wp (sys_createSharedRegion cur tf) (fun _ => sinv) s.
Proof.
  intros I (Hc & Hs & Hu). unfold sys_createSharedRegion. sarg. apply with_string_ok; [done|done|]. intros str _.
  destruct (Z.leb_spec Shmms.MAX_NAME_LEN (Z.of_nat (length str))); [by apply wp_ret|]. do 2 sarg. apply call_end; [done|]. apply create_spec; [apply I|done].
Qed.

Lemma sys_map_ok cur tf s : sinv s -> ready cur s -> wp (sys_createMapping cur tf) (fun _ => sinv) s.
Proof.
  intros I Hr. destruct (ready_proc cur s (proj1 I) Hr) as (x & Hx & _ & Hsp & _). destruct Hr as (Hc & Hs & Hu). unfold sys_createMapping. sarg.
  apply with_string_ok; [done|done|]. intros str _. sarg. apply with_buffer_ok; [by apply wp_ret|]. intros Hcov.
  eapply wp_call; [by apply wp_stays, ustore_spec; [apply I|..]|]. intros [] s1 (k & -> & Hk & Hv & Hm). destruct (Hm cur) as [Er Hu'].
  apply call_end; [by apply sinv_svc|]. apply map_spec; [done|by apply Hu'|simpl; by rewrite Hv|]. unfold covers. simpl. by rewrite Er.
Qed.

(** What a caller must keep to: the bounds of [small]; no unknown call and none of
    the two that are not implemented; the arguments of spawn and exit; for read
    and fstat a descriptor of 32 bits; for pipe room for two descriptors in user
    memory, and in the kernel for the pipe. *)
Definition allowed (c : caller) (tf : trapframe) (s : pst) : Prop :=
  let num := s32 (rax tf) in let cur := c_proc c in
  small s /\ 0 < num < NELEM_syscalls /\ num <> 6 /\ num <> 15 /\
  (num = 2 -> forall str, user_string cur (rdi tf) s = Ret str s -> spawn_args str) /\
  (num = 4 -> exit_args cur (rdi tf) s) /\
  (num = 9 \/ num = 17 -> 0 <= rdi tf < 2 ^ 32) /\
  (num = 21 -> covers (svc s) cur (u64 (rdi tf + 4)) 4 /\ forall s', sys_pipe cur tf s <> Ret (SRet ERR_NOMEM) s').

Lemma syscall_ok c tf s : sinv s -> ready (c_proc c) s -> allowed c tf s -> wp (syscall_trap c tf) (fun _ => sinv) s.
Proof.
  intros I Hr (Hsm & Hnum & H6 & H15 & H2 & H4 & H9 & H21). destruct (ready_proc _ s (proj1 I) Hr) as (x & Hx & _ & Hsp & Hc0). pose proof (proj1 I) as (_ & _ & Hk).
  unfold syscall_trap, syscall. apply wp_bind, wp_kassert; [by rewrite (proj2 (Z.eqb_neq _ 0))|].
  rewrite (proj2 (Z.ltb_lt 0 _)), (proj2 (Z.ltb_lt _ NELEM_syscalls)) by lia. cbn [andb]. unfold NELEM_syscalls in Hnum.
  set (num := s32 (rax tf)) in *.
  assert (Hcases : num ∈ [1; 2; 3; 4; 5; 7; 8; 9; 10; 11; 12; 13; 14; 16; 17; 18; 19; 20; 21; 22; 23; 24; 25; 26; 27; 28; 29]).
  { rewrite list_elem_of_In. simpl. lia. }
  clearbody num. repeat (apply elem_of_cons in Hcases as [->|Hcases]); [..|by apply elem_of_nil in Hcases]; cbn [syscalls].
  - by apply sys_fork_ok.
  - apply sys_spawn_ok; auto.
  - by apply sys_wait_ok.
  - apply sys_exit_ok; auto.
  - eapply wp_bind, wp_get_proc; [exact Hx|]. by apply wp_ret.
  - by apply sys_open_ok.
  - by apply sys_close_ok.
  - apply sys_read_ok; auto.
  - by apply sys_write_ok.
  - by apply sys_link_ok.
  - unfold sys_unlink. sarg. apply sys_path_ok; [done|done|]. intros; by apply unlink_spec.
  - unfold sys_mkdir. sarg. apply sys_path_ok; [done|done|]. intros; by apply mkdir_spec.
  - by apply sys_chdir_ok.
  - unfold sys_rmdir. sarg. apply sys_path_ok; [done|done|]. intros; by apply rmdir_spec.
  - apply sys_fstat_ok; auto.
  - unfold sys_sbrk. sarg. apply (call_end _ (fun r => SRet (if r.1 =? ERR_OK then r.2 else r.1))); [done|]. by apply extend_spec.
  - apply (call_end _ (fun _ => SRet ERR_OK)); [done|]. by apply meminfo_spec.
  - by apply sys_dup_ok.
  - destruct (H21 eq_refl) as [Hcov Hm]. pose proof (sys_pipe_ok _ _ _ I Hr Hcov) as Hp. unfold wp in *.
    destruct (sys_pipe (c_proc c) tf s) as [r s'|] eqn:E; [|done]. apply Hp. intros ->. by apply (Hm s').
  - by apply sys_info_ok.
  - by apply wp_ret.
  - by apply sys_create_ok.
  - unfold sys_destroySharedRegion. sarg. apply sys_path_ok; [done|done|]. intros; by apply destroy_spec.
  - by apply sys_map_ok.
  - unfold sys_destroyMapping. sarg. apply with_string_ok; [apply Hr|done|]. intros str _. sarg. apply call_end; [done|]. by apply unmap_spec.
  - unfold sys_lockSharedRegion. sarg. apply with_string_ok; [apply Hr|done|]. intros str _. apply call_end; [done|]. by apply lock_spec.
  - unfold sys_unlockSharedRegion. sarg. apply with_string_ok; [apply Hr|done|]. intros str _. apply call_end; [done|]. by apply unlock_spec.
Qed.

End properties.

(** ** Runs *)

Section runs.
Context {A : Type} `{!ObjAlloc A} {K : Type} `{!KView K, !ProcServices K, !UserMem K, !SysServices K}.
Local Notation pst := (pst A K).

(** The system after boot takes these steps: a process that can run makes a
    system call; a parent that was woken up finishes its wait; the other
    components do something that concerns no process (interrupts, page faults,
    the cleanup thread). *)
Inductive step : pst -> pst -> Prop :=
| step_call c tf s r s' : ready (c_proc c) s -> allowed c tf s -> syscall_trap c tf s = Ret r s' -> step s s'
| step_woken p z statusPtr s r s' : asleep s !! p = Some z -> s_woken z = true -> status_ok p statusPtr s ->
    sys_wait_woken p statusPtr s = Ret r s' -> step s s'
| step_other k s : kok k -> view k = view (svc s) -> step s (set_svc k s).

(** The state in which the kernel creates the first process: no process, no
    file, nothing handed out. *)
Definition boot (a : A) (k : K) : pst := mkPst ∅ [] 0 a ∅ k.

Lemma empty_boot_inv a k : ook a -> olive a = ∅ -> kok k -> spaces (view k) = ∅ -> (forall i, 0 <= iref i (view k)) -> inv [] (boot a k).
Proof.
  intros Ho Hl Hk Hs Hi. split_and!; [|split|]; try done.
  split; simpl; try done; try (intros; by simplify_map_eq); [constructor|intros ? ?%elem_of_nil; done].
Qed.

Lemma bind_arg {B} tf n v (k : Z -> M pst B) s : fetch_arg tf n = Some v -> bind (arg tf n) k s = k v s.
Proof. unfold arg. by intros ->. Qed.

Lemma step_sinv s s' : sinv s -> step s s' -> sinv s'.
Proof.
  intros I H. revert I. destruct H as [c tf s0 r s1 Hr Ha E|p z a s0 r s1 Hz Hw Ha E|k s0 Hk Hv]; intros I.
  - pose proof (syscall_ok c tf s0 I Hr Ha) as W. apply wp_returns in W as (r' & s'' & E' & I'). congruence.
  - pose proof (sys_wait_woken_ok p a z s0 I Hz Hw Ha) as W. apply wp_returns in W as (r' & s'' & E' & I'). congruence.
  - by apply sinv_svc.
Qed.

Lemma runs_sinv s s' : sinv s -> rtc step s s' -> sinv s'.
Proof. intros I H. induction H as [|s s1 s2 H1 _ IH]; [done|]. apply IH. by eapply step_sinv. Qed.


(** The arguments of a handler are in the registers. *)
Ltac args := repeat first [rewrite (bind_arg _ 1 _ _ _ eq_refl) | rewrite (bind_arg _ 2 _ _ _ eq_refl) | rewrite (bind_arg _ 3 _ _ _ eq_refl)].


End runs.

(** The arguments of spawn fit.  A command line of [n] characters is split
    into at most (n + 1) / 2 words, which is the size [sys_spawn] reserves as
    long as it is below the limit of 128: the array of arguments does not
    overflow for command lines of less than 255 characters. *)
Theorem spawn_argv_fits str : Z.of_nat (length str) < 255 ->
  Z.of_nat (length (split_args [] str)) <= (Z.of_nat (length str) + 1) / 2 < PROC_MAX_ARG.
Proof.
  intros H. pose proof (split_args_length [] str) as Hl. simpl in Hl. split; [done|]. apply Z.div_lt_upper_bound; [lia|]. unfold PROC_MAX_ARG. lia.
Qed.

(** The command line "ls -l". *)
Lemma spawn_argv_fits_witness : Z.of_nat (length (split_args [] [108; 115; 32; 45; 108])) <= (5 + 1) / 2 < PROC_MAX_ARG.
Proof. exact (spawn_argv_fits [108; 115; 32; 45; 108] ltac:(simpl; lia)). Defined.

(** ** The services of the books, extended

    Every process has one region of a page, which begins with a command line;
    the kernel has memory for two files. *)
Import Books.

#[export] Instance books_mem : UserMem books.
Proof.
  refine {| regions _ _ := [(4096, 8192)]; usable _ _ := True;
    ubyte _ _ b := if (4096 <=? b) && (b <? 8192) then Some (if b <? 4100 then 97 else 0) else None |}.
  intros k p st e b _ Hin Hb. apply list_elem_of_singleton in Hin. injection Hin as -> ->.
  rewrite (proj2 (Z.leb_le 4096 b)), (proj2 (Z.ltb_lt b 8192)) by lia. eauto.
Defined.

Definition new_file : M books Z :=
  b <- gets id ;;
  if b_next b <? 5 then modify (fun b => mkBooks (with_frefs (<[b_next b := 1]> (frefs (b_view b))) (b_view b)) (b_next b + 1)) ;; ret (b_next b)
  else ret 0.

Lemma new_file_ok b : kok b -> stays new_file b (fun f v =>
  if f =? 0 then v = view b else owned f /\ frefs (view b) !! f = None /\ v = with_frefs (<[f := 1]> (frefs (view b))) (view b)).
Proof.
  intros [H3 Hb]. unfold new_file. apply wp_bind, wp_gets. unfold id. destruct (Z.ltb_spec (b_next b) 5) as [H|H]; [|by apply wp_ret].
  apply wp_bind, wp_modify, wp_ret. rewrite (proj2 (Z.eqb_neq (b_next b) 0)) by lia. split; [|split; [|done]].
  - split; simpl; [lia|]. intros f n [[<- _]|[_ Hf]]%lookup_insert_Some; [lia|]. pose proof (Hb _ _ Hf). lia.
  - split_and!; [split; [lia|split; simpl; lia]| |done]. destruct (frefs (view b) !! b_next b) eqn:E; [|done]. pose proof (Hb _ _ E). lia.
Qed.

#[export] Instance books_sys : SysServices books.
Proof.
  refine {| ustore _ _ _ := ret tt;
    fs_open_file _ _ _ := f <- new_file ;; ret (if f =? 0 then (ERR_NOMEM, 0) else (ERR_OK, f));
    fs_read_file _ _ _ _ := ret (Some 0); fs_write_file _ _ _ n := ret (Some n);
    fs_link _ _ := ret ERR_OK; fs_unlink _ := ret ERR_OK; fs_mkdir _ := ret ERR_OK; fs_rmdir _ := ret ERR_OK;
    fs_find_inode _ := upd (fun v => with_iref 1 (iref 1 v + 1) v) ;; ret (ERR_OK, 1);
    fs_alloc_file := new_file; fs_free_file f := on_file f (fun _ m => delete f m); file_setup _ _ := ret tt;
    kpipe_init _ _ _ := ret ERR_OK; pipe_share _ _ := ret tt; file_stat _ := ret None; kmalloc _ := ret true;
    heap_extend _ _ := ret (ERR_OK, 8192); as_meminfo _ := ret tt; user_pgfault _ := 0;
    createSharedRegion _ _ _ := ret ERR_OK; destroySharedRegion _ := ret ERR_OK; createMapping _ _ _ := ret ERR_OK;
    destroyMapping _ _ _ := ret ERR_OK; lockRegion _ _ := ret (Some ERR_OK); unlockRegion _ _ := ret ERR_OK |}; try (by intros).
  - intros k _ _ _ Hk. eapply wp_call; [by apply new_file_ok|]. intros f k' (Hk' & H & _). apply wp_ret. split; [done|].
    destruct (f =? 0); [by rewrite decide_False|by rewrite decide_True].
  - intros k. apply new_file_ok.
  - intros k f Hk [n Hf]. apply (on_file_ok f n (fun _ m => delete f m)); [done|done|]. intros m h. destruct (decide (h = f)); [by left|].
    rewrite lookup_delete_ne by done. by right.
Defined.

(** ** Witnesses: the first process opens a file and makes a child *)

Definition ex_call (n a b c : Z) : trapframe := mkTf n a b c 0 0 0.
Definition ex_init : caller := mkCaller 100 100 [105].
Definition ex_k : books := mkBooks (mkView ∅ ∅ ∅) 3.
Definition ex_a : Bump.bump := Bump.mkBump 8 100 ∅.
Definition ex_run (c : caller) (tf : trapframe) (s : pst Bump.bump books) : pst Bump.bump books := ex_final s (syscall_trap c tf s).
Definition ex_started : pst Bump.bump books := ex_final (boot ex_a ex_k) (proc_spawn 0 [105] [[105]] (boot ex_a ex_k)).
Definition ex_opened : pst Bump.bump books := ex_run ex_init (ex_call 7 4096 0 0) ex_started.
Definition ex_forked : pst Bump.bump books := ex_run ex_init (ex_call 1 0 0 0) ex_opened.

(** The file 3 has a descriptor in the parent and one in the child. *)
Example ex_forked_refs : frefs (b_view (svc ex_forked)) !! 3 = Some 2 /\ ptable ex_forked = [100; 101].
Proof. split; vm_compute; reflexivity. Qed.

Lemma ex_ready s : ptable s = [100] \/ ptable s = [100; 101] -> asleep s = ∅ -> ready (c_proc ex_init) (s : pst Bump.bump books).
Proof. intros H E. split_and!; [|by rewrite E|done]. destruct H as [-> | ->]; left. Qed.

Definition ex_returns {S B} (o : outcome S B) : bool := match o with Ret _ _ => true | Halt _ _ => false end.

Lemma ex_step n a : n = 1 \/ n = 7 -> forall s : pst Bump.bump books, ptable s = [100] -> asleep s = ∅ -> small s ->
  ex_returns (syscall_trap ex_init (ex_call n a 0 0) s) = true -> step s (ex_run ex_init (ex_call n a 0 0) s).
Proof.
  intros Hn s Hp Hs Hsm H. destruct (syscall_trap ex_init (ex_call n a 0 0) s) as [r s'|] eqn:E; [|done]. unfold ex_run. rewrite E. refine (step_call ex_init (ex_call n a 0 0) s r s' _ _ E).
  - apply ex_ready; [by left|done].
  - unfold allowed. cbn [rax ex_call]. assert (En : s32 n = n) by (destruct Hn as [-> | ->]; reflexivity). rewrite En.
    unfold NELEM_syscalls. split_and!; [done|lia..| | | |]; lia.
Qed.


(** ** What the checks leave open *)

(** [sys_read] indexes the table of files with the whole register after checking
    its low half: descriptor 2^32 passes for 0 and is read past the table. *)
Example read_wide_fd_faults : exists s, sys_read 100 (ex_call 9 (2 ^ 32) 4096 1) ex_started = Halt Fault s.
Proof. eexists. vm_compute. reflexivity. Qed.

(** When there is no memory for the second file of a pipe, the first one is
    freed and its descriptor is left: here descriptor 3 names the freed file 4,
    and a dup of it is an invalid access. *)
Definition ex_piped : pst Bump.bump books := ex_run ex_init (ex_call 21 4096 4096 0) ex_opened.
Example pipe_leaves_dangling : (exists x, procs ex_piped !! 100 = Some x /\ files x !! 3%nat = Some 4) /\ frefs (b_view (svc ex_piped)) !! 4 = None /\
  exists s, sys_dup 100 (ex_call 20 3 0 0) ex_piped = Halt Fault s.
Proof. split_and!; [eexists; split; vm_compute; reflexivity|vm_compute; reflexivity|eexists; vm_compute; reflexivity]. Qed.

(** The first process must not exit: it looks for itself after having left the
    table. *)
Example init_exit_panics : exists s, sys_exit 100 100 (ex_call 4 0 0 0) ex_started = Halt Panic s.
Proof. eexists. vm_compute. reflexivity. Qed.

(** A command line of blanks has no program name. *)
Example spawn_blank_faults : split_args [] [32; 32; 32] = [].
Proof. reflexivity. Qed.

End Syscall.
