(* ===== verification/Trap.v ===== *)
(** * Traps: kernel/trap.c and the trap entry of x86_64/kernel/trap.c

    The table of trap handlers, kept in a radix tree (through [PtrMap], which
    RadixTree.v implements) with its entries from an object allocator, and the
    dispatch of a trap to the handler that is registered for it; the timer of
    kernel/timer.c.  A handler is named by a number.  The handler of the timer
    is in the model; [run_handler] is what another one does to the rest of the
    system.  Module [Ioapic] has the interrupt controller that routes the
    interrupts of the devices (x86_64/kernel/ioapic.c). *)

From S2P Require Import Prelude Alloc RadixTree.
Local Open Scope kernel_scope.

Module Trap.

Definition ERR_TRAP_REG_FAIL : err_t := 1.
Definition ERR_TRAP_NOT_FOUND : err_t := 2.
Definition T_PF : Z := 14.
Definition T_IRQ0 : Z := 32.
Definition T_IRQ_TIMER : Z := T_IRQ0 + 0.
Definition T_SYSCALL : Z := 64.

(** [struct table_entry]. *)
Record table_entry := mkEntry { dev : Z; handler : Z }.

Section model.
Context {A : Type} `{!ObjAlloc A} {T : Type} `{!PtrMap T} {U : Type}.
(** [run_handler h irq dev regs], [trap_notify_irq_completion], and
    [sched_sched(READY, NULL)], which gives up the processor. *)
Context (run_handler : Z -> Z -> Z -> Z -> M U unit) (notify sched_yield : M U unit).
(** The handlers of the timer, of system calls and of page faults. *)
Context (timer_handler syscall_handler pgfault_handler : Z).

Record traps := mkTraps {
  trap_handler_table : T;
  entries : gmap Z table_entry;
  entry_allocator : A;
  ticks : Z;
  world : U;
}.

Definition set_table x s := mkTraps x (entries s) (entry_allocator s) (ticks s) (world s).
Definition set_entries x a s := mkTraps (trap_handler_table s) x a (ticks s) (world s).
Definition set_ticks x s := mkTraps (trap_handler_table s) (entries s) (entry_allocator s) x (world s).
Definition set_world x s := mkTraps (trap_handler_table s) (entries s) (entry_allocator s) (ticks s) x.
Definition on_table {B} (m : M T B) : M traps B := zoom trap_handler_table set_table m.
Definition on_world {B} (m : M U B) : M traps B := zoom world set_world m.

(** [kmem_cache_alloc]; 0 is NULL. *)
Definition new_entry (e : table_entry) : M traps Z :=
  fun s => match oalloc (entry_allocator s) with
           | (None, a) => Ret 0 (set_entries (entries s) a s)
           | (Some p, a) => Ret p (set_entries (<[p := e]> (entries s)) a s)
           end.

(** An entry that does not get into the table is not freed. *)
Definition trap_register_handler (irq d h : Z) : M traps err_t :=
  kassert (negb (h =? 0)) ;;
  entry <- new_entry (mkEntry d h) ;;
  if entry =? 0 then ret ERR_TRAP_REG_FAIL
  else
    err <- on_table (pinsert irq entry) ;;
    ret (if err =? ERR_OK then ERR_OK else ERR_TRAP_REG_FAIL).

Definition trap_unregister_handler (irq : Z) : M traps err_t :=
  entry <- on_table (plookup irq) ;;
  (if negb (entry =? 0) then
     on_table (premove irq) ;;
     modify (fun s => set_entries (delete entry (entries s)) (ofree entry (entry_allocator s)) s)
   else ret tt) ;;
  ret (if negb (entry =? 0) then ERR_OK else ERR_TRAP_NOT_FOUND).

(** [timer_trap_handler] of kernel/timer.c. *)
Definition timer_trap_handler (irq d regs : Z) : M traps unit :=
  modify (fun s => set_ticks (u32 (ticks s + 1)) s) ;;
  on_world notify ;;
  on_world sched_yield.

(** The call of a handler through its pointer. *)
Definition call_handler (h irq d regs : Z) : M traps unit :=
  if h =? timer_handler then timer_trap_handler irq d regs else on_world (run_handler h irq d regs).

Definition trap_invoke_handler (irq regs : Z) : M traps err_t :=
  entry <- on_table (plookup irq) ;;
  if negb (entry =? 0) then
    o <- gets (fun s => entries s !! entry) ;;
    e <- of_option Fault o ;;
    call_handler (handler e) irq (dev e) regs ;;
    ret ERR_OK
  else ret ERR_TRAP_NOT_FOUND.

(** [trap], with the number in the trap frame at [tf]; trap numbers are 32 bits
    wide. *)
Definition trap (trapnum tf : Z) : M traps unit :=
  kassert (negb (tf =? 0)) ;;
  err <- trap_invoke_handler (u32 trapnum) tf ;;
  if err =? ERR_TRAP_NOT_FOUND then on_world notify else ret tt.

Definition timer_register_trap_handler : M traps err_t :=
  modify (set_ticks 0) ;; trap_register_handler T_IRQ_TIMER 0 timer_handler.
Definition syscall_register_trap_handler : M traps err_t := trap_register_handler T_SYSCALL 0 syscall_handler.
Definition pgfault_register_trap_handler : M traps err_t := trap_register_handler T_PF 0 pgfault_handler.

(** [trap_sys_init] from the registrations on; the table and the allocator have
    been created. *)
Definition trap_sys_init : M traps unit :=
  e <- timer_register_trap_handler ;;
  if negb (e =? ERR_OK) then stop Panic
  else
    e <- syscall_register_trap_handler ;;
    if negb (e =? ERR_OK) then stop Panic
    else
      e <- pgfault_register_trap_handler ;;
      if negb (e =? ERR_OK) then stop Panic else ret tt.

(** ** The table as a map *)

(** The handler that is registered for a trap. *)
Definition registered (s : traps) (irq : Z) : option table_entry :=
  let p := pget (trap_handler_table s) irq in if p =? 0 then None else entries s !! p.

(** Every pointer of the table is an entry that is allocated, and no two traps
    share one. *)
Record inv (s : traps) : Prop := {
  i_map : pok (trap_handler_table s);
  i_alloc : ook (entry_allocator s) /\ olive (entry_allocator s) = dom (entries s);
  i_null : entries s !! 0 = None;
  i_entry i : 0 <= i < 2 ^ 30 -> pget (trap_handler_table s) i <> 0 -> is_Some (entries s !! pget (trap_handler_table s) i);
  i_inj i j : 0 <= i < 2 ^ 30 -> 0 <= j < 2 ^ 30 -> pget (trap_handler_table s) i <> 0 ->
    pget (trap_handler_table s) i = pget (trap_handler_table s) j -> i = j;
}.

(** The rest of the table stays as it is. *)
Definition others (s s' : traps) (irq : Z) : Prop := forall j, 0 <= j < 2 ^ 30 -> j <> irq -> registered s' j = registered s j.

Lemma table_register_ok irq d h s : inv s -> 0 <= irq < 2 ^ 30 -> h <> 0 ->
  wp (trap_register_handler irq d h) (fun e s' => inv s' /\ others s s' irq /\ (ticks s', world s') = (ticks s, world s) /\
    (e = ERR_OK /\ registered s irq = None /\ registered s' irq = Some (mkEntry d h) \/
     e = ERR_TRAP_REG_FAIL /\ registered s' irq = registered s irq)) s.
Proof.
  intros [Hm [Ho Hl] H0 He Hj] Hirq Hh. unfold trap_register_handler. apply wp_bind, wp_kassert; [by rewrite (proj2 (Z.eqb_neq h 0))|].
  apply wp_bind. unfold new_entry, wp at 1. destruct (oalloc (entry_allocator s)) as [[p|] a] eqn:Ea; cycle 1.
  { destruct (oalloc_None _ _ Ho Ea) as [Ho' Hl']. apply wp_ret. split_and!; [|done|done|by right]. split; try done. simpl. by rewrite Hl'. }
  destruct (oalloc_Some _ _ _ Ho Ea) as (Ho' & Hp0 & Hpl & Hl'). rewrite (proj2 (Z.eqb_neq p 0)) by done.
  assert (Hp : entries s !! p = None) by (apply not_elem_of_dom; by rewrite <- Hl).
  assert (Hnp : forall i, 0 <= i < 2 ^ 30 -> pget (trap_handler_table s) i <> p).
  { intros i Hi E. destruct (He i Hi) as [? ?]; [congruence|congruence]. }
  assert (Hreg : forall t w i, 0 <= i < 2 ^ 30 -> pget t i = pget (trap_handler_table s) i ->
    registered (mkTraps t (<[p := mkEntry d h]> (entries s)) a (ticks s) w) i = registered s i).
  { intros t w i Hi E. unfold registered. simpl. rewrite E. destruct (_ =? 0); [done|]. rewrite lookup_insert_ne; [done|]. intros E'. by apply (Hnp i). }
  assert (Hal : ook a /\ olive a = dom (<[p := mkEntry d h]> (entries s))) by (split; [done|]; rewrite dom_insert_L, Hl', Hl; done).
  apply wp_bind, wp_zoom. destruct (Z.eq_dec (pget (trap_handler_table s) irq) 0) as [E0|E0].
  - destruct (pinsert_spec _ irq p Hm Hirq Hp0 E0) as (e & t' & Et & Hm' & Hoth & He'). unfold wp at 1. simpl. rewrite Et. apply wp_ret.
    assert (Hoth' : others s (mkTraps t' (<[p := mkEntry d h]> (entries s)) a (ticks s) (world s)) irq) by (intros j Hj' Hne; apply Hreg; auto).
    destruct He' as [[-> Eg]|[-> Eg]]; simpl.
    + split_and!; [|done|done|]; [split; simpl; try done|left; unfold registered; simpl; rewrite Eg, E0, (proj2 (Z.eqb_neq p 0)), lookup_insert_eq by done; done].
      * by rewrite lookup_insert_ne.
      * intros i Hi Hne. destruct (decide (i = irq)) as [->|]; [rewrite Eg, lookup_insert_eq; eauto|]. rewrite Hoth in * by done.
        rewrite lookup_insert_ne by (intros E'; by apply (Hnp i)). auto.
      * intros i j Hi Hj' Hne E. destruct (decide (i = irq)) as [->|], (decide (j = irq)) as [->|]; [done| | |].
        -- rewrite Eg, Hoth in E by done. by destruct (Hnp j).
        -- rewrite Eg, Hoth in E by done. by destruct (Hnp i).
        -- rewrite !Hoth in E by done. rewrite Hoth in Hne by done. auto.
    + split_and!; [|done|done|right; split; [done|apply Hreg; congruence]]. split; simpl; try done; [by rewrite lookup_insert_ne| |].
      * intros i Hi Hne. assert (i <> irq) by congruence. rewrite Hoth in * by done. rewrite lookup_insert_ne by (intros E'; by apply (Hnp i)). auto.
      * intros i j Hi Hj' Hne E. assert (i <> irq) by congruence. assert (j <> irq) by congruence. rewrite !Hoth in E by done. rewrite Hoth in Hne by done. auto.
  - destruct (pinsert_full _ irq p Hm Hirq Hp0 E0) as (e & t' & Et & Hm' & Hne & Hoth). unfold wp at 1. simpl. rewrite Et. apply wp_ret.
    rewrite (proj2 (Z.eqb_neq e ERR_OK)) by done. split_and!; [|intros j Hj' _; by apply Hreg, Hoth|done|right; split; [done|by apply Hreg, Hoth]].
    split; simpl; try done; [by rewrite lookup_insert_ne| |].
    + intros i Hi Hn. rewrite Hoth in * by done. rewrite lookup_insert_ne by (intros E'; by apply (Hnp i)). auto.
    + intros i j Hi Hj' Hn E. rewrite !Hoth in E by done. rewrite Hoth in Hn by done. auto.
Qed.

(** The handlers that are registered, as the map the table stands for. *)
Definition refines (s : traps) (t : gmap Z table_entry) : Prop :=
  inv s /\ forall i, 0 <= i < 2 ^ 30 -> registered s i = t !! i.

Lemma register_refines irq d h s t : refines s t -> 0 <= irq < 2 ^ 30 -> h <> 0 ->
  wp (trap_register_handler irq d h) (fun e s' => (ticks s', world s') = (ticks s, world s) /\
    (e = ERR_OK /\ t !! irq = None /\ refines s' (<[irq := mkEntry d h]> t) \/ e = ERR_TRAP_REG_FAIL /\ refines s' t)) s.
Proof.
  intros [Hi Ht] Hirq Hh. eapply wp_mono; [by apply table_register_ok|]. intros e s' (Hi' & Ho & Hw & He). split; [done|].
  destruct He as [(-> & E & E')|[-> E]]; [left; split; [done|]; split; [by rewrite <- Ht|]; split; [done|]|right; split; [done|]; split; [done|]].
  - intros i Hr. destruct (decide (i = irq)) as [->|]; [by rewrite lookup_insert_eq|]. rewrite lookup_insert_ne, Ho by done. auto.
  - intros i Hr. destruct (decide (i = irq)) as [->|]; [rewrite E; auto|]. rewrite Ho by done. auto.
Qed.

Lemma table_lookup_ok irq s : inv s -> 0 <= irq < 2 ^ 30 ->
  wp (on_table (plookup irq)) (fun p s' => s' = s /\ p = pget (trap_handler_table s) irq) s.
Proof.
  intros Hi Hirq. apply wp_zoom. unfold wp. rewrite (plookup_spec _ _ (i_map _ Hi) Hirq). split; [by destruct s|done].
Qed.

(** The pointer in the table against the handler it stands for. *)
Lemma registered_cases s irq : inv s -> 0 <= irq < 2 ^ 30 ->
  (pget (trap_handler_table s) irq = 0 /\ registered s irq = None) \/
  (exists e, pget (trap_handler_table s) irq <> 0 /\ entries s !! pget (trap_handler_table s) irq = Some e /\ registered s irq = Some e).
Proof.
  intros Hi Hirq. unfold registered. destruct (Z.eqb_spec (pget (trap_handler_table s) irq) 0) as [E|E]; [by left|right].
  destruct (i_entry _ Hi irq Hirq E) as [e He]. eauto.
Qed.

Lemma unregister_refines irq s t : refines s t -> 0 <= irq < 2 ^ 30 ->
  wp (trap_unregister_handler irq) (fun e s' => (ticks s', world s') = (ticks s, world s) /\ refines s' (delete irq t) /\
    e = match t !! irq with Some _ => ERR_OK | None => ERR_TRAP_NOT_FOUND end) s.
Proof.
  intros [Hi Ht] Hirq. unfold trap_unregister_handler. eapply wp_call; [by apply table_lookup_ok|]. intros p ? [-> ->].
  destruct (registered_cases s irq Hi Hirq) as [[E Er]|(e & E & Ee & Er)]; rewrite <- (Ht irq Hirq), Er.
  { rewrite E. apply wp_bind, wp_ret, wp_ret. split; [done|]. split; [|done]. split; [done|]. intros i Hr.
    destruct (decide (i = irq)) as [->|]; [by rewrite lookup_delete_eq|]. rewrite lookup_delete_ne by done. auto. }
  rewrite (proj2 (Z.eqb_neq _ _) E). apply wp_bind, wp_bind, wp_zoom. pose proof Hi as [Hm [Ho Hl] H0 He Hj].
  destruct (premove_spec _ irq Hm Hirq E) as (t' & Et & Hm' & E' & Hoth). unfold wp at 1. rewrite Et. apply wp_modify, wp_ret. simpl.
  assert (Hne : forall i, 0 <= i < 2 ^ 30 -> i <> irq -> pget (trap_handler_table s) irq <> pget (trap_handler_table s) i).
  { intros i Hr Hn Eq. apply Hn. symmetry. by apply (Hj irq i). }
  destruct (ofree_live (entry_allocator s) (pget (trap_handler_table s) irq) Ho) as [Ho' Hl']; [rewrite Hl; by apply elem_of_dom_2 in Ee|].
  split; [done|]. split; [split|done].
  - split; simpl; try done.
    + split; [done|]. by rewrite dom_delete_L, Hl', Hl.
    + by apply lookup_delete_None; right.
    + intros i Hr Hn. assert (i <> irq) by congruence. rewrite Hoth in * by done. rewrite lookup_delete_ne by auto. auto.
    + intros i j Hr Hr' Hn Eq. assert (i <> irq) by congruence. assert (j <> irq) by congruence. rewrite !Hoth in Eq by done. rewrite Hoth in Hn by done. auto.
  - intros i Hr. destruct (decide (i = irq)) as [->|]; [rewrite lookup_delete_eq|rewrite lookup_delete_ne by done]; unfold registered; simpl.
    + by rewrite E'.
    + rewrite Hoth by done. rewrite <- Ht by done. unfold registered. destruct (_ =? 0); [done|]. rewrite lookup_delete_ne by auto. done.
Qed.

(** The dispatch of a trap, with whatever its handler does. *)
Lemma trap_dispatch num tf s t : refines s t -> tf <> 0 -> 0 <= u32 num < 2 ^ 30 ->
  trap num tf s = match t !! u32 num with
                  | Some e => call_handler (handler e) (u32 num) (dev e) tf s
                  | None => on_world notify s
                  end.
Proof.
  intros [Hi Ht] Htf Hn. unfold trap, trap_invoke_handler, bind. rewrite (proj2 (Z.eqb_neq _ _) Htf). simpl.
  pose proof (table_lookup_ok _ _ Hi Hn) as Hl. unfold wp in Hl. destruct (on_table _ s) as [p s'|]; [|done]. destruct Hl as [-> ->].
  destruct (registered_cases s _ Hi Hn) as [[E Er]|(e & E & Ee & Er)]; rewrite <- (Ht _ Hn), Er.
  - rewrite E. done.
  - rewrite (proj2 (Z.eqb_neq _ _) E). simpl. unfold gets. rewrite Ee. simpl. by destruct (call_handler _ _ _ _ s) as [[]|].
Qed.

(** The table that [trap_sys_init] sets up. *)
Definition boot_table : gmap Z table_entry :=
  <[T_PF := mkEntry 0 pgfault_handler]> (<[T_SYSCALL := mkEntry 0 syscall_handler]> {[T_IRQ_TIMER := mkEntry 0 timer_handler]}).

Lemma refines_ticks n s t : refines s t -> refines (set_ticks n s) t.
Proof. intros [[] Ht]. by split. Qed.

(** A step of [trap_sys_init]: it panics when its handler is not registered. *)
Lemma init_step irq h s t (k : M traps unit) : refines s t -> 0 <= irq < 2 ^ 30 -> h <> 0 ->
  (exists s', (e <- trap_register_handler irq 0 h ;; if negb (e =? ERR_OK) then stop Panic else k) s = Halt Panic s') \/
  exists s', refines s' (<[irq := mkEntry 0 h]> t) /\ (ticks s', world s') = (ticks s, world s) /\
    (e <- trap_register_handler irq 0 h ;; if negb (e =? ERR_OK) then stop Panic else k) s = k s'.
Proof.
  intros Hr Hirq Hh. unfold bind. pose proof (register_refines irq 0 h s t Hr Hirq Hh) as H. unfold wp in H.
  destruct (trap_register_handler irq 0 h s) as [e s'|]; [|done].
  destruct H as [Hw [(-> & _ & Hr')|[-> _]]]; [right|left]; exists s'; [|done]. split_and!; done.
Qed.

Lemma trap_sys_init_ok s : refines s ∅ -> timer_handler <> 0 -> syscall_handler <> 0 -> pgfault_handler <> 0 ->
  (exists s', trap_sys_init s = Halt Panic s') \/
  exists s', trap_sys_init s = Ret tt s' /\ refines s' boot_table /\ ticks s' = 0 /\ world s' = world s.
Proof.
  intros Hr H1 H2 H3. apply (refines_ticks 0) in Hr. unfold trap_sys_init, timer_register_trap_handler.
  match goal with |- context [bind (bind (modify _) _) ?k] => change (bind (bind (modify (set_ticks 0)) (fun _ => trap_register_handler T_IRQ_TIMER 0 timer_handler)) k s)
    with (bind (trap_register_handler T_IRQ_TIMER 0 timer_handler) k (set_ticks 0 s)) end.
  edestruct (init_step T_IRQ_TIMER timer_handler) as [[s' ->]|(s1 & Hr1 & Hw1 & ->)]; [exact Hr|done|done|eauto|].
  edestruct (init_step T_SYSCALL syscall_handler) as [[s' E]|(s2 & Hr2 & Hw2 & E)]; [exact Hr1|done|done|left; eexists; exact E|].
  edestruct (init_step T_PF pgfault_handler) as [[s' E']|(s3 & Hr3 & Hw3 & E')]; [exact Hr2|done|done|left; eexists; etrans; [exact E|exact E']|].
  right. exists s3. split_and!; [etrans; [exact E|exact E']|exact Hr3|..]; simpl in *; congruence.
Qed.

(** C32. The table of trap handlers is a map from trap numbers to handlers, for
    any radix tree and allocator that keep their contracts.  Registering a
    handler adds it and succeeds only if the number has none yet, and otherwise
    reports the failure and leaves the map as it is; unregistering removes
    the handler of its number and no other, and reports whether there was one;
    a trap runs the handler that is registered for its number, with its device
    and the trap frame, and only that handler, or acknowledges the interrupt
    when there is none.  Initialization panics or leaves the handlers of the
    timer, of system calls and of page faults at their numbers. *)
Theorem trap_table_refines s t : refines s t ->
  (forall irq d h, 0 <= irq < 2 ^ 30 -> h <> 0 -> exists e s', trap_register_handler irq d h s = Ret e s' /\
    (ticks s', world s') = (ticks s, world s) /\
    (e = ERR_OK /\ t !! irq = None /\ refines s' (<[irq := mkEntry d h]> t) \/ e = ERR_TRAP_REG_FAIL /\ refines s' t)) /\
  (forall irq, 0 <= irq < 2 ^ 30 -> exists s', trap_unregister_handler irq s =
      Ret (match t !! irq with Some _ => ERR_OK | None => ERR_TRAP_NOT_FOUND end) s' /\
    (ticks s', world s') = (ticks s, world s) /\ refines s' (delete irq t)) /\
  (forall num tf, tf <> 0 -> 0 <= u32 num < 2 ^ 30 ->
    trap num tf s = match t !! u32 num with
                    | Some e => call_handler (handler e) (u32 num) (dev e) tf s
                    | None => on_world notify s
                    end) /\
  (t = ∅ -> timer_handler <> 0 -> syscall_handler <> 0 -> pgfault_handler <> 0 ->
    (exists s', trap_sys_init s = Halt Panic s') \/
    exists s', trap_sys_init s = Ret tt s' /\ refines s' boot_table /\ ticks s' = 0 /\ world s' = world s).
Proof.
  intros Hr. split_and!.
  - intros irq d h Hirq Hh. destruct (proj1 (wp_returns _ _ _) (register_refines irq d h s t Hr Hirq Hh)) as (e & s' & E & H). eauto.
  - intros irq Hirq. destruct (proj1 (wp_returns _ _ _) (unregister_refines irq s t Hr Hirq)) as (e & s' & E & Hw & Hr' & ->). eauto.
  - intros num tf. by apply trap_dispatch.
  - intros ->. by apply trap_sys_init_ok.
Qed.

End model.
Arguments traps : clear implicits.

(** ** A concrete table

    The handlers log their numbers; the table is a radix tree. *)

Definition log (h irq d regs : Z) : M (list Z) unit := modify (cons h).
Definition ex_traps (n : nat) : traps Bump.bump (RadixTree.rtree Bump.bump) (list Z) :=
  mkTraps RadixTree.ex_empty ∅ (Bump.mkBump n 1 ∅) 7 [].

Lemma ex_traps_ok n : refines (ex_traps n) ∅.
Proof.
  assert (Hg : forall i, 0 <= i < 2 ^ 30 -> pget (trap_handler_table (ex_traps n)) i = 0).
  { intros i Hi. simpl. unfold RadixTree.radix_tree_lookup, bind, RadixTree.radix_tree_max_index. simpl. destruct i; [done|done|lia]. }
  split; [|intros i Hi; unfold registered; by rewrite Hg].
  split; [apply RadixTree.ex_empty_inv|split; [split; [done|]; by intros p ?%elem_of_empty|done]|done| |]; intros i; [intros Hi|intros j Hi Hj]; by rewrite Hg.
Qed.

Abbreviation ex_init := (trap_sys_init 100 101 102 (ex_traps 9)).
Abbreviation ex_trap := (trap log (modify (cons 1)) (modify (cons 2)) 100).

(** After initialization a system call reaches its handler, the timer counts,
    and an interrupt without a handler is acknowledged. *)
Lemma trap_table_refines_witness : exists s, ex_init = Ret tt s /\ ticks s = 0 /\
  ex_trap 64 8 s = Ret tt (set_world [101] s) /\
  ex_trap 32 8 s = Ret tt (set_ticks 1 (set_world [2; 1] s)) /\
  ex_trap 33 8 s = Ret tt (set_world [1] s).
Proof.
  destruct (trap_table_refines log (modify (cons 1)) (modify (cons 2)) 100 101 102 (ex_traps 9) ∅ (ex_traps_ok 9)) as (_ & _ & _ & H).
  destruct (H eq_refl) as [[s E]|(s & E & Hr & Ht & Hw)]; [done|done|done| |].
  { assert (Hc : match ex_init with Ret _ _ => true | Halt _ _ => false end = true) by (vm_compute; reflexivity). by rewrite E in Hc. }
  exists s. split; [exact E|]. split; [exact Ht|].
  destruct (trap_table_refines log (modify (cons 1)) (modify (cons 2)) 100 101 102 s _ Hr) as (_ & _ & Hd & _).
  clear -Hd Ht Hw. destruct s as [tb en al tk w]. simpl in Ht, Hw. subst tk w.
  assert (H8 : (8 : Z) <> 0) by done.
  split; [refine (Hd 64 8 H8 _)|split; [refine (Hd 32 8 H8 _)|refine (Hd 33 8 H8 _)]]; by vm_compute.
Defined.

(** A second registration for a trap fails as it should, and keeps the entry
    that it has allocated although nothing points to it. *)
Example register_keeps_entry :
  match (trap_register_handler 33 0 101 ;; trap_register_handler 33 0 102) (ex_traps 9) with
  | Ret e s => e = ERR_TRAP_REG_FAIL /\ registered s 33 = Some (mkEntry 0 101) /\ entries s !! 2 = Some (mkEntry 0 102)
  | Halt _ _ => False
  end.
Proof. vm_compute. done. Qed.

End Trap.

Module Ioapic.

Definition IOAPIC_REG_ID : Z := 0.
Definition IOAPIC_REG_VER : Z := 1.
Definition IOAPIC_RD_TABLE : Z := 16.
Definition INT_MASK : Z := 65536.

(** The registers of the controller by number, which a write to [ioapic->reg]
    selects for the next access of [ioapic->data]. *)
Abbreviation ioregs := (gmap Z Z).

Definition ioapic_read_reg (reg : Z) : M ioregs Z := gets (fun r => default 0 (r !! reg)).
Definition ioapic_write_reg (reg data : Z) : M ioregs unit := modify (fun r => <[u32 reg := u32 data]> r).

(** The loop of [ioapic_init] from entry [i] on, with [n] entries to go. *)
Fixpoint mask_loop (n : nat) (i : Z) : M ioregs unit :=
  match n with
  | O => ret tt
  | S n' =>
      ioapic_write_reg (IOAPIC_RD_TABLE + 2 * i) (Z.lor INT_MASK (Trap.T_IRQ0 + i)) ;;
      ioapic_write_reg (IOAPIC_RD_TABLE + 2 * i + 1) 0 ;;
      mask_loop n' (i + 1)
  end.
Definition ioapic_init (ioapic_id : Z) : M ioregs unit :=
  id <- ioapic_read_reg IOAPIC_REG_ID ;;
  if negb (Z.shiftr id 24 =? ioapic_id) then stop Panic
  else
    v <- ioapic_read_reg IOAPIC_REG_VER ;;
    mask_loop (Z.to_nat (Z.land (Z.shiftr v 16) 255)) 0.

Definition ioapic_enable (irq cpu_id : Z) : M ioregs unit :=
  ioapic_write_reg (IOAPIC_RD_TABLE + 2 * (irq - Trap.T_IRQ0)) irq ;;
  ioapic_write_reg (IOAPIC_RD_TABLE + 2 * (irq - Trap.T_IRQ0) + 1) (Z.shiftl cpu_id 24).
Definition ioapic_disable (irq : Z) : M ioregs unit :=
  ioapic_write_reg (IOAPIC_RD_TABLE + 2 * (irq - Trap.T_IRQ0)) (Z.lor INT_MASK irq).

Definition trap_enable_irq (irq : Z) : M ioregs err_t := ioapic_enable irq 0 ;; ret ERR_OK.
Definition trap_disable_irq (irq : Z) : M ioregs err_t := ioapic_disable irq ;; ret ERR_OK.

(** The interrupt [irq] is delivered. *)
Definition delivered (r : ioregs) (irq : Z) : bool :=
  match r !! (IOAPIC_RD_TABLE + 2 * (irq - Trap.T_IRQ0)) with
  | Some x => (Z.land x INT_MASK =? 0) && (Z.land x 255 =? irq)
  | None => false
  end.

(** An interrupt line of a device. *)
Definition is_irq (irq : Z) : Prop := Trap.T_IRQ0 <= irq < 256.

Lemma irq_unmasked irq : is_irq irq -> (Z.land (u32 irq) INT_MASK =? 0) && (Z.land (u32 irq) 255 =? irq) = true /\
  Z.land (u32 (Z.lor INT_MASK irq)) INT_MASK =? 0 = false.
Proof.
  intros H. unfold is_irq, Trap.T_IRQ0 in H.
  assert (Hc : forallb (fun i => (Z.land (u32 i) INT_MASK =? 0) && (Z.land (u32 i) 255 =? i) && negb (Z.land (u32 (Z.lor INT_MASK i)) INT_MASK =? 0)) (seqZ 0 256) = true) by (vm_compute; reflexivity).
  rewrite forallb_forall in Hc. specialize (Hc irq ltac:(apply list_elem_of_In, elem_of_seqZ; lia)). cbv beta in Hc.
  apply andb_true_iff in Hc as [H1 H2]. split; [done|]. by apply negb_true_iff.
Qed.

(** Enabling an interrupt delivers it, disabling it masks it, and neither
    touches another one. *)
Lemma irq_lines irq irq' r : is_irq irq -> is_irq irq' ->
  wp (trap_enable_irq irq) (fun e r' => e = ERR_OK /\ delivered r' irq' = if decide (irq' = irq) then true else delivered r irq') r /\
  wp (trap_disable_irq irq) (fun e r' => e = ERR_OK /\ delivered r' irq' = if decide (irq' = irq) then false else delivered r irq') r.
Proof.
  intros H H'. destruct (irq_unmasked irq H) as [U1 U2]. unfold is_irq, Trap.T_IRQ0, delivered, IOAPIC_RD_TABLE in *.
  unfold trap_enable_irq, trap_disable_irq, ioapic_enable, ioapic_disable, ioapic_write_reg, IOAPIC_RD_TABLE, Trap.T_IRQ0.
  split; unfold wp, bind, modify, ret; split; try done; rewrite !(wrap_small 32 (16 + _)) by lia.
  - rewrite wrap_small by lia. rewrite lookup_insert_ne by lia. case_decide as E; [subst; by rewrite lookup_insert_eq|by rewrite lookup_insert_ne by lia].
  - case_decide as E; [subst; rewrite lookup_insert_eq, U2; done|by rewrite lookup_insert_ne by lia].
Qed.

(** Initialization masks the lines of the controller. *)
Lemma mask_loop_ok irq : is_irq irq -> forall n i r, 0 <= i -> i + Z.of_nat n <= 224 ->
  wp (mask_loop n i) (fun _ r' => delivered r' irq = if decide (i <= irq - Trap.T_IRQ0 < i + Z.of_nat n) then false else delivered r irq) r.
Proof.
  intros Hirq. induction n as [|n IH]; intros i r Hi Hn; simpl; [apply wp_ret; case_decide; [lia|done]|].
  apply wp_bind, wp_modify, wp_bind, wp_modify. eapply wp_mono; [apply IH; lia|]. intros _ r' ->. clear IH. unfold is_irq, delivered, IOAPIC_RD_TABLE, Trap.T_IRQ0 in *.
  rewrite !(wrap_small 32 (16 + _)), !(wrap_small 32 (16 + _ + 1)) by lia. rewrite lookup_insert_ne by lia.
  destruct (decide (irq - 32 = i)) as [<-|].
  - destruct (decide _); [lia|]. rewrite decide_True by lia. rewrite lookup_insert_eq. destruct (irq_unmasked irq) as [_ U]; [done|].
    replace (32 + (irq - 32)) with irq by lia. by rewrite U.
  - rewrite lookup_insert_ne by lia. destruct (decide (i + 1 <= irq - 32 < i + 1 + Z.of_nat n)), (decide (i <= irq - 32 < i + Z.of_nat (S n))); done || lia.
Qed.

Lemma ioapic_init_ok id r : 0 <= Z.land (Z.shiftr (default 0 (r !! IOAPIC_REG_VER)) 16) 255 <= 224 ->
  (Z.shiftr (default 0 (r !! IOAPIC_REG_ID)) 24 <> id -> ioapic_init id r = Halt Panic r) /\
  (Z.shiftr (default 0 (r !! IOAPIC_REG_ID)) 24 = id ->
    forall irq, is_irq irq -> irq - Trap.T_IRQ0 < Z.land (Z.shiftr (default 0 (r !! IOAPIC_REG_VER)) 16) 255 ->
      wp (ioapic_init id) (fun _ r' => delivered r' irq = false) r).
Proof.
  intros Hv. unfold ioapic_init, ioapic_read_reg. split.
  - intros Hid. unfold bind, gets. by rewrite (proj2 (Z.eqb_neq _ _) Hid).
  - intros Hid irq Hirq Hlt. apply wp_bind, wp_gets. rewrite Hid, Z.eqb_refl. simpl. apply wp_bind, wp_gets.
    eapply wp_mono; [apply (mask_loop_ok irq Hirq); lia|]. intros _ r' ->. rewrite decide_True; [done|]. unfold is_irq in Hirq. lia.
Qed.

End Ioapic.
