(* ===== verification/Ide.v ===== *)
(** * The disk driver: kernel/drivers/ide.c and [bdev_make_request] of kernel/bdev.c

    Threads put their requests in the queue of the device and sleep until the
    interrupt handler has completed them.  The driver hands the disk one
    command at a time, always the one at the head of the queue.  The disk
    itself is the class [AtaDisk], what the ATA standard says of the ports the
    driver uses.  [Ide.ide_refines] shows that the driver implements a device
    that performs the requests one by one in their order; a single request then
    has the effect of [bdev_make_request] of Bdev.v, on which the block cache
    and all that is above it rely. *)

From S2P Require Import Prelude Page Alloc Lib RadixTree Bdev Trap.
Local Open Scope kernel_scope.
Import Page Bdev.

Module Ide.

Definition IDE_SECTOR_SIZE : Z := 512.
Definition IDE_REG_DATA : Z := 496.
Definition IDE_REG_COUNT : Z := 498.
Definition IDE_REG_SECTOR : Z := 499.
Definition IDE_REG_CYL_L : Z := 500.
Definition IDE_REG_CYL_H : Z := 501.
Definition IDE_REG_DRIVE : Z := 502.
Definition IDE_REG_STATUS_CMD : Z := 503.
Definition IDE_REG_CTRL : Z := 1014.
Definition IDE_STATUS_BSY : Z := 128.
Definition IDE_STATUS_DRDY : Z := 64.
Definition IDE_STATUS_DF : Z := 32.
Definition IDE_STATUS_ERR : Z := 1.
Definition IDE_CMD_READ : Z := 32.
Definition IDE_CMD_WRITE : Z := 48.
Definition IDE_CMD_RDMUL : Z := 196.
Definition IDE_CMD_WRMUL : Z := 197.
Definition ERR_IDE_DISK_ERR : err_t := 1.
Definition ERR_IDE_INIT_FAIL : err_t := 1.
Definition T_IRQ_IDE : Z := Trap.T_IRQ0 + 14.

Inductive ide_status_t := IDE_IDLE | IDE_BUSY.
Inductive bio_status_t := BIO_PENDING | BIO_COMPLETE.

(** [struct bio]: what is asked for, and how far it is. *)
Record request := mkReq { req : bio; bio_status : bio_status_t }.

(** ** The disk

    Between commands the disk is idle; a command to read leaves its sectors to
    be fetched from the data port, a command to write expects them there. *)
Inductive phase_t := Idle | DataIn (drv lba n : Z) | DataOut (drv lba n : Z).

(** The address of a command in the task file: 28 bits over four registers. *)
Definition task_lba (r : Z -> Z) : Z :=
  r IDE_REG_SECTOR + 2 ^ 8 * r IDE_REG_CYL_L + 2 ^ 16 * r IDE_REG_CYL_H + 2 ^ 24 * (r IDE_REG_DRIVE `mod` 16).
Definition task_drive (r : Z -> Z) : Z := Z.shiftr (r IDE_REG_DRIVE) 4 `mod` 2.

(** [inb] and [outb] are [readb] and [writeb], [ins n] reads [n] sectors from
    the data port and [outs] writes sectors to it.  [latch] has the task file,
    [sectors] the contents of the drives, and [patience] bounds how often the
    status can be read before an idle disk shows that it is ready. *)
Class AtaDisk (C : Type) := {
  inb : Z -> M C Z;
  outb : Z -> Z -> M C unit;
  ins : Z -> M C (list block);
  outs : list block -> M C unit;
  latch : C -> Z -> Z;
  sectors : C -> Z -> Z -> block;
  phase : C -> phase_t;
  patience : C -> nat;
  inb_status c : phase c = Idle -> exists v c', inb IDE_REG_STATUS_CMD c = Ret v c' /\ phase c' = Idle /\
    (forall d l, sectors c' d l = sectors c d l) /\
    (Z.land v (Z.lor IDE_STATUS_BSY IDE_STATUS_DRDY) = IDE_STATUS_DRDY \/ (patience c' < patience c)%nat);
  outb_reg c r v : phase c = Idle -> r <> IDE_REG_STATUS_CMD -> r <> IDE_REG_DATA -> 0 <= v < 256 ->
    exists c', outb r v c = Ret tt c' /\ phase c' = Idle /\ (forall d l, sectors c' d l = sectors c d l) /\
      (forall q, q <> IDE_REG_CTRL -> latch c' q = if q =? r then v else latch c q);
  outb_cmd c v : phase c = Idle -> 0 < latch c IDE_REG_COUNT <= 8 ->
    v = IDE_CMD_READ \/ v = IDE_CMD_RDMUL \/ v = IDE_CMD_WRITE \/ v = IDE_CMD_WRMUL ->
    exists c', outb IDE_REG_STATUS_CMD v c = Ret tt c' /\ (forall d l, sectors c' d l = sectors c d l) /\
      phase c' = (if (v =? IDE_CMD_READ) || (v =? IDE_CMD_RDMUL) then DataIn else DataOut)
                   (task_drive (latch c)) (task_lba (latch c)) (latch c IDE_REG_COUNT);
  ins_spec c d l n : phase c = DataIn d l n ->
    exists c', ins n c = Ret (sectors c d <$> seqZ l n) c' /\ phase c' = Idle /\ forall d' l', sectors c' d' l' = sectors c d' l';
  outs_spec c d l n bs : phase c = DataOut d l n -> Z.of_nat (length bs) = n ->
    exists c', outs bs c = Ret tt c' /\ phase c' = Idle /\ forall d' l', sectors c' d' l' =
      if (d' =? d) && (l <=? l') && (l' <? l + n) then bs !!! Z.to_nat (l' - l) else sectors c d' l';
}.

Section model.
Context {C : Type} `{!AtaDisk C}.

(** The device with its queue, the requests by address, the memory by blocks as
    in Bdev.v, and the requests whose thread sleeps on their condition
    variable. *)
Record ide := mkIde {
  request_queue : list Z;
  bios : gmap Z request;
  ram : gmap Z block;
  sleepers : gset Z;
  status : ide_status_t;
  ide_index : Z;
  ctl : C;
}.

Definition set_queue x s := mkIde x (bios s) (ram s) (sleepers s) (status s) (ide_index s) (ctl s).
Definition set_bios x s := mkIde (request_queue s) x (ram s) (sleepers s) (status s) (ide_index s) (ctl s).
Definition set_ram x s := mkIde (request_queue s) (bios s) x (sleepers s) (status s) (ide_index s) (ctl s).
Definition set_sleepers x s := mkIde (request_queue s) (bios s) (ram s) x (status s) (ide_index s) (ctl s).
Definition set_status x s := mkIde (request_queue s) (bios s) (ram s) (sleepers s) x (ide_index s) (ctl s).
Definition set_ctl x s := mkIde (request_queue s) (bios s) (ram s) (sleepers s) (status s) (ide_index s) x.
Definition on_ctl {B} (m : M C B) : M ide B := zoom ctl set_ctl m.

Definition get_bio (p : Z) : M ide request :=
  o <- gets (fun s => bios s !! p) ;; of_option Fault o.
Definition put_bio (p : Z) (x : request) : M ide unit := modify (fun s => set_bios (<[p := x]> (bios s)) s).

(** The blocks at a buffer, and storing blocks there. *)
Definition blks_at (buf n : Z) (m : gmap Z block) : option (list block) :=
  mapM (fun i => m !! (buf + BDEV_BLK_SIZE * i)) (seqZ 0 n).
Fixpoint fill (bs : list block) (buf : Z) (m : gmap Z block) : gmap Z block :=
  match bs with
  | [] => m
  | x :: bs' => fill bs' (buf + BDEV_BLK_SIZE) (<[buf := x]> m)
  end.
Definition readn (buf n : Z) : M ide unit :=
  bs <- on_ctl (ins n) ;; modify (fun s => set_ram (fill bs buf (ram s)) s).
Definition writen (buf n : Z) : M ide unit :=
  o <- gets (fun s => blks_at buf n (ram s)) ;;
  bs <- of_option Fault o ;;
  on_ctl (outs bs).

(** 0 is NULL. *)
Definition bdev_front_bio (pop : bool) : M ide Z :=
  q <- gets request_queue ;;
  match q with
  | [] => ret 0
  | b :: q' => (if pop then modify (set_queue q') else ret tt) ;; ret b
  end.

(** The loop that polls the status, at most [n] times. *)
Fixpoint ide_poll (n : nat) : M ide Z :=
  match n with
  | O => stop Fuel
  | S n' =>
      status <- on_ctl (inb IDE_REG_STATUS_CMD) ;;
      if negb (Z.land status (Z.lor IDE_STATUS_BSY IDE_STATUS_DRDY) =? IDE_STATUS_DRDY) then ide_poll n' else ret status
  end.
Definition ide_wait : M ide err_t :=
  n <- gets (fun s => patience (ctl s)) ;;
  status <- ide_poll (S n) ;;
  ret (if negb (Z.land status (Z.lor IDE_STATUS_DF IDE_STATUS_ERR) =? 0) then ERR_IDE_DISK_ERR else ERR_OK).

(** The command of a request. *)
Definition command (op : bio_op_t) (num_sectors : Z) : Z :=
  match op with
  | BIO_READ => if num_sectors >? 1 then IDE_CMD_RDMUL else IDE_CMD_READ
  | BIO_WRITE => if num_sectors >? 1 then IDE_CMD_WRMUL else IDE_CMD_WRITE
  end.

(** [ide_issue_cmd]; it does not look at the result of [ide_wait]. *)
Definition ide_issue_cmd (p : Z) : M ide unit :=
  kassert (negb (p =? 0)) ;;
  x <- get_bio p ;;
  let sector := s32 (bio_blk (req x) * (BDEV_BLK_SIZE `div` IDE_SECTOR_SIZE)) in
  let num_sectors := s32 (bio_size (req x) * (BDEV_BLK_SIZE `div` IDE_SECTOR_SIZE)) in
  kassert ((num_sectors >? 0) && (num_sectors <=? 8)) ;;
  i <- gets ide_index ;;
  ide_wait ;;
  on_ctl (outb IDE_REG_CTRL 0) ;;
  on_ctl (outb IDE_REG_COUNT (u8 num_sectors)) ;;
  on_ctl (outb IDE_REG_SECTOR (Z.land sector 255)) ;;
  on_ctl (outb IDE_REG_CYL_L (Z.land (Z.shiftr sector 8) 255)) ;;
  on_ctl (outb IDE_REG_CYL_H (Z.land (Z.shiftr sector 16) 255)) ;;
  on_ctl (outb IDE_REG_DRIVE (u8 (Z.lor (Z.lor 224 (Z.shiftl i 4)) (Z.land (Z.shiftr sector 24) 15)))) ;;
  on_ctl (outb IDE_REG_STATUS_CMD (command (bio_op (req x)) num_sectors)) ;;
  match bio_op (req x) with
  | BIO_WRITE => writen (bio_buffer (req x)) (bio_size (req x))
  | BIO_READ => ret tt
  end ;;
  modify (set_status IDE_BUSY).

Definition is_pending (x : request) : bool := match bio_status x with BIO_PENDING => true | BIO_COMPLETE => false end.

Definition ide_request_handler : M ide unit :=
  st <- gets status ;;
  match st with
  | IDE_IDLE =>
      p <- bdev_front_bio false ;;
      if negb (p =? 0) then x <- get_bio p ;; kassert (is_pending x) ;; ide_issue_cmd p else ret tt
  | IDE_BUSY => ret tt
  end.

(** [condvar_signal] of the condition variable of a request. *)
Definition signal_bio (p : Z) : M ide unit := modify (fun s => set_sleepers (sleepers s ∖ {[p]}) s).

(** [ide_trap_handler] up to the acknowledgement of the interrupt. *)
Definition ide_trap_handler : M ide unit :=
  st <- gets status ;;
  match st with
  | IDE_BUSY =>
      p <- bdev_front_bio true ;;
      kassert (negb (p =? 0)) ;;
      x <- get_bio p ;;
      kassert (is_pending x) ;;
      match bio_op (req x) with
      | BIO_READ => readn (bio_buffer (req x)) (bio_size (req x))
      | BIO_WRITE => ret tt
      end ;;
      put_bio p (mkReq (req x) BIO_COMPLETE) ;;
      signal_bio p ;;
      p <- bdev_front_bio false ;;
      if negb (p =? 0) then x <- get_bio p ;; kassert (is_pending x) ;; ide_issue_cmd p
      else modify (set_status IDE_IDLE)
  | IDE_IDLE => ret tt
  end.

(** [bdev_make_request] up to the wait for its completion: the request is in
    the memory at [p]. *)
Definition start_request (p : Z) (b : bio) : M ide unit :=
  put_bio p (mkReq b BIO_PENDING) ;;
  modify (fun s => set_queue (request_queue s ++ [p]) s) ;;
  ide_request_handler.

(** A turn of the loop at its end: the thread sleeps, or it returns and its
    caller frees the request. *)
Definition await_request (p : Z) : M ide bool :=
  x <- get_bio p ;;
  if is_pending x then modify (fun s => set_sleepers ({[p]} ∪ sleepers s) s) ;; ret false
  else modify (fun s => set_bios (delete p (bios s)) s) ;; ret true.

(** ** Events

    A thread starts a request or looks whether it is complete, the disk
    interrupts, and the owner of a buffer writes a block to memory. *)
Inductive event :=
| Start (p : Z) (b : bio)
| Interrupt
| Await (p : Z)
| Store (a : Z) (x : block).

Definition do_event (e : event) : M ide unit :=
  match e with
  | Start p b => start_request p b
  | Interrupt => ide_trap_handler
  | Await p => await_request p ;; ret tt
  | Store a x => modify (fun s => set_ram (<[a := x]> (ram s)) s)
  end.
Fixpoint run (es : list event) : M ide unit :=
  match es with
  | [] => ret tt
  | e :: es' => do_event e ;; run es'
  end.

End model.
Arguments ide : clear implicits.

(** ** The device that performs its requests in order *)

Record adev := mkAdev {
  a_queue : list Z;
  a_bios : gmap Z request;
  a_ram : gmap Z block;
  a_sleep : gset Z;
  a_disk : list (Z * block);
}.

Section spec.
Context (disk0 : Z -> block).

(** Blocks from the disk to memory and from memory to the disk, as
    [read_blks] and [write_blks] of Bdev.v have it. *)
Fixpoint reads (n : nat) (blk buf : Z) (d : list (Z * block)) (m : gmap Z block) : gmap Z block :=
  match n with
  | O => m
  | S n' => reads n' (blk + 1) (buf + BDEV_BLK_SIZE) d (<[buf := dread disk0 d blk]> m)
  end.
Fixpoint writes (n : nat) (blk buf : Z) (m : gmap Z block) (d : list (Z * block)) : list (Z * block) :=
  match n with
  | O => d
  | S n' => writes n' (blk + 1) (buf + BDEV_BLK_SIZE) m ((blk, m !!! buf) :: d)
  end.

(** A request that is performed: memory and disk afterwards. *)
Definition perform (b : bio) (m : gmap Z block) (d : list (Z * block)) : gmap Z block * list (Z * block) :=
  match bio_op b with
  | BIO_READ => (reads (Z.to_nat (bio_size b)) (bio_blk b) (bio_buffer b) d m, d)
  | BIO_WRITE => (m, writes (Z.to_nat (bio_size b)) (bio_blk b) (bio_buffer b) m d)
  end.

Definition astep (a : adev) (e : event) : adev :=
  match e with
  | Start p b => mkAdev (a_queue a ++ [p]) (<[p := mkReq b BIO_PENDING]> (a_bios a)) (a_ram a) (a_sleep a) (a_disk a)
  | Interrupt =>
      match a_queue a with
      | [] => a
      | p :: q =>
          match a_bios a !! p with
          | None => a
          | Some x =>
              let md := perform (req x) (a_ram a) (a_disk a) in
              mkAdev q (<[p := mkReq (req x) BIO_COMPLETE]> (a_bios a)) md.1 (a_sleep a ∖ {[p]}) md.2
          end
      end
  | Await p =>
      match a_bios a !! p with
      | Some (mkReq b BIO_COMPLETE) => mkAdev (a_queue a) (delete p (a_bios a)) (a_ram a) (a_sleep a) (a_disk a)
      | _ => mkAdev (a_queue a) (a_bios a) (a_ram a) ({[p]} ∪ a_sleep a) (a_disk a)
      end
  | Store x v => mkAdev (a_queue a) (a_bios a) (<[x := v]> (a_ram a)) (a_sleep a) (a_disk a)
  end.

End spec.

(** The address of a block of a buffer. *)
Definition in_buffer (b : bio) (x : Z) : Prop := exists i, 0 <= i < bio_size b /\ x = bio_buffer b + BDEV_BLK_SIZE * i.

(** A request of one to eight blocks that the disk can address, with a buffer
    in memory. *)
Definition good (m : gmap Z block) (b : bio) : Prop :=
  0 < bio_size b <= 8 /\ 0 <= bio_blk b /\ bio_blk b + bio_size b <= 2 ^ 28 /\ forall x, in_buffer b x -> is_Some (m !! x).

(** A buffer is left to the driver while its request is in the queue. *)
Definition unshared (a : adev) (x : Z) : Prop :=
  forall p r, p ∈ a_queue a -> a_bios a !! p = Some r -> ~ in_buffer (req r) x.

Definition allowed (a : adev) (e : event) : Prop :=
  match e with
  | Start p b => p <> 0 /\ a_bios a !! p = None /\ good (a_ram a) b /\ forall x, in_buffer b x -> unshared a x
  | Interrupt => True
  | Await p => is_Some (a_bios a !! p)
  | Store x _ => unshared a x
  end.
Fixpoint history (disk0 : Z -> block) (a : adev) (es : list event) : Prop :=
  match es with
  | [] => True
  | e :: es' => allowed a e /\ history disk0 (astep disk0 a e) es'
  end.

(** ** Blocks and buffers *)

Section blocks.
Context (disk0 : Z -> block).

Lemma dread_writes m d l : forall n blk buf, dread disk0 (writes n blk buf m d) l =
  if (blk <=? l) && (l <? blk + Z.of_nat n) then m !!! (buf + BDEV_BLK_SIZE * (l - blk)) else dread disk0 d l.
Proof.
  intros n. revert d. induction n as [|n IH]; intros d blk buf; simpl writes.
  { destruct (Z.leb_spec blk l), (Z.ltb_spec l (blk + Z.of_nat 0)); simpl; try done; lia. }
  rewrite IH. simpl dread. destruct (Z.eqb_spec blk l) as [->|].
  - destruct (Z.leb_spec (l + 1) l), (Z.leb_spec l l), (Z.ltb_spec l (l + Z.of_nat (S n))); simpl; try lia. f_equal. lia.
  - destruct (Z.leb_spec (blk + 1) l), (Z.ltb_spec l (blk + 1 + Z.of_nat n)), (Z.leb_spec blk l), (Z.ltb_spec l (blk + Z.of_nat (S n)));
      simpl; try done; try lia. f_equal. lia.
Qed.

Lemma fill_reads d : forall n blk buf m, fill (dread disk0 d <$> seqZ blk (Z.of_nat n)) buf m = reads disk0 n blk buf d m.
Proof.
  induction n as [|n IH]; intros blk buf m; [done|]. rewrite seqZ_cons by lia. simpl fill. simpl reads. rewrite <- IH. f_equal.
  f_equal. f_equal; lia.
Qed.

Lemma reads_lookup d x : forall n blk buf m, (forall i, 0 <= i < Z.of_nat n -> x <> buf + BDEV_BLK_SIZE * i) -> reads disk0 n blk buf d m !! x = m !! x.
Proof.
  induction n as [|n IH]; intros blk buf m Hx; [done|]. simpl. rewrite IH, lookup_insert_ne; [done|..].
  - intros E. apply (Hx 0); lia.
  - intros i Hi E. apply (Hx (i + 1)); lia.
Qed.

Lemma reads_some d x : forall n blk buf m, is_Some (m !! x) -> is_Some (reads disk0 n blk buf d m !! x).
Proof.
  induction n as [|n IH]; intros blk buf m Hx; [done|]. simpl. apply IH. rewrite lookup_insert. case_decide; eauto.
Qed.

(** What a write request does depends on its buffer only. *)
Lemma writes_ext m m' : forall n blk buf d, (forall i, 0 <= i < Z.of_nat n -> m !! (buf + BDEV_BLK_SIZE * i) = m' !! (buf + BDEV_BLK_SIZE * i)) ->
  writes n blk buf m d = writes n blk buf m' d.
Proof.
  induction n as [|n IH]; intros blk buf d Hm; [done|]. simpl. rewrite (lookup_total_alt m), (lookup_total_alt m').
  pose proof (Hm 0 ltac:(lia)) as H0. rewrite Z.mul_0_r, Z.add_0_r in H0. rewrite H0. apply IH. intros i Hi.
  replace (buf + BDEV_BLK_SIZE + BDEV_BLK_SIZE * i) with (buf + BDEV_BLK_SIZE * (i + 1)) by lia. apply Hm. lia.
Qed.

Lemma perform_some b m d x : is_Some (m !! x) -> is_Some ((perform disk0 b m d).1 !! x).
Proof. unfold perform. destruct (bio_op b); simpl; [apply reads_some|done]. Qed.

Lemma perform_ext b m m' d : (forall x, in_buffer b x -> m !! x = m' !! x) -> (perform disk0 b m d).2 = (perform disk0 b m' d).2.
Proof.
  intros Hm. unfold perform. destruct (bio_op b); [done|]. simpl. apply writes_ext. intros i Hi. apply Hm. exists i. split; [lia|done].
Qed.

(** [bdev_make_request] of Bdev.v performs its request. *)
Lemma make_request_performs {A F T} b (s : bcache A F T) : (bio_op b = BIO_WRITE -> forall x, in_buffer b x -> is_Some (mem s !! x)) ->
  bdev_make_request disk0 b s = Ret tt (set_disk (perform disk0 b (mem s) (disk s)).2 (set_mem (perform disk0 b (mem s) (disk s)).1 s)).
Proof.
  unfold bdev_make_request, perform, in_buffer. destruct (bio_op b); intros Hb.
  - clear Hb. generalize (bio_blk b) (bio_buffer b). revert s. induction (Z.to_nat (bio_size b)) as [|n IH]; intros s blk buf; [by destruct s|].
    simpl. unfold bind, modify. rewrite IH. done.
  - specialize (Hb eq_refl). assert (Hb' : forall i, 0 <= i < Z.of_nat (Z.to_nat (bio_size b)) -> is_Some (mem s !! (bio_buffer b + BDEV_BLK_SIZE * i))).
    { intros i Hi. apply Hb. exists i. split; [lia|done]. }
    clear Hb. revert Hb'. generalize (bio_blk b) (bio_buffer b). revert s. induction (Z.to_nat (bio_size b)) as [|n IH]; intros s blk buf Hb; [by destruct s|].
    destruct (Hb 0) as [x Hx]; [lia|]. rewrite Z.mul_0_r, Z.add_0_r in Hx. simpl. unfold bind. rewrite Hx, IH; simpl.
    + by rewrite (lookup_total_correct _ _ _ Hx).
    + intros i Hi. replace (buf + BDEV_BLK_SIZE + BDEV_BLK_SIZE * i) with (buf + BDEV_BLK_SIZE * (i + 1)) by lia. apply Hb. lia.
Qed.

End blocks.

Lemma blks_at_ok m buf n : 0 <= n -> (forall i, 0 <= i < n -> is_Some (m !! (buf + BDEV_BLK_SIZE * i))) ->
  exists bs, blks_at buf n m = Some bs /\ Z.of_nat (length bs) = n /\ forall i, 0 <= i < n -> bs !!! Z.to_nat i = m !!! (buf + BDEV_BLK_SIZE * i).
Proof.
  intros Hn Hm. exists ((fun i => m !!! (buf + BDEV_BLK_SIZE * i)) <$> seqZ 0 n). split_and!.
  - unfold blks_at. apply mapM_Some, Forall2_fmap_r, Forall_Forall2_diag, Forall_seqZ. intros i Hi. destruct (Hm i ltac:(lia)) as [x Hx].
    simpl. by rewrite Hx, (lookup_total_correct _ _ _ Hx).
  - rewrite length_fmap, length_seqZ. lia.
  - intros i Hi. apply list_lookup_total_correct. rewrite list_lookup_fmap, lookup_seqZ_lt by lia. simpl. by rewrite Z2Nat.id by lia.
Qed.

(** The bits of the task file. *)
Lemma task_sector k : 0 <= k < 2 ^ 28 ->
  Z.land k 255 + 2 ^ 8 * Z.land (Z.shiftr k 8) 255 + 2 ^ 16 * Z.land (Z.shiftr k 16) 255 + 2 ^ 24 * Z.land (Z.shiftr k 24) 15 = k.
Proof.
  intros Hk. change 255 with (Z.ones 8). change 15 with (Z.ones 4). rewrite !Z.land_ones, !Z.shiftr_div_pow2 by lia. simpl Z.pow in *. Z.to_euclidean_division_equations. lia.
Qed.
Lemma task_device i x : (i = 0 \/ i = 1) -> 0 <= x < 16 ->
  let v := u8 (Z.lor (Z.lor 224 (Z.shiftl i 4)) x) in 0 <= v < 256 /\ v `mod` 16 = x /\ Z.shiftr v 4 `mod` 2 = i.
Proof.
  intros Hi Hx.
  assert (Hc : forallb (fun i => forallb (fun x => let v := u8 (Z.lor (Z.lor 224 (Z.shiftl i 4)) x) in
    (0 <=? v) && (v <? 256) && (v `mod` 16 =? x) && (Z.shiftr v 4 `mod` 2 =? i)) (seqZ 0 16)) [0; 1] = true) by (vm_compute; reflexivity).
  rewrite forallb_forall in Hc. specialize (Hc i ltac:(simpl; lia)). cbv beta in Hc. rewrite forallb_forall in Hc.
  specialize (Hc x ltac:(apply list_elem_of_In, elem_of_seqZ; lia)). cbv zeta in Hc |- *. lia.
Qed.

Section driver.
Context {C : Type} `{!AtaDisk C} (disk0 : Z -> block).

(** The disk of the driver has the contents [d]. *)
Definition disk_at (c : C) (i : Z) (d : list (Z * block)) : Prop := forall l, 0 <= l < 2 ^ 28 -> sectors c i l = dread disk0 d l.

(** The disk has got the command for a request: what it reads waits to be
    fetched, what it writes has been transferred. *)
Definition issued (c : C) (i : Z) (b : bio) (m : gmap Z block) (d : list (Z * block)) : Prop :=
  phase c = match bio_op b with BIO_READ => DataIn i (bio_blk b) (bio_size b) | BIO_WRITE => Idle end /\
  disk_at c i (perform disk0 b m d).2.

Lemma poll_ok : forall n s, phase (ctl s) = Idle -> (patience (ctl s) < n)%nat ->
  wp (ide_poll n) (fun _ s' => exists c, s' = set_ctl c s /\ phase c = Idle /\ forall d l, sectors c d l = sectors (ctl s) d l) s.
Proof.
  induction n as [|n IH]; intros s Hp Hn; [lia|]. simpl. destruct (inb_status _ Hp) as (v & c & E & Hp' & Hs & Hv).
  apply wp_bind, wp_zoom. unfold wp at 1. rewrite E. destruct (Z.eqb_spec (Z.land v (Z.lor IDE_STATUS_BSY IDE_STATUS_DRDY)) IDE_STATUS_DRDY); simpl.
  - apply wp_ret. eauto.
  - destruct Hv as [?|Hv]; [done|]. eapply wp_mono; [apply IH; [done|simpl; lia]|]. intros _ s' (c' & -> & Hp'' & Hs').
    exists c'. split_and!; [done|done|]. intros d l. rewrite Hs'. apply Hs.
Qed.

(** A step of the driver that writes a register. *)
Lemma outb_step {B} r v (k : M (ide C) B) Q s : phase (ctl s) = Idle -> r <> IDE_REG_STATUS_CMD -> r <> IDE_REG_DATA -> 0 <= v < 256 ->
  (forall c, phase c = Idle -> (forall d l, sectors c d l = sectors (ctl s) d l) ->
    (forall q, q <> IDE_REG_CTRL -> latch c q = if q =? r then v else latch (ctl s) q) -> wp k Q (set_ctl c s)) ->
  wp (on_ctl (outb r v) ;; k) Q s.
Proof.
  intros Hp H1 H2 Hv Hk. destruct (outb_reg _ r v Hp H1 H2 Hv) as (c & E & Hp' & Hs & Hl). apply wp_bind, wp_zoom. unfold wp at 1. rewrite E. auto.
Qed.

Lemma land_bounds x m n : 0 <= n -> m = Z.ones n -> 0 <= Z.land x m < 2 ^ n.
Proof. intros Hn ->. rewrite Z.land_ones by done. apply Z.mod_pos_bound. lia. Qed.

Lemma command_ok o n : command o n = IDE_CMD_READ \/ command o n = IDE_CMD_RDMUL \/ command o n = IDE_CMD_WRITE \/ command o n = IDE_CMD_WRMUL.
Proof. unfold command. destruct o, (_ >? _); auto. Qed.
Lemma command_phase o k d l n : (if (command o k =? IDE_CMD_READ) || (command o k =? IDE_CMD_RDMUL) then DataIn else DataOut) d l n =
  match o with BIO_READ => DataIn d l n | BIO_WRITE => DataOut d l n end.
Proof. unfold command. by destruct o, (_ >? _). Qed.

(** The transfer after the command. *)
Lemma transfer_ok b c i m d s : good m b -> ram s = m ->
  disk_at c i d -> phase c = match bio_op b with BIO_READ => DataIn i (bio_blk b) (bio_size b) | BIO_WRITE => DataOut i (bio_blk b) (bio_size b) end ->
  wp (match bio_op b with BIO_WRITE => writen (bio_buffer b) (bio_size b) | BIO_READ => ret tt end)
    (fun _ s' => exists c', s' = set_ctl c' s /\ issued c' i b m d) (set_ctl c s).
Proof.
  intros (Hn & Hb & Hl & Hm) Hr Hd Hp. unfold issued, perform. destruct (bio_op b); simpl in *; [apply wp_ret; eauto|].
  destruct (blks_at_ok m (bio_buffer b) (bio_size b)) as (bs & Eb & Hlen & Hbs); [lia|intros j Hj; apply Hm; by exists j|].
  unfold writen. apply wp_bind, wp_gets, wp_bind. eapply wp_of_option; [by rewrite <- Eb; simpl; rewrite Hr|].
  destruct (outs_spec c i _ _ bs Hp Hlen) as (c' & E & Hp' & Hs). apply wp_zoom. unfold wp. simpl. rewrite E. exists c'. split; [done|]. split; [done|].
  intros l Hl'. rewrite Hs, Z.eqb_refl, dread_writes. simpl. rewrite Z2Nat.id by lia.
  destruct (Z.leb_spec (bio_blk b) l), (Z.ltb_spec l (bio_blk b + bio_size b)); simpl; auto. apply Hbs. lia.
Qed.

Lemma issue_ok p x s d : p <> 0 -> bios s !! p = Some x -> good (ram s) (req x) -> (ide_index s = 0 \/ ide_index s = 1) ->
  phase (ctl s) = Idle -> disk_at (ctl s) (ide_index s) d ->
  wp (ide_issue_cmd p) (fun _ s' => exists c, s' = set_status IDE_BUSY (set_ctl c s) /\ issued c (ide_index s) (req x) (ram s) d) s.
Proof.
  intros Hp Hx Hg Hi Hph Hd. pose proof Hg as (Hn & Hb & Hl & Hm). unfold ide_issue_cmd, get_bio. apply wp_bind, wp_kassert; [by rewrite (proj2 (Z.eqb_neq p 0))|].
  apply wp_bind, wp_bind, wp_gets. eapply wp_of_option; [exact Hx|]. change (BDEV_BLK_SIZE `div` IDE_SECTOR_SIZE) with 1. rewrite !Z.mul_1_r, !swrap_small by lia.
  apply wp_bind, wp_kassert; [lia|]. apply wp_bind, wp_gets.
  eapply wp_call with (P := fun _ s' => exists c, s' = set_ctl c s /\ phase c = Idle /\ forall d l, sectors c d l = sectors (ctl s) d l).
  { unfold ide_wait. apply wp_bind, wp_gets. eapply wp_call; [apply poll_ok; [done|lia]|]. intros v s' H. by apply wp_ret. }
  intros _ ? (c0 & -> & P0 & S0).
  destruct (task_device (ide_index s) (Z.land (Z.shiftr (bio_blk (req x)) 24) 15) Hi (land_bounds _ 15 4 ltac:(lia) eq_refl)) as (Hdr & Hdm & Hdd).
  set (dv := u8 (Z.lor _ _)) in *.
  apply outb_step; [done|done|done|lia|]. intros c1 P1 S1 _. apply outb_step; [done|done|done|apply wrap_range; lia|]. intros c2 P2 S2 L2.
  apply outb_step; [done|done|done|by apply (land_bounds _ 255 8)|]. intros c3 P3 S3 L3. apply outb_step; [done|done|done|by apply (land_bounds _ 255 8)|]. intros c4 P4 S4 L4.
  apply outb_step; [done|done|done|by apply (land_bounds _ 255 8)|]. intros c5 P5 S5 L5. apply outb_step; [done|done|done|done|]. intros c6 P6 S6 L6. simpl in *.
  assert (Hcnt : latch c6 IDE_REG_COUNT = bio_size (req x)) by (rewrite L6, L5, L4, L3, L2 by done; simpl; apply wrap_small; lia).
  assert (Hlba : task_lba (latch c6) = bio_blk (req x)).
  { unfold task_lba. rewrite <- (task_sector (bio_blk (req x))) by lia. rewrite !L6, !L5, !L4, !L3 by done. simpl. by rewrite Hdm. }
  assert (Hdrv : task_drive (latch c6) = ide_index s) by (unfold task_drive; rewrite L6 by done; exact Hdd).
  destruct (outb_cmd c6 _ P6 ltac:(lia) (command_ok (bio_op (req x)) (bio_size (req x)))) as (c7 & E7 & S7 & P7). apply wp_bind, wp_zoom. unfold wp at 1. simpl. rewrite E7.
  rewrite command_phase, Hcnt, Hlba, Hdrv in P7.
  eapply wp_call; [apply (transfer_ok (req x) c7 (ide_index s) (ram s) d s Hg eq_refl); [|exact P7]|].
  { intros l Hl'. rewrite S7, S6, S5, S4, S3, S2, S1, S0. auto. }
  intros _ ? (c & -> & His). apply wp_modify. eauto.
Qed.

(** ** The simulation *)

(** The requests in the queue are pending, have buffers of their own, and are
    the only ones a thread sleeps on. *)
Record awf (a : adev) : Prop := {
  w_nodup : NoDup (a_queue a);
  w_queue p : p ∈ a_queue a -> p <> 0 /\ exists b, a_bios a !! p = Some (mkReq b BIO_PENDING) /\ good (a_ram a) b;
  w_done p x : a_bios a !! p = Some x -> is_pending x = true -> p ∈ a_queue a;
  w_own p q x y z : p ∈ a_queue a -> q ∈ a_queue a -> p <> q -> a_bios a !! p = Some x -> a_bios a !! q = Some y ->
    in_buffer (req x) z -> in_buffer (req y) z -> False;
  w_sleep p : p ∈ a_sleep a -> p ∈ a_queue a;
}.

(** The driver is busy with the head of the queue, if there is one. *)
Definition ctl_ok (st : ide_status_t) (c : C) (i : Z) (a : adev) : Prop :=
  match a_queue a with
  | [] => st = IDE_IDLE /\ phase c = Idle /\ disk_at c i (a_disk a)
  | p :: _ => st = IDE_BUSY /\ exists x, a_bios a !! p = Some x /\ issued c i (req x) (a_ram a) (a_disk a)
  end.

Record sim (s : ide C) (a : adev) : Prop := {
  s_view : (request_queue s, bios s, ram s, sleepers s) = (a_queue a, a_bios a, a_ram a, a_sleep a);
  s_wf : awf a;
  s_index : ide_index s = 0 \/ ide_index s = 1;
  s_ctl : ctl_ok (status s) (ctl s) (ide_index s) a;
}.

Lemma good_mono m m' b : (forall x, is_Some (m !! x) -> is_Some (m' !! x)) -> good m b -> good m' b.
Proof. intros Hm (H1 & H2 & H3 & H4). split_and!; try done; try lia. intros x Hx. auto. Qed.

Lemma awf_start a p b : awf a -> allowed a (Start p b) -> awf (astep disk0 a (Start p b)).
Proof.
  intros [Hn Hq Hd Ho Hs] (Hp & Hf & Hg & Hu). simpl.
  assert (Hpq : p ∉ a_queue a) by (intros Hin; destruct (Hq p Hin) as (_ & ? & E & _); congruence).
  split; simpl.
  - apply NoDup_app. split_and!; [done| |apply NoDup_singleton]. set_solver.
  - intros q [Hin|Hin%list_elem_of_singleton]%elem_of_app; [|subst q; rewrite lookup_insert_eq; eauto]. rewrite lookup_insert_ne by set_solver. auto.
  - intros q x. rewrite elem_of_app, list_elem_of_singleton, lookup_insert. case_decide; [auto|]. intros E E'. left. eauto.
  - intros q r x y z. rewrite !elem_of_app, !list_elem_of_singleton, !lookup_insert.
    intros Hq1 Hr1 Hne E1 E2 Hx Hy. repeat case_decide; simplify_eq/=.
    + destruct Hq1 as [Hq1|Hq1]; [|by subst]. exact (Hu z Hy q x Hq1 E1 Hx).
    + destruct Hr1 as [Hr1|Hr1]; [|by subst]. exact (Hu z Hx r y Hr1 E2 Hy).
    + destruct Hq1 as [Hq1|Hq1]; [|by subst]. destruct Hr1 as [Hr1|Hr1]; [|by subst]. exact (Ho q r x y z Hq1 Hr1 Hne E1 E2 Hx Hy).
  - intros q Hin. apply elem_of_app. auto.
Qed.

Lemma awf_complete a p q x : awf a -> a_queue a = p :: q -> a_bios a !! p = Some x -> awf (astep disk0 a Interrupt).
Proof.
  intros [Hn Hq Hd Ho Hs] Eq Ex. simpl. rewrite Eq, Ex in *. apply NoDup_cons in Hn as [Hpq Hn].
  assert (Hne : forall r, r ∈ q -> r <> p) by (intros r Hr ->; done). split; simpl.
  - done.
  - intros r Hr. destruct (Hq r) as (H0 & b & Eb & Hg); [set_solver|]. split; [done|]. exists b. rewrite lookup_insert_ne by (symmetry; auto).
    split; [done|]. eapply good_mono; [|exact Hg]. intros y. apply perform_some.
  - intros r y. rewrite lookup_insert. case_decide; [by intros [= <-]|]. intros E E'. specialize (Hd r y E E'). set_solver.
  - intros r r' y y' z Hr Hr' Hrr. rewrite !lookup_insert_ne by (symmetry; auto). apply Ho; set_solver.
  - intros r [Hr%Hs Hr']%elem_of_difference. set_solver.
Qed.

Lemma awf_await a p : awf a -> is_Some (a_bios a !! p) -> awf (astep disk0 a (Await p)).
Proof.
  intros [Hn Hq Hd Ho Hs] [[b []] Eb]; simpl; rewrite Eb; split; simpl; try done.
  - intros q [Hin%elem_of_singleton|Hin]%elem_of_union; [subst q|]; eauto.
  - intros q Hin. destruct (Hq q Hin) as (H0 & b' & Eb' & Hg). split; [done|]. exists b'. rewrite lookup_delete_ne by congruence. done.
  - intros q x [_ E]%lookup_delete_Some. eauto.
  - intros q r x y z Hin Hr Hne [_ E]%lookup_delete_Some [_ E']%lookup_delete_Some. eauto.
Qed.

Lemma awf_store a y v : awf a -> awf (astep disk0 a (Store y v)).
Proof.
  intros [Hn Hq Hd Ho Hs]. split; simpl; try done. intros q Hin. destruct (Hq q Hin) as (H0 & b' & Eb' & Hg). split; [done|]. exists b'. split; [done|].
  eapply good_mono; [|exact Hg]. intros z. rewrite lookup_insert. case_decide; eauto.
Qed.

Lemma sim_view s a : sim s a -> request_queue s = a_queue a /\ bios s = a_bios a /\ ram s = a_ram a /\ sleepers s = a_sleep a.
Proof. intros [[= -> -> -> ->] _ _ _]. done. Qed.

(** Handing the head of the queue to an idle disk. *)
Lemma issue_head s a p q k : request_queue s = p :: q -> (request_queue s, bios s, ram s, sleepers s) = (a_queue a, a_bios a, a_ram a, a_sleep a) -> awf a ->
  (ide_index s = 0 \/ ide_index s = 1) -> phase (ctl s) = Idle -> disk_at (ctl s) (ide_index s) (a_disk a) ->
  wp (if negb (p =? 0) then x <- get_bio p ;; kassert (is_pending x) ;; ide_issue_cmd p else k) (fun _ s' => sim s' a) s.
Proof.
  intros Eq Ev Hw Hi Hp Hd. injection Ev as E1 E2 E3 E4. rewrite Eq in E1.
  destruct (w_queue a Hw p) as (H0 & b & Eb & Hg); [rewrite <- E1; by left|]. rewrite (proj2 (Z.eqb_neq p 0)) by done. simpl.
  rewrite <- E2 in Eb. rewrite <- E3 in Hg.
  apply wp_bind. unfold get_bio. apply wp_bind, wp_gets. eapply wp_of_option; [exact Eb|]. apply wp_bind, wp_kassert; [done|].
  eapply wp_mono; [eapply (issue_ok p (mkReq b BIO_PENDING)); eauto|]. intros _ ? (c & -> & His).
  split; simpl; [congruence|done|done|]. unfold ctl_ok. rewrite <- E1, <- E2, <- E3. eauto.
Qed.

Lemma start_sim s a p b : sim s a -> allowed a (Start p b) -> wp (start_request p b) (fun _ s' => sim s' (astep disk0 a (Start p b))) s.
Proof.
  intros H Ha. pose proof (awf_start a p b (s_wf _ _ H) Ha) as Hw. destruct (sim_view s a H) as (E1 & E2 & E3 & E4). pose proof H as [_ Hw0 Hi Hc].
  simpl in Hw |- *. unfold start_request, put_bio. apply wp_bind, wp_modify, wp_bind, wp_modify. unfold ide_request_handler. apply wp_bind, wp_gets. simpl.
  unfold ctl_ok in Hc. destruct (a_queue a) as [|q0 q] eqn:Eq.
  - destruct Hc as (-> & Hp & Hd). apply wp_bind, wp_bind, wp_gets. simpl. rewrite E1. apply wp_bind, wp_ret, wp_ret.
    apply (issue_head _ _ p []); simpl; try done. congruence.
  - destruct Hc as (Hst & x & Ex & His). rewrite Hst. apply wp_ret. split; simpl; [rewrite E1, E2, E3, E4; done|done|done|]. unfold ctl_ok. simpl. split; [done|].
    exists x. split; [|done]. destruct Ha as (_ & Hf & _). rewrite lookup_insert_ne by congruence. done.
Qed.

(** The end of the head of the queue: its blocks are fetched if it reads. *)
Lemma finish_ok s b m d : ram s = m -> issued (ctl s) (ide_index s) b m d -> 0 < bio_size b <= 8 -> 0 <= bio_blk b -> bio_blk b + bio_size b <= 2 ^ 28 ->
  wp (match bio_op b with BIO_READ => readn (bio_buffer b) (bio_size b) | BIO_WRITE => ret tt end)
    (fun _ s' => exists c, s' = set_ram (perform disk0 b m d).1 (set_ctl c s) /\ phase c = Idle /\ disk_at c (ide_index s) (perform disk0 b m d).2) s.
Proof.
  intros Hm [Hp Hd] Hn Hb Hl. unfold perform in *. destruct (bio_op b); simpl in *; cycle 1.
  { apply wp_ret. exists (ctl s). split; [destruct s; simpl in *; by subst|done]. }
  unfold readn. destruct (ins_spec _ _ _ _ Hp) as (c & E & Hp' & Hs). apply wp_bind, wp_zoom. unfold wp at 1. rewrite E. apply wp_modify. exists c.
  split_and!; [|done|intros l Hl'; rewrite Hs; auto]. simpl. unfold set_ram. simpl. f_equal. rewrite Hm, <- fill_reads, Z2Nat.id by lia. f_equal.
  apply list_fmap_ext. intros i l [-> Hi]%lookup_seqZ. apply Hd. lia.
Qed.

Lemma interrupt_sim s a : sim s a -> wp ide_trap_handler (fun _ s' => sim s' (astep disk0 a Interrupt)) s.
Proof.
  intros H. destruct (sim_view s a H) as (E1 & E2 & E3 & E4). pose proof H as [_ Hw Hi Hc]. unfold ide_trap_handler. apply wp_bind, wp_gets.
  unfold ctl_ok in Hc. destruct (a_queue a) as [|p q] eqn:Eq; [destruct Hc as (-> & _); apply wp_ret; simpl; by rewrite Eq|].
  destruct Hc as (-> & x & Ex & His). pose proof (awf_complete a p q x Hw Eq Ex) as Hw'. simpl in *. rewrite Eq, Ex in *.
  destruct (w_queue a Hw p) as (H0 & b & Eb & Hg); [rewrite Eq; by left|]. rewrite Ex in Eb. injection Eb as ->. destruct Hg as (Hn & Hb & Hl & Hm).
  apply wp_bind, wp_bind, wp_gets. rewrite E1. apply wp_bind, wp_modify, wp_ret. apply wp_bind, wp_kassert; [by rewrite (proj2 (Z.eqb_neq p 0))|].
  apply wp_bind, wp_bind, wp_gets. eapply wp_of_option; [simpl; by rewrite E2|]. apply wp_bind, wp_kassert; [done|].
  eapply wp_call; [apply (finish_ok (set_queue q s) b (a_ram a) (a_disk a) E3 His); lia|]. intros _ ? (c & -> & Hp & Hd). simpl in *.
  apply wp_bind, wp_modify, wp_bind, wp_modify. apply wp_bind, wp_bind, wp_gets. simpl. destruct q as [|p' q'].
  - apply wp_ret. simpl. apply wp_modify. split; simpl; [congruence|done|done|]. done.
  - apply wp_bind, wp_ret, wp_ret. apply (issue_head _ _ p' q'); simpl; try done. congruence.
Qed.

Lemma await_sim s a p : sim s a -> is_Some (a_bios a !! p) ->
  wp (await_request p) (fun r s' => sim s' (astep disk0 a (Await p)) /\ (r = true <-> p ∉ a_queue a)) s.
Proof.
  intros H Hp. pose proof (awf_await a p (s_wf _ _ H) Hp) as Hw. destruct (sim_view s a H) as (E1 & E2 & E3 & E4). pose proof H as [_ Hw0 Hi Hc].
  destruct Hp as [[b st] Ep]. unfold await_request, get_bio. apply wp_bind, wp_bind, wp_gets. eapply wp_of_option; [by rewrite E2|].
  simpl in *. rewrite Ep in *. destruct st; simpl.
  - apply wp_bind, wp_modify, wp_ret. split; [split; simpl; try done; congruence|]. split; [done|]. intros []. by eapply (w_done a Hw0).
  - assert (Hpq : p ∉ a_queue a) by (intros Hin; destruct (w_queue a Hw0 p Hin) as (_ & b' & E' & _); congruence).
    apply wp_bind, wp_modify, wp_ret. split; [|done]. split; simpl; try done; [congruence|]. unfold ctl_ok in *. simpl.
    destruct (a_queue a) as [|q qs] eqn:Eq; [done|]. destruct Hc as (Hst & x & Ex & His). split; [done|]. exists x. split; [|done].
    rewrite lookup_delete_ne by set_solver. done.
Qed.

Lemma store_sim s a y v : sim s a -> unshared a y -> sim (set_ram (<[y := v]> (ram s)) s) (astep disk0 a (Store y v)).
Proof.
  intros H Hu. destruct (sim_view s a H) as (E1 & E2 & E3 & E4). pose proof H as [_ Hw0 Hi Hc]. split; simpl; [congruence|by apply awf_store|done|].
  unfold ctl_ok in *. simpl. destruct (a_queue a) as [|q qs] eqn:Eq; [done|]. destruct Hc as (Hst & x & Ex & Hp & Hd). split; [done|]. exists x. split; [done|].
  split; [done|]. rewrite <- (perform_ext disk0 (req x) (a_ram a)); [done|]. intros z Hz. rewrite lookup_insert_ne; [done|]. intros <-.
  apply (Hu q x); [rewrite Eq; by left|done|done].
Qed.

Lemma event_sim s a e : sim s a -> allowed a e -> wp (do_event e) (fun _ s' => sim s' (astep disk0 a e)) s.
Proof.
  intros H Ha. destruct e as [p b| |p|y v]; cbn [do_event].
  - by apply start_sim.
  - by apply interrupt_sim.
  - eapply wp_call; [by apply await_sim|]. intros r s' [Hs _]. by apply wp_ret.
  - by apply wp_modify, store_sim.
Qed.

Lemma run_sim es : forall s a, sim s a -> history disk0 a es -> wp (run es) (fun _ s' => sim s' (foldl (astep disk0) a es)) s.
Proof.
  induction es as [|e es IH]; intros s a H Hh; simpl; [by apply wp_ret|]. destruct Hh as [Ha Hh].
  eapply wp_call; [by apply event_sim|]. intros [] s' Hs. by apply IH.
Qed.


End driver.

(** ** Setting the device up *)

Section init.
Context {C : Type} `{!AtaDisk C} {A : Type} `{!ObjAlloc A} {T : Type} `{!PtrMap T} {U : Type}.
(** [ide_trap_handler] in the table of handlers. *)
Context (ide_handler : Z).

Record isys := mkIsys { tr : Trap.traps A T U; io : Ioapic.ioregs; dv : ide C }.
Definition on_tr {B} (m : M (Trap.traps A T U) B) : M isys B := zoom tr (fun x s => mkIsys x (io s) (dv s)) m.
Definition on_io {B} (m : M Ioapic.ioregs B) : M isys B := zoom io (fun x s => mkIsys (tr s) x (dv s)) m.
Definition on_dv {B} (m : M (ide C) B) : M isys B := zoom dv (fun x s => mkIsys (tr s) (io s) x) m.

Definition ide_init (bdev : Z) : M isys err_t :=
  kassert (negb (bdev =? 0)) ;;
  e <- on_tr (Trap.trap_register_handler T_IRQ_IDE bdev ide_handler) ;;
  if negb (e =? ERR_OK) then ret ERR_IDE_INIT_FAIL
  else
    e <- on_io (Ioapic.trap_enable_irq T_IRQ_IDE) ;;
    if negb (e =? ERR_OK) then ret ERR_IDE_INIT_FAIL
    else on_dv ide_wait ;; ret ERR_OK.

Lemma ide_init_ok bdev t s : Trap.refines (tr s) t -> phase (ctl (dv s)) = Idle -> bdev <> 0 -> ide_handler <> 0 ->
  wp (ide_init bdev) (fun e s' =>
    e = ERR_OK /\ Trap.refines (tr s') (<[T_IRQ_IDE := Trap.mkEntry bdev ide_handler]> t) /\ Ioapic.delivered (io s') T_IRQ_IDE = true \/
    e = ERR_IDE_INIT_FAIL /\ Trap.refines (tr s') t /\ io s' = io s) s.
Proof.
  intros Ht Hp Hb Hh. unfold ide_init. apply wp_bind, wp_kassert; [by rewrite (proj2 (Z.eqb_neq bdev 0))|]. apply wp_bind, wp_zoom.
  eapply wp_mono; [by apply (Trap.register_refines T_IRQ_IDE bdev ide_handler _ t)|]. intros e r' (_ & He). simpl.
  destruct He as [(-> & _ & Hr)|[-> Hr]]; [simpl|apply wp_ret; right; done].
  destruct (Ioapic.irq_lines T_IRQ_IDE T_IRQ_IDE (io s)) as [Hen _]; [done|done|]. apply wp_bind, wp_zoom. eapply wp_mono; [exact Hen|].
  intros e io' [-> Hd]. simpl in *. apply wp_bind, wp_zoom. unfold ide_wait. apply wp_bind, wp_gets. simpl.
  eapply wp_call; [apply (poll_ok (S (patience (ctl (dv s)))) (dv s) Hp); lia|]. intros v s' (c & -> & _). apply wp_ret, wp_ret. left. done.
Qed.

End init.

(** ** Descriptors

    A block device has a memory store, which has a structure of its own for
    devices, and the disk has its descriptor: four object allocators, which
    have been created. *)

Inductive pool := PBdev | PStore | PInfo | PIde.
#[global] Instance pool_eq_dec : EqDecision pool.
Proof. solve_decision. Defined.

Record bdev := mkBdev { dev : Z; store : Z; data : Z }.
Record ide_dev := mkIdeDev { d_status : ide_status_t; d_index : Z }.

Lemma grow_sets (l0 l1 l2 e e' : gset Z) : l1 = e ∪ l0 /\ e ## l0 -> l2 = e' ∪ l1 /\ e' ## l1 -> l2 = (e' ∪ e) ∪ l0 /\ e' ∪ e ## l0.
Proof. intros [-> H] [-> H']. set_solver. Qed.
Lemma shrink_sets (l0 l1 l2 e : gset Z) p : l1 = e ∪ l0 -> e ## l0 -> p ∈ e -> l2 = l1 ∖ {[p]} -> l2 = (e ∖ {[p]}) ∪ l0 /\ e ∖ {[p]} ## l0.
Proof. intros -> H Hp ->. set_solver. Qed.

Section descriptors.
Context {A : Type} `{!ObjAlloc A}.

(** [infos] has the [info] pointer of the memory stores. *)
Record heap := mkHeap { pools : pool -> A; bdevs : gmap Z bdev; infos : gmap Z Z; ides : gmap Z ide_dev }.
Definition set_pool (k : pool) (x : A) (s : heap) : heap :=
  mkHeap (fun k' => if decide (k' = k) then x else pools s k') (bdevs s) (infos s) (ides s).

(** [kmem_cache_alloc] and [kmem_cache_free]; 0 is NULL. *)
Definition alloc_from (k : pool) : M heap Z :=
  fun s => match oalloc (pools s k) with (None, x) => Ret 0 (set_pool k x s) | (Some p, x) => Ret p (set_pool k x s) end.
Definition free_to (k : pool) (p : Z) : M heap unit := modify (fun s => set_pool k (ofree p (pools s k)) s).

Definition memstore_alloc : M heap Z := alloc_from PStore.
Definition memstore_free (st : Z) : M heap unit := kassert (negb (st =? 0)) ;; free_to PStore st.

Definition bdevms_alloc (b : Z) : M heap Z :=
  kassert (negb (b =? 0)) ;;
  st <- memstore_alloc ;;
  if negb (st =? 0) then
    info <- alloc_from PInfo ;;
    if negb (info =? 0) then modify (fun s => mkHeap (pools s) (bdevs s) (<[st := info]> (infos s)) (ides s)) ;; ret st
    else memstore_free st ;; ret 0
  else ret 0.
Definition bdevms_free (st : Z) : M heap unit :=
  kassert (negb (st =? 0)) ;;
  o <- gets (fun s => infos s !! st) ;;
  info <- of_option Fault o ;;
  kassert (negb (info =? 0)) ;;
  free_to PInfo info ;;
  memstore_free st.

Definition put_bdev (b : Z) (x : bdev) : M heap unit := modify (fun s => mkHeap (pools s) (<[b := x]> (bdevs s)) (infos s) (ides s)).
Definition get_bdev (b : Z) : M heap bdev := o <- gets (fun s => bdevs s !! b) ;; of_option Fault o.

Definition bdev_alloc (d : Z) : M heap Z :=
  b <- alloc_from PBdev ;;
  if negb (b =? 0) then
    st <- bdevms_alloc b ;;
    put_bdev b (mkBdev d st 0) ;;
    if st =? 0 then free_to PBdev b ;; ret 0 else ret b
  else ret 0.
Definition bdev_free (b : Z) : M heap unit :=
  x <- get_bdev b ;; bdevms_free (store x) ;; free_to PBdev b.

Definition ide_alloc (d ide_index : Z) : M heap Z :=
  b <- bdev_alloc d ;;
  if b =? 0 then ret 0
  else
    i <- alloc_from PIde ;;
    if i =? 0 then bdev_free b ;; ret 0
    else
      modify (fun s => mkHeap (pools s) (bdevs s) (infos s) (<[i := mkIdeDev IDE_IDLE ide_index]> (ides s))) ;;
      x <- get_bdev b ;;
      put_bdev b (mkBdev (dev x) (store x) i) ;;
      ret b.

(** [ide_free] does not wait for the device to become idle. *)
Definition ide_free (b : Z) : M heap unit :=
  kassert (negb (b =? 0)) ;;
  x <- get_bdev b ;;
  kassert (negb (data x =? 0)) ;;
  free_to PIde (data x) ;;
  bdev_free b.

Definition live (s : heap) (k : pool) : gset Z := olive (pools s k).
Definition heap_ok (s : heap) : Prop := forall k, ook (pools s k).

(** The objects that are handed out are those of [s] and [extra]. *)
Definition grown (s s' : heap) (extra : pool -> gset Z) : Prop :=
  heap_ok s' /\ forall k, live s' k = extra k ∪ live s k /\ extra k ## live s k.
Definition one (k : pool) (p : Z) (k' : pool) : gset Z := if decide (k' = k) then {[p]} else ∅.

Lemma alloc_from_ok k s : heap_ok s ->
  wp (alloc_from k) (fun p s' => (bdevs s', infos s', ides s') = (bdevs s, infos s, ides s) /\
    (p = 0 /\ grown s s' (fun _ => ∅) \/ p <> 0 /\ grown s s' (one k p))) s.
Proof.
  intros Hs. unfold alloc_from, wp. destruct (oalloc (pools s k)) as [[p|] x] eqn:E; (split; [done|]).
  - destruct (oalloc_Some _ _ _ (Hs k) E) as (Hx & Hp & Hn & Hl). right. split; [done|].
    split; intros k'; unfold live, one; simpl; case_decide; subst; auto; set_solver.
  - destruct (oalloc_None _ _ (Hs k) E) as (Hx & Hl). left. split; [done|].
    split; intros k'; unfold live; simpl; case_decide; subst; auto; set_solver.
Qed.

Lemma free_to_ok k p s0 s extra : grown s0 s extra -> p ∈ extra k ->
  wp (free_to k p) (fun _ s' => (bdevs s', infos s', ides s') = (bdevs s, infos s, ides s) /\ grown s0 s' (fun k' => extra k' ∖ one k p k')) s.
Proof.
  intros [Hs Hl] Hp. apply wp_modify. split; [done|]. destruct (Hl k) as [Hk Hd].
  destruct (ofree_live (pools s k) p (Hs k)) as [Hx Hx']; [unfold live in *; set_solver|].
  split; intros k'; unfold live, one in *; simpl; case_decide; subst; auto.
  - eapply shrink_sets; [exact Hk|exact Hd|exact Hp|exact Hx'].
  - rewrite difference_empty_L. apply Hl.
Qed.

Lemma heap_grown_refl s : heap_ok s -> grown s s (fun _ => ∅).
Proof. intros Hs. split; [done|]. set_solver. Qed.
Lemma heap_grown_trans s s1 s2 e e' : grown s s1 e -> grown s1 s2 e' -> grown s s2 (fun k => e' k ∪ e k).
Proof. intros [_ L1] [H2 L2]. split; [done|]. intros k. eapply grow_sets; [apply L1|apply L2]. Qed.
Lemma grown_eq s s' e e' : grown s s' e -> (forall k, e k = e' k) -> grown s s' e'.
Proof. intros [H1 L1] He. split; [done|]. intros k. rewrite <- He. apply L1. Qed.
Lemma grown_same s s1 s2 e : grown s s1 e -> pools s2 = pools s1 -> grown s s2 e.
Proof. unfold grown, heap_ok, live. by intros ? ->. Qed.

(** Sets of objects, pool by pool. *)
Ltac each_pool := clear; intros []; unfold one; simpl; set_solver.

(** What a device has been given. *)
Definition device (b st info : Z) (k : pool) : gset Z := match k with PBdev => {[b]} | PStore => {[st]} | PInfo => {[info]} | PIde => ∅ end.

Lemma bdevms_alloc_ok b s : heap_ok s -> b <> 0 ->
  wp (bdevms_alloc b) (fun st s' => (bdevs s', ides s') = (bdevs s, ides s) /\
    (st = 0 /\ grown s s' (fun _ => ∅) \/
     st <> 0 /\ exists info, info <> 0 /\ infos s' !! st = Some info /\ grown s s' (fun k => one PInfo info k ∪ one PStore st k))) s.
Proof.
  intros Hs Hb. unfold bdevms_alloc. apply wp_bind, wp_kassert; [by rewrite (proj2 (Z.eqb_neq b 0))|].
  eapply wp_call; [by apply alloc_from_ok|]. intros st s1 (E1 & [[-> G1]|[Hst G1]]); [apply wp_ret; split; [congruence|by left]|].
  rewrite (proj2 (Z.eqb_neq st 0)) by done. simpl. eapply wp_call; [apply alloc_from_ok, G1|].
  intros info s2 (E2 & [[-> G2]|[Hi G2]]); pose proof (heap_grown_trans _ _ _ _ _ G1 G2) as G.
  - simpl. unfold memstore_free. apply wp_bind, wp_bind, wp_kassert; [by rewrite (proj2 (Z.eqb_neq st 0))|].
    eapply wp_mono; [apply (free_to_ok PStore st s s2 _ G); clear; unfold one; simpl; set_solver|]. intros _ s3 (E3 & G3). apply wp_ret.
    split; [congruence|left]. split; [done|]. eapply grown_eq; [exact G3|]. each_pool.
  - rewrite (proj2 (Z.eqb_neq info 0)) by done. simpl. apply wp_bind, wp_modify, wp_ret. split; [simpl; congruence|right]. split; [done|].
    exists info. split; [done|]. split; [simpl; by rewrite lookup_insert_eq|]. by eapply grown_same.
Qed.

Lemma bdev_alloc_ok d s : heap_ok s ->
  wp (bdev_alloc d) (fun b s' => ides s' = ides s /\
    (b = 0 /\ grown s s' (fun _ => ∅) \/
     b <> 0 /\ exists st info, st <> 0 /\ info <> 0 /\ bdevs s' !! b = Some (mkBdev d st 0) /\ infos s' !! st = Some info /\ grown s s' (device b st info))) s.
Proof.
  intros Hs. unfold bdev_alloc. eapply wp_call; [by apply alloc_from_ok|]. intros b s1 (E1 & [[-> G1]|[Hb G1]]); [apply wp_ret; split; [congruence|by left]|].
  rewrite (proj2 (Z.eqb_neq b 0)) by done. simpl. eapply wp_call; [by apply bdevms_alloc_ok; [apply G1|]|].
  intros st s2 (E2 & [[-> G2]|(Hst & info & Hi & Ei & G2)]); pose proof (heap_grown_trans _ _ _ _ _ G1 G2) as G; apply wp_bind, wp_modify.
  - simpl. eapply wp_call; [apply (free_to_ok PBdev b s _ _ (grown_same _ _ (mkHeap _ _ _ _) _ G eq_refl)); clear; unfold one; simpl; set_solver|].
    intros _ s3 (E3 & G3). simpl in *. apply wp_ret. split; [congruence|left]. split; [done|]. eapply grown_eq; [exact G3|]. each_pool.
  - rewrite (proj2 (Z.eqb_neq st 0)) by done. apply wp_ret. split; [simpl; congruence|right]. split; [done|]. exists st, info. simpl. split; [done|]. split; [done|]. split; [by rewrite lookup_insert_eq|].
    split; [done|]. eapply grown_eq; [by eapply (grown_same _ _ (mkHeap _ _ _ _))|]. each_pool.
Qed.

Lemma bdev_free_ok b d st info dt s0 s e : bdevs s !! b = Some (mkBdev d st dt) -> infos s !! st = Some info -> st <> 0 -> info <> 0 ->
  grown s0 s e -> (forall k, device b st info k ⊆ e k) ->
  wp (bdev_free b) (fun _ s' => ides s' = ides s /\ grown s0 s' (fun k => e k ∖ device b st info k)) s.
Proof.
  intros Eb Ei Hst Hi G He. unfold bdev_free, bdevms_free, get_bdev. apply wp_bind, wp_bind, wp_gets. eapply wp_of_option; [exact Eb|]. simpl.
  apply wp_bind, wp_bind, wp_kassert; [by rewrite (proj2 (Z.eqb_neq st 0))|]. apply wp_bind, wp_gets, wp_bind. eapply wp_of_option; [exact Ei|].
  apply wp_bind, wp_kassert; [by rewrite (proj2 (Z.eqb_neq info 0))|].
  eapply wp_call; [apply (free_to_ok PInfo info s0 s e G); clear -He; specialize (He PInfo); simpl in *; set_solver|]. intros _ s1 (E1 & G1).
  unfold memstore_free. apply wp_bind, wp_kassert; [by rewrite (proj2 (Z.eqb_neq st 0))|].
  eapply wp_mono; [apply (free_to_ok PStore st s0 s1 _ G1); clear -He; specialize (He PStore); unfold one; simpl in *; set_solver|]. intros _ s2 (E2 & G2).
  eapply wp_mono; [apply (free_to_ok PBdev b s0 s2 _ G2); clear -He; specialize (He PBdev); unfold one; simpl in *; set_solver|]. intros _ s3 (E3 & G3).
  split; [congruence|]. eapply grown_eq; [exact G3|]. each_pool.
Qed.

(** Allocating a device gives NULL and takes nothing, or gives an idle device
    whose parts are all new; freeing it gives back exactly these. *)
Lemma ide_alloc_free d i s : heap_ok s ->
  wp (ide_alloc d i) (fun b s' =>
    b = 0 /\ grown s s' (fun _ => ∅) \/
    b <> 0 /\ exists st info h, bdevs s' !! b = Some (mkBdev d st h) /\ ides s' !! h = Some (mkIdeDev IDE_IDLE i) /\
      grown s s' (fun k => one PIde h k ∪ device b st info k) /\ wp (ide_free b) (fun _ s'' => grown s s'' (fun _ => ∅)) s') s.
Proof.
  intros Hs. unfold ide_alloc. eapply wp_call; [by apply bdev_alloc_ok|].
  intros b s1 (E1 & [[-> G1]|(Hb & st & info & Hst & Hi & Eb & Ei & G1)]); [apply wp_ret; by left|].
  rewrite (proj2 (Z.eqb_neq b 0)) by done. eapply wp_call; [apply alloc_from_ok, G1|].
  intros h s2 (E2 & [[-> G2]|[Hh G2]]); pose proof (heap_grown_trans _ _ _ _ _ G1 G2) as G; injection E2 as E2 E3 E4; rewrite <- E2 in Eb; rewrite <- E3 in Ei.
  - simpl. eapply wp_call; [apply (bdev_free_ok b d st info 0 s s2 _ Eb Ei Hst Hi G); each_pool|]. intros _ s3 [_ G3]. apply wp_ret. left. split; [done|].
    eapply grown_eq; [exact G3|]. each_pool.
  - rewrite (proj2 (Z.eqb_neq h 0)) by done. apply wp_bind, wp_modify, wp_bind, wp_bind, wp_gets. eapply wp_of_option; [exact Eb|].
    apply wp_bind, wp_modify, wp_ret. right. split; [done|]. exists st, info, h. simpl. rewrite !lookup_insert_eq. split_and!; [done|done|by eapply grown_same|].
    unfold ide_free, get_bdev. apply wp_bind, wp_kassert; [by rewrite (proj2 (Z.eqb_neq b 0))|]. apply wp_bind, wp_bind, wp_gets.
    eapply wp_of_option; [simpl; by rewrite lookup_insert_eq|]. apply wp_bind, wp_kassert; [simpl; by rewrite (proj2 (Z.eqb_neq h 0))|].
    eapply wp_call; [apply (free_to_ok PIde h s _ _ (grown_same _ _ (mkHeap _ _ _ _) _ G eq_refl)); clear; unfold one; simpl; set_solver|].
    intros _ s3 (E5 & G3). injection E5 as F1 F2 F3. simpl in F1, F2.
    eapply wp_mono; [eapply (bdev_free_ok b d st info h s s3); [rewrite F1; apply lookup_insert_eq|by rewrite F2|done|done|exact G3|]|].
    + each_pool.
    + intros _ s4 [_ G4]. eapply grown_eq; [exact G4|]. each_pool.
Qed.

End descriptors.
Arguments heap : clear implicits.

(** ** A small disk

    Its status shows busy twice after a command. *)
Module Small.
Record ata := mkAta { regs : gmap Z Z; blocks : gmap (Z * Z) block; ph : phase_t; lag : nat }.

Definition lat (c : ata) (r : Z) : Z := default 0 (regs c !! r).
Definition sec (c : ata) (d l : Z) : block := default (replicate 512 0) (blocks c !! (d, l)).
Fixpoint put_blocks (d l : Z) (bs : list block) (m : gmap (Z * Z) block) : gmap (Z * Z) block :=
  match bs with
  | [] => m
  | x :: bs' => put_blocks d (l + 1) bs' (<[(d, l) := x]> m)
  end.

Definition small_inb (r : Z) : M ata Z :=
  fun c => match lag c with O => Ret 64 c | S k => Ret 128 (mkAta (regs c) (blocks c) (ph c) k) end.
Definition small_outb (r v : Z) : M ata unit :=
  fun c => if r =? IDE_REG_STATUS_CMD
           then Ret tt (mkAta (regs c) (blocks c) ((if (v =? IDE_CMD_READ) || (v =? IDE_CMD_RDMUL) then DataIn else DataOut)
                          (task_drive (lat c)) (task_lba (lat c)) (lat c IDE_REG_COUNT)) 2)
           else Ret tt (mkAta (<[r := v]> (regs c)) (blocks c) (ph c) (lag c)).
Definition small_ins (n : Z) : M ata (list block) :=
  fun c => match ph c with
           | DataIn d l _ => Ret (sec c d <$> seqZ l n) (mkAta (regs c) (blocks c) Idle (lag c))
           | _ => Ret [] c
           end.
Definition small_outs (bs : list block) : M ata unit :=
  fun c => match ph c with
           | DataOut d l _ => Ret tt (mkAta (regs c) (put_blocks d l bs (blocks c)) Idle (lag c))
           | _ => Ret tt c
           end.

Lemma put_blocks_lookup d d' l' bs : forall l m, put_blocks d l bs m !! (d', l') =
  if (d' =? d) && (l <=? l') && (l' <? l + Z.of_nat (length bs)) then Some (bs !!! Z.to_nat (l' - l)) else m !! (d', l').
Proof.
  induction bs as [|x bs IH]; intros l m; simpl.
  { destruct (Z.eqb_spec d' d), (Z.leb_spec l l'), (Z.ltb_spec l' (l + Z.of_nat 0)); simpl; try done; lia. }
  rewrite IH. destruct (Z.eqb_spec d' d) as [->|]; simpl; [|by rewrite lookup_insert_ne by congruence].
  destruct (decide (l' = l)) as [->|].
  - rewrite lookup_insert_eq, Z.sub_diag. destruct (Z.leb_spec (l + 1) l), (Z.leb_spec l l), (Z.ltb_spec l (l + Z.of_nat (S (length bs)))); simpl; done || lia.
  - rewrite lookup_insert_ne by congruence.
    destruct (Z.leb_spec (l + 1) l'), (Z.leb_spec l l'), (Z.ltb_spec l' (l + 1 + Z.of_nat (length bs))), (Z.ltb_spec l' (l + Z.of_nat (S (length bs)))); simpl; try done; try lia.
    replace (Z.to_nat (l' - l)) with (S (Z.to_nat (l' - (l + 1)))) by lia. done.
Qed.

#[global] Instance small_disk : AtaDisk ata.
Proof.
  refine {| inb := small_inb; outb := small_outb; ins := small_ins; outs := small_outs; latch := lat; sectors := sec; phase := ph; patience := lag |}.
  - intros c Hc. unfold small_inb. destruct (lag c) as [|k] eqn:E; do 2 eexists; (split; [done|]); (split; [done|]); (split; [done|]); [by left|right; simpl; lia].
  - intros c r v Hc H1 H2 Hv. unfold small_outb. rewrite (proj2 (Z.eqb_neq r _) H1). eexists. split; [done|]. split; [done|]. split; [done|].
    intros q _. unfold lat. simpl. destruct (Z.eqb_spec q r) as [->|]; [by rewrite lookup_insert_eq|by rewrite lookup_insert_ne].
  - intros c v Hc Hn Hv. by eexists.
  - intros c d l n Hc. unfold small_ins. rewrite Hc. by eexists.
  - intros c d l n bs Hc Hl. unfold small_outs. rewrite Hc. eexists. split; [done|]. split; [done|]. intros d' l'. unfold sec. simpl.
    rewrite put_blocks_lookup, <- Hl. by destruct (_ && _ && _).
Defined.

Definition disk0 (l : Z) : block := replicate 512 0.
(** A memory of three blocks. *)
Definition ex_ram : gmap Z block := {[1024 := [1]; 1536 := [2]; 4096 := [3]]}.
Definition ex_ide : ide ata := mkIde [] ∅ ex_ram ∅ IDE_IDLE 1 (mkAta ∅ ∅ Idle 1).
Definition ex_dev : adev := mkAdev [] ∅ ex_ram ∅ [].

Lemma ex_sim : sim disk0 ex_ide ex_dev.
Proof.
  split; [done| |by right|].
  - split; simpl; [apply NoDup_nil_2|by intros p ?%not_elem_of_nil|done|by intros ? ? ? ? ? ?%not_elem_of_nil|by intros p ?%elem_of_empty].
  - split; [done|]. split; [done|]. intros l Hl. reflexivity.
Qed.

(** Two blocks are written, and a request made before the interrupt reads the
    second one. *)
Definition ex_write : bio := mkBio 7 2 1024 BIO_WRITE.
Definition ex_read : bio := mkBio 8 1 4096 BIO_READ.
Definition ex_events : list event := [Start 10 ex_write; Await 10; Start 11 ex_read; Interrupt; Interrupt; Await 11].

Lemma ex_two x : in_buffer ex_write x -> x = 1024 \/ x = 1536.
Proof. intros (i & Hi & ->). unfold BDEV_BLK_SIZE. simpl in *. lia. Qed.
Lemma ex_one x : in_buffer ex_read x -> x = 4096.
Proof. intros (i & Hi & ->). unfold BDEV_BLK_SIZE. simpl in *. lia. Qed.

Lemma ex_write_allowed : allowed ex_dev (Start 10 ex_write).
Proof.
  split; [done|]. split; [done|]. split; [|by intros x _ p r ?%not_elem_of_nil]. unfold good. simpl. split_and!; try lia.
  intros x [->| ->]%ex_two; eauto.
Qed.
Lemma ex_history : history disk0 ex_dev ex_events.
Proof.
  split; [apply ex_write_allowed|]. split; [simpl; rewrite lookup_insert_eq; eauto|]. split; [|simpl; split; [done|split; [done|split; [|done]]]].
  - split; [done|]. split; [done|]. split; [unfold good; simpl; split_and!; try lia; intros x ->%ex_one; eauto|].
    intros x ->%ex_one p r ->%list_elem_of_singleton. simpl. rewrite lookup_insert_eq. intros [= <-]. simpl. by intros [?|?]%ex_two.
  - vm_compute. eauto.
Qed.

End Small.
Import Small.


End Ide.
