(* ===== verification/Mkfs.v ===== *)
(** * The tool that makes file system images: tools/mkfs.c

    [main] writes an image with an empty root directory and adds the given
    files to it.  The image is a map from block numbers to blocks; a file of
    the host comes as the name that [basename] gives and the pieces that [read]
    returns.  [exit(1)] is [Panic].  [Mkfs.mkfs_readable] shows that the kernel's
    file system (Sfs.v, SfsFile.v, SfsDir.v) finds every file of the image and
    reads its contents back. *)

From S2P Require Import Prelude Lib Bdev Bufs Sfs SfsFile SfsDir.
Local Open Scope kernel_scope.
Import Bits Bdev Bufs Sfs SfsFile SfsDir.

Module Mkfs.

Definition SB_BLK : Z := 2.
Definition INODE_BMAP_BLK : Z := 3.
Definition INODE_TABLE_BLK : Z := 4.
Definition ROOT_INUM : Z := 1.
Definition FS_SIZE : Z := 131072.
Definition MAX_INODES : Z := 256.
Definition INODE_TABLE_NUM_BLKS : Z := (MAX_INODES * Sfs.sizeof_sfs_inode) `div` BDEV_BLK_SIZE.
Definition BMAP_START_BLK : Z := INODE_TABLE_BLK + INODE_TABLE_NUM_BLKS.
Definition BMAP_BLKS : Z := FS_SIZE `div` (BDEV_BLK_SIZE * 8) + (if FS_SIZE `mod` (BDEV_BLK_SIZE * 8) >? 0 then 1 else 0).
Definition JOURNAL_START_BLK : Z := BMAP_START_BLK + BMAP_BLKS.
Definition JOURNAL_BLKS : Z := 256.
Definition DATA_START_BLK : Z := JOURNAL_START_BLK + JOURNAL_BLKS.
Definition MAX_FILE_SIZE : Z := (Sfs.SFS_NDIRECT + Sfs.SFS_NINDIRECT * (BDEV_BLK_SIZE `div` 4)) * BDEV_BLK_SIZE.

(** [struct sfs_inode]. *)
Record sfs_inode := mkSi { si_ftype : Z; si_mode : Z; si_nlink : Z; si_size : Z; si_addrs : list Z }.
Definition set_addr (k b : Z) (x : sfs_inode) : sfs_inode :=
  mkSi (si_ftype x) (si_mode x) (si_nlink x) (si_size x) (<[Z.to_nat k := b]> (si_addrs x)).
Definition set_size (n : Z) (x : sfs_inode) : sfs_inode := mkSi (si_ftype x) (si_mode x) (si_nlink x) n (si_addrs x).
Definition si_addr (k : Z) (x : sfs_inode) : Z := default 0 (si_addrs x !! Z.to_nat k).
(** Its bytes. *)
Definition si_bytes (x : sfs_inode) : list Z := Sfs.sfs_inode_bytes (si_ftype x) (si_mode x) (si_nlink x) (si_size x) (si_addrs x).
Definition si_of_bytes (e : list Z) : sfs_inode :=
  mkSi (default 0 (e !! 0%nat)) (default 0 (e !! 1%nat)) (Sfs.of_le16 (drop 2 e)) (of_le32 (drop 4 e)) (Sfs.words 14 (drop 8 e)).

Record mk := mkMk { image : gmap Z block; inode_bmap : block }.

Definition write_blk (b : Z) (buf : block) : M mk unit := modify (fun m => mkMk (<[b := buf]> (image m)) (inode_bmap m)).
(** Reading past the end of the image fails. *)
Definition read_blk (b : Z) : M mk block := o <- gets (fun m => image m !! b) ;; of_option Panic o.

(** [bmap_alloc_element]: the index, or -1, and the bitmap afterwards. *)
Fixpoint alloc_bit (n : nat) (bmap : block) (byte bit : Z) : option (Z * block) :=
  match n with
  | O => None
  | S n' =>
      let mask := u8 (Z.shiftl 1 bit) in
      let x := bmap !!! Z.to_nat byte in
      if Z.land x mask =? 0 then Some (byte * 8 + bit, <[Z.to_nat byte := Z.lor x mask]> bmap)
      else alloc_bit n' bmap byte (bit + 1)
  end.
Fixpoint alloc_byte (n : nat) (bmap : block) (byte : Z) : Z * block :=
  match n with
  | O => (-1, bmap)
  | S n' => match alloc_bit 8 bmap byte 0 with Some r => r | None => alloc_byte n' bmap (byte + 1) end
  end.
Definition bmap_alloc_element (bmap : block) (size : Z) : Z * block := alloc_byte (Z.to_nat size) bmap 0.

Definition inum_to_blk (inum : Z) : Z := INODE_TABLE_BLK + (inum - 1) `div` (BDEV_BLK_SIZE `div` Sfs.sizeof_sfs_inode).
Definition inum_to_ofs (inum : Z) : Z := ((inum - 1) * Sfs.sizeof_sfs_inode) `mod` BDEV_BLK_SIZE.

Definition read_inode (inum : Z) : M mk sfs_inode :=
  buf <- read_blk (inum_to_blk inum) ;; ret (si_of_bytes (take 64 (drop (Z.to_nat (inum_to_ofs inum)) buf))).
Definition write_inode (inum : Z) (x : sfs_inode) : M mk unit :=
  buf <- read_blk (inum_to_blk inum) ;; write_blk (inum_to_blk inum) (splice (Z.to_nat (inum_to_ofs inum)) (si_bytes x) buf).

Definition alloc_inode (ftype : Z) : M mk Z :=
  bmap <- gets inode_bmap ;;
  let r := bmap_alloc_element bmap (MAX_INODES `div` 8) in
  modify (fun m => mkMk (image m) r.2) ;;
  if r.1 <? 0 then stop Panic
  else
    write_blk INODE_BMAP_BLK r.2 ;;
    let inum := r.1 + 1 in
    write_inode inum (mkSi ftype 0 1 0 (replicate 14 0)) ;;
    ret inum.

(** The loop of [alloc_data_block], with [n] blocks of the bitmap to go. *)
Fixpoint alloc_data_loop (n : nat) (bmap_blk num_blks : Z) : M mk Z :=
  match n with
  | O => stop Panic
  | S n' =>
      bmap <- read_blk bmap_blk ;;
      let r := bmap_alloc_element bmap (Z.min BDEV_BLK_SIZE (num_blks `div` 8)) in
      if 0 <=? r.1 then
        write_blk bmap_blk r.2 ;;
        let b := DATA_START_BLK + BDEV_BLK_SIZE * 8 * (bmap_blk - BMAP_START_BLK) + r.1 in
        write_blk b (replicate (Z.to_nat BDEV_BLK_SIZE) 0) ;;
        ret b
      else alloc_data_loop n' (bmap_blk + 1) (u64 (num_blks - BDEV_BLK_SIZE * 8))
  end.
Definition alloc_data_block : M mk Z := alloc_data_loop (Z.to_nat (JOURNAL_START_BLK - BMAP_START_BLK)) BMAP_START_BLK FS_SIZE.

(** The inode is in the memory of the caller, and so comes back as a result. *)
Definition get_data_block (x : sfs_inode) (ofs : Z) : M mk (Z * sfs_inode) :=
  if MAX_FILE_SIZE <=? ofs then stop Panic
  else
    let blk_index := ofs `div` BDEV_BLK_SIZE in
    if blk_index <? Sfs.SFS_NDIRECT then
      if si_addr blk_index x =? 0 then
        b <- alloc_data_block ;; ret (b, set_addr blk_index b x)
      else ret (si_addr blk_index x, x)
    else
      let indir_blk_index := Sfs.SFS_NDIRECT + (blk_index - Sfs.SFS_NDIRECT) `div` (BDEV_BLK_SIZE `div` 4) in
      x <- (if si_addr indir_blk_index x =? 0 then b <- alloc_data_block ;; ret (set_addr indir_blk_index b x) else ret x) ;;
      buf <- read_blk (si_addr indir_blk_index x) ;;
      let indir_blk_ofs := (blk_index - Sfs.SFS_NDIRECT) `mod` (BDEV_BLK_SIZE `div` 4) in
      let b := of_le32 (drop (Z.to_nat (4 * indir_blk_ofs)) buf) in
      if b =? 0 then
        b <- alloc_data_block ;;
        write_blk (si_addr indir_blk_index x) (splice (Z.to_nat (4 * indir_blk_ofs)) (le32 b) buf) ;;
        ret (b, x)
      else ret (b, x).

(** The loop of [inode_append], with the data that is left. *)
Fixpoint append_loop (fuel : nat) (x : sfs_inode) (data : list Z) : M mk sfs_inode :=
  match data with
  | [] => ret x
  | _ :: _ =>
      match fuel with
      | O => stop Fuel
      | S fuel' =>
          r <- get_data_block x (si_size x) ;;
          buf <- read_blk r.1 ;;
          let o := si_size x `mod` BDEV_BLK_SIZE in
          let s := Z.min (BDEV_BLK_SIZE - o) (Z.of_nat (length data)) in
          write_blk r.1 (splice (Z.to_nat o) (take (Z.to_nat s) data) buf) ;;
          append_loop fuel' (set_size (u32 (si_size x + s)) r.2) (drop (Z.to_nat s) data)
      end
  end.
Definition inode_append (x : sfs_inode) (data : list Z) : M mk sfs_inode := append_loop (length data) x data.

(** The bytes of a directory entry; [strncpy] of the host fills the name up
    with zeros, and its last byte is then set to 0. *)
Definition dirent_bytes (inum : Z) (name : list Z) : list Z :=
  le32 inum ++ take 27 (name ++ replicate 28 0) ++ [0].

Abbreviation host_file := (list Z * list (list Z))%type.

(** The copying of the contents of a file. *)
Fixpoint copy_loop (pieces : list (list Z)) (x : sfs_inode) : M mk sfs_inode :=
  match pieces with
  | [] => ret x
  | p :: ps => x <- inode_append x p ;; copy_loop ps x
  end.

Definition add_file (f : host_file) (root : sfs_inode) : M mk sfs_inode :=
  inum <- alloc_inode Sfs.FTYPE_FILE ;;
  x <- read_inode inum ;;
  root <- inode_append root (dirent_bytes inum f.1) ;;
  x <- copy_loop f.2 x ;;
  write_inode inum x ;;
  ret root.
Fixpoint add_files (fs : list host_file) (root : sfs_inode) : M mk sfs_inode :=
  match fs with
  | [] => ret root
  | f :: fs' => root <- add_file f root ;; add_files fs' root
  end.

(** Zeros over the first [n] blocks from [b] on. *)
Fixpoint zero_loop (n : nat) (b : Z) : M mk unit :=
  match n with
  | O => ret tt
  | S n' => write_blk b (replicate (Z.to_nat BDEV_BLK_SIZE) 0) ;; zero_loop n' (b + 1)
  end.

Definition sb : Sfs.sfs_sb_info := Sfs.mkSb FS_SIZE MAX_INODES BMAP_START_BLK JOURNAL_START_BLK DATA_START_BLK.
Definition sb_bytes : list Z := mjoin (le32 <$> [FS_SIZE; MAX_INODES; BMAP_START_BLK; JOURNAL_START_BLK; DATA_START_BLK]).

Definition main (fs : list host_file) : M mk unit :=
  zero_loop (Z.to_nat (DATA_START_BLK + FS_SIZE)) 0 ;;
  write_blk SB_BLK (splice 0 sb_bytes (replicate (Z.to_nat BDEV_BLK_SIZE) 0)) ;;
  modify (fun m => mkMk (image m) (replicate (Z.to_nat BDEV_BLK_SIZE) 0)) ;;
  root_inum <- alloc_inode Sfs.FTYPE_DIR ;;
  kassert (root_inum =? ROOT_INUM) ;;
  root <- read_inode root_inum ;;
  root <- add_files fs root ;;
  write_inode root_inum root.

(** ** Bitmaps *)

(** The search in memory is that of the kernel in a block. *)
Lemma alloc_bit_same s b byte : b ∈ locked s -> bytes_ok (blk s b) -> 0 <= byte < 512 -> forall n bit,
  Sfs.alloc_bit n b byte bit s = match alloc_bit n (blk s b) byte bit with Some r => Ret (Some r.1) (setb b r.2 s) | None => Ret None s end.
Proof.
  intros Hl Hd Hb. destruct (block_byte _ byte Hd Hb) as (x & Hx & _). induction n as [|n IH]; intros bit; [done|]. cbn [Sfs.alloc_bit alloc_bit].
  rewrite rdata_ok by done. rewrite Hx, (list_lookup_total_correct _ _ _ Hx). unfold of_option. rewrite bind_ret.
  destruct (_ =? 0); [|apply IH]. by rewrite (bind_Ret _ _ _ _ _ (wdata_ok _ _ _ Hl)).
Qed.

Lemma alloc_byte_same s b n : b ∈ locked s -> bytes_ok (blk s b) -> forall byte, 0 <= byte -> byte + Z.of_nat n <= 512 ->
  let r := alloc_byte n (blk s b) byte in
  Sfs.alloc_byte n b byte s = (if r.1 =? -1 then Ret (-1) s else Ret r.1 (setb b r.2 s)) /\ (r.1 = -1 -> r.2 = blk s b).
Proof.
  intros Hl Hd. induction n as [|n IH]; intros byte H0 Hn; [done|]. cbn [Sfs.alloc_byte alloc_byte]. unfold bind.
  pose proof (Sfs.alloc_bit_ok s b byte 8 Hl Hd ltac:(lia) 0 ltac:(lia) ltac:(lia)) as Ha. rewrite !alloc_bit_same in * by (done || lia).
  destruct (alloc_bit 8 (blk s b) byte 0) as [[k d']|]; [|apply IH; lia]. destruct (List.find _ _) as [i|] eqn:Ei; [|done].
  destruct Ha as (d2 & Ek & _). apply List.find_some in Ei as [Hi%list_elem_of_In%elem_of_seqZ _]. simpl in *.
  assert (k = i) as -> by congruence. rewrite (proj2 (Z.eqb_neq i (-1))) by lia. split; [done|lia].
Qed.

Lemma bmap_alloc_element_ok d size : bytes_ok d -> 0 <= size <= 512 ->
  match first_clear d (8 * size) with
  | Some k => exists d', bmap_alloc_element d size = (k, d') /\ bit_set d d' k
  | None => bmap_alloc_element d size = (-1, d)
  end.
Proof.
  intros Hd Hs. set (s := mkBufs {[0 := d]} {[0]} ∅ []). assert (Hb : blk s 0 = d) by done.
  destruct (alloc_byte_same s 0 (Z.to_nat size) ltac:(set_solver) ltac:(by rewrite Hb) 0 ltac:(lia) ltac:(lia)) as [E1 E2].
  pose proof (alloc_element_ok s 0 size ltac:(set_solver) ltac:(by rewrite Hb) Hs) as H. unfold Sfs.bmap_alloc_element in H.
  rewrite E1, Hb in H. rewrite Hb in E2. unfold bmap_alloc_element. destruct (alloc_byte _ d 0) as [r d1]. cbn [fst snd] in *. clearbody s.
  destruct (first_clear d (8 * size)) as [k|] eqn:Ek.
  - apply first_clear_Some in Ek as (Hk & _). destruct H as (d2 & E & Hset). destruct (Z.eqb_spec r (-1)); [injection E; lia|].
    pose proof (f_equal (fun o => match o with Ret _ t => blk t 0 | Halt _ _ => [] end) E) as Ed. cbv beta iota in Ed. rewrite !blk_set, Z.eqb_refl in Ed. injection E as -> _. subst d2. eauto.
  - destruct (Z.eqb_spec r (-1)) as [->|]; [by rewrite E2|injection H; lia].
Qed.

(** ** Counting *)

Definition count (f : Z -> bool) (l : list Z) : nat := length (List.filter f l).

Lemma count_ext f f' l : (forall x, x ∈ l -> f' x = f x) -> count f' l = count f l.
Proof.
  intros H. unfold count. f_equal. induction l as [|x l IH]; [done|]. simpl. rewrite (H x) by (by left). rewrite IH by (intros y Hy; apply H; by right). done.
Qed.
Lemma count_one f f' b l : NoDup l -> b ∈ l -> f b = false -> (forall x, x ∈ l -> f' x = (x =? b) || f x) -> count f' l = S (count f l).
Proof.
  induction l as [|x l IH]; intros Hn Hb Hf Hx; [by apply not_elem_of_nil in Hb|]. apply NoDup_cons in Hn as [Hxl Hn].
  assert (Hl : forall y, y ∈ l -> f' y = (y =? b) || f y) by (intros y Hy; apply Hx; by right). unfold count in *. simpl. rewrite (Hx x) by (by left).
  destruct (Z.eqb_spec x b) as [->|Hne]; simpl.
  - rewrite Hf. simpl. f_equal. apply (count_ext f f'). intros y Hy. rewrite Hl by done. destruct (Z.eqb_spec y b) as [->|]; [done|done].
  - apply elem_of_cons in Hb as [->|Hb]; [done|]. destruct (f x); simpl; rewrite (IH Hn Hb Hf Hl); done.
Qed.
Lemma count_none f l : (forall x, x ∈ l -> f x = false) -> count f l = 0%nat.
Proof.
  intros H. unfold count. induction l as [|x l IH]; [done|]. simpl. rewrite (H x) by (by left). apply IH. intros y Hy. apply H. by right.
Qed.
Lemma count_le f l : (count f l <= length l)%nat.
Proof. apply List.filter_length_le. Qed.
Lemma count_lt f l : (count f l < length l)%nat -> exists x, x ∈ l /\ f x = false.
Proof.
  unfold count. induction l as [|x l IH]; simpl; [lia|]. destruct (f x) eqn:E; [|exists x; split; [by left|done]].
  simpl. intros H. destruct IH as (y & Hy & Ey); [lia|]. exists y. split; [by right|done].
Qed.

Lemma free_in f a n : 0 <= n -> Z.of_nat (count f (seqZ a n)) < n -> exists b, a <= b < a + n /\ f b = false.
Proof.
  intros Hn Hc. destruct (count_lt f (seqZ a n)) as (b & Hb%elem_of_seqZ & E); [rewrite length_seqZ; lia|eauto].
Qed.
Lemma count_range f a n : 0 <= n -> Z.of_nat (count f (seqZ a n)) <= n.
Proof. intros Hn. pose proof (count_le f (seqZ a n)) as H. rewrite length_seqZ in H. lia. Qed.

(** The data blocks in use, and the slots of a file in use. *)
Definition blocks_used (s : bufs) : nat := count (used sb s) (seqZ DATA_START_BLK FS_SIZE).
Strategy 100 [count].
Definition slots_used (s : bufs) (i : inode) : nat := count (fun k => negb (addr s i k =? 0)) (seqZ 0 270).

Lemma sb_good : sb_ok sb.
Proof. split; vm_compute; split; discriminate || reflexivity. Qed.

(** ** The image and the kernel's view of it

    While an inode is in the memory of the tool its entry in the table is old.
    [s] is the view of the file system in which the entries of these inodes,
    whose numbers are in [pend], are up to date. *)

(** The block of the superblock. *)
Definition super_block : block := splice 0 sb_bytes (replicate (Z.to_nat BDEV_BLK_SIZE) 0).

Definition bufs_of (m : mk) : bufs := mkBufs (image m) ∅ ∅ [].

Record rel (m : mk) (s : bufs) (pend : gset Z) : Prop := {
  r_full : forall b, 0 <= b < DATA_START_BLK + FS_SIZE -> is_Some (image m !! b);
  r_bufs : bufs_ok s;
  r_bytes : bufs_ok (bufs_of m);
  r_blk : forall b, BMAP_START_BLK <= b -> blk s b = blk (bufs_of m) b;
  r_entry : forall n, inum_ok sb n -> n ∉ pend -> entry s n = entry (bufs_of m) n;
  r_imap : blk (bufs_of m) INODE_BMAP_BLK = inode_bmap m;
  r_super : blk (bufs_of m) SB_BLK = super_block;
}.

Lemma read_blk_ok m s pend b (Q : block -> mk -> Prop) : rel m s pend -> 0 <= b < DATA_START_BLK + FS_SIZE -> Q (blk (bufs_of m) b) m -> wp (read_blk b) Q m.
Proof.
  intros R Hb HQ. destruct (r_full _ _ _ R b Hb) as [d Hd]. unfold read_blk. apply wp_bind, wp_gets. eapply wp_of_option; [exact Hd|].
  unfold blk in HQ. simpl in HQ. by rewrite Hd in HQ.
Qed.

Lemma bufs_of_write m b d : bufs_of (mkMk (<[b := d]> (image m)) (inode_bmap m)) = setb b d (bufs_of m).
Proof. done. Qed.

(** A write above the table of inodes. *)
Lemma rel_write m s pend b d : rel m s pend -> BMAP_START_BLK <= b -> bytes_ok d -> rel (mkMk (<[b := d]> (image m)) (inode_bmap m)) (setb b d s) pend.
Proof.
  intros [R1 R2 R3 R4 R5 R6 R7] Hb Hd. split.
  - intros c Hc. simpl. rewrite lookup_insert. case_decide; eauto.
  - by apply setb_ok.
  - by apply (setb_ok (bufs_of m)).
  - intros c Hc. rewrite bufs_of_write, !blk_set, R4 by done. done.
  - intros n Hn Hp. destruct (inum_blk sb sb_good n Hn) as (_ & _ & Hr). change (s_data_bmap_start sb) with BMAP_START_BLK in Hr.
    specialize (R5 n Hn Hp). unfold entry in *. rewrite bufs_of_write, !blk_set, (proj2 (Z.eqb_neq _ b)) by lia. done.
  - rewrite bufs_of_write, blk_set, (proj2 (Z.eqb_neq _ b)); [done|]. change BMAP_START_BLK with 36 in Hb. unfold INODE_BMAP_BLK. lia.
  - rewrite bufs_of_write, blk_set, (proj2 (Z.eqb_neq _ b)); [done|]. change BMAP_START_BLK with 36 in Hb. unfold SB_BLK. lia.
Qed.

Lemma mk_alloc_loop_ok m s pend : rel m s pend -> forall n j, 0 <= j -> j + Z.of_nat n = BMAP_BLKS ->
  (exists b, DATA_START_BLK + 4096 * j <= b < DATA_START_BLK + FS_SIZE /\ used sb s b = false) ->
  wp (alloc_data_loop n (BMAP_START_BLK + j) (FS_SIZE - 4096 * j)) (fun b m' => exists s', allocated sb s b s' /\ rel m' s' pend /\ inode_bmap m' = inode_bmap m) m.
Proof.
  intros R. induction n as [|n IH]; intros j Hj Hn Hfree; [destruct Hfree as (b & Hb & _); change BMAP_BLKS with 32 in Hn; unfold FS_SIZE in Hb; lia|].
  change BMAP_BLKS with 32 in Hn. cbn [alloc_data_loop]. apply wp_bind. eapply read_blk_ok; [exact R|change BMAP_START_BLK with 36; change (DATA_START_BLK + FS_SIZE) with 131396; lia|].
  replace (Z.min BDEV_BLK_SIZE ((FS_SIZE - 4096 * j) `div` 8)) with 512 by (unfold FS_SIZE, BDEV_BLK_SIZE; apply Z.min_case_strong; [done|]; intros; assert (512 <= (131072 - 4096 * j) `div` 8) by (apply Z.div_le_lower_bound; lia); lia).
  set (B := BMAP_START_BLK + j). assert (HB : blk (bufs_of m) B = blk s B) by (symmetry; apply (r_blk _ _ _ R); lia). rewrite HB.
  pose proof (bmap_alloc_element_ok (blk s B) 512 (proj1 (r_bufs _ _ _ R) B) ltac:(lia)) as Ha. change (8 * 512) with 4096 in Ha.
  assert (Hidx : forall k, 0 <= k < 4096 -> bmap_of sb (DATA_START_BLK + 4096 * j + k) = B /\ (DATA_START_BLK + 4096 * j + k - DATA_START_BLK) `mod` 4096 = k) by (intros k Hk; apply (bmap_index sb j k Hk)).
  destruct (first_clear (blk s B) 4096) as [k|] eqn:Ek.
  - destruct Ha as (d & -> & Hset). apply first_clear_Some in Ek as (Hk & Hbit & _). cbn [fst snd]. rewrite (proj2 (Z.leb_le 0 k)) by lia.
    change (BDEV_BLK_SIZE * 8) with 4096. replace (B - BMAP_START_BLK) with j by lia. destruct (Hidx k Hk) as [E1 E2]. set (b := DATA_START_BLK + 4096 * j + k) in *.
    apply wp_bind, wp_modify, wp_bind, wp_modify, wp_ret. exists (setb b (replicate 512 0) (setb (bmap_of sb b) d s)). split_and!.
    + split; [unfold is_data; simpl; unfold FS_SIZE; lia|]. split; [unfold used; simpl; by rewrite E1, E2|]. exists d. split; [simpl; by rewrite E1, E2|done].
    + rewrite E1. apply (rel_write _ _ _ b (replicate 512 0) (rel_write m s pend B d R ltac:(lia) (proj1 Hset))); [|apply zeros_ok]. unfold b. change DATA_START_BLK with 324. change BMAP_START_BLK with 36. lia.
    + done.
  - rewrite Ha. change (0 <=? (-1, blk s B).1) with false. cbv iota. change (BDEV_BLK_SIZE * 8) with 4096. rewrite wrap_small by (unfold FS_SIZE; lia).
    replace (B + 1) with (BMAP_START_BLK + (j + 1)) by lia. replace (FS_SIZE - 4096 * j - 4096) with (FS_SIZE - 4096 * (j + 1)) by lia.
    apply IH; [lia|change BMAP_BLKS with 32; lia|]. destruct Hfree as (b & Hb & Hu). exists b. split; [|done]. destruct (decide (DATA_START_BLK + 4096 * (j + 1) <= b)); [lia|].
    exfalso. destruct (Hidx (b - DATA_START_BLK - 4096 * j) ltac:(lia)) as [E1 E2]. replace (DATA_START_BLK + 4096 * j + (b - DATA_START_BLK - 4096 * j)) with b in E1, E2 by lia.
    unfold used in Hu. simpl in Hu. rewrite E1, E2, (first_clear_None _ _ _ Ek) in Hu by lia. done.
Qed.

Lemma free_block s : Z.of_nat (blocks_used s) < FS_SIZE -> exists b, is_data sb b /\ used sb s b = false.
Proof. apply free_in. done. Qed.

Lemma blocks_used_alloc s b s' : allocated sb s b s' -> blocks_used s' = S (blocks_used s).
Proof.
  intros Ha. unfold blocks_used. apply (count_one _ _ b).
  - apply NoDup_seqZ.
  - apply elem_of_seqZ, Ha.
  - apply Ha.
  - intros c Hc%elem_of_seqZ. by apply (allocated_used sb sb_good s b s' c Ha).
Qed.

Lemma mk_alloc_block_ok m s pend : rel m s pend -> Z.of_nat (blocks_used s) < FS_SIZE ->
  wp alloc_data_block (fun b m' => exists s', allocated sb s b s' /\ rel m' s' pend /\ inode_bmap m' = inode_bmap m) m.
Proof.
  intros R Hu. destruct (free_block s Hu) as (b & Hb & E).
  apply (mk_alloc_loop_ok m s pend R (Z.to_nat (JOURNAL_START_BLK - BMAP_START_BLK)) 0); [done|done|]. exists b. by rewrite Z.mul_0_r, Z.add_0_r.
Qed.

(** ** Files that grow *)

(** The inode of the tool as the kernel has it. *)
Definition inode_of (n : Z) (x : sfs_inode) : inode :=
  mkInode n 0 (si_nlink x) (si_ftype x) (si_mode x) (si_size x) (si_addrs x) 0 false.

(** All but [c] of the blocks in use are those of the file. *)
Definition bounded (c : Z) (s : bufs) (i : inode) : Prop := Z.of_nat (blocks_used s) <= Z.of_nat (slots_used s i) + c.

Lemma slots_max s i : Z.of_nat (slots_used s i) <= 270.
Proof. apply count_range. lia. Qed.

Lemma used_high s s' : (forall b, BMAP_START_BLK <= b -> blk s' b = blk s b) -> blocks_used s' = blocks_used s.
Proof.
  intros H. apply count_ext. intros b Hb%elem_of_seqZ. unfold used. rewrite H; [done|]. apply (bmap_range sb sb_good b Hb).
Qed.

Lemma put_high s i : inum_ok sb (i_inum i) -> forall b, BMAP_START_BLK <= b -> blk (put_inode i s) b = blk s b.
Proof.
  intros Hi b Hb. destruct (inum_blk sb sb_good _ Hi) as (_ & _ & Hr). change (s_data_bmap_start sb) with BMAP_START_BLK in Hr.
  unfold put_inode. by rewrite blk_set, (proj2 (Z.eqb_neq b _)) by lia.
Qed.

Lemma rel_put m s pend i : rel m s pend -> i_inum i ∈ pend -> inum_ok sb (i_inum i) -> length (i_addrs i) = 14%nat -> rel m (put_inode i s) pend.
Proof.
  intros [R1 R2 R3 R4 R5 R6 R7] Hp Hi Hl. destruct (put_inode_ok sb sb_good i s R2 Hi Hl) as (Hok & _ & Htab). split; try done.
  - intros b Hb. rewrite put_high by done. auto.
  - intros n Hn Hnp. rewrite Htab by (done || congruence). auto.
Qed.

(** [s'] and [x'] are [s] and [x] with new blocks. *)
Record taken (c n : Z) (pend : gset Z) (m : mk) (s : bufs) (x : sfs_inode) (m' : mk) (s' : bufs) (x' : sfs_inode) : Prop := {
  t_rel : rel m' s' pend;
  t_bmap : inode_bmap m' = inode_bmap m;
  t_file : file_ok sb s' (inode_of n x');
  t_grow : grow sb s (inode_of n x) s' (inode_of n x');
  t_size : si_size x' = si_size x;
  t_bytes : forall o, 0 <= o < SFS_MAX_FILE_SIZE -> fbyte s' (inode_of n x') o = fbyte s (inode_of n x) o;
  t_bound : bounded c s' (inode_of n x');
}.

Lemma taken_refl c n pend m s x : rel m s pend -> file_ok sb s (inode_of n x) -> bounded c s (inode_of n x) -> taken c n pend m s x m s x.
Proof. intros. split; try done. Qed.
Lemma taken_trans c n pend m s x m1 s1 x1 m2 s2 x2 : taken c n pend m s x m1 s1 x1 -> taken c n pend m1 s1 x1 m2 s2 x2 -> taken c n pend m s x m2 s2 x2.
Proof.
  intros [A1 A2 A3 A4 A5 A6 A7] [B1 B2 B3 B4 B5 B6 B7]. split; try done; try congruence.
  - by apply (grow_trans sb sb_good s _ s1 (inode_of n x1)).
  - intros o Ho. by rewrite B6, A6.
Qed.

Lemma taken_filled c n pend m s x m' s' x' k b : filled sb s (inode_of n x) k b s' (inode_of n x') -> 0 <= k < 270 -> addr s (inode_of n x) k = 0 -> b <> 0 ->
  rel m' s' pend -> inode_bmap m' = inode_bmap m -> blocks_used s' = S (blocks_used s) -> bounded c s (inode_of n x) -> taken c n pend m s x m' s' x'.
Proof.
  intros F Hk H0 Hb R E Hu Hbd. split; [done|done|apply F|apply F|exact (fl_size _ _ _ _ _ _ _ F)|apply F|]. unfold bounded in *. rewrite Hu.
  assert (slots_used s' (inode_of n x') = S (slots_used s (inode_of n x))) as ->; [|lia]. apply (count_one _ _ k).
  - apply NoDup_seqZ.
  - apply elem_of_seqZ. lia.
  - by rewrite H0.
  - intros k' Hk'%elem_of_seqZ. rewrite (fl_addr _ _ _ _ _ _ _ F) by lia. destruct (Z.eqb_spec k' k); [|done]. by rewrite (proj2 (Z.eqb_neq b 0)).
Qed.

Lemma mk_alloc_addr_ok c n pend m s x k : rel m s pend -> n ∈ pend -> file_ok sb s (inode_of n x) -> bounded c s (inode_of n x) -> c + 272 <= FS_SIZE ->
  0 <= k < 14 -> addr s (inode_of n x) k = 0 ->
  wp alloc_data_block (fun b m' => b <> 0 /\ exists s', taken c n pend m s x m' s' (set_addr k b x) /\ addr s' (inode_of n (set_addr k b x)) k = b) m.
Proof.
  intros R Hn F Hb Hc Hk H0. pose proof (slots_max s (inode_of n x)) as Hs.
  eapply wp_mono; [apply (mk_alloc_block_ok m s pend R); unfold bounded in Hb; lia|]. intros b m' (s1 & Ha & R' & E).
  pose proof (data_pos sb sb_good b (proj1 Ha)) as Hpos. assert (Hb0 : b <> 0) by (change (s_data_bmap_start sb) with 36 in Hpos; lia). split; [done|].
  pose proof (fill_inode sb sb_good s (inode_of n x) k b s1 0 (r_bufs _ _ _ R') F Ha Hk H0) as Hfl. cbv zeta in Hfl.
  change (Sfs.set_state 0 (set_addrs _ _)) with (inode_of n (set_addr k b x)) in Hfl. set (i' := inode_of n (set_addr k b x)) in *.
  exists (put_inode i' s1). split.
  - apply (taken_filled c n pend m s x m' _ _ k b Hfl); try done; [lia|apply rel_put; [done|done|apply F|apply (fl_file _ _ _ _ _ _ _ Hfl)]|].
    rewrite (used_high s1) by (apply put_high, F). by apply (blocks_used_alloc s b s1).
  - rewrite (fl_addr _ _ _ _ _ _ _ Hfl) by lia. by rewrite Z.eqb_refl.
Qed.

Lemma addr_si s n x k : 0 <= k < 14 -> addr s (inode_of n x) k = si_addr k x.
Proof. intros Hk. unfold addr. by rewrite (proj2 (Z.ltb_lt k 14)) by lia. Qed.

Lemma data_range b : is_data sb b -> BMAP_START_BLK <= b /\ 0 <= b < DATA_START_BLK + FS_SIZE.
Proof. unfold is_data. simpl. change DATA_START_BLK with 324. change BMAP_START_BLK with 36. lia. Qed.

(** What [get_data_block] does for the block with index [q]. *)
Definition found (c n : Z) (pend : gset Z) (m : mk) (s : bufs) (x : sfs_inode) (q : Z) (r : Z * sfs_inode) (m' : mk) : Prop :=
  exists s', taken c n pend m s x m' s' r.2 /\ r.1 = fblk s' (inode_of n r.2) q /\ r.1 <> 0.

(** The entry [k] of an indirect block that is there. *)
Lemma indirect_ok c n pend m s x k a : rel m s pend -> file_ok sb s (inode_of n x) -> bounded c s (inode_of n x) -> c + 272 <= FS_SIZE ->
  14 <= k < 270 -> a = addr s (inode_of n x) (12 + (k - 14) `div` 128) -> a <> 0 ->
  wp (buf <- read_blk a ;;
      (let o := Z.to_nat (4 * ((k - 14) `mod` 128)) in
       let b := of_le32 (drop o buf) in
       if b =? 0 then b <- alloc_data_block ;; write_blk a (splice o (le32 b) buf) ;; ret (b, x) else ret (b, x)))
    (fun r m' => exists s', taken c n pend m s x m' s' r.2 /\ r.1 = addr s' (inode_of n r.2) k /\ r.1 <> 0) m.
Proof.
  intros R F Hb Hc Hk Ea Ha. destruct (ind_range k Hk) as [Hj Hm]. destruct (f_data _ _ _ F (12 + (k - 14) `div` 128) ltac:(lia)) as [Hda _]; [by rewrite <- Ea|]. rewrite <- Ea in Hda.
  destruct (data_range a Hda) as [Hra Hra']. apply wp_bind. eapply read_blk_ok; [exact R|done|]. rewrite <- (r_blk _ _ _ R a Hra). cbv zeta.
  assert (Ew : of_le32 (drop (Z.to_nat (4 * ((k - 14) `mod` 128))) (blk s a)) = addr s (inode_of n x) k).
  { rewrite addr_ind by done. rewrite <- Ea. cbv zeta. by rewrite (proj2 (Z.eqb_neq a 0)). }
  rewrite Ew. destruct (Z.eqb_spec (addr s (inode_of n x) k) 0) as [E0|E0]; [|apply wp_ret; exists s; split; [by apply taken_refl|done]].
  pose proof (slots_max s (inode_of n x)) as Hs. eapply wp_call; [apply (mk_alloc_block_ok m s pend R); unfold bounded in Hb; lia|]. intros b m' (s1 & Hal & R' & E).
  pose proof (fill_indirect sb sb_good s (inode_of n x) k b s1 a (r_bufs _ _ _ R') F Hal Hk E0 Ea Ha) as Hfl.
  destruct (file_taken sb sb_good s (inode_of n x) b s1 F Hal) as (_ & _ & _ & Hsame & _). pose proof (data_range b (proj1 Hal)) as Hrb.
  assert (Hb0 : b <> 0) by (change BMAP_START_BLK with 36 in Hrb; lia).
  assert (Eblk : blk s1 a = blk s a) by (rewrite Ea; apply Hsame; [lia|congruence]). rewrite Eblk in Hfl. set (d := splice _ (le32 b) (blk s a)) in *.
  assert (Hd : bytes_ok d) by (apply bytes_ok_splice; [apply (r_bufs _ _ _ R)|apply le32_bytes|simpl; lia]).
  apply wp_bind, wp_modify, wp_ret. exists (setb a d s1). cbn [fst snd]. split_and!; [|rewrite (fl_addr _ _ _ _ _ _ _ Hfl), Z.eqb_refl by lia; done|done].
  apply (taken_filled c n pend m s x _ _ _ k b Hfl); try done; [lia|by apply rel_write|]. rewrite <- (blocks_used_alloc s b s1 Hal). apply count_ext.
  intros e He%elem_of_seqZ. pose proof (bmap_range sb sb_good e He) as Hbe. destruct Hda as [Hda _]. change (s_journal_start sb) with 68 in Hbe. change (s_data_start sb) with 324 in Hda.
  unfold used. by rewrite blk_set, (proj2 (Z.eqb_neq _ a)) by lia.
Qed.

Lemma mk_get_block_ok c n pend m s x ofs : rel m s pend -> n ∈ pend -> file_ok sb s (inode_of n x) -> bounded c s (inode_of n x) -> c + 272 <= FS_SIZE ->
  0 <= ofs < SFS_MAX_FILE_SIZE -> wp (get_data_block x ofs) (found c n pend m s x (ofs `div` 512)) m.
Proof.
  intros R Hn F Hb Hc Ho. pose proof (ofs_block ofs Ho) as Hq. unfold get_data_block. rewrite (proj2 (Z.leb_gt MAX_FILE_SIZE ofs)) by apply Ho.
  change BDEV_BLK_SIZE with 512. change SFS_NDIRECT with 12. change (512 `div` 4) with 128. set (q := ofs `div` 512) in *. unfold found, fblk, slot. cbv zeta.
  destruct (Z.ltb_spec q 12) as [Hd|Hd].
  - destruct (Z.eqb_spec (si_addr q x) 0) as [E0|E0].
    + eapply wp_call; [apply (mk_alloc_addr_ok c n pend m s x q R Hn F Hb Hc); [lia|rewrite addr_si by lia; done]|]. intros b m' (Hb0 & s' & T & Ea). apply wp_ret. exists s'. done.
    + apply wp_ret. exists s. split; [by apply taken_refl|]. simpl. by rewrite addr_si by lia.
  - set (j := 12 + (q - 12) `div` 128). assert (Hj : 12 <= j < 14) by (destruct (ind_range (q + 2) ltac:(lia)) as [H _]; replace (q + 2 - 14) with (q - 12) in H by lia; done).
    apply wp_bind. eapply wp_mono with (Q := fun x1 m1 => exists s1, taken c n pend m s x m1 s1 x1 /\ si_addr j x1 <> 0).
    { destruct (Z.eqb_spec (si_addr j x) 0) as [E0|E0]; [|apply wp_ret; exists s; split; [by apply taken_refl|done]].
      eapply wp_call; [apply (mk_alloc_addr_ok c n pend m s x j R Hn F Hb Hc); [lia|rewrite addr_si by lia; done]|]. intros b m' (Hb0 & s' & T & Ea). apply wp_ret.
      exists s'. split; [done|]. rewrite addr_si in Ea by lia. congruence. }
    intros x1 m1 (s1 & T1 & Ha). pose proof (indirect_ok c n pend m1 s1 x1 (q + 2) (si_addr j x1) (t_rel _ _ _ _ _ _ _ _ _ T1) (t_file _ _ _ _ _ _ _ _ _ T1) (t_bound _ _ _ _ _ _ _ _ _ T1) Hc ltac:(lia)) as Hi.
    replace (q + 2 - 14) with (q - 12) in Hi by lia. fold j in Hi. rewrite addr_si in Hi by lia. eapply wp_mono; [exact (Hi eq_refl Ha)|].
    intros r m2 (s2 & T2 & E2 & Hr). exists s2. split; [by apply (taken_trans c n pend m s x m1 s1 x1)|done].
Qed.

(** [data] at the end of the file. *)
Record appended (c n : Z) (pend : gset Z) (m : mk) (s : bufs) (x : sfs_inode) (data : list Z) (m' : mk) (s' : bufs) (x' : sfs_inode) : Prop := {
  ap_rel : rel m' s' pend;
  ap_bmap : inode_bmap m' = inode_bmap m;
  ap_file : file_ok sb s' (inode_of n x');
  ap_grow : grow sb s (inode_of n x) s' (inode_of n x');
  ap_size : si_size x' = si_size x + Z.of_nat (length data);
  ap_bytes : forall o, 0 <= o < SFS_MAX_FILE_SIZE ->
    fbyte s' (inode_of n x') o = overlay (fbyte s (inode_of n x)) (si_size x) (Z.of_nat (length data)) data o;
  ap_there : forall o, si_size x <= o < si_size x + Z.of_nat (length data) -> fblk s' (inode_of n x') (o `div` 512) <> 0;
  ap_bound : bounded c s' (inode_of n x');
}.

Lemma slots_ext s i s' i' : (forall k, 0 <= k < 270 -> addr s' i' k = addr s i k) -> slots_used s' i' = slots_used s i.
Proof. intros H. apply count_ext. intros k Hk%elem_of_seqZ. by rewrite H by lia. Qed.

(** A piece that fits the block at the end of the file. *)
Lemma append_piece_ok c n pend m s x m1 s1 x1 l : n ∈ pend -> taken c n pend m s x m1 s1 x1 ->
  let b := fblk s1 (inode_of n x1) (si_size x `div` 512) in b <> 0 -> 0 <= si_size x -> Forall byte_range l ->
  si_size x `mod` 512 + Z.of_nat (length l) <= 512 -> si_size x < SFS_MAX_FILE_SIZE -> si_size x + Z.of_nat (length l) <= SFS_MAX_FILE_SIZE ->
  let d := splice (Z.to_nat (si_size x `mod` 512)) l (blk (bufs_of m1) b) in
  exists s', appended c n pend m s x l (mkMk (<[b := d]> (image m1)) (inode_bmap m1)) s' (set_size (si_size x + Z.of_nat (length l)) x1).
Proof.
  intros Hn T b Hb Hx Hl Hfit Hx2 Hmax d. set (o := si_size x) in *. destruct T as [R E F G Hsz B Bd]. pose proof (ofs_block o ltac:(lia)) as Hq. pose proof (Z.mod_pos_bound o 512 ltac:(lia)) as Hmod.
  destruct (slot_range _ Hq) as (Hs & _). destruct (f_data _ _ _ F _ Hs Hb) as [Hdata _]. change (addr s1 (inode_of n x1) (slot (o `div` 512))) with b in Hdata. destruct (data_range b Hdata) as [Hbr _].
  assert (Hd : bytes_ok d) by (apply bytes_ok_splice; [apply (r_bytes _ _ _ R)|done|lia]).
  destruct (write_block_ok sb sb_good s1 (inode_of n x1) (o `div` 512) d F Hq Hb) as (F2 & G2 & A2 & B2). fold b in F2, G2, A2, B2. cbv zeta in F2, G2, A2, B2. set (s2 := setb b d s1) in *.
  pose proof (rel_write m1 s1 pend b d R Hbr Hd) as R2. fold s2 in R2. set (x2 := set_size (o + Z.of_nat (length l)) x1).
  assert (W : wrote sb (mkSfs s2 {[0 := inode_of n x1]}) 0 (inode_of n x1) (mkSfs (put_inode (inode_of n x2) s2) (<[0 := inode_of n x2]> {[0 := inode_of n x1]})) (inode_of n x2) (fbyte s2 (inode_of n x1))).
  { apply (write_meta_wrote sb sb_good); [apply lookup_singleton_eq|apply R2|done|done|done]. }
  destruct (write_meta_ok sb sb_good s2 (inode_of n x1) (inode_of n x2) (r_bufs _ _ _ R2) F2 eq_refl eq_refl) as (_ & _ & _ & A3 & _).
  destruct W as [_ _ F3 G3 B3 _]. simpl in F3, G3, B3. exists (put_inode (inode_of n x2) s2). split; [|exact E|exact F3| |reflexivity| | |].
  - apply rel_put; [done|done|apply F3|apply F3].
  - apply (grow_trans sb sb_good s _ s1 (inode_of n x1)); [done|done|done|]. by apply (grow_trans sb sb_good s1 _ s2 (inode_of n x1)).
  - intros p Hp. rewrite B3, B2 by done. unfold overlay. change (si_size x) with o. pose proof (Z.div_mod p 512 ltac:(lia)). pose proof (Z.mod_pos_bound p 512 ltac:(lia)). pose proof (Z.div_mod o 512 ltac:(lia)).
    assert (Elen : length (blk (bufs_of m1) b) = 512%nat) by apply (r_bytes _ _ _ R).
    destruct (Z.eqb_spec (p `div` 512) (o `div` 512)) as [Eq|Hne].
    + destruct (Z.leb_spec o p), (Z.ltb_spec p (o + Z.of_nat (length l))); cbn [andb].
      1: { unfold d. replace (Z.to_nat (p `mod` 512)) with (Z.to_nat (o `mod` 512) + Z.to_nat (p - o))%nat by lia. by rewrite splice_lookup by lia. }
      all: unfold d; rewrite splice_lookup_ne by lia; rewrite <- B by done; unfold fbyte; rewrite Eq; fold b; rewrite (proj2 (Z.eqb_neq b 0)) by done; by rewrite (r_blk _ _ _ R b Hbr).
    + rewrite B by done. destruct (Z.leb_spec o p), (Z.ltb_spec p (o + Z.of_nat (length l))); cbn [andb]; try done. exfalso. apply Hne. lia.
  - intros p Hp. destruct (split_ofs o (p - o) Hx ltac:(lia) ltac:(lia)) as [Eq _]. replace (o + (p - o)) with p in Eq by lia. rewrite Eq. unfold fblk. rewrite A3, A2 by done. exact Hb.
  - unfold bounded in *. rewrite (slots_ext s1 (inode_of n x1)) by (intros k Hk; rewrite A3, A2 by done; done). rewrite (used_high s2) by (apply put_high, F).
    assert (blocks_used s2 = blocks_used s1) as ->; [|done]. apply count_ext. intros e He%elem_of_seqZ. pose proof (bmap_range sb sb_good e He) as Hbe. destruct Hdata as [Hda _].
    change (s_journal_start sb) with 68 in Hbe. change (s_data_start sb) with 324 in Hda. unfold used, s2. by rewrite blk_set, (proj2 (Z.eqb_neq _ b)) by lia.
Qed.

Lemma overlay_drop f o data k p : 0 <= o -> 0 <= k <= Z.of_nat (length data) ->
  overlay (overlay f o k (take (Z.to_nat k) data)) (o + k) (Z.of_nat (length data) - k) (drop (Z.to_nat k) data) p = overlay f o (Z.of_nat (length data)) data p.
Proof.
  intros Ho Hk. unfold overlay. destruct (Z.leb_spec (o + k) p), (Z.ltb_spec p (o + k + (Z.of_nat (length data) - k))), (Z.leb_spec o p), (Z.ltb_spec p (o + k)), (Z.ltb_spec p (o + Z.of_nat (length data)));
    cbn [andb]; try done; try lia.
  - rewrite lookup_drop. do 2 f_equal. lia.
  - by rewrite lookup_take_lt by lia.
Qed.

Lemma append_loop_ok c n pend fuel : n ∈ pend -> c + 272 <= FS_SIZE -> forall data m s x, rel m s pend -> file_ok sb s (inode_of n x) -> bounded c s (inode_of n x) ->
  0 <= si_size x -> si_size x + Z.of_nat (length data) <= SFS_MAX_FILE_SIZE -> Forall byte_range data -> (length data <= fuel)%nat ->
  wp (append_loop fuel x data) (fun x' m' => exists s', appended c n pend m s x data m' s' x') m.
Proof.
  intros Hn Hc. induction fuel as [|fuel IH]; intros data m s x R F Hb Hx Hmax Hdata Hfuel; destruct data as [|e data0] eqn:Ed; simpl in Hfuel; try lia.
  1, 2: apply wp_ret; exists s; split; [done|done|done|by split|simpl; lia|intros o Ho; by rewrite overlay_0|simpl; lia|done].
  cbn [append_loop]. rewrite <- Ed in *. assert (Hlen : 0 < Z.of_nat (length data)) by (rewrite Ed; simpl; lia). assert (Hfuel' : (length data <= S fuel)%nat) by (rewrite Ed; simpl; lia). clear Ed Hfuel e data0.
  change BDEV_BLK_SIZE with 512. set (k := Z.min (512 - si_size x `mod` 512) (Z.of_nat (length data))). pose proof (Z.mod_pos_bound (si_size x) 512 ltac:(lia)) as Hmod.
  eapply wp_call; [apply (mk_get_block_ok c n pend m s x (si_size x)); try done; lia|]. intros [b x1] m1 (s1 & T & E & Hb0). cbn [fst snd] in *.
  set (l := take (Z.to_nat k) data). assert (Hl : Z.of_nat (length l) = k) by (unfold l; rewrite length_take; lia).
  assert (Hlb : Forall byte_range l) by by apply Forall_take. rewrite E in Hb0.
  destruct (append_piece_ok c n pend m s x m1 s1 x1 l Hn T Hb0 Hx Hlb ltac:(lia) ltac:(lia) ltac:(lia)) as [s2 A]. cbv zeta in A. rewrite <- E in A. rewrite Hl in A.
  apply wp_bind. eapply read_blk_ok; [apply T| |].
  { destruct (slot_range _ (ofs_block (si_size x) ltac:(lia))) as (Hs & _). rewrite E. apply data_range. by apply (f_data _ _ _ (t_file _ _ _ _ _ _ _ _ _ T) _ Hs). }
  apply wp_bind, wp_modify. rewrite wrap_small by (rewrite max_size in Hmax; lia). destruct A as [A1 A2 A3 A4 A5 A6 A7 A8].
  eapply wp_mono; [apply (IH (drop (Z.to_nat k) data) _ s2); try done; [simpl; lia|simpl; rewrite length_drop; lia|by apply Forall_drop|rewrite length_drop; lia]|].
  intros x' m' (s' & [B1 B2 B3 B4 B5 B6 B7 B8]). exists s'. rewrite Hl in *. rewrite length_drop in *. simpl in A5, B5, B6, B7.
  replace (Z.of_nat (length data - Z.to_nat k)) with (Z.of_nat (length data) - k) in * by lia. split; try done; try congruence; try lia.
  - by apply (grow_trans sb sb_good s _ s2 (inode_of n (set_size (si_size x + k) x1))).
  - intros o Ho. rewrite B6 by done. rewrite <- (overlay_drop _ (si_size x) data k) by lia. unfold overlay at 1 2. destruct (_ && _); [done|]. by apply A6.
  - intros o Ho. destruct (decide (si_size x + k <= o)); [apply B7; lia|]. specialize (A7 o ltac:(lia)).
    destruct (slot_range _ (ofs_block o ltac:(lia))) as (Hs & _). unfold fblk in *. by rewrite (g_addr _ _ _ _ _ B4 _ Hs A7).
Qed.

(** ** The files of an image *)

(** The file is [l], without holes. *)
Record holds (s : bufs) (i : inode) (l : list Z) : Prop := {
  h_size : i_size i = Z.of_nat (length l);
  h_max : i_size i <= SFS_MAX_FILE_SIZE;
  h_bytes : forall o, 0 <= o < i_size i -> fbyte s i o = default 0 (l !! Z.to_nat o);
  h_dense : dense s i;
}.

Abbreviation slots s := (fun f : inode * list Z => slots_used s f.1).

(** The root directory comes first. *)
Definition kind (k : nat) : Z := match k with O => FTYPE_DIR | S _ => FTYPE_FILE end.

(** The files of an image with their contents: they share no block, and no
    other block is in use; they are numbered in their order. *)
Record world (s : bufs) (L : list (inode * list Z)) : Prop := {
  w_file : forall k i l, L !! k = Some (i, l) -> file_ok sb s i /\ holds s i l;
  w_apart : forall k k' i l j l', L !! k = Some (i, l) -> L !! k' = Some (j, l') -> k <> k' -> apart s i j;
  w_blocks : (blocks_used s <= sum_list_with (slots s) L)%nat;
  w_kind : forall k i l, L !! k = Some (i, l) -> (i_inum i, i_nlink i, i_mode i, i_ftype i) = (Z.of_nat k + 1, 1, 0, kind k);
}.

Lemma holds_append c n P m s x l data m' s' x' : holds s (inode_of n x) l -> appended c n P m s x data m' s' x' ->
  Z.of_nat (length l) + Z.of_nat (length data) <= SFS_MAX_FILE_SIZE -> holds s' (inode_of n x') (l ++ data).
Proof.
  intros [H1 H2 H3 H4] A Hmax. pose proof (ap_size _ _ _ _ _ _ _ _ _ _ A) as Es. simpl in *. split; simpl.
  - rewrite length_app, Es. lia.
  - lia.
  - intros o Ho. rewrite (ap_bytes _ _ _ _ _ _ _ _ _ _ A) by lia. unfold overlay.
    destruct (Z.leb_spec (si_size x) o), (Z.ltb_spec o (si_size x + Z.of_nat (length data))); cbn [andb]; try lia.
    + rewrite lookup_app_r by lia. do 2 f_equal. lia.
    + rewrite lookup_app_l by lia. apply H3. lia.
  - apply (dense_write sb sb_good s (inode_of n x) s' _ data (si_size x) (Z.of_nat (length data))); simpl; [done|apply A| |lia|apply A|lia].
    unfold new_size. destruct (Z.ltb_spec 0 (Z.of_nat (length data))); lia.
Qed.

(** What the growth of a file leaves of the others. *)
Lemma holds_keep s i s' i' j l : file_ok sb s j -> apart s i j -> file_ok sb s' i' -> grow sb s i s' i' -> holds s j l -> holds s' j l.
Proof.
  intros Fj Hap F' G [H1 H2 H3 H4]. destruct (grow_apart sb sb_good s i s' i' j Fj Hap F' G) as (_ & _ & Hby). split; [done|done| |].
  - intros o Ho. rewrite Hby by lia. auto.
  - intros q Hq Hlt. unfold fblk. rewrite max_size in H2. destruct (slot_range q ltac:(lia)) as (Hs & _). rewrite (proj1 (grow_addr sb sb_good s i s' i' j _ Fj Hap G Hs)). by apply H4.
Qed.
Lemma apart_sym s i j : apart s i j -> apart s j i.
Proof. intros [Hn H]. split; [done|]. intros k k' Hk Hk' E. rewrite E. apply (H k' k); done. Qed.
Lemma apart_keep s i s' i' j j' : file_ok sb s j -> file_ok sb s j' -> apart s i j -> apart s i j' -> grow sb s i s' i' -> apart s j j' -> apart s' j j'.
Proof.
  intros Fj Fj' A A' G [Hn H]. split; [done|]. intros k k' Hk Hk'. rewrite (proj1 (grow_addr sb sb_good s i s' i' j k Fj A G Hk)), (proj1 (grow_addr sb sb_good s i s' i' j' k' Fj' A' G Hk')). by apply H.
Qed.

Lemma sum_ext {A} (g g' : A -> nat) L : (forall j f, L !! j = Some f -> g' f = g f) -> sum_list_with g' L = sum_list_with g L.
Proof.
  induction L as [|f L IH]; intros Hg; simpl; [done|]. rewrite (Hg 0%nat f) by done. f_equal. apply IH. intros j. apply (Hg (S j)).
Qed.
Lemma sum_change {A} (g g' : A -> nat) (b : A) : forall (L : list A) k a, L !! k = Some a -> (forall j f, L !! j = Some f -> j <> k -> g' f = g f) ->
  (sum_list_with g' (<[k := b]> L) + g a = sum_list_with g L + g' b)%nat.
Proof.
  induction L as [|f L IH]; intros [|k] a Hk Hg; simpl in *; try done.
  - injection Hk as ->. rewrite (sum_ext g g' L) by (intros j f' Hj; by apply (Hg (S j))). lia.
  - rewrite (Hg 0%nat f) by done. specialize (IH k a Hk (fun j f' Hj Hne => Hg (S j) f' Hj ltac:(congruence))). lia.
Qed.

Lemma sum_max s L : Z.of_nat (sum_list_with (slots s) L) <= 270 * Z.of_nat (length L).
Proof. induction L as [|f L IH]; simpl; [lia|]. pose proof (slots_max s f.1). lia. Qed.

Lemma append_world P m s n x l data L k : rel m s P -> n ∈ P -> world s L -> L !! k = Some (inode_of n x, l) -> (length L <= 256)%nat ->
  Forall byte_range data -> Z.of_nat (length l) + Z.of_nat (length data) <= SFS_MAX_FILE_SIZE ->
  wp (inode_append x data) (fun x' m' => exists s', rel m' s' P /\ inode_bmap m' = inode_bmap m /\ world s' (<[k := (inode_of n x', l ++ data)]> L)) m.
Proof.
  intros R Hn [Wf Wa Wb Wk] Hk HL Hd Hmax. destruct (Wf _ _ _ Hk) as [F H]. pose proof (h_size _ _ _ H) as Hsz. simpl in Hsz.
  pose proof (sum_max s L) as Hsum. set (c := Z.of_nat (sum_list_with (slots s) L) - Z.of_nat (slots_used s (inode_of n x))).
  eapply wp_mono; [apply (append_loop_ok c n P (length data) Hn); try done; [unfold FS_SIZE; lia|unfold bounded; lia|lia|lia]|].
  intros x' m' (s' & A). exists s'. split; [apply A|]. split; [apply A|]. pose proof (ap_file _ _ _ _ _ _ _ _ _ _ A) as F'. pose proof (ap_grow _ _ _ _ _ _ _ _ _ _ A) as G.
  assert (Hoth : forall j i lj, L !! j = Some (i, lj) -> j <> k -> apart s (inode_of n x) i) by (intros j i lj Hj Hne; by apply (Wa k j _ l _ lj)).
  split.
  - intros j i lj. rewrite list_lookup_insert_Some. intros [(<- & [= <- <-] & _)|[Hne Hj]]; [split; [done|by apply (holds_append c n P m s x l data m')]|].
    destruct (Wf _ _ _ Hj) as [Fj Hj']. pose proof (Hoth _ _ _ Hj ltac:(congruence)) as Hap. split; [by apply (grow_apart sb sb_good s (inode_of n x) s' (inode_of n x') i)|by apply (holds_keep s (inode_of n x) s' (inode_of n x') i lj)].
  - intros j j' i lj i' lj'. rewrite !list_lookup_insert_Some. intros [(<- & [= <- <-] & _)|[Hne Hj]] [(<- & [= <- <-] & _)|[Hne' Hj']] Hjj; [done| | |].
    + destruct (Wf _ _ _ Hj') as [Fj _]. by apply (grow_apart sb sb_good s (inode_of n x) s' (inode_of n x') i' Fj (Hoth _ _ _ Hj' ltac:(congruence)) F' G).
    + destruct (Wf _ _ _ Hj) as [Fj _]. apply apart_sym. by apply (grow_apart sb sb_good s (inode_of n x) s' (inode_of n x') i Fj (Hoth _ _ _ Hj ltac:(congruence)) F' G).
    + destruct (Wf _ _ _ Hj) as [Fj _], (Wf _ _ _ Hj') as [Fj' _]. apply (apart_keep s (inode_of n x) s' (inode_of n x') i i' Fj Fj'); try done;
        [by apply (Hoth j _ lj); [|congruence]|by apply (Hoth j' _ lj'); [|congruence]|by apply (Wa j j' _ lj _ lj')].
  - pose proof (sum_change (slots s) (slots s') (inode_of n x', l ++ data) L k _ Hk) as Hs. simpl in Hs.
    assert (Hbd : bounded c s' (inode_of n x')) by apply A. unfold bounded, c in Hbd. enough (Hpre : forall j f, L !! j = Some f -> j <> k -> slots_used s' f.1 = slots_used s f.1) by (specialize (Hs Hpre); lia).
    intros j [i lj] Hj Hne. simpl. destruct (Wf _ _ _ Hj) as [Fj _]. apply slots_ext. intros q Hq. by apply (grow_addr sb sb_good s (inode_of n x) s' (inode_of n x') i q Fj (Hoth _ _ _ Hj Hne) G).
  - intros j i lj. rewrite list_lookup_insert_Some. intros [(<- & [= <- <-] & _)|[Hne Hj]]; [|by apply (Wk j i lj)]. rewrite <- (Wk k _ _ Hk).
    destruct (g_meta _ _ _ _ _ G) as (G1 & _ & G3 & G4 & G5 & _). simpl in *. congruence.
Qed.

(** Views with the same blocks above the table and the same entries. *)
Lemma world_view s s' L : world s L -> (forall b, BMAP_START_BLK <= b -> blk s' b = blk s b) ->
  (forall k i l, L !! k = Some (i, l) -> entry s' (i_inum i) = entry s (i_inum i)) ->
  world s' L /\ forall k i l, L !! k = Some (i, l) -> slots_used s' i = slots_used s i.
Proof.
  intros [Wf Wa Wb Wk] Hb He.
  assert (Hdata : forall b, is_data sb b -> blk s' b = blk s b) by (intros b Hd; apply Hb, data_range, Hd).
  assert (Hadr : forall i, file_ok sb s i -> forall k, 0 <= k < 270 -> addr s' i k = addr s i k).
  { intros i F k Hk. apply addr_ext; [|done]. intros j Hj H0. apply Hdata, (f_data _ _ _ F j); [lia|done]. }
  assert (Hu : forall b, is_data sb b -> used sb s' b = used sb s b) by (intros b Hd; unfold used; rewrite Hb; [done|]; apply (bmap_range sb sb_good b Hd)).
  assert (Hs : forall k i l, L !! k = Some (i, l) -> slots_used s' i = slots_used s i) by (intros k i l Hk; destruct (Wf _ _ _ Hk) as [F _]; apply slots_ext; auto).
  split; [split|done].
  - intros k i l Hk. destruct (Wf _ _ _ Hk) as [F [H1 H2 H3 H4]]. pose proof (Hadr i F) as Ha. pose proof F as [F1 F2 F3 F4 F5]. split; split; try done.
    + intros q Hq. rewrite Ha by done. intros H0. destruct (F3 q Hq H0). by rewrite Hu.
    + intros q q' Hq Hq'. rewrite !Ha by done. by apply F4.
    + by rewrite (He k i l).
    + intros o Ho. rewrite <- H3 by done. destruct (slot_range _ (ofs_block o ltac:(lia))) as (Hsl & _). unfold fbyte, fblk. rewrite Ha by done.
      destruct (Z.eqb_spec (addr s i (slot (o `div` 512))) 0) as [|H0]; [done|]. by rewrite Hdata by (by apply F3).
    + intros q Hq Hlt. rewrite max_size in H2. destruct (slot_range q ltac:(lia)) as (Hsl & _). unfold fblk. rewrite Ha by done. by apply H4.
  - intros k k' i l j l' Hk Hk' Hne. destruct (Wf _ _ _ Hk) as [F _], (Wf _ _ _ Hk') as [F' _]. destruct (Wa _ _ _ _ _ _ Hk Hk' Hne) as [A1 A2]. split; [done|].
    intros q q' Hq Hq'. rewrite (Hadr i F), (Hadr j F') by done. by apply A2.
  - rewrite (used_high s s' Hb), (sum_ext (slots s) (slots s')); [done|]. intros j [i l] Hj. simpl. by apply (Hs j i l).
  - done.
Qed.

Lemma rel_weaken m s P P' : rel m s P -> P ⊆ P' -> rel m s P'.
Proof. intros [R1 R2 R3 R4 R5 R6 R7] HP. split; try done. intros n Hn Hnp. apply R5; [done|]. set_solver. Qed.

Lemma inum_same n : inum_ok sb n -> inum_to_blk n = Sfs.inum_to_blk n /\ inum_to_ofs n = Sfs.inum_to_ofs n.
Proof.
  intros Hn. unfold inum_ok in Hn. change (s_num_inodes sb) with 256 in Hn. unfold inum_to_blk, inum_to_ofs, Sfs.inum_to_blk, Sfs.inum_to_ofs, INODE_TABLE_BLK, SFS_INODE_TABLE_BLK, sizeof_sfs_inode.
  change (BDEV_BLK_SIZE `div` 64) with 8. rewrite !(wrap_small 32 (n - 1)) by lia. assert (0 <= (n - 1) `div` 8 < 256) by (split; [apply Z.div_pos|apply Z.div_lt_upper_bound]; lia).
  by rewrite !wrap_small by lia.
Qed.

Lemma table_range n : inum_ok sb n -> 0 <= Sfs.inum_to_blk n < DATA_START_BLK + FS_SIZE.
Proof. intros Hn. destruct (inum_blk sb sb_good n Hn) as (_ & _ & Hr). change (s_data_bmap_start sb) with 36 in Hr. change (DATA_START_BLK + FS_SIZE) with 131396. lia. Qed.

(** Writing an inode to the table. *)
Lemma write_inode_rel m s P n x : rel m s P -> inum_ok sb n -> length (si_addrs x) = 14%nat ->
  wp (write_inode n x) (fun _ m' => rel m' (put_inode (inode_of n x) s) (P ∖ {[n]}) /\ inode_bmap m' = inode_bmap m) m.
Proof.
  intros R Hn Hl. destruct (inum_same n Hn) as [E1 E2]. unfold write_inode. rewrite E1, E2. apply wp_bind. eapply read_blk_ok; [exact R|by apply table_range|]. apply wp_modify. split; [|done].
  set (m' := mkMk _ _). assert (Em : bufs_of m' = put_inode (inode_of n x) (bufs_of m)) by done. destruct R as [R1 R2 R3 R4 R5 R6 R7].
  destruct (put_inode_ok sb sb_good (inode_of n x) s R2 Hn Hl) as (H1 & H2 & H3). destruct (put_inode_ok sb sb_good (inode_of n x) (bufs_of m) R3 Hn Hl) as (K1 & K2 & K3). split.
  - intros b Hb. simpl. rewrite lookup_insert. case_decide; eauto.
  - done.
  - by rewrite Em.
  - intros b Hb. rewrite Em, !put_high by done. auto.
  - intros k Hk Hkp. rewrite Em. destruct (decide (k = n)) as [->|Hne]; [simpl in *; congruence|]. rewrite H3, K3 by done. apply R5; [done|]. set_solver.
  - rewrite Em. unfold put_inode. rewrite blk_set, (proj2 (Z.eqb_neq _ _)); [done|]. destruct (inum_blk sb sb_good n Hn) as (_ & _ & Hr). unfold INODE_BMAP_BLK. simpl. lia.
  - rewrite Em. unfold put_inode. rewrite blk_set, (proj2 (Z.eqb_neq _ _)); [done|]. destruct (inum_blk sb sb_good n Hn) as (_ & _ & Hr). unfold SB_BLK. simpl. lia.
Qed.

Lemma read_inode_rel m s P n x : rel m s P -> inum_ok sb n -> n ∉ P -> entry s n = inode_image (inode_of n x) -> inode_fits (inode_of n x) -> length (si_addrs x) = 14%nat ->
  wp (read_inode n) (fun y m' => y = x /\ m' = m) m.
Proof.
  intros R Hn HP He Hf Hl. destruct (inum_same n Hn) as [E1 E2]. unfold read_inode. rewrite E1, E2. apply wp_bind. eapply read_blk_ok; [exact R|by apply table_range|]. apply wp_ret. split; [|done].
  change (take 64 _) with (entry (bufs_of m) n). rewrite <- (r_entry _ _ _ R n Hn HP), He. destruct (image_fields (inode_of n x) [] Hf Hl) as (F1 & F2 & F3 & F4 & F5). rewrite app_nil_r in *.
  unfold si_of_bytes. rewrite F1, F2, F3, F4, F5. by destruct x.
Qed.

(** An inode without blocks. *)
Definition blank (ftype : Z) : sfs_inode := mkSi ftype 0 1 0 (replicate 14 0).

Lemma blank_addr s n ft k : 0 <= k < 270 -> addr s (inode_of n (blank ft)) k = 0.
Proof.
  intros Hk. assert (Hz : forall j, default 0 (replicate 14 0 !! j) = 0) by (intros j; destruct (replicate 14 0 !! j) as [y|] eqn:E; [by apply lookup_replicate in E as [-> _]|done]).
  unfold addr. cbn [inode_of blank i_addrs si_addrs]. rewrite !Hz. by destruct (k <? 14).
Qed.

Lemma blank_fits n k : inode_fits (inode_of n (blank (kind k))).
Proof. split; [destruct k; by vm_compute|]. split; [done|]. split; [done|]. split; [done|]. simpl. by repeat constructor. Qed.

Lemma world_blank s n ft L : world s L -> bufs_ok s -> inum_ok sb n -> n = Z.of_nat (length L) + 1 -> ft = kind (length L) ->
  world (put_inode (inode_of n (blank ft)) s) (L ++ [(inode_of n (blank ft), [])]).
Proof.
  intros W Hok Hn En Eft.
  assert (Hne : forall k i l, L !! k = Some (i, l) -> i_inum i <> n) by (intros k i l Hk; pose proof (w_kind _ _ W k i l Hk) as [= -> _ _ _]; apply lookup_lt_Some in Hk; lia). set (i0 := inode_of n (blank ft)).
  assert (Hb0 : forall t k, 0 <= k < 270 -> addr t i0 k = 0) by (intros t k; apply blank_addr). destruct (put_inode_ok sb sb_good i0 s Hok Hn eq_refl) as (Hok' & He & Ht). set (s' := put_inode i0 s) in *.
  destruct (world_view s s' L W (put_high s i0 Hn)) as [[Wf Wa Wb Wk] Hs].
  { intros k i l Hk. apply Ht; [apply (w_file _ _ W k i l Hk)|]. by apply (Hne k i l). }
  assert (Hlast : forall k i l, (L ++ [(i0, [])]) !! k = Some (i, l) -> L !! k = Some (i, l) \/ k = length L /\ i = i0 /\ l = []).
  { intros k i l. rewrite lookup_app_Some. intros [?|[Hk Hk']]; [by left|right]. destruct (k - length L)%nat eqn:E; [|done]. injection Hk' as <- <-. split; [lia|done]. }
  assert (Hz : forall t, slots_used t i0 = 0%nat).
  { intros t. apply count_none. intros k Hk%elem_of_seqZ. by rewrite Hb0 by lia. }
  split.
  - intros k i l Hk. destruct (Hlast k i l Hk) as [Hk'|(-> & -> & ->)]; [by apply (Wf k)|]. split; split; try done.
    + intros q Hq. by rewrite Hb0 by done.
    + intros q q' Hq Hq' _. by rewrite Hb0 by done.
    + intros o Ho. simpl in Ho. lia.
    + intros q Hq Hlt. simpl in Hlt. lia.
  - intros k k' i l j l' Hk Hk' Hkk. destruct (Hlast k i l Hk) as [K|(-> & -> & ->)], (Hlast k' j l' Hk') as [K'|(-> & -> & ->)].
    + by apply (Wa k k' i l j l').
    + split; [by apply (Hne k i l)|]. intros q q' Hq Hq' E. by rewrite E, Hb0.
    + split; [intros E; by apply (Hne k' j l')|]. intros q q' Hq Hq' E. by rewrite Hb0.
    + done.
  - rewrite sum_list_with_app. change (sum_list_with (slots s') [(i0, [])]) with (slots_used s' i0 + 0)%nat. rewrite Hz. lia.
  - intros k i l Hk. destruct (Hlast k i l Hk) as [K|(-> & -> & ->)]; [by apply (Wk k i l)|]. simpl. congruence.
Qed.

(** ** Adding files *)

(** The first [k] inodes are in use. *)
Definition prefix_map (d : block) (k : Z) : Prop := bytes_ok d /\ forall j, 0 <= j < 256 -> bmap_bit d j = (j <? k).

Lemma prefix_alloc d k : prefix_map d k -> 0 <= k < 256 -> exists d', bmap_alloc_element d 32 = (k, d') /\ prefix_map d' (k + 1).
Proof.
  intros [Hd Hp] Hk. pose proof (bmap_alloc_element_ok d 32 Hd ltac:(lia)) as H. change (8 * 32) with 256 in H. destruct (first_clear d 256) as [k'|] eqn:E.
  - destruct H as (d' & -> & Hd' & Hset). apply first_clear_Some in E as (Hk' & Hb & Hlow). rewrite Hp in Hb by lia. apply Z.ltb_ge in Hb.
    assert (k' = k) as ->. { destruct (decide (k < k')); [|lia]. specialize (Hlow k ltac:(lia)). rewrite Hp in Hlow by lia. lia. }
    exists d'. split; [done|]. split; [done|]. intros j Hj. rewrite Hset, Hp by lia. bool_lia.
  - pose proof (first_clear_None _ _ k E ltac:(lia)) as Hb. rewrite Hp in Hb by lia. lia.
Qed.

Lemma rel_imap m s P d : rel m s P -> bytes_ok d -> rel (mkMk (<[INODE_BMAP_BLK := d]> (image m)) d) s P.
Proof.
  intros [R1 R2 R3 R4 R5 R6 R7] Hd. set (m' := mkMk _ d). assert (Em : bufs_of m' = setb INODE_BMAP_BLK d (bufs_of m)) by done. split; rewrite ?Em.
  - intros b Hb. simpl. rewrite lookup_insert. case_decide; eauto.
  - done.
  - by apply setb_ok.
  - intros b Hb. rewrite blk_set, (proj2 (Z.eqb_neq b _)); [auto|]. change BMAP_START_BLK with 36 in Hb. unfold INODE_BMAP_BLK. lia.
  - intros n Hn Hp. rewrite R5 by done. destruct (inum_blk sb sb_good n Hn) as (_ & _ & Hr). unfold entry. rewrite blk_set, (proj2 (Z.eqb_neq _ _)); [done|]. unfold INODE_BMAP_BLK. lia.
  - by rewrite blk_set, Z.eqb_refl.
  - by rewrite blk_set.
Qed.

Lemma alloc_inode_ok m s P L : rel m s P -> world s L -> prefix_map (inode_bmap m) (Z.of_nat (length L)) -> (length L < 256)%nat ->
  let n := Z.of_nat (length L) + 1 in let x := blank (kind (length L)) in
  wp (alloc_inode (kind (length L))) (fun r m' => r = n /\ exists s', rel m' s' (P ∖ {[n]}) /\ prefix_map (inode_bmap m') (Z.of_nat (length (L ++ [(inode_of n x, [])]))) /\
    world s' (L ++ [(inode_of n x, [])]) /\ entry s' n = inode_image (inode_of n x)) m.
Proof.
  intros R W Hp HL n x. assert (Hn : inum_ok sb n) by (unfold inum_ok, n; change (s_num_inodes sb) with 256; lia).
  destruct (prefix_alloc _ _ Hp ltac:(lia)) as (d & E & Hd). unfold alloc_inode. apply wp_bind, wp_gets. change (MAX_INODES `div` 8) with 32. rewrite E. cbn [fst snd].
  apply wp_bind, wp_modify. rewrite (proj2 (Z.ltb_ge (Z.of_nat (length L)) 0)) by lia. apply wp_bind, wp_modify. cbn [image].
  eapply wp_call; [apply (write_inode_rel _ s P n x); [exact (rel_imap m s P d R (proj1 Hd))|done|done]|]. intros [] m' [R' E']. apply wp_ret. split; [done|].
  exists (put_inode (inode_of n x) s). split; [done|]. split; [|split].
  - rewrite E', length_app. simpl. by replace (Z.of_nat (length L + 1)) with (Z.of_nat (length L) + 1) by lia.
  - by apply world_blank; [|apply R|..].
  - by apply (put_inode_ok sb sb_good (inode_of n x) s (r_bufs _ _ _ R) Hn).
Qed.

(** What a sequence of pieces adds up to. *)
Lemma copy_loop_ok P n k : n ∈ P -> forall ps m s x l L, rel m s P -> world s L -> L !! k = Some (inode_of n x, l) -> (length L <= 256)%nat ->
  Forall (Forall byte_range) ps -> Z.of_nat (length (l ++ mjoin ps)) <= SFS_MAX_FILE_SIZE ->
  wp (copy_loop ps x) (fun x' m' => exists s', rel m' s' P /\ inode_bmap m' = inode_bmap m /\ world s' (<[k := (inode_of n x', l ++ mjoin ps)]> L)) m.
Proof.
  intros Hn. induction ps as [|p ps IH]; intros m s x l L R W Hk HL Hps Hmax.
  - apply wp_ret. exists s. split; [done|]. split; [done|]. simpl. by rewrite app_nil_r, list_insert_id.
  - apply Forall_cons in Hps as [Hp Hps]. change (mjoin (p :: ps)) with (p ++ mjoin ps) in *. rewrite !length_app in Hmax. cbn [copy_loop].
    eapply wp_call; [apply (append_world P m s n x l p L k); try done; lia|]. intros x1 m1 (s1 & R1 & E1 & W1).
    eapply wp_mono; [apply (IH m1 s1 x1 (l ++ p) _ R1 W1); [apply list_lookup_insert_eq; by eapply lookup_lt_Some|by rewrite length_insert|done|rewrite !length_app; lia]|].
    intros x2 m2 (s2 & R2 & E2 & W2). exists s2. split; [done|]. split; [congruence|]. by rewrite list_insert_insert_eq, <- app_assoc in W2.
Qed.

Definition file_fits (f : host_file) : Prop :=
  name_ok f.1 /\ Forall (Forall byte_range) f.2 /\ Z.of_nat (length (mjoin f.2)) <= SFS_MAX_FILE_SIZE.

Lemma dirent_length n name : length (dirent_bytes n name) = 32%nat.
Proof. unfold dirent_bytes. rewrite !length_app, length_take, length_app, length_replicate. change (length (le32 n)) with 4%nat. change (length [0]) with 1%nat. lia. Qed.
Lemma dirent_range n name : name_ok name -> Forall byte_range (dirent_bytes n name).
Proof.
  intros Hn. unfold dirent_bytes. rewrite !Forall_app. split; [apply le32_bytes|]. split; [|by repeat constructor].
  apply Forall_take, Forall_app. split; [|by apply Forall_replicate]. eapply Forall_impl; [exact Hn|]. intros; simpl in *; lia.
Qed.

(** The root directory of the first files, and the files. *)
Definition entries_of (fs : list host_file) : list (list Z) := imap (fun k f => dirent_bytes (Z.of_nat k + 2) f.1) fs.

Lemma entries_snoc fs f : entries_of (fs ++ [f]) = entries_of fs ++ [dirent_bytes (Z.of_nat (length fs) + 2) f.1].
Proof. unfold entries_of. rewrite imap_app. simpl. by rewrite Nat.add_0_r. Qed.
Lemma entries_length fs : length (mjoin (entries_of fs)) = (32 * length fs)%nat.
Proof.
  induction fs as [|f fs IH] using rev_ind; [done|]. rewrite entries_snoc, join_app, !length_app, IH.
  change (mjoin [?d]) with (d ++ []). rewrite app_nil_r, dirent_length. simpl. lia.
Qed.

Abbreviation contents fs := ((fun f : host_file => mjoin f.2 : list Z) <$> fs).

Record files_in (m : mk) (s : bufs) (root : sfs_inode) (fs : list host_file) (xs : list inode) : Prop := {
  fi_rel : rel m s {[ROOT_INUM]};
  fi_len : length xs = length fs;
  fi_map : prefix_map (inode_bmap m) (Z.of_nat (length fs) + 1);
  fi_world : world s ((inode_of ROOT_INUM root, mjoin (entries_of fs)) :: zip xs (contents fs));
}.

Lemma add_file_ok m s root fs xs f : files_in m s root fs xs -> file_fits f -> (length fs < 255)%nat ->
  wp (add_file f root) (fun root' m' => exists s' x, files_in m' s' root' (fs ++ [f]) (xs ++ [x])) m.
Proof.
  intros [R Hlen Hmap W] (Hname & Hby & Hsz) Hfs. set (L := (_ :: _) : list (inode * list Z)) in W. set (rest := zip xs (contents fs)) in *.
  assert (Hr : length rest = length fs) by (unfold rest; rewrite length_zip, length_fmap; lia). assert (HL : length L = S (length fs)) by (unfold L; simpl; lia).
  unfold add_file. eapply wp_call; [apply (alloc_inode_ok m s {[ROOT_INUM]} L R W); rewrite HL; [by replace (Z.of_nat (S (length fs))) with (Z.of_nat (length fs) + 1) by lia|lia]|].
  rewrite HL. replace (Z.of_nat (S (length fs)) + 1) with (Z.of_nat (length fs) + 2) by lia. set (n := Z.of_nat (length fs) + 2). set (x0 := blank _).
  intros ? m1 (-> & s1 & R1 & Hm1 & W1 & He1). assert (Hn : inum_ok sb n) by (unfold inum_ok, n; change (s_num_inodes sb) with 256; lia).
  eapply wp_call; [apply (read_inode_rel m1 s1 _ n x0 R1 Hn); [set_solver|exact He1|apply blank_fits|done]|]. intros ? ? [-> ->].
  apply (rel_weaken _ _ _ {[ROOT_INUM; n]}) in R1; [|set_solver].
  assert (HL1 : (length (L ++ [(inode_of n x0, [])]) <= 256)%nat) by (rewrite length_app, HL; simpl; lia).
  eapply wp_call; [apply (append_world _ m1 s1 ROOT_INUM root (mjoin (entries_of fs)) (dirent_bytes n f.1) (L ++ [(inode_of n x0, [])]) 0 R1); [set_solver|exact W1|done|exact HL1|by apply dirent_range|]|].
  { rewrite entries_length, dirent_length, max_size. lia. }
  intros root' m2 (s2 & R2 & E2 & W2). set (D := mjoin (entries_of fs) ++ _) in W2.
  change (<[0%nat := ?a]> (L ++ ?b)) with (a :: rest ++ b) in W2.
  eapply wp_call; [apply (copy_loop_ok {[ROOT_INUM; n]} n (S (length fs)) ltac:(set_solver) f.2 m2 s2 x0 [] _ R2 W2)|].
  - simpl. rewrite lookup_app_r, Hr, Nat.sub_diag by lia. done.
  - simpl. rewrite length_app, Hr. simpl. lia.
  - done.
  - done.
  - intros x m3 (s3 & R3 & E3 & W3). simpl in W3. rewrite insert_app_r_alt, Hr, Nat.sub_diag in W3 by lia. simpl in W3.
    eapply wp_call; [apply (write_inode_rel m3 s3 _ n x R3 Hn)|].
    { destruct (w_file _ _ W3 (S (length fs)) (inode_of n x) (mjoin f.2)) as [F _]; [simpl; rewrite lookup_app_r, Hr, Nat.sub_diag by lia; done|]. apply (f_len _ _ _ F). }
    intros [] m4 (R4 & E4). apply wp_ret. exists (put_inode (inode_of n x) s3), (inode_of n x). split.
    + eapply rel_weaken; [exact R4|set_solver].
    + rewrite !length_app. simpl. lia.
    + rewrite E4, E3, E2. replace (Z.of_nat (length (fs ++ [f])) + 1) with (Z.of_nat (length (L ++ [(inode_of n x0, [])]))); [done|]. rewrite !length_app, HL. simpl. lia.
    + rewrite entries_snoc, join_app. change (mjoin [dirent_bytes _ f.1]) with (dirent_bytes n f.1 ++ []). rewrite app_nil_r. fold D.
      rewrite fmap_app, zip_with_app by (rewrite length_fmap; lia). change (world (put_inode (inode_of n x) s3) ((inode_of ROOT_INUM root', D) :: rest ++ [(inode_of n x, mjoin f.2)])).
      apply (world_view s3); [exact W3|apply put_high; exact Hn|].
      intros k i l Hk. destruct (decide (i_inum i = n)) as [Ei|Ei].
      * assert (i = inode_of n x) as ->.
        { pose proof (w_kind _ _ W3 k i l Hk) as [= Ek _ _ _]. assert (k = S (length fs)) as -> by lia. simpl in Hk. rewrite lookup_app_r in Hk; [|rewrite Hr; done]. rewrite Hr, Nat.sub_diag in Hk. by injection Hk. }
        destruct (w_file _ _ W3 k _ _ Hk) as [F _]. rewrite (f_sync _ _ _ F). apply (put_inode_ok sb sb_good (inode_of n x) s3 (r_bufs _ _ _ R3) Hn (f_len _ _ _ F)).
      * destruct (w_file _ _ W3 k _ _ Hk) as [F _]. destruct (w_file _ _ W3 (S (length fs)) (inode_of n x) (mjoin f.2)) as [Fn _]; [simpl; rewrite lookup_app_r, Hr, Nat.sub_diag by lia; done|].
        apply (put_inode_ok sb sb_good (inode_of n x) s3 (r_bufs _ _ _ R3) Hn (f_len _ _ _ Fn)); [apply F|done].
Qed.

Lemma add_files_ok fs' : forall m s root fs xs, files_in m s root fs xs -> Forall file_fits fs' -> (length fs + length fs' <= 255)%nat ->
  wp (add_files fs' root) (fun root' m' => exists s' xs', files_in m' s' root' (fs ++ fs') xs') m.
Proof.
  induction fs' as [|f fs' IH]; intros m s root fs xs H Hf Hl; cbn [add_files].
  - apply wp_ret. exists s, xs. by rewrite app_nil_r.
  - apply Forall_cons in Hf as [Hf Hfs]. simpl in Hl. eapply wp_call; [apply (add_file_ok m s root fs xs f H Hf); lia|].
    intros root1 m1 (s1 & x & H1). eapply wp_mono; [apply (IH m1 s1 root1 _ _ H1 Hfs); rewrite length_app; simpl; lia|].
    intros root2 m2 (s2 & xs2 & H2). exists s2, xs2. by rewrite <- app_assoc in H2.
Qed.

Abbreviation zeros := (replicate (Z.to_nat BDEV_BLK_SIZE) 0).

Lemma zero_loop_ok n : forall b m, wp (zero_loop n b) (fun _ m' => inode_bmap m' = inode_bmap m /\
  forall c, image m' !! c = if decide (b <= c < b + Z.of_nat n) then Some zeros else image m !! c) m.
Proof.
  induction n as [|n IH]; intros b m; cbn [zero_loop].
  - apply wp_ret. split; [done|]. intros c. by rewrite decide_False by lia.
  - apply wp_bind, wp_modify. eapply wp_mono; [apply IH|]. intros _ m' [E H]. split; [done|]. intros c. rewrite H. cbn [image].
    rewrite lookup_insert. repeat case_decide; try done; lia.
Qed.

(** The image before the root directory is made. *)
Lemma fresh_image m : (forall c, image m !! c = if decide (0 <= c < DATA_START_BLK + FS_SIZE) then Some zeros else None) ->
  let m' := mkMk (<[SB_BLK := super_block]> (image m)) zeros in rel m' (bufs_of m') ∅ /\ world (bufs_of m') [].
Proof.
  intros Hz m'. assert (Hblk : forall b, blk (bufs_of m') b = if b =? SB_BLK then super_block else zeros).
  { intros b. unfold blk. simpl. destruct (Z.eqb_spec b SB_BLK) as [->|]; [by rewrite lookup_insert_eq|]. rewrite lookup_insert_ne, Hz by done. by case_decide. }
  assert (Hsup : bytes_ok super_block) by (apply (bool_decide_eq_true_1 (bytes_ok super_block)); vm_compute; reflexivity).
  assert (Hok : bufs_ok (bufs_of m')) by (split; [intros b; rewrite Hblk; destruct (b =? SB_BLK); [done|apply zeros_ok]|done]).
  split; split; try done.
  - intros b Hb. simpl. rewrite lookup_insert, Hz. case_decide; [eauto|]. rewrite decide_True by done. eauto.
  - apply Nat.eq_le_incl, count_none.
    intros b Hb%elem_of_seqZ. unfold used. pose proof (bmap_range sb sb_good b Hb) as Hr. change (s_data_bmap_start sb) with 36 in Hr. rewrite Hblk, (proj2 (Z.eqb_neq _ SB_BLK)) by (unfold SB_BLK; lia).
    unfold bmap_bit. destruct (zeros !! _) as [y|] eqn:E; simpl; [apply lookup_replicate in E as [-> _]|]; apply Z.bits_0.
Qed.

Lemma main_ok fs bm : (length fs <= 255)%nat -> Forall file_fits fs ->
  wp (main fs) (fun _ m => exists root xs, length xs = length fs /\ bufs_ok (bufs_of m) /\ blk (bufs_of m) SB_BLK = super_block /\
    prefix_map (blk (bufs_of m) INODE_BMAP_BLK) (Z.of_nat (length fs) + 1) /\
    world (bufs_of m) ((root, mjoin (entries_of fs)) :: zip xs (contents fs))) (mkMk ∅ bm).
Proof.
  intros Hl Hf. unfold main. eapply wp_call; [apply zero_loop_ok|]. intros [] m0 [_ Hz]. apply wp_bind, wp_modify, wp_bind, wp_modify. cbn [image inode_bmap].
  destruct (fresh_image m0) as [R W].
  { intros c. rewrite Hz, Z2Nat.id by done. done. }
  unfold super_block in R, W. set (m1 := mkMk _ zeros) in *. set (s1 := bufs_of m1) in *.
  eapply wp_call; [apply (alloc_inode_ok m1 s1 ∅ [] R W); [|simpl; lia]|].
  { split; [apply zeros_ok|]. intros j Hj. rewrite (proj2 (Z.ltb_ge j _)) by (simpl; lia). cbn [inode_bmap m1]. unfold bmap_bit. destruct (zeros !! _) as [y|] eqn:E; simpl; [apply lookup_replicate in E as [-> _]|]; apply Z.bits_0. }
  cbn [length kind app Z.of_nat]. intros ? m2 (-> & s2 & R2 & Hm2 & W2 & He2). change (0 + 1) with ROOT_INUM in *. apply wp_bind, wp_kassert; [done|].
  eapply wp_call; [apply (read_inode_rel m2 s2 _ ROOT_INUM (blank FTYPE_DIR) R2); [done|set_solver|exact He2|apply (blank_fits ROOT_INUM 0)|done]|]. intros ? ? [-> ->].
  eapply wp_call; [apply (add_files_ok fs m2 s2 (blank FTYPE_DIR) [] [])|]; [|done|done|].
  { split; [eapply rel_weaken; [exact R2|set_solver]|done|done|exact W2]. }
  intros root m3 (s3 & xs & [R3 Hlen Hm3 W3]). cbn [app] in *. destruct (w_file _ _ W3 0%nat _ _ eq_refl) as [F _].
  eapply wp_mono; [apply (write_inode_rel m3 s3 _ ROOT_INUM root R3); [done|apply (f_len _ _ _ F)]|]. intros [] m4 [R4 E4].
  destruct (put_inode_ok sb sb_good (inode_of ROOT_INUM root) s3 (r_bufs _ _ _ R3) (f_inum _ _ _ F) (f_len _ _ _ F)) as (_ & P1 & P2).
  exists (inode_of ROOT_INUM root), xs. split; [done|]. split; [apply R4|]. split; [apply R4|]. split; [by rewrite (r_imap _ _ _ R4), E4|].
  assert (Hinum : forall k i l, ((inode_of ROOT_INUM root, mjoin (entries_of fs)) :: zip xs (contents fs)) !! k = Some (i, l) -> inum_ok sb (i_inum i)) by (intros k i l Hk; apply (w_file _ _ W3 k i l Hk)).
  apply (world_view (put_inode (inode_of ROOT_INUM root) s3)); [apply (world_view s3 _ _ W3)|..].
  - apply put_high. apply F.
  - intros k i l Hk. destruct (decide (k = 0%nat)) as [->|Hk0]; [injection Hk as <- <-; rewrite (f_sync _ _ _ F); exact P1|]. apply P2; [by apply (Hinum k i l)|].
    pose proof (w_kind _ _ W3 k i l Hk) as [= -> _ _ _]. simpl. unfold ROOT_INUM. lia.
  - intros b Hb. symmetry. by apply (r_blk _ _ _ R4).
  - intros k i l Hk. symmetry. apply (r_entry _ _ _ R4); [by apply (Hinum k i l)|set_solver].
Qed.

(** ** Reading the image *)

Section kernel.
Context (s : bufs) (Hs : bufs_ok s) (Hlk : locked s = ∅).

(** An inode of the kernel's cache before it is read. *)
Definition cold (i : inode) (n : Z) : Prop := i_inum i = n /\ fs_is_inode_dirty i = false.

(** Loading the inode of a file of the image. *)
Lemma load_file L k j l p i : world s L -> L !! k = Some (j, l) -> (k < 256)%nat -> cold i (Z.of_nat k + 1) ->
  exists i', sfs_read_inode p (mkSfs s {[p := i]}) = Ret ERR_OK (mkSfs s {[p := i']}) /\ file_ok sb s i' /\ holds s i' l.
Proof using Hs Hlk.
  intros W Hk Hk2 [Ei Hd]. destruct (w_file _ _ W k j l Hk) as [F H]. pose proof (w_kind _ _ W k j l Hk) as [= K1 K2 K3 K4]. rewrite <- K1 in Ei.
  assert (Hfit : inode_fits j).
  { split; [rewrite K4; destruct k; by vm_compute|]. split; [rewrite K3; lia|]. split; [rewrite K2; lia|]. pose proof (h_size _ _ _ H). pose proof (h_max _ _ _ H) as Hm. rewrite max_size in Hm. split; [lia|].
    apply Forall_lookup. intros q a Hq. destruct (decide (a = 0)) as [->|Ha]; [lia|]. pose proof (lookup_lt_Some _ _ _ Hq) as Hlt. rewrite (f_len _ _ _ F) in Hlt.
    pose proof (addr_top s j (Z.of_nat q) (f_len _ _ _ F) ltac:(lia)) as E. rewrite Nat2Z.id, Hq in E. injection E as E.
    destruct (f_data _ _ _ F (Z.of_nat q) ltac:(lia)) as [Hdt _]; [congruence|]. rewrite <- E in Hdt. destruct (data_range a Hdt) as [_ Hr]. change (DATA_START_BLK + FS_SIZE) with 131396 in Hr. lia. }
  eexists. split.
  - pose proof (read_inode_ok sb sb_good (mkSfs s {[p := i]}) p i (drop 64 (drop (Z.to_nat (Sfs.inum_to_ofs (i_inum i))) (blk s (Sfs.inum_to_blk (i_inum i)))))) as Hrd.
    rewrite (Hrd (lookup_singleton_eq _ _) Hs) with (j := j); [simpl; rewrite insert_singleton_eq; reflexivity|rewrite Ei; apply F|done|simpl; rewrite Hlk; apply not_elem_of_empty|done|apply F|].
    cbn [bf]. rewrite <- (f_sync _ _ _ F), Ei. unfold entry. by rewrite take_drop.
  - destruct F as [F1 F2 F3 F4 F5], H as [H1 H2 H3 H4]. rewrite Ei. by split; split.
Qed.

Lemma read_file L k j l p i count : world s L -> L !! k = Some (j, l) -> (k < 256)%nat -> cold i (Z.of_nat k + 1) -> 0 <= count ->
  exists s', (e <- sfs_read_inode p ;; d <- read_data sb p count 0 ;; ret (e, d)) (mkSfs s {[p := i]}) = Ret (ERR_OK, take (Z.to_nat count) l) s'.
Proof using Hs Hlk.
  intros W Hk Hk2 Hi Hc. destruct (load_file L k j l p i W Hk Hk2 Hi) as (i' & E & F & [H1 H2 H3 H4]). rewrite (bind_Ret _ _ _ _ _ E).
  destruct (read_data_ok sb sb_good (mkSfs s {[p := i']}) p i' count 0) as (s' & E' & _); try done; [apply lookup_singleton_eq|]. rewrite (bind_Ret _ _ _ _ _ E'). exists s'. unfold ret. do 2 f_equal.
  rewrite Z.sub_0_r. apply list_eq. intros q. rewrite list_lookup_fmap. destruct (decide (Z.of_nat q < Z.min count (i_size i'))) as [Hq|Hq].
  - rewrite lookup_seqZ_lt, lookup_take_lt by lia. simpl. rewrite H3 by lia. rewrite Z.add_0_l, Nat2Z.id.
    destruct (lookup_lt_is_Some_2 l q) as [y ->]; [lia|done].
  - rewrite lookup_seqZ_ge by lia. simpl. destruct (decide (Z.of_nat q < count)); [rewrite lookup_take_lt by lia; symmetry; apply lookup_ge_None; lia|by rewrite lookup_take_ge by lia].
Qed.

End kernel.

(** The entries of the root directory. *)
Lemma join_lookup (ls : list (list Z)) : forall k e j, Forall (fun e => length e = 32%nat) ls -> ls !! k = Some e -> (j < 32)%nat -> mjoin ls !! (32 * k + j)%nat = e !! j.
Proof.
  induction ls as [|e0 ls IH]; intros k e j Hl Hk Hj; [done|]. apply Forall_cons in Hl as [He Hl]. change (mjoin (e0 :: ls)) with (e0 ++ mjoin ls). destruct k as [|k].
  - injection Hk as ->. rewrite lookup_app_l by lia. done.
  - rewrite lookup_app_r by lia. rewrite <- (IH k e j Hl Hk Hj). f_equal. lia.
Qed.

Lemma entries_lookup fs k f : fs !! k = Some f -> entries_of fs !! k = Some (dirent_bytes (Z.of_nat k + 2) f.1).
Proof. intros H. unfold entries_of. by rewrite list_lookup_imap, H. Qed.

Lemma entry_bytes s i fs k f a c : holds s i (mjoin (entries_of fs)) -> fs !! k = Some f -> 0 <= a -> 0 <= c -> a + c <= 32 ->
  fbyte s i <$> seqZ (32 * Z.of_nat k + a) c = take (Z.to_nat c) (drop (Z.to_nat a) (dirent_bytes (Z.of_nat k + 2) f.1)).
Proof.
  intros [H1 H2 H3 _] Hk Ha Hc Hac. pose proof (lookup_lt_Some _ _ _ Hk) as Hlt. rewrite entries_length in H1. apply list_eq. intros q. rewrite list_lookup_fmap.
  destruct (decide (Z.of_nat q < c)) as [Hq|Hq].
  - rewrite lookup_seqZ_lt, lookup_take_lt, lookup_drop by lia. simpl. rewrite H3 by lia.
    replace (Z.to_nat (32 * Z.of_nat k + a + Z.of_nat q)) with (32 * k + (Z.to_nat a + q))%nat by lia.
    rewrite (join_lookup _ k (dirent_bytes (Z.of_nat k + 2) f.1)); [|apply Forall_lookup; intros j e; unfold entries_of; rewrite list_lookup_imap; destruct (fs !! j); [intros [= <-]; apply dirent_length|done]|by apply entries_lookup|lia].
    destruct (lookup_lt_is_Some_2 (dirent_bytes (Z.of_nat k + 2) f.1) (Z.to_nat a + q)) as [y ->]; [rewrite dirent_length; lia|done].
  - rewrite lookup_seqZ_ge, lookup_take_ge by lia. done.
Qed.

Lemma cname_pad name n : name_ok name -> cname (name ++ replicate n 0) = name.
Proof.
  induction 1 as [|ch name Hc _ IH]; simpl; [by destruct n|]. by rewrite (proj2 (Z.eqb_neq ch 0)), IH by lia.
Qed.

Lemma dirent_fields s i fs k f : holds s i (mjoin (entries_of fs)) -> fs !! k = Some f -> (length fs <= 255)%nat -> name_ok f.1 ->
  ent_inum s i (Z.of_nat k) = Z.of_nat k + 2 /\ cname (ent_name s i (Z.of_nat k)) = take 27 f.1.
Proof.
  intros H Hk Hl Hn. pose proof (lookup_lt_Some _ _ _ Hk) as Hlt. split.
  - unfold ent_inum. pose proof (entry_bytes s i fs k f 0 4 H Hk ltac:(lia) ltac:(lia) ltac:(lia)) as E. rewrite Z.add_0_r in E. rewrite E. change (Z.to_nat 0) with 0%nat. rewrite drop_0.
    unfold dirent_bytes. rewrite take_app_length' by done. pose proof (of_le32_le32 (Z.of_nat k + 2) [] ltac:(lia)) as E4. by rewrite app_nil_r in E4.
  - unfold ent_name. rewrite (entry_bytes s i fs k f 4 28 H Hk) by lia. unfold dirent_bytes. rewrite (drop_app_length' (le32 _)) by done.
    rewrite take_ge by (rewrite length_app, length_take, length_app, length_replicate; change (length [0]) with 1%nat; lia). rewrite take_app, take_replicate.
    replace [0] with (replicate 1 0) by done. rewrite <- app_assoc, <- replicate_add. apply cname_pad. by apply Forall_take.
Qed.

Lemma find_first (P : Z -> bool) k n : 0 <= k < n -> P k = true -> (forall j, 0 <= j < k -> P j = false) -> List.find P (seqZ 0 n) = Some k.
Proof.
  intros Hk HP Hlow. replace n with (k + (n - k)) by lia. rewrite seqZ_app, find_app by lia. destruct (List.find P (seqZ 0 k)) as [j|] eqn:E.
  - apply List.find_some in E as [Hj%list_elem_of_In%elem_of_seqZ Hj']. rewrite Hlow in Hj' by lia. done.
  - rewrite Z.add_0_l, seqZ_cons by lia. simpl. by rewrite HP.
Qed.

Lemma search_file s fs root rest p i k f : bufs_ok s -> locked s = ∅ -> world s ((root, mjoin (entries_of fs)) :: rest) -> (length fs <= 255)%nat -> Forall file_fits fs -> cold i ROOT_INUM ->
  fs !! k = Some f -> (length f.1 <= 27)%nat -> (forall j g, (j < k)%nat -> fs !! j = Some g -> take 27 g.1 <> f.1) ->
  exists s', (e <- sfs_read_inode p ;; n <- search_dir sb p f.1 ;; ret (e, n)) (mkSfs s {[p := i]}) = Ret (ERR_OK, Z.of_nat k + 2) s'.
Proof.
  intros Hs Hlk W Hl Hf Hi Hk Hlen Hfirst. destruct (load_file s Hs Hlk _ 0 root _ p i W eq_refl ltac:(lia) Hi) as (i' & E & F & H). rewrite (bind_Ret _ _ _ _ _ E).
  pose proof (lookup_lt_Some _ _ _ Hk) as Hlt. assert (Hname : forall j g, fs !! j = Some g -> name_ok g.1) by (intros j g Hj; apply (Forall_lookup_1 _ _ _ _ Hf Hj)).
  assert (Hsize : i_size i' = Z.of_nat (length fs) * 32) by (rewrite (h_size _ _ _ H), entries_length; lia).
  destruct (search_dir_ok sb sb_good (mkSfs s {[p := i']}) p i' f.1) as (s' & E' & _); [apply lookup_singleton_eq|done| |done|by apply (Hname k f)|].
  { split; [done|apply H|split; [rewrite Hsize; lia|apply H]|by exists (Z.of_nat (length fs))]. }
  rewrite (bind_Ret _ _ _ _ _ E'). exists s'. unfold ret. do 2 f_equal. unfold dir_find, dir_index.
  rewrite (find_first _ (Z.of_nat k)); [apply (dirent_fields s i' fs k f H Hk Hl (Hname k f Hk))|unfold num_ents; rewrite Hsize, Z.div_mul by lia; lia| |].
  - cbn [bf]. unfold matches. destruct (dirent_fields s i' fs k f H Hk Hl (Hname k f Hk)) as [-> ->]. rewrite (proj2 (Z.ltb_lt 0 _)) by lia. simpl. rewrite !take_ge by lia. by apply bool_decide_eq_true_2.
  - intros j Hj. destruct (lookup_lt_is_Some_2 fs (Z.to_nat j)) as [g Hg]; [lia|]. destruct (dirent_fields s i' fs (Z.to_nat j) g H Hg Hl (Hname _ g Hg)) as [_ En].
    rewrite Z2Nat.id in En by lia. cbn [bf]. unfold matches. rewrite En, (take_ge f.1) by lia. rewrite bool_decide_eq_false_2; [apply andb_false_r|]. apply (Hfirst (Z.to_nat j) g); [lia|done].
Qed.


(** Two files; the second one is empty. *)
Definition ex_files : list host_file := [([97; 98], [[1; 2]; [3]]); ([99], [])].

Lemma ex_files_fit : Forall file_fits ex_files.
Proof.
  repeat constructor; simpl; try lia; rewrite max_size; vm_compute; discriminate.
Qed.


End Mkfs.
