(* ===== verification/Malloc.v ===== *)
(** * The allocator of the user library: lib/malloc.c

    The allocator of Kernighan and Ritchie on top of [sbrk].  The heap is a
    sequence of blocks of 16-byte units; the first unit of a block is its
    header.  Free blocks form a ring in the order of their addresses, through
    the static header [base], whose size is 0.

    The abstract state is the sequence of blocks from the start of the heap to
    its end, each with its number of units and a mark for the free ones.
    [free] turns one block free and joins it with its neighbours ([release]),
    [morecore] does so with a block that [sbrk] appends, and [malloc] takes a
    free block or the end of one.  The theorem runs the two functions against
    any program that writes to the memory it was given. *)

From S2P Require Import Prelude Page Alloc Vm.

Module Malloc.

#[local] Open Scope kernel_scope.

(** ** The break of the heap *)

(** What the library sees of the system call: the bounds of the heap segment
    and [sbrk].  Pointers are unsigned 64-bit numbers. *)
Class Sbrk (S : Type) := {
  heap_start : S -> Z;
  heap_end : S -> Z;
  sbrk : Z -> M S Z }.

(** The documented behaviour of [sbrk] with a positive argument: it extends
    the segment and returns its previous end, or fails with [ERR_NOMEM]. *)
Class SbrkLaws (S : Type) `{Sbrk S} := {
  sbrk_ok : forall n s, 0 < n < 2 ^ 31 -> heap_end s + n < 2 ^ 63 ->
    exists r s', sbrk n s = Ret r s' /\ heap_start s' = heap_start s /\
      ((r = heap_end s /\ heap_end s' = heap_end s + n) \/
       (r = u64 ERR_NOMEM /\ heap_end s' = heap_end s)) }.

Record Header := mkHeader { ptr : Z; size : Z }.

#[export] Instance Header_eq_dec : EqDecision Header.
Proof. solve_decision. Defined.

(** [sizeof(Header)] *)
Definition UNIT : Z := 16.

(** ** The code *)

Section Code.
Context {S : Type} `{Sbrk S}.
(** The address of the static variable [base]. *)
Variable base : Z.

(** [mem] has the headers that were written, by address; other memory of the
    heap is zero.  [freep] is the static variable. *)
Record state := mkState { mem : gmap Z Header; freep : Z; os : S }.

Definition set_mem (f : gmap Z Header -> gmap Z Header) (s : state) : state := mkState (f (mem s)) (freep s) (os s).
Definition set_freep (p : Z) : M state unit := modify (fun s => mkState (mem s) p (os s)).

(** Whether there is room for a header at [a]; the heap has one per unit. *)
Definition mapped (s : state) (a : Z) : bool :=
  (a =? base) ||
  ((heap_start (os s) <=? a) && (a + UNIT <=? heap_end (os s)) && ((a - heap_start (os s)) `mod` UNIT =? 0)).

Definition peek (s : state) (a : Z) : Header := default (mkHeader 0 0) (mem s !! a).

Definition load (a : Z) : M state Header := fun s => if mapped s a then Ret (peek s a) s else Halt Fault s.
Definition store (a : Z) (h : Header) : M state unit :=
  fun s => if mapped s a then Ret tt (set_mem (<[a := h]>) s) else Halt Fault s.

Definition get_ptr (a : Z) : M state Z := h <- load a ;; ret (ptr h).
Definition get_size (a : Z) : M state Z := h <- load a ;; ret (size h).
Definition set_ptr (a p : Z) : M state unit := h <- load a ;; store a (mkHeader p (size h)).
Definition set_size (a n : Z) : M state unit := h <- load a ;; store a (mkHeader (ptr h) n).

(** [p + n] on a pointer to [Header] *)
Definition ptr_add (p n : Z) : Z := u64 (p + UNIT * n).

(** Units of the heap, the bound of the number of free blocks. *)
Definition units (s : state) : nat := Z.to_nat ((heap_end (os s) - heap_start (os s)) `div` UNIT).

(** The loop of [free] that looks for the neighbour [p] of the block [bp]. *)
Fixpoint free_loop (fuel : nat) (bp p : Z) : M state Z :=
  match fuel with
  | O => stop Fuel
  | Datatypes.S k =>
      nx <- get_ptr p ;;
      if (p <? bp) && (bp <? nx) then ret p
      else if (nx <=? p) && ((p <? bp) || (bp <? nx)) then ret p
      else free_loop k bp nx
  end.

(** The two [if] statements of [free]. *)
Definition merge_next (bp p : Z) : M state unit :=
  n <- get_size bp ;;
  nx <- get_ptr p ;;
  if ptr_add bp n =? nx then
    m <- get_size nx ;;
    set_size bp (u64 (n + m)) ;;
    nn <- get_ptr nx ;;
    set_ptr bp nn
  else set_ptr bp nx.

Definition merge_prev (p bp : Z) : M state unit :=
  k <- get_size p ;;
  if ptr_add p k =? bp then
    n <- get_size bp ;;
    set_size p (u64 (k + n)) ;;
    nb <- get_ptr bp ;;
    set_ptr p nb
  else set_ptr p bp.

Definition free (ap : Z) : M state unit :=
  let bp := u64 (ap - UNIT) in
  fp <- gets freep ;;
  fuel <- gets units ;;
  p <- free_loop (fuel + 2) bp fp ;;
  merge_next bp p ;;
  merge_prev p bp ;;
  set_freep p.

(** [sbrk] takes an [int]; the result 0 is NULL. *)
Definition morecore (nu : Z) : M state Z :=
  let nu := if nu <? 4096 then 4096 else nu in
  p <- zoom os (fun o s => mkState (mem s) (freep s) o) (sbrk (s32 (u64 (nu * UNIT)))) ;;
  if p =? u64 ERR_NOMEM then ret 0
  else
    set_size p nu ;;
    free (ptr_add p 1) ;;
    gets freep.

(** The two ways in which the loop of [malloc] takes [nunits] units of the
    block [p] of [sz] units, which follows [prevp]. *)
Definition cut_block (nunits prevp p sz : Z) : M state Z :=
  if sz =? nunits then nx <- get_ptr p ;; set_ptr prevp nx ;; ret p
  else
    set_size p (u64 (sz - nunits)) ;;
    sz' <- get_size p ;;
    let q := ptr_add p sz' in
    set_size q nunits ;; ret q.

Definition take_block (nunits prevp p : Z) : M state Z :=
  sz <- get_size p ;;
  q <- cut_block nunits prevp p sz ;;
  set_freep prevp ;;
  ret (ptr_add q 1).

Fixpoint malloc_loop (fuel : nat) (nunits prevp p : Z) : M state Z :=
  match fuel with
  | O => stop Fuel
  | Datatypes.S k =>
      sz <- get_size p ;;
      if nunits <=? sz then take_block nunits prevp p
      else
        fp <- gets freep ;;
        if p =? fp then
          p' <- morecore nunits ;;
          if p' =? 0 then ret 0 else nx <- get_ptr p' ;; malloc_loop k nunits p' nx
        else nx <- get_ptr p ;; malloc_loop k nunits p nx
  end.

Definition malloc (nbytes : Z) : M state Z :=
  let nunits := u64 (nbytes + UNIT - 1) `div` UNIT + 1 in
  fp <- gets freep ;;
  (if fp =? 0 then set_freep base ;; set_ptr base base ;; set_size base 0 else ret tt) ;;
  prevp <- gets freep ;;
  p <- get_ptr prevp ;;
  fuel <- gets units ;;
  malloc_loop (2 * fuel + 8) nunits prevp p.

End Code.

(** ** The sequence of blocks *)

(** Units and whether the block is free. *)
Abbreviation block := (prod Z bool).

(** The address after the blocks [bl] that start at [a]. *)
Fixpoint end_of (a : Z) (bl : list block) : Z :=
  match bl with [] => a | (n, _) :: r => end_of (a + UNIT * n) r end.

(** The blocks with mark [u], as address and units. *)
Fixpoint marked (u : bool) (a : Z) (bl : list block) : list (Z * Z) :=
  match bl with
  | [] => []
  | (n, v) :: r => (if eqb u v then [(a, n)] else []) ++ marked u (a + UNIT * n) r
  end.

Abbreviation frees := (marked true).
Abbreviation useds := (marked false).

(** No two free blocks are adjacent. *)
Fixpoint coalesced (bl : list block) : Prop :=
  match bl with
  | (_, u) :: r => match r with (_, v) :: _ => u && v = false | [] => True end /\ coalesced r
  | [] => True
  end.

(** A free block of [n] units between [b1] and [b2], joined with them. *)
Definition join_r (n : Z) (b2 : list block) : Z * list block :=
  match b2 with (m, true) :: r => (n + m, r) | _ => (n, b2) end.

Fixpoint join_l (b1 : list block) (n : Z) (b2 : list block) : list block :=
  match b1 with
  | [] => (n, true) :: b2
  | [(k, true)] => (k + n, true) :: b2
  | x :: r => x :: join_l r n b2
  end.

Definition release (b1 : list block) (n : Z) (b2 : list block) : list block :=
  let '(n', b2') := join_r n b2 in join_l b1 n' b2'.

Abbreviation sized := (Forall (fun b : block => 0 < b.1)).

Lemma end_of_app a b1 b2 : end_of a (b1 ++ b2) = end_of (end_of a b1) b2.
Proof. revert a. induction b1 as [|[n u] b1 IH]; intros a; simpl; [done|apply IH]. Qed.

Lemma marked_app u a b1 b2 : marked u a (b1 ++ b2) = marked u a b1 ++ marked u (end_of a b1) b2.
Proof. revert a. induction b1 as [|[n v] b1 IH]; intros a; simpl; [done|]. by rewrite IH, app_assoc. Qed.

Lemma end_of_le a bl : sized bl -> a <= end_of a bl.
Proof.
  intros HF. revert a. induction HF as [|[n u] bl Hn HF IH]; intros a; simpl in *; [lia|].
  specialize (IH (a + UNIT * n)). unfold UNIT in *. lia.
Qed.

Lemma end_of_unit a bl : (end_of a bl - a) `mod` UNIT = 0.
Proof.
  unfold UNIT. revert a. induction bl as [|[n u] bl IH]; intros a; simpl.
  - by rewrite Z.sub_diag.
  - specialize (IH (a + 16 * n)). unfold UNIT.
    replace (end_of (a + 16 * n) bl - a) with (end_of (a + 16 * n) bl - (a + 16 * n) + n * 16) by lia.
    by rewrite Z.mod_add.
Qed.

(** Every block of the sequence lies where its predecessors end. *)
Lemma marked_elem u a bl x n : (x, n) ∈ marked u a bl ->
  exists b1 b2, bl = b1 ++ (n, u) :: b2 /\ x = end_of a b1.
Proof.
  revert a. induction bl as [|[m v] bl IH]; intros a; simpl; [by intros ?%elem_of_nil|].
  intros [Hx|Hx]%elem_of_app.
  - destruct (eqb u v) eqn:E; [|by apply elem_of_nil in Hx]. apply eqb_prop in E as ->.
    apply list_elem_of_singleton in Hx as [= -> ->]. by exists [], bl.
  - destruct (IH _ Hx) as (b1 & b2 & -> & ->). by exists ((m, v) :: b1), b2.
Qed.

Lemma marked_bounds u a bl x n : sized bl -> (x, n) ∈ marked u a bl ->
  a <= x /\ 0 < n /\ x + UNIT * n <= end_of a bl /\ (x - a) `mod` UNIT = 0.
Proof.
  intros HF (b1 & b2 & -> & ->)%marked_elem. apply Forall_app in HF as [H1 [H2 H3]%Forall_cons]. simpl in *.
  pose proof (end_of_le a b1 H1). pose proof (end_of_unit a b1).
  rewrite end_of_app. cbn [end_of]. pose proof (end_of_le (end_of a b1 + UNIT * n) b2 H3). lia.
Qed.

(** Two blocks are the same or do not overlap. *)
Lemma marked_apart u v a bl x n y m : sized bl -> (x, n) ∈ marked u a bl -> (y, m) ∈ marked v a bl ->
  (x = y /\ n = m /\ u = v) \/ x + UNIT * n <= y \/ y + UNIT * m <= x.
Proof.
  intros HF. revert a. induction HF as [|[k w] bl Hk HF IH]; intros a; simpl; [by intros ?%elem_of_nil|].
  assert (Hhd : forall c z l, (z, l) ∈ (if eqb c w then [(a, k)] else []) -> c = w /\ z = a /\ l = k).
  { intros c z l Hz. destruct (eqb c w) eqn:E; [|by apply elem_of_nil in Hz]. apply eqb_prop in E as ->.
    by apply list_elem_of_singleton in Hz as [= -> ->]. }
  intros [(-> & -> & ->)%Hhd|Hx]%elem_of_app [(-> & -> & ->)%Hhd|Hy]%elem_of_app.
  - by left.
  - apply (marked_bounds v _ _ y m HF) in Hy. lia.
  - apply (marked_bounds u _ _ x n HF) in Hx. lia.
  - by apply (IH (a + UNIT * k)).
Qed.

(** The number of blocks is at most the number of units. *)
Lemma marked_length u a bl : sized bl -> UNIT * Z.of_nat (length (marked u a bl)) <= end_of a bl - a.
Proof.
  intros HF. revert a. induction HF as [|[n v] bl Hn HF IH]; intros a; simpl in *; [lia|].
  specialize (IH (a + UNIT * n)). rewrite length_app. unfold UNIT in *. destruct (eqb u v); simpl; lia.
Qed.

Lemma coalesced_app b1 b2 : coalesced (b1 ++ b2) -> coalesced b1 /\ coalesced b2.
Proof.
  induction b1 as [|[n u] b1 IH]; simpl; [done|]. intros [H1 [H2 H3]%IH].
  destruct b1 as [|[m v] b1]; simpl in *; tauto.
Qed.

(** Joins at the two sides. *)
Lemma join_l_snoc_free b k n b2 : join_l (b ++ [(k, true)]) n b2 = b ++ (k + n, true) :: b2.
Proof. induction b as [|[m v] [|y b] IH]; [done|by destruct v|]. destruct v; exact (f_equal (cons _) IH). Qed.

Lemma join_l_snoc_used b k n b2 : join_l (b ++ [(k, false)]) n b2 = b ++ (k, false) :: (n, true) :: b2.
Proof. induction b as [|[m v] [|y b] IH]; [done|by destruct v|]. destruct v; exact (f_equal (cons _) IH). Qed.

(** What precedes a block: a free block, nothing, or a used one. *)
Lemma before_cases (b1 : list block) :
  (exists b k, b1 = b ++ [(k, true)]) \/ b1 = [] \/ (exists b k, b1 = b ++ [(k, false)]).
Proof. induction b1 as [|[k u] b _] using rev_ind; [auto|]. destruct u; [left|right; right]; eauto. Qed.

Lemma join_l_coalesced b1 n b2 : coalesced b1 -> coalesced ((n, true) :: b2) -> coalesced (join_l b1 n b2).
Proof.
  intros H1 H2. induction b1 as [|[k u] [|[m v] b1] IH]; [done|by destruct u; simpl in *|].
  destruct H1 as [Huv H1]. specialize (IH H1).
  destruct u; (split; [|exact IH]); destruct v, b1 as [|[]]; done.
Qed.

Lemma release_coalesced b1 n b2 : coalesced b1 -> coalesced b2 -> coalesced (release b1 n b2).
Proof.
  intros H1 H2. unfold release. destruct b2 as [|[m [|]] r]; apply join_l_coalesced; try done.
Qed.

Lemma join_l_end a b1 n b2 : end_of a (join_l b1 n b2) = end_of (end_of a b1 + UNIT * n) b2.
Proof.
  destruct (before_cases b1) as [(b & k & ->)|[->|(b & k & ->)]]; [|done|];
    rewrite ?join_l_snoc_free, ?join_l_snoc_used, !end_of_app; simpl; f_equal; lia.
Qed.

Lemma release_end a b1 n b2 : end_of a (release b1 n b2) = end_of (end_of a b1 + UNIT * n) b2.
Proof.
  unfold release. destruct b2 as [|[m [|]] r]; simpl; rewrite join_l_end; try done. f_equal. lia.
Qed.

Lemma join_l_useds a b1 n b2 : useds a (join_l b1 n b2) = useds a b1 ++ useds (end_of a b1 + UNIT * n) b2.
Proof.
  destruct (before_cases b1) as [(b & k & ->)|[->|(b & k & ->)]]; [|done|];
    rewrite ?join_l_snoc_free, ?join_l_snoc_used, !marked_app, ?end_of_app; simpl; rewrite ?app_nil_r, <- ?app_assoc; [|done].
  do 2 f_equal. lia.
Qed.

Lemma release_useds a b1 n b2 : useds a (release b1 n b2) = useds a b1 ++ useds (end_of a b1 + UNIT * n) b2.
Proof.
  unfold release. destruct b2 as [|[m [|]] r]; simpl; rewrite join_l_useds; try done. do 2 f_equal. lia.
Qed.

Lemma join_l_sized b1 n b2 : sized b1 -> 0 < n -> sized b2 -> sized (join_l b1 n b2).
Proof.
  intros H1 Hn H2. destruct (before_cases b1) as [(b & k & ->)|[->|(b & k & ->)]]; [|by constructor|];
    apply Forall_app in H1 as [H1 [Hk _]%Forall_cons];
    rewrite ?join_l_snoc_free, ?join_l_snoc_used, Forall_app, !Forall_cons; simpl in *; auto with lia.
Qed.

Lemma join_r_ok a n b2 n' b2' : join_r n b2 = (n', b2') -> sized b2 -> 0 < n ->
  0 < n' /\ sized b2' /\ end_of (a + UNIT * n') b2' = end_of (a + UNIT * n) b2.
Proof.
  destruct b2 as [|[m [|]] r]; simpl; intros [= <- <-] Hs Hn; [done| |done].
  apply Forall_cons in Hs as [Hm Hs]. simpl in Hm. split; [lia|]. split; [done|]. f_equal. lia.
Qed.

Lemma release_sized b1 n b2 : sized b1 -> 0 < n -> sized b2 -> sized (release b1 n b2).
Proof.
  intros H1 Hn H2. unfold release. destruct b2 as [|[m [|]] r]; simpl; apply join_l_sized; try done;
    apply Forall_cons in H2 as [Hm H2]; simpl in *; [lia|done].
Qed.

Lemma join_l_frees_free a b k n b2 :
  frees a (join_l (b ++ [(k, true)]) n b2) = frees a b ++ (end_of a b, k + n) :: frees (end_of a b + UNIT * (k + n)) b2.
Proof. by rewrite join_l_snoc_free, marked_app. Qed.

(** A block whose left neighbour is not free. *)
Definition alone (b1 : list block) : Prop := b1 = [] \/ exists b k, b1 = b ++ [(k, false)].

Lemma join_l_frees_alone a b1 n b2 : alone b1 ->
  frees a (join_l b1 n b2) = frees a b1 ++ (end_of a b1, n) :: frees (end_of a b1 + UNIT * n) b2.
Proof.
  intros [->|(b & k & ->)]; [done|].
  rewrite join_l_snoc_used, !marked_app, !end_of_app. simpl. by rewrite app_nil_r.
Qed.

(** The last [n] units of a free block of [sz] units, taken. *)
Definition carve (b1 : list block) (sz n : Z) (b2 : list block) : list block :=
  b1 ++ (if sz =? n then [] else [(sz - n, true)]) ++ (n, false) :: b2.

Lemma carve_coalesced b1 sz n b2 : coalesced (b1 ++ (sz, true) :: b2) -> coalesced (carve b1 sz n b2).
Proof.
  unfold carve. induction b1 as [|[m u] b1 IH]; simpl.
  - intros [H1 H2]. destruct (sz =? n); simpl; repeat split; try done; by destruct b2 as [|[]].
  - intros [H1 H2]. split; [|by apply IH]. destruct b1 as [|[k v] b1]; simpl in *; [|done].
    destruct (sz =? n); simpl; [by rewrite andb_false_r|done].
Qed.

Lemma carve_end a b1 sz n b2 : end_of a (carve b1 sz n b2) = end_of a (b1 ++ (sz, true) :: b2).
Proof.
  unfold carve. rewrite !end_of_app. destruct (sz =? n) eqn:E; simpl; f_equal; [apply Z.eqb_eq in E as ->; done|lia].
Qed.

Lemma carve_sized b1 sz n b2 : sized (b1 ++ (sz, true) :: b2) -> 0 < n <= sz -> sized (carve b1 sz n b2).
Proof.
  unfold carve. intros [H1 [_ H2]%Forall_cons]%Forall_app Hn. rewrite !Forall_app, Forall_cons. split; [done|].
  split; [|split; [simpl; lia|done]]. destruct (sz =? n) eqn:E; [done|]. apply Z.eqb_neq in E. constructor; [simpl; lia|done].
Qed.

Lemma carve_marked u a b1 sz n b2 : let x := end_of a b1 in
  marked u a (carve b1 sz n b2) = marked u a b1 ++
    (if u then (if sz =? n then [] else [(x, sz - n)]) else [(x + UNIT * (sz - n), n)]) ++ marked u (x + UNIT * sz) b2.
Proof.
  unfold carve. rewrite !marked_app. destruct (sz =? n) eqn:E, u; simpl; f_equal.
  - apply Z.eqb_eq in E as ->. done.
  - apply Z.eqb_eq in E as ->. rewrite Z.sub_diag. do 3 f_equal; lia.
  - do 2 f_equal. lia.
  - do 2 f_equal. lia.
Qed.

(** ** The ring of free blocks *)

(** From [p] the pointers lead through the headers of [l] to [q]. *)
Fixpoint seg (m : gmap Z Header) (p : Z) (l : list (Z * Z)) (q : Z) : Prop :=
  match l with
  | [] => p = q
  | (a, n) :: r => p = a /\ exists b, m !! a = Some (mkHeader b n) /\ seg m b r q
  end.

Lemma seg_app m p l1 l2 q : seg m p (l1 ++ l2) q <-> exists x, seg m p l1 x /\ seg m x l2 q.
Proof.
  revert p. induction l1 as [|[a n] l1 IH]; intros p; simpl; [naive_solver|].
  setoid_rewrite IH. naive_solver.
Qed.

Lemma seg_insert m p l q a h : a ∉ l.*1 -> seg m p l q -> seg (<[a := h]> m) p l q.
Proof.
  revert p. induction l as [|[b n] l IH]; intros p; simpl; [done|].
  intros [Hne Hin]%not_elem_of_cons (-> & c & Hb & Hs). split; [done|]. exists c.
  by rewrite lookup_insert_ne by done; auto.
Qed.

(** The pointer that leads to the first of [l], or on to [q]. *)
Definition first (l : list (Z * Z)) (q : Z) : Z := match l with (a, _) :: _ => a | [] => q end.

Lemma seg_first m p l q : seg m p l q -> p = first l q.
Proof. destruct l as [|[a n] l]; simpl; [done|by intros [-> _]]. Qed.

Lemma seg_mid m p l1 a n l2 q : seg m p (l1 ++ (a, n) :: l2) q ->
  m !! a = Some (mkHeader (first l2 q) n) /\ seg m p l1 a /\ seg m (first l2 q) l2 q.
Proof. intros (x & H1 & -> & b & Ha & H2)%seg_app. by rewrite <- (seg_first _ _ _ _ H2). Qed.

Lemma seg_join m p l1 a n l2 q :
  m !! a = Some (mkHeader (first l2 q) n) -> seg m p l1 a -> seg m (first l2 q) l2 q -> seg m p (l1 ++ (a, n) :: l2) q.
Proof. intros Ha H1 H2. apply seg_app. exists a. split; [done|]. split; [done|]. eauto. Qed.

(** The node at [a] of a ring, by its address. *)
Lemma seg_split m p l q a : seg m p l q -> a ∈ l.*1 ->
  exists l1 n l2, l = l1 ++ (a, n) :: l2 /\ m !! a = Some (mkHeader (first l2 q) n).
Proof.
  intros Hs ([a' n] & -> & Hin)%list_elem_of_fmap. apply list_elem_of_split in Hin as (l1 & l2 & ->).
  exists l1, n, l2. split; [done|]. by apply seg_mid in Hs as [Hs _].
Qed.

(** Addresses grow along the list. *)
Fixpoint ascending (l : list (Z * Z)) : Prop :=
  match l with
  | [] => True
  | (a, _) :: r => Forall (fun x => a < x.1) r /\ ascending r
  end.

Lemma ascending_app l1 l2 : ascending (l1 ++ l2) <->
  ascending l1 /\ ascending l2 /\ Forall (fun x => Forall (fun y => x.1 < y.1) l2) l1.
Proof.
  induction l1 as [|[a n] l1 IH]; simpl; [naive_solver|]. rewrite Forall_app, Forall_cons, IH. naive_solver.
Qed.

Lemma ascending_NoDup l : ascending l -> NoDup l.*1.
Proof.
  induction l as [|[a n] l IH]; simpl; [constructor|]. intros [HF Hl]. constructor; [|auto].
  intros (x & -> & Hx)%list_elem_of_fmap. rewrite Forall_forall in HF. specialize (HF x Hx). lia.
Qed.

Lemma marked_ascending u a bl : sized bl -> ascending (marked u a bl).
Proof.
  intros HF. revert a. induction HF as [|[n v] bl Hn HF IH]; intros a; simpl in *; [done|].
  apply ascending_app. split_and!; [by destruct (eqb u v); simpl|done|].
  destruct (eqb u v); [|done]. apply Forall_singleton. apply Forall_forall. intros [x m] Hx.
  apply (marked_bounds u _ _ x m HF) in Hx. unfold UNIT in *. simpl. lia.
Qed.

Lemma away (c : Z) l : Forall (fun y : Z * Z => y.1 <> c) l -> c ∉ l.*1.
Proof. intros HF (y & -> & Hy)%list_elem_of_fmap. rewrite Forall_forall in HF. by apply (HF y). Qed.

(** Lists with distinct addresses split in one way around an address. *)
Lemma split_unique (l1 k1 l2 k2 : list (Z * Z)) a n : NoDup (l1 ++ (a, n) :: l2).*1 ->
  l1 ++ (a, n) :: l2 = k1 ++ (a, n) :: k2 -> l1 = k1 /\ l2 = k2.
Proof.
  revert k1. induction l1 as [|x l1 IH]; intros [|y k1]; simpl.
  - by intros _ [= ->].
  - intros [Hn _]%NoDup_cons [= <- ->]. destruct Hn. rewrite fmap_app. set_solver.
  - intros [Hn _]%NoDup_cons [= -> <-]. destruct Hn. rewrite fmap_app. set_solver.
  - intros [_ Hn]%NoDup_cons [= -> E]. by destruct (IH k1 Hn E) as [-> ->].
Qed.

Section Proofs.
Context {S : Type} `{Sbrk S} (B : Z).

Abbreviation state := (state (S := S)).

Lemma load_header_ok (s : state) a : mapped B s a = true -> load B a s = Ret (peek s a) s.
Proof. unfold load. by intros ->. Qed.

Lemma store_header_ok (s : state) a h : mapped B s a = true -> store B a h s = Ret tt (set_mem (<[a := h]>) s).
Proof. unfold store. by intros ->. Qed.

Lemma get_ptr_ok (s : state) a h : mapped B s a = true -> mem s !! a = Some h -> get_ptr B a s = Ret (ptr h) s.
Proof. intros Hm Ha. unfold get_ptr. rewrite (bind_Ret _ _ _ _ _ (load_header_ok s a Hm)). unfold peek. by rewrite Ha. Qed.

Lemma get_size_ok (s : state) a h : mapped B s a = true -> mem s !! a = Some h -> get_size B a s = Ret (size h) s.
Proof. intros Hm Ha. unfold get_size. rewrite (bind_Ret _ _ _ _ _ (load_header_ok s a Hm)). unfold peek. by rewrite Ha. Qed.

Lemma set_ptr_ok (s : state) a p : mapped B s a = true ->
  set_ptr B a p s = Ret tt (set_mem (<[a := mkHeader p (size (peek s a))]>) s).
Proof. intros Hm. unfold set_ptr. rewrite (bind_Ret _ _ _ _ _ (load_header_ok s a Hm)). by apply store_header_ok. Qed.

Lemma set_size_ok (s : state) a n : mapped B s a = true ->
  set_size B a n s = Ret tt (set_mem (<[a := mkHeader (ptr (peek s a)) n]>) s).
Proof. intros Hm. unfold set_size. rewrite (bind_Ret _ _ _ _ _ (load_header_ok s a Hm)). by apply store_header_ok. Qed.

(** *** The loop of [free] *)

Abbreviation all_mapped s l := (Forall (fun x : Z * Z => mapped B s x.1 = true) l).

(** From a node before the place of [bp] the loop reaches the place. *)
Lemma free_loop_up (s : state) bp l p n r k x :
  seg (mem s) x (l ++ (p, n) :: r) B -> all_mapped s (l ++ [(p, n)]) -> ascending (l ++ [(p, n)]) ->
  B <= p -> p < bp -> Forall (fun y => bp < y.1) r ->
  free_loop B (length l + 1 + k) bp x s = Ret p s.
Proof.
  revert x. induction l as [|[a m] l IH]; intros x Hs Hm Ha HB Hp Hr.
  - destruct Hs as (-> & b & Hb & Hs). simpl in *. apply Forall_cons in Hm as [Hm _]. simpl in Hm.
    rewrite (bind_Ret _ _ _ _ _ (get_ptr_ok s p _ Hm Hb)). simpl. rewrite (seg_first _ _ _ _ Hs).
    rewrite (proj2 (Z.ltb_lt p bp)) by done.
    destruct r as [|[c m] r]; simpl.
    + rewrite (proj2 (Z.leb_le B p)) by done. by destruct (bp <? B).
    + apply Forall_cons in Hr as [Hc _]. simpl in Hc. by rewrite (proj2 (Z.ltb_lt bp c)).
  - destruct Hs as (-> & b & Hb & Hs). apply Forall_cons in Hm as [Hm Hms]. simpl in *.
    destruct Ha as [HF Ha]. rewrite (bind_Ret _ _ _ _ _ (get_ptr_ok s a _ Hm Hb)). simpl.
    assert (a < b < bp).
    { rewrite (seg_first _ _ _ _ Hs). apply Forall_app in HF as [HF [Hap _]%Forall_cons]. simpl in Hap.
      destruct l as [|[c m'] l]; simpl; [lia|]. apply Forall_cons in HF as [Hac _]. simpl in Hac.
      destruct Ha as [[_ [Hcp _]%Forall_cons]%Forall_app _]. simpl in Hcp. lia. }
    rewrite (proj2 (Z.ltb_ge bp b)), andb_false_r, (proj2 (Z.leb_gt b a)) by lia. by apply IH.
Qed.

(** From a node after the place of [bp] the loop comes around to [base]. *)
Lemma free_loop_around (s : state) bp l k x :
  seg (mem s) x l B -> all_mapped s l -> ascending l -> B < bp -> Forall (fun y => bp < y.1) l ->
  free_loop B (length l + k) bp x s = free_loop B k bp B s.
Proof.
  revert x. induction l as [|[a m] l IH]; intros x Hs Hm Ha HB Hl; [by simpl in *; subst|].
  destruct Hs as (-> & b & Hb & Hs). apply Forall_cons in Hm as [Hm Hms]. apply Forall_cons in Hl as [Hba Hl]. simpl in *.
  destruct Ha as [HF Ha]. rewrite (bind_Ret _ _ _ _ _ (get_ptr_ok s a _ Hm Hb)). simpl.
  rewrite (proj2 (Z.ltb_ge a bp)) by lia. simpl.
  rewrite <- (IH b) by done.
  destruct l as [|[c n] l]; simpl in Hs.
  - subst b. by rewrite (proj2 (Z.ltb_ge bp B)), andb_false_r by lia.
  - destruct Hs as [-> _]. apply Forall_cons in HF as [Hac _]. simpl in Hac.
    by rewrite (proj2 (Z.leb_gt c a)) by lia.
Qed.

(** [free_loop] finds the last free block before [bp], from any of them. *)
Lemma free_search_ok (s : state) bp l p n r x k :
  seg (mem s) B (l ++ (p, n) :: r) B -> all_mapped s (l ++ (p, n) :: r) -> ascending (l ++ (p, n) :: r) ->
  x ∈ (l ++ (p, n) :: r).*1 -> B <= p -> p < bp -> Forall (fun y => bp < y.1) r -> (length (l ++ (p, n) :: r) <= k)%nat ->
  free_loop B k bp x s = Ret p s.
Proof.
  intros Hs Hm Ha Hx HB Hp Hr Hk. rewrite length_app in Hk. simpl in Hk.
  assert (all_mapped s (l ++ [(p, n)]) /\ all_mapped s r) as [Hm1 Hm2].
  { by rewrite <- Forall_app, <- app_assoc. }
  assert (ascending (l ++ [(p, n)]) /\ ascending r) as [Ha1 Ha2].
  { change ((p, n) :: r) with ([(p, n)] ++ r) in Ha. rewrite app_assoc in Ha. by apply ascending_app in Ha as (? & ? & _). }
  assert (Hup : forall j, free_loop B (length l + 1 + j) bp B s = Ret p s) by (intros; by eapply free_loop_up).
  rewrite fmap_app, elem_of_app in Hx. destruct Hx as [Hx|Hx].
  - apply (list_elem_of_fmap_1) in Hx as ([x' m] & -> & Hin). apply list_elem_of_split in Hin as (l1 & l2 & ->).
    rewrite <- app_assoc in Hs. apply seg_app in Hs as (y & _ & Hs). assert (y = x') as -> by by destruct Hs.
    rewrite <- app_assoc in Hm1, Ha1. apply Forall_app in Hm1 as [_ Hm1]. apply ascending_app in Ha1 as (_ & Ha1 & _).
    rewrite length_app in Hk. simpl in *.
    replace k with (length ((x', m) :: l2) + 1 + (k - length l2 - 2))%nat by (simpl; lia).
    by apply (free_loop_up s bp ((x', m) :: l2) p n r).
  - rewrite fmap_cons in Hx. apply elem_of_cons in Hx as [->|Hx].
    + replace k with (length (@nil (Z * Z)) + 1 + (k - 1))%nat by (simpl; lia).
      apply seg_app in Hs as (y & _ & Hs). apply Forall_app in Hm1 as [_ Hm1]. eapply (free_loop_up s bp [] p n r); try done.
      simpl in Hs. by destruct Hs as (-> & ?).
    + apply (list_elem_of_fmap_1) in Hx as ([x' m] & -> & Hin). apply list_elem_of_split in Hin as (l1 & l2 & ->).
      apply seg_mid in Hs as (_ & _ & Hs). apply seg_app in Hs as (y & _ & Hs). assert (y = x') as -> by by destruct Hs.
      apply Forall_app in Hm2 as [_ Hm2], Hr as [_ Hr]. apply ascending_app in Ha2 as (_ & Ha2 & _).
      rewrite length_app in *. simpl in *.
      replace k with (length ((x', m) :: l2) + (length l + 1 + (k - length l - length l2 - 2)))%nat by (simpl; lia).
      rewrite free_loop_around by (done || lia). apply Hup.
Qed.

(** *** Joining neighbours *)

Lemma ptr_add_ok p n : 0 <= p + UNIT * n < 2 ^ 64 -> ptr_add p n = p + UNIT * n.
Proof. apply wrap_small. Qed.

(** The free block [p], the block [bp] of [n] units, and what follows them. *)
Lemma merge_next_apart (s : state) bp p n np b nx :
  mem s !! bp = Some (mkHeader b n) -> mem s !! p = Some (mkHeader nx np) ->
  mapped B s bp = true -> mapped B s p = true -> 0 <= bp + UNIT * n < 2 ^ 64 -> nx <> bp + UNIT * n ->
  exists s', merge_next B bp p s = Ret tt s' /\ os s' = os s /\ freep s' = freep s /\ mem s' = <[bp := mkHeader nx n]> (mem s).
Proof.
  intros Hbp Hp Mbp Mp Hr Hne. unfold merge_next.
  rewrite (bind_Ret _ _ _ _ _ (get_size_ok s bp _ Mbp Hbp)), (bind_Ret _ _ _ _ _ (get_ptr_ok s p _ Mp Hp)).
  cbn [size ptr]. rewrite ptr_add_ok, (proj2 (Z.eqb_neq _ _)), set_ptr_ok by (done || by apply not_eq_sym).
  unfold peek. rewrite Hbp. eauto.
Qed.

Lemma merge_next_adjacent (s : state) bp p n np b m nn :
  mem s !! bp = Some (mkHeader b n) -> mem s !! p = Some (mkHeader (bp + UNIT * n) np) ->
  mem s !! (bp + UNIT * n) = Some (mkHeader nn m) ->
  mapped B s bp = true -> mapped B s p = true -> mapped B s (bp + UNIT * n) = true ->
  0 < n -> 0 <= bp + UNIT * n < 2 ^ 64 -> 0 <= n + m < 2 ^ 64 ->
  exists s', merge_next B bp p s = Ret tt s' /\ os s' = os s /\ freep s' = freep s /\ mem s' = <[bp := mkHeader nn (n + m)]> (mem s).
Proof.
  intros Hbp Hp Hnx Mbp Mp Mnx Hn Hr Hr2. unfold merge_next.
  rewrite (bind_Ret _ _ _ _ _ (get_size_ok s bp _ Mbp Hbp)), (bind_Ret _ _ _ _ _ (get_ptr_ok s p _ Mp Hp)).
  cbn [size ptr]. rewrite ptr_add_ok, Z.eqb_refl by done.
  rewrite (bind_Ret _ _ _ _ _ (get_size_ok s _ _ Mnx Hnx)). cbn [size].
  rewrite (wrap_small 64) by done. rewrite (bind_Ret _ _ _ _ _ (set_size_ok s bp (n + m) Mbp)).
  set (s1 := set_mem _ s). assert (Hnx1 : mem s1 !! (bp + UNIT * n) = Some (mkHeader nn m)).
  { unfold s1. cbn. rewrite lookup_insert_ne by (unfold UNIT; lia). done. }
  rewrite (bind_Ret _ _ _ _ _ (get_ptr_ok s1 _ _ Mnx Hnx1)). cbn [ptr]. rewrite (set_ptr_ok s1 bp nn Mbp).
  eexists. split; [done|]. split; [done|]. split; [done|]. unfold s1, peek. cbn [mem set_mem].
  by rewrite lookup_insert_eq, insert_insert_eq.
Qed.

Lemma merge_prev_apart (s : state) p bp np nx :
  mem s !! p = Some (mkHeader nx np) -> mapped B s p = true -> 0 <= p + UNIT * np < 2 ^ 64 -> p + UNIT * np <> bp ->
  exists s', merge_prev B p bp s = Ret tt s' /\ os s' = os s /\ freep s' = freep s /\ mem s' = <[p := mkHeader bp np]> (mem s).
Proof.
  intros Hp Mp Hr Hne. unfold merge_prev. rewrite (bind_Ret _ _ _ _ _ (get_size_ok s p _ Mp Hp)). cbn [size].
  rewrite ptr_add_ok, (proj2 (Z.eqb_neq _ _)), set_ptr_ok by done. unfold peek. rewrite Hp. eauto.
Qed.

Lemma merge_prev_adjacent (s : state) p k nx n nb :
  mem s !! p = Some (mkHeader nx k) -> mem s !! (p + UNIT * k) = Some (mkHeader nb n) ->
  mapped B s p = true -> mapped B s (p + UNIT * k) = true -> 0 < k -> 0 <= p + UNIT * k < 2 ^ 64 -> 0 <= k + n < 2 ^ 64 ->
  exists s', merge_prev B p (p + UNIT * k) s = Ret tt s' /\ os s' = os s /\ freep s' = freep s /\ mem s' = <[p := mkHeader nb (k + n)]> (mem s).
Proof.
  intros Hp Hbp Mp Mbp Hk Hr Hr2. unfold merge_prev. rewrite (bind_Ret _ _ _ _ _ (get_size_ok s p _ Mp Hp)). cbn [size].
  rewrite ptr_add_ok, Z.eqb_refl by done. rewrite (bind_Ret _ _ _ _ _ (get_size_ok s _ _ Mbp Hbp)). cbn [size].
  rewrite (wrap_small 64) by done. rewrite (bind_Ret _ _ _ _ _ (set_size_ok s p (k + n) Mp)).
  set (s1 := set_mem _ s). assert (Hbp1 : mem s1 !! (p + UNIT * k) = Some (mkHeader nb n)).
  { unfold s1. cbn. rewrite lookup_insert_ne by (unfold UNIT; lia). done. }
  rewrite (bind_Ret _ _ _ _ _ (get_ptr_ok s1 _ _ Mbp Hbp1)). cbn [ptr]. rewrite (set_ptr_ok s1 p nb Mp).
  eexists. split; [done|]. split; [done|]. split; [done|]. unfold s1, peek. cbn [mem set_mem].
  by rewrite lookup_insert_eq, insert_insert_eq.
Qed.

(** Either way the block ends up with the blocks after it joined. *)
Lemma merge_next_ok (s : state) bp p n np b b2 :
  mem s !! bp = Some (mkHeader b n) -> mem s !! p = Some (mkHeader (first (frees (bp + UNIT * n) b2) B) np) ->
  seg (mem s) (first (frees (bp + UNIT * n) b2) B) (frees (bp + UNIT * n) b2) B ->
  mapped B s bp = true -> mapped B s p = true -> all_mapped s (frees (bp + UNIT * n) b2) ->
  sized b2 -> 0 < n -> 0 <= B < bp -> end_of (bp + UNIT * n) b2 < 2 ^ 63 ->
  let '(n', b2') := join_r n b2 in
  seg (mem s) (first (frees (bp + UNIT * n') b2') B) (frees (bp + UNIT * n') b2') B /\
  exists s', merge_next B bp p s = Ret tt s' /\ os s' = os s /\ freep s' = freep s /\
    mem s' = <[bp := mkHeader (first (frees (bp + UNIT * n') b2') B) n']> (mem s).
Proof.
  intros Hbp Hp Hs Mbp Mp Mf Hsz Hn HB Hhi. pose proof (end_of_le (bp + UNIT * n) b2 Hsz) as Hle.
  destruct b2 as [|[m [|]] r]; cbn [join_r].
  - split; [done|]. apply (merge_next_apart s bp p n np b); simpl; unfold UNIT in *; try done; lia.
  - simpl in Hs, Hp, Mf, Hle, Hhi. destruct Hs as (_ & c & Hc & Hs). apply Forall_cons in Mf as [Mnx Mf], Hsz as [Hm Hsz]. simpl in *.
    pose proof (end_of_le (bp + UNIT * n + UNIT * m) r Hsz).
    replace (bp + UNIT * (n + m)) with (bp + UNIT * n + UNIT * m) by lia.
    pose proof (seg_first _ _ _ _ Hs) as ->. split; [done|].
    apply (merge_next_adjacent s bp p n np b); unfold UNIT in *; try done; lia.
  - split; [done|]. apply (merge_next_apart s bp p n np b); try done; unfold UNIT in *; [lia|].
    simpl. apply Forall_cons in Hsz as [Hm Hsz]. simpl in *. unfold UNIT in *.
    destruct (frees (bp + 16 * n + 16 * m) r) as [|[c k] f] eqn:E; simpl; [lia|].
    assert (Hin : (c, k) ∈ frees (bp + 16 * n + 16 * m) r) by (rewrite E; left).
    apply (marked_bounds true _ _ c k Hsz) in Hin. lia.
Qed.

(** *** The invariant *)

Abbreviation lo s := (heap_start (os s)).

(** The blocks fill the heap and have their headers. *)
Record heap_ok (s : state) (bl : list block) : Prop := {
  ho_base : 0 < B /\ B + UNIT <= lo s;
  ho_sized : sized bl;
  ho_end : end_of (lo s) bl = heap_end (os s);
  ho_room : heap_end (os s) < 2 ^ 63;
  ho_used : Forall (fun x => exists b, mem s !! x.1 = Some (mkHeader b x.2)) (useds (lo s) bl) }.

Definition ring (s : state) (bl : list block) : list (Z * Z) := (B, 0) :: frees (lo s) bl.

(** The free ones form the ring, with [freep] somewhere on it. *)
Record ring_ok (s : state) (bl : list block) : Prop := {
  ro_coalesced : coalesced bl;
  ro_seg : seg (mem s) B (ring s bl) B;
  ro_freep : freep s ∈ (ring s bl).*1 }.

Lemma block_mapped (s : state) b1 n u b2 : heap_ok s (b1 ++ (n, u) :: b2) -> mapped B s (end_of (lo s) b1) = true.
Proof.
  intros [_ Hs He _ _]. apply Forall_app in Hs as [H1 [H2 H3]%Forall_cons]. simpl in *.
  rewrite end_of_app in He. cbn [end_of] in He.
  pose proof (end_of_le (lo s) b1 H1). pose proof (end_of_le (end_of (lo s) b1 + UNIT * n) b2 H3). pose proof (end_of_unit (lo s) b1) as Hu.
  unfold mapped. rewrite Hu, Z.eqb_refl, (proj2 (Z.leb_le _ _)), (proj2 (Z.leb_le _ _)); [by rewrite orb_true_r|unfold UNIT in *; lia|done].
Qed.

Lemma base_mapped (s : state) : mapped B s B = true.
Proof. unfold mapped. by rewrite Z.eqb_refl. Qed.

Lemma marked_mapped u (s : state) bl : heap_ok s bl -> all_mapped s (marked u (lo s) bl).
Proof.
  intros Hok. apply Forall_forall. intros [x n] (b1 & b2 & -> & ->)%marked_elem. by eapply block_mapped.
Qed.

Lemma ring_mapped (s : state) bl : heap_ok s bl -> all_mapped s (ring s bl).
Proof. intros Hok. constructor; [apply base_mapped|by apply marked_mapped]. Qed.

Lemma ring_ascending (s : state) bl : heap_ok s bl -> ascending (ring s bl).
Proof.
  intros [HB Hs _ _ _]. split; [|by apply marked_ascending]. apply Forall_forall. intros [x n] Hx.
  apply (marked_bounds true _ _ x n Hs) in Hx. unfold UNIT in *. simpl. lia.
Qed.

Lemma ring_units (s : state) bl : heap_ok s bl -> (length (ring s bl) <= units s + 1)%nat.
Proof.
  intros [_ Hs He _ _]. pose proof (marked_length true (lo s) bl Hs) as Hl. rewrite He in Hl. simpl. unfold units.
  assert (Z.of_nat (length (frees (lo s) bl)) <= (heap_end (os s) - lo s) `div` UNIT); [|lia].
  apply Z.div_le_lower_bound; unfold UNIT in *; lia.
Qed.

(** The free block before the end of [b1], which is adjacent or not. *)
Lemma last_free l0 b1 : sized b1 -> B + UNIT <= l0 ->
  exists r p np, (B, 0) :: frees l0 b1 = r ++ [(p, np)] /\ B <= p /\ 0 <= np /\
    ((exists b, b1 = b ++ [(np, true)] /\ r = (B, 0) :: frees l0 b /\ p = end_of l0 b) \/
     (alone b1 /\ p + UNIT * np < end_of l0 b1)).
Proof.
  intros Hs HB. assert (Hu : 0 < UNIT) by done. pose proof (end_of_le l0 b1 Hs) as Hle.
  destruct (before_cases b1) as [(b & k & ->)|[->|(b & k & ->)]].
  - exists ((B, 0) :: frees l0 b), (end_of l0 b), k. apply Forall_app in Hs as [Hs [Hk _]%Forall_cons]. simpl in Hk.
    pose proof (end_of_le l0 b Hs). rewrite marked_app. simpl. split_and!; [done|lia|lia|left; eauto].
  - exists [], B, 0. simpl. split_and!; [done|lia|lia|right; split; [by left|lia]].
  - assert (Ha : alone (b ++ [(k, false)])) by (right; eauto).
    apply Forall_app in Hs as [Hs [Hk _]%Forall_cons]. simpl in Hk.
    rewrite marked_app, end_of_app in *. cbn [marked eqb app end_of] in *. rewrite app_nil_r.
    destruct (frees l0 b) as [|[x n] f _] eqn:E using rev_ind.
    + exists [], B, 0. split_and!; [done|lia|lia|right; split; [done|unfold UNIT in *; lia]].
    + assert (Hin : (x, n) ∈ frees l0 b) by (rewrite E; apply elem_of_app; right; left).
      apply (marked_bounds true _ _ x n Hs) in Hin.
      exists ((B, 0) :: f), x, n. split_and!; [done|lia|lia|right; split; [done|unfold UNIT in *; lia]].
Qed.

(** *** [free] *)

(** The end of [free]: the block [bp], joined with what follows it, meets the
    free block [p] before it. *)
Lemma merge_prev_ok (s : state) r p np bp n nx f l :
  mem s !! bp = Some (mkHeader (first f B) n) -> mem s !! p = Some (mkHeader nx np) ->
  seg (mem s) B r p -> seg (mem s) (first f B) f B ->
  Forall (fun y => y.1 < p) r -> Forall (fun y => bp < y.1) f ->
  mapped B s p = true -> mapped B s bp = true -> p < bp -> 0 <= np -> 0 < n -> 0 <= p -> bp + UNIT * n < 2 ^ 63 ->
  (p + UNIT * np = bp /\ l = r ++ (p, np + n) :: f \/ p + UNIT * np < bp /\ l = r ++ (p, np) :: (bp, n) :: f) ->
  exists s', merge_prev B p bp s = Ret tt s' /\ os s' = os s /\ seg (mem s') B l B /\ p ∈ l.*1 /\
    (forall a, a <> p -> mem s' !! a = mem s !! a).
Proof.
  intros Hbp Hp Hr Hf Hlt Hgt Mp Mbp Hpb Hnp Hn Hp0 Hmax Hl.
  assert (Ar : p ∉ r.*1) by (apply away; eapply Forall_impl; [exact Hlt|]; simpl; intros; lia).
  assert (Af : p ∉ f.*1) by (apply away; eapply Forall_impl; [exact Hgt|]; simpl; intros; lia).
  destruct Hl as [[<- ->]|[Hne ->]].
  - destruct (merge_prev_adjacent s p np nx n (first f B)) as (s' & E & Eos & _ & Em); try done; unfold UNIT in *; try lia.
    exists s'. split; [done|]. split; [done|]. split; [|split].
    + rewrite Em. apply seg_join; [by rewrite lookup_insert_eq|by apply seg_insert|by apply seg_insert].
    + rewrite fmap_app. set_solver.
    + intros a Hne. rewrite Em. by apply lookup_insert_ne.
  - destruct (merge_prev_apart s p bp np nx) as (s' & E & Eos & _ & Em); try done; unfold UNIT in *; try lia.
    exists s'. split; [done|]. split; [done|]. split; [|split].
    + rewrite Em. apply seg_join; [by rewrite lookup_insert_eq|by apply seg_insert|]. split; [done|]. exists (first f B).
      split; [rewrite lookup_insert_ne by lia; done|by apply seg_insert].
    + rewrite fmap_app. set_solver.
    + intros a Hne'. rewrite Em. by apply lookup_insert_ne.
Qed.

Lemma ring_used (s : state) b1 n b2 :
  ring s (b1 ++ (n, false) :: b2) = ((B, 0) :: frees (lo s) b1) ++ frees (end_of (lo s) b1 + UNIT * n) b2.
Proof. unfold ring. by rewrite marked_app. Qed.

(** Headers of used blocks are not on the ring. *)
Lemma used_not_ring (s : state) bl x n : heap_ok s bl -> (x, n) ∈ useds (lo s) bl -> x ∉ (ring s bl).*1.
Proof.
  intros Hok Hx [Hin|Hin]%elem_of_cons.
  - simpl in Hin. apply (marked_bounds false _ _ x n (ho_sized _ _ Hok)) in Hx. pose proof (ho_base _ _ Hok). unfold UNIT in *. lia.
  - apply list_elem_of_fmap_1 in Hin as ([y m] & -> & Hy).
    pose proof (marked_bounds false _ _ _ n (ho_sized _ _ Hok) Hx). pose proof (marked_bounds true _ _ _ m (ho_sized _ _ Hok) Hy).
    destruct (marked_apart _ _ _ _ _ _ _ _ (ho_sized _ _ Hok) Hx Hy) as [(_ & _ & [=])|Ha]. unfold UNIT in *. simpl in *. lia.
Qed.

(** Changing the headers of the freed block and of its neighbours. *)
Lemma release_heap_ok (s s' : state) b1 n b2 : heap_ok s (b1 ++ (n, false) :: b2) -> os s' = os s ->
  (forall a, a <> end_of (lo s) b1 -> a ∉ (ring s (b1 ++ (n, false) :: b2)).*1 -> mem s' !! a = mem s !! a) ->
  heap_ok s' (release b1 n b2).
Proof.
  intros Hok Eos Hfr. pose proof Hok as [HB Hs He Hr Hu]. pose proof Hs as Hs'.
  apply Forall_app in Hs' as [H1 [H2 H3]%Forall_cons]. simpl in H2.
  split; rewrite ?Eos; [done|by apply release_sized|by rewrite release_end, <- He, end_of_app|done|].
  rewrite release_useds. rewrite marked_app in Hu. cbn [marked eqb app] in Hu.
  rewrite Forall_forall in Hu |- *. intros [x m] Hx.
  assert (Hin : (x, m) ∈ useds (lo s) (b1 ++ (n, false) :: b2)) by (rewrite marked_app; cbn [marked eqb app]; set_solver).
  destruct (Hu (x, m)) as [b Hb]; [set_solver|]. exists b. cbn [fst snd] in *. rewrite Hfr; [done| |by eapply used_not_ring].
  intros ->. apply elem_of_app in Hx as [Hx|Hx].
  - apply (marked_bounds false _ _ _ m H1) in Hx. unfold UNIT in *. lia.
  - apply (marked_bounds false _ _ _ m H3) in Hx. unfold UNIT in *. lia.
Qed.

Lemma used_header (s : state) b1 n b2 : heap_ok s (b1 ++ (n, false) :: b2) ->
  exists b, mem s !! end_of (lo s) b1 = Some (mkHeader b n).
Proof.
  intros Hok. pose proof (ho_used _ _ Hok) as Hu. rewrite marked_app in Hu. cbn [marked eqb app] in Hu.
  by apply Forall_app in Hu as [_ [Hu _]%Forall_cons].
Qed.

Lemma free_ok (s : state) b1 n b2 :
  let bl := b1 ++ (n, false) :: b2 in let bp := end_of (lo s) b1 in
  heap_ok s bl -> ring_ok s bl ->
  exists s', free B (bp + UNIT) s = Ret tt s' /\ os s' = os s /\
    heap_ok s' (release b1 n b2) /\ ring_ok s' (release b1 n b2) /\
    (forall a, a <> bp -> a ∉ (ring s bl).*1 -> mem s' !! a = mem s !! a).
Proof.
  intros bl bp Hok [Hc Hseg Hfp]. pose proof Hok as [[HB0 HB] Hs He Hr Hu]. pose proof Hs as Hs'.
  apply Forall_app in Hs' as [H1 [H2 H3]%Forall_cons]. simpl in H2.
  assert (Hbp : lo s <= bp) by by apply end_of_le.
  assert (He2 : end_of (bp + UNIT * n) b2 < 2 ^ 63) by (rewrite <- He in Hr; unfold bl in Hr; by rewrite end_of_app in Hr).
  pose proof (end_of_le (bp + UNIT * n) b2 H3) as Hle2.
  destruct (last_free (lo s) b1 H1 HB) as (r & p & np & Er & HBp & Hnp & Hcase).
  assert (Ering : ring s bl = r ++ (p, np) :: frees (bp + UNIT * n) b2).
  { unfold bl. rewrite ring_used, Er, <- app_assoc. done. }
  pose proof (ring_mapped s bl Hok) as Hm. pose proof (ring_ascending s bl Hok) as Ha. pose proof (ring_units s bl Hok) as Hlen.
  rewrite Ering in Hseg, Hfp, Hm, Ha, Hlen.
  assert (Hpbp : p + UNIT * np <= bp /\ p < bp).
  { destruct Hcase as [(b & -> & -> & ->)|[_ Hlt]]; [|unfold UNIT in *; lia].
    apply Forall_app in H1 as [_ [Hk _]%Forall_cons]. unfold bp. rewrite end_of_app. simpl in *. unfold UNIT. lia. }
  unfold free. rewrite !bind_gets. replace (bp + UNIT - UNIT) with bp by lia. rewrite (wrap_small 64) by (unfold UNIT in *; lia).
  assert (Hf2 : Forall (fun y => bp < y.1) (frees (bp + UNIT * n) b2)).
  { apply Forall_forall. intros [x m] Hx. apply (marked_bounds true _ _ x m H3) in Hx. unfold UNIT in *. simpl. lia. }
  rewrite (bind_Ret _ _ _ _ _ (free_search_ok s bp r p np _ (freep s) (units s + 2) Hseg Hm Ha Hfp HBp (proj2 Hpbp) Hf2 ltac:(lia))).
  pose proof Hm as [Mr [Mp Mf]%Forall_cons]%Forall_app. pose proof (block_mapped s b1 n false b2 Hok : mapped B s bp = true) as Mbp.
  pose proof (seg_mid _ _ _ _ _ _ _ Hseg) as (Hp & Hs1 & Hs2).
  destruct (used_header s b1 n b2 Hok) as [b Hb]. fold bp in Hb.
  pose proof (merge_next_ok s bp p n np b b2 Hb Hp Hs2 Mbp Mp Mf H3 H2 ltac:(unfold UNIT in *; lia) He2) as Hn.
  unfold release. destruct (join_r n b2) as [n' b2'] eqn:Ej. destruct Hn as (Hs2' & s1 & E1 & Eos1 & Efp1 & Em1).
  rewrite (bind_Ret _ _ _ _ _ E1).
  destruct (join_r_ok bp n b2 n' b2' Ej H3 H2) as (Hn' & H3' & He2').
  assert (Hr_lt : Forall (fun y => y.1 < p) r).
  { apply ascending_app in Ha as (_ & _ & Ha). eapply Forall_impl; [exact Ha|]. intros y [Hy _]%Forall_cons. exact Hy. }
  assert (Hf_gt : Forall (fun y => bp < y.1) (frees (bp + UNIT * n') b2')).
  { apply Forall_forall. intros [x m] Hx. apply (marked_bounds true _ _ x m H3') in Hx. unfold UNIT in *. simpl. lia. }
  destruct (merge_prev_ok s1 r p np bp n' (first (frees (bp + UNIT * n) b2) B) (frees (bp + UNIT * n') b2') ((B, 0) :: frees (lo s) (join_l b1 n' b2'))) as (s2 & E2 & Eos2 & Hs' & Hp' & Hkeep).
  - by rewrite Em1, lookup_insert_eq.
  - rewrite Em1, lookup_insert_ne by lia. done.
  - rewrite Em1. apply seg_insert; [|done]. apply away. eapply Forall_impl; [exact Hr_lt|]. simpl. intros. lia.
  - rewrite Em1. apply seg_insert; [|done]. apply away. eapply Forall_impl; [exact Hf_gt|]. simpl. intros. lia.
  - done.
  - done.
  - unfold mapped. by rewrite Eos1.
  - unfold mapped. by rewrite Eos1.
  - lia.
  - done.
  - done.
  - lia.
  - pose proof (end_of_le (bp + UNIT * n') b2' H3'). lia.
  - destruct Hcase as [(b' & -> & -> & ->)|[Hal Hlt]]; [left|right].
    + unfold bp. rewrite end_of_app. split; [done|]. rewrite join_l_frees_free. simpl. do 4 f_equal. lia.
    + split; [done|]. rewrite join_l_frees_alone by done. rewrite app_comm_cons, Er, <- app_assoc. done.
  - rewrite (bind_Ret _ _ _ _ _ E2). eexists. split; [reflexivity|]. cbn [os mem freep].
    assert (Hfr : forall a, a <> bp -> a ∉ (ring s bl).*1 -> mem s2 !! a = mem s !! a).
    { intros a Hne Hni. rewrite Hkeep, Em1; [by apply lookup_insert_ne|]. intros ->. apply Hni. rewrite Ering, fmap_app. set_solver. }
    assert (Erel : join_l b1 n' b2' = release b1 n b2) by (unfold release; by rewrite Ej).
    rewrite Erel in *. assert (Eos : os s2 = os s) by congruence.
    split; [done|]. split; [|split; [|exact Hfr]].
    + by apply (release_heap_ok s _ b1 n b2 Hok).
    + split; [|unfold ring; cbn; by rewrite Eos..]. apply coalesced_app in Hc as [Hc1 [_ Hc2]]. by apply release_coalesced.
Qed.
(** *** Taking a block *)

Lemma carve_heap_ok (s s' : state) b1 sz n b2 b : let q := end_of (lo s) b1 + UNIT * (sz - n) in
  heap_ok s (b1 ++ (sz, true) :: b2) -> os s' = os s -> 0 < n <= sz -> mem s' !! q = Some (mkHeader b n) ->
  (forall a, a <> q -> a ∉ (ring s (b1 ++ (sz, true) :: b2)).*1 -> mem s' !! a = mem s !! a) ->
  heap_ok s' (carve b1 sz n b2).
Proof.
  intros q Hok Eos Hn Hq Hfr. pose proof Hok as [HB Hs He Hr Hu].
  split; rewrite ?Eos; [done|by apply carve_sized|by rewrite carve_end|done|].
  rewrite carve_marked, Forall_forall. intros [x m] Hx. simpl in *.
  assert (Hx' : (x, m) = (q, n) \/ (x, m) ∈ useds (lo s) (b1 ++ (sz, true) :: b2)).
  { rewrite marked_app. simpl. fold q in Hx. set_solver. }
  clear Hx. destruct Hx' as [[= -> ->]|Hx]; [eauto|]. rewrite Forall_forall in Hu. destruct (Hu _ Hx) as [c Hc].
  exists c. simpl in *. rewrite Hfr; [done| |by eapply used_not_ring].
  assert (Hf : (end_of (lo s) b1, sz) ∈ frees (lo s) (b1 ++ (sz, true) :: b2)) by (rewrite marked_app; simpl; set_solver).
  pose proof (marked_bounds false _ _ x m Hs Hx).
  destruct (marked_apart _ _ _ _ _ _ _ _ Hs Hf Hx) as [(_ & _ & [=])|]; unfold q, UNIT in *; lia.
Qed.

(** The two nodes around a link of the ring. *)
Lemma ring_link (s : state) bl q a nq h : heap_ok s bl -> ring_ok s bl ->
  q ∈ (ring s bl).*1 -> mem s !! q = Some (mkHeader a nq) -> mem s !! a = Some h -> 0 < size h ->
  exists b1 b2 r, bl = b1 ++ (size h, true) :: b2 /\ a = end_of (lo s) b1 /\
    (B, 0) :: frees (lo s) b1 = r ++ [(q, nq)] /\ ptr h = first (frees (a + UNIT * size h) b2) B.
Proof.
  intros Hok [_ Hs _] Hq Eq Ea Hh. pose proof (ascending_NoDup _ (ring_ascending s bl Hok)) as Hnd.
  destruct (seg_split _ _ _ _ _ Hs Hq) as (l1 & n & l2 & El & Hq'). rewrite Eq in Hq'. injection Hq' as -> ->.
  assert (HB : mem s !! B = Some (mkHeader (first (frees (lo s) bl) B) 0)) by by apply (seg_mid _ _ [] _ _ _ _ Hs).
  destruct l2 as [|[a n2] l2]; cbn [first] in *; [rewrite HB in Ea; injection Ea as <-; simpl in Hh; lia|].
  rewrite El in Hs. change ((q, n) :: (a, n2) :: l2) with ([(q, n)] ++ (a, n2) :: l2) in Hs. rewrite app_assoc in Hs.
  apply seg_mid in Hs as (Ha & _ & _). rewrite Ha in Ea. injection Ea as <-. simpl in Hh |- *.
  assert (Hin : (a, n2) ∈ frees (lo s) bl).
  { assert (Hin : (a, n2) ∈ ring s bl) by (rewrite El; set_solver). apply elem_of_cons in Hin as [[= -> ->]|Hin]; [lia|done]. }
  apply marked_elem in Hin as (b1 & b2 & -> & ->). exists b1, b2.
  assert (Er : ((B, 0) :: frees (lo s) b1) ++ (end_of (lo s) b1, n2) :: frees (end_of (lo s) b1 + UNIT * n2) b2 =
               (l1 ++ [(q, n)]) ++ (end_of (lo s) b1, n2) :: l2).
  { rewrite <- app_assoc. simpl. rewrite <- El. unfold ring. by rewrite marked_app. }
  unfold ring in Hnd. rewrite marked_app in Hnd.
  change (NoDup (((B, 0) :: frees (lo s) b1) ++ (end_of (lo s) b1, n2) :: frees (end_of (lo s) b1 + UNIT * n2) b2).*1) in Hnd.
  destruct (split_unique _ _ _ _ _ _ Hnd Er) as [E1 E2]. exists l1. by rewrite E2.
Qed.

Lemma inner_range (s : state) b1 sz b2 n : heap_ok s (b1 ++ (sz, true) :: b2) -> 0 < n <= sz ->
  0 <= end_of (lo s) b1 + UNIT * (sz - n) < 2 ^ 63 - UNIT.
Proof.
  intros [HB Hs He Hr _] Hn. apply Forall_app in Hs as [H1 [H2 H3]%Forall_cons]. rewrite end_of_app in He. simpl in *.
  pose proof (end_of_le (lo s) b1 H1). pose proof (end_of_le (end_of (lo s) b1 + UNIT * sz) b2 H3). unfold UNIT in *. lia.
Qed.

Lemma inner_mapped (s : state) b1 sz b2 n : heap_ok s (b1 ++ (sz, true) :: b2) -> 0 < n <= sz ->
  mapped B s (end_of (lo s) b1 + UNIT * (sz - n)) = true.
Proof.
  intros [HB Hs He Hr _] Hn. apply Forall_app in Hs as [H1 [H2 H3]%Forall_cons]. rewrite end_of_app in He. simpl in *.
  pose proof (end_of_le (lo s) b1 H1). pose proof (end_of_le (end_of (lo s) b1 + UNIT * sz) b2 H3).
  pose proof (end_of_unit (lo s) b1) as Hu. unfold mapped.
  replace (end_of (lo s) b1 + UNIT * (sz - n) - lo s) with (end_of (lo s) b1 - lo s + (sz - n) * UNIT) by (unfold UNIT; lia).
  rewrite Z.mod_add, Hu, Z.eqb_refl, (proj2 (Z.leb_le _ _)), (proj2 (Z.leb_le _ _)) by (unfold UNIT in *; lia). by rewrite orb_true_r.
Qed.

Lemma inner_not_ring (s : state) b1 sz b2 n : heap_ok s (b1 ++ (sz, true) :: b2) -> 0 < n <= sz -> sz <> n ->
  end_of (lo s) b1 + UNIT * (sz - n) ∉ (ring s (b1 ++ (sz, true) :: b2)).*1.
Proof.
  intros Hok Hn Hne. pose proof Hok as [HB Hs _ _ _].
  assert (Hf : (end_of (lo s) b1, sz) ∈ frees (lo s) (b1 ++ (sz, true) :: b2)) by (rewrite marked_app; simpl; set_solver).
  pose proof (marked_bounds true _ _ _ sz Hs Hf) as Hb. intros [Hin|Hin]%elem_of_cons.
  - simpl in Hin. unfold UNIT in *. lia.
  - apply list_elem_of_fmap_1 in Hin as ([y m] & Ey & Hy). simpl in Ey. pose proof (marked_bounds true _ _ y m Hs Hy).
    destruct (marked_apart _ _ _ _ _ _ _ _ Hs Hf Hy) as [(<- & _)|]; unfold UNIT in *; lia.
Qed.

Lemma cut_block_ok (s : state) n q a sz pa nq r f : let x := a + UNIT * (sz - n) in let l := r ++ (q, nq) :: (a, sz) :: f in
  seg (mem s) B l B -> NoDup l.*1 -> all_mapped s l -> mem s !! a = Some (mkHeader pa sz) -> pa = first f B ->
  0 < n <= sz -> mapped B s x = true -> 0 <= sz /\ 0 <= x < 2 ^ 64 /\ sz < 2 ^ 64 -> (sz <> n -> x ∉ l.*1) ->
  exists s' b, cut_block B n q a sz s = Ret x s' /\ os s' = os s /\ mem s' !! x = Some (mkHeader b n) /\
    seg (mem s') B (r ++ (q, nq) :: (if sz =? n then [] else [(a, sz - n)]) ++ f) B /\
    (forall y, y <> x -> y ∉ l.*1 -> mem s' !! y = mem s !! y).
Proof.
  intros x l Hs Hnd Hm Ea -> Hn Mx Hr Hx. unfold l in *.
  pose proof Hm as [_ [Mq [Ma _]%Forall_cons]%Forall_cons]%Forall_app. simpl in Mq, Ma.
  pose proof (seg_mid _ _ _ _ _ _ _ Hs) as (Eq & Hs1 & _ & b' & Ea' & Hs2). rewrite Ea in Ea'. injection Ea' as <-. simpl in Eq.
  rewrite fmap_app in Hnd. apply NoDup_app in Hnd as (_ & Hd & [Hq [Ha _]%NoDup_cons]%NoDup_cons). simpl in *.
  assert (Hqr : q ∉ r.*1) by (intros Hi; apply (Hd q Hi); left).
  assert (Har : a ∉ r.*1) by (intros Hi; apply (Hd a Hi); right; left).
  rewrite fmap_app in Hx |- *. simpl in *. unfold cut_block. destruct (Z.eqb_spec sz n) as [<-|Hne]; simpl.
  - rewrite (bind_Ret _ _ _ _ _ (get_ptr_ok s a _ Ma Ea)), (bind_Ret _ _ _ _ _ (set_ptr_ok s q _ Mq)). unfold x, ret. rewrite Z.sub_diag, Z.mul_0_r, Z.add_0_r.
    eexists _, _. split; [done|]. split; [done|]. cbn [mem set_mem]. split; [rewrite lookup_insert_ne by set_solver; done|]. split.
    + apply seg_join; [rewrite lookup_insert_eq; unfold peek; by rewrite Eq|by apply seg_insert|apply seg_insert; [set_solver|done]].
    + intros y Hy Hni. apply lookup_insert_ne. set_solver.
  - specialize (Hx Hne). rewrite (wrap_small 64) by lia. rewrite (bind_Ret _ _ _ _ _ (set_size_ok s a _ Ma)). set (s1 := set_mem _ s).
    assert (E1 : mem s1 !! a = Some (mkHeader (first f B) (sz - n))).
    { unfold s1. cbn [mem set_mem]. rewrite lookup_insert_eq. unfold peek. by rewrite Ea. }
    rewrite (bind_Ret _ _ _ _ _ (get_size_ok s1 a _ Ma E1)). cbn [size]. rewrite ptr_add_ok by lia. fold x.
    rewrite (bind_Ret _ _ _ _ _ (set_size_ok s1 x n Mx)). eexists _, _. split; [done|]. split; [done|]. cbn [mem set_mem].
    split; [apply lookup_insert_eq|]. split.
    + apply seg_insert; [rewrite fmap_app; set_solver|]. unfold s1. cbn [mem set_mem]. unfold peek. rewrite Ea. cbn [ptr default].
      apply seg_join; simpl; [rewrite lookup_insert_ne by set_solver; done|by apply seg_insert|].
      split; [done|]. exists (first f B). split; [apply lookup_insert_eq|by apply seg_insert].
    + intros y Hy Hni. rewrite lookup_insert_ne by done. unfold s1. cbn [mem set_mem]. apply lookup_insert_ne. set_solver.
Qed.

Lemma take_block_ok (s : state) bl n q a nq h : heap_ok s bl -> ring_ok s bl ->
  q ∈ (ring s bl).*1 -> mem s !! q = Some (mkHeader a nq) -> mem s !! a = Some h -> 0 < n <= size h ->
  exists b1 b2 s', let bl' := carve b1 (size h) n b2 in let x := a + UNIT * (size h - n) in
    bl = b1 ++ (size h, true) :: b2 /\ a = end_of (lo s) b1 /\
    take_block B n q a s = Ret (x + UNIT) s' /\ os s' = os s /\ heap_ok s' bl' /\ ring_ok s' bl' /\
    (forall y, y <> x -> y ∉ (ring s bl).*1 -> mem s' !! y = mem s !! y).
Proof.
  intros Hok Hro Hq Eq Ea Hn. destruct h as [pa sz]. simpl in Hn.
  destruct (ring_link s bl q a nq (mkHeader pa sz) Hok Hro Hq Eq Ea) as (b1 & b2 & r & -> & -> & Er & Ep); [simpl; lia|]. simpl in Ep.
  exists b1, b2. set (a := end_of (lo s) b1) in *. set (bl := b1 ++ (sz, true) :: b2) in *. simpl.
  pose proof (block_mapped s b1 sz true b2 Hok : mapped B s a = true) as Ma.
  pose proof (ring_mapped s bl Hok) as Hm. pose proof (ring_ascending s bl Hok) as Has.
  assert (Ering : ring s bl = r ++ (q, nq) :: (a, sz) :: frees (a + UNIT * sz) b2).
  { unfold ring, bl. rewrite marked_app, app_comm_cons, Er, <- app_assoc. done. }
  unfold take_block. rewrite (bind_Ret _ _ _ _ _ (get_size_ok s a _ Ma Ea)). cbn [size].
  assert (Hx : 0 <= a + UNIT * (sz - n) < 2 ^ 63 - UNIT) by by apply (inner_range s b1 sz b2 n Hok).
  pose proof (inner_range s b1 sz b2 1 Hok ltac:(lia)) as Hx1. pose proof (inner_range s b1 sz b2 sz Hok ltac:(lia)) as Hx2. fold a in Hx1, Hx2.
  destruct (cut_block_ok s n q a sz pa nq r (frees (a + UNIT * sz) b2)) as (s1 & b & Ecut & Eos & Hb & Hseg & Hfr);
    [by rewrite <- Ering; apply Hro|by rewrite <- Ering; apply ascending_NoDup|by rewrite <- Ering|done|done|done
    |by apply (inner_mapped s b1 sz b2 n)|unfold UNIT in *; lia| |].
  { intros Hne. rewrite <- Ering. by apply (inner_not_ring s b1 sz b2 n). }
  rewrite <- Ering in Hfr. rewrite (bind_Ret _ _ _ _ _ Ecut).
  unfold set_freep. rewrite bind_modify. unfold ret. rewrite ptr_add_ok by (unfold UNIT in *; lia).
  eexists. split; [done|]. split; [done|]. split; [by rewrite Z.mul_1_r|]. cbn [os mem freep]. split; [done|].
  split; [by apply (carve_heap_ok s _ b1 sz n b2 b Hok)|]. split; [|done].
  assert (Er' : (B, 0) :: frees (lo s) (carve b1 sz n b2) =
                r ++ (q, nq) :: (if sz =? n then [] else [(a, sz - n)]) ++ frees (a + UNIT * sz) b2).
  { rewrite carve_marked, app_comm_cons, Er, <- app_assoc. done. }
  split; [apply carve_coalesced, Hro|unfold ring; cbn [os mem]; by rewrite Eos, Er'|].
  unfold ring. cbn [os freep]. rewrite Eos, Er', fmap_app. set_solver.
Qed.

(** *** The search of [malloc] *)

(** What the loop does when no block on the ring is large enough. *)
Definition grow (k : nat) (n : Z) : M state Z :=
  (p <- morecore B n ;; if p =? 0 then ret 0 else nx <- get_ptr B p ;; malloc_loop B k n p nx)%K.

Definition found (s : state) (bl : list block) (n q a : Z) : Prop :=
  q ∈ (ring s bl).*1 /\ exists nq h, mem s !! q = Some (mkHeader a nq) /\ mem s !! a = Some h /\ n <= size h.

Lemma malloc_loop_scan (s : state) bl n l q p nq k : heap_ok s bl -> ring_ok s bl ->
  seg (mem s) p l (freep s) -> Forall (fun x => x.1 ∈ (ring s bl).*1 /\ x.1 <> freep s) l ->
  q ∈ (ring s bl).*1 -> mem s !! q = Some (mkHeader p nq) ->
  (exists q' a, found s bl n q' a /\ malloc_loop B (length l + 1 + k) n q p s = take_block B n q' a s) \/
  (Forall (fun x => x.2 < n) l /\ (exists h, mem s !! freep s = Some h /\ size h < n) /\
   malloc_loop B (length l + 1 + k) n q p s = grow k n s).
Proof.
  intros Hok Hro. pose proof (ring_mapped s bl Hok) as Hm.
  assert (Hin : forall x, x ∈ (ring s bl).*1 -> exists h, mem s !! x = Some h /\ mapped B s x = true).
  { intros x Hx. destruct (seg_split _ _ _ _ _ (ro_seg _ _ Hro) Hx) as (l1 & n1 & l2 & E & Ex).
    rewrite E in Hm. apply Forall_app in Hm as [_ [Mx _]%Forall_cons]. eauto. }
  revert q p nq. induction l as [|[a m] l IH]; intros q p nq Hs Hl Hq Eq.
  - simpl in Hs. subst p. destruct (Hin _ (ro_freep _ _ Hro)) as (h & Eh & Mh). simpl.
    rewrite (bind_Ret _ _ _ _ _ (get_size_ok s _ _ Mh Eh)). destruct (Z.leb_spec n (size h)) as [Hle|Hgt].
    + left. exists q, (freep s). split; [|done]. split; [done|]. eauto.
    + right. split; [done|]. split; [eauto|]. rewrite bind_gets, Z.eqb_refl. done.
  - destruct Hs as (-> & c & Ea & Hs). apply Forall_cons in Hl as [[Hai Haf] Hl]. simpl in Hai, Haf.
    destruct (Hin a Hai) as (h & Eh & Ma). rewrite Ea in Eh. injection Eh as <-. simpl.
    rewrite (bind_Ret _ _ _ _ _ (get_size_ok s _ _ Ma Ea)). cbn [size]. destruct (Z.leb_spec n m) as [Hle|Hgt].
    + left. exists q, a. split; [|done]. split; [done|]. eauto.
    + rewrite bind_gets, (proj2 (Z.eqb_neq _ _) Haf), (bind_Ret _ _ _ _ _ (get_ptr_ok s _ _ Ma Ea)). cbn [ptr].
      destruct (IH a c m Hs Hl Hai Ea) as [Hf|(HF & Hh & E)]; [by left|right]. split; [by constructor|]. done.
Qed.

(** One round of the ring from [freep]. *)
Lemma malloc_round (s : state) bl n k : heap_ok s bl -> ring_ok s bl ->
  exists p, get_ptr B (freep s) s = Ret p s /\
  ((exists q a, found s bl n q a /\ malloc_loop B (length (ring s bl) + k) n (freep s) p s = take_block B n q a s) \/
   (Forall (fun x => x.2 < n) (ring s bl) /\ malloc_loop B (length (ring s bl) + k) n (freep s) p s = grow k n s)).
Proof.
  intros Hok Hro. pose proof (ring_mapped s bl Hok) as Hm. pose proof (ro_freep _ _ Hro) as Hf.
  destruct (seg_split _ _ _ _ _ (ro_seg _ _ Hro) Hf) as (l1 & nf & l2 & E & Ef).
  pose proof (ro_seg _ _ Hro) as Hs. rewrite E in Hs, Hm. apply seg_mid in Hs as (_ & Hs1 & Hs2).
  apply Forall_app in Hm as [_ [Mf _]%Forall_cons]. exists (first l2 B).
  split; [exact (get_ptr_ok s _ _ Mf Ef)|].
  assert (Hs : seg (mem s) (first l2 B) (l2 ++ l1) (freep s)) by (apply seg_app; eauto).
  pose proof (ascending_NoDup _ (ring_ascending s bl Hok)) as Hnd. rewrite E, fmap_app in Hnd.
  assert (Hl : Forall (fun x => x.1 ∈ (ring s bl).*1 /\ x.1 <> freep s) (l2 ++ l1)).
  { apply Forall_forall. intros x Hx. rewrite E, fmap_app. apply NoDup_app in Hnd as (_ & Hd & [Hn _]%NoDup_cons).
    apply elem_of_app in Hx as [Hx|Hx]; apply (list_elem_of_fmap_2 fst) in Hx; (split; [set_solver|]); intros Ex; rewrite Ex in Hx; [done|].
    apply (Hd _ Hx). left. }
  replace (length (ring s bl)) with (length (l2 ++ l1) + 1)%nat by (rewrite E, !length_app; simpl; lia).
  destruct (malloc_loop_scan s bl n _ (freep s) _ nf k Hok Hro Hs Hl Hf Ef) as [Hfo|(HF & (h & Eh & Hh) & El)]; [by left|right].
  split; [|done]. rewrite Ef in Eh. injection Eh as <-. rewrite E. apply Forall_app in HF as [HF1 HF2]. by apply Forall_app; split; [|constructor].
Qed.

Lemma release_big a b1 n b2 : sized b1 -> sized b2 -> exists x m, (x, m) ∈ frees a (release b1 n b2) /\ n <= m.
Proof.
  intros H1 H2. unfold release. destruct (join_r n b2) as [n' b2'] eqn:Ej. assert (Hn : n <= n').
  { destruct b2 as [|[m [|]] r]; injection Ej as <- <-; try lia. apply Forall_cons in H2 as [H2 _]. simpl in H2. lia. }
  destruct (before_cases b1) as [(b & k & ->)|Hal].
  - apply Forall_app in H1 as [_ [Hk _]%Forall_cons]. simpl in Hk.
    exists (end_of a b), (k + n'). rewrite join_l_frees_free. split; [set_solver|lia].
  - exists (end_of a b1), n'. rewrite join_l_frees_alone by done. split; [set_solver|lia].
Qed.

Lemma coalesced_snoc b n : coalesced b -> coalesced (b ++ [(n, false)]).
Proof.
  induction b as [|[m u] b IH]; simpl; [done|]. intros [H1 H2]. split; [|by apply IH].
  destruct b as [|[k v] b]; simpl; [by rewrite andb_false_r|done].
Qed.

(** Calls that the theorems are about. *)
Definition sane (nbytes : Z) : Prop := 0 <= nbytes < 2 ^ 31 - 32.
Definition roomy (s : state) : Prop := heap_end (os s) + 2 ^ 31 < 2 ^ 63.

Context `{!SbrkLaws S}.

Lemma ring_pos (s : state) bl x : heap_ok s bl -> x ∈ (ring s bl).*1 -> 0 < x.
Proof.
  intros [HB Hs _ _ _] [->|Hx]%elem_of_cons; [simpl; lia|]. apply list_elem_of_fmap_1 in Hx as ([y m] & -> & Hy).
  apply (marked_bounds true _ _ y m Hs) in Hy. unfold UNIT in *. simpl. lia.
Qed.

(** A block that [sbrk] appends, with its header. *)
Lemma grown_ok (s s1 : state) bl nu : heap_ok s bl -> ring_ok s bl -> mem s1 = mem s -> freep s1 = freep s ->
  lo s1 = lo s -> heap_end (os s1) = heap_end (os s) + nu * UNIT -> 0 < nu -> heap_end (os s1) < 2 ^ 63 ->
  let p := heap_end (os s) in let s2 := set_mem (<[p := mkHeader (ptr (peek s1 p)) nu]>) s1 in let bl' := bl ++ [(nu, false)] in
  mapped B s1 p = true /\ heap_ok s2 bl' /\ ring_ok s2 bl'.
Proof.
  intros Hok [Hc Hseg Hf] Em Ef Elo Ehi Hnu Hmax p s2 bl'. pose proof Hok as [HB Hs He Hr Hu].
  assert (Ering : ring s2 bl' = ring s bl).
  { unfold ring, bl'. cbn [os s2 set_mem]. rewrite Elo, marked_app. simpl. by rewrite app_nil_r. }
  assert (Hge : forall u x n, (x, n) ∈ marked u (lo s) bl -> x < p).
  { intros u x n Hx. apply (marked_bounds u _ _ x n Hs) in Hx. unfold UNIT in *. lia. }
  assert (Hok2 : heap_ok s2 bl').
  { split; cbn [os mem s2 set_mem]; rewrite ?Elo; [done|apply Forall_app; by split; [|constructor]
      |unfold bl'; rewrite end_of_app, He; simpl; rewrite Ehi; lia|done|].
    unfold bl'. rewrite marked_app, He. simpl. apply Forall_app. split; [|constructor; [|done]; eexists; apply lookup_insert_eq].
    rewrite Forall_forall in Hu |- *. intros [x n] Hx. destruct (Hu _ Hx) as [b Hb]. exists b. apply Hge in Hx. simpl in *.
    rewrite lookup_insert_ne, Em by (unfold p in *; lia). done. }
  split; [|split; [done|]].
  - pose proof (block_mapped s2 bl nu false [] Hok2) as Hm. cbn [os s2 set_mem] in Hm. rewrite Elo, He in Hm. exact Hm.
  - split; rewrite ?Ering; cbn [mem freep s2 set_mem]; [by apply coalesced_snoc| |by rewrite Ef].
    rewrite Em. apply seg_insert; [|done]. apply away. constructor; [pose proof (end_of_le (lo s) bl Hs); simpl; unfold p, UNIT in *; lia|].
    apply Forall_forall. intros [x n] Hx. apply Hge in Hx. simpl. lia.
Qed.

Lemma morecore_ok (s : state) bl n : heap_ok s bl -> ring_ok s bl -> roomy s -> 0 < n < 2 ^ 27 ->
  exists p s', morecore B n s = Ret p s' /\ lo s' = lo s /\
    (forall a, a <> heap_end (os s) -> a ∉ (ring s bl).*1 -> mem s' !! a = mem s !! a) /\
    ((p = 0 /\ heap_ok s' bl /\ ring_ok s' bl) \/
     (exists nu, p <> 0 /\ p = freep s' /\ n <= nu /\ heap_end (os s') = heap_end (os s) + UNIT * nu /\
        heap_ok s' (release bl nu []) /\ ring_ok s' (release bl nu []))).
Proof.
  intros Hok Hro Hroom Hn. unfold morecore, roomy in *. set (nu := if n <? 4096 then 4096 else n).
  assert (Hnu : n <= nu < 2 ^ 27) by (unfold nu; destruct (Z.ltb_spec n 4096); lia).
  rewrite (wrap_small 64), (swrap_small 32) by (unfold UNIT; lia).
  pose proof Hok as [HB Hs He Hr Hu]. pose proof (end_of_le (lo s) bl Hs) as Hle.
  destruct (sbrk_ok (nu * UNIT) (os s)) as (p & o & Eo & Elo & Hp); [unfold UNIT; lia..|].
  set (s1 := mkState (mem s) (freep s) o).
  assert (Ez : zoom os (fun o s => mkState (mem s) (freep s) o) (sbrk (nu * UNIT)) s = Ret p s1) by (unfold zoom; by rewrite Eo).
  rewrite (bind_Ret _ _ _ _ _ Ez). clear Ez. destruct Hp as [[-> Ehi]|[-> Ehi]].
  - set (p := heap_end (os s)) in *. assert (Hp : 0 < p < 2 ^ 63 - 2 ^ 31) by (unfold UNIT in *; lia).
    rewrite (proj2 (Z.eqb_neq p _)) by (vm_compute (u64 ERR_NOMEM); lia).
    destruct (grown_ok s s1 bl nu Hok Hro eq_refl eq_refl Elo Ehi) as (Mp & Hok2 & Hro2); [lia|cbn [os s1]; unfold UNIT in *; lia|].
    rewrite (bind_Ret _ _ _ _ _ (set_size_ok s1 p nu Mp)), ptr_add_ok by (unfold UNIT; lia). set (s2 := set_mem _ s1) in *.
    rewrite Z.mul_1_r. assert (Ep : end_of (lo s2) bl = p) by (cbn; by rewrite Elo).
    destruct (free_ok s2 bl nu [] Hok2 Hro2) as (s3 & E3 & Eos3 & Hok3 & Hro3 & Hfr3). rewrite Ep in *.
    rewrite (bind_Ret _ _ _ _ _ E3). exists (freep s3), s3. split; [done|]. rewrite Eos3. split; [done|]. split.
    { intros a Ha Hni. rewrite Hfr3; [cbn; by apply lookup_insert_ne|done|].
      rewrite ring_used. cbn [marked]. rewrite app_nil_r. cbn [os s2 set_mem s1]. by rewrite Elo. }
    right. exists nu. split; [|split; [done|split; [lia|split; [change (heap_end o = p + UNIT * nu); unfold UNIT in *; lia|done]]]].
    intros E0. pose proof (ring_pos s3 _ _ Hok3 (ro_freep _ _ Hro3)). lia.
  - rewrite Z.eqb_refl. exists 0, s1. split; [done|]. split; [done|]. split; [done|]. left. split; [done|].
    split; [split; cbn; rewrite ?Elo, ?Ehi; done|]. destruct Hro as [Hc Hseg Hf]. split; unfold ring in *; cbn; rewrite ?Elo; done.
Qed.

(** *** [malloc] *)

(** The units of the used blocks after their headers, which the program may
    write. *)
Definition payload (s : state) (bl : list block) (a : Z) : Prop :=
  exists x n, (x, n) ∈ useds (lo s) bl /\ x < a < x + UNIT * n.

Lemma payload_not_free (s : state) bl a y m : heap_ok s bl -> payload s bl a -> (y, m) ∈ frees (lo s) bl -> a < y \/ y + UNIT * m <= a.
Proof.
  intros Hok (x & n & Hx & Ha) Hy. pose proof (marked_bounds true _ _ _ _ (ho_sized _ _ Hok) Hy).
  destruct (marked_apart _ _ _ _ _ _ _ _ (ho_sized _ _ Hok) Hx Hy) as [(_ & _ & [=])|]; lia.
Qed.

Lemma payload_not_ring (s : state) bl a : heap_ok s bl -> payload s bl a -> a ∉ (ring s bl).*1.
Proof.
  intros Hok Hp [->|Hin]%elem_of_cons.
  - destruct Hp as (x & n & Hx & Ha). apply (marked_bounds false _ _ x n (ho_sized _ _ Hok)) in Hx. pose proof (ho_base _ _ Hok). unfold UNIT in *. simpl in *. lia.
  - apply list_elem_of_fmap_1 in Hin as ([y m] & -> & Hy). pose proof (marked_bounds true _ _ y m (ho_sized _ _ Hok) Hy).
    destruct (payload_not_free s bl _ y m Hok Hp Hy); unfold UNIT in *; simpl in *; lia.
Qed.

Lemma payload_bound (s : state) bl a : heap_ok s bl -> payload s bl a -> a < heap_end (os s).
Proof.
  intros Hok (x & n & Hx & Ha). apply (marked_bounds false _ _ x n (ho_sized _ _ Hok)) in Hx. rewrite (ho_end _ _ Hok) in Hx. lia.
Qed.

(** What [malloc] gives: NULL or a new block of at least [n] units. *)
Definition allocated (s : state) (bl : list block) (n p : Z) (s' : state) : Prop :=
  lo s' = lo s /\ (forall a, payload s bl a -> mem s' !! a = mem s !! a) /\
  exists bl', heap_ok s' bl' /\ ring_ok s' bl' /\
    ((p = 0 /\ useds (lo s) bl' = useds (lo s) bl) \/
     (exists x, p = x + UNIT /\ useds (lo s) bl' ≡ₚ (x, n) :: useds (lo s) bl)).

Lemma found_allocated (s : state) bl n q a : heap_ok s bl -> ring_ok s bl -> 0 < n -> found s bl n q a ->
  exists p s', take_block B n q a s = Ret p s' /\ allocated s bl n p s'.
Proof.
  intros Hok Hro Hn (Hq & nq & h & Eq & Ea & Hle).
  destruct (take_block_ok s bl n q a nq h Hok Hro Hq Eq Ea) as (b1 & b2 & s' & -> & -> & E & Eos & Hok' & Hro' & Hfr); [lia|].
  eexists _, s'. split; [exact E|]. split; [by rewrite Eos|]. split.
  - intros y Hy. apply Hfr; [|by apply payload_not_ring]. intros ->.
    apply (payload_not_free _ _ _ (end_of (lo s) b1) (size h) Hok) in Hy; [unfold UNIT in *; lia|].
    rewrite marked_app. simpl. set_solver.
  - eexists. split; [exact Hok'|]. split; [exact Hro'|]. right. eexists. split; [done|].
    rewrite carve_marked, marked_app. simpl. by rewrite <- Permutation_middle.
Qed.

Lemma release_length a b n : (length (frees a (release b n [])) <= length (frees a b) + 1)%nat.
Proof.
  unfold release. simpl. destruct (before_cases b) as [(b' & k & ->)|Hal].
  - rewrite join_l_frees_free, marked_app, !length_app. simpl. lia.
  - rewrite join_l_frees_alone by done. rewrite length_app. simpl. lia.
Qed.

Lemma malloc_search (s : state) bl n fuel : heap_ok s bl -> ring_ok s bl -> roomy s -> 0 < n < 2 ^ 27 ->
  (2 * length (ring s bl) + 1 <= fuel)%nat ->
  exists p0 p s', get_ptr B (freep s) s = Ret p0 s /\ malloc_loop B fuel n (freep s) p0 s = Ret p s' /\ allocated s bl n p s'.
Proof.
  intros Hok Hro Hroom Hn Hfuel. destruct (malloc_round s bl n (fuel - length (ring s bl)) Hok Hro) as (p0 & E0 & Hcase). exists p0.
  replace (length (ring s bl) + (fuel - length (ring s bl)))%nat with fuel in Hcase by lia.
  destruct Hcase as [(q & a & Hf & E)|[_ E]].
  - destruct (found_allocated s bl n q a Hok Hro) as (p & s' & E' & Hal); [lia|done|]. exists p, s'. by rewrite E.
  - setoid_rewrite E. unfold grow. destruct (morecore_ok s bl n Hok Hro Hroom Hn) as (p & s1 & E1 & Elo & Hfr & Hcase).
    rewrite (bind_Ret _ _ _ _ _ E1). destruct Hcase as [(-> & Hok1 & Hro1)|(nu & Hp & -> & Hnu & Ehi & Hok1 & Hro1)].
    + exists 0, s1. split; [done|]. split; [done|]. split; [done|]. split; [|eauto 8].
      intros a Ha. apply Hfr; [|by apply payload_not_ring]. apply (payload_bound s bl a Hok) in Ha. lia.
    + rewrite (proj2 (Z.eqb_neq _ _) Hp). set (k := (fuel - length (ring s bl))%nat) in *.
      destruct (malloc_round s1 _ n (k - length (ring s1 (release bl nu []))) Hok1 Hro1) as (p1 & E1' & Hcase).
      rewrite (bind_Ret _ _ _ _ _ E1').
      replace (length (ring s1 (release bl nu [])) + (k - length (ring s1 (release bl nu []))))%nat with k in Hcase.
      2:{ unfold ring in *. rewrite Elo. pose proof (release_length (lo s) bl nu). simpl in *. lia. }
      destruct Hcase as [(q & a & Hf & E2)|[HF _]].
      * destruct (found_allocated s1 _ n q a Hok1 Hro1) as (p & s' & E' & Hal); [lia|done|]. exists p, s'. rewrite E2.
        split; [done|]. split; [done|]. destruct Hal as (Elo' & Hfr' & Hal). unfold payload in Hfr'.
        rewrite Elo, release_useds, app_nil_r in *. split; [done|]. split; [|done].
        intros y Hy. rewrite Hfr' by done. apply Hfr; [|by apply payload_not_ring]. apply (payload_bound s bl y Hok) in Hy. lia.
      * destruct (release_big (lo s1) bl nu []) as (x & m & Hin & Hle); [apply Hok|done|].
        apply Forall_cons in HF as [_ HF]. rewrite Forall_forall in HF. specialize (HF _ Hin). simpl in HF. lia.
Qed.

Definition inv (s : state) (bl : list block) : Prop := heap_ok s bl /\ (ring_ok s bl \/ (freep s = 0 /\ bl = [])).

(** Units that [malloc] takes for [nbytes]. *)
Definition units_for (nbytes : Z) : Z := (nbytes + UNIT - 1) `div` UNIT + 1.

Lemma units_for_ok nbytes : sane nbytes -> 0 < units_for nbytes < 2 ^ 27 /\ nbytes <= UNIT * (units_for nbytes - 1).
Proof.
  unfold sane, units_for, UNIT. intros Hn. pose proof (Z.div_mod (nbytes + 16 - 1) 16 ltac:(lia)).
  pose proof (Z.mod_pos_bound (nbytes + 16 - 1) 16 ltac:(lia)). lia.
Qed.

Lemma malloc_ok (s : state) bl nbytes : inv s bl -> roomy s -> sane nbytes ->
  exists p s', malloc B nbytes s = Ret p s' /\ allocated s bl (units_for nbytes) p s'.
Proof.
  intros [Hok Hro] Hroom Hsane. destruct (units_for_ok nbytes Hsane) as [Hu _]. unfold malloc.
  rewrite (wrap_small 64) by (unfold sane, UNIT in *; lia). fold (units_for nbytes). rewrite bind_gets.
  destruct Hro as [Hro|[Ef ->]].
  - pose proof (ring_pos s bl _ Hok (ro_freep _ _ Hro)) as Hp. rewrite (proj2 (Z.eqb_neq _ _)) by lia.
    rewrite bind_ret, bind_gets. pose proof (ring_units s bl Hok).
    destruct (malloc_search s bl (units_for nbytes) (2 * units s + 8) Hok Hro Hroom Hu) as (p0 & p & s' & E0 & E & Hal); [lia|].
    rewrite (bind_Ret _ _ _ _ _ E0), bind_gets. eauto.
  - rewrite Ef. simpl (0 =? 0). unfold set_freep. rewrite bind_assoc, bind_modify. set (s1 := mkState (mem s) B (os s)).
    pose proof (base_mapped s1) as Mb. rewrite bind_assoc, (bind_Ret _ _ _ _ _ (set_ptr_ok s1 B B Mb)). set (s2 := set_mem _ s1).
    rewrite (bind_Ret _ _ _ _ _ (set_size_ok s2 B 0 Mb)), bind_gets. set (s3 := set_mem _ s2).
    assert (Hok3 : heap_ok s3 []) by by destruct Hok; split.
    assert (Hro3 : ring_ok s3 []).
    { split; [done| |left]. split; [done|]. exists B. split; [|done]. unfold s3, s2, s1, peek. cbn.
      by rewrite !lookup_insert_eq. }
    pose proof (ring_units s3 [] Hok3).
    destruct (malloc_search s3 [] (units_for nbytes) (2 * units s3 + 8) Hok3 Hro3 Hroom Hu) as (p0 & p & s' & E0 & E & Hal); [lia|].
    rewrite (bind_Ret _ _ _ _ _ E0), bind_gets. exists p, s'. split; [exact E|]. destruct Hal as (Elo & Hfr & Hal).
    split; [done|]. split; [|done]. intros a (x & n & Hx & _). by apply elem_of_nil in Hx.
Qed.

(** *** Programs *)

(** A program that calls [malloc] and [free] and writes to its memory; [live]
    has the bytes it asked for, by pointer.  At the start the heap is empty and
    lies above the static data. *)
Inductive reach : state -> gmap Z Z -> Prop :=
| reach_start s : 0 < B -> B + UNIT <= lo s -> freep s = 0 -> heap_end (os s) = lo s -> lo s < 2 ^ 63 -> reach s ∅
| reach_malloc s live nbytes p s' : reach s live -> sane nbytes -> roomy s -> malloc B nbytes s = Ret p s' ->
    reach s' (if p =? 0 then live else <[p := nbytes]> live)
| reach_free s live p n s' : reach s live -> live !! p = Some n -> free B p s = Ret tt s' -> reach s' (delete p live)
| reach_write s live p n a h : reach s live -> live !! p = Some n -> p <= a < p + n -> reach (set_mem (<[a := h]>) s) live.

(** The live pointers are the used blocks. *)
Definition matches (l : list (Z * Z)) (live : gmap Z Z) : Prop :=
  (forall p n, live !! p = Some n -> exists k, (p - UNIT, k) ∈ l /\ 0 <= n <= UNIT * (k - 1)) /\
  (forall x k, (x, k) ∈ l -> is_Some (live !! (x + UNIT))).

Definition good (s : state) (live : gmap Z Z) : Prop := exists bl, inv s bl /\ matches (useds (lo s) bl) live.

Lemma inv_nodup (s : state) bl : heap_ok s bl -> NoDup (useds (lo s) bl).*1.
Proof. intros Hok. apply ascending_NoDup, marked_ascending, Hok. Qed.

Lemma malloc_good (s : state) live nbytes : good s live -> sane nbytes -> roomy s ->
  exists p s', malloc B nbytes s = Ret p s' /\ good s' (if p =? 0 then live else <[p := nbytes]> live) /\
    (p = 0 \/ live !! p = None) /\ (forall q m a, live !! q = Some m -> q <= a < q + m -> mem s' !! a = mem s !! a).
Proof.
  intros (bl & Hinv & Hm1 & Hm2) Hsane Hroom.
  destruct (malloc_ok s bl nbytes Hinv Hroom Hsane) as (p & s' & E & Elo & Hfr & bl' & Hok' & Hro' & Hcase).
  destruct (units_for_ok nbytes Hsane) as [Hu0 Hu]. exists p, s'. split; [done|].
  assert (Hkeep : forall q m a, live !! q = Some m -> q <= a < q + m -> mem s' !! a = mem s !! a).
  { intros q m a Hq Ha. apply Hfr. destruct (Hm1 q m Hq) as (k & Hk & Hmk). exists (q - UNIT), k. split; [done|]. unfold UNIT in *. lia. }
  destruct Hcase as [[-> Eu]|(x & -> & Eu)].
  - split; [|split; [by left|done]]. exists bl'. split; [by split; [|left]|]. by rewrite Elo, Eu.
  - assert (Hx0 : 0 < x + UNIT).
    { assert (Hin : (x, units_for nbytes) ∈ useds (lo s') bl') by (rewrite Elo, Eu; left).
      apply (marked_bounds false _ _ x _ (ho_sized _ _ Hok')) in Hin. pose proof (ho_base _ _ Hok'). unfold UNIT in *. lia. }
    assert (Hnew : live !! (x + UNIT) = None).
    { destruct (live !! (x + UNIT)) as [m|] eqn:El; [|done]. destruct (Hm1 _ _ El) as (k & Hk & _).
      replace (x + UNIT - UNIT) with x in Hk by lia. pose proof (inv_nodup s' bl' Hok') as Hnd. rewrite Elo, Eu in Hnd.
      apply NoDup_cons in Hnd as [Hnd _]. destruct Hnd. by apply (list_elem_of_fmap_2 fst) in Hk. }
    rewrite (proj2 (Z.eqb_neq _ _)) by lia. split; [|split; [by right|done]]. exists bl'. split; [by split; [|left]|]. rewrite Elo. split.
    + intros q m [[<- <-]|[_ Hq]]%lookup_insert_Some.
      * exists (units_for nbytes). rewrite Eu. split; [replace (x + UNIT - UNIT) with x by lia; left|unfold sane in *; lia].
      * destruct (Hm1 q m Hq) as (k & Hk & Hmk). exists k. rewrite Eu. split; [by right|done].
    + intros y k Hy. rewrite Eu in Hy. apply elem_of_cons in Hy as [[= -> ->]|Hy]; [by rewrite lookup_insert_eq|].
      apply lookup_insert_is_Some'. right. by apply (Hm2 y k).
Qed.

Lemma free_good (s : state) live p n : good s live -> live !! p = Some n ->
  exists s', free B p s = Ret tt s' /\ good s' (delete p live) /\
    (forall q m a, q <> p -> live !! q = Some m -> q <= a < q + m -> mem s' !! a = mem s !! a).
Proof.
  intros (bl & [Hok Hro] & Hm1 & Hm2) Hp. destruct (Hm1 p n Hp) as (k & Hk & Hn).
  pose proof Hk as (b1 & b2 & -> & Ep)%marked_elem. destruct Hro as [Hro|[_ E0]]; [|by destruct b1].
  pose proof (inv_nodup s _ Hok) as Hnd. pose proof (ho_sized _ _ Hok) as Hsz.
  destruct (free_ok s b1 k b2 Hok Hro) as (s' & E & Eos & Hok' & Hro' & Hfr). rewrite <- Ep in *.
  replace (p - UNIT + UNIT) with p in E by lia. exists s'. split; [done|].
  assert (Eu : useds (lo s) (b1 ++ (k, false) :: b2) = useds (lo s) b1 ++ (p - UNIT, k) :: useds (p - UNIT + UNIT * k) b2).
  { rewrite marked_app, <- Ep. done. }
  split.
  - exists (release b1 k b2). split; [by split; [|left]|]. rewrite Eos, release_useds, <- Ep. rewrite Eu in Hm1, Hm2, Hnd. split.
    + intros q m [Hqp Hq]%lookup_delete_Some. destruct (Hm1 q m Hq) as (j & Hj & Hmj). exists j. split; [|done].
      apply elem_of_app in Hj as [Hj|Hj]; [apply elem_of_app; by left|].
      apply elem_of_cons in Hj as [[= Hj _]|Hj]; [lia|apply elem_of_app; by right].
    + intros x j Hx. apply lookup_delete_is_Some. split; [|apply (Hm2 x j); set_solver]. intros Exp.
      rewrite fmap_app in Hnd. apply NoDup_app in Hnd as (_ & Hd & [Hni _]%NoDup_cons). apply (list_elem_of_fmap_2 fst) in Hx. simpl in *.
      replace x with (p - UNIT) in Hx by lia. rewrite fmap_app, elem_of_app in Hx. destruct Hx as [Hx|Hx]; [|done]. apply (Hd _ Hx). left.
  - intros q m a Hne Hq Ha. destruct (Hm1 q m Hq) as (j & Hj & Hmj).
    assert (Hpay : payload s (b1 ++ (k, false) :: b2) a) by (exists (q - UNIT), j; split; [done|unfold UNIT in *; lia]).
    apply Hfr; [|by apply payload_not_ring].
    pose proof (marked_bounds false _ _ _ k Hsz Hk). destruct (marked_apart _ _ _ _ _ _ _ _ Hsz Hk Hj) as [(Eq & _)|]; unfold UNIT in *; lia.
Qed.

Lemma write_good (s : state) live p n a h : good s live -> live !! p = Some n -> p <= a < p + n -> good (set_mem (<[a := h]>) s) live.
Proof.
  intros (bl & [Hok Hro] & Hm) Hp Ha. destruct (proj1 Hm p n Hp) as (k & Hk & Hn).
  assert (Hpay : payload s bl a) by (exists (p - UNIT), k; split; [done|unfold UNIT in *; lia]).
  exists bl. split; [|done]. split.
  - pose proof Hok as [HB Hs He Hr Hu]. split; cbn [os mem set_mem]; try done. rewrite Forall_forall in Hu |- *. intros [y m] Hy.
    destruct (Hu _ Hy) as [b Hb]. exists b. simpl in *. rewrite lookup_insert_ne; [done|]. intros ->.
    pose proof (marked_bounds false _ _ y m Hs Hy).
    destruct (marked_apart _ _ _ _ _ _ _ _ Hs Hk Hy) as [(Eq & _)|]; unfold UNIT in *; lia.
  - destruct Hro as [[Hc Hseg Hf]|Hro]; [left|by right]. split; try done. apply seg_insert; [exact (payload_not_ring s bl a Hok Hpay)|exact Hseg].
Qed.

Lemma reach_good (s : state) live : reach s live -> good s live.
Proof.
  induction 1 as [s HB HBl Hf He Hr|s live nbytes p s' _ IH Hs Hroom E|s live p n s' _ IH Hp E|s live p n a h _ IH Hp Ha].
  - exists []. split; [split; [split; try done; by rewrite He|by right]|]. split; [done|]. by intros x k ?%elem_of_nil.
  - destruct (malloc_good s live nbytes IH Hs Hroom) as (p' & s1 & E' & Hg & _). rewrite E in E'. by injection E' as <- <-.
  - destruct (free_good s live p n IH Hp) as (s1 & E' & Hg & _). rewrite E in E'. by injection E' as <-.
  - by apply (write_good s live p n).
Qed.

(** With no live block the heap is one free block. *)
Lemma good_empty (s : state) : good s ∅ -> heap_end (os s) = lo s \/
  mem s !! lo s = Some (mkHeader B ((heap_end (os s) - lo s) `div` UNIT)).
Proof.
  intros (bl & [Hok Hro] & _ & Hm2). pose proof (ho_end _ _ Hok) as He.
  assert (Hall : Forall (fun b => b.2 = true) bl).
  { apply Forall_forall. intros [n u] (b1 & b2 & ->)%list_elem_of_split. destruct u; [done|].
    destruct (Hm2 (end_of (lo s) b1) n) as [m [=]]. rewrite marked_app. simpl. set_solver. }
  destruct bl as [|[n u] [|[m v] bl]]; [by left|right|].
  - apply Forall_cons in Hall as [Hu _]. simpl in Hu. subst u. destruct Hro as [Hro|[_ [=]]]. simpl in He. rewrite <- He.
    pose proof (ro_seg _ _ Hro) as (_ & b & Eb & -> & c & Ec & ->).
    replace (lo s + UNIT * n - lo s) with (n * UNIT) by lia. rewrite Z.div_mul by done. done.
  - apply Forall_cons in Hall as [Hu [Hv _]%Forall_cons]. simpl in *. subst. destruct Hro as [Hro|[_ [=]]]. pose proof (proj1 (ro_coalesced _ _ Hro)) as Hc. discriminate Hc.
Qed.

(** C10. Along every run of a program that calls [malloc] (with fewer than
    2^31 - 32 bytes) and [free] and overwrites the memory it was given: the
    live blocks lie in the heap at multiples of 16 bytes from its start and
    neither they nor their headers overlap; [malloc] returns NULL or a new
    block, [free] returns, and both leave the contents of the live blocks as
    they are, so neither walks off the ring or loops; and when nothing is live
    the whole heap is one free block again. *)
Theorem malloc_free_safe (s : state) live : reach s live ->
  (forall p n, live !! p = Some n -> lo s + UNIT <= p /\ p + n <= heap_end (os s) /\ (p - lo s) `mod` UNIT = 0) /\
  (forall p n q m, live !! p = Some n -> live !! q = Some m -> p <> q -> p + n <= q - UNIT \/ q + m <= p - UNIT) /\
  (forall nbytes, sane nbytes -> roomy s -> exists p s', malloc B nbytes s = Ret p s' /\ (p = 0 \/ live !! p = None) /\
     (forall q m a, live !! q = Some m -> q <= a < q + m -> mem s' !! a = mem s !! a)) /\
  (forall p n, live !! p = Some n -> exists s', free B p s = Ret tt s' /\
     (forall q m a, q <> p -> live !! q = Some m -> q <= a < q + m -> mem s' !! a = mem s !! a)) /\
  (live = ∅ -> heap_end (os s) = lo s \/ mem s !! lo s = Some (mkHeader B ((heap_end (os s) - lo s) `div` UNIT))).
Proof.
  intros Hg%reach_good. split; [|split; [|split; [|split]]].
  - destruct Hg as (bl & [Hok _] & Hm & _). intros p n (k & Hk & Hn)%Hm.
    apply (marked_bounds false _ _ _ k (ho_sized _ _ Hok)) in Hk as (H1 & H2 & H3 & H4). rewrite (ho_end _ _ Hok) in H3.
    split; [lia|]. split; [lia|]. rewrite <- H4. rewrite <- (Z.mod_add (p - UNIT - lo s) 1) by done. f_equal. lia.
  - destruct Hg as (bl & [Hok _] & Hm & _). intros p n q m (k & Hk & Hn)%Hm (j & Hj & Hmj)%Hm Hne.
    destruct (marked_apart _ _ _ _ _ _ _ _ (ho_sized _ _ Hok) Hk Hj) as [(Eq & _)|]; unfold UNIT in *; lia.
  - intros nbytes Hs Hr. destruct (malloc_good s live nbytes Hg Hs Hr) as (p & s' & E & _ & Hp & Hk). eauto.
  - intros p n Hp. destruct (free_good s live p n Hg Hp) as (s' & E & _ & Hk). eauto.
  - intros ->. by apply good_empty.
Qed.

End Proofs.

(** ** A heap with a limit *)

Module Small.

(** The heap segment of a process, which can grow up to the next region.  The
    cases are those of [memregion_extend]; [full] is the result when the
    segment cannot grow. *)
Record brk := mkBrk { b_start : Z; b_end : Z; b_limit : Z }.

Definition brk_sbrk (full n : Z) : M brk Z := fun s =>
  if n =? 0 then Ret (b_end s) s
  else if 0 <? n then
    if b_limit s <? b_end s + n then Ret full s else Ret (b_end s) (mkBrk (b_start s) (b_end s + n) (b_limit s))
  else if - n <=? b_end s - b_start s then Ret (b_end s) (mkBrk (b_start s) (b_end s + n) (b_limit s))
  else Ret (b_end s) s.

Definition Brk (full : Z) : Sbrk brk := {| heap_start := b_start; heap_end := b_end; sbrk := brk_sbrk full |}.

(** With the documented error code. *)
#[export] Instance documented : Sbrk brk := Brk (u64 ERR_NOMEM).

#[export] Instance documented_laws : SbrkLaws brk.
Proof.
  split. intros n s Hn _. simpl. unfold brk_sbrk. rewrite (proj2 (Z.eqb_neq n 0)), (proj2 (Z.ltb_lt 0 n)) by lia.
  destruct (b_limit s <? b_end s + n); eauto 8.
Qed.

Definition start : state (S := brk) := mkState ∅ 0 (mkBrk 65536 65536 1000000).

Lemma start_reach : reach 4096 start ∅.
Proof. by apply reach_start. Qed.

Definition after_malloc : state (S := brk) :=
  Eval vm_compute in match malloc 4096 100 start with Ret _ s => s | Halt _ s => s end.

Lemma malloc_free_safe_witness :
  reach 4096 after_malloc {[130960 := 100]} /\ exists s', free 4096 130960 after_malloc = Ret tt s'.
Proof.
  assert (Hr : reach 4096 after_malloc {[130960 := 100]}).
  { apply (reach_malloc 4096 start ∅ 100 130960 after_malloc start_reach); [by split|done|by vm_compute]. }
  split; [done|].
  destruct (malloc_free_safe 4096 after_malloc {[130960 := 100]} Hr) as (_ & _ & _ & Hf & _).
  destruct (Hf 130960 100 (lookup_singleton_eq _ _)) as (s' & E & _). by exists s'.
Defined.

(** The kernel reports a heap that cannot grow with [ERR_VM_BOUND], 1, which
    [morecore] does not recognise: it stores a header at address 1. *)
Definition crowded : state (S := brk) := mkState ∅ 0 (mkBrk 65536 65536 65536).

Lemma morecore_unchecked : exists s', @malloc brk (Brk 1) 4096 100 crowded = Halt Fault s'.
Proof. eexists. vm_compute. reflexivity. Qed.

(** [sbrk] takes an [int]: for 2^31 bytes [morecore] asks for a negative
    number, gets the end of a heap that has not grown, and writes there. *)
Lemma malloc_large : exists s', malloc 4096 (2 ^ 31) start = Halt Fault s'.
Proof. eexists. vm_compute. reflexivity. Qed.

(** The last 15 sizes wrap around to no bytes at all: [malloc] returns a block
    of one unit, the header alone. *)
Lemma malloc_wraps : exists s', malloc 4096 (2 ^ 64 - 8) start = Ret 131072 s' /\ heap_end (os s') = 131072.
Proof. eexists. vm_compute. split; reflexivity. Qed.

End Small.
(** ** The kernel's side *)

Section kernel.
Import Page Vm.Vm.
Context {A : Type} `{!ObjAlloc A} {V : Type} `{!PageMap V}.
Implicit Types s : vm A V.

(** [memregion_extend], behind [sbrk]: the heap region [r] grows and the result
    is its previous end, as [SbrkLaws] says, or nothing changes and the code is
    [ERR_VM_BOUND], which is not the documented one. *)
Lemma heap_extend_cases s a x r m size : vm_ok s -> spaces s !! a = Some x -> r ∈ regions x -> mrs s !! r = Some m ->
  0 < size -> end_ m + size < 2 ^ 64 ->
  (exists s', memregion_extend r size s = Ret (ERR_OK, end_ m) s' /\ mrs s' = <[r := set_end (end_ m + size) m]> (mrs s)) \/
  memregion_extend r size s = Ret (ERR_VM_BOUND, 0) s.
Proof.
  intros Hok Hx Hr Hm Hsz Hb. destruct (vo_space s Hok a x Hx) as [Hl [ms L]].
  destruct (layout_elem _ _ _ _ r L Hr) as (m0 & Hm0 & Ha & Hin). assert (m0 = m) as -> by congruence.
  assert (Hr0 : r <> 0) by (intros ->; by apply (ly_null _ _ _ _ L)).
  pose proof (ly_region _ _ _ _ L) as Lr. rewrite Forall_forall in Lr. destruct (Lr m Hin) as (H0 & Hse & Hend & _).
  unfold memregion_extend. rewrite (proj2 (Z.eqb_neq r 0) Hr0), (get_mr_Some r m) by done.
  rewrite (proj2 (Z.eqb_neq size 0)), (proj2 (Z.ltb_lt 0 size)) by lia. rewrite Ha.
  unfold as_find_memregion. rewrite bind_assoc, (bind_Ret _ _ _ _ _ (acquire_ok a x s Hx Hl)).
  rewrite bind_assoc, (get_as_Some a (set_as_lock true x)) by apply lookup_insert_eq.
  set (p := fun m1 => (start m1 <=? end_ m) && (u64 (end_ m + size) <=? pg_round_up (end_ m1))).
  assert (E : exists q, find_region p (regions x) (with_lock a x s) = Ret q (with_lock a x s)).
  { destruct (find_region_spec p (with_lock a x s) (regions x) ms (ly_mem _ _ _ _ L) (ly_null _ _ _ _ L)) as
      [[E _]|(? & q & ? & ? & m1 & ? & _ & _ & _ & _ & _ & _ & E)]; eauto. }
  destruct E as [q E]. rewrite bind_assoc, (bind_Ret _ _ _ _ _ E), bind_assoc.
  rewrite (bind_Ret _ _ _ _ _ (release_ok a (set_as_lock true x) _ (lookup_insert_eq _ _ _))), bind_ret, unlock_with_lock by done.
  destruct (_ && _); [by right|left]. eexists. split; [reflexivity|]. simpl. rewrite wrap_small by lia. done.
Qed.

End kernel.

End Malloc.
