(* ===== verification/Stdio.v ===== *)
(** * The input and output of the user library: lib/stdio.c

    [gets] reads a line byte by byte, [printf] formats to standard output.  The
    system calls [read] and [write] are those on descriptors 0 and 1: the state
    has what [read] will return and the bytes given to [write].  [gets] is
    compared with a reference that cuts a line off the input, and [printf] with
    the kernel's [kprintf]. *)

From S2P Require Import Prelude Lib Console.

Module Stdio.

Import Console.Console.
#[local] Open Scope kernel_scope.

(** The results of [read(0, &c, 1)], [None] for a result below 1; after the
    last one the input is at its end.  [output] has the bytes written to 1. *)
Record stdio := mkStdio { input : list (option Z); output : list Z }.

Definition read_byte : M stdio (option Z) := fun s =>
  match input s with
  | [] => Ret None s
  | r :: q => Ret r (mkStdio q (output s))
  end.

Definition write (b : list Z) : M stdio Z := fun s => Ret (Z.of_nat (length b)) (mkStdio (input s) (output s ++ b)).

Definition puts (b : list Z) (size : Z) : M stdio Z :=
  if size <=? Z.of_nat (length b) then write (take (Z.to_nat size) b) else stop Fault.

(** [buf[i] = c], for a buffer that has [length b] bytes. *)
Definition store_byte (b : list Z) (i c : Z) : M stdio (list Z) :=
  if (0 <=? i) && (i <? Z.of_nat (length b)) then ret (<[Z.to_nat i := c]> b) else stop Fault.

(** The loop of [gets]; the result is the buffer and [i]. *)
Fixpoint gets_loop (fuel : nat) (b : list Z) (max i : Z) : M stdio (list Z * Z) :=
  match fuel with
  | O => stop Fuel
  | S fuel' =>
      if i + 1 <? max then
        cc <- read_byte ;;
        match cc with
        | None => ret (b, i)
        | Some c =>
            b <- store_byte b i c ;;
            if (c =? NL) || (c =? CR) then ret (b, i + 1) else gets_loop fuel' b max (i + 1)
        end
      else ret (b, i)
  end.

Definition gets (b : list Z) (max : Z) : M stdio (list Z) :=
  r <- gets_loop (S (Z.to_nat max)) b max 0 ;;
  store_byte (r.1) (r.2) 0.

(** The digits of [num] in a buffer of [len] characters, the lowest first. *)
Fixpoint fill_digits (fuel len : nat) (num base : Z) (b : list Z) : M stdio (list Z) :=
  match fuel with
  | O => stop Fuel
  | S fuel' =>
      if (length b <? len)%nat then
        d <- of_option Fault (digits !! Z.to_nat (num `mod` base)) ;;
        if num `div` base =? 0 then ret (b ++ [d]) else fill_digits fuel' len (num `div` base) base (b ++ [d])
      else stop Fault
  end.

(** One [write] per byte. *)
Fixpoint write_each (l : list Z) : M stdio unit :=
  match l with [] => ret tt | c :: q => write [c] ;; write_each q end.

(** [printnum] and [printnum64] differ in the width [w] of the number and the
    length [len] of the buffer. *)
Definition printnum_w (w : Z) (len : nat) (num base : Z) (sign : bool) : M stdio unit :=
  let neg := sign && (swrap w num <? 0) in
  let num := if neg then wrap w (- swrap w num) else num in
  b <- fill_digits (S len) len num base [] ;;
  (if neg then write_each [45] else ret tt) ;;
  (if base =? 16 then write [48; 120] ;; ret tt else ret tt) ;;
  write_each (rev b).

Definition printnum (num base : Z) (sign : bool) : M stdio unit := printnum_w 32 16 num base sign.
Definition printnum64 (num base : Z) (sign : bool) : M stdio unit := printnum_w 64 32 num base sign.

(** [va_arg] *)
Definition arg_num (args : list arg) : M stdio (Z * list arg) :=
  match args with ANum n :: q => ret (n, q) | _ => stop Fault end.
Definition arg_str (args : list arg) : M stdio (option (list Z) * list arg) :=
  match args with AStr s :: q => ret (s, q) | _ => stop Fault end.

(** The loop of [printf] over the bytes of the format before its NUL. *)
Fixpoint printf_loop (fmt : list Z) (args : list arg) : M stdio unit :=
  match fmt with
  | [] => ret tt
  | c :: fmt' =>
      if c =? 37 then
        match fmt' with
        | [] => ret tt
        | f :: rest =>
            if f =? 99 then printf_loop rest args
            else if f =? 100 then a <- arg_num args ;; printnum (u32 (a.1)) 10 true ;; printf_loop rest (a.2)
            else if f =? 117 then a <- arg_num args ;; printnum (u32 (a.1)) 10 false ;; printf_loop rest (a.2)
            else if (f =? 120) || (f =? 112) then a <- arg_num args ;; printnum64 (u64 (a.1)) 16 false ;; printf_loop rest (a.2)
            else if f =? 115 then a <- arg_str args ;; write_each (default null_str (a.1)) ;; printf_loop rest (a.2)
            else write [f] ;; printf_loop rest args
        end
      else write [c] ;; printf_loop fmt' args
  end.

(** [None] is a NULL format. *)
Definition printf (fmt : option (list Z)) (args : list arg) : M stdio unit :=
  match fmt with
  | None => puts [104; 105; 0] 3 ;; ret tt
  | Some fmt => printf_loop fmt args
  end.

(** ** Lines *)

(** The first line of the input, of at most [n] bytes, and the rest. *)
Fixpoint line_of (n : nat) (inp : list (option Z)) : list Z * list (option Z) :=
  match n, inp with
  | O, _ => ([], inp)
  | S _, [] => ([], [])
  | S _, None :: q => ([], q)
  | S n, Some c :: q =>
      if (c =? NL) || (c =? CR) then ([c], q) else let '(l, r) := line_of n q in (c :: l, r)
  end.

Lemma line_of_length n inp : (length (line_of n inp).1 <= n)%nat.
Proof.
  revert inp. induction n as [|n IH]; intros [|[c|] q]; simpl; try lia.
  destruct (_ || _); simpl; [lia|]. specialize (IH q). destruct (line_of n q); simpl in *; lia.
Qed.

Lemma store_byte_ok b i c s : 0 <= i < Z.of_nat (length b) -> store_byte b i c s = Ret (<[Z.to_nat i := c]> b) s.
Proof. intros Hi. unfold store_byte. by rewrite (proj2 (Z.leb_le 0 i)), (proj2 (Z.ltb_lt i _)) by lia. Qed.

(** The loop with [pre] already stored and room for [n] more bytes. *)
Lemma gets_loop_ok n fuel pre x max s : max = Z.of_nat (length pre) + Z.of_nat n + 1 -> (n + 1 <= length x)%nat -> (n < fuel)%nat ->
  gets_loop fuel (pre ++ x) max (Z.of_nat (length pre)) s =
    Ret (pre ++ (line_of n (input s)).1 ++ drop (length (line_of n (input s)).1) x, Z.of_nat (length pre + length (line_of n (input s)).1))
        (mkStdio (line_of n (input s)).2 (output s)).
Proof.
  revert fuel pre x s. induction n as [|n IH]; intros fuel pre x [inp out] Hmax Hx Hf; (destruct fuel as [|fuel]; [lia|]); simpl.
  - rewrite (proj2 (Z.ltb_ge _ _)) by lia. by rewrite drop_0, Nat.add_0_r.
  - rewrite (proj2 (Z.ltb_lt _ _)) by lia. unfold bind at 1, read_byte. destruct inp as [|[c|] q]; simpl; [by rewrite drop_0, Nat.add_0_r| |by rewrite drop_0, Nat.add_0_r].
    destruct x as [|y x]; simpl in Hx; [lia|].
    rewrite (bind_Ret _ _ _ _ _ (store_byte_ok (pre ++ y :: x) (Z.of_nat (length pre)) c _ ltac:(rewrite length_app; simpl; lia))), Nat2Z.id.
    rewrite insert_app_r_alt, Nat.sub_diag by lia. simpl.
    destruct (_ || _); simpl; [unfold ret; by rewrite drop_0, Nat2Z.inj_add|].
    replace (Z.of_nat (length pre) + 1) with (Z.of_nat (length (pre ++ [c]))) by (rewrite length_app; simpl; lia).
    change (pre ++ c :: x) with (pre ++ [c] ++ x). rewrite app_assoc.
    rewrite IH by (rewrite ?length_app; simpl; lia). simpl. destruct (line_of n q) as [l r]. simpl.
    unfold ret. rewrite <- app_assoc, length_app, <- Nat.add_assoc. done.
Qed.

(** [gets] stores the next line of the input, up to a newline or a carriage
    return and of at most [max - 1] bytes, and a NUL after it; the rest of the
    buffer stays as it is and the rest of the input is still to be read. *)
Lemma gets_ok b max s : 1 <= max <= Z.of_nat (length b) ->
  let '(l, rest) := line_of (Z.to_nat (max - 1)) (input s) in
  gets b max s = Ret (l ++ 0 :: drop (length l + 1) b) (mkStdio rest (output s)) /\ Z.of_nat (length l) < max.
Proof.
  intros Hmax. destruct (line_of _ _) as [l rest] eqn:El. pose proof (line_of_length (Z.to_nat (max - 1)) (input s)) as Hl.
  rewrite El in Hl. simpl in Hl. split; [|lia]. unfold gets.
  rewrite (bind_Ret _ _ _ _ _ (gets_loop_ok (Z.to_nat (max - 1)) (S (Z.to_nat max)) [] b max s ltac:(simpl; lia) ltac:(lia) ltac:(lia))), El. simpl.
  rewrite store_byte_ok by (rewrite length_app, length_drop; lia). rewrite Nat2Z.id, insert_app_r_alt, Nat.sub_diag by lia.
  rewrite <- drop_drop. destruct (drop (length l) b) as [|y x] eqn:Ed; [|done].
  apply (f_equal length) in Ed. rewrite length_drop in Ed. simpl in Ed. lia.
Qed.

(** ** Formatting *)

(** A call appends [l] to the output. *)
Definition prints (m : M stdio unit) (l : list Z) : Prop := forall s, m s = Ret tt (mkStdio (input s) (output s ++ l)).

Lemma prints_ret : prints (ret tt) [].
Proof. intros [i o]. unfold ret. simpl. by rewrite app_nil_r. Qed.

Lemma prints_bind m k l1 l2 : prints m l1 -> prints k l2 -> prints (m ;; k) (l1 ++ l2).
Proof. intros H1 H2 s. rewrite (bind_Ret _ _ _ _ _ (H1 s)), H2. simpl. by rewrite app_assoc. Qed.

Lemma prints_write c k l : prints k l -> prints (write [c] ;; k) (c :: l).
Proof. intros Hk s. unfold bind, write. rewrite Hk. simpl. by rewrite <- app_assoc. Qed.

Lemma prints_each l : prints (write_each l) l.
Proof. induction l as [|c l IH]; [apply prints_ret|by apply prints_write]. Qed.

Lemma fill_digits_ok fuel len num base b b' s : digit_loop fuel len num base b = Some b' -> fill_digits fuel len num base b s = Ret b' s.
Proof.
  revert num b. induction fuel as [|fuel IH]; intros num b; simpl; [done|]. destruct (length b <? len)%nat; [|done].
  destruct (digits !! _) as [d|]; simpl; [|done]. rewrite bind_ret. destruct (_ =? 0); [by intros [= ->]|apply IH].
Qed.

Lemma prints_num w len num base sign l : Console.Console.printnum w len num base sign = Some l -> prints (printnum_w w len num base sign) l.
Proof.
  unfold Console.Console.printnum, printnum_w. intros E s.
  destruct (digit_loop _ _ _ _ _) as [b|] eqn:Ed; simpl in E; [|done]. injection E as <-.
  rewrite (bind_Ret _ _ _ _ _ (fill_digits_ok _ _ _ _ _ _ s Ed)). revert s. apply prints_bind; [|apply prints_bind; [|apply prints_each]].
  - destruct (sign && _); [apply prints_each|apply prints_ret].
  - destruct (base =? 16); [|apply prints_ret]. intros s. done.
Qed.

(** Characters that [kprintf] passes on as [int], back as bytes. *)
Lemma schar_byte c : 0 <= c < 256 -> u8 (Str.schar c) = c.
Proof.
  intros Hc. unfold Str.schar, swrap. rewrite (wrap_small 8 c) by (simpl; lia).
  change (2 ^ (8 - 1)) with 128. change (2 ^ 8) with 256. destruct (Z.ltb_spec c 128); [by apply wrap_small|].
  unfold wrap. change (2 ^ 8) with 256. replace (c - 256) with (c + (-1) * 256) by lia. rewrite Z.mod_add by lia. apply Z.mod_small. lia.
Qed.

Lemma schars_bytes l : Forall (fun c => 0 <= c < 256) l -> u8 <$> map Str.schar l = l.
Proof. induction 1 as [|c l Hc _ IH]; [done|]. exact (f_equal2 cons (schar_byte c Hc) IH). Qed.

(** The characters of a number are bytes. *)
Lemma digit_bytes fuel len num base b b' : digit_loop fuel len num base b = Some b' -> u8 <$> b = b -> u8 <$> b' = b'.
Proof.
  revert num b. induction fuel as [|fuel IH]; intros num b; simpl; [done|]. destruct (length b <? len)%nat; [|done].
  destruct (digits !! _) as [d|] eqn:Ed; simpl; [|done]. intros E Hb.
  assert (Hd : u8 <$> b ++ [d] = b ++ [d]).
  { rewrite fmap_app, Hb. f_equal. apply list_elem_of_lookup_2 in Ed. unfold digits in Ed.
    repeat (apply elem_of_cons in Ed as [->|Ed]; [done|]). by apply elem_of_nil in Ed. }
  destruct (_ =? 0); [by injection E as <-|by apply (IH _ _ E)].
Qed.

Lemma printnum_bytes w len num base sign l : Console.Console.printnum w len num base sign = Some l -> u8 <$> l = l.
Proof.
  unfold Console.Console.printnum. destruct (digit_loop _ _ _ _ _) as [b|] eqn:Ed; simpl; [|done]. intros [= <-].
  rewrite !fmap_app. f_equal; [by destruct (sign && _)|]. f_equal; [by destruct (base =? 16)|].
  change (fmap u8 (rev b)) with (map u8 (rev b)). rewrite map_rev. f_equal. by apply (digit_bytes _ _ _ _ _ _ Ed).
Qed.

(** A conversion that both functions know: not [%c], which [printf] skips
    without taking its argument, and not an unknown one, for which [printf]
    prints only the letter. *)
Fixpoint common (fmt : list Z) : bool :=
  match fmt with
  | [] => true
  | c :: fmt' =>
      if c =? 37 then
        match fmt' with [] => true | f :: rest => bool_decide (f ∈ [100; 117; 120; 112; 115; 37]) && common rest end
      else common fmt'
  end.

Abbreviation is_byte := (fun c : Z => 0 <= c < 256).
Definition bytes_arg (a : arg) : Prop := match a with AStr (Some l) => Forall is_byte l | _ => True end.

Lemma kprintf_plain c fmt args : c <> 37 -> kprintf_out (c :: fmt) args = (y ← kprintf_out fmt args; Some (Str.schar c :: y)).
Proof. intros Hc. destruct c as [|c|c]; try done. do 6 (destruct c as [c|c|]; try done). Qed.

(** What a conversion prints, before the rest of the format. *)
Lemma conversion_num w len num base sign rest args l (k : M stdio unit) :
  (x ← Console.Console.printnum w len num base sign; y ← kprintf_out rest args; Some (x ++ y)) = Some l ->
  (forall y, kprintf_out rest args = Some y -> prints k (u8 <$> y)) -> prints (printnum_w w len num base sign ;; k) (u8 <$> l).
Proof.
  destruct (Console.Console.printnum _ _ _ _ _) as [x|] eqn:Ex; simpl; [|done]. destruct (kprintf_out rest args) as [y|]; simpl; [|done].
  intros [= <-] Hk. rewrite fmap_app, (printnum_bytes _ _ _ _ _ _ Ex). apply prints_bind; [by apply prints_num|by apply Hk].
Qed.

Lemma conversion_ok f fmt args l : f ∈ [100; 117; 120; 112; 115; 37] -> Forall bytes_arg args ->
  (forall args l, Forall bytes_arg args -> kprintf_out fmt args = Some l -> prints (printf_loop fmt args) (u8 <$> l)) ->
  kprintf_out (37 :: f :: fmt) args = Some l -> prints (printf_loop (37 :: f :: fmt) args) (u8 <$> l).
Proof.
  intros Hin Ha Hrec. repeat (apply elem_of_cons in Hin as [->|Hin]); [..|by apply elem_of_nil in Hin]; simpl; intros E.
  1-4: destruct args as [|[m|] args]; try done; apply Forall_cons in Ha as [_ Ha]; simpl in *; eapply conversion_num; [exact E|]; intros y Ey; by apply Hrec.
  - destruct args as [|[|o] args]; try done. apply Forall_cons in Ha as [Hs Ha]. simpl in *. destruct (kprintf_out fmt args) as [y|] eqn:Ey; simpl in E; [|done].
    injection E as <-. rewrite fmap_app. apply prints_bind; [|by apply Hrec]. rewrite schars_bytes; [apply prints_each|].
    destruct o; simpl; [done|]. by repeat constructor.
  - destruct (kprintf_out fmt args) as [y|] eqn:Ey; simpl in E; [|done]. injection E as <-. simpl. apply prints_write. by apply Hrec.
Qed.

Lemma printf_loop_ok n fmt args l : (length fmt <= n)%nat -> common fmt = true -> Forall is_byte fmt -> Forall bytes_arg args ->
  kprintf_out fmt args = Some l -> prints (printf_loop fmt args) (u8 <$> l).
Proof.
  revert fmt args l. induction n as [|n IH]; intros [|c fmt] args l Hn Hc Hf Ha; simpl in Hn; try lia; try (intros [= <-]; apply prints_ret).
  apply Forall_cons in Hf as [Hcb Hf]. destruct (Z.eqb_spec c 37) as [->|Hne].
  - destruct fmt as [|f fmt]; [intros [= <-]; apply prints_ret|]. simpl in Hn. apply Forall_cons in Hf as [Hfb Hf].
    simpl in Hc. apply andb_prop in Hc as [Hin%bool_decide_eq_true_1 Hc].
    assert (Hrec : forall args l, Forall bytes_arg args -> kprintf_out fmt args = Some l -> prints (printf_loop fmt args) (u8 <$> l)).
    { intros args' l' Ha' E. by apply (IH fmt args' l'); [lia|..]. }
    by apply conversion_ok.
  - rewrite kprintf_plain by done. destruct (kprintf_out fmt args) as [y|] eqn:E; [|done]. intros [= <-].
    simpl in *. rewrite (proj2 (Z.eqb_neq c 37)) in * by done. rewrite schar_byte by done. apply prints_write. apply (IH fmt args y); try done. lia.
Qed.

(** C37. For a format of the conversions they share, [printf] of the user
    library writes byte for byte what [kprintf] of the kernel prints, with one
    [write] per character and without leaving its digit buffers. *)
Theorem printf_as_kprintf fmt args l s : common fmt = true -> Forall is_byte fmt -> Forall bytes_arg args ->
  kprintf_out fmt args = Some l -> printf (Some fmt) args s = Ret tt (mkStdio (input s) (output s ++ (u8 <$> l))).
Proof. intros Hc Hf Ha E. by apply (printf_loop_ok (length fmt) fmt args l). Qed.

(** ["a%d %s"] of -7 and NULL is ["a-7 (null)"]. *)
Lemma printf_as_kprintf_witness :
  printf (Some [97; 37; 100; 32; 37; 115]) [ANum (-7); AStr None] (mkStdio [] []) =
    Ret tt (mkStdio [] [97; 45; 55; 32; 40; 110; 117; 108; 108; 41]).
Proof.
  rewrite (printf_as_kprintf [97; 37; 100; 32; 37; 115] [ANum (-7); AStr None] [97; 45; 55; 32; 40; 110; 117; 108; 108; 41] (mkStdio [] [])).
  - reflexivity.
  - reflexivity.
  - repeat constructor; lia.
  - repeat constructor.
  - vm_compute. reflexivity.
Defined.

(** [%c] prints nothing and leaves its argument to the next conversion. *)
Lemma printf_char_shifts : printf (Some [37; 99; 37; 100]) [ANum 65; ANum 5] (mkStdio [] []) = Ret tt (mkStdio [] [54; 53]).
Proof. vm_compute. reflexivity. Qed.

(** [gets] of a buffer of no bytes writes one. *)
Lemma gets_empty_buffer : exists s, gets [] 0 (mkStdio [] []) = Halt Fault s.
Proof. eexists. vm_compute. reflexivity. Qed.

(** A line of three bytes with a buffer for four. *)
Lemma gets_line : gets [9; 9; 9; 9] 4 (mkStdio [Some 97; Some 10; Some 98] []) = Ret [97; 10; 0; 9] (mkStdio [Some 98] []).
Proof. exact (proj1 (gets_ok [9; 9; 9; 9] 4 (mkStdio [Some 97; Some 10; Some 98] []) ltac:(simpl; lia))). Qed.

End Stdio.
