(* ===== verification/Boot.v ===== *)
(** * Booting: x86_64/kernel/mp.c, x86_64/kernel/lapic.c, x86_64/boot/bootmain.c

    Module [Mp]: the search for the configuration tables of the machine and
    their parsing, which gives the processors and the interrupt controllers.
    Module [Lapic]: the registers of the local interrupt controller and the
    start of the other processors.  Module [Bootmain]: the boot loader, which
    reads the kernel from the disk.  The contents of physical memory, the
    device registers and the disk are parameters. *)

From S2P Require Import Prelude Page Alloc.
Import Page.
#[local] Open Scope kernel_scope.

Module Mp.

Definition MAX_NCPU : Z := 32.
Definition MP_SIGNATURE : list Z := [95; 77; 80; 95].        (* "_MP_" *)
Definition MPCONFIG_SIGNATURE : list Z := [80; 67; 77; 80].  (* "PCMP" *)
Definition MP_TYPE_PROC : Z := 0.
Definition MP_TYPE_BUS : Z := 1.
Definition MP_TYPE_IOAPIC : Z := 2.
Definition MP_TYPE_IOINT : Z := 3.
Definition MP_TYPE_LINT : Z := 4.
Definition IMCR_BIT : Z := 128.
Definition sizeof_mp : Z := 16.
Definition sizeof_mpconfig : Z := 44.
Definition sizeof_mp_proc : Z := 20.
Definition sizeof_mp_ioapic : Z := 8.
Definition sizeof_mp_bus : Z := 8.
Definition sizeof_mp_ioint : Z := 8.
Definition sizeof_mp_lint : Z := 8.

(** [KMAP_IO2V] *)
Definition kmap_io2v (paddr : Z) : Z := u64 (paddr + 18446744069414584320). (* 0xFFFFFFFF00000000 *)

(** The static variables, the local identifiers of [x86_64_cpus], and the
    bytes written to ports. *)
Record mp_state := mkMp { lapic : Z; ioapic_id : Z; ncpu : Z; x86_64_cpus : list Z; ports : list (Z * Z) }.

Section model.
(** The bytes of physical memory, which the kernel reads through [KMAP_P2V],
    and what a port reads. *)
Context (mem : Z -> Z) (inb : Z -> Z).

Definition word16 (a : Z) : Z := mem a + 256 * mem (a + 1).
Definition word32 (a : Z) : Z := word16 a + 65536 * word16 (a + 2).
Definition outb (p v : Z) : M mp_state unit := modify (fun s => mkMp (lapic s) (ioapic_id s) (ncpu s) (x86_64_cpus s) (ports s ++ [(p, v)])).

(** [memcmp(a, sig, strlen(sig)) == 0] *)
Fixpoint matches (a : Z) (sig : list Z) : bool :=
  match sig with [] => true | c :: q => (mem a =? c) && matches (a + 1) q end.

(** [sum] and [i] are 8 bits wide. *)
Fixpoint checksum_loop {S} (fuel : nat) (addr len sum i : Z) : M S Z :=
  match fuel with
  | O => stop Fuel
  | Datatypes.S fuel' => if i <? len then checksum_loop fuel' addr len (u8 (sum + mem (addr + i))) (u8 (i + 1)) else ret sum
  end.
Definition checksum {S} (addr len : Z) : M S Z := checksum_loop 256 addr len 0 0.

(** 0 is NULL. *)
Fixpoint search_loop {S} (fuel : nat) (ptr eptr : Z) : M S Z :=
  match fuel with
  | O => stop Fuel
  | Datatypes.S fuel' =>
      if ptr + sizeof_mp <? eptr then
        if matches ptr MP_SIGNATURE then
          c <- checksum ptr sizeof_mp ;;
          if c =? 0 then ret ptr else search_loop fuel' (ptr + sizeof_mp) eptr
        else search_loop fuel' (ptr + sizeof_mp) eptr
      else ret 0
  end.
Definition _mp_search {S} (paddr len : Z) : M S Z := search_loop (Z.to_nat (len `div` sizeof_mp) + 1) paddr (paddr + len).

Definition mp_search {S} : M S Z :=
  let paddr := Z.shiftl (word16 1038) 4 in (* 0x040E *)
  mp <- (if negb (paddr =? 0) then _mp_search paddr 1024
         else _mp_search (u64 ((word16 1043 - 1) * 1024)) 1024) ;; (* 0x0413 *)
  if negb (mp =? 0) then ret mp else _mp_search 983040 65536. (* 0xF0000 *)

Definition set_cpu (id : Z) : M mp_state unit :=
  modify (fun s => if ncpu s <? MAX_NCPU
                   then mkMp (lapic s) (ioapic_id s) (ncpu s + 1) (<[Z.to_nat (ncpu s) := id]> (x86_64_cpus s)) (ports s) else s).
Definition set_ioapic (id : Z) : M mp_state unit :=
  modify (fun s => mkMp (lapic s) id (ncpu s) (x86_64_cpus s) (ports s)).
Definition set_lapic (a : Z) : M mp_state unit :=
  modify (fun s => mkMp a (ioapic_id s) (ncpu s) (x86_64_cpus s) (ports s)).

(** The loop over the entries of the table. *)
Fixpoint entries_loop (n : nat) (ptr : Z) : M mp_state unit :=
  match n with
  | O => ret tt
  | S n' =>
      let t := mem ptr in
      if t =? MP_TYPE_PROC then set_cpu (mem (ptr + 1)) ;; entries_loop n' (ptr + sizeof_mp_proc)
      else if t =? MP_TYPE_IOAPIC then set_ioapic (mem (ptr + 1)) ;; entries_loop n' (ptr + sizeof_mp_ioapic)
      else if t =? MP_TYPE_BUS then entries_loop n' (ptr + sizeof_mp_bus)
      else if t =? MP_TYPE_IOINT then entries_loop n' (ptr + sizeof_mp_ioint)
      else if t =? MP_TYPE_LINT then entries_loop n' (ptr + sizeof_mp_lint)
      else stop Panic
  end.

Definition spec_rev_ok (r : Z) : bool := (r =? 1) || (r =? 4).

Definition process_mpconfig (config : Z) : M mp_state unit :=
  bad <- (if matches config MPCONFIG_SIGNATURE then
            c <- checksum config (word16 (config + 4)) ;; ret (negb (c =? 0) || negb (spec_rev_ok (mem (config + 6))))
          else ret true) ;;
  if (bad : bool) then stop Panic
  else
    set_lapic (kmap_io2v (word32 (config + 36))) ;;
    entries_loop (Z.to_nat (word16 (config + 34))) (config + sizeof_mpconfig).

Definition mp_init : M mp_state unit :=
  mp <- mp_search ;;
  if mp =? 0 then stop Panic
  else if negb (spec_rev_ok (mem (mp + 9))) then stop Panic
  else if negb (mem (mp + 11) =? 0) then stop Panic
  else if word32 (mp + 4) =? 0 then stop Panic
  else
    process_mpconfig (word32 (mp + 4)) ;;
    if negb (Z.land (mem (mp + 12)) IMCR_BIT =? 0) then
      outb 34 112 ;; outb 35 (Z.lor (inb 35) 1)
    else ret tt.

(** ** Checksums *)

Fixpoint sum_bytes (a : Z) (n : nat) : Z := match n with O => 0 | S n' => mem a + sum_bytes (a + 1) n' end.

Lemma checksum_loop_ok {S} n fuel addr len sum i (s : S) : len = i + Z.of_nat n -> 0 <= i -> len < 256 -> (n < fuel)%nat ->
  checksum_loop fuel addr len (u8 sum) i s = Ret (u8 (sum + sum_bytes (addr + i) n)) s.
Proof.
  revert fuel sum i. induction n as [|n IH]; intros fuel sum i Hl Hi H256 Hf; (destruct fuel as [|fuel]; [lia|]); simpl.
  - rewrite (proj2 (Z.ltb_ge i len)) by lia. by rewrite Z.add_0_r.
  - rewrite (proj2 (Z.ltb_lt i len)) by lia. rewrite (wrap_small 8 (i + 1)) by (simpl; lia). rewrite wrap_add_l, IH by lia.
    replace (addr + i + 1) with (addr + (i + 1)) by lia. by rewrite <- (Z.add_assoc sum).
Qed.

Lemma checksum_ok {S} addr len (s : S) : 0 <= len < 256 -> checksum addr len s = Ret (u8 (sum_bytes addr (Z.to_nat len))) s.
Proof.
  intros Hl. pose proof (checksum_loop_ok (Z.to_nat len) 256 addr len 0 0 s ltac:(lia) ltac:(lia) ltac:(lia) ltac:(lia)) as E.
  rewrite Z.add_0_r in E. exact E.
Qed.

(** The counter of [checksum] is a byte: for 256 bytes and more the loop does
    not end, whatever the memory holds. *)
Lemma checksum_hangs {S} fuel addr len sum i (s : S) : 256 <= len -> 0 <= i < 256 -> checksum_loop fuel addr len sum i s = Halt Fuel s.
Proof.
  intros Hl. revert sum i. induction fuel as [|fuel IH]; intros sum i Hi; simpl; [done|].
  rewrite (proj2 (Z.ltb_lt i len)) by lia. apply IH. apply (wrap_range 8). lia.
Qed.

(** ** The search *)

(** A place with the signature and the right checksum. *)
Definition valid (p : Z) : bool := matches p MP_SIGNATURE && (u8 (sum_bytes p 16) =? 0).

(** The places that are looked at: the last one of the range is not. *)
Definition places (a len : Z) : list Z := (fun k => a + sizeof_mp * Z.of_nat k) <$> seq 0 (Z.to_nat ((len - 1) `div` sizeof_mp)).

Definition first_valid (l : list Z) : Z := default 0 (head (filter (fun p => valid p = true) l)).

Lemma mp_search_loop_ok {S} n fuel p (s : S) : (n < fuel)%nat ->
  search_loop fuel p (p + sizeof_mp * Z.of_nat n + sizeof_mp) s =
    Ret (first_valid ((fun k => p + sizeof_mp * Z.of_nat k) <$> seq 0 n)) s.
Proof.
  revert fuel p. induction n as [|n IH]; intros fuel p Hf; (destruct fuel as [|fuel]; [lia|]); unfold sizeof_mp in *; cbn [search_loop seq fmap list_fmap]; unfold sizeof_mp.
  - by rewrite (proj2 (Z.ltb_ge _ _)) by lia.
  - rewrite (proj2 (Z.ltb_lt _ _)) by lia.
    assert (E : search_loop fuel (p + 16) (p + 16 * Z.of_nat (Datatypes.S n) + 16) s =
                Ret (first_valid ((fun k => p + 16 * Z.of_nat k) <$> seq 1 n)) s).
    { replace (p + 16 * Z.of_nat (Datatypes.S n) + 16) with (p + 16 + 16 * Z.of_nat n + 16) by lia. rewrite IH by lia.
      do 2 f_equal. rewrite <- fmap_S_seq, <- list_fmap_compose. apply list_fmap_ext. intros k x _. simpl. lia. }
    assert (Hv : first_valid ((p + 0) :: ((fun k => p + 16 * Z.of_nat k) <$> seq 1 n)) =
                 if valid p then p else first_valid ((fun k => p + 16 * Z.of_nat k) <$> seq 1 n)).
    { unfold first_valid. rewrite Z.add_0_r. destruct (valid p) eqn:Ev; [by rewrite filter_cons_True|]. rewrite filter_cons_False; [done|by rewrite Ev]. }
    change (16 * Z.of_nat 0) with 0. rewrite Hv. unfold valid.
    destruct (matches p MP_SIGNATURE); cbn [andb]; [|exact E].
    rewrite (bind_Ret _ _ _ _ _ (checksum_ok p 16 s ltac:(lia))). change (Z.to_nat 16) with 16%nat.
    destruct (u8 (sum_bytes p 16) =? 0); [done|exact E].
Qed.

Lemma mp_search_range_ok {S} a len (s : S) : 0 < len -> (sizeof_mp | len) -> _mp_search a len s = Ret (first_valid (places a len)) s.
Proof.
  intros Hl [q ->]. unfold _mp_search, places, sizeof_mp in *. rewrite Z.div_mul by lia.
  replace ((q * 16 - 1) `div` 16) with (q - 1) by (apply (Z.div_unique _ _ _ 15); lia).
  replace (a + q * 16) with (a + sizeof_mp * Z.of_nat (Z.to_nat (q - 1)) + sizeof_mp) by (unfold sizeof_mp; lia).
  apply mp_search_loop_ok. lia.
Qed.

(** The order of the search: the extended area of the firmware, or the end of
    the base memory when there is none, and then the read-only memory. *)
Definition search_spec : Z :=
  let area := if word16 1038 =? 0 then (word16 1043 - 1) * 1024 else word16 1038 * 16 in
  let p := first_valid (places area 1024) in
  if p =? 0 then first_valid (places 983040 65536) else p.

Lemma mp_search_ok {S} (s : S) : 0 <= word16 1038 -> 0 < word16 1043 < 65536 -> mp_search s = Ret search_spec s.
Proof.
  intros H1 H2. unfold mp_search, search_spec. rewrite Z.shiftl_mul_pow2 by lia. change (2 ^ 4) with 16.
  rewrite (wrap_small 64) by lia. destruct (Z.eqb_spec (word16 1038) 0) as [->|Hnz].
  - change (0 * 16 =? 0) with true. cbn [negb]. rewrite (bind_Ret _ _ _ _ _ (mp_search_range_ok _ 1024 s ltac:(lia) ltac:(by exists 64))). destruct (_ =? 0); [|done].
    by apply mp_search_range_ok; [lia|exists 4096].
  - rewrite (proj2 (Z.eqb_neq (word16 1038 * 16) 0)) by lia. cbn [negb].
    rewrite (bind_Ret _ _ _ _ _ (mp_search_range_ok _ 1024 s ltac:(lia) ltac:(by exists 64))). destruct (_ =? 0); [|done].
    by apply mp_search_range_ok; [lia|exists 4096].
Qed.

(** ** The table *)

(** The entries of a configuration table; [rest] are the bytes that the kernel
    does not look at. *)
Inductive entry :=
| Processor (id : Z) (rest : list Z)
| Controller (id : Z) (rest : list Z)
| Other (t : Z) (rest : list Z).

Definition entry_ok (e : entry) : Prop :=
  match e with
  | Processor _ rest => length rest = 18%nat
  | Controller _ rest => length rest = 6%nat
  | Other t rest => t ∈ [MP_TYPE_BUS; MP_TYPE_IOINT; MP_TYPE_LINT] /\ length rest = 7%nat
  end.

Definition encode (e : entry) : list Z :=
  match e with
  | Processor id rest => [MP_TYPE_PROC; id] ++ rest
  | Controller id rest => [MP_TYPE_IOAPIC; id] ++ rest
  | Other t rest => t :: rest
  end.

Definition processors (es : list entry) : list Z := omap (fun e => match e with Processor id _ => Some id | _ => None end) es.
Definition controllers (es : list entry) : list Z := omap (fun e => match e with Controller id _ => Some id | _ => None end) es.

(** The bytes [l] are in memory at [a]. *)
Fixpoint holds (a : Z) (l : list Z) : Prop := match l with [] => True | c :: q => mem a = c /\ holds (a + 1) q end.

Lemma holds_app a l1 l2 : holds a (l1 ++ l2) <-> holds a l1 /\ holds (a + Z.of_nat (length l1)) l2.
Proof.
  revert a. induction l1 as [|c l1 IH]; intros a; cbn [holds app length]; [rewrite Z.add_0_r; tauto|].
  rewrite IH. replace (a + 1 + Z.of_nat (length l1)) with (a + Z.of_nat (Datatypes.S (length l1))) by lia. tauto.
Qed.

Lemma holds_matches a l : holds a l -> matches a l = true.
Proof. revert a. induction l as [|c l IH]; intros a; simpl; [done|]. intros [-> Hl]. rewrite Z.eqb_refl. by apply IH. Qed.

(** The first 32 processors get their places. *)
Definition with_table (es : list entry) (s : mp_state) : mp_state :=
  let n := Z.to_nat (ncpu s) in let ids := processors es in
  mkMp (lapic s) (default (ioapic_id s) (last (controllers es))) (Z.min MAX_NCPU (ncpu s + Z.of_nat (length ids)))
    (take n (x86_64_cpus s) ++ take (32 - n) ids ++ drop (n + length ids) (x86_64_cpus s)) (ports s).

Definition cpus_ok (s : mp_state) : Prop := 0 <= ncpu s <= MAX_NCPU /\ length (x86_64_cpus s) = 32%nat.

Lemma with_table_cpu id rest es s : cpus_ok s ->
  let s1 := if ncpu s <? MAX_NCPU
            then mkMp (lapic s) (ioapic_id s) (ncpu s + 1) (<[Z.to_nat (ncpu s) := id]> (x86_64_cpus s)) (ports s) else s in
  cpus_ok s1 /\ with_table es s1 = with_table (Processor id rest :: es) s.
Proof.
  intros [Hn Hl]. cbv zeta. unfold cpus_ok, MAX_NCPU, with_table in *. destruct (Z.ltb_spec (ncpu s) 32) as [Hlt|Hge]; cbn [ncpu x86_64_cpus lapic ioapic_id ports].
  - split; [rewrite length_insert; lia|]. change (processors (Processor id rest :: es)) with (id :: processors es).
    change (controllers (Processor id rest :: es)) with (controllers es).
    replace (Z.to_nat (ncpu s + 1)) with (Datatypes.S (Z.to_nat (ncpu s))) by lia. set (n := Z.to_nat (ncpu s)).
    f_equal; [simpl length; unfold MAX_NCPU; lia|]. rewrite (take_S_r _ _ id) by (apply list_lookup_insert_eq; lia). rewrite take_insert_ge by lia.
    replace (32 - n)%nat with (Datatypes.S (32 - Datatypes.S n)) by lia. simpl. rewrite <- app_assoc. simpl. do 3 f_equal.
    rewrite drop_insert_lt by lia. f_equal. lia.
  - split; [done|]. change (processors (Processor id rest :: es)) with (id :: processors es). change (controllers (Processor id rest :: es)) with (controllers es).
    assert (ncpu s = 32) as -> by lia. f_equal; [simpl length; unfold MAX_NCPU; lia|]. change (Z.to_nat 32) with 32%nat.
    rewrite Nat.sub_diag, !take_0, (drop_ge _ (32 + length (processors es))), (drop_ge _ (32 + length (id :: processors es))) by (simpl length; lia). done.
Qed.

Lemma entries_loop_ok es a s : cpus_ok s -> Forall entry_ok es -> holds a (mjoin (encode <$> es)) ->
  entries_loop (length es) a s = Ret tt (with_table es s).
Proof.
  intros Hs Hes. revert a s Hs. induction Hes as [|e es He Hes IH]; intros a s Hs Hm.
  - simpl. unfold ret. f_equal. destruct s. destruct Hs as [Hn Hl]. unfold with_table, MAX_NCPU in *. cbn in *. f_equal; [lia|].
    rewrite Nat.add_0_r. destruct (32 - _)%nat; cbn [take app]; by rewrite take_drop.
  - rewrite fmap_cons in Hm. cbn [mjoin list_join] in Hm. apply holds_app in Hm as [He1 Hes1]. cbn [length entries_loop].
    destruct e as [id rest|id rest|t rest]; cbn [encode entry_ok app holds length] in *.
    + destruct He1 as (-> & -> & _). rewrite He in Hes1. change (MP_TYPE_PROC =? MP_TYPE_PROC) with true. cbn iota.
      unfold set_cpu. rewrite bind_modify. destruct (with_table_cpu id rest es s Hs) as [Hs1 <-]. by apply IH.
    + destruct He1 as (-> & -> & _). rewrite He in Hes1. change (MP_TYPE_IOAPIC =? MP_TYPE_PROC) with false. change (MP_TYPE_IOAPIC =? MP_TYPE_IOAPIC) with true. cbn iota.
      unfold set_ioapic. rewrite bind_modify, IH by done. unfold with_table. cbn [ncpu lapic ioapic_id x86_64_cpus ports].
      change (processors (Controller id rest :: es)) with (processors es). change (controllers (Controller id rest :: es)) with (id :: controllers es). rewrite last_cons. by destruct (last (controllers es)).
    + destruct He1 as (-> & _). destruct He as [Ht He]. rewrite He in Hes1. 
      assert (E : with_table (Other t rest :: es) s = with_table es s) by done. rewrite E.
      repeat (apply elem_of_cons in Ht as [->|Ht]; [cbn; by apply IH|]). by apply elem_of_nil in Ht.
Qed.

(** A machine whose firmware describes it by the entries [es], in a table at
    [c] that the structure at [p] points to. *)
Record machine (p c : Z) (es : list entry) : Prop := {
  m_areas : 0 <= word16 1038 /\ 0 < word16 1043 < 65536;
  m_found : search_spec = p /\ p <> 0;
  m_mp : spec_rev_ok (mem (p + 9)) = true /\ mem (p + 11) = 0 /\ word32 (p + 4) = c /\ c <> 0;
  m_config : holds c MPCONFIG_SIGNATURE /\ 0 <= word16 (c + 4) < 256 /\ u8 (sum_bytes c (Z.to_nat (word16 (c + 4)))) = 0 /\
    spec_rev_ok (mem (c + 6)) = true;
  m_entries : word16 (c + 34) = Z.of_nat (length es) /\ Forall entry_ok es /\ holds (c + sizeof_mpconfig) (mjoin (encode <$> es)) }.

Definition at_lapic (a : Z) (s : mp_state) : mp_state := mkMp a (ioapic_id s) (ncpu s) (x86_64_cpus s) (ports s).

Lemma process_mpconfig_ok p c es s : machine p c es -> cpus_ok s ->
  process_mpconfig c s = Ret tt (with_table es (at_lapic (kmap_io2v (word32 (c + 36))) s)).
Proof.
  intros [_ _ _ (Hsig & Hlen & Hsum & Hrev) (Hn & Hes & Hm)] Hs. unfold process_mpconfig. rewrite (holds_matches c _ Hsig).
  rewrite bind_assoc, (bind_Ret _ _ _ _ _ (checksum_ok c _ s Hlen)), bind_ret, Hsum, Hrev. simpl (negb _ || _). cbn iota.
  unfold set_lapic. rewrite bind_modify, Hn, Nat2Z.id. by apply entries_loop_ok.
Qed.


End model.

(** ** A machine with two processors *)

Definition ex_entries : list entry :=
  [Processor 0 (replicate 18 0); Controller 5 (replicate 6 0); Other 1 (replicate 7 0); Processor 3 (replicate 18 0)].
Definition ex_mp : list Z := MP_SIGNATURE ++ [0; 16; 0; 0] ++ [1; 4; 16; 0; 128; 0; 0; 0].
Definition ex_config : list Z :=
  MPCONFIG_SIGNATURE ++ [100; 0; 4; 123] ++ replicate 20 0 ++ [0; 0; 0; 0; 0; 0; 4; 0; 0; 0; 224; 254; 0; 0; 0; 0] ++
  mjoin (encode <$> ex_entries).
Definition ex_mem (a : Z) : Z :=
  if a =? 1044 then 2 (* 512 kilobytes of base memory *)
  else if (983040 <=? a) && (a <? 983056) then default 0 (ex_mp !! Z.to_nat (a - 983040))
  else if (4096 <=? a) && (a <? 4196) then default 0 (ex_config !! Z.to_nat (a - 4096))
  else 0.
Definition ex_state : mp_state := mkMp 0 0 0 (replicate 32 0) [].

Lemma ex_machine : machine ex_mem 983040 4096 ex_entries.
Proof.
  split.
  - vm_compute; split_and!; done.
  - split; [vm_compute; reflexivity|done].
  - vm_compute; split_and!; done.
  - split_and!; try (vm_compute; done). 
  - split; [vm_compute; reflexivity|]. split; [repeat constructor; set_solver|vm_compute; split_and!; done].
Qed.


(** A structure in the last 16 bytes of an area is not looked at. *)
Definition ex_last (a : Z) : Z :=
  if a =? 1044 then 2 else if (1048560 <=? a) && (a <? 1048576) then default 0 (ex_mp !! Z.to_nat (a - 1048560)) else 0.

Lemma mp_last_missed : valid ex_last 1048560 = true /\ exists s, mp_init ex_last (fun _ => 0) ex_state = Halt Panic s.
Proof. split; [vm_compute; reflexivity|]. eexists. vm_compute. reflexivity. Qed.

End Mp.

Module Lapic.

(** Registers, as indices of 32-bit words. *)
Definition REG_ID : Z := 8.
Definition REG_VER : Z := 12.
Definition REG_TPR : Z := 32.
Definition REG_EOI : Z := 44.
Definition REG_SVR : Z := 60.
Definition REG_ESR : Z := 160.
Definition REG_ICR_LO : Z := 192.
Definition REG_ICR_HI : Z := 196.
Definition REG_TIMER : Z := 200.
Definition REG_THERMAL : Z := 204.
Definition REG_PMC : Z := 208.
Definition REG_LINT0 : Z := 212.
Definition REG_LINT1 : Z := 216.
Definition REG_ERROR : Z := 220.
Definition REG_ICR : Z := 224.
Definition REG_DCR : Z := 248.
Definition LAPIC_EN : Z := 256.
Definition PERIODIC : Z := 131072.
Definition DIV_1 : Z := 11.
Definition TIMER_INTVL : Z := 10000000.
Definition MASK : Z := 65536.
Definition IPI_INIT : Z := 1280.
Definition IPI_STARTUP : Z := 1536.
Definition IPI_ASSERT : Z := 16384.
Definition IPI_LEVEL : Z := 32768.
Definition IPI_BCAST : Z := 524288.
Definition T_IRQ_TIMER : Z := 32.
Definition T_IRQ_ERROR : Z := 51.
Definition T_IRQ_SPURIOUS : Z := 63.
Definition CMOS_PORT : Z := 112.

(** What the kernel sends to the controller, to ports, and to the warm reset
    vector. *)
Record lstate := mkL { writes : list (Z * Z); lports : list (Z * Z); wrv : Z * Z }.

Section model.
(** The identifier and version registers; whether an interrupt that was sent is
    delivered in time ([lapic[REG_ICR_LO] & IPI_DELIVER] becomes 0). *)
Context (id_reg ver_reg : Z) (delivers : bool).

Definition lapic_reg_write (reg v : Z) : M lstate unit := modify (fun s => mkL (writes s ++ [(reg, v)]) (lports s) (wrv s)).
Definition loutb (p v : Z) : M lstate unit := modify (fun s => mkL (writes s) (lports s ++ [(p, v)]) (wrv s)).
Definition set_wrv (a b : Z) : M lstate unit := modify (fun s => mkL (writes s) (lports s) (a, b)).
Definition version : Z := Z.land (Z.shiftr ver_reg 16) 255.

Definition lapic_init : M lstate unit :=
  lapic_reg_write REG_SVR (Z.lor LAPIC_EN T_IRQ_SPURIOUS) ;;
  lapic_reg_write REG_LINT0 MASK ;;
  lapic_reg_write REG_LINT1 MASK ;;
  (if 4 <=? version then lapic_reg_write REG_PMC MASK else ret tt) ;;
  (if 5 <=? version then lapic_reg_write REG_THERMAL MASK else ret tt) ;;
  lapic_reg_write REG_DCR DIV_1 ;;
  lapic_reg_write REG_ICR TIMER_INTVL ;;
  lapic_reg_write REG_TIMER (Z.lor PERIODIC T_IRQ_TIMER) ;;
  lapic_reg_write REG_ERROR T_IRQ_ERROR ;;
  lapic_reg_write REG_EOI 0 ;;
  (if version <=? 4 then
     lapic_reg_write REG_ICR_LO (Z.lor (Z.lor IPI_INIT IPI_LEVEL) IPI_BCAST) ;;
     (if delivers then ret tt else stop Block)
   else ret tt) ;;
  lapic_reg_write REG_ESR 0 ;;
  lapic_reg_write REG_ESR 0 ;;
  lapic_reg_write REG_TPR 0.

(** The loop that sends the start interrupt.  The delay inside it counts with
    the same variable, up to 100000. *)
Fixpoint startup_loop (fuel : nat) (i apicid addr : Z) : M lstate unit :=
  match fuel with
  | O => stop Fuel
  | S fuel' =>
      if i <? 2 then
        lapic_reg_write REG_ICR_HI (u32 (Z.shiftl apicid 24)) ;;
        lapic_reg_write REG_ICR_LO (u32 (Z.lor IPI_STARTUP (Z.shiftr addr 12))) ;;
        startup_loop fuel' (100000 + 1) apicid addr
      else ret tt
  end.

Definition lapic_start_ap (apicid addr : Z) : M lstate unit :=
  loutb CMOS_PORT 15 ;;
  loutb (CMOS_PORT + 1) 10 ;;
  set_wrv 0 (wrap 16 (Z.shiftr addr 4)) ;;
  lapic_reg_write REG_ICR_HI (u32 (Z.shiftl apicid 24)) ;;
  lapic_reg_write REG_ICR_LO (Z.lor (Z.lor IPI_INIT IPI_LEVEL) IPI_ASSERT) ;;
  lapic_reg_write REG_ICR_LO (Z.lor IPI_INIT IPI_LEVEL) ;;
  startup_loop 3 0 apicid addr.

Definition lapic_read_id : Z := u8 (Z.shiftr id_reg 24).
Definition lapic_eoi : M lstate unit := lapic_reg_write REG_EOI 0.

(** The start interrupt is sent once: after the delay the counter is past 2. *)
Lemma lapic_start_ap_once apicid addr s : exists l, lapic_start_ap apicid addr s = Ret tt l /\
  writes l = writes s ++ [(REG_ICR_HI, u32 (Z.shiftl apicid 24)); (REG_ICR_LO, 50432); (REG_ICR_LO, 34048);
    (REG_ICR_HI, u32 (Z.shiftl apicid 24)); (REG_ICR_LO, u32 (Z.lor IPI_STARTUP (Z.shiftr addr 12)))].
Proof. eexists. split; [reflexivity|]. cbn [writes]. by rewrite <- !app_assoc. Qed.

(** ** The other processors *)

Context {F : Type} `{!FrameAlloc F}.
(** The physical address of [kpml4_tmp], and whether a processor that was sent
    the start interrupt sets [started]. *)
Context (kpml4_tmp main_ap : Z) (comes_up : Z -> bool).

(** What [entry_ap] finds below its code at 0x7000 when a processor starts:
    page table, stack and entry point, with the identifier of the processor. *)
Record start_info := mkStart { si_cpu : Z; si_pml4 : Z; si_stack : Z; si_entry : Z }.
Record ap_state := mkAp { frames : F; lap : lstate; handed : list start_info }.

Definition start_one (id : Z) : M ap_state unit :=
  r <- zoom frames (fun f s => mkAp f (lap s) (handed s)) falloc ;;
  match r with
  | None => ret tt
  | Some stack =>
      modify (fun s => mkAp (frames s) (lap s) (handed s ++ [mkStart id (u32 kpml4_tmp) (KMAP_P2V (stack + 4096)) main_ap])) ;;
      zoom lap (fun l s => mkAp (frames s) l (handed s)) (lapic_start_ap id 28672) ;; (* 0x7000 *)
      if comes_up id then ret tt else stop Block
  end.

(** The loop of [mp_start_ap] over [x86_64_cpus] from the index [i] on; [me] is
    the index of the processor that runs it. *)
Fixpoint start_loop (me i : nat) (ids : list Z) : M ap_state unit :=
  match ids with
  | [] => ret tt
  | id :: q => (if (i =? me)%nat then ret tt else start_one id) ;; start_loop me (S i) q
  end.

(** [mycpu] looks for the first processor with its identifier, and panics
    without one. *)
Definition mycpu (ids : list Z) : M ap_state nat :=
  r <- of_option Panic (list_find (fun id => id = lapic_read_id) ids) ;; ret (r.1).
Definition mp_start_ap (ids : list Z) : M ap_state unit :=
  match ids with [] => ret tt | _ => me <- mycpu ids ;; start_loop me 0 ids end.

(** The identifiers except the one at the index [me]. *)
Fixpoint others (me i : nat) (ids : list Z) : list Z :=
  match ids with [] => [] | id :: q => (if (i =? me)%nat then [] else [id]) ++ others me (S i) q end.

(** Every processor that is started has a stack of its own, and the ones that
    are started are the others, in their order, as far as there is memory. *)
Lemma start_loop_ok me i ids s : fok (frames s) -> (forall id, comes_up id = true) ->
  exists s' l, start_loop me i ids s = Ret tt s' /\ fok (frames s') /\ handed s' = handed s ++ l /\
    sublist (si_cpu <$> l) (others me i ids) /\
    (forall a, 0 < fref (frames s) a -> 0 < fref (frames s') a) /\
    exists stacks, (si_stack <$> l) = (fun a => KMAP_P2V (a + 4096)) <$> stacks /\ NoDup stacks /\
      Forall (fun a => fref (frames s) a = 0 /\ 0 < fref (frames s') a) stacks.
Proof.
  intros Hf Hup. revert i s Hf. induction ids as [|id ids IH]; intros i s Hf.
  { exists s, []. simpl. rewrite app_nil_r. split_and!; try done. exists []. split_and!; constructor. }
  cbn [start_loop others]. destruct (Nat.eqb_spec i me) as [->|Hne]; [rewrite bind_ret; by apply IH|]. cbn [app]. unfold start_one. rewrite bind_assoc. unfold bind at 1, zoom at 1.
  destruct (falloc_spec (frames s) Hf) as [(f & E & Hf1 & Hr)|(a & f & E & Hf1 & Ha0 & Ha1 & Hr)]; rewrite E.
  - unfold bind at 1, ret at 1. destruct (IH (S i) (mkAp f (lap s) (handed s)) Hf1) as (s' & l & E' & Hf' & Hh & Hsub & Hmono & stacks & Hst & Hnd & HF).
    exists s', l. split; [exact E'|]. split; [done|]. split; [done|]. split; [by constructor|]. simpl in Hmono.
    split; [intros b Hb; apply Hmono; by rewrite Hr|]. exists stacks. split; [done|]. split; [done|].
    eapply Forall_impl; [exact HF|]. simpl. intros b [Hb1 Hb2]. by rewrite <- Hr.
  - rewrite bind_assoc, bind_modify. set (x := mkStart _ _ _ _). cbn [frames lap handed].
    destruct (lapic_start_ap_once id 28672 (lap s)) as (lp & El & _). rewrite bind_assoc. unfold bind at 1, zoom at 1. cbn [lap]. rewrite El, Hup.
    unfold bind at 1, ret at 1. cbn [frames lap handed].
    destruct (IH (S i) (mkAp f lp (handed s ++ [x])) Hf1) as (s' & l & E' & Hf' & Hh & Hsub & Hmono & stacks & Hst & Hnd & HF). cbn [frames handed] in *.
    assert (Hle : forall b, fref (frames s) b <> 0 -> b <> a) by congruence.
    exists s', (x :: l). split; [exact E'|]. split; [done|]. split; [by rewrite Hh, <- app_assoc|]. split; [by constructor|].
    split; [intros b Hb; apply Hmono; rewrite Hr; [done|apply Hle; lia]|]. exists (a :: stacks). split; [exact (f_equal (cons _) Hst)|].
    rewrite Forall_forall in HF. split.
    + constructor; [|done]. intros Hin. destruct (HF a Hin). lia.
    + constructor; [split; [done|apply Hmono; lia]|]. apply Forall_forall. intros b Hb. destruct (HF b Hb) as [Hb1 Hb2].
      split; [|done]. destruct (decide (b = a)) as [->|Hba]; [done|]. by rewrite <- Hr.
Qed.

End model.
End Lapic.

Module Bootmain.

Definition SECT_SIZE : Z := 512.
Definition MULTIBOOT_HEADER_MAGIC : Z := 464367618. (* 0x1BADB002 *)
Definition ELF : Z := 65536. (* 0x10000 *)

Section model.
(** The bytes of the disk, and whether it becomes ready. *)
Context (disk : Z -> Z) (ready : bool).

(** The state is physical memory, by bytes; pointers are 32 bits wide. *)
Abbreviation memory := (Z -> Z) (only parsing).

Definition word (m : memory) (a : Z) : Z := m a + 256 * m (a + 1) + 65536 * m (a + 2) + 16777216 * m (a + 3).

Definition wait_disk : M memory unit := if ready then ret tt else stop Block.

(** The sector that the four address registers name. *)
Definition lba (o : Z) : Z :=
  u8 o + 256 * u8 (Z.shiftr o 8) + 65536 * u8 (Z.shiftr o 16) + 16777216 * Z.land (u8 (Z.lor (Z.shiftr o 24) 224)) 15.

Definition read_sect (dst offset : Z) : M memory unit :=
  wait_disk ;;
  wait_disk ;;
  modify (fun m a => if (dst <=? a) && (a <? dst + SECT_SIZE) then disk (SECT_SIZE * lba offset + (a - dst)) else m a).

Fixpoint seg_loop (fuel : nat) (paddr end_paddr offset : Z) : M memory unit :=
  match fuel with
  | O => stop Fuel
  | S fuel' =>
      if paddr <? end_paddr then
        read_sect paddr offset ;; seg_loop fuel' (u32 (paddr + SECT_SIZE)) end_paddr (u32 (offset + 1))
      else ret tt
  end.

Definition read_seg (paddr count offset : Z) : M memory unit :=
  seg_loop (Z.to_nat (count `div` SECT_SIZE) + 3) (u32 (paddr - offset `mod` SECT_SIZE)) (u32 (paddr + count)) (offset `div` SECT_SIZE + 1).

(** The search for the header among the words of the first page. *)
Fixpoint find_magic (k : nat) (n : Z) : M memory (option Z) :=
  match k with
  | O => ret None
  | S k' => w <- gets (fun m => word m (ELF + 4 * n)) ;; if w =? MULTIBOOT_HEADER_MAGIC then ret (Some (ELF + 4 * n)) else find_magic k' (n + 1)
  end.

Definition stosb (addr data cnt : Z) : M memory unit := modify (fun m a => if (addr <=? a) && (a <? addr + cnt) then data else m a).

(** The result is the address that is called, [None] when there is no header. *)
Definition bootmain : M memory (option Z) :=
  read_seg ELF 4196 0 ;;
  r <- find_magic (Z.to_nat (4196 `div` 4)) 0 ;;
  match r with
  | None => ret None
  | Some hdr =>
      load_addr <- gets (fun m => word m (hdr + 16)) ;;
      load_end_addr <- gets (fun m => word m (hdr + 20)) ;;
      header_addr <- gets (fun m => word m (hdr + 12)) ;;
      read_seg load_addr (u32 (load_end_addr - load_addr)) (u32 (u32 (hdr - ELF) - u32 (header_addr - load_addr))) ;;
      bss_end_addr <- gets (fun m => word m (hdr + 24)) ;;
      load_end_addr <- gets (fun m => word m (hdr + 20)) ;;
      (if load_end_addr <? bss_end_addr then stosb load_end_addr 0 (u32 (bss_end_addr - load_end_addr)) else ret tt) ;;
      entry <- gets (fun m => word m (hdr + 28)) ;;
      ret (Some entry)
  end.

(** ** Reading *)

Lemma lba_small o : 0 <= o < 2 ^ 24 -> lba o = o.
Proof.
  intros Ho. unfold lba. rewrite !Z.shiftr_div_pow2 by lia. rewrite (Z.div_small o (2 ^ 24)) by lia.
  change (Z.land (u8 (Z.lor 0 224)) 15) with 0. unfold wrap.
  change (2 ^ 8) with 256. change (2 ^ 16) with 65536.
  pose proof (Z.div_mod o 256 ltac:(lia)). pose proof (Z.div_mod (o `div` 256) 256 ltac:(lia)).
  rewrite Z.div_div in * by lia. change (256 * 256) with 65536 in *. rewrite (Z.mod_small (o `div` 65536)); [lia|].
  split; [apply Z.div_pos; lia|apply Z.div_lt_upper_bound; lia].
Qed.

Context (Hready : ready = true).

Lemma read_sect_ok dst o (m : memory) : 0 <= o < 2 ^ 24 ->
  exists m', read_sect dst o m = Ret tt m' /\
    forall a, m' a = if (dst <=? a) && (a <? dst + 512) then disk (512 * o + (a - dst)) else m a.
Proof. intros Ho. unfold read_sect, wait_disk. rewrite Hready, !bind_ret. eexists. split; [reflexivity|]. intros a. by rewrite lba_small. Qed.

(** [n] sectors from [o] on to [p]. *)
Lemma seg_loop_ok n fuel p e o (m : memory) : 0 <= p -> p + 512 * Z.of_nat n < 2 ^ 32 -> 0 <= o -> o + Z.of_nat n < 2 ^ 24 ->
  p + 512 * Z.of_nat n - 512 < e <= p + 512 * Z.of_nat n -> (n < fuel)%nat ->
  exists m', seg_loop fuel p e o m = Ret tt m' /\
    forall a, m' a = if (p <=? a) && (a <? p + 512 * Z.of_nat n) then disk (512 * o + (a - p)) else m a.
Proof.
  revert fuel p o m. induction n as [|n IH]; intros fuel p o m Hp Hpn Ho Hon He Hf; (destruct fuel as [|fuel]; [lia|]); cbn [seg_loop].
  - rewrite (proj2 (Z.ltb_ge p e)) by lia. exists m. split; [done|]. intros a. destruct (Z.leb_spec p a), (Z.ltb_spec a (p + 512 * Z.of_nat 0)); try done. lia.
  - rewrite (proj2 (Z.ltb_lt p e)) by lia. destruct (read_sect_ok p o m ltac:(lia)) as (m1 & E1 & H1). rewrite (bind_Ret _ _ _ _ _ E1).
    unfold SECT_SIZE. rewrite !(wrap_small 32) by lia.
    destruct (IH fuel (p + 512) (o + 1) m1) as (m' & E' & H'); [lia..|]. exists m'. split; [done|]. intros a. rewrite H', H1.
    destruct (Z.leb_spec (p + 512) a), (Z.ltb_spec a (p + 512 + 512 * Z.of_nat n)), (Z.leb_spec p a), (Z.ltb_spec a (p + 512)),
      (Z.ltb_spec a (p + 512 * Z.of_nat (S n))); cbn [andb]; try lia; try done. f_equal. lia.
Qed.

Lemma read_seg_ok p count off (m : memory) : 512 <= p -> 0 <= count -> p + count + 512 < 2 ^ 32 -> 0 <= off -> off + count < 2 ^ 32 ->
  exists m', read_seg p count off m = Ret tt m' /\
    (forall a, p <= a < p + count -> m' a = disk (512 + off + (a - p))) /\
    (forall a, a < p - 512 \/ p + count + 512 <= a -> m' a = m a).
Proof.
  intros Hp Hc Hpc Ho Hoc. unfold read_seg, SECT_SIZE. pose proof (Z.mod_pos_bound off 512 ltac:(lia)) as Hr. pose proof (Z.div_mod off 512 ltac:(lia)) as Hd.
  set (r := off `mod` 512) in *. set (q := off `div` 512) in *. rewrite !(wrap_small 32) by lia.
  set (n := (count + r + 511) `div` 512). pose proof (Z.div_mod (count + r + 511) 512 ltac:(lia)) as Hn. pose proof (Z.mod_pos_bound (count + r + 511) 512 ltac:(lia)). fold n in Hn.
  pose proof (Z.div_mod count 512 ltac:(lia)). pose proof (Z.mod_pos_bound count 512 ltac:(lia)).
  destruct (seg_loop_ok (Z.to_nat n) (Z.to_nat (count `div` 512) + 3) (p - r) (p + count) (q + 1) m) as (m' & E & H'); [lia..|].
  exists m'. split; [exact E|]. split; intros a Ha; rewrite H'.
  - rewrite (proj2 (Z.leb_le _ _)), (proj2 (Z.ltb_lt _ _)) by lia. cbn [andb]. f_equal. lia.
  - destruct (Z.leb_spec (p - r) a), (Z.ltb_spec a (p - r + 512 * Z.of_nat (Z.to_nat n))); try done. lia.
Qed.

Lemma find_magic_ok k n j (m : memory) : (j < k)%nat -> word m (ELF + 4 * (n + Z.of_nat j)) = MULTIBOOT_HEADER_MAGIC ->
  (forall i, 0 <= i < Z.of_nat j -> word m (ELF + 4 * (n + i)) <> MULTIBOOT_HEADER_MAGIC) ->
  find_magic k n m = Ret (Some (ELF + 4 * (n + Z.of_nat j))) m.
Proof.
  revert n j. induction k as [|k IH]; intros n j Hk Hw Hno; [lia|]. cbn [find_magic]. rewrite bind_gets. destruct j as [|j].
  - rewrite Z.add_0_r in *. by rewrite Hw, Z.eqb_refl.
  - pose proof (Hno 0 ltac:(lia)) as H0. rewrite Z.add_0_r in H0. rewrite (proj2 (Z.eqb_neq _ _) H0).
    replace (n + Z.of_nat (S j)) with (n + 1 + Z.of_nat j) in * by lia. apply IH; [lia|done|].
    intros i Hi. replace (n + 1 + i) with (n + (1 + i)) by lia. apply Hno. lia.
Qed.

(** The kernel file, from the second sector of the disk on. *)
Definition kernel_file (k : Z) : Z := disk (512 + k).

(** A file whose first header is at [h], with the addresses of the header, of
    the loaded part, of the end of the zeroed part, and of the entry. *)
Record image (h ha la le be en : Z) : Prop := {
  im_pos : 0 <= h /\ h `mod` 4 = 0 /\ h + 32 <= 4196;
  im_magic : word kernel_file h = MULTIBOOT_HEADER_MAGIC /\ forall i, 0 <= i < h `div` 4 -> word kernel_file (4 * i) <> MULTIBOOT_HEADER_MAGIC;
  im_fields : word kernel_file (h + 12) = ha /\ word kernel_file (h + 16) = la /\ word kernel_file (h + 20) = le /\ word kernel_file (h + 24) = be /\ word kernel_file (h + 28) = en;
  im_room : ELF + 4196 + 1024 <= la <= le /\ le + 512 < 2 ^ 32 /\ be < 2 ^ 32;
  im_offset : 0 <= ha - la <= h /\ h - (ha - la) + (le - la) < 2 ^ 32 }.

Lemma word_same (m m' : memory) a b : (forall k, 0 <= k < 4 -> m (a + k) = m' (b + k)) -> word m a = word m' b.
Proof.
  intros H. unfold word. pose proof (H 0 ltac:(lia)) as H0. rewrite !Z.add_0_r in H0. by rewrite H0, !H by lia.
Qed.

(** The boot loader loads the part of the file that the header names to its
    address, clears the memory after it, and jumps to the entry. *)
Theorem bootmain_loads h ha la le be en (m : memory) : image h ha la le be en ->
  exists m', bootmain m = Ret (Some en) m' /\
    (forall a, la <= a < le -> m' a = kernel_file (h - (ha - la) + (a - la))) /\
    (forall a, le <= a < be -> m' a = 0).
Proof.
  intros [(Hh0 & Hh4 & Hh) [Hmag Hno] (F1 & F2 & F3 & F4 & F5) (Hla & Hle & Hbe) [Hha Hoff]]. unfold bootmain.
  destruct (read_seg_ok ELF 4196 0 m) as (m1 & E1 & H1 & _); [unfold ELF; lia..|]. rewrite (bind_Ret _ _ _ _ _ E1).
  assert (W1 : forall x, 0 <= x -> x + 4 <= 4196 -> word m1 (ELF + x) = word kernel_file x).
  { intros x Hx Hx4. apply word_same. intros k Hk. rewrite H1 by lia. unfold kernel_file. f_equal. lia. }
  pose proof (Z.div_mod h 4 ltac:(lia)) as Hd.
  assert (E0 : find_magic (Z.to_nat (4196 `div` 4)) 0 m1 = Ret (Some (ELF + 4 * (0 + Z.of_nat (Z.to_nat (h `div` 4))))) m1).
  { change (Z.to_nat (4196 `div` 4)) with 1049%nat. apply find_magic_ok; [lia| |].
    - rewrite W1 by lia. replace (4 * (0 + Z.of_nat (Z.to_nat (h `div` 4)))) with h by lia. exact Hmag.
    - intros i Hi. rewrite W1 by lia. replace (0 + i) with i by lia. apply Hno. lia. }
  rewrite (bind_Ret _ _ _ _ _ E0).
  replace (ELF + 4 * (0 + Z.of_nat (Z.to_nat (h `div` 4)))) with (ELF + h) by lia.
  rewrite !bind_gets, <- !Z.add_assoc, !W1, F1, F2, F3 by lia. replace (ELF + h - ELF) with h by lia.
  rewrite (wrap_small 32 (le - la)), (wrap_small 32 h), (wrap_small 32 (ha - la)), (wrap_small 32 (h - (ha - la))) by (unfold ELF in *; lia).
  destruct (read_seg_ok la (le - la) (h - (ha - la)) m1) as (m2 & E2 & H2 & K2); [unfold ELF in *; lia..|]. rewrite (bind_Ret _ _ _ _ _ E2).
  assert (W2 : forall x, 0 <= x -> x + 4 <= 4196 -> word m2 (ELF + x) = word kernel_file x).
  { intros x Hx Hx4. rewrite <- W1 by done. apply word_same. intros k Hk. apply K2. unfold ELF in *. lia. }
  rewrite !bind_gets, !W2, F3, F4 by lia. destruct (Z.ltb_spec le be) as [Hlt|Hge].
  - rewrite (wrap_small 32) by (unfold ELF in *; lia). unfold stosb. rewrite bind_modify, bind_gets. eexists. split; [|split].
    + unfold ret. f_equal. f_equal. rewrite <- F5, <- W2 by lia. apply word_same. intros k Hk. cbv beta.
      by rewrite (proj2 (Z.leb_gt le _)) by (unfold ELF in *; lia).
    + intros a Ha. cbv beta. rewrite (proj2 (Z.leb_gt le a)) by lia. cbn [andb]. rewrite H2 by lia. unfold kernel_file. f_equal. lia.
    + intros a Ha. cbv beta. by rewrite (proj2 (Z.leb_le le a)), (proj2 (Z.ltb_lt a _)) by lia.
  - rewrite bind_ret, bind_gets, W2, F5 by lia. exists m2. split; [done|]. split; [|lia].
    intros a Ha. rewrite H2 by lia. unfold kernel_file. f_equal. lia.
Qed.

End model.
End Bootmain.
